(* ===== verification/_CoqProject ===== *)
-Q . S2P
Prelude.v
Strtol.v
PciText.v
Params.v
OfiMath.v
StateM.v
DLinks.v
Uthash.v
UthashInv.v
UthashMap.v
NetTypes.v
Idpool.v
Msgbuff.v
Allocator.v
Freelist.v
Scheduler.v
MrCache.v
Deque.v
OfiUtils.v
Net.v
Plugin.v
OfiRes.v
EpAddrList.v
EpAddrMem.v
Accel.v
Pthread.v
MrReg.v
Sendrecv.v
SendrecvInv.v
SendrecvConn.v
SendrecvEp.v
SendrecvPlugin.v
RdmaWire.v
RdmaState.v
RdmaPost.v
RdmaProgress.v
RdmaComm.v
RdmaConn.v
RdmaHandshake.v
RdmaClose.v
RdmaEp.v
RdmaDevice.v
Api.v
Topo.v
TopoCreate.v
TopoGroup.v
TopoWrite.v
TopoText.v
TopoFile.v
RdmaInit.v
Interface.v
PlatformSort.v
OfiSystem.v
AccelProbe.v
PlatformAws.v
TunerRegion.v
TunerModel.v
Tuner.v
