(* ===== verification/Prelude.v ===== *)
(** * Verification of aws-ofi-nccl

    The program is a network plug-in for NCCL over libfabric. NCCL calls the
    functions of src/nccl_ofi_api.c, which dispatch to one of two transports. The
    RDMA transport (src/nccl_ofi_rdma.c) is a protocol engine: sender and receiver
    exchange control messages, and the sender writes the message into the
    receiver's buffer in stripes over several rails (network interfaces). The
    send/receive transport (src/nccl_ofi_sendrecv.c) maps a message to one tagged
    operation. Both rest on free lists, an ID pool, a message buffer, a scheduler, a
    queue of postponed requests and a cache of memory registrations, and on the
    devices and endpoints of src/nccl_ofi_net.c. At start the plug-in reads its
    parameters, configures the platform (src/platform-aws.c) and groups the NICs by
    their place in the machine (src/nccl_ofi_topo.c). A second plug-in
    (src/tuner) chooses NCCL's algorithm and protocol.

    ** How the library models the code

    Every C function is one definition with the same name; a loop is a [Fixpoint]
    next to it. Machine integers are [Z] with the wrap-around of their type
    written out ([wrap], [u16], [u32], [u64], [i32]); floating-point numbers are
    those of the Standard Library's SpecFloat. Pointers are addresses in [Z],
    structures are records kept in finite maps by address. A definition answers
    [None] where the source has undefined behaviour (a NULL or stale pointer, an
    access outside an array), a failed assertion, a lock taken twice, or where fuel
    ends; so a theorem that a definition gives [Some] says that none of these
    happens. Error codes are ordinary results. A critical section under one of the
    plug-in's locks is one atomic step.

    Code outside the sources is not defined here. What libfabric, CUDA, hwloc,
    sysfs, POSIX threads and the C allocator answer is in the classes [RdmaEnv], [ConnEnv],
    [RegEnv], [SendrecvEnv], [OfiEnv], [ProvEnv], [SrEnv], [TopoEnv], [WriteEnv],
    [SortEnv], [AwsEnv], [SysEnv], [ModelEnv], [HashEnv], [CudaEnv], [FileEnv],
    [InitEnv], [Fs] and the like, which may give any code
    in any order; classes named [..Ok] state the documented behaviour that a group
    of theorems relies on.

    ** The files

    Shared:
    - Prelude.v: machine integers, errno, tactics, lemmas on lists and residues.
    - Strtol.v: strtol, strtoll and strtoull of the C library.
    - StateM.v: the state monad with undefined behaviour and its [wp].
    - OfiMath.v, NetTypes.v: include/nccl_ofi_math.h; types of include/nccl_ofi.h.
    - Params.v: the parameters of include/nccl_ofi_param.h.
    - PciText.v: PCI addresses as text, and the sysfs files of a device.
    - DLinks.v: doubly linked lists in memory.
    - Pthread.v: the mutexes of src/nccl_ofi_pthread.c.

    Data structures:
    - Idpool.v: src/nccl_ofi_idpool.c. The abstract pool is a finite set.
    - Msgbuff.v: src/nccl_ofi_msgbuff.c, with wrapping 16-bit cursors. The abstract
      window has unbounded sequence numbers.
    - Allocator.v: the interface [EntryAllocator] between free lists and their
      clients, and its simplest instance, the [pool] a client sees.
    - Freelist.v: src/nccl_ofi_freelist.c with its memory blocks, cell by cell; an
      instance of the interface.
    - Scheduler.v: src/nccl_ofi_scheduler.c, proved for every [EntryAllocator].
    - MrCache.v: src/nccl_ofi_mr.c. The abstract cache maps a handle to its range of
      pages and its number of users.
    - Deque.v: src/nccl_ofi_deque.c, the intrusive circular list.
    - Uthash.v, UthashInv.v, UthashMap.v: the hash tables of 3rd-party/uthash, their
      invariant, and their refinement of an association list.
    - EpAddrList.v, EpAddrMem.v: src/nccl_ofi_ep_addr_list.c, as a list of endpoints
      with sets of addresses (the class [AddrSet]), and in memory, with a hash table of
      Uthash.v for each set.

    Devices and libfabric objects:
    - OfiUtils.v, OfiRes.v: src/nccl_ofi_ofiutils.c, the lists of providers and the
      objects of an endpoint.
    - Net.v, Plugin.v: src/nccl_ofi_net.c, reference counts of endpoints against the
      interface [EpProvider], and the plug-in object.
    - MrReg.v: memory registration of both transports over MrCache.v and Idpool.v.

    Transports:
    - Sendrecv.v, SendrecvInv.v (data path and its invariant), SendrecvConn.v
      (connections), SendrecvEp.v and SendrecvPlugin.v (life cycle).
    - RdmaWire.v, RdmaState.v, RdmaPost.v, RdmaProgress.v, RdmaComm.v: the engine,
      from the wire formats up to send and recv. [world] is the endpoint with its
      requests, communicators, rails and free lists; [log] records the calls to
      libfabric. The pending queue is the list that Deque.v shows the C structure to
      implement, the free lists are pools, schedules come from Scheduler.v.
    - RdmaConn.v, RdmaHandshake.v, RdmaClose.v: connection set-up and close.
    - RdmaEp.v, RdmaDevice.v: life cycle of endpoints, devices and plug-in.
    - RdmaInit.v: the start of the RDMA transport, which composes OfiUtils.v, Plugin.v,
      the topology and RdmaDevice.v.
    - Api.v: src/nccl_ofi_api.c and src/nccl_ofi_interface_nvidia.c against the
      interface [Transport].
    - Interface.v: nccl_net_ofi_init with its exit handler, the names of the tables, and
      the properties of a device.

    Machine and platform:
    - Topo.v, TopoCreate.v, TopoGroup.v, TopoWrite.v: src/nccl_ofi_topo.c, the user
      data of hwloc objects, the grouping of NICs and the tags of the file for NCCL.
      Grouping is proved for every order hook that satisfies [SortOk].
    - TopoText.v, TopoFile.v: the text of that file, the process that publishes it, and
      the end of a topology.
    - Accel.v: src/nccl_ofi_cuda.c and src/nccl_ofi_dmabuf.c.
    - AccelProbe.v: the program src/nccl_ofi_accel.cc.
    - PlatformSort.v: the hook of src/platform-aws.c, an instance of [SortOk].
    - PlatformAws.v: the rest of src/platform-aws.c.
    - OfiSystem.v: src/nccl_ofi_system.c.

    Tuner:
    - TunerRegion.v, TunerModel.v, Tuner.v: src/tuner/nccl_ofi_regions.c,
      nccl_ofi_model.c and nccl_ofi_tuner.c.

    ** What the theorems show

    - Refinement. Any sequence of operations on the ID pool, the message buffer,
      the free list, the registration cache and the queue gives the results of its
      abstract counterpart ([idpool_refines_set], [msgbuff_refines_window],
      [freelist_alloc_safe], [mr_cache_refines], [deque_refines_list]). So do a uthash
      table through its expansions ([uthash_refines_map]) and the endpoint address list,
      which also leaves nothing allocated ([ep_addr_list_leaks_nothing]).
    - Locks. [errorcheck_reports] and [mutex_init_type]: what the wrappers make of misuse.
    - Sending. The scheduler cuts a message into stripes that cover it without
      overlap ([get_schedule_partitions]). A control message turns into such a plan
      ([ctrl_message_plans_send]); its writes put each byte at its place exactly
      once ([writes_copy_the_message]) and are accepted by the network once each
      however often posting is retried ([stripes_posted_once]).
      [test_retires_send] shows the release at the end.
    - Receiving. [recv_starts_receive] shows what recv leaves behind, and
      [recv_completes_in_any_order] that the receive is complete exactly when all
      completions have come. [imm_data_roundtrip] ties the two sides together.
    - Flow and close. [pending_served_in_order], [close_handshake], and
      [last_close_destroys_all] for send and receive communicators whose peers are done.
    - Connections and registration. [rdma_handshake], [sendrecv_connect_contract],
      [registrations_balance], whose runs may have refused rails and failed
      allocations of handles, and the invariant of the send/receive data path
      [sendrecv_calls_stay_consistent].
    - Life cycle. References and libfabric objects balance over endpoints, devices and
      plug-in ([endpoints_follow_references], [rdma_endpoints_leak_nothing] when no call
      fails, [rdma_plugin_gives_back] when no close fails, [init_exit_releases]);
      [dup_conns_repeats] and [get_providers_filters] relate pointer surgery to
      operations on lists. [rdma_transport_starts] puts the start together, from libfabric's list of
      providers to the devices and back.
    - Topology. [topo_create_decorates], [topo_group_partitions],
      [topo_file_published] and [group_link_scales] follow the NICs from libfabric's list
      to the file whose path NCCL gets; [file_text_roundtrip] reads its text back, and
      [topo_free_frees_once] ends a topology.
    - Platform. [sort_rails_alternates], [platform_init_respects_user],
      [endpoints_deliver_in_order], [product_name_reads],
      [params_read_decimal], [kernel_version_from_5_12], [property_path_inj],
      [accel_main_reports].
    - Tuner. [tuner_lifecycle], [region_versions_agree], [model_takes_cheapest].
    - Where the code fails. Some theorems state what really happens on paths the
      code gets wrong, among them [failed_tuner_init_deadlocks],
      [model_v3_writes_before_table], [two_groups_never_sorted],
      [ray_through_vertex], [busy_close_is_dropped], [replanned_send_leaks],
      [mr_failed_grow_overflows], [first_rail_failure_crashes],
      [sendrecv_device_leaks_its_domain], [failed_search_leaks_hints],
      [second_init_releases_twice].

    ** Fuel

    [pending_loop] gets one more than the length of the queue: a round that
    continues has posted the request it took off ([pending_served_in_order] has no
    hypothesis). The cursor loops of Msgbuff.v get one more than the size of the
    index space, and [msgbuff_refines_window] shows that they end within it. The
    linked-list walks of Freelist.v and Deque.v get the number of structures in
    memory, as do those of Uthash.v and EpAddrMem.v; those of OfiUtils.v and RdmaInit.v
    get a bound on the length of the list. The completion
    loops recurse on the completions there are. [tag_bits] gets 34 rounds, and stops
    when 32 of 64 bits are left at the latest. Paths to the root and the recursion
    of TopoWrite.v get the number of hwloc objects, the scaling loops the size of the
    group, and the product-name loop two more than the length of the file; the
    theorems on them show that this is enough. Loops that poll the network until a
    peer answers (the flush of the send/receive transport, the last close, the old
    blocking API calls) take the number of rounds as an argument, since nothing in
    the code bounds them. Every other loop recurses on a list or on the bound the
    source gives it.

    ** What is not modelled

    The printing of groups and the hwloc set-up calls of src/nccl_ofi_topo.c; the
    interface tables themselves, which are data; the macros of uthash and utlist that
    the plug-in does not use (sorting, selection, ordered insertion, Bloom filters,
    other hash functions, singly linked lists). Tracing, logging and the memory-checker
    hooks have no effect on the state. The build for Neuron is left out, and an endpoint
    per communicator is modelled for devices and the address list only. Of the constant fields of libfabric's
    hints only the masks and the key size are kept.
    Concurrency is modelled at the grain of the locks; data races outside them are
    not. *)

From stdpp Require Export base tactics numbers list option gmap fin_maps sets.
From Stdlib Require Export ZArith Lia.

Declare Scope ofi_scope.
Delimit Scope ofi_scope with ofi.
Open Scope Z_scope.

(** ** Machine integers

    A w-bit unsigned value is a [Z] in [0, 2^w); every C operation that can
    leave the range is followed by the wrap-around of its type. *)

Definition wrap (w x : Z) : Z := x mod 2 ^ w.

Abbreviation u16 := (wrap 16).
Abbreviation u32 := (wrap 32).
Abbreviation u64 := (wrap 64).

(** Conversion to the 32-bit two's complement [int]. *)
Definition i32 (x : Z) : Z := (x + 2 ^ 31) mod 2 ^ 32 - 2 ^ 31.

Definition in_width (w x : Z) : Prop := 0 <= x < 2 ^ w.

(** ** errno values returned (negated) by the plug-in *)

Definition ENOENT : Z := 2.
Definition EIO : Z := 5.
Definition EAGAIN : Z := 11.
Definition ENOMEM : Z := 12.
Definition EEXIST : Z := 17.
Definition EINVAL : Z := 22.
Definition ENOSPC : Z := 28.
Definition ENOTSUP : Z := 95.

(** The null pointer; pointers are addresses in [Z]. *)
Definition NULL : Z := 0.

(** ** Automation *)

Create HintDb ofi_wf discriminated.

(** Reflect boolean comparisons in hypotheses and goal, then split. *)
Ltac bool_cases :=
  repeat match goal with
  | H : andb _ _ = true |- _ => apply andb_prop in H; destruct H
  | H : (_ =? _) = true |- _ => apply Z.eqb_eq in H
  | H : (_ =? _) = false |- _ => apply Z.eqb_neq in H
  | H : (_ <? _) = true |- _ => apply Z.ltb_lt in H
  | H : (_ <? _) = false |- _ => apply Z.ltb_ge in H
  | H : (_ <=? _) = true |- _ => apply Z.leb_le in H
  | H : (_ <=? _) = false |- _ => apply Z.leb_gt in H
  | H : (_ >=? _) = true |- _ => rewrite Z.geb_leb in H
  | H : (_ >=? _) = false |- _ => rewrite Z.geb_leb in H
  | H : (_ >? _) = true |- _ => rewrite Z.gtb_ltb in H
  | H : (_ >? _) = false |- _ => rewrite Z.gtb_ltb in H
  | H : negb _ = true |- _ => apply negb_true_iff in H
  | H : negb _ = false |- _ => apply negb_false_iff in H
  | H : orb _ _ = false |- _ => apply orb_false_iff in H; destruct H
  end.

(** Destruct the scrutinee of the first conditional of the goal. *)
Ltac split_if :=
  match goal with
  | |- context [if ?b then _ else _] =>
      lazymatch type of b with
      | bool => let E := fresh "E" in destruct b eqn:E
      | _ => destruct b
      end
  end; bool_cases.

Ltac split_if_in H :=
  match type of H with
  | context [if ?b then _ else _] =>
      lazymatch type of b with
      | bool => let E := fresh "E" in destruct b eqn:E
      | _ => destruct b
      end
  end; bool_cases.

(** ** Wrap-around lemmas *)

Lemma wrap_small w x : 0 <= x < 2 ^ w -> wrap w x = x.
Proof. intros H. unfold wrap. by apply Z.mod_small. Qed.

Lemma wrap_range w x : 0 <= w -> 0 <= wrap w x < 2 ^ w.
Proof. intros Hw. unfold wrap. apply Z.mod_pos_bound. lia. Qed.

Lemma i32_small x : - 2 ^ 31 <= x < 2 ^ 31 -> i32 x = x.
Proof. intros H. unfold i32. rewrite Z.mod_small; lia. Qed.

(** ** Euclidean division by a positive modulus *)

Lemma mod_sub_mod m x y : 0 < m -> (x mod m - y mod m) mod m = (x - y) mod m.
Proof. intros Hm. rewrite <- Zminus_mod. done. Qed.

Lemma mod_eq_diff m x y : 0 < m -> x mod m = y mod m -> (x - y) mod m = 0.
Proof.
  intros Hm H. rewrite <- mod_sub_mod by done. rewrite H, Z.sub_diag. done.
Qed.

(** Two numbers less than [m] apart with equal residues are equal. *)
Lemma mod_inj_window m a x y :
  0 < m -> a <= x < a + m -> a <= y < a + m -> x mod m = y mod m -> x = y.
Proof.
  intros Hm Hx Hy H. apply mod_eq_diff in H; [|done].
  destruct (Z.le_gt_cases y x).
  - rewrite Z.mod_small in H; lia.
  - assert ((y - x) mod m = 0) as H'.
    { replace (y - x) with (- (x - y)) by lia.
      destruct (Z_mod_zero_opp_full (x - y) m H). done. }
    rewrite Z.mod_small in H'; lia.
Qed.

(** Taking the residue twice when the inner modulus is a multiple. *)
Lemma mod_mod_divide m n x : 0 < n -> (n | m) -> 0 < m -> (x mod m) mod n = x mod n.
Proof. intros Hn Hd Hm. by apply Z.mod_mod_divide. Qed.

(** ** Lists as arrays *)

Lemma list_lookup_insert_case {A} (l : list A) i j x :
  (i < length l)%nat ->
  <[i := x]> l !! j = if decide (i = j) then Some x else l !! j.
Proof.
  intros Hi. case_decide as E.
  - subst. by apply list_lookup_insert_eq.
  - by apply list_lookup_insert_ne.
Qed.

Lemma list_last_cons {A} (l : list A) a b : List.last (b :: l) a = List.last l b.
Proof.
  revert a b. induction l as [|c l IH]; intros a b; [done|].
  change (List.last (b :: c :: l) a) with (List.last (c :: l) a). by rewrite !IH.
Qed.

Lemma list_delete_insert_same {A} (l : list A) i x : delete i (<[i := x]> l) = delete i l.
Proof. revert i. induction l as [|y l IH]; intros [|i]; cbn; try done. f_equal. apply IH. Qed.

(** An update is a permutation of the rest with the new element. *)
Lemma list_insert_perm {A} (l : list A) i x :
  (i < length l)%nat -> <[i := x]> l ≡ₚ x :: delete i l.
Proof.
  intros Hi. rewrite <- (list_delete_insert_same l i x).
  apply delete_Permutation. by apply list_lookup_insert_eq.
Qed.

(** memmove of [n] elements inside one array; [None] when it leaves it. *)
Definition memmove {A} (dst src n : nat) (l : list A) : option (list A) :=
  if decide (dst + n <= length l /\ src + n <= length l)%nat
  then Some (take dst l ++ take n (drop src l) ++ drop (dst + n) l)
  else None.

(** Making room for an element at [i] of the first [length L] elements. *)
Lemma memmove_insert {A} (L rest : list A) (x : A) (i : nat) :
  (i <= length L)%nat ->
  exists s, memmove (S i) i (length L - i) (L ++ x :: rest) = Some s /\
    forall y, <[i := y]> s = take i L ++ y :: drop i L ++ rest.
Proof.
  intros Hi. unfold memmove. rewrite decide_True by (rewrite length_app; cbn; lia).
  eexists. split; [done|]. intros y.
  set (l := L ++ x :: rest).
  assert (drop (S i + (length L - i)) l = rest) as ->.
  { unfold l. replace (S i + (length L - i))%nat with (S (length L)) by lia.
    rewrite drop_app_ge by lia. replace (S (length L) - length L)%nat with 1%nat by lia. done. }
  assert (take (length L - i) (drop i l) = drop i L) as ->.
  { unfold l. rewrite drop_app_le by done. rewrite take_app_le by (rewrite length_drop; lia).
    apply take_ge. rewrite length_drop. lia. }
  assert (i < length l)%nat as Hl by (unfold l; rewrite length_app; cbn; lia).
  destruct (lookup_lt_is_Some_2 l i Hl) as [z Hz].
  rewrite (take_S_r _ _ z Hz), <- app_assoc. cbn.
  assert (take i l = take i L) as -> by (unfold l; by rewrite take_app_le).
  rewrite insert_app_r_alt by (rewrite length_take; lia).
  rewrite length_take, Nat.min_l by lia. by rewrite Nat.sub_diag.
Qed.

(** Closing the gap of a removed element. *)
Lemma memmove_delete {A} (L rest : list A) (i : nat) :
  (i < length L)%nat ->
  exists s, memmove i (S i) (length L - i - 1) (L ++ rest) = Some (delete i L ++ s) /\
    length s = S (length rest).
Proof.
  intros Hi. unfold memmove. rewrite decide_True by (rewrite length_app; lia).
  rewrite delete_take_drop.
  exists (drop (i + (length L - i - 1)) (L ++ rest)). split.
  - f_equal. rewrite <- app_assoc. rewrite take_app_le by lia. f_equal. f_equal.
    rewrite drop_app_le by lia. rewrite take_app_le by (rewrite length_drop; lia).
    apply take_ge. rewrite length_drop. lia.
  - rewrite length_drop, length_app. lia.
Qed.

(** Sum of a list of integers. *)
Definition zsum (l : list Z) : Z := foldr Z.add 0 l.

#[export] Instance zsum_perm : Proper ((≡ₚ) ==> (=)) zsum.
Proof. intros l1 l2 H. unfold zsum. induction H; cbn; lia. Qed.

Lemma zsum_nonneg l : Forall (fun x => 0 <= x) l -> 0 <= zsum l.
Proof. unfold zsum. induction 1; cbn; lia. Qed.

Lemma filter_none {A} (P : A -> Prop) `{!forall x, Decision (P x)} (l : list A) :
  (forall x, x ∈ l -> ~ P x) -> filter P l = [].
Proof.
  induction l as [|x l IH]; intros Hl; [done|]. rewrite filter_cons, decide_False by (apply Hl; left).
  apply IH. intros y Hy. apply Hl. by right.
Qed.

Lemma filter_all {A} (P : A -> Prop) `{!forall x, Decision (P x)} (l : list A) :
  (forall x, x ∈ l -> P x) -> filter P l = l.
Proof.
  induction l as [|x l IH]; intros Hl; [done|]. rewrite filter_cons, decide_True by (apply Hl; left).
  f_equal. apply IH. intros y Hy. apply Hl. by right.
Qed.
