(* ===== verification/Strtol.v ===== *)
(** * The C library's strtol family

    strtol, strtoll and strtoull with base 0, as the parameters and the topology
    code call them: leading spaces, a sign, a prefix that gives the base, and the
    longest run of digits. Besides the definitions, this file has the round trip for
    decimal numbers. *)

From Stdlib Require Import Ascii.
From stdpp Require Import strings pretty.
From S2P Require Import Prelude.

Module Strtol.

Open Scope Z_scope.

Definition code (c : ascii) : Z := Z.of_N (N_of_ascii c).

Definition digit (base : Z) (c : ascii) : option Z :=
  let n := code c in
  let v := if (48 <=? n) && (n <=? 57) then Some (n - 48)
           else if (97 <=? n) && (n <=? 122) then Some (n - 87)
           else if (65 <=? n) && (n <=? 90) then Some (n - 55) else None in
  match v with Some v => if v <? base then Some v else None | None => None end.

(** The value of the longest run of digits, and what follows it. *)
Fixpoint digits (base : Z) (s : string) (acc : Z) : Z * string :=
  match s with
  | String c s' => match digit base c with Some v => digits base s' (acc * base + v) | None => (acc, s) end
  | EmptyString => (acc, s)
  end.

Definition is_digit (base : Z) (c : ascii) : bool := match digit base c with Some _ => true | None => false end.

(** A number without sign; [None] if there is no digit. *)
Definition unsigned (s : string) : option (Z * string) :=
  match s with
  | String c s' =>
      if negb (is_digit 10 c) then None
      else if code c =? 48 then
        match s' with
        | String x (String d _ as s'') => if ((code x =? 120) || (code x =? 88)) && is_digit 16 d then Some (digits 16 s'' 0) else Some (digits 8 s 0)
        | _ => Some (digits 8 s 0)
        end
      else Some (digits 10 s 0)
  | EmptyString => None
  end.

Definition is_space (c : ascii) : bool := (code c =? 32) || ((9 <=? code c) && (code c <=? 13)).

Fixpoint skip_spaces (s : string) : string :=
  match s with String c s' => if is_space c then skip_spaces s' else s | EmptyString => s end.

(** Sign, magnitude and rest. *)
Definition signed (s : string) : option (bool * Z * string) :=
  match skip_spaces s with
  | EmptyString => None
  | String c s' =>
      let neg := code c =? 45 in
      match unsigned (if neg || (code c =? 43) then s' else String c s') with
      | Some (m, rest) => Some (neg, m, rest)
      | None => None
      end
  end.

Definition LLONG_MAX : Z := 2 ^ 63 - 1.
Definition LLONG_MIN : Z := - 2 ^ 63.
Definition ULLONG_MAX : Z := 2 ^ 64 - 1.

(** Value, whether errno is ERANGE, and the string at endptr. *)
Definition strtoll (s : string) : Z * bool * string :=
  match signed s with
  | None => (0, false, s)
  | Some (neg, m, rest) =>
      let v := if neg then - m else m in
      if v >? LLONG_MAX then (LLONG_MAX, true, rest) else if v <? LLONG_MIN then (LLONG_MIN, true, rest) else (v, false, rest)
  end.

Definition strtoull (s : string) : Z * bool * string :=
  match signed s with
  | None => (0, false, s)
  | Some (neg, m, rest) => if m >? ULLONG_MAX then (ULLONG_MAX, true, rest) else (if neg then u64 (- m) else m, false, rest)
  end.

(** ** Decimal numbers *)

Lemma digit_decimal n : (n < 10)%N -> digit 10 (pretty_N_char n) = Some (Z.of_N n).
Proof.
  intros Hn. assert (Forall (fun k => digit 10 (pretty_N_char (N.of_nat k)) = Some (Z.of_nat k)) (seq 0 10)) as Hall by (vm_compute; repeat constructor).
  rewrite Forall_forall in Hall. specialize (Hall (N.to_nat n)). rewrite N2Nat.id, N_nat_Z in Hall. apply Hall, elem_of_seq. lia.
Qed.

Lemma digits_decimal x : forall s, exists k, forall acc, digits 10 (pretty_N_go x s) acc = digits 10 s (acc * 10 ^ Z.of_nat k + Z.of_N x).
Proof.
  induction x as [x IH] using (well_founded_induction N.lt_wf_0). intros s. destruct (decide (x = 0%N)) as [->|Hx].
  - exists O. intros acc. rewrite pretty_N_go_0. cbn. f_equal. lia.
  - destruct (IH (x / 10)%N) with (s := String (pretty_N_char (x mod 10)) s) as [k Hk]; [apply N.div_lt; lia|]. exists (S k). intros acc.
    rewrite pretty_N_go_step by lia. rewrite Hk. cbn [digits]. rewrite digit_decimal by (apply N.mod_lt; lia). f_equal.
    rewrite Nat2Z.inj_succ, Z.pow_succ_r, N2Z.inj_mod, N2Z.inj_div by lia. pose proof (Z.div_mod (Z.of_N x) 10). lia.
Qed.

(** The first character of a number is its leading digit. *)
Lemma pretty_head x : forall s, (x <> 0)%N -> exists c s', pretty_N_go x s = String c s' /\ exists d, (0 < d < 10)%N /\ c = pretty_N_char d.
Proof.
  induction x as [x IH] using (well_founded_induction N.lt_wf_0). intros s Hx. rewrite pretty_N_go_step by lia. destruct (decide (x / 10 = 0)%N) as [Hz|Hnz].
  - rewrite Hz, pretty_N_go_0. eexists _, _. split; [done|]. exists (x mod 10)%N. split; [|done]. pose proof (N.div_mod' x 10). pose proof (N.mod_lt x 10). lia.
  - apply IH; [apply N.div_lt; lia|done].
Qed.

Lemma lead_digit d : (0 < d < 10)%N -> is_digit 10 (pretty_N_char d) = true /\ code (pretty_N_char d) = Z.of_N d + 48.
Proof.
  intros Hd. assert (d = 1 \/ d = 2 \/ d = 3 \/ d = 4 \/ d = 5 \/ d = 6 \/ d = 7 \/ d = 8 \/ d = 9)%N as Hc by lia.
  by repeat (destruct Hc as [->|Hc]; [split; reflexivity|]); subst d.
Qed.

Lemma unsigned_decimal (x : N) : unsigned (pretty x) = Some (Z.of_N x, EmptyString).
Proof.
  destruct (decide (x = 0)%N) as [->|Hx]; [reflexivity|]. unfold pretty, pretty_N. rewrite decide_False by done. destruct (pretty_head x EmptyString Hx) as (c & s & Hgo & d & Hd & ->).
  destruct (digits_decimal x EmptyString) as [k Hk]. specialize (Hk 0). rewrite Hgo in *. destruct (lead_digit d Hd) as [H1 H2]. cbn [unsigned]. rewrite H1, H2. cbn [negb].
  rewrite (proj2 (Z.eqb_neq _ _)) by lia. rewrite Hk. done.
Qed.

Lemma signed_decimal (z : Z) : signed (pretty z) = Some (z <? 0, Z.abs z, EmptyString).
Proof.
  assert (forall x : N, exists c s, pretty x = String c s /\ is_space c = false /\ code c <> 45 /\ code c <> 43) as Hhead.
  { intros x. destruct (decide (x = 0)%N) as [->|Hx]; [by exists "0"%char, EmptyString|]. unfold pretty, pretty_N. rewrite decide_False by done. destruct (pretty_head x EmptyString Hx) as (c & s & -> & d & Hd & ->).
    exists (pretty_N_char d), s. destruct (lead_digit d Hd) as [_ H2]. unfold is_space. rewrite H2. split_and!; [done| |lia|lia]. apply orb_false_intro; [apply Z.eqb_neq; lia|]. apply andb_false_intro2, Z.leb_gt. lia. }
  assert (forall x : N, signed (pretty x) = Some (false, Z.of_N x, EmptyString)) as Hpos.
  { intros x. unfold signed. pose proof (unsigned_decimal x) as Hu. destruct (Hhead x) as (c & s & Hp & Hs & H45 & H43). rewrite Hp in *. cbn [skip_spaces]. rewrite Hs, (proj2 (Z.eqb_neq _ _) H45), (proj2 (Z.eqb_neq _ _) H43). cbn [orb]. by rewrite Hu. }
  destruct z as [|p|p]; [reflexivity|exact (Hpos (Npos p))|]. change (match unsigned (pretty (N.pos p)) with Some (m, rest) => Some (true, m, rest) | None => None end = Some (true, Z.pos p, EmptyString)).
  by rewrite unsigned_decimal.
Qed.

Lemma pretty_app x : forall s t, (pretty_N_go x s +:+ t = pretty_N_go x (s +:+ t))%string.
Proof.
  induction x as [x IH] using (well_founded_induction N.lt_wf_0). intros s t. destruct (decide (x = 0%N)) as [->|Hx]; [by rewrite !pretty_N_go_0|].
  rewrite !(pretty_N_go_step x) by lia. by rewrite IH by (apply N.div_lt; lia).
Qed.

(** What follows a number does not go on with a digit. *)
Definition no_digit (s : string) : Prop := match s with String c _ => is_digit 10 c = false | EmptyString => True end.

Lemma digits_stop s acc : no_digit s -> digits 10 s acc = (acc, s).
Proof. destruct s as [|c s]; [done|]. cbn. unfold is_digit. by destruct (digit 10 c). Qed.

Lemma digit_char n : (n < 10)%N -> is_digit 10 (pretty_N_char n) = true /\ is_space (pretty_N_char n) = false /\ code (pretty_N_char n) <> 45 /\ code (pretty_N_char n) <> 43.
Proof.
  intros Hn. destruct (decide (n = 0%N)) as [->|Hz]; [by vm_compute|]. destruct (lead_digit n ltac:(lia)) as [H1 H2]. unfold is_space. rewrite H2. split_and!; [done| |lia|lia]. apply orb_false_intro; [lia|]. apply andb_false_intro2. lia.
Qed.

(** A printed number begins with a digit. *)
Lemma pretty_first (x : N) rest : exists c s, (pretty x +:+ rest)%string = String c s /\ exists d, (d < 10)%N /\ c = pretty_N_char d.
Proof.
  unfold pretty, pretty_N. destruct (decide (x = 0%N)) as [->|Hz]; [exists "0"%char, rest; split; [done|by exists 0%N]|]. rewrite pretty_app. destruct (pretty_head x rest Hz) as (c & s & Hgo & d & Hd & ->). exists (pretty_N_char d), s. split; [done|]. exists d. split; [lia|done].
Qed.

(** A printed number is read back, whatever follows it. *)
Lemma digits_pretty (x : N) rest : no_digit rest -> digits 10 (pretty x +:+ rest) 0 = (Z.of_N x, rest).
Proof.
  intros Hr. unfold pretty, pretty_N. destruct (decide (x = 0%N)) as [->|Hz].
  - change (digits 10 (String "0" rest) 0 = (0, rest)). cbn [digits]. change (digit 10 "0") with (Some 0). cbn. by apply digits_stop.
  - rewrite pretty_app. destruct (digits_decimal x rest) as [k Hk]. rewrite Hk. cbn. by apply digits_stop.
Qed.

End Strtol.
