(* ===== verification/PciText.v ===== *)
(** * PCI addresses in text: sysfs paths of devices

    The x conversion of printf and the text domain:bus:device.function of a PCI
    address, which occurs in the paths of sysfs and in the topology file. Text of an
    address can be read back, so that different devices have different paths.
    get_device_property (nccl_ofi_topo.c) reads a property of a device from sysfs,
    get_device_pci_path (nccl_ofi_net.c) resolves the path of a NIC; the file system is
    the class [Sysfs]. *)

From Stdlib Require Import Ascii.
From stdpp Require Import strings pretty.
From S2P Require Import Prelude Strtol.
Import Strtol.

Module PciText.

Open Scope Z_scope.

(** ** Hexadecimal numbers *)

(** The x conversion of an unsigned int. *)
Definition hex_digit (d : Z) : ascii := ascii_of_N (Z.to_N (if d <? 10 then 48 + d else 87 + d)).
Fixpoint hex_aux (fuel : nat) (n : Z) (acc : string) : string :=
  match fuel with
  | O => acc
  | S f => if n <? 16 then String (hex_digit n) acc else hex_aux f (n / 16) (String (hex_digit (n mod 16)) acc)
  end.
Definition hex (n : Z) : string := hex_aux 8 n EmptyString.

Fixpoint zeros (n : nat) : string := match n with O => EmptyString | S n' => String "0" (zeros n') end.

(** With a width and leading zeros. *)
Definition fmt_x (width : nat) (n : Z) : string := zeros (width - String.length (hex n)) +:+ hex n.

Record fi_pci_attr := mk_pci { domain_id : Z; bus_id : Z; device_id : Z; function_id : Z }.

Definition pci_ok (p : fi_pci_attr) : Prop :=
  0 <= domain_id p < 2 ^ 32 /\ 0 <= bus_id p < 2 ^ 32 /\ 0 <= device_id p < 2 ^ 32 /\ 0 <= function_id p < 2 ^ 32.

Definition pci_text (p : fi_pci_attr) : string :=
  fmt_x 4 (domain_id p) +:+ ":" +:+ fmt_x 2 (bus_id p) +:+ ":" +:+ fmt_x 2 (device_id p) +:+ "." +:+ fmt_x 1 (function_id p).

(** ** Files *)

(** The text of a file; reading fails at a position with an error. *)
Record sfile := mk_sfile { sf_text : string; sf_error : option (nat * Z) }.

(** fopen answers a file or an error; fclose and realpath; whether malloc and asprintf
    get memory. *)
Class Sysfs := {
  sys_open : string -> sfile + Z;
  sys_close : string -> Z;
  sys_realpath : string -> string + Z;
  sys_malloc_ok : bool;
}.

Definition MAX_DEV_PROPERTY_LENGTH : nat := 16.
Definition newline : ascii := "010"%char.

Inductive read_end := AtLimit | AtEof | AtError (e : Z).

(** fgets with room for [n] characters: the characters stored, and why it stopped. *)
Fixpoint fgets (n : nat) (s : string) (err : option (nat * Z)) : string * read_end :=
  match n with
  | O => (EmptyString, AtLimit)
  | S n' =>
      match err with
      | Some (O, e) => (EmptyString, AtError e)
      | _ =>
          match s with
          | EmptyString => (EmptyString, AtEof)
          | String c s' =>
              if Ascii.eqb c newline then (String c EmptyString, AtLimit)
              else
                let (r, st) := fgets n' s' (match err with Some (S k, e) => Some (k, e) | _ => None end) in
                (String c r, st)
          end
      end
  end.

Section Paths.
Context {S : Sysfs}.

Definition property_path (p : fi_pci_attr) (prop_name : string) : string :=
  "/sys/bus/pci/devices/" +:+ pci_text p +:+ "/" +:+ prop_name.

(** The return code and what the buffer holds, [None] when it is not written or reading
    failed. *)
Definition get_device_property (p : fi_pci_attr) (prop_name : string) : Z * option string :=
  if negb sys_malloc_ok then (- ENOMEM, None)
  else
    let path := property_path p prop_name in
    match sys_open path with
    | inr e => (- e, None)
    | inl file =>
        let (prop, st) := fgets MAX_DEV_PROPERTY_LENGTH (sf_text file) (sf_error file) in
        let (ret, prop) := match st with AtError e => (- e, None) | AtLimit | AtEof => (0, Some prop) end in
        if negb (sys_close path =? 0) then (- sys_close path, prop) else (ret, prop)
    end.

(** [bus]: the address when the bus of the NIC is PCI. *)
Definition get_device_pci_path (bus : option fi_pci_attr) : Z * option string :=
  match bus with
  | None => (- EINVAL, None)
  | Some pci =>
      if negb sys_malloc_ok then (- ENOMEM, None)
      else
        match sys_realpath ("/sys/class/pci_bus/" +:+ fmt_x 4 (domain_id pci) +:+ ":" +:+ fmt_x 2 (bus_id pci) +:+ "/../../" +:+ pci_text pci) with
        | inl path => (0, Some path)
        | inr e => (- e, None)
        end
  end.

End Paths.

(** ** Reading the text back *)

Definition no_hex (s : string) : Prop := match s with String c _ => is_digit 16 c = false | EmptyString => True end.

Definition read_hex (s : string) : option (Z * string) :=
  match s with
  | String c _ => if is_digit 16 c then Some (digits 16 s 0) else None
  | EmptyString => None
  end.

Definition expect (c : ascii) (s : string) : option string :=
  match s with String c' s' => if Ascii.eqb c c' then Some s' else None | EmptyString => None end.

Definition read_pci (s : string) : option (fi_pci_attr * string) :=
  '(d, s) ← read_hex s; s ← expect ":" s;
  '(b, s) ← read_hex s; s ← expect ":" s;
  '(v, s) ← read_hex s; s ← expect "." s;
  '(f, s) ← read_hex s;
  Some (mk_pci d b v f, s).

Lemma str_assoc (a b c : string) : ((a +:+ b) +:+ c = a +:+ b +:+ c)%string.
Proof. induction a as [|x a IH]; [done|]. change (String x ((a +:+ b) +:+ c) = String x (a +:+ b +:+ c)). by rewrite IH. Qed.

Lemma digit_hex d : 0 <= d < 16 -> digit 16 (hex_digit d) = Some d.
Proof.
  intros Hd. assert (Forall (fun k => digit 16 (hex_digit (Z.of_nat k)) = Some (Z.of_nat k)) (seq 0 16)) as Hall by (vm_compute; repeat constructor).
  rewrite Forall_forall in Hall. specialize (Hall (Z.to_nat d)). rewrite Z2Nat.id in Hall by lia. apply Hall, elem_of_seq. lia.
Qed.

Lemma hex_digit_is d : 0 <= d < 16 -> is_digit 16 (hex_digit d) = true.
Proof. intros Hd. unfold is_digit. by rewrite digit_hex. Qed.

Lemma hex_aux_app fuel : forall n s t, (hex_aux fuel n s +:+ t = hex_aux fuel n (s +:+ t))%string.
Proof. induction fuel as [|fuel IH]; intros n s t; [done|]. cbn [hex_aux]. destruct (n <? 16); [done|]. by rewrite IH. Qed.

Lemma digits_hex_aux fuel : forall n s, 0 <= n < 16 ^ Z.of_nat fuel -> exists k, forall acc, digits 16 (hex_aux fuel n s) acc = digits 16 s (acc * 16 ^ Z.of_nat k + n).
Proof.
  induction fuel as [|fuel IH]; intros n s Hn; [cbn in Hn; exists O; intros acc; cbn; f_equal; lia|]. cbn [hex_aux]. destruct (Z.ltb_spec n 16) as [Hlt|Hge].
  - exists 1%nat. intros acc. cbn [digits]. rewrite digit_hex by lia. f_equal.
  - rewrite Nat2Z.inj_succ, Z.pow_succ_r in Hn by lia. destruct (IH (n / 16) (String (hex_digit (n mod 16)) s)) as [k Hk]; [split; [apply Z.div_pos; lia|apply Z.div_lt_upper_bound; lia]|].
    exists (S k). intros acc. rewrite Hk. cbn [digits]. rewrite digit_hex by (apply Z.mod_pos_bound; lia). f_equal. rewrite Nat2Z.inj_succ, Z.pow_succ_r by lia. pose proof (Z.div_mod n 16). lia.
Qed.

Lemma digits_zeros n s : digits 16 (zeros n +:+ s) 0 = digits 16 s 0.
Proof. induction n as [|n IH]; [done|]. change (digits 16 (String "0" (zeros n +:+ s)) 0 = digits 16 s 0). cbn [digits]. change (digit 16 "0") with (Some 0). cbn. exact IH. Qed.

Lemma digits16_stop s acc : no_hex s -> digits 16 s acc = (acc, s).
Proof. destruct s as [|c s]; [done|]. cbn. unfold is_digit. by destruct (digit 16 c). Qed.

Lemma hex_aux_first fuel : forall n s, 0 <= n -> exists c t, hex_aux (S fuel) n s = String c t /\ is_digit 16 c = true.
Proof.
  induction fuel as [|fuel IH]; intros n s Hn; cbn [hex_aux].
  - destruct (Z.ltb_spec n 16); eexists _, _; (split; [done|]); apply hex_digit_is; [lia|apply Z.mod_pos_bound; lia].
  - destruct (Z.ltb_spec n 16); [eexists _, _; split; [done|]; apply hex_digit_is; lia|]. apply IH. apply Z.div_pos; lia.
Qed.

Lemma read_fmt w n rest : 0 <= n < 2 ^ 32 -> no_hex rest -> read_hex (fmt_x w n +:+ rest) = Some (n, rest).
Proof.
  intros Hn Hr. unfold fmt_x. assert (exists c t, (zeros (w - String.length (hex n)) +:+ hex n +:+ rest)%string = String c t /\ is_digit 16 c = true) as (c & t & Hc & Hd).
  { destruct (w - String.length (hex n))%nat as [|k].
    - change (exists c t, (hex n +:+ rest)%string = String c t /\ is_digit 16 c = true). unfold hex. rewrite hex_aux_app. apply hex_aux_first. lia.
    - exists "0"%char, (zeros k +:+ hex n +:+ rest)%string. by split. }
  rewrite str_assoc, Hc. cbn [read_hex]. rewrite Hd, <- Hc, digits_zeros. unfold hex. rewrite hex_aux_app. destruct (digits_hex_aux 8 n (EmptyString +:+ rest)) as [k Hk]; [lia|]. rewrite Hk. f_equal. by apply digits16_stop.
Qed.

(** The text of an address is read back, whatever follows it. *)
Lemma read_pci_text p rest : pci_ok p -> no_hex rest -> read_pci (pci_text p +:+ rest) = Some (p, rest).
Proof.
  intros (Hd & Hb & Hv & Hf) Hr. unfold read_pci, pci_text. rewrite !str_assoc. unfold mbind, option_bind.
  assert (forall c s, expect c (String c EmptyString +:+ s) = Some s) as He by (intros c s; change (expect c (String c s) = Some s); cbn; by rewrite Ascii.eqb_refl).
  rewrite read_fmt, He, read_fmt, He, read_fmt, He, read_fmt by done. by destruct p.
Qed.

Lemma app_inv_l (s t1 t2 : string) : (s +:+ t1 = s +:+ t2)%string -> t1 = t2.
Proof. induction s as [|c s IH]; [done|]. intros H. injection H as H. by apply IH. Qed.

(** Properties of different devices, and different properties of one device, are in
    different files. *)
Theorem property_path_inj p1 n1 p2 n2 : pci_ok p1 -> pci_ok p2 -> property_path p1 n1 = property_path p2 n2 -> p1 = p2 /\ n1 = n2.
Proof.
  intros H1 H2 Heq. unfold property_path in Heq. apply app_inv_l in Heq. assert (read_pci (pci_text p1 +:+ "/" +:+ n1) = read_pci (pci_text p2 +:+ "/" +:+ n2)) as Hr by (by f_equal).
  rewrite !read_pci_text in Hr by done. injection Hr as -> Hn. done.
Qed.

Lemma property_path_inj_witness :
  property_path (mk_pci 0 83 0 0) "max_link_speed" = "/sys/bus/pci/devices/0000:53:00.0/max_link_speed"%string /\
  property_path (mk_pci 0 83 0 0) "max_link_speed" <> property_path (mk_pci 83 0 0 0) "max_link_speed".
Proof.
  split; [vm_compute; reflexivity|]. intros Heq. destruct (property_path_inj (mk_pci 0 83 0 0) "max_link_speed" (mk_pci 83 0 0 0) "max_link_speed") as [Hp _]; [by vm_compute|by vm_compute|exact Heq|done].
Defined.

(** The property fits the buffer of MAX_DEV_PROPERTY_LENGTH + 1 characters, and is the
    beginning of the first line of the file. *)
Lemma fgets_prefix n s err r st : fgets n s err = (r, st) -> (String.length r <= n)%nat /\ String.prefix r s = true.
Proof.
  revert s err r st. induction n as [|n IH]; intros s err r st; cbn [fgets]; [intros [= <- <-]; split; [done|by destruct s]|].
  assert (forall err', (match s with EmptyString => (EmptyString, AtEof) | String c s' => if Ascii.eqb c newline then (String c EmptyString, AtLimit) else let (r, st) := fgets n s' err' in (String c r, st) end) = (r, st) -> (String.length r <= S n)%nat /\ String.prefix r s = true) as Hgo.
  { intros err'. destruct s as [|c s']; [intros [= <- <-]; split; [cbn; lia|done]|]. destruct (Ascii.eqb c newline); [intros [= <- <-]; split; [cbn; lia|cbn; destruct (ascii_dec c c); [by destruct s'|done]]|].
    destruct (fgets n s' err') as [r' st'] eqn:Hf. intros [= <- <-]. destruct (IH _ _ _ _ Hf) as [Hl Hp]. split; [cbn; lia|]. cbn. by destruct (ascii_dec c c). }
  destruct err as [[[|k] e]|]; [intros [= <- <-]; split; [cbn; lia|by destruct s]|apply Hgo|apply Hgo].
Qed.

Lemma property_fits `{Sysfs} p name rc prop : get_device_property p name = (rc, Some prop) -> (String.length prop <= MAX_DEV_PROPERTY_LENGTH)%nat /\ exists f, sys_open (property_path p name) = inl f /\ String.prefix prop (sf_text f) = true.
Proof.
  unfold get_device_property. destruct (negb sys_malloc_ok); [done|]. destruct (sys_open (property_path p name)) as [f|e]; [|done]. destruct (fgets MAX_DEV_PROPERTY_LENGTH (sf_text f) (sf_error f)) as [r st] eqn:Hf. destruct (fgets_prefix _ _ _ _ _ Hf) as [Hl Hp].
  intros Heq. assert (prop = r) as -> by (destruct st; destruct (negb (sys_close (property_path p name) =? 0)); by injection Heq). eauto.
Qed.

End PciText.
