(* ===== verification/OfiMath.v ===== *)
(** * nccl_ofi_math.h: integer helpers used by every component

    The macros are modelled at [size_t] (64 bits), the type they are used
    with in the sources. *)

From S2P Require Import Prelude.

(** NCCL_OFI_DIV_CEIL: [1 + (x - 1) / y] never leaves the range of [x]. *)
Definition NCCL_OFI_DIV_CEIL (x y : Z) : Z :=
  if x =? 0 then 0 else 1 + (x - 1) / y.

Definition NCCL_OFI_MAX (x y : Z) : Z := if x <? y then y else x.

Definition NCCL_OFI_MIN (x y : Z) : Z := if x <? y then x else y.

Definition NCCL_OFI_IS_POWER_OF_TWO (x : Z) : bool :=
  negb (x =? 0) && (Z.land x (u64 (x - 1)) =? 0).

Definition NCCL_OFI_IS_ALIGNED (x a : Z) : bool :=
  Z.land x (u64 (a - 1)) =? 0.

Definition NCCL_OFI_ROUND_DOWN (x y : Z) : Z :=
  Z.land x (u64 (Z.lnot (u64 (y - 1)))).

Definition NCCL_OFI_ROUND_UP (x y : Z) : Z :=
  NCCL_OFI_ROUND_DOWN (u64 (x + u64 (y - 1))) y.

(** ** Lemmas *)

Lemma div_ceil_bounds x y :
  0 <= x -> 0 < y ->
  x <= NCCL_OFI_DIV_CEIL x y * y < x + y.
Proof.
  intros Hx Hy. unfold NCCL_OFI_DIV_CEIL. split_if; [lia|].
  pose proof (Z.div_mod (x - 1) y ltac:(lia)).
  pose proof (Z.mod_pos_bound (x - 1) y ltac:(lia)). nia.
Qed.

Lemma div_ceil_le x y : 0 <= x -> 0 < y -> 0 <= NCCL_OFI_DIV_CEIL x y <= x.
Proof.
  intros Hx Hy. unfold NCCL_OFI_DIV_CEIL. split_if; [lia|].
  assert (0 <= (x - 1) / y) by (apply Z.div_pos; lia).
  assert ((x - 1) / y <= x - 1); [|lia].
  apply Z.div_le_upper_bound; nia.
Qed.

Lemma ofi_max_eq x y : NCCL_OFI_MAX x y = Z.max x y.
Proof. unfold NCCL_OFI_MAX. split_if; lia. Qed.

Lemma ofi_min_eq x y : NCCL_OFI_MIN x y = Z.min x y.
Proof. unfold NCCL_OFI_MIN. split_if; lia. Qed.

(** Clearing the low [k] bits subtracts the residue modulo [2^k]. *)
Lemma land_clear_low x k :
  0 <= x < 2 ^ 64 -> 0 <= k < 64 ->
  Z.land x (u64 (Z.lnot (2 ^ k - 1))) = x - x mod 2 ^ k.
Proof.
  intros Hx Hk.
  assert (Z.land x (u64 (Z.lnot (2 ^ k - 1))) = Z.ldiff x (Z.ones k)) as ->.
  { unfold wrap. rewrite <- Z.land_ones by lia.
    rewrite Z.land_comm, <- Z.land_assoc, (Z.land_comm (Z.ones 64)), Z.land_ones by lia.
    rewrite Z.mod_small by lia.
    rewrite Z.ldiff_land, Z.land_comm, Z.ones_equiv. f_equal. }
  rewrite Z.ldiff_ones_r by lia.
  rewrite Z.shiftl_mul_pow2, Z.shiftr_div_pow2 by lia.
  pose proof (Z.div_mod x (2 ^ k) ltac:(lia)). lia.
Qed.

Lemma round_down_pow2 x k :
  0 <= x < 2 ^ 64 -> 0 <= k < 64 ->
  NCCL_OFI_ROUND_DOWN x (2 ^ k) = x - x mod 2 ^ k.
Proof.
  intros Hx Hk. unfold NCCL_OFI_ROUND_DOWN.
  assert (0 < 2 ^ k) by lia. assert (2 ^ k < 2 ^ 64) by (apply Z.pow_lt_mono_r; lia).
  rewrite (wrap_small 64 (2 ^ k - 1)) by lia. by apply land_clear_low.
Qed.

Lemma round_up_pow2 x k :
  0 <= x -> 0 <= k < 64 -> x + 2 ^ k - 1 < 2 ^ 64 ->
  NCCL_OFI_ROUND_UP x (2 ^ k) = NCCL_OFI_DIV_CEIL x (2 ^ k) * 2 ^ k.
Proof.
  intros Hx Hk Hb. unfold NCCL_OFI_ROUND_UP.
  assert (0 < 2 ^ k) by lia. assert (2 ^ k < 2 ^ 64) by (apply Z.pow_lt_mono_r; lia).
  rewrite !(wrap_small 64) by (rewrite ?wrap_small; lia).
  rewrite round_down_pow2 by lia.
  unfold NCCL_OFI_DIV_CEIL. split_if.
  - subst. rewrite Z.add_0_l, Z.mod_small; lia.
  - replace (x + (2 ^ k - 1)) with ((x - 1) + 1 * 2 ^ k) by lia.
    rewrite Z.mod_add by lia.
    pose proof (Z.div_mod (x - 1) (2 ^ k) ltac:(lia)). lia.
Qed.

Lemma is_aligned_pow2 x k :
  0 <= x < 2 ^ 64 -> 0 <= k < 64 ->
  NCCL_OFI_IS_ALIGNED x (2 ^ k) = true <-> (2 ^ k | x).
Proof.
  intros Hx Hk. unfold NCCL_OFI_IS_ALIGNED.
  assert (0 < 2 ^ k) by lia. assert (2 ^ k < 2 ^ 64) by (apply Z.pow_lt_mono_r; lia).
  rewrite wrap_small by lia.
  replace (2 ^ k - 1) with (Z.ones k) by (rewrite Z.ones_equiv; lia).
  rewrite Z.land_ones, Z.eqb_eq by lia.
  rewrite Z.mod_divide by lia. done.
Qed.

Lemma is_power_of_two_spec x :
  0 <= x < 2 ^ 64 ->
  NCCL_OFI_IS_POWER_OF_TWO x = true <-> exists k, 0 <= k < 64 /\ x = 2 ^ k.
Proof.
  intros Hx. unfold NCCL_OFI_IS_POWER_OF_TWO.
  rewrite andb_true_iff, negb_true_iff, Z.eqb_neq, Z.eqb_eq. split.
  - intros [Hnz Hl]. rewrite wrap_small in Hl by lia.
    set (k := Z.log2 x).
    assert (2 ^ k <= x < 2 ^ Z.succ k) as Hk by (apply Z.log2_spec; lia).
    assert (0 <= k) by apply Z.log2_nonneg.
    exists k. split.
    + split; [done|]. apply (Z.pow_lt_mono_r_iff 2); lia.
    + destruct (decide (x = 2 ^ k)) as [|Hne]; [done|exfalso].
      (* bit [k] is set both in [x] and in [x - 1] *)
      assert (Z.testbit (Z.land x (x - 1)) k = true) as Hb; [|by rewrite Hl, Z.bits_0 in Hb].
      rewrite Z.land_spec, andb_true_iff.
      split.
      * unfold k. apply Z.bit_log2. lia.
      * replace k with (Z.log2 (x - 1)); [apply Z.bit_log2; lia|].
        apply Z.log2_unique; lia.
  - intros (k & Hk & ->). assert (0 < 2 ^ k) by lia. split; [lia|].
    assert (2 ^ k < 2 ^ 64) by (apply Z.pow_lt_mono_r; lia).
    rewrite wrap_small by lia.
    replace (2 ^ k - 1) with (Z.ones k) by (rewrite Z.ones_equiv; lia).
    rewrite Z.land_ones by lia. apply Z.mod_same. lia.
Qed.

(** The alignment macros at [size_t]. A value that passes the power-of-two
    test is a valid alignment: the alignment test is divisibility, rounding down
    gives the largest multiple not above [x], and rounding up gives the smallest
    multiple not below it unless the addition inside it overflows. *)
Theorem alignment_macros x y :
  0 <= x < 2 ^ 64 -> 0 <= y < 2 ^ 64 -> NCCL_OFI_IS_POWER_OF_TWO y = true ->
  (NCCL_OFI_IS_ALIGNED x y = true <-> (y | x)) /\
  (exists q, NCCL_OFI_ROUND_DOWN x y = q * y /\ q * y <= x < (q + 1) * y) /\
  (x + y - 1 < 2 ^ 64 -> exists q, NCCL_OFI_ROUND_UP x y = q * y /\ (q - 1) * y < x <= q * y).
Proof.
  intros Hx Hy Hp. apply is_power_of_two_spec in Hp as (k & Hk & ->); [|done].
  split; [by apply is_aligned_pow2|]. split.
  - exists (x / 2 ^ k). rewrite round_down_pow2 by done.
    pose proof (Z.div_mod x (2 ^ k) ltac:(lia)). pose proof (Z.mod_pos_bound x (2 ^ k) ltac:(lia)). lia.
  - intros Hov. exists (NCCL_OFI_DIV_CEIL x (2 ^ k)). rewrite round_up_pow2 by lia.
    pose proof (div_ceil_bounds x (2 ^ k) ltac:(lia) ltac:(lia)). lia.
Qed.

Lemma alignment_macros_witness :
  (NCCL_OFI_IS_ALIGNED 5000 4096 = true <-> (4096 | 5000)) /\
  (exists q, NCCL_OFI_ROUND_DOWN 5000 4096 = q * 4096 /\ q * 4096 <= 5000 < (q + 1) * 4096) /\
  (5000 + 4096 - 1 < 2 ^ 64 ->
   exists q, NCCL_OFI_ROUND_UP 5000 4096 = q * 4096 /\ (q - 1) * 4096 < 5000 <= q * 4096).
Proof. apply (alignment_macros 5000 4096); [lia|lia|reflexivity]. Defined.
