(* ===== verification/StateM.v ===== *)
(** * Stateful code: a state monad with undefined behaviour

    The functions of the two transports and of the registration code change a
    shared state. They are written in the monad [SM W] over the state [W] of
    their component: [None] is a failed assertion, a NULL or dangling pointer, an
    index outside an array, or a loop out of fuel. Two ways to reason about them:
    [step] runs a function by lemmas on the calls it makes, and [wp m Q w] says
    that [m] runs to its end from [w] and that [Q] holds of its result; [wp_or C m
    Q w] says the same of code that crashes when [C] holds. *)

From S2P Require Import Prelude.

Definition SM (W A : Type) : Type := W -> option (A * W).

Section Operations.
Context {W : Type}.

Definition ret {A} (a : A) : SM W A := fun w => Some (a, w).
Definition bind {A B} (m : SM W A) (k : A -> SM W B) : SM W B :=
  fun w => match m w with Some (a, w') => k a w' | None => None end.
Definition undefined {A} : SM W A := fun _ => None.
Definition assert (b : bool) : SM W unit := if b then ret tt else undefined.
Definition gets {A} (f : W -> A) : SM W A := fun w => Some (f w, w).
Definition modify (f : W -> W) : SM W unit := fun w => Some (tt, f w).
Definition of_option {A} (o : option A) : SM W A := match o with Some a => ret a | None => undefined end.

End Operations.

Notation "'let*' x ':=' m 'in' k" := (bind m (fun x => k))
  (at level 10, x pattern, m at level 100, k at level 200) : ofi_scope.
Notation "m ;;; k" := (bind m (fun _ => k))
  (at level 100, k at level 200, right associativity) : ofi_scope.
Open Scope ofi_scope.

(** ** Running a function *)

Lemma bind_ok {W A B} (m : SM W A) (k : A -> SM W B) w a w' :
  m w = Some (a, w') -> bind m k w = k a w'.
Proof. intros H. unfold bind. by rewrite H. Qed.

Lemma bind_inv {W A B} (m : SM W A) (k : A -> SM W B) w b w' :
  bind m k w = Some (b, w') -> exists a w1, m w = Some (a, w1) /\ k a w1 = Some (b, w').
Proof. unfold bind. destruct (m w) as [[a w1]|]; [eauto|done]. Qed.

(** Run the next step of a monadic goal [bind m k w = _] by a lemma on [m]. *)
Ltac step lem := rewrite (bind_ok _ _ _ _ _ lem); cbn beta iota.

(** ** Parts of the state a function leaves alone *)

Definition keeps {W A T} (f : W -> T) (m : SM W A) : Prop :=
  forall w a w', m w = Some (a, w') -> f w' = f w.

Section Keeps.
Context {W T : Type} (f : W -> T).

Lemma keeps_ret {A} (a : A) : keeps f (ret a).
Proof. intros w b w' H. by injection H as <- <-. Qed.

Lemma keeps_bind {A B} (m : SM W A) (k : A -> SM W B) :
  keeps f m -> (forall a, keeps f (k a)) -> keeps f (bind m k).
Proof.
  intros Hm Hk w b w' H. apply bind_inv in H as (a & w1 & H1 & H2).
  by rewrite (Hk _ _ _ _ H2), (Hm _ _ _ H1).
Qed.

Lemma keeps_gets {A} (g : W -> A) : keeps f (gets g).
Proof. intros w b w' H. by injection H as <- <-. Qed.

Lemma keeps_undefined {A} : keeps f (@undefined W A).
Proof. done. Qed.

Lemma keeps_modify g : (forall w, f (g w) = f w) -> keeps f (modify g).
Proof. intros Hg w b w' H. by injection H as <- <-. Qed.

End Keeps.

Create HintDb keeps discriminated.

(** ** Total correctness *)

Definition wp {W A} (m : SM W A) (Q : A -> W -> Prop) (w : W) : Prop :=
  match m w with Some (a, w') => Q a w' | None => False end.

Section Wp.
Context {W : Type}.

Lemma wp_run {A} (m : SM W A) Q w :
  wp m Q w <-> exists a w', m w = Some (a, w') /\ Q a w'.
Proof.
  unfold wp. destruct (m w) as [[a w']|]; split; [eauto| |done|].
  - by intros (? & ? & [= <- <-] & ?).
  - by intros (? & ? & ? & ?).
Qed.

Lemma wp_value {A} (m : SM W A) (Q : A -> W -> Prop) w a w' : wp m Q w -> m w = Some (a, w') -> Q a w'.
Proof. unfold wp. intros H Hm. by rewrite Hm in H. Qed.

Lemma wp_mono {A} (m : SM W A) (Q Q' : A -> W -> Prop) w :
  wp m Q w -> (forall a w', Q a w' -> Q' a w') -> wp m Q' w.
Proof. unfold wp. destruct (m w) as [[a w']|]; auto. Qed.

Lemma wp_bind {A B} (m : SM W A) (k : A -> SM W B) Q w :
  wp m (fun a => wp (k a) Q) w -> wp (bind m k) Q w.
Proof. unfold wp, bind. by destruct (m w) as [[a w']|]. Qed.

Lemma wp_bind_inv {A B} (m : SM W A) (k : A -> SM W B) Q w :
  wp (bind m k) Q w -> wp m (fun a => wp (k a) Q) w.
Proof. unfold wp, bind. by destruct (m w) as [[a w']|]. Qed.

Lemma wp_ret {A} (a : A) (Q : A -> W -> Prop) w : Q a w -> wp (ret a) Q w.
Proof. done. Qed.

Lemma wp_gets {A} (f : W -> A) (Q : A -> W -> Prop) w : Q (f w) w -> wp (gets f) Q w.
Proof. done. Qed.

Lemma wp_modify f (Q : unit -> W -> Prop) w : Q tt (f w) -> wp (modify f) Q w.
Proof. done. Qed.

Lemma wp_assert b (Q : unit -> W -> Prop) w : b = true -> Q tt w -> wp (assert b) Q w.
Proof. by intros ->. Qed.

Lemma wp_of_option {A} o (a : A) (Q : A -> W -> Prop) w : o = Some a -> Q a w -> wp (of_option o) Q w.
Proof. by intros ->. Qed.

(** A call whose result is known. *)
Lemma wp_call {A B} (m : SM W A) (k : A -> SM W B) Q w a w' :
  m w = Some (a, w') -> wp (k a) Q w' -> wp (bind m k) Q w.
Proof. intros H. unfold wp. by rewrite (bind_ok _ _ _ _ _ H). Qed.

(** Undefined behaviour: in the first function or in what follows it. *)
Lemma bind_fails {A B} (m : SM W A) (k : A -> SM W B) w : m w = None -> bind m k w = None.
Proof. intros H. unfold bind. by rewrite H. Qed.

Lemma wp_fails {A B} (m : SM W A) (k : A -> SM W B) w :
  wp m (fun a w' => k a w' = None) w -> bind m k w = None.
Proof. unfold wp, bind. by destruct (m w) as [[a w']|]. Qed.

End Wp.

(** ** Correctness up to a known crash *)

(** [m] runs to its end and [Q] holds of its result, or it does not and [C] is why. *)
Definition wp_or {W A} (C : Prop) (m : SM W A) (Q : A -> W -> Prop) (w : W) : Prop :=
  match m w with Some (a, w') => Q a w' | None => C end.

Section WpOr.
Context {W : Type} (C : Prop).

Lemma wp_or_wp {A} (m : SM W A) Q w : wp m Q w -> wp_or C m Q w.
Proof. unfold wp, wp_or. by destruct (m w) as [[a w']|]. Qed.

Lemma wp_or_crash {A} (m : SM W A) Q w : C -> m w = None -> wp_or C m Q w.
Proof. unfold wp_or. by intros HC ->. Qed.

Lemma wp_or_run {A} (m : SM W A) Q w :
  wp_or C m Q w -> (exists a w', m w = Some (a, w') /\ Q a w') \/ (m w = None /\ C).
Proof. unfold wp_or. destruct (m w) as [[a w']|]; eauto. Qed.

Lemma wp_or_value {A} (m : SM W A) (Q : A -> W -> Prop) w a w' : wp_or C m Q w -> m w = Some (a, w') -> Q a w'.
Proof. unfold wp_or. intros H Hm. by rewrite Hm in H. Qed.

Lemma wp_or_mono {A} (m : SM W A) (Q Q' : A -> W -> Prop) w :
  wp_or C m Q w -> (forall a w', Q a w' -> Q' a w') -> wp_or C m Q' w.
Proof. unfold wp_or. destruct (m w) as [[a w']|]; auto. Qed.

Lemma wp_or_bind {A B} (m : SM W A) (k : A -> SM W B) Q w :
  wp_or C m (fun a => wp_or C (k a) Q) w -> wp_or C (bind m k) Q w.
Proof. unfold wp_or, bind. by destruct (m w) as [[a w']|]. Qed.

End WpOr.

(** Run the simple steps at the head of a [wp] or [wp_or] goal, without unfolding
    calls. *)
Ltac wp_simpl :=
  repeat
    (cbn beta iota;
     lazymatch goal with
     | |- wp (bind _ _) _ _ => apply wp_bind
     | |- wp (ret _) _ _ => apply wp_ret
     | |- wp (gets _) _ _ => apply wp_gets
     | |- wp (modify _) _ _ => apply wp_modify
     | |- wp_or _ (bind _ _) _ _ => apply wp_or_bind
     | |- wp_or _ (ret _) _ _ => apply wp_or_wp, wp_ret
     | |- wp_or _ (gets _) _ _ => apply wp_or_wp, wp_gets
     | |- wp_or _ (modify _) _ _ => apply wp_or_wp, wp_modify
     end).

(** A call specified by [lem : wp m Q' w]: go on from its result. *)
Ltac wp_use lem :=
  lazymatch goal with |- wp (bind _ _) _ _ => apply wp_bind | _ => idtac end;
  eapply wp_mono; [eapply lem|cbn beta].
