(* ===== verification/DLinks.v ===== *)
(** * Doubly linked lists in memory

    A memory is a map from addresses to records; two fields of the record link it to
    its neighbours. Shared by the hash tables of uthash.h and the lists of utlist.h. *)

From S2P Require Import Prelude.

Module DLinks.

Open Scope Z_scope.

Definition hd0 (q : Z) (l : list Z) : Z := match l with [] => q | a :: _ => a end.

Lemma alter_fmap {A B} (g : A -> B) f a (m : gmap Z A) : (forall h, g (f h) = g h) -> g <$> alter f a m = g <$> m.
Proof.
  intros Hf. apply map_eq. intros i. rewrite !lookup_fmap. destruct (decide (i = a)) as [->|]; [rewrite lookup_alter_eq|by rewrite lookup_alter_ne].
  destruct (m !! a); cbn; [by rewrite Hf|done].
Qed.

(** ** Doubly linked lists through two fields of a record *)

Section Links.
Context {R : Type} (pf nf : R -> Z) (sp sn : Z -> R -> R).
Context (pf_sp : forall p h, pf (sp p h) = p) (nf_sp : forall p h, nf (sp p h) = nf h).
Context (pf_sn : forall n h, pf (sn n h) = pf h) (nf_sn : forall n h, nf (sn n h) = n).

(** The elements of [l] are linked in both directions; [p] comes before the first,
    [q] after the last. *)
Fixpoint dll (m : gmap Z R) (p : Z) (l : list Z) (q : Z) : Prop :=
  match l with
  | [] => True
  | a :: l' => (exists h, m !! a = Some h /\ pf h = p /\ nf h = hd0 q l') /\ dll m a l' q
  end.

Lemma dll_app m p l1 l2 q : dll m p (l1 ++ l2) q <-> dll m p l1 (hd0 q l2) /\ dll m (List.last l1 p) l2 q.
Proof.
  revert p. induction l1 as [|a l1 IH]; intros p; [cbn; tauto|]. cbn [app dll]. rewrite IH, list_last_cons.
  assert (hd0 q (l1 ++ l2) = hd0 (hd0 q l2) l1) as -> by (by destruct l1). tauto.
Qed.

Lemma dll_elem m p l q a : dll m p l q -> a ∈ l -> is_Some (m !! a).
Proof.
  revert p. induction l as [|b l IH]; intros p Hd Ha; [by apply elem_of_nil in Ha|]. destruct Hd as [(h & Hh & _) Hd].
  apply elem_of_cons in Ha as [->|Ha]; [by exists h|by apply (IH b)].
Qed.

Definition view (h : R) : Z * Z := (pf h, nf h).

Lemma dll_ext m m' p l q : (forall a, a ∈ l -> view <$> m' !! a = view <$> m !! a) -> dll m p l q -> dll m' p l q.
Proof.
  revert p. induction l as [|a l IH]; intros p Heq Hd; [done|]. destruct Hd as [(h & Hh & Hp & Hn) Hd]. split.
  - specialize (Heq a ltac:(left)). rewrite Hh in Heq. destruct (m' !! a) as [h'|]; [|done]. injection Heq as H1 H2. exists h'. split; [done|]. by rewrite H1, H2.
  - apply IH; [|done]. intros b Hb. apply Heq. by right.
Qed.

Lemma dll_alter f m p l q a : a ∉ l -> dll m p l q -> dll (alter f a m) p l q.
Proof. intros Ha. apply dll_ext. intros b Hb. rewrite lookup_alter_ne; [done|]. by intros ->. Qed.

Lemma dll_set_first m p p' l q : NoDup l -> dll m p l q -> dll (alter (sp p') (hd0 NULL l) m) p' l q.
Proof using pf_sp nf_sp.
  destruct l as [|a l]; [done|]. intros [Ha Hnd]%NoDup_cons [(h & Hh & Hp & Hn) Hd]. cbn [hd0]. split; [|by apply dll_alter].
  exists (sp p' h). rewrite lookup_alter_eq, Hh. split; [done|]. by rewrite pf_sp, nf_sp.
Qed.

Lemma dll_set_last m p l b q q' : NoDup (l ++ [b]) -> dll m p (l ++ [b]) q -> dll (alter (sn q') b m) p (l ++ [b]) q'.
Proof using pf_sn nf_sn.
  intros (_ & Hb & _)%NoDup_app [Hl [(h & Hh & Hp & _) _]]%dll_app. apply dll_app. cbn [hd0 dll]. split.
  - apply dll_alter; [|done]. intros Hin. apply (Hb b Hin). left.
  - split; [|done]. exists (sn q' h). rewrite lookup_alter_eq, Hh. split; [done|]. by rewrite pf_sn, nf_sn.
Qed.

(** Taking [a] out: its neighbours are linked to each other. *)
Definition unlink (p n : Z) (m : gmap Z R) : gmap Z R :=
  let m1 := if p =? NULL then m else alter (sn n) p m in
  if n =? NULL then m1 else alter (sp p) n m1.

Lemma unlink_dll m l1 a l2 :
  NoDup (l1 ++ a :: l2) -> NULL ∉ l1 ++ a :: l2 -> dll m NULL (l1 ++ a :: l2) NULL ->
  dll (unlink (List.last l1 NULL) (hd0 NULL l2) m) NULL (l1 ++ l2) NULL.
Proof using pf_sp nf_sp pf_sn nf_sn.
  intros Hnd H0 [H1 [_ H2]]%dll_app. cbn [hd0] in H1. apply NoDup_app in Hnd as (Hn1 & Hdis & [_ Hn2]%NoDup_cons).
  assert (forall x, x ∈ l1 -> x ∉ l2) as Hd12 by (intros x Hx Hx2; apply (Hdis x Hx); by right).
  unfold unlink. apply dll_app. split.
  - assert (dll (if List.last l1 NULL =? NULL then m else alter (sn (hd0 NULL l2)) (List.last l1 NULL) m) NULL l1 (hd0 NULL l2)) as Hl.
    { destruct l1 as [|b l1 _] using rev_ind; [done|]. rewrite List.last_last, (proj2 (Z.eqb_neq _ _)) by set_solver. by apply dll_set_last with a. }
    destruct (Z.eqb_spec (hd0 NULL l2) NULL) as [_|Hne]; [done|]. destruct l2 as [|c l2]; [done|]. apply dll_alter; [|done]. cbn. intros Hc. apply (Hd12 c Hc). left.
  - assert (dll (if List.last l1 NULL =? NULL then m else alter (sn (hd0 NULL l2)) (List.last l1 NULL) m) a l2 NULL) as Hl.
    { destruct (Z.eqb_spec (List.last l1 NULL) NULL) as [_|Hne]; [done|]. apply dll_alter; [|done]. destruct l1 as [|b l1 _] using rev_ind; [done|]. rewrite List.last_last. apply Hd12. set_solver. }
    destruct l2 as [|c l2]; [done|]. cbn [hd0]. rewrite (proj2 (Z.eqb_neq c NULL)) by set_solver. by apply (dll_set_first _ a _ (c :: l2)).
Qed.

Lemma unlink_out p n m a : a <> p \/ p = NULL -> a <> n \/ n = NULL -> unlink p n m !! a = m !! a.
Proof. intros Hp Hn. unfold unlink. destruct (Z.eqb_spec n NULL), (Z.eqb_spec p NULL); rewrite ?lookup_alter_ne by naive_solver; done. Qed.

(** Fields that the setters do not touch. *)
Lemma unlink_fmap {B} (g : R -> B) p n m :
  (forall x h, g (sp x h) = g h) -> (forall x h, g (sn x h) = g h) -> g <$> unlink p n m = g <$> m.
Proof. intros Hp Hn. unfold unlink. destruct (p =? NULL), (n =? NULL); by rewrite ?alter_fmap. Qed.

End Links.

End DLinks.
