(* ===== verification/Uthash.v ===== *)
(** * uthash.h: the intrusive hash table

    The hash table behind the endpoints of a device and the addresses of an
    endpoint. Elements own a handle with two doubly linked lists: all elements in the
    order of insertion, and the chain of a bucket. The number of buckets doubles when
    a chain gets long. This file has the operations the plug-in uses, UthashInv.v
    shows that they implement a finite map.

    An element and its handle are one address: ELMT_FROM_HH and HH_FROM_ELMT add and
    subtract a constant. A key is the bytes at the key pointer, fewer than 2^32 of
    them. The build has no Bloom filter, and when memory is exhausted the process
    exits (HASH_NONFATAL_OOM is 0): the boolean result of an operation that allocates
    is false then. *)

From S2P Require Import Prelude StateM.

Module Uthash.

Open Scope Z_scope.

(** ** Data *)

Record UT_hash_handle := mk_hh {
  tbl : Z;
  prev : Z;
  next : Z;
  hh_prev : Z;
  hh_next : Z;
  key : list Z;
  keylen : Z;
  hashv : Z;
}.

Record UT_hash_bucket := mk_bkt { hh_head : Z; count : Z; expand_mult : Z }.

Record UT_hash_table := mk_tbl {
  buckets : list UT_hash_bucket;
  num_buckets : Z;
  log2_num_buckets : Z;
  num_items : Z;
  tail : Z;
  ideal_chain_maxlen : Z;
  nonideal_items : Z;
  ineff_expands : Z;
  noexpand : Z;
}.

(** The memory: the handles of live elements, the live tables with their bucket
    arrays, and the number of allocations so far, from which the next address is
    taken. *)
Record mem := mk_mem {
  hhs : gmap Z UT_hash_handle;
  tbls : gmap Z UT_hash_table;
  mallocs : Z;
}.

Abbreviation H := (SM mem).

Definition HASH_INITIAL_NUM_BUCKETS : Z := 32.
Definition HASH_INITIAL_NUM_BUCKETS_LOG2 : Z := 5.
Definition HASH_BKT_CAPACITY_THRESH : Z := 10.

(** sizeof(UT_hash_bucket) and sizeof(UT_hash_table). *)
Definition sizeof_bucket : Z := 16.
Definition sizeof_table : Z := 64.

(** The C allocator: whether the n-th request, for so many bytes, succeeds. *)
Class HashEnv := { malloc_ok : Z -> Z -> bool }.

(** No machine hands out 64 GiB in one piece: above 2^31 buckets the arithmetic of the
    table would wrap. *)
Class MallocBounded `{HashEnv} : Prop := { malloc_bounded n sz : malloc_ok n sz = true -> sz < 2 ^ 36 }.

(** ** Fields *)

Definition w_hhs f (m : mem) := mk_mem (f (hhs m)) (tbls m) (mallocs m).
Definition w_tbls f (m : mem) := mk_mem (hhs m) (f (tbls m)) (mallocs m).

Definition get_hh (a : Z) : H UT_hash_handle := let* m := gets hhs in of_option (m !! a).
Definition upd_hh (a : Z) (f : UT_hash_handle -> UT_hash_handle) : H unit :=
  let* h := get_hh a in modify (w_hhs <[a := f h]>).
Definition get_tbl (t : Z) : H UT_hash_table := let* m := gets tbls in of_option (m !! t).
Definition upd_tbl (t : Z) (f : UT_hash_table -> UT_hash_table) : H unit :=
  let* T := get_tbl t in modify (w_tbls <[t := f T]>).

Definition set_hash (k : list Z) (v : Z) h := mk_hh (tbl h) (prev h) (next h) (hh_prev h) (hh_next h) k (u32 (Z.of_nat (length k))) v.
Definition set_tbl t h := mk_hh t (prev h) (next h) (hh_prev h) (hh_next h) (key h) (keylen h) (hashv h).
Definition set_prev p h := mk_hh (tbl h) p (next h) (hh_prev h) (hh_next h) (key h) (keylen h) (hashv h).
Definition set_next n h := mk_hh (tbl h) (prev h) n (hh_prev h) (hh_next h) (key h) (keylen h) (hashv h).
Definition set_hh_prev p h := mk_hh (tbl h) (prev h) (next h) p (hh_next h) (key h) (keylen h) (hashv h).
Definition set_hh_next n h := mk_hh (tbl h) (prev h) (next h) (hh_prev h) n (key h) (keylen h) (hashv h).

Definition set_buckets b T := mk_tbl b (num_buckets T) (log2_num_buckets T) (num_items T) (tail T) (ideal_chain_maxlen T) (nonideal_items T) (ineff_expands T) (noexpand T).
Definition set_items n T := mk_tbl (buckets T) (num_buckets T) (log2_num_buckets T) n (tail T) (ideal_chain_maxlen T) (nonideal_items T) (ineff_expands T) (noexpand T).
Definition set_tail a T := mk_tbl (buckets T) (num_buckets T) (log2_num_buckets T) (num_items T) a (ideal_chain_maxlen T) (nonideal_items T) (ineff_expands T) (noexpand T).
Definition set_ideal i n T := mk_tbl (buckets T) (num_buckets T) (log2_num_buckets T) (num_items T) (tail T) i n (ineff_expands T) (noexpand T).

(** tbl->buckets[b]. *)
Definition get_bkt (t b : Z) : H UT_hash_bucket := let* T := get_tbl t in of_option (buckets T !! Z.to_nat b).
Definition set_bkt (t b : Z) (bk : UT_hash_bucket) : H unit :=
  get_bkt t b ;;; upd_tbl t (fun T => set_buckets (<[Z.to_nat b := bk]> (buckets T)) T).

(** ** The hash function *)

Definition HASH_JEN_MIX (s : Z * Z * Z) : Z * Z * Z :=
  let '(a, b, c) := s in
  let a := Z.lxor (u32 (u32 (a - b) - c)) (Z.shiftr c 13) in
  let b := Z.lxor (u32 (u32 (b - c) - a)) (u32 (Z.shiftl a 8)) in
  let c := Z.lxor (u32 (u32 (c - a) - b)) (Z.shiftr b 13) in
  let a := Z.lxor (u32 (u32 (a - b) - c)) (Z.shiftr c 12) in
  let b := Z.lxor (u32 (u32 (b - c) - a)) (u32 (Z.shiftl a 16)) in
  let c := Z.lxor (u32 (u32 (c - a) - b)) (Z.shiftr b 5) in
  let a := Z.lxor (u32 (u32 (a - b) - c)) (Z.shiftr c 3) in
  let b := Z.lxor (u32 (u32 (b - c) - a)) (u32 (Z.shiftl a 10)) in
  let c := Z.lxor (u32 (u32 (c - a) - b)) (Z.shiftr b 15) in
  (a, b, c).

Definition word (b0 b1 b2 b3 : Z) : Z := b0 + Z.shiftl b1 8 + Z.shiftl b2 16 + Z.shiftl b3 24.

(** The [n] rounds over blocks of 12 bytes, then the last bytes: a case of the switch
    that is not entered adds nothing, as a byte 0 does. *)
Fixpoint jen_loop (n : nat) (i j h len : Z) (k : list Z) : Z :=
  let b x := nth x k 0 in
  let i := u32 (i + word (b 0%nat) (b 1%nat) (b 2%nat) (b 3%nat)) in
  let j := u32 (j + word (b 4%nat) (b 5%nat) (b 6%nat) (b 7%nat)) in
  match n with
  | S n' =>
      let '(i, j, h) := HASH_JEN_MIX (i, j, u32 (h + word (b 8%nat) (b 9%nat) (b 10%nat) (b 11%nat))) in
      jen_loop n' i j h len (drop 12 k)
  | O => (HASH_JEN_MIX (i, j, u32 (h + len + word 0 (b 8%nat) (b 9%nat) (b 10%nat)))).2
  end.

Definition HASH_JEN (k : list Z) : Z :=
  jen_loop (length k / 12) 2654435769 2654435769 4276993775 (u32 (Z.of_nat (length k))) k.

Definition HASH_TO_BKT (v num_bkts : Z) : Z := Z.land v (u32 (num_bkts - 1)).

Section Operations.
Context {E : HashEnv}.

Definition uthash_malloc (sz : Z) : H (option Z) :=
  let* n := gets mallocs in
  modify (fun m => mk_mem (hhs m) (tbls m) (n + 1)) ;;;
  ret (if malloc_ok n sz then Some (n + 1) else None).

(** ** Look-up *)

(** The chain from [out] on; [fuel] bounds its length. *)
Fixpoint find_in_bkt (fuel : nat) (out : Z) (k : list Z) (v : Z) : H Z :=
  if out =? NULL then ret NULL
  else
    match fuel with
    | O => undefined
    | S fuel' =>
        let* h := get_hh out in
        if (hashv h =? v) && (keylen h =? Z.of_nat (length k)) && bool_decide (key h = k) then ret out
        else find_in_bkt fuel' (hh_next h) k v
    end.

Definition HASH_FIND_IN_BKT (bk : UT_hash_bucket) (k : list Z) (v : Z) : H Z :=
  let* m := gets hhs in find_in_bkt (base.size m) (hh_head bk) k v.

Definition HASH_FIND_BYHASHVALUE (head : Z) (k : list Z) (v : Z) : H Z :=
  if head =? NULL then ret NULL
  else
    let* h := get_hh head in
    let* T := get_tbl (tbl h) in
    let* bk := get_bkt (tbl h) (HASH_TO_BKT v (num_buckets T)) in
    HASH_FIND_IN_BKT bk k v.

Definition HASH_FIND (head : Z) (k : list Z) : H Z :=
  if head =? NULL then ret NULL else HASH_FIND_BYHASHVALUE head k (HASH_JEN k).

(** ** Expansion *)

(** One chain of the old array moves into the new one. *)
Fixpoint move_chain (fuel : nat) (t new_num thh : Z) (new : list UT_hash_bucket) : H (list UT_hash_bucket) :=
  if thh =? NULL then ret new
  else
    match fuel with
    | O => undefined
    | S fuel' =>
        let* h := get_hh thh in
        let nxt := hh_next h in
        let b := Z.to_nat (HASH_TO_BKT (hashv h) new_num) in
        let* bk := of_option (new !! b) in
        let c := u32 (count bk + 1) in
        let* T := get_tbl t in
        let ideal := ideal_chain_maxlen T in
        (if c >? ideal then upd_tbl t (set_ideal ideal (u32 (nonideal_items T + 1))) else ret tt) ;;;
        let mult := if (c >? ideal) && (c >? u32 (expand_mult bk * ideal)) then u32 (expand_mult bk + 1) else expand_mult bk in
        upd_hh thh (set_hh_prev NULL) ;;;
        upd_hh thh (set_hh_next (hh_head bk)) ;;;
        (if negb (hh_head bk =? NULL) then upd_hh (hh_head bk) (set_hh_prev thh) else ret tt) ;;;
        move_chain fuel' t new_num nxt (<[b := mk_bkt thh c mult]> new)
    end.

(** The old buckets from the i-th on, [n] of them. *)
Fixpoint move_all (n i : nat) (t new_num : Z) (new : list UT_hash_bucket) : H (list UT_hash_bucket) :=
  match n with
  | O => ret new
  | S n' =>
      let* bk := get_bkt t (Z.of_nat i) in
      let* m := gets hhs in
      let* new := move_chain (base.size m) t new_num (hh_head bk) new in
      move_all n' (S i) t new_num new
  end.

(** num_items >> (log2_num_buckets + 1) is undefined for a shift by 32 or more. *)
Definition HASH_EXPAND_BUCKETS (t : Z) : H bool :=
  let* T := get_tbl t in
  let* a := uthash_malloc (sizeof_bucket * num_buckets T * 2) in
  match a with
  | None => ret false
  | Some _ =>
      let new_num := u32 (num_buckets T * 2) in
      assert (log2_num_buckets T + 1 <? 32) ;;;
      let ideal := u32 (Z.shiftr (num_items T) (log2_num_buckets T + 1) + (if negb (Z.land (num_items T) (u32 (new_num - 1)) =? 0) then 1 else 0)) in
      upd_tbl t (set_ideal ideal 0) ;;;
      let* new := move_all (Z.to_nat (num_buckets T)) 0 t new_num (replicate (Z.to_nat (num_buckets T * 2)) (mk_bkt NULL 0 0)) in
      let* T := get_tbl t in
      let ineff := if nonideal_items T >? Z.shiftr (num_items T) 1 then u32 (ineff_expands T + 1) else 0 in
      upd_tbl t (fun T => mk_tbl new new_num (u32 (log2_num_buckets T + 1)) (num_items T) (tail T) (ideal_chain_maxlen T) (nonideal_items T) ineff
                                 (if ineff >? 1 then 1 else noexpand T)) ;;;
      ret true
  end.

(** ** Insertion *)

Definition HASH_ADD_TO_BKT (t b add : Z) : H bool :=
  let* bk := get_bkt t b in
  let c := u32 (count bk + 1) in
  upd_hh add (set_hh_next (hh_head bk)) ;;;
  upd_hh add (set_hh_prev NULL) ;;;
  (if negb (hh_head bk =? NULL) then upd_hh (hh_head bk) (set_hh_prev add) else ret tt) ;;;
  set_bkt t b (mk_bkt add c (expand_mult bk)) ;;;
  let* h := get_hh add in
  let* T := get_tbl (tbl h) in
  if (c >=? u32 (u32 (expand_mult bk + 1) * HASH_BKT_CAPACITY_THRESH)) && (noexpand T =? 0) then HASH_EXPAND_BUCKETS (tbl h)
  else ret true.

Definition HASH_MAKE_TABLE (head : Z) : H bool :=
  let* t := uthash_malloc sizeof_table in
  match t with
  | None => ret false
  | Some t =>
      upd_hh head (set_tbl t) ;;;
      let* b := uthash_malloc (HASH_INITIAL_NUM_BUCKETS * sizeof_bucket) in
      match b with
      | None => ret false
      | Some _ =>
          modify (w_tbls <[t := mk_tbl (replicate (Z.to_nat HASH_INITIAL_NUM_BUCKETS) (mk_bkt NULL 0 0)) HASH_INITIAL_NUM_BUCKETS
                                       HASH_INITIAL_NUM_BUCKETS_LOG2 0 head 0 0 0 0]>) ;;;
          ret true
      end
  end.

Definition HASH_APPEND_LIST (head add : Z) : H unit :=
  let* h := get_hh head in
  let* T := get_tbl (tbl h) in
  upd_hh add (set_next NULL) ;;;
  upd_hh add (set_prev (tail T)) ;;;
  upd_hh (tail T) (set_next add) ;;;
  upd_tbl (tbl h) (set_tail add).

Definition HASH_ADD_TO_TABLE (head v add : Z) : H bool :=
  let* h := get_hh head in
  let* T := get_tbl (tbl h) in
  upd_tbl (tbl h) (set_items (u32 (num_items T + 1))) ;;;
  HASH_ADD_TO_BKT (tbl h) (HASH_TO_BKT v (num_buckets T)) add.

(** The new head, and false when the process exits. *)
Definition HASH_ADD_KEYPTR_BYHASHVALUE (head : Z) (k : list Z) (v add : Z) : H (bool * Z) :=
  upd_hh add (set_hash k v) ;;;
  let* (ok, head) :=
    if head =? NULL then
      upd_hh add (set_next NULL) ;;;
      upd_hh add (set_prev NULL) ;;;
      let* ok := HASH_MAKE_TABLE add in
      ret (ok, add)
    else
      let* h := get_hh head in
      upd_hh add (set_tbl (tbl h)) ;;;
      HASH_APPEND_LIST head add ;;;
      ret (true, head) in
  if negb ok then ret (false, head)
  else let* ok := HASH_ADD_TO_TABLE head v add in ret (ok, head).

(** HASH_ADD(hh, head, fieldname, keylen, add); [k] are the bytes of the field. *)
Definition HASH_ADD (head : Z) (k : list Z) (add : Z) : H (bool * Z) := HASH_ADD_KEYPTR_BYHASHVALUE head k (HASH_JEN k) add.

(** ** Deletion *)

Definition HASH_DEL_IN_BKT (t b del : Z) : H unit :=
  let* bk := get_bkt t b in
  let* d := get_hh del in
  set_bkt t b (mk_bkt (if hh_head bk =? del then hh_next d else hh_head bk) (u32 (count bk - 1)) (expand_mult bk)) ;;;
  (if negb (hh_prev d =? NULL) then upd_hh (hh_prev d) (set_hh_next (hh_next d)) else ret tt) ;;;
  (if negb (hh_next d =? NULL) then upd_hh (hh_next d) (set_hh_prev (hh_prev d)) else ret tt).

(** The new head. *)
Definition HASH_DELETE_HH (head del : Z) : H Z :=
  let* d := get_hh del in
  let* h := get_hh head in
  let t := tbl h in
  if (prev d =? NULL) && (next d =? NULL) then
    get_tbl t ;;; modify (w_tbls (delete t)) ;;; ret NULL
  else
    let* T := get_tbl t in
    (if del =? tail T then upd_tbl t (set_tail (prev d)) else ret tt) ;;;
    let* head :=
      if negb (prev d =? NULL) then upd_hh (prev d) (set_next (next d)) ;;; ret head
      else ret (next d) in
    (if negb (next d =? NULL) then upd_hh (next d) (set_prev (prev d)) else ret tt) ;;;
    let* h := get_hh head in
    let* T := get_tbl (tbl h) in
    HASH_DEL_IN_BKT (tbl h) (HASH_TO_BKT (hashv d) (num_buckets T)) del ;;;
    let* T := get_tbl (tbl h) in
    upd_tbl (tbl h) (set_items (u32 (num_items T - 1))) ;;;
    ret head.

Definition HASH_DEL (head del : Z) : H Z := HASH_DELETE_HH head del.

Definition HASH_COUNT (head : Z) : H Z :=
  if head =? NULL then ret 0
  else let* h := get_hh head in let* T := get_tbl (tbl h) in ret (num_items T).

(** ** Iteration and integrity *)

(** HASH_ITER with a body that leaves the table alone: the elements, in order. *)
Fixpoint iter_loop (fuel : nat) (el : Z) : H (list Z) :=
  if el =? NULL then ret []
  else
    match fuel with
    | O => undefined
    | S fuel' => let* h := get_hh el in let* l := iter_loop fuel' (next h) in ret (el :: l)
    end.

Definition HASH_ITER (head : Z) : H (list Z) := let* m := gets hhs in iter_loop (base.size m) head.

(** The walks of HASH_FSCK over a chain and over all elements: the number of elements,
    [None] when a back link is wrong. *)
Fixpoint fsck_chain (fuel : nat) (thh prv cnt : Z) : H (option Z) :=
  if thh =? NULL then ret (Some cnt)
  else
    match fuel with
    | O => undefined
    | S fuel' =>
        let* h := get_hh thh in
        if negb (prv =? hh_prev h) then ret None else fsck_chain fuel' (hh_next h) thh (u32 (cnt + 1))
    end.

Fixpoint fsck_app (fuel : nat) (thh prv cnt : Z) : H (option Z) :=
  if thh =? NULL then ret (Some cnt)
  else
    match fuel with
    | O => undefined
    | S fuel' =>
        let* h := get_hh thh in
        let cnt := u32 (cnt + 1) in
        if negb (prv =? prev h) then ret None else fsck_app fuel' (next h) thh cnt
    end.

Fixpoint fsck_bkts (n i : nat) (t total : Z) : H (option Z) :=
  match n with
  | O => ret (Some total)
  | S n' =>
      let* bk := get_bkt t (Z.of_nat i) in
      let* m := gets hhs in
      let* c := fsck_chain (base.size m) (hh_head bk) NULL 0 in
      match c with
      | None => ret None
      | Some c => if negb (count bk =? c) then ret None else fsck_bkts n' (S i) t (u32 (total + c))
      end
  end.

(** Whether the check passes; if not, the process ends. *)
Definition HASH_FSCK (head : Z) : H bool :=
  if head =? NULL then ret true
  else
    let* h := get_hh head in
    let* T := get_tbl (tbl h) in
    let* total := fsck_bkts (Z.to_nat (num_buckets T)) 0 (tbl h) 0 in
    let* m := gets hhs in
    let* items := fsck_app (base.size m) head NULL 0 in
    ret (bool_decide (total = Some (num_items T)) && bool_decide (items = Some (num_items T))).

End Operations.

End Uthash.
