(* ===== verification/UthashInv.v ===== *)
(** * uthash.h implements a finite map

    The invariant of the table of Uthash.v: the list of all elements and the chains of
    the buckets are well linked, every element is in the chain of its hash value, and
    the counters are right modulo 2^32. Look-up, insertion with expansion and deletion
    preserve it and do what they do on an association list. *)

From S2P Require Import Prelude StateM DLinks Uthash.

Module UthashInv.
Import DLinks Uthash.

Open Scope Z_scope.

Abbreviation app := (dll prev next).
Abbreviation chn := (dll hh_prev hh_next).

(** ** Chains *)

Definition hash_of (m : gmap Z UT_hash_handle) (a : Z) : Z := match m !! a with Some h => hashv h | None => 0 end.

Definition in_bkt (m : gmap Z UT_hash_handle) (nb : Z) (i : nat) (a : Z) : Prop := HASH_TO_BKT (hash_of m a) nb = Z.of_nat i.
#[export] Instance in_bkt_dec m nb i a : Decision (in_bkt m nb i a).
Proof. unfold in_bkt. apply _. Defined.

(** The chain of the i-th bucket has the elements of [L] whose hash value belongs
    there, in some order. *)
Definition chain_ok (m : gmap Z UT_hash_handle) (nb : Z) (bk : UT_hash_bucket) (i : nat) (L : list Z) : Prop :=
  exists c, hh_head bk = hd0 NULL c /\ count bk = u32 (Z.of_nat (length c)) /\ chn m NULL c NULL /\ c ≡ₚ filter (in_bkt m nb i) L.

Definition chains_ok (m : gmap Z UT_hash_handle) (nb : Z) (bs : list UT_hash_bucket) (L : list Z) : Prop :=
  forall i bk, bs !! i = Some bk -> chain_ok m nb bk i L.

(** What the operations on chains leave alone. *)
Definition core (h : UT_hash_handle) : Z * Z * Z * list Z * Z * Z := (tbl h, prev h, next h, key h, keylen h, hashv h).

Lemma fmap_lookup_eq {A B} (g : A -> B) (m m' : gmap Z A) a : g <$> m' = g <$> m -> g <$> m' !! a = g <$> m !! a.
Proof. intros He. by rewrite <- !lookup_fmap, He. Qed.

Lemma core_hash m m' a : core <$> m' = core <$> m -> hash_of m' a = hash_of m a.
Proof. intros He%(fmap_lookup_eq _ _ _ a). unfold hash_of. destruct (m' !! a), (m !! a); cbn in He; unfold core in He; congruence. Qed.

Lemma core_in_bkt m m' nb i (L : list Z) : core <$> m' = core <$> m -> filter (in_bkt m' nb i) L = filter (in_bkt m nb i) L.
Proof. intros He. apply list_filter_iff. intros a. unfold in_bkt. by rewrite (core_hash m m'). Qed.

Lemma u32_succ x : u32 (u32 x + 1) = u32 (x + 1).
Proof. unfold wrap. by rewrite Zplus_mod_idemp_l. Qed.
Lemma u32_pred x : u32 (u32 x - 1) = u32 (x - 1).
Proof. unfold wrap. by rewrite Zminus_mod_idemp_l. Qed.

(** A new first element of a chain that starts at [hd]. *)
Definition push (a hd : Z) (m : gmap Z UT_hash_handle) : gmap Z UT_hash_handle :=
  let m1 := alter (fun h => set_hh_prev NULL (set_hh_next hd h)) a m in
  if hd =? NULL then m1 else alter (set_hh_prev a) hd m1.

Lemma push_core a hd m : core <$> push a hd m = core <$> m.
Proof. unfold push. destruct (hd =? NULL); by rewrite ?alter_fmap. Qed.

Lemma push_out a hd m b : b <> a -> b <> hd \/ hd = NULL -> push a hd m !! b = m !! b.
Proof.
  intros H1 H2. unfold push. destruct (Z.eqb_spec hd NULL); [by rewrite lookup_alter_ne|]. by rewrite !lookup_alter_ne by (done || by intros ->; destruct H2).
Qed.

Lemma push_chn a m c : NoDup (a :: c) -> NULL ∉ a :: c -> is_Some (m !! a) -> chn m NULL c NULL -> chn (push a (hd0 NULL c) m) NULL (a :: c) NULL.
Proof.
  intros [Hac Hnd]%NoDup_cons H0 [h Hh] Hc. unfold push.
  assert (chn (alter (fun h => set_hh_prev NULL (set_hh_next (hd0 NULL c) h)) a m) NULL c NULL) as Hc1 by (by apply dll_alter).
  destruct (Z.eqb_spec (hd0 NULL c) NULL) as [Hz|Hz]; (split; [exists (set_hh_prev NULL (set_hh_next (hd0 NULL c) h)); split; [|done]|]).
  - by rewrite lookup_alter_eq, Hh.
  - destruct c as [|b c]; [done|]. cbn in Hz. set_solver.
  - rewrite lookup_alter_ne, lookup_alter_eq, Hh by (destruct c; [done|]; cbn; set_solver). done.
  - exact (dll_set_first hh_prev hh_next set_hh_prev (fun p h => eq_refl) (fun p h => eq_refl) _ NULL a c NULL Hnd Hc1).
Qed.

Lemma push_chains m nb bs L i bk a mult :
  chains_ok m nb bs L -> NoDup (a :: L) -> NULL ∉ a :: L -> is_Some (m !! a) -> bs !! i = Some bk -> in_bkt m nb i a ->
  chains_ok (push a (hh_head bk) m) nb (<[i := mk_bkt a (u32 (count bk + 1)) mult]> bs) (a :: L).
Proof.
  intros Hok Hnd H0 Ha Hi Hin j bk' Hj. destruct (Hok i bk Hi) as (c & Hhd & Hct & Hch & Hp).
  assert (forall x, x ∈ c -> x ∈ L /\ in_bkt m nb i x) as Hc by (intros x Hx; rewrite Hp in Hx; apply list_elem_of_filter in Hx; tauto).
  pose proof (core_in_bkt m _ nb j (a :: L) (push_core a (hh_head bk) m)) as Hf. apply NoDup_cons in Hnd as [HaL Hnd].
  destruct (decide (j = i)) as [->|Hne].
  - rewrite list_lookup_insert_eq in Hj by (by eapply lookup_lt_Some). injection Hj as <-. exists (a :: c). cbn [hh_head count hd0 length]. split; [done|]. split; [|split].
    + rewrite Hct, u32_succ. f_equal. lia.
    + rewrite Hhd. apply push_chn; [|set_solver|done|done]. apply NoDup_cons. split; [intros Hx; by apply Hc in Hx as [? _]|]. rewrite Hp. by apply NoDup_filter.
    + rewrite Hf, filter_cons, decide_True by done. by rewrite Hp.
  - rewrite list_lookup_insert_ne in Hj by done. destruct (Hok j bk' Hj) as (d & Hhd' & Hct' & Hch' & Hp'). exists d. split_and!; [done|done| |].
    + eapply dll_ext; [|exact Hch']. intros x Hx. rewrite Hp' in Hx. apply list_elem_of_filter in Hx as [Hxj HxL]. rewrite push_out; [done|by intros ->|left].
      rewrite Hhd. intros ->. destruct c as [|y c]; [cbn in HxL; set_solver|]. cbn in Hxj. destruct (Hc y ltac:(left)) as [_ Hy]. unfold in_bkt in *. lia.
    + rewrite Hf, filter_cons, decide_False; [done|]. unfold in_bkt in *. lia.
Qed.

Lemma chains_perm m nb bs L L' : L ≡ₚ L' -> chains_ok m nb bs L -> chains_ok m nb bs L'.
Proof. intros Hp Hok i bk Hi. destruct (Hok i bk Hi) as (c & ? & ? & ? & Hc). exists c. split_and!; [done|done|done|]. by rewrite Hc, Hp. Qed.

Lemma to_bkt_range v lg : 0 <= lg <= 32 -> 0 <= HASH_TO_BKT v (2 ^ lg) < 2 ^ lg.
Proof.
  intros Hlg. assert (1 <= 2 ^ lg <= 2 ^ 32) by (split; [apply (Z.pow_le_mono_r 2 0); lia|apply Z.pow_le_mono_r; lia]).
  unfold HASH_TO_BKT. rewrite wrap_small by lia. rewrite Z.sub_1_r, <- Z.ones_equiv, Z.land_ones by lia. apply Z.mod_pos_bound. lia.
Qed.

(** Chains, followed in one direction. *)
Fixpoint sll (m : gmap Z UT_hash_handle) (l : list Z) : Prop :=
  match l with [] => True | a :: l' => (exists h, m !! a = Some h /\ hh_next h = hd0 NULL l') /\ sll m l' end.

Lemma sll_dll m p l : chn m p l NULL -> sll m l.
Proof. revert p. induction l as [|a l IH]; [done|]. intros p [(h & Hh & _ & Hn) Hd]. split; [by exists h|by apply (IH a)]. Qed.

Lemma sll_ext m m' l : (forall a, a ∈ l -> m' !! a = m !! a) -> sll m l -> sll m' l.
Proof.
  induction l as [|a l IH]; [done|]. intros He [(h & Hh & Hn) Hl]. split; [exists h; by rewrite He by left|]. apply IH; [|done]. intros b Hb. apply He. by right.
Qed.

(** Distinct keys of a map are at most as many as its elements. *)
Lemma nodup_size {A} (m : gmap Z A) (l : list Z) : NoDup l -> (forall a, a ∈ l -> is_Some (m !! a)) -> (length l <= base.size m)%nat.
Proof.
  intros Hnd Hl. rewrite <- size_dom, <- (size_list_to_set (C := gset Z) l Hnd). apply subseteq_size. intros a Ha. rewrite elem_of_list_to_set in Ha. apply elem_of_dom. by apply Hl.
Qed.

Lemma last_elem (l : list Z) d : l <> [] -> List.last l d ∈ l.
Proof. destruct l as [|x l _] using rev_ind; [done|]. intros _. rewrite List.last_last. set_solver. Qed.

(** ** Steps *)

Section Steps.
Context (Q : unit -> mem -> Prop).

Lemma upd_hh_wp a f m : is_Some (hhs m !! a) -> Q tt (w_hhs (alter f a) m) -> wp (upd_hh a f) Q m.
Proof.
  intros [h Hh] HQ. unfold upd_hh, get_hh. wp_simpl. eapply wp_of_option; [exact Hh|]. wp_simpl. assert (<[a := f h]> (hhs m) = alter f a (hhs m)) as He.
  { apply map_eq. intros i. destruct (decide (i = a)) as [->|]; [by rewrite lookup_insert_eq, lookup_alter_eq, Hh|by rewrite lookup_insert_ne, lookup_alter_ne]. }
  unfold w_hhs in *. by rewrite He.
Qed.

Lemma upd_tbl_wp t f T m : tbls m !! t = Some T -> Q tt (w_tbls <[t := f T]> m) -> wp (upd_tbl t f) Q m.
Proof. intros HT HQ. unfold upd_tbl, get_tbl. wp_simpl. eapply wp_of_option; [exact HT|]. by wp_simpl. Qed.

Lemma set_bkt_wp t b bk bk0 T m :
  tbls m !! t = Some T -> buckets T !! Z.to_nat b = Some bk0 -> Q tt (w_tbls <[t := set_buckets (<[Z.to_nat b := bk]> (buckets T)) T]> m) -> wp (set_bkt t b bk) Q m.
Proof.
  intros HT Hb HQ. unfold set_bkt, get_bkt, get_tbl. wp_simpl. eapply wp_of_option; [exact HT|]. eapply wp_of_option; [exact Hb|].
  unfold upd_tbl, get_tbl. wp_simpl. eapply wp_of_option; [exact HT|]. by wp_simpl.
Qed.

End Steps.

Lemma get_hh_wp a h Q m : hhs m !! a = Some h -> Q h m -> wp (get_hh a) Q m.
Proof. intros Hh HQ. unfold get_hh. wp_simpl. by eapply wp_of_option. Qed.

Lemma get_tbl_wp t T Q m : tbls m !! t = Some T -> Q T m -> wp (get_tbl t) Q m.
Proof. intros Hh HQ. unfold get_tbl. wp_simpl. by eapply wp_of_option. Qed.

Lemma get_bkt_wp t b T bk Q m : tbls m !! t = Some T -> buckets T !! Z.to_nat b = Some bk -> Q bk m -> wp (get_bkt t b) Q m.
Proof. intros HT Hb HQ. unfold get_bkt. wp_simpl. eapply get_tbl_wp; [exact HT|]. by eapply wp_of_option. Qed.

(** ** Expansion *)

Lemma push_wp {B} a hd (k : H B) Q m :
  is_Some (hhs m !! a) -> (hd <> NULL -> is_Some (hhs m !! hd)) ->
  wp k Q (w_hhs (push a hd) m) ->
  wp (upd_hh a (set_hh_prev NULL) ;;; upd_hh a (set_hh_next hd) ;;; (if negb (hd =? NULL) then upd_hh hd (set_hh_prev a) else ret tt) ;;; k) Q m.
Proof.
  intros Ha Hhd Hk. wp_simpl. apply upd_hh_wp; [done|]. wp_simpl. apply upd_hh_wp; [by apply lookup_alter_is_Some|]. wp_simpl.
  assert (w_hhs (alter (set_hh_next hd) a) (w_hhs (alter (set_hh_prev NULL) a) m) = w_hhs (alter (fun h => set_hh_prev NULL (set_hh_next hd h)) a) m) as ->.
  { unfold w_hhs. cbn [hhs tbls mallocs]. by rewrite alter_alter_eq. }
  unfold push in Hk. destruct (Z.eqb_spec hd NULL) as [_|Hne]; cbn [negb]; [by wp_simpl|]. apply upd_hh_wp; [by apply lookup_alter_is_Some, Hhd|exact Hk].
Qed.

(** The same with the first two in the other order. *)
Lemma push_wp' {B} a hd (k : H B) Q m :
  is_Some (hhs m !! a) -> (hd <> NULL -> is_Some (hhs m !! hd)) ->
  wp k Q (w_hhs (push a hd) m) ->
  wp (upd_hh a (set_hh_next hd) ;;; upd_hh a (set_hh_prev NULL) ;;; (if negb (hd =? NULL) then upd_hh hd (set_hh_prev a) else ret tt) ;;; k) Q m.
Proof.
  intros Ha Hhd Hk%(push_wp a hd k Q m); [|done|done]. assert (forall f g (K : H B), (forall h, f (g h) = g (f h)) -> (upd_hh a f ;;; upd_hh a g ;;; K) m = (upd_hh a g ;;; upd_hh a f ;;; K) m) as Hswap.
  { intros f g K Hfg. destruct Ha as [h Hh]. unfold upd_hh, get_hh, bind, gets, of_option, modify. rewrite Hh. cbn. rewrite !lookup_insert_eq. cbn. unfold w_hhs. cbn. by rewrite !insert_insert_eq, Hfg. }
  unfold wp. by rewrite Hswap.
Qed.

Section Expand.
Context (t lg : Z) (Hlg : 0 <= lg <= 32).

(** What moving the elements [S] does to the memory. *)
Definition moved (X : gmap Z UT_hash_handle) (Y : gmap Z UT_hash_table) (n : Z) (T : UT_hash_table) (S : list Z) (m : mem) : Prop :=
  exists X' k, m = mk_mem X' (<[t := set_ideal (ideal_chain_maxlen T) k T]> Y) n /\ core <$> X' = core <$> X /\ forall a, a ∉ S -> X' !! a = X !! a.

Lemma move_chain_wp c : forall fuel X Y n T new P,
  (length c <= fuel)%nat -> NoDup (c ++ P) -> NULL ∉ c ++ P -> sll X c -> chains_ok X (2 ^ lg) new P -> length new = Z.to_nat (2 ^ lg) -> Y !! t = Some T ->
  wp (move_chain fuel t (2 ^ lg) (hd0 NULL c) new)
    (fun new' m => moved X Y n T (c ++ P) m /\ length new' = length new /\ chains_ok (hhs m) (2 ^ lg) new' (c ++ P)) (mk_mem X Y n).
Proof using Hlg.
  induction c as [|a c IH]; intros fuel X Y n T new P Hf Hnd H0 Hs Hok Hlen HT.
  { destruct fuel; cbn [hd0 move_chain]; rewrite Z.eqb_refl; wp_simpl; (split_and!; [|done|done]); exists X, (nonideal_items T); (split_and!; [|done|done]); rewrite insert_id; try done; destruct T; done. }
  destruct fuel as [|fuel]; [cbn in Hf; lia|]. cbn [hd0 move_chain]. rewrite (proj2 (Z.eqb_neq a NULL)) by set_solver. destruct Hs as [(h & Hh & Hn) Hs].
  wp_simpl. eapply get_hh_wp; [exact Hh|]. pose proof (to_bkt_range (hashv h) lg Hlg) as Hr. set (b := Z.to_nat (HASH_TO_BKT (hashv h) (2 ^ lg))).
  destruct (lookup_lt_is_Some_2 new b) as [bk Hbk]; [subst b; lia|]. wp_simpl. eapply wp_of_option; [exact Hbk|]. wp_simpl. eapply get_tbl_wp; [exact HT|]. wp_simpl.
  set (mult := if _ && _ then _ else _). cbn [app] in Hnd, H0.
  assert (forall k, wp (upd_hh a (set_hh_prev NULL);;; upd_hh a (set_hh_next (hh_head bk));;; (if negb (hh_head bk =? NULL) then upd_hh (hh_head bk) (set_hh_prev a) else ret tt);;;
     move_chain fuel t (2 ^ lg) (hh_next h) (<[b := mk_bkt a (u32 (count bk + 1)) mult]> new))
    (fun new' m => moved X Y n T ((a :: c) ++ P) m /\ length new' = length new /\ chains_ok (hhs m) (2 ^ lg) new' ((a :: c) ++ P))
    (mk_mem X (<[t := set_ideal (ideal_chain_maxlen T) k T]> Y) n)) as Hgo.
  { intros k. destruct (Hok b bk Hbk) as (d & Hd & _ & Hch & Hp). assert (forall x, x ∈ d -> x ∈ P) as HdP by (intros x; rewrite Hp; intros [_ ?]%list_elem_of_filter; done).
    assert (hh_head bk = NULL \/ hh_head bk ∈ P) as Hhd by (rewrite Hd; destruct d as [|y d]; [by left|right; apply HdP; left]).
    apply push_wp; [by exists h| |].
    { intros Hne. rewrite Hd in *. destruct d as [|y d]; [done|]. eapply (dll_elem hh_prev hh_next); [exact Hch|left]. }
    unfold w_hhs. cbn [hhs tbls mallocs]. rewrite Hn. eapply wp_mono; [apply (IH fuel _ _ n (set_ideal (ideal_chain_maxlen T) k T) _ (a :: P))|].
    - cbn in Hf. lia.
    - by rewrite <- Permutation_middle.
    - by rewrite <- Permutation_middle.
    - eapply sll_ext; [|exact Hs]. intros x Hx. apply NoDup_cons in Hnd as [Hna Hnd]. apply NoDup_app in Hnd as (_ & Hdis & _). apply push_out; [set_solver|]. destruct Hhd as [->|HP]; [by right|left]. intros ->. by apply (Hdis (hh_head bk)).
    - apply push_chains; [done|..]; [|set_solver|by exists h|done|]. { apply NoDup_cons in Hnd as [Hna Hnd]. apply NoDup_app in Hnd as (_ & _ & Hnd). apply NoDup_cons. set_solver. }
      unfold in_bkt, hash_of. rewrite Hh. subst b. lia.
    - by rewrite length_insert.
    - by rewrite lookup_insert_eq.
    - intros new' m ((X' & k' & -> & Hc & Hout) & Hl & Hok'). rewrite length_insert in Hl. split_and!; [|done|].
      + exists X', k'. split_and!; [by rewrite insert_insert_eq|by rewrite Hc, push_core|]. intros x Hx. rewrite Hout by set_solver. apply push_out; [set_solver|]. destruct Hhd as [->|HP]; [by right|left; set_solver].
      + eapply chains_perm; [|exact Hok']. cbn. by rewrite Permutation_middle. }
  destruct (_ >? _); [eapply upd_tbl_wp; [exact HT|]; apply Hgo|]. apply wp_ret. cbv beta.
  specialize (Hgo (nonideal_items T)). rewrite insert_id in Hgo; [exact Hgo|]. by destruct T.
Qed.


Lemma filter_below m nb i (L : list Z) :
  filter (fun a => HASH_TO_BKT (hash_of m a) nb < Z.of_nat (S i)) L ≡ₚ filter (in_bkt m nb i) L ++ filter (fun a => HASH_TO_BKT (hash_of m a) nb < Z.of_nat i) L.
Proof.
  induction L as [|a L IH]; [done|]. rewrite !filter_cons. unfold in_bkt at 1.
  destruct (decide (HASH_TO_BKT (hash_of m a) nb = Z.of_nat i)) as [He|He].
  - rewrite decide_True by lia. rewrite (decide_False (P := _ < Z.of_nat i)) by lia. cbn. by rewrite IH.
  - destruct (decide (HASH_TO_BKT (hash_of m a) nb < Z.of_nat i)) as [Hl|Hl].
    + rewrite decide_True by lia. rewrite <- Permutation_middle. by rewrite IH.
    + rewrite decide_False by lia. done.
Qed.

Lemma move_all_wp nb bs L k : forall i X Y n T new P,
  (i + k = length bs)%nat -> buckets T = bs -> NoDup L -> NULL ∉ L -> (forall a, a ∈ L -> is_Some (X !! a)) ->
  P ≡ₚ filter (fun a => HASH_TO_BKT (hash_of X a) nb < Z.of_nat i) L ->
  (forall j bk, (i <= j)%nat -> bs !! j = Some bk -> exists c, hh_head bk = hd0 NULL c /\ sll X c /\ c ≡ₚ filter (in_bkt X nb j) L) ->
  chains_ok X (2 ^ lg) new P -> length new = Z.to_nat (2 ^ lg) -> Y !! t = Some T ->
  wp (move_all k i t (2 ^ lg) new)
    (fun new' m => moved X Y n T L m /\ length new' = length new /\
       chains_ok (hhs m) (2 ^ lg) new' (filter (fun a => HASH_TO_BKT (hash_of X a) nb < Z.of_nat (length bs)) L)) (mk_mem X Y n).
Proof using Hlg.
  induction k as [|k IH]; intros i X Y n T new P Hik Hbs Hnd H0 HX HP Hold Hok Hlen HT.
  { cbn [move_all]. wp_simpl. split_and!; [|done|].
    - exists X, (nonideal_items T). split_and!; [|done|done]. rewrite insert_id; [done|]. by destruct T.
    - eapply chains_perm; [|exact Hok]. by rewrite HP, <- Hik, Nat.add_0_r. }
  cbn [move_all]. destruct (lookup_lt_is_Some_2 bs i) as [bk Hbk]; [lia|]. wp_simpl. eapply get_bkt_wp; [exact HT|by rewrite Hbs, Nat2Z.id|]. wp_simpl.
  destruct (Hold i bk ltac:(lia) Hbk) as (c & Hhd & Hs & Hc). rewrite Hhd.
  assert (c ++ P ≡ₚ filter (fun a => HASH_TO_BKT (hash_of X a) nb < Z.of_nat (S i)) L) as HcP by (by rewrite filter_below, Hc, HP).
  assert (forall a, a ∈ c ++ P -> a ∈ L) as HcL by (intros a; rewrite HcP; intros [_ ?]%list_elem_of_filter; done).
  assert (NoDup c) as Hndc by (rewrite Hc; by apply NoDup_filter).
  eapply wp_mono; [apply (move_chain_wp c _ X Y n T new P); try done|].
  - apply nodup_size; [done|]. intros a Ha. apply HX, HcL. apply elem_of_app. by left.
  - rewrite HcP. by apply NoDup_filter.
  - intros Hx%HcL. done.
  - intros new' m ((X' & k' & -> & Hcore & Hout) & Hl & Hok'). cbn [hhs] in Hok'.
    eapply wp_mono; [apply (IH (S i) X' _ n (set_ideal (ideal_chain_maxlen T) k' T) new' (c ++ P)); try done|].
    + lia.
    + intros a Ha. pose proof (fmap_lookup_eq _ _ _ a Hcore) as He. destruct (HX a Ha) as [h Hh]. rewrite Hh in He. destruct (X' !! a); [by eexists|done].
    + rewrite HcP. apply Permutation_refl'. apply list_filter_iff. intros a. by rewrite (core_hash X X').
    + intros j bk' Hj Hbk'. destruct (Hold j bk' ltac:(lia) Hbk') as (d & Hd & Hds & Hdp). exists d. split_and!; [done| |by rewrite (core_in_bkt X X')].
      eapply sll_ext; [|exact Hds]. intros a Ha. apply Hout. rewrite HcP. intros [Hlt _]%list_elem_of_filter. rewrite Hdp in Ha. apply list_elem_of_filter in Ha as [Hin _]. unfold in_bkt in Hin. lia.
    + by rewrite Hl.
    + by rewrite lookup_insert_eq.
    + intros new2 m ((X2 & k2 & -> & Hcore2 & Hout2) & Hl2 & Hok2). split_and!; [|congruence|].
      * exists X2, k2. split_and!; [by rewrite insert_insert_eq|congruence|]. intros a Ha. rewrite Hout2 by done. apply Hout. intros Hx%HcL. done.
      * eapply chains_perm; [|exact Hok2]. apply Permutation_refl'. apply list_filter_iff. intros a. by rewrite (core_hash X X').
Qed.

End Expand.

(** ** The invariant *)

Definition elem_ok (X : gmap Z UT_hash_handle) (t a : Z) (k : list Z) : Prop :=
  exists h, X !! a = Some h /\ tbl h = t /\ key h = k /\ keylen h = u32 (Z.of_nat (length k)) /\ hashv h = HASH_JEN k.

(** The table at [t] has the elements [kv] (addresses with their keys) in its list, in
    the order of insertion, and the elements [L] in its chains. *)
Record table_part (X : gmap Z UT_hash_handle) (T : UT_hash_table) (t : Z) (kv : list (Z * list Z)) (L : list Z) : Prop := {
  to_nodup : NoDup kv.*1;
  to_null : NULL ∉ kv.*1;
  to_elem a k : (a, k) ∈ kv -> elem_ok X t a k;
  to_app : app X NULL kv.*1 NULL;
  to_tail : tail T = List.last kv.*1 NULL;
  to_items : num_items T = u32 (Z.of_nat (length L));
  to_num : num_buckets T = 2 ^ log2_num_buckets T;
  to_log : 0 <= log2_num_buckets T <= 31;
  to_len : length (buckets T) = Z.to_nat (num_buckets T);
  to_chains : chains_ok X (num_buckets T) (buckets T) L;
}.

Definition table_ok X T t kv : Prop := table_part X T t kv kv.*1.

Lemma elem_core X X' t a k : core <$> X' = core <$> X -> elem_ok X t a k -> elem_ok X' t a k.
Proof.
  intros He%(fmap_lookup_eq _ _ _ a) (h & Hh & H1). rewrite Hh in He. destruct (X' !! a) as [h'|] eqn:Hh'; [|done]. exists h'. split; [done|]. unfold core in He. cbn in He.
  injection He as -> _ _ -> -> ->. done.
Qed.

Lemma app_core X X' l p q : core <$> X' = core <$> X -> app X p l q -> app X' p l q.
Proof. intros He. apply dll_ext. intros a _. apply (fmap_lookup_eq _ _ _ a) in He. unfold view, core in *. destruct (X' !! a), (X !! a); cbn in *; congruence. Qed.

Lemma elem_some X t a kv : (forall a k, (a, k) ∈ kv -> elem_ok X t a k) -> a ∈ kv.*1 -> is_Some (X !! a).
Proof. intros He ([x k] & -> & Hin)%list_elem_of_fmap. destruct (He x k Hin) as (h & Hh & _). by exists h. Qed.

(** An operation that works on the elements [S] and the tables [ts]. *)
Record local_to (S ts : list Z) (m m' : mem) : Prop := {
  lo_hhs a : a ∉ S -> hhs m' !! a = hhs m !! a;
  lo_dom : dom (hhs m') =@{gset Z} dom (hhs m);
  lo_tbls t' : t' ∉ ts -> tbls m' !! t' = tbls m !! t';
  lo_mallocs : mallocs m <= mallocs m';
}.

Section Add.
Context {E : HashEnv} {MB : MallocBounded}.

Lemma core_dom (X X' : gmap Z UT_hash_handle) : core <$> X' = core <$> X -> dom X' =@{gset Z} dom X.
Proof. intros He. by rewrite <- (dom_fmap_L core X'), He, dom_fmap_L. Qed.

(** The chains of the table are rebuilt; nothing else changes. *)
Lemma expand_wp t kv m T :
  table_ok (hhs m) T t kv -> tbls m !! t = Some T ->
  wp (HASH_EXPAND_BUCKETS t) (fun ok m' => if ok then (exists T', tbls m' !! t = Some T' /\ table_ok (hhs m') T' t kv) /\ local_to kv.*1 [t] m m'
                                          else exists n sz, malloc_ok n sz = false) m.
Proof using MB.
  intros Hok HT. destruct m as [X Y n]. cbn [hhs tbls] in *. unfold HASH_EXPAND_BUCKETS. wp_simpl. eapply get_tbl_wp; [exact HT|]. unfold uthash_malloc. wp_simpl. cbn [mallocs hhs tbls].
  destruct (malloc_ok n (sizeof_bucket * num_buckets T * 2)) eqn:Hm; wp_simpl; [|by eexists _, _]. apply malloc_bounded in Hm. destruct Hok as [Hnd H0 Hel Happ Htl Hit Hnum Hlog Hlen Hch].
  unfold sizeof_bucket in Hm. rewrite Hnum in Hm. assert (log2_num_buckets T <= 30) as Hlog'.
  { apply Z.lt_succ_r, (Z.pow_lt_mono_r_iff 2); [lia|lia|]. cbn. lia. }
  assert (u32 (num_buckets T * 2) = 2 ^ (log2_num_buckets T + 1)) as Hnew.
  { rewrite Hnum, Z.pow_add_r, Z.pow_1_r by lia. apply wrap_small. assert (2 ^ log2_num_buckets T <= 2 ^ 30) by (apply Z.pow_le_mono_r; lia). lia. }
  apply wp_assert; [apply Z.ltb_lt; lia|]. wp_simpl. eapply upd_tbl_wp; [exact HT|]. unfold w_tbls. cbn [hhs tbls mallocs]. wp_simpl. rewrite Hnew.
  set (i0 := u32 (_ + _)). set (T0 := set_ideal i0 0 T).
  eapply wp_mono; [apply (move_all_wp t (log2_num_buckets T + 1) ltac:(lia) (num_buckets T) (buckets T) kv.*1 (Z.to_nat (num_buckets T)) 0 X (<[t := T0]> Y) (n + 1) T0 _ []); try done|].
  - intros a Ha. by apply (elem_some X t a kv).
  - rewrite filter_none; [done|]. intros a _. rewrite Hnum. pose proof (to_bkt_range (hash_of X a) (log2_num_buckets T) ltac:(lia)). lia.
  - intros j bk _ Hbk. destruct (Hch j bk Hbk) as (c & Hc & _ & Hd & Hp). exists c. split_and!; [done|by eapply sll_dll|done].
  - intros j bk [-> _]%lookup_replicate. exists []. by split_and!.
  - by rewrite length_replicate, Hnum, Z.pow_add_r, Z.pow_1_r by lia.
  - by rewrite lookup_insert_eq.
  - intros new m ((X' & k & -> & Hcore & Hout) & Hl & Hok). cbn [hhs] in Hok. rewrite insert_insert_eq. wp_simpl. eapply get_tbl_wp; [apply lookup_insert_eq|]. wp_simpl. eapply upd_tbl_wp; [apply lookup_insert_eq|]. wp_simpl.
    unfold w_tbls. cbn [hhs tbls mallocs]. rewrite insert_insert_eq. split.
    + eexists. split; [apply lookup_insert_eq|]. split; cbn; try done.
      * intros a kk Hin. eapply elem_core; [exact Hcore|by apply Hel].
      * by eapply app_core.
      * rewrite wrap_small; [done|]. lia.
      * rewrite wrap_small by lia. lia.
      * rewrite Hl, length_replicate. rewrite Z.pow_add_r, Z.pow_1_r, Hnum by lia. done.
      * eapply chains_perm; [|exact Hok]. apply Permutation_refl'. apply filter_all. intros a _. rewrite Hlen, Hnum. pose proof (to_bkt_range (hash_of X a) (log2_num_buckets T) ltac:(lia)). lia.
    + split; cbn; [done|by apply core_dom| |lia]. intros t' Ht'. rewrite !lookup_insert_ne by set_solver. done.
Qed.

Lemma local_trans S t m1 m2 m3 : local_to S t m1 m2 -> local_to S t m2 m3 -> local_to S t m1 m3.
Proof. intros [H1 H2 H3 H4] [H1' H2' H3' H4']. split; [|congruence| |lia]; intros; [rewrite H1', H1|rewrite H3', H3]; done. Qed.

Lemma push_local a hd S t m Y' : a ∈ S -> hd = NULL \/ hd ∈ S -> (forall t', t' <> t -> Y' !! t' = tbls m !! t') -> local_to S [t] m (mk_mem (push a hd (hhs m)) Y' (mallocs m)).
Proof.
  intros Ha Hhd HY. split; cbn; [|apply core_dom, push_core|intros; apply HY; set_solver|lia]. intros b Hb. apply push_out; [by intros ->|]. destruct Hhd as [->|Hin]; [by right|left]. by intros ->.
Qed.

Lemma add_to_table_wp head t kv L m T a k :
  table_part (hhs m) T t kv L -> tbls m !! t = Some T -> kv.*1 ≡ₚ a :: L -> (a, k) ∈ kv -> head ∈ kv.*1 ->
  wp (HASH_ADD_TO_TABLE head (HASH_JEN k) a)
     (fun ok m' => if ok then (exists T', tbls m' !! t = Some T' /\ table_ok (hhs m') T' t kv) /\ local_to kv.*1 [t] m m' else exists n sz, malloc_ok n sz = false) m.
Proof using MB.
  intros [Hnd H0 Hel Happ Htl Hit Hnum Hlog Hlen Hch] HT Hp Hak Hhead. apply list_elem_of_fmap in Hhead as ([x kx] & -> & Hx). destruct (Hel x kx Hx) as (hx & Hhx & Htx & _).
  destruct (Hel a k Hak) as (ha & Hha & Hta & _ & _ & Hva). unfold HASH_ADD_TO_TABLE. wp_simpl. eapply get_hh_wp; [exact Hhx|]. wp_simpl. rewrite Htx. eapply get_tbl_wp; [exact HT|]. wp_simpl.
  eapply upd_tbl_wp; [exact HT|]. cbn beta. set (T1 := set_items _ T). set (b := HASH_TO_BKT (HASH_JEN k) (num_buckets T)).
  assert (0 <= b < num_buckets T) as Hb by (subst b; rewrite Hnum; apply to_bkt_range; lia). destruct (lookup_lt_is_Some_2 (buckets T) (Z.to_nat b)) as [bk Hbk]; [lia|].
  destruct (Hch _ bk Hbk) as (c & Hc & _ & Hcd & Hcp). assert (hh_head bk = NULL \/ hh_head bk ∈ L) as Hhd.
  { rewrite Hc. destruct c as [|y c]; [by left|right]. assert (y ∈ filter (in_bkt (hhs m) (num_buckets T) (Z.to_nat b)) L) as Hy by (rewrite <- Hcp; left). by apply list_elem_of_filter in Hy as [_ ?]. }
  unfold HASH_ADD_TO_BKT. wp_simpl. eapply (get_bkt_wp _ _ T1); [apply lookup_insert_eq|exact Hbk|]. cbv beta. apply push_wp'; [by exists ha| |].
  { intros Hne. rewrite Hc in Hne |- *. destruct c as [|y c]; [done|]. eapply (dll_elem hh_prev hh_next); [exact Hcd|left]. }
  wp_simpl. eapply set_bkt_wp; [apply lookup_insert_eq|exact Hbk|]. unfold w_hhs, w_tbls. cbn [hhs tbls mallocs]. rewrite insert_insert_eq. set (T2 := set_buckets _ T1). set (m2 := mk_mem _ _ _).
  assert (table_ok (hhs m2) T2 t kv) as Hok2.
  { pose proof (push_core a (hh_head bk) (hhs m)) as Hcore. split; cbn; try done.
    - intros y ky Hy. eapply elem_core; [exact Hcore|by apply Hel].
    - by eapply app_core.
    - rewrite Hit, u32_succ. f_equal. apply Permutation_length in Hp. cbn in Hp. lia.
    - by rewrite length_insert.
    - eapply chains_perm; [symmetry; exact Hp|]. apply push_chains; [done|by rewrite <- Hp|by rewrite <- Hp|by exists ha|done|]. unfold in_bkt, hash_of. rewrite Hha, Hva. subst b. lia. }
  assert (local_to kv.*1 [t] m m2) as Hlo.
  { apply push_local; [by apply (list_elem_of_fmap_2 fst _ (a, k))| |].
    - destruct Hhd as [?|Hin]; [by left|right]. rewrite Hp. by right.
    - intros t' Ht'. by rewrite lookup_insert_ne. }
  wp_simpl. destruct (to_elem _ _ _ _ _ Hok2 a k Hak) as (ha2 & Hha2 & Hta2 & _). eapply get_hh_wp; [exact Hha2|]. wp_simpl. rewrite Hta2. eapply get_tbl_wp; [apply lookup_insert_eq|]. cbv beta.
  destruct (_ && _).
  - eapply wp_mono; [eapply (expand_wp t kv m2 T2); [done|apply lookup_insert_eq]|]. intros [] m'; [|done]. intros [He Hl]. split; [done|by eapply local_trans].
  - apply wp_ret. split; [|done]. exists T2. split; [apply lookup_insert_eq|done].
Qed.

Lemma chains_ext X X' nb bs L :
  (forall a, a ∈ L -> (fun h => (hh_prev h, hh_next h, hashv h)) <$> X' !! a = (fun h => (hh_prev h, hh_next h, hashv h)) <$> X !! a) ->
  chains_ok X nb bs L -> chains_ok X' nb bs L.
Proof.
  intros He Hok i bk Hi. destruct (Hok i bk Hi) as (c & H1 & H2 & H3 & H4).
  assert (filter (in_bkt X' nb i) L = filter (in_bkt X nb i) L) as Hf.
  { clear -He. induction L as [|a L IH]; [done|]. rewrite !filter_cons, IH by (intros b Hb; apply He; by right). specialize (He a ltac:(left)).
    assert (hash_of X' a = hash_of X a) as Ha by (unfold hash_of; destruct (X' !! a), (X !! a); cbn in He; congruence).
    do 2 destruct (decide (in_bkt _ _ _ _)); unfold in_bkt in *; congruence. }
  exists c. split_and!; [done|done| |by rewrite Hf]. eapply dll_ext; [|exact H3]. intros a Ha. rewrite H4 in Ha. apply list_elem_of_filter in Ha as [_ Ha]. specialize (He a Ha).
  unfold view. destruct (X' !! a), (X !! a); cbn in *; congruence.
Qed.

Lemma elem_ext X X' t a k :
  (fun h => (tbl h, key h, keylen h, hashv h)) <$> X' !! a = (fun h => (tbl h, key h, keylen h, hashv h)) <$> X !! a -> elem_ok X t a k -> elem_ok X' t a k.
Proof. intros He (h & Hh & H1 & H2 & H3 & H4). rewrite Hh in He. destruct (X' !! a) as [h'|] eqn:Hh'; [|done]. injection He as E1 E2 E3 E4. exists h'. rewrite E1, E2, E3, E4. done. Qed.

(** The variable [head] holds a table (at the address in [ts], none if it is empty)
    with the elements [kv]. *)
Definition rep (m : mem) (head : Z) (ts : list Z) (kv : list (Z * list Z)) : Prop :=
  match kv with
  | [] => head = NULL /\ ts = []
  | (a, _) :: _ => head = a /\ exists t T, ts = [t] /\ tbls m !! t = Some T /\ table_ok (hhs m) T t kv
  end.

(** New tables are at addresses that have not been used. *)
Definition mem_ok (m : mem) : Prop := forall t, is_Some (tbls m !! t) -> t <= mallocs m.

Lemma fresh_none m t : mem_ok m -> mallocs m < t -> tbls m !! t = None.
Proof. intros Hm Ht. destruct (tbls m !! t) eqn:Ht'; [|done]. pose proof (Hm t ltac:(by eexists)). lia. Qed.

Lemma append_part X T t kv a k :
  table_ok X T t kv -> kv <> [] -> a ∉ kv.*1 -> a <> NULL -> is_Some (X !! a) ->
  table_part (alter (set_next a) (tail T) (alter (fun h => set_prev (tail T) (set_next NULL (set_tbl t (set_hash k (HASH_JEN k) h)))) a X))
    (set_tail a T) t (kv ++ [(a, k)]) kv.*1.
Proof.
  intros [Hnd H0 Hel Happ Htl Hit Hnum Hlog Hlen Hch] Hne Ha Ha0 [h Hh]. assert (exists l b, kv.*1 = l ++ [b]) as (l & b & Hkv) by (destruct (kv.*1) as [|b l _] eqn:Hkv using rev_ind; [by destruct kv|eauto]).
  assert (tail T = b) as -> by (by rewrite Htl, Hkv, List.last_last). set (X1 := alter _ a X). set (X2 := alter _ b X1). assert (b <> a) as Hba by (rewrite Hkv in Ha; set_solver).
  assert (X2 !! a = Some (set_prev b (set_next NULL (set_tbl t (set_hash k (HASH_JEN k) h))))) as Hx2 by (subst X2 X1; by rewrite lookup_alter_ne, lookup_alter_eq, Hh).
  assert (forall B (g : UT_hash_handle -> B) x, (forall h, g (set_next a h) = g h) -> x <> a -> g <$> X2 !! x = g <$> X !! x) as Hview.
  { intros B g x Hg Hx. subst X2 X1. destruct (decide (x = b)) as [->|Hxb]; [rewrite lookup_alter_eq|rewrite lookup_alter_ne by done]; rewrite lookup_alter_ne by done; [|done]. destruct (X !! b); cbn; [by rewrite Hg|done]. }
  split; cbn; rewrite ?fmap_app; cbn; try done.
  - apply NoDup_app. split_and!; [done|set_solver|apply NoDup_singleton].
  - set_solver.
  - intros x kx [Hx|[= -> ->]%list_elem_of_singleton]%elem_of_app; [|by eexists]. eapply elem_ext; [|by apply Hel]. apply Hview; [done|]. intros ->. by apply Ha, (list_elem_of_fmap_2 fst _ (a, kx)).
  - apply dll_app. cbn [hd0 dll]. split.
    + rewrite Hkv. apply (dll_set_last prev next set_next (fun _ _ => eq_refl) (fun _ _ => eq_refl)) with NULL; [by rewrite <- Hkv|]. apply dll_alter; [by rewrite <- Hkv|by rewrite <- Hkv].
    + split; [|done]. eexists. split; [exact Hx2|]. cbn. by rewrite Hkv, List.last_last.
  - by rewrite List.last_last.
  - eapply chains_ext; [|exact Hch]. intros x Hx. apply Hview; [done|]. by intros ->.
Qed.

(** A table of one element, before that element is in a chain. *)
Lemma single_part X t a k :
  a <> NULL -> elem_ok X t a k -> app X NULL [a] NULL ->
  table_part X (mk_tbl (replicate (Z.to_nat HASH_INITIAL_NUM_BUCKETS) (mk_bkt NULL 0 0)) HASH_INITIAL_NUM_BUCKETS HASH_INITIAL_NUM_BUCKETS_LOG2 0 a 0 0 0 0) t [(a, k)] [].
Proof.
  intros Ha Hel Happ. split; cbn; try done.
  - apply NoDup_singleton.
  - set_solver.
  - by intros x kx [= -> ->]%list_elem_of_singleton.
  - intros i bk [-> _]%(lookup_replicate (Z.to_nat HASH_INITIAL_NUM_BUCKETS)). exists []. by split_and!.
Qed.

Lemma alter_local a f S ts m : a ∈ S -> local_to S ts m (w_hhs (alter f a) m).
Proof. intros Ha. split; cbn; [|by rewrite dom_alter_L|done|lia]. intros b Hb. apply lookup_alter_ne. by intros ->. Qed.

Definition added (m : mem) (ts : list Z) (kv : list (Z * list Z)) (r : bool * Z) (m' : mem) : Prop :=
  if r.1 then
    mem_ok m' /\ exists ts', rep m' r.2 ts' kv /\ local_to kv.*1 ts' m m' /\ (ts' = ts \/ ts = [] /\ exists t, ts' = [t] /\ mallocs m < t)
  else exists n sz, malloc_ok n sz = false.

Lemma local_mem_ok S ts m m' : (forall t, t ∈ ts -> t <= mallocs m') -> mem_ok m -> local_to S ts m m' -> mem_ok m'.
Proof.
  intros Hts Hm Hlo t Ht. destruct (decide (t ∈ ts)); [by apply Hts|]. rewrite (lo_tbls _ _ _ _ Hlo) in Ht by done. pose proof (lo_mallocs _ _ _ _ Hlo). specialize (Hm t Ht). lia.
Qed.

Lemma add_first_wp m a k : mem_ok m -> a <> NULL -> is_Some (hhs m !! a) -> wp (HASH_ADD NULL k a) (added m [] [(a, k)]) m.
Proof using MB.
  intros Hm Ha0 [h Hh]. unfold HASH_ADD, HASH_ADD_KEYPTR_BYHASHVALUE, HASH_MAKE_TABLE, uthash_malloc. rewrite Z.eqb_refl. wp_simpl.
  do 3 (apply upd_hh_wp; [cbn [hhs w_hhs]; rewrite ?lookup_alter_is_Some; by exists h|]; wp_simpl). cbn [mallocs w_hhs].
  destruct (malloc_ok (mallocs m) sizeof_table) eqn:H1; wp_simpl; [|by eexists _, _]. apply upd_hh_wp; [cbn [hhs w_hhs]; rewrite ?lookup_alter_is_Some; by exists h|]. wp_simpl. cbn [mallocs w_hhs].
  destruct (malloc_ok (mallocs m + 1) _) eqn:H2; wp_simpl; [|by eexists _, _]. cbn [negb]. set (t := mallocs m + 1). set (T := mk_tbl _ _ _ _ _ _ _ _ _). wp_simpl. unfold w_hhs, w_tbls. cbn [hhs tbls mallocs].
  set (m1 := mk_mem _ _ _). assert (hhs m1 !! a = Some (set_tbl t (set_prev NULL (set_next NULL (set_hash k (HASH_JEN k) h))))) as Hx by (subst m1; cbn; by rewrite !lookup_alter_eq, Hh).
  assert (local_to [a] [t] m m1) as Hlo.
  { split; cbn; [|by rewrite !dom_alter_L| |lia]; intros x Hx'; [by rewrite !lookup_alter_ne by set_solver|by rewrite lookup_insert_ne by set_solver]. }
  eapply wp_mono; [eapply (add_to_table_wp a t [(a, k)] [] m1 T a k)|].
  - apply single_part; [done|by eexists|]. split; [|done]. by eexists.
  - apply lookup_insert_eq.
  - done.
  - left.
  - left.
  - intros [] m' Hp; cbn [fst snd]; [|done]. wp_simpl. destruct Hp as [(T' & HT' & Hok) Hlo']. pose proof (lo_mallocs _ _ _ _ Hlo') as Hle. cbn in Hle. cbn [fmap list_fmap fst] in Hlo'.
    split; [eapply local_mem_ok; [|exact Hm|by eapply local_trans]; intros x ->%list_elem_of_singleton; subst t; lia|]. exists [t]. split_and!; [split; [done|by eexists _, _]|by eapply local_trans|right]. split; [done|]. exists t. split; [done|subst t; lia].
Qed.

Lemma add_next_wp m head ts kv a k :
  mem_ok m -> rep m head ts kv -> kv <> [] -> a ∉ kv.*1 -> a <> NULL -> is_Some (hhs m !! a) -> wp (HASH_ADD head k a) (added m ts (kv ++ [(a, k)])) m.
Proof using MB.
  intros Hm Hrep Hne Ha Ha0 Hsome. destruct kv as [|[b kb] kv]; [done|]. destruct Hrep as (-> & t & T & -> & HT & Hok). set (l := (b, kb) :: kv) in *.
  destruct (to_elem _ _ _ _ _ Hok b kb ltac:(left)) as (hb & Hhb & Htb & _). assert (b <> a) as Hba by (cbn in Ha; set_solver). assert (b <> NULL) as Hb0 by (pose proof (to_null _ _ _ _ _ Hok); cbn in *; set_solver).
  pose proof (append_part (hhs m) T t l a k Hok ltac:(done) Ha Ha0 Hsome) as Hpart.
  unfold HASH_ADD, HASH_ADD_KEYPTR_BYHASHVALUE, HASH_APPEND_LIST. rewrite (proj2 (Z.eqb_neq b NULL)) by done. wp_simpl. apply upd_hh_wp; [done|]. wp_simpl.
  eapply get_hh_wp; [cbn; rewrite lookup_alter_ne by done; exact Hhb|]. wp_simpl. rewrite Htb. apply upd_hh_wp; [cbn [hhs w_hhs]; by rewrite lookup_alter_is_Some|]. wp_simpl.
  eapply get_hh_wp; [cbn; rewrite !lookup_alter_ne by done; exact Hhb|]. wp_simpl. rewrite Htb. eapply get_tbl_wp; [exact HT|]. wp_simpl.
  do 2 (apply upd_hh_wp; [cbn [hhs w_hhs]; by rewrite ?lookup_alter_is_Some|]; wp_simpl).
  assert (tail T ∈ l.*1) as Htl by (rewrite (to_tail _ _ _ _ _ Hok); by apply last_elem). cbn [negb].
  assert (tail T <> a) as Hta by (intros He; by rewrite He in Htl). destruct (elem_some _ t (tail T) l (to_elem _ _ _ _ _ Hok) Htl) as [htl Hhtl].
  apply upd_hh_wp; [cbn [hhs w_hhs]; rewrite !lookup_alter_ne by done; by exists htl|]. wp_simpl. eapply upd_tbl_wp; [exact HT|]. wp_simpl. cbn [negb]. wp_simpl.
  unfold w_hhs, w_tbls. cbn [hhs tbls mallocs]. rewrite !(alter_alter_eq _ _ _ a). set (m1 := mk_mem _ _ _).
  assert (local_to (l ++ [(a, k)]).*1 [t] m m1) as Hlo.
  { assert (tail T ∈ (l ++ [(a, k)]).*1 /\ a ∈ (l ++ [(a, k)]).*1) as [H1 H2] by (rewrite fmap_app; split; apply elem_of_app; [by left|right; left]).
    split; [|by cbn; rewrite !dom_alter_L| |cbn; lia]; intros x Hx; [|by cbn; rewrite lookup_insert_ne by set_solver]. subst m1. cbn [hhs]. rewrite !lookup_alter_ne; [done|by intros <-|by intros <-]. }
  eapply wp_mono; [eapply (add_to_table_wp b t (l ++ [(a, k)]) l.*1 m1 (set_tail a T) a k)|].
  - exact Hpart.
  - apply lookup_insert_eq.
  - rewrite fmap_app. apply Permutation_sym, Permutation_cons_append.
  - apply elem_of_app. right. left.
  - left.
  - intros [] m' Hp; cbn [fst snd]; [|done]. wp_simpl. destruct Hp as [(T' & HT' & Hok') Hlo'].
    assert (local_to (l ++ [(a, k)]).*1 [t] m m') as Hlo2 by (by eapply local_trans).
    split; [eapply local_mem_ok; [|exact Hm|exact Hlo2]; intros x ->%list_elem_of_singleton|]. { pose proof (lo_mallocs _ _ _ _ Hlo2). specialize (Hm t ltac:(by eexists)). lia. }
    exists [t]. split_and!; [split; [done|by eexists _, _]|done|by left].
Qed.

Lemma add_wp m head ts kv a k :
  mem_ok m -> rep m head ts kv -> a ∉ kv.*1 -> a <> NULL -> is_Some (hhs m !! a) -> wp (HASH_ADD head k a) (added m ts (kv ++ [(a, k)])) m.
Proof using MB.
  intros Hm Hrep Ha Ha0 Hs. destruct kv as [|p kv]; [|by apply add_next_wp]. destruct Hrep as [-> ->]. by apply add_first_wp.
Qed.
End Add.

(** ** Look-up *)

(** The element with key [k], NULL if there is none. *)
Fixpoint lookup_key (k : list Z) (kv : list (Z * list Z)) : Z :=
  match kv with [] => NULL | (a, k') :: kv' => if decide (k' = k) then a else lookup_key k kv' end.

Lemma lookup_key_in k a kv : NoDup kv.*2 -> (a, k) ∈ kv -> lookup_key k kv = a.
Proof.
  induction kv as [|[b kb] kv IH]; intros Hnd Hin; [by apply elem_of_nil in Hin|]. cbn in *. apply NoDup_cons in Hnd as [Hb Hnd]. apply elem_of_cons in Hin as [[= <- <-]|Hin]; [by rewrite decide_True|].
  rewrite decide_False; [by apply IH|]. intros ->. by apply Hb, (list_elem_of_fmap_2 snd _ (a, k)).
Qed.

Lemma lookup_key_none k kv : k ∉ kv.*2 -> lookup_key k kv = NULL.
Proof. induction kv as [|[b kb] kv IH]; [done|]. cbn. intros [Hne Hin]%not_elem_of_cons. rewrite decide_False by done. by apply IH. Qed.

Lemma find_in_bkt_wp t k m c : forall fuel,
  (length c <= fuel)%nat -> Z.of_nat (length k) < 2 ^ 32 -> sll (hhs m) c -> NULL ∉ c -> (forall a, a ∈ c -> exists ka, elem_ok (hhs m) t a ka) ->
  wp (find_in_bkt fuel (hd0 NULL c) k (HASH_JEN k)) (fun r m' => m' = m /\ (r = NULL /\ (forall a, a ∈ c -> ~ elem_ok (hhs m) t a k) \/ r ∈ c /\ elem_ok (hhs m) t r k)) m.
Proof.
  induction c as [|a c IH]; intros fuel Hf Hk Hs H0 Hel.
  { destruct fuel; cbn; wp_simpl; split; try done; left; split; try done; intros a Ha; by apply elem_of_nil in Ha. }
  destruct fuel as [|fuel]; [cbn in Hf; lia|]. cbn [hd0 find_in_bkt]. rewrite (proj2 (Z.eqb_neq a NULL)) by set_solver. destruct Hs as [(h & Hh & Hn) Hs]. wp_simpl. eapply get_hh_wp; [exact Hh|]. cbv beta.
  destruct (Hel a ltac:(left)) as (ka & h' & Hh' & Ht & Hka & Hlen & Hv). rewrite Hh in Hh'. injection Hh' as <-. destruct (decide (ka = k)) as [->|Hne].
  - rewrite Hv, Z.eqb_refl, Hlen, wrap_small, Z.eqb_refl, bool_decide_true by (done || lia). cbn [andb]. wp_simpl. split; [done|right]. split; [left|]. by exists h.
  - rewrite Hka, (bool_decide_false _ Hne), andb_false_r, Hn. eapply wp_mono; [apply (IH fuel); [cbn in Hf; lia|done|done|set_solver|]|].
    + intros x Hx. apply Hel. by right.
    + intros r m' [-> [[-> Hno]|[Hin Hr]]]; (split; [done|]); [left|right]; (split; [by try right|]); [|done].
      intros x [->|Hx]%elem_of_cons; [|by apply Hno]. intros (h2 & Hh2 & _ & Hk2 & _). rewrite Hh in Hh2. injection Hh2 as <-. by rewrite Hka in Hk2.
Qed.

Lemma elem_key X t t' a k k' : elem_ok X t a k -> elem_ok X t' a k' -> k = k'.
Proof. intros (h & Hh & _ & <- & _) (h' & Hh' & _ & <- & _). by rewrite Hh in Hh'; injection Hh' as <-. Qed.

Lemma chain_elems X T t kv i bk c : table_ok X T t kv -> c ≡ₚ filter (in_bkt X (num_buckets T) i) kv.*1 -> buckets T !! i = Some bk -> forall a, a ∈ c -> exists k, (a, k) ∈ kv /\ elem_ok X t a k.
Proof.
  intros Hok Hp _ a Ha. rewrite Hp in Ha. apply list_elem_of_filter in Ha as [_ ([x k] & -> & Hin)%list_elem_of_fmap]. exists k. split; [done|]. by apply (to_elem _ _ _ _ _ Hok).
Qed.

Lemma find_wp m head ts kv k :
  rep m head ts kv -> NoDup kv.*2 -> Z.of_nat (length k) < 2 ^ 32 -> wp (HASH_FIND head k) (fun r m' => m' = m /\ r = lookup_key k kv) m.
Proof.
  intros Hrep Hnd Hk. unfold HASH_FIND, HASH_FIND_BYHASHVALUE. destruct kv as [|[a ka] kv]; [by destruct Hrep as [-> ->]; wp_simpl|]. destruct Hrep as (-> & t & T & _ & HT & Hok). set (l := (a, ka) :: kv) in *.
  pose proof (to_null _ _ _ _ _ Hok) as H0. assert (a <> NULL) as Ha0 by (cbn in H0; set_solver). rewrite (proj2 (Z.eqb_neq a NULL)) by done. destruct (to_elem _ _ _ _ _ Hok a ka ltac:(left)) as (h & Hh & Ht & _).
  wp_simpl. eapply get_hh_wp; [exact Hh|]. wp_simpl. rewrite Ht. eapply get_tbl_wp; [exact HT|]. wp_simpl. set (b := HASH_TO_BKT (HASH_JEN k) (num_buckets T)).
  assert (0 <= b < num_buckets T) as Hb by (subst b; rewrite (to_num _ _ _ _ _ Hok); apply to_bkt_range; pose proof (to_log _ _ _ _ _ Hok); lia).
  destruct (lookup_lt_is_Some_2 (buckets T) (Z.to_nat b)) as [bk Hbk]; [rewrite (to_len _ _ _ _ _ Hok); lia|]. eapply get_bkt_wp; [exact HT|exact Hbk|]. unfold HASH_FIND_IN_BKT. wp_simpl.
  destruct (to_chains _ _ _ _ _ Hok _ bk Hbk) as (c & -> & _ & Hc & Hp). pose proof (chain_elems _ _ _ _ _ _ _ Hok Hp Hbk) as Hce.
  assert (NoDup c) as Hndc by (rewrite Hp; apply NoDup_filter, (to_nodup _ _ _ _ _ Hok)).
  eapply wp_mono; [apply (find_in_bkt_wp t k m c); [|done|by eapply sll_dll| |]|].
  - apply nodup_size; [done|]. intros x Hx. by eapply dll_elem.
  - intros Hx. destruct (Hce _ Hx) as (kx & Hin & _). by apply H0, (list_elem_of_fmap_2 fst _ (NULL, kx)).
  - intros x Hx. destruct (Hce _ Hx) as (kx & _ & ?). by exists kx.
  - intros r m' [-> Hr]. split; [done|]. destruct Hr as [[-> Hno]|[Hin He]].
    + symmetry. apply lookup_key_none. intros ([x kx] & Hkx & Hx)%list_elem_of_fmap. cbn in Hkx. subst kx. pose proof (to_elem _ _ _ _ _ Hok x k Hx) as Hex. apply (Hno x); [|done].
      rewrite Hp. apply list_elem_of_filter. split; [|by apply (list_elem_of_fmap_2 fst _ (x, k))]. destruct Hex as (hx & Hhx & _ & _ & _ & Hv). unfold in_bkt, hash_of. rewrite Hhx, Hv. subst b. lia.
    + symmetry. apply lookup_key_in; [done|]. destruct (Hce r Hin) as (kr & Hkr & Her). by rewrite (elem_key _ _ _ _ _ _ He Her).
Qed.

Lemma count_wp m head ts kv : rep m head ts kv -> wp (HASH_COUNT head) (fun r m' => m' = m /\ r = u32 (Z.of_nat (length kv))) m.
Proof.
  intros Hrep. unfold HASH_COUNT. destruct kv as [|[a ka] kv]; [by destruct Hrep as [-> ->]; wp_simpl|]. destruct Hrep as (-> & t & T & _ & HT & Hok).
  pose proof (to_null _ _ _ _ _ Hok) as H0. rewrite (proj2 (Z.eqb_neq a NULL)) by (cbn in H0; set_solver). destruct (to_elem _ _ _ _ _ Hok a ka ltac:(left)) as (h & Hh & Ht & _).
  wp_simpl. eapply get_hh_wp; [exact Hh|]. wp_simpl. rewrite Ht. eapply get_tbl_wp; [exact HT|]. wp_simpl. split; [done|]. rewrite (to_items _ _ _ _ _ Hok). by rewrite length_fmap.
Qed.


(** ** Deletion *)

Abbreviation unlink_app := (unlink set_prev set_next).
Abbreviation unlink_chn := (unlink set_hh_prev set_hh_next).

(** The neighbours of an element in a linked list. *)
Lemma dll_split {R} (pf nf : R -> Z) m l a h : NoDup l -> dll pf nf m NULL l NULL -> m !! a = Some h -> a ∈ l -> exists l1 l2, l = l1 ++ a :: l2 /\ pf h = List.last l1 NULL /\ nf h = hd0 NULL l2.
Proof.
  intros _ Hd Hh (l1 & l2 & ->)%list_elem_of_split. exists l1, l2. split; [done|]. apply dll_app in Hd as [_ [(h' & Hh' & Hp & Hn) _]]. rewrite Hh in Hh'. by injection Hh' as <-.
Qed.

Lemma unlink_chn_core p n m : core <$> unlink_chn p n m = core <$> m.
Proof. by apply unlink_fmap. Qed.

Lemma hd_del c1 a c2 : NoDup (c1 ++ a :: c2) -> (if hd0 NULL (c1 ++ a :: c2) =? a then hd0 NULL c2 else hd0 NULL (c1 ++ a :: c2)) = hd0 NULL (c1 ++ c2).
Proof. destruct c1 as [|x c1]; cbn; [by rewrite Z.eqb_refl|]. intros [Hx _]%NoDup_cons. by rewrite (proj2 (Z.eqb_neq x a)) by set_solver. Qed.

Lemma del_chains m nb bs L L' i bk a h mult :
  chains_ok m nb bs L -> NoDup L -> NULL ∉ L -> L ≡ₚ a :: L' -> m !! a = Some h -> bs !! i = Some bk -> in_bkt m nb i a ->
  chains_ok (unlink_chn (hh_prev h) (hh_next h) m) nb (<[i := mk_bkt (if hh_head bk =? a then hh_next h else hh_head bk) (u32 (count bk - 1)) mult]> bs) L'.
Proof.
  intros Hok Hnd H0 Hp Ha Hi Hin j bk' Hj. destruct (Hok i bk Hi) as (c & Hhd & Hct & Hch & Hpc).
  assert (NoDup c) as Hndc by (rewrite Hpc; by apply NoDup_filter). assert (forall x, x ∈ c -> x ∈ L /\ in_bkt m nb i x) as Hc by (intros x Hx; rewrite Hpc in Hx; apply list_elem_of_filter in Hx; tauto).
  assert (a ∈ c) as Hac by (rewrite Hpc; apply list_elem_of_filter; split; [done|rewrite Hp; left]). assert (NULL ∉ c) as H0c by (intros Hx%Hc; tauto).
  destruct (dll_split _ _ _ _ _ _ Hndc Hch Ha Hac) as (c1 & c2 & -> & Hprev & Hnext). pose proof (core_in_bkt m _ nb j L' (unlink_chn_core (hh_prev h) (hh_next h) m)) as Hf. rewrite Hprev, Hnext in *.
  destruct (decide (j = i)) as [->|Hne].
  - rewrite list_lookup_insert_eq in Hj by (by eapply lookup_lt_Some). injection Hj as <-. exists (c1 ++ c2). cbn [hh_head count]. split_and!.
    + rewrite Hhd. by apply hd_del.
    + rewrite Hct, u32_pred, !length_app. f_equal. cbn. lia.
    + by apply (unlink_dll hh_prev hh_next set_hh_prev set_hh_next (fun _ _ => eq_refl) (fun _ _ => eq_refl) (fun _ _ => eq_refl) (fun _ _ => eq_refl)) with a.
    + rewrite Hf. apply (Permutation_cons_inv (a := a)). rewrite Permutation_middle, Hpc, Hp, filter_cons, decide_True by done. done.
  - rewrite list_lookup_insert_ne in Hj by done. destruct (Hok j bk' Hj) as (d & Hhd' & Hct' & Hch' & Hp'). exists d. split_and!; [done|done| |].
    + eapply dll_ext; [|exact Hch']. intros x Hx. rewrite Hp' in Hx. apply list_elem_of_filter in Hx as [Hxj HxL]. rewrite unlink_out; [done|left|left].
      * intros ->. destruct c1 as [|y c1 _] using rev_ind; [by cbn in HxL|]. rewrite List.last_last in *. destruct (Hc y) as [_ Hy]; [set_solver|]. unfold in_bkt in *. lia.
      * intros ->. destruct c2 as [|y c2]; [by cbn in HxL|]. cbn in *. destruct (Hc y) as [_ Hy]; [set_solver|]. unfold in_bkt in *. lia.
    + rewrite Hf, Hp', Hp, filter_cons, decide_False; [done|]. unfold in_bkt in *. lia.
Qed.

(** The memory after the element [a] is out of both lists. *)
Lemma del_table X T t kv1 a k kv2 h i bk :
  table_ok X T t (kv1 ++ (a, k) :: kv2) -> X !! a = Some h -> buckets T !! i = Some bk -> in_bkt X (num_buckets T) i a ->
  table_ok (unlink_chn (hh_prev h) (hh_next h) (unlink_app (prev h) (next h) X))
    (set_items (u32 (num_items T - 1)) (set_buckets (<[i := mk_bkt (if hh_head bk =? a then hh_next h else hh_head bk) (u32 (count bk - 1)) (expand_mult bk)]> (buckets T))
       (set_tail (if a =? tail T then prev h else tail T) T))) t (kv1 ++ kv2).
Proof.
  intros [Hnd H0 Hel Happ Htl Hit Hnum Hlog Hlen Hch] Ha Hi Hin. rewrite fmap_app in *. cbn [fmap list_fmap fst] in *. set (X1 := unlink_app (prev h) (next h) X).
  assert (X1 !! a = Some h /\ prev h = List.last kv1.*1 NULL /\ next h = hd0 NULL kv2.*1) as (Ha1 & Hpr & Hnx).
  { pose proof Happ as [_ [(h' & Hh' & Hp & Hn) _]]%dll_app. rewrite Ha in Hh'. injection Hh' as <-. split_and!; [|done|done]. subst X1. rewrite unlink_out; [done|left|left].
    - rewrite Hp. intros He. destruct (kv1.*1) as [|y l1 _] eqn:Hl using rev_ind; [by cbn in He; subst; set_solver|]. rewrite List.last_last in He. subst y. apply NoDup_app in Hnd as (_ & Hd & _). apply (Hd a); set_solver.
    - rewrite Hn. intros He. destruct (kv2.*1) as [|y l2]; [by cbn in He; subst; set_solver|]. cbn in He. subst y. apply NoDup_app in Hnd as (_ & _ & [Hd _]%NoDup_cons). set_solver. }
  assert (forall B (g : UT_hash_handle -> B), (forall x h, g (set_prev x h) = g h) -> (forall x h, g (set_next x h) = g h) -> g <$> X1 = g <$> X) as Hview by (intros; by apply unlink_fmap).
  assert (chains_ok X1 (num_buckets T) (buckets T) (kv1.*1 ++ a :: kv2.*1)) as Hch1.
  { eapply chains_ext; [|exact Hch]. intros x _. by apply fmap_lookup_eq, Hview. }
  split; cbn; rewrite ?fmap_app; try done.
  - apply NoDup_app in Hnd as (H1 & H2 & [_ H3]%NoDup_cons). apply NoDup_app. split_and!; [done| |done]. intros x Hx Hx2. apply (H2 x Hx). by right.
  - rewrite elem_of_app in *. rewrite elem_of_cons in H0. tauto.
  - intros x kx Hx. eapply elem_core; [apply unlink_chn_core|]. eapply elem_ext; [by apply fmap_lookup_eq, Hview|]. apply Hel. set_solver.
  - eapply app_core; [apply unlink_chn_core|]. subst X1. rewrite Hpr, Hnx. by apply (unlink_dll prev next set_prev set_next (fun _ _ => eq_refl) (fun _ _ => eq_refl) (fun _ _ => eq_refl) (fun _ _ => eq_refl)) with a.
  - rewrite Htl, Hpr. destruct (kv2.*1) as [|y l2 _] eqn:Hl using rev_ind.
    + rewrite List.last_last, Z.eqb_refl. by rewrite app_nil_r.
    + rewrite app_comm_cons, !app_assoc, !List.last_last. rewrite (proj2 (Z.eqb_neq a y)); [done|]. intros <-. apply NoDup_app in Hnd as (_ & _ & [Hd _]%NoDup_cons). set_solver.
  - rewrite Hit, u32_pred, !length_app. f_equal. cbn. lia.
  - by rewrite length_insert.
  - eapply (del_chains X1 _ _ (kv1.*1 ++ a :: kv2.*1)); try done; [by rewrite Permutation_middle|]. unfold in_bkt, hash_of. rewrite Ha1. unfold in_bkt, hash_of in Hin. by rewrite Ha in Hin.
Qed.


Lemma unlink_dom sp sn p n (X : gmap Z UT_hash_handle) : dom (unlink sp sn p n X) =@{gset Z} dom X.
Proof. unfold unlink. destruct (p =? NULL), (n =? NULL); by rewrite ?dom_alter_L. Qed.

Lemma unlink_hh_wp {B} sp sn p n (k : H B) Q m :
  (p <> NULL -> is_Some (hhs m !! p)) -> (n <> NULL -> is_Some (hhs m !! n)) -> wp k Q (w_hhs (unlink sp sn p n) m) ->
  wp ((if negb (p =? NULL) then upd_hh p (sn n) else ret tt) ;;; (if negb (n =? NULL) then upd_hh n (sp p) else ret tt) ;;; k) Q m.
Proof.
  intros Hp Hn Hk. unfold unlink, w_hhs in Hk. apply wp_bind. assert (forall m1, hhs m1 = (if p =? NULL then hhs m else alter (sn n) p (hhs m)) -> tbls m1 = tbls m -> mallocs m1 = mallocs m ->
    wp ((if negb (n =? NULL) then upd_hh n (sp p) else ret tt) ;;; k) Q m1) as Hgo.
  { intros [X1 Y1 n1] H1 H2 H3. cbn in H1, H2, H3. subst. apply wp_bind. destruct (Z.eqb_spec n NULL) as [_|Hne]; cbn [negb]; [by apply wp_ret|]. apply upd_hh_wp; [|done].
    cbn. destruct (p =? NULL); [by apply Hn|]. apply lookup_alter_is_Some. by apply Hn. }
  destruct (Z.eqb_spec p NULL) as [->|Hne]; cbn [negb]; [apply wp_ret; by apply Hgo|]. apply upd_hh_wp; [by apply Hp|]. by apply Hgo.
Qed.

Lemma unlink_head_wp {B} sp sn p n head (K : Z -> H B) Q m :
  (p <> NULL -> is_Some (hhs m !! p)) -> (n <> NULL -> is_Some (hhs m !! n)) -> wp (K (if p =? NULL then n else head)) Q (w_hhs (unlink sp sn p n) m) ->
  wp (let* hd := (if negb (p =? NULL) then upd_hh p (sn n) ;;; ret head else ret n) in (if negb (n =? NULL) then upd_hh n (sp p) else ret tt) ;;; K hd) Q m.
Proof.
  intros Hp Hn HK. pose proof (unlink_hh_wp sp sn p n _ Q m Hp Hn HK) as Hw. apply wp_bind_inv in Hw. apply wp_bind. destruct (p =? NULL); cbn [negb] in *; [exact Hw|]. apply wp_bind. eapply wp_mono; [exact Hw|]. by intros [] m' Hm'.
Qed.

Lemma neighbours_ne (l1 : list Z) a l2 : NoDup (l1 ++ a :: l2) -> NULL ∉ l1 ++ a :: l2 -> a <> List.last l1 NULL /\ a <> hd0 NULL l2.
Proof.
  intros (_ & Hd & [Ha _]%NoDup_cons)%NoDup_app H0. rewrite elem_of_app, elem_of_cons in H0. split; intros He.
  - destruct l1 as [|y l1 _] using rev_ind; [cbn in He; subst; tauto|]. rewrite List.last_last in He. subst y. apply (Hd a); [set_solver|left].
  - destruct l2 as [|y l2]; cbn in He; subst; [tauto|]. apply Ha. left.
Qed.

(** The element before the first or after the last is NULL, every other one exists. *)
Lemma last_some {R} (pf nf : R -> Z) X p l q : dll pf nf X p l q -> List.last l NULL <> NULL -> is_Some (X !! List.last l NULL).
Proof. intros Hd Hne. eapply dll_elem; [exact Hd|]. apply last_elem. by intros ->. Qed.
Lemma first_some {R} (pf nf : R -> Z) X p l q : dll pf nf X p l q -> hd0 NULL l <> NULL -> is_Some (X !! hd0 NULL l).
Proof. intros Hd Hne. eapply dll_elem; [exact Hd|]. destruct l; [done|left]. Qed.

Lemma del_in_bkt_wp {B} (K : H B) Q m t T i a h bk :
  tbls m !! t = Some T -> 0 <= i -> buckets T !! Z.to_nat i = Some bk -> hhs m !! a = Some h ->
  (hh_prev h <> NULL -> is_Some (hhs m !! hh_prev h)) -> (hh_next h <> NULL -> is_Some (hhs m !! hh_next h)) ->
  wp K Q (mk_mem (unlink_chn (hh_prev h) (hh_next h) (hhs m))
            (<[t := set_buckets (<[Z.to_nat i := mk_bkt (if hh_head bk =? a then hh_next h else hh_head bk) (u32 (count bk - 1)) (expand_mult bk)]> (buckets T)) T]> (tbls m)) (mallocs m)) ->
  wp (HASH_DEL_IN_BKT t i a ;;; K) Q m.
Proof.
  intros HT Hi Hbk Hh Hp Hn HK. unfold HASH_DEL_IN_BKT. wp_simpl. eapply get_bkt_wp; [exact HT|exact Hbk|]. wp_simpl. eapply get_hh_wp; [exact Hh|]. wp_simpl. eapply set_bkt_wp; [exact HT|exact Hbk|].
  pose proof (unlink_hh_wp set_hh_prev set_hh_next (hh_prev h) (hh_next h) K Q (w_tbls <[t := set_buckets (<[Z.to_nat i := mk_bkt (if hh_head bk =? a then hh_next h else hh_head bk) (u32 (count bk - 1)) (expand_mult bk)]> (buckets T)) T]> m) Hp Hn HK) as Hw.
  cbv beta. apply wp_bind. apply wp_bind_inv in Hw. eapply wp_mono; [exact Hw|]. cbv beta. intros [] m' Hm'. by apply wp_bind_inv in Hm'.
Qed.

Definition removed (m : mem) (ts : list Z) (S : list Z) (kv : list (Z * list Z)) (head : Z) (m' : mem) : Prop :=
  exists ts', rep m' head ts' kv /\ local_to S ts m m' /\ if decide (kv = []) then forall t, t ∈ ts -> tbls m' !! t = None else ts' = ts.

Lemma del_last_wp m head ts a k : rep m head ts [(a, k)] -> wp (HASH_DEL head a) (removed m ts [a] []) m.
Proof.
  intros (-> & t & T & -> & HT & Hok). destruct (to_elem _ _ _ _ _ Hok a k ltac:(left)) as (h & Hh & Ht & _). destruct (to_app _ _ _ _ _ Hok) as [(h' & Hh' & Hp & Hn) _]. cbn in Hh'. rewrite Hh in Hh'. injection Hh' as <-.
  unfold HASH_DEL, HASH_DELETE_HH. wp_simpl. eapply get_hh_wp; [exact Hh|]. wp_simpl. eapply get_hh_wp; [exact Hh|]. cbv beta. rewrite Hp, Hn. cbn [hd0 fmap list_fmap]. rewrite Z.eqb_refl. cbn [andb]. wp_simpl. rewrite Ht. eapply get_tbl_wp; [exact HT|]. wp_simpl.
  exists []. split_and!; [done| |].
  - split; cbn; [done|done| |lia]. intros t' Ht'. by rewrite lookup_delete_ne by set_solver.
  - intros x ->%list_elem_of_singleton. cbn. apply lookup_delete_eq.
Qed.

Lemma last_or (l : list Z) : List.last l NULL = NULL \/ List.last l NULL ∈ l.
Proof. destruct l as [|x l]; [by left|right]. by apply last_elem. Qed.
Lemma first_or (l : list Z) : hd0 NULL l = NULL \/ hd0 NULL l ∈ l.
Proof. destruct l as [|x l]; [by left|right; left]. Qed.

Section Delete.
Context (m : mem) (t : Z) (T : UT_hash_table) (kv1 kv2 : list (Z * list Z)) (a : Z) (k : list Z) (h : UT_hash_handle) (bk : UT_hash_bucket).
Let kv := kv1 ++ (a, k) :: kv2.
Let b := HASH_TO_BKT (hashv h) (num_buckets T).
Context (HT : tbls m !! t = Some T) (Hok : table_ok (hhs m) T t kv) (Hne : kv1 ++ kv2 <> []).
Context (Hh : hhs m !! a = Some h) (Hbk : buckets T !! Z.to_nat b = Some bk).

Lemma kv_fst : kv.*1 = kv1.*1 ++ a :: kv2.*1.
Proof using Type. unfold kv. by rewrite fmap_app. Qed.

Lemma kv_nodup : NoDup (kv1.*1 ++ a :: kv2.*1).
Proof using Hok. rewrite <- kv_fst. apply (to_nodup _ _ _ _ _ Hok). Qed.

Lemma kv_null : NULL ∉ kv1.*1 ++ a :: kv2.*1.
Proof using Hok. rewrite <- kv_fst. apply (to_null _ _ _ _ _ Hok). Qed.

Lemma del_neighbours :
  prev h = List.last kv1.*1 NULL /\ next h = hd0 NULL kv2.*1 /\ (prev h <> NULL -> is_Some (hhs m !! prev h)) /\ (next h <> NULL -> is_Some (hhs m !! next h)).
Proof using Hok Hh.
  pose proof (to_app _ _ _ _ _ Hok) as Happ. rewrite kv_fst in Happ. apply dll_app in Happ as [H1 [(h' & Hh' & Hp & Hn) H2]]. rewrite Hh in Hh'. injection Hh' as <-.
  split_and!; [done|done|rewrite Hp; by eapply last_some|rewrite Hn; by eapply first_some].
Qed.

Lemma del_not_single : (prev h =? NULL) && (next h =? NULL) = false.
Proof using Hok Hh Hne.
  destruct del_neighbours as (-> & -> & _). pose proof kv_null as H0. rewrite elem_of_app, elem_of_cons in H0. destruct kv1 as [|p l1].
  - apply andb_false_intro2, Z.eqb_neq. destruct kv2 as [|q l2]; [done|]. cbn in *. intros He. apply H0. do 2 right. rewrite <- He. left.
  - apply andb_false_intro1, Z.eqb_neq. intros He. apply H0. left. rewrite <- He at 1. by apply last_elem.
Qed.

Lemma del_bkt_range : 0 <= b.
Proof using Hok. unfold b. rewrite (to_num _ _ _ _ _ Hok). apply to_bkt_range. pose proof (to_log _ _ _ _ _ Hok). lia. Qed.

Lemma del_in_bkt : in_bkt (hhs m) (num_buckets T) (Z.to_nat b) a.
Proof using Hh Hok. pose proof del_bkt_range. unfold in_bkt, hash_of. rewrite Hh. fold b. lia. Qed.

(** The neighbours of [a] in its chain. *)
Lemma del_chain :
  (hh_prev h = NULL \/ hh_prev h ∈ kv.*1) /\ (hh_next h = NULL \/ hh_next h ∈ kv.*1).
Proof using Hok Hh Hbk.
  destruct (to_chains _ _ _ _ _ Hok _ bk Hbk) as (c & _ & _ & Hcd & Hcp). assert (NoDup c) as Hndc by (rewrite Hcp; apply NoDup_filter, (to_nodup _ _ _ _ _ Hok)).
  assert (a ∈ c) as Hac by (rewrite Hcp; apply list_elem_of_filter; split; [apply del_in_bkt|]; rewrite kv_fst; apply elem_of_app; right; left).
  destruct (dll_split _ _ _ _ _ _ Hndc Hcd Hh Hac) as (c1 & c2 & -> & -> & ->). assert (forall x, x ∈ c1 ++ a :: c2 -> x ∈ kv.*1) as Hin by (intros x; rewrite Hcp; by intros [_ ?]%list_elem_of_filter).
  split; [destruct (last_or c1) as [?|Hl]|destruct (first_or c2) as [?|Hl]]; try (by left); right; apply Hin, elem_of_app; [by left|right; by right].
Qed.

Lemma del_outside x : x ∉ kv.*1 -> unlink_chn (hh_prev h) (hh_next h) (unlink_app (prev h) (next h) (hhs m)) !! x = hhs m !! x.
Proof using Hok Hh Hbk.
  intros Hx. destruct del_chain as [Hc1 Hc2], del_neighbours as (Hp & Hn & _). rewrite kv_fst in *. rewrite elem_of_app, elem_of_cons in *.
  destruct (last_or kv1.*1) as [Hl|Hl], (first_or kv2.*1) as [Hf|Hf]; rewrite <- Hp in Hl; rewrite <- Hn in Hf;
    rewrite !unlink_out; try done; match goal with |- ?y <> ?p \/ ?p = NULL => destruct (decide (p = NULL)); [by right|left; intros ->; tauto] end.
Qed.

Context (head : Z) (Hhead : head = hd0 NULL kv.*1).
Let T1 := set_tail (if a =? tail T then prev h else tail T) T.

(** The rest of the deletion, once the tail is right. *)
Lemma del_rest_wp m1 :
  hhs m1 = hhs m -> tbls m1 = <[t := T1]> (tbls m) -> mallocs m1 = mallocs m ->
  wp (let* hd := (if negb (prev h =? NULL) then upd_hh (prev h) (set_next (next h)) ;;; ret head else ret (next h)) in
      (if negb (next h =? NULL) then upd_hh (next h) (set_prev (prev h)) else ret tt) ;;;
      let* h' := get_hh hd in
      let* T' := get_tbl (tbl h') in
      HASH_DEL_IN_BKT (tbl h') (HASH_TO_BKT (hashv h) (num_buckets T')) a ;;;
      let* T' := get_tbl (tbl h') in
      upd_tbl (tbl h') (set_items (u32 (num_items T' - 1))) ;;;
      ret hd) (removed m [t] kv.*1 (kv1 ++ kv2)) m1.
Proof using HT Hok Hhead Hne Hh Hbk.
  destruct m1 as [X1 Y1 n1]. cbn. intros -> -> ->. pose proof (del_table _ _ _ _ _ _ _ _ _ _ Hok Hh Hbk del_in_bkt) as Hdel. destruct del_neighbours as (Hp & Hn & Hps & Hns), del_chain as [Hc1 Hc2].
  apply unlink_head_wp; [done|done|]. set (head' := if prev h =? NULL then next h else head). unfold w_hhs. cbn [hhs tbls mallocs]. set (X1 := unlink_app _ _ _) in *.
  assert (head' = hd0 NULL (kv1 ++ kv2).*1) as Hhead'.
  { subst head'. rewrite fmap_app, Hp, Hn, Hhead, kv_fst. destruct (kv1.*1) as [|y l1] eqn:Hl; [done|]. rewrite (proj2 (Z.eqb_neq _ _)); [done|]. intros He. apply kv_null. apply elem_of_app. left. rewrite Hl, <- He at 1. by apply last_elem. }
  assert (exists k', (head', k') ∈ kv1 ++ kv2) as [k' Hk'] by (rewrite Hhead'; destruct (kv1 ++ kv2) as [|[y ky] r]; [done|]; exists ky; left).
  destruct (to_elem _ _ _ _ _ Hdel head' k' Hk') as (h1 & Hh1 & Ht1 & _).
  assert (exists h2, X1 !! head' = Some h2 /\ tbl h2 = t) as (h2 & Hh2 & Ht2).
  { pose proof (fmap_lookup_eq _ _ _ head' (unlink_chn_core (hh_prev h) (hh_next h) X1)) as He. rewrite Hh1 in He. destruct (X1 !! head') as [h2|]; [|done]. exists h2. split; [done|]. cbn in He. unfold core in He. congruence. }
  assert (forall x, x = NULL \/ x ∈ kv.*1 -> x <> NULL -> is_Some (X1 !! x)) as Hsome.
  { intros x [->|Hx] Hx0; [done|]. subst X1. rewrite <- elem_of_dom, unlink_dom, elem_of_dom. by apply (elem_some _ t x kv (to_elem _ _ _ _ _ Hok)). }
  destruct (neighbours_ne kv1.*1 a kv2.*1 kv_nodup kv_null) as [Hap Han]. rewrite <- Hp in Hap. rewrite <- Hn in Han.
  wp_simpl. eapply get_hh_wp; [exact Hh2|]. wp_simpl. rewrite Ht2. eapply get_tbl_wp; [apply lookup_insert_eq|]. cbv beta. change (num_buckets T1) with (num_buckets T). fold b.
  eapply (del_in_bkt_wp _ _ _ t T1 b a h bk); [apply lookup_insert_eq|apply del_bkt_range|exact Hbk|cbn; subst X1; by rewrite unlink_out by (by left)|by apply Hsome|by apply Hsome|].
  cbn [hhs tbls mallocs]. rewrite insert_insert_eq. wp_simpl. eapply get_tbl_wp; [apply lookup_insert_eq|]. wp_simpl. eapply upd_tbl_wp; [apply lookup_insert_eq|]. wp_simpl. unfold w_tbls. cbn [hhs tbls mallocs]. rewrite insert_insert_eq.
  exists [t]. rewrite decide_False by done. split_and!; [| |done].
  - rewrite Hhead'. destruct (kv1 ++ kv2) as [|[y ky] r]; [done|]. split; [done|]. eexists _, _. split_and!; [done|apply lookup_insert_eq|exact Hdel].
  - split; cbn [hhs tbls mallocs]; [apply del_outside|by subst X1; rewrite !unlink_dom| |lia]. intros t' Ht'. by rewrite lookup_insert_ne by set_solver.
Qed.

End Delete.

Lemma del_wp m head ts kv1 a k kv2 :
  rep m head ts (kv1 ++ (a, k) :: kv2) -> wp (HASH_DEL head a) (removed m ts (kv1 ++ (a, k) :: kv2).*1 (kv1 ++ kv2)) m.
Proof.
  intros Hrep. destruct (decide (kv1 ++ kv2 = [])) as [[-> ->]%app_eq_nil|Hne]; [by apply (del_last_wp m head ts a k)|].
  assert (exists t T, ts = [t] /\ tbls m !! t = Some T /\ table_ok (hhs m) T t (kv1 ++ (a, k) :: kv2) /\ head = hd0 NULL (kv1 ++ (a, k) :: kv2).*1) as (t & T & -> & HT & Hok & Hhead).
  { destruct kv1 as [|[x kx] kv1]; cbn [app rep] in Hrep; destruct Hrep as (-> & t & T & ? & ? & ?); by exists t, T. }
  assert ((a, k) ∈ kv1 ++ (a, k) :: kv2) as Hin by (apply elem_of_app; right; left). destruct (to_elem _ _ _ _ _ Hok a k Hin) as (h & Hh & _).
  assert (head ∈ (kv1 ++ (a, k) :: kv2).*1) as Hhin by (rewrite Hhead; destruct kv1; left). destruct (list_elem_of_fmap_1 _ _ _ Hhin) as ([x kx] & Hx & Hxin). cbn in Hx. subst x.
  destruct (to_elem _ _ _ _ _ Hok head kx Hxin) as (h0 & Hh0 & Ht0 & _). pose proof (to_log _ _ _ _ _ Hok) as Hlog. pose proof (to_bkt_range (hashv h) (log2_num_buckets T) ltac:(lia)) as Hr. rewrite <- (to_num _ _ _ _ _ Hok) in Hr.
  destruct (lookup_lt_is_Some_2 (buckets T) (Z.to_nat (HASH_TO_BKT (hashv h) (num_buckets T)))) as [bk Hbk]; [rewrite (to_len _ _ _ _ _ Hok); lia|].
  unfold HASH_DEL, HASH_DELETE_HH. wp_simpl. eapply get_hh_wp; [exact Hh|]. wp_simpl. eapply get_hh_wp; [exact Hh0|]. cbv beta. rewrite (del_not_single m t T kv1 kv2 a k h Hok Hne Hh), Ht0. wp_simpl. eapply get_tbl_wp; [exact HT|]. cbv beta. apply wp_bind.
  pose proof (del_rest_wp m t T kv1 kv2 a k h bk HT Hok Hne Hh Hbk head Hhead) as Hrest. destruct (a =? tail T) eqn:Htl.
  - eapply upd_tbl_wp; [exact HT|]. by apply Hrest.
  - apply wp_ret. apply Hrest; [done| |done]. rewrite insert_id; [done|]. rewrite HT. by destruct T.
Qed.


(** ** Iteration and integrity *)

Lemma iter_wp m p l : forall fuel, (length l <= fuel)%nat -> NULL ∉ l -> app (hhs m) p l NULL -> wp (iter_loop fuel (hd0 NULL l)) (fun r m' => m' = m /\ r = l) m.
Proof.
  revert p. induction l as [|a l IH]; intros p fuel Hf H0 Hd; [by destruct fuel; cbn; wp_simpl|]. destruct fuel as [|fuel]; [cbn in Hf; lia|]. destruct Hd as [(h & Hh & _ & Hn) Hd].
  cbn [hd0 iter_loop]. rewrite (proj2 (Z.eqb_neq a NULL)) by set_solver. wp_simpl. eapply get_hh_wp; [exact Hh|]. wp_simpl. rewrite Hn. eapply wp_mono; [apply (IH a); [cbn in Hf; lia|set_solver|done]|]. intros r m' [-> ->]. by wp_simpl.
Qed.

Lemma fsck_chain_wp m p l : forall fuel cnt, (length l <= fuel)%nat -> NULL ∉ l -> chn (hhs m) p l NULL ->
  wp (fsck_chain fuel (hd0 NULL l) p (u32 cnt)) (fun r m' => m' = m /\ r = Some (u32 (cnt + Z.of_nat (length l)))) m.
Proof.
  revert p. induction l as [|a l IH]; intros p fuel cnt Hf H0 Hd; [destruct fuel; cbn; wp_simpl; by rewrite Z.add_0_r|]. destruct fuel as [|fuel]; [cbn in Hf; lia|]. destruct Hd as [(h & Hh & Hp & Hn) Hd].
  cbn [hd0 fsck_chain]. rewrite (proj2 (Z.eqb_neq a NULL)) by set_solver. wp_simpl. eapply get_hh_wp; [exact Hh|]. cbv beta. rewrite Hp, Z.eqb_refl, Hn, u32_succ. cbn [negb]. eapply wp_mono; [apply (IH a); [cbn in Hf; lia|set_solver|done]|].
  intros r m' [-> ->]. split; [done|]. do 2 f_equal. cbn. lia.
Qed.

Lemma fsck_app_wp m p l : forall fuel cnt, (length l <= fuel)%nat -> NULL ∉ l -> app (hhs m) p l NULL ->
  wp (fsck_app fuel (hd0 NULL l) p (u32 cnt)) (fun r m' => m' = m /\ r = Some (u32 (cnt + Z.of_nat (length l)))) m.
Proof.
  revert p. induction l as [|a l IH]; intros p fuel cnt Hf H0 Hd; [destruct fuel; cbn; wp_simpl; by rewrite Z.add_0_r|]. destruct fuel as [|fuel]; [cbn in Hf; lia|]. destruct Hd as [(h & Hh & Hp & Hn) Hd].
  cbn [hd0 fsck_app]. rewrite (proj2 (Z.eqb_neq a NULL)) by set_solver. wp_simpl. eapply get_hh_wp; [exact Hh|]. cbv beta zeta. rewrite Hp, Z.eqb_refl, Hn, u32_succ. cbn [negb]. eapply wp_mono; [apply (IH a); [cbn in Hf; lia|set_solver|done]|].
  intros r m' [-> ->]. split; [done|]. do 2 f_equal. cbn. lia.
Qed.

Definition below (X : gmap Z UT_hash_handle) (nb : Z) (i : nat) (L : list Z) : Z := Z.of_nat (length (filter (fun a => HASH_TO_BKT (hash_of X a) nb < Z.of_nat i) L)).

Lemma fsck_bkts_wp m t T kv : tbls m !! t = Some T -> table_ok (hhs m) T t kv -> forall n i, (i + n = length (buckets T))%nat ->
  wp (fsck_bkts n i t (u32 (below (hhs m) (num_buckets T) i kv.*1))) (fun r m' => m' = m /\ r = Some (u32 (below (hhs m) (num_buckets T) (i + n) kv.*1))) m.
Proof.
  intros HT Hok. induction n as [|n IH]; intros i Hi; cbn [fsck_bkts]; [wp_simpl; by rewrite Nat.add_0_r|]. destruct (lookup_lt_is_Some_2 (buckets T) i) as [bk Hbk]; [lia|].
  wp_simpl. eapply get_bkt_wp; [exact HT|by rewrite Nat2Z.id|]. wp_simpl. destruct (to_chains _ _ _ _ _ Hok i bk Hbk) as (c & -> & Hct & Hc & Hp). pose proof (chain_elems _ _ _ _ _ _ _ Hok Hp Hbk) as Hce.
  assert (NoDup c) as Hndc by (rewrite Hp; apply NoDup_filter, (to_nodup _ _ _ _ _ Hok)).
  eapply wp_mono; [apply (fsck_chain_wp m NULL c _ 0); [apply nodup_size; [done|]; intros x Hx; by eapply dll_elem| |done]|].
  - intros Hx. destruct (Hce _ Hx) as (kx & Hin & _). by apply (to_null _ _ _ _ _ Hok), (list_elem_of_fmap_2 fst _ (NULL, kx)).
  - intros r m' [-> ->]. rewrite Hct, Z.add_0_l, Z.eqb_refl. cbn [negb]. rewrite <- Nat.add_succ_comm.
    assert (u32 (u32 (below (hhs m) (num_buckets T) i kv.*1) + u32 (Z.of_nat (length c))) = u32 (below (hhs m) (num_buckets T) (S i) kv.*1)) as ->; [|apply IH; lia].
    unfold below, wrap. rewrite <- Zplus_mod. f_equal. rewrite (Permutation_length (filter_below (hhs m) (num_buckets T) i kv.*1)), length_app, (Permutation_length Hp). lia.
Qed.

(** The integrity check of the header passes. *)
Lemma fsck_wp m head ts kv : rep m head ts kv -> wp (HASH_FSCK head) (fun r m' => m' = m /\ r = true) m.
Proof.
  intros Hrep. unfold HASH_FSCK. destruct kv as [|[a ka] kv]; [by destruct Hrep as [-> ->]; wp_simpl|]. destruct Hrep as (-> & t & T & _ & HT & Hok). set (l := (a, ka) :: kv) in *.
  pose proof (to_null _ _ _ _ _ Hok) as H0. rewrite (proj2 (Z.eqb_neq a NULL)) by (cbn in H0; set_solver). destruct (to_elem _ _ _ _ _ Hok a ka ltac:(left)) as (h & Hh & Ht & _).
  wp_simpl. eapply get_hh_wp; [exact Hh|]. wp_simpl. rewrite Ht. eapply get_tbl_wp; [exact HT|]. wp_simpl. pose proof (to_log _ _ _ _ _ Hok) as Hlog.
  assert (forall x, 0 <= HASH_TO_BKT (hash_of (hhs m) x) (num_buckets T) < num_buckets T) as Hr by (intros x; rewrite (to_num _ _ _ _ _ Hok); apply to_bkt_range; lia).
  assert (below (hhs m) (num_buckets T) 0 l.*1 = 0) as Hz by (unfold below; rewrite filter_none; [done|]; intros x _; specialize (Hr x); lia).
  pose proof (fsck_bkts_wp m t T l HT Hok (Z.to_nat (num_buckets T)) 0 ltac:(by rewrite (to_len _ _ _ _ _ Hok))) as Hb. rewrite Hz in Hb. eapply wp_mono; [exact Hb|]. intros r m' [-> ->]. wp_simpl.
  assert (wp (fsck_app (base.size (hhs m)) a NULL 0) (fun r m' => m' = m /\ r = Some (u32 (0 + Z.of_nat (length l.*1)))) m) as Ha.
  { refine (fsck_app_wp m NULL l.*1 (base.size (hhs m)) 0 _ H0 (to_app _ _ _ _ _ Hok)). apply nodup_size; [apply (to_nodup _ _ _ _ _ Hok)|]. intros x Hx. by apply (elem_some _ t x l (to_elem _ _ _ _ _ Hok)). }
  eapply wp_mono; [exact Ha|].
  intros r m' [-> ->]. wp_simpl. split; [done|]. rewrite (to_items _ _ _ _ _ Hok), Z.add_0_l. apply andb_true_intro. split; apply bool_decide_true; [|done]. do 2 f_equal. unfold below. f_equal. f_equal.
  apply filter_all. intros x _. specialize (Hr x). lia.
Qed.

(** ** What other operations leave alone *)

Lemma rep_frame m m' head ts kv : rep m head ts kv -> (forall a, a ∈ kv.*1 -> hhs m' !! a = hhs m !! a) -> (forall t, t ∈ ts -> tbls m' !! t = tbls m !! t) -> rep m' head ts kv.
Proof.
  destruct kv as [|[a ka] kv]; [done|]. intros (-> & t & T & -> & HT & Hok) HX HY. split; [done|]. exists t, T. split_and!; [done|by rewrite HY by left|]. set (l := (a, ka) :: kv) in *.
  destruct Hok as [Hnd H0 Hel Happ Htl Hit Hnum Hlog Hlen Hch]. split; try done.
  - intros x kx Hx. eapply elem_ext; [|by apply Hel]. by rewrite HX by apply (list_elem_of_fmap_2 fst _ (x, kx) Hx).
  - eapply dll_ext; [|exact Happ]. intros x Hx. by rewrite HX.
  - eapply chains_ext; [|exact Hch]. intros x Hx. by rewrite HX.
Qed.


End UthashInv.
