(* ===== verification/UthashMap.v ===== *)
(** * uthash.h as a map: every sequence of operations

    A program that adds, finds, counts, visits and deletes elements of one hash table
    gets the answers an association list in insertion order would give, across every
    expansion of the table, until an allocation fails and the process exits; and the
    header's own integrity check (HASH_FSCK) passes at every point. *)

From S2P Require Import Prelude StateM DLinks Uthash UthashInv.

Module UthashMap.
Import DLinks Uthash UthashInv.

Open Scope Z_scope.

(** The macros a client uses, with the bytes of the keys and the addresses of the
    elements. *)
Inductive hash_op := Find (k : list Z) | Add (a : Z) (k : list Z) | Del (a : Z) | Count | Iter | Fsck.

(** ** The abstract map *)

Definition map_op (kv : list (Z * list Z)) (o : hash_op) : option (list Z * list (Z * list Z)) :=
  match o with
  | Find k => if Z.of_nat (length k) <? 2 ^ 32 then Some ([lookup_key k kv], kv) else None
  | Add a k => if bool_decide (a <> NULL /\ (a ∉ kv.*1) /\ (k ∉ kv.*2)) then Some ([], kv ++ [(a, k)]) else None
  | Del a => if bool_decide (a ∈ kv.*1) then Some ([], filter (fun p => p.1 <> a) kv) else None
  | Count => Some ([u32 (Z.of_nat (length kv))], kv)
  | Iter => Some (kv.*1, kv)
  | Fsck => Some ([1], kv)
  end.

(** [None]: an operation the header forbids (an element added twice, a second element
    with a key, an element deleted that is not in the table). *)
Fixpoint map_run (kv : list (Z * list Z)) (ops : list hash_op) : option (list (list Z) * list (Z * list Z)) :=
  match ops with
  | [] => Some ([], kv)
  | o :: ops' => '(r, kv1) ← map_op kv o; '(rs, kv2) ← map_run kv1 ops'; Some (r :: rs, kv2)
  end.

(** ** The table *)

Section Run.
Context {E : HashEnv}.

(** Whether the process goes on, the variable that holds the table, the result. *)
Definition hash_op_run (head : Z) (o : hash_op) : H (bool * Z * list Z) :=
  match o with
  | Find k => let* r := HASH_FIND head k in ret (true, head, [r])
  | Add a k => let* (ok, head') := HASH_ADD head k a in ret (ok, head', [])
  | Del a => let* head' := HASH_DEL head a in ret (true, head', [])
  | Count => let* c := HASH_COUNT head in ret (true, head, [c])
  | Iter => let* l := HASH_ITER head in ret (true, head, l)
  | Fsck => let* b := HASH_FSCK head in ret (true, head, [Z.b2z b])
  end.

Fixpoint hash_run (head : Z) (ops : list hash_op) : H (bool * Z * list (list Z)) :=
  match ops with
  | [] => ret (true, head, [])
  | o :: ops' =>
      let* (ok, head1, r) := hash_op_run head o in
      if negb ok then ret (false, head1, [])
      else let* (ok, head2, rs) := hash_run head1 ops' in ret (ok, head2, r :: rs)
  end.

Context {MB : MallocBounded}.

(** The table in [head] is the map [kv]. *)
Definition is_map (m : mem) (head : Z) (kv : list (Z * list Z)) : Prop := mem_ok m /\ NoDup kv.*2 /\ exists ts, rep m head ts kv.

Lemma iter_table_wp m head ts kv : rep m head ts kv -> wp (HASH_ITER head) (fun r m' => m' = m /\ r = kv.*1) m.
Proof.
  intros Hrep. unfold HASH_ITER. wp_simpl. destruct kv as [|[a ka] kv]; [destruct Hrep as [-> _]; refine (iter_wp m NULL [] _ (Nat.le_0_l _) _ _); [apply not_elem_of_nil|done]|]. destruct Hrep as (-> & t & T & _ & HT & Hok).
  refine (iter_wp m NULL ((a, ka) :: kv).*1 _ _ (to_null _ _ _ _ _ Hok) (to_app _ _ _ _ _ Hok)). apply nodup_size; [apply (to_nodup _ _ _ _ _ Hok)|]. intros x Hx. by apply (elem_some _ t x _ (to_elem _ _ _ _ _ Hok)).
Qed.

Lemma rep_nodup m head ts kv : rep m head ts kv -> NoDup kv.*1.
Proof. destruct kv as [|[a ka] kv]; [constructor|]. intros (_ & t & T & _ & _ & Hok). apply (to_nodup _ _ _ _ _ Hok). Qed.

Lemma filter_ne_split (kv1 : list (Z * list Z)) a k kv2 :
  NoDup (kv1 ++ (a, k) :: kv2).*1 -> filter (fun p : Z * list Z => p.1 <> a) (kv1 ++ (a, k) :: kv2) = kv1 ++ kv2.
Proof.
  rewrite fmap_app. cbn. intros (_ & H12 & [H2 _]%NoDup_cons)%NoDup_app. rewrite filter_app, filter_cons_False by naive_solver. f_equal; apply filter_all; intros [x kx] Hx; cbn; intros ->.
  - apply (H12 a); [by apply (list_elem_of_fmap_2 fst _ (a, kx))|left].
  - by apply H2, (list_elem_of_fmap_2 fst _ (a, kx)).
Qed.

Lemma removed_mem_ok m head ts kv kv' head' m' : mem_ok m -> rep m head ts kv -> removed m ts kv.*1 kv' head' m' -> mem_ok m'.
Proof.
  intros Hm Hrep (ts' & _ & Hlo & _). eapply local_mem_ok; [|exact Hm|exact Hlo]. intros t Ht. pose proof (lo_mallocs _ _ _ _ Hlo). assert (is_Some (tbls m !! t)) as Hs; [|specialize (Hm t Hs); lia].
  destruct kv as [|[a ka] kv]; [destruct Hrep as [_ ->]; by apply elem_of_nil in Ht|]. destruct Hrep as (_ & t' & T & -> & HT & _). apply list_elem_of_singleton in Ht as ->. by eexists.
Qed.

(** One operation: the answer of the map, or the process exits for want of memory. *)
Lemma hash_op_wp m head kv o r kv' :
  is_map m head kv -> (forall a k, o = Add a k -> is_Some (hhs m !! a)) -> map_op kv o = Some (r, kv') ->
  wp (hash_op_run head o) (fun x m' => if x.1.1 then x.2 = r /\ is_map m' x.1.2 kv' /\ dom (hhs m') =@{gset Z} dom (hhs m) else exists n sz, malloc_ok n sz = false) m.
Proof using MB.
  intros (Hm & Hk & ts & Hrep) Hmem Hop. destruct o as [k|a k|a| | |]; cbn [map_op hash_op_run] in *.
  - case_match eqn:Hl; [|done]. injection Hop as <- <-. wp_simpl. eapply wp_mono; [by apply (find_wp m head ts kv); [| |lia]|]. intros x m' [-> ->]. wp_simpl. split_and!; [done| |done]. split_and!; eauto.
  - case_bool_decide as Ha; [|done]. destruct Ha as (Ha0 & Ha & Hka). injection Hop as <- <-. wp_simpl. eapply wp_mono; [apply (add_wp m head ts kv); [done..|by eapply Hmem]|].
    intros [[] head'] m'; wp_simpl; [|done]. intros (Hm' & ts' & Hrep' & Hlo & _). split_and!; [done| |apply (lo_dom _ _ _ _ Hlo)]. split_and!; [done| |eauto]. rewrite fmap_app. apply NoDup_app. split_and!; [done|set_solver|apply NoDup_singleton].
  - case_bool_decide as Ha; [|done]. injection Hop as <- <-. apply list_elem_of_fmap in Ha as ([x k] & Hx & (kv1 & kv2 & ->)%list_elem_of_split). cbn in Hx. subst x. wp_simpl. eapply wp_mono; [apply (del_wp m head ts kv1 a k kv2); done|].
    intros head' m' Hrm. wp_simpl. rewrite filter_ne_split by by eapply rep_nodup. pose proof (removed_mem_ok _ _ _ _ _ _ _ Hm Hrep Hrm). destruct Hrm as (ts' & Hrep' & Hlo & _). split_and!; [done| |apply (lo_dom _ _ _ _ Hlo)]. split_and!; [done| |eauto].
    eapply sublist_NoDup; [exact Hk|]. rewrite !fmap_app. cbn. apply sublist_app; [done|by constructor].
  - injection Hop as <- <-. wp_simpl. eapply wp_mono; [by apply (count_wp m head ts kv)|]. intros x m' [-> ->]. wp_simpl. split_and!; [done| |done]. split_and!; eauto.
  - injection Hop as <- <-. wp_simpl. eapply wp_mono; [by apply (iter_table_wp m head ts kv)|]. intros x m' [-> ->]. wp_simpl. split_and!; [done| |done]. split_and!; eauto.
  - injection Hop as <- <-. wp_simpl. eapply wp_mono; [by apply (fsck_wp m head ts kv)|]. intros x m' [-> ->]. wp_simpl. split_and!; [done| |done]. split_and!; eauto.
Qed.

(** C10. Any sequence of operations that is legal on the map runs to its end on the table,
    whatever the table's expansions, and gives the answers of the map; it can only stop
    early when an allocation fails, and then the answers so far are those of the map. *)
Theorem uthash_refines_map ops kv rs kv' m head :
  is_map m head kv -> (forall a k, Add a k ∈ ops -> is_Some (hhs m !! a)) -> map_run kv ops = Some (rs, kv') ->
  exists ok head' rs' m', hash_run head ops m = Some ((ok, head', rs'), m') /\
    if ok then rs' = rs /\ is_map m' head' kv' else rs' `prefix_of` rs /\ exists n sz, malloc_ok n sz = false.
Proof using MB.
  revert kv rs m head. induction ops as [|o ops IH]; intros kv rs m head Hmap Hmem Hrun; cbn [map_run hash_run] in *.
  { injection Hrun as <- <-. by exists true, head, [], m. }
  destruct (map_op kv o) as [[r kv1]|] eqn:Ho; [|done]. cbn in Hrun. destruct (map_run kv1 ops) as [[rs1 kv2]|] eqn:Hr; [|done]. injection Hrun as <- <-.
  pose proof (hash_op_wp m head kv o r kv1 Hmap ltac:(intros a k ->; apply (Hmem a k); left) Ho) as Hw. apply wp_run in Hw as ([[ok head1] r1] & m1 & Hs & Hq). cbn in Hq. step Hs. destruct ok; cbn [negb].
  - destruct Hq as (-> & Hmap1 & Hdom). destruct (IH kv1 rs1 m1 head1 Hmap1) as (ok & head2 & rs2 & m2 & Hs2 & Hq2); [|done|].
    { intros a k Ha. apply elem_of_dom. rewrite Hdom. apply elem_of_dom, (Hmem a k). by right. }
    step Hs2. exists ok, head2, (r :: rs2), m2. split; [done|]. destruct ok; [by destruct Hq2 as [-> ?]|]. destruct Hq2 as [? ?]. split; [by apply prefix_cons|done].
  - exists false, head1, [], m1. split; [done|]. split; [apply prefix_nil|done].
Qed.

End Run.

(** ** A run that expands the table *)

Definition ex_env : HashEnv := {| malloc_ok _ sz := sz <? 2 ^ 36 |}.
Definition ex_bounded : @MallocBounded ex_env.
Proof. split. cbn. intros _ sz. lia. Qed.

Definition ex_mem (n : nat) : mem :=
  mk_mem (list_to_map ((fun i => (Z.of_nat (S i), mk_hh 0 0 0 0 0 [] 0 0)) <$> seq 0 n)) ∅ 0.

Lemma ex_mem_empty n : is_map (ex_mem n) NULL [].
Proof. split_and!; [intros t [? Ht]; cbn in Ht; by rewrite lookup_empty in Ht|constructor|by exists []]. Qed.

Lemma ex_mem_alloc n (i : nat) : (i < n)%nat -> is_Some (hhs (ex_mem n) !! Z.of_nat (S i)).
Proof.
  intros Hi. exists (mk_hh 0 0 0 0 0 [] 0 0). apply elem_of_list_to_map; [|apply list_elem_of_fmap; exists i; split; [done|]; apply elem_of_seq; lia].
  rewrite <- list_fmap_compose. apply NoDup_fmap; [intros x y; cbn; lia|apply NoDup_seq].
Qed.

(** The addresses a program adds are among the first [n]. *)
Definition adds_within (n : nat) (ops : list hash_op) : bool := forallb (fun o => if o is Add a _ then (1 <=? a) && (a <=? Z.of_nat n) else true) ops.

Lemma adds_within_mem n ops a k : adds_within n ops = true -> Add a k ∈ ops -> is_Some (hhs (ex_mem n) !! a).
Proof.
  intros Hw Ha. unfold adds_within in Hw. rewrite forallb_forall in Hw. specialize (Hw _ (proj1 (list_elem_of_In _ _) Ha)). cbn beta iota in Hw.
  replace a with (Z.of_nat (S (Z.to_nat (a - 1)))) by lia. apply ex_mem_alloc. lia.
Qed.

(** Elements whose hash values all fall into bucket 0 of 32 while they are fewer than ten. *)
Definition ex_keys : list (list Z) := take 10 (filter (fun k => HASH_TO_BKT (HASH_JEN k) 32 = 0) ((fun i => [Z.of_nat i `mod` 256; Z.of_nat i `div` 256; 7]) <$> seq 0 512)) ++ [[3; 3]].
Definition ex_ops : list hash_op :=
  imap (fun i k => Add (Z.of_nat (S i)) k) ex_keys ++ [Count; Fsck; Find [3; 3]; Del 3; Iter; Find [9; 9]; Del 11; Del 1; Iter; Count; Fsck].

Lemma uthash_refines_map_witness :
  match @hash_run ex_env NULL ex_ops (ex_mem 11) with
  | Some ((true, _, rs), m') => drop 11 rs = [[11]; [1]; [11]; []; [1; 2; 4; 5; 6; 7; 8; 9; 10; 11]; [0]; []; []; [2; 4; 5; 6; 7; 8; 9; 10]; [8]; [1]] /\ num_buckets <$> (tbls m' !! 1) = Some 64
  | _ => False
  end /\
  exists ok head' rs' m', @hash_run ex_env NULL ex_ops (ex_mem 11) = Some ((ok, head', rs'), m').
Proof.
  split; [vm_compute; done|]. destruct (map_run [] ex_ops) as [[rs kv]|] eqn:Hrun; [|by vm_compute in Hrun].
  destruct (@uthash_refines_map ex_env ex_bounded ex_ops [] rs kv (ex_mem 11) NULL) as (ok & head' & rs' & m' & Hs & _); [| |exact Hrun|exists ok, head', rs', m'; exact Hs].
  - apply ex_mem_empty.
  - intros a k. apply adds_within_mem. vm_compute. reflexivity.
Defined.

End UthashMap.
