(* ===== verification/NetTypes.v ===== *)
(** * nccl_ofi.h: what both transports share

    Request limits, the error type of NCCL, the stages of connection set-up, the support for GPUDirect and
    the error codes of libfabric that the plug-in compares with. *)

From S2P Require Import Prelude.

Definition NCCL_OFI_MAX_REQUESTS : Z := 128.
Definition NCCL_OFI_MAX_RECVS : Z := 1.
Definition NCCL_OFI_MAX_SEND_REQUESTS : Z := NCCL_OFI_MAX_REQUESTS * NCCL_OFI_MAX_RECVS.

(** libfabric's error codes are the errno values of the same name. *)
Definition FI_EAGAIN : Z := EAGAIN.
Definition FI_ECANCELED : Z := 125.
Definition FI_ENODATA : Z := 61.

(** Error type of the NCCL interface. *)
Definition ncclSuccess : Z := 0.
Definition ncclSystemError : Z := 2.
Definition ncclInternalError : Z := 3.
Definition ncclInvalidArgument : Z := 4.
Definition ncclRemoteError : Z := 6.

Inductive nccl_ofi_comm_stage_t :=
| COMM_CREATE_START
| COMM_SEND_CONN
| COMM_RECV_CONN
| COMM_CONN_REQ_PENDING
| COMM_CONN_RESP_REQ_PENDING
| COMM_CONNECTED.

#[export] Instance comm_stage_eq_dec : EqDecision nccl_ofi_comm_stage_t.
Proof. solve_decision. Defined.

Inductive gdr_support_level_t := GDR_UNKNOWN | GDR_SUPPORTED | GDR_UNSUPPORTED.

#[export] Instance gdr_eq_dec : EqDecision gdr_support_level_t.
Proof. solve_decision. Defined.
