(* ===== verification/Idpool.v ===== *)
(** * nccl_ofi_idpool: the pool of communicator IDs and MR keys

    The pool is a bit array of 64-bit words in which a set bit marks an
    available ID.  The concrete operations work on the words; the abstract
    specification is a finite set of available IDs.  Memory returned by
    [malloc] has arbitrary contents, the result of the mutex functions is an
    argument. *)

From S2P Require Import Prelude OfiMath.

Module Idpool.

(** ** Data and operations *)

Record nccl_ofi_idpool := mk_idpool {
  size : Z;
  ids : option (list Z);
}.

(** [__builtin_ffsll]: one plus the index of the least significant set bit. *)
Fixpoint pos_ctz (p : positive) : Z :=
  match p with
  | xO q => 1 + pos_ctz q
  | _ => 0
  end.

Definition builtin_ffsll (w : Z) : Z :=
  match w with
  | Zpos p => 1 + pos_ctz p
  | _ => 0
  end.

(** [memset(ids, 0xff, nbytes)] on little-endian 64-bit words. *)
Definition memset_ff (nbytes : Z) (ws : list Z) : list Z :=
  imap (fun i w =>
    let k := Z.min 8 (Z.max 0 (nbytes - 8 * Z.of_nat i)) in
    Z.lor w (Z.ones (8 * k))) ws.

Definition num_long_elements (sz : Z) : Z := NCCL_OFI_ROUND_UP sz 64 / 64.

(** [malloc n] is the memory obtained for [n] words, [None] on failure. *)
Definition nccl_ofi_idpool_init (malloc : Z -> option (list Z)) (mutex_init : Z)
    (idpool : nccl_ofi_idpool) (sz : Z) : Z * nccl_ofi_idpool :=
  if 0 =? sz then (0, mk_idpool 0 None)
  else
    let num := num_long_elements sz in
    match malloc num with
    | None => (- ENOMEM, mk_idpool (size idpool) None)
    | Some mem =>
        let ws := memset_ff (sz / 8) mem in
        let ws :=
          if negb (sz mod 8 =? 0)
          then <[Z.to_nat (num - 1) := u64 (Z.shiftl 1 (sz mod 64)) - 1]> ws
          else ws in
        if negb (mutex_init =? 0) then (mutex_init, mk_idpool (size idpool) None)
        else (0, mk_idpool sz (Some ws))
    end.

(** The scan of [nccl_ofi_idpool_allocate_id] over words [i, i + n). *)
Fixpoint allocate_scan (n : nat) (i : Z) (ws : list Z) : option (Z * list Z) :=
  match n, ws with
  | S n', w :: ws' =>
      let entry_index := builtin_ffsll w in
      if negb (entry_index =? 0) then
        Some (u64 (i * 64 + entry_index - 1),
              Z.land w (u64 (Z.lnot (Z.shiftl 1 (entry_index - 1)))) :: ws')
      else
        match allocate_scan n' (i + 1) ws' with
        | Some (id, ws'') => Some (id, w :: ws'')
        | None => None
        end
  | _, _ => None
  end.

Definition nccl_ofi_idpool_allocate_id (idpool : nccl_ofi_idpool) : Z * nccl_ofi_idpool :=
  if 0 =? size idpool then (- ENOMEM, idpool)
  else
    match ids idpool with
    | None => (- EINVAL, idpool)
    | Some ws =>
        match allocate_scan (Z.to_nat (num_long_elements (size idpool))) 0 ws with
        | None => (- ENOMEM, idpool)
        | Some (id, ws') =>
            let idpool' := mk_idpool (size idpool) (Some ws') in
            if id >=? size idpool then (- ENOMEM, idpool') else (i32 id, idpool')
        end
    end.

Definition nccl_ofi_idpool_free_id (idpool : nccl_ofi_idpool) (id : Z) : Z * nccl_ofi_idpool :=
  if 0 =? size idpool then (- EINVAL, idpool)
  else
    match ids idpool with
    | None => (- EINVAL, idpool)
    | Some ws =>
        if id >=? size idpool then (- EINVAL, idpool)
        else
          let i := Z.to_nat (id / 64) in
          let entry_index := id mod 64 in
          match ws !! i with
          | None => (- EINVAL, idpool)   (* out of bounds, excluded by the invariant *)
          | Some w =>
              if negb (Z.land w (Z.shiftl 1 entry_index) =? 0) then (- ENOTSUP, idpool)
              else (0, mk_idpool (size idpool)
                         (Some (<[i := Z.lor w (Z.shiftl 1 entry_index)]> ws)))
          end
    end.

Definition nccl_ofi_idpool_fini (mutex_destroy : Z) (idpool : nccl_ofi_idpool)
    : Z * nccl_ofi_idpool :=
  match size idpool, ids idpool with
  | 0, None => (0, idpool)
  | _, _ => (mutex_destroy, mk_idpool 0 None)
  end.

Definition nccl_ofi_idpool_active (idpool : nccl_ofi_idpool) : bool :=
  negb (size idpool =? 0).

(** ** Invariant and abstraction *)

(** Bit [id] of the array. *)
Definition id_bit (ws : list Z) (id : Z) : bool :=
  match ws !! Z.to_nat (id / 64) with
  | Some w => Z.testbit w (id mod 64)
  | None => false
  end.

Record idpool_wf (p : nccl_ofi_idpool) (ws : list Z) : Prop := {
  wf_size : 0 < size p <= 2 ^ 31;
  wf_ids : ids p = Some ws;
  wf_length : Z.of_nat (length ws) = num_long_elements (size p);
  wf_words : Forall (in_width 64) ws;
}.

(** [p] is well formed and its available IDs are exactly [S]. *)
Definition idpool_rel (p : nccl_ofi_idpool) (S : gset Z) : Prop :=
  exists ws, idpool_wf p ws /\
    forall id, id ∈ S <-> 0 <= id < size p /\ id_bit ws id = true.

(** ** Abstract specification: a set of available IDs *)

Inductive idpool_op :=
| OpAllocate
| OpFree (id : Z).

Inductive spec_step (n : Z) : gset Z -> idpool_op -> Z -> gset Z -> Prop :=
| spec_allocate S id :
    id ∈ S -> (forall j, j ∈ S -> id <= j) ->
    spec_step n S OpAllocate id (S ∖ {[id]})
| spec_allocate_empty S :
    S = ∅ -> spec_step n S OpAllocate (- ENOMEM) S
| spec_free S id :
    0 <= id < n -> id ∉ S -> spec_step n S (OpFree id) 0 ({[id]} ∪ S)
| spec_free_unused S id :
    0 <= id < n -> id ∈ S -> spec_step n S (OpFree id) (- ENOTSUP) S
| spec_free_range S id :
    n <= id -> spec_step n S (OpFree id) (- EINVAL) S.

Inductive spec_run (n : Z) : gset Z -> list idpool_op -> list Z -> Prop :=
| spec_run_nil S : spec_run n S [] []
| spec_run_cons S op r S' ops rs :
    spec_step n S op r S' -> spec_run n S' ops rs ->
    spec_run n S (op :: ops) (r :: rs).

Definition idpool_step (p : nccl_ofi_idpool) (op : idpool_op) : Z * nccl_ofi_idpool :=
  match op with
  | OpAllocate => nccl_ofi_idpool_allocate_id p
  | OpFree id => nccl_ofi_idpool_free_id p id
  end.

(** The results of a sequence of calls. *)
Fixpoint idpool_run (p : nccl_ofi_idpool) (ops : list idpool_op) : list Z :=
  match ops with
  | [] => []
  | op :: ops' => let '(r, p') := idpool_step p op in r :: idpool_run p' ops'
  end.

Definition all_ids (n : Z) : gset Z := list_to_set (seqZ 0 n).

(** ** Lemmas on words *)

Lemma pos_ctz_spec p :
  0 <= pos_ctz p /\ Z.testbit (Zpos p) (pos_ctz p) = true /\
  (forall j, 0 <= j < pos_ctz p -> Z.testbit (Zpos p) j = false).
Proof.
  induction p as [p _|p (IH1 & IH2 & IH3)|]; cbn [pos_ctz].
  - split; [lia|]. split; [done|]. lia.
  - split; [lia|]. rewrite Pos2Z.inj_xO. split.
    + 
      replace (1 + pos_ctz p) with (Z.succ (pos_ctz p)) by lia.
      by rewrite Z.double_bits_succ.
    + intros j Hj. destruct (decide (j = 0)) as [->|Hne].
      * by rewrite Z.testbit_even_0.
      * replace j with (Z.succ (j - 1)) by lia.
        rewrite Z.double_bits_succ. apply IH3. lia.
  - split; [lia|]. split; [done|]. lia.
Qed.

(** The index found by [__builtin_ffsll] is the lowest set bit. *)
Lemma ffsll_spec w :
  0 <= w < 2 ^ 64 ->
  (w = 0 /\ builtin_ffsll w = 0) \/
  (exists e, builtin_ffsll w = e + 1 /\ 0 <= e < 64 /\ Z.testbit w e = true /\
     forall j, 0 <= j < e -> Z.testbit w j = false).
Proof.
  intros Hw. destruct w as [|p|p]; [by left| |lia]. right.
  destruct (pos_ctz_spec p) as (H1 & H2 & H3). exists (pos_ctz p).
  cbn [builtin_ffsll]. repeat split; try done; try lia.
  destruct (Z.lt_ge_cases (pos_ctz p) 64) as [|Hge]; [done|exfalso].
  rewrite Z.bits_above_log2 in H2; [done|lia|].
  apply Z.lt_le_trans with 64; [|done]. apply Z.log2_lt_pow2; lia.
Qed.

(** Clearing bit [e] of a 64-bit word. *)
Lemma clear_bit_spec w e j :
  0 <= w < 2 ^ 64 -> 0 <= e < 64 -> 0 <= j ->
  Z.testbit (Z.land w (u64 (Z.lnot (Z.shiftl 1 e)))) j =
  if decide (j = e) then false else Z.testbit w j.
Proof.
  intros Hw He Hj. unfold wrap. rewrite <- Z.land_ones by lia.
  rewrite !Z.land_spec, Z.lnot_spec, Z.shiftl_spec by lia.
  destruct (Z.lt_ge_cases j 64).
  - rewrite Z.ones_spec_low, andb_true_r by lia.
    case_decide as E.
    + subst. by rewrite Z.sub_diag, andb_false_r.
    + destruct (Z.lt_ge_cases j e).
      * rewrite (Z.testbit_neg_r 1) by lia. by rewrite andb_true_r.
      * rewrite (Z.bits_above_log2 1) by (cbn; lia). by rewrite andb_true_r.
  - rewrite (Z.bits_above_log2 w); [|lia|].
    + by case_decide.
    + destruct (decide (w = 0)) as [->|]; [cbn; lia|].
      apply Z.lt_le_trans with 64; [|done]. apply Z.log2_lt_pow2; lia.
Qed.

Lemma set_bit_spec w e j :
  0 <= e -> 0 <= j ->
  Z.testbit (Z.lor w (Z.shiftl 1 e)) j = (bool_decide (j = e) || Z.testbit w j)%bool.
Proof.
  intros He Hj. rewrite Z.lor_spec, Z.shiftl_spec by lia.
  case_bool_decide as E.
  - subst. rewrite Z.sub_diag. apply orb_true_r.
  - destruct (Z.lt_ge_cases j e).
    + rewrite (Z.testbit_neg_r 1) by lia. apply orb_false_r.
    + rewrite (Z.bits_above_log2 1) by (cbn; lia). apply orb_false_r.
Qed.

Lemma test_bit_spec w e :
  0 <= e -> (Z.land w (Z.shiftl 1 e) =? 0) = negb (Z.testbit w e).
Proof.
  intros He. destruct (Z.testbit w e) eqn:Hb; cbn.
  - apply Z.eqb_neq. intros H0.
    assert (Z.testbit (Z.land w (Z.shiftl 1 e)) e = false) as H1
      by (rewrite H0; apply Z.bits_0).
    rewrite Z.land_spec, Hb, Z.shiftl_spec, Z.sub_diag in H1 by lia. done.
  - apply Z.eqb_eq, Z.bits_inj'. intros j Hj.
    rewrite Z.land_spec, Z.shiftl_spec, Z.bits_0 by lia.
    destruct (decide (j = e)) as [->|Hne]; [by rewrite Hb|].
    destruct (Z.lt_ge_cases j e).
    + rewrite (Z.testbit_neg_r 1) by lia. apply andb_false_r.
    + rewrite (Z.bits_above_log2 1) by (cbn; lia). apply andb_false_r.
Qed.

Lemma width_land w m : in_width 64 w -> 0 <= m -> in_width 64 (Z.land w m).
Proof.
  unfold in_width. intros Hw Hm. assert (0 <= Z.land w m) by (apply Z.land_nonneg; lia).
  split; [done|].
  destruct (decide (Z.land w m = 0)) as [->|Hne]; [lia|].
  apply Z.log2_lt_pow2; [lia|].
  { eapply Z.le_lt_trans; [apply Z.log2_land; lia|].
    apply Z.min_lt_iff. left. apply Z.log2_lt_pow2; [|lia].
    destruct (decide (w = 0)) as [->|]; [by rewrite Z.land_0_l in Hne|lia]. }
Qed.

Lemma width_lor w m : in_width 64 w -> in_width 64 m -> in_width 64 (Z.lor w m).
Proof.
  unfold in_width. intros Hw Hm. split; [apply Z.lor_nonneg; lia|].
  destruct (decide (Z.lor w m = 0)) as [->|Hne]; [lia|].
  assert (0 <= Z.lor w m) by (apply Z.lor_nonneg; lia).
  apply Z.log2_lt_pow2; [lia|]. rewrite Z.log2_lor by lia.
  assert (forall x, 0 <= x < 2 ^ 64 -> Z.log2 x < 64) as Hlog.
  { intros x Hx. destruct (decide (x = 0)) as [->|]; [cbn; lia|].
    apply Z.log2_lt_pow2; lia. }
  apply Z.max_lub_lt; apply Hlog; lia.
Qed.

Lemma width_shiftl1 e : 0 <= e < 64 -> in_width 64 (Z.shiftl 1 e).
Proof.
  intros He. rewrite Z.shiftl_1_l. split; [lia|]. apply Z.pow_lt_mono_r; lia.
Qed.

#[export] Hint Resolve width_land width_lor width_shiftl1 : ofi_wf.

(** ** Bits of a word list *)

Lemma id_bit_cons_lt w ws j : 0 <= j < 64 -> id_bit (w :: ws) j = Z.testbit w j.
Proof.
  intros Hj. unfold id_bit. by rewrite Z.div_small, Z.mod_small by lia.
Qed.

Lemma id_bit_cons_ge w ws j : 64 <= j -> id_bit (w :: ws) j = id_bit ws (j - 64).
Proof.
  intros Hj. unfold id_bit.
  replace (j / 64) with ((j - 64) / 64 + 1) at 1
    by (replace j with ((j - 64) + 1 * 64) at 2 by lia; rewrite Z.div_add; lia).
  assert (0 <= (j - 64) / 64) by (apply Z.div_pos; lia).
  rewrite Z2Nat.inj_add by lia. rewrite Nat.add_comm. cbn [Nat.add Z.to_nat].
  replace (Pos.to_nat 1) with 1%nat by done. cbn.
  replace (j mod 64) with ((j - 64) mod 64); [done|].
  replace j with ((j - 64) + 1 * 64) at 2 by lia. by rewrite Z.mod_add.
Qed.

Lemma id_bit_insert ws i w' j :
  (i < length ws)%nat -> 0 <= j ->
  id_bit (<[i := w']> ws) j =
  if decide (Z.of_nat i = j / 64) then Z.testbit w' (j mod 64) else id_bit ws j.
Proof.
  intros Hi Hj. unfold id_bit.
  assert (0 <= j / 64) by (apply Z.div_pos; lia).
  rewrite list_lookup_insert_case by done.
  repeat case_decide; try done; lia.
Qed.

Lemma num_long_bounds sz :
  0 < sz <= 2 ^ 31 -> sz <= num_long_elements sz * 64 < sz + 64.
Proof.
  intros Hs. assert (num_long_elements sz = NCCL_OFI_DIV_CEIL sz 64) as ->.
  { unfold num_long_elements. change 64 with (2 ^ 6) at 1.
    rewrite round_up_pow2 by lia. apply Z.div_mul. lia. }
  apply div_ceil_bounds; lia.
Qed.

(** ** The scan finds the lowest available ID *)

Lemma allocate_scan_spec n ws :
  Forall (in_width 64) ws -> (length ws <= n)%nat -> forall i, 0 <= i ->
  (i + Z.of_nat (length ws)) * 64 <= 2 ^ 64 ->
  match allocate_scan n i ws with
  | None => forall j, 0 <= j -> id_bit ws j = false
  | Some (id, ws') =>
      exists j, id = i * 64 + j /\ 0 <= j < 64 * Z.of_nat (length ws) /\
        id_bit ws j = true /\ (forall k, 0 <= k < j -> id_bit ws k = false) /\
        length ws' = length ws /\ Forall (in_width 64) ws' /\
        forall k, 0 <= k -> id_bit ws' k = if decide (k = j) then false else id_bit ws k
  end.
Proof.
  intros Hws. revert n. induction Hws as [|w ws Hw Hws IH]; intros n Hn i Hi Hb.
  { destruct n; cbn; intros j Hj; unfold id_bit; by rewrite lookup_nil. }
  destruct n as [|n]; cbn in Hn; [lia|]. cbn [length] in Hb |- *. cbn [allocate_scan].
  destruct (ffsll_spec w Hw) as [[-> ->]|(e & -> & He & Hbit & Hlow)]; cbn [negb Z.eqb].
  - specialize (IH n ltac:(lia) (i + 1) ltac:(lia) ltac:(lia)).
    assert (forall k, 0 <= k < 64 -> Z.testbit 0 k = false) as Hz by (intros; apply Z.bits_0).
    destruct (allocate_scan n (i + 1) ws) as [[id ws']|].
    + destruct IH as (j & -> & Hj & Htrue & Hfalse & Hlen & Hall & Hbits).
      exists (64 + j). split_and!; try lia; [| | |by constructor|].
      * rewrite id_bit_cons_ge by lia. by replace (64 + j - 64) with j by lia.
      * intros k Hk. destruct (Z.lt_ge_cases k 64).
        -- rewrite id_bit_cons_lt by lia. apply Z.bits_0.
        -- rewrite id_bit_cons_ge by lia. apply Hfalse. lia.
      * cbn. lia.
      * intros k Hk. destruct (Z.lt_ge_cases k 64).
        -- rewrite !id_bit_cons_lt by lia. case_decide; [lia|done].
        -- rewrite !id_bit_cons_ge, Hbits by lia.
           repeat case_decide; try done; lia.
    + intros j Hj. destruct (Z.lt_ge_cases j 64).
      * rewrite id_bit_cons_lt by lia. apply Z.bits_0.
      * rewrite id_bit_cons_ge by lia. apply IH. lia.
  - replace (e + 1 =? 0) with false by (symmetry; apply Z.eqb_neq; lia). cbn [negb].
    replace (e + 1 - 1) with e by lia.
    exists e. split_and!; try lia.
    + rewrite wrap_small; lia.
    + by rewrite id_bit_cons_lt by lia.
    + intros k Hk. rewrite id_bit_cons_lt by lia. apply Hlow. lia.
    + done.
    + constructor; [|done]. apply width_land; [done|]. apply wrap_range. lia.
    + intros k Hk. destruct (Z.lt_ge_cases k 64).
      * rewrite !id_bit_cons_lt by lia. apply clear_bit_spec; [apply Hw|lia..].
      * rewrite !id_bit_cons_ge by lia. case_decide; [lia|done].
Qed.

Lemma allocate_refines p S :
  idpool_rel p S ->
  exists S', spec_step (size p) S OpAllocate (fst (nccl_ofi_idpool_allocate_id p)) S' /\
    idpool_rel (snd (nccl_ofi_idpool_allocate_id p)) S' /\
    size (snd (nccl_ofi_idpool_allocate_id p)) = size p.
Proof.
  intros (ws & [Hs Hids Hlen Hw] & HS). unfold nccl_ofi_idpool_allocate_id.
  replace (0 =? size p) with false by (symmetry; apply Z.eqb_neq; lia). rewrite Hids.
  pose proof (num_long_bounds _ Hs) as Hnum.
  pose proof (allocate_scan_spec (Z.to_nat (num_long_elements (size p))) ws Hw
                ltac:(lia) 0 ltac:(lia) ltac:(lia)) as Hscan.
  destruct (allocate_scan _ 0 ws) as [[id ws']|]; cbn.
  - destruct Hscan as (j & -> & Hj & Htrue & Hfalse & Hlen' & Hall & Hbits).
    replace (0 * 64 + j) with j by lia.
    assert (forall id, 0 <= id < j -> id ∉ S) as Hless.
    { intros id Hid Hin. apply HS in Hin. rewrite Hfalse in Hin; [|lia]. by destruct Hin. }
    destruct (j >=? size p) eqn:E; bool_cases; cbn.
    + exists S. split_and!; [| |done].
      * apply spec_allocate_empty. apply elem_of_equiv_empty_L. intros id Hid.
        eapply Hless; [|done]. apply HS in Hid. lia.
      * exists ws'. split; [constructor; cbn; [lia|done|lia|done]|]. cbn. intros id. rewrite HS. split.
        -- intros [Hr Hb]. rewrite Hbits by lia. case_decide; [lia|done].
        -- intros [Hr Hb]. rewrite Hbits in Hb by lia. case_decide; [done|done].
    + exists (S ∖ {[j]}). split_and!; [| |done].
      * rewrite i32_small by lia. apply spec_allocate; [apply HS; split; [lia|done]|].
        intros k Hk. destruct (Z.lt_ge_cases k j); [|done].
        exfalso. eapply Hless; [|done]. apply HS in Hk. lia.
      * exists ws'. split; [constructor; cbn; [lia|done|lia|done]|]. cbn. intros id.
        rewrite elem_of_difference, elem_of_singleton, HS. split.
        -- intros [[Hr Hb] Hne]. rewrite Hbits by lia. by case_decide.
        -- intros [Hr Hb]. rewrite Hbits in Hb by lia. by case_decide.
  - exists S. split_and!; [| |done].
    + apply spec_allocate_empty. apply elem_of_equiv_empty_L. intros id Hid.
      apply HS in Hid as [Hr Hb]. rewrite Hscan in Hb; [done|lia].
    + exists ws. split; [by constructor|done].
Qed.

Lemma free_refines p S id :
  idpool_rel p S -> 0 <= id ->
  exists S', spec_step (size p) S (OpFree id) (fst (nccl_ofi_idpool_free_id p id)) S' /\
    idpool_rel (snd (nccl_ofi_idpool_free_id p id)) S' /\
    size (snd (nccl_ofi_idpool_free_id p id)) = size p.
Proof.
  intros (ws & [Hs Hids Hlen Hw] & HS) Hid. unfold nccl_ofi_idpool_free_id.
  replace (0 =? size p) with false by (symmetry; apply Z.eqb_neq; lia). rewrite Hids.
  assert (idpool_rel p S) as Hrel by (exists ws; split; [by constructor|done]).
  destruct (id >=? size p) eqn:E; bool_cases; cbn.
  { exists S. split_and!; [by apply spec_free_range|done|done]. }
  pose proof (num_long_bounds _ Hs) as Hnum.
  assert (0 <= id / 64) by (apply Z.div_pos; lia).
  assert (id / 64 < Z.of_nat (length ws)) by (apply Z.div_lt_upper_bound; lia).
  destruct (ws !! Z.to_nat (id / 64)) as [w|] eqn:Hl; [|apply lookup_ge_None in Hl; lia].
  assert (in_width 64 w) as Hww by (by eapply Forall_lookup_1).
  assert (0 <= id mod 64 < 64) by (apply Z.mod_pos_bound; lia).
  assert (id_bit ws id = Z.testbit w (id mod 64)) as Hib by (unfold id_bit; by rewrite Hl).
  rewrite test_bit_spec, negb_involutive by lia.
  destruct (Z.testbit w (id mod 64)) eqn:Hb; cbn.
  - exists S. split_and!; [|done|done]. apply spec_free_unused; [lia|]. apply HS. by rewrite Hib.
  - exists ({[id]} ∪ S). split_and!; [| |done].
    + apply spec_free; [lia|]. rewrite HS, Hib. by intros [_ ?].
    + eexists. split; [constructor; cbn; [lia|done|by rewrite length_insert|]|cbn].
      * apply Forall_insert; [done|]. apply width_lor; [done|]. by apply width_shiftl1.
      * intros k. rewrite elem_of_union, elem_of_singleton, HS.
        assert (0 <= k mod 64 < 64) by (apply Z.mod_pos_bound; lia). split.
        -- intros [->|[Hr Hk]]; (split; [lia|]); rewrite id_bit_insert by lia.
           ++ rewrite decide_True, set_bit_spec by lia. by rewrite bool_decide_true.
           ++ case_decide as Hd; [|done]. rewrite set_bit_spec by lia.
              unfold id_bit in Hk.
              replace (Z.to_nat (k / 64)) with (Z.to_nat (id / 64)) in Hk by lia.
              rewrite Hl in Hk. rewrite Hk. apply orb_true_r.
        -- intros [Hr Hk]. rewrite id_bit_insert in Hk by lia. case_decide as Hd; [|by right].
           rewrite set_bit_spec in Hk by lia. case_bool_decide as Hm.
           ++ left. pose proof (Z.div_mod k 64). pose proof (Z.div_mod id 64). lia.
           ++ right. split; [done|]. unfold id_bit.
              by replace (Z.to_nat (k / 64)) with (Z.to_nat (id / 64)) by lia; rewrite Hl.
Qed.

(** ** Initialisation *)

Lemma elem_of_all_ids n id : id ∈ all_ids n <-> 0 <= id < n.
Proof. unfold all_ids. rewrite elem_of_list_to_set, elem_of_seqZ. lia. Qed.

Lemma memset_ff_bit nb ws j :
  0 <= j < 8 * nb -> j < 64 * Z.of_nat (length ws) -> id_bit (memset_ff nb ws) j = true.
Proof.
  intros Hj Hl. unfold id_bit, memset_ff.
  assert (0 <= j / 64) by (apply Z.div_pos; lia).
  assert (j / 64 < Z.of_nat (length ws)) by (apply Z.div_lt_upper_bound; lia).
  rewrite list_lookup_imap.
  destruct (ws !! Z.to_nat (j / 64)) as [w|] eqn:Hw; [|apply lookup_ge_None in Hw; lia].
  cbn. rewrite Z.lor_spec. apply orb_true_iff. right.
  pose proof (Z.div_mod j 64 ltac:(lia)). pose proof (Z.mod_pos_bound j 64 ltac:(lia)).
  apply Z.ones_spec_low. lia.
Qed.

Lemma memset_ff_width nb ws :
  Forall (in_width 64) ws -> Forall (in_width 64) (memset_ff nb ws).
Proof.
  intros Hws. apply Forall_lookup_2. intros i w Hi.
  unfold memset_ff in Hi. rewrite list_lookup_imap in Hi.
  destruct (ws !! i) as [w0|] eqn:E; [|done]. cbn in Hi. injection Hi as <-.
  apply width_lor; [by eapply Forall_lookup_1|].
  set (k := Z.min _ _). assert (0 <= 8 * k <= 64) by lia.
  rewrite Z.ones_equiv. assert (2 ^ (8 * k) <= 2 ^ 64) by (apply Z.pow_le_mono_r; lia).
  unfold in_width. lia.
Qed.

(** Every ID of a fresh pool is available, whatever [malloc] returned. *)
Lemma idpool_init_rel malloc mem p0 sz :
  0 < sz <= 2 ^ 31 ->
  malloc (num_long_elements sz) = Some mem ->
  Z.of_nat (length mem) = num_long_elements sz -> Forall (in_width 64) mem ->
  fst (nccl_ofi_idpool_init malloc 0 p0 sz) = 0 /\
  idpool_rel (snd (nccl_ofi_idpool_init malloc 0 p0 sz)) (all_ids sz) /\
  size (snd (nccl_ofi_idpool_init malloc 0 p0 sz)) = sz.
Proof.
  intros Hs Hm Hlen Hw. unfold nccl_ofi_idpool_init.
  replace (0 =? sz) with false by (symmetry; apply Z.eqb_neq; lia). rewrite Hm. cbn.
  split_and!; [done| |done].
  pose proof (num_long_bounds _ Hs) as Hnum. set (num := num_long_elements sz) in *.
  pose proof (Z.div_mod sz 64 ltac:(lia)) as Hdm64.
  pose proof (Z.mod_pos_bound sz 64 ltac:(lia)) as Hm64.
  pose proof (Z.div_mod sz 8 ltac:(lia)) as Hdm8.
  pose proof (Z.mod_pos_bound sz 8 ltac:(lia)) as Hm8.
  assert (length (memset_ff (sz / 8) mem) = length mem) as Hlen' by (apply length_imap).
  pose proof (memset_ff_width (sz / 8) mem Hw) as Hw'.
  destruct (sz mod 8 =? 0) eqn:E8; bool_cases; cbn.
  - eexists. split; [by constructor; cbn; [lia|done|lia|]|]. cbn. intros id.
    rewrite elem_of_all_ids. split; [|naive_solver]. intros Hid. split; [done|].
    apply memset_ff_bit; lia.
  - assert (0 < sz mod 64) as Hpos64.
    { assert (sz mod 64 <> 0); [|lia]. intros H0. apply E8.
      rewrite <- (mod_mod_divide 64 8 sz), H0; [done|lia| |lia]. by exists 8. }
    assert (num - 1 = sz / 64) as Hlast by lia.
    eexists. split; [constructor; cbn; [lia|done|rewrite length_insert; lia|]|].
    + apply Forall_insert; [done|].
      assert (0 <= u64 (Z.shiftl 1 (sz mod 64)) < 2 ^ 64) by (apply wrap_range; lia).
      assert (u64 (Z.shiftl 1 (sz mod 64)) = 2 ^ (sz mod 64)) as Hp.
      { rewrite wrap_small; [apply Z.shiftl_1_l|]. apply width_shiftl1. lia. }
      unfold in_width. lia.
    + cbn. intros id. rewrite elem_of_all_ids. split; [|naive_solver].
      intros Hid. split; [done|]. rewrite id_bit_insert by lia. case_decide as Hd.
      * rewrite wrap_small by (apply width_shiftl1; lia). rewrite Z.shiftl_1_l.
        replace (2 ^ (sz mod 64) - 1) with (Z.ones (sz mod 64)) by (rewrite Z.ones_equiv; lia).
        apply Z.ones_spec_low.
        pose proof (Z.div_mod id 64 ltac:(lia)). pose proof (Z.mod_pos_bound id 64 ltac:(lia)).
        lia.
      * apply memset_ff_bit; [|lia].
        pose proof (Z.div_mod id 64 ltac:(lia)). pose proof (Z.mod_pos_bound id 64 ltac:(lia)).
        assert (0 <= id / 64) by (apply Z.div_pos; lia).
        assert (id / 64 <= sz / 64) by (apply Z.div_le_mono; lia). lia.
Qed.

(** ** Sequences of calls *)

Definition op_ok (op : idpool_op) : Prop :=
  match op with OpAllocate => True | OpFree id => 0 <= id end.

Lemma idpool_step_refines p S op :
  idpool_rel p S -> op_ok op ->
  exists S', spec_step (size p) S op (fst (idpool_step p op)) S' /\
    idpool_rel (snd (idpool_step p op)) S' /\ size (snd (idpool_step p op)) = size p.
Proof.
  intros Hrel Hok. destruct op as [|id]; cbn.
  - by apply allocate_refines.
  - by apply free_refines.
Qed.

Lemma idpool_run_rel n p S ops :
  idpool_rel p S -> size p = n -> Forall op_ok ops -> spec_run n S ops (idpool_run p ops).
Proof.
  intros Hrel Hn Hops. revert p S Hrel Hn.
  induction Hops as [|op ops Hop Hops IH]; intros p S Hrel Hn; cbn [idpool_run].
  { constructor. }
  destruct (idpool_step_refines p S op Hrel Hop) as (S' & Hstep & Hrel' & Hsize).
  destruct (idpool_step p op) as [r p']. cbn in *.
  rewrite Hn in Hstep. econstructor; [done|]. apply IH; [done|congruence].
Qed.

(** C9. A pool initialised for [sz] IDs, whatever the uninitialised memory
    [malloc] handed out, answers every sequence of allocate and free calls
    exactly like the abstract set of available IDs that starts with all of
    [0 .. sz-1]: allocate returns the least available ID or -ENOMEM when none
    is left, free rejects out-of-range (-EINVAL) and unused (-ENOTSUP) IDs. *)
Theorem idpool_refines_set malloc mem p0 sz ops :
  0 < sz <= 2 ^ 31 ->
  malloc (num_long_elements sz) = Some mem ->
  Z.of_nat (length mem) = num_long_elements sz -> Forall (in_width 64) mem ->
  Forall op_ok ops ->
  fst (nccl_ofi_idpool_init malloc 0 p0 sz) = 0 /\
  spec_run sz (all_ids sz) ops (idpool_run (snd (nccl_ofi_idpool_init malloc 0 p0 sz)) ops).
Proof.
  intros Hs Hm Hlen Hw Hops.
  destruct (idpool_init_rel malloc mem p0 sz Hs Hm Hlen Hw) as (H1 & H2 & H3).
  split; [done|]. by apply idpool_run_rel.
Qed.

(** The memory of the witness has garbage above the pool's 10 IDs. *)
Definition garbage_malloc (n : Z) : option (list Z) := Some (replicate (Z.to_nat n) (2 ^ 64 - 1)).

Lemma idpool_refines_set_witness :
  fst (nccl_ofi_idpool_init garbage_malloc 0 (mk_idpool 0 None) 10) = 0 /\
  spec_run 10 (all_ids 10) [OpAllocate; OpFree 0; OpFree 3]
    (idpool_run (snd (nccl_ofi_idpool_init garbage_malloc 0 (mk_idpool 0 None) 10))
       [OpAllocate; OpFree 0; OpFree 3]).
Proof.
  apply (idpool_refines_set garbage_malloc [2 ^ 64 - 1]);
    [lia|reflexivity|reflexivity| |]; repeat constructor; cbn; lia.
Defined.

(** Allocating [k] times from a pool whose available IDs are [i .. n-1]. *)
Lemma idpool_run_allocs k : forall i p,
  idpool_rel p (list_to_set (seqZ i (Z.of_nat k))) -> size p = i + Z.of_nat k -> 0 <= i ->
  idpool_run p (replicate k OpAllocate ++ [OpAllocate]) = seqZ i (Z.of_nat k) ++ [- ENOMEM].
Proof.
  induction k as [|k IH]; intros i p Hrel Hsize Hi.
  - destruct (idpool_step_refines p _ OpAllocate Hrel I) as (S' & Hstep & Hrel' & Hsize').
    cbn [replicate app idpool_run]. destruct (idpool_step p OpAllocate) as [r p'].
    cbn in *. inversion Hstep; subst; [set_solver|done].
  - destruct (idpool_step_refines p _ OpAllocate Hrel I) as (S' & Hstep & Hrel' & Hsize').
    cbn [replicate app idpool_run]. destruct (idpool_step p OpAllocate) as [r p'].
    cbn in Hstep, Hrel', Hsize' |- *.
    assert (forall x m, x ∈ (list_to_set (seqZ i m) : gset Z) <-> i <= x < i + m) as Hin.
    { intros. by rewrite elem_of_list_to_set, elem_of_seqZ. }
    rewrite Nat2Z.inj_succ, seqZ_cons by lia. rewrite <- Nat2Z.inj_succ in *.
    inversion Hstep as [S id Hmem Hmin|S Hempty| | |]; subst.
    + assert (r = i) as ->.
      { apply Hin in Hmem. specialize (Hmin i ltac:(apply Hin; lia)). lia. }
      cbn [app]. f_equal. replace (Z.pred (Z.of_nat (Datatypes.S k))) with (Z.of_nat k) by lia.
      apply IH; [|lia|lia].
      replace (list_to_set (seqZ (Z.succ i) (Z.of_nat k)) : gset Z)
        with (list_to_set (seqZ i (Z.of_nat (Datatypes.S k))) ∖ {[i]} : gset Z); [done|].
      apply set_eq. intros x. rewrite elem_of_difference, Hin, elem_of_singleton.
      rewrite elem_of_list_to_set, elem_of_seqZ. lia.
    + exfalso. assert (i ∈ (∅ : gset Z)) by (rewrite <- Hempty; apply Hin; lia). set_solver.
Qed.

(** Draining a fresh pool hands out every ID exactly once, in increasing
    order, and the allocation after the last one fails with -ENOMEM; this holds
    for every pool size, also when the last word is only partly used and its
    upper bytes were never initialised. *)
Theorem idpool_drain malloc mem p0 sz :
  0 < sz <= 2 ^ 31 ->
  malloc (num_long_elements sz) = Some mem ->
  Z.of_nat (length mem) = num_long_elements sz -> Forall (in_width 64) mem ->
  idpool_run (snd (nccl_ofi_idpool_init malloc 0 p0 sz))
    (replicate (Z.to_nat sz) OpAllocate ++ [OpAllocate]) = seqZ 0 sz ++ [- ENOMEM].
Proof.
  intros Hs Hm Hlen Hw.
  destruct (idpool_init_rel malloc mem p0 sz Hs Hm Hlen Hw) as (H1 & H2 & H3).
  replace (seqZ 0 sz) with (seqZ 0 (Z.of_nat (Z.to_nat sz))) by (f_equal; lia).
  apply idpool_run_allocs; [|lia|lia]. rewrite Z2Nat.id by lia. done.
Qed.

Lemma idpool_drain_witness :
  idpool_run (snd (nccl_ofi_idpool_init garbage_malloc 0 (mk_idpool 0 None) 72))
    (replicate (Z.to_nat 72) OpAllocate ++ [OpAllocate]) = seqZ 0 72 ++ [- ENOMEM].
Proof.
  apply (idpool_drain garbage_malloc [2 ^ 64 - 1; 2 ^ 64 - 1]);
    [lia|reflexivity|reflexivity|]; repeat constructor; cbn; lia.
Defined.

End Idpool.
