(* ===== verification/Msgbuff.v ===== *)
(** * nccl_ofi_msgbuff: the window of in-flight messages

    Messages carry a wrapping sequence number of [bit_width] bits.  The
    concrete structure is the circular buffer of nccl_ofi_msgbuff.c with its
    16-bit cursors; the abstract specification is a window over unbounded
    sequence numbers, with a map of the messages in progress and a set of
    those completed out of order. *)

From S2P Require Import Prelude.

Module Msgbuff.

(** ** Data *)

Inductive nccl_ofi_msgbuff_status_t :=
| NCCL_OFI_MSGBUFF_COMPLETED
| NCCL_OFI_MSGBUFF_INPROGRESS
| NCCL_OFI_MSGBUFF_NOTSTARTED
| NCCL_OFI_MSGBUFF_UNAVAILABLE.

Inductive nccl_ofi_msgbuff_result_t :=
| NCCL_OFI_MSGBUFF_SUCCESS
| NCCL_OFI_MSGBUFF_INVALID_IDX
| NCCL_OFI_MSGBUFF_ERROR.

Inductive nccl_ofi_msgbuff_elemtype_t :=
| NCCL_OFI_MSGBUFF_REQ
| NCCL_OFI_MSGBUFF_BUFF.

#[export] Instance status_eq_dec : EqDecision nccl_ofi_msgbuff_status_t.
Proof. solve_decision. Defined.
#[export] Instance result_eq_dec : EqDecision nccl_ofi_msgbuff_result_t.
Proof. solve_decision. Defined.
#[export] Instance elemtype_eq_dec : EqDecision nccl_ofi_msgbuff_elemtype_t.
Proof. solve_decision. Defined.

Record nccl_ofi_msgbuff_elem_t := mk_elem {
  stat : nccl_ofi_msgbuff_status_t;
  type : nccl_ofi_msgbuff_elemtype_t;
  elem : Z;
}.

#[export] Instance elem_inhabited : Inhabited nccl_ofi_msgbuff_elem_t :=
  populate (mk_elem NCCL_OFI_MSGBUFF_NOTSTARTED NCCL_OFI_MSGBUFF_REQ NULL).

Record nccl_ofi_msgbuff_t := mk_msgbuff {
  buff : list nccl_ofi_msgbuff_elem_t;
  max_inprogress : Z;
  field_size : Z;
  field_mask : Z;
  msg_last_incomplete : Z;
  msg_next : Z;
}.

Definition set_buff b mb :=
  mk_msgbuff b (max_inprogress mb) (field_size mb) (field_mask mb)
    (msg_last_incomplete mb) (msg_next mb).
Definition set_last l mb :=
  mk_msgbuff (buff mb) (max_inprogress mb) (field_size mb) (field_mask mb) l (msg_next mb).
Definition set_next n mb :=
  mk_msgbuff (buff mb) (max_inprogress mb) (field_size mb) (field_mask mb)
    (msg_last_incomplete mb) n.

(** ** Operations *)

(** [malloc_msgbuff] says whether the structure could be allocated;
    [malloc_buff] is the uninitialised element array. *)
Definition nccl_ofi_msgbuff_init (malloc_msgbuff : bool)
    (malloc_buff : Z -> option (list nccl_ofi_msgbuff_elem_t)) (mutex_init : Z)
    (max_inprog bit_width : Z) : option nccl_ofi_msgbuff_t :=
  if (max_inprog =? 0) || (u16 (Z.shiftl 1 bit_width) <=? 2 * max_inprog) then None
  else if negb malloc_msgbuff then None
  else
    match malloc_buff max_inprog with
    | None => None
    | Some b =>
        if negb (mutex_init =? 0) then None
        else Some (mk_msgbuff b max_inprog (u16 (Z.shiftl 1 bit_width))
                     (u16 (u16 (Z.shiftl 1 bit_width) - 1)) 0 0)
    end.

Definition distance (mb : nccl_ofi_msgbuff_t) (front back : Z) : Z :=
  u16 ((if front <? back then field_size mb else 0) + front - back).

(** [buff_present] is false for a NULL element array. *)
Definition nccl_ofi_msgbuff_destroy (mb : option nccl_ofi_msgbuff_t) (buff_present : bool) : bool :=
  match mb with
  | None => false
  | Some _ => buff_present
  end.

Definition nccl_ofi_msgbuff_num_inflight (mb : nccl_ofi_msgbuff_t) : Z :=
  distance mb (msg_next mb) (msg_last_incomplete mb).

Definition buff_idx (mb : nccl_ofi_msgbuff_t) (idx : Z) : nat :=
  Z.to_nat (idx mod max_inprogress mb).

Definition buff_get (mb : nccl_ofi_msgbuff_t) (idx : Z) : nccl_ofi_msgbuff_elem_t :=
  buff mb !!! buff_idx mb idx.

Definition buff_set (mb : nccl_ofi_msgbuff_t) (idx : Z) (e : nccl_ofi_msgbuff_elem_t) :=
  set_buff (<[buff_idx mb idx := e]> (buff mb)) mb.

Definition nccl_ofi_msgbuff_get_idx_status (mb : nccl_ofi_msgbuff_t) (msg_index : Z)
    : nccl_ofi_msgbuff_status_t :=
  if distance mb msg_index (msg_last_incomplete mb) <?
     distance mb (msg_next mb) (msg_last_incomplete mb)
  then stat (buff_get mb msg_index)
  else if negb (msg_index =? msg_last_incomplete mb) &&
          (distance mb (msg_last_incomplete mb) msg_index <=? max_inprogress mb)
  then NCCL_OFI_MSGBUFF_COMPLETED
  else if distance mb msg_index (msg_next mb) <?
          distance mb (max_inprogress mb) (nccl_ofi_msgbuff_num_inflight mb)
  then NCCL_OFI_MSGBUFF_NOTSTARTED
  else NCCL_OFI_MSGBUFF_UNAVAILABLE.

(** The [while] loop of insert that moves [msg_next] past [msg_index]; [None]
    when the fuel runs out. *)
Fixpoint insert_advance (fuel : nat) (mb : nccl_ofi_msgbuff_t) (msg_index : Z)
    : option nccl_ofi_msgbuff_t :=
  match fuel with
  | O => None
  | S fuel' =>
      if distance mb msg_index (msg_next mb) <=? max_inprogress mb then
        let mb1 :=
          if negb (msg_next mb =? msg_index) then
            buff_set mb (msg_next mb)
              (mk_elem NCCL_OFI_MSGBUFF_NOTSTARTED (type (buff_get mb (msg_next mb))) NULL)
          else mb in
        insert_advance fuel' (set_next (Z.land (msg_next mb1 + 1) (field_mask mb1)) mb1) msg_index
      else Some mb
  end.

(** Fuel for both cursor loops: a cursor is back where it started after
    [field_size] increments. *)
Definition loop_fuel (mb : nccl_ofi_msgbuff_t) : nat := S (Z.to_nat (field_size mb)).

Definition nccl_ofi_msgbuff_insert (mb : nccl_ofi_msgbuff_t) (msg_index e : Z)
    (t : nccl_ofi_msgbuff_elemtype_t)
    : option (nccl_ofi_msgbuff_result_t * nccl_ofi_msgbuff_status_t * nccl_ofi_msgbuff_t) :=
  let msg_idx_status := nccl_ofi_msgbuff_get_idx_status mb msg_index in
  match msg_idx_status with
  | NCCL_OFI_MSGBUFF_NOTSTARTED =>
      let mb1 := buff_set mb msg_index (mk_elem NCCL_OFI_MSGBUFF_INPROGRESS t e) in
      match insert_advance (loop_fuel mb1) mb1 msg_index with
      | Some mb2 => Some (NCCL_OFI_MSGBUFF_SUCCESS, msg_idx_status, mb2)
      | None => None
      end
  | _ => Some (NCCL_OFI_MSGBUFF_INVALID_IDX, msg_idx_status, mb)
  end.

Definition nccl_ofi_msgbuff_replace (mb : nccl_ofi_msgbuff_t) (msg_index e : Z)
    (t : nccl_ofi_msgbuff_elemtype_t)
    : nccl_ofi_msgbuff_result_t * nccl_ofi_msgbuff_status_t * nccl_ofi_msgbuff_t :=
  let msg_idx_status := nccl_ofi_msgbuff_get_idx_status mb msg_index in
  match msg_idx_status with
  | NCCL_OFI_MSGBUFF_INPROGRESS =>
      (NCCL_OFI_MSGBUFF_SUCCESS, msg_idx_status,
       buff_set mb msg_index (mk_elem (stat (buff_get mb msg_index)) t e))
  | _ => (NCCL_OFI_MSGBUFF_INVALID_IDX, msg_idx_status, mb)
  end.

(** UNAVAILABLE only applies to insert; the other calls report NOTSTARTED. *)
Definition hide_unavailable (s : nccl_ofi_msgbuff_status_t) : nccl_ofi_msgbuff_status_t :=
  match s with
  | NCCL_OFI_MSGBUFF_UNAVAILABLE => NCCL_OFI_MSGBUFF_NOTSTARTED
  | _ => s
  end.

(** The caller's output pointer for the element is non-NULL; the element and
    its type are only written on success. *)
Definition nccl_ofi_msgbuff_retrieve (mb : nccl_ofi_msgbuff_t) (msg_index : Z)
    : nccl_ofi_msgbuff_result_t * nccl_ofi_msgbuff_status_t *
      option (Z * nccl_ofi_msgbuff_elemtype_t) :=
  let msg_idx_status := nccl_ofi_msgbuff_get_idx_status mb msg_index in
  match msg_idx_status with
  | NCCL_OFI_MSGBUFF_INPROGRESS =>
      (NCCL_OFI_MSGBUFF_SUCCESS, msg_idx_status,
       Some (elem (buff_get mb msg_index), type (buff_get mb msg_index)))
  | _ => (NCCL_OFI_MSGBUFF_INVALID_IDX, hide_unavailable msg_idx_status, None)
  end.

(** The [while] loop of complete that moves up [msg_last_incomplete]. *)
Fixpoint complete_advance (fuel : nat) (mb : nccl_ofi_msgbuff_t) : option nccl_ofi_msgbuff_t :=
  match fuel with
  | O => None
  | S fuel' =>
      if negb (msg_last_incomplete mb =? msg_next mb) &&
         bool_decide (stat (buff_get mb (msg_last_incomplete mb)) = NCCL_OFI_MSGBUFF_COMPLETED)
      then complete_advance fuel'
             (set_last (Z.land (msg_last_incomplete mb + 1) (field_mask mb)) mb)
      else Some mb
  end.

Definition nccl_ofi_msgbuff_complete (mb : nccl_ofi_msgbuff_t) (msg_index : Z)
    : option (nccl_ofi_msgbuff_result_t * nccl_ofi_msgbuff_status_t * nccl_ofi_msgbuff_t) :=
  let msg_idx_status := nccl_ofi_msgbuff_get_idx_status mb msg_index in
  match msg_idx_status with
  | NCCL_OFI_MSGBUFF_INPROGRESS =>
      let mb1 := buff_set mb msg_index
        (mk_elem NCCL_OFI_MSGBUFF_COMPLETED (type (buff_get mb msg_index)) NULL) in
      match complete_advance (loop_fuel mb1) mb1 with
      | Some mb2 => Some (NCCL_OFI_MSGBUFF_SUCCESS, msg_idx_status, mb2)
      | None => None
      end
  | _ => Some (NCCL_OFI_MSGBUFF_INVALID_IDX, hide_unavailable msg_idx_status, mb)
  end.

(** ** Abstract specification: a window over unbounded sequence numbers *)

Record window := mk_window {
  lo : Z;      (* oldest message not completed *)
  hi : Z;      (* one past the newest inserted message *)
  live : gmap Z (Z * nccl_ofi_msgbuff_elemtype_t);
  finished : gset Z;  (* completed out of order, inside [lo, hi) *)
}.

Definition window_init : window := mk_window 0 0 ∅ ∅.

Definition w_status (N : Z) (a : window) (n : Z) : nccl_ofi_msgbuff_status_t :=
  if n <? lo a then NCCL_OFI_MSGBUFF_COMPLETED
  else if n <? hi a then
    match live a !! n with
    | Some _ => NCCL_OFI_MSGBUFF_INPROGRESS
    | None => if decide (n ∈ finished a) then NCCL_OFI_MSGBUFF_COMPLETED
              else NCCL_OFI_MSGBUFF_NOTSTARTED
    end
  else if n <? lo a + N then NCCL_OFI_MSGBUFF_NOTSTARTED
  else NCCL_OFI_MSGBUFF_UNAVAILABLE.

Definition w_insert (a : window) (n : Z) (m : Z * nccl_ofi_msgbuff_elemtype_t) : window :=
  mk_window (lo a) (Z.max (hi a) (n + 1)) (<[n := m]> (live a)) (finished a).

Definition w_replace (a : window) (n : Z) (m : Z * nccl_ofi_msgbuff_elemtype_t) : window :=
  mk_window (lo a) (hi a) (<[n := m]> (live a)) (finished a).

(** The first number at or after [l] that is not completed. *)
Fixpoint w_advance (k : nat) (l : Z) (d : gset Z) : Z :=
  match k with
  | O => l
  | S k' => if decide (l ∈ d) then w_advance k' (l + 1) d else l
  end.

Definition w_complete (a : window) (n : Z) : window :=
  let d := {[n]} ∪ finished a in
  let l := w_advance (Z.to_nat (hi a - lo a)) (lo a) d in
  mk_window l (hi a) (delete n (live a)) (filter (fun x => l <= x) d).

Inductive msgbuff_op :=
| OpInsert (n : Z) (m : Z * nccl_ofi_msgbuff_elemtype_t)
| OpReplace (n : Z) (m : Z * nccl_ofi_msgbuff_elemtype_t)
| OpRetrieve (n : Z)
| OpComplete (n : Z).

Definition op_seq (op : msgbuff_op) : Z :=
  match op with OpInsert n _ | OpReplace n _ | OpRetrieve n | OpComplete n => n end.

(** What a call reports: result, message status, and the message if any. *)
Abbreviation reply :=
  (nccl_ofi_msgbuff_result_t * nccl_ofi_msgbuff_status_t *
   option (Z * nccl_ofi_msgbuff_elemtype_t))%type.

Definition w_step (N : Z) (a : window) (op : msgbuff_op) : reply * window :=
  let s := w_status N a (op_seq op) in
  match op, s with
  | OpInsert n m, NCCL_OFI_MSGBUFF_NOTSTARTED =>
      (NCCL_OFI_MSGBUFF_SUCCESS, s, None, w_insert a n m)
  | OpInsert _ _, _ => (NCCL_OFI_MSGBUFF_INVALID_IDX, s, None, a)
  | OpReplace n m, NCCL_OFI_MSGBUFF_INPROGRESS =>
      (NCCL_OFI_MSGBUFF_SUCCESS, s, None, w_replace a n m)
  | OpReplace _ _, _ => (NCCL_OFI_MSGBUFF_INVALID_IDX, s, None, a)
  | OpRetrieve n, NCCL_OFI_MSGBUFF_INPROGRESS =>
      (NCCL_OFI_MSGBUFF_SUCCESS, s, live a !! n, a)
  | OpRetrieve _, _ => (NCCL_OFI_MSGBUFF_INVALID_IDX, hide_unavailable s, None, a)
  | OpComplete n, NCCL_OFI_MSGBUFF_INPROGRESS =>
      (NCCL_OFI_MSGBUFF_SUCCESS, s, None, w_complete a n)
  | OpComplete _, _ => (NCCL_OFI_MSGBUFF_INVALID_IDX, hide_unavailable s, None, a)
  end.

(** The concrete call for an operation on sequence number [n]: the index put
    on the wire is the residue of [n] modulo the field size. *)
Definition mb_step (mb : nccl_ofi_msgbuff_t) (op : msgbuff_op) : option (reply * nccl_ofi_msgbuff_t) :=
  let idx := op_seq op mod field_size mb in
  match op with
  | OpInsert _ m =>
      '(r, s, mb') ← nccl_ofi_msgbuff_insert mb idx (fst m) (snd m); Some (r, s, None, mb')
  | OpReplace _ m =>
      let '(r, s, mb') := nccl_ofi_msgbuff_replace mb idx (fst m) (snd m) in Some (r, s, None, mb')
  | OpRetrieve _ =>
      let '(r, s, m) := nccl_ofi_msgbuff_retrieve mb idx in Some (r, s, m, mb)
  | OpComplete _ =>
      '(r, s, mb') ← nccl_ofi_msgbuff_complete mb idx; Some (r, s, None, mb')
  end.

(** A sequence of calls; [None] if a call does not return. *)
Fixpoint mb_run (mb : nccl_ofi_msgbuff_t) (ops : list msgbuff_op) : option (list reply) :=
  match ops with
  | [] => Some []
  | op :: ops' =>
      '(r, mb') ← mb_step mb op; rs ← mb_run mb' ops'; Some (r :: rs)
  end.

(** The abstract run; [None] when an operation names a sequence number outside
    the range a [F]-element index space can tell apart. *)
Fixpoint w_run (N F : Z) (a : window) (ops : list msgbuff_op) : option (list reply) :=
  match ops with
  | [] => Some []
  | op :: ops' =>
      if (lo a - N <=? op_seq op) && (op_seq op <? lo a - N + F) then
        let '(r, a') := w_step N a op in
        rs ← w_run N F a' ops'; Some (r :: rs)
      else None
  end.

(** ** The refinement relation *)

Definition slot_ok (a : window) (n : Z) (e : nccl_ofi_msgbuff_elem_t) : Prop :=
  match live a !! n with
  | Some (p, t) => e = mk_elem NCCL_OFI_MSGBUFF_INPROGRESS t p
  | None => stat e = if decide (n ∈ finished a) then NCCL_OFI_MSGBUFF_COMPLETED
                     else NCCL_OFI_MSGBUFF_NOTSTARTED
  end.

(** Parameters of a buffer: the window size divides the index space and is
    less than half of it. *)
Record mb_params (mb : nccl_ofi_msgbuff_t) : Prop := {
  p_pos : 0 < max_inprogress mb;
  p_pow2 : exists b, 0 <= b <= 15 /\ field_size mb = 2 ^ b;
  p_mask : field_mask mb = field_size mb - 1;
  p_half : 2 * max_inprogress mb < field_size mb;
  p_divides : (max_inprogress mb | field_size mb);
  p_length : Z.of_nat (length (buff mb)) = max_inprogress mb;
}.

Record mb_rel (mb : nccl_ofi_msgbuff_t) (a : window) : Prop := {
  r_params : mb_params mb;
  r_last : msg_last_incomplete mb = lo a mod field_size mb;
  r_next : msg_next mb = hi a mod field_size mb;
  r_window : lo a <= hi a <= lo a + max_inprogress mb;
  r_slots : forall n, lo a <= n < hi a -> slot_ok a n (buff_get mb n);
  r_live : forall n m, live a !! n = Some m -> lo a <= n < hi a /\ n ∉ finished a;
  r_finished : forall n, n ∈ finished a -> lo a < n < hi a;
}.

(** ** Index arithmetic *)

Section Arith.
Context (mb : nccl_ofi_msgbuff_t) (Hp : mb_params mb).
Local Abbreviation F := (field_size mb).
Local Abbreviation N := (max_inprogress mb).

Lemma F_bounds : 0 < F <= 2 ^ 15.
Proof.
  destruct (p_pow2 _ Hp) as (b & Hb & ->). split; [lia|]. apply Z.pow_le_mono_r; lia.
Qed.

Lemma distance_mod x y : distance mb (x mod F) (y mod F) = (x - y) mod F.
Proof.
  pose proof F_bounds. unfold distance.
  pose proof (Z.mod_pos_bound x F ltac:(lia)). pose proof (Z.mod_pos_bound y F ltac:(lia)).
  rewrite <- mod_sub_mod by lia. split_if.
  - rewrite wrap_small by lia.
    apply (Z.mod_unique_pos _ _ (-1)); lia.
  - rewrite wrap_small by lia. rewrite (Z.mod_small (_ - _)); lia.
Qed.

Lemma succ_mod n : Z.land (n mod F + 1) (field_mask mb) = (n + 1) mod F.
Proof.
  pose proof F_bounds. rewrite (p_mask _ Hp).
  destruct (p_pow2 _ Hp) as (b & Hb & HF). rewrite HF.
  replace (2 ^ b - 1) with (Z.ones b) by (rewrite Z.ones_equiv; lia).
  rewrite Z.land_ones by lia. by rewrite Zplus_mod_idemp_l.
Qed.

Lemma buff_idx_mod n : buff_idx mb (n mod F) = buff_idx mb n.
Proof.
  pose proof F_bounds. unfold buff_idx. f_equal.
  apply mod_mod_divide; [apply Hp|apply Hp|lia].
Qed.

Lemma buff_get_mod n : buff_get mb (n mod F) = buff_get mb n.
Proof. unfold buff_get. by rewrite buff_idx_mod. Qed.

Lemma buff_idx_lt n : (buff_idx mb n < length (buff mb))%nat.
Proof.
  unfold buff_idx. pose proof (p_length _ Hp). pose proof (p_pos _ Hp).
  pose proof (Z.mod_pos_bound n N ltac:(lia)). lia.
Qed.

Lemma buff_idx_inj l n m :
  l <= n < l + N -> l <= m < l + N -> buff_idx mb n = buff_idx mb m -> n = m.
Proof.
  intros Hn Hm Heq. unfold buff_idx in Heq. pose proof (p_pos _ Hp).
  pose proof (Z.mod_pos_bound n N ltac:(lia)). pose proof (Z.mod_pos_bound m N ltac:(lia)).
  eapply (mod_inj_window N l); lia.
Qed.

Lemma buff_set_params idx e : mb_params (buff_set mb idx e).
Proof.
  destruct Hp. constructor; cbn; try done. by rewrite length_insert.
Qed.
End Arith.

Lemma buff_get_set mb l n m e :
  mb_params mb -> l <= n < l + max_inprogress mb -> l <= m < l + max_inprogress mb ->
  buff_get (buff_set mb n e) m = if decide (m = n) then e else buff_get mb m.
Proof.
  intros Hp Hn Hm. unfold buff_get, buff_set. cbn.
  change (buff_idx (set_buff (<[buff_idx mb n := e]> (buff mb)) mb) m) with (buff_idx mb m).
  pose proof (buff_idx_lt mb Hp n). case_decide as E.
  - subst. by rewrite list_lookup_total_insert_eq.
  - rewrite list_lookup_total_insert_ne; [done|].
    intros Heq. apply E. symmetry. by eapply buff_idx_inj.
Qed.

Lemma set_next_params mb n : mb_params mb -> mb_params (set_next n mb).
Proof. intros []. by constructor. Qed.

Lemma set_last_params mb n : mb_params mb -> mb_params (set_last n mb).
Proof. intros []. by constructor. Qed.

#[export] Hint Resolve buff_set_params set_next_params set_last_params : ofi_wf.

(** ** The status of an index *)

Lemma get_idx_status_refines mb a n :
  mb_rel mb a ->
  lo a - max_inprogress mb <= n < lo a - max_inprogress mb + field_size mb ->
  nccl_ofi_msgbuff_get_idx_status mb (n mod field_size mb) = w_status (max_inprogress mb) a n.
Proof.
  intros [Hp Hl Hn Hw Hs _ _] Hr. unfold nccl_ofi_msgbuff_get_idx_status, nccl_ofi_msgbuff_num_inflight.
  pose proof (F_bounds mb Hp). pose proof (p_half _ Hp). pose proof (p_pos _ Hp).
  set (F := field_size mb) in *. set (N := max_inprogress mb) in *.
  rewrite Hl, Hn. rewrite !distance_mod by done. fold F.
  rewrite (Z.mod_small (hi a - lo a)) by lia.
  replace (distance mb N (hi a - lo a)) with (N - (hi a - lo a)).
  2:{ unfold distance. fold F. split_if; [lia|]. rewrite wrap_small; lia. }
  rewrite buff_get_mod by done. unfold w_status.
  destruct (Z.lt_ge_cases n (lo a)) as [Hlt|Hge].
  { (* completed section *)
    rewrite (proj2 (Z.ltb_lt n (lo a))) by done.
    replace ((n - lo a) mod F) with (n - lo a + F) by (apply (Z.mod_unique_pos _ _ (-1)); lia).
    rewrite (proj2 (Z.ltb_ge (n - lo a + F) (hi a - lo a))) by lia.
    rewrite (Z.mod_small (lo a - n)) by lia.
    rewrite (proj2 (Z.leb_le (lo a - n) N)) by lia. rewrite andb_true_r.
    assert (n mod F <> lo a mod F) as Hne.
    { intros Heq. assert (n = lo a); [|lia]. apply (mod_inj_window F (lo a - N)); lia. }
    by rewrite (proj2 (Z.eqb_neq _ _) Hne). }
  rewrite (proj2 (Z.ltb_ge n (lo a))) by done. rewrite (Z.mod_small (n - lo a)) by lia.
  destruct (Z.lt_ge_cases n (hi a)) as [Hlt|Hge'].
  { (* in the buffer *)
    rewrite (proj2 (Z.ltb_lt (n - lo a) (hi a - lo a))) by lia.
    rewrite (proj2 (Z.ltb_lt n (hi a))) by done.
    specialize (Hs n ltac:(lia)). unfold slot_ok in Hs.
    destruct (live a !! n) as [[e t]|]; [by rewrite Hs|done]. }
  rewrite (proj2 (Z.ltb_ge (n - lo a) (hi a - lo a))) by lia.
  rewrite (proj2 (Z.ltb_ge n (hi a))) by done.
  rewrite (Z.mod_small (n - hi a)) by lia.
  assert (negb (n mod F =? lo a mod F) && ((lo a - n) mod F <=? N) = false) as ->.
  { destruct (decide (n = lo a)) as [->|Hne]; [by rewrite Z.eqb_refl|].
    apply andb_false_iff. right. apply Z.leb_gt.
    replace ((lo a - n) mod F) with (lo a - n + F) by (apply (Z.mod_unique_pos _ _ (-1)); lia).
    lia. }
  destruct (Z.lt_ge_cases n (lo a + N)).
  - rewrite (proj2 (Z.ltb_lt n (lo a + N))) by done.
    by rewrite (proj2 (Z.ltb_lt (n - hi a) (N - (hi a - lo a)))) by lia.
  - rewrite (proj2 (Z.ltb_ge n (lo a + N))) by done.
    by rewrite (proj2 (Z.ltb_ge (n - hi a) (N - (hi a - lo a)))) by lia.
Qed.

(** ** The cursor loops *)

(** From [msg_next = m] the insert loop stops at [n + 1] and marks the skipped
    numbers [m .. n-1] as not started. *)
Lemma insert_advance_spec fuel : forall mb l m n,
  mb_params mb -> msg_next mb = m mod field_size mb ->
  l <= m <= n + 1 -> n < l + max_inprogress mb -> n + 1 - m < Z.of_nat fuel ->
  exists b', insert_advance fuel mb (n mod field_size mb) =
      Some (set_next ((n + 1) mod field_size mb) (set_buff b' mb)) /\
    length b' = length (buff mb) /\
    forall k, l <= k < l + max_inprogress mb ->
      buff_get (set_buff b' mb) k =
        if decide (m <= k < n) then mk_elem NCCL_OFI_MSGBUFF_NOTSTARTED (type (buff_get mb k)) NULL
        else buff_get mb k.
Proof.
  induction fuel as [|fuel IH]; intros mb l m n Hp Hnext Hm Hn Hf; [lia|].
  pose proof (F_bounds mb Hp). pose proof (p_half _ Hp). pose proof (p_pos _ Hp).
  cbn [insert_advance]. rewrite Hnext, distance_mod by done.
  destruct (decide (m = n + 1)) as [->|Hne].
  { replace ((n - (n + 1)) mod field_size mb) with (field_size mb - 1)
      by (apply (Z.mod_unique_pos _ _ (-1)); lia).
    rewrite (proj2 (Z.leb_gt _ _)) by lia.
    exists (buff mb). split_and!; [|done|].
    - f_equal. destruct mb; cbn in *. by rewrite Hnext.
    - intros k Hk. case_decide; [lia|]. by destruct mb. }
  rewrite (Z.mod_small (n - m)) by lia. rewrite (proj2 (Z.leb_le _ _)) by lia.
  destruct (decide (m = n)) as [->|Hne'].
  - rewrite Z.eqb_refl. cbn [negb]. rewrite Hnext, succ_mod by done.
    edestruct (IH (set_next ((n + 1) mod field_size mb) mb) l (n + 1) n)
      as (b' & Heq & Hlen & Hb); [auto with ofi_wf|done|lia|done|lia|].
    change (field_size (set_next _ mb)) with (field_size mb) in *. rewrite Heq.
    exists b'. split_and!; [done|done|].
    intros k Hk. specialize (Hb k Hk).
    change (buff_get (set_buff b' mb) k = if decide (n + 1 <= k < n) then
      mk_elem NCCL_OFI_MSGBUFF_NOTSTARTED (type (buff_get mb k)) NULL else buff_get mb k) in Hb.
    repeat case_decide; try lia; done.
  - assert (m mod field_size mb <> n mod field_size mb) as Hd.
    { intros Heq. apply Hne'. apply (mod_inj_window (field_size mb) l); lia. }
    rewrite (proj2 (Z.eqb_neq _ _) Hd). cbn [negb].
    set (e := mk_elem _ _ _). set (mb1 := buff_set mb (m mod field_size mb) e).
    change (msg_next mb1) with (msg_next mb). change (field_mask mb1) with (field_mask mb).
    rewrite Hnext, succ_mod by done.
    edestruct (IH (set_next ((m + 1) mod field_size mb) mb1) l (m + 1) n)
      as (b' & Heq & Hlen & Hb);
      [by apply set_next_params, buff_set_params|done|lia|done|lia|].
    change (field_size (set_next _ mb1)) with (field_size mb) in *. rewrite Heq.
    exists b'. split_and!; [done|by rewrite Hlen; cbn; rewrite length_insert|].
    intros k Hk. specialize (Hb k Hk).
    change (buff_get (set_buff b' mb) k) with (buff_get (set_buff b' (set_next ((m + 1) mod field_size mb) mb1)) k).
    rewrite Hb. change (buff_get (set_next _ mb1) k) with (buff_get mb1 k).
    assert (buff_get mb1 k = if decide (k = m) then e else buff_get mb k) as Hg.
    { unfold mb1, buff_set. rewrite buff_idx_mod by done.
      apply (buff_get_set mb l); [done|lia|done]. }
    rewrite Hg. unfold e. rewrite buff_get_mod by done.
    repeat case_decide; subst; try done; lia.
Qed.

(** Inside the window nothing has to be skipped. *)
Lemma insert_advance_gap fuel mb n h :
  mb_params mb -> msg_next mb = h mod field_size mb ->
  h - max_inprogress mb <= n < h -> (0 < fuel)%nat ->
  insert_advance fuel mb (n mod field_size mb) = Some mb.
Proof.
  intros Hp Hnext Hn Hf. destruct fuel; [lia|]. cbn [insert_advance].
  pose proof (F_bounds mb Hp). pose proof (p_half _ Hp). pose proof (p_pos _ Hp).
  rewrite Hnext, distance_mod by done.
  replace ((n - h) mod field_size mb) with (n - h + field_size mb)
    by (apply (Z.mod_unique_pos _ _ (-1)); lia).
  by rewrite (proj2 (Z.leb_gt _ _)) by lia.
Qed.

Lemma complete_advance_spec k : forall fuel mb l h d,
  mb_params mb -> msg_last_incomplete mb = l mod field_size mb ->
  msg_next mb = h mod field_size mb -> h - l = Z.of_nat k ->
  h - l <= max_inprogress mb -> (k < fuel)%nat ->
  (forall n, l <= n < h -> stat (buff_get mb n) = NCCL_OFI_MSGBUFF_COMPLETED <-> n ∈ d) ->
  complete_advance fuel mb = Some (set_last (w_advance k l d mod field_size mb) mb).
Proof.
  induction k as [|k IH]; intros fuel mb l h d Hp Hl Hn Hk Hw Hf Hd;
    (destruct fuel as [|fuel]; [lia|]); cbn [complete_advance w_advance];
    pose proof (F_bounds mb Hp); pose proof (p_half _ Hp); pose proof (p_pos _ Hp).
  { assert (h = l) as -> by lia. rewrite Hl, Hn, Z.eqb_refl. cbn. f_equal.
    destruct mb; cbn in *. by rewrite Hl. }
  assert (l mod field_size mb <> h mod field_size mb) as Hne.
  { intros Heq. assert (l = h); [|lia]. apply (mod_inj_window (field_size mb) l); lia. }
  rewrite Hl, Hn. rewrite (proj2 (Z.eqb_neq _ _) Hne). cbn [negb andb].
  rewrite buff_get_mod by done. specialize (Hd l ltac:(lia)) as Hdl.
  case_decide as Hin.
  - rewrite bool_decide_true by tauto. rewrite succ_mod by done.
    rewrite (IH fuel (set_last ((l + 1) mod field_size mb) mb) (l + 1) h d);
      [done|auto with ofi_wf|done|done|lia|cbn; lia|lia|].
    intros n Hn'. apply (Hd n). lia.
  - rewrite bool_decide_false by tauto. f_equal. destruct mb; cbn in *. by rewrite Hl.
Qed.

Lemma w_advance_spec k l d :
  l <= w_advance k l d <= l + Z.of_nat k /\
  (forall n, l <= n < w_advance k l d -> n ∈ d) /\
  (w_advance k l d ∉ d \/ w_advance k l d = l + Z.of_nat k).
Proof.
  revert l. induction k as [|k IH]; intros l; cbn [w_advance].
  { split_and!; [lia|lia|lia|]. right. lia. }
  case_decide as Hin.
  - destruct (IH (l + 1)) as (H1 & H2 & H3). split_and!; [lia|lia| |].
    + intros n Hn. destruct (decide (n = l)) as [->|]; [done|]. apply H2. lia.
    + destruct H3 as [|Heq]; [by left|right]. lia.
  - split_and!; [lia|lia|lia|by left].
Qed.

(** ** Each operation refines its abstract counterpart *)

Lemma buff_set_mod mb n e :
  mb_params mb -> buff_set mb (n mod field_size mb) e = buff_set mb n e.
Proof. intros Hp. unfold buff_set. by rewrite buff_idx_mod. Qed.

Lemma w_status_notstarted N a n :
  w_status N a n = NCCL_OFI_MSGBUFF_NOTSTARTED ->
  (lo a <= n < hi a /\ live a !! n = None /\ n ∉ finished a) \/
  (lo a <= n /\ hi a <= n < lo a + N).
Proof.
  unfold w_status. repeat (case_match; bool_cases); try done; intros _; [left|right]; done || lia.
Qed.

Lemma w_status_inprogress N a n :
  w_status N a n = NCCL_OFI_MSGBUFF_INPROGRESS ->
  lo a <= n < hi a /\ exists m, live a !! n = Some m.
Proof.
  unfold w_status. repeat (case_match; bool_cases); try done. intros _. eauto.
Qed.

Lemma w_insert_slot a n m k e :
  slot_ok a k e -> k <> n -> slot_ok (w_insert a n m) k e.
Proof. intros Hs Hne. unfold slot_ok in *. cbn. by rewrite lookup_insert_ne by done. Qed.

Lemma w_insert_slot_new a n e t :
  slot_ok (w_insert a n (e, t)) n (mk_elem NCCL_OFI_MSGBUFF_INPROGRESS t e).
Proof. unfold slot_ok. cbn. by rewrite lookup_insert_eq. Qed.

Lemma insert_refines mb a n e t :
  mb_rel mb a ->
  lo a - max_inprogress mb <= n < lo a - max_inprogress mb + field_size mb ->
  w_status (max_inprogress mb) a n = NCCL_OFI_MSGBUFF_NOTSTARTED ->
  exists mb', nccl_ofi_msgbuff_insert mb (n mod field_size mb) e t =
      Some (NCCL_OFI_MSGBUFF_SUCCESS, NCCL_OFI_MSGBUFF_NOTSTARTED, mb') /\
    mb_rel mb' (w_insert a n (e, t)) /\
    max_inprogress mb' = max_inprogress mb /\ field_size mb' = field_size mb.
Proof.
  intros Hrel Hr Hst. unfold nccl_ofi_msgbuff_insert.
  rewrite (get_idx_status_refines mb a n Hrel Hr), Hst.
  destruct Hrel as [Hp Hl Hn Hw Hs Hlive Hfin].
  pose proof (F_bounds mb Hp). pose proof (p_half _ Hp). pose proof (p_pos _ Hp).
  rewrite buff_set_mod by done. set (el := mk_elem _ t e). set (mb1 := buff_set mb n el).
  assert (mb_params mb1) as Hp1 by (by apply buff_set_params).
  change (field_size mb) with (field_size mb1).
  apply w_status_notstarted in Hst as [(Hin & Hnone & Hnf)|[Hge Hin]].
  - rewrite (insert_advance_gap _ mb1 n (hi a)); [|done|done|cbn; lia|unfold loop_fuel; lia].
    exists mb1. split_and!; [done| |done|done].
    constructor; cbn; try done; [rewrite Hn; f_equal; lia|lia| | |].
    + intros k Hk. unfold mb1. rewrite (buff_get_set mb (lo a)) by (done || lia).
      case_decide; subst; [apply w_insert_slot_new|]. apply w_insert_slot; [|done].
      apply Hs. lia.
    + intros k m. rewrite lookup_insert. case_decide; intros Hm.
      * subst. split; [lia|done].
      * apply Hlive in Hm. split; [lia|tauto].
    + intros k Hk. apply Hfin in Hk. lia.
  - destruct (insert_advance_spec (loop_fuel mb1) mb1 (lo a) (hi a) n)
      as (b' & -> & Hlen & Hb); [done|done|lia|cbn; lia|unfold loop_fuel; cbn; lia|].
    eexists. split_and!; [done| |done|done].
    change (max_inprogress mb1) with (max_inprogress mb) in Hb.
    constructor; cbn; try done.
    + destruct Hp1. constructor; cbn in *; try done. congruence.
    + f_equal. lia.
    + lia.
    + intros k Hk. change (buff_get (set_next _ (set_buff b' mb1)) k)
        with (buff_get (set_buff b' mb1) k).
      rewrite Hb by lia. unfold mb1. rewrite (buff_get_set mb (lo a)) by (done || lia).
      destruct (decide (k = n)) as [->|Hkn].
      { rewrite decide_False by lia. apply w_insert_slot_new. }
      apply w_insert_slot; [|done]. case_decide as Hmid; [|apply Hs; lia].
      unfold slot_ok. cbn. destruct (live a !! k) as [m|] eqn:Hk'.
      { apply Hlive in Hk'. lia. }
      rewrite decide_False; [done|]. intros Hin'. apply Hfin in Hin'. lia.
    + intros k m. rewrite lookup_insert. case_decide; intros Hm.
      * subst. split; [lia|]. intros Hin'. apply Hfin in Hin'. lia.
      * apply Hlive in Hm. split; [lia|tauto].
    + intros k Hk. apply Hfin in Hk. lia.
Qed.

Lemma replace_refines mb a n e t :
  mb_rel mb a ->
  lo a - max_inprogress mb <= n < lo a - max_inprogress mb + field_size mb ->
  w_status (max_inprogress mb) a n = NCCL_OFI_MSGBUFF_INPROGRESS ->
  exists mb', nccl_ofi_msgbuff_replace mb (n mod field_size mb) e t =
      (NCCL_OFI_MSGBUFF_SUCCESS, NCCL_OFI_MSGBUFF_INPROGRESS, mb') /\
    mb_rel mb' (w_replace a n (e, t)) /\
    max_inprogress mb' = max_inprogress mb /\ field_size mb' = field_size mb.
Proof.
  intros Hrel Hr Hst. unfold nccl_ofi_msgbuff_replace.
  rewrite (get_idx_status_refines mb a n Hrel Hr), Hst.
  destruct Hrel as [Hp Hl Hn Hw Hs Hlive Hfin].
  apply w_status_inprogress in Hst as [Hin [m Hm]].
  rewrite buff_set_mod, buff_get_mod by done.
  eexists. split_and!; [done| |done|done].
  constructor; cbn; try done; [by apply buff_set_params| |].
  - intros k Hk. rewrite (buff_get_set mb (lo a)) by (done || lia).
    unfold slot_ok. cbn. destruct (decide (k = n)) as [->|Hkn].
    + rewrite lookup_insert_eq. pose proof (Hs n Hin) as Hsn. unfold slot_ok in Hsn.
      rewrite Hm in Hsn. destruct m. by rewrite Hsn.
    + rewrite lookup_insert_ne by done. by apply Hs.
  - intros k m'. rewrite lookup_insert. case_decide; intros Hm'.
    + subst k. split; [lia|]. by eapply Hlive.
    + by eapply Hlive.
Qed.

Lemma complete_refines mb a n :
  mb_rel mb a ->
  lo a - max_inprogress mb <= n < lo a - max_inprogress mb + field_size mb ->
  w_status (max_inprogress mb) a n = NCCL_OFI_MSGBUFF_INPROGRESS ->
  exists mb', nccl_ofi_msgbuff_complete mb (n mod field_size mb) =
      Some (NCCL_OFI_MSGBUFF_SUCCESS, NCCL_OFI_MSGBUFF_INPROGRESS, mb') /\
    mb_rel mb' (w_complete a n) /\
    max_inprogress mb' = max_inprogress mb /\ field_size mb' = field_size mb.
Proof.
  intros Hrel Hr Hst. unfold nccl_ofi_msgbuff_complete.
  rewrite (get_idx_status_refines mb a n Hrel Hr), Hst.
  destruct Hrel as [Hp Hl Hn Hw Hs Hlive Hfin].
  pose proof (F_bounds mb Hp). pose proof (p_half _ Hp). pose proof (p_pos _ Hp).
  apply w_status_inprogress in Hst as [Hin [m Hm]].
  rewrite buff_set_mod, buff_get_mod by done.
  set (el := mk_elem _ _ _). set (mb1 := buff_set mb n el).
  assert (mb_params mb1) as Hp1 by (by apply buff_set_params).
  set (d := {[n]} ∪ finished a).
  assert (forall k, lo a <= k < hi a ->
    stat (buff_get mb1 k) = NCCL_OFI_MSGBUFF_COMPLETED <-> k ∈ d) as Hd.
  { intros k Hk. unfold mb1. rewrite (buff_get_set mb (lo a)) by (done || lia).
    unfold d. case_decide as E; [subst; cbn; set_solver|].
    pose proof (Hs k Hk) as Hsk. unfold slot_ok in Hsk.
    destruct (live a !! k) as [[p t]|] eqn:Hkl.
    - rewrite Hsk. cbn. split; [done|]. apply Hlive in Hkl. set_solver.
    - rewrite Hsk. case_decide; set_solver. }
  rewrite (complete_advance_spec (Z.to_nat (hi a - lo a)) _ mb1 (lo a) (hi a) d);
    [|done|done|done|lia|cbn; lia|unfold loop_fuel; cbn; lia|done].
  destruct (w_advance_spec (Z.to_nat (hi a - lo a)) (lo a) d) as (Hb1 & Hb2 & Hb3).
  eexists. split_and!; [done| |done|done]. unfold w_complete. fold d.
  set (l := w_advance _ _ _) in *.
  assert (forall k, l <= k < hi a -> lo a <= k < hi a) as Hsub by lia.
  constructor; cbn; try done; [by apply set_last_params|lia| | |].
  - intros k Hk. change (buff_get (set_last _ mb1) k) with (buff_get mb1 k).
    unfold slot_ok. cbn. specialize (Hd k (Hsub k Hk)).
    rewrite lookup_delete. case_decide as E.
    + subst k. rewrite decide_True; [apply Hd; set_solver|].
      apply elem_of_filter. split; [lia|set_solver].
    + pose proof (Hs k (Hsub k Hk)) as Hsk. unfold slot_ok in Hsk.
      unfold mb1. rewrite (buff_get_set mb (lo a)) by (done || lia). rewrite decide_False by done.
      destruct (live a !! k) as [[p t]|]; [done|]. rewrite Hsk.
      destruct (decide (k ∈ finished a)).
      * rewrite decide_True; [done|]. apply elem_of_filter. split; [lia|set_solver].
      * rewrite decide_False; [done|]. rewrite elem_of_filter. set_solver.
  - intros k m'. rewrite lookup_delete. case_decide; [done|]. intros Hm'.
    pose proof (Hlive _ _ Hm') as [Hk Hkf]. split.
    + split; [|lia]. destruct (Z.le_gt_cases l k); [done|].
      exfalso. assert (k ∈ d) by (apply Hb2; lia). set_solver.
    + rewrite elem_of_filter. set_solver.
  - intros k Hk. apply elem_of_filter in Hk as [Hlk Hkd].
    assert (lo a <= k < hi a).
    { unfold d in Hkd. apply elem_of_union in Hkd as [Hkd|Hkd].
      - apply elem_of_singleton in Hkd. lia.
      - apply Hfin in Hkd. lia. }
    split; [|lia]. destruct (decide (k = l)) as [->|]; [|lia].
    destruct Hb3 as [|Heq]; [done|lia].
Qed.

Lemma step_refines mb a op r a' :
  mb_rel mb a ->
  lo a - max_inprogress mb <= op_seq op < lo a - max_inprogress mb + field_size mb ->
  w_step (max_inprogress mb) a op = (r, a') ->
  exists mb', mb_step mb op = Some (r, mb') /\ mb_rel mb' a' /\
    max_inprogress mb' = max_inprogress mb /\ field_size mb' = field_size mb.
Proof.
  intros Hrel Hr Hw. pose proof (get_idx_status_refines mb a _ Hrel Hr) as Hst.
  unfold w_step, mb_step in *.
  destruct op as [n [e t]|n [e t]|n|n]; cbn [op_seq fst snd] in *;
    destruct (w_status (max_inprogress mb) a n) eqn:Hs; simplify_eq/=;
    try (unfold nccl_ofi_msgbuff_insert, nccl_ofi_msgbuff_replace,
           nccl_ofi_msgbuff_retrieve, nccl_ofi_msgbuff_complete;
         rewrite Hst; eexists; by split_and!).
  - destruct (insert_refines mb a n e t) as (mb' & -> & ?); eauto.
  - destruct (replace_refines mb a n e t) as (mb' & -> & ?); eauto.
  - exists mb. unfold nccl_ofi_msgbuff_retrieve. rewrite Hst. split_and!; try done.
    apply w_status_inprogress in Hs as [Hin [[p t] Hm]].
    pose proof (r_slots _ _ Hrel n Hin) as Hslot. unfold slot_ok in Hslot.
    rewrite Hm in *. rewrite buff_get_mod by apply Hrel. by rewrite Hslot.
  - destruct (complete_refines mb a n) as (mb' & -> & ?); eauto.
Qed.

Lemma run_refines ops : forall mb a rs,
  mb_rel mb a -> w_run (max_inprogress mb) (field_size mb) a ops = Some rs ->
  mb_run mb ops = Some rs.
Proof.
  induction ops as [|op ops IH]; intros mb a rs Hrel; cbn [w_run mb_run]; [done|].
  destruct (_ && _) eqn:Hr; [|done]. bool_cases.
  destruct (w_step _ a op) as [r a'] eqn:Hw. intros Hrun.
  destruct (step_refines mb a op r a') as (mb' & -> & Hrel' & HN & HF); [done|lia|done|].
  apply bind_Some in Hrun as (rs' & Hrun & [= <-]). cbn.
  rewrite <- HN, <- HF in Hrun. by rewrite (IH mb' a' rs').
Qed.

Lemma msgbuff_init_rel malloc_buff N b mb :
  (forall k l, 0 <= k -> malloc_buff k = Some l -> Z.of_nat (length l) = k) ->
  0 < N -> 0 <= b <= 15 -> (N | 2 ^ b) ->
  nccl_ofi_msgbuff_init true malloc_buff 0 N b = Some mb ->
  mb_rel mb window_init /\ max_inprogress mb = N /\ field_size mb = 2 ^ b.
Proof.
  intros Hmalloc HN Hb Hdiv. unfold nccl_ofi_msgbuff_init.
  assert (0 < 2 ^ b <= 2 ^ 15) by (split; [lia|apply Z.pow_le_mono_r; lia]).
  rewrite Z.shiftl_1_l, (wrap_small 16 (2 ^ b)), (wrap_small 16 (2 ^ b - 1)) by lia.
  split_if; [done|]. destruct (malloc_buff N) as [l|] eqn:Hl; [|done]. cbn. intros [= <-].
  bool_cases. apply Hmalloc in Hl; [|lia]. split_and!; [|done|done].
  constructor; cbn; try (done || lia || set_solver).
  constructor; cbn; try (done || lia). by exists b.
Qed.

(** C5. The message buffer, with sequence numbers kept modulo a power of two
    and element slots reused modulo the window size, behaves as a window over
    unbounded sequence numbers: whatever the uninitialised array held, every
    sequence of insert, replace, retrieve and complete calls returns (the
    cursor loops terminate) and gives exactly the replies of the window, as
    long as each call names a message the index space can tell apart. The size of
    the window divides the number of sequence numbers. *)
Theorem msgbuff_refines_window malloc_buff N b mb ops rs :
  (forall k l, 0 <= k -> malloc_buff k = Some l -> Z.of_nat (length l) = k) ->
  0 < N -> 0 <= b <= 15 -> (N | 2 ^ b) ->
  nccl_ofi_msgbuff_init true malloc_buff 0 N b = Some mb ->
  w_run N (2 ^ b) window_init ops = Some rs ->
  mb_run mb ops = Some rs.
Proof.
  intros Hmalloc HN Hb Hdiv Hinit Hrun.
  destruct (msgbuff_init_rel malloc_buff N b mb) as (Hrel & <- & HF); [done..|].
  rewrite <- HF in Hrun. by eapply run_refines.
Qed.

Definition malloc_example (k : Z) : option (list nccl_ofi_msgbuff_elem_t) :=
  Some (replicate (Z.to_nat k) (mk_elem NCCL_OFI_MSGBUFF_COMPLETED NCCL_OFI_MSGBUFF_BUFF 77)).

Definition insert_and_complete (n : Z) : list msgbuff_op :=
  [OpInsert n (1000 + n, NCCL_OFI_MSGBUFF_REQ); OpComplete n].

Lemma msgbuff_refines_window_witness :
  exists mb rs,
    nccl_ofi_msgbuff_init true malloc_example 0 2 3 = Some mb /\
    mb_run mb ((seqZ 0 9 ≫= insert_and_complete) ++
      [OpInsert 10 (7, NCCL_OFI_MSGBUFF_BUFF); OpRetrieve 10; OpInsert 9 (8, NCCL_OFI_MSGBUFF_REQ);
       OpComplete 10; OpRetrieve 9; OpComplete 9; OpInsert 12 (9, NCCL_OFI_MSGBUFF_REQ)]) = Some rs /\
    last rs = Some (NCCL_OFI_MSGBUFF_SUCCESS, NCCL_OFI_MSGBUFF_NOTSTARTED, None).
Proof.
  eexists _, _. split_and!; [reflexivity| |].
  - apply (msgbuff_refines_window malloc_example 2 3 _ _ _).
    + intros k l Hk [= <-]. rewrite length_replicate. lia.
    + lia.
    + lia.
    + by exists 4.
    + reflexivity.
    + vm_compute. reflexivity.
  - reflexivity.
Defined.

(** Dividing the index space is needed and not checked by init: for a
    window size that init accepts but that does not divide the field size, the
    slot of the first message after the wrap-around is also the slot of an
    older message that is still inside the window. *)
Theorem msgbuff_slots_alias malloc_buff N b mb :
  0 < N -> 0 <= b <= 15 -> ~ (N | 2 ^ b) ->
  nccl_ofi_msgbuff_init true malloc_buff 0 N b = Some mb ->
  exists m n, m < n < m + N /\
    buff_idx mb (m mod field_size mb) = buff_idx mb (n mod field_size mb).
Proof.
  intros HN Hb Hdiv. unfold nccl_ofi_msgbuff_init.
  assert (0 < 2 ^ b <= 2 ^ 15) by (split; [lia|apply Z.pow_le_mono_r; lia]).
  rewrite Z.shiftl_1_l, (wrap_small 16 (2 ^ b)), (wrap_small 16 (2 ^ b - 1)) by lia.
  split_if; [done|]. destruct (malloc_buff N) as [l|]; [|done]. cbn. intros [= <-]. cbn.
  assert (2 ^ b mod N <> 0) by (rewrite Z.mod_divide by lia; done).
  pose proof (Z.mod_pos_bound (2 ^ b) N HN).
  exists (2 ^ b - 2 ^ b mod N), (2 ^ b). split; [lia|].
  unfold buff_idx. cbn. f_equal. rewrite Z.mod_same, Z.mod_0_l by lia.
  pose proof (Z.mod_le (2 ^ b) N ltac:(lia) HN).
  rewrite (Z.mod_small (2 ^ b - _)) by lia.
  replace (2 ^ b - 2 ^ b mod N) with ((2 ^ b / N) * N) by (rewrite Z.mod_eq; lia).
  apply Z.mod_mul. lia.
Qed.

(** With 3 messages in a space of 8, retrieving message 7 gives the element of
    message 9. *)
Lemma msgbuff_slots_alias_witness :
  exists mb, nccl_ofi_msgbuff_init true malloc_example 0 3 3 = Some mb /\
    (exists m n, m < n < m + 3 /\
      buff_idx mb (m mod field_size mb) = buff_idx mb (n mod field_size mb)) /\
    (rs ← mb_run mb ((seqZ 0 7 ≫= insert_and_complete) ++
        [OpInsert 7 (1007, NCCL_OFI_MSGBUFF_REQ); OpInsert 8 (1008, NCCL_OFI_MSGBUFF_REQ);
         OpInsert 9 (1009, NCCL_OFI_MSGBUFF_REQ); OpRetrieve 7]); last rs)
      = Some (NCCL_OFI_MSGBUFF_SUCCESS, NCCL_OFI_MSGBUFF_INPROGRESS,
              Some (1009, NCCL_OFI_MSGBUFF_REQ)).
Proof.
  eexists. split; [reflexivity|]. split; [|vm_compute; reflexivity].
  apply (msgbuff_slots_alias malloc_example 3 3); [lia|lia| |reflexivity].
  intros [q Hq]. change (2 ^ 3) with 8 in Hq. lia.
Defined.

End Msgbuff.
