(* ===== verification/Allocator.v ===== *)
(** * The allocator interface

    What the freelist (nccl_ofi_freelist.h) promises to the components that
    take their objects from one: the scheduler (schedules), the RDMA
    communicators (requests) and the endpoint (control and bounce buffers).
    Clients are proved against [EntryAllocator]; Freelist.v discharges it. *)

From S2P Require Import Prelude.

(** [FL] is the allocator's state with the memory it manages, [Env] the answers
    of the operating system and of the registration callback to one call. *)
Class EntryAllocator (FL Env : Type) := {
  (** [NULL] when no entry can be had; [None] is an access outside the
      allocator's own structures. *)
  ea_alloc : Env -> FL -> option (Z * FL);
  ea_free : FL -> Z -> option FL;
  (** Bytes of an entry that belong to its owner. *)
  ea_entry_size : FL -> Z;
  (** The allocator is consistent and these entries are handed out. *)
  ea_ok : FL -> gset Z -> Prop;
  ea_env_ok : FL -> Env -> Prop;

  ea_alloc_spec fl live env :
    ea_ok fl live -> ea_env_ok fl env ->
    exists e fl', ea_alloc env fl = Some (e, fl') /\
      ea_entry_size fl' = ea_entry_size fl /\
      ((e = NULL /\ ea_ok fl' live) \/
       (e <> NULL /\ (e ∉ live) /\ ea_ok fl' ({[e]} ∪ live)));
  ea_free_spec fl live e :
    ea_ok fl live -> e ∈ live ->
    exists fl', ea_free fl e = Some fl' /\
      ea_entry_size fl' = ea_entry_size fl /\ ea_ok fl' (live ∖ {[e]});
  ea_disjoint fl live e1 e2 :
    ea_ok fl live -> e1 ∈ live -> e2 ∈ live -> e1 <> e2 ->
    e1 + ea_entry_size fl <= e2 \/ e2 + ea_entry_size fl <= e1;
}.

(** ** Pools: the allocator as a client sees it *)

(** [pool]: the entries a free list can still hand out, the free ones first and
    then those it can grow by. An empty pool answers NULL. *)
Definition pool : Type := list Z.

(** Entries of [sz] bytes each that do not overlap. *)
Definition spaced (sz : Z) (es : gset Z) : Prop :=
  forall e1 e2, e1 ∈ es -> e2 ∈ es -> e1 <> e2 -> e1 + sz <= e2 \/ e2 + sz <= e1.

Definition pool_ok (sz : Z) (fl : pool) (live : gset Z) : Prop :=
  NoDup fl /\ (NULL ∉ fl) /\ (NULL ∉ live) /\
  (forall e, e ∈ fl -> e ∉ live) /\ spaced sz (list_to_set fl ∪ live).

(** Pools are allocators in the sense of Allocator.v, with nothing left to ask
    of the operating system. *)
#[export, refine] Instance pool_allocator (sz : Z) : EntryAllocator pool unit := {
  ea_alloc _ fl := Some (match fl with [] => (NULL, []) | e :: fl' => (e, fl') end);
  ea_free fl e := Some (e :: fl);
  ea_entry_size _ := sz;
  ea_ok := pool_ok sz;
  ea_env_ok _ _ := True;
}.
Proof.
  - intros fl live _ (Hnd & Hnn & Hnl & Hfr & Hsp) _. destruct fl as [|e fl].
    { exists NULL, []. split_and!; auto. left. by split_and!. }
    apply NoDup_cons in Hnd as [Hn Hnd]. apply not_elem_of_cons in Hnn as [Hne Hnn].
    exists e, fl. split_and!; auto. right. split_and!; [done|apply Hfr; left| ].
    unfold pool_ok. split_and!; try done.
    + set_solver.
    + intros x Hx. rewrite elem_of_union, elem_of_singleton. intros [->|Hl]; [done|].
      revert Hl. apply Hfr. by right.
    + replace (list_to_set fl ∪ ({[e]} ∪ live)) with (list_to_set (e :: fl) ∪ live : gset Z);
        [done|]. cbn [list_to_set]. set_solver.
  - intros fl live e (Hnd & Hnn & Hnl & Hfr & Hsp) He. exists (e :: fl). split_and!; auto.
    unfold pool_ok. split_and!.
    + apply NoDup_cons. split; [|done]. intros Hf. by apply (Hfr e).
    + apply not_elem_of_cons. split; [intros <-|]; done.
    + set_solver.
    + intros x. rewrite elem_of_cons. intros [->|Hx]; set_solver.
    + replace (list_to_set (e :: fl) ∪ live ∖ {[e]}) with (list_to_set fl ∪ live : gset Z); [done|].
      cbn [list_to_set]. apply set_eq. intros x. destruct (decide (x = e)); set_solver.
  - intros fl live e1 e2 (_ & _ & _ & _ & Hsp) H1 H2 Hne. apply Hsp; set_solver.
Defined.
