(* ===== verification/Freelist.v ===== *)
(** * nccl_ofi_freelist.c, nccl_ofi_freelist.h: growing free lists of buffers

    Entries are carved out of page-aligned blocks; a free entry holds the
    linked-list element in its own memory (or inside the registration record
    at [reginfo_offset]). The memory is modelled cell by cell: the element
    structures, the registration records and the block structures, each keyed
    by its address. Reading a structure that is not there gives [None].

    The theorems show that the pointer structure implements a set of free and
    a set of handed-out entries: entries handed out are distinct, do not
    overlap, are aligned and lie inside a mapped block, whatever their owners
    write into them. *)

From S2P Require Import Prelude OfiMath Allocator.

(** nccl_ofi_net.c: [inl] is the address mmap returned, [inr] errno after
    MAP_FAILED. Result: return code and pointer. *)
Definition nccl_net_ofi_alloc_mr_buffer (mmap : Z + Z) : Z * Z :=
  match mmap with
  | inl ptr => (0, ptr)
  | inr errno => (- errno, NULL)
  end.

(** [munmap] is the pair of its return code and errno. *)
Definition nccl_net_ofi_dealloc_mr_buffer (munmap : Z * Z) : Z :=
  if negb (fst munmap =? 0) then - snd munmap else 0.

Module Freelist.

(** ** Data *)

(** struct nccl_ofi_freelist_elem_t: [ptr] and [next]. *)
Record nccl_ofi_freelist_elem_t := mk_elem { ptr : Z; next : Z }.

Record nccl_ofi_freelist_block_t := mk_block {
  b_next : Z;
  memory : Z;
  memory_size : Z;
  b_mr_handle : Z;
}.

(** struct nccl_ofi_freelist_reginfo_t without its first member, the element. *)
Record nccl_ofi_freelist_reginfo_t := mk_reginfo { base_offset : Z; mr_handle : Z }.

(** The function pointers are kept as whether they are set. *)
Record nccl_ofi_freelist_t := mk_freelist {
  entry_size : Z;
  num_allocated_entries : Z;
  max_entry_count : Z;
  increase_entry_count : Z;
  entries : Z;
  blocks : Z;
  have_reginfo : bool;
  regmr_fn : bool;
  deregmr_fn : bool;
  reginfo_offset : Z;
  memcheck_redzone_size : Z;
}.

Definition set_entries e fl :=
  mk_freelist (entry_size fl) (num_allocated_entries fl) (max_entry_count fl)
    (increase_entry_count fl) e (blocks fl) (have_reginfo fl) (regmr_fn fl)
    (deregmr_fn fl) (reginfo_offset fl) (memcheck_redzone_size fl).
Definition set_blocks b fl :=
  mk_freelist (entry_size fl) (num_allocated_entries fl) (max_entry_count fl)
    (increase_entry_count fl) (entries fl) b (have_reginfo fl) (regmr_fn fl)
    (deregmr_fn fl) (reginfo_offset fl) (memcheck_redzone_size fl).
Definition set_num n fl :=
  mk_freelist (entry_size fl) n (max_entry_count fl)
    (increase_entry_count fl) (entries fl) (blocks fl) (have_reginfo fl) (regmr_fn fl)
    (deregmr_fn fl) (reginfo_offset fl) (memcheck_redzone_size fl).

(** The structures the free list keeps in the blocks' memory. *)
Record heap := mk_heap {
  elems : gmap Z nccl_ofi_freelist_elem_t;
  reginfos : gmap Z nccl_ofi_freelist_reginfo_t;
  block_structs : gmap Z nccl_ofi_freelist_block_t;
}.

Definition store_elem p e h := mk_heap (<[p := e]> (elems h)) (reginfos h) (block_structs h).
Definition store_reginfo p r h := mk_heap (elems h) (<[p := r]> (reginfos h)) (block_structs h).
Definition store_block p b h := mk_heap (elems h) (reginfos h) (<[p := b]> (block_structs h)).

(** The free list and its memory. *)
Abbreviation state := (nccl_ofi_freelist_t * heap)%type.

(** What the system and the registration callback answer when a list grows. *)
Record grow_env := mk_env {
  env_mmap : Z + Z;       (* mmap *)
  env_regmr : Z * Z;      (* regmr_fn: return code and handle *)
}.

Definition sizeof_elem : Z := 16.
Definition sizeof_block : Z := 32.

Section Pages.
Context (system_page_size MEMCHECK_REDZONE_SIZE : Z).

(** ** Operations *)

Definition freelist_block_mem_size_full_pages (esize entry_count : Z) : Z :=
  let block_mem_size := u64 (u64 (esize * entry_count) + sizeof_block) in
  NCCL_OFI_ROUND_UP block_mem_size system_page_size.

Definition freelist_page_padded_entry_count (esize entry_count : Z) : Z :=
  let covered_pages_size := freelist_block_mem_size_full_pages esize entry_count in
  u64 (covered_pages_size - sizeof_block) / esize.

(** The loop that carves [n] entries out of the memory starting at [buffer]. *)
Fixpoint add_entries (n : nat) (buffer block_memory handle : Z) (st : state) : state :=
  match n with
  | O => st
  | S n' =>
      let '(fl, h) := st in
      let user_entry_size := entry_size fl - memcheck_redzone_size fl in
      let buffer := buffer + memcheck_redzone_size fl in
      let '(entry, h1) :=
        if have_reginfo fl then
          let reginfo := buffer + reginfo_offset fl in
          (reginfo, store_reginfo reginfo (mk_reginfo (buffer - block_memory) handle) h)
        else (buffer, h) in
      let h2 := store_elem entry (mk_elem buffer (entries fl)) h1 in
      let fl' := set_num (u64 (num_allocated_entries fl + 1)) (set_entries entry fl) in
      add_entries n' (buffer + user_entry_size) block_memory handle (fl', h2)
  end.

(** How many entries a request for [num_entries] may add. *)
Definition allocation_count (fl : nccl_ofi_freelist_t) (num_entries : Z) : Z :=
  if (0 <? max_entry_count fl) &&
     (u64 (max_entry_count fl - num_allocated_entries fl) <? num_entries)
  then u64 (max_entry_count fl - num_allocated_entries fl)
  else num_entries.

Definition nccl_ofi_freelist_add (env : grow_env) (st : state) (num_entries : Z) : Z * state :=
  let '(fl, h) := st in
  let count := allocation_count fl num_entries in
  if count =? 0 then (- ENOMEM, st)
  else
    let block_mem_size := freelist_block_mem_size_full_pages (entry_size fl) count in
    let '(ret, buffer) := nccl_net_ofi_alloc_mr_buffer (env_mmap env) in
    if negb (ret =? 0) then (ret, st)
    else
      let block := buffer + u64 (entry_size fl * count) in
      let '(ret, handle) := if regmr_fn fl then env_regmr env else (0, NULL) in
      if negb (ret =? 0) then
        (* the buffer is unmapped again *)
        (ret, st)
      else
        let h1 := store_block block (mk_block (blocks fl) buffer block_mem_size handle) h in
        (0, add_entries (Z.to_nat count) buffer buffer handle (set_blocks block fl, h1)).

Definition freelist_init_internal (malloc_ok : bool) (mutex_init : Z) (env : grow_env)
    (esize initial_entry_count inc max : Z) (have_ri regmr deregmr : bool)
    (ri_offset entry_alignment : Z) : Z * option state :=
  if negb malloc_ok then (- ENOMEM, None)
  else
    let redzone := NCCL_OFI_ROUND_UP MEMCHECK_REDZONE_SIZE entry_alignment in
    let esize1 := u64 (NCCL_OFI_ROUND_UP (NCCL_OFI_MAX esize sizeof_elem)
                    (NCCL_OFI_MAX entry_alignment (NCCL_OFI_MAX 8 8)) + redzone) in
    let fl := mk_freelist esize1 0 max (freelist_page_padded_entry_count esize1 inc)
                NULL NULL have_ri regmr deregmr ri_offset redzone in
    if negb (mutex_init =? 0) then (- mutex_init, None)
    else
      let '(ret, st) := nccl_ofi_freelist_add env (fl, mk_heap ∅ ∅ ∅)
                          (freelist_page_padded_entry_count esize1 initial_entry_count) in
      if negb (ret =? 0) then (ret, None) else (0, Some st).

Definition nccl_ofi_freelist_init malloc_ok mutex_init env esize initial_entry_count inc max :=
  freelist_init_internal malloc_ok mutex_init env esize initial_entry_count inc max
    false false false 0 1.

Definition nccl_ofi_freelist_init_mr malloc_ok mutex_init env esize initial_entry_count inc max
    (regmr deregmr : bool) ri_offset entry_alignment :=
  freelist_init_internal malloc_ok mutex_init env esize initial_entry_count inc max
    true regmr deregmr ri_offset entry_alignment.

Definition nccl_ofi_freelist_entry_alloc (env : grow_env) (st : state) : option (Z * state) :=
  let '(ret, (fl, h)) :=
    if entries (fst st) =? NULL
    then nccl_ofi_freelist_add env st (increase_entry_count (fst st))
    else (0, st) in
  if negb (ret =? 0) then Some (NULL, (fl, h))
  else
    entry ← elems h !! entries fl;
    Some (ptr entry, (set_entries (next entry) fl, h)).

Definition nccl_ofi_freelist_entry_free (st : state) (entry_p : Z) : option state :=
  let '(fl, h) := st in
  if have_reginfo fl then
    let entry := entry_p + reginfo_offset fl in
    e ← elems h !! entry;
    Some (set_entries entry fl, store_elem entry (mk_elem (ptr e) (entries fl)) h)
  else
    Some (set_entries entry_p fl, store_elem entry_p (mk_elem entry_p (entries fl)) h).

(** The loop of fini: the list of (memory, size, handle) released, in order.
    The answers of deregmr_fn and munmap only make warnings. *)
Fixpoint fini_blocks (fuel : nat) (block : Z) (h : heap) : option (list (Z * Z * Z)) :=
  if block =? NULL then Some []
  else
    match fuel with
    | O => None
    | S fuel' =>
        b ← block_structs h !! block;
        rest ← fini_blocks fuel' (b_next b) h;
        Some ((memory b, memory_size b, b_mr_handle b) :: rest)
    end.

Definition nccl_ofi_freelist_fini (st : state) : option (Z * list (Z * Z * Z)) :=
  released ← fini_blocks (size (block_structs (snd st))) (blocks (fst st)) (snd st);
  Some (0, released).

(** The owner of an entry of a simple free list may overwrite the element. *)
Definition user_write (st : state) (entry_p : Z) (junk : nccl_ofi_freelist_elem_t) : state :=
  let '(fl, h) := st in
  if have_reginfo fl then st else (fl, store_elem entry_p junk h).

(** ** Invariant *)

(** Offset of the list element inside an entry. *)
Definition elem_off (fl : nccl_ofi_freelist_t) : Z :=
  if have_reginfo fl then reginfo_offset fl else 0.

Definition user_size (fl : nccl_ofi_freelist_t) : Z := entry_size fl - memcheck_redzone_size fl.

(** The entries linked from [p], in list order. *)
Fixpoint chain (m : gmap Z nccl_ofi_freelist_elem_t) (off p : Z) (l : list Z) : Prop :=
  match l with
  | [] => p = NULL
  | e :: l' =>
      p = e + off /\ p <> NULL /\
      exists nx, m !! p = Some (mk_elem e nx) /\ chain m off nx l'
  end.

Record block_info := mk_bi { bi_base : Z; bi_count : nat; bi_handle : Z }.

#[global] Instance block_info_eq : EqDecision block_info.
Proof. solve_decision. Defined.

Definition slots (fl : nccl_ofi_freelist_t) (base : Z) (n : nat) : list Z :=
  (fun i => base + Z.of_nat i * entry_size fl + memcheck_redzone_size fl) <$> seq 0 n.

Definition bi_slots (fl : nccl_ofi_freelist_t) (b : block_info) : list Z :=
  slots fl (bi_base b) (bi_count b).

Definition bi_size (fl : nccl_ofi_freelist_t) (b : block_info) : Z :=
  freelist_block_mem_size_full_pages (entry_size fl) (Z.of_nat (bi_count b)).

Definition bi_addr (fl : nccl_ofi_freelist_t) (b : block_info) : Z :=
  bi_base b + entry_size fl * Z.of_nat (bi_count b).

(** The block structures linked from [p]. *)
Fixpoint bchain (fl : nccl_ofi_freelist_t) (h : heap) (p : Z) (bs : list block_info) : Prop :=
  match bs with
  | [] => p = NULL
  | b :: bs' =>
      p = bi_addr fl b /\ p <> NULL /\
      exists nx, block_structs h !! p =
          Some (mk_block nx (bi_base b) (bi_size fl b) (bi_handle b)) /\
        bchain fl h nx bs'
  end.

Definition regions_disjoint (a n b m : Z) : Prop := a + n <= b \/ b + m <= a.

(** Parameters that hold from init on: sizes are positive, the element lies
    inside the entry, and a block of [increase_entry_count] entries has a size
    that [size_t] can hold. *)
Record fl_params (fl : nccl_ofi_freelist_t) : Prop := {
  pp_page : exists k, 0 <= k < 64 /\ system_page_size = 2 ^ k;
  pp_redzone : 0 <= memcheck_redzone_size fl;
  pp_off : 0 <= elem_off fl;
  pp_fits : elem_off fl + sizeof_elem <= user_size fl;
  pp_max : in_width 64 (max_entry_count fl);
  pp_inc : 0 <= increase_entry_count fl;
  pp_small : entry_size fl * increase_entry_count fl + sizeof_block + system_page_size < 2 ^ 64;
}.

Record fl_inv (st : state) (free : list Z) (live : gset Z) (bs : list block_info) : Prop := {
  i_params : fl_params (fst st);
  i_chain : chain (elems (snd st)) (elem_off (fst st)) (entries (fst st)) free;
  i_perm : free ++ elements live ≡ₚ bs ≫= bi_slots (fst st);
  i_num : num_allocated_entries (fst st) = u64 (zsum ((fun b => Z.of_nat (bi_count b)) <$> bs));
  i_max : 0 < max_entry_count (fst st) ->
    zsum ((fun b => Z.of_nat (bi_count b)) <$> bs) <= max_entry_count (fst st);
  i_nodup : NoDup bs;
  i_base : forall b, b ∈ bs -> 0 < bi_base b /\ (system_page_size | bi_base b) /\
    entry_size (fst st) * Z.of_nat (bi_count b) + sizeof_block <= bi_size (fst st) b;
  i_disjoint : forall b1 b2, b1 ∈ bs -> b2 ∈ bs -> b1 <> b2 ->
    regions_disjoint (bi_base b1) (bi_size (fst st) b1) (bi_base b2) (bi_size (fst st) b2);
  i_bchain : bchain (fst st) (snd st) (blocks (fst st)) bs;
  i_bkeys : forall p, is_Some (block_structs (snd st) !! p) ->
    exists b, b ∈ bs /\ p = bi_addr (fst st) b;
  i_bsize : size (block_structs (snd st)) = length bs;
  i_reg : have_reginfo (fst st) = true -> forall b e, b ∈ bs -> e ∈ bi_slots (fst st) b ->
    reginfos (snd st) !! (e + elem_off (fst st)) =
      Some (mk_reginfo (e - bi_base b) (bi_handle b)) /\
    exists nx, elems (snd st) !! (e + elem_off (fst st)) = Some (mk_elem e nx);
}.

(** mmap returns a fresh, page-aligned, non-null region and fails with a
    positive errno. *)
Definition mmap_ok (st : state) (num_entries : Z) (env : grow_env) : Prop :=
  match env_mmap env with
  | inr errno => 0 < errno
  | inl a =>
      0 < a /\ (system_page_size | a) /\
      forall p b, block_structs (snd st) !! p = Some b ->
        regions_disjoint (memory b) (memory_size b) a
          (freelist_block_mem_size_full_pages (entry_size (fst st))
            (allocation_count (fst st) num_entries))
  end.

(** ** Sizes *)

Lemma full_pages_bounds es n :
  (exists k, 0 <= k < 64 /\ system_page_size = 2 ^ k) ->
  0 <= es -> 0 <= n -> es * n + sizeof_block + system_page_size < 2 ^ 64 ->
  es * n + sizeof_block <= freelist_block_mem_size_full_pages es n <
    es * n + sizeof_block + system_page_size /\
  (system_page_size | freelist_block_mem_size_full_pages es n).
Proof.
  intros (k & Hk & Hpage) Hes Hn Hb. unfold freelist_block_mem_size_full_pages, sizeof_block in *.
  assert (0 < 2 ^ k) by lia. assert (0 <= es * n) by nia.
  rewrite (wrap_small 64 (es * n)), wrap_small by lia.
  rewrite Hpage in *. rewrite round_up_pow2 by lia.
  pose proof (div_ceil_bounds (es * n + 32) (2 ^ k)). split; [lia|].
  by exists (NCCL_OFI_DIV_CEIL (es * n + 32) (2 ^ k)).
Qed.

(** ** Slots of a block *)

Lemma slots_S fl base n :
  slots fl base (S n) = (base + memcheck_redzone_size fl) :: slots fl (base + entry_size fl) n.
Proof.
  unfold slots. cbn. f_equal; [lia|]. rewrite <- fmap_S_seq, <- list_fmap_compose.
  apply list_fmap_ext. intros i x _. cbn. lia.
Qed.

Lemma slots_range fl base n e :
  0 <= entry_size fl -> e ∈ slots fl base n ->
  base + memcheck_redzone_size fl <= e /\
  e + user_size fl <= base + entry_size fl * Z.of_nat n.
Proof.
  intros Hes He. unfold slots in He. apply list_elem_of_fmap in He as (i & -> & Hi).
  apply elem_of_seq in Hi. unfold user_size. nia.
Qed.

Lemma slots_spaced fl base n e1 e2 :
  0 <= entry_size fl -> e1 ∈ slots fl base n -> e2 ∈ slots fl base n -> e1 <> e2 ->
  e1 + entry_size fl <= e2 \/ e2 + entry_size fl <= e1.
Proof.
  intros Hes He1 He2 Hne. unfold slots in *.
  apply list_elem_of_fmap in He1 as (i & -> & Hi). apply list_elem_of_fmap in He2 as (j & -> & Hj).
  destruct (decide (i < j)%nat); [left; nia|].
  destruct (decide (i = j)); [subst; lia|right; nia].
Qed.

Lemma slots_NoDup fl base n : 0 < entry_size fl -> NoDup (slots fl base n).
Proof.
  intros Hes. unfold slots. apply NoDup_fmap_2_strong; [|apply NoDup_seq].
  intros i j _ _ Heq. nia.
Qed.

(** ** Chains *)

Lemma chain_frame m off p l a v :
  chain m off p l -> a ∉ (fun e => e + off) <$> l -> chain (<[a := v]> m) off p l.
Proof.
  revert p. induction l as [|e l IH]; intros p; cbn; [done|].
  intros (-> & Hnz & nx & Hm & Hc) Hni. apply not_elem_of_cons in Hni as [Hne Hni].
  split_and!; [done|done|]. exists nx. rewrite lookup_insert_ne by done. auto.
Qed.

Lemma chain_nonnull m off p e l : chain m off p (e :: l) -> p <> NULL.
Proof. cbn. tauto. Qed.

Lemma bchain_frame fl h h' p bs :
  (forall a b, b ∈ bs -> a = bi_addr fl b -> block_structs h' !! a = block_structs h !! a) ->
  bchain fl h p bs -> bchain fl h' p bs.
Proof.
  revert p. induction bs as [|b bs IH]; intros p Hsame; cbn; [done|].
  intros (-> & Hnz & nx & Hm & Hc). split_and!; [done|done|]. exists nx. split.
  - rewrite (Hsame _ b); [done|by left|done].
  - apply IH; [|done]. intros a b' Hb' ->. apply (Hsame _ b'); [by right|done].
Qed.

(** ** Carving entries *)

(** Fields that growing a list leaves alone. *)
Definition same_cfg (fl fl' : nccl_ofi_freelist_t) : Prop :=
  entry_size fl' = entry_size fl /\ max_entry_count fl' = max_entry_count fl /\
  increase_entry_count fl' = increase_entry_count fl /\ have_reginfo fl' = have_reginfo fl /\
  regmr_fn fl' = regmr_fn fl /\ deregmr_fn fl' = deregmr_fn fl /\
  reginfo_offset fl' = reginfo_offset fl /\
  memcheck_redzone_size fl' = memcheck_redzone_size fl.

Lemma add_entries_spec n : forall buffer base handle fl h free,
  0 <= memcheck_redzone_size fl -> 0 <= elem_off fl -> 0 < entry_size fl -> 0 < buffer ->
  chain (elems h) (elem_off fl) (entries fl) free ->
  (forall e, e ∈ free -> e ∉ slots fl buffer n) ->
  exists fl' h', add_entries n buffer base handle (fl, h) = (fl', h') /\
    same_cfg fl fl' /\ blocks fl' = blocks fl /\ block_structs h' = block_structs h /\
    num_allocated_entries fl' =
      (if decide (n = O) then num_allocated_entries fl
       else u64 (num_allocated_entries fl + Z.of_nat n)) /\
    chain (elems h') (elem_off fl) (entries fl') (reverse (slots fl buffer n) ++ free) /\
    (forall a, (forall e, e ∈ slots fl buffer n -> a <> e + elem_off fl) ->
      elems h' !! a = elems h !! a /\ reginfos h' !! a = reginfos h !! a) /\
    (have_reginfo fl = true -> forall e, e ∈ slots fl buffer n ->
      reginfos h' !! (e + elem_off fl) = Some (mk_reginfo (e - base) handle) /\
      exists nx, elems h' !! (e + elem_off fl) = Some (mk_elem e nx)).
Proof.
  induction n as [|n IH]; intros buffer base handle fl h free Hrz Hoff Hes Hb Hc Hfree.
  { exists fl, h. cbn. repeat split; try done; set_solver. }
  cbn [add_entries].
  set (b := buffer + memcheck_redzone_size fl).
  set (h1 := if have_reginfo fl
             then store_reginfo (b + elem_off fl) (mk_reginfo (b - base) handle) h else h).
  set (h2 := store_elem (b + elem_off fl) (mk_elem b (entries fl)) h1).
  set (fl1 := set_num (u64 (num_allocated_entries fl + 1)) (set_entries (b + elem_off fl) fl)).
  replace (let '(entry, h1) := _ in _) with
    (add_entries n (b + (entry_size fl - memcheck_redzone_size fl)) base handle (fl1, h2)).
  2:{ unfold fl1, h2, h1, elem_off. destruct (have_reginfo fl); [done|]. by rewrite Z.add_0_r. }
  replace (b + (entry_size fl - memcheck_redzone_size fl)) with (buffer + entry_size fl) by lia.
  rewrite slots_S in *. fold b in Hfree |- *.
  assert (elems h1 = elems h /\ block_structs h1 = block_structs h) as [He1 Hbs1]
    by (unfold h1; by destruct (have_reginfo fl)).
  assert (b ∉ slots fl (buffer + entry_size fl) n) as Hbn.
  { intros Hin. apply slots_range in Hin; [|lia]. cbn in Hin. unfold b in Hin. lia. }
  destruct (IH (buffer + entry_size fl) base handle fl1 h2 (b :: free))
    as (fl' & h' & -> & Hcfg & Hbl & Hbs & Hnum & Hch & Hold & Hreg); try done; [lia| | |].
  { cbn [chain]. change (elem_off fl1) with (elem_off fl).
    split_and!; [done|unfold NULL; cbn; lia|]. exists (entries fl). cbn [elems h2 store_elem].
    rewrite He1, lookup_insert_eq. split; [done|]. apply chain_frame; [done|].
    intros Hin. apply list_elem_of_fmap in Hin as (e & He & Hin).
    apply (Hfree e Hin). replace e with b by lia. by left. }
  { intros e He. apply elem_of_cons in He as [->|He]; [done|].
    intros Hin. apply (Hfree e He). by right. }
  change (elem_off fl1) with (elem_off fl) in *. change (slots fl1) with (slots fl) in *.
  exists fl', h'. split_and!; try done.
  - rewrite Hbs. cbn. done.
  - rewrite Hnum. cbn [num_allocated_entries fl1 set_num]. case_decide; subst; cbn; [done|].
    unfold wrap. rewrite Zplus_mod_idemp_l. f_equal. lia.
  - rewrite reverse_cons, <- app_assoc. done.
  - intros a Ha. destruct (Hold a) as [-> ->].
    { intros e He. apply Ha. by right. }
    assert (a <> b + elem_off fl) by (apply Ha; by left).
    cbn. rewrite He1, lookup_insert_ne by done. split; [done|].
    unfold h1. destruct (have_reginfo fl); [|done]. cbn. by rewrite lookup_insert_ne.
  - intros Hri e He. apply elem_of_cons in He as [->|He]; [|by apply Hreg].
    destruct (Hold (b + elem_off fl)) as [-> ->].
    { intros e' He' Heq. apply Hbn. by replace b with e' by lia. }
    cbn. rewrite lookup_insert_eq. unfold h1. rewrite Hri. cbn. rewrite lookup_insert_eq. eauto.
Qed.

(** ** Growing *)

Lemma same_cfg_slots fl fl' base n : same_cfg fl fl' -> slots fl' base n = slots fl base n.
Proof. intros (He & _ & _ & _ & _ & _ & _ & Hr). unfold slots. by rewrite He, Hr. Qed.

Lemma same_cfg_off fl fl' : same_cfg fl fl' -> elem_off fl' = elem_off fl.
Proof. intros (_ & _ & _ & Hh & _ & _ & Ho & _). unfold elem_off. by rewrite Hh, Ho. Qed.

Lemma same_cfg_params fl fl' : same_cfg fl fl' -> fl_params fl -> fl_params fl'.
Proof.
  intros Hc []. pose proof (same_cfg_off _ _ Hc) as Ho.
  destruct Hc as (He & Hm & Hi & _ & _ & _ & _ & Hr).
  constructor; unfold user_size in *; rewrite ?Ho, ?He, ?Hm, ?Hi, ?Hr; done.
Qed.

Lemma entry_size_pos fl : fl_params fl -> 0 < entry_size fl.
Proof.
  intros [? ? ? Hf ? ? ?]. unfold user_size, sizeof_elem in Hf. lia.
Qed.

Lemma bchain_lookup fl h p bs b :
  bchain fl h p bs -> b ∈ bs ->
  exists nx, block_structs h !! bi_addr fl b =
    Some (mk_block nx (bi_base b) (bi_size fl b) (bi_handle b)).
Proof.
  revert p. induction bs as [|b' bs IH]; intros p Hc Hb; [set_solver|].
  destruct Hc as (-> & _ & nx & Hm & Hc). apply elem_of_cons in Hb as [->|Hb]; eauto.
Qed.

Lemma bchain_cfg fl fl' h p bs :
  entry_size fl' = entry_size fl -> bchain fl h p bs -> bchain fl' h p bs.
Proof.
  intros He. revert p. induction bs as [|b bs IH]; intros p; cbn; [done|].
  unfold bi_addr, bi_size. rewrite He. intros (-> & Hnz & nx & Hm & Hc). eauto 6.
Qed.

Lemma zsum_counts_nonneg (bs : list block_info) :
  0 <= zsum ((fun b => Z.of_nat (bi_count b)) <$> bs).
Proof. apply zsum_nonneg, Forall_fmap, Forall_true. intros b. cbn. lia. Qed.

Lemma allocation_count_spec fl bs num :
  num_allocated_entries fl = u64 (zsum ((fun b => Z.of_nat (bi_count b)) <$> bs)) ->
  (0 < max_entry_count fl ->
    zsum ((fun b => Z.of_nat (bi_count b)) <$> bs) <= max_entry_count fl) ->
  in_width 64 (max_entry_count fl) -> 0 <= num ->
  allocation_count fl num =
    if decide (0 < max_entry_count fl)
    then Z.min num (max_entry_count fl - zsum ((fun b => Z.of_nat (bi_count b)) <$> bs))
    else num.
Proof.
  intros Hn Hm Hw Hnum. unfold allocation_count. unfold in_width in Hw.
  pose proof (zsum_counts_nonneg bs). set (t := zsum _) in *.
  case_decide as Hmax; [|rewrite (proj2 (Z.ltb_ge _ _)) by lia; done].
  specialize (Hm Hmax). rewrite (proj2 (Z.ltb_lt _ _)) by lia. cbn [andb].
  rewrite Hn, (wrap_small 64 t) by lia. rewrite wrap_small by lia. split_if; lia.
Qed.

Lemma slot_in_block st free live bs b e :
  fl_inv st free live bs -> b ∈ bs -> e ∈ bi_slots (fst st) b ->
  bi_base b + memcheck_redzone_size (fst st) <= e /\
  e + user_size (fst st) + sizeof_block <= bi_base b + bi_size (fst st) b.
Proof.
  intros Hinv Hb He. pose proof (entry_size_pos _ (i_params _ _ _ _ Hinv)).
  destruct (i_base _ _ _ _ Hinv b Hb) as (_ & _ & Hsz).
  apply slots_range in He; lia.
Qed.

Lemma elem_of_free_block st free live bs e :
  fl_inv st free live bs -> e ∈ free \/ e ∈ live ->
  exists b, b ∈ bs /\ e ∈ bi_slots (fst st) b.
Proof.
  intros Hinv He. assert (e ∈ bs ≫= bi_slots (fst st)) as Hin.
  { rewrite <- (i_perm _ _ _ _ Hinv), elem_of_app, elem_of_elements. done. }
  apply list_elem_of_bind in Hin as (b & ? & ?). eauto.
Qed.

(** Slots and block structure of a block disjoint from the old ones are new. *)
Lemma new_slots_fresh st free live bs b b' e :
  fl_inv st free live bs -> b' ∈ bs ->
  regions_disjoint (bi_base b') (bi_size (fst st) b') (bi_base b) (bi_size (fst st) b) ->
  entry_size (fst st) * Z.of_nat (bi_count b) + sizeof_block <= bi_size (fst st) b ->
  e ∈ bi_slots (fst st) b' -> e ∉ bi_slots (fst st) b.
Proof.
  intros Hinv Hb' Hdis Hsz He He'. pose proof (i_params _ _ _ _ Hinv) as Hp.
  pose proof (entry_size_pos _ Hp). pose proof (slot_in_block _ _ _ _ _ _ Hinv Hb' He).
  apply slots_range in He'; [|lia].
  pose proof (pp_fits _ Hp). pose proof (pp_off _ Hp). pose proof (pp_redzone _ Hp).
  unfold regions_disjoint, sizeof_elem, sizeof_block in *. lia.
Qed.

Lemma new_addr_fresh st free live bs b b' :
  fl_inv st free live bs -> b' ∈ bs ->
  regions_disjoint (bi_base b') (bi_size (fst st) b') (bi_base b) (bi_size (fst st) b) ->
  entry_size (fst st) * Z.of_nat (bi_count b) + sizeof_block <= bi_size (fst st) b ->
  bi_addr (fst st) b' <> bi_addr (fst st) b.
Proof.
  intros Hinv Hb' Hdis Hsz. pose proof (entry_size_pos _ (i_params _ _ _ _ Hinv)).
  destruct (i_base _ _ _ _ Hinv b' Hb') as (_ & _ & Hsz').
  unfold bi_addr, regions_disjoint, sizeof_block in *. nia.
Qed.

(** Linking a fresh block and carving its entries keeps the invariant. *)
Lemma same_cfg_views fl fl' :
  same_cfg fl fl' ->
  elem_off fl' = elem_off fl /\ entry_size fl' = entry_size fl /\
  max_entry_count fl' = max_entry_count fl /\ have_reginfo fl' = have_reginfo fl /\
  (forall b, bi_slots fl' b = bi_slots fl b) /\ (forall b, bi_size fl' b = bi_size fl b) /\
  (forall b, bi_addr fl' b = bi_addr fl b).
Proof.
  intros H. assert (entry_size fl' = entry_size fl) as He by (unfold same_cfg in *; tauto).
  split_and!; try (unfold same_cfg in *; tauto); try (by apply same_cfg_off).
  - intros b. by apply same_cfg_slots.
  - intros b. unfold bi_size. by rewrite He.
  - intros b. unfold bi_addr. by rewrite He.
Qed.

(** A block apart from all blocks in use is a new one. *)
Lemma new_block_notin st free live bs b :
  fl_inv st free live bs ->
  (forall b', b' ∈ bs -> regions_disjoint (bi_base b') (bi_size st.1 b') (bi_base b) (bi_size st.1 b)) ->
  b ∉ bs.
Proof.
  intros Hinv Hdb Hb. specialize (Hdb b Hb). destruct (i_base _ _ _ _ Hinv b Hb) as (_ & _ & Hs).
  pose proof (entry_size_pos _ (i_params _ _ _ _ Hinv)). unfold regions_disjoint, sizeof_block in *. nia.
Qed.

(** No block structure is where that of a new block goes. *)
Lemma new_block_unused fl h free live bs b :
  fl_inv (fl, h) free live bs -> (forall b', b' ∈ bs -> bi_addr fl b' <> bi_addr fl b) ->
  block_structs h !! bi_addr fl b = None.
Proof.
  intros Hinv Hne. destruct (block_structs h !! bi_addr fl b) eqn:E; [|done].
  destruct (i_bkeys _ _ _ _ Hinv (bi_addr fl b)) as (b' & Hb' & Heqa); [by eexists|].
  by destruct (Hne b' Hb').
Qed.

Lemma grow_inv fl h free live bs b fl' h' :
  fl_inv (fl, h) free live bs ->
  0 < bi_base b -> (system_page_size | bi_base b) ->
  entry_size fl * Z.of_nat (bi_count b) + sizeof_block <= bi_size fl b ->
  (forall b', b' ∈ bs -> regions_disjoint (bi_base b') (bi_size fl b') (bi_base b) (bi_size fl b)) ->
  (0 < max_entry_count fl -> Z.of_nat (bi_count b) +
    zsum ((fun b => Z.of_nat (bi_count b)) <$> bs) <= max_entry_count fl) ->
  (0 < bi_count b)%nat ->
  add_entries (bi_count b) (bi_base b) (bi_base b) (bi_handle b)
    (set_blocks (bi_addr fl b) fl,
     store_block (bi_addr fl b) (mk_block (blocks fl) (bi_base b) (bi_size fl b) (bi_handle b)) h)
    = (fl', h') ->
  same_cfg fl fl' /\ fl_inv (fl', h') (reverse (bi_slots fl' b) ++ free) live (b :: bs).
Proof.
  intros Hinv Hb0 Hal Hsz Hdb Hmx Hcnt Hadd.
  pose proof (new_block_notin _ _ _ _ b Hinv Hdb) as Hnew.
  pose proof (fun b' e Hb' => new_slots_fresh _ _ _ _ b b' e Hinv Hb' (Hdb b' Hb') Hsz) as Hsep.
  pose proof (fun b' Hb' => new_addr_fresh _ _ _ _ b b' Hinv Hb' (Hdb b' Hb') Hsz) as Hadr.
  pose proof (new_block_unused _ _ _ _ _ b Hinv Hadr) as Hunused.
  pose proof (fun e He => elem_of_free_block _ _ _ _ e Hinv (or_introl He)) as Hfb.
  destruct Hinv as [Hp Hc Hperm Hn Hmax Hnd Hbase Hdis Hbc Hbk Hbs Hri].
  cbn [fst snd] in *. pose proof (entry_size_pos _ Hp) as Hes.
  set (h1 := store_block _ _ h) in Hadd.
  destruct (add_entries_spec (bi_count b) (bi_base b) (bi_base b) (bi_handle b)
    (set_blocks (bi_addr fl b) fl) h1 free) as (fl2 & h2 & Heq & Hcfg & Hbl & Hbst & Hnum & Hch & Hold & Hreg);
    [apply Hp|apply Hp|done|done|exact Hc| |].
  { intros e He He'. destruct (Hfb e He) as (b' & Hb' & Hes'). by apply (Hsep b' e). }
  rewrite Heq in Hadd. injection Hadd as -> ->.
  change (slots (set_blocks _ fl)) with (slots fl) in *.
  change (elem_off (set_blocks _ fl)) with (elem_off fl) in *.
  assert (same_cfg fl fl') as Hcfg' by exact Hcfg. split; [done|].
  destruct (same_cfg_views _ _ Hcfg') as (Ho & He & Hm & Hh & Hbsl & Hbsz & Hba).
  constructor; cbn [fst snd]; rewrite ?Ho, ?Hm, ?Hh, ?Hbsl.
  - by eapply same_cfg_params.
  - exact Hch.
  - cbn. rewrite Hbsl, <- app_assoc, Hperm, reverse_Permutation. f_equiv.
    erewrite list_bind_ext; [done| |done]. intros; by rewrite Hbsl.
  - rewrite Hnum, decide_False by lia. cbn [num_allocated_entries set_blocks].
    rewrite Hn, fmap_cons. unfold wrap. rewrite Zplus_mod_idemp_l. f_equal.
    unfold zsum. cbn [foldr]. lia.
  - intros Hpos. rewrite fmap_cons. specialize (Hmx Hpos). unfold zsum in *. cbn [foldr]. lia.
  - by constructor.
  - intros b' Hb'. rewrite He, Hbsz. apply elem_of_cons in Hb' as [->|Hb']; [done|]. by apply Hbase.
  - intros b1 b2 Hb1 Hb2 Hne. rewrite !Hbsz.
    apply elem_of_cons in Hb1 as [->|Hb1]; apply elem_of_cons in Hb2 as [->|Hb2]; try done.
    + specialize (Hdb b2 Hb2). unfold regions_disjoint in *. lia.
    + by apply Hdb.
    + by apply Hdis.
  - rewrite Hbl. cbn. rewrite Hba. split_and!; [done|unfold bi_addr, NULL; nia|].
    exists (blocks fl). rewrite Hbst. cbn. rewrite lookup_insert_eq, Hbsz. split; [done|].
    eapply bchain_cfg; [exact He|]. eapply bchain_frame; [|exact Hbc].
    intros a b' Hb' ->. rewrite Hbst. cbn. rewrite lookup_insert_ne; [done|].
    intros Heqa. by apply (Hadr b').
  - intros p Hsome. rewrite Hbst in Hsome. cbn in Hsome.
    destruct (decide (p = bi_addr fl b)) as [->|Hne].
    + exists b. rewrite Hba. split; [by left|done].
    + rewrite lookup_insert_ne in Hsome by done. destruct (Hbk p Hsome) as (b' & Hb' & ->).
      exists b'. rewrite Hba. split; [by right|done].
  - rewrite Hbst. cbn. by rewrite map_size_insert_None, Hbs.
  - intros Hri1 b' e Hb' He'. rewrite Hbsl in He'.
    apply elem_of_cons in Hb' as [->|Hb']; [by apply Hreg|].
    destruct (Hold (e + elem_off fl)) as [-> ->]; [|by apply Hri].
    intros e' He2 Heqe. apply (Hsep b' e Hb' He'). by replace e with e' by lia.
Qed.

Lemma add_preserves env st free live bs num ret st' :
  fl_inv st free live bs -> mmap_ok st num env -> 0 <= num ->
  entry_size (fst st) * num + sizeof_block + system_page_size < 2 ^ 64 ->
  nccl_ofi_freelist_add env st num = (ret, st') ->
  (ret <> 0 /\ st' = st) \/
  (ret = 0 /\ same_cfg (fst st) (fst st') /\ exists b,
    Z.of_nat (bi_count b) = allocation_count (fst st) num /\ (0 < bi_count b)%nat /\
    fl_inv st' (reverse (bi_slots (fst st') b) ++ free) live (b :: bs)).
Proof.
  destruct st as [fl h]. intros Hinv Hmm Hnum Hsmall. unfold nccl_ofi_freelist_add.
  pose proof (i_params _ _ _ _ Hinv) as Hp. pose proof (entry_size_pos _ Hp) as Hes.
  pose proof (i_max _ _ _ _ Hinv) as Hmax.
  pose proof (allocation_count_spec fl bs num (i_num _ _ _ _ Hinv) Hmax (pp_max _ Hp) Hnum) as Hcnt.
  unfold mmap_ok in Hmm. cbn [fst snd] in *. set (cnt := allocation_count fl num) in *.
  assert (0 <= cnt <= num) as Hcn by (case_decide; [specialize (Hmax ltac:(done))|]; lia).
  split_if; [intros [= <- <-]; left; unfold ENOMEM; split; [lia|done]|].
  unfold nccl_net_ofi_alloc_mr_buffer. destruct (env_mmap env) as [a|errno].
  2:{ rewrite (proj2 (Z.eqb_neq _ _)) by lia. intros [= <- <-]. left. split; [lia|done]. }
  change (negb (0 =? 0)) with false. cbv iota.
  destruct (if regmr_fn fl then env_regmr env else (0, NULL)) as [rr handle].
  split_if; [intros [= <- <-]; by left|]. subst rr. destruct Hmm as (Ha & Hal & Hfresh).
  assert (entry_size fl * cnt + sizeof_block + system_page_size < 2 ^ 64) as Hsm by nia.
  destruct (full_pages_bounds (entry_size fl) cnt (pp_page _ Hp)) as [Hsz _]; [lia|lia|done|].
  assert (0 < system_page_size) by (destruct (pp_page _ Hp) as (k & ? & ->); lia).
  rewrite (wrap_small 64 (_ * cnt)) by (unfold sizeof_block in *; nia).
  set (b := mk_bi a (Z.to_nat cnt) handle).
  assert (Z.of_nat (bi_count b) = cnt) as Hbcnt by (cbn; lia).
  replace (a + entry_size fl * cnt) with (bi_addr fl b) by (unfold bi_addr; rewrite Hbcnt; done).
  assert (bi_size fl b = freelist_block_mem_size_full_pages (entry_size fl) cnt) as Hbsz
    by (unfold bi_size; by rewrite Hbcnt).
  rewrite <- Hbsz in *. destruct (add_entries _ _ _ _ _) as [fl' h'] eqn:Hadd. intros [= <- <-].
  destruct (grow_inv fl h free live bs b fl' h') as [Hcfg Hi]; try done; [lia| | |lia|].
  - intros b' Hb'. destruct (bchain_lookup _ _ _ _ _ (i_bchain _ _ _ _ Hinv) Hb') as [nx Hnx].
    apply (Hfresh _ _ Hnx).
  - intros Hpos. rewrite decide_True in Hcnt by done. lia.
  - right. split_and!; [done|done|]. exists b. split_and!; [done|lia|done].
Qed.

(** ** Taking and returning entries *)

Lemma all_slots_NoDup st free live bs :
  fl_inv st free live bs -> NoDup (bs ≫= bi_slots (fst st)).
Proof.
  intros Hinv. pose proof (i_params _ _ _ _ Hinv) as Hp.
  pose proof (entry_size_pos _ Hp). apply NoDup_bind.
  - intros b1 b2 e Hb1 Hb2 He1 He2. destruct (decide (b1 = b2)) as [|Hne]; [done|exfalso].
    refine (new_slots_fresh _ _ _ _ b2 b1 e Hinv Hb1 _ _ He1 He2).
    + by apply (i_disjoint _ _ _ _ Hinv).
    + by apply (i_base _ _ _ _ Hinv).
  - intros b _. by apply slots_NoDup.
  - apply Hinv.
Qed.

Lemma free_live_disjoint st free live bs e :
  fl_inv st free live bs -> e ∈ free -> e ∉ live.
Proof.
  intros Hinv Hf Hl. pose proof (all_slots_NoDup _ _ _ _ Hinv) as Hnd.
  rewrite <- (i_perm _ _ _ _ Hinv) in Hnd. apply NoDup_app in Hnd as (_ & Hd & _).
  apply (Hd e Hf). by apply elem_of_elements.
Qed.

Lemma elem_off_free (free : list Z) off e :
  e ∉ free -> e + off ∉ (fun e => e + off) <$> free.
Proof.
  intros Hni Hin. apply list_elem_of_fmap in Hin as (e' & He' & Hin).
  apply Hni. by replace e with e' by lia.
Qed.

(** Changing only the head pointer. *)
Lemma inv_set_entries fl h free live bs free' live' p m :
  fl_inv (fl, h) free live bs -> chain m (elem_off fl) p free' ->
  free' ++ elements live' ≡ₚ free ++ elements live ->
  (have_reginfo fl = true -> forall b e, b ∈ bs -> e ∈ bi_slots fl b ->
    exists nx, m !! (e + elem_off fl) = Some (mk_elem e nx)) ->
  fl_inv (set_entries p fl, mk_heap m (reginfos h) (block_structs h)) free' live' bs.
Proof.
  intros [Hp Hc Hperm Hn Hmax Hnd Hbase Hdis Hbc Hbk Hbs Hri] Hc' Hpm Hm.
  constructor; cbn [fst snd] in *; try done.
  - by destruct Hp.
  - by rewrite Hpm.
  - apply (bchain_cfg fl); [done|]. by apply (bchain_frame fl h).
  - intros Hh b e Hb He. split; [by apply Hri|]. by apply (Hm Hh b).
Qed.

Lemma pop_preserves fl h e free live bs :
  fl_inv (fl, h) (e :: free) live bs ->
  exists nx, elems h !! entries fl = Some (mk_elem e nx) /\ entries fl <> NULL /\
    e <> NULL /\ (e ∉ live) /\ fl_inv (set_entries nx fl, h) free ({[e]} ∪ live) bs.
Proof.
  intros Hinv. pose proof (free_live_disjoint _ _ _ _ e Hinv ltac:(by left)) as Hnl.
  destruct (elem_of_free_block _ _ _ _ e Hinv) as (b & Hb & He); [left; by left|].
  destruct (slot_in_block _ _ _ _ _ _ Hinv Hb He) as [Hlo _].
  destruct (i_base _ _ _ _ Hinv b Hb) as (Hbp & _ & _).
  pose proof (pp_redzone _ (i_params _ _ _ _ Hinv)).
  destruct (i_chain _ _ _ _ Hinv) as (Hp & Hnz & nx & Hm & Hc). cbn [fst snd] in *.
  exists nx. split_and!; [done|done|unfold NULL; lia|done|].
  destruct h as [es rs bls]. eapply (inv_set_entries fl (mk_heap es rs bls)); [exact Hinv|done| |].
  - rewrite elements_union_singleton by done. symmetry. apply Permutation_middle.
  - intros Hh b' e' Hb' He'. by apply (i_reg _ _ _ _ Hinv Hh b' e').
Qed.

Lemma alloc_preserves env st free live bs :
  fl_inv st free live bs -> mmap_ok st (increase_entry_count (fst st)) env ->
  exists e st', nccl_ofi_freelist_entry_alloc env st = Some (e, st') /\
    same_cfg (fst st) (fst st') /\
    ((e = NULL /\ free = [] /\ st' = st) \/
     (e <> NULL /\ (e ∉ live) /\ exists free' bs', fl_inv st' free' ({[e]} ∪ live) bs')).
Proof.
  destruct st as [fl h]. intros Hinv Hmm. unfold nccl_ofi_freelist_entry_alloc. cbn [fst snd] in *.
  pose proof (i_params _ _ _ _ Hinv) as Hp.
  assert (same_cfg fl fl) as Hrefl by done.
  destruct free as [|e free].
  - assert (entries fl = NULL) as -> by (apply (i_chain _ _ _ _ Hinv)). cbn [Z.eqb NULL].
    destruct (nccl_ofi_freelist_add env (fl, h) (increase_entry_count fl)) as [ret [fl' h']] eqn:Hadd.
    destruct (add_preserves env (fl, h) [] live bs _ ret (fl', h') Hinv Hmm)
      as [[Hr Heq]|(-> & Hcfg & b & Hcnt & Hpos & Hinv')]; [apply Hp|apply Hp|done| |].
    + injection Heq as -> ->. rewrite (proj2 (Z.eqb_neq _ _)) by done. cbn [negb].
      exists NULL, (fl, h). split_and!; [done|done|by left].
    + cbn [Z.eqb negb]. rewrite app_nil_r in Hinv'. cbn [fst] in *.
      destruct (reverse (bi_slots fl' b)) as [|e free] eqn:Hrev.
      { apply (f_equal length) in Hrev. rewrite length_reverse in Hrev.
        unfold bi_slots, slots in Hrev. rewrite length_fmap, length_seq in Hrev. cbn in Hrev. lia. }
      destruct (pop_preserves _ _ _ _ _ _ Hinv') as (nx & Hm & _ & Hnz & Hnl & Hi).
      rewrite Hm. cbn. exists e, (set_entries nx fl', h'). split_and!; [done|by destruct Hcfg|].
      right. eauto 6.
  - destruct (pop_preserves _ _ _ _ _ _ Hinv) as (nx & Hm & Hn & Hnz & Hnl & Hi).
    rewrite (proj2 (Z.eqb_neq _ _)) by done. cbn [Z.eqb negb]. rewrite Hm. cbn.
    exists e, (set_entries nx fl, h). split_and!; [done|done|]. right. eauto 6.
Qed.

Lemma elements_take_out (live : gset Z) e :
  e ∈ live -> elements live ≡ₚ e :: elements (live ∖ {[e]}).
Proof.
  intros He. rewrite <- elements_union_singleton by set_solver.
  f_equiv. intros x. destruct (decide (x = e)); set_solver.
Qed.

Lemma free_preserves st free live bs e :
  fl_inv st free live bs -> e ∈ live ->
  exists st', nccl_ofi_freelist_entry_free st e = Some st' /\ same_cfg (fst st) (fst st') /\
    fl_inv st' (e :: free) (live ∖ {[e]}) bs.
Proof.
  destruct st as [fl h]. intros Hinv He. unfold nccl_ofi_freelist_entry_free.
  destruct (elem_of_free_block _ _ _ _ e Hinv) as (b & Hb & Hs); [by right|].
  destruct (slot_in_block _ _ _ _ _ _ Hinv Hb Hs) as [Hlo _].
  destruct (i_base _ _ _ _ Hinv b Hb) as (Hbp & _ & _).
  pose proof (i_params _ _ _ _ Hinv) as Hp. pose proof (pp_redzone _ Hp). pose proof (pp_off _ Hp).
  assert (e ∉ free) as Hnf by (intros Hf; by apply (free_live_disjoint _ _ _ _ e Hinv Hf)).
  set (p := e + elem_off fl). cbn [fst snd] in *.
  assert (fl_inv (set_entries p fl, store_elem p (mk_elem e (entries fl)) h)
            (e :: free) (live ∖ {[e]}) bs) as Hfin.
  { apply (inv_set_entries fl h free live bs _ _ p (<[p := mk_elem e (entries fl)]> (elems h)) Hinv).
    - cbn. split_and!; [done|unfold NULL; lia|]. exists (entries fl). rewrite lookup_insert_eq.
      split; [done|]. apply chain_frame; [apply Hinv|by apply elem_off_free].
    - cbn. rewrite (elements_take_out live e He). apply Permutation_middle.
    - intros Hh b' e' Hb' He'. destruct (decide (e' = e)) as [->|Hne].
      + rewrite lookup_insert_eq. eauto.
      + rewrite lookup_insert_ne by lia. by apply (i_reg _ _ _ _ Hinv Hh b' e'). }
  destruct (have_reginfo fl) eqn:Hh.
  - destruct (i_reg _ _ _ _ Hinv Hh b e Hb Hs) as [_ [nx Hnx]]. cbn [fst snd] in Hnx.
    assert (p = e + reginfo_offset fl) as Hpe by (unfold p, elem_off; by rewrite Hh).
    rewrite <- Hpe. fold p in Hnx. rewrite Hnx. cbn. eexists. split_and!; [done|done|done].
  - assert (p = e) as Hpe by (unfold p, elem_off; rewrite Hh; lia).
    rewrite Hpe in Hfin. eexists. split_and!; [done|done|done].
Qed.

Lemma user_write_preserves st free live bs e junk :
  fl_inv st free live bs -> e ∈ live -> fl_inv (user_write st e junk) free live bs.
Proof.
  destruct st as [fl h]. intros Hinv He. unfold user_write.
  destruct (have_reginfo fl) eqn:Hh; [done|].
  assert (e ∉ free) as Hnf by (intros Hf; by apply (free_live_disjoint _ _ _ _ e Hinv Hf)).
  assert (elem_off fl = 0) as Ho by (unfold elem_off; by rewrite Hh).
  replace fl with (set_entries (entries fl) fl) by (by destruct fl).
  apply (inv_set_entries fl h free live bs); [done| |done|congruence].
  apply chain_frame; [apply Hinv|]. cbn [fst]. rewrite Ho.
  replace e with (e + 0) by lia. by apply elem_off_free.
Qed.

(** ** The allocator interface *)

Lemma live_disjoint st free live bs e1 e2 :
  fl_inv st free live bs -> e1 ∈ live -> e2 ∈ live -> e1 <> e2 ->
  regions_disjoint e1 (user_size (fst st)) e2 (user_size (fst st)).
Proof.
  intros Hinv He1 He2 Hne. pose proof (i_params _ _ _ _ Hinv) as Hp.
  pose proof (entry_size_pos _ Hp). pose proof (pp_redzone _ Hp).
  destruct (elem_of_free_block _ _ _ _ e1 Hinv) as (b1 & Hb1 & Hs1); [by right|].
  destruct (elem_of_free_block _ _ _ _ e2 Hinv) as (b2 & Hb2 & Hs2); [by right|].
  unfold regions_disjoint. destruct (decide (b1 = b2)) as [->|Hb].
  - destruct (slots_spaced (fst st) _ _ _ _ ltac:(lia) Hs1 Hs2 Hne); unfold user_size; lia.
  - destruct (slot_in_block _ _ _ _ _ _ Hinv Hb1 Hs1), (slot_in_block _ _ _ _ _ _ Hinv Hb2 Hs2).
    pose proof (i_disjoint _ _ _ _ Hinv b1 b2 Hb1 Hb2 Hb).
    unfold regions_disjoint, sizeof_block in *. lia.
Qed.

#[global] Program Instance freelist_allocator : EntryAllocator state grow_env := {|
  ea_alloc := nccl_ofi_freelist_entry_alloc;
  ea_free := nccl_ofi_freelist_entry_free;
  ea_entry_size st := user_size (fst st);
  ea_ok st live := exists free bs, fl_inv st free live bs;
  ea_env_ok st env := mmap_ok st (increase_entry_count (fst st)) env;
|}.
Next Obligation.
  intros st live env (free & bs & Hinv) Henv. cbn in *.
  destruct (alloc_preserves env st free live bs Hinv Henv)
    as (e & st' & Heq & (He & _ & _ & _ & _ & _ & _ & Hr) & Hcase).
  exists e, st'. unfold user_size. rewrite He, Hr. split_and!; [done|done|].
  destruct Hcase as [(-> & _ & ->)|(Hnz & Hnl & free' & bs' & Hinv')]; [left|right]; eauto 6.
Qed.
Next Obligation.
  intros st live e (free & bs & Hinv) He. cbn in *.
  destruct (free_preserves st free live bs e Hinv He) as (st' & Heq & Hc & Hinv').
  destruct Hc as (Hes & _ & _ & _ & _ & _ & _ & Hr).
  exists st'. unfold user_size. rewrite Hes, Hr. eauto.
Qed.
Next Obligation.
  intros st live e1 e2 (free & bs & Hinv) H1 H2 Hne. cbn.
  apply (live_disjoint st free live bs e1 e2 Hinv H1 H2 Hne).
Qed.

(** ** Initialisation *)

Lemma padded_spec es n :
  (exists k, 0 <= k < 64 /\ system_page_size = 2 ^ k) ->
  0 < es -> 0 <= n -> es * n + sizeof_block + 2 * system_page_size < 2 ^ 64 ->
  n <= freelist_page_padded_entry_count es n /\
  es * freelist_page_padded_entry_count es n + sizeof_block <=
    freelist_block_mem_size_full_pages es n <
    es * (freelist_page_padded_entry_count es n + 1) + sizeof_block /\
  freelist_block_mem_size_full_pages es (freelist_page_padded_entry_count es n) =
    freelist_block_mem_size_full_pages es n /\
  es * freelist_page_padded_entry_count es n + sizeof_block + system_page_size < 2 ^ 64.
Proof.
  intros Hpage Hes Hn Hb.
  set (P := freelist_page_padded_entry_count es n).
  set (F := freelist_block_mem_size_full_pages es n).
  assert (0 < system_page_size) by (destruct Hpage as (k & ? & ->); lia).
  destruct (full_pages_bounds es n Hpage) as [HF Hdiv]; [lia|done|lia|]. fold F in HF, Hdiv.
  assert (P = (F - sizeof_block) / es) as HP.
  { unfold P, freelist_page_padded_entry_count. fold F. rewrite wrap_small; [done|].
    unfold sizeof_block in *. nia. }
  pose proof (Z.div_mod (F - sizeof_block) es ltac:(lia)) as Hdm. rewrite <- HP in Hdm.
  pose proof (Z.mod_pos_bound (F - sizeof_block) es ltac:(lia)).
  assert (n <= P) as HnP by (rewrite HP; apply Z.div_le_lower_bound; lia).
  assert (es * n <= es * P) by nia.
  assert (es * P + sizeof_block + system_page_size < 2 ^ 64) as HsP by lia.
  split_and!; [done|lia|nia| |done].
  destruct (full_pages_bounds es P Hpage) as [HF' Hdiv']; [lia|lia|done|].
  apply (mod_inj_window system_page_size (es * P + sizeof_block)); [lia|lia|lia|].
  apply Z.mod_divide in Hdiv, Hdiv'; [congruence|lia|lia].
Qed.

(** Arguments for which init makes a usable list: power-of-two page size and
    alignment, sizes far from the end of [size_t], and a registration record
    inside the entry when there is one. *)
Record init_args (esize n inc max : Z) (have_ri : bool) (ri_offset align : Z) : Prop := {
  ia_page : exists k, 0 <= k <= 32 /\ system_page_size = 2 ^ k;
  ia_align : exists a, 0 <= a <= 31 /\ align = 2 ^ a;
  ia_redzone : 0 <= MEMCHECK_REDZONE_SIZE <= 2 ^ 31;
  ia_size : 0 <= esize <= 2 ^ 32;
  ia_n : 0 <= n <= 2 ^ 20;
  ia_inc : 0 <= inc <= 2 ^ 20;
  ia_max : in_width 64 max;
  ia_reginfo : have_ri = true -> 0 <= ri_offset /\ ri_offset + sizeof_elem <= esize;
}.

Lemma round_up_spec x a :
  0 <= x -> 0 <= a < 64 -> x + 2 ^ a - 1 < 2 ^ 64 ->
  x <= NCCL_OFI_ROUND_UP x (2 ^ a) < x + 2 ^ a /\ (2 ^ a | NCCL_OFI_ROUND_UP x (2 ^ a)).
Proof.
  intros Hx Ha Hb. rewrite round_up_pow2 by lia. split.
  - apply div_ceil_bounds; lia.
  - by exists (NCCL_OFI_DIV_CEIL x (2 ^ a)).
Qed.

(** The configuration init computes. *)
Lemma init_cfg esize n inc max have_ri ri_offset align :
  init_args esize n inc max have_ri ri_offset align ->
  let rz := NCCL_OFI_ROUND_UP MEMCHECK_REDZONE_SIZE align in
  let us := NCCL_OFI_ROUND_UP (NCCL_OFI_MAX esize sizeof_elem) (NCCL_OFI_MAX align (NCCL_OFI_MAX 8 8)) in
  0 <= rz <= 2 ^ 32 /\ (align | rz) /\ (align | us) /\ Z.max esize sizeof_elem <= us <= 2 ^ 34 /\
  u64 (us + rz) = us + rz.
Proof.
  intros [_ (a & Ha & ->) Hrz Hsz _ _ _ _] rz us.
  assert (2 ^ a <= 2 ^ 31) by (apply Z.pow_le_mono_r; lia).
  destruct (round_up_spec MEMCHECK_REDZONE_SIZE a) as [Hr Hrd]; [lia|lia|lia|].
  fold rz in Hr, Hrd.
  assert (exists c, 0 <= c <= 31 /\ NCCL_OFI_MAX (2 ^ a) (NCCL_OFI_MAX 8 8) = 2 ^ c /\ (2 ^ a | 2 ^ c))
    as (c & Hc & Hmax & Hac).
  { exists (Z.max a 3). rewrite !ofi_max_eq. split_and!; [lia|lia| |].
    - destruct (Z.le_gt_cases a 3).
      + rewrite (Z.max_r a 3) by done. assert (2 ^ a <= 2 ^ 3) by (apply Z.pow_le_mono_r; lia). lia.
      + rewrite (Z.max_l a 3) by lia. assert (2 ^ 3 <= 2 ^ a) by (apply Z.pow_le_mono_r; lia). lia.
    - exists (2 ^ (Z.max a 3 - a)). rewrite <- Z.pow_add_r by lia. f_equal. lia. }
  assert (2 ^ c <= 2 ^ 31) by (apply Z.pow_le_mono_r; lia).
  destruct (round_up_spec (NCCL_OFI_MAX esize sizeof_elem) c) as [Hu Hud];
    [rewrite ofi_max_eq; lia|lia|rewrite ofi_max_eq; unfold sizeof_elem; lia|].
  rewrite <- Hmax in Hu, Hud. fold us in Hu, Hud. rewrite Hmax, ofi_max_eq in Hu.
  unfold sizeof_elem in *. split_and!; [lia|lia|done| |lia|lia|].
  - rewrite Hmax in Hud. by etrans.
  - apply wrap_small. lia.
Qed.

Lemma empty_inv fl :
  fl_params fl -> entries fl = NULL -> blocks fl = NULL -> num_allocated_entries fl = 0 ->
  fl_inv (fl, mk_heap ∅ ∅ ∅) [] ∅ [].
Proof.
  intros Hp He Hb Hn. constructor; cbn [fst snd]; try done; try set_solver.
  - intros _. unfold zsum. cbn. by apply Hp.
  - constructor.
  - intros p [b Hb']. cbn in Hb'. by rewrite lookup_empty in Hb'.
Qed.

(** mmap's answer to the first growth, when no block exists yet. *)
Definition first_mmap_ok (env : grow_env) : Prop :=
  match env_mmap env with
  | inr errno => 0 < errno
  | inl a => 0 < a /\ (system_page_size | a)
  end.

Lemma init_inv malloc_ok mutex_init env esize n inc max have_ri regmr deregmr ri_offset align ret st :
  init_args esize n inc max have_ri ri_offset align -> first_mmap_ok env ->
  freelist_init_internal malloc_ok mutex_init env esize n inc max have_ri regmr deregmr
    ri_offset align = (ret, Some st) ->
  exists b, fl_inv st (reverse (bi_slots (fst st) b)) ∅ [b] /\ (0 < bi_count b)%nat /\
    (max = 0 -> n <= Z.of_nat (bi_count b)) /\
    Z.max esize sizeof_elem <= user_size (fst st) /\ (align | entry_size (fst st)) /\
    (align | memcheck_redzone_size (fst st)) /\ max_entry_count (fst st) = max /\
    have_reginfo (fst st) = have_ri /\ reginfo_offset (fst st) = ri_offset.
Proof.
  intros Hargs Hmm. unfold freelist_init_internal.
  destruct malloc_ok; [|done]. change (negb true) with false. cbv iota.
  destruct (init_cfg _ _ _ _ _ _ _ Hargs) as (Hrz & Harz & Haus & Hus & Hwrap).
  set (rz := NCCL_OFI_ROUND_UP MEMCHECK_REDZONE_SIZE align) in *.
  set (us := NCCL_OFI_ROUND_UP _ (NCCL_OFI_MAX align _)) in *. rewrite Hwrap.
  destruct (ia_page _ _ _ _ _ _ _ Hargs) as (k & Hk & Hpage).
  assert (exists k, 0 <= k < 64 /\ system_page_size = 2 ^ k) as Hpg by (exists k; split; [lia|done]).
  assert (0 < system_page_size <= 2 ^ 32) as Hps.
  { rewrite Hpage. split; [lia|]. apply Z.pow_le_mono_r; lia. }
  assert (forall c, 0 <= c <= 2 ^ 20 -> (us + rz) * c + sizeof_block + 2 * system_page_size < 2 ^ 64)
    as Hsm by (intros c Hc; unfold sizeof_block, sizeof_elem in *; nia).
  destruct (padded_spec (us + rz) inc Hpg) as (Hi1 & _ & _ & Hi4);
    [unfold sizeof_elem in *; lia|apply Hargs|apply Hsm, Hargs|].
  destruct (padded_spec (us + rz) n Hpg) as (Hn1 & _ & _ & Hn4);
    [unfold sizeof_elem in *; lia|apply Hargs|apply Hsm, Hargs|].
  set (fl := mk_freelist _ _ _ _ _ _ _ _ _ _ _). split_if; [done|].
  destruct (nccl_ofi_freelist_add _ _ _) as [r st'] eqn:Hadd.
  split_if; [done|]. intros [= <- <-]. subst r.
  pose proof (ia_n _ _ _ _ _ _ _ Hargs). pose proof (ia_inc _ _ _ _ _ _ _ Hargs).
  assert (fl_params fl) as Hp.
  { constructor; cbn; try done; try lia.
    - unfold elem_off. cbn. destruct have_ri; [|done]. by apply (ia_reginfo _ _ _ _ _ _ _ Hargs).
    - unfold elem_off, user_size. cbn. pose proof (ia_reginfo _ _ _ _ _ _ _ Hargs).
      destruct have_ri; [specialize (H1 eq_refl)|]; lia.
    - apply Hargs. }
  destruct (add_preserves env (fl, mk_heap ∅ ∅ ∅) [] ∅ []
    (freelist_page_padded_entry_count (us + rz) n) 0 st' (empty_inv fl Hp eq_refl eq_refl eq_refl))
    as [[? _]|(_ & Hcfg & b & Hcnt & Hpos & Hinv)] ; [ |lia|exact Hn4|exact Hadd|done| ].
  { unfold mmap_ok, first_mmap_ok in *. destruct (env_mmap env); [|done].
    split_and!; [apply Hmm|apply Hmm|]. intros p b Hb. cbn in Hb. by rewrite lookup_empty in Hb. }
  rewrite app_nil_r in Hinv. cbn [fst] in *.
  destruct Hcfg as (He & Hm & _ & Hh & _ & _ & Ho & Hr).
  exists b. unfold user_size. rewrite He, Hm, Hh, Ho, Hr. cbn.
  replace (us + rz - rz) with us by lia. split_and!; try done; try lia.
  - intros ->. unfold allocation_count in Hcnt. cbn in Hcnt. lia.
  - by apply Z.divide_add_r.
Qed.

(** ** Executions

    States reachable by clients that return only entries they hold and write
    only inside them. *)
Inductive fl_reach (st0 : state) : state -> gset Z -> Prop :=
| reach_init : fl_reach st0 st0 ∅
| reach_alloc st live env e st' :
    fl_reach st0 st live -> mmap_ok st (increase_entry_count (fst st)) env ->
    nccl_ofi_freelist_entry_alloc env st = Some (e, st') ->
    fl_reach st0 st' (if decide (e = NULL) then live else {[e]} ∪ live)
| reach_free st live e st' :
    fl_reach st0 st live -> e ∈ live -> nccl_ofi_freelist_entry_free st e = Some st' ->
    fl_reach st0 st' (live ∖ {[e]})
| reach_write st live e junk :
    fl_reach st0 st live -> e ∈ live -> fl_reach st0 (user_write st e junk) live.

Lemma reach_inv st0 free0 bs0 st live :
  fl_inv st0 free0 ∅ bs0 -> fl_reach st0 st live ->
  (exists free bs, fl_inv st free live bs) /\ same_cfg (fst st0) (fst st).
Proof.
  intros Hinv0. induction 1 as [|st live env e st' _ [(free & bs & IH) Hc] Hmm Ha|
    st live e st' _ [(free & bs & IH) Hc] He Hf|st live e junk _ [(free & bs & IH) Hc] He].
  - by split; [eauto|].
  - destruct (alloc_preserves env st free live bs IH Hmm) as (e' & st2 & Ha' & Hcfg & Hcase).
    rewrite Ha in Ha'. injection Ha' as <- <-. split.
    + destruct Hcase as [(-> & _ & ->)|(Hnz & _ & Hinv)]; [eauto|]. by rewrite decide_False.
    + unfold same_cfg in *. intuition congruence.
  - destruct (free_preserves st free live bs e IH He) as (st2 & Hf' & Hcfg & Hinv).
    rewrite Hf in Hf'. injection Hf' as <-. split; [eauto|].
    unfold same_cfg in *. intuition congruence.
  - split; [exists free, bs; by apply user_write_preserves|].
    unfold user_write. destruct st as [fl h]. by destruct (have_reginfo fl).
Qed.

(** ** What clients may rely on *)

(** Where a handed-out entry lies. *)
Lemma live_located st free live bs e :
  fl_inv st free live bs -> e ∈ live ->
  exists p b, block_structs (snd st) !! p = Some b /\ memory b <= e /\
    e + user_size (fst st) <= memory b + memory_size b /\
    (exists i, e = memory b + i * entry_size (fst st) + memcheck_redzone_size (fst st)) /\
    (system_page_size | memory b) /\
    (have_reginfo (fst st) = true -> reginfos (snd st) !! (e + reginfo_offset (fst st)) =
      Some (mk_reginfo (e - memory b) (b_mr_handle b))).
Proof.
  intros Hinv He. destruct (elem_of_free_block _ _ _ _ e Hinv) as (b & Hb & Hs); [by right|].
  destruct (slot_in_block _ _ _ _ _ _ Hinv Hb Hs) as [Hlo Hhi].
  destruct (i_base _ _ _ _ Hinv b Hb) as (Hbp & Hal & _).
  pose proof (pp_redzone _ (i_params _ _ _ _ Hinv)).
  destruct (bchain_lookup _ _ _ _ _ (i_bchain _ _ _ _ Hinv) Hb) as [nx Hnx].
  eexists _, _. split; [exact Hnx|]. cbn. unfold sizeof_block in Hhi. split_and!; [lia|lia| |done|].
  - unfold bi_slots, slots in Hs. apply list_elem_of_fmap in Hs as (i & -> & _). eauto.
  - intros Hh. destruct (i_reg _ _ _ _ Hinv Hh b e Hb Hs) as [Hr _].
    unfold elem_off in Hr. by rewrite Hh in Hr.
Qed.

Lemma pow2_divide_le m n :
  (exists a, 0 <= a <= 31 /\ m = 2 ^ a) -> (exists k, 0 <= k <= 32 /\ n = 2 ^ k) ->
  m <= n -> (m | n).
Proof.
  intros (a & Ha & ->) (k & Hk & ->) Hle.
  assert (a <= k) by (apply (Z.pow_le_mono_r_iff 2); lia).
  exists (2 ^ (k - a)). rewrite <- Z.pow_add_r by lia. f_equal. lia.
Qed.

Lemma add_fails env st num ret st' :
  nccl_ofi_freelist_add env st num = (ret, st') -> ret <> 0 ->
  allocation_count (fst st) num = 0 \/ (exists errno, env_mmap env = inr errno) \/
  (regmr_fn (fst st) = true /\ fst (env_regmr env) <> 0).
Proof.
  destruct st as [fl h]. unfold nccl_ofi_freelist_add. cbn [fst]. intros Hadd Hr.
  split_if_in Hadd; [by left|right].
  destruct (env_mmap env); cbn in Hadd; [|eauto].
  destruct (regmr_fn fl) eqn:Hrf; [|by injection Hadd as <- _].
  destruct (env_regmr env) as [rr hd]. cbn. right. split; [done|].
  intros ->. cbn in Hadd. injection Hadd as <- _. done.
Qed.

Lemma zsum_length_slots fl bs :
  Z.of_nat (length (bs ≫= bi_slots fl)) = zsum ((fun b => Z.of_nat (bi_count b)) <$> bs).
Proof.
  induction bs as [|b bs IH]; [done|]. cbn [mbind list_bind]. rewrite length_app.
  unfold bi_slots, slots at 1. rewrite length_fmap, length_seq, fmap_cons.
  unfold zsum in *. cbn [foldr]. rewrite <- IH. unfold bi_slots, mbind. lia.
Qed.

Lemma fini_blocks_spec fl h bs : forall fuel p,
  bchain fl h p bs -> (length bs <= fuel)%nat ->
  fini_blocks fuel p h = Some ((fun b => (bi_base b, bi_size fl b, bi_handle b)) <$> bs).
Proof.
  induction bs as [|b bs IH]; intros fuel p Hc Hf; cbn in Hc, Hf.
  - subst. by destruct fuel.
  - destruct Hc as (Hp & Hnz & nx & Hm & Hc). destruct fuel as [|fuel]; [lia|].
    cbn [fini_blocks]. rewrite (proj2 (Z.eqb_neq _ _)) by done.
    rewrite Hm. cbn. rewrite (IH fuel nx Hc) by lia. done.
Qed.

End Pages.

(** ** Theorems

    The hypotheses shared by the client theorems: a list made by init, and a
    state reached from it. *)

Section Client.
Context (pg rz : Z) (malloc_ok : bool) (mutex_init : Z) (env0 : grow_env).
Context (esize n inc max : Z) (have_ri regmr deregmr : bool) (ri_offset align ret : Z).
Context (st0 st : state) (live : gset Z).
Hypothesis Hargs : init_args pg rz esize n inc max have_ri ri_offset align.
Hypothesis Hm0 : first_mmap_ok pg env0.
Hypothesis Hinit : freelist_init_internal pg rz malloc_ok mutex_init env0 esize n inc max
  have_ri regmr deregmr ri_offset align = (ret, Some st0).
Hypothesis Hreach : fl_reach pg st0 st live.

Lemma client_inv :
  (exists free bs, fl_inv pg st free live bs) /\ same_cfg (fst st0) (fst st) /\
  esize <= user_size (fst st) /\ (align | entry_size (fst st)) /\
  (align | memcheck_redzone_size (fst st)) /\ max_entry_count (fst st) = max /\
  have_reginfo (fst st) = have_ri /\ reginfo_offset (fst st) = ri_offset.
Proof.
  destruct (init_inv pg rz _ _ _ _ _ _ _ _ _ _ _ _ _ _ Hargs Hm0 Hinit)
    as (b0 & Hinv0 & _ & _ & Hus & Hae & Har & Hmx & Hhr & Hro).
  destruct (reach_inv pg _ _ _ _ _ Hinv0 Hreach) as [Hinv Hcfg].
  split; [done|]. split; [done|]. destruct Hcfg as (He & Hm & _ & Hh & _ & _ & Ho & Hr).
  unfold user_size in *. rewrite He, Hm, Hh, Ho, Hr. split_and!; try done. lia.
Qed.

(** C7. In every state a client can reach, an allocation returns: it gives NULL
    or an entry that nobody holds, aligned as asked at init, disjoint from the
    bytes of every entry handed out, inside a mapped block, and, for a list of
    registered buffers, with the registration record of that block at
    [reginfo_offset]. *)
Theorem freelist_alloc_safe env :
  align <= pg -> mmap_ok pg st (increase_entry_count (fst st)) env ->
  exists e st', nccl_ofi_freelist_entry_alloc pg env st = Some (e, st') /\
    (e = NULL \/
     ((e ∉ live) /\ (align | e) /\ (forall e', e' ∈ live -> regions_disjoint e esize e' esize) /\
      exists p b, block_structs (snd st') !! p = Some b /\
        memory b <= e /\ e + esize <= memory b + memory_size b /\
        (have_ri = true -> reginfos (snd st') !! (e + ri_offset) =
           Some (mk_reginfo (e - memory b) (b_mr_handle b))))).
Proof.
  intros Hle Hmm. destruct client_inv as ((free & bs & Hinv) & _ & Hus & Hae & Har & _ & Hhr & Hro).
  destruct (alloc_preserves pg env st free live bs Hinv Hmm)
    as (e & st' & Ha & Hcfg & [(-> & _)|(Hnz & Hnl & free' & bs' & Hinv')]); [eauto|].
  exists e, st'. split; [done|right]. destruct Hcfg as (He & _ & _ & Hh & _ & _ & Ho & Hr).
  destruct (live_located pg _ _ _ _ e Hinv') as (p & b & Hb & Hlo & Hhi & (i & Hi) & Hpg & Hri);
    [set_solver|].
  unfold user_size in *. rewrite He, Hr in *. rewrite Hh, Ho, Hhr, Hro in *. split_and!; [done| | |].
  - rewrite Hi. apply Z.divide_add_r; [apply Z.divide_add_r|done].
    + etrans; [|exact Hpg]. apply pow2_divide_le; [apply Hargs|apply Hargs|done].
    + by apply Z.divide_mul_r.
  - intros e' He'. pose proof (live_disjoint pg _ _ _ _ e e' Hinv' ltac:(set_solver) ltac:(set_solver)
      ltac:(set_solver)) as Hd. unfold user_size, regions_disjoint in *. rewrite He, Hr in Hd. lia.
  - exists p, b. split_and!; [done|lia|lia|done].
Qed.

(** Returning an entry never fails, and the next allocation hands out that
    entry again without asking the system for memory. *)
Theorem freelist_free_then_alloc env e :
  e ∈ live ->
  exists st1 st2, nccl_ofi_freelist_entry_free st e = Some st1 /\
    nccl_ofi_freelist_entry_alloc pg env st1 = Some (e, st2) /\
    block_structs (snd st2) = block_structs (snd st).
Proof.
  intros He. destruct client_inv as ((free & bs & Hinv) & _).
  destruct (free_preserves pg st free live bs e Hinv He) as ([fl1 h1] & Hf & _ & Hinv1).
  destruct (pop_preserves pg fl1 h1 e free _ bs Hinv1) as (nx & Hm & Hnz & _).
  exists (fl1, h1), (set_entries nx fl1, h1). split_and!; [done| |].
  - unfold nccl_ofi_freelist_entry_alloc. cbn [fst]. rewrite (proj2 (Z.eqb_neq _ _)) by done.
    cbn [Z.eqb negb]. by rewrite Hm.
  - destruct st as [fl h]. cbn. unfold nccl_ofi_freelist_entry_free in Hf.
    destruct (have_reginfo fl).
    + apply bind_Some in Hf as (x & _ & [= _ <-]). done.
    + by injection Hf as _ <-.
Qed.

(** An allocation gives NULL only when the list holds its maximum number of
    entries and all are handed out, or when mmap or the registration callback
    refused the growth; the list is unchanged. *)
Theorem freelist_null_reason env st' :
  0 < increase_entry_count (fst st) -> mmap_ok pg st (increase_entry_count (fst st)) env ->
  nccl_ofi_freelist_entry_alloc pg env st = Some (NULL, st') ->
  st' = st /\
  ((0 < max /\ Z.of_nat (size live) = max) \/ (exists errno, env_mmap env = inr errno) \/
   (regmr_fn (fst st) = true /\ fst (env_regmr env) <> 0)).
Proof.
  intros Hinc Hmm Ha. destruct client_inv as ((free & bs & Hinv) & _ & _ & _ & _ & Hmx & _).
  pose proof (i_params _ _ _ _ _ Hinv) as Hp.
  destruct (alloc_preserves pg env st free live bs Hinv Hmm)
    as (e & st2 & Ha' & _ & [(-> & -> & ->)|(Hnz & _)]); [|congruence].
  assert (st' = st) as -> by congruence. split; [done|]. clear Ha'.
  destruct st as [fl h]. unfold nccl_ofi_freelist_entry_alloc in Ha. cbn [fst snd] in *.
  pose proof (i_chain _ _ _ _ _ Hinv) as Hc. cbn in Hc. rewrite Hc in Ha. cbn [Z.eqb NULL] in Ha.
  destruct (nccl_ofi_freelist_add pg env (fl, h) _) as [r [fl' h']] eqn:Hadd.
  destruct (add_preserves pg env (fl, h) [] live bs _ r (fl', h') Hinv Hmm (pp_inc _ _ Hp) (pp_small _ _ Hp) Hadd)
    as [[Hr _]|(-> & _ & b & _ & Hpos & Hinv')].
  - destruct (add_fails pg _ _ _ _ _ Hadd Hr) as [H0|]; [left|by right]. cbn [fst] in H0.
    pose proof (i_perm _ _ _ _ _ Hinv) as Hperm. cbn [fst app] in Hperm.
    assert (Z.of_nat (size live) = zsum ((fun b => Z.of_nat (bi_count b)) <$> bs)) as Hsz.
    { rewrite <- (zsum_length_slots fl), <- Hperm. done. }
    rewrite (allocation_count_spec fl bs) in H0;
      [|apply Hinv|apply Hinv|apply Hp|lia]. case_decide; lia.
  - exfalso. cbn [Z.eqb negb] in Ha. rewrite app_nil_r in Hinv'. cbn [fst] in Hinv'.
    destruct (reverse (bi_slots fl' b)) as [|e l] eqn:Hrev.
    { apply (f_equal length) in Hrev. rewrite length_reverse in Hrev.
      unfold bi_slots, slots in Hrev. rewrite length_fmap, length_seq in Hrev. cbn in Hrev. lia. }
    destruct (pop_preserves _ _ _ _ _ _ _ Hinv') as (nx & Hm & _ & Hnz & _).
    rewrite Hm in Ha. cbn in Ha. congruence.
Qed.

(** Destroying the list releases every mapped block exactly once. *)
Theorem freelist_fini_releases_all :
  exists released, nccl_ofi_freelist_fini st = Some (0, released) /\
    NoDup ((fun r => fst (fst r)) <$> released) /\
    (forall a sz hd, (a, sz, hd) ∈ released <->
      exists p b, block_structs (snd st) !! p = Some b /\
        a = memory b /\ sz = memory_size b /\ hd = b_mr_handle b).
Proof.
  destruct client_inv as ((free & bs & Hinv) & _). pose proof (i_params _ _ _ _ _ Hinv) as Hp.
  pose proof (entry_size_pos _ _ Hp).
  unfold nccl_ofi_freelist_fini.
  rewrite (fini_blocks_spec pg (fst st) (snd st) bs);
    [|apply Hinv|by rewrite (i_bsize _ _ _ _ _ Hinv)].
  eexists. split_and!; [done| |].
  - rewrite <- list_fmap_compose. apply NoDup_fmap_2_strong; [|apply Hinv].
    intros b1 b2 Hb1 Hb2 Heq. cbn in Heq. destruct (decide (b1 = b2)) as [|Hne]; [done|].
    pose proof (i_disjoint _ _ _ _ _ Hinv b1 b2 Hb1 Hb2 Hne) as Hd.
    destruct (i_base _ _ _ _ _ Hinv b1 Hb1) as (_ & _ & H1).
    destruct (i_base _ _ _ _ _ Hinv b2 Hb2) as (_ & _ & H2).
    unfold regions_disjoint, sizeof_block in *. nia.
  - intros a sz hd. rewrite list_elem_of_fmap. split.
    + intros (b & [= -> -> ->] & Hb).
      destruct (bchain_lookup _ _ _ _ _ _ (i_bchain _ _ _ _ _ Hinv) Hb) as [nx Hnx].
      eexists _, _. split; [exact Hnx|]. done.
    + intros (p & b & Hb & -> & -> & ->).
      destruct (i_bkeys _ _ _ _ _ Hinv p) as (b' & Hb' & ->); [by eexists|].
      destruct (bchain_lookup _ _ _ _ _ _ (i_bchain _ _ _ _ _ Hinv) Hb') as [nx Hnx].
      rewrite Hb in Hnx. injection Hnx as ->. exists b'. done.
Qed.

End Client.

(** The padded entry count init uses is the largest number of entries that
    fits into the pages the requested count needs anyway. *)
Theorem freelist_padding_maximal pg es n :
  (exists k, 0 <= k < 64 /\ pg = 2 ^ k) -> 0 < es -> 0 <= n ->
  es * n + sizeof_block + 2 * pg < 2 ^ 64 ->
  n <= freelist_page_padded_entry_count pg es n /\
  freelist_block_mem_size_full_pages pg es (freelist_page_padded_entry_count pg es n) =
    freelist_block_mem_size_full_pages pg es n /\
  forall m, freelist_page_padded_entry_count pg es n < m ->
    es * m + sizeof_block + pg < 2 ^ 64 ->
    freelist_block_mem_size_full_pages pg es n < freelist_block_mem_size_full_pages pg es m.
Proof.
  intros Hpg Hes Hn Hb. destruct (padded_spec pg es n Hpg Hes Hn Hb) as (H1 & H2 & H3 & _).
  split_and!; [done|done|]. intros m Hm Hbm.
  destruct (full_pages_bounds pg es m Hpg) as [H4 _]; [lia|lia|done|]. nia.
Qed.

(** ** A registered list with redzones, and one with a maximum *)

Definition ex_env (a : Z) : grow_env := mk_env (inl a) (0, 77).
Definition ex_none : state := (mk_freelist 0 0 0 0 0 0 false false false 0 0, mk_heap ∅ ∅ ∅).
Definition ex_st0 : state :=
  default ex_none (snd (freelist_init_internal 4096 16 true 0 (ex_env 8192) 200 4 4 0
    true true true 100 128)).
Definition ex_alloc : Z * state :=
  default (NULL, ex_none) (nccl_ofi_freelist_entry_alloc 4096 (ex_env 65536) ex_st0).

Lemma ex_args : init_args 4096 16 200 4 4 0 true 100 128.
Proof.
  constructor; try lia; [by exists 12|by exists 7|done|unfold sizeof_elem; lia].
Qed.

Lemma ex_mmap : first_mmap_ok 4096 (ex_env 8192).
Proof. split; [lia|]. by exists 2. Qed.

Lemma ex_grow st : block_structs (snd st) = block_structs (snd ex_st0) ->
  mmap_ok 4096 st (increase_entry_count (fst st)) (ex_env 65536).
Proof.
  intros Hbs. split_and!; [lia|by exists 16|]. intros p b. rewrite Hbs.
  assert (block_structs (snd ex_st0) = {[ (8192 + 384 * 10) := mk_block 0 8192 4096 77 ]}) as ->
    by (vm_compute; reflexivity).
  intros [_ <-]%lookup_singleton_Some. left. cbn. lia.
Qed.

Lemma ex_reach : fl_reach 4096 ex_st0 (snd ex_alloc) {[ fst ex_alloc ]}.
Proof.
  replace ({[ fst ex_alloc ]} : gset Z) with
    (if decide (fst ex_alloc = NULL) then ∅ else {[ fst ex_alloc ]} ∪ ∅ : gset Z) by (vm_compute; reflexivity).
  apply (reach_alloc 4096 ex_st0 ex_st0 ∅ (ex_env 65536)); [constructor|apply ex_grow; vm_compute; reflexivity|].
  vm_compute. reflexivity.
Qed.

Lemma freelist_alloc_safe_witness :
  exists e st', nccl_ofi_freelist_entry_alloc 4096 (ex_env 65536) (snd ex_alloc) = Some (e, st') /\
    (e = NULL \/
     ((e ∉ ({[ fst ex_alloc ]} : gset Z)) /\ (128 | e) /\
      (forall e', e' ∈ ({[ fst ex_alloc ]} : gset Z) -> regions_disjoint e 200 e' 200) /\
      exists p b, block_structs (snd st') !! p = Some b /\
        memory b <= e /\ e + 200 <= memory b + memory_size b /\
        (true = true -> reginfos (snd st') !! (e + 100) =
           Some (mk_reginfo (e - memory b) (b_mr_handle b))))).
Proof.
  apply (freelist_alloc_safe 4096 16 true 0 (ex_env 8192) 200 4 4 0 true true true 100 128 0
           ex_st0 (snd ex_alloc) {[ fst ex_alloc ]} ex_args ex_mmap).
  - vm_compute. reflexivity.
  - apply ex_reach.
  - lia.
  - apply ex_grow; vm_compute; reflexivity.
Defined.

Lemma freelist_free_then_alloc_witness :
  exists st1 st2, nccl_ofi_freelist_entry_free (snd ex_alloc) (fst ex_alloc) = Some st1 /\
    nccl_ofi_freelist_entry_alloc 4096 (mk_env (inr ENOMEM) (0, 0)) st1 = Some (fst ex_alloc, st2) /\
    block_structs (snd st2) = block_structs (snd (snd ex_alloc)).
Proof.
  apply (freelist_free_then_alloc 4096 16 true 0 (ex_env 8192) 200 4 4 0 true true true 100 128 0
           ex_st0 (snd ex_alloc) {[ fst ex_alloc ]} ex_args ex_mmap).
  - vm_compute. reflexivity.
  - apply ex_reach.
  - by apply elem_of_singleton.
Defined.

(** One entry at most: the second allocation gives NULL. *)
Definition ex1_st0 : state :=
  default ex_none (snd (nccl_ofi_freelist_init 4096 0 true 0 (ex_env 8192) 64 1 1 1)).
Definition ex1_alloc : Z * state :=
  default (NULL, ex_none) (nccl_ofi_freelist_entry_alloc 4096 (ex_env 65536) ex1_st0).

Lemma ex1_grow st : block_structs (snd st) = block_structs (snd ex1_st0) ->
  mmap_ok 4096 st (increase_entry_count (fst st)) (ex_env 65536).
Proof.
  intros Hbs. split_and!; [lia|by exists 16|]. intros p b. rewrite Hbs.
  assert (block_structs (snd ex1_st0) = {[ (8192 + 64) := mk_block 0 8192 4096 0 ]}) as ->
    by (vm_compute; reflexivity).
  intros [_ <-]%lookup_singleton_Some. left. cbn. lia.
Qed.

Lemma freelist_null_reason_witness :
  nccl_ofi_freelist_entry_alloc 4096 (ex_env 65536) (snd ex1_alloc) = Some (NULL, snd ex1_alloc) /\
  ((0 < 1 /\ Z.of_nat (size ({[ fst ex1_alloc ]} : gset Z)) = 1) \/
   (exists errno, env_mmap (ex_env 65536) = inr errno) \/
   (regmr_fn (fst (snd ex1_alloc)) = true /\ fst (env_regmr (ex_env 65536)) <> 0)).
Proof.
  split; [vm_compute; reflexivity|].
  refine (proj2 (freelist_null_reason 4096 0 true 0 (ex_env 8192) 64 1 1 1 false false false 0 1 0
           ex1_st0 (snd ex1_alloc) {[ fst ex1_alloc ]} _ ex_mmap _ _ (ex_env 65536) (snd ex1_alloc) _ _ _)).
  - constructor; try lia; [by exists 12|by exists 0|done].
  - vm_compute. reflexivity.
  - replace ({[ fst ex1_alloc ]} : gset Z) with
      (if decide (fst ex1_alloc = NULL) then ∅ else {[ fst ex1_alloc ]} ∪ ∅ : gset Z) by (vm_compute; reflexivity).
    apply (reach_alloc 4096 ex1_st0 ex1_st0 ∅ (ex_env 65536)); [constructor|apply ex1_grow; vm_compute; reflexivity|].
    vm_compute. reflexivity.
  - vm_compute. reflexivity.
  - apply ex1_grow; vm_compute; reflexivity.
  - vm_compute. reflexivity.
Defined.

Lemma freelist_fini_releases_all_witness :
  exists released, nccl_ofi_freelist_fini (snd ex_alloc) = Some (0, released) /\
    NoDup ((fun r => fst (fst r)) <$> released) /\
    (forall a sz hd, (a, sz, hd) ∈ released <->
      exists p b, block_structs (snd (snd ex_alloc)) !! p = Some b /\
        a = memory b /\ sz = memory_size b /\ hd = b_mr_handle b).
Proof.
  apply (freelist_fini_releases_all 4096 16 true 0 (ex_env 8192) 200 4 4 0 true true true 100 128 0
           ex_st0 (snd ex_alloc) {[ fst ex_alloc ]} ex_args ex_mmap).
  - vm_compute. reflexivity.
  - apply ex_reach.
Defined.

Lemma freelist_padding_maximal_witness :
  freelist_page_padded_entry_count 4096 384 4 = 10 /\
  freelist_block_mem_size_full_pages 4096 384 (freelist_page_padded_entry_count 4096 384 4) =
    freelist_block_mem_size_full_pages 4096 384 4.
Proof.
  split; [reflexivity|].
  apply (freelist_padding_maximal 4096 384 4); [by exists 12|lia|lia|unfold sizeof_block; lia].
Defined.

End Freelist.
