(* ===== verification/Scheduler.v ===== *)
(** * nccl_ofi_scheduler.c: striping a message over the rails

    The threshold scheduler gives each message a schedule: the stripes of the
    message and the rail each one is sent on. Schedules live in entries of a
    free list; the component is written and proved against the allocator
    interface of Allocator.v. *)

From S2P Require Import Prelude OfiMath Allocator Freelist.

Module Scheduler.

(** ** Data *)

Record nccl_net_ofi_xfer_info_t := mk_xfer {
  rail_id : Z;
  offset : Z;
  msg_size : Z;
}.

(** [rail_xfer_infos] is the flexible array with the capacity of the entry. *)
Record nccl_net_ofi_schedule_t := mk_schedule {
  num_xfer_infos : Z;
  rail_xfer_infos : list nccl_net_ofi_xfer_info_t;
}.

(** The stripes a schedule holds. *)
Definition stripes (s : nccl_net_ofi_schedule_t) : list nccl_net_ofi_xfer_info_t :=
  take (Z.to_nat (num_xfer_infos s)) (rail_xfer_infos s).

(** ** Operations on one schedule *)

Definition sizeof_schedule (num_rails : Z) : Z := 8 + num_rails * 24.

(** The loop of get_num_stripes from [i] down to 2. *)
Fixpoint stripe_loop (i : nat) (num_rails num_stripes : Z) : Z :=
  match i with
  | O => num_stripes
  | S i' =>
      if Z.of_nat i >? 1 then
        if Z.rem num_rails (Z.of_nat i) =? 0 then Z.of_nat i
        else stripe_loop i' num_rails num_stripes
      else num_stripes
  end.

Definition get_num_stripes (min_stripe_size size num_rails : Z) : Z :=
  let num_stripes :=
    i32 (NCCL_OFI_MAX 1 (NCCL_OFI_MIN (NCCL_OFI_DIV_CEIL size min_stripe_size) (u32 num_rails))) in
  stripe_loop (Z.to_nat num_stripes) num_rails num_stripes.

(** The loop that computes the stripes; [None] is a write past the array. *)
Fixpoint fill_stripes (n stripe_idx : nat) (curr_rail_id num_rails left off max_stripe_size : Z)
    (infos : list nccl_net_ofi_xfer_info_t) : option (list nccl_net_ofi_xfer_info_t) :=
  match n with
  | O => Some infos
  | S n' =>
      let stripe_size := NCCL_OFI_MIN left max_stripe_size in
      if decide (stripe_idx < length infos)%nat then
        fill_stripes n' (S stripe_idx) (Z.rem (curr_rail_id + 1) num_rails) num_rails
          (u64 (left - stripe_size)) (u64 (off + stripe_size)) max_stripe_size
          (<[stripe_idx := mk_xfer curr_rail_id off stripe_size]> infos)
      else None
  end.

(** Result: return code, new round-robin counter, schedule. *)
Definition set_schedule_by_threshold (min_stripe_size rr_counter size num_rails align : Z)
    (schedule : nccl_net_ofi_schedule_t) : option (Z * Z * nccl_net_ofi_schedule_t) :=
  let num_stripes := get_num_stripes min_stripe_size size num_rails in
  let curr_rail_id := i32 rr_counter in
  let next_rail_id := Z.rem (curr_rail_id + num_stripes) num_rails in
  let max_stripe_size :=
    u64 (NCCL_OFI_DIV_CEIL (NCCL_OFI_DIV_CEIL size num_stripes) align * align) in
  infos ← fill_stripes (Z.to_nat num_stripes) 0 curr_rail_id num_rails size 0 max_stripe_size
            (rail_xfer_infos schedule);
  Some (0, u32 next_rail_id, mk_schedule num_stripes infos).

(** ** Number of stripes *)

Lemma stripe_loop_spec i R ns :
  0 < R ->
  (2 <= stripe_loop i R ns <= Z.of_nat i /\ (stripe_loop i R ns | R) /\
   forall j, stripe_loop i R ns < j <= Z.of_nat i -> ~ (j | R)) \/
  (stripe_loop i R ns = ns /\ forall j, 2 <= j <= Z.of_nat i -> ~ (j | R)).
Proof.
  intros HR. induction i as [|i IH]; [right; split; [done|lia]|].
  cbn [stripe_loop]. set (k := S i) in *. split_if; [|right; split; [done|lia]]. split_if.
  - left. split_and!; [lia|lia| |lia]. apply Z.rem_divide; lia.
  - assert (~ (Z.of_nat k | R)) as Hk by (rewrite <- Z.rem_divide by lia; done).
    destruct IH as [(Hr & Hd & Hm)|(-> & Hn)]; [left|right]; split_and!; try done; [lia|lia| |].
    + intros j Hj. destruct (decide (j = Z.of_nat k)) as [->|]; [done|]. apply Hm. lia.
    + intros j Hj. destruct (decide (j = Z.of_nat k)) as [->|]; [done|]. apply Hn. lia.
Qed.

(** The number of stripes before it is adjusted to the number of rails. *)
Definition wanted_stripes (min size R : Z) : Z :=
  Z.max 1 (Z.min (NCCL_OFI_DIV_CEIL size min) R).

Lemma get_num_stripes_eq min size R :
  0 < min -> 0 <= size -> 0 < R < 2 ^ 31 ->
  get_num_stripes min size R =
    stripe_loop (Z.to_nat (wanted_stripes min size R)) R (wanted_stripes min size R).
Proof.
  intros Hm Hs HR. unfold get_num_stripes.
  rewrite ofi_max_eq, ofi_min_eq, (wrap_small 32) by lia.
  rewrite i32_small by (pose proof (div_ceil_le size min); lia). done.
Qed.

Lemma num_stripes_bounds min size R :
  0 < min -> 0 <= size -> 0 < R < 2 ^ 31 ->
  1 <= get_num_stripes min size R <= wanted_stripes min size R /\
  wanted_stripes min size R <= R.
Proof.
  intros Hm Hs HR. rewrite get_num_stripes_eq by done.
  assert (1 <= wanted_stripes min size R <= R) by (unfold wanted_stripes; lia).
  destruct (stripe_loop_spec (Z.to_nat (wanted_stripes min size R)) R (wanted_stripes min size R))
    as [(Hr & _)|[-> _]]; lia.
Qed.

(** ** The stripe loop *)

(** [l] are consecutive stripes of the bytes [off, off + left). *)
Fixpoint contiguous (off left : Z) (l : list nccl_net_ofi_xfer_info_t) : Prop :=
  match l with
  | [] => left = 0
  | x :: l' => offset x = off /\ 0 <= msg_size x <= left /\
      contiguous (off + msg_size x) (left - msg_size x) l'
  end.

Lemma fill_stripes_spec n : forall idx curr R left off ms infos,
  0 < R -> 0 <= curr < R -> 0 <= left -> 0 <= off -> off + left < 2 ^ 64 -> 0 <= ms ->
  left <= Z.of_nat n * ms -> (idx + n <= length infos)%nat ->
  exists infos', fill_stripes n idx curr R left off ms infos = Some infos' /\
    length infos' = length infos /\ take idx infos' = take idx infos /\
    contiguous off left (take n (drop idx infos')) /\
    forall i x, take n (drop idx infos') !! i = Some x ->
      rail_id x = (curr + Z.of_nat i) mod R /\
      offset x = off + Z.min left (Z.of_nat i * ms) /\
      msg_size x = Z.max 0 (Z.min ms (left - Z.of_nat i * ms)).
Proof.
  induction n as [|n IH]; intros idx curr R left off ms infos HR Hc Hl Ho Hb Hms Hle Hlen.
  { assert (left = 0) as -> by lia. exists infos. rewrite take_0. by split_and!. }
  cbn [fill_stripes]. rewrite decide_True by lia. rewrite ofi_min_eq.
  set (sz := Z.min left ms). set (x0 := mk_xfer curr off sz).
  assert (0 <= sz <= left) by lia.
  assert (left - sz <= Z.of_nat n * ms) by (unfold sz; nia).
  rewrite (wrap_small 64 (left - sz)), (wrap_small 64 (off + sz)) by lia.
  rewrite Z.rem_mod_nonneg by lia.
  destruct (IH (S idx) ((curr + 1) mod R) R (left - sz) (off + sz) ms (<[idx := x0]> infos))
    as (infos' & -> & Hlen' & Htake & Hcont & Hnth);
    [done|apply Z.mod_pos_bound; lia|lia|lia|lia|lia|lia|rewrite length_insert; lia|].
  rewrite length_insert in Hlen'.
  assert (infos' !! idx = Some x0) as Hidx.
  { assert (take (S idx) infos' !! idx = take (S idx) (<[idx := x0]> infos) !! idx) as Heq
      by (by rewrite Htake).
    rewrite !lookup_take_lt in Heq by lia. rewrite Heq. apply list_lookup_insert_eq. lia. }
  assert (drop idx infos' = x0 :: drop (S idx) infos') as Hdrop by (by apply drop_S).
  exists infos'. rewrite Hdrop. cbn [take]. split_and!; [done|done| | |].
  - apply (f_equal (take idx)) in Htake. rewrite !take_take, !Nat.min_l in Htake by lia.
    rewrite Htake. by rewrite take_insert_ge by lia.
  - cbn. split_and!; [done|lia|lia|done].
  - intros [|i] x Hx.
    + injection Hx as <-. cbn. rewrite Z.add_0_r, Z.mod_small by lia. split_and!; [done|lia|lia].
    + destruct (Hnth i x Hx) as (Hr & Hof & Hm). split_and!.
      * rewrite Hr, Zplus_mod_idemp_l. f_equal. lia.
      * rewrite Hof. unfold sz. nia.
      * rewrite Hm. unfold sz. nia.
Qed.

Lemma max_stripe_spec size n align :
  0 <= size < 2 ^ 63 -> 1 <= n -> 0 < align <= 2 ^ 32 ->
  let ms := NCCL_OFI_DIV_CEIL (NCCL_OFI_DIV_CEIL size n) align * align in
  u64 ms = ms /\ 0 <= ms /\ size <= n * ms /\ n * ms < size + n * align /\ (align | ms).
Proof.
  intros Hs Hn Ha ms.
  pose proof (div_ceil_bounds size n ltac:(lia) ltac:(lia)).
  pose proof (div_ceil_le size n ltac:(lia) ltac:(lia)).
  pose proof (div_ceil_bounds (NCCL_OFI_DIV_CEIL size n) align ltac:(lia) ltac:(lia)).
  fold ms in H1. split_and!; [apply wrap_small; lia|lia|nia|nia|].
  by exists (NCCL_OFI_DIV_CEIL (NCCL_OFI_DIV_CEIL size n) align).
Qed.

(** The whole function: it stays inside the array, and what it writes. *)
Lemma set_schedule_spec min rr size R align schedule :
  0 < min -> 0 <= rr < R -> R < 2 ^ 30 -> 0 <= size < 2 ^ 63 -> 0 < align <= 2 ^ 32 ->
  R <= Z.of_nat (length (rail_xfer_infos schedule)) ->
  let n := get_num_stripes min size R in
  exists s', set_schedule_by_threshold min rr size R align schedule =
      Some (0, (rr + n) mod R, s') /\
    num_xfer_infos s' = n /\ length (stripes s') = Z.to_nat n /\
    length (rail_xfer_infos s') = length (rail_xfer_infos schedule) /\
    contiguous 0 size (stripes s') /\
    forall i x, stripes s' !! i = Some x ->
      rail_id x = (rr + Z.of_nat i) mod R /\
      exists ms, (align | ms) /\ n * ms < size + n * align /\ size <= n * ms /\
        offset x = Z.min size (Z.of_nat i * ms) /\
        msg_size x = Z.max 0 (Z.min ms (size - Z.of_nat i * ms)).
Proof.
  intros Hmin Hrr HR Hs Ha Hcap n.
  pose proof (num_stripes_bounds min size R Hmin ltac:(lia) ltac:(lia)) as [Hn HnR]. fold n in Hn.
  unfold set_schedule_by_threshold. fold n. rewrite (i32_small rr) by lia.
  destruct (max_stripe_spec size n align) as (Hw & Hms & Hge & Hlt & Hdiv); [lia|lia|done|].
  set (ms := NCCL_OFI_DIV_CEIL (NCCL_OFI_DIV_CEIL size n) align * align) in *. rewrite Hw.
  destruct (fill_stripes_spec (Z.to_nat n) 0 rr R size 0 ms (rail_xfer_infos schedule))
    as (infos & -> & Hlen & _ & Hcont & Hnth); try lia. cbn [mbind option_bind].
  rewrite drop_0 in Hcont, Hnth. rewrite Z.rem_mod_nonneg by lia.
  pose proof (Z.mod_pos_bound (rr + n) R ltac:(lia)). rewrite wrap_small by lia.
  eexists. split_and!; [done|done| |done|exact Hcont|].
  - unfold stripes. cbn. rewrite length_take. lia.
  - intros i x Hx. destruct (Hnth i x Hx) as (Hr & Hof & Hm). split; [done|]. by exists ms.
Qed.

(** ** The scheduler, over any allocator of schedules *)

Section Threshold.
Context {FL Env : Type} {EA : EntryAllocator FL Env}.

Record nccl_net_ofi_threshold_scheduler_t := mk_scheduler {
  schedule_fl : FL;
  rr_counter : Z;
  min_stripe_size : Z;
}.

(** The scheduler and the schedules handed out, by address. *)
Definition sched_state : Type :=
  nccl_net_ofi_threshold_scheduler_t * gmap Z nccl_net_ofi_schedule_t.

Definition nccl_net_ofi_release_schedule (st : sched_state) (schedule : Z) : option sched_state :=
  fl ← ea_free (schedule_fl (fst st)) schedule;
  Some (mk_scheduler fl (rr_counter (fst st)) (min_stripe_size (fst st)), delete schedule (snd st)).

(** [junk] is what the entry's array holds when it is handed out. *)
Definition get_threshold_schedule (env : Env) (junk : list nccl_net_ofi_xfer_info_t)
    (st : sched_state) (size num_rails : Z) : option (Z * sched_state) :=
  let '(scheduler, mem) := st in
  '(schedule, fl) ← ea_alloc env (schedule_fl scheduler);
  let scheduler1 := mk_scheduler fl (rr_counter scheduler) (min_stripe_size scheduler) in
  if schedule =? NULL then Some (NULL, (scheduler1, mem))
  else
    '(ret, rr, s) ← set_schedule_by_threshold (min_stripe_size scheduler) (rr_counter scheduler)
                      size num_rails 128 (mk_schedule 0 junk);
    let st1 := (mk_scheduler fl rr (min_stripe_size scheduler), <[schedule := s]> mem) in
    if negb (ret =? 0) then st2 ← nccl_net_ofi_release_schedule st1 schedule; Some (NULL, st2)
    else Some (schedule, st1).

(** [freelist_init] is nccl_ofi_freelist_init at the arguments
    [entry_size initial increase max]. *)
Definition scheduler_init (freelist_init : Z -> Z -> Z -> Z -> Z * option FL) (num_rails : Z)
    : Z * option FL :=
  freelist_init (sizeof_schedule num_rails) 16 16 0.

Definition nccl_net_ofi_threshold_scheduler_init (malloc_ok : bool)
    (freelist_init : Z -> Z -> Z -> Z -> Z * option FL) (mutex_init num_rails min_stripe : Z)
    : Z * option sched_state :=
  if negb malloc_ok then (- ENOMEM, None)
  else
    match scheduler_init freelist_init num_rails with
    | (ret, Some fl) =>
        if negb (ret =? 0) then (ret, None)
        else if negb (mutex_init =? 0) then (- mutex_init, None)
        else (0, Some (mk_scheduler fl 0 min_stripe, ∅))
    | (ret, None) => (ret, None)
    end.

Definition scheduler_fini (freelist_fini : FL -> Z) (s : nccl_net_ofi_threshold_scheduler_t) : Z :=
  freelist_fini (schedule_fl s).

(** Return code and whether the structure was freed. *)
Definition threshold_scheduler_fini (mutex_destroy : Z) (freelist_fini : FL -> Z)
    (s : nccl_net_ofi_threshold_scheduler_t) : Z * bool :=
  if negb (mutex_destroy =? 0) then (- mutex_destroy, false)
  else
    let ret := scheduler_fini freelist_fini s in
    if negb (ret =? 0) then (ret, false) else (ret, true).

(** ** Invariant *)

Record sched_ok (R : Z) (st : sched_state) : Prop := {
  so_fl : ea_ok (schedule_fl (fst st)) (dom (snd st));
  so_size : sizeof_schedule R <= ea_entry_size (schedule_fl (fst st));
  so_rr : 0 <= rr_counter (fst st) < R;
  so_min : 0 < min_stripe_size (fst st);
}.

(** Every schedule obtained is a partition of its message. *)
Record partition (R size : Z) (s : nccl_net_ofi_schedule_t) : Prop := {
  pt_count : 1 <= num_xfer_infos s <= R;
  pt_length : Z.of_nat (length (stripes s)) = num_xfer_infos s;
  pt_bytes : forall k, 0 <= k < size ->
    exists i x, stripes s !! i = Some x /\ offset x <= k < offset x + msg_size x /\
      forall j y, stripes s !! j = Some y -> offset y <= k < offset y + msg_size y -> j = i;
  pt_inside : forall x, x ∈ stripes s -> 0 <= offset x /\ 0 <= msg_size x /\
    offset x + msg_size x <= size;
  pt_rails : NoDup (rail_id <$> stripes s) /\ Forall (fun r => 0 <= r < R) (rail_id <$> stripes s);
  pt_aligned : forall x, x ∈ stripes s -> 0 < msg_size x -> (128 | offset x);
}.

Lemma contiguous_inside l : forall off left x,
  contiguous off left l -> x ∈ l ->
  off <= offset x /\ 0 <= msg_size x /\ offset x + msg_size x <= off + left.
Proof.
  induction l as [|y l IH]; intros off left x Hc Hx; [set_solver|].
  destruct Hc as (Ho & Hs & Hc). apply elem_of_cons in Hx as [->|Hx]; [lia|].
  destruct (IH _ _ _ Hc Hx). lia.
Qed.

Lemma contiguous_covers l : forall off left k,
  contiguous off left l -> off <= k < off + left ->
  exists i x, l !! i = Some x /\ offset x <= k < offset x + msg_size x /\
    forall j y, l !! j = Some y -> offset y <= k < offset y + msg_size y -> j = i.
Proof.
  induction l as [|x l IH]; intros off left k Hc Hk; cbn in Hc; [lia|].
  destruct Hc as (Ho & Hs & Hc). destruct (Z.lt_ge_cases k (off + msg_size x)).
  - exists 0%nat, x. split_and!; [done|lia|lia|]. intros [|j] y Hy Hin; [done|].
    apply (contiguous_inside _ _ _ y) in Hc; [lia|]. by eapply list_elem_of_lookup_2.
  - destruct (IH _ _ k Hc) as (i & y & Hy & Hin & Huniq); [lia|].
    exists (S i), y. split_and!; [done|lia|lia|]. intros [|j] z Hz Hin'.
    + injection Hz as <-. lia.
    + f_equal. by eapply Huniq.
Qed.

Lemma rails_distinct (R rr : Z) (l : list nccl_net_ofi_xfer_info_t) :
  0 < R -> Z.of_nat (length l) <= R ->
  (forall i x, l !! i = Some x -> rail_id x = (rr + Z.of_nat i) mod R) ->
  NoDup (rail_id <$> l) /\ Forall (fun r => 0 <= r < R) (rail_id <$> l).
Proof.
  intros HR Hlen Hr. split.
  - apply NoDup_alt. intros i j r Hi Hj.
    apply list_lookup_fmap_Some in Hi as (x & -> & Hx).
    apply list_lookup_fmap_Some in Hj as (y & Hxy & Hy).
    rewrite (Hr i x Hx), (Hr j y Hy) in Hxy.
    apply lookup_lt_Some in Hx, Hy.
    assert (rr + Z.of_nat i = rr + Z.of_nat j); [|lia].
    apply (mod_inj_window R rr); lia.
  - apply Forall_fmap, Forall_lookup. intros i x Hx. cbn. rewrite (Hr i x Hx).
    apply Z.mod_pos_bound. lia.
Qed.

Lemma set_schedule_partition min rr size R schedule :
  0 < min -> 0 <= rr < R -> R < 2 ^ 30 -> 0 <= size < 2 ^ 63 ->
  R <= Z.of_nat (length (rail_xfer_infos schedule)) ->
  exists s', set_schedule_by_threshold min rr size R 128 schedule =
      Some (0, (rr + get_num_stripes min size R) mod R, s') /\ partition R size s'.
Proof.
  intros Hm Hrr HR Hs Hcap.
  destruct (set_schedule_spec min rr size R 128 schedule) as (s' & -> & Hn & Hlen & _ & Hc & Hnth);
    [done|done|done|done|lia|done|].
  destruct (num_stripes_bounds min size R) as [Hb HbR]; [done|lia|lia|].
  exists s'. split; [done|]. constructor.
  - lia.
  - lia.
  - intros k Hk. by apply (contiguous_covers _ 0 size).
  - intros x Hx. pose proof (contiguous_inside _ _ _ _ Hc Hx). lia.
  - apply (rails_distinct R rr); [lia|lia|]. intros i x Hx. by apply Hnth.
  - intros x Hx Hpos. apply list_elem_of_lookup_1 in Hx as [i Hi].
    destruct (Hnth i x Hi) as (_ & ms & Hd & _ & _ & -> & Hsz).
    rewrite Z.min_r by lia. by apply Z.divide_mul_r.
Qed.

Lemma get_schedule_preserves R env junk st size :
  sched_ok R st -> ea_env_ok (schedule_fl (fst st)) env -> R < 2 ^ 30 ->
  0 <= size < 2 ^ 63 -> Z.of_nat (length junk) = R ->
  exists e st', get_threshold_schedule env junk st size R = Some (e, st') /\ sched_ok R st' /\
    ((e = NULL /\ snd st' = snd st /\ rr_counter (fst st') = rr_counter (fst st)) \/
     (e <> NULL /\ (e ∉ dom (snd st)) /\ exists s, snd st' = <[e := s]> (snd st) /\ partition R size s /\
       rr_counter (fst st') =
         (rr_counter (fst st) + get_num_stripes (min_stripe_size (fst st)) size R) mod R)).
Proof.
  destruct st as [s mem]. intros [Hok Hsz Hrr Hmin] Henv HR Hs Hj. cbn [fst snd] in *.
  unfold get_threshold_schedule.
  destruct (ea_alloc_spec _ _ _ Hok Henv) as (e & fl & -> & Hes & Hcase). cbn [mbind option_bind].
  destruct Hcase as [[-> Hok']|(Hnz & Hnl & Hok')].
  - cbn [Z.eqb NULL]. eexists _, _. split_and!; [done| |by left].
    constructor; cbn; [done|lia|lia|done].
  - rewrite (proj2 (Z.eqb_neq _ _)) by done.
    destruct (set_schedule_partition (min_stripe_size s) (rr_counter s) size R (mk_schedule 0 junk))
      as (s' & -> & Hp); [done|done|done|done|cbn; lia|].
    cbn. eexists _, _. split_and!; [done| |right; eauto 7].
    constructor; cbn; [by rewrite dom_insert_L|lia|apply Z.mod_pos_bound; lia|done].
Qed.

(** ** Executions: any interleaving of get and release *)

Inductive sched_reach (R : Z) (st0 : sched_state) : sched_state -> Prop :=
| sreach_init : sched_reach R st0 st0
| sreach_get st env junk size e st' :
    sched_reach R st0 st -> ea_env_ok (schedule_fl (fst st)) env ->
    0 <= size < 2 ^ 63 -> Z.of_nat (length junk) = R ->
    get_threshold_schedule env junk st size R = Some (e, st') -> sched_reach R st0 st'
| sreach_release st e st' :
    sched_reach R st0 st -> e ∈ dom (snd st) ->
    nccl_net_ofi_release_schedule st e = Some st' -> sched_reach R st0 st'.

Lemma release_preserves R st e :
  sched_ok R st -> e ∈ dom (snd st) ->
  exists st', nccl_net_ofi_release_schedule st e = Some st' /\ sched_ok R st' /\
    snd st' = delete e (snd st).
Proof.
  intros [Hok Hsz Hrr Hmin] He. unfold nccl_net_ofi_release_schedule.
  destruct (ea_free_spec _ _ _ Hok He) as (fl & -> & Hes & Hok'). cbn.
  eexists. split_and!; [done| |done].
  constructor; cbn; [by rewrite dom_delete_L|lia|done|done].
Qed.

Lemma sched_reach_ok R st0 st :
  R < 2 ^ 30 -> sched_ok R st0 -> sched_reach R st0 st -> sched_ok R st.
Proof.
  intros HR H0. induction 1 as [|st env junk size e st' _ IH Henv Hs Hj Hg|st e st' _ IH He Hr].
  - done.
  - destruct (get_schedule_preserves R env junk st size) as (? & ? & Hg' & ? & _); try done. congruence.
  - destruct (release_preserves R st e IH He) as (? & Hr' & ? & _). congruence.
Qed.

(** C6. From a fresh scheduler, after any interleaving of requests and
    releases, asking for a schedule returns: either NULL with everything as
    before, or a new schedule that partitions the message (every byte in
    exactly one stripe, stripes on distinct rails in range, non-empty stripes
    128-byte aligned), with every other outstanding schedule unchanged. *)
Theorem get_schedule_partitions R st0 st env junk size :
  R < 2 ^ 30 -> sched_ok R st0 -> sched_reach R st0 st ->
  ea_env_ok (schedule_fl (fst st)) env ->
  0 <= size < 2 ^ 63 -> Z.of_nat (length junk) = R ->
  exists e st', get_threshold_schedule env junk st size R = Some (e, st') /\
    ((e = NULL /\ snd st' = snd st) \/
     (e <> NULL /\ exists s, snd st !! e = None /\ snd st' = <[e := s]> (snd st) /\ partition R size s)).
Proof.
  intros HR H0 Hreach Henv Hs Hj. pose proof (sched_reach_ok R st0 st HR H0 Hreach) as Hok.
  destruct (get_schedule_preserves R env junk st size Hok Henv HR Hs Hj) as (e & st' & Hg & _ & Hcase).
  exists e, st'. split; [done|].
  destruct Hcase as [(-> & Hm & _)|(Hnz & Hnd & s & Hm & Hp & _)]; [by left|right].
  split; [done|]. exists s. split_and!; [by apply not_elem_of_dom|done|done].
Qed.

End Threshold.

(** ** How many stripes *)

(** For an even number of rails the number of stripes is what the comment
    promises: the largest factor of the number of rails that does not exceed
    the message size divided by the minimum stripe size (at least one). *)
Theorem num_stripes_largest_factor min size R :
  0 < min -> 0 <= size -> 0 < R < 2 ^ 31 -> (2 | R) ->
  (get_num_stripes min size R | R) /\ get_num_stripes min size R <= wanted_stripes min size R /\
  forall j, (j | R) -> j <= wanted_stripes min size R -> j <= get_num_stripes min size R.
Proof.
  intros Hm Hs HR Heven. destruct (num_stripes_bounds min size R Hm Hs HR) as [Hb Hw].
  rewrite get_num_stripes_eq in * by done. set (w := wanted_stripes min size R) in *.
  destruct (stripe_loop_spec (Z.to_nat w) R w) as [(Hr & Hd & Hmax)|(Heq & Hnone)]; [lia| |].
  - split_and!; [done|lia|]. intros j Hj Hjw.
    destruct (Z.le_gt_cases j (stripe_loop (Z.to_nat w) R w)); [done|].
    exfalso. apply (Hmax j); [lia|done].
  - assert (w < 2) as Hw2.
    { destruct (Z.le_gt_cases 2 w); [|lia]. exfalso. apply (Hnone 2); [lia|done]. }
    rewrite Heq. replace w with 1 by lia. split_and!; [apply Z.divide_1_l|lia|lia].
Qed.

Lemma num_stripes_largest_factor_witness :
  (get_num_stripes 131072 400000 4 | 4) /\
  get_num_stripes 131072 400000 4 <= wanted_stripes 131072 400000 4 /\
  forall j, (j | 4) -> j <= wanted_stripes 131072 400000 4 -> j <= get_num_stripes 131072 400000 4.
Proof.
  apply (num_stripes_largest_factor 131072 400000 4); [lia|lia|lia|]. by exists 2.
Defined.

(** With three rails the promise fails: the loop skips the factor 1, so a
    message worth two stripes is cut into two although 2 does not divide 3. *)
Theorem num_stripes_not_a_factor min size :
  0 < min -> min < size <= 2 * min ->
  get_num_stripes min size 3 = 2 /\ ~ (get_num_stripes min size 3 | 3).
Proof.
  intros Hm Hs. rewrite get_num_stripes_eq by lia.
  assert (wanted_stripes min size 3 = 2) as ->.
  { unfold wanted_stripes, NCCL_OFI_DIV_CEIL. rewrite (proj2 (Z.eqb_neq _ _)) by lia.
    assert ((size - 1) / min = 1) as -> by (symmetry; apply (Z.div_unique_pos _ _ _ (size - 1 - min)); lia).
    lia. }
  split; [done|]. change (stripe_loop (Z.to_nat 2) 3 2) with 2. intros [q Hq]. lia.
Qed.

Lemma num_stripes_not_a_factor_witness :
  get_num_stripes 131072 200000 3 = 2 /\ ~ (get_num_stripes 131072 200000 3 | 3).
Proof. apply (num_stripes_not_a_factor 131072 200000); lia. Defined.

(** No rail is given an empty stripe of a non-empty message as long as the
    minimum stripe size is at least 128 bytes per rail (the default is 128
    KiB and there are at most 4 rails). *)
Theorem no_empty_stripes min rr size R schedule :
  128 * R <= min -> 0 <= rr < R -> R < 2 ^ 30 -> 0 < size < 2 ^ 63 ->
  R <= Z.of_nat (length (rail_xfer_infos schedule)) ->
  exists s' rr', set_schedule_by_threshold min rr size R 128 schedule = Some (0, rr', s') /\
    Forall (fun x => 0 < msg_size x) (stripes s').
Proof.
  intros Hm Hrr HR Hs Hcap.
  destruct (set_schedule_spec min rr size R 128 schedule) as (s' & Heq & _ & Hlen & _ & _ & Hnth);
    [lia|done|done|lia|lia|done|].
  destruct (num_stripes_bounds min size R) as [Hb _]; [lia|lia|lia|].
  set (n := get_num_stripes min size R) in *.
  assert ((n - 1) * min < size) as Hn.
  { assert (n <= Z.max 1 (NCCL_OFI_DIV_CEIL size min)) as Hle by (unfold wanted_stripes in Hb; lia).
    pose proof (div_ceil_bounds size min ltac:(lia) ltac:(lia)). nia. }
  exists s', ((rr + n) mod R). split; [done|]. apply Forall_lookup. intros i x Hx.
  destruct (Hnth i x Hx) as (_ & ms & _ & Hlt & Hge & _ & ->).
  apply lookup_lt_Some in Hx. assert (Z.of_nat i <= n - 1) as Hi by lia.
  assert (n <= R) by (unfold wanted_stripes in Hb; lia).
  assert (0 < ms) by nia. assert ((n - 1) * ms < size) by nia. nia.
Qed.

Lemma no_empty_stripes_witness :
  exists s' rr', set_schedule_by_threshold 131072 3 400000 4 128
      (mk_schedule 0 (replicate 4 (mk_xfer 9 9 9))) = Some (0, rr', s') /\
    Forall (fun x => 0 < msg_size x) (stripes s').
Proof. apply (no_empty_stripes 131072 3 400000 4); cbn; lia. Defined.

(** Schedules of consecutive messages on one scheduler. *)
Fixpoint schedule_all (min rr R : Z) (junk : nccl_net_ofi_schedule_t) (sizes : list Z)
    : option (list nccl_net_ofi_schedule_t) :=
  match sizes with
  | [] => Some []
  | size :: sizes' =>
      '(_, rr', s) ← set_schedule_by_threshold min rr size R 128 junk;
      rest ← schedule_all min rr' R junk sizes'; Some (s :: rest)
  end.

(** Messages no larger than the minimum stripe size are sent whole, and
    consecutive ones use the rails in cyclic order. *)
Theorem small_messages_round_robin min R junk sizes : forall rr,
  0 <= rr < R -> R < 2 ^ 30 -> 0 < min < 2 ^ 63 -> Forall (fun size => 0 <= size <= min) sizes ->
  R <= Z.of_nat (length (rail_xfer_infos junk)) ->
  exists l, schedule_all min rr R junk sizes = Some l /\
    stripes <$> l = imap (fun i size => [mk_xfer ((rr + Z.of_nat i) mod R) 0 size]) sizes.
Proof.
  induction sizes as [|size sizes IH]; intros rr Hrr HR Hm Hall Hcap; [by exists []|].
  apply Forall_cons in Hall as [Hsz Hall]. cbn [schedule_all].
  assert (get_num_stripes min size R = 1) as H1.
  { pose proof (num_stripes_bounds min size R ltac:(lia) ltac:(lia) ltac:(lia)) as [Hb _].
    assert (NCCL_OFI_DIV_CEIL size min <= 1); [|unfold wanted_stripes in Hb; lia].
    pose proof (div_ceil_bounds size min ltac:(lia) ltac:(lia)).
    unfold NCCL_OFI_DIV_CEIL in *. split_if; [lia|].
    assert ((size - 1) / min = 0) as -> by (apply Z.div_small; lia). lia. }
  destruct (set_schedule_spec min rr size R 128 junk) as (s & -> & _ & Hlen & _ & Hc & Hnth);
    [lia|done|done|lia|lia|done|]. rewrite H1 in *. cbn [mbind option_bind].
  destruct (IH ((rr + 1) mod R)) as (l & -> & Hl); [apply Z.mod_pos_bound; lia|done|done|done|done|].
  exists (s :: l). split; [done|]. rewrite fmap_cons, Hl. cbn [imap]. f_equal.
  - destruct (stripes s) as [|x [|]] eqn:Hst; try (cbn in Hlen; lia).
    destruct (Hnth 0%nat x eq_refl) as [Hr _]. destruct Hc as (Ho & Hb & Hrest). cbn in Hrest.
    destruct x as [r o z]. cbn in *. rewrite Hr, Ho. do 2 f_equal. lia.
  - apply imap_ext. intros i z _. cbn. rewrite Zplus_mod_idemp_l. do 3 f_equal. lia.
Qed.

Lemma small_messages_round_robin_witness :
  exists l, schedule_all 131072 2 4 (mk_schedule 0 (replicate 4 (mk_xfer 9 9 9))) [0; 100; 131072] = Some l /\
    stripes <$> l = [[mk_xfer 2 0 0]; [mk_xfer 3 0 100]; [mk_xfer 0 0 131072]].
Proof.
  apply (small_messages_round_robin 131072 4 (mk_schedule 0 (replicate 4 (mk_xfer 9 9 9)))
    [0; 100; 131072] 2); [lia|lia|lia| |cbn; lia].
  repeat constructor; lia.
Defined.

(** ** The scheduler on the free list of Freelist.v *)

Section OnFreelist.
Context (pg rz : Z) (malloc_fl : bool) (mutex_fl : Z) (env0 : Freelist.grow_env).

#[local] Existing Instance Freelist.freelist_allocator.

(** A scheduler whose initialisation succeeds starts in a state in which
    every request and release is safe. *)
Theorem threshold_init_ok malloc_ok mutex_init R min_stripe ret st :
  (exists k, 0 <= k <= 32 /\ pg = 2 ^ k) -> 0 <= rz <= 2 ^ 31 ->
  Freelist.first_mmap_ok pg env0 -> 0 < R <= 2 ^ 16 -> 0 < min_stripe ->
  nccl_net_ofi_threshold_scheduler_init malloc_ok
    (Freelist.nccl_ofi_freelist_init pg rz malloc_fl mutex_fl env0) mutex_init R min_stripe
    = (ret, Some st) ->
  ret = 0 /\ sched_ok (EA := Freelist.freelist_allocator pg) R st.
Proof.
  intros Hpg Hrz Hm HR Hmin. unfold nccl_net_ofi_threshold_scheduler_init, scheduler_init.
  destruct malloc_ok; [|done]. cbn [negb].
  destruct (Freelist.nccl_ofi_freelist_init _ _ _ _ _ _ _ _ _) as [r [fl|]] eqn:Hi; [|done].
  split_if; [done|]. split_if; [done|]. intros [= <- <-]. split; [done|].
  unfold Freelist.nccl_ofi_freelist_init in Hi.
  assert (Freelist.init_args pg rz (sizeof_schedule R) 16 16 0 false 0 1) as Hargs.
  { unfold sizeof_schedule. constructor; try done; try lia. by exists 0. }
  destruct (Freelist.init_inv pg rz _ _ _ _ _ _ _ _ _ _ _ _ _ _ Hargs Hm Hi)
    as (b & Hinv & _ & _ & Hus & _).
  constructor; cbn; [|lia|lia|done]. rewrite dom_empty_L. eauto.
Qed.

End OnFreelist.

Definition ex_fl_init :=
  Freelist.nccl_ofi_freelist_init 4096 0 true 0 (Freelist.ex_env 8192).
Definition ex_sched : sched_state (FL := Freelist.state) :=
  default (mk_scheduler Freelist.ex_none 0 0, ∅)
    (snd (nccl_net_ofi_threshold_scheduler_init true ex_fl_init 0 4 131072)).

Lemma threshold_init_ok_witness :
  nccl_net_ofi_threshold_scheduler_init true ex_fl_init 0 4 131072 = (0, Some ex_sched) /\
  sched_ok (EA := Freelist.freelist_allocator 4096) 4 ex_sched.
Proof.
  split; [vm_compute; reflexivity|].
  refine (proj2 (threshold_init_ok 4096 0 true 0 (Freelist.ex_env 8192) true 0 4 131072 0 ex_sched
    _ _ _ _ _ _)); [by exists 12|lia|apply Freelist.ex_mmap|lia|lia|].
  vm_compute. reflexivity.
Defined.

Lemma get_schedule_partitions_witness :
  exists e st', get_threshold_schedule (EA := Freelist.freelist_allocator 4096)
      (Freelist.ex_env 65536) (replicate 4 (mk_xfer 9 9 9)) ex_sched 300000 4 = Some (e, st') /\
    ((e = NULL /\ snd st' = snd ex_sched) \/
     (e <> NULL /\ exists s, snd ex_sched !! e = None /\
        snd st' = <[e := s]> (snd ex_sched) /\ partition 4 300000 s)).
Proof.
  apply (get_schedule_partitions (EA := Freelist.freelist_allocator 4096) 4 ex_sched ex_sched).
  - lia.
  - assert (Freelist.init_args 4096 0 (sizeof_schedule 4) 16 16 0 false 0 1) as Hargs.
    { unfold sizeof_schedule. constructor; try done; try lia; [by exists 12|by exists 0]. }
    destruct (Freelist.init_inv 4096 0 true 0 _ _ _ _ _ _ false false _ _ 0 (schedule_fl (fst ex_sched))
      Hargs Freelist.ex_mmap) as (b & Hinv & _ & _ & Hus & _); [vm_compute; reflexivity|].
    assert (dom (snd ex_sched) = (∅ : gset Z)) as Hdom by (vm_compute; reflexivity).
    constructor; [rewrite Hdom; eexists _, _; exact Hinv|exact (Z.le_trans _ _ _ (Z.le_max_l _ _) Hus)|vm_compute; split; done|vm_compute; done].
  - constructor.
  - split_and!; [lia|by exists 16|]. intros p b.
    assert (Freelist.block_structs (snd (schedule_fl (fst ex_sched))) =
      {[ (8192 + 104 * 39) := Freelist.mk_block 0 8192 4096 0 ]}) as -> by (vm_compute; reflexivity).
    intros [_ <-]%lookup_singleton_Some. left. cbn. lia.
  - lia.
  - reflexivity.
Defined.

End Scheduler.
