(* ===== verification/MrCache.v ===== *)
(** * nccl_ofi_mr.c, nccl_ofi_mr.h: the memory registration cache

    A sorted array of pointers to registration entries. The array is a list
    with the length that was allocated, a NULL pointer in it is [None];
    reading through NULL and writing past the array give [None].

    The theorems show that lookup finds a registration exactly when one covers
    the pages asked for, that every history of inserts, lookups and deletes
    counts users per handle correctly, and what the two allocation failures of
    insert leave behind. *)

From Stdlib Require Import Sorting.Sorted.
From S2P Require Import Prelude OfiMath.

Module MrCache.

(** ** Data *)

(** Cache keys; the invalid type is unreachable in the code. *)
Inductive nccl_ofi_mr_ckey :=
| NCCL_OFI_MR_CKEY_IOVEC (iov_base iov_len : Z)
| NCCL_OFI_MR_CKEY_DMABUF (fd off len base_addr : Z).

Record nccl_ofi_reg_entry_t := mk_entry {
  addr : Z;
  pages : Z;
  refcnt : Z;
  handle : Z;
}.

Record nccl_ofi_mr_cache_t := mk_cache {
  slots : list (option nccl_ofi_reg_entry_t);
  system_page_size : Z;
  size : Z;
  used : Z;
  hit_count : Z;
  miss_count : Z;
}.

Definition set_slots s u c :=
  mk_cache s (system_page_size c) (size c) u (hit_count c) (miss_count c).

(** ** Operations *)

Definition nccl_ofi_mr_ckey_mk_vec (iov_base iov_len : Z) : nccl_ofi_mr_ckey :=
  NCCL_OFI_MR_CKEY_IOVEC iov_base iov_len.

Definition nccl_ofi_mr_ckey_mk_dmabuf (fd off len base_addr : Z) : nccl_ofi_mr_ckey :=
  NCCL_OFI_MR_CKEY_DMABUF fd off len base_addr.

Definition nccl_ofi_mr_ckey_baseaddr (ckey : nccl_ofi_mr_ckey) : Z :=
  match ckey with
  | NCCL_OFI_MR_CKEY_IOVEC base _ => base
  | NCCL_OFI_MR_CKEY_DMABUF _ off _ base => u64 (base + off)
  end.

Definition nccl_ofi_mr_ckey_len (ckey : nccl_ofi_mr_ckey) : Z :=
  match ckey with
  | NCCL_OFI_MR_CKEY_IOVEC _ len => len
  | NCCL_OFI_MR_CKEY_DMABUF _ _ len _ => len
  end.

(** [calloc_slots] says whether the array of NULL pointers could be had. *)
Definition nccl_ofi_mr_cache_init (calloc_cache calloc_slots : bool) (mutex_init : Z)
    (init_num_entries page_size : Z) : option nccl_ofi_mr_cache_t :=
  if init_num_entries =? 0 then None
  else if page_size =? 0 then None
  else if negb calloc_cache then None
  else if negb calloc_slots then None
  else if negb (mutex_init =? 0) then None
  else Some (mk_cache (replicate (Z.to_nat init_num_entries) None) page_size init_num_entries 0 0 0).

Definition compute_page_address (a sz page_size : Z) : Z * Z :=
  let page_addr := Z.land a (u64 (- page_size)) in
  (page_addr, u64 (a + sz - page_addr + page_size - 1) / page_size).

(** The test of both loops for an entry at or below [page_addr]. *)
Definition entry_covers (page_size page_addr npages : Z) (e : nccl_ofi_reg_entry_t) : bool :=
  (page_addr >=? addr e) && (u64 ((page_addr - addr e) / page_size + npages) <=? pages e).

Inductive probe := Miss (slot : nat) | Hit (slot : nat).

(** The loop of lookup and insert from [slot] on, [n] slots before [used]. *)
Fixpoint scan (n slot : nat) (c : nccl_ofi_mr_cache_t) (page_addr npages : Z) : option probe :=
  match n with
  | O => Some (Miss slot)
  | S n' =>
      match slots c !! slot with
      | Some (Some e) =>
          if page_addr <? addr e then Some (Miss slot)
          else if entry_covers (system_page_size c) page_addr npages e then Some (Hit slot)
          else scan n' (S slot) c page_addr npages
      | _ => None
      end
  end.

(** Result: the handle or NULL, and the cache. *)
Definition nccl_ofi_mr_cache_lookup_entry (c : nccl_ofi_mr_cache_t) (ckey : nccl_ofi_mr_ckey)
    : option (Z * nccl_ofi_mr_cache_t) :=
  let '(page_addr, npages) :=
    compute_page_address (nccl_ofi_mr_ckey_baseaddr ckey) (nccl_ofi_mr_ckey_len ckey)
      (system_page_size c) in
  p ← scan (Z.to_nat (used c)) 0 c page_addr npages;
  match p with
  | Miss _ =>
      Some (NULL, mk_cache (slots c) (system_page_size c) (size c) (used c) (hit_count c)
                    (u32 (miss_count c + 1)))
  | Hit slot =>
      e ← mjoin (slots c !! slot);
      let e' := mk_entry (addr e) (pages e) (i32 (refcnt e + 1)) (handle e) in
      Some (handle e, mk_cache (<[slot := Some e']> (slots c)) (system_page_size c) (size c)
                        (used c) (u32 (hit_count c + 1)) (miss_count c))
  end.

(** [realloc] is the new part of the array (whatever it holds), [None] when it
    fails. *)
Definition nccl_ofi_mr_cache_grow (realloc : option (list (option nccl_ofi_reg_entry_t)))
    (c : nccl_ofi_mr_cache_t) : Z * nccl_ofi_mr_cache_t :=
  let sz := u64 (size c * 2) in
  match realloc with
  | None => (- ENOMEM, mk_cache (slots c) (system_page_size c) sz (used c) (hit_count c) (miss_count c))
  | Some ext => (0, mk_cache (slots c ++ ext) (system_page_size c) sz (used c) (hit_count c) (miss_count c))
  end.

Definition nccl_ofi_mr_cache_insert_entry (realloc : option (list (option nccl_ofi_reg_entry_t)))
    (calloc_entry : bool) (c : nccl_ofi_mr_cache_t) (ckey : nccl_ofi_mr_ckey) (h : Z)
    : option (Z * nccl_ofi_mr_cache_t) :=
  let '(page_addr, npages) :=
    compute_page_address (nccl_ofi_mr_ckey_baseaddr ckey) (nccl_ofi_mr_ckey_len ckey)
      (system_page_size c) in
  p ← scan (Z.to_nat (used c)) 0 c page_addr npages;
  match p with
  | Hit _ => Some (- EEXIST, c)
  | Miss slot =>
      let '(ret, c1) := if used c =? size c then nccl_ofi_mr_cache_grow realloc c else (0, c) in
      if negb (ret =? 0) then Some (ret, c1)
      else
        s1 ← memmove (S slot) slot (Z.to_nat (used c1) - slot) (slots c1);
        if negb calloc_entry then Some (- ENOMEM, set_slots (<[slot := None]> s1) (used c1) c1)
        else
          let entry := mk_entry page_addr npages 1 h in
          Some (0, set_slots (<[slot := Some entry]> s1) (used c1 + 1) c1)
  end.

(** The loop of lookup_handle: [Some None] when no slot has the handle. *)
Fixpoint lookup_handle_loop (n i : nat) (c : nccl_ofi_mr_cache_t) (h : Z) : option (option nat) :=
  match n with
  | O => Some None
  | S n' =>
      e ← mjoin (slots c !! i);
      if h =? handle e then Some (Some i) else lookup_handle_loop n' (S i) c h
  end.

Definition nccl_ofi_mr_cache_lookup_handle (c : nccl_ofi_mr_cache_t) (h : Z) : option Z :=
  r ← lookup_handle_loop (Z.to_nat (used c)) 0 c h;
  Some (match r with Some i => i32 (Z.of_nat i) | None => -1 end).

Definition nccl_ofi_mr_cache_del_entry (c : nccl_ofi_mr_cache_t) (h : Z)
    : option (Z * nccl_ofi_mr_cache_t) :=
  slot ← nccl_ofi_mr_cache_lookup_handle c h;
  if slot <? 0 then Some (- ENOENT, c)
  else
    let i := Z.to_nat slot in
    e ← mjoin (slots c !! i);
    let e' := mk_entry (addr e) (pages e) (i32 (refcnt e - 1)) (handle e) in
    let s1 := <[i := Some e']> (slots c) in
    if negb (refcnt e' =? 0) then Some (0, set_slots s1 (used c) c)
    else
      s2 ← memmove i (S i) (Z.to_nat (used c) - i - 1) s1;
      Some (1, set_slots s2 (used c - 1) c).

(** ** Abstraction: the entries in use, in order *)

(** Entries cover whole pages of the address space. *)
Definition entry_ok (page_size : Z) (e : nccl_ofi_reg_entry_t) : Prop :=
  0 <= addr e /\ (page_size | addr e) /\ 0 <= pages e /\ addr e + pages e * page_size <= 2 ^ 64.

(** The bytes [a, a + sz) are inside the region of [e]. *)
Definition covers_bytes (page_size a sz : Z) (e : nccl_ofi_reg_entry_t) : Prop :=
  addr e <= a /\ a + sz <= addr e + pages e * page_size.

(** Keys whose buffer does not reach the last page of the address space. *)
Definition key_ok (page_size : Z) (k : nccl_ofi_mr_ckey) : Prop :=
  0 <= nccl_ofi_mr_ckey_baseaddr k /\ 0 <= nccl_ofi_mr_ckey_len k /\
  nccl_ofi_mr_ckey_baseaddr k + nccl_ofi_mr_ckey_len k + page_size <= 2 ^ 64.

Record mr_rel (c : nccl_ofi_mr_cache_t) (E : list nccl_ofi_reg_entry_t) : Prop := {
  r_page : exists k, 1 <= k < 64 /\ system_page_size c = 2 ^ k;
  r_slots : take (length E) (slots c) = Some <$> E;
  r_used : used c = Z.of_nat (length E);
  r_size : size c = Z.of_nat (length (slots c));
  r_le : used c <= size c;
  r_pos : 0 < size c < 2 ^ 31;
  r_sorted : StronglySorted (fun e1 e2 => addr e1 <= addr e2) E;
  r_aligned : Forall (entry_ok (system_page_size c)) E;
}.

Fixpoint find_slot (page_size page_addr npages : Z) (i : nat) (E : list nccl_ofi_reg_entry_t) : probe :=
  match E with
  | [] => Miss i
  | e :: E' =>
      if page_addr <? addr e then Miss i
      else if entry_covers page_size page_addr npages e then Hit i
      else find_slot page_size page_addr npages (S i) E'
  end.

(** ** Pages *)

Lemma page_address_spec a sz k :
  0 <= k < 64 -> 0 <= a -> 0 <= sz -> a + sz + 2 ^ k <= 2 ^ 64 ->
  exists pa n, compute_page_address a sz (2 ^ k) = (pa, n) /\
    0 <= pa <= a /\ a < pa + 2 ^ k /\ (2 ^ k | pa) /\ 0 <= n /\
    a + sz <= pa + n * 2 ^ k < a + sz + 2 ^ k.
Proof.
  intros Hk Ha Hs Hb. assert (0 < 2 ^ k) by lia.
  assert (2 ^ k < 2 ^ 64) by (apply Z.pow_lt_mono_r; lia).
  assert (u64 (- 2 ^ k) = u64 (Z.lnot (2 ^ k - 1))) as Hneg
    by (f_equal; unfold Z.lnot; lia).
  unfold compute_page_address. rewrite Hneg, land_clear_low by lia.
  pose proof (Z.mod_pos_bound a (2 ^ k) ltac:(lia)).
  set (pa := a - a mod 2 ^ k) in *. assert (0 <= pa <= a) by (pose proof (Z.mod_le a (2 ^ k)); lia).
  rewrite wrap_small by lia. set (x := a + sz - pa + 2 ^ k - 1).
  pose proof (Z.div_mod x (2 ^ k) ltac:(lia)). pose proof (Z.mod_pos_bound x (2 ^ k) ltac:(lia)).
  eexists _, _. split; [done|]. split_and!; try lia.
  exists (a / 2 ^ k). unfold pa. rewrite Z.mod_eq by lia. lia.
Qed.

Lemma entry_covers_spec k pa n e a sz :
  1 <= k < 64 -> entry_ok (2 ^ k) e -> 0 <= pa <= a -> a < pa + 2 ^ k -> (2 ^ k | pa) -> 0 <= n ->
  a + sz <= pa + n * 2 ^ k < a + sz + 2 ^ k -> pa + n * 2 ^ k <= 2 ^ 64 ->
  entry_covers (2 ^ k) pa n e = true <-> covers_bytes (2 ^ k) a sz e.
Proof.
  intros Hk (Ha0 & [q Hq] & Hp0 & Hend) Hpa Hlt [p Hp] Hn Hcov H64.
  assert (2 ^ 1 <= 2 ^ k) as H2 by (apply Z.pow_le_mono_r; lia). change (2 ^ 1) with 2 in H2.
  unfold entry_covers, covers_bytes. rewrite Hp, Hq in *. set (P := 2 ^ k) in *.
  assert (0 <= p /\ 0 <= q) as [Hp1 Hq1] by nia. assert (p + n < 2 ^ 64) as Hpn by nia.
  rewrite andb_true_iff, Z.geb_leb, !Z.leb_le.
  rewrite <- Z.mul_sub_distr_r, Z.div_mul by lia. split.
  - intros [Hge Hle]. assert (q <= p) by nia. rewrite wrap_small in Hle by lia.
    split; [lia|]. nia.
  - intros [Hge Hle].
    assert (q < p + 1) by (apply (Z.mul_lt_mono_pos_r P); lia).
    rewrite wrap_small by lia. split; [nia|].
    assert (p + n - 1 < q + pages e); [|lia]. apply (Z.mul_lt_mono_pos_r P); lia.
Qed.

(** ** The scan *)

Lemma scan_find_slot c n : forall E i,
  n = length E -> (forall j e, E !! j = Some e -> slots c !! (i + j)%nat = Some (Some e)) ->
  forall pa np, scan n i c pa np = Some (find_slot (system_page_size c) pa np i E).
Proof.
  induction n as [|n IH]; intros [|e E] i Hn Hs pa np; cbn in Hn; try lia; [done|].
  cbn [scan find_slot]. pose proof (Hs 0%nat e eq_refl) as H0. rewrite Nat.add_0_r in H0. rewrite H0.
  split_if; [done|]. split_if; [done|]. apply IH; [lia|].
  intros j e' Hj. rewrite Nat.add_succ_comm. by apply Hs.
Qed.

Lemma find_slot_shift psz pa np E : forall i,
  find_slot psz pa np i E =
    match find_slot psz pa np 0 E with Miss j => Miss (i + j) | Hit j => Hit (i + j) end.
Proof.
  induction E as [|e E IH]; intros i; cbn; [f_equal; lia|].
  split_if; [f_equal; lia|]. split_if; [f_equal; lia|].
  rewrite IH, (IH 1%nat). destruct (find_slot psz pa np 0 E); f_equal; lia.
Qed.

Lemma find_slot_hit psz pa np E i :
  find_slot psz pa np 0 E = Hit i ->
  exists e, E !! i = Some e /\ entry_covers psz pa np e = true /\
    forall j e', (j < i)%nat -> E !! j = Some e' -> entry_covers psz pa np e' = false.
Proof.
  revert i. induction E as [|e E IH]; intros i; cbn; [done|].
  split_if; [done|]. split_if.
  - intros [= <-]. exists e. split_and!; [done|done|lia].
  - rewrite find_slot_shift. destruct (find_slot psz pa np 0 E) as [|i'] eqn:Hf; [done|].
    intros [= <-]. destruct (IH i' eq_refl) as (e' & He' & Hc & Hb).
    exists e'. split_and!; [done|done|]. intros [|j] e2 Hj He2; [by injection He2 as <-|].
    apply (Hb j); [lia|done].
Qed.

Lemma find_slot_miss psz pa np E i :
  StronglySorted (fun e1 e2 => addr e1 <= addr e2) E ->
  find_slot psz pa np 0 E = Miss i ->
  (i <= length E)%nat /\
  (forall j e, E !! j = Some e -> entry_covers psz pa np e = false) /\
  (forall j e, E !! j = Some e -> (j < i)%nat -> addr e <= pa) /\
  (forall j e, E !! j = Some e -> (i <= j)%nat -> pa < addr e).
Proof.
  intros Hs. revert i. induction Hs as [|e E Hs IH Hall]; intros i; cbn.
  { intros [= <-]. split_and!; [done|done|done|done]. }
  split_if.
  - intros [= <-].
    assert (forall j e', (e :: E) !! j = Some e' -> pa < addr e') as Hgt.
    { intros [|j] e' He'; [by injection He' as <-|].
      change ((e :: E) !! S j) with (E !! j) in He'.
      pose proof (Forall_lookup_1 _ _ _ _ Hall He') as Hle. cbn in Hle. lia. }
    split_and!; [lia| |lia|eauto].
    intros j e' He'. apply Hgt in He'. unfold entry_covers.
    by rewrite Z.geb_leb, (proj2 (Z.leb_gt _ _)) by lia.
  - split_if; [done|]. rewrite find_slot_shift.
    destruct (find_slot psz pa np 0 E) as [i'|] eqn:Hf; [|done]. intros [= <-].
    destruct (IH i' eq_refl) as (Hl & Hc & Hlo & Hhi). split_and!; [lia| | |].
    + intros [|j] e' He'; [by injection He' as <-|by eapply Hc].
    + intros [|j] e' He' Hj; [by injection He' as <-|]. apply (Hlo j); [done|lia].
    + intros [|j] e' He' Hj; [lia|]. apply (Hhi j); [done|lia].
Qed.

(** ** The operations on related caches *)

Lemma rel_slots c E : mr_rel c E ->
  slots c = (Some <$> E) ++ drop (length E) (slots c).
Proof. intros H. rewrite <- (r_slots _ _ H). by rewrite take_drop. Qed.

Lemma rel_lookup c E j e : mr_rel c E -> E !! j = Some e -> slots c !! j = Some (Some e).
Proof.
  intros H He. rewrite (rel_slots c E H), lookup_app_l.
  - by rewrite list_lookup_fmap, He.
  - rewrite length_fmap. by eapply lookup_lt_Some.
Qed.

(** What the scan means for the key: the first registration that covers its
    bytes, or the place to insert it. *)
Lemma probe_spec c E ckey :
  mr_rel c E -> key_ok (system_page_size c) ckey ->
  let a := nccl_ofi_mr_ckey_baseaddr ckey in
  let sz := nccl_ofi_mr_ckey_len ckey in
  exists pa np p, compute_page_address a sz (system_page_size c) = (pa, np) /\
    entry_ok (system_page_size c) (mk_entry pa np 1 0) /\
    covers_bytes (system_page_size c) a sz (mk_entry pa np 1 0) /\
    scan (Z.to_nat (used c)) 0 c pa np = Some p /\
    match p with
    | Hit i => exists e, E !! i = Some e /\ covers_bytes (system_page_size c) a sz e /\
        forall j e', (j < i)%nat -> E !! j = Some e' -> ~ covers_bytes (system_page_size c) a sz e'
    | Miss i => (i <= length E)%nat /\
        (forall e, e ∈ E -> ~ covers_bytes (system_page_size c) a sz e) /\
        (forall j e, E !! j = Some e -> (j < i)%nat ->
           addr e <= pa /\ entry_covers (system_page_size c) pa np e = false) /\
        (forall j e, E !! j = Some e -> (i <= j)%nat -> pa < addr e)
    end.
Proof.
  intros Hr (Ha & Hs & Hb) a sz. destruct (r_page _ _ Hr) as (k & Hk & Hpsz). rewrite Hpsz in *.
  destruct (page_address_spec a sz k) as (pa & np & Heq & Hpa & Hlt & Hd & Hnp & Hcov); [lia..|].
  assert (forall j e, E !! j = Some e ->
    entry_covers (2 ^ k) pa np e = true <-> covers_bytes (2 ^ k) a sz e) as Hc.
  { intros j e He. apply entry_covers_spec; try done; [|lia].
    pose proof (r_aligned _ _ Hr) as Hal. rewrite Hpsz in Hal. by apply (Forall_lookup_1 _ _ _ _ Hal He). }
  assert (scan (Z.to_nat (used c)) 0 c pa np = Some (find_slot (2 ^ k) pa np 0 E)) as Hscan.
  { rewrite <- Hpsz. apply scan_find_slot; [rewrite (r_used _ _ Hr); lia|].
    intros j e He. by apply (rel_lookup c E). }
  exists pa, np, (find_slot (2 ^ k) pa np 0 E). split_and!; [done| | |done|].
  - split_and!; cbn; try done; lia.
  - unfold covers_bytes. cbn. lia.
  - destruct (find_slot (2 ^ k) pa np 0 E) as [i|i] eqn:Hf.
    + apply find_slot_miss in Hf as (Hl & Hn & Hlo & Hhi); [|apply Hr].
      split_and!; [done| |eauto|done]. intros e He Hce. apply list_elem_of_lookup_1 in He as [j Hj].
      apply (Hc j e Hj) in Hce. by rewrite (Hn j e Hj) in Hce.
    + apply find_slot_hit in Hf as (e & He & Hce & Hb'). exists e.
      split_and!; [done|by apply (Hc i)|]. intros j e' Hj He' Hce'.
      apply (Hc j e' He') in Hce'. by rewrite (Hb' j e' Hj He') in Hce'.
Qed.

(** Entries change only in their reference count. *)
Lemma rel_update c E i e e' slots' hits misses :
  mr_rel c E -> E !! i = Some e -> addr e' = addr e -> pages e' = pages e ->
  slots' = <[i := Some e']> (slots c) ->
  mr_rel (mk_cache slots' (system_page_size c) (size c) (used c) hits misses) (<[i := e']> E).
Proof.
  intros [Hp Hs Hu Hsz Hle Hpos Hso Hal] He Ha Hpg ->.
  pose proof (lookup_lt_Some _ _ _ He) as Hi.
  constructor; cbn; rewrite ?length_insert; try done.
  - rewrite take_insert_lt by done. rewrite Hs. by rewrite list_fmap_insert.
  - clear - Hso He Ha. revert i He. induction Hso as [|x l Hso IH Hall]; intros [|i] He; cbn in *; try done.
    + injection He as ->. constructor; [done|]. by rewrite Ha.
    + constructor; [by eapply IH|]. apply Forall_insert; [done|]. rewrite Ha.
      exact (Forall_lookup_1 _ _ _ _ Hall He).
  - apply Forall_insert; [done|]. unfold entry_ok. rewrite Ha, Hpg.
    exact (Forall_lookup_1 _ _ _ _ Hal He).
Qed.

Definition add_user (e : nccl_ofi_reg_entry_t) : nccl_ofi_reg_entry_t :=
  mk_entry (addr e) (pages e) (i32 (refcnt e + 1)) (handle e).
Definition drop_user (e : nccl_ofi_reg_entry_t) : nccl_ofi_reg_entry_t :=
  mk_entry (addr e) (pages e) (i32 (refcnt e - 1)) (handle e).

Lemma lookup_refines c E ckey :
  mr_rel c E -> key_ok (system_page_size c) ckey ->
  let cov := covers_bytes (system_page_size c) (nccl_ofi_mr_ckey_baseaddr ckey)
               (nccl_ofi_mr_ckey_len ckey) in
  exists c', system_page_size c' = system_page_size c /\ used c' = used c /\
  ((exists i e, E !! i = Some e /\ cov e /\
      (forall j e', (j < i)%nat -> E !! j = Some e' -> ~ cov e') /\
      nccl_ofi_mr_cache_lookup_entry c ckey = Some (handle e, c') /\
      mr_rel c' (<[i := add_user e]> E)) \/
   ((forall e, e ∈ E -> ~ cov e) /\
      nccl_ofi_mr_cache_lookup_entry c ckey = Some (NULL, c') /\ mr_rel c' E)).
Proof.
  intros Hr Hk cov. destruct (probe_spec c E ckey Hr Hk) as (pa & np & p & Hcp & _ & _ & Hscan & Hp).
  unfold nccl_ofi_mr_cache_lookup_entry. rewrite Hcp, Hscan. cbn [mbind option_bind].
  destruct p as [i|i].
  - destruct Hp as (_ & Hn & _). eexists. split_and!; [| |right; split_and!; [done|done|]]; [done|done|].
    by destruct Hr.
  - destruct Hp as (e & He & Hc & Hb). rewrite (rel_lookup c E i e Hr He). cbn.
    eexists. split_and!; [| |left; exists i, e; split_and!; [done|done|done|done|]]; [done|done|].
    by apply (rel_update c E i e).
Qed.

Lemma sorted_insert (E : list nccl_ofi_reg_entry_t) i x :
  StronglySorted (fun e1 e2 => addr e1 <= addr e2) E ->
  (forall j e, E !! j = Some e -> (j < i)%nat -> addr e <= addr x) ->
  (forall j e, E !! j = Some e -> (i <= j)%nat -> addr x < addr e) ->
  StronglySorted (fun e1 e2 => addr e1 <= addr e2) (take i E ++ x :: drop i E).
Proof.
  intros Hs. revert i. induction Hs as [|e E Hs IH Hall]; intros i Hlo Hhi.
  { rewrite take_nil, drop_nil. by repeat constructor. }
  assert (forall j e', E !! j = Some e' -> addr e <= addr e') as Hle.
  { intros j e' He'. exact (Forall_lookup_1 _ _ _ _ Hall He'). }
  destruct i as [|i]; cbn.
  - constructor; [by constructor|]. apply Forall_lookup_2. intros j e' He'.
    apply Z.lt_le_incl. apply (Hhi j e' He'). lia.
  - constructor.
    + apply IH; intros j e' He' Hj; [apply (Hlo (S j))|apply (Hhi (S j))]; (done || lia).
    + apply Forall_app. split; [by apply Forall_take|]. constructor; [|by apply Forall_drop].
      apply (Hlo 0%nat e); [done|lia].
Qed.

(** Insertion when memory is available: [realloc] doubles the array. *)
Lemma mr_insert_refines realloc c E ckey h :
  mr_rel c E -> key_ok (system_page_size c) ckey -> used c < 2 ^ 30 ->
  (used c = size c -> exists ext, realloc = Some ext /\ Z.of_nat (length ext) = size c) ->
  let cov := covers_bytes (system_page_size c) (nccl_ofi_mr_ckey_baseaddr ckey)
               (nccl_ofi_mr_ckey_len ckey) in
  ((exists e, e ∈ E /\ cov e) /\
     nccl_ofi_mr_cache_insert_entry realloc true c ckey h = Some (- EEXIST, c)) \/
  (exists c' i e, nccl_ofi_mr_cache_insert_entry realloc true c ckey h = Some (0, c') /\
     system_page_size c' = system_page_size c /\
     (forall e', e' ∈ E -> ~ cov e') /\ cov e /\ refcnt e = 1 /\ handle e = h /\
     (i <= length E)%nat /\ mr_rel c' (take i E ++ e :: drop i E)).
Proof.
  intros Hr Hk Hsmall Hre cov.
  destruct (probe_spec c E ckey Hr Hk) as (pa & np & p & Hcp & Hok & Hcov & Hscan & Hp).
  unfold nccl_ofi_mr_cache_insert_entry. rewrite Hcp, Hscan. cbn [mbind option_bind].
  destruct p as [i|i].
  2:{ left. destruct Hp as (e & He & Hc & _). split; [|done]. exists e.
      split; [by eapply list_elem_of_lookup_2|done]. }
  right. destruct Hp as (Hi & Hn & Hlo & Hhi).
  assert (exists c1 x rest, (if used c =? size c then nccl_ofi_mr_cache_grow realloc c else (0, c)) = (0, c1) /\
    slots c1 = (Some <$> E) ++ x :: rest /\ used c1 = used c /\
    system_page_size c1 = system_page_size c /\ size c1 = Z.of_nat (length (slots c1)) /\
    used c < size c1 < 2 ^ 31) as (c1 & x & rest & -> & Hs1 & Hu1 & Hp1 & Hz1 & Hb1).
  { pose proof (rel_slots c E Hr) as Hsl. pose proof (r_size _ _ Hr) as Hsz.
    pose proof (r_used _ _ Hr). pose proof (r_le _ _ Hr). pose proof (r_pos _ _ Hr). split_if.
    - destruct (Hre E0) as (ext & -> & Hlen). unfold nccl_ofi_mr_cache_grow.
      destruct ext as [|x ext]; [cbn in Hlen; lia|].
      assert (drop (length E) (slots c) = []) as Hnil by (apply drop_ge; lia).
      rewrite Hnil, app_nil_r in Hsl. rewrite wrap_small by lia.
      eexists _, x, ext. split; [done|]. cbn. rewrite <- Hsl, length_app.
      split_and!; try done; cbn in Hlen |- *; lia.
    - destruct (drop (length E) (slots c)) as [|x rest] eqn:Hd.
      { apply (f_equal length) in Hd. rewrite length_drop in Hd. cbn in Hd. lia. }
      exists c, x, rest. split_and!; try done; lia. }
  cbn [Z.eqb negb]. rewrite Hu1, (r_used _ _ Hr), Nat2Z.id, Hs1.
  destruct (memmove_insert (Some <$> E) rest x i) as (s & Hmm & Hins); [by rewrite length_fmap|].
  rewrite length_fmap in Hmm. rewrite Hmm. cbn [mbind option_bind].
  set (e := mk_entry pa np 1 h). eexists _, i, e.
  split_and!; [done|done|done|exact Hcov|done|done|done|].
  assert (<[i := Some e]> s = (Some <$> (take i E ++ e :: drop i E)) ++ rest) as Heq.
  { rewrite Hins, fmap_app, fmap_cons, <- fmap_take, <- fmap_drop, <- app_assoc. done. }
  assert (length (take i E ++ e :: drop i E) = S (length E)) as Hlen
    by (rewrite length_app; cbn; rewrite length_take, length_drop; lia).
  constructor; cbn [slots system_page_size size used set_slots]; rewrite ?Hp1.
  - apply Hr.
  - rewrite Heq, take_app_length' by (by rewrite length_fmap). done.
  - rewrite Hlen. lia.
  - rewrite Hz1, Hs1, Heq, !length_app, !length_fmap, Hlen. cbn. lia.
  - rewrite (r_used _ _ Hr) in *. lia.
  - rewrite (r_used _ _ Hr) in *. lia.
  - apply sorted_insert; [apply Hr| |done]. intros j e' He' Hj. by apply (Hlo j).
  - pose proof (r_aligned _ _ Hr). apply Forall_app. split; [by apply Forall_take|].
    constructor; [exact Hok|by apply Forall_drop].
Qed.

Lemma lookup_handle_spec c h n : forall E i,
  n = length E -> (forall j e, E !! j = Some e -> slots c !! (i + j)%nat = Some (Some e)) ->
  ((h ∉ handle <$> E) /\ lookup_handle_loop n i c h = Some None) \/
  (exists j e, E !! j = Some e /\ handle e = h /\ lookup_handle_loop n i c h = Some (Some (i + j)%nat)).
Proof.
  induction n as [|n IH]; intros [|e E] i Hn Hs; cbn in Hn; try lia; [left; split; [set_solver|done]|].
  cbn [lookup_handle_loop]. pose proof (Hs 0%nat e eq_refl) as H0. rewrite Nat.add_0_r in H0.
  rewrite H0. cbn. split_if.
  - right. exists 0%nat, e. rewrite Nat.add_0_r. done.
  - destruct (IH E (S i)) as [[Hni ->]|(j & e' & He' & Hh & ->)]; [lia| |left|right].
    + intros j e' Hj. rewrite Nat.add_succ_comm. by apply Hs.
    + split; [|done]. rewrite not_elem_of_cons. done.
    + exists (S j), e'. by rewrite Nat.add_succ_comm.
Qed.

Lemma del_refines c E h :
  mr_rel c E -> Forall (fun e => 1 <= refcnt e < 2 ^ 31) E ->
  ((h ∉ handle <$> E) /\ nccl_ofi_mr_cache_del_entry c h = Some (- ENOENT, c)) \/
  (exists i e c', E !! i = Some e /\ handle e = h /\ system_page_size c' = system_page_size c /\
    ((1 < refcnt e /\ nccl_ofi_mr_cache_del_entry c h = Some (0, c') /\
      mr_rel c' (<[i := drop_user e]> E)) \/
     (refcnt e = 1 /\ nccl_ofi_mr_cache_del_entry c h = Some (1, c') /\ mr_rel c' (delete i E)))).
Proof.
  intros Hr Hcnt. unfold nccl_ofi_mr_cache_del_entry, nccl_ofi_mr_cache_lookup_handle.
  destruct (lookup_handle_spec c h (Z.to_nat (used c)) E 0) as [[Hni ->]|(i & e & He & Hh & ->)];
    [rewrite (r_used _ _ Hr); lia|intros j e; by apply (rel_lookup c E)|by left|right].
  pose proof (r_pos _ _ Hr). pose proof (r_le _ _ Hr). pose proof (r_used _ _ Hr).
  pose proof (lookup_lt_Some _ _ _ He) as Hi.
  pose proof (Forall_lookup_1 _ _ _ _ Hcnt He) as Hc. cbn in Hc.
  cbn [mbind option_bind Nat.add]. rewrite i32_small by lia.
  rewrite (proj2 (Z.ltb_ge _ _)) by lia. rewrite Nat2Z.id, (rel_lookup c E i e Hr He). cbn.
  rewrite i32_small by lia. exists i, e. split_if.
  - eexists. split_and!; [done|done| |left; split_and!; [lia|done|]]; [done|].
    apply (rel_update c E i e); try done. unfold drop_user. by rewrite i32_small by lia.
  - set (e' := mk_entry _ _ _ _). pose proof (rel_slots c E Hr) as Hsl.
    assert (<[i := Some e']> (slots c) = (Some <$> <[i := e']> E) ++ drop (length E) (slots c)) as ->.
    { rewrite Hsl at 1. rewrite insert_app_l by (by rewrite length_fmap). by rewrite list_fmap_insert. }
    destruct (memmove_delete (Some <$> <[i := e']> E) (drop (length E) (slots c)) i)
      as (s & Hmm & Hlen); [by rewrite length_fmap, length_insert|].
    rewrite length_fmap, length_insert in Hmm.
    replace (Z.to_nat (used c) - i - 1)%nat with (length E - i - 1)%nat by lia.
    rewrite Hmm. cbn. eexists. split_and!; [done|done| |right; split_and!; [lia|done|]]; [done|].
    assert (delete i (Some <$> <[i := e']> E) = Some <$> delete i E) as ->.
    { rewrite <- list_fmap_delete. f_equal. apply list_delete_insert_same. }
    pose proof (length_delete E i ltac:(by eexists)) as Hld.
    destruct Hr as [Hp _ Hu Hsz Hle Hps Hso Hal]. rewrite length_drop in Hlen.
    constructor; cbn [slots system_page_size size used set_slots]; try done; try lia.
    + rewrite take_app_length' by (by rewrite length_fmap). done.
    + rewrite length_app, length_fmap. lia.
    + clear - Hso. revert i. induction Hso as [|x l Hso IH Hall]; intros [|i]; cbn;
        [constructor|constructor|done|constructor; [apply IH|by apply Forall_delete]].
    + by apply Forall_delete.
Qed.

(** ** Histories

    The registrations of a cache, by handle. *)

Definition contents (c : nccl_ofi_mr_cache_t) : gmap Z nccl_ofi_reg_entry_t :=
  list_to_map ((fun e => (handle e, e)) <$> omap id (take (Z.to_nat (used c)) (slots c))).

Inductive mr_op :=
| Lookup (k : nccl_ofi_mr_ckey)
| Insert (k : nccl_ofi_mr_ckey) (h : Z)
| Del (h : Z).

(** Memory is available: a growth of [n] slots gets [grow n], holding anything. *)
Definition mr_exec (grow : Z -> list (option nccl_ofi_reg_entry_t)) (c : nccl_ofi_mr_cache_t)
    (op : mr_op) : option (Z * nccl_ofi_mr_cache_t) :=
  match op with
  | Lookup k => nccl_ofi_mr_cache_lookup_entry c k
  | Insert k h => nccl_ofi_mr_cache_insert_entry (Some (grow (size c))) true c k h
  | Del h => nccl_ofi_mr_cache_del_entry c h
  end.

(** Callers pass buffers inside the address space and new, non-NULL handles. *)
Definition op_ok (page_size : Z) (m : gmap Z nccl_ofi_reg_entry_t) (op : mr_op) : Prop :=
  match op with
  | Lookup k => key_ok page_size k
  | Insert k h => key_ok page_size k /\ h <> NULL /\ m !! h = None
  | Del _ => True
  end.

Definition covers_key (page_size : Z) (k : nccl_ofi_mr_ckey) : nccl_ofi_reg_entry_t -> Prop :=
  covers_bytes page_size (nccl_ofi_mr_ckey_baseaddr k) (nccl_ofi_mr_ckey_len k).

(** A set of registrations with a number of users each. *)
Inductive mr_spec (page_size : Z) (m : gmap Z nccl_ofi_reg_entry_t)
  : mr_op -> Z -> gmap Z nccl_ofi_reg_entry_t -> Prop :=
| spec_hit k h e :
    m !! h = Some e -> covers_key page_size k e ->
    mr_spec page_size m (Lookup k) h
      (<[h := mk_entry (addr e) (pages e) (refcnt e + 1) h]> m)
| spec_miss k :
    (forall h e, m !! h = Some e -> ~ covers_key page_size k e) ->
    mr_spec page_size m (Lookup k) NULL m
| spec_exists k h h' e :
    m !! h' = Some e -> covers_key page_size k e ->
    mr_spec page_size m (Insert k h) (- EEXIST) m
| spec_insert k h e :
    (forall h e, m !! h = Some e -> ~ covers_key page_size k e) ->
    covers_key page_size k e -> refcnt e = 1 -> handle e = h ->
    mr_spec page_size m (Insert k h) 0 (<[h := e]> m)
| spec_unknown h :
    m !! h = None -> mr_spec page_size m (Del h) (- ENOENT) m
| spec_drop h e :
    m !! h = Some e -> 1 < refcnt e ->
    mr_spec page_size m (Del h) 0 (<[h := mk_entry (addr e) (pages e) (refcnt e - 1) h]> m)
| spec_last h e :
    m !! h = Some e -> refcnt e = 1 ->
    mr_spec page_size m (Del h) 1 (delete h m).

Inductive mr_reach (grow : Z -> list (option nccl_ofi_reg_entry_t)) (c0 : nccl_ofi_mr_cache_t)
  : nat -> nccl_ofi_mr_cache_t -> Prop :=
| mreach_init : mr_reach grow c0 0 c0
| mreach_step n c op r c' :
    mr_reach grow c0 n c -> op_ok (system_page_size c) (contents c) op ->
    mr_exec grow c op = Some (r, c') -> mr_reach grow c0 (S n) c'.

(** Entries [E] represent the registrations [m] after [n] operations. *)
Record rep (n : nat) (E : list nccl_ofi_reg_entry_t) (m : gmap Z nccl_ofi_reg_entry_t) : Prop := {
  rep_nodup : NoDup (handle <$> E);
  rep_map : m = list_to_map ((fun e => (handle e, e)) <$> E);
  rep_count : Forall (fun e => 1 <= refcnt e <= 1 + Z.of_nat n /\ handle e <> NULL) E;
  rep_len : (length E <= n)%nat;
}.

Lemma fst_pairs (E : list nccl_ofi_reg_entry_t) : ((fun e => (handle e, e)) <$> E).*1 = handle <$> E.
Proof. rewrite <- list_fmap_compose. done. Qed.

Lemma rep_lookup n E m h e : rep n E m -> m !! h = Some e <-> e ∈ E /\ handle e = h.
Proof.
  intros [Hnd -> _ _]. rewrite <- elem_of_list_to_map by (by rewrite fst_pairs).
  rewrite list_elem_of_fmap. split.
  - intros (x & [= -> ->] & Hx). done.
  - intros [He <-]. by exists e.
Qed.

Lemma rep_none n E m h : rep n E m -> m !! h = None <-> h ∉ handle <$> E.
Proof.
  intros [Hnd -> _ _]. rewrite <- not_elem_of_list_to_map. by rewrite fst_pairs.
Qed.

Lemma rep_perm n E E' m : E ≡ₚ E' -> rep n E m -> rep n E' m.
Proof.
  intros Hp [Hnd -> Hc Hl]. constructor.
  - by rewrite <- Hp.
  - apply list_to_map_proper; [by rewrite fst_pairs|by rewrite Hp].
  - by rewrite <- Hp.
  - by rewrite <- Hp.
Qed.

Lemma rep_cons n e E m :
  rep n E m -> m !! handle e = None -> 1 <= refcnt e <= 1 + Z.of_nat n -> handle e <> NULL ->
  (length E < n)%nat -> rep n (e :: E) (<[handle e := e]> m).
Proof.
  intros Hr Hn Hc Hh Hl. apply (rep_none n E) in Hn; [|done]. destruct Hr as [Hnd -> Hcs _].
  constructor; cbn; [by constructor|done|by constructor|done].
Qed.

Lemma rep_uncons n e E m : rep n (e :: E) m ->
  rep n E (delete (handle e) m) /\ m !! handle e = Some e.
Proof.
  intros Hr. assert (m !! handle e = Some e) as He by (apply (rep_lookup n (e :: E)); [done|split; [by left|done]]).
  split; [|done]. destruct Hr as [Hnd -> Hc Hl]. cbn in *.
  apply NoDup_cons in Hnd as [Hni Hnd]. apply Forall_cons in Hc as [_ Hc].
  constructor; [done| |done|lia]. cbn. rewrite delete_insert_id; [done|].
  apply not_elem_of_list_to_map_1. by rewrite fst_pairs.
Qed.

Lemma rep_weaken n E m : rep n E m -> rep (S n) E m.
Proof.
  intros [Hnd Hm Hc Hl]. constructor; [done|done| |lia].
  eapply Forall_impl; [exact Hc|]. cbn. intros e [? ?]. split; [lia|done].
Qed.

Lemma rep_update n E m i e e' :
  rep n E m -> E !! i = Some e -> handle e' = handle e -> 1 <= refcnt e' <= 2 + Z.of_nat n ->
  rep (S n) (<[i := e']> E) (<[handle e := e']> m).
Proof.
  intros Hr He Hh Hc. apply rep_weaken in Hr as Hr1.
  apply (rep_perm _ _ (e :: delete i E)) in Hr1; [|by apply delete_Permutation].
  destruct (rep_uncons _ _ _ _ Hr1) as [Hr2 Hm].
  assert (Forall (fun e => 1 <= refcnt e <= 1 + Z.of_nat (S n) /\ handle e <> NULL) (e :: delete i E))
    as [[_ Hnz] _]%Forall_cons by apply Hr1.
  pose proof (length_delete E i ltac:(by eexists)) as Hld. pose proof (lookup_lt_Some _ _ _ He).
  pose proof (rep_len _ _ _ Hr).
  apply (rep_perm _ (e' :: delete i E)).
  - symmetry. by apply list_insert_perm.
  - rewrite <- insert_delete_eq, <- Hh. rewrite <- Hh in Hr2.
    apply rep_cons; [done|apply lookup_delete_eq|lia|by rewrite Hh|lia].
Qed.

Lemma rep_delete n E m i e :
  rep n E m -> E !! i = Some e -> rep (S n) (delete i E) (delete (handle e) m).
Proof.
  intros Hr He. apply rep_weaken in Hr.
  apply (rep_perm _ _ (e :: delete i E)) in Hr; [|by apply delete_Permutation].
  by destruct (rep_uncons _ _ _ _ Hr).
Qed.

Lemma rep_insert n E m i e :
  rep n E m -> m !! handle e = None -> refcnt e = 1 -> handle e <> NULL ->
  rep (S n) (take i E ++ e :: drop i E) (<[handle e := e]> m).
Proof.
  intros Hr Hn Hc Hh. pose proof (rep_len _ _ _ Hr). apply rep_weaken in Hr.
  apply (rep_perm _ (e :: E)).
  - rewrite <- (take_drop i E) at 1. apply Permutation_middle.
  - apply rep_cons; [done|done|lia|done|lia].
Qed.

Lemma omap_Some_fmap {A} (l : list A) : omap id (Some <$> l) = l.
Proof. induction l as [|x l IH]; cbn; [done|]. f_equal. exact IH. Qed.

Lemma rel_contents c E n m : mr_rel c E -> rep n E m -> contents c = m.
Proof.
  intros Hr [_ -> _ _]. unfold contents.
  by rewrite (r_used _ _ Hr), Nat2Z.id, (r_slots _ _ Hr), omap_Some_fmap.
Qed.

Lemma mr_step_simulates grow c E n m op :
  (forall k, 0 <= k -> Z.of_nat (length (grow k)) = k) ->
  mr_rel c E -> rep n E m -> Z.of_nat n < 2 ^ 30 -> op_ok (system_page_size c) m op ->
  exists r c' E' m', mr_exec grow c op = Some (r, c') /\
    mr_spec (system_page_size c) m op r m' /\ mr_rel c' E' /\ rep (S n) E' m' /\
    system_page_size c' = system_page_size c.
Proof.
  intros Hgrow Hr Hrep Hn Hop. pose proof (rep_len _ _ _ Hrep) as Hlen.
  assert (forall P : nccl_ofi_reg_entry_t -> Prop, (forall e, e ∈ E -> ~ P e) ->
    forall h e, m !! h = Some e -> ~ P e) as Hall.
  { intros P HP h e He. apply HP. by apply (rep_lookup n E m h e Hrep) in He as [He _]. }
  assert (forall i e, E !! i = Some e -> m !! handle e = Some e) as Hmap.
  { intros i e He. apply (rep_lookup n E m _ _ Hrep). split; [by eapply list_elem_of_lookup_2|done]. }
  destruct op as [k|k h|h]; cbn [mr_exec op_ok] in *.
  - destruct (lookup_refines c E k Hr Hop) as (c' & Hp & _ & [(i & e & He & Hc & _ & Heq & Hr')|(Hnc & Heq & Hr')]).
    + pose proof (Forall_lookup_1 _ _ _ _ (rep_count _ _ _ Hrep) He) as [Hrc Hnz]. cbn in Hrc.
      assert (add_user e = mk_entry (addr e) (pages e) (refcnt e + 1) (handle e)) as Ha
        by (unfold add_user; by rewrite i32_small by lia).
      rewrite Ha in Hr'. eexists _, c', _, _. split_and!; [done|by eapply spec_hit; eauto|done| |done].
      apply (rep_update n E m i e); try done. cbn. lia.
    + exists NULL, c', E, m. split_and!; [done|by apply spec_miss, Hall|done|by apply rep_weaken|done].
  - destruct Hop as (Hk & Hnz & Hfresh).
    destruct (mr_insert_refines (Some (grow (size c))) c E k h Hr Hk)
      as [[(e & He & Hc) Heq]|(c' & i & e & Heq & Hp & Hnc & Hc & H1 & Hh & _ & Hr')].
    + rewrite (r_used _ _ Hr). lia.
    + intros _. exists (grow (size c)). split; [done|]. apply Hgrow. pose proof (r_pos _ _ Hr). lia.
    + apply list_elem_of_lookup_1 in He as [i He].
      eexists _, c, E, m. split_and!; [done|by eapply spec_exists; eauto|done|by apply rep_weaken|done].
    + eexists _, c', _, _. split_and!; [done|eapply spec_insert; [by apply Hall|exact Hc|done|exact Hh]|done| |done].
      rewrite <- Hh in *. by apply rep_insert.
  - assert (Forall (fun e => 1 <= refcnt e < 2 ^ 31) E) as Hcnt.
    { eapply Forall_impl; [apply Hrep|]. cbn. intros e [? _]. lia. }
    destruct (del_refines c E h Hr Hcnt)
      as [[Hni Heq]|(i & e & c' & He & Hh & Hp & [(H1 & Heq & Hr')|(H1 & Heq & Hr')])].
    + eexists _, c, E, m. split_and!; [done|apply spec_unknown; by apply (rep_none n E)|done|by apply rep_weaken|done].
    + pose proof (Forall_lookup_1 _ _ _ _ (rep_count _ _ _ Hrep) He) as [Hrc Hnz]. cbn in Hrc.
      assert (drop_user e = mk_entry (addr e) (pages e) (refcnt e - 1) (handle e)) as Ha
        by (unfold drop_user; by rewrite i32_small by lia).
      rewrite Ha in Hr'. rewrite Hh in *. eexists _, c', _, _.
      split_and!; [done|eapply spec_drop; [rewrite <- Hh; by eapply Hmap|done]|done| |done].
      rewrite <- Hh. apply (rep_update n E m i e); try done. cbn. lia.
    + eexists _, c', _, _. split_and!; [done|eapply spec_last; [rewrite <- Hh; by eapply Hmap|done]|done| |done].
      rewrite <- Hh. by apply rep_delete.
Qed.

Lemma init_rel_empty calloc_cache calloc_slots mutex_init n psz c :
  (exists k, 1 <= k < 64 /\ psz = 2 ^ k) -> 0 <= n < 2 ^ 31 ->
  nccl_ofi_mr_cache_init calloc_cache calloc_slots mutex_init n psz = Some c ->
  mr_rel c [] /\ rep 0 [] ∅ /\ system_page_size c = psz /\ size c = n /\ used c = 0.
Proof.
  intros Hp Hn. unfold nccl_ofi_mr_cache_init. repeat (split_if; [done|]).
  intros [= <-]. split_and!; try done.
  - constructor; cbn; try done; [rewrite length_replicate; lia|lia|lia|constructor].
  - constructor; cbn; try done. constructor.
Qed.

Lemma mr_reach_rel grow c0 n c :
  (forall k, 0 <= k -> Z.of_nat (length (grow k)) = k) ->
  mr_rel c0 [] -> mr_reach grow c0 n c -> Z.of_nat n <= 2 ^ 30 ->
  exists E, mr_rel c E /\ rep n E (contents c) /\ system_page_size c = system_page_size c0.
Proof.
  intros Hgrow H0 Hreach. induction Hreach as [|n c op r c' _ IH Hop Hex]; intros Hn.
  { exists []. assert (rep 0 [] (∅ : gmap Z nccl_ofi_reg_entry_t)) as Hr0
      by (constructor; cbn; try done; constructor).
    split_and!; [done| |done]. by rewrite (rel_contents c0 [] 0 ∅). }
  destruct IH as (E & Hr & Hrep & Hp); [lia|].
  destruct (mr_step_simulates grow c E n (contents c) op) as (r' & c2 & E' & m' & Hex' & _ & Hr' & Hrep' & Hp');
    [done|done|done|lia|done|].
  rewrite Hex in Hex'. injection Hex' as <- <-. exists E'.
  split_and!; [done| |congruence]. by rewrite (rel_contents c' E' (S n) m').
Qed.

(** C8. From a fresh cache, every history of lookups, inserts and deletes (up
    to 2^30 operations, with memory available) keeps exact user counts: a
    lookup hits if and only if some registration covers the pages of the
    buffer and then counts one more user, an insert is refused if and only if
    the buffer is covered already, and a delete reports 1 exactly when the last
    user of the handle leaves. No operation touches a missing slot. *)
Theorem mr_cache_refines calloc_cache calloc_slots mutex_init n psz c0 grow steps c op :
  (exists k, 1 <= k < 64 /\ psz = 2 ^ k) -> 0 <= n < 2 ^ 31 ->
  (forall k, 0 <= k -> Z.of_nat (length (grow k)) = k) ->
  nccl_ofi_mr_cache_init calloc_cache calloc_slots mutex_init n psz = Some c0 ->
  mr_reach grow c0 steps c -> Z.of_nat steps < 2 ^ 30 -> op_ok psz (contents c) op ->
  exists r c', mr_exec grow c op = Some (r, c') /\ mr_spec psz (contents c) op r (contents c').
Proof.
  intros Hp Hn Hgrow Hinit Hreach Hs Hop.
  destruct (init_rel_empty _ _ _ _ _ _ Hp Hn Hinit) as (H0 & _ & Hpsz & _).
  destruct (mr_reach_rel grow c0 steps c Hgrow H0 Hreach) as (E & Hr & Hrep & Hp0); [lia|].
  rewrite <- Hpsz, <- Hp0 in *.
  destruct (mr_step_simulates grow c E steps (contents c) op)
    as (r & c' & E' & m' & Hex & Hspec & Hr' & Hrep' & _); [done|done|done|lia|done|].
  exists r, c'. split; [done|]. by rewrite (rel_contents c' E' (S steps) m').
Qed.

Definition ex_grow (k : Z) : list (option nccl_ofi_reg_entry_t) := replicate (Z.to_nat k) None.
Definition ex_cache : nccl_ofi_mr_cache_t :=
  mk_cache [None] 4096 1 0 0 0.

Lemma mr_cache_refines_witness :
  exists r c', mr_exec ex_grow ex_cache (Insert (NCCL_OFI_MR_CKEY_IOVEC 10000 5000) 7) = Some (r, c') /\
    mr_spec 4096 (contents ex_cache) (Insert (NCCL_OFI_MR_CKEY_IOVEC 10000 5000) 7) r (contents c').
Proof.
  apply (mr_cache_refines true true 0 1 4096 ex_cache ex_grow 0).
  - by exists 12.
  - lia.
  - intros k Hk. unfold ex_grow. rewrite length_replicate. lia.
  - reflexivity.
  - constructor.
  - lia.
  - cbn. unfold key_ok. cbn. split_and!; (done || lia).
Defined.

(** A buffer inserted successfully is found by the next lookup of any
    buffer inside the same pages that no other registration covers; in
    particular the lookup of the same key returns the handle just inserted. *)
Theorem mr_insert_then_lookup calloc_cache calloc_slots mutex_init n psz c0 grow steps c k h c1 :
  (exists k, 1 <= k < 64 /\ psz = 2 ^ k) -> 0 <= n < 2 ^ 31 ->
  (forall k, 0 <= k -> Z.of_nat (length (grow k)) = k) ->
  nccl_ofi_mr_cache_init calloc_cache calloc_slots mutex_init n psz = Some c0 ->
  mr_reach grow c0 steps c -> Z.of_nat steps + 1 < 2 ^ 30 -> op_ok psz (contents c) (Insert k h) ->
  mr_exec grow c (Insert k h) = Some (0, c1) ->
  exists c2, mr_exec grow c1 (Lookup k) = Some (h, c2).
Proof.
  intros Hp Hn Hgrow Hinit Hreach Hs Hop Hins.
  destruct (init_rel_empty _ _ _ _ _ _ Hp Hn Hinit) as (H0 & _ & Hpsz & _).
  destruct (mr_reach_rel grow c0 steps c Hgrow H0 Hreach) as (E & Hr & Hrep & Hp0); [lia|].
  rewrite <- Hpsz, <- Hp0 in *. destruct Hop as (Hk & Hnz & Hfresh). cbn [mr_exec] in *.
  pose proof (rep_len _ _ _ Hrep).
  destruct (mr_insert_refines (Some (grow (size c))) c E k h Hr Hk)
    as [[_ Heq]|(c' & i & e & Heq & Hpc & Hnc & Hc & H1 & Hh & Hi & Hr')].
  - rewrite (r_used _ _ Hr). lia.
  - intros _. exists (grow (size c)). split; [done|]. apply Hgrow. pose proof (r_pos _ _ Hr). lia.
  - rewrite Hins in Heq. by injection Heq.
  - rewrite Hins in Heq. injection Heq as <-.
    destruct (lookup_refines c1 (take i E ++ e :: drop i E) k Hr')
      as (c2 & _ & _ & [(j & e2 & He2 & Hc2 & _ & Heq & _)|(Hno & _)]).
    + by rewrite Hpc.
    + exists c2. rewrite Heq. do 2 f_equal. rewrite <- Hh. f_equal.
      apply list_elem_of_lookup_2 in He2. rewrite elem_of_app, elem_of_cons in He2.
      rewrite Hpc in Hc2. destruct He2 as [Hin|[->|Hin]]; [exfalso|done|exfalso].
      * apply (Hnc e2); [|done]. rewrite <- (take_drop i E). set_solver.
      * apply (Hnc e2); [|done]. rewrite <- (take_drop i E). set_solver.
    + exfalso. apply (Hno e); [set_solver|]. by rewrite Hpc.
Qed.

Definition ex_key : nccl_ofi_mr_ckey := nccl_ofi_mr_ckey_mk_dmabuf 3 96 5000 10000.
Definition ex_cache1 : nccl_ofi_mr_cache_t :=
  default ex_cache (snd <$> mr_exec ex_grow ex_cache (Insert ex_key 7)).

Lemma mr_insert_then_lookup_witness :
  mr_exec ex_grow ex_cache (Insert ex_key 7) = Some (0, ex_cache1) /\
  exists c2, mr_exec ex_grow ex_cache1 (Lookup ex_key) = Some (7, c2).
Proof.
  split; [vm_compute; reflexivity|].
  apply (mr_insert_then_lookup true true 0 1 4096 ex_cache ex_grow 0 ex_cache).
  - by exists 12.
  - lia.
  - intros k Hk. unfold ex_grow. rewrite length_replicate. lia.
  - reflexivity.
  - constructor.
  - lia.
  - cbn. unfold key_ok. cbn. split_and!; (done || lia).
  - vm_compute. reflexivity.
Defined.

(** ** What an allocation failure leaves behind *)

(** When the array cannot be grown, insert reports -ENOMEM but keeps the
    doubled size: the next insert of an uncovered buffer believes there is
    room and writes past the end of the array. *)
Theorem mr_failed_grow_overflows c E k h k' h' :
  mr_rel c E -> used c = size c -> key_ok (system_page_size c) k -> key_ok (system_page_size c) k' ->
  (forall e, e ∈ E -> ~ covers_key (system_page_size c) k e) ->
  (forall e, e ∈ E -> ~ covers_key (system_page_size c) k' e) ->
  exists c1, nccl_ofi_mr_cache_insert_entry None true c k h = Some (- ENOMEM, c1) /\
    nccl_ofi_mr_cache_insert_entry None true c1 k' h' = None.
Proof.
  intros Hr Hfull Hk Hk' Hn Hn'.
  destruct (probe_spec c E k Hr Hk) as (pa & np & p & Hcp & _ & _ & Hscan & Hp).
  destruct (probe_spec c E k' Hr Hk') as (pa' & np' & p' & Hcp' & _ & _ & Hscan' & Hp').
  destruct p as [i|i]; [|destruct Hp as (e & He & Hc & _); exfalso; eapply Hn; [by eapply list_elem_of_lookup_2|done]].
  destruct p' as [i'|i']; [|destruct Hp' as (e & He & Hc & _); exfalso; eapply Hn'; [by eapply list_elem_of_lookup_2|done]].
  pose proof (r_size _ _ Hr). pose proof (r_pos _ _ Hr). pose proof (r_used _ _ Hr).
  set (c1 := mk_cache (slots c) (system_page_size c) (u64 (size c * 2)) (used c) (hit_count c) (miss_count c)).
  exists c1. unfold nccl_ofi_mr_cache_insert_entry. rewrite Hcp, Hscan. cbn [mbind option_bind].
  rewrite (proj2 (Z.eqb_eq _ _) Hfull). cbn [nccl_ofi_mr_cache_grow].
  split; [reflexivity|].
  cbn [system_page_size c1]. rewrite Hcp'.
  assert (forall n j, scan n j c1 pa' np' = scan n j c pa' np') as Hsame.
  { induction n as [|n IH]; intros j; cbn [scan slots c1 system_page_size]; [done|].
    destruct (slots c !! j) as [[e|]|]; [|done|done]. split_if; [done|]. split_if; [done|]. apply IH. }
  cbn [used c1]. rewrite Hsame, Hscan'. cbn [mbind option_bind size c1 used].
  rewrite Hfull, wrap_small by lia. rewrite (proj2 (Z.eqb_neq _ _)) by lia. cbn [Z.eqb negb slots c1 used].
  unfold memmove. rewrite decide_False; [done|]. destruct Hp' as [Hi' _]. lia.
Qed.

Lemma ex_rel1 : mr_rel ex_cache1 [mk_entry 8192 2 1 7].
Proof.
  assert (ex_cache1 = mk_cache [Some (mk_entry 8192 2 1 7)] 4096 1 1 0 0) as ->
    by (vm_compute; reflexivity).
  constructor; cbn; try done; try lia.
  - by exists 12.
  - repeat constructor.
  - constructor; [|constructor]. unfold entry_ok. cbn. split_and!; try lia. by exists 2.
Qed.

Lemma mr_failed_grow_overflows_witness :
  exists c1, nccl_ofi_mr_cache_insert_entry None true ex_cache1 (nccl_ofi_mr_ckey_mk_vec 100000 10) 8
      = Some (- ENOMEM, c1) /\
    nccl_ofi_mr_cache_insert_entry None true c1 (nccl_ofi_mr_ckey_mk_vec 200000 10) 9 = None.
Proof.
  apply (mr_failed_grow_overflows ex_cache1 [mk_entry 8192 2 1 7]).
  - apply ex_rel1.
  - vm_compute. reflexivity.
  - change (system_page_size ex_cache1) with 4096. unfold key_ok. cbn. lia.
  - change (system_page_size ex_cache1) with 4096. unfold key_ok. cbn. lia.
  - change (system_page_size ex_cache1) with 4096.
    intros e ->%list_elem_of_singleton [_ Hc]. cbn in Hc. lia.
  - change (system_page_size ex_cache1) with 4096.
    intros e ->%list_elem_of_singleton [_ Hc]. cbn in Hc. lia.
Defined.

(** Scanning stops on the NULL pointer before any later entry is seen. *)
Lemma scan_null c c1 pa np j : forall i n,
  (i <= j)%nat -> (j < i + n)%nat -> slots c1 !! j = Some None ->
  (forall l, (l < j)%nat -> slots c1 !! l = slots c !! l) ->
  (forall l e, (i <= l < j)%nat -> slots c !! l = Some (Some e) ->
     addr e <= pa /\ entry_covers (system_page_size c1) pa np e = false) ->
  (forall l, (i <= l < j)%nat -> exists e, slots c !! l = Some (Some e)) ->
  scan n i c1 pa np = None.
Proof.
  intros i n. revert i. induction n as [|n IH]; intros i Hij Hjn Hnull Hsame Hlow Hall; [lia|].
  cbn [scan]. destruct (decide (i = j)) as [->|Hne]; [by rewrite Hnull|].
  destruct (Hall i) as [e He]; [lia|]. rewrite Hsame, He by lia.
  destruct (Hlow i e) as [Ha Hc]; [lia|done|].
  rewrite (proj2 (Z.ltb_ge _ _)) by lia. rewrite Hc.
  apply IH; try done; try lia.
  - intros l e' Hl. apply Hlow. lia.
  - intros l Hl. apply Hall. lia.
Qed.

(** When the new entry cannot be allocated, insert reports -ENOMEM but has
    already shifted the array: if some registration lies above the buffer, a
    NULL pointer stays in the used part and the next lookup of the same buffer
    reads through it. *)
Theorem mr_failed_entry_crashes c E k h realloc :
  mr_rel c E -> used c < size c -> key_ok (system_page_size c) k ->
  (forall e, e ∈ E -> ~ covers_key (system_page_size c) k e) ->
  (exists e, e ∈ E /\ nccl_ofi_mr_ckey_baseaddr k < addr e) ->
  exists c1, nccl_ofi_mr_cache_insert_entry realloc false c k h = Some (- ENOMEM, c1) /\
    nccl_ofi_mr_cache_lookup_entry c1 k = None.
Proof.
  intros Hr Hroom Hk Hn (e0 & He0 & Habove).
  destruct (probe_spec c E k Hr Hk) as (pa & np & p & Hcp & Hok & Hcov & Hscan & Hp).
  destruct p as [i|i]; [|destruct Hp as (e & He & Hc & _); exfalso; eapply Hn; [by eapply list_elem_of_lookup_2|done]].
  destruct Hp as (Hi & _ & Hlo & Hhi). apply list_elem_of_lookup_1 in He0 as [j0 Hj0].
  pose proof (r_size _ _ Hr). pose proof (r_used _ _ Hr) as Hu. pose proof (rel_slots c E Hr) as Hsl.
  assert (i < length E)%nat as Hlt.
  { pose proof (lookup_lt_Some _ _ _ Hj0). destruct (decide (j0 < i)%nat) as [Hj|]; [|lia].
    pose proof (Hlo j0 e0 Hj0 Hj) as [Hle _]. unfold covers_bytes in Hcov. cbn in Hcov. lia. }
  destruct (drop (length E) (slots c)) as [|x rest] eqn:Hd.
  { apply (f_equal length) in Hd. rewrite length_drop in Hd. cbn in Hd. lia. }
  destruct (memmove_insert (Some <$> E) rest x i) as (s & Hmm & Hins); [rewrite length_fmap; lia|].
  rewrite length_fmap in Hmm. unfold nccl_ofi_mr_cache_insert_entry. rewrite Hcp, Hscan.
  cbn [mbind option_bind]. rewrite (proj2 (Z.eqb_neq _ _)) by lia. cbn [Z.eqb negb].
  rewrite Hu, Nat2Z.id, Hsl, Hmm. cbn [mbind option_bind]. rewrite Hins.
  eexists. split; [done|]. unfold nccl_ofi_mr_cache_lookup_entry. cbn [system_page_size set_slots used].
  rewrite Hcp. set (c1 := set_slots _ _ _).
  assert (length (take i (Some <$> E)) = i) as Hti by (rewrite length_take, length_fmap; lia).
  rewrite (scan_null c c1 pa np i); [done|lia|lia| | | |].
  - cbn [slots c1 set_slots]. rewrite lookup_app_r, Hti, Nat.sub_diag by lia. done.
  - intros l Hl. cbn [slots c1 set_slots]. rewrite lookup_app_l, lookup_take_lt, Hsl, lookup_app_l
      by (rewrite ?Hti, ?length_fmap; lia). done.
  - intros l e Hl He. apply (Hlo l); [|lia]. rewrite Hsl, lookup_app_l in He by (rewrite length_fmap; lia).
    rewrite list_lookup_fmap in He. by destruct (E !! l); simplify_eq/=.
  - intros l Hl. destruct (lookup_lt_is_Some_2 E l) as [e He]; [lia|].
    exists e. by apply (rel_lookup c E).
Qed.

Definition ex_cache2 : nccl_ofi_mr_cache_t :=
  mk_cache [Some (mk_entry 40960 2 1 7); None] 4096 2 1 0 0.

Lemma mr_failed_entry_crashes_witness :
  exists c1, nccl_ofi_mr_cache_insert_entry None false ex_cache2 (nccl_ofi_mr_ckey_mk_vec 10000 10) 8
      = Some (- ENOMEM, c1) /\
    nccl_ofi_mr_cache_lookup_entry c1 (nccl_ofi_mr_ckey_mk_vec 10000 10) = None.
Proof.
  apply (mr_failed_entry_crashes ex_cache2 [mk_entry 40960 2 1 7]).
  - constructor; cbn; try done; try lia; [by exists 12|repeat constructor|].
    constructor; [|constructor]. unfold entry_ok. cbn. split_and!; try lia. by exists 10.
  - cbn. lia.
  - unfold key_ok. cbn. lia.
  - intros e ->%list_elem_of_singleton [Hc _]. cbn in Hc. lia.
  - exists (mk_entry 40960 2 1 7). split; [by left|]. cbn. lia.
Defined.

End MrCache.
