(* ===== verification/Deque.v ===== *)
(** * nccl_ofi_deque.h, nccl_ofi_deque.c: intrusive double-ended queues

    The queue is a circular doubly linked list through structures its users
    own. The memory of the [prev] and [next] fields is a pair of maps keyed by
    the address of the structure; following a pointer to no structure gives
    [None]. The theorems show that the pointer operations implement the list
    operations, and that the iteration macro visits the list in order. *)

From S2P Require Import Prelude.

Module Deque.

(** ** Memory *)

Record deque_mem := mk_mem {
  nexts : gmap Z Z;
  prevs : gmap Z Z;
}.

Definition set_next (e n : Z) (m : deque_mem) : option deque_mem :=
  if decide (is_Some (nexts m !! e)) then Some (mk_mem (<[e := n]> (nexts m)) (prevs m)) else None.
Definition set_prev (e p : Z) (m : deque_mem) : option deque_mem :=
  if decide (is_Some (prevs m !! e)) then Some (mk_mem (nexts m) (<[e := p]> (prevs m))) else None.

(** ** Operations; [head] is the address of [deque->head]. *)

(** A new deque in fresh memory: the return code, and the memory with the head
    linked to itself. *)
Definition nccl_ofi_deque_init (malloc_ok : bool) (mutex_init head : Z) (m : deque_mem)
    : Z * option deque_mem :=
  if negb malloc_ok then (- ENOMEM, None)
  else if negb (mutex_init =? 0) then (- mutex_init, None)
  else (0, Some (mk_mem (<[head := head]> (nexts m)) (<[head := head]> (prevs m)))).

Definition nccl_ofi_deque_finalize (mutex_destroy : Z) : Z :=
  if negb (mutex_destroy =? 0) then - mutex_destroy else 0.

Definition nccl_ofi_deque_insert_back (head elem : Z) (m : deque_mem) : option (Z * deque_mem) :=
  m ← set_next elem head m;
  hp ← prevs m !! head;
  m ← set_prev elem hp m;
  hp ← prevs m !! head;
  m ← set_next hp elem m;
  m ← set_prev head elem m;
  Some (0, m).

Definition nccl_ofi_deque_insert_front (head elem : Z) (m : deque_mem) : option (Z * deque_mem) :=
  hn ← nexts m !! head;
  m ← set_next elem hn m;
  m ← set_prev elem head m;
  hn ← nexts m !! head;
  m ← set_prev hn elem m;
  m ← set_next head elem m;
  Some (0, m).

Definition nccl_ofi_deque_isempty (head : Z) (m : deque_mem) : option bool :=
  n ← nexts m !! head; Some (n =? head).

(** Returned element (NULL when empty) and memory; the return code is 0. *)
Definition nccl_ofi_deque_remove_front (head : Z) (m : deque_mem) : option (Z * deque_mem) :=
  empty ← nccl_ofi_deque_isempty head m;
  if (empty : bool) then Some (NULL, m)
  else
    elem ← nexts m !! head;
    n ← nexts m !! elem;
    m ← set_next head n m;
    n ← nexts m !! elem;
    m ← set_prev n head m;
    Some (elem, m).

Definition nccl_ofi_deque_remove (elem : Z) (m : deque_mem) : option deque_mem :=
  p ← prevs m !! elem;
  n ← nexts m !! elem;
  m ← set_next p n m;
  n ← nexts m !! elem;
  p ← prevs m !! elem;
  m ← set_prev n p m;
  m ← set_prev elem NULL m;
  set_next elem NULL m.

Definition nccl_ofi_deque_get_front (head : Z) (m : deque_mem) : option Z :=
  empty ← nccl_ofi_deque_isempty head m;
  if (empty : bool) then Some NULL else nexts m !! head.

Definition nccl_ofi_deque_get_next (head elem : Z) (m : deque_mem) : option Z :=
  n ← nexts m !! elem; Some (if n =? head then NULL else n).

(** NCCL_OFI_DEQUE_FOREACH with a body that leaves the deque alone: the
    elements visited, in order. *)
Fixpoint foreach_loop (fuel : nat) (head elem : Z) (m : deque_mem) : option (list Z) :=
  if elem =? NULL then Some []
  else
    match fuel with
    | O => None
    | S fuel' =>
        next ← nccl_ofi_deque_get_next head elem m;
        rest ← foreach_loop fuel' head next m;
        Some (elem :: rest)
    end.

Definition NCCL_OFI_DEQUE_FOREACH (head : Z) (m : deque_mem) : option (list Z) :=
  elem ← nccl_ofi_deque_get_front head m;
  foreach_loop (size (nexts m)) head elem m.

(** ** Abstraction *)

(** The structures [l] are linked from [a] to [z]. *)
Fixpoint path (m : deque_mem) (a : Z) (l : list Z) (z : Z) : Prop :=
  match l with
  | [] => nexts m !! a = Some z /\ prevs m !! z = Some a
  | b :: l' => nexts m !! a = Some b /\ prevs m !! b = Some a /\ path m b l' z
  end.

(** The deque at [head] holds the elements [l], front first. *)
Definition is_deque (m : deque_mem) (head : Z) (l : list Z) : Prop :=
  NoDup (head :: l) /\ (NULL ∉ head :: l) /\ path m head l head.

Inductive deque_op :=
| PushBack (e : Z) | PushFront (e : Z) | PopFront | Remove (e : Z).

Definition deque_exec (head : Z) (m : deque_mem) (op : deque_op) : option (Z * deque_mem) :=
  match op with
  | PushBack e => nccl_ofi_deque_insert_back head e m
  | PushFront e => nccl_ofi_deque_insert_front head e m
  | PopFront => nccl_ofi_deque_remove_front head m
  | Remove e => m' ← nccl_ofi_deque_remove e m; Some (0, m')
  end.

(** The list operations; [None] is a misuse: pushing an element that is in the
    deque already, removing one that is not. *)
Definition list_exec (head : Z) (l : list Z) (op : deque_op) : option (Z * list Z) :=
  match op with
  | PushBack e => if decide (e ∈ NULL :: head :: l) then None else Some (0, l ++ [e])
  | PushFront e => if decide (e ∈ NULL :: head :: l) then None else Some (0, e :: l)
  | PopFront => match l with [] => Some (NULL, []) | e :: l' => Some (e, l') end
  | Remove e => if decide (e ∈ l) then Some (0, filter (fun x => x <> e) l) else None
  end.

Fixpoint run {A B} (exec : A -> deque_op -> option (B * A)) (s : A) (ops : list deque_op)
    : option (list B * A) :=
  match ops with
  | [] => Some ([], s)
  | op :: ops' =>
      '(r, s') ← exec s op; '(rs, s'') ← run exec s' ops'; Some (r :: rs, s'')
  end.

(** Every structure the operations name exists in memory. *)
Definition op_elem (op : deque_op) : list Z :=
  match op with PushBack e | PushFront e | Remove e => [e] | PopFront => [] end.

Definition has_struct (m : deque_mem) (e : Z) : Prop :=
  is_Some (nexts m !! e) /\ is_Some (prevs m !! e).

(** ** Paths *)

Lemma set_next_eq e n m :
  is_Some (nexts m !! e) -> set_next e n m = Some (mk_mem (<[e := n]> (nexts m)) (prevs m)).
Proof. intros H. unfold set_next. by rewrite decide_True. Qed.

Lemma set_prev_eq e p m :
  is_Some (prevs m !! e) -> set_prev e p m = Some (mk_mem (nexts m) (<[e := p]> (prevs m))).
Proof. intros H. unfold set_prev. by rewrite decide_True. Qed.

Lemma path_app m l1 : forall a b l2 z,
  path m a (l1 ++ b :: l2) z <-> path m a l1 b /\ path m b l2 z.
Proof. induction l1 as [|c l1 IH]; intros a b l2 z; cbn; [tauto|]. rewrite IH. tauto. Qed.

(** Updates outside the sources and the targets of the links. *)
Lemma path_frame m m' l : forall a z,
  (forall x, x ∈ a :: l -> nexts m' !! x = nexts m !! x) ->
  (forall x, x ∈ l ++ [z] -> prevs m' !! x = prevs m !! x) ->
  path m a l z -> path m' a l z.
Proof.
  induction l as [|b l IH]; intros a z Hn Hp; cbn.
  - rewrite Hn, Hp by set_solver. done.
  - rewrite Hn, Hp by set_solver. intros (? & ? & ?). split_and!; try done.
    apply IH; [intros x Hx; apply Hn; set_solver|intros x Hx; apply Hp; set_solver|done].
Qed.

Lemma path_first m a l z :
  path m a l z -> nexts m !! a = Some (hd z l) /\ prevs m !! hd z l = Some a.
Proof. destruct l; cbn; tauto. Qed.

Lemma path_last m l : forall a z,
  path m a l z -> nexts m !! List.last l a = Some z /\ prevs m !! z = Some (List.last l a).
Proof.
  induction l as [|b l IH]; intros a z; cbn [path]; [done|].
  intros (_ & _ & H). rewrite list_last_cons. by apply IH.
Qed.

Lemma path_struct m l : forall a z x, path m a l z -> x ∈ l -> has_struct m x.
Proof.
  induction l as [|b l IH]; intros a z x; [set_solver|]. cbn.
  intros (Hn & Hp & Hl) [->|Hx]%elem_of_cons; [|by eapply IH].
  apply path_first in Hl as [? _]. split; by eexists.
Qed.

(** Rerouting the last link of a path. *)
Lemma path_relink_last m m' l a z z' :
  path m a l z -> NoDup (a :: l) -> z ∉ l -> z' ∉ l ->
  (forall x, x ∈ a :: l -> x <> List.last l a -> nexts m' !! x = nexts m !! x) ->
  (forall x, x ∈ l -> prevs m' !! x = prevs m !! x) ->
  nexts m' !! List.last l a = Some z' -> prevs m' !! z' = Some (List.last l a) ->
  path m' a l z'.
Proof.
  revert a. induction l as [|b l IH]; intros a Hp Hnd Hz Hz' Hn Hpv H1 H2; [done|].
  rewrite list_last_cons in *. destruct Hp as (Ha & Hb & Hl).
  assert (List.last l b ∈ b :: l) as Hin.
  { destruct l as [|c l] using rev_ind; [by left|]. rewrite List.last_last. right.
    apply elem_of_app. right. by left. }
  cbn. split_and!.
  - rewrite Hn; [done|by left|]. intros ->. by apply NoDup_cons in Hnd as [Hnd _].
  - rewrite Hpv; [done|by left].
  - apply NoDup_cons in Hnd as [_ Hnd]. apply not_elem_of_cons in Hz as [_ Hz], Hz' as [_ Hz'].
    apply IH; [done|done|done|done| | |done|done].
    + intros x Hx Hne. apply Hn; [by right|done].
    + intros x Hx. apply Hpv. by right.
Qed.

(** ** Each operation implements the list operation *)

Lemma last_in (l : list Z) (a : Z) : List.last l a ∈ a :: l.
Proof.
  destruct l as [|c l] using rev_ind; [by left|]. rewrite List.last_last. right.
  apply elem_of_app. right. by left.
Qed.

Lemma has_struct_insert m x e n p :
  has_struct m x -> has_struct (mk_mem (<[e := n]> (nexts m)) (prevs m)) x /\
    has_struct (mk_mem (nexts m) (<[e := p]> (prevs m))) x.
Proof. intros [? ?]. repeat split; cbn; rewrite ?lookup_insert_is_Some'; tauto. Qed.

Lemma insert_back_spec m head l e :
  is_deque m head l -> e ∉ NULL :: head :: l -> has_struct m e ->
  exists m', nccl_ofi_deque_insert_back head e m = Some (0, m') /\
    is_deque m' head (l ++ [e]) /\ forall x, has_struct m x -> has_struct m' x.
Proof.
  intros (Hnd & Hnull & Hp) He [Hsn Hsp]. rewrite !not_elem_of_cons in He. destruct He as (He0 & Heh & Hel).
  destruct (path_last _ _ _ _ Hp) as [Hln Hlp]. pose proof (last_in l head) as Hpin.
  set (p := List.last l head) in *.
  assert (p <> e) as Hpe by (intros ->; apply elem_of_cons in Hpin as [?|?]; congruence).
  pose proof Hnd as [Hhl _]%NoDup_cons.
  unfold nccl_ofi_deque_insert_back. rewrite set_next_eq by done. cbn [mbind option_bind prevs].
  rewrite Hlp. cbn [mbind option_bind]. rewrite set_prev_eq by done. cbn [mbind option_bind prevs nexts].
  rewrite lookup_insert_ne, Hlp by done. cbn [mbind option_bind].
  rewrite set_next_eq by (cbn; rewrite lookup_insert_ne by done; by eexists). cbn [mbind option_bind].
  rewrite set_prev_eq by (cbn; rewrite lookup_insert_ne by done; by eexists). cbn [mbind option_bind nexts prevs].
  eexists. split; [done|]. set (m' := mk_mem _ _). split.
  - split_and!.
    + change (head :: l ++ [e]) with ((head :: l) ++ [e]). apply NoDup_app.
      split_and!; [done| |apply NoDup_singleton].
      intros x Hx ->%list_elem_of_singleton. apply elem_of_cons in Hx as [?|?]; congruence.
    + change (head :: l ++ [e]) with ((head :: l) ++ [e]). rewrite elem_of_app, list_elem_of_singleton.
      intros [?|?]; congruence.
    + apply path_app. split.
      * apply (path_relink_last m m' l head head e); [done|done|done|done| | | |]; cbn [nexts prevs m']; fold p.
        -- intros x Hx Hne. rewrite lookup_insert_ne by congruence. rewrite lookup_insert_ne; [done|].
           intros ->. apply elem_of_cons in Hx as [?|?]; congruence.
        -- intros x Hx. rewrite lookup_insert_ne by congruence. rewrite lookup_insert_ne by congruence. done.
        -- by rewrite lookup_insert_eq.
        -- rewrite lookup_insert_ne, lookup_insert_eq by done. done.
      * cbn [path nexts prevs m']. rewrite lookup_insert_ne, !lookup_insert_eq by done. done.
  - intros x [Hx1 Hx2]. split; cbn; rewrite !lookup_insert_is_Some'; tauto.
Qed.

Lemma insert_front_spec m head l e :
  is_deque m head l -> e ∉ NULL :: head :: l -> has_struct m e ->
  exists m', nccl_ofi_deque_insert_front head e m = Some (0, m') /\
    is_deque m' head (e :: l) /\ forall x, has_struct m x -> has_struct m' x.
Proof.
  intros (Hnd & Hnull & Hp) He [Hsn Hsp]. rewrite !not_elem_of_cons in He. destruct He as (He0 & Heh & Hel).
  destruct (path_first _ _ _ _ Hp) as [Hfn Hfp]. set (f := hd head l) in *.
  assert (f <> e) as Hfe by (unfold f; destruct l; cbn; [done|apply not_elem_of_cons in Hel as [? _]; done]).
  pose proof Hnd as [Hhl Hndl]%NoDup_cons. apply not_elem_of_cons in Hnull as [Hnh Hnl].
  unfold nccl_ofi_deque_insert_front. rewrite Hfn. cbn [mbind option_bind].
  rewrite set_next_eq by done. cbn [mbind option_bind]. rewrite set_prev_eq by done.
  cbn [mbind option_bind nexts prevs]. rewrite lookup_insert_ne, Hfn by done. cbn [mbind option_bind].
  rewrite set_prev_eq by (cbn; rewrite lookup_insert_ne by done; by eexists). cbn [mbind option_bind].
  rewrite set_next_eq by (cbn; rewrite lookup_insert_ne by done; by eexists). cbn [mbind option_bind nexts prevs].
  eexists. split; [done|]. set (m' := mk_mem _ _). split.
  - split_and!.
    + rewrite !NoDup_cons, not_elem_of_cons. done.
    + rewrite !not_elem_of_cons. done.
    + cbn [path nexts prevs m']. rewrite lookup_insert_eq, (lookup_insert_ne _ f e), lookup_insert_eq by done.
      split_and!; [done|done|]. destruct l as [|b l]; cbn [path nexts prevs m'].
      * rewrite lookup_insert_ne, !lookup_insert_eq by done. done.
      * rewrite lookup_insert_ne, !lookup_insert_eq by done. split_and!; [done|done|].
        destruct Hp as (_ & _ & Hp). apply NoDup_cons in Hndl as [Hbl _].
        apply not_elem_of_cons in Hhl as [Hhb Hhl], Hel as [Heb Hel].
        apply (path_frame m); [| |done]; intros x Hx; cbn [nexts prevs m'];
          (rewrite !lookup_insert_ne; [done| |]); intros <-.
        -- apply elem_of_cons in Hx as [?|?]; congruence.
        -- apply elem_of_cons in Hx as [?|?]; congruence.
        -- apply elem_of_app in Hx as [?| ->%list_elem_of_singleton]; congruence.
        -- apply elem_of_app in Hx as [?|Hx%list_elem_of_singleton]; cbn in *; congruence.
  - intros x [Hx1 Hx2]. split; cbn; rewrite !lookup_insert_is_Some'; tauto.
Qed.

Lemma remove_front_spec m head l :
  is_deque m head l ->
  exists m', nccl_ofi_deque_remove_front head m = Some (hd NULL l, m') /\
    is_deque m' head (tail l) /\ forall x, has_struct m x -> has_struct m' x.
Proof.
  intros (Hnd & Hnull & Hp). unfold nccl_ofi_deque_remove_front, nccl_ofi_deque_isempty.
  destruct (path_first _ _ _ _ Hp) as [Hfn _]. rewrite Hfn. cbn [mbind option_bind].
  destruct l as [|e l]; cbn [hd tail] in *.
  { rewrite Z.eqb_refl. exists m. done. }
  pose proof Hnd as [Hhl Hndl]%NoDup_cons. apply not_elem_of_cons in Hhl as [Hhe Hhl].
  apply NoDup_cons in Hndl as [Hel Hndl].
  rewrite (proj2 (Z.eqb_neq _ _)) by done. destruct Hp as (_ & _ & Hp).
  destruct (path_first _ _ _ _ Hp) as [Hen Hep]. set (n := hd head l) in *. rewrite Hen.
  cbn [mbind option_bind]. rewrite set_next_eq by (by eexists). cbn [mbind option_bind nexts].
  rewrite lookup_insert_ne, Hen by done. cbn [mbind option_bind].
  rewrite set_prev_eq by (by eexists). cbn [mbind option_bind nexts prevs].
  eexists. split; [done|]. set (m' := mk_mem _ _). rewrite !not_elem_of_cons in Hnull. split.
  - split_and!; [by apply NoDup_cons|rewrite not_elem_of_cons; tauto|].
    destruct l as [|b l]; cbn [path nexts prevs m' n hd]; rewrite ?lookup_insert_eq; [done|].
    split_and!; [done|done|]. destruct Hp as (_ & _ & Hp).
    apply NoDup_cons in Hndl as [Hbl _]. apply not_elem_of_cons in Hhl as [Hhb Hhl].
    apply (path_frame m); [| |done]; intros x Hx; cbn [nexts prevs m' n hd];
      (rewrite lookup_insert_ne; [done|]); intros <-.
    + apply elem_of_cons in Hx as [?|?]; congruence.
    + apply elem_of_app in Hx as [?|Hx%list_elem_of_singleton]; congruence.
  - intros x [Hx1 Hx2]. split; cbn; rewrite !lookup_insert_is_Some'; tauto.
Qed.

Lemma remove_spec m head l1 e l2 :
  is_deque m head (l1 ++ e :: l2) ->
  exists m', nccl_ofi_deque_remove e m = Some m' /\
    is_deque m' head (l1 ++ l2) /\ forall x, has_struct m x -> has_struct m' x.
Proof.
  intros (Hnd & Hnull & Hp). apply path_app in Hp as [Hp1 Hp2].
  destruct (path_last _ _ _ _ Hp1) as [Hpn Hep]. destruct (path_first _ _ _ _ Hp2) as [Hen Hnp].
  pose proof (last_in l1 head) as Hpin. set (p := List.last l1 head) in *. set (n := hd head l2) in *.
  apply NoDup_cons in Hnd as [Hh Hnd]. rewrite elem_of_app, elem_of_cons in Hh.
  apply NoDup_app in Hnd as (Hnd1 & Hd12 & Hnd2). apply NoDup_cons in Hnd2 as [He2 Hnd2].
  assert (e ∉ l1) as He1 by (intros He; apply (Hd12 e He); by left).
  assert (p <> e) as Hpe by (intros Heq; rewrite Heq in Hpin; apply elem_of_cons in Hpin as [?|?]; [intuition congruence|done]).
  assert (n <> e) as Hne.
  { unfold n. destruct l2; cbn; [intuition congruence|]. intros ->. apply He2. by left. }
  unfold nccl_ofi_deque_remove. rewrite Hep, Hen. cbn [mbind option_bind].
  rewrite set_next_eq by (by eexists). cbn [mbind option_bind nexts prevs].
  rewrite lookup_insert_ne, Hen by done. cbn [mbind option_bind]. rewrite Hep. cbn [mbind option_bind].
  rewrite set_prev_eq by (by eexists). cbn [mbind option_bind].
  rewrite set_prev_eq by (cbn; rewrite lookup_insert_ne by done; by eexists). cbn [mbind option_bind].
  rewrite set_next_eq by (cbn; rewrite lookup_insert_ne by done; by eexists). cbn [nexts prevs].
  eexists. split; [done|]. set (m' := mk_mem _ _).
  assert (forall x, x <> e -> x <> p -> nexts m' !! x = nexts m !! x) as Hsn
    by (intros x ? ?; cbn; by rewrite !lookup_insert_ne).
  assert (forall x, x <> e -> x <> n -> prevs m' !! x = prevs m !! x) as Hsp
    by (intros x ? ?; cbn; by rewrite !lookup_insert_ne).
  assert (nexts m' !! p = Some n /\ prevs m' !! n = Some p) as [Hn' Hp'].
  { cbn. rewrite !(lookup_insert_ne _ e) by done. by rewrite !lookup_insert_eq. }
  assert (path m' head l1 n) as Hfirst.
  { apply (path_relink_last m m' l1 head e n); [done|apply NoDup_cons; tauto|done| | | |exact Hn'|exact Hp'].
    - unfold n. destruct l2 as [|b l2]; cbn; [tauto|]. intros Hb. apply (Hd12 b Hb). right. by left.
    - intros x Hx Hxp. apply Hsn; [|done]. intros ->. apply elem_of_cons in Hx as [?|?]; [intuition congruence|done].
    - intros x Hx. apply Hsp; [congruence|]. intros ->. unfold n in Hx.
      destruct l2 as [|b l2]; cbn in Hx; [tauto|]. apply (Hd12 b Hx). right. by left. }
  split; [split_and!|].
  - apply NoDup_cons. rewrite elem_of_app. split; [tauto|]. apply NoDup_app. split_and!; try done.
    intros x Hx Hx2. apply (Hd12 x Hx). by right.
  - rewrite not_elem_of_cons, elem_of_app in *. rewrite elem_of_cons in Hnull. tauto.
  - destruct l2 as [|b l2]; [by rewrite app_nil_r|]. apply path_app. split; [exact Hfirst|].
    destruct Hp2 as (_ & _ & Hp2). apply NoDup_cons in Hnd2 as [Hb2 _]. apply not_elem_of_cons in He2 as [Heb He2].
    cbn [hd] in n. apply (path_frame m); [| |exact Hp2].
    + intros x Hx. apply Hsn.
      * intros ->. apply elem_of_cons in Hx as [?|?]; congruence.
      * intros ->. apply elem_of_cons in Hpin as [Hph|Hpl].
        -- rewrite Hph in Hx. apply Hh. right. right. exact Hx.
        -- apply (Hd12 p Hpl). right. exact Hx.
    + intros x Hx. apply elem_of_app in Hx as [Hx|Hx%list_elem_of_singleton].
      * apply Hsp; [congruence|]. unfold n. intros ->. done.
      * subst x. apply Hsp; [intros ->; tauto|]. unfold n. intros ->. apply Hh. right. right. by left.
  - intros x [Hx1 Hx2]. split; cbn; rewrite !lookup_insert_is_Some'; tauto.
Qed.

(** ** Runs *)

Lemma step_simulates m head l op r l' :
  is_deque m head l -> (forall e, e ∈ op_elem op -> has_struct m e) ->
  list_exec head l op = Some (r, l') ->
  exists m', deque_exec head m op = Some (r, m') /\ is_deque m' head l' /\
    forall x, has_struct m x -> has_struct m' x.
Proof.
  intros Hd Hs. destruct op as [e|e| |e]; cbn [list_exec deque_exec op_elem] in *.
  - case_decide; [done|]. intros [= <- <-]. apply insert_back_spec; [done|done|apply Hs; by left].
  - case_decide; [done|]. intros [= <- <-]. apply insert_front_spec; [done|done|apply Hs; by left].
  - destruct (remove_front_spec m head l Hd) as (m' & -> & Hd' & Hsx).
    destruct l as [|e l]; intros [= <- <-]; eauto.
  - case_decide as He; [|done]. intros [= <- <-].
    apply list_elem_of_split in He as (l1 & l2 & ->).
    destruct (remove_spec m head l1 e l2 Hd) as (m' & -> & Hd' & Hsx).
    exists m'. split_and!; [done| |done].
    destruct Hd as (Hnd & _ & _). apply NoDup_cons in Hnd as [_ Hnd].
    apply NoDup_app in Hnd as (_ & Hd12 & [He2 _]%NoDup_cons).
    assert (forall l : list Z, e ∉ l -> filter (fun x => x <> e) l = l) as Hf.
    { induction l as [|x l IH]; intros Hl; [done|]. apply not_elem_of_cons in Hl as [? ?].
      rewrite filter_cons_True by done. f_equal. by apply IH. }
    rewrite filter_app, filter_cons_False by (intros ?; done).
    rewrite !Hf; [done|done|]. intros He1. apply (Hd12 e He1). by left.
Qed.

Lemma run_simulates head ops : forall m l rs l',
  is_deque m head l -> (forall e, e ∈ ops ≫= op_elem -> has_struct m e) ->
  run (list_exec head) l ops = Some (rs, l') ->
  exists m', run (deque_exec head) m ops = Some (rs, m') /\ is_deque m' head l'.
Proof.
  induction ops as [|op ops IH]; intros m l rs l' Hd Hs; cbn [run].
  { intros [= <- <-]. eauto. }
  intros ((r & l1) & H1 & ((rs1 & l2) & H2 & [= <- <-])%bind_Some)%bind_Some.
  destruct (step_simulates m head l op r l1) as (m1 & -> & Hd1 & Hs1); [done| |done|].
  { intros e He. apply Hs. cbn. apply elem_of_app. by left. }
  destruct (IH m1 l1 rs1 l2) as (m2 & Hr & Hd2); [done| |done|].
  { intros e He. apply Hs1, Hs. cbn. apply elem_of_app. by right. }
  exists m2. cbn. by rewrite Hr.
Qed.

(** ** Iteration *)

Lemma foreach_spec m head l : forall a fuel,
  path m a l head -> head ∉ l -> NULL ∉ l -> (length l <= fuel)%nat ->
  foreach_loop fuel head (if decide (l = []) then NULL else hd NULL l) m = Some l.
Proof.
  induction l as [|e l IH]; intros a fuel Hp Hh Hnull Hf.
  { by destruct fuel. }
  apply not_elem_of_cons in Hh as [Hhe Hh], Hnull as [Hne Hnull].
  rewrite decide_False by done. cbn [hd]. destruct fuel as [|fuel]; [cbn in Hf; lia|].
  cbn [foreach_loop]. rewrite (proj2 (Z.eqb_neq e NULL)) by done.
  destruct Hp as (_ & _ & Hp). unfold nccl_ofi_deque_get_next.
  destruct (path_first _ _ _ _ Hp) as [Hen _]. rewrite Hen. cbn [mbind option_bind].
  specialize (IH e fuel Hp Hh Hnull ltac:(cbn in Hf; lia)).
  destruct l as [|b l].
  - cbn [hd]. rewrite Z.eqb_refl. rewrite decide_True in IH by done. by rewrite IH.
  - cbn [hd]. apply not_elem_of_cons in Hh as [Hhb _].
    rewrite (proj2 (Z.eqb_neq b head)) by done. rewrite decide_False in IH by done.
    cbn [hd] in IH. by rewrite IH.
Qed.

Lemma deque_size m head l : is_deque m head l -> (length l <= size (nexts m))%nat.
Proof.
  intros (Hnd & _ & Hp). apply NoDup_cons in Hnd as [_ Hnd].
  assert (list_to_set l ⊆ dom (nexts m)) as Hsub.
  { intros x Hx%elem_of_list_to_set. apply elem_of_dom.
    by destruct (path_struct _ _ _ _ _ Hp Hx) as [? _]. }
  rewrite <- size_dom. rewrite <- (size_list_to_set (C := gset Z)) by done.
  by apply subseteq_size.
Qed.

(** C27. On a fresh deque, every sequence of insertions at either end, removals
    from the front and removals of a given element does what the same
    sequence does on a list: the pointer operations return the same elements,
    never follow a wild pointer, and iterating afterwards visits the final
    list in order. *)
Theorem deque_refines_list head m0 m ops rs l :
  nccl_ofi_deque_init true 0 head m0 = (0, Some m) -> head <> NULL ->
  (forall e, e ∈ ops ≫= op_elem -> has_struct m0 e) ->
  run (list_exec head) [] ops = Some (rs, l) ->
  exists m', run (deque_exec head) m ops = Some (rs, m') /\
    NCCL_OFI_DEQUE_FOREACH head m' = Some l.
Proof.
  intros [= <-] Hnz Hs Hrun.
  destruct (run_simulates head ops (mk_mem (<[head := head]> (nexts m0)) (<[head := head]> (prevs m0))) [] rs l)
    as (m' & Hr & Hd'); [| |done|].
  - split_and!; [apply NoDup_singleton|set_solver|]. cbn. by rewrite !lookup_insert_eq.
  - intros e He. destruct (Hs e He). split; cbn; rewrite lookup_insert_is_Some'; tauto.
  - exists m'. split; [done|]. pose proof (deque_size _ _ _ Hd'). destruct Hd' as (Hnd & Hnull & Hp).
    apply NoDup_cons in Hnd as [Hhl _]. apply not_elem_of_cons in Hnull as [_ Hnl].
    unfold NCCL_OFI_DEQUE_FOREACH, nccl_ofi_deque_get_front, nccl_ofi_deque_isempty.
    destruct (path_first _ _ _ _ Hp) as [Hfn _]. rewrite Hfn. cbn [mbind option_bind].
    pose proof (foreach_spec m' head l head (size (nexts m')) Hp Hhl Hnl ltac:(done)) as Hf.
    destruct l as [|e l]; cbn [hd] in *.
    + by rewrite Z.eqb_refl.
    + apply not_elem_of_cons in Hhl as [Hhe _]. rewrite (proj2 (Z.eqb_neq e head)) by done.
      cbn [mbind option_bind]. done.
Qed.

Lemma deque_refines_list_witness :
  exists m', run (deque_exec 100)
      (mk_mem (<[100 := 100]> (nexts (mk_mem {[1:=0;2:=0;3:=0]} {[1:=0;2:=0;3:=0]})))
              (<[100 := 100]> (prevs (mk_mem {[1:=0;2:=0;3:=0]} {[1:=0;2:=0;3:=0]}))))
      [PushBack 1; PushBack 2; PushFront 3; Remove 1; PopFront; PushBack 1]
    = Some ([0; 0; 0; 0; 3; 0], m') /\ NCCL_OFI_DEQUE_FOREACH 100 m' = Some [2; 1].
Proof.
  apply (deque_refines_list 100 (mk_mem {[1:=0;2:=0;3:=0]} {[1:=0;2:=0;3:=0]})).
  - reflexivity.
  - done.
  - intros e He. assert (e = 1 \/ e = 2 \/ e = 3) as Hcase by (cbn in He; set_solver).
    destruct Hcase as [->|[->| ->]]; split; by eexists.
  - vm_compute. reflexivity.
Defined.

End Deque.
