(* ===== verification/OfiUtils.v ===== *)
(** * nccl_ofi_ofiutils.c: provider lists

    libfabric returns the providers it finds as a linked list of fi_info
    structures. The plug-in picks one provider name, unlinks and frees every other
    element in place, and for TCP unlinks the interfaces it does not want. The list
    lives in a heap of cells, with the pointer surgery of the code; the theorems
    relate it to filters of lists. The last part is nccl_ofi_mr_keys_need_own_key. *)

From Stdlib Require Import Ascii.
From stdpp Require Import strings.
From S2P Require Import Prelude StateM NetTypes.

Module OfiUtils.

Open Scope Z_scope.

(** The fields of a struct fi_info that the plug-in reads. *)
Record fi_info := mk_info {
  prov_name : string;
  domain_name : string;
  addr_format : Z;
  mem_tag_format : Z;
  caps : Z;
  mr_mode : Z;
  mr_key_size : Z;
}.

Record cell := mk_cell { c_info : fi_info; c_next : Z }.

(** The heap of fi_info structures. *)
Abbreviation heap := (gmap Z cell).

(** libfabric and the environment of the process: what fi_getinfo answers and where
    its list starts, fi_freeinfo, the two parameters of the TCP filter, whether the
    next strdup succeeds (as a function of the string), FI_SOCKADDR_IN6. *)
Class ProvEnv := {
  fi_getinfo : heap -> Z * Z * heap;
  fi_freeinfo : Z -> heap -> option heap;
  strdup_ok : string -> bool;
  ofi_nccl_exclude_tcp_if : string;
  ofi_nccl_use_ipv6_tcp : bool;
  FI_SOCKADDR_IN6 : Z;
}.

(** The elements [l], with their contents, linked from [p] to [q]. *)
Fixpoint seg (h : heap) (p : Z) (l : list (Z * fi_info)) (q : Z) : Prop :=
  match l with
  | [] => p = q
  | (a, i) :: l' => p = a /\ a <> NULL /\ exists n, h !! a = Some (mk_cell i n) /\ seg h n l' q
  end.

(** Of fi_freeinfo's documentation: it releases the structure and those linked to
    it. *)
Class ProvOk `{ProvEnv} : Prop := {
  freeinfo_list p h l : seg h p l NULL -> NoDup l.*1 -> fi_freeinfo p h = Some (foldr delete h l.*1);
}.

Abbreviation P := (SM heap).

Definition deref (p : Z) : P cell := let* h := gets (fun h => h) in of_option (h !! p).
Definition set_next (p n : Z) : P unit := let* c := deref p in modify <[p := mk_cell (c_info c) n]>.

(** strtok with the delimiter comma: the non-empty pieces. *)
Fixpoint pieces (s acc : string) : list string :=
  match s with
  | EmptyString => [acc]
  | String a s' => if Ascii.eqb a ","%char then acc :: pieces s' "" else pieces s' (acc +:+ String a "")
  end.
Definition strtok_all (s : string) : list string := filter (fun t => t <> "") (pieces s "").

Section Utils.
Context {E : ProvEnv}.

Definition freeinfo (p : Z) : P unit :=
  let* h := gets (fun h => h) in
  let* h' := of_option (fi_freeinfo p h) in
  modify (fun _ => h').

Definition in_list (item list : string) : Z :=
  if negb (strdup_ok list) then - ENOMEM
  else if existsb (String.eqb item) (strtok_all list) then 1 else 0.

Definition match_prov_info (name : string) (format mem_tag expected : Z) : bool :=
  if negb (in_list name ofi_nccl_exclude_tcp_if =? 0) then true
  else if negb ofi_nccl_use_ipv6_tcp && (format =? FI_SOCKADDR_IN6) then true
  else if negb (mem_tag =? expected) then true
  else false.

(** The loop of filter_tcp_info_list over head, prev and curr; one round an element. *)
Fixpoint filter_tcp_loop (fuel : nat) (head prev curr num_infos : Z) : P (Z * Z) :=
  if curr =? NULL then ret (if prev =? NULL then NULL else head, num_infos)
  else
    match fuel with
    | O => undefined
    | S fuel' =>
        let* c := deref curr in
        let expected_mem_tag_format := mem_tag_format (c_info c) in
        if match_prov_info (domain_name (c_info c)) (addr_format (c_info c)) (mem_tag_format (c_info c)) expected_mem_tag_format then
          (if negb (prev =? NULL) then set_next prev (c_next c) else ret tt) ;;;
          set_next curr NULL ;;;
          freeinfo curr ;;;
          filter_tcp_loop fuel' head prev (c_next c) (u32 (num_infos - 1))
        else filter_tcp_loop fuel' (if prev =? NULL then curr else head) curr (c_next c) num_infos
    end.

Definition filter_tcp_info_list (fuel : nat) (info_list num_infos : Z) : P (Z * Z) :=
  filter_tcp_loop fuel info_list NULL info_list num_infos.

(** The choice of a name: the element it belongs to. *)
Fixpoint select_provider (fuel : nat) (prov : Z) (prov_include : string) : P Z :=
  if prov =? NULL then ret NULL
  else
    match fuel with
    | O => undefined
    | S fuel' =>
        let* c := deref prov in
        if negb (in_list (prov_name (c_info c)) prov_include =? 0) then ret prov
        else select_provider fuel' (c_next c) prov_include
    end.

(** The loop that removes the other providers. [selected] is the element that holds
    the selected name: reading the name is an access to that element. *)
Fixpoint keep_provider (fuel : nat) (selected providers last_prov prov num : Z) : P (Z * Z) :=
  if prov =? NULL then ret (providers, num)
  else
    match fuel with
    | O => undefined
    | S fuel' =>
        let* c := deref prov in
        let prov_next := c_next c in
        set_next prov NULL ;;;
        let* sel := deref selected in
        if negb (String.eqb (prov_name (c_info sel)) (prov_name (c_info c))) then
          freeinfo prov ;;;
          keep_provider fuel' selected providers last_prov prov_next num
        else
          (if negb (last_prov =? NULL) then set_next last_prov prov else ret tt) ;;;
          keep_provider fuel' selected (if providers =? NULL then prov else providers) prov prov_next (u32 (num + 1))
    end.

(** strncmp(tcp, name, strlen(tcp)) == 0. *)
Definition is_tcp (name : string) : bool := String.prefix "tcp" name.

(** Result: the code, the list and the count. [fuel] bounds the length of the list. *)
Definition nccl_ofi_ofiutils_get_providers (fuel : nat) (prov_include : option string) : P (Z * option Z * Z) :=
  let* h := gets (fun h => h) in
  let '(rc, providers, h') := fi_getinfo h in
  modify (fun _ => h') ;;;
  let error rc providers out num :=
    (if negb (providers =? NULL) then freeinfo providers else ret tt) ;;; ret (rc, out, num) in
  if negb (rc =? 0) then error rc providers None 0
  else if providers =? NULL then error rc providers None 0
  else
    let* selected :=
      match prov_include with
      | Some l => select_provider fuel providers l
      | None => ret providers
      end in
    if selected =? NULL then error (- FI_ENODATA) providers None 0
    else
      let* (providers, num) := keep_provider fuel selected NULL NULL providers 0 in
      if (providers =? NULL) || (num =? 0) then ret (- FI_ENODATA, None, num)
      else
        let* c := deref providers in
        let* (providers, num) :=
          if is_tcp (prov_name (c_info c)) then filter_tcp_info_list fuel providers num else ret (providers, num) in
        if is_tcp (prov_name (c_info c)) && (providers =? NULL) then error (- ENOTSUP) providers None num
        else if num =? 0 then error (- FI_ENODATA) providers (Some providers) num
        else ret (0, Some providers, num).

(** The loop of nccl_ofi_ofiutils_free_info_list, which ends at NULL or where the
    list closes. *)
Fixpoint free_info_loop (fuel : nat) (info_list info : Z) : P unit :=
  if info =? NULL then ret tt
  else
    match fuel with
    | O => undefined
    | S fuel' =>
        let* c := deref info in
        set_next info NULL ;;;
        freeinfo info ;;;
        if c_next c =? info_list then ret tt else free_info_loop fuel' info_list (c_next c)
    end.

Definition nccl_ofi_ofiutils_free_info_list (fuel : nat) (info_list : Z) : P unit :=
  if info_list =? NULL then ret tt else free_info_loop fuel info_list info_list.

End Utils.
(** ** Linked lists *)

Lemma seg_app h p l1 l2 q : seg h p (l1 ++ l2) q <-> exists r, seg h p l1 r /\ seg h r l2 q.
Proof.
  revert p. induction l1 as [|[a i] l1 IH]; intros p; cbn.
  - split; [intros H; by exists p|by intros (r & -> & H)].
  - split.
    + intros (-> & Ha & n & Hn & (r & H1 & H2)%IH). exists r. split; [|done]. split_and!; try done. by exists n.
    + intros (r & (-> & Ha & n & Hn & H1) & H2). split_and!; try done. exists n. split; [done|]. apply IH. by exists r.
Qed.

(** A segment depends on its own elements only. *)
Lemma seg_agree h h' p l q : (forall a, a ∈ l.*1 -> h' !! a = h !! a) -> seg h p l q -> seg h' p l q.
Proof.
  revert p. induction l as [|[a i] l IH]; intros p Hh Hs; [done|]. destruct Hs as (-> & Ha & n & Hn & Hs). cbn. split_and!; try done.
  exists n. rewrite Hh by left. split; [done|]. apply IH; [|done]. intros b Hb. apply Hh. by right.
Qed.

Lemma seg_insert h p l q a c : a ∉ l.*1 -> seg h p l q -> seg (<[a := c]> h) p l q.
Proof. intros Ha. apply seg_agree. intros b Hb. rewrite lookup_insert_ne; [done|by intros ->]. Qed.

Lemma seg_delete h p l q a : a ∉ l.*1 -> seg h p l q -> seg (delete a h) p l q.
Proof. intros Ha. apply seg_agree. intros b Hb. rewrite lookup_delete_ne; [done|by intros ->]. Qed.

(** The last element gets another successor. *)
Lemma seg_relink h p l a i q q' : a ∉ l.*1 -> seg h p (l ++ [(a, i)]) q -> seg (<[a := mk_cell i q']> h) p (l ++ [(a, i)]) q'.
Proof.
  intros Ha (r & H1 & H2)%seg_app. destruct H2 as (-> & Ha' & n & Hn & _). apply seg_app. exists a. split; [by apply seg_insert|].
  cbn. split_and!; try done. exists q'. by rewrite lookup_insert_eq.
Qed.

Lemma seg_null h p l : seg h p l NULL -> l = [] <-> p = NULL.
Proof. destruct l as [|[a i] l]; cbn; [done|]. by intros (-> & Ha & _). Qed.

(** ** The TCP filter *)

Section TcpFilter.
Context {E : ProvEnv} {O : ProvOk}.

(** An element the filter removes. *)
Definition unwanted (i : fi_info) : bool :=
  match_prov_info (domain_name i) (addr_format i) (mem_tag_format i) (mem_tag_format i).

(** The elements up to [curr] that stay, from [head] to [prev]. *)
Definition upto (h : heap) (head prev : Z) (K : list (Z * fi_info)) (curr : Z) : Prop :=
  K = [] /\ prev = NULL \/ exists K' i, K = K' ++ [(prev, i)] /\ prev <> NULL /\ seg h head K curr.

Lemma deref_wp h p c Q : h !! p = Some c -> Q c h -> wp (deref p) Q h.
Proof. intros H HQ. unfold deref. wp_simpl. by eapply wp_of_option. Qed.

Lemma set_next_wp h p c n (Q : unit -> heap -> Prop) : h !! p = Some c -> Q tt (<[p := mk_cell (c_info c) n]> h) -> wp (set_next p n) Q h.
Proof. intros H HQ. unfold set_next. wp_simpl. eapply deref_wp; [exact H|]. by wp_simpl. Qed.

Lemma free_cell_wp h p i (Q : unit -> heap -> Prop) :
  h !! p = Some (mk_cell i NULL) -> p <> NULL -> Q tt (delete p h) -> wp (freeinfo p) Q h.
Proof.
  intros Hc Hp HQ. unfold freeinfo. wp_simpl. eapply wp_of_option; [|by wp_simpl].
  apply (freeinfo_list p _ [(p, i)]); [|cbn; apply NoDup_singleton]. cbn. split_and!; try done. by exists NULL.
Qed.

(** Unlinking [curr], which follows [prev], and freeing it. *)
Lemma unlink_wp h head prev K curr i n R {B} (k : P B) Q :
  h !! curr = Some (mk_cell i n) -> curr <> NULL -> NoDup (K ++ (curr, i) :: R).*1 -> upto h head prev K curr -> seg h n R NULL ->
  (forall h', upto h' head prev K n -> seg h' n R NULL -> h' !! curr = None ->
     (forall a, a ∉ (K ++ (curr, i) :: R).*1 -> h' !! a = h !! a) -> wp k Q h') ->
  wp ((if negb (prev =? NULL) then set_next prev n else ret tt) ;;; set_next curr NULL ;;; freeinfo curr ;;; k) Q h.
Proof.
  intros Hc Hnn Hnd HK HR HQ. rewrite fmap_app in Hnd. cbn in Hnd. pose proof Hnd as (HndK & Hdisj & HndR)%NoDup_app.
  apply NoDup_cons in HndR as [HcR HndR].
  assert (curr ∉ K.*1) as HcK by (intros H; apply (Hdisj _ H); left).
  assert (exists h1, wp (if negb (prev =? NULL) then set_next prev n else ret tt) (fun _ h' => h' = h1) h /\
    upto h1 head prev K n /\ seg h1 n R NULL /\ h1 !! curr = Some (mk_cell i n) /\
    (forall a, a ∉ (K ++ (curr, i) :: R).*1 -> h1 !! a = h !! a)) as (h1 & Hw & HK1 & HR1 & Hc1 & Hfr).
  { destruct HK as [[-> ->]|(K' & j & -> & Hp & Hs)].
    - exists h. split_and!; try done. by left.
    - pose proof Hs as (r & _ & -> & _ & m & Hpj & ->)%seg_app. rewrite fmap_app in HndK, HcK, Hdisj. cbn in *.
      apply NoDup_app in HndK as (_ & Hd' & _). assert (prev ∉ K'.*1) as HpK by (intros H; apply (Hd' _ H); left).
      assert (prev ∉ curr :: R.*1) as HpR by (apply Hdisj, elem_of_app; right; left). apply not_elem_of_cons in HpR as [Hpc HpR].
      exists (<[prev := mk_cell j n]> h). rewrite (proj2 (Z.eqb_neq _ _) Hp). cbn [negb]. split_and!.
      + by eapply set_next_wp.
      + right. exists K', j. split_and!; try done. by eapply seg_relink.
      + by apply seg_insert.
      + by rewrite lookup_insert_ne.
      + intros a Ha. rewrite lookup_insert_ne; [done|]. intros <-. apply Ha. rewrite !fmap_app. apply elem_of_app. left. apply elem_of_app. right. left. }
  wp_simpl. eapply wp_mono; [exact Hw|]. intros _ ? ->. wp_simpl. eapply set_next_wp; [exact Hc1|]. cbn [c_info]. wp_simpl.
  eapply free_cell_wp; [apply lookup_insert_eq|done|]. apply HQ.
  - destruct HK1 as [HK1|(K' & j & -> & Hp & Hs)]; [by left|]. right. exists K', j. split_and!; try done. by apply seg_delete, seg_insert.
  - by apply seg_delete, seg_insert.
  - apply lookup_delete_eq.
  - intros a Ha. assert (a <> curr) by (intros ->; apply Ha; rewrite fmap_app; apply elem_of_app; right; left).
    rewrite lookup_delete_ne, lookup_insert_ne by done. by apply Hfr.
Qed.

End TcpFilter.
Section TcpLoop.
Context {E : ProvEnv} {O : ProvOk}.

Lemma upto_end h head prev K : upto h head prev K NULL -> seg h (if prev =? NULL then NULL else head) K NULL.
Proof. intros [[-> ->]|(K' & i & -> & Hp & Hs)]; [done|]. by rewrite (proj2 (Z.eqb_neq _ _) Hp). Qed.

(** An element that stays becomes the last one. *)
Lemma upto_keep h head prev K a i n :
  upto h head prev K a -> a <> NULL -> h !! a = Some (mk_cell i n) ->
  upto h (if prev =? NULL then a else head) a (K ++ [(a, i)]) n.
Proof.
  intros HK Ha Hc. right. exists K, i. split_and!; try done. apply seg_app. exists a. split; [|cbn; split_and!; try done; by exists n].
  destruct HK as [[-> ->]|(K' & j & -> & Hp & Hs)]; [done|]. by rewrite (proj2 (Z.eqb_neq _ _) Hp).
Qed.

Lemma filter_tcp_loop_wp R : forall fuel h K head prev curr num,
  (length R <= fuel)%nat -> NoDup (K ++ R).*1 -> upto h head prev K curr -> seg h curr R NULL ->
  Z.of_nat (length R) <= num < 2 ^ 32 ->
  wp (filter_tcp_loop fuel head prev curr num) (fun r h' =>
    seg h' r.1 (K ++ filter (fun x => unwanted x.2 = false) R) NULL /\
    r.2 = num - Z.of_nat (length R - length (filter (fun x => unwanted x.2 = false) R)) /\
    (forall a, a ∉ (K ++ R).*1 -> h' !! a = h !! a) /\
    (forall x, x ∈ R -> unwanted x.2 = true -> h' !! x.1 = None)) h.
Proof.
  induction R as [|[a i] R IH]; intros fuel h K head prev curr num Hf Hnd HK HR Hn.
  { cbn in HR. subst curr. destruct fuel; cbn [filter_tcp_loop Z.eqb NULL]; wp_simpl; (split_and!;
      [rewrite app_nil_r; by apply upto_end|cbn; lia|done|by intros x ?%not_elem_of_nil]). }
  destruct HR as (-> & Ha & n & Hc & HR). destruct fuel as [|fuel]; [cbn in Hf; lia|]. cbn in Hf, Hn. cbn [filter_tcp_loop].
  rewrite (proj2 (Z.eqb_neq _ _) Ha). wp_simpl. eapply deref_wp; [exact Hc|]. cbn [c_info c_next]. fold (unwanted i).
  destruct (unwanted i) eqn:Hu.
  - rewrite filter_cons_False by (cbn; congruence). eapply unlink_wp; [exact Hc|exact Ha|exact Hnd|exact HK|exact HR|].
    intros h1 HK1 HR1 Hc1 Hfr. assert (NoDup (K ++ R).*1 /\ a ∉ (K ++ R).*1) as [Hnd' Ha'].
    { rewrite fmap_app in Hnd |- *. cbn in Hnd. rewrite <- Permutation_middle in Hnd. by apply NoDup_cons in Hnd as [? ?]. }
    rewrite wrap_small by lia. eapply wp_mono; [apply (IH fuel h1 K); [lia|done|done|done|lia]|].
    intros r h' (H1 & H2 & H3 & H4). pose proof (length_filter (fun x : Z * fi_info => unwanted x.2 = false) R). split_and!.
    + done.
    + rewrite H2. cbn [length]. lia.
    + intros b Hb. rewrite <- Hfr by done. apply H3. intros Hb'. apply Hb. rewrite fmap_app in Hb' |- *. cbn. rewrite elem_of_app in Hb' |- *. rewrite elem_of_cons. tauto.
    + intros x [->|Hx]%elem_of_cons Hxu; [cbn; by rewrite H3|by apply H4].
  - rewrite filter_cons_True by done. eapply wp_mono; [apply (IH fuel h (K ++ [(a, i)])); [lia|by rewrite <- app_assoc|by apply upto_keep|done|lia]|].
    intros r h' (H1 & H2 & H3 & H4). rewrite <- !app_assoc in H1, H3. split_and!; [done|cbn [length]; rewrite H2; lia|done|].
    intros x [->|Hx]%elem_of_cons Hxu; [cbn in Hxu; congruence|by apply H4].
Qed.
End TcpLoop.
(** ** The selected provider stays *)

Lemma seg_lookup h p l q x : seg h p l q -> x ∈ l -> exists n, h !! x.1 = Some (mk_cell x.2 n).
Proof.
  revert p. induction l as [|[a i] l IH]; intros p Hs Hx; [by apply not_elem_of_nil in Hx|].
  destruct Hs as (-> & _ & n & Hn & Hs). apply elem_of_cons in Hx as [->|Hx]; [by exists n|by eapply IH].
Qed.

Section KeepProvider.
Context {E : ProvEnv} {O : ProvOk}.

(** The providers that stay so far. *)
Definition kept (h : heap) (providers last_prov : Z) (K : list (Z * fi_info)) : Prop :=
  K = [] /\ providers = NULL /\ last_prov = NULL \/
  exists K' i, K = K' ++ [(last_prov, i)] /\ last_prov <> NULL /\ seg h providers K NULL.

Lemma kept_seg h p q K : kept h p q K -> seg h p K NULL.
Proof. by intros [(-> & -> & _)|(K' & i & -> & _ & Hs)]. Qed.

Lemma kept_frame h h' p q K : (forall a, a ∈ K.*1 -> h' !! a = h !! a) -> kept h p q K -> kept h' p q K.
Proof.
  intros Hh [HK|(K' & i & -> & Hq & Hs)]; [by left|]. right. exists K', i. split_and!; try done. by eapply seg_agree.
Qed.

(** Appending [prov], whose successor is NULL, to what stays. *)
Lemma append_wp h providers last_prov K prov i {B} (k : P B) Q :
  kept h providers last_prov K -> h !! prov = Some (mk_cell i NULL) -> prov <> NULL -> NoDup (K ++ [(prov, i)]).*1 ->
  (forall h', kept h' (if providers =? NULL then prov else providers) prov (K ++ [(prov, i)]) ->
     (forall a, a ∉ (K ++ [(prov, i)]).*1 -> h' !! a = h !! a) -> wp k Q h') ->
  wp ((if negb (last_prov =? NULL) then set_next last_prov prov else ret tt) ;;; k) Q h.
Proof.
  intros HK Hp Hnn Hnd HQ. rewrite fmap_app in Hnd. cbn in Hnd. apply NoDup_app in Hnd as (HndK & Hdisj & _).
  assert (prov ∉ K.*1) as HpK by (intros H; apply (Hdisj _ H); left). wp_simpl.
  destruct HK as [(-> & -> & ->)|(K' & j & -> & Hl & Hs)].
  - cbn [Z.eqb NULL negb]. wp_simpl. apply HQ; [|done]. right. exists [], i. split_and!; try done. cbn. split_and!; try done. by exists NULL.
  - rewrite (proj2 (Z.eqb_neq _ _) Hl). cbn [negb]. pose proof Hs as (r & Hs1 & -> & _ & m & Hj & _)%seg_app.
    rewrite fmap_app in HndK, HpK. cbn in HndK, HpK. apply NoDup_app in HndK as (_ & Hd' & _).
    assert (last_prov ∉ K'.*1) as HlK by (intros H; apply (Hd' _ H); left).
    eapply set_next_wp; [exact Hj|]. cbn [c_info].
    assert (providers <> NULL) as Hpn.
    { destruct K' as [|[b x] K']; cbn in Hs1; [by subst|by destruct Hs1 as (-> & ? & _)]. }
    assert (prov <> last_prov) as Hne by (intros ->; apply HpK, elem_of_app; right; left).
    apply HQ.
    + right. exists (K' ++ [(last_prov, j)]), i. split_and!; try done. rewrite (proj2 (Z.eqb_neq _ _) Hpn). apply seg_app. exists prov.
      split; [by eapply seg_relink|]. cbn. split_and!; try done. exists NULL. by rewrite lookup_insert_ne.
    + intros a Ha. rewrite lookup_insert_ne; [done|]. intros <-. apply Ha. rewrite !fmap_app. apply elem_of_app. left. apply elem_of_app. right. left.
Qed.

(** The addresses of what stays, of the current element and of the rest. *)
Lemma split_nodup (K R : list (Z * fi_info)) a i :
  NoDup (K ++ (a, i) :: R).*1 ->
  NoDup (K ++ R).*1 /\ (a ∉ K.*1) /\ (a ∉ R.*1) /\ NoDup (K ++ [(a, i)]).*1 /\ (forall b, b ∈ R.*1 -> b ∉ (K ++ [(a, i)]).*1).
Proof.
  rewrite !fmap_app. cbn. intros (HK & Hd & [HaR HR]%NoDup_cons)%NoDup_app.
  assert (a ∉ K.*1) as HaK by (intros H; apply (Hd _ H); left). split_and!; try done.
  - apply NoDup_app. split_and!; try done. intros b Hb Hb'. apply (Hd _ Hb). by right.
  - apply NoDup_app. split_and!; [done| |apply NoDup_singleton]. intros b Hb ->%list_elem_of_singleton. done.
  - intros b Hb. rewrite elem_of_app, list_elem_of_singleton. intros [Hb'| ->]; [by apply (Hd _ Hb'); right|done].
Qed.

Lemma keep_provider_wp R : forall fuel h K providers last_prov prov num sel isel,
  (length R <= fuel)%nat -> NoDup (K ++ R).*1 -> kept h providers last_prov K -> seg h prov R NULL ->
  (sel, isel) ∈ K ++ R -> 0 <= num -> num + Z.of_nat (length R) < 2 ^ 32 ->
  wp (keep_provider fuel sel providers last_prov prov num) (fun r h' =>
    seg h' r.1 (K ++ filter (fun x => prov_name x.2 = prov_name isel) R) NULL /\
    r.2 = num + Z.of_nat (length (filter (fun x => prov_name x.2 = prov_name isel) R)) /\
    (forall a, a ∉ (K ++ R).*1 -> h' !! a = h !! a) /\
    (forall x, x ∈ R -> prov_name x.2 <> prov_name isel -> h' !! x.1 = None)) h.
Proof.
  induction R as [|[a i] R IH]; intros fuel h K providers last_prov prov num sel isel Hf Hnd HK HR Hsel Hn0 Hn.
  { cbn in HR. subst prov. destruct fuel; cbn [keep_provider Z.eqb NULL]; wp_simpl; (split_and!;
      [rewrite app_nil_r; by eapply kept_seg|cbn; lia|done|by intros x ?%not_elem_of_nil]). }
  destruct HR as (-> & Ha & n & Hc & HR). destruct fuel as [|fuel]; [cbn in Hf; lia|]. cbn in Hf, Hn. cbn [keep_provider].
  rewrite (proj2 (Z.eqb_neq _ _) Ha). wp_simpl. eapply deref_wp; [exact Hc|]. cbn [c_info c_next]. wp_simpl. eapply set_next_wp; [exact Hc|].
  cbn [c_info]. wp_simpl. set (h1 := <[a := mk_cell i NULL]> h). pose proof (split_nodup _ _ _ _ Hnd) as (Hnd' & HaK & HaR & HndK & Hd).
  assert (forall b, b <> a -> h1 !! b = h !! b) as Hh1 by (intros b Hb; unfold h1; by rewrite lookup_insert_ne).
  assert (kept h1 providers last_prov K) as HK1 by (eapply kept_frame; [|exact HK]; intros b Hb; apply Hh1; by intros ->).
  assert (seg h1 n R NULL) as HR1 by (by apply seg_insert).
  assert (exists m, h1 !! sel = Some (mk_cell isel m)) as [m Hm].
  { apply elem_of_app in Hsel as [Hsel|[[= -> ->]|Hsel]%elem_of_cons].
    - apply (seg_lookup _ _ _ _ _ (kept_seg _ _ _ _ HK1) Hsel). - exists NULL. by unfold h1; rewrite lookup_insert_eq.
    - apply (seg_lookup _ _ _ _ _ HR1 Hsel). }
  eapply deref_wp; [exact Hm|]. cbn [c_info]. destruct (String.eqb_spec (prov_name isel) (prov_name i)) as [He|He]; cbn [negb].
  - rewrite filter_cons_True by done. eapply append_wp; [exact HK1|unfold h1; apply lookup_insert_eq|exact Ha|exact HndK|].
    intros h2 HK2 Hfr2. rewrite wrap_small by lia.
    eapply wp_mono; [apply (IH fuel h2 (K ++ [(a, i)]) _ _ _ _ sel isel); [lia|by rewrite <- app_assoc|exact HK2| |by rewrite <- app_assoc|lia|lia]|].
    { eapply seg_agree; [|exact HR1]. intros b Hb. by apply Hfr2, Hd. }
    intros r h' (H1 & H2 & H3 & H4). rewrite <- !app_assoc in H1, H3. split_and!; [done|rewrite H2; cbn [length]; lia| |].
    + intros b Hb. rewrite H3 by done. rewrite fmap_app in Hb. cbn in Hb. rewrite elem_of_app, elem_of_cons in Hb.
      rewrite Hfr2 by (rewrite fmap_app; cbn; rewrite elem_of_app, list_elem_of_singleton; tauto). apply Hh1. tauto.
    + intros x [->|Hx]%elem_of_cons Hxu; [by cbn in Hxu|by apply H4].
  - rewrite filter_cons_False by (cbn; congruence). wp_simpl. eapply free_cell_wp; [unfold h1; apply lookup_insert_eq|done|].
    assert ((sel, isel) ∈ K ++ R) as Hsel'.
    { apply elem_of_app in Hsel as [Hsel|[[= -> ->]|Hsel]%elem_of_cons]; [apply elem_of_app; by left|done|apply elem_of_app; by right]. }
    assert (forall b, b <> a -> delete a h1 !! b = h1 !! b) as Hh2 by (intros b Hb; by rewrite lookup_delete_ne).
    eapply wp_mono; [apply (IH fuel (delete a h1) K _ _ _ _ sel isel); [lia|done| |by apply seg_delete|done|lia|lia]|].
    { eapply kept_frame; [|exact HK1]. intros b Hb. apply Hh2. by intros ->. }
    intros r h' (H1 & H2 & H3 & H4). assert (a ∉ (K ++ R).*1) as Hout by (rewrite fmap_app, elem_of_app; tauto). split_and!; [done|done| |].
    + intros b Hb. rewrite fmap_app in Hb. cbn in Hb. rewrite elem_of_app, elem_of_cons in Hb.
      rewrite H3 by (rewrite fmap_app, elem_of_app; tauto). rewrite Hh2 by tauto. apply Hh1. tauto.
    + intros x [->|Hx]%elem_of_cons Hxu; [cbn; rewrite H3 by done; apply lookup_delete_eq|by apply H4].
Qed.
End KeepProvider.

(** ** get_providers *)

Section GetProviders.
Context {E : ProvEnv} {O : ProvOk}.

(** The name of the provider that is used: of the first one in the include list,
    of the first one when there is no include list. *)
Fixpoint selected_name (l : list (Z * fi_info)) (prov_include : option string) : option string :=
  match l with
  | [] => None
  | x :: l' =>
      match prov_include with
      | None => Some (prov_name x.2)
      | Some inc => if negb (in_list (prov_name x.2) inc =? 0) then Some (prov_name x.2) else selected_name l' prov_include
      end
  end.

(** The providers that are returned. *)
Definition usable (l : list (Z * fi_info)) (name : string) : list (Z * fi_info) :=
  let same := filter (fun x => prov_name x.2 = name) l in
  if is_tcp name then filter (fun x => unwanted x.2 = false) same else same.

Lemma select_provider_wp inc R : forall fuel h p,
  (length R <= fuel)%nat -> seg h p R NULL ->
  wp (select_provider fuel p inc) (fun r h' => h' = h /\
    match selected_name R (Some inc) with
    | Some name => r <> NULL /\ exists i, (r, i) ∈ R /\ prov_name i = name
    | None => r = NULL
    end) h.
Proof.
  induction R as [|[a i] R IH]; intros fuel h p Hf HR.
  { cbn in HR. subst p. by destruct fuel. }
  destruct HR as (-> & Ha & n & Hc & HR). destruct fuel as [|fuel]; [cbn in Hf; lia|]. cbn [select_provider].
  rewrite (proj2 (Z.eqb_neq _ _) Ha). wp_simpl. eapply deref_wp; [exact Hc|]. cbn [c_info c_next selected_name snd].
  destruct (negb (in_list (prov_name i) inc =? 0)).
  - wp_simpl. split; [done|]. split; [done|]. exists i. split; [left|done].
  - eapply wp_mono; [apply (IH fuel h n); [cbn in Hf; lia|done]|]. intros r h' (-> & H). split; [done|].
    destruct (selected_name R (Some inc)); [|done]. destruct H as (Hr & j & Hj & Hn). split; [done|]. exists j. split; [by right|done].
Qed.

Lemma free_all_wp h p l {B} (k : P B) Q :
  seg h p l NULL -> NoDup l.*1 -> l <> [] -> wp k Q (foldr delete h l.*1) ->
  wp ((if negb (p =? NULL) then freeinfo p else ret tt) ;;; k) Q h.
Proof.
  intros Hs Hnd Hne Hk. assert (p <> NULL) as Hp by (intros ->; by apply Hne, (seg_null h NULL l)).
  rewrite (proj2 (Z.eqb_neq _ _) Hp). cbn [negb]. unfold freeinfo. wp_simpl. eapply wp_of_option; [by apply (freeinfo_list p _ l)|]. by wp_simpl.
Qed.

Lemma foldr_delete_lookup (h : heap) l a : foldr delete h l !! a = if decide (a ∈ l) then None else h !! a.
Proof.
  induction l as [|b l IH]; cbn; [done|]. destruct (decide (a = b)) as [->|Hne].
  - rewrite lookup_delete_eq, decide_True; [done|left].
  - rewrite lookup_delete_ne by done. rewrite IH. apply decide_ext. rewrite elem_of_cons. tauto.
Qed.

Lemma fst_inj (l : list (Z * fi_info)) x y : NoDup l.*1 -> x ∈ l -> y ∈ l -> x.1 = y.1 -> x = y.
Proof.
  induction l as [|z l IH]; cbn; [by intros _ ?%not_elem_of_nil|]. intros [Hz Hnd]%NoDup_cons [->|Hx]%elem_of_cons [->|Hy]%elem_of_cons Hxy; [done| | |by apply IH].
  - exfalso. apply Hz. rewrite Hxy. by apply list_elem_of_fmap_2.
  - exfalso. apply Hz. rewrite <- Hxy. by apply list_elem_of_fmap_2.
Qed.

(** What is left of the list [l]. *)
Definition leaves (h h' : heap) (l l' : list (Z * fi_info)) : Prop :=
  (forall a, a ∉ l.*1 -> h' !! a = h !! a) /\ (forall x, x ∈ l -> x ∉ l' -> h' !! x.1 = None).

Lemma leaves_none h l : NoDup l.*1 -> leaves h (foldr delete h l.*1) l [].
Proof.
  intros _. split.
  - intros a Ha. rewrite foldr_delete_lookup, decide_False by done. done.
  - intros x Hx _. rewrite foldr_delete_lookup, decide_True; [done|]. apply list_elem_of_fmap. by exists x.
Qed.

Lemma select_wp h p l fuel prov_include :
  (length l <= fuel)%nat -> seg h p l NULL -> l <> [] ->
  wp (match prov_include with Some inc => select_provider fuel p inc | None => ret p end) (fun r h' => h' = h /\
    match selected_name l prov_include with
    | Some name => r <> NULL /\ exists i, (r, i) ∈ l /\ prov_name i = name
    | None => r = NULL
    end) h.
Proof.
  intros Hf Hs Hne. destruct prov_include as [inc|]; [by apply select_provider_wp|]. wp_simpl. split; [done|].
  destruct l as [|[a i] l]; [done|]. destruct Hs as (-> & Ha & _). cbn. split; [done|]. exists i. split; [left|done].
Qed.

(** The TCP filter and the checks after it. *)
Lemma finish_wp fuel h p l name :
  (length l <= fuel)%nat -> seg h p l NULL -> NoDup l.*1 -> l <> [] -> Z.of_nat (length l) < 2 ^ 32 -> (forall x, x ∈ l -> prov_name x.2 = name) ->
  let l' := if is_tcp name then filter (fun x => unwanted x.2 = false) l else l in
  wp (let* c := deref p in
      let* (providers, num) :=
        if is_tcp (prov_name (c_info c)) then filter_tcp_info_list fuel p (Z.of_nat (length l)) else ret (p, Z.of_nat (length l)) in
      if is_tcp (prov_name (c_info c)) && (providers =? NULL)
      then (if negb (providers =? NULL) then freeinfo providers else ret tt) ;;; ret (- ENOTSUP, None, num)
      else if num =? 0
      then (if negb (providers =? NULL) then freeinfo providers else ret tt) ;;; ret (- FI_ENODATA, Some providers, num)
      else ret (0, Some providers, num))
    (fun r h' => leaves h h' l l' /\
      if decide (l' = []) then r.1 = (- ENOTSUP, None)
      else r.1.1 = 0 /\ r.2 = Z.of_nat (length l') /\ exists q, r.1.2 = Some q /\ seg h' q l' NULL) h.
Proof.
  intros Hf Hs Hnd Hne Hlen Hname l'. assert (l' = if is_tcp name then filter (fun x => unwanted x.2 = false) l else l) as Hl' by done.
  clearbody l'. destruct l as [|[a i] l]; [done|]. pose proof Hs as (-> & Ha & n & Hc & _).
  wp_simpl. eapply deref_wp; [exact Hc|]. cbn [c_info]. assert (prov_name i = name) as -> by (apply (Hname (a, i)); left).
  destruct (is_tcp name); wp_simpl; cbn [andb].
  - unfold filter_tcp_info_list. eapply wp_mono; [apply (filter_tcp_loop_wp ((a, i) :: l) fuel h []); [done|done|by left|done|lia]|].
    intros [q num] h' (H1 & H2 & H3 & H4). cbn [fst snd app] in H1, H2. assert (leaves h h' ((a, i) :: l) l') as Hl.
    { split; [done|]. intros x Hx Hnx. apply H4; [done|]. destruct (unwanted x.2) eqn:Hu; [done|]. exfalso. apply Hnx. rewrite Hl'. by apply list_elem_of_filter. }
    pose proof (length_filter (fun x : Z * fi_info => unwanted x.2 = false) ((a, i) :: l)) as Hle. rewrite <- Hl' in H1, H2, Hle.
    destruct (decide (l' = [])) as [He|He].
    + rewrite He in H1. cbn in H1. subst q. cbn [Z.eqb NULL negb]. wp_simpl. done.
    + assert (q <> NULL) as Hq by (intros ->; apply He; by apply (seg_null h' NULL l')). rewrite (proj2 (Z.eqb_neq _ _) Hq).
      assert (0 < length l')%nat by (destruct l'; [done|cbn; lia]). cbn [length] in Hle, H2 |- *. rewrite (proj2 (Z.eqb_neq num 0)) by lia. wp_simpl.
      split_and!; try done; [cbn; lia|by exists q].
  - subst l'. cbn [length]. rewrite (proj2 (Z.eqb_neq _ 0)) by lia. wp_simpl. split; [split; [done|by intros x Hx []]|]. rewrite decide_False by done.
    split_and!; try done. by exists a.
Qed.

Lemma get_providers_wp h h1 p l fuel prov_include :
  fi_getinfo h = (0, p, h1) -> seg h1 p l NULL -> NoDup l.*1 -> l <> [] -> (length l <= fuel)%nat -> Z.of_nat (length l) < 2 ^ 32 ->
  wp (nccl_ofi_ofiutils_get_providers fuel prov_include) (fun r h' =>
    match selected_name l prov_include with
    | None => r.1 = (- FI_ENODATA, None) /\ leaves h1 h' l []
    | Some name =>
        leaves h1 h' l (usable l name) /\
        if decide (usable l name = []) then r.1 = (- ENOTSUP, None)
        else r.1.1 = 0 /\ r.2 = Z.of_nat (length (usable l name)) /\ exists q, r.1.2 = Some q /\ seg h' q (usable l name) NULL
    end) h.
Proof.
  intros Hg Hs Hnd Hne Hf Hlen. unfold nccl_ofi_ofiutils_get_providers. wp_simpl. rewrite Hg. wp_simpl. cbn [Z.eqb negb]. assert (p <> NULL) as Hp by (intros ->; by apply Hne, (seg_null h1 NULL l)).
  rewrite (proj2 (Z.eqb_neq _ _) Hp). wp_simpl. eapply wp_mono; [by apply (select_wp h1 p l)|]. intros sel ? (-> & Hsel).
  destruct (selected_name l prov_include) as [name|].
  - destruct Hsel as (Hsn & i & Hi & <-). rewrite (proj2 (Z.eqb_neq _ _) Hsn). wp_simpl.
    eapply wp_mono; [apply (keep_provider_wp l fuel h1 [] NULL NULL p 0 sel i); [done|done|by left|done|done|lia|lia]|].
    intros [q num] h2 (H1 & H2 & H3 & H4). cbn [fst snd app] in H1, H2. set (same := filter _ l) in *.
    assert ((sel, i) ∈ same) as Hin by (apply list_elem_of_filter; done).
    assert (same <> []) as Hsame by (intros He; rewrite He in Hin; by apply not_elem_of_nil in Hin).
    assert (q <> NULL) as Hq by (intros ->; apply Hsame; by apply (seg_null h2 NULL same)). rewrite (proj2 (Z.eqb_neq _ _) Hq). subst num.
    assert (0 < length same)%nat by (destruct same; [done|cbn; lia]). rewrite (proj2 (Z.eqb_neq _ 0)) by lia. cbn [orb].
    pose proof (length_filter (fun x : Z * fi_info => prov_name x.2 = prov_name i) l) as Hle. fold same in Hle.
    eapply wp_mono; [apply (finish_wp fuel h2 q same (prov_name i)); [lia|done| |done|lia|]|].
    + eapply sublist_NoDup; [exact Hnd|]. apply fmap_sublist. apply sublist_filter.
    + intros x [Hx _]%list_elem_of_filter. done.
    + intros r h' ([HA HB] & Hres). split; [|done]. split.
      * intros a Ha. rewrite HA; [by apply H3|]. intros (x & -> & [_ Hx]%list_elem_of_filter)%list_elem_of_fmap. apply Ha. apply list_elem_of_fmap. by exists x.
      * intros x Hx Hnx. destruct (decide (prov_name x.2 = prov_name i)) as [He|He]; [|rewrite HA; [by apply H4|]].
        -- apply HB; [by apply list_elem_of_filter|done].
        -- intros (y & Hxy & [Hy Hyl]%list_elem_of_filter)%list_elem_of_fmap. apply He. by rewrite (fst_inj l x y).
  - subst sel. cbn [Z.eqb NULL]. rewrite <- (proj2 (Z.eqb_neq _ _) Hp).
    eapply free_all_wp; [done|done|done|]. wp_simpl. split; [done|by apply leaves_none].
Qed.

(** C37. get_providers returns exactly the providers with the selected name, for TCP
    without the excluded interfaces, in the order of libfabric, with their number;
    every other structure of libfabric's list has been freed once, and no structure
    of another list is touched. When nothing is left it reports an error and has
    freed the whole list. *)
Theorem get_providers_filters h h1 p l fuel prov_include :
  fi_getinfo h = (0, p, h1) -> seg h1 p l NULL -> NoDup l.*1 -> l <> [] -> (length l <= fuel)%nat -> Z.of_nat (length l) < 2 ^ 32 ->
  exists rc out num h', nccl_ofi_ofiutils_get_providers fuel prov_include h = Some ((rc, out, num), h') /\
    match selected_name l prov_include with
    | None => rc = - FI_ENODATA /\ out = None /\ leaves h1 h' l []
    | Some name =>
        leaves h1 h' l (usable l name) /\
        if decide (usable l name = []) then rc = - ENOTSUP /\ out = None
        else rc = 0 /\ num = Z.of_nat (length (usable l name)) /\ exists q, out = Some q /\ seg h' q (usable l name) NULL
    end.
Proof.
  intros Hg Hs Hnd Hne Hf Hlen. pose proof (get_providers_wp h h1 p l fuel prov_include Hg Hs Hnd Hne Hf Hlen) as Hwp.
  apply wp_run in Hwp as ([[rc out] num] & h' & Hrun & Hres). exists rc, out, num, h'. split; [done|].
  destruct (selected_name l prov_include); [|by destruct Hres as [[= -> ->] ?]]. destruct Hres as [Hl Hres]. split; [done|].
  destruct (decide _); [by injection Hres as -> ->|done].
Qed.
End GetProviders.
(** The memory tag format of an interface never decides: the loop compares it with
    itself. *)
Lemma tag_format_never_filters `{ProvEnv} i t :
  unwanted (mk_info (prov_name i) (domain_name i) (addr_format i) t (caps i) (mr_mode i) (mr_key_size i)) = unwanted i.
Proof. unfold unwanted, match_prov_info. cbn. by rewrite !Z.eqb_refl. Qed.

(** A host with EFA and TCP interfaces, one of them excluded and one for IPv6. *)
Fixpoint free_chain (fuel : nat) (p : Z) (h : heap) : option heap :=
  if p =? NULL then Some h
  else match fuel, h !! p with S fuel', Some c => free_chain fuel' (c_next c) (delete p h) | _, _ => None end.

Lemma foldr_delete_comm (h : heap) l a : foldr delete (delete a h) l = delete a (foldr delete h l).
Proof. induction l as [|b l IH]; cbn; [done|]. by rewrite IH, delete_delete. Qed.

Lemma free_chain_seg l : forall fuel p h, (length l <= fuel)%nat -> seg h p l NULL -> NoDup l.*1 ->
  free_chain fuel p h = Some (foldr delete h l.*1).
Proof.
  induction l as [|[a i] l IH]; intros fuel p h Hf Hs Hnd; [cbn in Hs; subst; by destruct fuel|]. destruct fuel as [|fuel]; [cbn in Hf; lia|].
  destruct Hs as (-> & Ha & n & Hn & Hs). cbn in Hnd. apply NoDup_cons in Hnd as [Hni Hnd]. cbn. rewrite (proj2 (Z.eqb_neq _ _) Ha), Hn. cbn.
  rewrite IH; [|cbn in Hf; lia|by apply seg_delete|done]. by rewrite foldr_delete_comm.
Qed.

Definition host_infos : list (Z * fi_info) :=
  [(100, mk_info "efa" "rdmap0" 1 0 0 0 4); (200, mk_info "tcp" "eth0" 2 7 0 0 8); (300, mk_info "tcp" "lo" 2 7 0 0 8);
   (400, mk_info "tcp" "eth0" 10 7 0 0 8); (500, mk_info "tcp" "eth1" 2 9 0 0 8)].
Definition host_heap : heap :=
  {[ 100 := mk_cell (mk_info "efa" "rdmap0" 1 0 0 0 4) 200; 200 := mk_cell (mk_info "tcp" "eth0" 2 7 0 0 8) 300;
     300 := mk_cell (mk_info "tcp" "lo" 2 7 0 0 8) 400; 400 := mk_cell (mk_info "tcp" "eth0" 10 7 0 0 8) 500;
     500 := mk_cell (mk_info "tcp" "eth1" 2 9 0 0 8) NULL ]}.

Definition host_env : ProvEnv := {|
  fi_getinfo := fun h => (0, 100, host_heap ∪ h);
  fi_freeinfo := fun p h => free_chain (base.size h) p h;
  strdup_ok := fun _ => true; ofi_nccl_exclude_tcp_if := "lo,docker0"; ofi_nccl_use_ipv6_tcp := false; FI_SOCKADDR_IN6 := 10;
|}.

Lemma seg_size (l : list (Z * fi_info)) : forall p (h : heap), seg h p l NULL -> NoDup l.*1 -> (length l <= base.size h)%nat.
Proof.
  induction l as [|[a i] l IH]; intros p h Hs Hnd; [cbn; lia|]. destruct Hs as (-> & Ha & n & Hn & Hs). cbn in Hnd. apply NoDup_cons in Hnd as [Hni Hnd].
  assert (seg (delete a h) n l NULL) as Hs' by (by apply seg_delete). pose proof (IH _ _ Hs' Hnd) as H.
  rewrite (map_size_delete_Some a) in H by (by rewrite Hn). assert (base.size h <> 0)%nat; [|cbn; lia].
  intros He%map_size_empty_inv. by rewrite He in Hn.
Qed.

Lemma host_ok : @ProvOk host_env.
Proof. constructor. intros p h l Hs Hnd. apply free_chain_seg; [by eapply seg_size|done|done]. Qed.

Lemma get_providers_filters_witness :
  exists h' q, @nccl_ofi_ofiutils_get_providers host_env 5 (Some "tcp,verbs"%string) ∅ = Some ((0, Some q, 2), h') /\
    seg h' q [(200, mk_info "tcp" "eth0" 2 7 0 0 8); (500, mk_info "tcp" "eth1" 2 9 0 0 8)] NULL /\
    h' !! 100 = None /\ h' !! 300 = None.
Proof.
  destruct (@get_providers_filters host_env host_ok ∅ (host_heap ∪ ∅) 100 host_infos 5 (Some "tcp,verbs"%string))
    as (rc & out & num & h' & Hrun & Hres);
    [reflexivity| |apply (bool_decide_unpack _); vm_compute; exact I|discriminate|vm_compute; lia|vm_compute; reflexivity|].
  - cbn. split_and!; try discriminate; try reflexivity. eexists. split; [vm_compute; reflexivity|].
    do 4 (split_and!; [reflexivity|discriminate|]; eexists; split; [vm_compute; reflexivity|]). reflexivity.
  - change (@selected_name host_env host_infos (Some "tcp,verbs"%string)) with (Some "tcp"%string) in Hres.
    assert (@usable host_env host_infos "tcp" = [(200, mk_info "tcp" "eth0" 2 7 0 0 8); (500, mk_info "tcp" "eth1" 2 9 0 0 8)]) as Hu by (vm_compute; reflexivity).
    cbv beta iota in Hres. rewrite Hu in Hres. rewrite decide_False in Hres by discriminate. cbn [length] in Hres. destruct Hres as ((_ & Hgone) & -> & -> & q & -> & Hs). exists h', q. split; [exact Hrun|]. split; [exact Hs|].
    split; [apply (Hgone (100, mk_info "efa" "rdmap0" 1 0 0 0 4))|apply (Hgone (300, mk_info "tcp" "lo" 2 7 0 0 8))];
      try (apply list_elem_of_In; cbn; tauto); intros Hin%list_elem_of_In; cbn in Hin; destruct Hin as [Hin|[Hin|[]]]; discriminate Hin.
Defined.

(** ** Freeing a list that may be circular *)

Section FreeInfoList.
Context {E : ProvEnv} {O : ProvOk}.

Lemma free_info_loop_wp l : forall fuel h head p q,
  (length l <= fuel)%nat -> seg h p l q -> NoDup l.*1 -> head ∉ tail l.*1 -> q = NULL \/ q = head -> l <> [] \/ p = NULL ->
  wp (free_info_loop fuel head p) (fun _ h' => h' = foldr delete h l.*1) h.
Proof.
  induction l as [|[a i] l IH]; intros fuel h head p q Hf Hs Hnd Hh Hq Hne.
  { destruct Hne as [? | ->]; [done|]. destruct fuel; cbn [free_info_loop Z.eqb NULL]; by wp_simpl. }
  destruct Hs as (-> & Ha & n & Hn & Hs). cbn in Hnd, Hh. apply NoDup_cons in Hnd as [Hni Hnd]. destruct fuel as [|fuel]; [cbn in Hf; lia|].
  cbn [free_info_loop]. rewrite (proj2 (Z.eqb_neq _ _) Ha). wp_simpl. eapply deref_wp; [exact Hn|]. wp_simpl. eapply set_next_wp; [exact Hn|]. cbn [c_info c_next].
  wp_simpl. eapply free_cell_wp; [apply lookup_insert_eq|done|]. rewrite delete_insert_eq. cbn [fmap list_fmap foldr fst].
  destruct l as [|[b j] l].
  - cbn in Hs. subst n. destruct Hq as [-> | ->]; [|by rewrite Z.eqb_refl; wp_simpl].
    destruct (NULL =? head); [by wp_simpl|]. destruct fuel; cbn [free_info_loop Z.eqb NULL]; by wp_simpl.
  - pose proof Hs as (-> & Hb & _). rewrite (proj2 (Z.eqb_neq b head)) by (intros ->; apply Hh; left).
    eapply wp_mono; [apply (IH fuel (delete a h) head b q); [cbn in Hf |- *; lia|by apply seg_delete|done| |done|by left]|].
    + intros Hin. apply Hh. by right.
    + intros _ h' ->. by rewrite foldr_delete_comm.
Qed.

(** Freeing a list of fi_info structures releases every element once and
    nothing else, whether the list ends in NULL or closes to its head. *)
Theorem free_info_list_frees_all fuel h p l q :
  seg h p l q -> NoDup l.*1 -> l <> [] -> q = NULL \/ q = p -> (length l <= fuel)%nat ->
  nccl_ofi_ofiutils_free_info_list fuel p h = Some (tt, foldr delete h l.*1).
Proof.
  intros Hs Hnd Hne Hq Hf. assert (wp (nccl_ofi_ofiutils_free_info_list fuel p) (fun _ h' => h' = foldr delete h l.*1) h) as Hwp.
  { unfold nccl_ofi_ofiutils_free_info_list. destruct l as [|[a i] l]; [done|]. pose proof Hs as (-> & Ha & _). rewrite (proj2 (Z.eqb_neq _ _) Ha).
    eapply free_info_loop_wp; [done|done|done| |done|by left]. cbn in *. by apply NoDup_cons in Hnd as [? _]. }
  apply wp_run in Hwp as ([] & h' & Hrun & ->). done.
Qed.
End FreeInfoList.

Lemma free_info_list_frees_all_witness :
  @nccl_ofi_ofiutils_free_info_list host_env 2 100
    {[ 100 := mk_cell (mk_info "efa" "a" 1 0 0 0 4) 200; 200 := mk_cell (mk_info "efa" "b" 1 0 0 0 4) 100; 300 := mk_cell (mk_info "tcp" "c" 1 0 0 0 4) NULL ]} =
  Some (tt, {[ 300 := mk_cell (mk_info "tcp" "c" 1 0 0 0 4) NULL ]}).
Proof.
  rewrite (@free_info_list_frees_all host_env host_ok 2 _ 100 [(100, mk_info "efa" "a" 1 0 0 0 4); (200, mk_info "efa" "b" 1 0 0 0 4)] 100);
    [vm_compute; reflexivity| |apply (bool_decide_unpack _); vm_compute; exact I|discriminate|right; reflexivity|vm_compute; lia].
  cbn. split_and!; try discriminate; try reflexivity. eexists. split; [vm_compute; reflexivity|]. split_and!; try discriminate; try reflexivity.
  eexists. split; [vm_compute; reflexivity|reflexivity].
Defined.

End OfiUtils.
