(* ===== verification/Net.v ===== *)
(** * nccl_ofi_net.c: plug-in, devices, endpoints and their reference counts

    The base objects both transports extend. A device hands out one endpoint per
    thread, counts the references to it under the device lock and frees it with the
    last one; the transports supply the functions that create and free an endpoint.
    The lock is not recursive: taking it while it is held never returns. *)

From Stdlib Require Import Ascii.
From stdpp Require Import strings.
From S2P Require Import Prelude StateM NetTypes OfiMath.

Module Net.

Open Scope Z_scope.

(** ** Endpoints of a device *)

Record nccl_net_ofi_ep_t := mk_ep { creating_thread_id : Z; ref_cnt : Z }.

(** A device: the lock, the hash table from threads to endpoints, the endpoints in
    memory, and what the transport adds. *)
Record device (T : Type) := mk_device {
  device_lock : bool;
  endpoint_table : gmap Z Z;
  endpoints : gmap Z nccl_net_ofi_ep_t;
  transport : T;
}.
Arguments mk_device {T}.
Arguments device_lock {T}.
Arguments endpoint_table {T}.
Arguments endpoints {T}.
Arguments transport {T}.

(** The specification: for every thread with an endpoint, the endpoint and the
    number of references. *)
Abbreviation refs := (gmap Z (Z * Z)).

Section Device.
Context {T : Type}.

Abbreviation D := (SM (device T)).

Definition w_lock b (d : device T) := mk_device b (endpoint_table d) (endpoints d) (transport d).
Definition w_table f (d : device T) := mk_device (device_lock d) (f (endpoint_table d)) (endpoints d) (transport d).
Definition w_endpoints f (d : device T) := mk_device (device_lock d) (endpoint_table d) (f (endpoints d)) (transport d).
Definition w_transport (f : T -> T) (d : device T) := mk_device (device_lock d) (endpoint_table d) (endpoints d) (f (transport d)).

Definition mutex_lock : D unit :=
  let* held := gets device_lock in
  assert (negb held) ;;; modify (w_lock true).
Definition mutex_unlock : D unit := modify (w_lock false).

Definition get_base (p : Z) : D nccl_net_ofi_ep_t := let* m := gets endpoints in of_option (m !! p).
Definition put_base (p : Z) (e : nccl_net_ofi_ep_t) : D unit := modify (w_endpoints <[p := e]>).

Definition nccl_net_ofi_endpoint_init (p : Z) : D Z := put_base p (mk_ep 0 0) ;;; ret 0.

(** [create_endpoint] is the transport's function: a code and, when it is 0, the
    endpoint. *)
Definition nccl_net_ofi_device_get_ep (create_endpoint : D (Z * Z)) (thread_id : Z) : D (Z * option Z) :=
  mutex_lock ;;;
  let* table := gets endpoint_table in
  let* (rc, ep) :=
    match table !! thread_id with
    | Some ep => ret (0, ep)
    | None =>
        let* (rc, ep) := create_endpoint in
        if negb (rc =? 0) then ret (rc, ep)
        else
          let* e := get_base ep in
          put_base ep (mk_ep thread_id (ref_cnt e)) ;;;
          modify (w_table <[thread_id := ep]>) ;;;
          ret (0, ep)
    end in
  if negb (rc =? 0) then mutex_unlock ;;; ret (rc, None)
  else
    let* e := get_base ep in
    put_base ep (mk_ep (creating_thread_id e) (i32 (ref_cnt e + 1))) ;;;
    mutex_unlock ;;;
    ret (0, Some ep).

(** [free_ep] is the transport's function. *)
Definition nccl_net_ofi_endpoint_release (free_ep : Z -> D Z) (ep : Z) : D Z :=
  mutex_lock ;;;
  let* e := get_base ep in
  let e := mk_ep (creating_thread_id e) (i32 (ref_cnt e - 1)) in
  put_base ep e ;;;
  let* rc :=
    if ref_cnt e =? 0 then
      modify (w_table (delete (creating_thread_id e))) ;;;
      free_ep ep
    else ret 0 in
  mutex_unlock ;;;
  ret rc.

(** ** What the transports promise

    create_endpoint gives a new endpoint that nccl_net_ofi_endpoint_init has set up,
    or an error, and may leave an endpoint behind in memory then; free_ep removes one
    endpoint. Both run with the device lock held and leave it so, and touch no other
    endpoint. *)
Class EpProvider (create_endpoint : D (Z * Z)) (free_ep : Z -> D Z) (ok : device T -> Prop) : Prop := {
  create_spec d : ok d -> device_lock d = true ->
    wp create_endpoint (fun r d' => ok d' /\ device_lock d' = true /\ endpoint_table d' = endpoint_table d /\
      if r.1 =? 0 then endpoints d !! r.2 = None /\ endpoints d' = <[r.2 := mk_ep 0 0]> (endpoints d)
      else endpoints d' = endpoints d \/ endpoints d !! r.2 = None /\ endpoints d' = <[r.2 := mk_ep 0 0]> (endpoints d)) d;
  free_spec d p e : ok d -> device_lock d = true -> endpoints d !! p = Some e -> ref_cnt e = 0 ->
    wp (free_ep p) (fun rc d' => ok d' /\ device_lock d' = true /\ endpoint_table d' = endpoint_table d /\
      endpoints d' = if rc =? 0 then delete p (endpoints d) else endpoints d) d;
  (** [ok] does not depend on the counts, the table and the lock. *)
  ok_base d d' : transport d' = transport d -> dom (endpoints d') = dom (endpoints d) -> ok d -> ok d';
}.

(** ** References *)

Inductive ep_op := OpGetEp (thread : Z) | OpReleaseEp (ep : Z).

(** The references before and after a call that returns [rc] and an endpoint. *)
Inductive refs_step : refs -> ep_op -> Z * option Z -> refs -> Prop :=
| refs_again R t p n : R !! t = Some (p, n) -> refs_step R (OpGetEp t) (0, Some p) (<[t := (p, n + 1)]> R)
| refs_first R t p : R !! t = None -> (forall t' n, R !! t' <> Some (p, n)) -> refs_step R (OpGetEp t) (0, Some p) (<[t := (p, 1)]> R)
| refs_failed R t rc : R !! t = None -> rc <> 0 -> refs_step R (OpGetEp t) (rc, None) R
| refs_drop R t p n : R !! t = Some (p, n) -> 1 < n -> refs_step R (OpReleaseEp p) (0, None) (<[t := (p, n - 1)]> R)
| refs_last R t p rc : R !! t = Some (p, 1) -> refs_step R (OpReleaseEp p) (rc, None) (delete t R).

(** A call that fails may strand an endpoint: it stays in memory without a
    reference, because create_endpoint did not take it back or free_ep failed. *)
Definition stranded_step (rc : Z) (S S' : gset Z) : Prop := S ⊆ S' /\ (rc = 0 -> S' = S).

(** A device that is between two calls, with at most [k] references to an endpoint;
    every endpoint in memory has a reference, but for the [stranded] ones. *)
Record refs_rel (k : Z) (stranded : gset Z) (d : device T) (R : refs) : Prop := {
  rr_lock : device_lock d = false;
  rr_table t : endpoint_table d !! t = fst <$> R !! t;
  rr_ep t p n : R !! t = Some (p, n) -> endpoints d !! p = Some (mk_ep t n) /\ 0 < n <= k;
  rr_inj t t' p n n' : R !! t = Some (p, n) -> R !! t' = Some (p, n') -> t = t';
  rr_all p : p ∈ dom (endpoints d) -> p ∉ stranded -> exists t n, R !! t = Some (p, n);
}.

End Device.
(** ** The device follows the specification *)

Section Refs.
Context {T : Type} (create_endpoint : SM (device T) (Z * Z)) (free_ep : Z -> SM (device T) Z) (ok : device T -> Prop).
Context {EP : EpProvider create_endpoint free_ep ok}.

Definition run_ep_op (op : ep_op) : SM (device T) (Z * option Z) :=
  match op with
  | OpGetEp t => nccl_net_ofi_device_get_ep create_endpoint t
  | OpReleaseEp p => let* rc := nccl_net_ofi_endpoint_release free_ep p in ret (rc, None)
  end.

(** A release needs a reference. *)
Definition legal_op (R : refs) (op : ep_op) : Prop :=
  match op with OpGetEp _ => True | OpReleaseEp p => exists t n, R !! t = Some (p, n) end.

Lemma mutex_lock_wp (d : device T) (Q : unit -> device T -> Prop) : device_lock d = false -> Q tt (w_lock true d) -> wp mutex_lock Q d.
Proof. intros H HQ. unfold mutex_lock. wp_simpl. apply wp_assert; [by rewrite H|]. by wp_simpl. Qed.

Lemma get_base_wp (d : device T) p e Q : endpoints d !! p = Some e -> Q e d -> wp (get_base p) Q d.
Proof. intros H HQ. unfold get_base. wp_simpl. by eapply wp_of_option. Qed.

Lemma dom_put (m : gmap Z nccl_net_ofi_ep_t) p e e' : m !! p = Some e -> dom (<[p := e']> m) = dom m.
Proof. intros H. apply dom_insert_lookup_L. by rewrite H. Qed.

(** Taking one more reference to an endpoint that is in the table. *)
Lemma get_again_wp d R t p n k S :
  ok d -> refs_rel k S d R -> R !! t = Some (p, n) -> k < 2 ^ 31 - 1 ->
  wp (nccl_net_ofi_device_get_ep create_endpoint t) (fun r d' => r = (0, Some p) /\ ok d' /\ refs_rel (k + 1) S d' (<[t := (p, n + 1)]> R)) d.
Proof using EP.
  intros Hok [Hl Ht He Hi Hlk] HR Hk. unfold nccl_net_ofi_device_get_ep. wp_simpl. apply mutex_lock_wp; [done|]. wp_simpl. cbn. rewrite Ht, HR. cbn. wp_simpl.
  destruct (He _ _ _ HR) as [Hp Hn]. cbn [Z.eqb negb]. wp_simpl. eapply get_base_wp; [exact Hp|]. unfold put_base, mutex_unlock. wp_simpl. cbn.
  rewrite i32_small by lia. split_and!; [done| |].
  { eapply ok_base; [..|exact Hok]; [done|]. by eapply dom_put. }
  constructor; cbn; [done| | | |].
  - intros t'. rewrite Ht. destruct (decide (t' = t)) as [->|Hne]; [by rewrite lookup_insert_eq, HR|by rewrite lookup_insert_ne].
  - intros t' p' n' [(<- & [= <- <-])|(Hne & HR')]%lookup_insert_Some; [rewrite lookup_insert_eq; split; [done|lia]|].
    destruct (He _ _ _ HR') as [Hp' Hn']. rewrite lookup_insert_ne; [split; [done|lia]|]. intros <-. by apply Hne, (Hi _ _ _ _ _ HR HR').
  - intros t1 t2 p' n1 n2 H1%lookup_insert_Some H2%lookup_insert_Some. destruct_or!; destruct_and!; simplify_eq; eauto.
  - intros p' Hp' Hs. destruct (decide (p' = p)) as [->|Hne]; [exists t, (n + 1); by rewrite lookup_insert_eq|].
    rewrite (dom_put _ _ _ _ Hp) in Hp'. destruct (Hlk _ Hp' Hs) as (t' & n' & HR'). exists t', n'. rewrite lookup_insert_ne; [done|]. intros ->. congruence.
Qed.

(** The first reference of a thread creates the endpoint, or fails. *)
Lemma get_first_wp d R t k S :
  ok d -> refs_rel k S d R -> R !! t = None -> 0 <= k ->
  wp (nccl_net_ofi_device_get_ep create_endpoint t) (fun r d' => exists R' S', refs_step R (OpGetEp t) r R' /\ ok d' /\ stranded_step r.1 S S' /\ refs_rel (k + 1) S' d' R') d.
Proof using EP.
  intros Hok [Hl Ht He Hi Hlk] HR Hk. unfold nccl_net_ofi_device_get_ep. wp_simpl. apply mutex_lock_wp; [done|]. wp_simpl. cbn. rewrite Ht, HR. cbn. wp_simpl.
  eapply wp_mono; [apply create_spec; [eapply ok_base; [..|exact Hok]; done|done]|].
  intros [rc p] d1 (Hok1 & Hl1 & Ht1 & Hcase). cbn in Ht1, Hcase. destruct (Z.eqb_spec rc 0) as [->|Hrc]; cbn [negb].
  - destruct Hcase as [Hfresh He1]. wp_simpl. eapply get_base_wp; [rewrite He1; apply lookup_insert_eq|]. unfold put_base, mutex_unlock. wp_simpl. cbn [Z.eqb negb ref_cnt].
    wp_simpl. eapply get_base_wp; [cbn; apply lookup_insert_eq|]. wp_simpl.
    assert (forall t' n, R !! t' <> Some (p, n)) as Hnew by (intros t' n H; destruct (He _ _ _ H) as [H' _]; congruence).
    exists (<[t := (p, 1)]> R), S. split_and!; [by apply refs_first| |done|].
    { eapply ok_base; [..|exact Hok1]; [done|]. cbn. rewrite He1, !dom_insert_L. set_solver. }
    constructor; cbn; rewrite ?insert_insert_eq, ?He1, ?insert_insert_eq; [done| | | |].
    + intros t'. rewrite Ht1. destruct (decide (t' = t)) as [->|Hne]; [by rewrite !lookup_insert_eq|rewrite !lookup_insert_ne by done; by rewrite Ht].
    + intros t' p' n' [(<- & [= <- <-])|(Hne & HR')]%lookup_insert_Some; [rewrite lookup_insert_eq; split; [done|lia]|].
      destruct (He _ _ _ HR') as [Hp' Hn']. rewrite lookup_insert_ne; [split; [done|lia]|]. intros <-. congruence.
    + intros t1 t2 p' n1 n2 H1%lookup_insert_Some H2%lookup_insert_Some. destruct_or!; destruct_and!; simplify_eq; eauto; exfalso; by eapply Hnew.
    + intros p' Hp' Hs. destruct (decide (p' = p)) as [->|Hne]; [exists t, 1; by rewrite lookup_insert_eq|].
      rewrite dom_insert_L, elem_of_union, elem_of_singleton in Hp'. destruct Hp' as [?|Hp']; [done|].
      destruct (Hlk _ Hp' Hs) as (t' & n' & HR'). exists t', n'. rewrite lookup_insert_ne; [done|]. intros ->. congruence.
  - wp_simpl. rewrite (proj2 (Z.eqb_neq _ _) Hrc). cbn [negb]. unfold mutex_unlock. wp_simpl.
    exists R, ({[p]} ∪ S). split_and!; [by apply refs_failed|by eapply ok_base; [..|exact Hok1]| |].
    { split; [set_solver|]. cbn. done. }
    assert (forall q e, endpoints d !! q = Some e -> endpoints d1 !! q = Some e) as Hold.
    { intros q e Hq. destruct Hcase as [->|[Hf ->]]; [done|]. rewrite lookup_insert_ne; [done|]. intros <-. congruence. }
    constructor; cbn; [done| | |done|].
    + intros t'. by rewrite Ht1, Ht.
    + intros t' p' n' HR'. destruct (He _ _ _ HR') as [Hp' Hn']. split; [by apply Hold|lia].
    + intros q Hq Hs. destruct Hcase as [Hc|[Hf Hc]]; rewrite Hc in Hq; rewrite ?dom_insert_L in Hq; apply Hlk; set_solver.
Qed.

Lemma release_wp d R t p n k S :
  ok d -> refs_rel k S d R -> R !! t = Some (p, n) -> k < 2 ^ 31 ->
  wp (nccl_net_ofi_endpoint_release free_ep p) (fun rc d' => exists R' S', refs_step R (OpReleaseEp p) (rc, None) R' /\ ok d' /\
    stranded_step rc S S' /\ refs_rel (k + 1) S' d' R') d.
Proof using EP.
  intros Hok [Hl Ht He Hi Hlk] HR Hk. destruct (He _ _ _ HR) as [Hp Hn]. unfold nccl_net_ofi_endpoint_release. wp_simpl. apply mutex_lock_wp; [done|]. wp_simpl.
  eapply get_base_wp; [exact Hp|]. unfold put_base, mutex_unlock. wp_simpl. cbn [ref_cnt creating_thread_id]. rewrite i32_small by lia.
  assert (forall t' p' n', R !! t' = Some (p', n') -> t' <> t -> p' <> p) as Hoth by (intros t' p' n' H Hne ->; by apply Hne, (Hi _ _ _ _ _ H HR)).
  destruct (Z.eqb_spec (n - 1) 0) as [Hz|Hnz].
  - assert (n = 1) as -> by lia. wp_simpl. eapply wp_mono.
    { eapply (free_spec _ p); [|done|cbn; apply lookup_insert_eq|done]. eapply ok_base; [..|exact Hok]; [done|]. by eapply dom_put. }
    intros rc d1 (Hok1 & Hl1 & Ht1 & He1). cbn in Ht1, He1. wp_simpl. exists (delete t R), (if rc =? 0 then S else {[p]} ∪ S).
    split_and!; [by apply refs_last|by eapply ok_base; [..|exact Hok1]|split; [destruct (rc =? 0); set_solver|by intros ->]|].
    assert (forall q, q <> p -> endpoints d1 !! q = endpoints d !! q) as Hq.
    { intros q Hne. rewrite He1. destruct (rc =? 0); [rewrite lookup_delete_ne by done|]; by rewrite lookup_insert_ne. }
    constructor; cbn; [done| | | |].
    + intros t'. rewrite Ht1. destruct (decide (t' = t)) as [->|Hne]; [by rewrite !lookup_delete_eq|by rewrite !lookup_delete_ne, Ht].
    + intros t' p' n' [Hne HR']%lookup_delete_Some. destruct (He _ _ _ HR'). rewrite Hq by (by eapply Hoth). split; [done|lia].
    + intros t1 t2 p' n1 n2 [_ H1]%lookup_delete_Some [_ H2]%lookup_delete_Some. by eapply Hi.
    + intros p' [e' He']%elem_of_dom Hs. destruct (decide (p' = p)) as [->|Hne].
      * exfalso. rewrite He1 in He'. destruct (rc =? 0); [by rewrite lookup_delete_eq in He'|]. apply Hs, elem_of_union. left. by apply elem_of_singleton.
      * rewrite Hq in He' by done. destruct (Hlk p') as (t' & n' & HR'); [by apply elem_of_dom; exists e'| |].
        { intros H. apply Hs. destruct (rc =? 0); [done|]. apply elem_of_union. by right. }
        exists t', n'. rewrite lookup_delete_ne; [done|]. intros ->. congruence.
  - wp_simpl. exists (<[t := (p, n - 1)]> R), S. split_and!; [apply refs_drop; [done|lia]|eapply ok_base; [..|exact Hok]; [done|by eapply dom_put]|done|].
    constructor; cbn; [done| | | |].
    + intros t'. rewrite Ht. destruct (decide (t' = t)) as [->|Hne]; [by rewrite lookup_insert_eq, HR|by rewrite lookup_insert_ne].
    + intros t' p' n' [(<- & [= <- <-])|(Hne & HR')]%lookup_insert_Some; [rewrite lookup_insert_eq; split; [done|lia]|].
      destruct (He _ _ _ HR'). rewrite lookup_insert_ne by (apply not_eq_sym; by eapply Hoth). split; [done|lia].
    + intros t1 t2 p' n1 n2 H1%lookup_insert_Some H2%lookup_insert_Some. destruct_or!; destruct_and!; simplify_eq; eauto.
    + intros p' Hp' Hs. destruct (decide (p' = p)) as [->|Hne]; [exists t, (n - 1); by rewrite lookup_insert_eq|].
      rewrite (dom_put _ _ _ _ Hp) in Hp'. destruct (Hlk _ Hp' Hs) as (t' & n' & HR'). exists t', n'. rewrite lookup_insert_ne; [done|]. intros ->. congruence.
Qed.

Lemma run_ep_op_wp d R k S op :
  ok d -> refs_rel k S d R -> 0 <= k < 2 ^ 31 - 1 -> legal_op R op ->
  wp (run_ep_op op) (fun r d' => exists R' S', refs_step R op r R' /\ ok d' /\ stranded_step r.1 S S' /\ refs_rel (k + 1) S' d' R') d.
Proof using EP.
  intros Hok Hrel Hk Hleg. destruct op as [t|p]; cbn in *.
  - destruct (R !! t) as [[p n]|] eqn:HR; [|apply get_first_wp; try done; lia].
    eapply wp_mono; [apply (get_again_wp d R t p n k S); try done; lia|]. intros r d' (-> & ? & ?). exists (<[t := (p, n + 1)]> R), S. split; [by apply refs_again|done].
  - destruct Hleg as (t & n & HR). wp_simpl. eapply wp_mono; [apply (release_wp d R t p n k S); try done; lia|]. intros rc d' H. by wp_simpl.
Qed.

(** C30. A device gives every thread one endpoint and counts its references: a
    thread that holds its endpoint gets the same one again, one that does not gets
    an endpoint nobody else has, or an error and no reference; a release gives one
    reference back, and the endpoint is freed with the last one and not before, so
    that every endpoint in memory has a reference or was stranded by a call that
    failed.
    Every call that is made with a reference to release runs to its end. *)
Theorem endpoints_follow_references d R k S op :
  ok d -> refs_rel k S d R -> 0 <= k < 2 ^ 31 - 1 -> legal_op R op ->
  exists r d' R' S', run_ep_op op d = Some (r, d') /\ refs_step R op r R' /\ ok d' /\ stranded_step r.1 S S' /\ refs_rel (k + 1) S' d' R'.
Proof using EP.
  intros Hok Hrel Hk Hleg. pose proof (run_ep_op_wp d R k S op Hok Hrel Hk Hleg) as Hwp. apply wp_run in Hwp as (r & d' & Hrun & R' & S' & H). by exists r, d', R', S'.
Qed.
End Refs.
(** ** Threads that get and release their endpoint *)

Inductive thread_op := ThreadGets (thread : Z) | ThreadReleases (thread : Z).

Section Threads.
Context {T : Type} (create_endpoint : SM (device T) (Z * Z)) (free_ep : Z -> SM (device T) Z) (ok : device T -> Prop).
Context {EP : EpProvider create_endpoint free_ep ok}.

(** One call; the threads keep the endpoint they got and how often they hold it. A
    thread without an endpoint has nothing to release. *)
Definition run_thread_op (op : thread_op) (R : refs) : SM (device T) (Z * refs) :=
  match op with
  | ThreadGets t =>
      let* (rc, p) := run_ep_op create_endpoint free_ep (OpGetEp t) in
      ret (rc, match p with Some p => <[t := (p, match R !! t with Some (_, n) => n + 1 | None => 1 end)]> R | None => R end)
  | ThreadReleases t =>
      match R !! t with
      | Some (p, n) =>
          let* (rc, _) := run_ep_op create_endpoint free_ep (OpReleaseEp p) in
          ret (rc, if n =? 1 then delete t R else <[t := (p, n - 1)]> R)
      | None => ret (0, R)
      end
  end.

(** The calls in some order, and whether all of them returned 0. *)
Fixpoint run_thread_ops (ops : list thread_op) (R : refs) : SM (device T) (bool * refs) :=
  match ops with
  | [] => ret (true, R)
  | op :: ops =>
      let* (rc, R) := run_thread_op op R in
      let* (b, R) := run_thread_ops ops R in
      ret ((rc =? 0) && b, R)
  end.

Lemma refs_rel_mono k k' S (d : device T) R : refs_rel k S d R -> k <= k' -> refs_rel k' S d R.
Proof. intros [? ? H ? ?] Hk. constructor; try done. intros t p n Ht. destruct (H _ _ _ Ht). split; [done|lia]. Qed.

Lemma run_thread_op_wp op R d k S :
  ok d -> refs_rel k S d R -> 0 <= k < 2 ^ 31 - 1 ->
  wp (run_thread_op op R) (fun r d' => ok d' /\ exists S', refs_rel (k + 1) S' d' r.2 /\ stranded_step r.1 S S') d.
Proof using EP.
  intros Hok Hrel Hk. destruct op as [t|t]; cbn [run_thread_op].
  - wp_simpl. eapply wp_mono; [by eapply run_ep_op_wp|]. intros [rc p] d' (R' & S' & Hstep & Hok' & Hs & Hrel'). wp_simpl. cbn [fst snd] in *. split; [done|]. exists S'. split; [|done].
    inversion Hstep as [? ? ? ? HR|? ? ? HR ?|? ? ? HR Hne| |]; subst; rewrite ?HR; done.
  - destruct (R !! t) as [[p n]|] eqn:HR; [|wp_simpl; split; [done|]; exists S; split; [eapply refs_rel_mono; [done|lia]|done]].
    wp_simpl. eapply wp_mono; [eapply (run_ep_op_wp create_endpoint free_ep ok d R k S (OpReleaseEp p)); try done; cbn; by eauto|].
    intros [rc o] d' (R' & S' & Hstep & Hok' & Hs & Hrel'). wp_simpl. cbn [fst snd] in *. split; [done|]. exists S'.
    split; [|done]. inversion Hstep as [| | |? t' ? n' HR' Hn|? t' ? ? HR']; subst; pose proof (rr_inj _ _ _ _ Hrel _ _ _ _ _ HR HR') as <-; rewrite HR in HR'; simplify_eq.
    + rewrite (proj2 (Z.eqb_neq _ _)) by lia. done.
    + done.
Qed.

Lemma no_refs_no_endpoints k (d : device T) : refs_rel k ∅ d ∅ -> endpoints d = ∅.
Proof.
  intros Hrel. apply dom_empty_inv_L, set_eq. intros p. split; [|by intros ?%not_elem_of_empty]. intros Hp.
  destruct (rr_all _ _ _ _ Hrel p Hp) as (t & n & Ht); [apply not_elem_of_empty|]. by rewrite lookup_empty in Ht.
Qed.

(** Whatever the threads do, the device keeps count, and when no call failed the
    endpoints in memory are those somebody holds. *)
Lemma run_thread_ops_wp ops : forall R d k S,
  ok d -> refs_rel k S d R -> 0 <= k -> k + Z.of_nat (length ops) < 2 ^ 31 ->
  wp (run_thread_ops ops R) (fun r d' => ok d' /\ exists S', refs_rel (k + Z.of_nat (length ops)) S' d' r.2 /\ (r.1 = true -> S' = S)) d.
Proof using EP.
  induction ops as [|op ops IH]; intros R d k S Hok Hrel Hk Hlen; cbn [run_thread_ops].
  { wp_simpl. split; [done|]. exists S. split; [eapply refs_rel_mono; [done|cbn; lia]|done]. }
  cbn [length] in *. wp_simpl. eapply wp_mono; [eapply run_thread_op_wp; try done; lia|]. intros [rc R1] d1 (Hok1 & S1 & Hrel1 & _ & HS1). cbn [fst snd] in *.
  wp_simpl. eapply wp_mono; [apply (IH R1 d1 (k + 1) S1); try done; lia|]. intros [b R2] d2 (Hok2 & S2 & Hrel2 & HS2). wp_simpl. cbn [fst snd] in *.
  split; [done|]. exists S2. split; [eapply refs_rel_mono; [done|lia]|]. intros [Hrc Hb]%andb_prop. rewrite HS2, HS1 by (done || lia). done.
Qed.
End Threads.

(** A transport that numbers its endpoints. *)
Definition count_create : SM (device Z) (Z * Z) :=
  let* p := gets transport in
  modify (w_transport (fun n => n + 1)) ;;; nccl_net_ofi_endpoint_init p ;;; ret (0, p).
Definition count_free (p : Z) : SM (device Z) Z := modify (w_endpoints (delete p)) ;;; ret 0.
Definition count_ok (d : device Z) : Prop := forall p, p ∈ dom (endpoints d) -> p < transport d.

Lemma count_provider : EpProvider count_create count_free count_ok.
Proof.
  constructor.
  - intros d Hok Hl. unfold count_create, nccl_net_ofi_endpoint_init, put_base. wp_simpl. cbn. split_and!; try done.
    + intros p. cbn. rewrite dom_insert_L, elem_of_union, elem_of_singleton. intros [->|Hp]; [lia|]. specialize (Hok _ Hp). lia.
    + apply not_elem_of_dom. intros H. specialize (Hok _ H). lia.
  - intros d p e Hok Hl Hp _. unfold count_free. wp_simpl. cbn. split_and!; try done. intros q. cbn. rewrite dom_delete_L, elem_of_difference.
    intros [Hq _]. by apply Hok.
  - intros d d' Ht Hd Hok p. unfold count_ok in Hok. rewrite Ht, Hd. apply Hok.
Qed.

Definition new_device : device Z := mk_device false ∅ ∅ 40.

Lemma endpoints_follow_references_witness :
  exists d1 d2, run_ep_op count_create count_free (OpGetEp 7) new_device = Some ((0, Some 40), d1) /\
    run_ep_op count_create count_free (OpGetEp 7) d1 = Some ((0, Some 40), d2) /\ refs_rel 2 ∅ d2 {[ 7 := (40, 2) ]}.
Proof.
  destruct (endpoints_follow_references count_create count_free count_ok (EP := count_provider) new_device ∅ 0 ∅ (OpGetEp 7))
    as (r1 & d1 & R1 & S1 & Hrun1 & Hstep1 & Hok1 & HS1 & Hrel1).
  - intros p Hp. exfalso. revert Hp. apply not_elem_of_empty.
  - constructor; cbn; done.
  - lia.
  - exact I.
  - destruct (endpoints_follow_references count_create count_free count_ok (EP := count_provider) d1 R1 (0 + 1) S1 (OpGetEp 7))
      as (r2 & d2 & R2 & S2 & Hrun2 & Hstep2 & Hok2 & HS2 & Hrel2); [exact Hok1|exact Hrel1|lia|exact I|].
    assert (r1 = (0, Some 40)) as -> by (apply (f_equal (option_map fst)) in Hrun1; vm_compute in Hrun1; by injection Hrun1).
    inversion Hstep1 as [? ? ? ? HR|? ? ? HR ?|? ? ? ? Hne| |]; subst; [by rewrite lookup_empty in HR|].
    inversion Hstep2 as [? ? ? ? HR2|? ? ? HR2 ?|? ? ? HR2 Hne| |]; subst; rewrite lookup_insert_eq in HR2; try done. injection HR2 as <- <-.
    exists d1, d2. split; [exact Hrun1|]. split; [exact Hrun2|]. rewrite insert_insert_eq in Hrel2.
    rewrite (proj2 HS2 eq_refl), (proj2 HS1 eq_refl) in Hrel2. exact Hrel2.
Defined.

End Net.
