(* ===== verification/Plugin.v ===== *)
(** * nccl_ofi_net.c: the plug-in object, its start and the properties it reports

    The array of devices, the initialisation of a base device, the choice of the
    transport in nccl_net_ofi_create_plugin and the properties of a NIC. What the
    platform, CUDA, libfabric and the transports answer is in [PlugEnv]. The build
    is the one with CUDA. *)

From Stdlib Require Import Ascii.
From stdpp Require Import strings.
From S2P Require Import Prelude StateM NetTypes OfiMath Idpool MrCache OfiUtils PciText.

Module Plugin.

Open Scope Z_scope.

(** ** The device array *)

Record nccl_net_ofi_plugin_t := mk_plugin {
  p_devs : list (option Z);
  p_num_devs : Z;
  domain_per_thread : bool;
}.

Definition nccl_net_ofi_plugin_init (calloc_ok : bool) (num_devices : Z) (p : nccl_net_ofi_plugin_t) : Z * nccl_net_ofi_plugin_t :=
  if negb calloc_ok then (- ENOMEM, p)
  else (0, mk_plugin (replicate (Z.to_nat num_devices) None) num_devices (domain_per_thread p)).

Definition nccl_net_ofi_plugin_assign_device (p : nccl_net_ofi_plugin_t) (device_index device : Z) : Z * nccl_net_ofi_plugin_t :=
  if device_index >=? p_num_devs p then (- ENOSPC, p)
  else (0, mk_plugin (<[Z.to_nat device_index := Some device]> (p_devs p)) (p_num_devs p) (domain_per_thread p)).

Definition nccl_net_ofi_plugin_get_device (p : nccl_net_ofi_plugin_t) (device_index : Z) : option Z :=
  if device_index >=? p_num_devs p then None
  else match p_devs p !! Z.to_nat device_index with Some d => d | None => None end.

Definition nccl_net_ofi_plugin_get_num_devices (p : nccl_net_ofi_plugin_t) : Z := p_num_devs p.

(** The devices that are released, in order; the array is gone afterwards. *)
Definition nccl_net_ofi_plugin_fini (p : nccl_net_ofi_plugin_t) : list Z * nccl_net_ofi_plugin_t :=
  (omap (fun d => d) (take (Z.to_nat (p_num_devs p)) (p_devs p)), mk_plugin [] 0 (domain_per_thread p)).

(** ** Base devices *)

(** Bits of libfabric's interface that are tested. *)
Class FiBits := {
  FI_RMA : Z;
  FI_HMEM : Z;
  FI_MR_LOCAL : Z;
  FI_MR_VIRT_ADDR : Z;
  FI_MR_ENDPOINT : Z;
  FI_MR_PROV_KEY : Z;
}.

Definition has_bit (x bit : Z) : bool := negb (Z.land x bit =? 0).

Section Keys.
Context {F : FiBits}.

(** Code and whether the plug-in chooses the keys. *)
Definition nccl_ofi_mr_keys_need_own_key (provider : OfiUtils.fi_info) (ofi_nccl_mr_key_size : Z) : Z * bool :=
  if negb (has_bit (OfiUtils.caps provider) FI_RMA) then (0, false)
  else if has_bit (OfiUtils.mr_mode provider) FI_MR_PROV_KEY then (0, false)
  else if OfiUtils.mr_key_size provider <? ofi_nccl_mr_key_size then (- EINVAL, true)
  else (0, true).

Definition NCCL_OFI_MR_CACHE_INIT_SIZE : Z := 128.

Record nccl_net_ofi_device_t := mk_device {
  dev_id : Z;
  name : option string;
  mr_cache : option MrCache.nccl_ofi_mr_cache_t;
  need_mr_rkey_pool : bool;
  mr_rkey_pool : Idpool.nccl_ofi_idpool;
}.

(** What the calls of device_init answer. *)
Record dev_env := mk_dev_env {
  de_strdup : bool;
  de_cache_disable : bool;
  de_cache_calloc : bool;
  de_slots_calloc : bool;
  de_cache_mutex : Z;
  de_mutex : Z;
  de_key_size : Z;
  de_pool_malloc : Z -> option (list Z);
  de_pool_mutex : Z;
  de_page_size : Z;
}.

(** The shift of the int 1: undefined when the result leaves the type. *)
Definition int_shl1 (n : Z) : option Z := if n <? 31 then Some (Z.shiftl 1 n) else None.

Definition nccl_net_ofi_device_init (e : dev_env) (device_index : Z) (ofi_info : OfiUtils.fi_info) : option (Z * nccl_net_ofi_device_t) :=
  let no_pool := Idpool.mk_idpool 0 None in
  if negb (de_strdup e) then Some (- ENOMEM, mk_device device_index None None false no_pool)
  else
    let nm := Some (OfiUtils.prov_name ofi_info) in
    let cache :=
      if de_cache_disable e then None
      else MrCache.nccl_ofi_mr_cache_init (de_cache_calloc e) (de_slots_calloc e) (de_cache_mutex e) NCCL_OFI_MR_CACHE_INIT_SIZE (de_page_size e) in
    if negb (de_cache_disable e) && (match cache with None => true | Some _ => false end) then
      Some (- ENOMEM, mk_device device_index nm None false no_pool)
    else if negb (de_mutex e =? 0) then Some (- de_mutex e, mk_device device_index nm cache false no_pool)
    else
      let (rc, need) := nccl_ofi_mr_keys_need_own_key ofi_info (de_key_size e) in
      if negb (rc =? 0) then Some (- rc, mk_device device_index nm cache need no_pool)
      else
        let init sz :=
          let (rc, pool) := Idpool.nccl_ofi_idpool_init (de_pool_malloc e) (de_pool_mutex e) no_pool sz in
          Some (if negb (rc =? 0) then - rc else 0, mk_device device_index nm cache need pool) in
        if need then
          let shift := u64 (de_key_size e * 8) in
          if shift >? 63 then Some (- EINVAL, mk_device device_index nm cache need no_pool)
          else
            match int_shl1 shift with
            | Some sz => init sz
            | None => None
            end
        else init 0.

End Keys.

(** ** Selection of the transport *)

Inductive protocol := SENDRECV | RDMA.

#[export] Instance protocol_eq_dec : EqDecision protocol.
Proof. solve_decision. Defined.

Definition lower (a : ascii) : ascii :=
  let n := N_of_ascii a in
  if (65 <=? n)%N && (n <=? 90)%N then ascii_of_N (n + 32) else a.
Fixpoint strcasecmp_eq (s t : string) : bool :=
  match s, t with
  | EmptyString, EmptyString => true
  | String a s', String b t' => Ascii.eqb (lower a) (lower b) && strcasecmp_eq s' t'
  | _, _ => false
  end.

(** The answers of the calls of create_plugin. The protocol is the one the platform
    set; rdma_init also says whether it found several rails per device. *)
Record plug_env := mk_plug_env {
  pe_page_size : Z;
  pe_cuda_init : Z;
  pe_platform_init : option Z;
  pe_platform_protocol : option string;
  ofi_nccl_protocol : option string;
  pe_sendrecv_init : Z;
  pe_rdma_init : Z * bool;
  ofi_nccl_domain_per_thread : Z;
  platform_default_domain_per_thread : option bool;
  pe_complete_init : protocol -> Z;
  pe_get_ep : Z;
  pe_get_properties : Z;
  pe_release_ep : Z;
  ofi_nccl_nic_dup_conns : Z;
  pe_support_gdr : gdr_support_level_t;
}.

(** The part of the function that chooses: the code, the transport, and the
    transports that were started and released again. *)
Definition select_protocol (e : plug_env) : Z * option protocol * list protocol :=
  let selected := match ofi_nccl_protocol e with Some s => Some s | None => pe_platform_protocol e end in
  match selected with
  | Some s =>
      if strcasecmp_eq s "SENDRECV" then
        (pe_sendrecv_init e, if pe_sendrecv_init e =? 0 then Some SENDRECV else None, [])
      else if strcasecmp_eq s "RDMA" then
        ((pe_rdma_init e).1, if (pe_rdma_init e).1 =? 0 then Some RDMA else None, [])
      else (- ENOTSUP, None, [])
  | None =>
      let rdma_plugin := (pe_rdma_init e).1 =? 0 in
      let have_multiple_rails := rdma_plugin && (pe_rdma_init e).2 in
      let sendrecv_plugin := if negb have_multiple_rails || negb rdma_plugin then pe_sendrecv_init e =? 0 else false in
      if have_multiple_rails && rdma_plugin then (0, Some RDMA, if sendrecv_plugin then [SENDRECV] else [])
      else
        let released := if rdma_plugin then [RDMA] else [] in
        if sendrecv_plugin then (0, Some SENDRECV, released) else (- EINVAL, None, released)
  end.

(** From the chosen transport on: complete_init, and the endpoint that is created
    and released to set NCCL's options. *)
Definition complete_plugin (e : plug_env) (p : protocol) : option (Z * option (protocol * bool)) :=
  let domain_per_thread :=
    if negb (ofi_nccl_domain_per_thread e =? -1) then 0 <? ofi_nccl_domain_per_thread e
    else match platform_default_domain_per_thread e with Some b => b | None => false end in
  if negb (pe_complete_init e p =? 0) then Some (pe_complete_init e p, None)
  else if negb (pe_get_ep e =? 0) then Some (pe_get_ep e, None)
  else if negb (pe_get_properties e =? 0) then Some (pe_get_properties e, None)
  else if negb (pe_release_ep e =? 0) then Some (pe_release_ep e, None)
  else if bool_decide (pe_support_gdr e = GDR_UNKNOWN) then None
  else if (0 <? ofi_nccl_nic_dup_conns e) && negb (bool_decide (pe_support_gdr e = GDR_UNSUPPORTED)) then Some (- ENOTSUP, None)
  else Some (0, Some (p, domain_per_thread)).

(** Code, transport in use with one domain per thread or not, transports that were
    released again. [None] is a failed assertion. *)
Definition nccl_net_ofi_create_plugin (e : plug_env) : option (Z * option (protocol * bool) * list protocol) :=
  if pe_page_size e =? -1 then Some (- ENOTSUP, None, [])
  else if negb (NCCL_OFI_IS_POWER_OF_TWO (pe_page_size e)) then None
  else if negb (pe_cuda_init e =? 0) then Some (pe_cuda_init e, None, [])
  else
    let platform_rc := match pe_platform_init e with Some rc => rc | None => 0 end in
    if negb (platform_rc =? 0) then Some (platform_rc, None, [])
    else
      let '(rc, selected, released) := select_protocol e in
      match selected with
      | None => Some (rc, None, released)
      | Some p => match complete_plugin e p with Some (rc, r) => Some (rc, r, released) | None => None end
      end.

(** ** NIC properties *)

(** A heap string: its contents and the size of its block. *)
Record buffer := mk_buffer { b_string : string; b_size : Z }.
Definition strdup (s : string) : buffer := mk_buffer s (Z.of_nat (String.length s) + 1).

(** snprintf(buf, n, ...) of [s]: at most [n] bytes with the final NUL. [None] when
    it writes past the block. *)
Definition snprintf (buf : buffer) (n : Z) (s : string) : option buffer :=
  let written := NCCL_OFI_MIN n (Z.of_nat (String.length s) + 1) in
  if b_size buf <? written then None
  else Some (mk_buffer (String.substring 0 (Z.to_nat (n - 1)) s) (b_size buf)).

Record nccl_ofi_properties_t := mk_props {
  pr_name : buffer;
  pci_path : option string;
  guid : Z;
  hmem_support : bool;
  dmabuf_support : bool;
  port_number : Z;
  port_speed : Z;
  latency : Z;
  max_communicators : Z;
  max_group_receives : Z;
  regIsGlobal : bool;
  max_mr_key_size : Z;
}.

(** The struct fid_nic of a provider. *)
Record fid_nic := mk_nic { nic_name : option string; nic_speed : Z }.

(** The globals of the file and the answers of the system, of CUDA and of the DMI
    tables; [real_path] is what get_device_pci_path finds. *)
Record props_env := mk_props_env {
  net_latency : Z;
  support_gdr : gdr_support_level_t;
  nic_dup_conns : Z;
  product_name : option string;
  real_path : option string;
  num_gpus_visible : Z;
  active_cuda_device : Z;
  dmabuf_viable : bool;
  api_version_ge_1_20 : bool;
  FI_NAME_MAX : Z;
}.

Definition set_nic_props_default (e : props_env) (dev_id : Z) (domain_name : string) : nccl_ofi_properties_t :=
  mk_props (strdup domain_name) None dev_id (bool_decide (support_gdr e = GDR_SUPPORTED)) false 1 0
    (if 0 <=? net_latency e then net_latency e else 0) 0 NCCL_OFI_MAX_RECVS false 0.

(** The loop that cuts the path after its last slash; [None] when there is none. *)
Fixpoint cut_path (rev_path : list ascii) : option (list ascii) :=
  match rev_path with
  | [] => None
  | a :: l => if Ascii.eqb a "/"%char then Some (a :: l) else cut_path l
  end.
Definition synthetic_path (path : string) : option string :=
  match cut_path (rev (String.list_ascii_of_string path)) with
  | Some l => Some (String.string_of_list_ascii (rev l))
  | None => None
  end.

Section Properties.
Context {F : FiBits}.

Definition nccl_net_ofi_info_properties (e : props_env) (domain_per_thread : bool) (nic_prov : OfiUtils.fi_info) (nic : option fid_nic)
    (dev_id num_devices : Z) : option (Z * option nccl_ofi_properties_t) :=
  let props := set_nic_props_default e dev_id (OfiUtils.domain_name nic_prov) in
  match nic with
  | None => Some (0, Some props)
  | Some nic =>
      let nm := match nic_name nic with Some s => strdup s | None => pr_name props end in
      let is_global := negb (has_bit (OfiUtils.mr_mode nic_prov) FI_MR_ENDPOINT || domain_per_thread) in
      let speed := if bool_decide (product_name e = Some "p5en.48xlarge"%string) then 200000 else nic_speed nic / 1000000 in
      let finish nm path :=
        Some (0, Some (mk_props nm path dev_id (hmem_support props)
          (has_bit (OfiUtils.caps nic_prov) FI_HMEM && api_version_ge_1_20 e && dmabuf_viable e)
          1 speed (latency props) 0 NCCL_OFI_MAX_RECVS is_global (OfiUtils.mr_key_size nic_prov))) in
      if 1 <? nic_dup_conns e then
        if negb (0 <? num_gpus_visible e) then Some (- ENOTSUP, None)
        else if (active_cuda_device e <? 0) || (num_gpus_visible e <=? active_cuda_device e) then Some (- ENOTSUP, None)
        else
          let gpus_per_conn := num_gpus_visible e / num_devices in
          let gpus_per_conn := if gpus_per_conn =? 0 then 1 else gpus_per_conn in
          let path :=
            match real_path e with
            | Some p => if negb (active_cuda_device e / gpus_per_conn =? dev_id) then option_map Some (synthetic_path p) else Some (Some p)
            | None => Some None
            end in
          match path with
          | None => None
          | Some path =>
              let printed := match nic_name nic with Some s => s | None => "(null)"%string end in
              match snprintf nm (FI_NAME_MAX e + 2) (printed +:+ "-" +:+ PciText.hex dev_id) with
              | None => None
              | Some nm => finish nm path
              end
          end
      else finish nm (real_path e)
  end.

(** ** Capabilities of the provider *)

(** Code and the three globals local_mr, virt_addr_mr, endpoint_mr, when they are set. *)
Definition nccl_net_ofi_query_provider_capabilities (selected_provider : OfiUtils.fi_info) (version_ge_1_18 : bool)
    : Z * option (bool * bool * bool) :=
  if String.prefix "efa" (OfiUtils.prov_name selected_provider) && negb version_ge_1_18 then (- ENOTSUP, None)
  else (0, Some (has_bit (OfiUtils.mr_mode selected_provider) FI_MR_LOCAL,
                 has_bit (OfiUtils.mr_mode selected_provider) FI_MR_VIRT_ADDR,
                 has_bit (OfiUtils.mr_mode selected_provider) FI_MR_ENDPOINT)).

End Properties.

(** The devices of a plug-in whose first slots are filled. *)
Lemma omap_devs (ps : list Z) k : omap (fun d : option Z => d) ((Some <$> ps) ++ replicate k None) = ps.
Proof.
  induction ps as [|p ps IH]; cbn; [|by f_equal]. by induction k.
Qed.

(** ** Theorems *)

(** The rules in the comment of nccl_net_ofi_create_plugin. *)
Definition documented_choice (e : plug_env) : option protocol :=
  let named := match ofi_nccl_protocol e with Some s => Some s | None => pe_platform_protocol e end in
  let sendrecv := pe_sendrecv_init e =? 0 in
  let rdma := (pe_rdma_init e).1 =? 0 in
  match named with
  | Some s =>
      if strcasecmp_eq s "SENDRECV" then if sendrecv then Some SENDRECV else None
      else if strcasecmp_eq s "RDMA" then if rdma then Some RDMA else None
      else None
  | None =>
      if rdma && (pe_rdma_init e).2 then Some RDMA
      else if sendrecv then Some SENDRECV
      else if rdma then Some RDMA
      else None
  end.

(** Where only the fifth rule applies: no name is set, the RDMA transport starts with
    one rail per device, the other one does not start. *)
Definition fifth_rule (e : plug_env) : bool :=
  match ofi_nccl_protocol e, pe_platform_protocol e with
  | None, None => ((pe_rdma_init e).1 =? 0) && negb (pe_rdma_init e).2 && negb (pe_sendrecv_init e =? 0)
  | _, _ => false
  end.

(** The choice of the transport follows the first four rules of its comment for
    every configuration and every outcome of the two initialisations: a name the
    user or the platform set decides, then several rails per device, then the
    send/receive transport. The code is 0 exactly when a transport is chosen, and a
    transport that started and is not chosen is released. Where the fifth rule says
    RDMA, the code releases that transport and fails instead. *)
Theorem protocol_selection e :
  let '(rc, selected, released) := select_protocol e in
  selected = (if fifth_rule e then None else documented_choice e) /\ (rc = 0 <-> selected <> None) /\
  (forall p, p ∈ released -> selected <> Some p) /\ (fifth_rule e = true -> documented_choice e = Some RDMA /\ released = [RDMA] /\ rc = - EINVAL).
Proof.
  unfold select_protocol, fifth_rule, documented_choice.
  destruct (ofi_nccl_protocol e) as [s|]; [|destruct (pe_platform_protocol e) as [s|]].
  1, 2: destruct (strcasecmp_eq s "SENDRECV"); [|destruct (strcasecmp_eq s "RDMA")];
    try (destruct (Z.eqb_spec (pe_sendrecv_init e) 0)); try (destruct (Z.eqb_spec (pe_rdma_init e).1 0));
    split_and!; try done; by intros p ?%not_elem_of_nil.
  destruct (Z.eqb_spec (pe_rdma_init e).1 0) as [Hr|Hr], (pe_rdma_init e).2, (Z.eqb_spec (pe_sendrecv_init e) 0) as [Hs|Hs]; cbn;
    split_and!; try done; by intros p Hp; rewrite ?list_elem_of_singleton, ?elem_of_nil in Hp; subst.
Qed.

Lemma string_length_app (s t : string) : (String.length (s +:+ t) = String.length s + String.length t)%nat.
Proof. induction s as [|a s IH]; [done|]. change (S (String.length (s +:+ t)) = S (String.length s + String.length t))%nat. by rewrite IH. Qed.

Section KeyPool.
Context {F : FiBits}.

(** A device that makes its own registration keys: with key sizes of 1 to 3
    bytes the pool has one key per value of that size, but sizes of 4 to 7 bytes
    pass the check and shift an int out of its range, which is undefined; sizes
    from 8 on are refused. *)
Theorem key_pool_size e i info mem :
  de_strdup e = true -> de_cache_disable e = true -> de_mutex e = 0 -> de_pool_mutex e = 0 -> 1 <= de_key_size e < 2 ^ 61 ->
  has_bit (OfiUtils.caps info) FI_RMA = true -> has_bit (OfiUtils.mr_mode info) FI_MR_PROV_KEY = false -> de_key_size e <= OfiUtils.mr_key_size info ->
  (forall n, de_pool_malloc e n = Some (mem n)) ->
  match nccl_net_ofi_device_init e i info with
  | None => 4 <= de_key_size e <= 7
  | Some (rc, d) =>
      if 8 <=? de_key_size e then rc = - EINVAL
      else rc = 0 /\ de_key_size e <= 3 /\ Idpool.size (mr_rkey_pool d) = 2 ^ (8 * de_key_size e)
  end.
Proof.
  intros Hs Hc Hm Hpm Hk Hcaps Hmode Hks Hmem. unfold nccl_net_ofi_device_init, nccl_ofi_mr_keys_need_own_key.
  rewrite Hs, Hc, Hm, Hcaps, Hmode. cbn [negb andb Z.eqb]. destruct (Z.ltb_spec (OfiUtils.mr_key_size info) (de_key_size e)); [lia|]. cbn [negb Z.eqb].
  rewrite wrap_small by lia. destruct (Z.gtb_spec (de_key_size e * 8) 63).
  { by rewrite (proj2 (Z.leb_le _ _)) by lia. }
  unfold int_shl1. destruct (Z.ltb_spec (de_key_size e * 8) 31); [|lia]. rewrite (proj2 (Z.leb_gt _ _)) by lia.
  rewrite Z.shiftl_mul_pow2, Z.mul_1_l by lia. unfold Idpool.nccl_ofi_idpool_init.
  rewrite (proj2 (Z.eqb_neq 0 _)) by (pose proof (Z.pow_pos_nonneg 2 (de_key_size e * 8)); lia). rewrite Hmem, Hpm. cbn [Z.eqb negb]. cbn.
  split_and!; [done|lia|by rewrite Z.mul_comm].
Qed.

(** With duplicated connections (OFI_NCCL_NIC_DUP_CONNS above 1) the adjusted
    device name is printed into the block of the original one, which is too short
    for it: whatever the GPU and the PCI path, a NIC with a name makes the call
    write past the block. *)
Theorem dup_conns_name_overflows e domains nic_prov speed nm dev_id num_devices :
  1 < nic_dup_conns e -> 0 <= active_cuda_device e < num_gpus_visible e -> Z.of_nat (String.length nm) <= FI_NAME_MAX e ->
  nccl_net_ofi_info_properties e domains nic_prov (Some (mk_nic (Some nm) speed)) dev_id num_devices = None.
Proof.
  intros Hd Hg Hl. unfold nccl_net_ofi_info_properties. cbn [nic_name]. rewrite (proj2 (Z.ltb_lt _ _) Hd).
  rewrite (proj2 (Z.ltb_lt 0 _)) by lia. cbn [negb]. rewrite (proj2 (Z.ltb_ge _ 0)), (proj2 (Z.leb_gt _ _)) by lia. cbn [orb].
  assert (snprintf (strdup nm) (FI_NAME_MAX e + 2) (nm +:+ "-" +:+ PciText.hex dev_id) = None) as ->; [|by destruct (match real_path e with Some _ => _ | None => _ end)].
  unfold snprintf, strdup. cbn [b_size]. rewrite ofi_min_eq. rewrite !string_length_app. cbn [String.length].
  rewrite (proj2 (Z.ltb_lt _ _)) by lia. done.
Qed.
End KeyPool.
(** libfabric's values of the bits. *)
Definition fabric_bits : FiBits := {|
  FI_RMA := 4; FI_HMEM := 2 ^ 47; FI_MR_LOCAL := 4; FI_MR_VIRT_ADDR := 16; FI_MR_ENDPOINT := 512; FI_MR_PROV_KEY := 64;
|}.
Definition rma_info : OfiUtils.fi_info := OfiUtils.mk_info "efa" "rdmap0" 1 0 4 20 8.
Definition key_env (key_size : Z) : dev_env :=
  mk_dev_env true true true true 0 0 key_size (fun n => Some (replicate (Z.to_nat n) 0)) 0 4096.

Lemma key_pool_size_witness :
  match @nccl_net_ofi_device_init fabric_bits (key_env 4) 0 rma_info with
  | None => 4 <= de_key_size (key_env 4) <= 7
  | Some (rc, d) =>
      if 8 <=? de_key_size (key_env 4) then rc = - EINVAL
      else rc = 0 /\ de_key_size (key_env 4) <= 3 /\ Idpool.size (mr_rkey_pool d) = 2 ^ (8 * de_key_size (key_env 4))
  end /\ @nccl_net_ofi_device_init fabric_bits (key_env 4) 0 rma_info = None.
Proof.
  split; [|reflexivity].
  apply (@key_pool_size fabric_bits (key_env 4) 0 rma_info (fun n => replicate (Z.to_nat n) 0)); try reflexivity;
    vm_compute; try split; first [reflexivity|discriminate].
Defined.

Definition dup_env : props_env := mk_props_env (-1) GDR_UNSUPPORTED 2 None (Some "/sys/devices/pci0000:10/0000:10:1a.0"%string) 8 3 false false 64.

Lemma dup_conns_name_overflows_witness :
  @nccl_net_ofi_info_properties fabric_bits dup_env false rma_info (Some (mk_nic (Some "efa_0"%string) 100000000000)) 0 4 = None.
Proof. apply (@dup_conns_name_overflows fabric_bits dup_env); vm_compute; try split; try discriminate; reflexivity. Defined.

End Plugin.
