(* ===== verification/OfiRes.v ===== *)
(** * nccl_ofi_ofiutils.c: libfabric objects of an endpoint

    The objects a transport opens (fabrics, domains, endpoints, completion queues,
    address vectors) and the two functions that open and close those of one
    endpoint. libfabric's answers are in [OfiEnv], as a function of the calls so far;
    closing an object that is not open is undefined. The build has CUDA and the
    options for shared memory and for CUDA calls. *)

From S2P Require Import Prelude StateM NetTypes.

Module OfiRes.

Open Scope Z_scope.

Definition FI_EOPNOTSUPP : Z := ENOTSUP.
Definition FI_ENOPROTOOPT : Z := 92.

(** An open object, with the object it was opened on. *)
Inductive fid :=
| FidFabric
| FidDomain (fabric : Z)
| FidEp (domain : Z)
| FidCq (domain : Z)
| FidAv (domain : Z).

(** The calls that the environment answers: libfabric (with the traffic class of the
    fi_info that is passed), the platform hook, the C library, and the steps of
    endpoint and device creation whose effect is in other files. *)
Inductive fi_call :=
| FiFabric
| FiDomain (fabric : Z)
| FiEndpoint (domain tclass : Z)
| FiCqOpen (domain : Z)
| FiAvOpen (domain : Z)
| FiEpBind (ep object : Z)
| FiSetoptSharedMemory (ep : Z)
| FiSetoptCudaApi (ep : Z)
| FiEnable (ep : Z)
| FiGetname (ep : Z)
| FiClose (object : Z)
| FiDupinfo
| PlatformConfigEndpoint (ep : Z)
| Calloc
| DequeInit
| DequeFinalize
| FreelistInit
| FreelistFini
| PostBounceBuffs
| FiGetoptInjectRmaSize
| FiFreeinfo
| DeviceInit
| DeviceFini
| SchedulerInit
| SchedulerFini
| IdpoolInit
| IdpoolFini
| EpAddrListInit
| EpAddrListFini.

Record rworld := mk_rworld {
  opened : gmap Z fid;
  next_fid : Z;
  support_gdr : gdr_support_level_t;
  rlog : list fi_call;
}.

Definition w_opened f w := mk_rworld (f (opened w)) (next_fid w) (support_gdr w) (rlog w).
Definition w_next f w := mk_rworld (opened w) (f (next_fid w)) (support_gdr w) (rlog w).
Definition w_gdr g w := mk_rworld (opened w) (next_fid w) g (rlog w).
Definition w_rlog f w := mk_rworld (opened w) (next_fid w) (support_gdr w) (f (rlog w)).

Class OfiEnv := {
  fi_code : list fi_call -> fi_call -> Z;
  api_version_ge_1_18 : bool;
}.

Abbreviation R := (SM rworld).

Section Res.
Context {E : OfiEnv}.

Definition fi_do (c : fi_call) : R Z :=
  let* l := gets rlog in modify (w_rlog (fun l => l ++ [c])) ;;; ret (fi_code l c).

(** A call that opens an object: the output is written on success only. *)
Definition fi_open (c : fi_call) (k : fid) (out : Z) : R (Z * Z) :=
  let* rc := fi_do c in
  if negb (rc =? 0) then ret (rc, out)
  else
    let* p := gets next_fid in
    modify (w_next (fun n => n + 1)) ;;;
    modify (w_opened <[p := k]>) ;;;
    ret (0, p).

Definition fi_close (p : Z) : R Z :=
  let* o := gets opened in
  of_option (o !! p) ;;;
  let* rc := fi_do (FiClose p) in
  (if rc =? 0 then modify (w_opened (delete p)) else ret tt) ;;;
  ret rc.

(** An object the code closes only when it has one. *)
Definition close_some (p : Z) : R unit := if negb (p =? NULL) then fi_close p ;;; ret tt else ret tt.

(** The label error of init_connection. *)
Definition conn_error (rc ep av cq : Z) : R (Z * Z * Z * Z) :=
  (close_some ep ;;; close_some av ;;; close_some cq) ;;; ret (rc, NULL, NULL, NULL).

Definition not_supported (rc : Z) : bool := (rc =? - FI_EOPNOTSUPP) || (rc =? - FI_ENOPROTOOPT).

(** The option FI_OPT_CUDA_API_PERMITTED: [Some rc] leaves with an error. *)
Definition set_cuda_api (ep : Z) : R (option Z) :=
  let* g := gets support_gdr in
  if api_version_ge_1_18 && negb (bool_decide (g = GDR_UNSUPPORTED)) then
    let* rc := fi_do (FiSetoptCudaApi ep) in
    if not_supported rc then
      if bool_decide (g = GDR_SUPPORTED) then ret (Some rc) else modify (w_gdr GDR_UNSUPPORTED) ;;; ret None
    else if rc =? 0 then modify (w_gdr GDR_SUPPORTED) ;;; ret None
    else ret (Some rc)
  else ret None.

(** The part of init_connection after the three objects are open. *)
Definition finish_connection (ep av cq : Z) : R (Z * Z * Z * Z) :=
  let* rc := fi_do (FiEpBind ep cq) in
  if negb (rc =? 0) then conn_error rc ep av cq
  else
    let* rc := fi_do (FiEpBind ep av) in
    if negb (rc =? 0) then conn_error rc ep av cq
    else
      let* rc := fi_do (FiSetoptSharedMemory ep) in
      if negb (not_supported rc) && negb (rc =? 0) then conn_error rc ep av cq
      else
        let* failed := set_cuda_api ep in
        match failed with
        | Some rc => conn_error rc ep av cq
        | None =>
            let* rc := fi_do (PlatformConfigEndpoint ep) in
            if negb (rc =? 0) then conn_error rc ep av cq
            else
              let* rc := fi_do (FiEnable ep) in
              if negb (rc =? 0) then conn_error rc ep av cq else ret (rc, ep, av, cq)
        end.

Definition open_av (domain ep av cq : Z) : R (Z * Z * Z * Z) :=
  let* (rc, av) := fi_open (FiAvOpen domain) (FidAv domain) av in
  if negb (rc =? 0) then conn_error rc ep av cq else finish_connection ep av cq.

(** The values of the three output pointers go in and come out. *)
Definition nccl_ofi_ofiutils_init_connection (tclass domain ep av cq : Z) : R (Z * Z * Z * Z) :=
  let* (rc, ep) := fi_open (FiEndpoint domain tclass) (FidEp domain) ep in
  if negb (rc =? 0) then conn_error rc ep av cq
  else
    let* (rc, cq) := if cq =? NULL then fi_open (FiCqOpen domain) (FidCq domain) cq else ret (0, cq) in
    if negb (rc =? 0) then conn_error rc ep av cq else open_av domain ep av cq.

Definition nccl_ofi_ofiutils_ep_release (ep av cq : Z) : R unit :=
  close_some ep ;;; close_some av ;;; close_some cq.

End Res.

(** ** What is open afterwards *)

(** Handles are new: no open object has a number from [next_fid] on. *)
Definition fids_ok (w : rworld) : Prop := 0 < next_fid w /\ forall p, p ∈ dom (opened w) -> 0 < p < next_fid w.

Class CloseOk `{OfiEnv} : Prop := { close_ok l p : fi_code l (FiClose p) = 0 }.

Section Lemmas.
Context {E : OfiEnv} {C : CloseOk}.

Lemma fi_do_wp w c (Q : Z -> rworld -> Prop) : (forall rc, Q rc (w_rlog (fun l => l ++ [c]) w)) -> wp (fi_do c) Q w.
Proof. intros H. unfold fi_do. wp_simpl. apply H. Qed.

Lemma fi_open_wp w c k out (Q : Z * Z -> rworld -> Prop) :
  fids_ok w -> (forall rc w', rc <> 0 -> fids_ok w' -> opened w' = opened w -> next_fid w' = next_fid w -> Q (rc, out) w') ->
  (forall p w', opened w !! p = None -> p <> NULL -> next_fid w <= p -> fids_ok w' -> opened w' = <[p := k]> (opened w) -> Q (0, p) w') ->
  wp (fi_open c k out) Q w.
Proof.
  intros [Hn Ho] H1 H2. unfold fi_open. wp_simpl. apply fi_do_wp. intros rc. destruct (Z.eqb_spec rc 0) as [->|Hrc]; cbn [negb]; wp_simpl.
  - assert (opened w !! next_fid w = None) as Hnone by (apply not_elem_of_dom; intros H; specialize (Ho _ H); lia).
    apply H2; cbn; try done; [unfold NULL; lia|]. split; cbn; [lia|]. intros p. rewrite dom_insert_L, elem_of_union, elem_of_singleton.
    intros [->|Hp]; [lia|]. specialize (Ho _ Hp). lia.
  - by apply H1.
Qed.

Lemma close_some_wp w p (Q : unit -> rworld -> Prop) :
  fids_ok w -> (p <> NULL -> is_Some (opened w !! p)) ->
  (forall w', fids_ok w' -> opened w' = delete p (opened w) -> Q tt w') -> wp (close_some p) Q w.
Proof.
  intros [Hn Ho] Hp HQ. unfold close_some. destruct (Z.eqb_spec p NULL) as [->|Hne]; cbn [negb].
  - wp_simpl. apply HQ; [done|]. rewrite delete_id; [done|]. apply not_elem_of_dom. intros H. specialize (Ho _ H). unfold NULL in Ho. lia.
  - destruct (Hp Hne) as [x Hx]. unfold fi_close. wp_simpl. eapply wp_of_option; [exact Hx|]. unfold fi_do. wp_simpl. rewrite close_ok. cbn [Z.eqb].
    wp_simpl. apply HQ; [|done]. split; [done|]. intros q. cbn. rewrite dom_delete_L, elem_of_difference. intros [H _]. by apply Ho.
Qed.

(** Closing three objects that are open, or not there. *)
Lemma close_three_wp w ep av cq (Q : unit -> rworld -> Prop) :
  fids_ok w -> (ep <> NULL -> is_Some (opened w !! ep)) -> (av <> NULL -> is_Some (opened w !! av) /\ av <> ep) ->
  (cq <> NULL -> is_Some (opened w !! cq) /\ cq <> ep /\ cq <> av) ->
  (forall w', fids_ok w' -> opened w' = delete cq (delete av (delete ep (opened w))) -> Q tt w') ->
  wp (close_some ep ;;; close_some av ;;; close_some cq) Q w.
Proof.
  intros Hw He Ha Hc HQ. wp_simpl. apply close_some_wp; [done|done|]. intros w1 Hw1 H1. wp_simpl. apply close_some_wp; [done| |].
  { intros Hne. destruct (Ha Hne). by rewrite H1, lookup_delete_ne by done. }
  intros w2 Hw2 H2. apply close_some_wp; [done| |].
  { intros Hne. destruct (Hc Hne) as (? & ? & ?). by rewrite H2, lookup_delete_ne, H1, lookup_delete_ne by done. }
  intros w3 Hw3 H3. apply HQ; [done|]. by rewrite H3, H2, H1.
Qed.

Lemma conn_error_wp w rc ep av cq (Q : Z * Z * Z * Z -> rworld -> Prop) :
  fids_ok w -> (ep <> NULL -> is_Some (opened w !! ep)) -> (av <> NULL -> is_Some (opened w !! av) /\ av <> ep) ->
  (cq <> NULL -> is_Some (opened w !! cq) /\ cq <> ep /\ cq <> av) ->
  (forall w', fids_ok w' -> opened w' = delete cq (delete av (delete ep (opened w))) -> Q (rc, NULL, NULL, NULL) w') ->
  wp (conn_error rc ep av cq) Q w.
Proof.
  intros Hw He Ha Hc HQ. unfold conn_error. apply wp_bind. by apply close_three_wp.
Qed.

End Lemmas.
Section InitConnection.
Context {E : OfiEnv} {C : CloseOk}.

(** Two states of the table of open objects agree. *)
Ltac same_opened :=
  apply map_eq; intros ?; rewrite ?lookup_delete, ?lookup_insert; repeat case_decide; simplify_eq; try done.

Lemma null_not_open w : fids_ok w -> opened w !! NULL = None.
Proof. intros [_ Ho]. apply not_elem_of_dom. intros H. specialize (Ho _ H). unfold NULL in Ho. lia. Qed.

(** From the calls that follow the three objects on: they stay, or all is closed. *)
Lemma finish_connection_wp w ep av cq (Q : Z * Z * Z * Z -> rworld -> Prop) :
  fids_ok w -> is_Some (opened w !! ep) -> is_Some (opened w !! av) -> is_Some (opened w !! cq) ->
  av <> ep -> cq <> ep -> cq <> av ->
  (forall rc w', rc <> 0 -> fids_ok w' -> opened w' = delete cq (delete av (delete ep (opened w))) -> Q (rc, NULL, NULL, NULL) w') ->
  (forall w', fids_ok w' -> opened w' = opened w -> Q (0, ep, av, cq) w') ->
  wp (finish_connection ep av cq) Q w.
Proof.
  intros Hw He Ha Hc H1 H2 H3 Herr Hok.
  assert (forall rc w', rc <> 0 -> fids_ok w' -> opened w' = opened w -> wp (conn_error rc ep av cq) Q w') as Herr'.
  { intros rc w' Hrc Hw' Ho. apply conn_error_wp; [done|by rewrite Ho|by rewrite Ho|by rewrite Ho|]. intros w2 Hw2 Ho2. apply Herr; [done|done|]. by rewrite Ho2, Ho. }
  unfold finish_connection. wp_simpl. apply fi_do_wp. intros rc1. destruct (Z.eqb_spec rc1 0); cbn [negb]; [|by apply Herr'].
  wp_simpl. apply fi_do_wp. intros rc2. destruct (Z.eqb_spec rc2 0); cbn [negb]; [|by apply Herr'].
  wp_simpl. apply fi_do_wp. intros rc3. destruct (negb (not_supported rc3) && negb (rc3 =? 0)) eqn:E3.
  { apply Herr'; try done. bool_cases. done. }
  wp_simpl. unfold set_cuda_api. wp_simpl.
  assert (forall w', fids_ok w' -> opened w' = opened w -> wp (let* rc := fi_do (PlatformConfigEndpoint ep) in
                if negb (rc =? 0) then conn_error rc ep av cq
                else let* rc := fi_do (FiEnable ep) in
                  if negb (rc =? 0) then conn_error rc ep av cq else ret (rc, ep, av, cq)) Q w') as Hrest.
  { intros w' Hw' Ho. wp_simpl. apply fi_do_wp. intros rc4. destruct (Z.eqb_spec rc4 0); cbn [negb]; [|by apply Herr'].
    wp_simpl. apply fi_do_wp. intros rc5. destruct (Z.eqb_spec rc5 0) as [->|]; cbn [negb]; [|by apply Herr']. wp_simpl. by apply Hok. }
  destruct (api_version_ge_1_18 && _); [|wp_simpl; by apply Hrest]. wp_simpl. apply fi_do_wp. intros rc6.
  destruct (not_supported rc6) eqn:E6; [destruct (bool_decide _)|destruct (Z.eqb_spec rc6 0)]; wp_simpl.
  - apply Herr'; try done. unfold not_supported in E6. intros ->. done.
  - by apply Hrest.
  - by apply Hrest.
  - by apply Herr'.
Qed.

Lemma open_av_wp w0 w dom cq0 ep cq (Q : Z * Z * Z * Z -> rworld -> Prop) :
  fids_ok w0 -> fids_ok w -> opened w0 !! ep = None -> ep <> NULL -> cq <> NULL -> cq <> ep -> (cq0 <> NULL -> is_Some (opened w0 !! cq0)) ->
  opened w = <[ep := FidEp dom]> (if cq0 =? NULL then <[cq := FidCq dom]> (opened w0) else opened w0) ->
  (if cq0 =? NULL then opened w0 !! cq = None else cq = cq0) ->
  (forall rc w', rc <> 0 -> fids_ok w' -> opened w' = delete cq0 (opened w0) -> Q (rc, NULL, NULL, NULL) w') ->
  (forall av w', NULL ∉ [ep; av; cq] -> NoDup [ep; av; cq] -> opened w0 !! av = None -> fids_ok w' ->
     opened w' = <[av := FidAv dom]> (opened w) -> Q (0, ep, av, cq) w') ->
  wp (open_av dom ep NULL cq) Q w.
Proof.
  intros Hw0 Hw Hep Hepn Hcn Hce Hcq0 Ho Hcase Herr Hok. pose proof (null_not_open _ Hw0) as Hnull.
  assert (is_Some (opened w !! ep)) as Heps by (rewrite Ho, lookup_insert_eq; done).
  assert (is_Some (opened w !! cq)) as Hcs.
  { rewrite Ho, lookup_insert_ne by done. destruct (Z.eqb_spec cq0 NULL); [by rewrite lookup_insert_eq|]. subst cq. by apply Hcq0. }
  assert (forall m, m = opened w -> delete cq (delete ep m) = delete cq0 (opened w0)) as Hback.
  { intros m ->. rewrite Ho. clear - Hep Hce Hcq0 Hnull Hcase. destruct (Z.eqb_spec cq0 NULL) as [->|]; [|subst cq]; same_opened. }
  unfold open_av. wp_simpl. apply fi_open_wp; [done| |].
  - intros rc w3 Hrc Hw3 Ho3 _. rewrite (proj2 (Z.eqb_neq _ _) Hrc). cbn [negb]. apply conn_error_wp; [done|by rewrite Ho3|done|by rewrite Ho3|].
    intros w4 Hw4 Ho4. apply Herr; [done|done|]. rewrite Ho4, Ho3. rewrite (delete_id _ NULL); [by apply Hback|].
    rewrite lookup_delete_ne by done. by apply null_not_open.
  - intros av w3 Hav Havn _ Hw3 Ho3. cbn [Z.eqb negb].
    assert (av <> ep) as H1 by (intros ->; rewrite Hav in Heps; by destruct Heps). assert (cq <> av) as H2 by (intros ->; rewrite Hav in Hcs; by destruct Hcs).
    apply finish_connection_wp; try done; try (rewrite Ho3, ?lookup_insert_eq, ?lookup_insert_ne; done).
    + intros rc w4 Hrc Hw4 Ho4. apply Herr; [done|done|]. rewrite Ho4, Ho3, <- (Hback _ eq_refl). clear - Hav H1 H2. same_opened.
    + intros w4 Hw4 Ho4. apply Hok; try done; [| | |by rewrite Ho4].
      * rewrite !not_elem_of_cons. split_and!; try by apply not_eq_sym. apply not_elem_of_nil.
      * rewrite !NoDup_cons, !not_elem_of_cons. split_and!; try done; try (by apply not_eq_sym); try apply not_elem_of_nil. constructor.
      * rewrite Ho, lookup_insert_ne in Hav by done. by destruct (cq0 =? NULL); [rewrite lookup_insert_ne in Hav|].
Qed.

(** init_connection with no endpoint and no address vector yet: on success both are
    open, and a completion queue that was not given; on failure everything it
    opened is closed, and so is a completion queue that was given. *)
Lemma init_connection_wp w tclass dom cq (Q : Z * Z * Z * Z -> rworld -> Prop) :
  fids_ok w -> (cq <> NULL -> is_Some (opened w !! cq)) ->
  (forall rc w', rc <> 0 -> fids_ok w' -> opened w' = delete cq (opened w) -> Q (rc, NULL, NULL, NULL) w') ->
  (forall ep av cq' w', NULL ∉ [ep; av; cq'] -> NoDup [ep; av; cq'] -> opened w !! ep = None -> opened w !! av = None ->
     (if cq =? NULL then opened w !! cq' = None else cq' = cq) -> fids_ok w' ->
     opened w' = <[av := FidAv dom]> (<[ep := FidEp dom]> (if cq =? NULL then <[cq' := FidCq dom]> (opened w) else opened w)) ->
     Q (0, ep, av, cq') w') ->
  wp (nccl_ofi_ofiutils_init_connection tclass dom NULL NULL cq) Q w.
Proof.
  intros Hw Hcq Herr Hok. pose proof (null_not_open _ Hw) as Hnull. unfold nccl_ofi_ofiutils_init_connection. wp_simpl. apply fi_open_wp; [done| |].
  { intros rc w1 Hrc Hw1 Ho1 _. rewrite (proj2 (Z.eqb_neq _ _) Hrc). cbn [negb]. apply conn_error_wp; [done|done|done| |].
    - intros Hne. rewrite Ho1. split_and!; [by apply Hcq|done|done].
    - intros w2 Hw2 Ho2. apply Herr; [done|done|]. rewrite Ho2, Ho1. clear - Hnull. same_opened. }
  intros ep w1 Hep Hepn Hepge Hw1 Ho1. cbn [Z.eqb negb]. wp_simpl.
  assert (cq <> NULL -> cq <> ep) as Hce by (intros Hne ->; destruct (Hcq Hne) as [x Hx]; congruence).
  destruct (Z.eqb_spec cq NULL) as [->|Hne]; wp_simpl.
  - apply fi_open_wp; [done| |].
    + intros rc w2 Hrc Hw2 Ho2 _. rewrite (proj2 (Z.eqb_neq _ _) Hrc). cbn [negb]. apply conn_error_wp; [done|rewrite Ho2, Ho1, lookup_insert_eq; done|done|done|].
      intros w3 Hw3 Ho3. apply Herr; [done|done|]. rewrite Ho3, Ho2, Ho1. clear - Hep Hnull. same_opened.
    + intros cq' w2 Hc Hcn Hge Hw2 Ho2. cbn [Z.eqb negb]. assert (cq' <> ep) by (intros ->; rewrite Ho1, lookup_insert_eq in Hc; done).
      rewrite Ho1, lookup_insert_ne in Hc by done. eapply (open_av_wp w w2 dom NULL ep cq'); try done.
      * rewrite Ho2, Ho1. cbn. by rewrite insert_insert_ne.
      * intros av w' H1 H2 H3 H4 H5. apply Hok; try done. rewrite H5, Ho2, Ho1. f_equal. by rewrite insert_insert_ne.
  - cbn [Z.eqb negb]. apply (open_av_wp w w1 dom cq ep cq); try done; [by apply Hce| | |]; rewrite ?(proj2 (Z.eqb_neq _ _) Hne); try done.
    intros av w' H1 H2 H3 H4 H5. apply Hok; try done. by rewrite H5, Ho1.
Qed.
End InitConnection.

(** ** Objects that are opened and closed *)

(** [w'] has the objects [L] open in addition to those of [w]. *)
Record grew (L : list Z) (w w' : rworld) : Prop := {
  gr_ok : fids_ok w';
  gr_nodup : NoDup L;
  gr_null : NULL ∉ L;
  gr_new p : p ∈ L -> opened w !! p = None /\ is_Some (opened w' !! p);
  gr_old p : p ∉ L -> opened w' !! p = opened w !! p;
}.

(** [w'] is [w] without the objects [L]. *)
Definition shrunk (L : list Z) (w w' : rworld) : Prop :=
  fids_ok w' /\ forall p, opened w' !! p = if decide (p ∈ L) then None else opened w !! p.

Lemma grew_nil w w' : fids_ok w' -> opened w' = opened w -> grew [] w w'.
Proof. intros Hok Ho. constructor; [done|constructor|apply not_elem_of_nil|by intros p ?%not_elem_of_nil|]. intros p _. by rewrite Ho. Qed.

Lemma grew_trans L1 L2 w w1 w2 : grew L1 w w1 -> grew L2 w1 w2 -> grew (L1 ++ L2) w w2.
Proof.
  intros [? Hnd1 Hn1 Hnew1 Hold1] [Hok Hnd2 Hn2 Hnew2 Hold2].
  assert (forall p, p ∈ L1 -> p ∉ L2) as Hd.
  { intros p H1 H2. destruct (Hnew1 _ H1) as [_ [x Hx]]. destruct (Hnew2 _ H2) as [Hx' _]. congruence. }
  constructor; [done|apply NoDup_app; split_and!; try done; by intros p H1 H2; apply (Hd p)|rewrite elem_of_app; tauto| |].
  - intros p [H|H]%elem_of_app.
    + destruct (Hnew1 _ H). split; [done|]. by rewrite Hold2 by (by apply Hd).
    + destruct (Hnew2 _ H) as [Ho Hs]. split; [|done]. rewrite <- Hold1; [done|]. intros H1. by apply (Hd p).
  - intros p Hp. rewrite elem_of_app in Hp. rewrite Hold2, Hold1 by tauto. done.
Qed.

(** What was opened is closed again. *)
Lemma grew_shrunk L L' w w1 w2 : grew L w w1 -> shrunk L' w1 w2 -> L ≡ₚ L' -> opened w2 = opened w.
Proof.
  intros [? ? ? Hnew Hold] [_ Hs] HL. apply map_eq. intros p. rewrite Hs. case_decide as Hp; rewrite <- HL in Hp; [by destruct (Hnew _ Hp)|by apply Hold].
Qed.

Lemma shrunk_trans L1 L2 w w1 w2 : shrunk L1 w w1 -> shrunk L2 w1 w2 -> shrunk (L1 ++ L2) w w2.
Proof.
  intros [? H1] [? H2]. split; [done|]. intros p. rewrite H2, H1. repeat case_decide; try done; rewrite elem_of_app in *; tauto.
Qed.

Definition handles (l : list Z) : list Z := filter (fun p => p <> NULL) l.

Lemma handles_distinct a b c :
  NoDup (handles [a; b; c]) -> (b <> NULL -> b <> a) /\ (c <> NULL -> c <> a /\ c <> b).
Proof.
  unfold handles. rewrite !filter_cons, filter_nil. repeat case_decide; rewrite ?NoDup_cons, ?elem_of_cons, ?elem_of_nil; intuition congruence.
Qed.

Lemma grew_keeps L w w' p : grew L w w' -> is_Some (opened w !! p) -> is_Some (opened w' !! p).
Proof.
  intros Hg [x Hx]. destruct (decide (p ∈ L)) as [Hp|Hp]; [destruct (gr_new _ _ _ Hg _ Hp); congruence|]. by rewrite (gr_old _ _ _ Hg) by done.
Qed.

Lemma shrunk_nil w : fids_ok w -> shrunk [] w w.
Proof. intros Hw. split; [done|]. intros p. rewrite decide_False; [done|apply not_elem_of_nil]. Qed.

Lemma shrunk_keeps L w w' p : shrunk L w w' -> p ∉ L -> is_Some (opened w !! p) -> is_Some (opened w' !! p).
Proof. intros [_ Hs] Hp. by rewrite Hs, decide_False. Qed.

Lemma handles_all (l : list Z) : NULL ∉ l -> handles l = l.
Proof. intros H. apply filter_all. intros p Hp ->. done. Qed.

Lemma grew_perm L L' w w' : L ≡ₚ L' -> grew L w w' -> grew L' w w'.
Proof.
  intros HL [H1 H2 H3 H4 H5]. constructor; [done|by rewrite <- HL|by rewrite <- HL| |]; intros p Hp; rewrite <- HL in Hp; auto.
Qed.

Lemma grew_same L w w1 w2 : grew L w w1 -> fids_ok w2 -> opened w2 = opened w1 -> grew L w w2.
Proof. intros [H1 H2 H3 H4 H5] Hok Ho. constructor; rewrite ?Ho; auto. Qed.

(** The last part of what was opened can be seen on its own. *)
Lemma grew_split L1 L2 w w2 : grew (L1 ++ L2) w w2 -> exists w1, grew L1 w w1 /\ grew L2 w1 w2.
Proof.
  intros [[Hn Ho] Hnd Hnull Hnew Hold]. apply NoDup_app in Hnd as (Hnd1 & Hdis & Hnd2). rewrite elem_of_app in Hnull.
  exists (w_opened (filter (fun x => x.1 ∉ L2)) w2).
  assert (forall p, p ∈ L2 -> filter (fun x => x.1 ∉ L2) (opened w2) !! p = None) as Hin by (intros p Hp; apply map_lookup_filter_None; right; intros x _ H; cbn in H; tauto).
  assert (forall p, p ∉ L2 -> filter (fun x => x.1 ∉ L2) (opened w2) !! p = opened w2 !! p) as Hout.
  { intros p Hp. destruct (opened w2 !! p) as [x|] eqn:Hx; [by apply map_lookup_filter_Some|apply map_lookup_filter_None; by left]. }
  split; constructor; cbn; try done; try tauto.
  - split; [done|]. cbn. intros p [x Hx]%elem_of_dom. apply map_lookup_filter_Some in Hx as [Hx _]. apply Ho, elem_of_dom. by exists x.
  - intros p Hp. rewrite Hout by (by apply Hdis). apply Hnew, elem_of_app. by left.
  - intros p Hp. destruct (decide (p ∈ L2)) as [H2|H2]; [|rewrite Hout by done; apply Hold; rewrite elem_of_app; tauto].
    rewrite Hin by done. symmetry. apply (Hnew p). apply elem_of_app. by right.
  - intros p Hp. split; [by apply Hin|]. apply Hnew, elem_of_app. by right.
  - intros p Hp. symmetry. by apply Hout.
Qed.

Section Objects.
Context {E : OfiEnv} {CO : CloseOk}.

Lemma ep_release_wp w ep av cq (Q : unit -> rworld -> Prop) :
  fids_ok w -> NoDup (handles [ep; av; cq]) -> (forall p, p ∈ handles [ep; av; cq] -> is_Some (opened w !! p)) ->
  (forall w', shrunk (handles [ep; av; cq]) w w' -> Q tt w') -> wp (nccl_ofi_ofiutils_ep_release ep av cq) Q w.
Proof.
  intros Hw Hnd Ho HQ. pose proof (null_not_open _ Hw) as Hnull. unfold handles in *.
  assert (forall p, p ∈ [ep; av; cq] -> p <> NULL -> is_Some (opened w !! p)) as Ho' by (intros p Hp Hne; apply Ho; by apply list_elem_of_filter).
  unfold nccl_ofi_ofiutils_ep_release. apply close_three_wp; [done|apply Ho'; left|..].
  - intros Hne. split; [apply Ho'; [right; left|done]|by apply (handles_distinct ep av cq)].
  - intros Hne. split; [apply Ho'; [do 2 right; left|done]|by apply (handles_distinct ep av cq)].
  - intros w' Hw' Hd. apply HQ. split; [done|]. intros p. rewrite Hd, !lookup_delete. destruct (decide (p ∈ filter _ _)) as [Hin|Hin].
    + apply list_elem_of_filter in Hin as [_ Hin]. rewrite !elem_of_cons, elem_of_nil in Hin. repeat case_decide; try done. intuition congruence.
    + rewrite list_elem_of_filter, !elem_of_cons, elem_of_nil in Hin. repeat case_decide; try done; subst; destruct (decide (p = NULL)) as [->|]; try done; tauto.
Qed.

End Objects.

(** ** Owners of objects *)

(** All the objects of the endpoints of a device, of which [h] gives those of one. *)
Definition owned {X} (h : X -> list Z) (m : gmap Z X) : list Z := map_to_list m ≫= (fun x => h x.2).

Lemma owned_insert {X} (h : X -> list Z) m p e : m !! p = None -> owned h (<[p := e]> m) ≡ₚ h e ++ owned h m.
Proof. intros Hp. unfold owned. by rewrite map_to_list_insert. Qed.

Lemma owned_delete {X} (h : X -> list Z) m p e : m !! p = Some e -> owned h m ≡ₚ h e ++ owned h (delete p m).
Proof. intros Hp. rewrite <- owned_insert by apply lookup_delete_eq. by rewrite insert_delete_id. Qed.

Definition base_world (base : gmap Z fid) : rworld := mk_rworld base 1 GDR_UNKNOWN [].

Lemma owned_none {X} (h : X -> list Z) base w : grew (owned h ∅) (base_world base) w -> opened w = base.
Proof. intros Hg. apply map_eq. intros p. by rewrite (gr_old _ _ _ Hg) by (apply not_elem_of_nil). Qed.

(** ** Opening and closing one object at a time *)

Section Steps.
Context {E : OfiEnv} {CO : CloseOk}.

Lemma fi_open_grew L w0 w c k out (Q : Z * Z -> rworld -> Prop) :
  grew L w0 w -> (forall rc w', rc <> 0 -> grew L w0 w' -> Q (rc, out) w') ->
  (forall p w', p <> NULL -> grew (p :: L) w0 w' -> opened w' !! p = Some k -> Q (0, p) w') -> wp (fi_open c k out) Q w.
Proof.
  intros Hg H1 H2. apply fi_open_wp; [apply Hg| |].
  - intros rc w' Hrc Hw' Ho _. apply H1; [done|]. by eapply grew_same.
  - intros p w' Hp Hn _ Hw' Ho. apply H2; [done| |by rewrite Ho, lookup_insert_eq]. eapply (grew_perm (L ++ [p])); [by rewrite Permutation_app_comm|].
    eapply grew_trans; [exact Hg|]. constructor; [done|apply NoDup_singleton|by rewrite list_elem_of_singleton; apply not_eq_sym| |].
    + intros q ->%list_elem_of_singleton. by rewrite Ho, lookup_insert_eq.
    + intros q Hq. rewrite list_elem_of_singleton in Hq. by rewrite Ho, lookup_insert_ne by done.
Qed.

(** Closing an object that was opened since [w0], or none. *)
Lemma close_some_grew L p w0 w (Q : unit -> rworld -> Prop) :
  grew (handles [p] ++ L) w0 w -> (forall w', grew L w0 w' -> Q tt w') -> wp (close_some p) Q w.
Proof using CO.
  intros Hg HQ. apply close_some_wp; [apply Hg| |].
  - intros Hp. apply (gr_new _ _ _ Hg), elem_of_app. left. apply list_elem_of_filter. split; [done|left].
  - intros w' Hw' Ho. apply HQ. unfold handles in Hg. rewrite filter_cons, filter_nil in Hg. case_decide as Hp.
    + destruct Hg as [_ Hnd Hnull Hnew Hold]. apply NoDup_cons in Hnd as [HpL HL]. constructor; [done|done|by intros H; apply Hnull; right| |].
      * intros q Hq. destruct (Hnew q) as [H1 H2]; [by right|]. split; [done|]. rewrite Ho, lookup_delete_ne; [done|]. by intros ->.
      * intros q Hq. rewrite Ho. destruct (decide (q = p)) as [->|Hne]; [rewrite lookup_delete_eq; symmetry; apply (Hnew p); left|].
        rewrite lookup_delete_ne by done. apply Hold. apply not_elem_of_cons. by split; [apply not_eq_sym in Hne; apply not_eq_sym|].
    + subst p. cbn in Hg. eapply grew_same; [exact Hg|done|]. rewrite Ho. apply delete_id. apply null_not_open, Hg.
Qed.

Lemma handles_cons p l : handles (p :: l) = handles [p] ++ handles l.
Proof. unfold handles. rewrite !filter_cons, filter_nil. by case_decide. Qed.

Lemma fi_do_grew L w0 w c (Q : Z -> rworld -> Prop) : grew L w0 w -> (forall rc w', grew L w0 w' -> Q rc w') -> wp (fi_do c) Q w.
Proof. intros Hg HQ. apply fi_do_wp. intros rc. apply HQ. by eapply grew_same; [exact Hg|apply Hg|]. Qed.
End Steps.

End OfiRes.
