(* ===== verification/EpAddrList.v ===== *)
(** * nccl_ofi_ep_addr_list.c: which endpoints are connected to which address

    A list of endpoints, each with the set of (zero-padded) addresses it is
    connected to. The hash table is the interface [AddrSet]: find and add, related
    by membership. EpAddrMem.v has the same functions on the linked list of utlist.h
    and the tables of uthash.h in memory, and shows that they refine these. *)

From S2P Require Import Prelude.

Module EpAddrList.

(** An address is its bytes. *)
Abbreviation address := (list Z).

Class AddrSet (H : Type) := {
  hash_empty : H;
  hash_find : H -> address -> bool;
  hash_add : H -> address -> H;
  hash_find_empty a : hash_find hash_empty a = false;
  hash_find_add h a b : hash_find (hash_add h a) b = bool_decide (a = b) || hash_find h b;
}.

#[global] Program Instance gset_addrset : AddrSet (gset address) := {|
  hash_empty := ∅;
  hash_find h a := bool_decide (a ∈ h);
  hash_add h a := {[a]} ∪ h;
|}.
Next Obligation. done. Qed.
Next Obligation.
  intros h a b. cbn. rewrite <- bool_decide_or. apply bool_decide_ext. set_solver.
Qed.

Section List.
Context {H : Type} {AS : AddrSet H}.

Record ep_pair_list_elem := mk_pair { ep : Z; addr_set : H }.

Record nccl_ofi_ep_addr_list := mk_list {
  ep_pair_list : list ep_pair_list_elem;
  max_addr_size : Z;
}.

(** ** Operations *)

Definition nccl_ofi_ep_addr_list_init (calloc_ok : bool) (mutex_init max_size : Z)
    : option nccl_ofi_ep_addr_list :=
  if negb calloc_ok then None
  else if negb (mutex_init =? 0) then None
  else Some (mk_list [] max_size).

(** The copied address of [addr_size] bytes, padded to [max]. *)
Definition zero_pad_address (addr : address) (max : Z) : address :=
  addr ++ replicate (Z.to_nat max - length addr) 0.

(** The loop over the endpoints: [None] when no endpoint is free, otherwise the
    return code, the endpoint (NULL on error) and the list. *)
Fixpoint get_loop (malloc_ok : bool) (padded : address) (l : list ep_pair_list_elem)
    : option (Z * Z * list ep_pair_list_elem) :=
  match l with
  | [] => None
  | ep_pair :: l' =>
      if hash_find (addr_set ep_pair) padded then
        '(ret, e, l'') ← get_loop malloc_ok padded l'; Some (ret, e, ep_pair :: l'')
      else if negb malloc_ok then Some (- ENOMEM, NULL, l)
      else Some (0, ep ep_pair, mk_pair (ep ep_pair) (hash_add (addr_set ep_pair) padded) :: l')
  end.

(** Result: return code, and the value stored through [ep] ([None] when it is
    not written). *)
Definition nccl_ofi_ep_addr_list_get (malloc_ok : bool) (ep_list : nccl_ofi_ep_addr_list)
    (addr_in : address) : Z * option Z * nccl_ofi_ep_addr_list :=
  if Z.of_nat (length addr_in) >? max_addr_size ep_list then (- EINVAL, None, ep_list)
  else
    let addr_padded := zero_pad_address addr_in (max_addr_size ep_list) in
    match get_loop malloc_ok addr_padded (ep_pair_list ep_list) with
    | None => (0, Some NULL, ep_list)
    | Some (ret, e, l) => (ret, Some e, mk_list l (max_addr_size ep_list))
    end.

Definition nccl_ofi_ep_addr_list_insert (malloc_addr malloc_pair : bool)
    (ep_list : nccl_ofi_ep_addr_list) (e : Z) (addr_in : address) : Z * nccl_ofi_ep_addr_list :=
  if Z.of_nat (length addr_in) >? max_addr_size ep_list then (- EINVAL, ep_list)
  else if negb malloc_addr then (- ENOMEM, ep_list)
  else if negb malloc_pair then (- ENOMEM, ep_list)
  else
    let new_addr := zero_pad_address addr_in (max_addr_size ep_list) in
    (0, mk_list (ep_pair_list ep_list ++ [mk_pair e (hash_add hash_empty new_addr)])
          (max_addr_size ep_list)).

(** The first entry of the endpoint is deleted; [None] when there is none. *)
Fixpoint delete_loop (e : Z) (l : list ep_pair_list_elem) : option (list ep_pair_list_elem) :=
  match l with
  | [] => None
  | ep_pair :: l' =>
      if ep ep_pair =? e then Some l'
      else l'' ← delete_loop e l'; Some (ep_pair :: l'')
  end.

Definition nccl_ofi_ep_addr_list_delete (ep_list : nccl_ofi_ep_addr_list) (e : Z)
    : Z * nccl_ofi_ep_addr_list :=
  match delete_loop e (ep_pair_list ep_list) with
  | Some l => (0, mk_list l (max_addr_size ep_list))
  | None => (- ENOENT, ep_list)
  end.

(** ** Properties *)

(** The endpoint [e] of the list is connected to [a]. *)
Definition connected (ep_list : nccl_ofi_ep_addr_list) (e : Z) (a : address) : Prop :=
  exists p, p ∈ ep_pair_list ep_list /\ ep p = e /\
    hash_find (addr_set p) (zero_pad_address a (max_addr_size ep_list)) = true.

Definition eps (ep_list : nccl_ofi_ep_addr_list) : list Z := ep <$> ep_pair_list ep_list.

Lemma get_loop_spec padded l :
  (get_loop true padded l = None /\ Forall (fun p => hash_find (addr_set p) padded = true) l) \/
  (exists l1 p l2, l = l1 ++ p :: l2 /\ Forall (fun p => hash_find (addr_set p) padded = true) l1 /\
     hash_find (addr_set p) padded = false /\
     get_loop true padded l =
       Some (0, ep p, l1 ++ mk_pair (ep p) (hash_add (addr_set p) padded) :: l2)).
Proof.
  induction l as [|p l IH]; cbn [get_loop]; [left; split; [done|constructor]|].
  destruct (hash_find (addr_set p) padded) eqn:Hf.
  - destruct IH as [[-> Hall]|(l1 & q & l2 & -> & Hall & Hq & ->)]; [left|right].
    + split; [done|by constructor].
    + exists (p :: l1), q, l2. split_and!; [done|by constructor|done|done].
  - right. exists [], p, l. split_and!; [done|constructor|done|done].
Qed.

(** Gets of one address on one list, in order: the endpoints returned. *)
Fixpoint get_many (n : nat) (ep_list : nccl_ofi_ep_addr_list) (a : address)
    : list (option Z) * nccl_ofi_ep_addr_list :=
  match n with
  | O => ([], ep_list)
  | S n' =>
      let '(_, e, ep_list1) := nccl_ofi_ep_addr_list_get true ep_list a in
      let '(es, ep_list2) := get_many n' ep_list1 a in
      (e :: es, ep_list2)
  end.

Lemma get_spec (ep_list : nccl_ofi_ep_addr_list) a :
  Z.of_nat (length a) <= max_addr_size ep_list -> NoDup (eps ep_list) ->
  exists e ep_list', nccl_ofi_ep_addr_list_get true ep_list a = (0, Some e, ep_list') /\
    eps ep_list' = eps ep_list /\ max_addr_size ep_list' = max_addr_size ep_list /\
    ((e = NULL /\ ep_list' = ep_list /\ forall x, x ∈ eps ep_list -> connected ep_list x a) \/
     (e ∈ eps ep_list /\ ~ connected ep_list e a /\ connected ep_list' e a /\
      forall x b, connected ep_list x b -> connected ep_list' x b)).
Proof.
  intros Hsz Hnd. unfold nccl_ofi_ep_addr_list_get. rewrite Z.gtb_ltb, (proj2 (Z.ltb_ge _ _)) by lia.
  set (padded := zero_pad_address a (max_addr_size ep_list)).
  destruct (get_loop_spec padded (ep_pair_list ep_list)) as [[-> Hall]|(l1 & p & l2 & Hl & _ & Hf & ->)].
  - eexists _, ep_list. split_and!; [done|done|done|left]. split_and!; [done|done|].
    intros x Hx. unfold eps in Hx. apply list_elem_of_fmap in Hx as (p & -> & Hp). exists p.
    split_and!; [done|done|]. rewrite Forall_forall in Hall. by apply Hall.
  - set (p' := mk_pair (ep p) (hash_add (addr_set p) padded)).
    exists (ep p), (mk_list (l1 ++ p' :: l2) (max_addr_size ep_list)).
    assert (ep p ∈ eps ep_list) as Hin by (unfold eps; rewrite Hl, fmap_app; set_solver).
    split_and!; [done| |done|right].
    + unfold eps. cbn. by rewrite Hl, !fmap_app.
    + split_and!; [done| | |].
      * intros (q & Hq & Hqe & Hqf). unfold eps in Hnd. rewrite Hl, fmap_app in Hnd.
        apply NoDup_app in Hnd as (_ & Hd & [Hn2 _]%NoDup_cons).
        rewrite Hl in Hq. apply elem_of_app in Hq as [Hq|[->|Hq]%elem_of_cons].
        -- apply (Hd (ep p)); [|by left]. rewrite <- Hqe. by apply list_elem_of_fmap_2.
        -- unfold padded in Hf. congruence.
        -- apply Hn2. rewrite <- Hqe. by apply list_elem_of_fmap_2.
      * exists p'. split_and!; [cbn; set_solver|done|]. cbn. rewrite hash_find_add.
        by rewrite bool_decide_true.
      * intros x b (q & Hq & Hqe & Hqf). rewrite Hl in Hq.
        apply elem_of_app in Hq as [Hq|[->|Hq]%elem_of_cons]; [exists q|exists p'|exists q];
          (split_and!; [cbn; set_solver|done|]); cbn; [done| |done].
        rewrite hash_find_add, Hqf. apply orb_true_r.
Qed.

(** Asking repeatedly for an endpoint not yet connected to one address
    never gives the same endpoint twice, gives every endpoint of the list that
    was not connected, and then NULL. *)
Theorem ep_get_never_repeats n : forall (ep_list : nccl_ofi_ep_addr_list) a,
  Z.of_nat (length a) <= max_addr_size ep_list -> NoDup (eps ep_list) -> NULL ∉ eps ep_list ->
  let '(es, ep_list') := get_many n ep_list a in
  eps ep_list' = eps ep_list /\ length es = n /\
  (forall i j e, es !! i = Some (Some e) -> es !! j = Some (Some e) -> e <> NULL -> i = j) /\
  (forall e, Some e ∈ es -> e <> NULL -> e ∈ eps ep_list /\ ~ connected ep_list e a /\ connected ep_list' e a) /\
  (Some NULL ∈ es -> forall e, e ∈ eps ep_list -> connected ep_list' e a) /\
  (forall x b, connected ep_list x b -> connected ep_list' x b).
Proof.
  induction n as [|n IH]; intros ep_list a Hsz Hnd Hnull; cbn [get_many].
  { split_and!; try done; set_solver. }
  destruct (get_spec ep_list a Hsz Hnd) as (e & l1 & -> & Heps & Hmax & Hcase).
  specialize (IH l1 a). rewrite Heps, Hmax in IH. specialize (IH Hsz Hnd Hnull).
  destruct (get_many n l1 a) as [es l2]. destruct IH as (He & Hlen & Hinj & Hin & Hnl & Hmono).
  assert (forall x b, connected ep_list x b -> connected l1 x b) as Hmono1.
  { destruct Hcase as [(_ & -> & _)|(_ & _ & _ & ?)]; [done|done]. }
  split_and!; [done|cbn; lia| | | |auto].
  - intros [|i] [|j] x Hi Hj Hx; cbn in Hi, Hj; [done| | |f_equal; eauto].
    + injection Hi as <-. exfalso. destruct (Hin e) as (_ & Hnc & _); [by eapply list_elem_of_lookup_2|done|].
      destruct Hcase as [(-> & _)|(_ & _ & Hc & _)]; [done|done].
    + injection Hj as <-. exfalso. destruct (Hin e) as (_ & Hnc & _); [by eapply list_elem_of_lookup_2|done|].
      destruct Hcase as [(-> & _)|(_ & _ & Hc & _)]; [done|done].
  - intros x [[= ->]|Hx]%elem_of_cons Hnz.
    + destruct Hcase as [(-> & _)|(Hxin & Hnc & Hc & _)]; [done|]. split_and!; [done|done|by apply Hmono].
    + destruct (Hin x Hx Hnz) as (Hxin & Hnc & Hc). split_and!; [done|naive_solver|done].
  - intros [Heq|Hx]%elem_of_cons x Hxin; [|by apply Hnl].
    injection Heq as <-. destruct Hcase as [(_ & -> & Hall)|(Hxn & _)]; [|done]. by apply Hmono, Hall.
Qed.

End List.

Arguments ep_pair_list_elem : clear implicits.
Arguments nccl_ofi_ep_addr_list : clear implicits.

Definition ex_list : nccl_ofi_ep_addr_list (gset address) :=
  snd (nccl_ofi_ep_addr_list_insert true true
    (snd (nccl_ofi_ep_addr_list_insert true true (mk_list [] 4) 11 [1; 2])) 12 [1; 2; 3]).

Lemma ep_get_never_repeats_witness :
  fst (get_many 3 ex_list [1; 2; 0]) = [Some 12; Some NULL; Some NULL] /\
  let '(es, l') := get_many 3 ex_list [1; 2; 0] in
  (forall e, Some e ∈ es -> e <> NULL ->
     e ∈ eps ex_list /\ ~ connected ex_list e [1; 2; 0] /\ connected l' e [1; 2; 0]).
Proof.
  split; [vm_compute; reflexivity|].
  pose proof (ep_get_never_repeats 3 ex_list [1; 2; 0]) as Hth.
  assert (eps ex_list = [11; 12]) as Heps by (vm_compute; reflexivity).
  destruct (get_many 3 ex_list [1; 2; 0]) as [es l'].
  apply Hth; [vm_compute; done| |].
  - rewrite Heps. apply NoDup_cons. split; [set_solver|apply NoDup_singleton].
  - rewrite Heps. set_solver.
Defined.

End EpAddrList.
