(* ===== verification/EpAddrMem.v ===== *)
(** * nccl_ofi_ep_addr_list.c in memory

    The list of endpoints as the code has it: list elements linked by the macros of
    utlist.h, each with a hash table of uthash.h, in a heap with malloc and free. The
    code refines the list of sets of EpAddrList.v, its lock is always given back, and
    nccl_ofi_ep_addr_list_fini frees everything that was allocated. *)

From S2P Require Import Prelude StateM DLinks Uthash UthashInv UthashMap EpAddrList.

Module EpAddrMem.
Import DLinks Uthash UthashInv.

Open Scope Z_scope.

(** ** Data *)

Record ep_pair_list_elem_t := mk_elem { ep : Z; addr_set : Z; prev : Z; next : Z }.

(** [mutex]: whether the lock is held. *)
Record ep_addr_list_t := mk_list { ep_pair_list : Z; max_addr_size : Z; mutex : bool }.

(** The heap of one list: the addresses with their hash handles and the hash tables
    ([hm]), the list elements, and the list object ([None] when it is not allocated). *)
Record heap := mk_heap { hm : mem; elems : gmap Z ep_pair_list_elem_t; obj : option ep_addr_list_t }.

Abbreviation L := (SM heap).

Definition sizeof_hashed_addr_t : Z := 56.
Definition sizeof_elem : Z := 32.
Definition sizeof_list : Z := 56.

Definition w_hm m (w : heap) := mk_heap m (elems w) (obj w).
Definition w_elems f (w : heap) := mk_heap (hm w) (f (elems w)) (obj w).
Definition w_obj o (w : heap) := mk_heap (hm w) (elems w) o.

Definition set_addr_set a e := mk_elem (ep e) a (prev e) (next e).
Definition set_eprev p e := mk_elem (ep e) (addr_set e) p (next e).
Definition set_enext n e := mk_elem (ep e) (addr_set e) (prev e) n.

(** A macro of uthash.h on this heap. *)
Definition hash {A} (c : H A) : L A :=
  fun w => match c (hm w) with Some (a, m) => Some (a, w_hm m w) | None => None end.

Definition get_elem (p : Z) : L ep_pair_list_elem_t := let* m := gets elems in of_option (m !! p).
Definition upd_elem (p : Z) f : L unit := let* e := get_elem p in modify (w_elems <[p := f e]>).
Definition get_obj : L ep_addr_list_t := let* o := gets obj in of_option o.
Definition set_head (h : Z) : L unit := let* o := get_obj in modify (w_obj (Some (mk_list h (max_addr_size o) (mutex o)))).
Definition set_mutex (b : bool) : L unit := let* o := get_obj in modify (w_obj (Some (mk_list (ep_pair_list o) (max_addr_size o) b))).

(** Locking a held mutex blocks for ever. *)
Definition mutex_lock : L unit := let* o := get_obj in assert (negb (mutex o)) ;;; set_mutex true.
Definition mutex_unlock : L unit := let* o := get_obj in assert (mutex o) ;;; set_mutex false.

(** Freeing what is not allocated is undefined. *)
Definition free_addr (a : Z) : L unit := hash (get_hh a ;;; modify (w_hhs (delete a))).
Definition free_elem (p : Z) : L unit := get_elem p ;;; modify (w_elems (delete p)).

(** ** utlist.h: the new head *)

Definition DL_APPEND (head add : Z) : L Z :=
  if negb (head =? NULL) then
    let* h := get_elem head in
    upd_elem add (set_eprev (prev h)) ;;;
    upd_elem (prev h) (set_enext add) ;;;
    upd_elem head (set_eprev add) ;;;
    upd_elem add (set_enext NULL) ;;;
    ret head
  else
    upd_elem add (set_eprev add) ;;;
    upd_elem add (set_enext NULL) ;;;
    ret add.

Definition DL_DELETE (head del : Z) : L Z :=
  assert (negb (head =? NULL)) ;;;
  let* d := get_elem del in
  assert (negb (prev d =? NULL)) ;;;
  if prev d =? del then ret NULL
  else if del =? head then
    assert (negb (next d =? NULL)) ;;;
    upd_elem (next d) (set_eprev (prev d)) ;;;
    ret (next d)
  else
    upd_elem (prev d) (set_enext (next d)) ;;;
    (if negb (next d =? NULL) then upd_elem (next d) (set_eprev (prev d)) else upd_elem head (set_eprev (prev d))) ;;;
    ret head.

Section Operations.
Context {E : HashEnv}.

(** What malloc leaves in a new object. *)
Context (junk : UT_hash_handle) (junk_elem : ep_pair_list_elem_t).

Definition malloc_addr (max : Z) : L (option Z) :=
  let* a := hash (uthash_malloc (sizeof_hashed_addr_t + max)) in
  match a with
  | None => ret None
  | Some a => hash (modify (w_hhs <[a := junk]>)) ;;; ret (Some a)
  end.

Definition malloc_elem : L (option Z) :=
  let* p := hash (uthash_malloc sizeof_elem) in
  match p with
  | None => ret None
  | Some p => modify (w_elems <[p := junk_elem]>) ;;; ret (Some p)
  end.

(** The heap has no other list. [mutex_init] is the result of the call. *)
Definition nccl_ofi_ep_addr_list_init (mutex_init max : Z) : L bool :=
  let* a := hash (uthash_malloc sizeof_list) in
  match a with
  | None => ret false
  | Some _ =>
      modify (w_obj (Some (mk_list NULL max false))) ;;;
      if negb (mutex_init =? 0) then modify (w_obj None) ;;; ret false else ret true
  end.

(** memcpy of the address, then the padding; the assertion is the one of
    zero_pad_address. *)
Definition padded (addr : list Z) (max : Z) : L (list Z) :=
  assert (Z.of_nat (length addr) <=? max) ;;; ret (EpAddrList.zero_pad_address addr max).

(** The loop of nccl_ofi_ep_addr_list_get: the return code and the endpoint; [None]
    when uthash ends the process. *)
Fixpoint get_loop (fuel : nat) (ep_pair : Z) (addr_padded : list Z) (max : Z) : L (option (Z * Z)) :=
  if ep_pair =? NULL then ret (Some (0, NULL))
  else
    match fuel with
    | O => undefined
    | S fuel' =>
        let* e := get_elem ep_pair in
        let* found_handle := hash (HASH_FIND (addr_set e) addr_padded) in
        if negb (found_handle =? NULL) then get_loop fuel' (next e) addr_padded max
        else
          let* new_addr := malloc_addr max in
          match new_addr with
          | None => ret (Some (- ENOMEM, NULL))
          | Some new_addr =>
              let* (ok, set) := hash (HASH_ADD (addr_set e) addr_padded new_addr) in
              if negb ok then ret None
              else upd_elem ep_pair (set_addr_set set) ;;; ret (Some (0, ep e))
          end
    end.

(** The return code and the value stored through [ep], [None] when it is not written. *)
Definition nccl_ofi_ep_addr_list_get (addr_in : list Z) : L (option (Z * option Z)) :=
  let* o := get_obj in
  if Z.of_nat (length addr_in) >? max_addr_size o then ret (Some (- EINVAL, None))
  else
    mutex_lock ;;;
    let* addr_padded := padded addr_in (max_addr_size o) in
    let* m := gets elems in
    let* r := get_loop (base.size m) (ep_pair_list o) addr_padded (max_addr_size o) in
    match r with
    | None => ret None
    | Some (rc, ret_ep) => mutex_unlock ;;; ret (Some (rc, Some ret_ep))
    end.

Definition nccl_ofi_ep_addr_list_insert (e : Z) (addr_in : list Z) : L (option Z) :=
  let* o := get_obj in
  if Z.of_nat (length addr_in) >? max_addr_size o then ret (Some (- EINVAL))
  else
    mutex_lock ;;;
    let* new_addr := malloc_addr (max_addr_size o) in
    match new_addr with
    | None => mutex_unlock ;;; ret (Some (- ENOMEM))
    | Some new_addr =>
        let* addr := padded addr_in (max_addr_size o) in
        let* new_pair := malloc_elem in
        match new_pair with
        | None => free_addr new_addr ;;; mutex_unlock ;;; ret (Some (- ENOMEM))
        | Some new_pair =>
            upd_elem new_pair (fun x => mk_elem e NULL (prev x) (next x)) ;;;
            let* (ok, set) := hash (HASH_ADD NULL addr new_addr) in
            if negb ok then ret None
            else
              upd_elem new_pair (set_addr_set set) ;;;
              let* head := DL_APPEND (ep_pair_list o) new_pair in
              set_head head ;;;
              mutex_unlock ;;;
              ret (Some 0)
        end
    end.

(** HASH_ITER over the set of the element [elem]: the next address is read before the
    body deletes and frees this one. *)
Fixpoint clear_loop (fuel : nat) (elem e : Z) : L unit :=
  if e =? NULL then ret tt
  else
    match fuel with
    | O => undefined
    | S fuel' =>
        let* h := hash (get_hh e) in
        let tmp := Uthash.next h in
        let* x := get_elem elem in
        let* set := hash (HASH_DEL (addr_set x) e) in
        upd_elem elem (set_addr_set set) ;;;
        free_addr e ;;;
        clear_loop fuel' elem tmp
    end.

Definition delete_ep_list_entry (elem : Z) : L unit :=
  let* x := get_elem elem in
  let* m := gets (fun w => hhs (hm w)) in
  clear_loop (base.size m) elem (addr_set x) ;;;
  let* o := get_obj in
  let* head := DL_DELETE (ep_pair_list o) elem in
  set_head head ;;;
  free_elem elem.

Fixpoint delete_loop (fuel : nat) (ep_pair e : Z) : L Z :=
  if ep_pair =? NULL then ret (- ENOENT)
  else
    match fuel with
    | O => undefined
    | S fuel' =>
        let* x := get_elem ep_pair in
        if ep x =? e then delete_ep_list_entry ep_pair ;;; ret 0
        else delete_loop fuel' (next x) e
    end.

Definition nccl_ofi_ep_addr_list_delete (e : Z) : L Z :=
  mutex_lock ;;;
  let* o := get_obj in
  let* m := gets elems in
  let* rc := delete_loop (base.size m) (ep_pair_list o) e in
  mutex_unlock ;;;
  ret rc.

(** The loop of fini: the next element is read before this one is deleted. *)
Fixpoint fini_loop (fuel : nat) (ep_pair : Z) : L unit :=
  if ep_pair =? NULL then ret tt
  else
    match fuel with
    | O => undefined
    | S fuel' =>
        let* x := get_elem ep_pair in
        let ep_pair_tmp := next x in
        delete_ep_list_entry ep_pair ;;;
        fini_loop fuel' ep_pair_tmp
    end.

(** Destroying a locked mutex is undefined. *)
Definition nccl_ofi_ep_addr_list_fini : L unit :=
  let* o := get_obj in
  let* m := gets elems in
  fini_loop (base.size m) (ep_pair_list o) ;;;
  let* o := get_obj in
  assert (ep_pair_list o =? NULL) ;;;
  assert (negb (mutex o)) ;;;
  modify (w_obj None).

End Operations.

(** ** Invariant *)

(** One element of the list, with the hash table of its set. *)
Record cell := mk_cell { at_ : Z; cep : Z; cset : Z; cts : list Z; ckv : list (Z * list Z) }.

Definition ats (cs : list cell) : list Z := at_ <$> cs.
Definition addrs (cs : list cell) : list Z := cs ≫= fun c => (ckv c).*1.
Definition tabs (cs : list cell) : list Z := cs ≫= cts.

(** The addresses and tables of the heap are those of the sets, apart from the
    addresses [X] that are allocated and in no set. *)
Record tables (X : list Z) (m : mem) (cs : list cell) : Prop := {
  tb_rep c : c ∈ cs -> rep m (cset c) (cts c) (ckv c) /\ NoDup (ckv c).*2;
  tb_addrs : NoDup (X ++ addrs cs);
  tb_tabs : NoDup (tabs cs);
  tb_hhs a : is_Some (hhs m !! a) <-> a ∈ X ++ addrs cs;
  tb_tbls t : is_Some (tbls m !! t) -> t ∈ tabs cs;
  tb_bound a : a ∈ X ++ addrs cs -> 0 < a <= mallocs m;
  tb_tbound t : t ∈ tabs cs -> 0 < t <= mallocs m;
  tb_mallocs : 0 <= mallocs m;
}.

Definition data (e : ep_pair_list_elem_t) : Z * Z := (ep e, addr_set e).

(** The elements are linked as DL lists are: the first one points back to the last. *)
Record cells (X : list Z) (P : gmap Z ep_pair_list_elem_t) (n : Z) (cs : list cell) : Prop := {
  ce_links : dll prev next P (List.last (ats cs) NULL) (ats cs) NULL;
  ce_elem c : c ∈ cs -> data <$> P !! at_ c = Some (cep c, cset c);
  ce_nodup : NoDup (X ++ ats cs);
  ce_dom p : is_Some (P !! p) <-> p ∈ X ++ ats cs;
  ce_bound p : p ∈ X ++ ats cs -> 0 < p <= n;
}.

Lemma addrs_app cs1 cs2 : addrs (cs1 ++ cs2) = addrs cs1 ++ addrs cs2.
Proof. apply bind_app. Qed.
Lemma tabs_app cs1 cs2 : tabs (cs1 ++ cs2) = tabs cs1 ++ tabs cs2.
Proof. apply bind_app. Qed.
Lemma addrs_mid cs1 c cs2 : addrs (cs1 ++ c :: cs2) = addrs cs1 ++ (ckv c).*1 ++ addrs cs2.
Proof. by rewrite addrs_app. Qed.
Lemma tabs_mid cs1 c cs2 : tabs (cs1 ++ c :: cs2) = tabs cs1 ++ cts c ++ tabs cs2.
Proof. by rewrite tabs_app. Qed.
Lemma ats_mid cs1 c cs2 : ats (cs1 ++ c :: cs2) = ats cs1 ++ at_ c :: ats cs2.
Proof. unfold ats. by rewrite fmap_app. Qed.
Lemma in_addrs c cs a : c ∈ cs -> a ∈ (ckv c).*1 -> a ∈ addrs cs.
Proof. intros Hc Ha. apply list_elem_of_bind. by exists c. Qed.
Lemma in_tabs c cs t : c ∈ cs -> t ∈ cts c -> t ∈ tabs cs.
Proof. intros Hc Ht. apply list_elem_of_bind. by exists c. Qed.

Lemma tables_mem_ok X m cs : tables X m cs -> mem_ok m.
Proof. intros Ht t Hs. by apply (tb_tbound _ _ _ Ht), (tb_tbls _ _ _ Ht). Qed.

Lemma perm_mid {A} (X X' l l' l1 l2 : list A) : X' ++ l' ≡ₚ X ++ l -> X' ++ l1 ++ l' ++ l2 ≡ₚ X ++ l1 ++ l ++ l2.
Proof.
  intros Hp. rewrite !(Permutation_app_swap_app l1), !(assoc_L (++) X'), !(assoc_L (++) X). by rewrite Hp.
Qed.

Lemma nodup_mid {A} (X l l1 l2 : list A) a : NoDup (X ++ l1 ++ l ++ l2) -> a ∈ l1 ++ l2 -> a ∉ X ++ l.
Proof.
  rewrite (Permutation_app_swap_app l1), (assoc_L (++) X). intros (_ & Hd & _)%NoDup_app Ha Hin. by apply (Hd a).
Qed.

(** One set changes within its own memory. *)
Lemma tables_replace X X' m m' cs1 c c' cs2 S T :
  tables X m (cs1 ++ c :: cs2) -> rep m' (cset c') (cts c') (ckv c') -> NoDup (ckv c').*2 -> NoDup (cts c') -> local_to S T m m' ->
  (forall a, a ∈ S -> a ∈ X ++ (ckv c).*1) -> (forall t, t ∈ T -> (t ∈ cts c \/ mallocs m < t) /\ (is_Some (tbls m' !! t) -> t ∈ cts c')) -> (forall t, t ∈ cts c -> t ∈ T) ->
  X' ++ (ckv c').*1 ≡ₚ X ++ (ckv c).*1 -> (forall t, t ∈ cts c' -> t ∈ T /\ t <= mallocs m') ->
  tables X' m' (cs1 ++ c' :: cs2).
Proof.
  intros Htb Hrep Hk Hnt Hlo HS HT Hold HX Hc'. assert (X' ++ addrs (cs1 ++ c' :: cs2) ≡ₚ X ++ addrs (cs1 ++ c :: cs2)) as Hperm by (rewrite !addrs_mid; by apply perm_mid).
  pose proof (tb_addrs _ _ _ Htb) as Hna. pose proof (tb_tabs _ _ _ Htb) as Hntb. pose proof (lo_mallocs _ _ _ _ Hlo) as Hmal. rewrite addrs_mid in Hna. rewrite tabs_mid in Hntb.
  assert (forall t, t ∈ tabs cs1 ++ tabs cs2 -> (t ∉ T) /\ 0 < t <= mallocs m) as Hother.
  { intros t Ht. pose proof (nodup_mid [] _ _ _ _ Hntb Ht) as Hnc. pose proof (tb_tbound _ _ _ Htb t) as Hb. rewrite tabs_mid, !elem_of_app in Hb. rewrite elem_of_app in Ht. split; [|apply Hb; tauto].
    intros HtT. destruct (HT t HtT) as [[Hin|Hlt] _]; [done|]. assert (0 < t <= mallocs m) by (apply Hb; tauto). lia. }
  split.
  - intros d [Hd|[->|Hd]%elem_of_cons]%elem_of_app; [|done|]; destruct (tb_rep _ _ _ Htb d) as [Hr Hkd]; [set_solver| |set_solver|]; (split; [|done]);
      (eapply rep_frame; [exact Hr|intros a Ha; apply (lo_hhs _ _ _ _ Hlo); intros Hin; apply HS in Hin; revert Hin; apply (nodup_mid _ _ _ _ _ Hna), elem_of_app
                         |intros t Ht; apply (lo_tbls _ _ _ _ Hlo), Hother, elem_of_app]); eauto using in_addrs, in_tabs.
  - rewrite Hperm, addrs_mid. done.
  - rewrite tabs_mid, Permutation_app_swap_app. rewrite Permutation_app_swap_app in Hntb. apply NoDup_app in Hntb as (_ & _ & Hn). apply NoDup_app. split_and!; [done| |done]. intros t Ht Hin. apply Hother in Hin as [Hin _]. by apply Hin, Hc'.
  - intros a. rewrite Hperm, <- (tb_hhs _ _ _ Htb a), <- !elem_of_dom, (lo_dom _ _ _ _ Hlo). done.
  - intros t Hs. rewrite tabs_mid, !elem_of_app. destruct (decide (t ∈ T)) as [HtT|HtT]; [right; left; by apply HT|]. rewrite (lo_tbls _ _ _ _ Hlo) in Hs by done. apply (tb_tbls _ _ _ Htb) in Hs. rewrite tabs_mid, !elem_of_app in Hs. naive_solver.
  - intros a. rewrite Hperm. intros Ha. apply (tb_bound _ _ _ Htb) in Ha. lia.
  - intros t. rewrite tabs_mid, !elem_of_app. intros Ht. destruct (decide (t ∈ cts c')) as [Hin|Hin].
    + destruct (Hc' t Hin) as [HtT Hle]. split; [|done]. pose proof (tb_mallocs _ _ _ Htb). destruct (HT t HtT) as [[Hc|Hlt] _]; [|lia]. apply (tb_tbound _ _ _ Htb). rewrite tabs_mid. set_solver.
    + destruct (Hother t) as [_ Hb]; [rewrite elem_of_app; tauto|lia].
  - pose proof (tb_mallocs _ _ _ Htb). lia.
Qed.

(** ** Operations on the sets *)

Lemma tables_add `{MB : MallocBounded} X m cs1 c cs2 a k :
  tables (a :: X) m (cs1 ++ c :: cs2) -> k ∉ (ckv c).*2 ->
  wp (HASH_ADD (cset c) k a) (fun r m' => if r.1 then mallocs m <= mallocs m' /\ exists ts, tables X m' (cs1 ++ mk_cell (at_ c) (cep c) r.2 ts (ckv c ++ [(a, k)]) :: cs2)
                                         else exists n sz, malloc_ok n sz = false) m.
Proof.
  intros Htb Hk. destruct (tb_rep _ _ _ Htb c ltac:(set_solver)) as [Hrep Hnk]. pose proof (tb_addrs _ _ _ Htb) as Hna. rewrite addrs_mid in Hna.
  assert (a ∉ (ckv c).*1) as Ha by (cbn in Hna; apply NoDup_cons in Hna as [Hna _]; rewrite !elem_of_app in Hna; tauto).
  eapply wp_mono; [apply (add_wp m (cset c) (cts c) (ckv c) a k); [by eapply tables_mem_ok|done|done| |]|].
  - destruct (tb_bound _ _ _ Htb a ltac:(left)). unfold NULL. lia.
  - apply (tb_hhs _ _ _ Htb). left.
  - intros [[] h'] m'; [|done]. intros (Hm' & ts & Hr & Hlo & Hts). cbn [fst snd] in *. split; [apply (lo_mallocs _ _ _ _ Hlo)|]. exists ts.
    eapply tables_replace; [exact Htb|exact Hr| | |exact Hlo| | | | |]; cbn [ckv cts cset].
    + rewrite fmap_app. apply NoDup_app. split_and!; [done|set_solver|apply NoDup_singleton].
    + destruct Hts as [->|(_ & t & -> & _)]; [|apply NoDup_singleton]. pose proof (tb_tabs _ _ _ Htb) as Hn. rewrite tabs_mid, Permutation_app_swap_app in Hn. by apply NoDup_app in Hn as [Hn _].
    + intros x. rewrite fmap_app. set_solver.
    + intros t Ht. split; [|done]. destruct Hts as [->|(_ & t' & -> & Hlt)]; [by left|]. apply list_elem_of_singleton in Ht as ->. by right.
    + intros t Ht. destruct Hts as [->|(Hc & _)]; [done|]. rewrite Hc in Ht. by apply elem_of_nil in Ht.
    + rewrite fmap_app. cbn. rewrite (assoc_L (++)), (Permutation_app_comm _ [a]). done.
    + intros t Ht. split; [done|]. apply Hm'. destruct (ckv c ++ [(a, k)]) as [|[x kx] l]; [destruct Hr as [_ ->]; by apply elem_of_nil in Ht|]. destruct Hr as (_ & t' & T & -> & HT & _). apply list_elem_of_singleton in Ht as ->. by eexists.
Qed.

Lemma tables_del X m cs1 p e h ts a k kv cs2 :
  tables X m (cs1 ++ mk_cell p e h ts ((a, k) :: kv) :: cs2) ->
  h = a /\ wp (HASH_DEL h a) (fun h' m' => mallocs m <= mallocs m' /\ exists ts', tables (a :: X) m' (cs1 ++ mk_cell p e h' ts' kv :: cs2)) m.
Proof.
  intros Htb. destruct (tb_rep _ _ _ Htb (mk_cell p e h ts ((a, k) :: kv)) ltac:(set_solver)) as [Hrep Hnk]. cbn [ckv cts cset] in *. split; [by destruct Hrep as [-> _]|].
  eapply wp_mono; [apply (del_wp m h ts [] a k kv Hrep)|]. intros h' m' (ts' & Hr & Hlo & Hts). split; [apply (lo_mallocs _ _ _ _ Hlo)|]. exists ts'.
  assert (exists t, ts = [t] /\ (ts' = [] /\ kv = [] /\ tbls m' !! t = None \/ ts' = [t])) as (t & -> & Hcase).
  { destruct Hrep as (_ & t & T & -> & _). exists t. split; [done|]. cbn [Datatypes.app] in Hts. case_decide as Hkv; [left|by right]. subst kv. destruct Hr as [_ ->]. split_and!; [done|done|]. apply Hts. left. }
  eapply tables_replace; [exact Htb|exact Hr| | |exact Hlo| | | | |]; cbn [ckv cts cset].
  - cbn in Hnk. by apply NoDup_cons in Hnk as [_ Hn].
  - destruct Hcase as [[-> _]| ->]; [constructor|apply NoDup_singleton].
  - intros x Hx. apply elem_of_app. by right.
  - intros x Hx. split; [by left|]. apply list_elem_of_singleton in Hx as ->. intros [? Hs]. destruct Hcase as [(_ & _ & Hn)| ->]; [congruence|left].
  - done.
  - cbn. by rewrite Permutation_middle.
  - intros x Hx. destruct Hcase as [[-> _]| ->]; [by apply elem_of_nil in Hx|]. split; [done|]. pose proof (tb_tbound _ _ _ Htb x) as Hb. rewrite tabs_mid in Hb. cbn [cts] in Hb. pose proof (lo_mallocs _ _ _ _ Hlo). destruct Hb; [set_solver|lia].
Qed.

Lemma tables_find X m cs c k : tables X m cs -> c ∈ cs -> Z.of_nat (length k) < 2 ^ 32 -> wp (HASH_FIND (cset c) k) (fun r m' => m' = m /\ (r = NULL <-> k ∉ (ckv c).*2)) m.
Proof.
  intros Htb Hc Hk. destruct (tb_rep _ _ _ Htb c Hc) as [Hrep Hnk]. eapply wp_mono; [by apply (find_wp m (cset c) (cts c) (ckv c) k)|]. intros r m' [-> ->]. split; [done|]. split; [|apply lookup_key_none].
  intros Hn Hin. apply list_elem_of_fmap in Hin as ([a k'] & -> & Hin). rewrite (lookup_key_in _ a) in Hn by done. subst a. destruct (tb_bound _ _ _ Htb NULL) as [Hlt _]; [|done]. apply elem_of_app. right. apply (in_addrs c); [done|]. by apply (list_elem_of_fmap_2 fst _ (NULL, k')).
Qed.

Lemma tables_free X m cs a : tables (a :: X) m cs -> tables X (w_hhs (delete a) m) cs.
Proof.
  intros Htb. pose proof (tb_addrs _ _ _ Htb) as Hna. cbn in Hna. apply NoDup_cons in Hna as [Ha Hna]. split; cbn; [|done|apply Htb| |apply Htb| |apply (tb_tbound _ _ _ Htb)|apply (tb_mallocs _ _ _ Htb)].
  - intros c Hc. destruct (tb_rep _ _ _ Htb c Hc) as [Hr Hk]. split; [|done]. eapply rep_frame; [exact Hr| |done]. intros x Hx. cbn. apply lookup_delete_ne. intros ->. apply Ha, elem_of_app. right. by eapply in_addrs.
  - intros x. destruct (decide (x = a)) as [->|Hne]; [rewrite lookup_delete_eq; split; [by intros [? ?]|done]|]. rewrite lookup_delete_ne by done. rewrite (tb_hhs _ _ _ Htb x). cbn. rewrite elem_of_cons. tauto.
  - intros x Hx. apply (tb_bound _ _ _ Htb). by right.
Qed.

Lemma tables_alloc X m cs junk : tables X m cs -> tables (mallocs m + 1 :: X) (mk_mem (<[mallocs m + 1 := junk]> (hhs m)) (tbls m) (mallocs m + 1)) cs.
Proof.
  intros Htb. pose proof (tb_mallocs _ _ _ Htb) as H0. assert (mallocs m + 1 ∉ X ++ addrs cs) as Hf by (intros Hin; destruct (tb_bound _ _ _ Htb _ Hin); lia). split; cbn.
  - intros c Hc. destruct (tb_rep _ _ _ Htb c Hc) as [Hr Hk]. split; [|done]. eapply rep_frame; [exact Hr| |done]. intros x Hx. cbn. apply lookup_insert_ne. intros <-. apply Hf, elem_of_app. right. by eapply in_addrs.
  - apply NoDup_cons. split; [done|apply Htb].
  - apply Htb.
  - intros x. destruct (decide (x = mallocs m + 1)) as [->|Hne]; [rewrite lookup_insert_eq; split; [left|by eexists]|]. rewrite lookup_insert_ne by done. rewrite (tb_hhs _ _ _ Htb x), elem_of_cons. tauto.
  - apply Htb.
  - intros x [->|Hx]%elem_of_cons; [lia|]. destruct (tb_bound _ _ _ Htb x Hx). lia.
  - intros t Ht. destruct (tb_tbound _ _ _ Htb t Ht). lia.
  - lia.
Qed.

Lemma tables_mallocs X m cs n : tables X m cs -> mallocs m <= n -> tables X (mk_mem (hhs m) (tbls m) n) cs.
Proof.
  intros Htb Hn. pose proof (tb_mallocs _ _ _ Htb). split; cbn; [|apply Htb|apply Htb|apply Htb|apply Htb| | |lia].
  - intros c Hc. destruct (tb_rep _ _ _ Htb c Hc) as [Hr Hk]. split; [|done]. by eapply rep_frame.
  - intros x Hx. destruct (tb_bound _ _ _ Htb x Hx). lia.
  - intros t Ht. destruct (tb_tbound _ _ _ Htb t Ht). lia.
Qed.

(** An empty set has no memory. *)
Lemma tables_empty X m cs1 p e cs2 : tables X m (cs1 ++ mk_cell p e NULL [] [] :: cs2) <-> tables X m (cs1 ++ cs2).
Proof.
  assert (addrs (cs1 ++ mk_cell p e NULL [] [] :: cs2) = addrs (cs1 ++ cs2)) as Ea by (by rewrite addrs_mid, addrs_app).
  assert (tabs (cs1 ++ mk_cell p e NULL [] [] :: cs2) = tabs (cs1 ++ cs2)) as Et by (by rewrite tabs_mid, tabs_app).
  split; intros [H1 H2 H3 H4 H5 H6 H7 H8]; rewrite ?Ea, ?Et in *; (split; rewrite ?Ea, ?Et; try done).
  - intros c Hc. apply H1. set_solver.
  - intros c [Hc|[->|Hc]%elem_of_cons]%elem_of_app; [apply H1; set_solver|split; [done|constructor]|apply H1; set_solver].
Qed.
(** ** Operations on the list *)

Lemma hash_wp {A} (c : H A) Q w : wp c (fun a m => Q a (w_hm m w)) (hm w) -> wp (hash c) Q w.
Proof. unfold wp, hash. by destruct (c (hm w)) as [[a m]|]. Qed.

Lemma get_elem_wp p e (Q : ep_pair_list_elem_t -> heap -> Prop) w : elems w !! p = Some e -> Q e w -> wp (get_elem p) Q w.
Proof. intros He HQ. unfold get_elem. wp_simpl. by rewrite He. Qed.

Lemma upd_elem_wp p f (Q : unit -> heap -> Prop) w : is_Some (elems w !! p) -> Q tt (w_elems (alter f p) w) -> wp (upd_elem p f) Q w.
Proof.
  intros [e He] HQ. unfold upd_elem. wp_simpl. eapply get_elem_wp; [exact He|]. wp_simpl. unfold w_elems in *.
  assert (alter f p (elems w) = <[p := f e]> (elems w)) as Heq by (apply map_eq; intros i; destruct (decide (i = p)) as [->|]; [by rewrite lookup_alter_eq, lookup_insert_eq, He|by rewrite lookup_alter_ne, lookup_insert_ne]).
  by rewrite <- Heq.
Qed.

Lemma get_obj_wp o (Q : ep_addr_list_t -> heap -> Prop) w : obj w = Some o -> Q o w -> wp get_obj Q w.
Proof. intros Ho HQ. unfold get_obj. wp_simpl. by rewrite Ho. Qed.

Lemma set_head_wp h o (Q : unit -> heap -> Prop) w : obj w = Some o -> Q tt (w_obj (Some (mk_list h (max_addr_size o) (mutex o))) w) -> wp (set_head h) Q w.
Proof. intros Ho HQ. unfold set_head. wp_simpl. eapply get_obj_wp; [exact Ho|]. by wp_simpl. Qed.

Lemma list_lock_wp b h max (Q : unit -> heap -> Prop) w : obj w = Some (mk_list h max b) -> Q tt (w_obj (Some (mk_list h max (negb b))) w) -> wp (if b then mutex_unlock else mutex_lock) Q w.
Proof.
  intros Ho HQ. unfold mutex_unlock, mutex_lock. destruct b; wp_simpl; (eapply get_obj_wp; [exact Ho|]); wp_simpl; unfold set_mutex; apply wp_bind; (eapply get_obj_wp; [exact Ho|]); by wp_simpl.
Qed.

(** Elements are relinked; the data of an element stay. *)
Lemma cells_relink X X' P P' n cs cs' :
  cells X P n cs -> data <$> P' = data <$> P -> dll prev next P' (List.last (ats cs') NULL) (ats cs') NULL ->
  (forall c, c ∈ cs' -> data <$> P !! at_ c = Some (cep c, cset c)) -> X' ++ ats cs' ≡ₚ X ++ ats cs -> cells X' P' n cs'.
Proof.
  intros [Hl He Hnd Hdom Hb] Hdata Hl' He' Hp. split; [done| |by rewrite Hp| |].
  - intros c Hc. rewrite <- He' by done. by apply fmap_lookup_eq.
  - intros p. rewrite Hp, <- Hdom. rewrite <- !(fmap_is_Some data). by rewrite (fmap_lookup_eq data P P' p).
  - intros p. rewrite Hp. apply Hb.
Qed.

Lemma cells_some X P n cs c : cells X P n cs -> c ∈ cs -> is_Some (P !! at_ c).
Proof. intros Hc Hin. pose proof (ce_elem _ _ _ _ Hc c Hin) as He. destruct (P !! at_ c); [by eexists|done]. Qed.

Lemma cells_null X P n cs : cells X P n cs -> NULL ∉ X ++ ats cs.
Proof. intros Hc H0. destruct (ce_bound _ _ _ _ Hc _ H0). unfold NULL in *. lia. Qed.

Lemma elem_append_wp X w n cs c :
  cells (at_ c :: X) (elems w) n cs -> data <$> elems w !! at_ c = Some (cep c, cset c) ->
  wp (DL_APPEND (hd0 NULL (ats cs)) (at_ c)) (fun h w' => h = hd0 NULL (ats (cs ++ [c])) /\ exists P, w' = w_elems (fun _ => P) w /\ cells X P n (cs ++ [c])) w.
Proof.
  intros Hc Hd. set (p := at_ c) in *. pose proof (cells_null _ _ _ _ Hc) as H0. pose proof (ce_nodup _ _ _ _ Hc) as Hnd. cbn in Hnd. apply NoDup_cons in Hnd as [Hp Hnd]. apply NoDup_app in Hnd as (_ & _ & Hna). rewrite elem_of_app in Hp.
  assert (is_Some (elems w !! p)) as Hps by (destruct (elems w !! p); [by eexists|done]). destruct Hps as [e He].
  assert (forall P', data <$> P' = data <$> elems w -> dll prev next P' p (ats cs ++ [p]) NULL -> cells X P' n (cs ++ [c])) as Hgo.
  { intros P' HP' Hl. assert (ats (cs ++ [c]) = ats cs ++ [p]) as Ea by (by rewrite ats_mid). eapply cells_relink; [exact Hc|done| | |].
    - by rewrite Ea, List.last_last.
    - intros d [Hin| ->%list_elem_of_singleton]%elem_of_app; [by apply (ce_elem _ _ _ _ Hc)|done].
    - rewrite Ea. cbn. by rewrite (assoc_L (++)), (Permutation_app_comm _ [p]). }
  unfold DL_APPEND. destruct (ats cs) as [|b l _] eqn:Ecs using rev_ind.
  - cbn [hd0]. wp_simpl. cbn [Z.eqb NULL negb]. wp_simpl. apply upd_elem_wp; [by eexists|]. wp_simpl. apply upd_elem_wp; [cbn; apply lookup_alter_is_Some; by eexists|]. wp_simpl.
    split; [unfold ats in *; by rewrite fmap_app, Ecs|]. eexists. split; [reflexivity|]. apply Hgo; [cbn; by rewrite !alter_fmap|]. cbn. split; [|done]. eexists. by rewrite !lookup_alter_eq, He.
  - pose proof (ce_links _ _ _ _ Hc) as Hl. rewrite Ecs, List.last_last in Hl. set (h0 := hd0 NULL (l ++ [b])). assert (h0 ∈ l ++ [b]) as Hh0 by (subst h0; destruct l; left).
    rewrite (proj2 (Z.eqb_neq h0 NULL)) by (intros ->; set_solver). cbn [negb]. assert (exists e0, elems w !! h0 = Some e0 /\ prev e0 = b) as (e0 & He0 & Hpb) by (subst h0; destruct l; cbn in Hl |- *; destruct Hl as [(e0 & ? & ? & ?) _]; eauto).
    assert (is_Some (elems w !! b)) as Hbs by (eapply dll_elem; [exact Hl|set_solver]). assert (p <> b) as Hpb' by (intros ->; set_solver). assert (p <> h0) as Hph by (intros ->; set_solver).
    wp_simpl. eapply get_elem_wp; [exact He0|]. rewrite Hpb. wp_simpl. apply upd_elem_wp; [by eexists|]. wp_simpl. apply upd_elem_wp; [cbn; by apply lookup_alter_is_Some|]. wp_simpl. apply upd_elem_wp; [cbn; do 2 apply lookup_alter_is_Some; by eexists|]. wp_simpl.
    apply upd_elem_wp; [cbn; do 3 apply lookup_alter_is_Some; by eexists|]. wp_simpl. split; [unfold ats in *; rewrite fmap_app, Ecs; subst h0; by destruct l|]. eexists. split; [reflexivity|]. apply Hgo; [cbn; by rewrite !alter_fmap|]. cbn.
    apply dll_app. cbn [hd0 dll]. split.
    + apply dll_alter; [set_solver|]. apply (dll_set_first prev next set_eprev (fun _ _ => eq_refl) (fun _ _ => eq_refl)) with b; [done|].
      apply (dll_set_last prev next set_enext (fun _ _ => eq_refl) (fun _ _ => eq_refl)) with NULL; [done|]. apply dll_alter; [set_solver|done].
    + split; [|done]. eexists. rewrite lookup_alter_eq, lookup_alter_ne, lookup_alter_ne, lookup_alter_eq, He by done. rewrite List.last_last. done.
Qed.
Lemma last_app_ne {A} (l m : list A) d : m <> [] -> List.last (l ++ m) d = List.last m d.
Proof. intros Hm. destruct m as [|x m _] using rev_ind; [done|]. by rewrite (assoc_L (++)), !List.last_last. Qed.

Lemma last_ne_mid (l1 : list Z) p l2 d : NoDup (l1 ++ p :: l2) -> l2 <> [] -> List.last (l1 ++ p :: l2) d = List.last l2 d /\ List.last l2 d <> p.
Proof.
  intros Hnd Hne. destruct l2 as [|x l2 _] using rev_ind; [done|]. rewrite app_comm_cons, (assoc_L (++)), !List.last_last. split; [done|]. intros ->. apply NoDup_app in Hnd as (_ & _ & [Hp _]%NoDup_cons). set_solver.
Qed.

(** The links after an element is taken out of the list. *)
Definition unlinked (P : gmap Z ep_pair_list_elem_t) (l1 : list Z) (l2 : list Z) : gmap Z ep_pair_list_elem_t :=
  match l1, l2 with
  | [], [] => P
  | [], n :: _ => alter (set_eprev (List.last l2 NULL)) n P
  | h :: _, [] => alter (set_eprev (List.last l1 NULL)) h (alter (set_enext NULL) (List.last l1 NULL) P)
  | _, n :: _ => alter (set_eprev (List.last l1 NULL)) n (alter (set_enext n) (List.last l1 NULL) P)
  end.

Lemma unlinked_data P l1 l2 : data <$> unlinked P l1 l2 = data <$> P.
Proof. destruct l1, l2; cbn [unlinked]; by rewrite ?alter_fmap. Qed.

Lemma unlinked_dll P l1 p l2 :
  NoDup (l1 ++ p :: l2) -> dll prev next P (List.last (l1 ++ p :: l2) NULL) (l1 ++ p :: l2) NULL -> dll prev next (unlinked P l1 l2) (List.last (l1 ++ l2) NULL) (l1 ++ l2) NULL.
Proof.
  intros Hnd Hl. pose proof (dll_set_first prev next set_eprev (fun _ _ => eq_refl) (fun _ _ => eq_refl)) as Hsf. pose proof (dll_set_last prev next set_enext (fun _ _ => eq_refl) (fun _ _ => eq_refl)) as Hsl.
  pose proof Hnd as (Hn1 & Hdis & [Hp Hn2]%NoDup_cons)%NoDup_app. apply dll_app in Hl as [Hl1 [_ Hl2]]. destruct (decide (l2 = [])) as [->|Hne].
  - rewrite app_nil_r. cbn [hd0] in Hl1. destruct l1 as [|b l1 _] using rev_ind; [done|]. assert (unlinked P (l1 ++ [b]) [] = alter (set_eprev b) (hd0 NULL (l1 ++ [b])) (alter (set_enext NULL) b P)) as -> by (unfold unlinked; rewrite List.last_last; by destruct l1).
    rewrite List.last_last. eapply Hsf; [done|]. eapply Hsl; [done|]. exact Hl1.
  - destruct (last_ne_mid l1 p l2 NULL Hnd Hne) as [HL Hlp]. rewrite HL in *. destruct l1 as [|b l1 _] using rev_ind.
    + destruct l2 as [|n l2]; [done|]. cbn [unlinked Datatypes.app]. by apply (Hsf _ p _ (n :: l2)).
    + destruct l2 as [|n l2]; [done|]. cbn [hd0] in Hl1. set (L := List.last (n :: l2) NULL) in *.
      assert (unlinked P (l1 ++ [b]) (n :: l2) = alter (set_eprev b) n (alter (set_enext n) b P)) as -> by (unfold unlinked; rewrite List.last_last; by destruct l1).
      assert (List.last ((l1 ++ [b]) ++ n :: l2) NULL = L) as -> by (subst L; by rewrite last_app_ne).
      apply dll_app. rewrite List.last_last. split.
      * apply dll_alter; [intros Hin; apply (Hdis n Hin); right; left|]. eapply Hsl; [done|]. exact Hl1.
      * eapply (Hsf _ p _ (n :: l2)); [done|]. apply dll_alter; [intros Hin; apply (Hdis b); [set_solver|by right]|done].
Qed.

Lemma delete_wp X w n cs1 c cs2 :
  cells X (elems w) n (cs1 ++ c :: cs2) ->
  wp (DL_DELETE (hd0 NULL (ats (cs1 ++ c :: cs2))) (at_ c)) (fun h w' => h = hd0 NULL (ats (cs1 ++ cs2)) /\ exists P, w' = w_elems (fun _ => P) w /\ cells (at_ c :: X) P n (cs1 ++ cs2)) w.
Proof.
  intros Hc. set (p := at_ c) in *. pose proof (cells_null _ _ _ _ Hc) as H0. pose proof (ce_nodup _ _ _ _ Hc) as Hnd. pose proof (ce_links _ _ _ _ Hc) as Hl.
  assert (cells (p :: X) (unlinked (elems w) (ats cs1) (ats cs2)) n (cs1 ++ cs2)) as Hgo.
  { apply NoDup_app in Hnd as (_ & _ & Hna). rewrite ats_mid in Hna, Hl. eapply cells_relink; [exact Hc|apply unlinked_data| | |].
    - assert (ats (cs1 ++ cs2) = ats cs1 ++ ats cs2) as -> by (unfold ats; by rewrite fmap_app). by apply unlinked_dll with p.
    - intros d Hd. apply (ce_elem _ _ _ _ Hc). set_solver.
    - rewrite ats_mid. unfold ats. rewrite fmap_app. cbn. by rewrite !Permutation_middle. }
  rewrite ats_mid in *. assert (ats (cs1 ++ cs2) = ats cs1 ++ ats cs2) as -> by (unfold ats; by rewrite fmap_app). apply NoDup_app in Hnd as (_ & _ & Hna). rewrite elem_of_app in H0.
  remember (ats cs1) as l1 eqn:E1. remember (ats cs2) as l2 eqn:E2. clear E1 E2. fold p in H0, Hna, Hl |- *. pose proof Hna as (_ & Hdis & _)%NoDup_app.
  pose proof (proj1 (dll_app _ _ _ _ _ _ _) Hl) as [_ [(d & Hd & Hpd & Hnd) _]]. assert (forall x, x ∈ l1 ++ p :: l2 -> is_Some (elems w !! x)) as Hsome by (intros x; by eapply dll_elem).
  assert (forall x, x ∈ l1 ++ p :: l2 -> x <> NULL) as Hnn by (intros x Hx ->; tauto). unfold DL_DELETE.
  assert (hd0 NULL (l1 ++ p :: l2) ∈ l1 ++ p :: l2) as Hh by (destruct l1; left). rewrite (proj2 (Z.eqb_neq _ NULL)) by by apply Hnn. cbn [negb]. wp_simpl. apply wp_assert; [done|]. wp_simpl. eapply get_elem_wp; [exact Hd|]. wp_simpl.
  destruct l1 as [|b l1 _] using rev_ind.
  - cbn [Datatypes.app hd0] in *. change (prev d = List.last (p :: l2) NULL) in Hpd. destruct (decide (l2 = [])) as [->|Hne].
    + cbn in Hpd. rewrite Hpd, Z.eqb_refl. rewrite (proj2 (Z.eqb_neq p NULL)) by (apply Hnn; left). apply wp_assert; [done|]. wp_simpl. split; [done|]. exists (elems w). split; [by destruct w|done].
    + destruct (last_ne_mid [] p l2 NULL Hna Hne) as [HL Hlp]. cbn [Datatypes.app] in HL. rewrite HL in Hpd. assert (List.last l2 NULL ∈ p :: l2) as Hll by (right; by apply last_elem).
      destruct l2 as [|x l2]; [done|]. rewrite Hpd, (proj2 (Z.eqb_neq _ NULL)) by by apply Hnn. apply wp_assert; [done|]. rewrite (proj2 (Z.eqb_neq _ p)), Z.eqb_refl by done. cbn [hd0] in Hnd. rewrite Hnd, (proj2 (Z.eqb_neq x NULL)) by (apply Hnn; right; left). wp_simpl. apply wp_assert; [done|]. wp_simpl.
      apply upd_elem_wp; [apply Hsome; right; left|]. wp_simpl. split; [done|]. eexists. split; [reflexivity|]. exact Hgo.
  - rewrite List.last_last in Hpd. assert (b <> p) as Hbp by (intros ->; apply (Hdis p); [set_solver|left]). assert (p <> hd0 NULL ((l1 ++ [b]) ++ p :: l2)) as Hph by (intros Heq; apply (Hdis p); [rewrite Heq; destruct l1; left|left]).
    assert (b ∈ (l1 ++ [b]) ++ p :: l2) as Hb by set_solver. assert (hd0 NULL ((l1 ++ [b]) ++ p :: l2) = hd0 NULL ((l1 ++ [b]) ++ l2)) as Hhd by (by destruct l1).
    rewrite Hpd, (proj2 (Z.eqb_neq b NULL)), (proj2 (Z.eqb_neq b p)), (proj2 (Z.eqb_neq p _)) by auto. apply wp_assert; [done|]. wp_simpl. apply upd_elem_wp; [by apply Hsome|]. wp_simpl. rewrite Hnd. destruct l2 as [|x l2]; cbn [hd0].
    + cbn [Z.eqb NULL negb]. apply upd_elem_wp; [cbn; apply lookup_alter_is_Some; by apply Hsome|]. wp_simpl. split; [done|]. eexists. split; [reflexivity|]. revert Hgo. unfold unlinked. rewrite List.last_last. by destruct l1.
    + rewrite (proj2 (Z.eqb_neq x NULL)) by (apply Hnn; set_solver). cbn [negb]. apply upd_elem_wp; [cbn; apply lookup_alter_is_Some, Hsome; set_solver|]. wp_simpl. split; [done|]. eexists. split; [reflexivity|]. revert Hgo. unfold unlinked. rewrite List.last_last. by destruct l1.
Qed.

Lemma cells_free X P n cs p : cells (p :: X) P n cs -> cells X (delete p P) n cs.
Proof.
  intros Hc. pose proof (ce_nodup _ _ _ _ Hc) as Hnd. cbn in Hnd. apply NoDup_cons in Hnd as [Hp Hnd]. assert (forall x, x ∈ ats cs -> delete p P !! x = P !! x) as Hother by (intros x Hx; apply lookup_delete_ne; intros ->; apply Hp, elem_of_app; by right). split.
  - eapply dll_ext; [|apply (ce_links _ _ _ _ Hc)]. intros x Hx. by rewrite Hother.
  - intros c Hin. rewrite Hother by by apply list_elem_of_fmap_2. by apply (ce_elem _ _ _ _ Hc).
  - done.
  - intros x. destruct (decide (x = p)) as [->|Hne]; [rewrite lookup_delete_eq; split; [by intros [? ?]|done]|]. rewrite lookup_delete_ne by done. rewrite (ce_dom _ _ _ _ Hc x). cbn. rewrite elem_of_cons. tauto.
  - intros x Hx. apply (ce_bound _ _ _ _ Hc). by right.
Qed.

Lemma cells_alloc X P n cs e n' : cells X P n cs -> 0 <= n -> n < n' -> cells (n' :: X) (<[n' := e]> P) n' cs.
Proof.
  intros Hc Hn Hlt. assert (n' ∉ X ++ ats cs) as Hf by (intros Hin; destruct (ce_bound _ _ _ _ Hc _ Hin); lia). assert (forall x, x ∈ ats cs -> <[n' := e]> P !! x = P !! x) as Hother by (intros x Hx; apply lookup_insert_ne; intros <-; apply Hf, elem_of_app; by right). split.
  - eapply dll_ext; [|apply (ce_links _ _ _ _ Hc)]. intros x Hx. by rewrite Hother.
  - intros c Hin. rewrite Hother by by apply list_elem_of_fmap_2. by apply (ce_elem _ _ _ _ Hc).
  - cbn. apply NoDup_cons. split; [done|apply Hc].
  - intros x. cbn. rewrite elem_of_cons. destruct (decide (x = n')) as [->|Hne]; [rewrite lookup_insert_eq; split; [by left|by eexists]|]. rewrite lookup_insert_ne by done. rewrite (ce_dom _ _ _ _ Hc x). tauto.
  - intros x [->|Hx]%elem_of_cons; [lia|]. destruct (ce_bound _ _ _ _ Hc x Hx). lia.
Qed.

Lemma cells_mallocs X P n cs n' : cells X P n cs -> n <= n' -> cells X P n' cs.
Proof. intros [H1 H2 H3 H4 H5] Hle. split; try done. intros p Hp. specialize (H5 p Hp). lia. Qed.

(** The head of one set changes. *)
Lemma cells_set X P n cs1 c cs2 h ts kv :
  cells X P n (cs1 ++ c :: cs2) -> cells X (alter (set_addr_set h) (at_ c) P) n (cs1 ++ mk_cell (at_ c) (cep c) h ts kv :: cs2).
Proof.
  intros Hc. pose proof (ce_nodup _ _ _ _ Hc) as Hnd. rewrite ats_mid in Hnd. assert (ats (cs1 ++ mk_cell (at_ c) (cep c) h ts kv :: cs2) = ats (cs1 ++ c :: cs2)) as Ea by (by rewrite !ats_mid). apply NoDup_app in Hnd as (_ & _ & (_ & Hd & [Hc2 _]%NoDup_cons)%NoDup_app). split.
  - rewrite Ea. eapply dll_ext; [|apply (ce_links _ _ _ _ Hc)]. intros x Hx. destruct (decide (x = at_ c)) as [->|Hne]; [|by rewrite lookup_alter_ne]. rewrite lookup_alter_eq. by destruct (P !! at_ c).
  - intros d Hd'. assert (d = mk_cell (at_ c) (cep c) h ts kv \/ d ∈ cs1 ++ c :: cs2 /\ at_ d <> at_ c) as [->|[Hin Hne]].
    { apply elem_of_app in Hd' as [Hin|[->|Hin]%elem_of_cons]; [right|by left|right]; (split; [set_solver|]); intros He; pose proof (list_elem_of_fmap_2 at_ _ _ Hin) as Hx; rewrite He in Hx; [apply (Hd _ Hx); left|done]. }
    + cbn. rewrite lookup_alter_eq. pose proof (ce_elem _ _ _ _ Hc c ltac:(set_solver)) as He. destruct (P !! at_ c) as [e|]; [|done]. cbn in *. by injection He as <- _.
    + rewrite lookup_alter_ne by done. by apply (ce_elem _ _ _ _ Hc).
  - rewrite Ea. apply Hc.
  - intros x. rewrite Ea, lookup_alter_is_Some. apply Hc.
  - intros x. rewrite Ea. apply Hc.
Qed.
(** ** The functions *)

(** The list of sets of EpAddrList.v that the heap holds. *)
Definition abs (c : cell) : EpAddrList.ep_pair_list_elem (gset (list Z)) := EpAddrList.mk_pair (cep c) (list_to_set (ckv c).*2).

(** The heap holds the elements [cs]; [b]: the lock is held. *)
Definition inv (max : Z) (b : bool) (cs : list cell) (w : heap) : Prop :=
  tables [] (hm w) cs /\ cells [] (elems w) (mallocs (hm w)) cs /\ obj w = Some (mk_list (hd0 NULL (ats cs)) max b).

Lemma rep_head m h ts kv : rep m h ts kv -> h = hd0 NULL kv.*1.
Proof. destruct kv as [|[a k] kv]; [by intros [-> _]|by intros [-> _]]. Qed.

Lemma rep_next m h ts a k kv : rep m h ts ((a, k) :: kv) -> exists hh, hhs m !! a = Some hh /\ Uthash.next hh = hd0 NULL kv.*1.
Proof. intros (_ & t & T & _ & _ & Hok). destruct (to_app _ _ _ _ _ Hok) as [(hh & ? & _ & ?) _]. by exists hh. Qed.

Lemma cells_at X P n cs1 c cs2 :
  cells X P n (cs1 ++ c :: cs2) -> exists x, P !! at_ c = Some x /\ ep x = cep c /\ addr_set x = cset c /\ next x = hd0 NULL (ats cs2).
Proof.
  intros Hc. pose proof (ce_links _ _ _ _ Hc) as Hl. rewrite ats_mid in Hl. apply dll_app in Hl as [_ [(x & Hx & _ & Hn) _]]. exists x. pose proof (ce_elem _ _ _ _ Hc c ltac:(set_solver)) as He. rewrite Hx in He. injection He as H1 H2. done.
Qed.

Lemma cells_fuel X P n cs : cells X P n cs -> (length cs <= base.size P)%nat.
Proof. intros Hc. pose proof (ce_nodup _ _ _ _ Hc) as (_ & _ & Hn)%NoDup_app. rewrite <- (length_fmap at_). apply nodup_size; [done|]. intros p Hp. apply (ce_dom _ _ _ _ Hc), elem_of_app. by right. Qed.

Lemma clear_wp X Y p e kv : forall fuel w cs1 h ts cs2,
  (length kv <= fuel)%nat -> tables X (hm w) (cs1 ++ mk_cell p e h ts kv :: cs2) -> cells Y (elems w) (mallocs (hm w)) (cs1 ++ mk_cell p e h ts kv :: cs2) ->
  wp (clear_loop fuel p h) (fun _ w' => obj w' = obj w /\ tables X (hm w') (cs1 ++ mk_cell p e NULL [] [] :: cs2) /\ cells Y (elems w') (mallocs (hm w')) (cs1 ++ mk_cell p e NULL [] [] :: cs2)) w.
Proof.
  induction kv as [|[a k] kv IH]; intros fuel w cs1 h ts cs2 Hf Htb Hc.
  { destruct (tb_rep _ _ _ Htb (mk_cell p e h ts []) ltac:(set_solver)) as [Hr _]. cbn in Hr. destruct Hr as [-> ->]. destruct fuel; cbn; by wp_simpl. }
  destruct fuel as [|fuel]; [cbn in Hf; lia|]. destruct (tb_rep _ _ _ Htb (mk_cell p e h ts ((a, k) :: kv)) ltac:(set_solver)) as [Hr _]. destruct (rep_next _ _ _ _ _ _ Hr) as (hh & Hhh & Hnx). destruct (tables_del _ _ _ _ _ _ _ _ _ _ _ Htb) as [-> Hdel].
  destruct (cells_at _ _ _ _ _ _ Hc) as (x & Hx & _ & Hxs & _). cbn [at_ cset] in Hx, Hxs. assert (a <> NULL) as Ha0 by (destruct (tb_bound _ _ _ Htb a); [apply elem_of_app; right; rewrite addrs_mid; set_solver|unfold NULL; lia]).
  cbn [clear_loop]. rewrite (proj2 (Z.eqb_neq a NULL)) by done. wp_simpl. apply hash_wp. eapply get_hh_wp; [exact Hhh|]. rewrite Hnx. wp_simpl. eapply get_elem_wp; [exact Hx|]. rewrite Hxs. wp_simpl. apply hash_wp. eapply wp_mono; [exact Hdel|].
  intros h' m' (Hmal & ts' & Htb'). wp_simpl. apply upd_elem_wp; [by eexists|]. wp_simpl. unfold free_addr. apply hash_wp. wp_simpl. destruct (proj2 (tb_hhs _ _ _ Htb' a)) as [hh' Hhh']; [left|]. eapply get_hh_wp; [exact Hhh'|]. wp_simpl. cbn [hm w_hm w_elems].
  assert (h' = hd0 NULL kv.*1) as Hh' by (destruct (tb_rep _ _ _ Htb' (mk_cell p e h' ts' kv) ltac:(set_solver)) as [Hr' _]; by apply rep_head in Hr'). rewrite <- Hh'.
  eapply wp_mono; [apply (IH fuel _ cs1 h' ts' cs2); [cbn in Hf; lia| |]|]; cbn [hm elems w_hm w_elems mallocs w_hhs].
  - by apply (tables_free X m' _ a).
  - eapply cells_mallocs; [|exact Hmal]. by apply (cells_set Y (elems w) _ cs1 (mk_cell p e a ts ((a, k) :: kv)) cs2).
  - done.
Qed.

Lemma entry_wp max b cs1 c cs2 w : inv max b (cs1 ++ c :: cs2) w -> wp (delete_ep_list_entry (at_ c)) (fun _ => inv max b (cs1 ++ cs2)) w.
Proof.
  intros (Htb & Hc & Ho). destruct c as [p e h ts kv]. destruct (cells_at _ _ _ _ _ _ Hc) as (x & Hx & _ & Hxs & _). cbn [at_ cset] in *. unfold delete_ep_list_entry. wp_simpl. eapply get_elem_wp; [exact Hx|]. wp_simpl. rewrite Hxs.
  eapply wp_mono; [apply (clear_wp [] [] p e kv _ w cs1 h ts cs2); [|done|done]|].
  { rewrite <- (length_fmap fst). apply nodup_size; [|intros a Ha; apply (tb_hhs _ _ _ Htb); rewrite addrs_mid; set_solver]. pose proof (tb_addrs _ _ _ Htb) as Hn. cbn [Datatypes.app] in Hn. rewrite addrs_mid, Permutation_app_swap_app in Hn. by apply NoDup_app in Hn as [Hn _]. }
  intros _ w1 (Ho1 & Htb1 & Hc1). rewrite Ho in Ho1. wp_simpl. eapply get_obj_wp; [exact Ho1|]. wp_simpl. cbn [ep_pair_list]. assert (ats (cs1 ++ mk_cell p e h ts kv :: cs2) = ats (cs1 ++ mk_cell p e NULL [] [] :: cs2)) as -> by (by rewrite !ats_mid).
  eapply wp_mono; [apply (delete_wp [] w1 _ cs1 (mk_cell p e NULL [] []) cs2 Hc1)|]. intros h' w2 (-> & P & -> & Hc2). wp_simpl. eapply set_head_wp; [exact Ho1|]. wp_simpl. unfold free_elem. wp_simpl.
  destruct (proj2 (ce_dom _ _ _ _ Hc2 p)) as [y Hy]; [left|]. eapply get_elem_wp; [exact Hy|]. wp_simpl. split_and!; cbn; [by apply (tables_empty [] _ cs1 p e cs2)|by apply cells_free|done].
Qed.

Lemma delete_loop_wp max b e cs2 : forall fuel cs1 w, (length cs2 <= fuel)%nat -> inv max b (cs1 ++ cs2) w ->
  wp (delete_loop fuel (hd0 NULL (ats cs2)) e) (fun r w' =>
    match EpAddrList.delete_loop e (abs <$> cs2) with
    | None => r = - ENOENT /\ w' = w
    | Some l => r = 0 /\ exists cs2', abs <$> cs2' = l /\ inv max b (cs1 ++ cs2') w'
    end) w.
Proof.
  induction cs2 as [|c cs2 IH]; intros fuel cs1 w Hf Hinv; [destruct fuel; cbn; by wp_simpl|]. destruct fuel as [|fuel]; [cbn in Hf; lia|]. pose proof Hinv as (Htb & Hc & Ho). destruct (cells_at _ _ _ _ _ _ Hc) as (x & Hx & Hxe & _ & Hxn).
  cbn [delete_loop ats fmap list_fmap hd0]. rewrite (proj2 (Z.eqb_neq (at_ c) NULL)) by (intros H0; apply (cells_null _ _ _ _ Hc); rewrite <- H0, ats_mid; set_solver). wp_simpl. eapply get_elem_wp; [exact Hx|]. rewrite Hxe. cbn [EpAddrList.delete_loop abs EpAddrList.ep].
  destruct (cep c =? e).
  - wp_simpl. eapply wp_mono; [by apply (entry_wp max b cs1 c cs2)|]. intros [] w' Hw'. wp_simpl. split; [done|]. by exists cs2.
  - rewrite Hxn. rewrite (cons_middle c cs1 cs2), (assoc_L (++)) in Hinv. eapply wp_mono; [apply (IH fuel (cs1 ++ [c])); [cbn in Hf; lia|done]|]. cbn beta. intros r w'. destruct (EpAddrList.delete_loop e (abs <$> cs2)) as [l|]; [|done]. cbn.
    intros (-> & cs2' & <- & Hw'). split; [done|]. exists (c :: cs2'). split; [done|]. by rewrite <- (assoc_L (++)) in Hw'.
Qed.

Lemma fini_loop_wp max b cs : forall fuel w, (length cs <= fuel)%nat -> inv max b cs w -> wp (fini_loop fuel (hd0 NULL (ats cs))) (fun _ => inv max b []) w.
Proof.
  induction cs as [|c cs IH]; intros fuel w Hf Hinv; [destruct fuel; cbn; by wp_simpl|]. destruct fuel as [|fuel]; [cbn in Hf; lia|]. pose proof Hinv as (Htb & Hc & Ho). destruct (cells_at _ _ _ [] _ _ Hc) as (x & Hx & _ & _ & Hxn).
  cbn [fini_loop ats fmap list_fmap hd0]. rewrite (proj2 (Z.eqb_neq (at_ c) NULL)) by (intros H0; apply (cells_null _ _ _ _ Hc); rewrite <- H0; set_solver). wp_simpl. eapply get_elem_wp; [exact Hx|]. rewrite Hxn. wp_simpl.
  eapply wp_mono; [by apply (entry_wp max b [] c cs)|]. intros [] w' Hw'. apply IH; [cbn in Hf; lia|done].
Qed.

(** An empty list holds nothing. *)
Lemma inv_empty max b w : inv max b [] w -> hhs (hm w) = ∅ /\ tbls (hm w) = ∅ /\ elems w = ∅.
Proof.
  intros (Htb & Hc & _). split_and!; apply map_eq; intros i; rewrite lookup_empty; apply eq_None_not_Some; intros Hs.
  - apply (tb_hhs _ _ _ Htb) in Hs. by apply elem_of_nil in Hs.
  - apply (tb_tbls _ _ _ Htb) in Hs. by apply elem_of_nil in Hs.
  - apply (ce_dom _ _ _ _ Hc) in Hs. by apply elem_of_nil in Hs.
Qed.
Lemma cells_extra X P n cs p f : cells (p :: X) P n cs -> cells (p :: X) (alter f p P) n cs.
Proof.
  intros Hc. pose proof (ce_nodup _ _ _ _ Hc) as Hnd. cbn in Hnd. apply NoDup_cons in Hnd as [Hp _]. assert (forall x, x ∈ ats cs -> alter f p P !! x = P !! x) as Hother by (intros x Hx; apply lookup_alter_ne; intros ->; apply Hp, elem_of_app; by right). split; [| |apply (ce_nodup _ _ _ _ Hc)| |apply (ce_bound _ _ _ _ Hc)].
  - eapply dll_ext; [|apply (ce_links _ _ _ _ Hc)]. intros x Hx. by rewrite Hother.
  - intros c Hin. rewrite Hother by by apply list_elem_of_fmap_2. by apply (ce_elem _ _ _ _ Hc).
  - intros x. rewrite lookup_alter_is_Some. apply (ce_dom _ _ _ _ Hc).
Qed.

Lemma length_padded (addr : list Z) max : Z.of_nat (length addr) <= max -> Z.of_nat (length (EpAddrList.zero_pad_address addr max)) = max.
Proof. intros Hle. unfold EpAddrList.zero_pad_address. rewrite length_app, length_replicate. lia. Qed.

Abbreviation alist := (EpAddrList.nccl_ofi_ep_addr_list (gset (list Z))).
Definition alist_of (max : Z) (cs : list cell) : alist := EpAddrList.mk_list (abs <$> cs) max.

(** An allocation of [sz] bytes fails at some point. *)
Definition oom `{HashEnv} (sz : Z) : Prop := exists n, malloc_ok n sz = false.

Section Refinement.
Context {E : HashEnv} {MB : MallocBounded} (junk : UT_hash_handle) (junk_elem : ep_pair_list_elem_t).

Lemma malloc_addr_wp X Y cs max w :
  tables X (hm w) cs -> cells Y (elems w) (mallocs (hm w)) cs ->
  wp (malloc_addr junk max) (fun r w' => obj w' = obj w /\ elems w' = elems w /\ cells Y (elems w') (mallocs (hm w')) cs /\
    match r with Some a => tables (a :: X) (hm w') cs | None => oom (sizeof_hashed_addr_t + max) /\ tables X (hm w') cs end) w.
Proof.
  intros Htb Hc. unfold malloc_addr. wp_simpl. apply hash_wp. unfold uthash_malloc. wp_simpl. cbn. destruct (malloc_ok _ _) eqn:Hok; wp_simpl; [apply hash_wp; wp_simpl|]; cbn; (split; [done|]; split; [done|]; split; [eapply cells_mallocs; [done|lia]|]).
  - by apply (tables_alloc X (hm w) cs junk).
  - split; [by eexists|]. apply tables_mallocs; [done|lia].
Qed.

Lemma malloc_elem_wp X Y cs w :
  tables X (hm w) cs -> cells Y (elems w) (mallocs (hm w)) cs ->
  wp (malloc_elem junk_elem) (fun r w' => obj w' = obj w /\ tables X (hm w') cs /\
    match r with Some p => elems w' !! p = Some junk_elem /\ cells (p :: Y) (elems w') (mallocs (hm w')) cs | None => oom sizeof_elem /\ cells Y (elems w') (mallocs (hm w')) cs end) w.
Proof.
  intros Htb Hc. pose proof (tb_mallocs _ _ _ Htb). unfold malloc_elem. wp_simpl. apply hash_wp. unfold uthash_malloc. wp_simpl. cbn. destruct (malloc_ok _ _) eqn:Hok; wp_simpl; cbn; (split; [done|]; split; [apply tables_mallocs; [done|lia]|]).
  - split; [apply lookup_insert_eq|]. apply (cells_alloc _ _ (mallocs (hm w))); [done|lia|lia].
  - split; [by eexists|]. eapply cells_mallocs; [done|lia].
Qed.

Lemma get_loop_wp max k cs2 : Z.of_nat (length k) < 2 ^ 32 -> forall fuel cs1 w, (length cs2 <= fuel)%nat -> inv max true (cs1 ++ cs2) w ->
  wp (get_loop junk fuel (hd0 NULL (ats cs2)) k max) (fun r w' =>
    match r with
    | None => exists n sz, malloc_ok n sz = false
    | Some (rc, e) => exists b cs2', (b = false -> oom (sizeof_hashed_addr_t + max)) /\ inv max true (cs1 ++ cs2') w' /\ ats cs2' = ats cs2 /\
        match EpAddrList.get_loop b k (abs <$> cs2) with
        | None => rc = 0 /\ e = NULL /\ cs2' = cs2
        | Some (rc', e', l) => rc = rc' /\ e = e' /\ abs <$> cs2' = l
        end
    end) w.
Proof using MB.
  intros Hk. induction cs2 as [|c cs2 IH]; intros fuel cs1 w Hf Hinv; [destruct fuel; cbn; wp_simpl; by exists true, []|]. destruct fuel as [|fuel]; [cbn in Hf; lia|]. pose proof Hinv as (Htb & Hc & Ho). destruct (cells_at _ _ _ _ _ _ Hc) as (x & Hx & Hxe & Hxs & Hxn).
  cbn [get_loop ats fmap list_fmap hd0]. rewrite (proj2 (Z.eqb_neq (at_ c) NULL)) by (intros H0; apply (cells_null _ _ _ _ Hc); rewrite <- H0, ats_mid; set_solver). wp_simpl. eapply get_elem_wp; [exact Hx|]. rewrite Hxe, Hxs, Hxn. wp_simpl. apply hash_wp.
  eapply wp_mono; [apply (tables_find [] (hm w) _ c k Htb); [set_solver|done]|]. intros r m [-> Hr]. assert (w_hm (hm w) w = w) as -> by (by destruct w). cbn [EpAddrList.get_loop abs EpAddrList.addr_set EpAddrList.ep EpAddrList.hash_find EpAddrList.gset_addrset].
  destruct (Z.eqb_spec r NULL) as [Hn|Hn]; cbn [negb].
  - apply Hr in Hn as Hnk. rewrite bool_decide_false by (by rewrite elem_of_list_to_set). wp_simpl. eapply wp_mono; [by apply (malloc_addr_wp [] [] (cs1 ++ c :: cs2))|]. intros [a|] w1 (Ho1 & He1 & Hc1 & Hm1); wp_simpl.
    + apply hash_wp. eapply wp_mono; [by apply (tables_add [] _ cs1 c cs2 a k)|]. intros [[] set] m2; cbn [fst snd negb]; wp_simpl; [|done]. intros (Hmal & ts & Htb2). wp_simpl. apply upd_elem_wp; [cbn; rewrite He1; by eexists|]. wp_simpl.
      exists true, (mk_cell (at_ c) (cep c) set ts (ckv c ++ [(a, k)]) :: cs2). split_and!; [done| |done|cbn; split_and!; [done|done|]].
      * split_and!; cbn; [done| |rewrite Ho1, Ho; by rewrite !ats_mid]. eapply cells_mallocs; [|exact Hmal]. by apply cells_set.
      * f_equal. unfold abs. f_equal. cbn. rewrite fmap_app, list_to_set_app_L. cbn. set_solver.
    + exists false, (c :: cs2). destruct Hm1 as [Hoom Htb1]. split; [done|]. split; [|by split]. split_and!; [done|done|by rewrite Ho1].
  - rewrite bool_decide_true by (rewrite elem_of_list_to_set; destruct (decide (k ∈ (ckv c).*2)); [done|tauto]). rewrite (cons_middle c cs1 cs2), (assoc_L (++)) in Hinv.
    eapply wp_mono; [apply (IH fuel (cs1 ++ [c])); [cbn in Hf; lia|done]|]. intros [[rc e]|] w'; [|done]. intros (b & cs2' & Hb & Hw' & Ha & Hres). exists b, (c :: cs2'). split_and!; [done|by rewrite <- (assoc_L (++)) in Hw'|exact (f_equal (cons (at_ c)) Ha)|].
    destruct (EpAddrList.get_loop b k (abs <$> cs2)) as [[[rc' e'] l]|]; cbn.
    + destruct Hres as (-> & -> & <-). done.
    + by destruct Hres as (-> & -> & ->).
Qed.

Lemma get_wp max cs a w : max < 2 ^ 32 -> inv max false cs w ->
  wp (nccl_ofi_ep_addr_list_get junk a) (fun r w' =>
    match r with
    | None => exists n sz, malloc_ok n sz = false
    | Some (rc, e) => exists b cs', (b = false -> oom (sizeof_hashed_addr_t + max)) /\ inv max false cs' w' /\ EpAddrList.nccl_ofi_ep_addr_list_get b (alist_of max cs) a = (rc, e, alist_of max cs')
    end) w.
Proof using MB.
  intros Hmax Hinv. pose proof Hinv as (Htb & Hc & Ho). unfold nccl_ofi_ep_addr_list_get, EpAddrList.nccl_ofi_ep_addr_list_get. cbn [EpAddrList.max_addr_size EpAddrList.ep_pair_list alist_of]. wp_simpl. eapply get_obj_wp; [exact Ho|]. cbn [max_addr_size ep_pair_list].
  destruct (Z.gtb_spec (Z.of_nat (length a)) max) as [Hgt|Hle]; [wp_simpl; by exists true, cs|]. wp_simpl. eapply (list_lock_wp false); [exact Ho|]. unfold padded. wp_simpl. apply wp_assert; [lia|]. wp_simpl. cbn [negb].
  eapply wp_mono; [apply (get_loop_wp max (EpAddrList.zero_pad_address a max) cs ltac:(rewrite length_padded; lia) _ []); [by eapply cells_fuel|]|]; [by split_and!|]. intros [[rc e]|] w1; wp_simpl; [|done]. intros (b & cs' & Hb & (Htb1 & Hc1 & Ho1) & Ha & Hres). wp_simpl.
  eapply (list_lock_wp true); [exact Ho1|]. wp_simpl. exists b, cs'. split_and!; [done|by split_and!|]. destruct (EpAddrList.get_loop b _ (abs <$> cs)) as [[[rc' e'] l]|]; [by destruct Hres as (-> & -> & <-)|by destruct Hres as (-> & -> & ->)].
Qed.

Lemma insert_wp max cs e a w : inv max false cs w ->
  wp (nccl_ofi_ep_addr_list_insert junk junk_elem e a) (fun r w' =>
    match r with
    | None => exists n sz, malloc_ok n sz = false
    | Some rc => exists b1 b2 cs', (b1 = false -> oom (sizeof_hashed_addr_t + max)) /\ (b2 = false -> oom sizeof_elem) /\ inv max false cs' w' /\
        EpAddrList.nccl_ofi_ep_addr_list_insert b1 b2 (alist_of max cs) e a = (rc, alist_of max cs')
    end) w.
Proof using MB.
  intros Hinv. pose proof Hinv as (Htb & Hc & Ho). unfold nccl_ofi_ep_addr_list_insert, EpAddrList.nccl_ofi_ep_addr_list_insert. cbn [EpAddrList.max_addr_size EpAddrList.ep_pair_list alist_of]. wp_simpl. eapply get_obj_wp; [exact Ho|]. cbn [max_addr_size ep_pair_list].
  destruct (Z.gtb_spec (Z.of_nat (length a)) max) as [Hgt|Hle]; [wp_simpl; by exists true, true, cs|]. wp_simpl. eapply (list_lock_wp false); [exact Ho|]. wp_simpl. cbn [negb]. eapply wp_mono; [by apply (malloc_addr_wp [] [] cs)|]. intros [na|] w1 (Ho1 & He1 & Hc1 & Hm1); wp_simpl; cbn [obj w_obj] in Ho1.
  2:{ destruct Hm1 as [Hoom Htb1]. eapply (list_lock_wp true); [exact Ho1|]. wp_simpl. exists false, true, cs. by split_and!. }
  unfold padded. wp_simpl. apply wp_assert; [lia|]. wp_simpl. eapply wp_mono; [by apply (malloc_elem_wp [na] [] cs)|]. intros [p|] w2 (Ho2 & Htb2 & Hm2); wp_simpl; rewrite Ho1 in Ho2.
  2:{ destruct Hm2 as [Hoom Hc2]. unfold free_addr. apply hash_wp. wp_simpl. destruct (proj2 (tb_hhs _ _ _ Htb2 na)) as [hh Hhh]; [left|]. eapply get_hh_wp; [exact Hhh|]. wp_simpl. eapply (list_lock_wp true); [exact Ho2|]. wp_simpl. exists true, false, cs. split_and!; try done. split_and!; cbn; [by apply tables_free|done|done]. }
  destruct Hm2 as [Hp Hc2]. apply upd_elem_wp; [by eexists|]. wp_simpl. apply hash_wp. set (k := EpAddrList.zero_pad_address a max). set (c0 := mk_cell p e NULL [] []).
  eapply wp_mono; [apply (tables_add [] _ cs c0 [] na k); [|apply not_elem_of_nil]; apply tables_empty; by rewrite app_nil_r|]. intros [[] set] m3; cbn [fst snd negb]; wp_simpl; [|done]. intros (Hmal & ts & Htb3). cbn [hm w_elems w_hm] in *.
  wp_simpl. apply upd_elem_wp; [cbn; apply lookup_alter_is_Some; by eexists|]. wp_simpl. set (c := mk_cell p e set ts [(na, k)]).
  eapply wp_mono; [apply (elem_append_wp [] _ (mallocs m3) cs c)|]; cbn [elems w_elems w_hm at_ c].
  - do 2 apply cells_extra. eapply cells_mallocs; [exact Hc2|exact Hmal].
  - by rewrite !lookup_alter_eq, Hp.
  - intros h w4 (-> & P & -> & Hc4). wp_simpl. eapply set_head_wp; [exact Ho2|]. wp_simpl. eapply (list_lock_wp true); [reflexivity|]. wp_simpl. exists true, true, (cs ++ [c]). split_and!; [done|done|by split_and!|].
    cbn [negb]. unfold alist_of. rewrite fmap_app. cbn. unfold abs at 2. cbn. done.
Qed.

Lemma delete_ep_wp max cs e w : inv max false cs w ->
  wp (nccl_ofi_ep_addr_list_delete e) (fun rc w' => exists cs', inv max false cs' w' /\ EpAddrList.nccl_ofi_ep_addr_list_delete (alist_of max cs) e = (rc, alist_of max cs')) w.
Proof using.
  intros Hinv. pose proof Hinv as (Htb & Hc & Ho). unfold nccl_ofi_ep_addr_list_delete, EpAddrList.nccl_ofi_ep_addr_list_delete. cbn [EpAddrList.max_addr_size EpAddrList.ep_pair_list alist_of]. wp_simpl. eapply (list_lock_wp false); [exact Ho|]. wp_simpl. eapply get_obj_wp; [reflexivity|]. wp_simpl. cbn [ep_pair_list negb].
  eapply wp_mono; [apply (delete_loop_wp max true e cs _ []); [by eapply cells_fuel|]|]; [by split_and!|]. intros rc w1 Hres. wp_simpl. destruct (EpAddrList.delete_loop e (abs <$> cs)) as [l|].
  - destruct Hres as (-> & cs' & <- & (Htb1 & Hc1 & Ho1)). eapply (list_lock_wp true); [exact Ho1|]. wp_simpl. exists cs'. by split_and!.
  - destruct Hres as [-> ->]. eapply (list_lock_wp true); [reflexivity|]. wp_simpl. exists cs. by split_and!.
Qed.

End Refinement.
(** ** A list from its creation to its end *)

Inductive list_op := Get (a : list Z) | Insert (e : Z) (a : list Z) | Delete (e : Z).

(** The specification: EpAddrList.v, told which allocations succeed. *)
Definition spec_op (b1 b2 : bool) (l : alist) (o : list_op) : (Z * option Z) * alist :=
  match o with
  | Get a => EpAddrList.nccl_ofi_ep_addr_list_get b1 l a
  | Insert e a => let '(rc, l') := EpAddrList.nccl_ofi_ep_addr_list_insert b1 b2 l e a in ((rc, None), l')
  | Delete e => let '(rc, l') := EpAddrList.nccl_ofi_ep_addr_list_delete l e in ((rc, None), l')
  end.

Fixpoint spec_run (bs : list (bool * bool)) (l : alist) (ops : list list_op) : list (Z * option Z) :=
  match ops, bs with
  | o :: ops', (b1, b2) :: bs' => let '(r, l') := spec_op b1 b2 l o in r :: spec_run bs' l' ops'
  | _, _ => []
  end.

Definition op_run `{HashEnv} junk junk_elem (o : list_op) : L (option (Z * option Z)) :=
  match o with
  | Get a => nccl_ofi_ep_addr_list_get junk a
  | Insert e a => let* r := nccl_ofi_ep_addr_list_insert junk junk_elem e a in ret ((fun rc => (rc, None)) <$> r)
  | Delete e => let* rc := nccl_ofi_ep_addr_list_delete e in ret (Some (rc, None))
  end.

Fixpoint list_run `{HashEnv} junk junk_elem (ops : list list_op) : L (option (list (Z * option Z))) :=
  match ops with
  | [] => ret (Some [])
  | o :: ops' =>
      let* r := op_run junk junk_elem o in
      match r with
      | None => ret None
      | Some r => let* rs := list_run junk junk_elem ops' in ret (cons r <$> rs)
      end
  end.

(** [None]: the list could not be created, or uthash ended the process. *)
Definition session `{HashEnv} junk junk_elem (max : Z) (ops : list list_op) : L (option (list (Z * option Z))) :=
  let* ok := nccl_ofi_ep_addr_list_init 0 max in
  if negb ok then ret None
  else
    let* rs := list_run junk junk_elem ops in
    match rs with
    | None => ret None
    | Some rs => nccl_ofi_ep_addr_list_fini ;;; ret (Some rs)
    end.

Definition empty_heap (n : Z) : heap := mk_heap (mk_mem ∅ ∅ n) ∅ None.

Section Session.
Context {E : HashEnv} {MB : MallocBounded} (junk : UT_hash_handle) (junk_elem : ep_pair_list_elem_t).

Lemma op_wp max cs o w : max < 2 ^ 32 -> inv max false cs w ->
  wp (op_run junk junk_elem o) (fun r w' =>
    match r with
    | None => exists n sz, malloc_ok n sz = false
    | Some r => exists b1 b2 cs', (b1 = false -> oom (sizeof_hashed_addr_t + max)) /\ (b2 = false -> oom sizeof_elem) /\ inv max false cs' w' /\ spec_op b1 b2 (alist_of max cs) o = (r, alist_of max cs')
    end) w.
Proof using MB.
  intros Hmax Hinv. destruct o as [a|e a|e]; cbn [op_run spec_op].
  - eapply wp_mono; [by apply (get_wp junk max cs)|]. intros [[rc e]|] w'; [|done]. intros (b & cs' & Hb & Hi & He). exists b, true, cs'. by split_and!.
  - wp_simpl. eapply wp_mono; [by apply (insert_wp junk junk_elem max cs)|]. intros [rc|] w'; [|done]. intros (b1 & b2 & cs' & H1 & H2 & Hi & He). wp_simpl. cbn. exists b1, b2, cs'. rewrite He. by split_and!.
  - wp_simpl. eapply wp_mono; [by apply (delete_ep_wp max cs)|]. intros rc w' (cs' & Hi & He). wp_simpl. exists true, true, cs'. rewrite He. by split_and!.
Qed.

Lemma list_run_wp max ops : max < 2 ^ 32 -> forall cs w, inv max false cs w ->
  wp (list_run junk junk_elem ops) (fun r w' =>
    match r with
    | None => exists n sz, malloc_ok n sz = false
    | Some rs => exists cs' bs, inv max false cs' w' /\ length bs = length ops /\ Forall (fun b => (b.1 = false -> oom (sizeof_hashed_addr_t + max)) /\ (b.2 = false -> oom sizeof_elem)) bs /\ rs = spec_run bs (alist_of max cs) ops
    end) w.
Proof using MB.
  intros Hmax. induction ops as [|o ops IH]; intros cs w Hinv; cbn [list_run]; [wp_simpl; by exists cs, []|]. wp_simpl. eapply wp_mono; [by apply (op_wp max cs)|]. intros [r|] w1; [|done]. intros (b1 & b2 & cs1 & H1 & H2 & Hi & Hs). wp_simpl.
  eapply wp_mono; [by apply (IH cs1)|]. intros [rs|] w2; [|done]. intros (cs2 & bs & Hi2 & Hlen & Hbs & ->). wp_simpl. cbn. exists cs2, ((b1, b2) :: bs). split_and!; [done|cbn; by f_equal|by constructor|]. cbn [spec_run]. by rewrite Hs.
Qed.

Lemma fini_wp max cs w : inv max false cs w -> wp nccl_ofi_ep_addr_list_fini (fun _ w' => exists n, w' = empty_heap n) w.
Proof using.
  intros Hinv. pose proof Hinv as (Htb & Hc & Ho). unfold nccl_ofi_ep_addr_list_fini. wp_simpl. eapply get_obj_wp; [exact Ho|]. wp_simpl. eapply wp_mono; [apply (fini_loop_wp max false cs); [by eapply cells_fuel|done]|]. intros [] w1 Hi1. pose proof Hi1 as (_ & _ & Ho1).
  wp_simpl. eapply get_obj_wp; [exact Ho1|]. wp_simpl. apply wp_assert; [done|]. wp_simpl. apply wp_assert; [done|]. wp_simpl. destruct (inv_empty _ _ _ Hi1) as (E1 & E2 & E3). exists (mallocs (hm w1)). destruct w1 as [[X Y n] P o]. cbn in *. by subst.
Qed.

(** C25. A list that is created, used by any sequence of calls and destroyed: every call
    answers as the list of sets does, on which an allocation fails only when one of
    that size fails; the lock is free between calls; at the end no address, no hash
    table, no list element and no list object is left. The session ends early only
    when an allocation fails. *)
Theorem ep_addr_list_leaks_nothing max ops n :
  0 <= n -> max < 2 ^ 32 ->
  exists r w', session junk junk_elem max ops (empty_heap n) = Some (r, w') /\
    match r with
    | None => exists n sz, malloc_ok n sz = false
    | Some rs => (exists n', w' = empty_heap n') /\
        exists bs, length bs = length ops /\ Forall (fun b => (b.1 = false -> oom (sizeof_hashed_addr_t + max)) /\ (b.2 = false -> oom sizeof_elem)) bs /\ rs = spec_run bs (EpAddrList.mk_list [] max) ops
    end.
Proof using MB.
  intros Hn Hmax. apply (wp_run (session junk junk_elem max ops) (fun r w' => match r with None => _ | Some rs => _ end)). unfold session, nccl_ofi_ep_addr_list_init. wp_simpl. apply hash_wp. unfold uthash_malloc. wp_simpl. cbn [mallocs hm empty_heap].
  destruct (malloc_ok n sizeof_list) eqn:Hok; wp_simpl; [|by eexists _, _]. cbn [Z.eqb negb]. wp_simpl. cbn [negb]. wp_simpl. eapply wp_mono; [apply (list_run_wp max ops Hmax [])|].
  { split_and!; [split|split|done]; cbn; try done; try (intros x Hx; by apply elem_of_nil in Hx); try apply NoDup_nil_2; try lia; try (intros x; rewrite lookup_empty); try (intros [? ?]; done).
    all: split; [by intros [? ?]|intros Hx; by apply elem_of_nil in Hx]. }
  intros [rs|] w1; wp_simpl; [|done]. intros (cs & bs & Hi & Hlen & Hbs & ->). wp_simpl. eapply wp_mono; [by apply (fini_wp max cs)|]. intros [] w2 Hw2. wp_simpl. split; [done|]. by exists bs.
Qed.

End Session.

(** Two endpoints, four connections to two addresses, an endpoint deleted. *)
Definition ex_session : list list_op :=
  [Insert 11 [1; 2]; Insert 12 [1; 2; 3]; Get [1; 2]; Get [1; 2]; Get [9]; Get [1; 2; 3; 4; 5]; Delete 11; Delete 11; Get [1; 2; 3]; Get [9]].

Lemma ep_addr_list_leaks_nothing_witness :
  let run := @session UthashMap.ex_env (mk_hh 7 7 7 7 7 [] 7 7) (mk_elem 7 7 7 7) 4 ex_session (empty_heap 0) in
  fst <$> run = Some (Some [(0, None); (0, None); (0, Some 12); (0, Some NULL); (0, Some 11); (- EINVAL, None); (0, None); (- ENOENT, None); (0, Some NULL); (0, Some 12)]) /\
  exists r w', run = Some (r, w').
Proof.
  intros run. split; [vm_compute; reflexivity|].
  destruct (@ep_addr_list_leaks_nothing UthashMap.ex_env UthashMap.ex_bounded (mk_hh 7 7 7 7 7 [] 7 7) (mk_elem 7 7 7 7) 4 ex_session 0) as (r & w' & Hr & _); [lia|lia|]. exists r, w'. exact Hr.
Defined.

End EpAddrMem.
