(* ===== verification/Accel.v ===== *)
(** * nccl_ofi_cuda.c and nccl_ofi_dmabuf.c: what the GPU and the kernel can do

    The CUDA runtime and driver are the class [CudaEnv], the answers of their calls.
    The state is the two driver functions that initialisation resolves and the global
    [cuda_flush]. The theorems: the kernel is accepted from version 5.12 on, however
    its release string ends, and DMA-BUF is used exactly when library, user, driver and
    kernel all allow it, never before initialisation has resolved the driver. *)

From Stdlib Require Import Ascii.
From stdpp Require Import strings pretty.
From S2P Require Import Prelude Strtol.
Import Strtol.

Module Accel.

Open Scope Z_scope.

(** ** CUDA *)

Inductive cudaMemoryType := cudaMemoryTypeUnregistered | cudaMemoryTypeHost | cudaMemoryTypeDevice | cudaMemoryTypeManaged.
Record cudaPointerAttributes := mk_attrs { type : cudaMemoryType; device : Z }.

Definition CU_DEVICE_ATTRIBUTE_GPU_DIRECT_RDMA_SUPPORTED : Z := 116.
Definition CU_DEVICE_ATTRIBUTE_GPU_DIRECT_RDMA_FLUSH_WRITES_OPTIONS : Z := 117.
Definition CU_DEVICE_ATTRIBUTE_DMA_BUF_SUPPORTED : Z := 124.
Definition CU_FLUSH_GPU_DIRECT_RDMA_WRITES_OPTION_HOST : Z := 1.

(** What the build found, and the answers of CUDA: [None] for every result but
    success. [driver_entry f]: cudaGetDriverEntryPoint stores a pointer for [f]. *)
Class CudaEnv := {
  HAVE_CUDA_GDRFLUSH_SUPPORT : bool;
  HAVE_CUDA_DMABUF_SUPPORT : bool;
  cudaDriverGetVersion : option Z;
  cudaRuntimeGetVersion : option Z;
  driver_entry : string -> bool;
  cuCtxGetDevice : option Z;
  cuDeviceGetAttribute : Z -> Z -> option Z;
  cudaDeviceFlushGPUDirectRDMAWrites : bool;
  cudaGetDeviceCount : option Z;
  cudaGetDevice : option Z;
  cudaPointerGetAttributes : Z -> option cudaPointerAttributes;
}.

(** Whether the two function pointers are not NULL, and the global variable. *)
Record cuda_state := mk_cuda { pfn_cuCtxGetDevice : bool; pfn_cuDeviceGetAttribute : bool; cuda_flush : bool }.

Definition cuda_start : cuda_state := mk_cuda false false false.

Section Cuda.
Context {C : CudaEnv}.

(** The attribute of the current device, [None] if it cannot be read. *)
Definition device_attribute (attr : Z) (st : cuda_state) : option Z :=
  if negb (pfn_cuCtxGetDevice st) || negb (pfn_cuDeviceGetAttribute st) then None
  else dev ← cuCtxGetDevice; cuDeviceGetAttribute attr dev.

Definition nccl_net_ofi_cuda_have_gdr_support_attr (st : cuda_state) : bool :=
  if negb HAVE_CUDA_GDRFLUSH_SUPPORT then false
  else if negb (pfn_cuCtxGetDevice st) || negb (pfn_cuDeviceGetAttribute st) then false
  else
    match cuCtxGetDevice with
    | None => false
    | Some dev =>
        match cuDeviceGetAttribute CU_DEVICE_ATTRIBUTE_GPU_DIRECT_RDMA_SUPPORTED dev with
        | None => false
        | Some supported =>
            if supported =? 0 then false
            else
              match cuDeviceGetAttribute CU_DEVICE_ATTRIBUTE_GPU_DIRECT_RDMA_FLUSH_WRITES_OPTIONS dev with
              | None => false
              | Some supported => negb (Z.land supported CU_FLUSH_GPU_DIRECT_RDMA_WRITES_OPTION_HOST =? 0)
              end
        end
    end.

Definition nccl_net_ofi_cuda_have_dma_buf_attr (st : cuda_state) : bool :=
  if negb HAVE_CUDA_DMABUF_SUPPORT then false
  else if negb (pfn_cuCtxGetDevice st) || negb (pfn_cuDeviceGetAttribute st) then false
  else
    match cuCtxGetDevice with
    | None => false
    | Some dev =>
        match cuDeviceGetAttribute CU_DEVICE_ATTRIBUTE_DMA_BUF_SUPPORTED dev with
        | None => false
        | Some supported => negb (supported =? 0)
        end
    end.

(** [flush_enable] is the parameter OFI_NCCL_CUDA_FLUSH_ENABLE. *)
Definition nccl_net_ofi_cuda_init (flush_enable : Z) (st : cuda_state) : Z * cuda_state :=
  match cudaDriverGetVersion with
  | None => (- EINVAL, st)
  | Some _ =>
      match cudaRuntimeGetVersion with
      | None => (- EINVAL, st)
      | Some _ =>
          let st := mk_cuda (driver_entry "cuCtxGetDevice") (driver_entry "cuDeviceGetAttribute") (cuda_flush st) in
          let flush := HAVE_CUDA_GDRFLUSH_SUPPORT && nccl_net_ofi_cuda_have_gdr_support_attr st && negb (flush_enable =? 0) in
          (0, mk_cuda (pfn_cuCtxGetDevice st) (pfn_cuDeviceGetAttribute st) flush)
      end
  end.

Definition EPERM : Z := 1.

Definition nccl_net_ofi_cuda_flush_gpudirect_rdma_writes : Z :=
  if HAVE_CUDA_GDRFLUSH_SUPPORT then (if cudaDeviceFlushGPUDirectRDMAWrites then 0 else - EPERM) else - EPERM.

Definition nccl_net_ofi_cuda_get_num_devices : Z := match cudaGetDeviceCount with Some count => count | None => -1 end.
Definition nccl_net_ofi_cuda_get_active_device_idx : Z := match cudaGetDevice with Some index => index | None => -1 end.

(** The return code and the value stored through [dev_id], [None] when it is not
    written. *)
Definition nccl_net_ofi_get_cuda_device_for_addr (data : Z) : Z * option Z :=
  match cudaPointerGetAttributes data with
  | None => (- EINVAL, None)
  | Some attrs =>
      match type attrs with
      | cudaMemoryTypeManaged | cudaMemoryTypeDevice => (0, Some (device attrs))
      | cudaMemoryTypeUnregistered | cudaMemoryTypeHost => (- EINVAL, Some (-1))
      end
  end.

(** ** The kernel and DMA-BUF *)

(** The conversion %d of sscanf. A number that does not fit an int is undefined. *)
Inductive scan_result := Matched (v : Z) (rest : string) | NoMatch | Overflow.

Definition scan_d (s : string) : scan_result :=
  let s := skip_spaces s in
  let '(neg, s) := match s with
                   | String c s' => if code c =? 45 then (true, s') else if code c =? 43 then (false, s') else (false, s)
                   | EmptyString => (false, s)
                   end in
  match s with
  | String c _ =>
      if negb (is_digit 10 c) then NoMatch
      else
        let '(m, rest) := digits 10 s 0 in
        let v := if neg then - m else m in
        if (- 2 ^ 31 <=? v) && (v <? 2 ^ 31) then Matched v rest else Overflow
  | EmptyString => NoMatch
  end.

(** [release] is the field of struct utsname, [None] when uname fails. *)
Definition kernel_version_rdma_dmabuf_ioctl_ok (release : option string) : option bool :=
  match release with
  | None => Some false
  | Some release =>
      match scan_d release with
      | Overflow => None
      | NoMatch => Some false
      | Matched maj (String c rest) =>
          if negb (code c =? 46) then Some false
          else
            match scan_d rest with
            | Overflow => None
            | NoMatch => Some false
            | Matched min _ => Some ((maj =? 5) && (min >=? 12) || (maj >? 5))
            end
      | Matched _ EmptyString => Some false
      end
  end.

(** [decl]: libfabric declares FI_MR_DMABUF; [disable]: OFI_NCCL_DISABLE_DMABUF. *)
Definition nccl_ofi_dmabuf_viable (decl : bool) (disable : Z) (release : option string) (st : cuda_state) : option bool :=
  if negb decl then Some false
  else if negb (disable =? 0) then Some false
  else if negb (nccl_net_ofi_cuda_have_dma_buf_attr st) then Some false
  else
    match kernel_version_rdma_dmabuf_ioctl_ok release with
    | None => None
    | Some ok => Some ok
    end.

End Cuda.

(** ** Properties *)

(** A printed number is read back by %d, whatever follows it. *)
Lemma scan_pretty (x : N) rest : Z.of_N x < 2 ^ 31 -> no_digit rest -> scan_d (pretty x +:+ rest) = Matched (Z.of_N x) rest.
Proof.
  intros Hx Hr. pose proof (digits_pretty x rest Hr) as Hdig. destruct (pretty_first x rest) as (c & s & Hcs & d & Hd & ->). rewrite Hcs in *. destruct (digit_char d Hd) as (H1 & H2 & H3 & H4).
  unfold scan_d. cbn [skip_spaces]. rewrite H2, (proj2 (Z.eqb_neq _ _) H3), (proj2 (Z.eqb_neq _ _) H4), H1. cbn [negb]. rewrite Hdig. cbn iota. by rewrite (proj2 (andb_true_iff _ _)) by lia.
Qed.

(** A kernel release that starts with its major and minor number, as Linux prints it, is
    accepted exactly when it is 5.12 or later; what follows the minor number does not
    matter. *)
Theorem kernel_version_from_5_12 (maj min : N) rest :
  Z.of_N maj < 2 ^ 31 -> Z.of_N min < 2 ^ 31 -> no_digit rest ->
  kernel_version_rdma_dmabuf_ioctl_ok (Some (pretty maj +:+ "." +:+ pretty min +:+ rest)) = Some (bool_decide (5 < maj \/ maj = 5 /\ 12 <= min)%N).
Proof.
  intros Hmaj Hmin Hr. unfold kernel_version_rdma_dmabuf_ioctl_ok. rewrite scan_pretty by done. change ("." +:+ pretty min +:+ rest)%string with (String "." (pretty min +:+ rest)). cbn iota. change (negb (code "." =? 46)) with false. cbn iota.
  rewrite scan_pretty by done. f_equal. case_bool_decide as Hb.
  - apply orb_true_iff. destruct Hb as [Hb|[Hb1 Hb2]]; [right; lia|left; apply andb_true_iff; lia].
  - apply orb_false_iff. split; [|lia]. apply andb_false_iff. destruct (decide (maj = 5%N)); [right; lia|left; lia].
Qed.

Lemma kernel_version_from_5_12_witness :
  kernel_version_rdma_dmabuf_ioctl_ok (Some "5.10.226-214.880.amzn2.x86_64"%string) = Some false /\
  kernel_version_rdma_dmabuf_ioctl_ok (Some ("5" +:+ "." +:+ "15" +:+ ".0-1051-aws")%string) = Some true.
Proof.
  split; [vm_compute; reflexivity|]. refine (eq_trans (kernel_version_from_5_12 5 15 ".0-1051-aws" _ _ _) _); [lia|lia|vm_compute; reflexivity|vm_compute; reflexivity].
Defined.

Section CudaFacts.
Context {C : CudaEnv}.

(** DMA-BUF is announced exactly when libfabric has it, the user does not forbid it, the
    build knows the attribute, the driver has been resolved, the current device has the
    attribute, and the kernel is recent enough. *)
Lemma dmabuf_viable_iff decl disable release st :
  nccl_ofi_dmabuf_viable decl disable release st = Some true <->
  decl = true /\ disable = 0 /\ HAVE_CUDA_DMABUF_SUPPORT = true /\ (exists v, device_attribute CU_DEVICE_ATTRIBUTE_DMA_BUF_SUPPORTED st = Some v /\ v <> 0) /\
  kernel_version_rdma_dmabuf_ioctl_ok release = Some true.
Proof.
  unfold nccl_ofi_dmabuf_viable, nccl_net_ofi_cuda_have_dma_buf_attr, device_attribute. destruct decl; cbn [negb]; [|naive_solver]. destruct (Z.eqb_spec disable 0) as [->|]; cbn [negb]; [|naive_solver]. destruct HAVE_CUDA_DMABUF_SUPPORT; cbn [negb]; [|naive_solver].
  destruct (negb (pfn_cuCtxGetDevice st) || negb (pfn_cuDeviceGetAttribute st)); [naive_solver|]. destruct cuCtxGetDevice as [dev|]; cbn; [|naive_solver]. destruct (cuDeviceGetAttribute _ dev) as [v|]; [|naive_solver].
  destruct (Z.eqb_spec v 0) as [->|]; cbn [negb]; [naive_solver|]. destruct (kernel_version_rdma_dmabuf_ioctl_ok release) as [[]|]; naive_solver.
Qed.

(** Initialisation turns CUDA flushes on exactly when the user asks for them and the
    device has GPUDirect RDMA with flushes from the host; if it fails it changes nothing. *)
Lemma cuda_init_flush flush_enable st :
  let '(rc, st') := nccl_net_ofi_cuda_init flush_enable st in
  if rc =? 0 then cuda_flush st' = true <->
    flush_enable <> 0 /\ HAVE_CUDA_GDRFLUSH_SUPPORT = true /\ (exists v, device_attribute CU_DEVICE_ATTRIBUTE_GPU_DIRECT_RDMA_SUPPORTED st' = Some v /\ v <> 0) /\
    (exists v, device_attribute CU_DEVICE_ATTRIBUTE_GPU_DIRECT_RDMA_FLUSH_WRITES_OPTIONS st' = Some v /\ Z.testbit v 0 = true)
  else rc = - EINVAL /\ st' = st.
Proof.
  unfold nccl_net_ofi_cuda_init. destruct cudaDriverGetVersion; [|done]. destruct cudaRuntimeGetVersion; [|done]. cbn [Z.eqb cuda_flush pfn_cuCtxGetDevice pfn_cuDeviceGetAttribute]. unfold nccl_net_ofi_cuda_have_gdr_support_attr, device_attribute. cbn [pfn_cuCtxGetDevice pfn_cuDeviceGetAttribute].
  assert (forall v, negb (Z.land v CU_FLUSH_GPU_DIRECT_RDMA_WRITES_OPTION_HOST =? 0) = Z.testbit v 0) as Hbit.
  { intros v. unfold CU_FLUSH_GPU_DIRECT_RDMA_WRITES_OPTION_HOST. change 1 with (Z.ones 1). rewrite Z.land_ones, Z.bit0_odd by lia. change (2 ^ 1) with 2. rewrite Zmod_odd. by destruct (Z.odd v). }
  destruct HAVE_CUDA_GDRFLUSH_SUPPORT; cbn [negb andb]; [|naive_solver]. destruct (negb (driver_entry _) || negb (driver_entry _)); [cbn; naive_solver|]. destruct cuCtxGetDevice as [dev|]; cbn; [|naive_solver]. destruct (cuDeviceGetAttribute CU_DEVICE_ATTRIBUTE_GPU_DIRECT_RDMA_SUPPORTED dev) as [v|]; cbn; [|naive_solver].
  destruct (Z.eqb_spec v 0) as [->|]; cbn; [naive_solver|]. destruct (cuDeviceGetAttribute CU_DEVICE_ATTRIBUTE_GPU_DIRECT_RDMA_FLUSH_WRITES_OPTIONS dev) as [o|]; cbn; [|naive_solver]. rewrite Hbit. destruct (Z.eqb_spec flush_enable 0) as [->|]; cbn; rewrite ?andb_true_r, ?andb_false_r; naive_solver.
Qed.

(** Before initialisation nothing is announced. *)
Lemma dmabuf_needs_init decl disable release : nccl_ofi_dmabuf_viable decl disable release cuda_start <> Some true.
Proof. rewrite dmabuf_viable_iff. intros (_ & _ & _ & (v & Hv & _) & _). done. Qed.

End CudaFacts.

End Accel.
