(* ===== verification/Pthread.v ===== *)
(** * nccl_ofi_pthread.h, nccl_ofi_pthread.c: mutexes

    The wrappers around POSIX mutexes, which end the process on every error. POSIX
    leaves two misuses of a default mutex undefined, which an error-checking mutex
    reports: locking it twice and unlocking it without holding it. The lemmas: a mutex
    made without attributes checks for errors exactly when the parameter asks for it,
    and with error checking no misuse is undefined, it aborts. *)

From S2P Require Import Prelude.

Module Pthread.

Open Scope Z_scope.

(** ** POSIX *)

Inductive mutex_type := PTHREAD_MUTEX_DEFAULT | PTHREAD_MUTEX_ERRORCHECK.
Record pthread_mutex_t := mk_mutex { mtype : mutex_type; owner : option Z }.

#[global] Instance mutex_type_eq_dec : EqDecision mutex_type.
Proof. solve_decision. Defined.

(** A call returns, ends the process, waits for another thread, or is undefined. *)
Inductive outcome (A : Type) := Done (a : A) | Abort | Blocks | Undefined.
Arguments Done {A} a.
Arguments Abort {A}.
Arguments Blocks {A}.
Arguments Undefined {A}.

Definition EPERM : Z := 1.
Definition EBUSY : Z := 16.
Definition EDEADLK : Z := 35.

Definition pthread_mutex_lock (t : Z) (m : pthread_mutex_t) : outcome (Z * pthread_mutex_t) :=
  match owner m with
  | None => Done (0, mk_mutex (mtype m) (Some t))
  | Some o =>
      if negb (o =? t) then Blocks
      else match mtype m with PTHREAD_MUTEX_ERRORCHECK => Done (EDEADLK, m) | PTHREAD_MUTEX_DEFAULT => Undefined end
  end.

Definition pthread_mutex_trylock (t : Z) (m : pthread_mutex_t) : outcome (Z * pthread_mutex_t) :=
  match owner m with
  | None => Done (0, mk_mutex (mtype m) (Some t))
  | Some _ => Done (EBUSY, m)
  end.

Definition pthread_mutex_unlock (t : Z) (m : pthread_mutex_t) : outcome (Z * pthread_mutex_t) :=
  if bool_decide (owner m = Some t) then Done (0, mk_mutex (mtype m) None)
  else match mtype m with PTHREAD_MUTEX_ERRORCHECK => Done (EPERM, m) | PTHREAD_MUTEX_DEFAULT => Undefined end.

(** Destroying a held mutex is undefined; [rc]: the result of the call. *)
Definition pthread_mutex_destroy (rc : Z) (m : pthread_mutex_t) : outcome Z :=
  if bool_decide (owner m = None) then Done rc else Undefined.

(** ** The wrappers *)

Definition nccl_net_ofi_mutex_lock_impl (t : Z) (m : pthread_mutex_t) : outcome pthread_mutex_t :=
  match pthread_mutex_lock t m with
  | Done (ret, m') => if negb (ret =? 0) then Abort else Done m'
  | Abort => Abort | Blocks => Blocks | Undefined => Undefined
  end.

Definition nccl_net_ofi_mutex_trylock_impl (t : Z) (m : pthread_mutex_t) : outcome (Z * pthread_mutex_t) :=
  match pthread_mutex_trylock t m with
  | Done (ret, m') => if negb (ret =? 0) && negb (ret =? EBUSY) then Abort else Done (ret, m')
  | Abort => Abort | Blocks => Blocks | Undefined => Undefined
  end.

Definition nccl_net_ofi_mutex_unlock_impl (t : Z) (m : pthread_mutex_t) : outcome pthread_mutex_t :=
  match pthread_mutex_unlock t m with
  | Done (ret, m') => if negb (ret =? 0) then Abort else Done m'
  | Abort => Abort | Blocks => Blocks | Undefined => Undefined
  end.

Definition nccl_net_ofi_mutex_destroy (rc : Z) (m : pthread_mutex_t) : outcome Z := pthread_mutex_destroy rc m.

(** The results of the calls that initialisation makes. *)
Record init_answers := mk_answers { a_once : Z; a_attr_init : Z; a_settype : Z; a_mutex_init : Z }.

(** The attribute, unless the process ends. *)
Definition errorcheck_init (a : init_answers) : outcome mutex_type :=
  if negb (a_attr_init a =? 0) then Abort
  else if negb (a_settype a =? 0) then Abort
  else Done PTHREAD_MUTEX_ERRORCHECK.

(** [want_errorcheck]: the parameter; [once]: the attribute, once errorcheck_init has
    run; [attr]: the argument, [None] for NULL. The new mutex if the call succeeds. *)
Definition nccl_net_ofi_mutex_init (want_errorcheck : Z) (a : init_answers) (once : option mutex_type) (attr : option mutex_type)
    : outcome (Z * option pthread_mutex_t * option mutex_type) :=
  if negb (a_once a =? 0) then Done (a_once a, None, once)
  else
    match (match once with Some at_ => Done at_ | None => errorcheck_init a end) with
    | Done errorcheck_attr =>
        let passed_attr := if bool_decide (attr <> None) || (want_errorcheck =? 0) then attr else Some errorcheck_attr in
        if negb (a_mutex_init a =? 0) then Done (a_mutex_init a, None, Some errorcheck_attr)
        else Done (0, Some (mk_mutex (default PTHREAD_MUTEX_DEFAULT passed_attr) None), Some errorcheck_attr)
    | Abort => Abort | Blocks => Blocks | Undefined => Undefined
    end.

(** ** What the wrappers make of misuse *)

(** With error checking every misuse of a mutex ends the process: none is undefined, and
    only a mutex held by another thread makes a call wait. *)
Lemma errorcheck_reports t m : mtype m = PTHREAD_MUTEX_ERRORCHECK ->
  nccl_net_ofi_mutex_lock_impl t m = match owner m with None => Done (mk_mutex (mtype m) (Some t)) | Some o => if o =? t then Abort else Blocks end /\
  nccl_net_ofi_mutex_unlock_impl t m = if bool_decide (owner m = Some t) then Done (mk_mutex (mtype m) None) else Abort.
Proof.
  intros Ht. unfold nccl_net_ofi_mutex_lock_impl, nccl_net_ofi_mutex_unlock_impl, pthread_mutex_lock, pthread_mutex_unlock. rewrite Ht. split; [|by case_bool_decide]. destruct (owner m) as [o|]; [|done]. by destruct (o =? t).
Qed.

(** A mutex made without attributes checks for errors exactly when the parameter asks
    for it. *)
Lemma mutex_init_type want a once m once' :
  once = None \/ once = Some PTHREAD_MUTEX_ERRORCHECK ->
  nccl_net_ofi_mutex_init want a once None = Done (0, Some m, once') -> owner m = None /\ (mtype m = PTHREAD_MUTEX_ERRORCHECK <-> want <> 0) /\ once' = Some PTHREAD_MUTEX_ERRORCHECK.
Proof.
  intros Honce. unfold nccl_net_ofi_mutex_init, errorcheck_init. destruct (negb (a_once a =? 0)) eqn:H1; [intros [= ? ? ?]; done|].
  assert (forall at_, at_ = PTHREAD_MUTEX_ERRORCHECK -> (if negb (a_mutex_init a =? 0) then Done (a_mutex_init a, None, Some at_)
    else Done (0, Some (mk_mutex (default PTHREAD_MUTEX_DEFAULT (if bool_decide (@None mutex_type <> None) || (want =? 0) then None else Some at_)) None), Some at_)) = Done (0, Some m, once') ->
    owner m = None /\ (mtype m = PTHREAD_MUTEX_ERRORCHECK <-> want <> 0) /\ once' = Some PTHREAD_MUTEX_ERRORCHECK) as Hgo.
  { intros at_ ->. destruct (negb (a_mutex_init a =? 0)); [done|]. intros [= <- <-]. cbn. destruct (Z.eqb_spec want 0); cbn; split_and!; naive_solver. }
  destruct Honce as [->| ->]; [|by apply Hgo]. destruct (negb (a_attr_init a =? 0)); [done|]. destruct (negb (a_settype a =? 0)); [done|]. by apply Hgo.
Qed.

End Pthread.
