(* ===== verification/MrReg.v ===== *)
(** * Memory registration of both transports

    The registration paths of nccl_ofi_rdma.c and nccl_ofi_sendrecv.c: the cache
    of MrCache.v in front, a key from the pool of Idpool.v, one libfabric
    registration per rail, and the clean-up when a step fails. Libfabric, CUDA
    and the C allocator are arguments ([RegEnv]); the state is that of one device.

    The theorems show that registrations, cache users and keys balance over any
    sequence of calls, and what happens where they do not. *)

From S2P Require Import Prelude OfiMath StateM Idpool MrCache.

Module MrReg.

(** ** Data *)

Definition NCCL_PTR_HOST : Z := 1.
Definition NCCL_PTR_CUDA : Z := 2.
Definition NCCL_PTR_NEURON : Z := 4.

Inductive fi_access := FI_SEND | FI_RECV | FI_READ | FI_WRITE | FI_REMOTE_READ | FI_REMOTE_WRITE.
Inductive fi_hmem_iface := FI_HMEM_SYSTEM | FI_HMEM_CUDA | FI_HMEM_NEURON.

Record fi_mr_attr := mk_attr {
  a_access : list fi_access;
  a_ckey : MrCache.nccl_ofi_mr_ckey;
  a_dmabuf : bool;
  a_iface : fi_hmem_iface;
  a_device : Z;
  a_requested_key : Z;
}.

(** A rail without registration has NULL in its place. *)
Record nccl_net_ofi_rdma_mr_handle_t := mk_handle {
  num_rails : Z;
  num_control_rails : Z;
  mr : list Z;
  control_mr : list Z;
}.

Definition set_num_rails v h := mk_handle v (num_control_rails h) (mr h) (control_mr h).
Definition set_num_control_rails v h := mk_handle (num_rails h) v (mr h) (control_mr h).
Definition set_mr v h := mk_handle (num_rails h) (num_control_rails h) v (control_mr h).
Definition set_control_mr v h := mk_handle (num_rails h) (num_control_rails h) (mr h) v.

Inductive event :=
| EvReg (domain : Z) (a : fi_mr_attr) (rc : Z)
| EvBind (mr : Z) (rc : Z)
| EvEnable (mr : Z) (rc : Z)
| EvClose (mr : Z) (rc : Z)
| EvAlloc (p : Z).

Record world := mk_world {
  key_pool : Idpool.nccl_ofi_idpool;
  mr_cache : option MrCache.nccl_ofi_mr_cache_t;
  (** Open registrations and their keys. *)
  mrs : gmap Z Z;
  handles : gmap Z nccl_net_ofi_rdma_mr_handle_t;
  hist : list event;
}.

Definition w_key_pool v w := mk_world v (mr_cache w) (mrs w) (handles w) (hist w).
Definition w_mr_cache v w := mk_world (key_pool w) v (mrs w) (handles w) (hist w).
Definition w_mrs f w := mk_world (key_pool w) (mr_cache w) (f (mrs w)) (handles w) (hist w).
Definition w_handles f w := mk_world (key_pool w) (mr_cache w) (mrs w) (f (handles w)) (hist w).
Definition w_hist f w := mk_world (key_pool w) (mr_cache w) (mrs w) (handles w) (f (hist w)).

(** Configuration and the outside world as functions of the events so far. *)
Class RegEnv := {
  have_cuda : bool;
  have_neuron : bool;
  local_mr : bool;
  endpoint_mr : bool;
  page_size : Z;
  FI_KEY_NOTAVAIL : Z;
  (** Domains of the data rails and of the control rails of the endpoint. *)
  rail_domains : list Z;
  control_domains : list Z;
  cuda_device_for_addr : Z -> Z * Z;
  (** Code, new registration and its key. *)
  mr_regattr : list event -> gmap Z Z -> Z -> fi_mr_attr -> Z * Z * Z;
  mr_bind_code : list event -> Z -> Z;
  mr_enable_code : list event -> Z -> Z;
  close_code : list event -> Z -> Z;
  (** The three callocs of a handle: NULL when one fails. *)
  handle_alloc : list event -> gmap Z nccl_net_ofi_rdma_mr_handle_t -> Z;
  cache_grow : Z -> option (list (option MrCache.nccl_ofi_reg_entry_t));
  cache_calloc : list event -> bool;
}.

Abbreviation M := (SM world).

Section Registration.
Context {E : RegEnv}.

(** ** Calls of libfabric and the allocator *)

Definition fi_mr_regattr (domain : Z) (a : fi_mr_attr) : M (Z * Z) :=
  let* h := gets hist in
  let* open := gets mrs in
  let '(rc, r, key) := mr_regattr h open domain a in
  modify (w_hist (fun h => h ++ [EvReg domain a rc])) ;;;
  (if rc =? 0 then modify (w_mrs <[r := key]>) else ret tt) ;;;
  ret (rc, r).

Definition fi_mr_bind (r : Z) : M Z :=
  let* h := gets hist in
  let rc := mr_bind_code h r in
  modify (w_hist (fun h => h ++ [EvBind r rc])) ;;; ret rc.

Definition fi_mr_enable (r : Z) : M Z :=
  let* h := gets hist in
  let rc := mr_enable_code h r in
  modify (w_hist (fun h => h ++ [EvEnable r rc])) ;;; ret rc.

(** Closing what is not open is undefined. *)
Definition fi_close (r : Z) : M Z :=
  let* h := gets hist in
  let* open := gets mrs in
  let* _ := of_option (open !! r) in
  let rc := close_code h r in
  modify (w_hist (fun h => h ++ [EvClose r rc])) ;;;
  (if rc =? 0 then modify (w_mrs (delete r)) else ret tt) ;;;
  ret rc.

(** Reads the registration object: NULL or closed is undefined. *)
Definition fi_mr_key (r : Z) : M Z := let* open := gets mrs in of_option (open !! r).

Definition allocate_key : M Z :=
  let* p := gets key_pool in
  let '(key, p') := Idpool.nccl_ofi_idpool_allocate_id p in
  modify (w_key_pool p') ;;; ret key.

Definition free_key (key : Z) : M Z :=
  let* p := gets key_pool in
  let '(rc, p') := Idpool.nccl_ofi_idpool_free_id p key in
  modify (w_key_pool p') ;;; ret rc.

Definition get_handle (p : Z) : M nccl_net_ofi_rdma_mr_handle_t :=
  let* m := gets handles in of_option (m !! p).
Definition upd_handle (p : Z) (f : nccl_net_ofi_rdma_mr_handle_t -> nccl_net_ofi_rdma_mr_handle_t) : M unit :=
  let* h := get_handle p in modify (w_handles <[p := f h]>).

(** Cache operations on the device's cache, which is there. *)
Definition cache_lookup (ckey : MrCache.nccl_ofi_mr_ckey) : M Z :=
  let* o := gets mr_cache in
  let* c := of_option o in
  let* (h, c') := of_option (MrCache.nccl_ofi_mr_cache_lookup_entry c ckey) in
  modify (w_mr_cache (Some c')) ;;; ret h.

Definition cache_insert (ckey : MrCache.nccl_ofi_mr_ckey) (h : Z) : M Z :=
  let* o := gets mr_cache in
  let* c := of_option o in
  let* ev := gets hist in
  let* (rc, c') := of_option (MrCache.nccl_ofi_mr_cache_insert_entry (cache_grow (MrCache.size c))
                                 (cache_calloc ev) c ckey h) in
  modify (w_mr_cache (Some c')) ;;; ret rc.

Definition cache_del (h : Z) : M Z :=
  let* o := gets mr_cache in
  let* c := of_option o in
  let* (rc, c') := of_option (MrCache.nccl_ofi_mr_cache_del_entry c h) in
  modify (w_mr_cache (Some c')) ;;; ret rc.

(** ** Attributes *)

Definition nccl_ofi_mr_ckey_fill_mr_attrs (ckey : MrCache.nccl_ofi_mr_ckey) : bool :=
  match ckey with MrCache.NCCL_OFI_MR_CKEY_DMABUF _ _ _ _ => true | _ => false end.

(** Access rights, interface and device for a pointer type, added to [access];
    [inl] is an error. *)
Definition type_attr (access : list fi_access) (ckey : MrCache.nccl_ofi_mr_ckey) (type : Z)
    : Z + list fi_access * fi_hmem_iface * Z :=
  if type =? NCCL_PTR_HOST then inr (access ++ [FI_READ], FI_HMEM_SYSTEM, 0)
  else if have_cuda && (type =? NCCL_PTR_CUDA) then
    let '(rc, dev) := cuda_device_for_addr (MrCache.nccl_ofi_mr_ckey_baseaddr ckey) in
    if negb (rc =? 0) then inl rc else inr (access ++ [FI_REMOTE_READ], FI_HMEM_CUDA, dev)
  else if have_neuron && (type =? NCCL_PTR_NEURON) then inr (access ++ [FI_REMOTE_READ], FI_HMEM_NEURON, -1)
  else inl (- EINVAL).

(** *** RDMA transport *)

(** A failed key allocation leaves the code 0 and the requested key 0. *)
Definition set_mr_req_attr (ckey : MrCache.nccl_ofi_mr_ckey) (type : Z) : M (Z + fi_mr_attr) :=
  match type_attr [FI_SEND; FI_RECV; FI_WRITE; FI_REMOTE_WRITE] ckey type with
  | inl rc => ret (inl rc)
  | inr (access, iface, dev) =>
      let attr := mk_attr access ckey (nccl_ofi_mr_ckey_fill_mr_attrs ckey) iface dev in
      let* pool := gets key_pool in
      if Idpool.nccl_ofi_idpool_active pool then
        let* key := allocate_key in
        if key <? 0 then ret (inr (attr 0)) else ret (inr (attr key))
      else ret (inr (attr 0))
  end.

Definition register_rail_mr_buffer (domain : Z) (a : fi_mr_attr) : M (Z * Z) :=
  let* (rc, r) := fi_mr_regattr domain a in
  if negb (rc =? 0) then ret (- EINVAL, NULL) else ret (0, r).

(** The loops of dereg_rails: NULL entries are skipped, the last error is kept. *)
Fixpoint close_rails (rs : list Z) (ret_code : Z) : M Z :=
  match rs with
  | [] => ret ret_code
  | r :: rs' =>
      if r =? NULL then close_rails rs' ret_code
      else
        let* rc := fi_close r in
        close_rails rs' (if negb (rc =? 0) then rc else ret_code)
  end.

(** The arrays have at least as many entries as the counts say. *)
Definition dereg_rails (p : Z) : M Z :=
  let* h := get_handle p in
  assert ((num_control_rails h <=? Z.of_nat (length (control_mr h))) && (num_rails h <=? Z.of_nat (length (mr h)))) ;;;
  let* rc := close_rails (take (Z.to_nat (num_control_rails h)) (control_mr h)) 0 in
  close_rails (take (Z.to_nat (num_rails h)) (mr h)) rc.

Definition free_rdma_mr_handle (p : Z) : M unit :=
  if p =? NULL then ret tt else let* _ := get_handle p in modify (w_handles (delete p)).

Definition calloc_rdma_mr_handle (nr nc : nat) : M Z :=
  let* ev := gets hist in
  let* hs := gets handles in
  let p := handle_alloc ev hs in
  modify (w_hist (fun h => h ++ [EvAlloc p])) ;;;
  (if p =? NULL then ret tt
   else modify (w_handles <[p := mk_handle 0 0 (replicate nr NULL) (replicate nc NULL)]>)) ;;;
  ret p.

(** [cached]: the argument mr_cache is the device's cache, not NULL. *)
Definition dereg_mr_ep (p : Z) (cached : bool) : M Z :=
  if p =? NULL then ret (- EINVAL)
  else
    let* h := get_handle p in
    if num_rails h <? 0 then ret (- EINVAL)
    else
      let* del := if cached then cache_del p else ret 1 in
      if del =? 0 then ret 0
      else
        let* pool := gets key_pool in
        (if Idpool.nccl_ofi_idpool_active pool then
           let* r0 := of_option (mr h !! 0%nat) in
           let* key := fi_mr_key r0 in
           if key =? FI_KEY_NOTAVAIL then ret (- ENOENT) else free_key key
         else ret 0) ;;;
        let* rc := dereg_rails p in
        free_rdma_mr_handle p ;;;
        ret rc.

(** The registration loops, [put] storing the registration of rail [i]: [false]
    when a rail failed and the handle has been taken apart. *)
Fixpoint register_rails (domains : list Z) (i : nat) (a : fi_mr_attr) (p : Z)
    (put : nat -> Z -> nccl_net_ofi_rdma_mr_handle_t -> nccl_net_ofi_rdma_mr_handle_t) : M Z :=
  match domains with
  | [] => ret 0
  | domain :: domains' =>
      let* (rc, r) := register_rail_mr_buffer domain a in
      if negb (rc =? 0) then dereg_mr_ep p false ;;; ret rc
      else upd_handle p (put i r) ;;; register_rails domains' (S i) a p put
  end.

Definition put_mr (i : nat) (r : Z) h := set_mr (<[i := r]> (mr h)) h.
Definition put_control_mr (i : nat) (r : Z) h := set_control_mr (<[i := r]> (control_mr h)) h.

(** Result: the code and the handle. *)
Definition reg_mr_on_device (ckey : MrCache.nccl_ofi_mr_ckey) (type : Z) : M (Z * Z) :=
  let* p := calloc_rdma_mr_handle (length rail_domains) (length control_domains) in
  if p =? NULL then ret (- ENOMEM, NULL)
  else
    let* a := set_mr_req_attr ckey type in
    match a with
    | inl rc => free_rdma_mr_handle p ;;; ret (rc, NULL)
    | inr attr =>
        upd_handle p (set_num_rails (Z.of_nat (length rail_domains))) ;;;
        let* rc := register_rails rail_domains 0 attr p put_mr in
        if negb (rc =? 0) then ret (rc, NULL)
        else
          upd_handle p (set_num_control_rails (Z.of_nat (length control_domains))) ;;;
          let* rc := register_rails control_domains 0 attr p put_control_mr in
          if negb (rc =? 0) then ret (rc, NULL) else ret (0, p)
    end.

Definition reg_mr_ep (ckey : MrCache.nccl_ofi_mr_ckey) (type : Z) (cached : bool) : M (Z * Z) :=
  let* hit := if cached then cache_lookup ckey else ret NULL in
  if negb (hit =? NULL) then ret (0, hit)
  else
    let* (rc, p) := reg_mr_on_device ckey type in
    if negb (rc =? 0) then ret (rc, p)
    else if cached then
      let* rc := cache_insert ckey p in
      if negb (rc =? 0) then dereg_mr_ep p false ;;; ret (rc, NULL) else ret (0, p)
    else ret (0, p).

Definition reg_internal_mr_ep (data size type : Z) : M (Z * Z) :=
  assert (0 <? page_size) ;;;
  assert (NCCL_OFI_IS_ALIGNED data page_size) ;;;
  assert (NCCL_OFI_IS_ALIGNED size page_size) ;;;
  reg_mr_ep (MrCache.nccl_ofi_mr_ckey_mk_vec data size) type false.

(** The communicators register through the device's cache, if there is one. *)
Definition device_cached : M bool :=
  let* o := gets mr_cache in ret (match o with Some _ => true | None => false end).

Definition reg_mr_send_comm (ckey : MrCache.nccl_ofi_mr_ckey) (type : Z) : M (Z * Z) :=
  let* cached := device_cached in reg_mr_ep ckey type cached.
Definition reg_mr_recv_comm (ckey : MrCache.nccl_ofi_mr_ckey) (type : Z) : M (Z * Z) :=
  let* cached := device_cached in reg_mr_ep ckey type cached.
Definition dereg_mr_recv_comm (p : Z) : M Z := let* cached := device_cached in dereg_mr_ep p cached.
Definition dereg_mr_send_comm (p : Z) : M Z := let* cached := device_cached in dereg_mr_ep p cached.

(** [malloc_ok]: the small handle of the free list could be allocated. *)
Definition freelist_regmr_host_fn (malloc_ok : bool) (data size : Z) : M (Z * option Z) :=
  let* (rc, p) := reg_internal_mr_ep data size NCCL_PTR_HOST in
  if negb (rc =? 0) then ret (- EIO, None)
  else if negb malloc_ok then ret (- ENOMEM, None)
  else ret (0, Some p).

Definition freelist_deregmr_host_fn (p : Z) : M Z :=
  let* rc := dereg_mr_ep p false in
  if negb (rc =? 0) then ret (- EIO) else ret 0.

(** *** Send/receive transport: a handle is a registration, NULL for host
    memory that needs none *)

Definition sendrecv_mr_buffer_skip_local_registration (type : Z) : bool :=
  negb local_mr && (type =? NCCL_PTR_HOST).

(** [mr_handle] before the call comes first in the arguments. *)
Definition sendrecv_mr_buffers_register (mr_handle : Z) (domain : Z) (ckey : MrCache.nccl_ofi_mr_ckey) (type : Z)
    : M (Z * Z) :=
  if sendrecv_mr_buffer_skip_local_registration type then ret (0, NULL)
  else
    match type_attr [FI_SEND; FI_RECV] ckey type with
    | inl rc => ret (rc, mr_handle)
    | inr (access, iface, dev) =>
        let* pool := gets key_pool in
        let* key := if Idpool.nccl_ofi_idpool_active pool then allocate_key else ret 0 in
        if key <? 0 then ret (0, mr_handle)
        else
          let* (rc, r) := fi_mr_regattr domain
            (mk_attr access ckey (nccl_ofi_mr_ckey_fill_mr_attrs ckey) iface dev key) in
          if negb (rc =? 0) then ret (rc, mr_handle)
          else if endpoint_mr then
            let* rc := fi_mr_bind r in
            if negb (rc =? 0) then ret (rc, r)
            else let* rc := fi_mr_enable r in ret (rc, r)
          else ret (0, r)
    end.

Definition sendrecv_mr_buffers_internal_register (domain data size type : Z) : M (Z * Z) :=
  assert (0 <? page_size) ;;;
  assert (NCCL_OFI_IS_ALIGNED data page_size) ;;;
  assert (NCCL_OFI_IS_ALIGNED size page_size) ;;;
  sendrecv_mr_buffers_register NULL domain (MrCache.nccl_ofi_mr_ckey_mk_vec data size) type.

Definition sendrecv_mr_base_register (domain : Z) (ckey : MrCache.nccl_ofi_mr_ckey) (type : Z) : M (Z * Z) :=
  if (type =? NCCL_PTR_HOST) || (have_cuda && (type =? NCCL_PTR_CUDA)) || (have_neuron && (type =? NCCL_PTR_NEURON))
  then sendrecv_mr_buffers_register NULL domain ckey type
  else ret (- EINVAL, NULL).

Definition sendrecv_comm_mr_base_dereg (r : Z) (cached : bool) : M Z :=
  if r =? NULL then ret 0
  else
    let* del := if cached then cache_del r else ret 1 in
    if del =? 0 then ret 0
    else
      let* pool := gets key_pool in
      (if Idpool.nccl_ofi_idpool_active pool then
         let* key := fi_mr_key r in
         if key =? FI_KEY_NOTAVAIL then ret 0 else free_key key
       else ret 0) ;;;
      fi_close r.

(** [ep] and [device] are the pointers of the communicator. *)
Definition sendrecv_comm_mr_base_reg (ep device domain : Z) (ckey : MrCache.nccl_ofi_mr_ckey) (type : Z)
    : M (Z * option Z) :=
  if ep =? NULL then ret (- EINVAL, None)
  else if device =? NULL then ret (- EINVAL, None)
  else if sendrecv_mr_buffer_skip_local_registration type then ret (0, Some NULL)
  else
    let* cached := device_cached in
    let* hit := if cached then cache_lookup ckey else ret NULL in
    if negb (hit =? NULL) then ret (0, Some hit)
    else
      let* (rc, r) := sendrecv_mr_base_register domain ckey type in
      if (r =? NULL) || negb (rc =? 0) then ret (rc, Some NULL)
      else if cached then
        let* rc := cache_insert ckey r in
        if negb (rc =? 0) then sendrecv_comm_mr_base_dereg r false ;;; ret (rc, Some NULL) else ret (0, Some r)
      else ret (0, Some r).

Definition sendrecv_send_comm_reg_mr := sendrecv_comm_mr_base_reg.
Definition sendrecv_recv_comm_reg_mr := sendrecv_comm_mr_base_reg.

Definition sendrecv_recv_comm_dereg_mr (ep device r : Z) : M Z :=
  if ep =? NULL then ret (- EINVAL)
  else if device =? NULL then ret (- EINVAL)
  else let* cached := device_cached in sendrecv_comm_mr_base_dereg r cached.

Definition sendrecv_send_comm_dereg_mr (ep device r : Z) : M Z :=
  if ep =? NULL then ret (- EINVAL)
  else if device =? NULL then ret (- EINVAL)
  else let* cached := device_cached in sendrecv_comm_mr_base_dereg r cached.

End Registration.

(** ** Balance of the RDMA transport *)

(** Libfabric honours requested keys and hands out new registrations, closing
    succeeds, and memory is available; allocation of a handle may fail. *)
Class RegOk `{RegEnv} : Prop := {
  regattr_fresh h open d a r key :
    mr_regattr h open d a = (0, r, key) -> r <> NULL /\ open !! r = None /\ key = a_requested_key a;
  close_succeeds h r : close_code h r = 0;
  handle_fresh h hs : handle_alloc h hs <> NULL -> hs !! handle_alloc h hs = None;
  grow_succeeds n : 0 <= n -> exists ext, cache_grow n = Some ext /\ Z.of_nat (length ext) = n;
  calloc_succeeds h : cache_calloc h = true;
  notavail : FI_KEY_NOTAVAIL = 2 ^ 64 - 1;
  rails_there : rail_domains <> [];
}.

(** What the device has registered: per handle its registrations and their key. *)
Abbreviation books := (gmap Z (list Z * list Z * Z)).

Definition to_handle `{RegEnv} (x : list Z * list Z * Z) : nccl_net_ofi_rdma_mr_handle_t :=
  mk_handle (Z.of_nat (length rail_domains)) (Z.of_nat (length control_domains)) x.1.1 x.1.2.

(** [A] are the registrations, [S] the free keys, [K] keys that are neither free
    nor in use. *)
Record dev_inv `{RegEnv} (w : world) (A : books) (S K : gset Z) : Prop := {
  d_pool : Idpool.idpool_rel (key_pool w) S;
  d_handles : forall p, handles w !! p = to_handle <$> A !! p;
  d_null : A !! NULL = None;
  d_shape : forall p l lc k, A !! p = Some (l, lc, k) ->
    length l = length rail_domains /\ length lc = length control_domains /\
    NoDup (l ++ lc) /\ (NULL ∉ l ++ lc) /\ 0 <= k < Idpool.size (key_pool w) /\ (k ∉ S) /\ (k ∉ K);
  d_mrs : forall r k, mrs w !! r = Some k <-> exists p l lc, A !! p = Some (l, lc, k) /\ r ∈ l ++ lc;
  d_keys : forall p1 p2 l1 lc1 l2 lc2 k, A !! p1 = Some (l1, lc1, k) -> A !! p2 = Some (l2, lc2, k) -> p1 = p2;
  d_limbo : forall k, k ∈ K -> 0 <= k < Idpool.size (key_pool w) /\ k ∉ S;
  d_all : forall k, 0 <= k < Idpool.size (key_pool w) ->
    k ∈ S \/ k ∈ K \/ exists p l lc, A !! p = Some (l, lc, k);
}.

Definition rails_of (h : nccl_net_ofi_rdma_mr_handle_t) : list Z := mr h ++ control_mr h.

(** The device without handle [p]. *)
Definition without (p : Z) (h : nccl_net_ofi_rdma_mr_handle_t) (w : world) : world :=
  mk_world (key_pool w) (mr_cache w) (filter (fun rk : Z * Z => rk.1 ∉ rails_of h) (mrs w))
    (delete p (handles w)) (hist w).

(** Handle [p] with key [k] is being built up or taken apart. *)
Record partial `{RegEnv} (w : world) (A : books) (S : gset Z) (p k : Z) (h : nccl_net_ofi_rdma_mr_handle_t)
    : Prop := {
  p_rest : dev_inv (without p h w) A S {[k]};
  p_handle : handles w !! p = Some h;
  p_null : p <> NULL;
  p_mrs : forall r, r ∈ rails_of h -> r <> NULL -> mrs w !! r = Some k;
  p_nodup : NoDup (filter (fun r => r <> NULL) (rails_of h));
  p_nomr : mrs w !! NULL = None;
}.

Section Balance.
Context {E : RegEnv} {L : RegOk}.

Lemma get_handle_wp w p h Q : handles w !! p = Some h -> Q h w -> wp (get_handle p) Q w.
Proof. intros Hh HQ. unfold get_handle, wp, bind, gets. by rewrite Hh. Qed.

Lemma upd_handle_wp w p h f Q :
  handles w !! p = Some h -> Q tt (w_handles <[p := f h]> w) -> wp (upd_handle p f) Q w.
Proof. intros Hh HQ. unfold upd_handle. apply wp_bind, (get_handle_wp w p h); done. Qed.

(** Closing open registrations, each once. *)
Lemma close_rails_spec rs acc : forall w,
  (forall r, r ∈ rs -> r <> NULL -> is_Some (mrs w !! r)) -> NoDup (filter (fun r => r <> NULL) rs) ->
  mrs w !! NULL = None ->
  wp (close_rails rs acc) (fun rc w' => rc = acc /\ key_pool w' = key_pool w /\ mr_cache w' = mr_cache w /\
    handles w' = handles w /\ mrs w' = filter (fun rk : Z * Z => rk.1 ∉ rs) (mrs w)) w.
Proof.
  induction rs as [|r rs IH]; intros w Hopen Hnd Hnull; cbn [close_rails].
  { apply wp_ret. split_and!; try done. symmetry. apply map_filter_id. intros i x _. cbn. set_solver. }
  rewrite filter_cons in Hnd. destruct (Z.eqb_spec r NULL) as [->|Hr].
  - rewrite decide_False in Hnd by (intros H; by apply H). eapply wp_mono.
    { apply IH; [|done|done]. intros r Hr. apply Hopen. by right. }
    cbn. intros rc w' (-> & ? & ? & ? & ->). split_and!; try done. apply map_filter_ext. intros i x Hi. cbn.
    rewrite not_elem_of_cons. split; [|by intros [_ ?]]. intros Hni. split; [|done]. intros ->. congruence.
  - rewrite decide_True in Hnd by done. apply NoDup_cons in Hnd as [Hni Hnd].
    destruct (Hopen r) as [k Hk]; [by left|done|].
    unfold fi_close. wp_simpl. apply (wp_of_option _ k); [done|]. rewrite close_succeeds. cbn [Z.eqb negb]. wp_simpl.
    assert (r ∉ rs) as Hnr.
    { intros Hin. apply Hni. by apply list_elem_of_filter. }
    eapply wp_mono; [apply IH|].
    + intros r' Hr' Hn. cbn. rewrite lookup_delete_ne by (intros <-; done). apply Hopen; [by right|done].
    + done.
    + cbn. rewrite lookup_delete_ne; done.
    + cbn. intros rc w' (-> & ? & ? & ? & ->). split_and!; try done.
      apply map_eq. intros i. apply option_eq. intros x. rewrite !map_lookup_filter_Some, lookup_delete_Some.
      cbn. rewrite not_elem_of_cons. naive_solver.
Qed.

Lemma pool_active w A S K : dev_inv w A S K -> Idpool.nccl_ofi_idpool_active (key_pool w) = true.
Proof.
  intros Hd. destruct (d_pool _ _ _ _ Hd) as (ws & Hwf & _). pose proof (Idpool.wf_size _ _ Hwf).
  unfold Idpool.nccl_ofi_idpool_active. apply negb_true_iff, Z.eqb_neq. lia.
Qed.

(** The limbo key [k] becomes free. *)
Lemma dev_inv_freed w w' A S k :
  dev_inv w A S {[k]} -> Idpool.idpool_rel (key_pool w') ({[k]} ∪ S) ->
  Idpool.size (key_pool w') = Idpool.size (key_pool w) -> mrs w' = mrs w -> handles w' = handles w ->
  dev_inv w' A ({[k]} ∪ S) ∅.
Proof.
  intros [] Hrel Hsz Hm Hh. constructor; rewrite ?Hm, ?Hh, ?Hsz; try done.
  - intros p l lc k' Hp. destruct (d_shape0 p l lc k' Hp) as (? & ? & ? & ? & ? & ? & ?). split_and!; try done; set_solver.
  - intros k' Hk'. destruct (d_all0 k' Hk') as [|[|]]; [left; set_solver|left; set_solver|by right; right].
Qed.

Lemma free_key_wp w S k Q :
  Idpool.idpool_rel (key_pool w) S -> 0 <= k < Idpool.size (key_pool w) -> k ∉ S ->
  (forall p', Idpool.idpool_rel p' ({[k]} ∪ S) -> Idpool.size p' = Idpool.size (key_pool w) -> Q 0 (w_key_pool p' w)) ->
  wp (free_key k) Q w.
Proof.
  intros Hrel Hk HkS HQ. unfold free_key. wp_simpl.
  destruct (Idpool.free_refines _ _ k Hrel) as (S' & Hstep & Hrel' & Hsz); [lia|].
  destruct (Idpool.nccl_ofi_idpool_free_id (key_pool w) k) as [rc p']. cbn in *.
  inversion Hstep; subst; [|done|lia]. wp_simpl. by apply HQ.
Qed.

Lemma filter_rails (h : nccl_net_ofi_rdma_mr_handle_t) (m : gmap Z Z) cs ms :
  m !! NULL = None ->
  (forall r, r ∈ rails_of h -> r <> NULL -> r ∈ cs ++ ms) -> (forall r, r ∈ cs ++ ms -> r ∈ rails_of h) ->
  filter (fun rk : Z * Z => rk.1 ∉ ms) (filter (fun rk : Z * Z => rk.1 ∉ cs) m) =
  filter (fun rk : Z * Z => rk.1 ∉ rails_of h) m.
Proof.
  intros Hn Hin Hout. apply map_eq. intros r. apply option_eq. intros k.
  rewrite !map_lookup_filter_Some. cbn. split.
  - intros [[Hr Hc] Hms]. split; [done|]. intros H. destruct (decide (r = NULL)) as [->|Hnr]; [congruence|].
    specialize (Hin r H Hnr). apply elem_of_app in Hin as [|]; done.
  - intros [Hr Hni]. split_and!; [done| |]; intros H; apply Hni, Hout, elem_of_app; auto.
Qed.

(** Taking a handle apart releases its key and its registrations. *)
Lemma dereg_partial w A S p k h r0 nr nc :
  partial w A S p k h -> mr h !! 0%nat = Some r0 -> r0 <> NULL ->
  num_rails h = Z.of_nat nr -> num_control_rails h = Z.of_nat nc ->
  (nr <= length (mr h))%nat -> (nc <= length (control_mr h))%nat ->
  (forall r, r ∈ drop nr (mr h) ++ drop nc (control_mr h) -> r = NULL) ->
  wp (dereg_mr_ep p false) (fun rc w' => rc = 0 /\ dev_inv w' A ({[k]} ∪ S) ∅ /\ mr_cache w' = mr_cache w) w.
Proof.
  intros [Hrest Hh Hpn Hmrs Hnd Hnull] H0 Hr0 Hnr Hnc Hlr Hlc Hdrop.
  unfold dereg_mr_ep. rewrite (proj2 (Z.eqb_neq _ _) Hpn). wp_simpl. apply (get_handle_wp w p h); [done|].
  rewrite (proj2 (Z.ltb_ge _ _)) by lia. wp_simpl. cbn [Z.eqb]. wp_simpl.
  pose proof (pool_active _ _ _ _ Hrest) as Hact. cbn in Hact. rewrite Hact. wp_simpl.
  apply (wp_of_option _ r0); [done|].
  assert (mrs w !! r0 = Some k) as Hk0.
  { apply Hmrs; [|done]. apply elem_of_app. left. by eapply list_elem_of_lookup_2. }
  unfold fi_mr_key. wp_simpl. apply (wp_of_option _ k); [done|].
  destruct (d_limbo _ _ _ _ Hrest k) as [Hkr HkS]; [set_solver|]. cbn in Hkr.
  destruct (d_pool _ _ _ _ Hrest) as (ws & Hwf & HS). pose proof (Idpool.wf_size _ _ Hwf) as Hws. cbn in Hws.
  rewrite (proj2 (Z.eqb_neq _ _)) by (rewrite notavail; lia).
  apply (free_key_wp w S); [by exists ws|done|done|]. intros pool' Hrel' Hsz'.
  unfold dereg_rails. wp_simpl. apply (get_handle_wp _ p h); [done|]. wp_simpl. apply wp_assert.
  { apply andb_true_intro. split; apply Z.leb_le; lia. }
  rewrite Hnr, Hnc, !Nat2Z.id.
  assert (forall r, r ∈ take nc (control_mr h) ++ take nr (mr h) -> r ∈ rails_of h) as Hsub.
  { intros r. unfold rails_of. rewrite !elem_of_app. intros [H|H]; [right|left]; by eapply elem_of_take in H as (? & ? & _);
      eapply list_elem_of_lookup_2. }
  assert (NoDup (filter (fun r => r <> NULL) (take nc (control_mr h)) ++ filter (fun r => r <> NULL) (take nr (mr h)))) as Hnd2.
  { assert (forall n (l : list Z), (forall r, r ∈ drop n l -> r = NULL) ->
      filter (fun r => r <> NULL) (take n l) = filter (fun r => r <> NULL) l) as Hfil.
    { intros n l Hl. rewrite <- (take_drop n l) at 2. rewrite filter_app, (filter_none _ (drop n l)), app_nil_r; [done|].
      intros r Hr Hne. by apply Hne, Hl. }
    rewrite !Hfil by (intros r Hr; apply Hdrop, elem_of_app; auto).
    unfold rails_of in Hnd. by rewrite filter_app, Permutation_app_comm in Hnd. }
  apply NoDup_app in Hnd2 as (Hndc & Hdisj & Hndr).
  wp_simpl. eapply wp_mono; [apply close_rails_spec; [|done|done]|].
  { intros r Hr Hrn. exists k. cbn. apply Hmrs; [|done]. apply Hsub, elem_of_app. by left. }
  cbn. intros rc w1 (-> & Hp1 & Hc1 & Hh1 & Hm1). wp_simpl. eapply wp_mono; [apply close_rails_spec; [|done|]|].
  { intros r Hr Hrn. exists k. rewrite Hm1. apply map_lookup_filter_Some. split; [cbn; apply Hmrs; [|done]; apply Hsub, elem_of_app; by right|].
    cbn. intros Hrc. apply (Hdisj r); by apply list_elem_of_filter. }
  { rewrite Hm1. apply map_lookup_filter_None. by left. }
  intros rc w2 (-> & Hp2 & Hc2 & Hh2 & Hm2). unfold free_rdma_mr_handle.
  rewrite (proj2 (Z.eqb_neq _ _) Hpn). wp_simpl. apply (get_handle_wp w2 p h); [rewrite Hh2, Hh1; done|]. wp_simpl.
  split_and!; [done| |by cbn; rewrite Hc2, Hc1].
  eapply (dev_inv_freed (without p h w)); [done|cbn; by rewrite Hp2, Hp1|cbn; by rewrite Hp2, Hp1| |cbn; by rewrite Hh2, Hh1].
  cbn. rewrite Hm2, Hm1. apply filter_rails; [done| |done].
  intros r Hr Hrn. unfold rails_of in Hr. rewrite elem_of_app in Hr |- *.
  assert (r ∉ drop nr (mr h) ++ drop nc (control_mr h)) as Hnd3 by (intros H; by apply Hrn, Hdrop).
  rewrite not_elem_of_app in Hnd3. rewrite <- (take_drop nr (mr h)), <- (take_drop nc (control_mr h)), !elem_of_app in Hr.
  naive_solver.
Qed.

Lemma full_partial w A S p l lc k :
  dev_inv w A S ∅ -> A !! p = Some (l, lc, k) -> partial w (delete p A) S p k (to_handle (l, lc, k)).
Proof.
  intros [] Hp. destruct (d_shape0 _ _ _ _ Hp) as (Hl & Hlc & Hnd & Hnn & Hk & HkS & _).
  assert (forall p' l' lc', delete p A !! p' = Some (l', lc', k) -> False) as Hother.
  { intros p' l' lc' H. apply lookup_delete_Some in H as [Hne H]. apply Hne. by eapply d_keys0. }
  constructor.
  - constructor; cbn; try done.
    + intros p'. destruct (decide (p = p')) as [<-|]; [by rewrite !lookup_delete_eq|]. by rewrite !lookup_delete_ne.
    + rewrite lookup_delete_None. by right.
    + intros p' l' lc' k' Hp'. apply lookup_delete_Some in Hp' as [Hne Hp'].
      destruct (d_shape0 _ _ _ _ Hp') as (? & ? & ? & ? & [? ?] & ? & _). split_and!; try done.
      intros ->%elem_of_singleton. by apply Hne; eapply d_keys0.
    + intros r k'. rewrite map_lookup_filter_Some, d_mrs0. cbn. split.
      * intros [(p' & l' & lc' & Hp' & Hr) Hni]. exists p', l', lc'. split; [|done]. apply lookup_delete_Some.
        split; [|done]. intros <-. rewrite Hp in Hp'. by simplify_eq.
      * intros (p' & l' & lc' & Hp' & Hr). apply lookup_delete_Some in Hp' as [Hne Hp']. split; [by exists p', l', lc'|].
        intros Hr'. assert (mrs w !! r = Some k) as H1 by (apply d_mrs0; by exists p, l, lc).
        assert (mrs w !! r = Some k') as H2 by (apply d_mrs0; by exists p', l', lc').
        rewrite H1 in H2. simplify_eq. by apply Hne; eapply d_keys0.
    + intros p1 p2 l1 lc1 l2 lc2 k' H1 H2. apply lookup_delete_Some in H1 as [_ H1], H2 as [_ H2]. by eapply d_keys0.
    + by intros k' ->%elem_of_singleton.
    + intros k' Hk'. destruct (d_all0 _ Hk') as [|[|(p' & l' & lc' & Hp')]]; [by left|set_solver|].
      destruct (decide (p = p')) as [<-|Hne]; [rewrite Hp in Hp'; simplify_eq; right; left; set_solver|].
      right. right. exists p', l', lc'. by rewrite lookup_delete_ne.
  - by rewrite d_handles0, Hp.
  - intros ->. congruence.
  - intros r Hr _. apply d_mrs0. by exists p, l, lc.
  - cbn. rewrite filter_all; [done|]. intros r Hr ->. done.
  - destruct (mrs w !! NULL) as [k'|] eqn:Hm; [|done]. apply d_mrs0 in Hm as (p' & l' & lc' & Hp' & Hr).
    by destruct (d_shape0 _ _ _ _ Hp') as (_ & _ & _ & ? & _).
Qed.

Lemma partial_full w A S p l lc k :
  partial w A S p k (to_handle (l, lc, k)) -> length l = length rail_domains -> length lc = length control_domains ->
  NULL ∉ l ++ lc -> dev_inv w (<[p := (l, lc, k)]> A) S ∅.
Proof.
  intros [Hrest Hh Hpn Hmrs Hnd Hnull] Hl Hlc Hnn. pose proof Hrest as []. cbn in *.
  assert (A !! p = None) as HpA.
  { specialize (d_handles0 p). rewrite lookup_delete_eq in d_handles0. by destruct (A !! p). }
  assert (NoDup (l ++ lc)) as Hnd2.
  { unfold rails_of in Hnd. cbn in Hnd. rewrite filter_all in Hnd; [done|]. by intros r Hr ->. }
  destruct (d_limbo0 k) as [Hk HkS]; [set_solver|].
  assert (forall p' l' lc' k', A !! p' = Some (l', lc', k') -> k' <> k) as Hnk.
  { intros p' l' lc' k' Hp'. destruct (d_shape0 _ _ _ _ Hp') as (_ & _ & _ & _ & _ & _ & Hne). set_solver. }
  constructor; try done.
  - intros p'. destruct (decide (p = p')) as [<-|Hne]; [by rewrite lookup_insert_eq|].
    rewrite lookup_insert_ne by done. specialize (d_handles0 p'). by rewrite lookup_delete_ne in d_handles0.
  - by rewrite lookup_insert_ne.
  - intros p' l' lc' k' Hp'. destruct (decide (p = p')) as [<-|].
    + rewrite lookup_insert_eq in Hp'. simplify_eq. split_and!; try done; lia.
    + rewrite lookup_insert_ne in Hp' by done. destruct (d_shape0 _ _ _ _ Hp') as (? & ? & ? & ? & [? ?] & ? & _).
      by split_and!.
  - intros r k'. split.
    + intros Hr. destruct (decide (r ∈ l ++ lc)) as [Hin|Hni].
      * exists p, l, lc. rewrite lookup_insert_eq. split; [|done].
        assert (mrs w !! r = Some k) as Hr2 by (apply Hmrs; [done|by intros ->]). congruence.
      * destruct (proj1 (d_mrs0 r k')) as (p' & l' & lc' & Hp' & Hr'); [by apply map_lookup_filter_Some|].
        exists p', l', lc'. rewrite lookup_insert_ne; [done|]. intros <-. congruence.
    + intros (p' & l' & lc' & Hp' & Hr). destruct (decide (p = p')) as [<-|Hne].
      * rewrite lookup_insert_eq in Hp'. simplify_eq. apply Hmrs; [done|by intros ->].
      * rewrite lookup_insert_ne in Hp' by done. assert (filter (fun rk : Z * Z => rk.1 ∉ l ++ lc) (mrs w) !! r = Some k')
          as H by (apply d_mrs0; by exists p', l', lc'). by apply map_lookup_filter_Some in H as [? _].
  - intros p1 p2 l1 lc1 l2 lc2 k' H1 H2.
    destruct (decide (p = p1)) as [<-|], (decide (p = p2)) as [<-|]; try done;
      rewrite ?lookup_insert_eq, ?lookup_insert_ne in H1 by done;
      rewrite ?lookup_insert_eq, ?lookup_insert_ne in H2 by done; simplify_eq; try (by exfalso; eapply Hnk).
    by eapply d_keys0.
  - intros k' Hk'. destruct (d_all0 k' Hk') as [|[Hk2|(p' & l' & lc' & Hp')]]; [by left| |].
    + right. right. exists p, l, lc. apply elem_of_singleton in Hk2. subst. by rewrite lookup_insert_eq.
    + right. right. exists p', l', lc'. rewrite lookup_insert_ne; [done|]. intros <-. congruence.
Qed.

(** A new registration goes into an empty place of the handle. *)
Lemma partial_put w w' A S p k h h' r j :
  partial w A S p k h -> mrs w !! r = None -> r <> NULL ->
  rails_of h !! j = Some NULL -> rails_of h' = <[j := r]> (rails_of h) ->
  key_pool w' = key_pool w -> mrs w' = <[r := k]> (mrs w) -> handles w' = <[p := h']> (handles w) ->
  partial w' A S p k h'.
Proof.
  intros [Hrest Hh Hpn Hmrs Hnd Hnull] Hr Hrn Hj Hrails Hpool Hm Hhs.
  assert (r ∉ rails_of h) as Hni by (intros Hin; specialize (Hmrs r Hin Hrn); congruence).
  pose proof (lookup_lt_Some _ _ _ Hj) as Hlt.
  assert (forall x, x ∈ rails_of h' <-> x = r \/ exists i, i <> j /\ rails_of h !! i = Some x) as Hin'.
  { intros x. rewrite Hrails. split.
    - intros [i Hi]%list_elem_of_lookup_1. apply list_lookup_insert_Some in Hi as [(-> & -> & _)|[? ?]]; eauto.
    - intros [->|(i & Hne & Hi)].
      + apply (list_elem_of_lookup_2 _ j). by apply list_lookup_insert_eq.
      + apply (list_elem_of_lookup_2 _ i). by rewrite list_lookup_insert_ne. }
  constructor.
  - assert (filter (fun rk : Z * Z => rk.1 ∉ rails_of h') (mrs w') =
            filter (fun rk : Z * Z => rk.1 ∉ rails_of h) (mrs w)) as Hf.
    { rewrite Hm. apply map_eq. intros i. apply option_eq. intros x. rewrite !map_lookup_filter_Some. cbn.
      rewrite Hin'. destruct (decide (i = r)) as [->|Hne]; [rewrite lookup_insert_eq|rewrite lookup_insert_ne by done].
      - split; [|intros [? _]; congruence]. intros [_ Hx]. exfalso. apply Hx. by left.
      - split; intros [Hi Hx]; (split; [done|]); intros Hc; apply Hx.
        + right. apply list_elem_of_lookup_1 in Hc as [i' Hi']. exists i'. split; [|done]. intros ->.
          rewrite Hj in Hi'. congruence.
        + destruct Hc as [|(i' & _ & Hi')]; [done|]. by eapply list_elem_of_lookup_2. }
    destruct Hrest. constructor; cbn in *; rewrite ?Hf, ?Hpool, ?Hhs, ?delete_insert_eq; try done.
  - rewrite Hhs. by rewrite lookup_insert_eq.
  - done.
  - intros x Hx Hxn. rewrite Hm. apply Hin' in Hx as [->|(i & Hne & Hi)]; [by rewrite lookup_insert_eq|].
    rewrite lookup_insert_ne; [apply Hmrs; [by eapply list_elem_of_lookup_2|done]|]. intros <-.
    by apply Hni; eapply list_elem_of_lookup_2.
  - rewrite Hrails. rewrite insert_take_drop by done. rewrite <- (take_drop_middle _ _ _ Hj) in Hnd.
    rewrite filter_app, filter_cons in Hnd |- *. rewrite decide_False in Hnd by (by intros Hc; apply Hc).
    rewrite decide_True by done. rewrite <- filter_app in Hnd.
    rewrite <- Permutation_middle, <- filter_app. apply NoDup_cons. split; [|done].
    intros [_ Hc]%list_elem_of_filter. apply Hni. apply elem_of_app in Hc as [Hc|Hc].
    + by eapply elem_of_take in Hc as (? & ? & _); eapply list_elem_of_lookup_2.
    + apply list_elem_of_lookup_1 in Hc as [i Hi]. rewrite lookup_drop in Hi. by eapply list_elem_of_lookup_2.
  - rewrite Hm. by rewrite lookup_insert_ne.
Qed.

(** The first rail refuses some registration. *)
Definition first_rail_refuses : Prop :=
  exists h open a d ds, rail_domains = d :: ds /\ (mr_regattr h open d a).1.1 <> 0.

Lemma register_rail_wp w d a Q :
  (forall rc h, rc <> 0 -> (mr_regattr (hist w) (mrs w) d a).1.1 <> 0 -> Q (rc, NULL) (w_hist h w)) ->
  (forall r h, (mr_regattr (hist w) (mrs w) d a).1.1 = 0 -> r <> NULL -> mrs w !! r = None ->
    Q (0, r) (w_mrs <[r := a_requested_key a]> (w_hist h w))) ->
  wp (register_rail_mr_buffer d a) Q w.
Proof.
  intros Hf Hok. unfold register_rail_mr_buffer, fi_mr_regattr. wp_simpl.
  destruct (mr_regattr (hist w) (mrs w) d a) as [[rc r] key] eqn:Hreg. wp_simpl.
  destruct (Z.eqb_spec rc 0) as [->|Hrc]; wp_simpl; cbn [negb].
  - destruct (regattr_fresh _ _ _ _ _ _ Hreg) as (Hrn & Hrf & ->). apply wp_ret. by apply Hok.
  - rewrite (proj2 (Z.eqb_neq _ _) Hrc). cbn [negb]. apply wp_ret. by apply Hf.
Qed.

Lemma partial_hist w A S p k h g : partial w A S p k h -> partial (w_hist g w) A S p k h.
Proof. intros [[] ? ? ? ? ?]. by constructor; [constructor|..]. Qed.

(** Filling the place of rail [i]. *)
Lemma partial_put_at w A S p k h h' r (pre post : list Z) a g :
  partial w A S p k h -> mrs w !! r = None -> r <> NULL -> a_requested_key a = k ->
  rails_of h = pre ++ NULL :: post -> rails_of h' = pre ++ r :: post ->
  partial (w_handles <[p := h']> (w_mrs <[r := a_requested_key a]> (w_hist g w))) A S p k h'.
Proof.
  intros Hp Hr Hrn <- Hh Hh'. eapply (partial_put w _ _ _ _ _ h h' r (length pre)); try done.
  - by rewrite Hh, list_lookup_middle.
  - by rewrite Hh, Hh', insert_app_r_alt, Nat.sub_diag by lia.
Qed.

(** A handle without any registration: its clean-up dereferences NULL. *)
Lemma dereg_unregistered_crashes w p h ms :
  p <> NULL -> handles w !! p = Some h -> 0 < num_rails h -> mr h = NULL :: ms -> mrs w !! NULL = None ->
  Idpool.nccl_ofi_idpool_active (key_pool w) = true -> dereg_mr_ep p false w = None.
Proof.
  intros Hp Hh Hn Hms Hnull Hact. unfold dereg_mr_ep. rewrite (proj2 (Z.eqb_neq _ _) Hp). apply wp_fails.
  apply (get_handle_wp _ _ _ _ Hh). rewrite (proj2 (Z.ltb_ge _ _)) by lia. apply wp_fails, wp_ret. cbn [Z.eqb].
  apply wp_fails, wp_gets. rewrite Hact. apply bind_fails, wp_fails. rewrite Hms. apply wp_ret.
  apply bind_fails. unfold fi_mr_key. apply wp_fails, wp_gets. by rewrite Hnull.
Qed.

Lemma register_data_rails A S p k a ds : forall w l,
  a_requested_key a = k -> Idpool.nccl_ofi_idpool_active (key_pool w) = true ->
  partial w A S p k (mk_handle (Z.of_nat (length rail_domains)) 0 (l ++ replicate (length ds) NULL)
    (replicate (length control_domains) NULL)) ->
  NULL ∉ l -> (length l + length ds = length rail_domains)%nat -> (l = [] -> ds = rail_domains) ->
  wp_or first_rail_refuses (register_rails ds (length l) a p put_mr) (fun rc w' => mr_cache w' = mr_cache w /\
    ((rc = 0 /\ exists l', partial w' A S p k (mk_handle (Z.of_nat (length rail_domains)) 0 l'
        (replicate (length control_domains) NULL)) /\ length l' = length rail_domains /\ NULL ∉ l') \/
     (rc <> 0 /\ dev_inv w' A ({[k]} ∪ S) ∅))) w.
Proof.
  induction ds as [|d ds IH]; intros w l Ha Hact Hp Hnl Hlen Hstart; cbn [register_rails].
  { apply wp_or_wp, wp_ret. split; [done|]. left. split; [done|]. cbn in Hp, Hlen. rewrite app_nil_r in Hp. exists l. split_and!; [done|lia|done]. }
  wp_simpl. apply wp_or_wp, register_rail_wp.
  - intros rc g Hrc Hreg. cbn [negb]. rewrite (proj2 (Z.eqb_neq _ _) Hrc). cbn [negb].
    destruct l as [|r0 l].
    { apply wp_or_crash; [exists (hist w), (mrs w), a, d, ds; split; [by rewrite Hstart|done]|].
      apply bind_fails. eapply dereg_unregistered_crashes; [apply Hp|apply (p_handle _ _ _ _ _ _ Hp)|cbn in *; lia|done|apply Hp|done]. }
    apply wp_or_wp. wp_simpl. eapply wp_mono; [eapply (dereg_partial _ _ _ _ k _ r0 (length rail_domains) 0 (partial_hist _ _ _ _ _ _ g Hp));
      cbn [mr num_rails num_control_rails control_mr]; try done|].
    + cbn. intros ->. apply Hnl. by left.
    + rewrite length_app, length_replicate. cbn in *. lia.
    + lia.
    + intros r. rewrite drop_ge, drop_0 by (rewrite length_app, length_replicate; cbn in *; lia). cbn.
      by intros [-> _]%elem_of_replicate.
    + intros rc' w' (-> & Hd & Hc). apply wp_ret. split; [done|]. right. done.
  - intros r g _ Hrn Hrf. cbn [Z.eqb negb]. wp_simpl.
    apply wp_or_wp. eapply upd_handle_wp; [cbn; apply (p_handle _ _ _ _ _ _ Hp)|].
    set (h' := mk_handle (Z.of_nat (length rail_domains)) 0 ((l ++ [r]) ++ replicate (length ds) NULL)
      (replicate (length control_domains) NULL)).
    assert (put_mr (length l) r (mk_handle (Z.of_nat (length rail_domains)) 0 (l ++ replicate (length (d :: ds)) NULL)
      (replicate (length control_domains) NULL)) = h') as ->.
    { unfold put_mr, set_mr, h'. cbn. f_equal. rewrite insert_app_r_alt, Nat.sub_diag by lia. cbn. by rewrite <- app_assoc. }
    replace (Datatypes.S (length l)) with (length (l ++ [r])) by (rewrite length_app; cbn; lia).
    eapply wp_or_mono; [apply (IH _ (l ++ [r])); try done|].
    + eapply (partial_put_at _ _ _ _ _ _ h' r l (replicate (length ds) NULL ++ replicate (length control_domains) NULL));
        try done; cbn; by rewrite <- ?app_assoc.
    + rewrite not_elem_of_app. split; [done|]. intros Hx%list_elem_of_singleton. by apply Hrn.
    + rewrite length_app. cbn in *. lia.
    + by destruct l.
    + cbn. intros rc w' [Hc Hres]. done.
Qed.

Lemma register_control_rails A S p k a ds : forall w l lc,
  a_requested_key a = k ->
  partial w A S p k (mk_handle (Z.of_nat (length rail_domains)) (Z.of_nat (length control_domains)) l
    (lc ++ replicate (length ds) NULL)) ->
  NULL ∉ l ++ lc -> length l = length rail_domains -> (length lc + length ds = length control_domains)%nat ->
  wp (register_rails ds (length lc) a p put_control_mr) (fun rc w' => mr_cache w' = mr_cache w /\
    ((rc = 0 /\ exists lc', dev_inv w' (<[p := (l, lc', k)]> A) S ∅) \/
     (rc <> 0 /\ dev_inv w' A ({[k]} ∪ S) ∅))) w.
Proof.
  induction ds as [|d ds IH]; intros w l lc Ha Hp Hnl Hl Hlen; cbn [register_rails].
  { apply wp_ret. split; [done|]. left. split; [done|]. cbn in Hp, Hlen. rewrite app_nil_r in Hp. exists lc.
    apply partial_full; [done|done|lia|done]. }
  assert (exists r0 l0, l = r0 :: l0) as (r0 & l0 & Hl0).
  { destruct l as [|r0 l0]; [|eauto]. pose proof rails_there. by destruct rail_domains. }
  wp_simpl. apply register_rail_wp.
  - intros rc g Hrc Hreg. cbn [negb]. rewrite (proj2 (Z.eqb_neq _ _) Hrc). cbn [negb]. wp_simpl.
    eapply wp_mono; [eapply (dereg_partial _ _ _ _ k _ r0 (length rail_domains) (length control_domains)
      (partial_hist _ _ _ _ _ _ g Hp)); cbn [mr num_rails num_control_rails control_mr]; try done|].
    + by rewrite Hl0.
    + intros ->. apply Hnl. rewrite Hl0. left.
    + lia.
    + rewrite length_app, length_replicate. cbn in *. lia.
    + intros r. rewrite !drop_ge by (rewrite ?length_app, ?length_replicate; cbn in *; lia). by intros ?%elem_of_nil.
    + intros rc' w' (-> & Hd & Hc). apply wp_ret. split; [done|]. right. done.
  - intros r g _ Hrn Hrf. cbn [Z.eqb negb]. wp_simpl.
    eapply upd_handle_wp; [cbn; apply (p_handle _ _ _ _ _ _ Hp)|].
    set (h' := mk_handle (Z.of_nat (length rail_domains)) (Z.of_nat (length control_domains)) l
      ((lc ++ [r]) ++ replicate (length ds) NULL)).
    assert (put_control_mr (length lc) r (mk_handle (Z.of_nat (length rail_domains)) (Z.of_nat (length control_domains)) l
      (lc ++ replicate (length (d :: ds)) NULL)) = h') as ->.
    { unfold put_control_mr, set_control_mr, h'. cbn. f_equal. rewrite insert_app_r_alt, Nat.sub_diag by lia. cbn. by rewrite <- app_assoc. }
    replace (Datatypes.S (length lc)) with (length (lc ++ [r])) by (rewrite length_app; cbn; lia).
    eapply wp_mono; [apply (IH _ l (lc ++ [r])); try done|].
    + eapply (partial_put_at _ _ _ _ _ _ h' r (l ++ lc) (replicate (length ds) NULL));
        try done; cbn; by rewrite <- ?app_assoc.
    + rewrite app_assoc, not_elem_of_app. split; [done|]. intros Hx%list_elem_of_singleton. by apply Hrn.
    + rewrite length_app. cbn in *. lia.
    + cbn. intros rc w' [Hc Hres]. done.
Qed.

Lemma type_attr_error access ckey type rc : type_attr access ckey type = inl rc -> rc <> 0.
Proof.
  unfold type_attr. destruct (type =? NCCL_PTR_HOST); [done|]. destruct (have_cuda && _).
  - destruct (cuda_device_for_addr _) as [rc' dev]. destruct (Z.eqb_spec rc' 0); cbn; [done|]. by intros [= <-].
  - destruct (have_neuron && _); [done|]. by intros [= <-].
Qed.

Lemma allocate_key_wp w S Q :
  Idpool.idpool_rel (key_pool w) S -> S <> ∅ ->
  (forall k p', k ∈ S -> 0 <= k < Idpool.size (key_pool w) -> Idpool.idpool_rel p' (S ∖ {[k]}) ->
    Idpool.size p' = Idpool.size (key_pool w) -> Q k (w_key_pool p' w)) ->
  wp allocate_key Q w.
Proof.
  intros Hrel HS HQ. unfold allocate_key. wp_simpl.
  destruct (Idpool.allocate_refines _ _ Hrel) as (S' & Hstep & Hrel' & Hsz).
  destruct (Idpool.nccl_ofi_idpool_allocate_id (key_pool w)) as [key p']. cbn in *.
  inversion Hstep; subst; [|done]. wp_simpl. apply HQ; try done. destruct Hrel as (ws & _ & Hids). by apply Hids.
Qed.

(** An empty handle that owns the key just taken. *)
Lemma partial_start w w' A S p k h :
  dev_inv w A S ∅ -> k ∈ S -> p <> NULL -> handles w !! p = None ->
  Idpool.idpool_rel (key_pool w') (S ∖ {[k]}) -> Idpool.size (key_pool w') = Idpool.size (key_pool w) ->
  mrs w' = mrs w -> handles w' = <[p := h]> (handles w) -> (forall r, r ∈ rails_of h -> r = NULL) ->
  partial w' A (S ∖ {[k]}) p k h.
Proof.
  intros [] Hk Hpn Hp Hrel Hsz Hm Hh Hr.
  assert (mrs w !! NULL = None) as Hnull.
  { destruct (mrs w !! NULL) as [k'|] eqn:Hmr; [|done]. apply d_mrs0 in Hmr as (p' & l & lc & Hp' & Hin).
    by destruct (d_shape0 _ _ _ _ Hp') as (_ & _ & _ & ? & _). }
  assert (0 <= k < Idpool.size (key_pool w)) as Hkr.
  { destruct d_pool0 as (ws & _ & Hids). by apply Hids. }
  constructor; try done.
  - constructor; cbn; rewrite ?Hm, ?Hh, ?Hsz; try done.
    + intros p'. rewrite delete_insert_id by done. apply d_handles0.
    + intros p' l lc k' Hp'. destruct (d_shape0 _ _ _ _ Hp') as (? & ? & ? & ? & [? ?] & ? & _). split_and!; try done; set_solver.
    + intros r k'. rewrite <- d_mrs0. rewrite map_lookup_filter_Some. cbn. split; [by intros [? _]|]. intros Hrk. split; [done|].
      intros Hin. apply Hr in Hin. subst. congruence.
    + intros k' ->%elem_of_singleton. split; [done|set_solver].
    + intros k' Hk'. destruct (decide (k' = k)) as [->|]; [right; left; set_solver|].
      destruct (d_all0 _ Hk') as [|[|]]; [left; set_solver|set_solver|by right; right].
  - rewrite Hh. by rewrite lookup_insert_eq.
  - intros r Hin Hne. by apply Hr in Hin.
  - rewrite filter_none; [constructor|]. intros r Hin Hne. by apply Hne, Hr.
  - by rewrite Hm.
Qed.

Lemma reg_on_device_spec w A S ckey type :
  dev_inv w A S ∅ -> S <> ∅ ->
  wp_or first_rail_refuses (reg_mr_on_device ckey type) (fun res w' => mr_cache w' = mr_cache w /\
    ((res.1 = 0 /\ res.2 <> NULL /\ A !! res.2 = None /\
      exists l lc k, k ∈ S /\ dev_inv w' (<[res.2 := (l, lc, k)]> A) (S ∖ {[k]}) ∅) \/
     (res.1 <> 0 /\ res.2 = NULL /\ dev_inv w' A S ∅))) w.
Proof.
  intros Hd HS. unfold reg_mr_on_device, calloc_rdma_mr_handle. wp_simpl.
  set (p := handle_alloc (hist w) (handles w)). destruct (Z.eqb_spec p NULL) as [Hp|Hp]; wp_simpl.
  { rewrite Hp. cbn [Z.eqb]. apply wp_or_wp, wp_ret. split; [done|]. right. split_and!; [done|done|]. by destruct Hd. }
  rewrite (proj2 (Z.eqb_neq _ _) Hp).
  pose proof (handle_fresh _ _ Hp) as Hfresh. fold p in Hfresh.
  assert (A !! p = None) as HpA.
  { rewrite (d_handles _ _ _ _ Hd) in Hfresh. by destruct (A !! p). }
  match goal with |- wp_or _ _ _ ?x => set (w1 := x) end.
  unfold set_mr_req_attr. wp_simpl. destruct (type_attr _ ckey type) as [rc|[[acc iface] dev]] eqn:Hta; wp_simpl.
  { unfold free_rdma_mr_handle. rewrite (proj2 (Z.eqb_neq _ _) Hp). wp_simpl.
    apply wp_or_wp. eapply get_handle_wp; [cbn; by rewrite lookup_insert_eq|]. wp_simpl. split; [done|]. right.
    split_and!; [by eapply type_attr_error|done|]. destruct Hd. constructor; cbn; try done.
    intros p'. rewrite delete_insert_id by done. apply d_handles0. }
  assert (Idpool.nccl_ofi_idpool_active (key_pool w1) = true) as -> by (by eapply (pool_active w)).
  wp_simpl. apply wp_or_wp, (allocate_key_wp w1 S); [apply (d_pool _ _ _ _ Hd)|done|].
  intros k pool' Hk Hkr Hrel Hsz. rewrite (proj2 (Z.ltb_ge _ _)) by lia. wp_simpl.
  apply wp_or_wp. eapply upd_handle_wp; [cbn; by rewrite lookup_insert_eq|].
  match goal with |- wp_or _ _ _ ?x => set (w2 := x) end. set (attr := mk_attr _ _ _ _ _ _).
  assert (partial w2 A (S ∖ {[k]}) p k (mk_handle (Z.of_nat (length rail_domains)) 0
    ([] ++ replicate (length rail_domains) NULL) (replicate (length control_domains) NULL))) as Hpart.
  { eapply (partial_start w); try done; [cbn; by rewrite insert_insert_eq|].
    intros r. unfold rails_of. cbn. rewrite elem_of_app. by intros [[-> _]%elem_of_replicate|[-> _]%elem_of_replicate]. }
  assert ({[k]} ∪ S ∖ {[k]} = S) as Hback.
  { symmetry. by apply union_difference_singleton_L. }
  wp_simpl. eapply wp_or_mono; [eapply (register_data_rails A _ p k attr rail_domains w2 []); try done; [|set_solver]|].
  { unfold Idpool.nccl_ofi_idpool_active. apply negb_true_iff, Z.eqb_neq. cbn. lia. }
  intros rc w3 [Hc3 [[-> (l & Hp3 & Hl & Hnl)]|[Hrc Hd3]]].
  2: { rewrite (proj2 (Z.eqb_neq _ _) Hrc). apply wp_or_wp, wp_ret. split; [done|]. right. rewrite Hback in Hd3. done. }
  cbn [Z.eqb negb]. apply wp_or_wp. wp_simpl. eapply upd_handle_wp; [apply (p_handle _ _ _ _ _ _ Hp3)|]. wp_simpl.
  eapply wp_mono; [eapply (register_control_rails A _ p k attr control_domains _ l []); try done|].
  - destruct Hp3 as [[] ? ? ? ? ?]. constructor; cbn in *; try done; [|by rewrite lookup_insert_eq].
    constructor; cbn in *; try done. intros p'. rewrite delete_insert_eq. apply d_handles0.
  - by rewrite app_nil_r.
  - intros rc w4 [Hc4 [[-> (lc & Hd4)]|[Hrc Hd4]]].
    + apply wp_ret. split; [cbn in *; congruence|]. left. split_and!; [done..|]. by exists l, lc, k.
    + rewrite (proj2 (Z.eqb_neq _ _) Hrc). apply wp_ret. split; [cbn in *; congruence|]. right. rewrite Hback in Hd4. done.
Qed.

(** ** With the cache in front *)

(** The cache of [w] holds [m] after [n] operations. *)
Definition cached (w : world) (n : nat) (m : gmap Z MrCache.nccl_ofi_reg_entry_t) : Prop :=
  exists c es, mr_cache w = Some c /\ MrCache.mr_rel c es /\ MrCache.rep n es m /\ MrCache.system_page_size c = page_size.

(** Registrations, cache and keys agree. *)
Record reg_inv (w : world) (n : nat) (A : books) (m : gmap Z MrCache.nccl_ofi_reg_entry_t) (S : gset Z) : Prop := {
  ri_dev : dev_inv w A S ∅;
  ri_cache : cached w n m;
  ri_dom : dom m = dom A;
}.

Definition grow_of (k : Z) : list (option MrCache.nccl_ofi_reg_entry_t) := default [] (cache_grow k).

(** One cache operation, by the refinement of MrCache.v. *)
Lemma cache_sim w n m op :
  cached w n m -> Z.of_nat n < 2 ^ 30 -> MrCache.op_ok page_size m op ->
  exists c r c' m', mr_cache w = Some c /\ MrCache.mr_exec grow_of c op = Some (r, c') /\
    cache_grow (MrCache.size c) = Some (grow_of (MrCache.size c)) /\
    MrCache.mr_spec page_size m op r m' /\ cached (w_mr_cache (Some c') w) (S n) m'.
Proof.
  intros (c & es & Hc & Hrel & Hrep & Hp) Hn Hop.
  assert (forall k, 0 <= k -> Z.of_nat (length (grow_of k)) = k) as Hgrow.
  { intros k Hk. unfold grow_of. by destruct (grow_succeeds k Hk) as (ext & -> & ?). }
  destruct (MrCache.mr_step_simulates grow_of c es n m op Hgrow Hrel Hrep Hn)
    as (r & c' & es' & m' & Hex & Hspec & Hrel' & Hrep' & Hp'); [by rewrite Hp|].
  exists c, r, c', m'. rewrite Hp in Hspec, Hp'. split_and!; try done; [|by exists c', es'].
  unfold grow_of. destruct (grow_succeeds (MrCache.size c)) as (ext & -> & _); [pose proof (MrCache.r_pos _ _ Hrel); lia|done].
Qed.

Lemma cache_lookup_spec w n m ckey :
  cached w n m -> Z.of_nat n < 2 ^ 30 -> MrCache.key_ok page_size ckey ->
  wp (cache_lookup ckey) (fun h w' => exists c' m', w' = w_mr_cache (Some c') w /\
    MrCache.mr_spec page_size m (MrCache.Lookup ckey) h m' /\ cached w' (S n) m') w.
Proof.
  intros Hc Hn Hk. destruct (cache_sim w n m (MrCache.Lookup ckey) Hc Hn Hk) as (c & r & c' & m' & Hw & Hex & _ & ? & ?).
  unfold cache_lookup. wp_simpl. apply (wp_of_option _ c); [done|]. wp_simpl. apply (wp_of_option _ (r, c')); [done|].
  wp_simpl. by exists c', m'.
Qed.

Lemma cache_insert_spec w n m ckey h :
  cached w n m -> Z.of_nat n < 2 ^ 30 -> MrCache.key_ok page_size ckey -> h <> NULL -> m !! h = None ->
  wp (cache_insert ckey h) (fun rc w' => exists c' m', w' = w_mr_cache (Some c') w /\
    MrCache.mr_spec page_size m (MrCache.Insert ckey h) rc m' /\ cached w' (S n) m') w.
Proof.
  intros Hc Hn Hk Hh Hf.
  destruct (cache_sim w n m (MrCache.Insert ckey h) Hc Hn (conj Hk (conj Hh Hf))) as (c & r & c' & m' & Hw & Hex & Hg & ? & ?).
  unfold cache_insert. wp_simpl. apply (wp_of_option _ c); [done|]. wp_simpl. rewrite calloc_succeeds, Hg.
  apply (wp_of_option _ (r, c')); [done|]. wp_simpl. by exists c', m'.
Qed.

Lemma cache_del_spec w n m h :
  cached w n m -> Z.of_nat n < 2 ^ 30 ->
  wp (cache_del h) (fun rc w' => exists c' m', w' = w_mr_cache (Some c') w /\
    MrCache.mr_spec page_size m (MrCache.Del h) rc m' /\ cached w' (S n) m') w.
Proof.
  intros Hc Hn. destruct (cache_sim w n m (MrCache.Del h) Hc Hn I) as (c & r & c' & m' & Hw & Hex & _ & ? & ?).
  unfold cache_del. wp_simpl. apply (wp_of_option _ c); [done|]. wp_simpl. apply (wp_of_option _ (r, c')); [done|].
  wp_simpl. by exists c', m'.
Qed.

Lemma dev_inv_cache w c A S K : dev_inv w A S K -> dev_inv (w_mr_cache c w) A S K.
Proof. intros []. by constructor. Qed.

Lemma cached_frame w w' n m : cached w n m -> mr_cache w' = mr_cache w -> cached w' n m.
Proof. intros (c & es & Hc & H) Hw. exists c, es. by rewrite Hw. Qed.

Lemma cached_weaken w n m : cached w n m -> cached w (S n) m.
Proof. intros (c & es & Hc & Hr & Hrep & Hp). exists c, es. split_and!; try done. by apply MrCache.rep_weaken. Qed.

(** Deregistering an uncached handle. *)
Lemma dereg_device_spec w A S p l lc k :
  dev_inv w A S ∅ -> A !! p = Some (l, lc, k) ->
  wp (dereg_mr_ep p false) (fun rc w' => rc = 0 /\ dev_inv w' (delete p A) ({[k]} ∪ S) ∅ /\ mr_cache w' = mr_cache w) w.
Proof.
  intros Hd Hp. destruct (d_shape _ _ _ _ Hd _ _ _ _ Hp) as (Hl & Hlc & _ & Hnn & _).
  assert (exists r0 l0, l = r0 :: l0) as (r0 & l0 & Hl0).
  { destruct l as [|r0 l0]; [|eauto]. pose proof rails_there. by destruct rail_domains. }
  eapply (dereg_partial w _ _ p k (to_handle (l, lc, k)) r0 (length rail_domains) (length control_domains));
    cbn; try done; try lia.
  - by apply full_partial.
  - by rewrite Hl0.
  - intros ->. apply Hnn. rewrite Hl0. left.
  - intros r. rewrite !drop_ge by lia. by intros ?%elem_of_nil.
Qed.

Lemma reg_spec w n A m S ckey type :
  reg_inv w n A m S -> S <> ∅ -> Z.of_nat n + 1 < 2 ^ 30 -> MrCache.key_ok page_size ckey ->
  wp_or first_rail_refuses (reg_mr_ep ckey type true) (fun res w' => exists A' m' S', reg_inv w' (n + 2) A' m' S' /\
    ((res.1 = 0 /\ res.2 <> NULL /\ exists e, m' = <[res.2 := e]> m /\ MrCache.covers_key page_size ckey e /\
        MrCache.refcnt e = 1 + default 0 (MrCache.refcnt <$> m !! res.2)) \/
     (res.1 <> 0 /\ res.2 = NULL /\ m' = m /\ S' = S))) w.
Proof.
  intros [Hd Hc Hdom] HS Hn Hk. unfold reg_mr_ep. wp_simpl.
  apply wp_or_wp. eapply wp_mono; [apply (cache_lookup_spec w n m); [done|lia|done]|].
  intros h w1 (c' & m1 & -> & Hspec & Hc1). apply (dev_inv_cache _ (Some c')) in Hd as Hd1.
  assert (n + 2 = Datatypes.S (Datatypes.S n))%nat as -> by lia.
  inversion Hspec as [k h' e He Hcov| k Hmiss | | | | |]; subst.
  - assert (h <> NULL) as Hh.
    { destruct Hc as (c & es & _ & _ & Hrep & _). apply (MrCache.rep_lookup _ _ _ _ _ Hrep) in He as [He Heq].
      pose proof (MrCache.rep_count _ _ _ Hrep) as Hcnt. rewrite Forall_forall in Hcnt. destruct (Hcnt e He) as [_ ?].
      by subst. }
    rewrite (proj2 (Z.eqb_neq _ _) Hh). apply wp_or_wp, wp_ret. exists A. eexists _, S. split.
    + constructor; [done|by apply cached_weaken|]. rewrite dom_insert_lookup_L; [done|by rewrite He].
    + left. split_and!; [done..|]. eexists. split_and!; [done| |by cbn; rewrite He; cbn; lia]. done.
  - cbn [Z.eqb NULL negb]. wp_simpl. eapply wp_or_mono; [by apply (reg_on_device_spec _ A S)|].
    intros [rc p] w2 [Hcache [(Hrc & Hpn & HpA & l & lc & k & HkS & Hd2)|(Hrc & Hpn & Hd2)]]; cbn [fst snd] in *.
    2: { rewrite (proj2 (Z.eqb_neq _ _) Hrc). apply wp_or_wp, wp_ret. exists A, m1, S. split; [|right; done].
         constructor; [done| |done]. apply cached_weaken. by eapply cached_frame. }
    subst rc. cbn [Z.eqb negb]. wp_simpl.
    assert (m1 !! p = None) as Hmp.
    { apply not_elem_of_dom. rewrite Hdom. by apply not_elem_of_dom. }
    apply wp_or_wp. eapply wp_mono; [eapply (cache_insert_spec w2 (Datatypes.S n) m1); [by eapply cached_frame|lia|done..]|].
    intros rc w3 (c3 & m3 & -> & Hspec3 & Hc3).
    inversion Hspec3 as [| |k' h' h2 e He Hcov|k' h' e Hno Hcov H1 Hh| | |]; subst; [by exfalso; eapply Hmiss|].
    cbn [Z.eqb negb]. apply wp_ret. exists (<[MrCache.handle e := (l, lc, k)]> A). eexists _, (S ∖ {[k]}). split.
    + constructor; [by apply dev_inv_cache|done|]. by rewrite !dom_insert_L, Hdom.
    + left. split_and!; [done..|]. exists e. cbn. rewrite Hmp. cbn. split_and!; [done|done|lia].
Qed.

Lemma dereg_spec w n A m S p e :
  reg_inv w n A m S -> Z.of_nat n < 2 ^ 30 -> m !! p = Some e ->
  wp (dereg_mr_ep p true) (fun rc w' => rc = 0 /\ exists A' m' S', reg_inv w' (n + 2) A' m' S' /\
    ((1 < MrCache.refcnt e /\ m' = <[p := MrCache.mk_entry (MrCache.addr e) (MrCache.pages e) (MrCache.refcnt e - 1) p]> m) \/
     (MrCache.refcnt e = 1 /\ m' = delete p m))) w.
Proof.
  intros [Hd Hc Hdom] Hn He.
  assert (is_Some (A !! p)) as [[[l lc] k] Hp].
  { apply elem_of_dom. rewrite <- Hdom. by eapply elem_of_dom_2. }
  assert (p <> NULL) as Hpn by (intros ->; by rewrite (d_null _ _ _ _ Hd) in Hp).
  assert (handles w !! p = Some (to_handle (l, lc, k))) as Hh by (by rewrite (d_handles _ _ _ _ Hd), Hp).
  assert (n + 2 = Datatypes.S (Datatypes.S n))%nat as -> by lia.
  unfold dereg_mr_ep. rewrite (proj2 (Z.eqb_neq _ _) Hpn). wp_simpl. apply (get_handle_wp _ _ _ _ Hh).
  cbn [num_rails to_handle]. rewrite (proj2 (Z.ltb_ge _ _)) by lia. wp_simpl.
  eapply wp_mono; [by apply (cache_del_spec w n m)|]. intros rc w1 (c' & m1 & -> & Hspec & Hc1).
  apply (dev_inv_cache _ (Some c')) in Hd as Hd1.
  inversion Hspec as [| | | |h Hno|h e' He' H1|h e' He' H1]; subst; rewrite He in *; simplify_eq.
  - apply wp_ret. split; [done|]. exists A. eexists _, S. split; [|by left].
    constructor; [done|by apply cached_weaken|]. rewrite dom_insert_lookup_L; [done|by rewrite He].
  - pose proof (dereg_device_spec _ _ _ _ _ _ _ Hd1 Hp) as Hdev.
    unfold dereg_mr_ep in Hdev. rewrite (proj2 (Z.eqb_neq _ _) Hpn) in Hdev.
    unfold wp, bind at 1 in Hdev. unfold get_handle, bind, gets, of_option in Hdev. cbn [handles w_mr_cache] in Hdev. rewrite Hh in Hdev.
    cbn [ret num_rails to_handle] in Hdev. rewrite (proj2 (Z.ltb_ge _ _)) in Hdev by lia.
    eapply (wp_mono _ (fun rc w' => rc = 0 /\ dev_inv w' (delete p A) ({[k]} ∪ S) ∅ /\ mr_cache w' = mr_cache (w_mr_cache (Some c') w)));
      [exact Hdev|].
    intros rc w2 (-> & Hd2 & Hcache). split; [done|]. exists (delete p A), (delete p m), ({[k]} ∪ S). split; [|by right].
    constructor; [done| |by rewrite !dom_delete_L, Hdom]. apply cached_weaken. by eapply cached_frame.
Qed.

End Balance.

(** ** Sequences of calls *)

(** A device as it is after its creation. *)
Definition fresh_device `{RegEnv} (w : world) : Prop :=
  Idpool.idpool_rel (key_pool w) (Idpool.all_ids (Idpool.size (key_pool w))) /\
  cached w 0 ∅ /\ mrs w = ∅ /\ handles w = ∅.

(** Registrations and deregistrations through communicators: [U] are the handles
    the callers hold, with repetitions, after [n] cache operations. A key is left
    for every registration. *)
Inductive reg_run `{RegEnv} (w0 : world) : nat -> list Z -> world -> Prop :=
| run_init : reg_run w0 0 [] w0
| run_reg n U w ckey type rc p w' :
    reg_run w0 n U w -> MrCache.key_ok page_size ckey ->
    0 <= fst (Idpool.nccl_ofi_idpool_allocate_id (key_pool w)) ->
    reg_mr_send_comm ckey type w = Some ((rc, p), w') ->
    reg_run w0 (n + 2) (if rc =? 0 then p :: U else U) w'
| run_dereg n U U' w p rc w' :
    reg_run w0 n U w -> U ≡ₚ p :: U' -> dereg_mr_send_comm p w = Some (rc, w') ->
    reg_run w0 (n + 2) U' w'.

Definition users (p : Z) (U : list Z) : Z := Z.of_nat (length (filter (fun q => q = p) U)).

Lemma users_perm p U U' : U ≡ₚ U' -> users p U = users p U'.
Proof. intros H. unfold users. by rewrite H. Qed.

Lemma users_cons p q U : users p (q :: U) = (if decide (q = p) then 1 else 0) + users p U.
Proof. unfold users. rewrite filter_cons. case_decide; cbn [length]; lia. Qed.

Lemma users_elem p U : p ∈ U <-> users p U <> 0.
Proof.
  induction U as [|q U IH]; [split; [by intros ?%elem_of_nil|done]|].
  rewrite elem_of_cons, IH, users_cons. assert (0 <= users p U) by (unfold users; lia). case_decide; naive_solver lia.
Qed.

(** Every handle has as many users in the cache as callers hold it. *)
Definition counts (m : gmap Z MrCache.nccl_ofi_reg_entry_t) (U : list Z) : Prop :=
  forall p, default 0 (MrCache.refcnt <$> m !! p) = users p U.

Section Sequences.
Context {E : RegEnv} {L : RegOk}.

Lemma key_left w S : Idpool.idpool_rel (key_pool w) S ->
  0 <= fst (Idpool.nccl_ofi_idpool_allocate_id (key_pool w)) -> S <> ∅.
Proof.
  intros Hrel Hk ->. destruct (Idpool.allocate_refines _ _ Hrel) as (S' & Hstep & _).
  remember (fst (Idpool.nccl_ofi_idpool_allocate_id (key_pool w))) as r eqn:Hr. clear Hr.
  inversion Hstep; subst; [set_solver|done].
Qed.

Lemma device_cached_wp w c Q : mr_cache w = Some c -> Q true w -> wp device_cached Q w.
Proof. intros Hc HQ. unfold device_cached. wp_simpl. by rewrite Hc. Qed.

Lemma reg_inv_cached w n A m S : reg_inv w n A m S -> exists c, mr_cache w = Some c.
Proof. intros [_ (c & es & Hc & _) _]. eauto. Qed.

Lemma user_entry w n A m S U p : reg_inv w n A m S -> counts m U -> p ∈ U <-> is_Some (m !! p).
Proof.
  intros [_ (c & es & _ & _ & Hrep & _) _] Hcnt. rewrite users_elem, <- Hcnt. split.
  - destruct (m !! p); [done|]. by intros [].
  - intros [e He]. rewrite He. cbn. apply (MrCache.rep_lookup _ _ _ _ _ Hrep) in He as [He _].
    pose proof (MrCache.rep_count _ _ _ Hrep) as Hc. rewrite Forall_forall in Hc. destruct (Hc e He). lia.
Qed.

Lemma reg_counts m U p e :
  counts m U -> MrCache.refcnt e = 1 + default 0 (MrCache.refcnt <$> m !! p) -> counts (<[p := e]> m) (p :: U).
Proof.
  intros Hcnt He q. rewrite users_cons. case_decide as Hd.
  - subst q. rewrite lookup_insert_eq. cbn. by rewrite He, Hcnt.
  - rewrite lookup_insert_ne by done. apply Hcnt.
Qed.

Lemma dereg_counts m U U' p e :
  counts m U -> U ≡ₚ p :: U' -> m !! p = Some e ->
  (forall e', MrCache.refcnt e' = MrCache.refcnt e - 1 -> counts (<[p := e']> m) U') /\
  (MrCache.refcnt e = 1 -> counts (delete p m) U').
Proof.
  intros Hcnt Hp He. assert (forall q, default 0 (MrCache.refcnt <$> m !! q) = (if decide (p = q) then 1 else 0) + users q U') as H.
  { intros q. rewrite Hcnt, (users_perm _ _ _ Hp). apply users_cons. }
  split.
  - intros e' He' q. specialize (H q). destruct (decide (p = q)) as [<-|].
    + rewrite lookup_insert_eq. rewrite He in H. cbn in *. lia.
    + rewrite lookup_insert_ne by done. lia.
  - intros H1 q. specialize (H q). destruct (decide (p = q)) as [<-|].
    + rewrite lookup_delete_eq. rewrite He in H. cbn in *. lia.
    + rewrite lookup_delete_ne by done. lia.
Qed.

Lemma fresh_inv w : fresh_device w -> reg_inv w 0 ∅ ∅ (Idpool.all_ids (Idpool.size (key_pool w))).
Proof.
  intros (Hpool & Hc & Hm & Hh). constructor; [|done|set_solver]. constructor; try done.
  - intros p. by rewrite Hh, !lookup_empty.
  - intros r k. rewrite Hm. split; [done|]. by intros (? & ? & ? & ? & _).
  - intros k Hk. left. by apply Idpool.elem_of_all_ids.
Qed.

(** A registration through a communicator: a refused first rail is the only way
    in which it crashes. *)
Lemma reg_send_comm_spec w n A m S U ckey type :
  reg_inv w n A m S -> counts m U -> S <> ∅ -> Z.of_nat n + 1 < 2 ^ 30 -> MrCache.key_ok page_size ckey ->
  wp_or first_rail_refuses (reg_mr_send_comm ckey type) (fun res w' => exists A' m' S', reg_inv w' (n + 2) A' m' S' /\
    counts m' (if res.1 =? 0 then res.2 :: U else U)) w.
Proof.
  intros Hinv Hcnt HS Hn Hk. destruct (reg_inv_cached _ _ _ _ _ Hinv) as [c Hcw].
  unfold reg_mr_send_comm. apply wp_or_bind, wp_or_wp, (device_cached_wp _ c); [done|].
  eapply wp_or_mono; [by apply (reg_spec w n A m S)|].
  intros [rc p] w1 (A' & m' & S' & Hinv' & [(Hrc & Hpn & e & -> & Hcov & He)|(Hrc & _ & -> & _)]); cbn [fst snd] in *;
    exists A'; eexists _, S'; (split; [exact Hinv'|]).
  - subst rc. by apply reg_counts.
  - by rewrite (proj2 (Z.eqb_neq _ _) Hrc).
Qed.

Lemma reg_run_inv w0 n U w :
  fresh_device w0 -> reg_run w0 n U w -> Z.of_nat n < 2 ^ 30 -> exists A m S, reg_inv w n A m S /\ counts m U.
Proof.
  intros Hfresh Hrun.
  induction Hrun as [|n U w ckey type rc p w' _ IH Hk Hleft Hreg|n U U' w p rc w' _ IH Hp Hdereg]; intros Hn.
  - exists ∅, ∅, (Idpool.all_ids (Idpool.size (key_pool w0))). split; [|done]. by apply fresh_inv.
  - destruct IH as (A & m & S & Hinv & Hcnt); [lia|]. destruct (reg_inv_cached _ _ _ _ _ Hinv) as [c Hcw].
    refine (wp_or_value _ _ _ _ (rc, p) w' (reg_send_comm_spec w n A m S U ckey type Hinv Hcnt _ _ Hk) Hreg); [|lia].
    by eapply key_left; [apply Hinv|].
  - destruct IH as (A & m & S & Hinv & Hcnt); [lia|]. destruct (reg_inv_cached _ _ _ _ _ Hinv) as [c Hcw].
    assert (is_Some (m !! p)) as [e He].
    { eapply user_entry; [done|done|]. rewrite Hp. left. }
    assert (wp (dereg_mr_send_comm p) (fun rc w' => exists A' m' S', reg_inv w' (n + 2) A' m' S' /\ counts m' U') w) as Hwp.
    { unfold dereg_mr_send_comm. apply wp_bind, (device_cached_wp _ c); [done|].
      eapply wp_mono; [apply (dereg_spec w n A m S p e); [done|lia|done]|].
      destruct (dereg_counts m U U' p e Hcnt Hp He) as [H1 H2].
      intros rc' w1 (-> & A' & m' & S' & Hinv' & [[_ ->]|[Hone ->]]); exists A'; eexists _, S'; (split; [exact Hinv'|]); auto. }
    unfold wp in Hwp. by rewrite Hdereg in Hwp.
Qed.

End Sequences.

Section Claims.
Context {E : RegEnv} {L : RegOk}.

(** C16. Registrations of the RDMA transport balance. Start from a fresh device
    and register and deregister buffers through the communicators, in any order,
    with cache, key pool and rails together. The conditions: every registration
    finds a free key, [fi_close] succeeds, the cache gets the memory it asks for,
    and there are fewer than 2^30 cache operations; handles may fail to allocate
    and libfabric may refuse any rail. Then every handle a caller holds is
    registered on all its rails under one key that no other handle has; nothing
    else is registered; when all handles are back, no registration is open and
    every key is free again. A further deregistration of a held handle succeeds,
    and a further registration that finds a key returns, unless the first rail
    refuses it: that is the one way in which it crashes. *)
Theorem registrations_balance w0 n U w :
  fresh_device w0 -> reg_run w0 n U w -> Z.of_nat n < 2 ^ 30 ->
  (exists key : Z -> Z,
    (forall p, p ∈ U -> exists h, handles w !! p = Some h /\
      length (mr h) = length rail_domains /\ length (control_mr h) = length control_domains /\
      forall r, r ∈ rails_of h -> mrs w !! r = Some (key p)) /\
    (forall p q, p ∈ U -> q ∈ U -> key p = key q -> p = q) /\
    (forall p h, handles w !! p = Some h -> p ∈ U) /\
    (forall r k, mrs w !! r = Some k -> exists p h, p ∈ U /\ handles w !! p = Some h /\ r ∈ rails_of h)) /\
  (U = [] -> mrs w = ∅ /\ handles w = ∅ /\
    Idpool.idpool_rel (key_pool w) (Idpool.all_ids (Idpool.size (key_pool w)))) /\
  (forall p, p ∈ U -> exists w', dereg_mr_send_comm p w = Some (0, w')) /\
  (forall ckey type, MrCache.key_ok page_size ckey -> 0 <= fst (Idpool.nccl_ofi_idpool_allocate_id (key_pool w)) ->
    Z.of_nat n + 1 < 2 ^ 30 ->
    (exists res w', reg_mr_send_comm ckey type w = Some (res, w')) \/
    (reg_mr_send_comm ckey type w = None /\ first_rail_refuses)).
Proof.
  intros H0 Hrun Hn. destruct (reg_run_inv _ _ _ _ H0 Hrun Hn) as (A & m & S & Hinv & Hcnt).
  pose proof Hinv as [Hd _ Hdom].
  assert (forall p, p ∈ U <-> is_Some (A !! p)) as HU.
  { intros p. rewrite (user_entry _ _ _ _ _ _ _ Hinv Hcnt), <- !elem_of_dom. by rewrite Hdom. }
  split; [|split; [|split]].
  - exists (fun p => match A !! p with Some (_, _, k) => k | None => -1 end). split_and!.
    + intros p Hp. apply HU in Hp as [[[l lc] k] Hp]. destruct (d_shape _ _ _ _ Hd _ _ _ _ Hp) as (? & ? & _).
      exists (to_handle (l, lc, k)). rewrite (d_handles _ _ _ _ Hd), Hp. split_and!; try done.
      intros r Hr. apply (d_mrs _ _ _ _ Hd). by exists p, l, lc.
    + intros p q Hp Hq. apply HU in Hp as [[[l lc] k] Hp], Hq as [[[l' lc'] k'] Hq]. rewrite Hp, Hq. intros ->.
      by eapply d_keys.
    + intros p h Hh. apply HU. rewrite (d_handles _ _ _ _ Hd) in Hh. by destruct (A !! p).
    + intros r k Hr. apply (d_mrs _ _ _ _ Hd) in Hr as (p & l & lc & Hp & Hin). exists p, (to_handle (l, lc, k)).
      rewrite (d_handles _ _ _ _ Hd), Hp. split_and!; [by apply HU; rewrite Hp|done|done].
  - intros ->. assert (A = ∅) as ->.
    { apply map_empty. intros p. destruct (A !! p) as [x|] eqn:Hp; [|done]. assert (p ∈ []) as Hx by (apply HU; by rewrite Hp).
      by apply elem_of_nil in Hx. }
    split_and!.
    + apply map_empty. intros r. destruct (mrs w !! r) as [k|] eqn:Hr; [|done].
      apply (d_mrs _ _ _ _ Hd) in Hr as (p & l & lc & Hp & _). by rewrite lookup_empty in Hp.
    + apply map_empty. intros p. by rewrite (d_handles _ _ _ _ Hd), lookup_empty.
    + assert (S = Idpool.all_ids (Idpool.size (key_pool w))) as <-; [|apply (d_pool _ _ _ _ Hd)].
      apply set_eq. intros k. rewrite Idpool.elem_of_all_ids. split.
      * destruct (d_pool _ _ _ _ Hd) as (ws & _ & Hids). intros Hk. by apply Hids in Hk as [? _].
      * intros Hk. destruct (d_all _ _ _ _ Hd k Hk) as [|[Hx|(p & l & lc & Hp)]]; [done|set_solver|by rewrite lookup_empty in Hp].
  - intros p Hp. destruct (reg_inv_cached _ _ _ _ _ Hinv) as [c Hcw].
    apply (user_entry _ _ _ _ _ _ _ Hinv Hcnt) in Hp as [e He].
    assert (wp (dereg_mr_send_comm p) (fun rc _ => rc = 0) w) as Hwp.
    { unfold dereg_mr_send_comm. apply wp_bind, (device_cached_wp _ c); [done|].
      eapply wp_mono; [by apply (dereg_spec w n A m S p e)|]. by intros rc w' [-> _]. }
    apply wp_run in Hwp as (rc & w' & Hrun' & ->). eauto.
  - intros ckey type Hk Hleft Hn'. pose proof (key_left _ _ (d_pool _ _ _ _ Hd) Hleft) as HS.
    destruct (wp_or_run _ _ _ _ (reg_send_comm_spec w n A m S U ckey type Hinv Hcnt HS Hn' Hk)) as [(res & w' & ? & _)|];
      [left; eauto|by right].
Qed.

End Claims.

Section Failures.
Context {E : RegEnv} {L : RegOk}.

Lemma allocate_key_empty w Q :
  Idpool.idpool_rel (key_pool w) ∅ -> (forall p', Q (- ENOMEM) (w_key_pool p' w)) -> wp allocate_key Q w.
Proof.
  intros Hrel HQ. unfold allocate_key. wp_simpl.
  destruct (Idpool.allocate_refines _ _ Hrel) as (S' & Hstep & _).
  destruct (Idpool.nccl_ofi_idpool_allocate_id (key_pool w)) as [key p']. cbn in *.
  inversion Hstep; subst; [set_solver|]. wp_simpl. apply HQ.
Qed.

(** Running out of keys goes unnoticed. When every key is in use, the RDMA
    transport registers the next host buffer all the same, under key 0, which
    another handle has; the send/receive transport reports success and returns
    no registration. *)
Theorem exhausted_keys_go_unnoticed w A ckey domain :
  dev_inv w A ∅ ∅ -> local_mr = true ->
  (exists attr w', set_mr_req_attr ckey NCCL_PTR_HOST w = Some (inr attr, w') /\ a_requested_key attr = 0) /\
  (exists q l lc, A !! q = Some (l, lc, 0)) /\
  (exists w', sendrecv_mr_base_register domain ckey NCCL_PTR_HOST w = Some ((0, NULL), w')).
Proof.
  intros Hd Hlocal. pose proof (pool_active _ _ _ _ Hd) as Hact. pose proof (d_pool _ _ _ _ Hd) as Hpool.
  split_and!.
  - assert (wp (set_mr_req_attr ckey NCCL_PTR_HOST) (fun res _ => exists attr, res = inr attr /\ a_requested_key attr = 0) w)
      as Hwp.
    { unfold set_mr_req_attr, type_attr. cbn [Z.eqb NCCL_PTR_HOST Pos.eqb]. wp_simpl. rewrite Hact. wp_simpl.
      apply allocate_key_empty; [done|]. intros p'. change (- ENOMEM <? 0) with true. wp_simpl. eauto. }
    apply wp_run in Hwp as (res & w' & Hrun & attr & -> & Hkey). eauto.
  - assert (0 <= 0 < Idpool.size (key_pool w)) as H0.
    { destruct Hpool as (ws & Hwf & _). pose proof (Idpool.wf_size _ _ Hwf). lia. }
    destruct (d_all _ _ _ _ Hd 0 H0) as [|[|(q & l & lc & Hq)]]; [set_solver..|eauto].
  - assert (wp (sendrecv_mr_base_register domain ckey NCCL_PTR_HOST) (fun res _ => res = (0, NULL)) w) as Hwp.
    { unfold sendrecv_mr_base_register, sendrecv_mr_buffers_register, sendrecv_mr_buffer_skip_local_registration, type_attr.
      rewrite Hlocal. cbn [Z.eqb NCCL_PTR_HOST Pos.eqb orb negb andb]. wp_simpl. rewrite Hact.
      apply allocate_key_empty; [done|]. intros p'. change (- ENOMEM <? 0) with true. by wp_simpl. }
    apply wp_run in Hwp as (res & w' & Hrun & ->). eauto.
Qed.

(** When libfabric refuses the registration on the first rail of a device
    with a key pool, the clean-up of the RDMA transport asks the registration that
    was not made for its key: a NULL pointer is dereferenced. *)
Theorem first_rail_failure_crashes w A S ckey d ds :
  dev_inv w A S ∅ -> S <> ∅ -> rail_domains = d :: ds -> handle_alloc (hist w) (handles w) <> NULL ->
  (forall h open a, (mr_regattr h open d a).1.1 <> 0) ->
  reg_mr_on_device ckey NCCL_PTR_HOST w = None.
Proof.
  intros Hd HS Hrails Hp Hrefuse. unfold reg_mr_on_device. apply wp_fails. unfold calloc_rdma_mr_handle. wp_simpl.
  set (p := handle_alloc (hist w) (handles w)) in *. rewrite (proj2 (Z.eqb_neq _ _) Hp). wp_simpl.
  rewrite (proj2 (Z.eqb_neq _ _) Hp). apply wp_fails. unfold set_mr_req_attr, type_attr. cbn [Z.eqb NCCL_PTR_HOST Pos.eqb]. wp_simpl.
  match goal with |- wp _ _ ?x => set (w1 := x) end.
  assert (Idpool.nccl_ofi_idpool_active (key_pool w1) = true) as -> by (by eapply (pool_active w)). wp_simpl.
  apply (allocate_key_wp w1 S); [apply (d_pool _ _ _ _ Hd)|done|]. intros k pool' _ Hk Hrel Hsz.
  rewrite (proj2 (Z.ltb_ge _ _)) by lia. wp_simpl.
  assert (Idpool.nccl_ofi_idpool_active pool' = true) as Hact.
  { unfold Idpool.nccl_ofi_idpool_active. apply negb_true_iff, Z.eqb_neq. lia. }
  apply wp_fails. eapply upd_handle_wp; [cbn; by rewrite lookup_insert_eq|].
  apply bind_fails. rewrite Hrails. cbn [register_rails]. apply wp_fails.
  apply register_rail_wp; [|intros r h Hrc; by edestruct Hrefuse].
  intros rc h Hrc _. cbn [negb]. rewrite (proj2 (Z.eqb_neq _ _) Hrc). cbn [negb].
  apply bind_fails. eapply dereg_unregistered_crashes; [done|cbn; by rewrite lookup_insert_eq|cbn; lia|done| |done].
  cbn. destruct (mrs w !! NULL) as [k'|] eqn:Hnull; [|done].
  apply (d_mrs _ _ _ _ Hd) in Hnull as (q & l & lc & Hq & Hin).
  by destruct (d_shape _ _ _ _ Hd _ _ _ _ Hq) as (_ & _ & _ & ? & _).
Qed.

End Failures.

(** ** A concrete fabric with two data rails and one control rail *)

Definition new_id (X : list Z) : Z := 1 + foldr Z.max 0 X.

Lemma new_id_fresh X : 0 < new_id X /\ new_id X ∉ X.
Proof.
  unfold new_id. assert (0 <= foldr Z.max 0 X /\ forall x, x ∈ X -> x <= foldr Z.max 0 X) as [H0 Hx].
  { induction X as [|y X [H0 IH]]; cbn; [split; [lia|by intros x ?%elem_of_nil]|].
    split; [lia|]. intros x [->|Hx]%elem_of_cons; [lia|]. specialize (IH x Hx). lia. }
  split; [lia|]. intros Hin. specialize (Hx _ Hin). lia.
Qed.

Lemma new_id_keys {A} (m : gmap Z A) : new_id (map_to_list m).*1 <> NULL /\ m !! new_id (map_to_list m).*1 = None.
Proof.
  destruct (new_id_fresh (map_to_list m).*1) as [Hpos Hni]. split; [unfold NULL; lia|].
  destruct (m !! _) as [x|] eqn:Hx; [|done]. exfalso. apply Hni. apply list_elem_of_fmap. eexists (_, x). split; [done|].
  by apply elem_of_map_to_list.
Qed.

(** [refuse]: the domain whose registrations fail, if any. *)
Definition two_rails (refuse : Z) : RegEnv := {|
  have_cuda := true; have_neuron := false; local_mr := true; endpoint_mr := false; page_size := 4096;
  FI_KEY_NOTAVAIL := 2 ^ 64 - 1; rail_domains := [11; 12]; control_domains := [13];
  cuda_device_for_addr := fun _ => (0, 0);
  mr_regattr := fun _ open d a => if d =? refuse then (- EINVAL, NULL, 0)
    else (0, new_id (map_to_list open).*1, a_requested_key a);
  mr_bind_code := fun _ _ => 0; mr_enable_code := fun _ _ => 0; close_code := fun _ _ => 0;
  handle_alloc := fun _ hs => new_id (map_to_list hs).*1;
  cache_grow := fun n => Some (replicate (Z.to_nat n) None);
  cache_calloc := fun _ => true;
|}.

Lemma two_rails_ok refuse : @RegOk (two_rails refuse).
Proof.
  constructor; cbn; try done.
  - intros h open d a r key. destruct (d =? refuse); [done|]. intros [= <- <-]. destruct (new_id_keys open). done.
  - intros h hs _. apply new_id_keys.
  - intros n Hn. eexists. split; [done|]. rewrite length_replicate. lia.
Qed.

Definition ex_pool (n : Z) : Idpool.nccl_ofi_idpool :=
  snd (Idpool.nccl_ofi_idpool_init (fun n => Some (replicate (Z.to_nat n) 0)) 0 (Idpool.mk_idpool 0 None) n).

Definition ex_device (keys : Z) : world :=
  mk_world (ex_pool keys) (MrCache.nccl_ofi_mr_cache_init true true 0 16 4096) ∅ ∅ [].

Lemma ex_device_fresh refuse keys : 0 < keys <= 64 -> @fresh_device (two_rails refuse) (ex_device keys).
Proof.
  intros Hk. destruct (Idpool.idpool_init_rel (fun n => Some (replicate (Z.to_nat n) 0))
    (replicate (Z.to_nat (Idpool.num_long_elements keys)) 0) (Idpool.mk_idpool 0 None) keys) as (_ & Hrel & Hsz).
  - lia.
  - done.
  - rewrite length_replicate. pose proof (Idpool.num_long_bounds keys). lia.
  - apply Forall_replicate. unfold in_width. lia.
  - split_and!; [|..|done|done].
    + cbn [key_pool ex_device]. unfold ex_pool. by rewrite Hsz.
    + eexists. exists []. split; [reflexivity|].
      destruct (MrCache.init_rel_empty true true 0 16 4096 (MrCache.mk_cache (replicate 16 None) 4096 16 0 0 0))
        as (H1 & H2 & H3 & _); [by exists 12|lia|reflexivity|]. done.
Qed.

Definition ex_buffer : MrCache.nccl_ofi_mr_ckey := MrCache.nccl_ofi_mr_ckey_mk_vec 8192 5000.

Definition ex_registered : world :=
  match @reg_mr_send_comm (two_rails 0) ex_buffer NCCL_PTR_HOST (ex_device 8) with Some (_, w) => w | None => ex_device 8 end.

Lemma registrations_balance_witness :
  (exists h, handles ex_registered !! 1 = Some h /\ rails_of h = [1; 2; 3]) /\
  exists w', @dereg_mr_send_comm (two_rails 0) 1 ex_registered = Some (0, w').
Proof.
  split; [eexists; split; vm_compute; reflexivity|].
  assert (@reg_run (two_rails 0) (ex_device 8) 2 [1] ex_registered) as Hrun.
  { change [1] with (if 0 =? 0 then 1 :: @nil Z else []). eapply (run_reg (ex_device 8) 0 [] _ ex_buffer NCCL_PTR_HOST 0).
    - apply run_init.
    - vm_compute. repeat split; discriminate.
    - vm_compute. discriminate.
    - vm_compute. reflexivity. }
  apply (@registrations_balance (two_rails 0) (two_rails_ok 0) (ex_device 8) 2 [1] ex_registered); [|exact Hrun|lia|left].
  apply ex_device_fresh. lia.
Defined.

Lemma first_rail_failure_crashes_witness :
  @reg_mr_on_device (two_rails 11) ex_buffer NCCL_PTR_HOST (ex_device 8) = None.
Proof.
  apply (@first_rail_failure_crashes (two_rails 11) (two_rails_ok 11) (ex_device 8) ∅ (Idpool.all_ids 8) ex_buffer 11 [12]).
  - apply (@ri_dev (two_rails 11) _ 0 _ ∅). apply (@fresh_inv (two_rails 11)). apply ex_device_fresh. lia.
  - intros H. assert (0 ∈ Idpool.all_ids 8) as H0 by (apply Idpool.elem_of_all_ids; lia). rewrite H in H0. set_solver.
  - reflexivity.
  - vm_compute. discriminate.
  - intros h open a. cbn. discriminate.
Defined.

Lemma exhausted_keys_go_unnoticed_witness :
  exists w A, @dev_inv (two_rails 0) w A ∅ ∅ /\
    exists w', @sendrecv_mr_base_register (two_rails 0) 11 ex_buffer NCCL_PTR_HOST w = Some ((0, NULL), w').
Proof.
  assert (exists w, @reg_mr_on_device (two_rails 0) ex_buffer NCCL_PTR_HOST (ex_device 1) = Some ((0, 1), w)) as [w Hrun]
    by (eexists; vm_compute; reflexivity).
  assert (@dev_inv (two_rails 0) (ex_device 1) ∅ (Idpool.all_ids 1) ∅) as Hd.
  { apply (@ri_dev (two_rails 0) _ 0 _ ∅). apply (@fresh_inv (two_rails 0)). apply ex_device_fresh. lia. }
  assert (0 ∈ Idpool.all_ids 1) as H0 by (apply Idpool.elem_of_all_ids; lia).
  pose proof (@reg_on_device_spec (two_rails 0) (two_rails_ok 0) (ex_device 1) ∅ (Idpool.all_ids 1) ex_buffer NCCL_PTR_HOST
    Hd ltac:(intros H; rewrite H in H0; set_solver)) as Hwp.
  unfold wp_or in Hwp. rewrite Hrun in Hwp.
  destruct Hwp as [_ [(_ & _ & _ & l & lc & k & Hk & Hd')|(Hrc & _)]]; [|by destruct Hrc].
  assert (Idpool.all_ids 1 ∖ {[k]} = ∅) as Hs.
  { apply Idpool.elem_of_all_ids in Hk. apply elem_of_equiv_empty_L. intros x [Hx Hne]%elem_of_difference.
    apply Idpool.elem_of_all_ids in Hx. apply Hne, elem_of_singleton. lia. }
  rewrite Hs in Hd'. eexists w, _. split; [exact Hd'|].
  apply (@exhausted_keys_go_unnoticed (two_rails 0) (two_rails_ok 0) w _ ex_buffer 11 Hd' eq_refl).
Defined.

Section Leak.
Context {E : RegEnv} {L : RegOk}.

(** When libfabric refuses a registration of the send/receive transport, the key
    taken for it does not go back to the pool. *)
Theorem sendrecv_failed_registration_leaks w S domain ckey :
  Idpool.idpool_rel (key_pool w) S -> S <> ∅ -> local_mr = true ->
  (forall h open a, (mr_regattr h open domain a).1.1 <> 0) ->
  exists rc w' k, sendrecv_mr_base_register domain ckey NCCL_PTR_HOST w = Some ((rc, NULL), w') /\ rc <> 0 /\
    k ∈ S /\ Idpool.idpool_rel (key_pool w') (S ∖ {[k]}) /\ mrs w' = mrs w.
Proof.
  intros Hrel HS Hlocal Hrefuse.
  assert (wp (sendrecv_mr_base_register domain ckey NCCL_PTR_HOST) (fun res w' => exists rc k, res = (rc, NULL) /\ rc <> 0 /\
    k ∈ S /\ Idpool.idpool_rel (key_pool w') (S ∖ {[k]}) /\ mrs w' = mrs w) w) as Hwp.
  { unfold sendrecv_mr_base_register, sendrecv_mr_buffers_register, sendrecv_mr_buffer_skip_local_registration, type_attr.
    rewrite Hlocal. cbn [Z.eqb NCCL_PTR_HOST Pos.eqb orb negb andb]. wp_simpl.
    assert (Idpool.nccl_ofi_idpool_active (key_pool w) = true) as ->.
    { destruct Hrel as (ws & Hwf & _). pose proof (Idpool.wf_size _ _ Hwf).
      unfold Idpool.nccl_ofi_idpool_active. apply negb_true_iff, Z.eqb_neq. lia. }
    apply (allocate_key_wp w S); [done..|]. intros k p' Hk Hkr Hrel' Hsz. rewrite (proj2 (Z.ltb_ge _ _)) by lia.
    unfold fi_mr_regattr. wp_simpl. cbn [hist mrs w_key_pool].
    match goal with |- context [mr_regattr ?h ?open domain ?a] =>
      pose proof (Hrefuse h open a) as Hrc; destruct (mr_regattr h open domain a) as [[rc r] key] end.
    cbn in Hrc. wp_simpl. rewrite (proj2 (Z.eqb_neq _ _) Hrc). wp_simpl. rewrite (proj2 (Z.eqb_neq _ _) Hrc). cbn [negb]. wp_simpl.
    exists rc, k. by split_and!. }
  apply wp_run in Hwp as (res & w' & Hrun & rc & k & -> & H). by exists rc, w', k.
Qed.

End Leak.

End MrReg.
