(* ===== verification/Sendrecv.v ===== *)
(** * nccl_ofi_sendrecv.c: the data path of the send/receive transport

    send, recv, flush and test of the transport that maps a message to one
    tagged libfabric operation, with the completion processing they share. One
    endpoint is modelled: requests, communicators and connection messages are
    cells of a store, the free lists of requests are the pools of Allocator.v,
    and [posted] are the operations libfabric has accepted and not completed. *)

From S2P Require Import Prelude StateM NetTypes Allocator.

Module Sendrecv.

(** ** Data *)

Inductive nccl_net_ofi_sendrecv_req_state_t :=
| NCCL_OFI_SENDRECV_REQ_CREATED
| NCCL_OFI_SENDRECV_REQ_PENDING
| NCCL_OFI_SENDRECV_REQ_COMPLETED
| NCCL_OFI_SENDRECV_REQ_ERROR.

Inductive nccl_net_ofi_sendrecv_req_direction_t :=
| NCCL_OFI_SENDRECV_INVALID_DIRECTION
| NCCL_OFI_SENDRECV_SEND
| NCCL_OFI_SENDRECV_RECV.

#[export] Instance sendrecv_state_eq_dec : EqDecision nccl_net_ofi_sendrecv_req_state_t.
Proof. solve_decision. Defined.
#[export] Instance sendrecv_direction_eq_dec : EqDecision nccl_net_ofi_sendrecv_req_direction_t.
Proof. solve_decision. Defined.

(** The context handed to libfabric is the request's own address. *)
Record nccl_net_ofi_sendrecv_req_t := mk_req {
  q_comm : Z;
  q_dev_id : Z;
  q_num_recvs : Z;
  q_size : Z;
  q_state : nccl_net_ofi_sendrecv_req_state_t;
  q_direction : nccl_net_ofi_sendrecv_req_direction_t;
}.

Definition set_comm v r := mk_req v (q_dev_id r) (q_num_recvs r) (q_size r) (q_state r) (q_direction r).
Definition set_dev_id v r := mk_req (q_comm r) v (q_num_recvs r) (q_size r) (q_state r) (q_direction r).
Definition set_num_recvs v r := mk_req (q_comm r) (q_dev_id r) v (q_size r) (q_state r) (q_direction r).
Definition set_size v r := mk_req (q_comm r) (q_dev_id r) (q_num_recvs r) v (q_state r) (q_direction r).
Definition set_state v r := mk_req (q_comm r) (q_dev_id r) (q_num_recvs r) (q_size r) v (q_direction r).
Definition set_direction v r := mk_req (q_comm r) (q_dev_id r) (q_num_recvs r) (q_size r) (q_state r) v.

Record save_comm_state_t := mk_comm_state {
  st_comm : Z;
  st_req : Z;
  st_stage : nccl_ofi_comm_stage_t;
}.

(** The connect message; [ep_name] is the address as bytes. *)
Record nccl_ofi_connection_info_t := mk_conn_info {
  ep_name : list Z;
  ep_namelen : Z;
  connect_to_self : Z;
  ci_req : Z;
}.

(** The [ep] field of a communicator's base structure is NULL or the endpoint;
    a free list is [None] for a NULL pointer. *)
Record nccl_net_ofi_sendrecv_listen_comm_t := mk_listen_comm {
  l_ep : Z;
  l_tag : Z;
  l_local_ep : Z;
  l_local_ep_addr : Z;
  l_accepted : bool;
  l_state : save_comm_state_t;
  l_conn_info : Z;
}.

Record nccl_net_ofi_sendrecv_send_comm_t := mk_send_comm {
  s_ep : Z;
  s_num_inflight_reqs : Z;
  s_reqs_fl : option pool;
  s_tag : Z;
  s_remote_ep : Z;
  s_local_ep : Z;
  s_conn_info : Z;
}.

Record nccl_net_ofi_sendrecv_flush_buffer_t := mk_flush_buffer {
  host_buffer : Z;
  fb_size : Z;
  fb_mr_handle : Z;
}.

Record nccl_net_ofi_sendrecv_recv_comm_t := mk_recv_comm {
  r_ep : Z;
  r_num_inflight_reqs : Z;
  r_reqs_fl : option pool;
  r_tag : Z;
  r_remote_ep : Z;
  r_local_ep_addr : Z;
  r_local_ep : Z;
  r_flush_buff : nccl_net_ofi_sendrecv_flush_buffer_t;
}.

Inductive nccl_net_ofi_comm_t :=
| ListenComm (l : nccl_net_ofi_sendrecv_listen_comm_t)
| SendComm (s : nccl_net_ofi_sendrecv_send_comm_t)
| RecvComm (r : nccl_net_ofi_sendrecv_recv_comm_t).

Definition set_l_accepted v l := mk_listen_comm (l_ep l) (l_tag l) (l_local_ep l) (l_local_ep_addr l) v
  (l_state l) (l_conn_info l).
Definition set_l_state v l := mk_listen_comm (l_ep l) (l_tag l) (l_local_ep l) (l_local_ep_addr l)
  (l_accepted l) v (l_conn_info l).
Definition set_l_conn_info v l := mk_listen_comm (l_ep l) (l_tag l) (l_local_ep l) (l_local_ep_addr l)
  (l_accepted l) (l_state l) v.
Definition set_s_inflight v s := mk_send_comm (s_ep s) v (s_reqs_fl s) (s_tag s) (s_remote_ep s)
  (s_local_ep s) (s_conn_info s).
Definition set_s_fl v s := mk_send_comm (s_ep s) (s_num_inflight_reqs s) v (s_tag s) (s_remote_ep s)
  (s_local_ep s) (s_conn_info s).
Definition set_s_conn_info v s := mk_send_comm (s_ep s) (s_num_inflight_reqs s) (s_reqs_fl s) (s_tag s)
  (s_remote_ep s) (s_local_ep s) v.
Definition set_r_inflight v r := mk_recv_comm (r_ep r) v (r_reqs_fl r) (r_tag r) (r_remote_ep r)
  (r_local_ep_addr r) (r_local_ep r) (r_flush_buff r).
Definition set_r_fl v r := mk_recv_comm (r_ep r) (r_num_inflight_reqs r) v (r_tag r) (r_remote_ep r)
  (r_local_ep_addr r) (r_local_ep r) (r_flush_buff r).

(** ** libfabric *)

(** Calls that hand an operation to libfabric, [ctx] last. *)
Inductive fab_op :=
| fi_trecv (ep buf len desc tag ctx : Z)
| fi_tsend (ep buf len desc dest tag ctx : Z)
| fi_tsend_conn (ep : Z) (msg : nccl_ofi_connection_info_t) (dest tag ctx : Z)
| fi_read (ep buf len desc src addr key ctx : Z).

(** What libfabric remembers of an accepted operation. *)
Record posted_op := mk_posted {
  p_ctx : Z;
  p_recv : bool;
  p_tag : Z;
}.

Definition op_posted (op : fab_op) : posted_op :=
  match op with
  | fi_trecv _ _ _ _ tag ctx => mk_posted ctx true tag
  | fi_tsend _ _ _ _ _ tag ctx => mk_posted ctx false tag
  | fi_tsend_conn _ _ _ tag ctx => mk_posted ctx false tag
  | fi_read _ _ _ _ _ _ _ ctx => mk_posted ctx false 0
  end.

(** An entry of the completion queue: the flag FI_RECV, length and tag. *)
Record fi_cq_tagged_entry := mk_cqe {
  e_ctx : Z;
  e_recv : bool;
  e_len : Z;
  e_tag : Z;
}.

(** The answer of one fi_cq_read, with that of fi_cq_readerr where it follows. *)
Inductive cq_answer :=
| CqEntries (es : list fi_cq_tagged_entry)
| CqAgain
| CqFailed (rc : Z)
| CqErrNotYet
| CqReaderrFailed (rc : Z)
| CqError (ctx len : Z).

(** Other calls to libfabric and to the operating system that return a code. *)
Inductive sys_op :=
| fi_close (fid : Z)
| munmap (addr len : Z)
| cuda_flush_writes.

Inductive event :=
| EvOp (op : fab_op) (rc : Z)
| EvCq (a : cq_answer)
| EvSys (op : sys_op) (rc : Z)
| EvName
| EvAv (name : list Z)
| EvMap
| EvEpFree.

Inductive gdr_support_level_t := GDR_UNKNOWN | GDR_SUPPORTED | GDR_UNSUPPORTED.
#[export] Instance gdr_support_eq_dec : EqDecision gdr_support_level_t.
Proof. solve_decision. Defined.

(** Configuration, and libfabric as a function of the events so far. *)
Class SendrecvEnv := {
  dev_id : Z;
  max_tag : Z;
  gdr_flush_disable : bool;
  support_gdr : gdr_support_level_t;
  cuda_flush : bool;
  virt_addr_mr : bool;
  fi_mr_desc : Z -> Z;
  fi_mr_key : Z -> Z;
  FI_KEY_NOTAVAIL : Z;
  op_code : list event -> fab_op -> Z;
  cq_read : list event -> list posted_op -> cq_answer;
  sys_code : list event -> sys_op -> Z;
  (** The endpoint's address and its libfabric endpoint. *)
  ep_ptr : Z;
  ofi_ep : Z;
  (** fi_av_insert: the number of addresses inserted and the new address. *)
  av_insert : list event -> list Z -> Z * Z;
  (** fi_getname: code and name. *)
  getname : list event -> Z * list Z;
  (** What a connect message holds when it has arrived. *)
  conn_msg : list event -> nccl_ofi_connection_info_t;
  (** The flush buffer: mmap of a page, and its registration (MrReg.v). *)
  page_size : Z;
  mmap_page : list event -> Z * Z;
  flush_register : list event -> Z * Z;
}.

(** A completion answers an operation: same context, FI_RECV for receives only,
    and a receive reports its tag. *)
Definition answers (e : fi_cq_tagged_entry) (q : posted_op) : Prop :=
  e_ctx e = p_ctx q /\ e_recv e = p_recv q /\ (p_recv q = true -> e_tag e = p_tag q).

(** What the transport relies on: fi_cq_read gives at least one entry when it
    reports entries, and completes, also in error, accepted operations only,
    each once. *)
Class FabricOk `{SendrecvEnv} : Prop := {
  cq_read_entries h qs es :
    cq_read h qs = CqEntries es ->
    es <> [] /\ exists done, done ⊆+ qs /\ Forall2 answers es done;
  cq_read_error h qs ctx len :
    cq_read h qs = CqError ctx len -> exists q, q ∈ qs /\ p_ctx q = ctx;
}.

(** ** The state *)

Record world := mk_world {
  reqs : gmap Z nccl_net_ofi_sendrecv_req_t;
  (** Contents of requests in the free lists. *)
  freed : gmap Z nccl_net_ofi_sendrecv_req_t;
  comms : gmap Z nccl_net_ofi_comm_t;
  conn_infos : gmap Z nccl_ofi_connection_info_t;
  (** [ep->device] and the endpoint's own fields. *)
  ep_device : Z;
  ep_tag : Z;
  ep_ref_cnt : Z;
  (** Addresses the C library will hand out, NULL for a failed allocation. *)
  heap : list Z;
  (** Free lists nccl_ofi_freelist_init will create, [None] for a failure. *)
  pools : list (option pool);
  posted : list posted_op;
  hist : list event;
}.

Definition w_reqs f w := mk_world (f (reqs w)) (freed w) (comms w) (conn_infos w) (ep_device w)
  (ep_tag w) (ep_ref_cnt w) (heap w) (pools w) (posted w) (hist w).
Definition w_freed f w := mk_world (reqs w) (f (freed w)) (comms w) (conn_infos w) (ep_device w)
  (ep_tag w) (ep_ref_cnt w) (heap w) (pools w) (posted w) (hist w).
Definition w_comms f w := mk_world (reqs w) (freed w) (f (comms w)) (conn_infos w) (ep_device w)
  (ep_tag w) (ep_ref_cnt w) (heap w) (pools w) (posted w) (hist w).
Definition w_conn_infos f w := mk_world (reqs w) (freed w) (comms w) (f (conn_infos w))
  (ep_device w) (ep_tag w) (ep_ref_cnt w) (heap w) (pools w) (posted w) (hist w).
Definition w_ep f g w := mk_world (reqs w) (freed w) (comms w) (conn_infos w) (ep_device w)
  (f (ep_tag w)) (g (ep_ref_cnt w)) (heap w) (pools w) (posted w) (hist w).
Definition w_heap f w := mk_world (reqs w) (freed w) (comms w) (conn_infos w) (ep_device w)
  (ep_tag w) (ep_ref_cnt w) (f (heap w)) (pools w) (posted w) (hist w).
Definition w_pools f w := mk_world (reqs w) (freed w) (comms w) (conn_infos w) (ep_device w)
  (ep_tag w) (ep_ref_cnt w) (heap w) (f (pools w)) (posted w) (hist w).
Definition w_posted f w := mk_world (reqs w) (freed w) (comms w) (conn_infos w) (ep_device w)
  (ep_tag w) (ep_ref_cnt w) (heap w) (pools w) (f (posted w)) (hist w).
Definition w_hist f w := mk_world (reqs w) (freed w) (comms w) (conn_infos w) (ep_device w)
  (ep_tag w) (ep_ref_cnt w) (heap w) (pools w) (posted w) (f (hist w)).

Abbreviation M := (SM world).

Definition get_req (p : Z) : M nccl_net_ofi_sendrecv_req_t := let* m := gets reqs in of_option (m !! p).
Definition put_req (p : Z) (r : nccl_net_ofi_sendrecv_req_t) : M unit := modify (w_reqs <[p := r]>).
Definition upd_req (p : Z) (f : nccl_net_ofi_sendrecv_req_t -> nccl_net_ofi_sendrecv_req_t) : M unit :=
  let* r := get_req p in put_req p (f r).
Definition get_comm (c : Z) : M nccl_net_ofi_comm_t := let* m := gets comms in of_option (m !! c).
Definition put_comm (c : Z) (x : nccl_net_ofi_comm_t) : M unit := modify (w_comms <[c := x]>).
Definition get_send_comm (c : Z) : M nccl_net_ofi_sendrecv_send_comm_t :=
  let* x := get_comm c in match x with SendComm s => ret s | _ => undefined end.
Definition get_recv_comm (c : Z) : M nccl_net_ofi_sendrecv_recv_comm_t :=
  let* x := get_comm c in match x with RecvComm r => ret r | _ => undefined end.
Definition get_listen_comm (c : Z) : M nccl_net_ofi_sendrecv_listen_comm_t :=
  let* x := get_comm c in match x with ListenComm l => ret l | _ => undefined end.
Definition get_conn_info (p : Z) : M nccl_ofi_connection_info_t :=
  let* m := gets conn_infos in of_option (m !! p).

Definition is_state (st : nccl_net_ofi_sendrecv_req_state_t) (r : nccl_net_ofi_sendrecv_req_t) : bool :=
  bool_decide (q_state r = st).

Section Transport.
Context {E : SendrecvEnv}.

(** A call that hands an operation over: its answer, its record. *)
Definition post (op : fab_op) : M Z :=
  let* h := gets hist in
  let rc := op_code h op in
  modify (w_hist (fun h => h ++ [EvOp op rc])) ;;;
  (if rc =? 0 then modify (w_posted (fun l => op_posted op :: l)) else ret tt) ;;;
  ret rc.

Definition syscall (op : sys_op) : M Z :=
  let* h := gets hist in
  let rc := sys_code h op in
  modify (w_hist (fun h => h ++ [EvSys op rc])) ;;; ret rc.

(** fi_cq_read: what completes is no longer posted. *)
Definition fi_cq_read : M cq_answer :=
  let* h := gets hist in
  let* qs := gets posted in
  let a := cq_read h qs in
  modify (w_hist (fun h => h ++ [EvCq a])) ;;;
  modify (w_posted (fun qs =>
    match a with
    | CqEntries es => filter (fun q => p_ctx q ∉ (e_ctx <$> es)) qs
    | CqError ctx _ => filter (fun q => p_ctx q <> ctx) qs
    | _ => qs
    end)) ;;;
  ret a.

(** ** Completions *)

Definition sendrecv_req_update (p : Z) (st : nccl_net_ofi_sendrecv_req_state_t) (sz : Z) : M unit :=
  upd_req p (fun r => set_state st (set_size sz r)).

Fixpoint sendrecv_process_completions (cq_entry : list fi_cq_tagged_entry) : M Z :=
  match cq_entry with
  | [] => ret 0
  | e :: cq_entry' =>
      if e_ctx e =? NULL then ret (- EINVAL)
      else
        let* req := get_req (e_ctx e) in
        (if negb (Z.land (e_tag e) (u64 (max_tag + 1)) =? 0) && e_recv e then
           let* l_comm := get_listen_comm (q_comm req) in
           put_comm (q_comm req) (ListenComm (set_l_accepted true l_comm))
         else ret tt) ;;;
        sendrecv_req_update (e_ctx e) NCCL_OFI_SENDRECV_REQ_COMPLETED
          (if e_recv e then e_len e else q_size req) ;;;
        sendrecv_process_completions cq_entry'
  end.

Fixpoint cq_loop (fuel : nat) : M Z :=
  match fuel with
  | O => undefined
  | S fuel' =>
      let* a := fi_cq_read in
      match a with
      | CqEntries es =>
          let* rc := sendrecv_process_completions es in
          if negb (rc =? 0) then ret rc else cq_loop fuel'
      | CqErrNotYet => ret 0
      | CqReaderrFailed rc => ret rc
      | CqError ctx len =>
          sendrecv_req_update ctx NCCL_OFI_SENDRECV_REQ_ERROR len ;;; cq_loop fuel'
      | CqAgain => ret 0
      | CqFailed rc => ret rc
      end
  end.

(** Every round of the loop but the last takes an operation off [posted]. *)
Definition sendrecv_cq_process : M Z :=
  let* qs := gets posted in cq_loop (S (length qs)).

(** ** Requests *)

Definition sendrecv_req_zero (r : nccl_net_ofi_sendrecv_req_t) : nccl_net_ofi_sendrecv_req_t :=
  mk_req NULL (-1) (q_num_recvs r) 0 NCCL_OFI_SENDRECV_REQ_CREATED NCCL_OFI_SENDRECV_INVALID_DIRECTION.

(** The request leaves the store, its zeroed contents stay behind in the free
    list; returning it twice is undefined. *)
Definition retire (p : Z) : M unit :=
  let* r := get_req p in
  modify (w_reqs (delete p)) ;;; modify (w_freed <[p := sendrecv_req_zero r]>).

(** Members of a freshly mapped entry that no one has used yet. *)
Definition zero_req : nccl_net_ofi_sendrecv_req_t :=
  mk_req NULL 0 0 0 NCCL_OFI_SENDRECV_REQ_CREATED NCCL_OFI_SENDRECV_INVALID_DIRECTION.

(** sendrecv_req_free on the counter and free list of a communicator, which
    [put] writes back. *)
Definition sendrecv_req_free (inflight : Z) (fl : option pool) (put : Z -> option pool -> M unit)
    (p : Z) (dec_inflight_reqs : bool) : M Z :=
  if p =? NULL then ret (- EINVAL)
  else
    match fl with
    | None => ret (- EINVAL)
    | Some l =>
        retire p ;;;
        put (if dec_inflight_reqs then u64 (inflight - 1) else inflight) (Some (p :: l)) ;;;
        ret 0
    end.

Definition sendrecv_send_comm_free_req (c p : Z) (dec : bool) : M Z :=
  let* s := get_send_comm c in
  sendrecv_req_free (s_num_inflight_reqs s) (s_reqs_fl s)
    (fun n fl => put_comm c (SendComm (set_s_inflight n (set_s_fl fl s)))) p dec.

Definition sendrecv_recv_comm_free_req (c p : Z) (dec : bool) : M Z :=
  let* r := get_recv_comm c in
  sendrecv_req_free (r_num_inflight_reqs r) (r_reqs_fl r)
    (fun n fl => put_comm c (RecvComm (set_r_inflight n (set_r_fl fl r)))) p dec.

Definition sendrecv_comm_free_req (c p : Z) (dec : bool) : M Z :=
  let* r := get_req p in
  match q_direction r with
  | NCCL_OFI_SENDRECV_SEND => sendrecv_send_comm_free_req c p dec
  | NCCL_OFI_SENDRECV_RECV => sendrecv_recv_comm_free_req c p dec
  | NCCL_OFI_SENDRECV_INVALID_DIRECTION => ret (- EINVAL)
  end.

(** The [ep] pointer of a communicator's base. *)
Definition comm_ep (x : nccl_net_ofi_comm_t) : Z :=
  match x with ListenComm l => l_ep l | SendComm s => s_ep s | RecvComm r => r_ep r end.

(** The result is the return code with [*done] and [*size], [None] where they
    are not written. *)
Definition sendrecv_req_test (p : Z) : M (Z * option bool * option Z) :=
  let* req := get_req p in
  if q_comm req =? NULL then ret (- EINVAL, None, None)
  else
    let* base_comm := get_comm (q_comm req) in
    if comm_ep base_comm =? NULL then ret (- EINVAL, None, None)
    else
      let* device := gets ep_device in
      if device =? NULL then ret (- EINVAL, None, None)
      else
        let* rc := if is_state NCCL_OFI_SENDRECV_REQ_COMPLETED req then ret 0 else sendrecv_cq_process in
        if negb (rc =? 0) then ret (rc, None, None)
        else
          let* r := get_req p in
          if is_state NCCL_OFI_SENDRECV_REQ_COMPLETED r || is_state NCCL_OFI_SENDRECV_REQ_ERROR r then
            sendrecv_comm_free_req (q_comm req) p true ;;;
            ret (if is_state NCCL_OFI_SENDRECV_REQ_ERROR r then - ENOTSUP else 0, Some true,
                 Some (i32 (q_size r)))
          else ret (0, Some false, None).

(** Taking a request from a free list: the address and the rest of the list. *)
Definition sendrecv_allocate_req (fl : option pool) (put : option pool -> M unit) : M Z :=
  match fl with
  | None => ret NULL
  | Some [] => ret NULL
  | Some (p :: l) =>
      put (Some l) ;;;
      if p =? NULL then ret NULL
      else
        let* f := gets freed in
        let old := match f !! p with Some r => r | None => zero_req end in
        put_req p (set_state NCCL_OFI_SENDRECV_REQ_CREATED old) ;;; ret p
  end.

(** ** recv, flush and send

    A call answers with its code and the value of [*base_req], which is
    [base_req] before the call. *)

Definition recv_fail (c p rc base_req : Z) : M (Z * Z) :=
  (if p =? NULL then ret 0 else sendrecv_recv_comm_free_req c p false) ;;; ret (rc, base_req).

(** The loop that posts the receives: [Some] is an early exit. *)
Fixpoint post_recvs (c p : Z) (bufs : list (Z * Z * Z)) (base_req : Z) : M (option (Z * Z)) :=
  match bufs with
  | [] => ret None
  | (buf, len, mr) :: bufs' =>
      let* r_comm := get_recv_comm c in
      let desc := if mr =? NULL then NULL else fi_mr_desc mr in
      let* rc := post (fi_trecv (r_local_ep r_comm) buf (u64 len) desc (r_tag r_comm) p) in
      if rc =? - FI_EAGAIN then let* x := recv_fail c p 0 NULL in ret (Some x)
      else if negb (rc =? 0) then let* x := recv_fail c p rc base_req in ret (Some x)
      else post_recvs c p bufs' base_req
  end.

(** [bufs] are the buffers with their lengths and registrations; [handles] says
    whether the array of registrations was given. *)
Definition sendrecv_recv_comm_recv (c : Z) (bufs : list (Z * Z * Z)) (handles : bool) (base_req : Z)
    : M (Z * Z) :=
  let* r_comm := get_recv_comm c in
  if r_ep r_comm =? NULL then ret (- EINVAL, base_req)
  else
    let* device := gets ep_device in
    if device =? NULL then ret (- EINVAL, base_req)
    else if r_num_inflight_reqs r_comm =? NCCL_OFI_MAX_REQUESTS then ret (- EINVAL, base_req)
    else
      let* p := sendrecv_allocate_req (r_reqs_fl r_comm) (fun fl => put_comm c (RecvComm (set_r_fl fl r_comm))) in
      if p =? NULL then ret (- EINVAL, base_req)
      else
        let* rc := sendrecv_cq_process in
        if negb (rc =? 0) then recv_fail c p rc base_req
        else
          upd_req p (fun r => set_num_recvs (Z.of_nat (length bufs))
            (set_direction NCCL_OFI_SENDRECV_RECV (set_dev_id dev_id (set_comm c r)))) ;;;
          if negb handles then recv_fail c p (- EINVAL) base_req
          else
            assert (Z.of_nat (length bufs) <=? NCCL_OFI_MAX_RECVS) ;;;
            let* stop := post_recvs c p bufs base_req in
            match stop with
            | Some x => ret x
            | None =>
                let* r_comm := get_recv_comm c in
                put_comm c (RecvComm (set_r_inflight (u64 (r_num_inflight_reqs r_comm + 1)) r_comm)) ;;;
                ret (0, p)
            end.

(** The loop around fi_read, which repeats while libfabric is busy: [None] when
    it is still busy after [fuel] rounds, else the code, 0 for success, and
    whether the request is released on the way out. *)
Fixpoint flush_read (fuel : nat) (ep device : Z) (op : fab_op) : M (option (Z * bool)) :=
  match fuel with
  | O => ret None
  | S fuel' =>
      let* rc := post op in
      if rc =? 0 then ret (Some (0, false))
      else if rc =? - FI_EAGAIN then
        if ep =? NULL then ret (Some (- EINVAL, true))
        else if device =? NULL then ret (Some (- EINVAL, false))
        else
          let* rc := sendrecv_cq_process in
          if negb (rc =? 0) then ret (Some (rc, true)) else flush_read fuel' ep device op
      else ret (Some (- ENOTSUP, true))
  end.

(** The first receive of non-zero size. *)
Fixpoint first_nonzero (bufs : list (Z * Z * Z)) : option (Z * Z * Z) :=
  match bufs with
  | [] => None
  | (buf, len, mr) :: bufs' => if len =? 0 then first_nonzero bufs' else Some (buf, len, mr)
  end.

(** The answer [None]: the call has not returned within [fuel] rounds of its
    loop. *)
Definition sendrecv_recv_comm_flush (fuel : nat) (c : Z) (bufs : list (Z * Z * Z)) (handles : bool)
    : M (option (Z * Z)) :=
  if gdr_flush_disable || bool_decide (support_gdr = GDR_UNSUPPORTED) then ret (Some (0, NULL))
  else if cuda_flush then let* rc := syscall cuda_flush_writes in ret (Some (rc, NULL))
  else
    assert (Z.of_nat (length bufs) <=? NCCL_OFI_MAX_RECVS) ;;;
    match first_nonzero bufs with
    | None => ret (Some (0, NULL))
    | Some (data, _, mr) =>
        let* r_comm := get_recv_comm c in
        let mr_handle := if handles then mr else NULL in
        if r_num_inflight_reqs r_comm =? NCCL_OFI_MAX_REQUESTS then ret (Some (- ENOSPC, NULL))
        else
          let* p := sendrecv_allocate_req (r_reqs_fl r_comm)
                      (fun fl => put_comm c (RecvComm (set_r_fl fl r_comm))) in
          if p =? NULL then ret (Some (- ENOTSUP, NULL))
          else
            upd_req p (fun r => set_direction NCCL_OFI_SENDRECV_RECV (set_dev_id dev_id (set_comm c r))) ;;;
            let fb := r_flush_buff r_comm in
            let desc := if fb_mr_handle fb =? NULL then NULL else fi_mr_desc (fb_mr_handle fb) in
            let cuda_key := if mr_handle =? NULL then 0 else fi_mr_key mr_handle in
            if negb (mr_handle =? NULL) && (cuda_key =? FI_KEY_NOTAVAIL) then
              let* x := recv_fail c p (- ENOTSUP) NULL in ret (Some x)
            else
              let* device := gets ep_device in
              let* rc := flush_read fuel (r_ep r_comm) device (fi_read (r_local_ep r_comm) (host_buffer fb) (fb_size fb) desc
                            (r_local_ep_addr r_comm) (if virt_addr_mr then data else 0) cuda_key p) in
              match rc with
              | None => ret None
              | Some (rc, release) =>
                  if negb (rc =? 0) then
                    let* x := recv_fail c (if release then p else NULL) rc NULL in ret (Some x)
                  else
                    let* r_comm := get_recv_comm c in
                    put_comm c (RecvComm (set_r_inflight (u64 (r_num_inflight_reqs r_comm + 1)) r_comm)) ;;;
                    upd_req p (set_size (fb_size fb)) ;;;
                    ret (Some (0, p))
              end
    end.

Definition send_fail (c p rc base_req : Z) : M (Z * Z) :=
  (if p =? NULL then ret 0 else sendrecv_send_comm_free_req c p false) ;;; ret (rc, base_req).

(** A connection to the own endpoint: [None] when its request has completed and
    is released (or there is none), [Some] when send has to be retried. *)
Definition finish_self_connect (c base_req : Z) : M (option (Z * Z)) :=
  let* s_comm := get_send_comm c in
  if s_conn_info s_comm =? NULL then ret None
  else
    let* conn_info := get_conn_info (s_conn_info s_comm) in
    if negb (connect_to_self conn_info =? 1) then ret None
    else
      assert (negb (ci_req conn_info =? NULL)) ;;;
      let* self_req := get_req (ci_req conn_info) in
      if is_state NCCL_OFI_SENDRECV_REQ_COMPLETED self_req then
        sendrecv_send_comm_free_req c (ci_req conn_info) false ;;;
        modify (w_conn_infos (delete (s_conn_info s_comm))) ;;;
        let* s_comm := get_send_comm c in
        put_comm c (SendComm (set_s_conn_info NULL s_comm)) ;;;
        ret None
      else
        let* rc := sendrecv_cq_process in ret (Some (rc, NULL)).

Definition sendrecv_send_comm_send (c data sz mr_handle base_req : Z) : M (Z * Z) :=
  let* s_comm := get_send_comm c in
  if s_ep s_comm =? NULL then ret (- EINVAL, base_req)
  else
    let* device := gets ep_device in
    if device =? NULL then ret (- EINVAL, base_req)
    else if s_num_inflight_reqs s_comm =? NCCL_OFI_MAX_SEND_REQUESTS then ret (- EINVAL, base_req)
    else
      let* self := finish_self_connect c base_req in
      match self with
      | Some x => ret x
      | None =>
          let* s_comm := get_send_comm c in
          let* p := sendrecv_allocate_req (s_reqs_fl s_comm) (fun fl => put_comm c (SendComm (set_s_fl fl s_comm))) in
          if p =? NULL then ret (- ENOMEM, base_req)
          else
            upd_req p (fun r => set_direction NCCL_OFI_SENDRECV_SEND (set_dev_id dev_id (set_comm c r))) ;;;
            let desc := if mr_handle =? NULL then NULL else fi_mr_desc mr_handle in
            let* rc := post (fi_tsend (s_local_ep s_comm) data (u64 sz) desc (s_remote_ep s_comm) (s_tag s_comm) p) in
            if rc =? - FI_EAGAIN then
              let* rc := sendrecv_cq_process in send_fail c p rc NULL
            else if negb (rc =? 0) then send_fail c p rc base_req
            else
              let* s_comm := get_send_comm c in
              put_comm c (SendComm (set_s_inflight (u64 (s_num_inflight_reqs s_comm + 1)) s_comm)) ;;;
              upd_req p (set_size (u64 sz)) ;;;
              ret (0, p)
      end.

End Transport.

End Sendrecv.
