(* ===== verification/SendrecvInv.v ===== *)
(** * The send/receive transport keeps requests and counters consistent

    The invariant of the data path of Sendrecv.v: requests in use, free lists,
    in-flight counters and posted operations agree. Completion processing, send,
    recv, flush and test preserve it, whatever libfabric answers, and none of
    them runs into undefined behaviour. *)

From S2P Require Import Prelude StateM NetTypes Allocator Sendrecv.
Import Sendrecv.

Module SendrecvInv.

(** ** The invariant *)

Definition fl_of (x : nccl_net_ofi_comm_t) : option pool :=
  match x with ListenComm _ => None | SendComm s => s_reqs_fl s | RecvComm r => r_reqs_fl r end.
Definition set_fl (fl : option pool) (x : nccl_net_ofi_comm_t) : nccl_net_ofi_comm_t :=
  match x with
  | ListenComm l => ListenComm l
  | SendComm s => SendComm (set_s_fl fl s)
  | RecvComm r => RecvComm (set_r_fl fl r)
  end.
Definition inflight (x : nccl_net_ofi_comm_t) : Z :=
  match x with ListenComm _ => 0 | SendComm s => s_num_inflight_reqs s | RecvComm r => r_num_inflight_reqs r end.
Definition set_inflight (n : Z) (x : nccl_net_ofi_comm_t) : nccl_net_ofi_comm_t :=
  match x with
  | ListenComm l => ListenComm l
  | SendComm s => SendComm (set_s_inflight n s)
  | RecvComm r => RecvComm (set_r_inflight n r)
  end.

Definition fl_at (w : world) (c : Z) : list Z :=
  match comms w !! c with Some x => default [] (fl_of x) | None => [] end.

(** Requests of communicator [c] that are in the hands of the application. *)
Definition load (out : gmap Z Z) (c : Z) : Z := Z.of_nat (size (filter (fun pc : Z * Z => pc.2 = c) out)).

Definition ctxs (qs : list posted_op) : list Z := p_ctx <$> qs.

(** A communicator by itself: [ep] set, its free list there, its tag without the
    control bit. *)
Definition comm_ok `{SendrecvEnv} (x : nccl_net_ofi_comm_t) : Prop :=
  comm_ep x <> NULL /\
  match x with
  | ListenComm _ => True
  | SendComm s => is_Some (s_reqs_fl s)
  | RecvComm r => is_Some (r_reqs_fl r) /\ Z.land (r_tag r) (u64 (max_tag + 1)) = 0
  end.

(** The direction of a request fits the kind of its communicator. *)
Definition fits (x : nccl_net_ofi_comm_t) (d : nccl_net_ofi_sendrecv_req_direction_t) : Prop :=
  match x with
  | ListenComm _ => False
  | SendComm _ => d = NCCL_OFI_SENDRECV_SEND
  | RecvComm _ => d = NCCL_OFI_SENDRECV_RECV
  end.

(** The request a connection to the own endpoint still waits for. *)
Definition self_req (w : world) (c p : Z) : Prop :=
  exists s ci, comms w !! c = Some (SendComm s) /\ s_conn_info s <> NULL /\
    conn_infos w !! s_conn_info s = Some ci /\ connect_to_self ci = 1 /\ ci_req ci = p.

(** [sr_inv_todo w out extra todo]: the requests in use are those of the
    application, [out] (with their communicators), and [extra] ones of pending
    connections; [todo] are operations that libfabric has completed and the
    transport has not looked at yet. *)
Record sr_inv_todo `{SendrecvEnv} (w : world) (out : gmap Z Z) (extra : gset Z) (todo : list posted_op)
    : Prop := {
  i_device : ep_device w <> NULL;
  i_dom : dom (reqs w) = dom out ∪ extra;
  i_extra : extra ## dom out;
  i_null : NULL ∉ dom (reqs w);
  i_comm : forall c x, comms w !! c = Some x -> c <> NULL /\ comm_ok x;
  i_count : forall c x, comms w !! c = Some x ->
    inflight x = load out c /\ load out c <= NCCL_OFI_MAX_REQUESTS;
  i_out : forall p c, out !! p = Some c -> exists r x, reqs w !! p = Some r /\ comms w !! c = Some x /\
    q_comm r = c /\ fits x (q_direction r) /\
    (q_state r = NCCL_OFI_SENDRECV_REQ_CREATED -> p ∈ ctxs (todo ++ posted w));
  i_posted : NoDup (ctxs (todo ++ posted w));
  i_posted_req : forall q, q ∈ todo ++ posted w -> exists r, reqs w !! p_ctx q = Some r /\
    q_state r = NCCL_OFI_SENDRECV_REQ_CREATED /\
    (p_recv q = true -> Z.land (p_tag q) (u64 (max_tag + 1)) <> 0 ->
     exists l, comms w !! q_comm r = Some (ListenComm l));
  i_fl : forall c, NoDup (fl_at w c);
  i_fl_free : forall c e, e ∈ fl_at w c -> e <> NULL /\ reqs w !! e = None;
  i_fl_disj : forall c1 c2 e, e ∈ fl_at w c1 -> e ∈ fl_at w c2 -> c1 = c2;
  i_self : forall c s, comms w !! c = Some (SendComm s) -> s_conn_info s <> NULL ->
    exists ci, conn_infos w !! s_conn_info s = Some ci /\ (connect_to_self ci = 1 -> ci_req ci ∈ extra);
  i_self_inj : forall c1 c2 s1 s2, comms w !! c1 = Some (SendComm s1) -> comms w !! c2 = Some (SendComm s2) ->
    s_conn_info s1 <> NULL -> s_conn_info s1 = s_conn_info s2 -> c1 = c2;
  i_self_req : forall c1 c2 p, self_req w c1 p -> self_req w c2 p -> c1 = c2;
}.

Abbreviation sr_inv w out extra := (sr_inv_todo w out extra []).

(** ** Counting *)

Lemma load_insert out p c c' :
  out !! p = None -> load (<[p := c]> out) c' = load out c' + (if decide (c = c') then 1 else 0).
Proof.
  intros Hp. unfold load. case_decide as Hc.
  - rewrite map_filter_insert_True by done. rewrite map_size_insert_None; [lia|].
    apply map_lookup_filter_None. by left.
  - rewrite map_filter_insert_False by done. rewrite delete_id by done. lia.
Qed.

Lemma load_delete out p c c' :
  out !! p = Some c -> load (delete p out) c' = load out c' - (if decide (c = c') then 1 else 0).
Proof.
  intros Hp. pose proof (load_insert (delete p out) p c c' (lookup_delete_eq _ _)) as H.
  rewrite insert_delete_id in H by done. lia.
Qed.

Lemma load_nonneg out c : 0 <= load out c.
Proof. unfold load. lia. Qed.

#[export] Instance ctxs_perm : Proper ((≡ₚ) ==> (≡ₚ)) ctxs.
Proof. intros l1 l2 H. unfold ctxs. by rewrite H. Qed.

Section Proofs.
Context {E : SendrecvEnv} {F : FabricOk}.

(** Taking the completed operations out of the posted ones. *)
Lemma posted_split (done qs : list posted_op) (cs : list Z) :
  done ⊆+ qs -> NoDup (ctxs qs) -> cs = ctxs done ->
  qs ≡ₚ done ++ filter (fun q => p_ctx q ∉ cs) qs.
Proof.
  intros Hsub Hnd ->. destruct (submseteq_Permutation _ _ Hsub) as [rest Hr].
  unfold ctxs in *. rewrite Hr, fmap_app in Hnd. apply NoDup_app in Hnd as (_ & Hd & _).
  assert (filter (fun q => p_ctx q ∉ p_ctx <$> done) (done ++ rest) = rest) as Hf.
  { rewrite filter_app, filter_none, filter_all; [done| |].
    - intros q Hq Hc. apply (Hd _ Hc). by apply list_elem_of_fmap_2.
    - intros q Hq Hc. apply Hc. by apply list_elem_of_fmap_2. }
  assert (filter (fun q => p_ctx q ∉ p_ctx <$> done) qs ≡ₚ rest) as -> by (by rewrite Hr, Hf). done.
Qed.

(** Only the contents of [todo] with the posted operations matter, not the order. *)
Lemma inv_perm w out extra todo todo' posted' :
  sr_inv_todo w out extra todo -> todo ++ posted w ≡ₚ todo' ++ posted' ->
  sr_inv_todo (w_posted (fun _ => posted') w) out extra todo'.
Proof.
  intros [] Hp. constructor; try done.
  - intros p c Hpc. destruct (i_out0 p c Hpc) as (r & x & H1 & H2 & H3 & H4 & H5).
    exists r, x. split_and!; try done. intros Hs. cbn. rewrite <- Hp. auto.
  - cbn. by rewrite <- Hp.
  - intros q. cbn. rewrite <- Hp. apply i_posted_req0.
Qed.

(** The transport looks at one completed operation. *)
Lemma inv_complete w out extra q todo r st sz :
  sr_inv_todo w out extra (q :: todo) -> reqs w !! p_ctx q = Some r -> st <> NCCL_OFI_SENDRECV_REQ_CREATED ->
  sr_inv_todo (w_reqs <[p_ctx q := set_state st (set_size sz r)]> w) out extra todo.
Proof.
  intros [] Hr Hst. unfold ctxs in *. cbn in i_posted0. apply NoDup_cons in i_posted0 as [Hq Hnd].
  constructor; try done; cbn.
  - by rewrite dom_insert_lookup_L.
  - by rewrite dom_insert_lookup_L.
  - intros p c Hpc. destruct (i_out0 p c Hpc) as (r' & x & H1 & H2 & H3 & H4 & H5).
    destruct (decide (p = p_ctx q)) as [->|Hne].
    + rewrite lookup_insert_eq. rewrite Hr in H1. simplify_eq. eexists _, x. by split_and!.
    + rewrite lookup_insert_ne by done. exists r', x. split_and!; try done. intros Hs.
      specialize (H5 Hs). cbn in H5. by apply elem_of_cons in H5 as [|].
  - intros q' Hq'. destruct (i_posted_req0 q') as (r' & H1 & H2 & H3); [by right|].
    rewrite lookup_insert_ne; [by exists r'|]. intros Heq. apply Hq. rewrite Heq. by apply list_elem_of_fmap_2.
  - intros c e He. destruct (i_fl_free0 c e He) as [H1 H2]. split; [done|].
    rewrite lookup_insert_ne; [done|]. intros <-. congruence.
Qed.

(** A connection request has arrived. *)
Lemma inv_accepted w out extra todo c l :
  sr_inv_todo w out extra todo -> comms w !! c = Some (ListenComm l) ->
  sr_inv_todo (w_comms <[c := ListenComm (set_l_accepted true l)]> w) out extra todo.
Proof.
  intros [] Hc. set (x' := ListenComm _).
  assert (forall c', fl_at (w_comms <[c := x']> w) c' = fl_at w c') as Hfl.
  { intros c'. unfold fl_at. cbn. destruct (decide (c = c')) as [<-|]; [|by rewrite lookup_insert_ne].
    by rewrite lookup_insert_eq, Hc. }
  assert (forall c' x, <[c := x']> (comms w) !! c' = Some x -> exists x0, comms w !! c' = Some x0 /\
    (x = x0 \/ c' = c /\ x = x' /\ x0 = ListenComm l)) as Hlk.
  { intros c' x Hx. destruct (decide (c = c')) as [<-|].
    - rewrite lookup_insert_eq in Hx. simplify_eq. eauto 10.
    - rewrite lookup_insert_ne in Hx by done. eauto. }
  assert (forall c' s, <[c := x']> (comms w) !! c' = Some (SendComm s) -> comms w !! c' = Some (SendComm s)) as Hs.
  { intros c' s Hx. destruct (Hlk _ _ Hx) as (x0 & H & [<-|(-> & ? & ->)]); done. }
  constructor; try done; cbn.
  - intros c' x Hx. destruct (Hlk _ _ Hx) as (x0 & H & [->|(-> & -> & ->)]); by apply (i_comm0 _ _ H).
  - intros c' x Hx. destruct (Hlk _ _ Hx) as (x0 & H & [->|(-> & -> & ->)]); by apply (i_count0 _ _ H).
  - intros p c' Hp. destruct (i_out0 p c' Hp) as (r & x & H1 & H2 & H3 & H4 & H5).
    exists r, x. split_and!; try done. rewrite lookup_insert_ne; [done|]. intros <-. rewrite Hc in H2. by simplify_eq.
  - intros q Hq. destruct (i_posted_req0 q Hq) as (r & H1 & H2 & H3). exists r. split_and!; try done.
    intros Hv Ht. destruct (H3 Hv Ht) as [l' Hl]. destruct (decide (c = q_comm r)) as [<-|].
    + rewrite lookup_insert_eq. by eexists.
    + rewrite lookup_insert_ne by done. by eexists.
  - intros c'. rewrite Hfl. apply i_fl0.
  - intros c' e. rewrite Hfl. apply i_fl_free0.
  - intros c1 c2 e. rewrite !Hfl. apply i_fl_disj0.
  - intros c' s Hx. by apply (i_self0 c' s), Hs.
  - intros c1 c2 s1 s2 H1 H2. by apply i_self_inj0; apply Hs.
  - intros c1 c2 p (s1 & ci1 & H1 & H1') (s2 & ci2 & H2 & H2').
    apply (i_self_req0 c1 c2 p); [exists s1, ci1|exists s2, ci2]; split; auto.
Qed.

(** What processing completions changes: state and size of requests in [S], and
    whether a listening communicator has been connected to. *)
Record advanced (S : list Z) (w w' : world) : Prop := {
  a_reqs : forall p r, reqs w !! p = Some r -> exists st sz,
    reqs w' !! p = Some (set_state st (set_size sz r)) /\ (p ∉ S -> reqs w' !! p = Some r);
  a_comms : forall c x, comms w !! c = Some x ->
    comms w' !! c = Some x \/
    exists l, x = ListenComm l /\ comms w' !! c = Some (ListenComm (set_l_accepted true l));
  a_dom : dom (comms w') = dom (comms w);
  a_posted : forall q, q ∈ posted w' -> q ∈ posted w;
  a_rest : freed w' = freed w /\ conn_infos w' = conn_infos w /\ ep_device w' = ep_device w /\
    ep_tag w' = ep_tag w /\ ep_ref_cnt w' = ep_ref_cnt w /\ heap w' = heap w /\ pools w' = pools w;
}.

Lemma set_state_size_id r : set_state (q_state r) (set_size (q_size r) r) = r.
Proof. by destruct r. Qed.

Lemma advanced_refl S w : advanced S w w.
Proof.
  constructor; eauto 10. intros p r Hr. exists (q_state r), (q_size r). by rewrite set_state_size_id.
Qed.

Lemma advanced_trans S w1 w2 w3 : advanced S w1 w2 -> advanced S w2 w3 -> advanced S w1 w3.
Proof.
  intros [r12 c12 d12 p12 e12] [r23 c23 d23 p23 e23].
  constructor; [| |congruence|auto|destruct_and?; split_and!; congruence].
  - intros p r Hr. destruct (r12 p r Hr) as (st & sz & H1 & H1'). destruct (r23 _ _ H1) as (st' & sz' & H2 & H2').
    exists st', sz'. split; [by destruct r|]. intros Hp. specialize (H1' Hp). specialize (H2' Hp).
    rewrite H1 in H1'. injection H1' as H1'. by rewrite H2', H1'.
  - intros c x Hc. destruct (c12 c x Hc) as [H1|(l & -> & H1)]; [by apply c23|]. right. exists l. split; [done|].
    by destruct (c23 _ _ H1) as [|(l' & [= <-] & ?)].
Qed.

Lemma advanced_send S w w' c s :
  advanced S w w' -> comms w !! c = Some (SendComm s) -> comms w' !! c = Some (SendComm s).
Proof. intros H Hc. by destruct (a_comms _ _ _ H _ _ Hc) as [|(? & ? & _)]. Qed.

Lemma advanced_recv S w w' c r :
  advanced S w w' -> comms w !! c = Some (RecvComm r) -> comms w' !! c = Some (RecvComm r).
Proof. intros H Hc. by destruct (a_comms _ _ _ H _ _ Hc) as [|(? & ? & _)]. Qed.

Lemma advanced_req S w p r st sz :
  reqs w !! p = Some r -> p ∈ S -> advanced S w (w_reqs <[p := set_state st (set_size sz r)]> w).
Proof.
  intros Hr Hp. constructor; cbn; eauto 10. intros p' r' Hr'. destruct (decide (p = p')) as [<-|].
  - rewrite Hr in Hr'. simplify_eq. rewrite lookup_insert_eq. exists st, sz. done.
  - rewrite lookup_insert_ne by done. exists (q_state r'), (q_size r'). by rewrite set_state_size_id.
Qed.

Lemma advanced_accept S w c l :
  comms w !! c = Some (ListenComm l) ->
  advanced S w (w_comms <[c := ListenComm (set_l_accepted true l)]> w).
Proof.
  intros Hc. constructor; cbn; eauto 10.
  - intros p r Hr. exists (q_state r), (q_size r). by rewrite set_state_size_id.
  - intros c' x Hx. destruct (decide (c = c')) as [<-|].
    + rewrite Hc in Hx. simplify_eq. rewrite lookup_insert_eq. right. eauto.
    + rewrite lookup_insert_ne by done. by left.
  - by rewrite dom_insert_lookup_L.
Qed.

Lemma advanced_posted S w l h :
  (forall q, q ∈ l -> q ∈ posted w) -> advanced S w (w_posted (fun _ => l) (w_hist (fun _ => h) w)).
Proof.
  intros Hl. constructor; cbn; eauto 10.
  intros p r Hr. exists (q_state r), (q_size r). by rewrite set_state_size_id.
Qed.

Lemma sr_get_req_wp w p r Q : reqs w !! p = Some r -> Q r w -> wp (get_req p) Q w.
Proof. intros H HQ. unfold get_req, wp, bind, gets. by rewrite H. Qed.

Lemma get_comm_wp w c x Q : comms w !! c = Some x -> Q x w -> wp (get_comm c) Q w.
Proof. intros H HQ. unfold get_comm, wp, bind, gets. by rewrite H. Qed.

Lemma sr_upd_req_wp w p f r Q :
  reqs w !! p = Some r -> Q tt (w_reqs <[p := f r]> w) -> wp (upd_req p f) Q w.
Proof. intros H HQ. unfold upd_req. apply wp_bind, (sr_get_req_wp w p r); done. Qed.

Lemma process_completions_spec S out extra es : forall w todo,
  sr_inv_todo w out extra todo -> Forall2 answers es todo -> (forall p, p ∈ ctxs todo -> p ∈ S) ->
  wp (sendrecv_process_completions es)
     (fun rc w' => rc = 0 /\ sr_inv_todo w' out extra [] /\ advanced S w w' /\ posted w' = posted w) w.
Proof.
  induction es as [|e es IH]; intros w todo Hinv Hans HS; inversion Hans as [|? q ? todo' (Hc & Hr & Ht) Hans']; subst.
  { apply wp_ret. split_and!; [done..|apply advanced_refl|done]. }
  cbn [sendrecv_process_completions].
  destruct (i_posted_req _ _ _ _ Hinv q) as (r & Hq & Hst & Hl); [left|].
  assert (e_ctx e <> NULL) as Hn.
  { rewrite Hc. intros H0. apply (i_null _ _ _ _ Hinv). rewrite <- H0. by eapply elem_of_dom_2. }
  rewrite (proj2 (Z.eqb_neq _ _) Hn), Hc. apply wp_bind, (sr_get_req_wp w _ r); [done|].
  assert (p_ctx q ∈ S) as HqS by (apply HS; left).
  assert (exists w1, (forall Q, Q tt w1 -> wp (if negb (Z.land (e_tag e) (u64 (max_tag + 1)) =? 0) && e_recv e
      then let* l_comm := get_listen_comm (q_comm r) in
           put_comm (q_comm r) (ListenComm (set_l_accepted true l_comm)) else ret tt) Q w) /\
    sr_inv_todo w1 out extra (q :: todo') /\ advanced S w w1 /\ posted w1 = posted w /\ reqs w1 = reqs w)
    as (w1 & Hw1 & Hinv1 & Ha1 & Hp1 & Hr1).
  { destruct (negb _ && e_recv e) eqn:Hb; [|exists w; split_and!; auto using advanced_refl].
    apply andb_prop in Hb as [Hb1 Hb2]. apply negb_true_iff, Z.eqb_neq in Hb1. rewrite Hr in Hb2.
    rewrite (Ht Hb2) in Hb1. destruct (Hl Hb2 Hb1) as [l Hlc].
    exists (w_comms <[q_comm r := ListenComm (set_l_accepted true l)]> w). split_and!; try done.
    - intros Q HQ. apply wp_bind. unfold get_listen_comm. by apply wp_bind, (get_comm_wp w _ _ _ Hlc).
    - by apply inv_accepted.
    - by apply advanced_accept. }
  apply wp_bind, Hw1. apply wp_bind. unfold sendrecv_req_update. rewrite <- Hr1 in Hq.
  apply (sr_upd_req_wp w1 _ _ r _ Hq). eapply wp_mono.
  { apply (IH _ todo'); [by eapply inv_complete|done|]. intros p Hp. apply HS. by right. }
  cbn. intros rc w' (-> & Hi & Ha & Hpp). split_and!; [done|done| |congruence].
  eapply advanced_trans; [exact Ha1|]. eapply advanced_trans; [by eapply advanced_req|done].
Qed.

(** Completed operations leave [posted] and are still to be looked at. *)
Lemma inv_polled w out extra done cs h :
  sr_inv w out extra -> done ⊆+ posted w -> cs = ctxs done ->
  sr_inv_todo (w_posted (fun _ => filter (fun q => p_ctx q ∉ cs) (posted w)) (w_hist (fun _ => h) w))
    out extra done /\ posted w ≡ₚ done ++ filter (fun q => p_ctx q ∉ cs) (posted w).
Proof.
  intros Hinv Hsub Hcs. assert (posted w ≡ₚ done ++ filter (fun q => p_ctx q ∉ cs) (posted w)) as Hs.
  { by apply posted_split; [|apply (i_posted _ _ _ _ Hinv)|]. }
  split; [|done]. apply (inv_perm (w_hist (fun _ => h) w) out extra [] done); [|done].
  destruct Hinv. by constructor.
Qed.

Lemma cq_loop_spec S out extra fuel : forall w,
  sr_inv w out extra -> (length (posted w) < fuel)%nat -> (forall p, p ∈ ctxs (posted w) -> p ∈ S) ->
  wp (cq_loop fuel) (fun rc w' => sr_inv w' out extra /\ advanced S w w') w.
Proof.
  induction fuel as [|fuel IH]; intros w Hinv Hf HS; [lia|].
  cbn [cq_loop]. unfold fi_cq_read. wp_simpl. cbn [w_hist posted].
  assert (forall w1 done rest, sr_inv w1 out extra -> advanced S w w1 -> posted w ≡ₚ done ++ rest ->
    (0 < length done)%nat -> posted w1 = rest ->
    wp (cq_loop fuel) (fun rc w' => sr_inv w' out extra /\ advanced S w w') w1) as Hnext.
  { intros w1 done rest Hi Ha Hs Hd <-. rewrite Hs, length_app in Hf.
    eapply wp_mono; [apply IH; [done|lia|]|].
    - intros p Hp. apply HS. rewrite Hs. unfold ctxs in *. rewrite fmap_app. apply elem_of_app. by right.
    - intros rc w2 [? ?]. split; [done|]. by eapply advanced_trans. }
  assert (forall (P : posted_op -> Prop) `{!forall x, Decision (P x)} h, advanced S w
    (w_posted (fun _ => filter P (posted w)) (w_hist (fun _ => h) w))) as Ha1.
  { intros P ? h. apply advanced_posted. intros q Hq. by apply list_elem_of_filter in Hq as [_ ?]. }
  destruct (cq_read (hist w) (posted w)) as [es| |rc| |rc|ctx len] eqn:Hcq; wp_simpl.
  2-5: split; [by destruct Hinv; constructor|by apply (advanced_posted S w (posted w) (hist w ++ _))].
  - destruct (cq_read_entries _ _ _ Hcq) as (Hne & done & Hsub & Hans).
    assert (e_ctx <$> es = ctxs done) as Hctx.
    { clear -Hans. induction Hans as [|e q es qs (Hc & _) _ IH]; cbn; [done|by rewrite Hc, IH]. }
    destruct (inv_polled w out extra done _ (hist w ++ [EvCq (CqEntries es)]) Hinv Hsub Hctx) as [Hinv1 Hsplit].
    wp_use (process_completions_spec S out extra es _ done Hinv1 Hans).
    { intros p Hp. apply HS. rewrite Hsplit. unfold ctxs. rewrite fmap_app. apply elem_of_app. by left. }
    intros rc w2 (-> & Hinv2 & Ha2 & Hp2). cbn [Z.eqb negb].
    eapply (Hnext w2 done); [done| |exact Hsplit| |done].
    + eapply advanced_trans; [|exact Ha2]. apply Ha1.
    + rewrite <- (Forall2_length _ _ _ Hans). destruct es; [done|cbn; lia].
  - destruct (cq_read_error _ _ _ _ Hcq) as (q & Hq & <-).
    destruct (inv_polled w out extra [q] [p_ctx q] (hist w ++ [EvCq (CqError (p_ctx q) len)]) Hinv)
      as [Hinv1 Hsplit]; [by apply singleton_submseteq_l|done|].
    assert (filter (fun q' => p_ctx q' ∉ [p_ctx q]) (posted w) = filter (fun q' => p_ctx q' <> p_ctx q) (posted w))
      as Hfl by (apply list_filter_iff; intros q'; by rewrite list_elem_of_singleton).
    rewrite Hfl in *. destruct (i_posted_req _ _ _ _ Hinv q) as (r & Hr & _); [done|].
    unfold sendrecv_req_update. eapply sr_upd_req_wp; [exact Hr|].
    eapply (Hnext _ [q]); [by eapply inv_complete| |exact Hsplit|cbn; lia|done].
    eapply advanced_trans; [|apply advanced_req; [done|]]; [apply Ha1|]. apply HS. by apply list_elem_of_fmap_2.
Qed.

Lemma cq_process_spec w out extra :
  sr_inv w out extra ->
  wp sendrecv_cq_process (fun rc w' => sr_inv w' out extra /\ advanced (ctxs (posted w)) w w') w.
Proof. intros Hinv. unfold sendrecv_cq_process. wp_simpl. apply cq_loop_spec; [done|lia|auto]. Qed.

End Proofs.

(** ** Requests that change hands *)

(** Communicators that differ in counter and free list only. *)
Definition like (x y : nccl_net_ofi_comm_t) : Prop := y = set_inflight (inflight y) (set_fl (fl_of y) x).

Lemma like_refl x : like x x.
Proof. by destruct x as [[]|[]|[]]. Qed.

Lemma like_edit n fl x : like x (set_inflight n (set_fl fl x)).
Proof. by destruct x as [[]|[]|[]]. Qed.

Lemma like_fits x y d : like x y -> fits x d -> fits y d.
Proof. intros ->. by destruct x. Qed.

Lemma like_send x s : like x (SendComm s) -> exists s0, x = SendComm s0 /\ s_conn_info s0 = s_conn_info s.
Proof. intros H. destruct x as [|s0|]; [done| |done]. exists s0. split; [done|]. injection H as ->. by destruct s0. Qed.

(** A world with the communicators of another one, but for counters and free lists. *)
Definition alike (w w' : world) : Prop :=
  conn_infos w' = conn_infos w /\ ep_device w' = ep_device w /\
  (forall c y, comms w' !! c = Some y -> exists x, comms w !! c = Some x /\ like x y /\ (is_Some (fl_of x) -> is_Some (fl_of y))) /\
  (forall c x, comms w !! c = Some x -> exists y, comms w' !! c = Some y /\ like x y).

Lemma alike_edit w w' c x n l :
  comms w !! c = Some x -> comms w' = <[c := set_inflight n (set_fl (Some l) x)]> (comms w) ->
  conn_infos w' = conn_infos w -> ep_device w' = ep_device w -> alike w w'.
Proof.
  intros Hc Hcs Hci Hdev. split_and!; try done; intros c' y; rewrite Hcs; (destruct (decide (c = c')) as [<-|];
    [rewrite lookup_insert_eq|rewrite lookup_insert_ne by done]).
  - intros [= <-]. exists x. split_and!; [done|apply like_edit|]. destruct x as [|[]|[]]; cbn; [|done..]. by intros [].
  - intros H. exists y. split_and!; [done|apply like_refl|done].
  - intros H. simplify_eq. eexists. split; [done|apply like_edit].
  - intros H. exists y. split; [done|apply like_refl].
Qed.

Lemma alike_self_req w w' c p : alike w w' -> self_req w' c p -> self_req w c p.
Proof.
  intros (Hci & _ & Hback & _) (s & ci & Hs & Hn & Hi & Hself & Hreq).
  destruct (Hback _ _ Hs) as (x & Hx & Hl & _). destruct (like_send _ _ Hl) as (s0 & -> & Heq).
  rewrite <- Heq, Hci in *. by exists s0, ci.
Qed.

Lemma alike_listen w w' c l : alike w w' -> comms w !! c = Some (ListenComm l) ->
  exists l', comms w' !! c = Some (ListenComm l').
Proof.
  intros (_ & _ & _ & Hf) Hl. destruct (Hf _ _ Hl) as (y & Hy & Hl'). destruct y as [l'| |]; [by exists l'|done..].
Qed.

Lemma fl_at_edit w w' c x n l :
  comms w' = <[c := set_inflight n (set_fl (Some l) x)]> (comms w) -> fl_of x <> None ->
  forall c', fl_at w' c' = if decide (c = c') then l else fl_at w c'.
Proof.
  intros Hcs Hx c'. unfold fl_at. rewrite Hcs. case_decide as Hd; [subst c'|by rewrite lookup_insert_ne].
  rewrite lookup_insert_eq. by destruct x.
Qed.

Lemma fl_at_is w c x l : comms w !! c = Some x -> fl_of x = Some l -> fl_at w c = l.
Proof. intros Hc Hl. unfold fl_at. by rewrite Hc, Hl. Qed.

Section Hands.
Context {E : SendrecvEnv}.

(** The parts of the invariant about communicators and pending connections. *)
Lemma alike_inv w w' out extra :
  sr_inv w out extra -> alike w w' ->
  ep_device w' <> NULL /\
  (forall c x, comms w' !! c = Some x -> c <> NULL /\ comm_ok x) /\
  (forall c1 c2 s1 s2, comms w' !! c1 = Some (SendComm s1) -> comms w' !! c2 = Some (SendComm s2) ->
    s_conn_info s1 <> NULL -> s_conn_info s1 = s_conn_info s2 -> c1 = c2) /\
  (forall c1 c2 p, self_req w' c1 p -> self_req w' c2 p -> c1 = c2) /\
  (forall extra' : gset Z, (forall c p, self_req w c p -> p ∈ extra -> p ∈ extra') ->
   forall c s, comms w' !! c = Some (SendComm s) -> s_conn_info s <> NULL ->
    exists ci, conn_infos w' !! s_conn_info s = Some ci /\ (connect_to_self ci = 1 -> ci_req ci ∈ extra')).
Proof.
  intros [] Hal. pose proof Hal as (Hci & Hdev & Hback & Hforth). split_and!.
  - by rewrite Hdev.
  - intros c y Hy. destruct (Hback _ _ Hy) as (x & Hx & Hl & Hfl). destruct (i_comm0 _ _ Hx) as [? [Hep Hok]].
    split; [done|]. destruct x, y; cbn in *; try done; injection Hl as Hl; rewrite Hl; cbn.
    + split; [by destruct l|done].
    + split; [by destruct s|]. cbn in Hfl. by apply Hfl.
    + destruct Hok. split; [by destruct r|]. split; [by apply Hfl|by destruct r].
  - intros c1 c2 s1 s2 H1 H2. destruct (Hback _ _ H1) as (x1 & Hx1 & Hl1 & _), (Hback _ _ H2) as (x2 & Hx2 & Hl2 & _).
    destruct (like_send _ _ Hl1) as (s1' & -> & <-), (like_send _ _ Hl2) as (s2' & -> & <-). eauto.
  - intros c1 c2 p H1 H2. apply (i_self_req0 c1 c2 p); by eapply alike_self_req.
  - intros extra' Hex c s Hs Hn. destruct (Hback _ _ Hs) as (x & Hx & Hl & _).
    destruct (like_send _ _ Hl) as (s0 & -> & Heq). rewrite <- Heq in *. rewrite Hci.
    destruct (i_self0 _ _ Hx Hn) as (ci & Hi & Hin). exists ci. split; [done|]. intros H1.
    apply (Hex c); [by exists s0, ci|auto].
Qed.

(** A request leaves a free list. *)
Lemma inv_alloc w w' out extra c x p l r :
  sr_inv w out extra -> comms w !! c = Some x -> fl_of x = Some (p :: l) ->
  q_state r = NCCL_OFI_SENDRECV_REQ_CREATED ->
  w' = w_reqs <[p := r]> (w_comms <[c := set_fl (Some l) x]> w) ->
  sr_inv w' out ({[p]} ∪ extra) /\ (p ∉ extra) /\ p <> NULL.
Proof.
  intros Hinv Hc Hfl Hr ->. pose proof Hinv as [].
  assert (set_fl (Some l) x = set_inflight (inflight x) (set_fl (Some l) x)) as Hset by (by destruct x as [[]|[]|[]]).
  set (w' := w_reqs _ _).
  assert (alike w w') as Hal by (eapply alike_edit; [exact Hc|cbn; by rewrite Hset|done..]).
  destruct (alike_inv _ _ _ _ Hinv Hal) as (H1 & H2 & H3 & H4 & H5).
  assert (p ∈ fl_at w c) as Hp by (rewrite (fl_at_is _ _ _ _ Hc Hfl); left).
  destruct (i_fl_free0 _ _ Hp) as [Hpn Hpr].
  assert ((p ∉ extra) /\ p ∉ dom out) as [Hpe Hpo].
  { apply not_elem_of_dom in Hpr. rewrite i_dom0 in Hpr. set_solver. }
  assert (forall c', fl_at w' c' = if decide (c = c') then l else fl_at w c') as Hfl'.
  { apply (fl_at_edit w w' c x (inflight x)); [cbn; by rewrite Hset|by rewrite Hfl]. }
  assert (forall c' e, e ∈ fl_at w' c' -> e ∈ fl_at w c' /\ e <> p) as Hin.
  { intros c' e He. rewrite Hfl' in He. case_decide as Hd.
    - subst c'. rewrite (fl_at_is _ _ _ _ Hc Hfl). specialize (i_fl0 c). rewrite (fl_at_is _ _ _ _ Hc Hfl) in i_fl0.
      apply NoDup_cons in i_fl0 as [? _]. split; [by right|]. by intros ->.
    - split; [done|]. intros ->. by eapply Hd, i_fl_disj0. }
  split; [|done]. constructor; try done.
  - cbn. rewrite dom_insert_L, i_dom0. set_solver.
  - set_solver.
  - cbn. rewrite dom_insert_L. set_solver.
  - intros c' y Hy. cbn in Hy. destruct (decide (c = c')) as [<-|].
    + rewrite lookup_insert_eq in Hy. simplify_eq. rewrite Hset. destruct (i_count0 _ _ Hc). by destruct x as [[]|[]|[]].
    + rewrite lookup_insert_ne in Hy by done. auto.
  - intros p' c' Hp'. destruct (i_out0 _ _ Hp') as (r' & y & Hr' & Hy & ? & ? & ?).
    destruct Hal as (_ & _ & _ & Hforth). destruct (Hforth _ _ Hy) as (y' & Hy' & Hlk).
    exists r', y'. split_and!; try done; [|by eapply like_fits].
    cbn. rewrite lookup_insert_ne; [done|]. intros <-. congruence.
  - intros q Hq. destruct (i_posted_req0 q Hq) as (r' & Hr' & ? & Hlst). exists r'. split_and!; [|done|].
    + cbn. rewrite lookup_insert_ne; [done|]. congruence.
    + intros Hv Ht. destruct (Hlst Hv Ht) as [l' Hl']. by eapply alike_listen.
  - intros c'. rewrite Hfl'. case_decide as Hd; [|done]. specialize (i_fl0 c).
    rewrite (fl_at_is _ _ _ _ Hc Hfl) in i_fl0. by apply NoDup_cons in i_fl0 as [_ ?].
  - intros c' e He. destruct (Hin _ _ He) as [He' Hne]. destruct (i_fl_free0 _ _ He') as [? ?]. split; [done|].
    cbn. by rewrite lookup_insert_ne.
  - intros c1 c2 e He1 He2. by eapply i_fl_disj0; apply Hin.
  - apply H5. set_solver.
Qed.

(** The caller's own request: not handed to libfabric, not a connection's. *)
Definition mine (w : world) (extra : gset Z) (p : Z) : Prop :=
  p ∈ extra /\ (p ∉ ctxs (posted w)) /\ forall c, ~ self_req w c p.

Lemma mine_fresh w out extra w' p :
  sr_inv w out extra -> p ∉ extra -> p ∉ dom out -> posted w' = posted w ->
  (forall c, self_req w' c p -> self_req w c p) -> mine w' ({[p]} ∪ extra) p.
Proof.
  intros Hinv Hpe Hpo Hpost Hself. split_and!; [set_solver| |].
  - rewrite Hpost. intros Hp. apply list_elem_of_fmap in Hp as (q & -> & Hq).
    destruct (i_posted_req _ _ _ _ Hinv q Hq) as (r & Hr & _). apply elem_of_dom_2 in Hr.
    rewrite (i_dom _ _ _ _ Hinv) in Hr. set_solver.
  - intros c Hs. apply Hself in Hs as (s & ci & Hs & Hn & Hci & H1 & <-).
    destruct (i_self _ _ _ _ Hinv _ _ Hs Hn) as (ci' & Hci' & Hin). simplify_eq. auto.
Qed.

(** Its fields may be set freely. *)
Lemma inv_mine w out extra p r :
  sr_inv w out extra -> mine w extra p -> sr_inv (w_reqs <[p := r]> w) out extra.
Proof.
  intros [] (Hpe & Hpp & _).
  assert (is_Some (reqs w !! p)) as [r0 Hr0] by (apply elem_of_dom; rewrite i_dom0; set_solver).
  assert (p ∉ dom out) as Hpo by set_solver.
  constructor; try done; cbn.
  - by rewrite dom_insert_lookup_L.
  - by rewrite dom_insert_lookup_L.
  - intros p' c Hp'. destruct (i_out0 _ _ Hp') as (r' & x & ? & ? & ? & ? & ?). exists r', x. split_and!; try done.
    rewrite lookup_insert_ne; [done|]. intros <-. by apply Hpo; eapply elem_of_dom_2.
  - intros q Hq. destruct (i_posted_req0 q Hq) as (r' & ? & ? & ?). exists r'. split_and!; try done.
    rewrite lookup_insert_ne; [done|]. intros ->. by apply Hpp, list_elem_of_fmap_2.
  - intros c e He. destruct (i_fl_free0 c e He) as [? He']. split; [done|]. rewrite lookup_insert_ne; [done|].
    intros <-. congruence.
Qed.

(** Libfabric accepts the operation, and the request goes to the application. *)
Lemma inv_handed w out extra w' p c x r q :
  sr_inv w out extra -> mine w extra p -> reqs w !! p = Some r -> q_comm r = c -> comms w !! c = Some x ->
  fits x (q_direction r) -> q_state r = NCCL_OFI_SENDRECV_REQ_CREATED -> inflight x <> NCCL_OFI_MAX_REQUESTS ->
  p_ctx q = p -> (p_recv q = true -> Z.land (p_tag q) (u64 (max_tag + 1)) = 0) ->
  reqs w' = reqs w -> posted w' = q :: posted w -> comms w' = <[c := set_inflight (u64 (inflight x + 1)) x]> (comms w) ->
  conn_infos w' = conn_infos w -> ep_device w' = ep_device w ->
  sr_inv w' (<[p := c]> out) (extra ∖ {[p]}).
Proof.
  intros Hinv (Hpe & Hpp & Hps) Hr Hrc Hc Hfit Hst Hmax <- Htag Hreqs Hpost Hcs Hci Hdev. pose proof Hinv as [].
  assert (p_ctx q ∉ dom out) as Hpo by set_solver. pose proof Hpo as Hpo'. apply not_elem_of_dom in Hpo'.
  assert (exists l, fl_of x = Some l) as [l Hl].
  { destruct (i_comm0 _ _ Hc) as [_ [_ Hok]]. destruct x; cbn in *; [done|by destruct Hok; eauto|by destruct Hok as [[] _]; eauto]. }
  assert (set_inflight (u64 (inflight x + 1)) x = set_inflight (u64 (inflight x + 1)) (set_fl (Some l) x)) as Hset.
  { rewrite <- Hl. by destruct x as [[]|[]|[]]. }
  rewrite Hset in Hcs. assert (alike w w') as Hal by (by eapply alike_edit).
  destruct (alike_inv _ _ _ _ Hinv Hal) as (H1 & H2 & H3 & H4 & H5).
  assert (forall c', fl_at w' c' = fl_at w c') as Hfl.
  { intros c'. rewrite (fl_at_edit _ _ _ _ _ _ Hcs) by (by rewrite Hl). case_decide as Hd; [subst c'|done].
    by rewrite (fl_at_is _ _ _ _ Hc Hl). }
  destruct (i_count0 _ _ Hc) as [Hn Hle]. pose proof (load_nonneg out c) as Hge.
  constructor; try done.
  - rewrite Hreqs, i_dom0, dom_insert_L. rewrite (union_difference_singleton_L (p_ctx q) extra) at 1 by done. set_solver.
  - rewrite dom_insert_L. set_solver.
  - by rewrite Hreqs.
  - intros c' y Hy. rewrite load_insert by done. rewrite Hcs in Hy. case_decide as Hd.
    + subst c'. rewrite lookup_insert_eq in Hy. simplify_eq. unfold NCCL_OFI_MAX_REQUESTS in *.
      assert (inflight (set_inflight (u64 (inflight x + 1)) (set_fl (Some l) x)) = u64 (inflight x + 1)) as ->
        by (by destruct x).
      rewrite wrap_small by (rewrite Hn; lia). lia.
    + rewrite lookup_insert_ne in Hy by done. rewrite Z.add_0_r. auto.
  - intros p' c' Hp'. destruct Hal as (_ & _ & _ & Hforth). rewrite Hreqs, Hpost.
    destruct (decide (p' = p_ctx q)) as [->|Hne].
    + rewrite lookup_insert_eq in Hp'. simplify_eq. destruct (Hforth _ _ Hc) as (y & Hy & Hlk).
      exists r, y. split_and!; try done; [by eapply like_fits|]. intros _. left.
    + rewrite lookup_insert_ne in Hp' by done. destruct (i_out0 _ _ Hp') as (r' & x' & ? & Hx' & ? & ? & Hcr).
      destruct (Hforth _ _ Hx') as (y & Hy & Hlk). exists r', y. split_and!; try done; [by eapply like_fits|].
      intros Hs. right. by apply Hcr.
  - rewrite Hpost. cbn. apply NoDup_cons. split; [done|]. apply i_posted0.
  - rewrite Hpost. cbn. intros q' [->|Hq']%elem_of_cons.
    + exists r. rewrite Hreqs. split_and!; try done. intros Hv Ht. by destruct Ht; auto.
    + destruct (i_posted_req0 q' Hq') as (r' & ? & ? & Hlst). exists r'. rewrite Hreqs. split_and!; try done.
      intros Hv Ht. destruct (Hlst Hv Ht). by eapply alike_listen.
  - intros c'. rewrite Hfl. auto.
  - intros c' e. rewrite Hfl, Hreqs. apply i_fl_free0.
  - intros c1 c2 e. rewrite !Hfl. apply i_fl_disj0.
  - apply H5. intros c' p' Hs Hp'. apply elem_of_difference. split; [done|]. intros ->%elem_of_singleton.
    by apply (Hps c').
Qed.

(** A request goes back to the free list of its communicator. *)
Lemma inv_release w out extra w' p c x l r :
  sr_inv w out extra -> reqs w !! p = Some r -> p ∉ ctxs (posted w) -> (forall c', ~ self_req w c' p) ->
  comms w !! c = Some x -> fl_of x = Some l -> (p ∈ extra \/ out !! p = Some c) ->
  reqs w' = delete p (reqs w) -> posted w' = posted w ->
  comms w' = <[c := set_inflight (load (delete p out) c) (set_fl (Some (p :: l)) x)]> (comms w) ->
  conn_infos w' = conn_infos w -> ep_device w' = ep_device w ->
  sr_inv w' (delete p out) (extra ∖ {[p]}).
Proof.
  intros Hinv Hr Hpp Hps Hc Hl Hwhere Hreqs Hpost Hcs Hci Hdev. pose proof Hinv as [].
  assert (alike w w') as Hal by (by eapply alike_edit).
  destruct (alike_inv _ _ _ _ Hinv Hal) as (H1 & H2 & H3 & H4 & H5).
  assert (p <> NULL) as Hpn by (intros ->; by apply i_null0; eapply elem_of_dom_2).
  assert (forall c', p ∉ fl_at w c') as Hpf by (intros c' Hp; destruct (i_fl_free0 _ _ Hp); congruence).
  assert (forall c', fl_at w' c' = if decide (c = c') then p :: l else fl_at w c') as Hfl.
  { apply (fl_at_edit _ _ _ _ _ _ Hcs). by rewrite Hl. }
  pose proof (fl_at_is _ _ _ _ Hc Hl) as Hflc.
  assert (forall c' e, e ∈ fl_at w' c' -> (e = p /\ c' = c) \/ e ∈ fl_at w c') as Hin.
  { intros c' e He. rewrite Hfl in He. case_decide as Hd; [subst c'|by right].
    apply elem_of_cons in He as [->|He]; [by left|right; by rewrite Hflc]. }
  constructor; try done.
  - rewrite Hreqs, !dom_delete_L, i_dom0. set_solver.
  - rewrite dom_delete_L. set_solver.
  - rewrite Hreqs, dom_delete_L. set_solver.
  - intros c' y Hy. assert (load (delete p out) c' <= load out c' /\ (c' <> c -> load (delete p out) c' = load out c'))
      as [Hle Heq].
    { destruct (out !! p) as [c0|] eqn:Ho.
      - rewrite (load_delete _ _ _ _ Ho). destruct Hwhere as [Hx|Hx]; [|simplify_eq; case_decide; lia].
        exfalso. apply (i_extra0 p); [done|by eapply elem_of_dom_2].
      - by rewrite delete_id. }
    rewrite Hcs in Hy. destruct (decide (c = c')) as [<-|].
    + rewrite lookup_insert_eq in Hy. simplify_eq. destruct (i_count0 _ _ Hc). split; [by destruct x|lia].
    + rewrite lookup_insert_ne in Hy by done. rewrite Heq by done. auto.
  - intros p' c' Hp'. apply lookup_delete_Some in Hp' as [Hne Hp']. destruct Hal as (_ & _ & _ & Hforth).
    destruct (i_out0 _ _ Hp') as (r' & x' & ? & Hx' & ? & ? & ?).
    destruct (Hforth _ _ Hx') as (y & Hy & Hlk). exists r', y. rewrite Hreqs, Hpost, lookup_delete_ne by done.
    split_and!; try done. by eapply like_fits.
  - by rewrite Hpost.
  - rewrite Hpost, Hreqs. intros q Hq. destruct (i_posted_req0 q Hq) as (r' & ? & ? & Hlst). exists r'.
    rewrite lookup_delete_ne by (intros ->; by apply Hpp, list_elem_of_fmap_2). split_and!; try done.
    intros Hv Ht. destruct (Hlst Hv Ht). by eapply alike_listen.
  - intros c'. rewrite Hfl. case_decide; [|done]. rewrite <- Hflc. apply NoDup_cons. auto.
  - intros c' e He. rewrite Hreqs. destruct (Hin _ _ He) as [[-> _]|He']; [by rewrite lookup_delete_eq|].
    destruct (i_fl_free0 _ _ He') as [? He2]. split; [done|]. apply lookup_delete_None. by right.
  - intros c1 c2 e He1 He2. destruct (Hin _ _ He1) as [[-> ->]|Hx1], (Hin _ _ He2) as [[? ->]|Hx2]; subst; eauto;
      exfalso; by eapply Hpf.
  - apply H5. intros c' p' Hs Hp'. apply elem_of_difference. split; [done|]. intros ->%elem_of_singleton.
    by apply (Hps c').
Qed.

End Hands.

(** ** The calls *)

Section Calls.
Context {E : SendrecvEnv} {F : FabricOk}.

Lemma advanced_mine w w' extra p r :
  advanced (ctxs (posted w)) w w' -> mine w extra p -> reqs w !! p = Some r ->
  mine w' extra p /\ reqs w' !! p = Some r.
Proof.
  intros Ha (Hpe & Hpp & Hps) Hr. destruct (a_reqs _ _ _ Ha _ _ Hr) as (_ & _ & _ & Hr'). split; [|auto].
  destruct (a_rest _ _ _ Ha) as (_ & Hci & _). split_and!; [done| |].
  - intros Hp. apply list_elem_of_fmap in Hp as (q & -> & Hq). by apply Hpp, list_elem_of_fmap_2, (a_posted _ _ _ Ha).
  - intros c (s & ci & Hs & Hrest). apply (Hps c). exists s, ci. rewrite <- Hci. split; [|done].
    assert (is_Some (comms w !! c)) as [x Hx] by (apply elem_of_dom; rewrite <- (a_dom _ _ _ Ha); by eapply elem_of_dom_2).
    destruct (a_comms _ _ _ Ha _ _ Hx) as [H|(l & -> & H)]; congruence.
Qed.

Lemma comm_fl w out extra c x d :
  sr_inv w out extra -> comms w !! c = Some x -> fits x d -> exists l, fl_of x = Some l.
Proof.
  intros Hinv Hc Hf. destruct (i_comm _ _ _ _ Hinv _ _ Hc) as [_ [_ Hok]].
  destruct x; cbn in *; [done|by destruct Hok; eauto|by destruct Hok as [[] _]; eauto].
Qed.

Lemma alloc_spec w out extra c x d :
  sr_inv w out extra -> comms w !! c = Some x -> fits x d ->
  wp (sendrecv_allocate_req (fl_of x) (fun fl => put_comm c (set_fl fl x)))
    (fun p w' => (p = NULL /\ w' = w) \/
       exists r x', p <> NULL /\ (p ∉ extra) /\ out !! p = None /\ sr_inv w' out ({[p]} ∪ extra) /\
         mine w' ({[p]} ∪ extra) p /\ reqs w' !! p = Some r /\ q_state r = NCCL_OFI_SENDRECV_REQ_CREATED /\
         comms w' !! c = Some x' /\ like x x' /\ inflight x' = inflight x) w.
Proof.
  intros Hinv Hc Hf. destruct (comm_fl _ _ _ _ _ _ Hinv Hc Hf) as [[|p l] Hl]; rewrite Hl; cbn.
  { by left. }
  assert (p <> NULL) as Hn.
  { destruct (i_fl_free _ _ _ _ Hinv c p); [|done]. rewrite (fl_at_is _ _ _ _ Hc Hl). left. }
  unfold put_comm. wp_simpl. rewrite (proj2 (Z.eqb_neq _ _) Hn). unfold put_req. wp_simpl. right.
  match goal with |- exists _ _, _ /\ _ /\ _ /\ sr_inv_todo ?w1 _ _ _ /\ _ => set (w' := w1) end.
  set (r := set_state _ _) in w'.
  destruct (inv_alloc w w' out extra c x p l r Hinv Hc Hl eq_refl eq_refl) as (Hinv' & Hpe & _).
  assert (p ∉ dom out) as Hpo.
  { pose proof (i_extra _ _ _ _ Hinv'). set_solver. }
  exists r, (set_fl (Some l) x). split_and!; try done.
  - by apply not_elem_of_dom.
  - apply (mine_fresh w out); try done. intros c'. apply alike_self_req.
    apply (alike_edit w w' c x (inflight x) l); try done. cbn. by destruct x as [[]|[]|[]].
  - cbn. by rewrite lookup_insert_eq.
  - cbn. by rewrite lookup_insert_eq.
  - by destruct x as [[]|[]|[]].
  - by destruct x as [[]|[]|[]].
Qed.

(** Returning a request: an unused one without, a finished one with the counter. *)
Lemma free_spec w out extra p c x r d (dec : bool) :
  sr_inv w out extra -> reqs w !! p = Some r -> p ∉ ctxs (posted w) -> (forall c', ~ self_req w c' p) ->
  comms w !! c = Some x -> fits x d -> (if dec then out !! p = Some c else p ∈ extra) ->
  wp (sendrecv_req_free (inflight x) (fl_of x) (fun n fl => put_comm c (set_inflight n (set_fl fl x))) p dec)
    (fun rc w' => rc = 0 /\ sr_inv w' (delete p out) (extra ∖ {[p]})) w.
Proof.
  intros Hinv Hr Hpp Hps Hc Hf Hw. destruct (comm_fl _ _ _ _ _ _ Hinv Hc Hf) as [l Hl].
  assert (p <> NULL) as Hn.
  { intros ->. apply (i_null _ _ _ _ Hinv). by eapply elem_of_dom_2. }
  unfold sendrecv_req_free. rewrite (proj2 (Z.eqb_neq _ _) Hn), Hl. unfold retire. wp_simpl.
  eapply sr_get_req_wp; [exact Hr|]. unfold put_comm. wp_simpl. split; [done|].
  assert ((if dec then u64 (inflight x - 1) else inflight x) = load (delete p out) c) as ->.
  { destruct (i_count _ _ _ _ Hinv _ _ Hc) as [Hin Hle]. unfold NCCL_OFI_MAX_REQUESTS in Hle. destruct dec.
    - pose proof (load_nonneg (delete p out) c) as Hge. rewrite (load_delete _ _ _ c Hw), decide_True in * by done.
      rewrite Hin. apply wrap_small. lia.
    - rewrite delete_id; [done|]. apply not_elem_of_dom. intros Hd. by apply (i_extra _ _ _ _ Hinv p). }
  eapply (inv_release w); try done. destruct dec; auto.
Qed.

(** The error exits of recv and send. *)
Lemma recv_fail_spec w out extra p c x rc base :
  sr_inv w out ({[p]} ∪ extra) -> p ∉ extra -> out !! p = None -> mine w ({[p]} ∪ extra) p ->
  comms w !! c = Some (RecvComm x) ->
  wp (recv_fail c p rc base) (fun res w' => res = (rc, base) /\ sr_inv w' out extra) w.
Proof.
  intros Hinv Hpe Hpo (Hin & Hpp & Hps) Hc. unfold recv_fail.
  assert (is_Some (reqs w !! p)) as [r Hr] by (apply elem_of_dom; rewrite (i_dom _ _ _ _ Hinv); set_solver).
  destruct (Z.eqb_spec p NULL) as [->|_].
  { exfalso. apply (i_null _ _ _ _ Hinv). by eapply elem_of_dom_2. }
  unfold sendrecv_recv_comm_free_req, get_recv_comm. wp_simpl. eapply get_comm_wp; [exact Hc|]. wp_simpl.
  eapply wp_mono; [eapply (free_spec w out _ p c (RecvComm x) r NCCL_OFI_SENDRECV_RECV false); done|].
  intros rc' w' [-> Hinv']. wp_simpl. split; [done|]. rewrite delete_id in Hinv' by done.
  by replace (({[p]} ∪ extra) ∖ {[p]}) with extra in Hinv' by set_solver.
Qed.

Lemma send_fail_spec w out extra p c x rc base :
  sr_inv w out ({[p]} ∪ extra) -> p ∉ extra -> out !! p = None -> mine w ({[p]} ∪ extra) p ->
  comms w !! c = Some (SendComm x) ->
  wp (send_fail c p rc base) (fun res w' => res = (rc, base) /\ sr_inv w' out extra) w.
Proof.
  intros Hinv Hpe Hpo (Hin & Hpp & Hps) Hc. unfold send_fail.
  assert (is_Some (reqs w !! p)) as [r Hr] by (apply elem_of_dom; rewrite (i_dom _ _ _ _ Hinv); set_solver).
  destruct (Z.eqb_spec p NULL) as [->|_].
  { exfalso. apply (i_null _ _ _ _ Hinv). by eapply elem_of_dom_2. }
  unfold sendrecv_send_comm_free_req, get_send_comm. wp_simpl. eapply get_comm_wp; [exact Hc|]. wp_simpl.
  eapply wp_mono; [eapply (free_spec w out _ p c (SendComm x) r NCCL_OFI_SENDRECV_SEND false); done|].
  intros rc' w' [-> Hinv']. wp_simpl. split; [done|]. rewrite delete_id in Hinv' by done.
  by replace (({[p]} ∪ extra) ∖ {[p]}) with extra in Hinv' by set_solver.
Qed.

(** What a call that may hand out a request leaves. *)
Definition call_post (out : gmap Z Z) (extra : gset Z) (c base : Z) (res : Z * Z) (w' : world) : Prop :=
  (sr_inv w' out extra /\ (res.1 <> 0 /\ res.2 = base \/ res.2 = NULL)) \/
  (res.1 = 0 /\ res.2 <> NULL /\ out !! res.2 = None /\ sr_inv w' (<[res.2 := c]> out) extra).

Lemma post_wp w op Q :
  (forall rc, rc <> 0 -> Q rc (w_hist (fun h => h ++ [EvOp op rc]) w)) ->
  Q 0 (w_posted (cons (op_posted op)) (w_hist (fun h => h ++ [EvOp op 0]) w)) -> wp (post op) Q w.
Proof.
  intros H1 H0. unfold post. wp_simpl. destruct (Z.eqb_spec (op_code (hist w) op) 0) as [Heq|Hne]; wp_simpl; [|auto].
  by rewrite Heq.
Qed.

Lemma hist_inv w out extra h : sr_inv w out extra -> sr_inv (w_hist h w) out extra.
Proof. intros []. by constructor. Qed.

Lemma hist_mine w extra p h : mine w extra p -> mine (w_hist h w) extra p.
Proof. done. Qed.

Lemma union_minus (p : Z) (extra : gset Z) : p ∉ extra -> ({[p]} ∪ extra) ∖ {[p]} = extra.
Proof. set_solver. Qed.

Lemma recv_spec w out extra c r buf len mr handles base :
  sr_inv w out extra -> comms w !! c = Some (RecvComm r) ->
  wp (sendrecv_recv_comm_recv c [(buf, len, mr)] handles base) (call_post out extra c base) w.
Proof.
  intros Hinv Hc. destruct (i_comm _ _ _ _ Hinv _ _ Hc) as [_ [Hep [_ Htag]]]. cbn in Hep.
  assert (forall rc w', sr_inv w' out extra -> rc <> 0 -> call_post out extra c base (rc, base) w') as Hfail
    by (intros; left; auto).
  unfold sendrecv_recv_comm_recv, get_recv_comm. wp_simpl. eapply get_comm_wp; [exact Hc|]. wp_simpl.
  rewrite (proj2 (Z.eqb_neq _ _) Hep). wp_simpl.
  rewrite (proj2 (Z.eqb_neq _ _) (i_device _ _ _ _ Hinv)).
  destruct (Z.eqb_spec (r_num_inflight_reqs r) NCCL_OFI_MAX_REQUESTS) as [_|Hmax]; [wp_simpl; by apply Hfail|].
  wp_use (alloc_spec w out extra c (RecvComm r) NCCL_OFI_SENDRECV_RECV Hinv Hc eq_refl).
  intros p w1 [[-> ->]|(q & x1 & Hn & Hpe & Hpo & Hinv1 & Hm1 & Hq1 & Hst & Hc1 & Hlk & Hif)];
    [by apply wp_ret, Hfail|]. rewrite (proj2 (Z.eqb_neq _ _) Hn).
  assert (exists r1, x1 = RecvComm r1 /\ r_tag r1 = r_tag r) as (r1 & -> & Htag1).
  { destruct x1; try done. injection Hlk as ->. eexists. split; [done|]. by destruct r. }
  wp_use (cq_process_spec w1 out _ Hinv1). intros rc w2 [Hinv2 Ha2].
  destruct (advanced_mine _ _ _ _ _ Ha2 Hm1 Hq1) as [Hm2 Hq2]. pose proof (advanced_recv _ _ _ _ _ Ha2 Hc1) as Hc2.
  destruct (Z.eqb_spec rc 0) as [->|Hrc]; cbn [negb].
  2: { eapply wp_mono; [by eapply recv_fail_spec|]. intros res w3 [-> Hinv3]. by apply Hfail. }
  wp_simpl. eapply sr_upd_req_wp; [exact Hq2|].
  set (w3 := w_reqs _ w2). set (q3 := set_num_recvs _ _) in w3.
  assert (sr_inv w3 out ({[p]} ∪ extra)) as Hinv3 by (by apply inv_mine).
  assert (mine w3 ({[p]} ∪ extra) p) as Hm3 by exact Hm2.
  assert (comms w3 !! c = Some (RecvComm r1)) as Hc3 by exact Hc2.
  destruct handles; cbn [negb].
  2: { eapply wp_mono; [by eapply recv_fail_spec|]. intros res w4 [-> Hinv4]. by apply Hfail. }
  wp_simpl. apply wp_assert; [done|]. cbn [post_recvs]. unfold get_recv_comm. wp_simpl.
  eapply get_comm_wp; [exact Hc3|]. wp_simpl. apply post_wp.
  - intros rc Hrc. pose proof (hist_inv _ _ _ (fun h => h ++ [EvOp (fi_trecv (r_local_ep r1) buf (u64 len)
      (if mr =? NULL then NULL else fi_mr_desc mr) (r_tag r1) p) rc]) Hinv3) as Hinv4.
    destruct (Z.eqb_spec rc (- FI_EAGAIN)); cbn [negb].
    + wp_simpl. eapply wp_mono; [by eapply recv_fail_spec|]. intros res w4 [-> Hinv5]. wp_simpl.
      left. split; [done|by right].
    + rewrite (proj2 (Z.eqb_neq _ _) Hrc). cbn [negb]. wp_simpl. eapply wp_mono; [by eapply recv_fail_spec|].
      intros res w4 [-> Hinv5]. wp_simpl. by apply Hfail.
  - change (0 =? - FI_EAGAIN) with false. cbn [Z.eqb negb post_recvs]. wp_simpl. eapply get_comm_wp; [exact Hc3|]. unfold put_comm. wp_simpl.
    right. split_and!; [done|done|done|]. cbn [snd]. rewrite <- (union_minus p extra Hpe).
    eapply (inv_handed w3 out _ _ p c (RecvComm r1) q3); try done.
    + cbn. by rewrite lookup_insert_eq.
    + cbn in Hif. cbn. by rewrite Hif.
    + done.
    + cbn. by rewrite Htag1.
Qed.

(** What flush and send know while they hold a fresh request. *)
Definition holding (out : gmap Z Z) (extra : gset Z) (c : Z) (x : nccl_net_ofi_comm_t) (p : Z)
    (q : nccl_net_ofi_sendrecv_req_t) (w : world) : Prop :=
  sr_inv w out ({[p]} ∪ extra) /\ mine w ({[p]} ∪ extra) p /\ reqs w !! p = Some q /\ comms w !! c = Some x.

Lemma cq_process_holding out extra c x p q w :
  holding out extra c x p q w -> (forall l, x <> ListenComm l) ->
  wp sendrecv_cq_process (fun _ w' => holding out extra c x p q w') w.
Proof.
  intros (Hinv & Hm & Hq & Hc) Hx. eapply wp_mono; [by apply cq_process_spec|]. intros rc w' [Hinv' Ha].
  destruct (advanced_mine _ _ _ _ _ Ha Hm Hq). split_and!; try done.
  by destruct (a_comms _ _ _ Ha _ _ Hc) as [|(l & -> & _)]; [|edestruct Hx].
Qed.

Lemma flush_read_spec out extra c x p q ep device op fuel : forall w,
  holding out extra c x p q w -> (forall l, x <> ListenComm l) -> ep <> NULL -> device <> NULL ->
  wp (flush_read fuel ep device op) (fun res w' =>
    match res with
    | None => True
    | Some (rc, release) =>
        rc = 0 /\ (exists w0, holding out extra c x p q w0 /\ w' = w_posted (cons (op_posted op)) w0) \/
        rc <> 0 /\ release = true /\ holding out extra c x p q w'
    end) w.
Proof.
  induction fuel as [|fuel IH]; intros w Hh Hx Hep Hdev; cbn [flush_read]; [done|]. wp_simpl. apply post_wp.
  - intros rc Hrc. rewrite (proj2 (Z.eqb_neq _ _) Hrc).
    assert (holding out extra c x p q (w_hist (fun h => h ++ [EvOp op rc]) w)) as Hh1.
    { destruct Hh as (? & ? & ? & ?). split_and!; [by apply hist_inv|done..]. }
    destruct (rc =? - FI_EAGAIN); [|wp_simpl; right; by split_and!].
    rewrite (proj2 (Z.eqb_neq _ _) Hep), (proj2 (Z.eqb_neq _ _) Hdev).
    wp_use (cq_process_holding _ _ _ _ _ _ _ Hh1 Hx). intros rc' w2 Hh2.
    destruct (Z.eqb_spec rc' 0); cbn [negb]; [by apply IH|]. wp_simpl. right. by split_and!.
  - wp_simpl. left. split; [done|]. eexists. split; [|done]. destruct Hh as (? & ? & ? & ?).
    split_and!; [by apply hist_inv|done..].
Qed.

(** The size of a request plays no part in the invariant. *)
Lemma inv_size w out extra p r sz :
  sr_inv w out extra -> reqs w !! p = Some r -> sr_inv (w_reqs <[p := set_size sz r]> w) out extra.
Proof.
  intros [] Hr.
  assert (forall p', exists f, <[p := set_size sz r]> (reqs w) !! p' = f <$> reqs w !! p' /\
    forall r', q_state (f r') = q_state r' /\ q_comm (f r') = q_comm r' /\ q_direction (f r') = q_direction r') as Hl.
  { intros p'. destruct (decide (p = p')) as [<-|].
    - exists (set_size sz). by rewrite lookup_insert_eq, Hr.
    - exists id. rewrite lookup_insert_ne by done. by rewrite option_fmap_id. }
  constructor; try done; cbn.
  - by rewrite dom_insert_lookup_L.
  - by rewrite dom_insert_lookup_L.
  - intros p' c Hp'. destruct (i_out0 _ _ Hp') as (r' & x & Hr' & ? & <- & ? & ?), (Hl p') as (f & Hf & Hk).
    destruct (Hk r') as (Hk1 & Hk2 & Hk3). exists (f r'), x. rewrite Hf, Hr', Hk1, Hk2, Hk3. by split_and!.
  - intros q Hq. destruct (i_posted_req0 q Hq) as (r' & Hr' & ? & ?), (Hl (p_ctx q)) as (f & Hf & Hk).
    destruct (Hk r') as (Hk1 & Hk2 & _). exists (f r'). rewrite Hf, Hr', Hk1, Hk2. by split_and!.
  - intros c e He. destruct (i_fl_free0 _ _ He) as [? He'], (Hl e) as (f & Hf & _). by rewrite Hf, He'.
Qed.

(** A request handed to libfabric and to the application, its size set last. *)
Lemma holding_handed out extra c x p q w op sz :
  holding out extra c x p q w -> p ∉ extra -> q_comm q = c -> fits x (q_direction q) ->
  q_state q = NCCL_OFI_SENDRECV_REQ_CREATED -> inflight x <> NCCL_OFI_MAX_REQUESTS ->
  p_ctx (op_posted op) = p -> p_recv (op_posted op) = false ->
  sr_inv (w_reqs <[p := set_size sz q]> (w_comms <[c := set_inflight (u64 (inflight x + 1)) x]>
    (w_posted (cons (op_posted op)) w))) (<[p := c]> out) extra.
Proof.
  intros (Hinv & Hm & Hq & Hc) Hpe Hqc Hfit Hst Hmax Hctx Hsend. apply inv_size; [|done].
  rewrite <- (union_minus p extra Hpe). eapply (inv_handed w out _ _ p c x q (op_posted op)); try done.
  by rewrite Hsend.
Qed.

Lemma flush_spec w out extra fuel c r buf len mr handles :
  sr_inv w out extra -> comms w !! c = Some (RecvComm r) ->
  wp (sendrecv_recv_comm_flush fuel c [(buf, len, mr)] handles)
    (fun res w' => match res with None => True | Some res => call_post out extra c NULL res w' end) w.
Proof.
  intros Hinv Hc. destruct (i_comm _ _ _ _ Hinv _ _ Hc) as [_ [Hep _]]. cbn in Hep.
  assert (forall rc w', sr_inv w' out extra -> call_post out extra c NULL (rc, NULL) w') as Hfail
    by (intros; left; auto).
  unfold sendrecv_recv_comm_flush. destruct (gdr_flush_disable || _); [wp_simpl; auto|].
  destruct cuda_flush. { unfold syscall. wp_simpl. apply Hfail. by apply hist_inv. }
  wp_simpl. apply wp_assert; [done|]. cbn [first_nonzero]. destruct (len =? 0); [wp_simpl; auto|].
  unfold get_recv_comm. wp_simpl. eapply get_comm_wp; [exact Hc|]. wp_simpl.
  destruct (Z.eqb_spec (r_num_inflight_reqs r) NCCL_OFI_MAX_REQUESTS) as [_|Hmax]; [wp_simpl; auto|].
  wp_use (alloc_spec w out extra c (RecvComm r) NCCL_OFI_SENDRECV_RECV Hinv Hc eq_refl).
  intros p w1 [[-> ->]|(q & x1 & Hn & Hpe & Hpo & Hinv1 & Hm1 & Hq1 & Hst & Hc1 & Hlk & Hif)];
    [by apply wp_ret, Hfail|]. rewrite (proj2 (Z.eqb_neq _ _) Hn).
  destruct x1 as [| |r1]; [done..|]. wp_simpl. eapply sr_upd_req_wp; [exact Hq1|].
  set (w2 := w_reqs _ w1). set (q2 := set_direction _ _) in w2.
  assert (holding out extra c (RecvComm r1) p q2 w2) as Hh.
  { split_and!; [by apply inv_mine|done|cbn; by rewrite lookup_insert_eq|done]. }
  assert (forall rc w', holding out extra c (RecvComm r1) p q2 w' ->
    wp (let* x := recv_fail c p rc NULL in ret (Some x)) (fun res w'' =>
      match res with None => True | Some res => call_post out extra c NULL res w'' end) w') as Hrel.
  { intros rc w' (? & ? & ? & ?). wp_simpl. eapply wp_mono; [by eapply recv_fail_spec|].
    intros res w'' [-> ?]. wp_simpl. by apply Hfail. }
  cbn zeta. destruct (negb _ && _); [by apply Hrel|]. wp_simpl.
  eapply wp_mono; [eapply (flush_read_spec _ _ _ _ _ _ _ _ _ fuel w2 Hh); [done..|apply (i_device _ _ _ _ (proj1 Hh))]|].
  intros [[rc rel]|] w3 Hres; [|done].
  destruct Hres as [[-> (w0 & Hh0 & ->)]|(Hrc & -> & Hh3)]; cbn [Z.eqb negb].
  2: { rewrite (proj2 (Z.eqb_neq _ _) Hrc). by apply Hrel. }
  wp_simpl. eapply get_comm_wp; [apply (proj2 (proj2 (proj2 Hh0)))|]. unfold put_comm. wp_simpl.
  eapply sr_upd_req_wp; [apply (proj1 (proj2 (proj2 Hh0)))|]. wp_simpl. right. split_and!; [done..|].
  eapply (holding_handed out extra c (RecvComm r1) p q2); try done. by rewrite Hif.
Qed.

(** A send communicator drops its connection record; then no connection waits
    for the request in it. *)
Lemma inv_drop_conn w out extra c s :
  sr_inv w out extra -> comms w !! c = Some (SendComm s) -> s_conn_info s <> NULL ->
  let w' := w_conn_infos (delete (s_conn_info s)) (w_comms <[c := SendComm (set_s_conn_info NULL s)]> w) in
  sr_inv w' out extra /\ forall c' p, self_req w' c' p -> c' <> c /\ self_req w c' p.
Proof.
  intros [] Hc Hn w'.
  assert (forall c' x, comms w' !! c' = Some x -> c' <> c /\ comms w !! c' = Some x \/
    c' = c /\ x = SendComm (set_s_conn_info NULL s)) as Hlk.
  { intros c' x. cbn. destruct (decide (c = c')) as [<-|].
    - rewrite lookup_insert_eq. intros [= <-]. by right.
    - rewrite lookup_insert_ne by done. by left. }
  assert (forall c', fl_at w' c' = fl_at w c') as Hfl.
  { intros c'. unfold fl_at. cbn. destruct (decide (c = c')) as [<-|]; [|by rewrite lookup_insert_ne].
    by rewrite lookup_insert_eq, Hc. }
  assert (forall c' s', comms w' !! c' = Some (SendComm s') -> s_conn_info s' <> NULL ->
    c' <> c /\ comms w !! c' = Some (SendComm s') /\ conn_infos w' !! s_conn_info s' = conn_infos w !! s_conn_info s')
    as Hsend.
  { intros c' s' Hs' Hn'. destruct (Hlk _ _ Hs') as [[Hne Hs]|[-> [= ->]]]; [|done]. split_and!; try done.
    cbn. apply lookup_delete_ne. intros Heq. apply Hne. by eapply (i_self_inj0 _ _ _ _ Hs Hc). }
  assert (forall c' p, self_req w' c' p -> c' <> c /\ self_req w c' p) as Hsr.
  { intros c' p (s' & ci' & Hs' & Hn' & Hci' & Hrest). destruct (Hsend _ _ Hs' Hn') as (? & ? & Heq).
    split; [done|]. exists s', ci'. rewrite Heq in Hci'. done. }
  split.
  - constructor; try done.
    + intros c' x Hx. destruct (Hlk _ _ Hx) as [[_ Hx']|[-> ->]]; [auto|]. apply (i_comm0 _ _ Hc).
    + intros c' x Hx. destruct (Hlk _ _ Hx) as [[_ Hx']|[-> ->]]; [auto|]. apply (i_count0 _ _ Hc).
    + intros p c' Hp. destruct (i_out0 _ _ Hp) as (r & x & ? & Hx & ? & ? & ?).
      destruct (decide (c = c')) as [<-|].
      * exists r, (SendComm (set_s_conn_info NULL s)). cbn. rewrite lookup_insert_eq.
        rewrite Hc in Hx. simplify_eq. by split_and!.
      * exists r, x. cbn. rewrite lookup_insert_ne by done. by split_and!.
    + intros q Hq. destruct (i_posted_req0 q Hq) as (r & ? & ? & Hl). exists r. split_and!; try done.
      intros Hv Ht. destruct (Hl Hv Ht) as [l Hl']. exists l. cbn. rewrite lookup_insert_ne; [done|]. intros Heq. congruence.
    + intros c'. rewrite Hfl. auto.
    + intros c' e. rewrite Hfl. apply i_fl_free0.
    + intros c1 c2 e. rewrite !Hfl. apply i_fl_disj0.
    + intros c' s' Hs' Hn'. destruct (Hsend _ _ Hs' Hn') as (_ & Hs & ->). by apply (i_self0 c').
    + intros c1 c2 s1 s2 H1 H2 Hn1 Heq. destruct (Hsend _ _ H1 Hn1) as (_ & Hs1 & _).
      destruct (Hsend _ _ H2) as (_ & Hs2 & _); [congruence|]. by eapply (i_self_inj0 _ _ _ _ Hs1 Hs2).
    + intros c1 c2 p H1 H2. apply (i_self_req0 c1 c2 p); by apply Hsr.
  - done.
Qed.

Lemma finish_self_connect_spec w out extra c s base :
  sr_inv w out extra -> comms w !! c = Some (SendComm s) ->
  wp (finish_self_connect c base)
    (fun res w' => exists extra' s', extra' ⊆ extra /\ sr_inv w' out extra' /\ comms w' !! c = Some (SendComm s') /\
       s_num_inflight_reqs s' = s_num_inflight_reqs s /\
       match res with None => True | Some x => x.2 = NULL end) w.
Proof.
  intros Hinv Hc. assert (forall res : option (Z * Z), match res with None => True | Some x => x.2 = NULL end ->
    exists extra' s', extra' ⊆ extra /\ sr_inv w out extra' /\ comms w !! c = Some (SendComm s') /\
       s_num_inflight_reqs s' = s_num_inflight_reqs s /\
       match res with None => True | Some x => x.2 = NULL end) as Hsame by (intros; exists extra, s; auto).
  unfold finish_self_connect, get_send_comm. wp_simpl. eapply get_comm_wp; [exact Hc|]. wp_simpl.
  destruct (Z.eqb_spec (s_conn_info s) NULL) as [|Hn]; [wp_simpl; by apply (Hsame None)|].
  destruct (i_self _ _ _ _ Hinv _ _ Hc Hn) as (ci & Hci & Hself).
  unfold get_conn_info. wp_simpl. eapply wp_of_option; [exact Hci|]. wp_simpl.
  destruct (Z.eqb_spec (connect_to_self ci) 1) as [H1|]; cbn [negb]; [|wp_simpl; by apply (Hsame None)].
  specialize (Hself H1). assert (is_Some (reqs w !! ci_req ci)) as [r Hr].
  { apply elem_of_dom. rewrite (i_dom _ _ _ _ Hinv). set_solver. }
  assert (ci_req ci <> NULL) as Hcn.
  { intros Heq. apply (i_null _ _ _ _ Hinv). rewrite <- Heq. by eapply elem_of_dom_2. }
  wp_simpl. apply wp_assert; [by apply negb_true_iff, Z.eqb_neq|]. wp_simpl. eapply sr_get_req_wp; [exact Hr|].
  unfold is_state. case_bool_decide as Hst.
  2: { wp_use (cq_process_spec w out extra Hinv). intros rc w' [Hinv' Ha]. wp_simpl. exists extra, s.
       split_and!; try done. by eapply advanced_send. }
  destruct (inv_drop_conn w out extra c s Hinv Hc Hn) as [Hinv1 Hdrop].
  assert (forall c', ~ self_req (w_conn_infos (delete (s_conn_info s))
    (w_comms <[c := SendComm (set_s_conn_info NULL s)]> w)) c' (ci_req ci)) as Hns.
  { intros c' Hc'. apply Hdrop in Hc' as [Hne Hc']. apply Hne.
    apply (i_self_req _ _ _ _ Hinv c' c (ci_req ci)); [done|]. by exists s, ci. }
  assert (ci_req ci ∉ ctxs (posted w)) as Hpp.
  { intros Hp. apply list_elem_of_fmap in Hp as (q & Hq & Hin). destruct (i_posted_req _ _ _ _ Hinv q Hin) as (r' & Hr' & Hs' & _).
    rewrite <- Hq in Hr'. congruence. }
  destruct (i_comm _ _ _ _ Hinv _ _ Hc) as [_ [_ [l Hl]]].
  unfold sendrecv_send_comm_free_req, get_send_comm. wp_simpl. eapply get_comm_wp; [exact Hc|]. wp_simpl.
  unfold sendrecv_req_free. rewrite (proj2 (Z.eqb_neq _ _) Hcn), Hl. unfold retire. wp_simpl.
  eapply sr_get_req_wp; [exact Hr|]. unfold put_comm. wp_simpl.
  eapply get_comm_wp; [cbn; by rewrite lookup_insert_eq|]. wp_simpl.
  exists (extra ∖ {[ci_req ci]}), (set_s_conn_info NULL (set_s_inflight (s_num_inflight_reqs s) (set_s_fl (Some (ci_req ci :: l)) s))).
  split_and!; [set_solver| |cbn; by rewrite lookup_insert_eq|done|done].
  assert (out !! ci_req ci = None) as Ho.
  { apply not_elem_of_dom. intros Hd. by apply (i_extra _ _ _ _ Hinv (ci_req ci)). }
  rewrite <- (delete_id out (ci_req ci) Ho).
  eapply (inv_release _ _ _ _ (ci_req ci) c (SendComm (set_s_conn_info NULL s)) l r Hinv1); try done.
  - cbn. by rewrite lookup_insert_eq.
  - by left.
  - cbn. rewrite !insert_insert_eq, delete_id by done. f_equal. f_equal. unfold set_s_conn_info, set_s_inflight, set_s_fl. cbn.
    f_equal. apply (i_count _ _ _ _ Hinv _ _ Hc).
Qed.

Lemma send_spec w out extra c s data sz mr base :
  sr_inv w out extra -> comms w !! c = Some (SendComm s) ->
  wp (sendrecv_send_comm_send c data sz mr base)
    (fun res w' => exists extra', extra' ⊆ extra /\ call_post out extra' c base res w') w.
Proof.
  intros Hinv Hc. destruct (i_comm _ _ _ _ Hinv _ _ Hc) as [_ [Hep _]]. cbn in Hep.
  assert (forall rc extra' w', extra' ⊆ extra -> sr_inv w' out extra' -> rc <> 0 ->
    exists extra', extra' ⊆ extra /\ call_post out extra' c base (rc, base) w') as Hfail
    by (intros rc extra' ? ? ? ?; exists extra'; split; [done|]; left; auto).
  unfold sendrecv_send_comm_send, get_send_comm. wp_simpl. eapply get_comm_wp; [exact Hc|]. wp_simpl.
  rewrite (proj2 (Z.eqb_neq _ _) Hep). wp_simpl. rewrite (proj2 (Z.eqb_neq _ _) (i_device _ _ _ _ Hinv)).
  destruct (Z.eqb_spec (s_num_inflight_reqs s) NCCL_OFI_MAX_SEND_REQUESTS) as [_|Hmax];
    [wp_simpl; by eapply Hfail|].
  wp_use (finish_self_connect_spec w out extra c s base Hinv Hc).
  intros res w1 (extra1 & s1 & Hsub & Hinv1 & Hc1 & Hif1 & Hres).
  destruct res as [res|]. { wp_simpl. exists extra1. split; [done|]. left. auto. }
  wp_simpl. eapply get_comm_wp; [exact Hc1|]. wp_simpl.
  eapply wp_mono; [apply (alloc_spec w1 out extra1 c (SendComm s1) NCCL_OFI_SENDRECV_SEND Hinv1 Hc1 eq_refl)|].
  intros p w2 [[-> ->]|(q & x2 & Hn & Hpe & Hpo & Hinv2 & Hm2 & Hq2 & Hst & Hc2 & Hlk & Hif)];
    [by apply wp_ret; eapply Hfail|]. rewrite (proj2 (Z.eqb_neq _ _) Hn).
  destruct x2 as [|s2|]; [done| |done]. wp_simpl. eapply sr_upd_req_wp; [exact Hq2|].
  set (w3 := w_reqs _ w2). set (q3 := set_direction _ _) in w3.
  assert (holding out extra1 c (SendComm s2) p q3 w3) as Hh.
  { split_and!; [by apply inv_mine|done|cbn; by rewrite lookup_insert_eq|done]. }
  set (op := fi_tsend _ _ _ _ _ _ _). wp_simpl. apply post_wp.
  - intros rc Hrc. rewrite (proj2 (Z.eqb_neq _ _) Hrc). cbn [negb].
    assert (holding out extra1 c (SendComm s2) p q3 (w_hist (fun h => h ++ [EvOp op rc]) w3)) as Hh4.
    { destruct Hh as (? & ? & ? & ?). split_and!; [by apply hist_inv|done..]. }
    destruct (rc =? - FI_EAGAIN).
    + wp_use (cq_process_holding _ _ _ _ _ _ _ Hh4 ltac:(done)). intros rc' w5 (? & ? & ? & ?).
      eapply wp_mono; [by eapply send_fail_spec|]. intros res w6 [-> ?]. exists extra1. split; [done|]. left. auto.
    + destruct Hh4 as (? & ? & ? & ?). eapply wp_mono; [by eapply send_fail_spec|]. intros res w6 [-> ?]. by eapply Hfail.
  - change (0 =? - FI_EAGAIN) with false. cbn [Z.eqb negb]. destruct Hh as (Hi & Hm & Hq & Hc3).
    wp_simpl. eapply get_comm_wp; [exact Hc3|]. unfold put_comm. wp_simpl.
    eapply sr_upd_req_wp; [exact Hq|]. wp_simpl. exists extra1. split; [done|]. right. split_and!; [done..|].
    eapply (holding_handed out extra1 c (SendComm s2) p q3 (w_hist _ w3) op); try done.
    + split_and!; [by apply hist_inv|done..].
    + rewrite Hif. cbn. by rewrite Hif1.
Qed.

(** test gives a finished request back, and only a finished one. *)
Lemma test_spec w out extra p c :
  sr_inv w out extra -> out !! p = Some c ->
  wp (sendrecv_req_test p) (fun res w' =>
    match res.1.2 with
    | Some true => sr_inv w' (delete p out) extra
    | _ => sr_inv w' out extra
    end) w.
Proof.
  intros Hinv Ho. destruct (i_out _ _ _ _ Hinv _ _ Ho) as (r & x & Hr & Hx & Hqc & Hfit & _).
  destruct (i_comm _ _ _ _ Hinv _ _ Hx) as [Hcn [Hep _]].
  unfold sendrecv_req_test. wp_simpl. eapply sr_get_req_wp; [exact Hr|]. rewrite Hqc, (proj2 (Z.eqb_neq _ _) Hcn).
  wp_simpl. eapply get_comm_wp; [exact Hx|]. rewrite (proj2 (Z.eqb_neq _ _) Hep). wp_simpl.
  rewrite (proj2 (Z.eqb_neq _ _) (i_device _ _ _ _ Hinv)). wp_simpl.
  apply (wp_mono _ (fun _ w' => sr_inv w' out extra)).
  { destruct (is_state _ r); [by apply wp_ret|]. eapply wp_mono; [by apply cq_process_spec|]. by intros ? ? [? _]. }
  intros rc w1 Hinv1. destruct (negb _); [by apply wp_ret|].
  destruct (i_out _ _ _ _ Hinv1 _ _ Ho) as (r1 & x1 & Hr1 & Hx1 & Hqc1 & Hfit1 & Hst1).
  wp_simpl. eapply sr_get_req_wp; [exact Hr1|]. destruct (is_state _ r1 || _) eqn:Hdone; [|by apply wp_ret].
  assert (p ∉ ctxs (posted w1)) as Hpp.
  { intros Hp. apply list_elem_of_fmap in Hp as (q & -> & Hin).
    destruct (i_posted_req _ _ _ _ Hinv1 q Hin) as (r' & Hr' & Hs' & _). rewrite Hr1 in Hr'. simplify_eq.
    unfold is_state in Hdone. by rewrite Hs' in Hdone. }
  assert (forall c', ~ self_req w1 c' p) as Hns.
  { intros c' (s & ci & Hs & Hn & Hci & H1 & <-). destruct (i_self _ _ _ _ Hinv1 _ _ Hs Hn) as (ci' & Hci' & Hin).
    simplify_eq. apply (i_extra _ _ _ _ Hinv1 (ci_req ci)); [auto|by eapply elem_of_dom_2]. }
  assert (extra ∖ {[p]} = extra) as Hex.
  { pose proof (i_extra _ _ _ _ Hinv1). apply elem_of_dom_2 in Ho. set_solver. }
  unfold sendrecv_comm_free_req. wp_simpl. eapply sr_get_req_wp; [exact Hr1|].
  apply (wp_mono _ (fun _ w' => sr_inv w' (delete p out) extra)); [|intros; by wp_simpl].
  destruct x1 as [|s1|r1']; [done|rewrite Hfit1..].
  - unfold sendrecv_send_comm_free_req, get_send_comm. wp_simpl. eapply get_comm_wp; [exact Hx1|]. wp_simpl.
    eapply wp_mono; [eapply (free_spec w1 out extra p c (SendComm s1) r1 _ true); done|].
    intros ? ? [_ H]. by rewrite Hex in H.
  - unfold sendrecv_recv_comm_free_req, get_recv_comm. wp_simpl. eapply get_comm_wp; [exact Hx1|]. wp_simpl.
    eapply wp_mono; [eapply (free_spec w1 out extra p c (RecvComm r1') r1 _ true); done|].
    intros ? ? [_ H]. by rewrite Hex in H.
Qed.

End Calls.

(** ** Sequences of calls *)

(** The calls of an application, with [*base_req] NULL before each. *)
Inductive call :=
| CSend (c data sz mr : Z)
| CRecv (c buf len mr : Z) (handles : bool)
| CFlush (fuel : nat) (c buf len mr : Z) (handles : bool)
| CTest (p : Z).

(** A call is made on a communicator of its kind, and test on a request the
    application has and has not seen finished. *)
Definition legal (w : world) (out : gmap Z Z) (k : call) : Prop :=
  match k with
  | CSend c _ _ _ => exists s, comms w !! c = Some (SendComm s)
  | CRecv c _ _ _ _ | CFlush _ c _ _ _ _ => exists r, comms w !! c = Some (RecvComm r)
  | CTest p => is_Some (out !! p)
  end.

Definition received (out : gmap Z Z) (c : Z) (res : Z * Z) : gmap Z Z :=
  if (res.1 =? 0) && negb (res.2 =? NULL) then <[res.2 := c]> out else out.

(** The requests in the application's hands after the call; [None] for a flush
    that has not returned. *)
Definition run `{SendrecvEnv} (out : gmap Z Z) (k : call) : M (option (gmap Z Z)) :=
  match k with
  | CSend c data sz mr => let* res := sendrecv_send_comm_send c data sz mr NULL in ret (Some (received out c res))
  | CRecv c buf len mr handles =>
      let* res := sendrecv_recv_comm_recv c [(buf, len, mr)] handles NULL in ret (Some (received out c res))
  | CFlush fuel c buf len mr handles =>
      let* res := sendrecv_recv_comm_flush fuel c [(buf, len, mr)] handles in
      ret (match res with None => None | Some res => Some (received out c res) end)
  | CTest p =>
      let* res := sendrecv_req_test p in
      ret (Some (match res.1.2 with Some true => delete p out | _ => out end))
  end.

Definition sr_step `{SendrecvEnv} (s s' : world * gmap Z Z) : Prop :=
  exists k, legal s.1 s.2 k /\ run s.2 k s.1 = Some (Some s'.2, s'.1).

Section Sequences.
Context {E : SendrecvEnv} {F : FabricOk}.

Lemma call_post_received out extra c res w :
  call_post out extra c NULL res w -> sr_inv w (received out c res) extra.
Proof.
  unfold received. intros [[Hinv [[Hrc Hp]|Hp]]|(Hrc & Hp & _ & Hinv)].
  - by rewrite Hp, andb_false_r.
  - by rewrite Hp, andb_false_r.
  - by rewrite Hrc, (proj2 (Z.eqb_neq _ _) Hp).
Qed.

Lemma run_spec w out extra k :
  sr_inv w out extra -> legal w out k ->
  wp (run out k) (fun o w' => match o with None => True | Some out' => exists extra', sr_inv w' out' extra' end) w.
Proof.
  intros Hinv Hk. destruct k as [c data sz mr|c buf len mr handles|fuel c buf len mr handles|p]; cbn [run].
  - destruct Hk as [s Hs]. wp_use (send_spec w out extra c s data sz mr NULL Hinv Hs).
    intros res w' (extra' & _ & Hp). apply wp_ret. exists extra'. by apply call_post_received.
  - destruct Hk as [r Hr]. wp_use (recv_spec w out extra c r buf len mr handles NULL Hinv Hr).
    intros res w' Hp. apply wp_ret. exists extra. by apply call_post_received.
  - destruct Hk as [r Hr]. wp_use (flush_spec w out extra fuel c r buf len mr handles Hinv Hr).
    intros [res|] w' Hp; apply wp_ret; [|done]. exists extra. by apply call_post_received.
  - destruct Hk as [c Hc]. wp_use (test_spec w out extra p c Hinv Hc).
    intros [[rc done] sz] w' Hp. apply wp_ret. exists extra. by destruct done as [[]|].
Qed.

(** C15. In the send/receive transport, start from a state in which requests,
    free lists, counters and posted operations agree and let an application send,
    receive, flush and test in any order, with whatever answers libfabric gives.
    They still agree (each communicator counts exactly the requests it has handed
    out, at most 128; an unfinished request is posted exactly once; no request is
    in two free lists or in use and free at once), and no further call runs into
    undefined behaviour or an endless completion loop. *)
Theorem sendrecv_calls_stay_consistent w out w' out' :
  rtc sr_step (w, out) (w', out') -> (exists extra, sr_inv w out extra) ->
  (exists extra', sr_inv w' out' extra') /\ forall k, legal w' out' k -> is_Some (run out' k w').
Proof.
  intros Hr [extra Hinv]. assert (exists extra', sr_inv w' out' extra') as [extra' Hinv'].
  { remember (w, out) as s eqn:Hs. remember (w', out') as s' eqn:Hs'. revert w out extra Hs Hinv.
    induction Hr as [s|s1 [w2 out2] s3 (k & Hl & Hrun) _ IH]; intros w out extra Hs Hinv.
    - rewrite Hs in Hs'. injection Hs' as <- <-. eauto.
    - subst s1. pose proof (run_spec _ _ _ _ Hinv Hl) as Hk. apply wp_run in Hk as (o & w1 & Hrun' & Ho).
      cbn in Hrun, Hrun'. rewrite Hrun in Hrun'. injection Hrun' as <- <-. destruct Ho as [extra2 Hinv2].
      by eapply IH. }
  split; [eauto|]. intros k Hl. pose proof (run_spec _ _ _ _ Hinv' Hl) as Hk.
  apply wp_run in Hk as (o & w1 & Hrun & _). eauto.
Qed.

End Sequences.

(** ** A concrete fabric *)

(** Accepts every operation and completes the posted ones newest first. *)
Definition prompt_env : SendrecvEnv := {|
  dev_id := 0; max_tag := 1023; gdr_flush_disable := false; support_gdr := GDR_SUPPORTED;
  cuda_flush := false; virt_addr_mr := true; fi_mr_desc := fun mr => mr; fi_mr_key := fun mr => mr;
  FI_KEY_NOTAVAIL := 2 ^ 64 - 1;
  op_code := fun _ _ => 0;
  cq_read := fun _ qs => match qs with [] => CqAgain
                         | q :: _ => CqEntries [mk_cqe (p_ctx q) (p_recv q) 64 (p_tag q)] end;
  sys_code := fun _ _ => 0;
  ep_ptr := 1; ofi_ep := 2;
  av_insert := fun _ _ => (1, 3);
  getname := fun _ => (0, [192; 168; 0; 1]);
  conn_msg := fun _ => mk_conn_info [192; 168; 0; 2] 4 0 NULL;
  page_size := 4096;
  mmap_page := fun _ => (0, 4096);
  flush_register := fun _ => (0, 9);
|}.

Lemma prompt_ok : @FabricOk prompt_env.
Proof.
  constructor; intros h [|q qs] *; cbn; try done. intros [= <-]. split; [done|]. exists [q].
  split; [apply singleton_submseteq_l; left|]. constructor; [|constructor]. by split_and!.
Qed.

(** One receiving communicator with two requests. *)
Definition one_recv_comm : world := mk_world ∅ ∅
  {[ 5 := RecvComm (mk_recv_comm 1 0 (Some [100; 200]) 7 3 4 2 (mk_flush_buffer 4096 8 9)) ]} ∅ 1 7 1 [] [] [] [].

Lemma one_recv_comm_inv : @sr_inv_todo prompt_env one_recv_comm ∅ ∅ [].
Proof.
  assert (forall c, fl_at one_recv_comm c = if decide (c = 5) then [100; 200] else []) as Hfl.
  { intros c. unfold fl_at. cbn. case_decide as Hd; [by subst|by rewrite lookup_singleton_ne]. }
  constructor; try done.
  - intros c x Hx. cbn in Hx. apply lookup_singleton_Some in Hx as [<- <-]. split; [done|]. cbn. split_and!; [done|eauto|done].
  - intros c x Hx. cbn in Hx. apply lookup_singleton_Some in Hx as [<- <-]. done.
  - constructor.
  - intros q Hq. by apply elem_of_nil in Hq.
  - intros c. rewrite Hfl. case_decide; [|constructor]. repeat constructor; set_solver.
  - intros c e He. rewrite Hfl in He. case_decide; [|by apply elem_of_nil in He]. split; [|done].
    apply elem_of_cons in He as [->|He]; [done|]. by apply list_elem_of_singleton in He as ->.
  - intros c1 c2 e. rewrite !Hfl. repeat case_decide; set_solver.
  - intros c s Hs. cbn in Hs. by apply lookup_singleton_Some in Hs as [_ ?].
  - intros c1 c2 s1 s2 Hs. cbn in Hs. by apply lookup_singleton_Some in Hs as [_ ?].
  - intros c1 c2 p (s & ci & Hs & _). cbn in Hs. by apply lookup_singleton_Some in Hs as [_ ?].
Qed.

Definition after_recv : world :=
  match @run prompt_env ∅ (CRecv 5 8192 64 11 true) one_recv_comm with Some (_, w) => w | None => one_recv_comm end.

Lemma sendrecv_calls_stay_consistent_witness :
  rtc (@sr_step prompt_env) (one_recv_comm, ∅) (after_recv, {[ 100 := 5 ]}) /\
  (exists extra', @sr_inv_todo prompt_env after_recv {[ 100 := 5 ]} extra' []) /\
  forall k, legal after_recv {[ 100 := 5 ]} k -> is_Some (@run prompt_env {[ 100 := 5 ]} k after_recv).
Proof.
  assert (rtc (@sr_step prompt_env) (one_recv_comm, ∅) (after_recv, {[ 100 := 5 ]})) as Hr.
  { eapply rtc_once. exists (CRecv 5 8192 64 11 true). split; [by eexists|vm_compute; reflexivity]. }
  split; [exact Hr|].
  apply (@sendrecv_calls_stay_consistent prompt_env prompt_ok _ _ _ _ Hr). exists ∅. apply one_recv_comm_inv.
Defined.
Section Test.
Context {E : SendrecvEnv} {F : FabricOk}.

(** One completion of a request in the application's hands, and no more. *)
Lemma cq_process_one w out extra p c r e :
  sr_inv w out extra -> out !! p = Some c -> reqs w !! p = Some r -> q_state r = NCCL_OFI_SENDRECV_REQ_CREATED ->
  cq_read (hist w) (posted w) = CqEntries [e] -> e_ctx e = p ->
  let rest := filter (fun q => p_ctx q ∉ [p]) (posted w) in
  let h := hist w ++ [EvCq (CqEntries [e])] in
  cq_read h rest = CqAgain ->
  sendrecv_cq_process w = Some (0, w_reqs <[p := set_state NCCL_OFI_SENDRECV_REQ_COMPLETED
    (set_size (if e_recv e then e_len e else q_size r) r)]> (w_posted (fun _ => rest) (w_hist (fun _ => h ++ [EvCq CqAgain]) w))).
Proof.
  intros Hinv Ho Hr Hst Hcq Hctx rest h Hagain.
  destruct (i_out _ _ _ _ Hinv _ _ Ho) as (r' & x & Hr' & Hx & Hqc & Hfit & _). rewrite Hr in Hr'. simplify_eq.
  destruct (cq_read_entries _ _ _ Hcq) as (_ & done & Hsub & Hans).
  inversion Hans as [|? q ? ? (Hc & Hrv & Ht) Hnil]; subst. inversion Hnil; subst. clear Hnil.
  apply singleton_submseteq_l in Hsub.
  destruct (i_posted_req _ _ _ _ Hinv q Hsub) as (rq & Hrq & _ & Hl). rewrite <- Hc, Hr in Hrq. injection Hrq as <-.
  assert (e_ctx e <> NULL) as Hn.
  { intros Heq. apply (i_null _ _ _ _ Hinv). rewrite <- Heq. by eapply elem_of_dom_2. }
  assert (negb (Z.land (e_tag e) (u64 (max_tag + 1)) =? 0) && e_recv e = false) as Hctrl.
  { rewrite Hrv. destruct (p_recv q) eqn:Hp; [|apply andb_false_r]. rewrite andb_true_r. apply negb_false_iff, Z.eqb_eq.
    rewrite Ht by done. destruct (decide (Z.land (p_tag q) (u64 (max_tag + 1)) = 0)) as [|Hne]; [done|].
    destruct (Hl eq_refl Hne) as [l Hl']. rewrite Hx in Hl'. by simplify_eq. }
  unfold sendrecv_cq_process, gets, bind at 1.
  destruct (length (posted w)) as [|n] eqn:Hlen.
  { apply nil_length_inv in Hlen. rewrite Hlen in Hsub. by apply elem_of_nil in Hsub. }
  cbn [cq_loop]. unfold fi_cq_read, bind, gets, modify, ret. rewrite Hcq. cbn [sendrecv_process_completions].
  rewrite (proj2 (Z.eqb_neq _ _) Hn). unfold get_req, bind, gets. cbn [reqs w_posted w_hist]. rewrite Hr. cbn [of_option].
  rewrite Hctrl. unfold sendrecv_req_update, upd_req, get_req, put_req, bind, gets, modify, ret.
  cbn [reqs w_posted w_hist]. rewrite Hr. unfold of_option, ret. cbn [w_reqs w_posted w_hist hist posted negb Z.eqb].
  change (e_ctx <$> [e]) with [e_ctx e]. fold rest. fold h.
  match goal with |- context [cq_read ?a ?b] => change (cq_read a b) with (cq_read h rest) end. by rewrite Hagain.
Qed.

(** When libfabric reports the completion of an application's request, test
    answers success with the size of the message: the length received for a
    receive, the length sent for a send. The request is then back at the head of
    its communicator's free list and the in-flight counter is one less. *)
Theorem test_reports_message w out extra p c x r e :
  sr_inv w out extra -> out !! p = Some c -> comms w !! c = Some x -> reqs w !! p = Some r ->
  q_state r = NCCL_OFI_SENDRECV_REQ_CREATED ->
  cq_read (hist w) (posted w) = CqEntries [e] -> e_ctx e = p ->
  cq_read (hist w ++ [EvCq (CqEntries [e])]) (filter (fun q => p_ctx q ∉ [p]) (posted w)) = CqAgain ->
  exists w' x', sendrecv_req_test p w =
      Some ((0, Some true, Some (i32 (if e_recv e then e_len e else q_size r))), w') /\
    comms w' !! c = Some x' /\ inflight x' = inflight x - 1 /\ fl_of x' = Some (p :: fl_at w c) /\
    reqs w' !! p = None /\ (p ∉ ctxs (posted w')) /\ sr_inv w' (delete p out) extra.
Proof.
  intros Hinv Ho Hx Hr Hst Hcq Hctx Hagain.
  pose proof (cq_process_one w out extra p c r e Hinv Ho Hr Hst Hcq Hctx Hagain) as Hproc. cbn zeta in Hproc.
  pose proof (test_spec w out extra p c Hinv Ho) as Htest. unfold wp in Htest.
  destruct (i_out _ _ _ _ Hinv _ _ Ho) as (r' & x0 & Hr' & Hx' & Hqc & Hfit & _). simplify_eq.
  destruct (i_comm _ _ _ _ Hinv _ _ Hx) as [Hcn [Hep _]], (comm_fl _ _ _ _ _ _ Hinv Hx Hfit) as [l Hl].
  destruct (i_count _ _ _ _ Hinv _ _ Hx) as [Hin Hle]. unfold NCCL_OFI_MAX_REQUESTS in Hle.
  assert (0 <= inflight x - 1 < 2 ^ 64) as Hlow.
  { pose proof (load_nonneg (delete (e_ctx e) out) (q_comm r)) as Hge. rewrite (load_delete _ _ _ _ Ho), decide_True in Hge by done. lia. }
  assert (e_ctx e <> NULL) as Hpn.
  { intros Heq. apply (i_null _ _ _ _ Hinv). rewrite <- Heq. by eapply elem_of_dom_2. }
  rewrite (fl_at_is _ _ _ _ Hx Hl).
  set (w1 := w_reqs _ _) in Hproc. set (r1 := set_state _ _) in w1.
  assert (reqs w1 !! e_ctx e = Some r1) as Hr1 by (cbn; by rewrite lookup_insert_eq).
  assert (comms w1 !! q_comm r = Some x) as Hc1 by exact Hx.
  set (w2 := w_freed <[e_ctx e := sendrecv_req_zero r1]> (w_reqs (delete (e_ctx e)) w1)).
  set (x' := set_inflight (inflight x - 1) (set_fl (Some (e_ctx e :: l)) x)).
  assert (sendrecv_comm_free_req (q_comm r) (e_ctx e) true w1 = Some (0, w_comms <[q_comm r := x']> w2)) as Hfree.
  { unfold sendrecv_comm_free_req, get_req, bind, gets. rewrite Hr1. cbn [of_option ret q_direction r1 set_state set_size].
    destruct x as [|s|rc]; [done|rewrite Hfit..]; cbn in Hl;
      unfold sendrecv_send_comm_free_req, sendrecv_recv_comm_free_req, get_send_comm, get_recv_comm, get_comm, bind, gets;
      rewrite Hc1; cbn [of_option ret]; unfold sendrecv_req_free;
      rewrite (proj2 (Z.eqb_neq _ _) Hpn), Hl; unfold retire, get_req, put_comm, bind, gets, modify, ret;
      rewrite Hr1; cbn in Hlow |- *; by rewrite wrap_small. }
  assert (sendrecv_req_test (e_ctx e) w =
    Some ((0, Some true, Some (i32 (if e_recv e then e_len e else q_size r))), w_comms <[q_comm r := x']> w2)) as Heq.
  { unfold sendrecv_req_test, get_req, get_comm, gets, bind at 1 2. rewrite Hr. cbn [of_option]. unfold ret at 1.
    rewrite (proj2 (Z.eqb_neq _ _) Hcn). unfold bind at 1 2. rewrite Hx. cbn [of_option]. unfold ret at 1.
    rewrite (proj2 (Z.eqb_neq _ _) Hep). unfold bind at 1. rewrite (proj2 (Z.eqb_neq _ _) (i_device _ _ _ _ Hinv)).
    unfold is_state at 1. rewrite Hst. cbn [bool_decide]. step Hproc. cbn [Z.eqb negb]. unfold bind at 1 2. rewrite Hr1.
    cbn [of_option]. unfold ret at 1. change (is_state _ r1 || _) with true.
    cbn beta iota. step Hfree. done. }
  rewrite Heq in Htest. eexists _, x'. split; [exact Heq|].
  split_and!; [cbn; by rewrite lookup_insert_eq|by destruct x|by destruct x|cbn; by rewrite lookup_delete_eq| |exact Htest].
  intros Hp. apply list_elem_of_fmap in Hp as (q & Hq & Hin'). cbn in Hin'. apply list_elem_of_filter in Hin' as [Hni _].
  apply Hni. rewrite Hq. left.
Qed.

End Test.

Lemma test_reports_message_witness :
  exists w', @sendrecv_req_test prompt_env 100 after_recv = Some ((0, Some true, Some 64), w').
Proof.
  assert (wp (@run prompt_env ∅ (CRecv 5 8192 64 11 true)) (fun o w' => match o with None => True
    | Some out' => exists extra', @sr_inv_todo prompt_env w' out' extra' [] end) one_recv_comm) as Hw.
  { apply (@run_spec prompt_env prompt_ok _ _ ∅); [apply one_recv_comm_inv|by eexists]. }
  unfold wp in Hw.
  assert (@run prompt_env ∅ (CRecv 5 8192 64 11 true) one_recv_comm = Some (Some {[ 100 := 5 ]}, after_recv)) as Hrun
    by (vm_compute; reflexivity).
  rewrite Hrun in Hw. destruct Hw as [extra Hinv].
  edestruct (@test_reports_message prompt_env prompt_ok after_recv {[ 100 := 5 ]} extra 100 5) as (w' & x' & H & _);
    [exact Hinv|reflexivity|vm_compute; reflexivity|vm_compute; reflexivity|reflexivity|vm_compute; reflexivity
    |reflexivity|vm_compute; reflexivity|].
  exists w'. exact H.
Defined.

End SendrecvInv.
