(* ===== verification/SendrecvConn.v ===== *)
(** * nccl_ofi_sendrecv.c: connection set-up of the send/receive transport

    listen, connect and accept with the stages they resume from, close, and the
    tag space of a device. They run on the state of Sendrecv.v. Memory from
    calloc comes from the list [heap] of the state and new free lists from
    [pools]; memory is given back by removing the object from its store, and
    freeing what is not there is undefined.

    The theorems show the contract of connect() in nccl_ofi.h over all its
    stages, that listen and connect agree on the tag, and that the control bit
    is outside the tags. *)

From S2P Require Import Prelude OfiMath StateM NetTypes Allocator Sendrecv SendrecvInv.
Import Sendrecv SendrecvInv.

Module SendrecvConn.

Definition MAX_EP_ADDR : Z := 56.
Definition OFI_HIGHEST_TAG_BIT : Z := 2 ^ 63.
Definition MIN_TAG_BITS_FOR_RING_ID : Z := 33.
Definition NCCL_OFI_FLUSH_SIZE : Z := 4.
Definition conn_info_size : Z := 80.
(** mmap's error value, (void* ) -1. *)
Definition MAP_FAILED : Z := 2 ^ 64 - 1.

Record nccl_net_ofi_conn_handle_t := mk_handle {
  h_ep_name : list Z;
  h_comm_id : Z;
  h_state : save_comm_state_t;
}.

Definition set_h_state v h := mk_handle (h_ep_name h) (h_comm_id h) v.
Definition set_stage v st := mk_comm_state (st_comm st) (st_req st) v.
Definition set_st_comm v st := mk_comm_state v (st_req st) (st_stage st).
Definition set_st_req v st := mk_comm_state (st_comm st) v (st_stage st).

(** ** The tag space *)

(** The loop over the leading bits of the provider's tag format; 32 rounds or
    one more are all it can take. *)
Fixpoint tag_bits (fuel : nat) (mem_tag_format leading_zeroes bits : Z) : option Z :=
  match fuel with
  | O => None
  | S fuel' =>
      if (Z.land (u64 (Z.shiftl mem_tag_format leading_zeroes)) OFI_HIGHEST_TAG_BIT =? 0)
         && (bits >=? MIN_TAG_BITS_FOR_RING_ID)
      then tag_bits fuel' mem_tag_format (leading_zeroes + 1) (bits - 1)
      else Some bits
  end.

(** sendrecv_device_prepare_for_connection up to the fabric objects: the code
    and max_tag. *)
Definition prepare_max_tag (mem_tag_format : Z) : option (Z * Z) :=
  bits ← tag_bits 34 mem_tag_format 0 64;
  Some (if bits <? MIN_TAG_BITS_FOR_RING_ID then (- EINVAL, 0) else (0, u64 (Z.shiftl 1 (bits - 1) - 1))).

Section Connection.
Context {E : SendrecvEnv}.

(** ** Memory and libfabric *)

Definition calloc : M Z :=
  let* h := gets heap in
  match h with [] => ret NULL | p :: h' => modify (w_heap (fun _ => h')) ;;; ret p end.

Definition nccl_ofi_freelist_init : M (option pool) :=
  let* ps := gets pools in
  match ps with [] => ret None | p :: ps' => modify (w_pools (fun _ => ps')) ;;; ret p end.

Definition free_req (p : Z) : M unit :=
  if p =? NULL then ret tt else let* _ := get_req p in modify (w_reqs (delete p)).
Definition free_conn_info (p : Z) : M unit :=
  if p =? NULL then ret tt else let* _ := get_conn_info p in modify (w_conn_infos (delete p)).
Definition free_comm (c : Z) : M unit := let* _ := get_comm c in modify (w_comms (delete c)).

Definition fi_getname : M (Z * list Z) :=
  let* h := gets hist in
  modify (w_hist (fun h => h ++ [EvName])) ;;; ret (getname h).
Definition fi_av_insert (name : list Z) : M (Z * Z) :=
  let* h := gets hist in
  modify (w_hist (fun h => h ++ [EvAv name])) ;;; ret (av_insert h name).

(** nccl_net_ofi_endpoint_release on this endpoint. *)
Definition release_ep : M Z :=
  modify (w_ep id (fun n => i32 (n - 1))) ;;;
  let* n := gets ep_ref_cnt in
  (if n =? 0 then modify (w_hist (fun h => h ++ [EvEpFree])) else ret tt) ;;;
  ret 0.

(** ** listen *)

(** The name of the endpoint, [None] on failure; the buffer is not checked for
    NULL before libfabric writes it. *)
Definition sendrecv_get_local_address : M (option (list Z)) :=
  let* p := calloc in
  assert (negb (p =? NULL)) ;;;
  let* (rc, name) := fi_getname in
  ret (if negb (rc =? 0) then None else Some name).

Definition zero_state : save_comm_state_t := mk_comm_state NULL NULL COMM_CREATE_START.
Definition zero_handle : nccl_net_ofi_conn_handle_t := mk_handle [] 0 zero_state.

(** Result: the code, the handle and the communicator. *)
Definition sendrecv_endpoint_listen (handle : nccl_net_ofi_conn_handle_t)
    : M (Z * nccl_net_ofi_conn_handle_t * option Z) :=
  let* device := gets ep_device in
  if device =? NULL then ret (- EINVAL, handle, None)
  else
    let* tag := gets ep_tag in
    if u64 (tag + 1) >=? max_tag then ret (- ENOSPC, zero_handle, None)
    else
      modify (w_ep (fun t => u64 (t + 1)) id) ;;;
      let* tag := gets ep_tag in
      let* local_ep_name := sendrecv_get_local_address in
      match local_ep_name with
      | None => ret (- EINVAL, zero_handle, None)
      | Some name =>
          let handle := mk_handle name (u32 tag) zero_state in
          let* (num_addrs, local_ep_addr) := fi_av_insert name in
          if negb (num_addrs =? 1) then ret (- EINVAL, handle, None)
          else
            let* c := calloc in
            if c =? NULL then ret (- ENOMEM, handle, None)
            else
              put_comm c (ListenComm (mk_listen_comm ep_ptr tag ofi_ep local_ep_addr false zero_state NULL)) ;;;
              ret (0, handle, Some c)
      end.

(** ** connect *)

(** Bytes compared by memcmp; a name in a handle is followed by zero bytes. *)
Definition name_prefix (n : Z) (name : list Z) : list Z := resize (Z.to_nat n) 0 name.

Definition sendrecv_send_comm_create (handle : nccl_net_ofi_conn_handle_t) : M (Z * Z) :=
  let* device := gets ep_device in
  if device =? NULL then ret (- EINVAL, NULL)
  else
    let tag := h_comm_id handle in
    if (tag <? 1) || (tag >? max_tag) then ret (- EINVAL, NULL)
    else
      let* (n, remote_addr) := fi_av_insert (h_ep_name handle) in
      if negb (n =? 1) then ret (- EINVAL, NULL)
      else
        let* c := calloc in
        if c =? NULL then ret (- ENOMEM, NULL)
        else
          let* ci := calloc in
          if ci =? NULL then ret (- ENOMEM, NULL)
          else
            let* (rc, name) := fi_getname in
            let namelen := Z.of_nat (length name) in
            let self := if bool_decide (name_prefix namelen name = name_prefix namelen (h_ep_name handle)) then 1 else 0 in
            if negb (rc =? 0) then modify (w_conn_infos <[ci := mk_conn_info name namelen 0 NULL]>) ;;; ret (rc, NULL)
            else
              modify (w_conn_infos <[ci := mk_conn_info name namelen self NULL]>) ;;;
              let* fl := nccl_ofi_freelist_init in
              match fl with
              | None => ret (- ENOMEM, NULL)
              | Some fl =>
                  put_comm c (SendComm (mk_send_comm ep_ptr 0 (Some fl) tag remote_addr ofi_ep ci)) ;;;
                  ret (0, c)
              end.

Definition sendrecv_send_comm_prepare_send_req (c : Z) : M Z :=
  let* s_comm := get_send_comm c in
  let* p := sendrecv_allocate_req (s_reqs_fl s_comm) (fun fl => put_comm c (SendComm (set_s_fl fl s_comm))) in
  if p =? NULL then ret NULL
  else
    upd_req p (fun r => set_direction NCCL_OFI_SENDRECV_SEND (set_dev_id dev_id (set_comm c r))) ;;;
    ret p.

Definition sendrecv_send_comm_send_connect_message (c p : Z) : M Z :=
  let* s_comm := get_send_comm c in
  let* ci := get_conn_info (s_conn_info s_comm) in
  let msg := mk_conn_info (ep_name ci) (ep_namelen ci) (connect_to_self ci)
               (if connect_to_self ci =? 1 then p else NULL) in
  modify (w_conn_infos <[s_conn_info s_comm := msg]>) ;;;
  let* rc := post (fi_tsend_conn (s_local_ep s_comm) msg (s_remote_ep s_comm)
                     (Z.lor (s_tag s_comm) (u64 (max_tag + 1))) p) in
  if rc =? - FI_EAGAIN then
    let* res := sendrecv_cq_process in if negb (res =? 0) then ret res else ret rc
  else ret rc.

(** The last part: the communicator is handed out. *)
Definition connect_finish (handle : nccl_net_ofi_conn_handle_t) (c p : Z)
    : M (Z * nccl_net_ofi_conn_handle_t * option Z) :=
  let* req := get_req p in
  assert (c =? q_comm req) ;;;
  let* s_comm := get_send_comm c in
  let* ci := get_conn_info (s_conn_info s_comm) in
  (if negb (connect_to_self ci =? 1) then
     sendrecv_send_comm_free_req c p false ;;;
     free_conn_info (s_conn_info s_comm) ;;;
     let* s_comm := get_send_comm c in
     put_comm c (SendComm (set_s_conn_info NULL s_comm))
   else ret tt) ;;;
  ret (0, handle, Some c).

Definition set_h_stage stage handle := set_h_state (set_stage stage (h_state handle)) handle.
Definition save_conn (c p : Z) handle := set_h_state (set_st_req p (set_st_comm c (h_state handle))) handle.

Definition connect_req_pending (handle : nccl_net_ofi_conn_handle_t) (c p : Z)
    : M (Z * nccl_net_ofi_conn_handle_t * option Z) :=
  let* s_comm := get_send_comm c in
  let* ci := get_conn_info (s_conn_info s_comm) in
  if connect_to_self ci =? 1 then connect_finish (set_h_stage COMM_CONNECTED handle) c p
  else
    let* rc := sendrecv_cq_process in
    if negb (rc =? 0) then
      let* req := get_req p in
      assert (c =? q_comm req) ;;;
      sendrecv_send_comm_free_req c p false ;;;
      free_comm c ;;;
      ret (rc, handle, None)
    else
      let* req := get_req p in
      if negb (is_state NCCL_OFI_SENDRECV_REQ_COMPLETED req) then ret (0, save_conn c p handle, None)
      else connect_finish (set_h_stage COMM_CONNECTED handle) c p.

Definition connect_send_conn (handle : nccl_net_ofi_conn_handle_t) (c p : Z)
    : M (Z * nccl_net_ofi_conn_handle_t * option Z) :=
  let* rc := sendrecv_send_comm_send_connect_message c p in
  if rc =? - FI_EAGAIN then ret (0, save_conn c p handle, None)
  else if negb (rc =? 0) then
    sendrecv_send_comm_free_req c p false ;;;
    free_comm c ;;;
    ret (i32 rc, handle, None)
  else connect_req_pending (set_h_stage COMM_CONN_REQ_PENDING handle) c p.

Definition sendrecv_endpoint_connect (handle : nccl_net_ofi_conn_handle_t)
    : M (Z * nccl_net_ofi_conn_handle_t * option Z) :=
  let* device := gets ep_device in
  if device =? NULL then ret (- EINVAL, handle, None)
  else
    let p := st_req (h_state handle) in
    let c := st_comm (h_state handle) in
    match st_stage (h_state handle) with
    | COMM_CREATE_START =>
        assert (c =? NULL) ;;;
        let* (rc, c) := sendrecv_send_comm_create handle in
        if negb (rc =? 0) || (c =? NULL) then ret (rc, handle, None)
        else
          let* p := sendrecv_send_comm_prepare_send_req c in
          if p =? NULL then free_comm c ;;; ret (- ENOMEM, handle, None)
          else connect_send_conn (set_h_stage COMM_SEND_CONN handle) c p
    | COMM_SEND_CONN => connect_send_conn handle c p
    | COMM_CONN_REQ_PENDING => connect_req_pending handle c p
    | COMM_RECV_CONN | COMM_CONN_RESP_REQ_PENDING | COMM_CONNECTED => ret (- EINVAL, handle, None)
    end.

(** ** accept *)

Definition upd_listen (c : Z) (f : nccl_net_ofi_sendrecv_listen_comm_t -> nccl_net_ofi_sendrecv_listen_comm_t) : M unit :=
  let* l := get_listen_comm c in put_comm c (ListenComm (f l)).

Definition sendrecv_recv_req_prepare (c : Z) : M Z :=
  let* p := calloc in
  if p =? NULL then ret NULL
  else put_req p (set_dev_id dev_id (set_comm c zero_req)) ;;; ret p.

Definition sendrecv_recv_conn_post (c buffer p : Z) : M Z :=
  let* l_comm := get_listen_comm c in
  let* rc := post (fi_trecv (l_local_ep l_comm) buffer conn_info_size NULL
                     (Z.lor (l_tag l_comm) (u64 (max_tag + 1))) p) in
  if rc =? - FI_EAGAIN then
    let* res := sendrecv_cq_process in if negb (res =? 0) then ret res else ret rc
  else ret rc.

(** nccl_net_ofi_dealloc_mr_buffer. *)
Definition dealloc_mr_buffer (addr : Z) : M Z :=
  assert (NCCL_OFI_IS_ALIGNED addr page_size) ;;; syscall (munmap addr page_size).

Definition sendrecv_recv_comm_alloc_and_reg_flush_buff (size : Z)
    : M (Z * nccl_net_ofi_sendrecv_flush_buffer_t) :=
  assert (size <=? page_size) ;;;
  let* h := gets hist in
  let (rc, addr) := mmap_page h in
  modify (w_hist (fun h => h ++ [EvMap])) ;;;
  if negb (rc =? 0) then ret (rc, mk_flush_buffer NULL size NULL)
  else
    let* h := gets hist in
    let (rc, mr) := flush_register h in
    if negb (rc =? 0) then
      let* rc := dealloc_mr_buffer addr in
      ret (rc, mk_flush_buffer MAP_FAILED size mr)
    else ret (0, mk_flush_buffer addr size mr).

Definition flush_needed : bool :=
  negb gdr_flush_disable && bool_decide (support_gdr = GDR_SUPPORTED) && negb cuda_flush.

Definition sendrecv_recv_comm_prepare (l : Z) (remote_ep_addr : list Z) : M Z :=
  let* l_comm := get_listen_comm l in
  let* (n, remote_ep) := fi_av_insert remote_ep_addr in
  if negb (n =? 1) then ret NULL
  else
    let* c := calloc in
    if c =? NULL then ret NULL
    else
      let* fl := nccl_ofi_freelist_init in
      match fl with
      | None => ret NULL
      | Some fl =>
          let* (rc, fb) := if flush_needed then sendrecv_recv_comm_alloc_and_reg_flush_buff NCCL_OFI_FLUSH_SIZE
                           else ret (0, mk_flush_buffer NULL 0 NULL) in
          if negb (rc =? 0) then ret NULL
          else
            put_comm c (RecvComm (mk_recv_comm ep_ptr 0 (Some fl) (l_tag l_comm) remote_ep
              (l_local_ep_addr l_comm) (l_local_ep l_comm) fb)) ;;;
            ret c
      end.

(** Stage COMM_CONNECTED of this call: the code and the communicator. *)
Definition accept_finish (l conn_info : Z) : M (Z * option Z) :=
  let* ci := get_conn_info conn_info in
  let* c := sendrecv_recv_comm_prepare l (ep_name ci) in
  if c =? NULL then ret (- ENOMEM, None)
  else
    free_conn_info conn_info ;;;
    upd_listen l (fun lc => set_l_state (set_st_comm c (l_state lc)) lc) ;;;
    ret (0, Some c).

Definition accept_save (l p conn_info : Z) : M unit :=
  upd_listen l (fun lc => set_l_conn_info conn_info (set_l_state (set_st_req p (l_state lc)) lc)).

(** Reading a request of the own process that may be back in its free list. *)
Definition peek_req (p : Z) : M nccl_net_ofi_sendrecv_req_t :=
  let* m := gets reqs in
  let* f := gets freed in
  of_option (match m !! p with Some r => Some r | None => f !! p end).

Definition accept_req_pending (l p conn_info : Z) : M (Z * option Z) :=
  let* rc := sendrecv_cq_process in
  if negb (rc =? 0) then free_req p ;;; ret (rc, None)
  else
    let* l_comm := get_listen_comm l in
    if negb (l_accepted l_comm) then accept_save l p conn_info ;;; ret (0, None)
    else
      (* The message has arrived: the buffer holds it. *)
      let* h := gets hist in
      let* _ := get_conn_info conn_info in
      modify (w_conn_infos <[conn_info := conn_msg h]>) ;;;
      let* ci := get_conn_info conn_info in
      let* wait := if negb (connect_to_self ci =? 0) then
                     let* self := peek_req (ci_req ci) in ret (negb (is_state NCCL_OFI_SENDRECV_REQ_COMPLETED self))
                   else ret false in
      if wait then upd_listen l (set_l_conn_info conn_info) ;;; ret (0, None)
      else
        free_req p ;;;
        upd_listen l (fun lc => set_l_state (set_stage COMM_CONNECTED (l_state lc)) lc) ;;;
        accept_finish l conn_info.

Definition accept_recv_conn (l p conn_info : Z) : M (Z * option Z) :=
  let* conn_info := if conn_info =? NULL then
                      let* ci := calloc in
                      (if ci =? NULL then ret tt else modify (w_conn_infos <[ci := mk_conn_info [] 0 0 NULL]>)) ;;;
                      ret ci
                    else ret conn_info in
  let* rc := sendrecv_recv_conn_post l conn_info p in
  if rc =? - FI_EAGAIN then accept_save l p conn_info ;;; ret (0, None)
  else if negb (rc =? 0) then
    free_req p ;;;
    free_conn_info conn_info ;;;
    upd_listen l (set_l_conn_info NULL) ;;;
    ret (rc, None)
  else
    upd_listen l (fun lc => set_l_state (set_stage COMM_CONN_REQ_PENDING (l_state lc)) lc) ;;;
    accept_req_pending l p conn_info.

Definition sendrecv_listen_comm_accept (l : Z) : M (Z * option Z) :=
  let* l_comm := get_listen_comm l in
  let stage := st_stage (l_state l_comm) in
  if negb (bool_decide (stage = COMM_CONN_REQ_PENDING)) && l_accepted l_comm then ret (- EINVAL, None)
  else
    let p := st_req (l_state l_comm) in
    let conn_info := l_conn_info l_comm in
    if l_ep l_comm =? NULL then ret (- EINVAL, None)
    else
      let* device := gets ep_device in
      if device =? NULL then ret (- EINVAL, None)
      else
        match stage with
        | COMM_CREATE_START =>
            modify (w_ep id (fun n => i32 (n + 1))) ;;;
            let* p := sendrecv_recv_req_prepare l in
            if p =? NULL then ret (- ENOMEM, None)
            else
              upd_listen l (fun lc => set_l_state (set_stage COMM_RECV_CONN (l_state lc)) lc) ;;;
              accept_recv_conn l p conn_info
        | COMM_RECV_CONN => accept_recv_conn l p conn_info
        | COMM_CONN_REQ_PENDING => accept_req_pending l p conn_info
        | COMM_SEND_CONN | COMM_CONN_RESP_REQ_PENDING | COMM_CONNECTED => ret (- EINVAL, None)
        end.

(** ** close *)

Definition sendrecv_listen_comm_close (l : Z) : M Z :=
  let* l_comm := get_listen_comm l in
  if l_ep l_comm =? NULL then ret (- EINVAL)
  else let* rc := release_ep in free_comm l ;;; ret rc.

Definition sendrecv_send_comm_close (c : Z) : M Z :=
  let* s_comm := get_send_comm c in
  if s_ep s_comm =? NULL then ret (- EINVAL)
  else free_conn_info (s_conn_info s_comm) ;;; free_comm c ;;; release_ep.

Definition sendrecv_recv_comm_close (c : Z) : M Z :=
  let* r_comm := get_recv_comm c in
  if r_ep r_comm =? NULL then ret (- EINVAL)
  else
    let fb := r_flush_buff r_comm in
    let* rc := if flush_needed then
                 let* rc := if fb_mr_handle fb =? NULL then ret 0 else syscall (fi_close (fb_mr_handle fb)) in
                 if negb (rc =? 0) then ret rc else dealloc_mr_buffer (host_buffer fb)
               else ret 0 in
    if negb (rc =? 0) then ret rc else free_comm c ;;; release_ep.

End Connection.

(** ** Tags *)

Lemma land_high fmt k :
  0 <= fmt < 2 ^ 64 -> 0 <= k < 64 ->
  (Z.land (u64 (Z.shiftl fmt k)) OFI_HIGHEST_TAG_BIT =? 0) = negb (Z.testbit fmt (63 - k)).
Proof.
  intros Hf Hk. assert (Z.testbit (u64 (Z.shiftl fmt k)) 63 = Z.testbit fmt (63 - k)) as Hb.
  { unfold wrap. rewrite Z.mod_pow2_bits_low by lia. rewrite Z.shiftl_spec by lia. done. }
  unfold OFI_HIGHEST_TAG_BIT. destruct (Z.testbit fmt (63 - k)); cbn [negb].
  - apply Z.eqb_neq. intros H0. apply (f_equal (fun x => Z.testbit x 63)) in H0.
    rewrite Z.land_spec, Hb, Z.pow2_bits_true, Z.bits_0 in H0 by lia. done.
  - apply Z.eqb_eq. apply Z.bits_inj'. intros n Hn. rewrite Z.land_spec, Z.bits_0.
    destruct (Z.eq_dec n 63) as [->|]; [by rewrite Hb|]. rewrite (Z.pow2_bits_false 63 n) by lia. apply andb_false_r.
Qed.

(** The loop stops at the highest bit of the format, or just below the minimum. *)
Lemma tag_bits_spec fmt fuel : forall k,
  0 <= fmt < 2 ^ 64 -> 0 <= k <= 32 -> 33 - k < Z.of_nat fuel -> (forall j, 0 <= j < k -> Z.testbit fmt (63 - j) = false) ->
  exists bits, tag_bits fuel fmt k (64 - k) = Some bits /\
    ((33 <= bits <= 64 /\ Z.testbit fmt (bits - 1) = true /\ forall j, bits <= j < 64 -> Z.testbit fmt j = false) \/
     (bits = 32 /\ forall j, 32 <= j < 64 -> Z.testbit fmt j = false)).
Proof.
  induction fuel as [|fuel IH]; intros k Hf Hk Hfuel Hz; [lia|]. cbn [tag_bits].
  assert (forall j, 64 - k <= j < 64 -> Z.testbit fmt j = false) as Hz'.
  { intros j Hj. replace j with (63 - (63 - j)) by lia. apply Hz. lia. }
  rewrite land_high by lia. destruct (Z.testbit fmt (63 - k)) eqn:Hb; cbn [negb andb].
  { exists (64 - k). split; [done|]. destruct (decide (k = 32)) as [->|].
    - right. split; [done|]. intros j Hj. apply Hz'. lia.
    - left. replace (64 - k - 1) with (63 - k) by lia. split_and!; [lia|lia|done|done]. }
  destruct (Z.geb_spec (64 - k) MIN_TAG_BITS_FOR_RING_ID) as [Hge|Hlt]; unfold MIN_TAG_BITS_FOR_RING_ID in *.
  - replace (64 - k - 1) with (64 - (k + 1)) by lia. apply IH; [done|lia|lia|].
    intros j Hj. destruct (decide (j = k)) as [->|]; [done|]. apply Hz. lia.
  - exists (64 - k). split; [done|]. right. split; [lia|]. intros j Hj. apply Hz'. lia.
Qed.

Lemma prepare_total fmt : 0 <= fmt < 2 ^ 64 -> exists rc max, prepare_max_tag fmt = Some (rc, max).
Proof.
  intros Hf. unfold prepare_max_tag. destruct (tag_bits_spec fmt 34 0 Hf) as (bits & Heq & _); [lia|lia|lia|].
  change (64 - 0) with 64 in Heq. rewrite Heq. cbn [mbind option_bind]. destruct (bits <? MIN_TAG_BITS_FOR_RING_ID); by eauto.
Qed.

(** For every tag format of a provider, the device either reports that 32
    tag bits or fewer are not enough, or reserves the highest bit of the format as
    control bit: [max_tag + 1] is that bit, and no tag up to [max_tag] has it. *)
Theorem control_bit_is_reserved fmt :
  0 <= fmt < 2 ^ 64 ->
  exists rc max, prepare_max_tag fmt = Some (rc, max) /\
    ((rc = - EINVAL /\ fmt < 2 ^ 32) \/
     (rc = 0 /\ 2 ^ 32 <= fmt /\ u64 (max + 1) = 2 ^ Z.log2 fmt /\ Z.testbit fmt (Z.log2 fmt) = true /\
      forall tag, 0 <= tag <= max -> Z.land tag (u64 (max + 1)) = 0 /\
        Z.land (Z.lor tag (u64 (max + 1))) (u64 (max + 1)) <> 0)).
Proof.
  intros Hf. unfold prepare_max_tag.
  destruct (tag_bits_spec fmt 34 0 Hf) as (bits & Heq & Hbits); [lia|lia|lia|].
  change (64 - 0) with 64 in Heq. rewrite Heq. cbn [mbind option_bind].
  assert (forall n, 0 <= n -> (forall j, n <= j < 64 -> Z.testbit fmt j = false) -> fmt < 2 ^ n) as Hlow.
  { intros n Hn Hj. destruct (Z.lt_ge_cases fmt (2 ^ n)) as [|Hge]; [done|]. exfalso.
    assert (0 < fmt) as Hpos by (pose proof (Z.pow_pos_nonneg 2 n); lia).
    assert (n <= Z.log2 fmt < 64) as Hlog.
    { split; [by apply Z.log2_le_pow2|]. apply Z.log2_lt_pow2; lia. }
    pose proof (Z.bit_log2 fmt Hpos) as Hb. by rewrite Hj in Hb. }
  destruct Hbits as [(Hr & Hb & Hz)|(-> & Hz)].
  - rewrite (proj2 (Z.ltb_ge _ _)) by (unfold MIN_TAG_BITS_FOR_RING_ID; lia). rewrite Z.shiftl_1_l.
    assert (2 ^ (bits - 1) <= 2 ^ 63) as Hp63 by (apply Z.pow_le_mono_r; lia).
    assert (0 < 2 ^ (bits - 1)) as Hp0 by lia. rewrite (wrap_small 64 (2 ^ (bits - 1) - 1)) by lia.
    eexists _, _. split; [done|]. right.
    assert (0 < fmt) as Hpos.
    { destruct (decide (fmt = 0)) as [->|]; [by rewrite Z.bits_0 in Hb|lia]. }
    assert (Z.log2 fmt = bits - 1) as Hlog.
    { apply Z.le_antisymm.
      - apply Z.lt_succ_r. apply Z.log2_lt_pow2; [done|]. replace (Z.succ (bits - 1)) with bits by lia. apply Hlow; [lia|done].
      - apply Z.log2_le_pow2; [done|]. apply Z.le_ngt. intros Hlt.
        rewrite Z.bits_above_log2 in Hb; [done|lia|]. apply Z.log2_lt_pow2; lia. }
    rewrite Hlog. replace (2 ^ (bits - 1) - 1 + 1) with (2 ^ (bits - 1)) by lia. rewrite wrap_small by lia.
    split_and!; [done| |done|done|].
    + assert (2 ^ 32 <= 2 ^ Z.log2 fmt) by (apply Z.pow_le_mono_r; lia). pose proof (Z.log2_spec fmt Hpos). lia.
    + intros tag Htag. assert (Z.land tag (2 ^ (bits - 1)) = 0) as Hl.
      { apply Z.bits_inj'. intros n Hn. rewrite Z.land_spec, Z.bits_0. destruct (decide (n = bits - 1)) as [->|].
        - rewrite (Z.bits_above_log2 tag) by (destruct (decide (tag = 0)) as [->|]; [cbn; lia|]; try lia; apply Z.log2_lt_pow2; lia). done.
        - rewrite (Z.pow2_bits_false (bits - 1) n) by lia. apply andb_false_r. }
      split; [done|]. rewrite Z.land_lor_distr_l, Hl, Z.lor_0_l, Z.land_diag. lia.
  - eexists _, _. split; [done|]. left. split; [done|]. apply Hlow; [lia|done].
Qed.

Lemma control_bit_is_reserved_witness :
  exists rc max, prepare_max_tag (2 ^ 48 - 1) = Some (rc, max) /\ rc = 0 /\ u64 (max + 1) = 2 ^ 47.
Proof.
  destruct (control_bit_is_reserved (2 ^ 48 - 1)) as (rc & max & Hp & [(_ & Hlt)|(Hrc & _ & Hm & _)]); [lia| |].
  - exfalso. revert Hlt. vm_compute. discriminate.
  - exists rc, max. split; [exact Hp|]. split; [exact Hrc|]. rewrite Hm. vm_compute. reflexivity.
Defined.

(** ** The contract of connect *)

(** Codes fit an int, and the endpoint has an address. *)
Class ConnOk `{SendrecvEnv} : Prop := {
  op_code_int h op : - 2 ^ 31 <= op_code h op < 2 ^ 31;
  cq_code_int h qs rc : (cq_read h qs = CqFailed rc \/ cq_read h qs = CqReaderrFailed rc) -> - 2 ^ 31 <= rc < 2 ^ 31;
  ep_there : ep_ptr <> NULL;
}.

(** Addresses the allocators will hand out are not in use. *)
Definition fresh (w : world) : list Z :=
  filter (fun p => p <> NULL) (heap w) ++ concat (omap id (pools w)).

Definition fresh_ok (w : world) : Prop :=
  NoDup (fresh w) /\ (NULL ∉ fresh w) /\
  forall a, a ∈ fresh w -> reqs w !! a = None /\ comms w !! a = None /\ conn_infos w !! a = None /\
    forall c, a ∉ fl_at w c.

(** Communicator [c] is being connected with request [p], for tag [tag]. *)
Record connecting `{SendrecvEnv} (w : world) (extra : gset Z) (c p tag : Z) : Prop := {
  k_comm : exists s ci, comms w !! c = Some (SendComm s) /\ s_ep s = ep_ptr /\ s_tag s = tag /\ s_conn_info s <> NULL /\
    conn_infos w !! s_conn_info s = Some ci /\ (connect_to_self ci = 1 -> ci_req ci = p);
  k_req : exists r, reqs w !! p = Some r /\ q_comm r = c;
  k_extra : p ∈ extra;
  k_self : forall c', self_req w c' p -> c' = c;
}.

(** What a handle says between two calls of connect. *)
Definition handle_ok `{SendrecvEnv} (w : world) (extra : gset Z) (h : nccl_net_ofi_conn_handle_t) : Prop :=
  let c := st_comm (h_state h) in
  let p := st_req (h_state h) in
  match st_stage (h_state h) with
  | COMM_CREATE_START => c = NULL
  | COMM_SEND_CONN => connecting w extra c p (h_comm_id h) /\ p ∉ ctxs (posted w) /\
      exists r, reqs w !! p = Some r /\ q_state r = NCCL_OFI_SENDRECV_REQ_CREATED
  | COMM_CONN_REQ_PENDING => connecting w extra c p (h_comm_id h)
  | _ => True
  end.

Section Contract.
Context {E : SendrecvEnv} {F : FabricOk} {K : ConnOk}.

Lemma load_unknown w out extra c : sr_inv w out extra -> comms w !! c = None -> load out c = 0.
Proof.
  intros Hinv Hc. unfold load. assert (filter (fun pc : Z * Z => pc.2 = c) out = ∅) as ->; [|by rewrite map_size_empty].
  apply map_empty. intros p. apply map_lookup_filter_None. right. intros c' Hp Heq. cbn in Heq. subst.
  destruct (i_out _ _ _ _ Hinv _ _ Hp) as (? & ? & _ & Hx & _). congruence.
Qed.

(** A new send communicator with its connection record and first request. *)
(** A connection that connect has just begun: the communicator [c] with its free list
    [l], the message [msg] at [ci], and the request [p]. *)
Section NewSend.
Context (w w' : world) (out : gmap Z Z) (extra : gset Z) (c ci p : Z) (l : list Z) (r : nccl_net_ofi_sendrecv_req_t)
  (s : nccl_net_ofi_sendrecv_send_comm_t) (msg : nccl_ofi_connection_info_t).
Context (Hinv : sr_inv w out extra) (Hc : comms w !! c = None) (Hci : conn_infos w !! ci = None) (Hp : reqs w !! p = None).
Context (Hcn : c <> NULL) (Hcin : ci <> NULL) (Hpn : p <> NULL).
Context (Hnd : NoDup (p :: l)) (Hfl : forall a, a ∈ p :: l -> a <> NULL /\ reqs w !! a = None /\ forall c', a ∉ fl_at w c').
Context (Hsep : s_ep s = ep_ptr) (Hsin : s_num_inflight_reqs s = 0) (Hsfl : s_reqs_fl s = Some l) (Hsci : s_conn_info s = ci).
Context (Hmsg : connect_to_self msg = 1 -> ci_req msg = p) (Hrc : q_comm r = c).
Context (Hreqs : reqs w' = <[p := r]> (reqs w)) (Hcs : comms w' = <[c := SendComm s]> (comms w)).
Context (Hcis : conn_infos w' = <[ci := msg]> (conn_infos w)) (Hpost : posted w' = posted w) (Hdev : ep_device w' = ep_device w).

Lemma new_send_comms c' x : comms w' !! c' = Some x -> (c' = c /\ x = SendComm s) \/ (c' <> c /\ comms w !! c' = Some x).
Proof using Hcs.
  rewrite Hcs. destruct (decide (c = c')) as [<-|].
  - rewrite lookup_insert_eq. intros [= <-]. by left.
  - rewrite lookup_insert_ne by done. by right.
Qed.

Lemma new_send_old c' x : comms w !! c' = Some x -> comms w' !! c' = Some x.
Proof using Hcs Hc. intros Hx. rewrite Hcs, lookup_insert_ne; [done|]. intros <-. congruence. Qed.

Lemma new_send_fl c' : fl_at w' c' = if decide (c = c') then l else fl_at w c'.
Proof using Hcs Hsfl. unfold fl_at. rewrite Hcs. case_decide as Hd; [subst c'; by rewrite lookup_insert_eq; cbn; rewrite Hsfl|]. by rewrite lookup_insert_ne. Qed.

Lemma new_send_info c' s' : comms w !! c' = Some (SendComm s') -> s_conn_info s' <> NULL -> s_conn_info s' <> ci.
Proof using Hinv Hci. intros Hs' Hn' Heq. destruct (i_self _ _ _ _ Hinv _ _ Hs' Hn') as (x & Hx & _). congruence. Qed.

Lemma new_send_self c' q : self_req w' c' q -> (c' = c /\ connect_to_self msg = 1 /\ q = p) \/ (c' <> c /\ self_req w c' q).
Proof using All.
  intros (s' & ci' & Hs' & Hn' & Hci' & H1 & Hq). destruct (new_send_comms _ _ Hs') as [[-> [= ->]]|[Hne Hs0]].
  - left. rewrite Hcis, Hsci, lookup_insert_eq in Hci'. simplify_eq. split_and!; [done|done|by apply Hmsg].
  - right. split; [done|]. exists s', ci'. rewrite Hcis, lookup_insert_ne in Hci' by (symmetry; by eapply new_send_info). done.
Qed.

Lemma new_send_unused : (p ∉ dom out) /\ (p ∉ extra) /\ (forall c', ~ self_req w c' p) /\ p ∉ ctxs (posted w).
Proof using All.
  assert ((p ∉ dom out) /\ p ∉ extra) as [Hpo Hpe] by (apply not_elem_of_dom in Hp as Hp'; rewrite (i_dom _ _ _ _ Hinv) in Hp'; by apply not_elem_of_union in Hp').
  split_and!; [done|done| |].
  - intros c' (s' & ci' & Hs' & Hn' & Hci' & H1 & Hq). destruct (i_self _ _ _ _ Hinv _ _ Hs' Hn') as (ci2 & Hci2 & Hin). simplify_eq. by apply Hpe, Hin.
  - intros Hin. apply list_elem_of_fmap in Hin as (q & -> & Hq). destruct (i_posted_req _ _ _ _ Hinv q Hq) as (r' & Hr' & _). congruence.
Qed.

Lemma new_send_inv : sr_inv w' out ({[p]} ∪ extra).
Proof using All.
  pose proof Hinv as []. pose proof new_send_comms as Hlk. pose proof new_send_old as Hold. pose proof new_send_fl as Hflat. pose proof new_send_info as Hnci. pose proof new_send_self as Hself.
  destruct new_send_unused as (Hpo & Hpe & Hnself & Hpp). constructor.
  - by rewrite Hdev.
  - rewrite Hreqs, dom_insert_L, i_dom0. set_solver.
  - apply disjoint_union_l. split; [by apply disjoint_singleton_l|done].
  - rewrite Hreqs, dom_insert_L. apply not_elem_of_union. split; [by apply not_elem_of_singleton|done].
  - intros c' x Hx. destruct (Hlk _ _ Hx) as [[-> ->]|[_ Hx']]; [|by apply i_comm0]. split; [done|]. split.
    + cbn. rewrite Hsep. apply ep_there.
    + cbn. rewrite Hsfl. eauto.
  - intros c' x Hx. destruct (Hlk _ _ Hx) as [[-> ->]|[_ Hx']]; [|by apply i_count0].
    rewrite (load_unknown _ _ _ _ Hinv Hc). cbn. rewrite Hsin. split; [done|]. done.
  - intros q c' Hq. destruct (i_out0 _ _ Hq) as (r' & x & ? & Hx & ? & ? & ?). exists r', x. rewrite Hpost, Hreqs.
    split_and!; try done; [|by apply Hold]. rewrite lookup_insert_ne; [done|]. intros <-. congruence.
  - by rewrite Hpost.
  - rewrite Hpost, Hreqs. intros q Hq. destruct (i_posted_req0 q Hq) as (r' & Hr' & ? & Hl). exists r'. split_and!; [|done|].
    + rewrite lookup_insert_ne; [done|]. congruence.
    + intros Hv Ht. destruct (Hl Hv Ht) as [l' Hl']. exists l'. by apply Hold.
  - intros c'. rewrite Hflat. case_decide; [by apply NoDup_cons in Hnd as [_ ?]|done].
  - intros c' e He. rewrite Hreqs. apply NoDup_cons in Hnd as [Hnp _]. rewrite Hflat in He. case_decide.
    + destruct (Hfl e) as (? & ? & _); [by right|]. split; [done|]. rewrite lookup_insert_ne; [done|]. by intros <-.
    + destruct (i_fl_free0 _ _ He) as [? ?]. split; [done|]. rewrite lookup_insert_ne; [done|]. intros <-.
      destruct (Hfl p) as (_ & _ & Hno); [by left|]. by eapply Hno.
  - intros c1 c2 e. rewrite !Hflat. intros H1 H2. repeat case_decide; subst; try done; [| |by eapply i_fl_disj0];
      (destruct (Hfl e) as (_ & _ & Hno); [by right|]; exfalso; by eapply Hno).
  - intros c' s' Hs' Hn'. destruct (Hlk _ _ Hs') as [[-> [= ->]]|[_ Hs0]].
    + exists msg. rewrite Hcis, Hsci, lookup_insert_eq. split; [done|]. intros H1. rewrite (Hmsg H1). set_solver.
    + destruct (i_self0 _ _ Hs0 Hn') as (ci' & Hci' & Hin). exists ci'.
      rewrite Hcis, lookup_insert_ne by (symmetry; by eapply Hnci). split; [done|]. intros H1. apply elem_of_union. right. auto.
  - intros c1 c2 s1 s2 H1 H2 Hn1 Heq. destruct (Hlk _ _ H1) as [[-> [= ->]]|[Hne1 H1']], (Hlk _ _ H2) as [[-> [= ->]]|[Hne2 H2']]; try done.
    + exfalso. eapply (Hnci _ _ H2'); congruence.
    + exfalso. eapply (Hnci _ _ H1'); congruence.
    + by eapply (i_self_inj0 _ _ _ _ H1' H2').
  - intros c1 c2 q H1 H2. destruct (Hself _ _ H1) as [(-> & _ & ->)|[_ H1']], (Hself _ _ H2) as [(-> & _ & Hq)|[_ H2']]; try done.
    + by apply Hnself in H2'.
    + subst q. by apply Hnself in H1'.
    + by eapply i_self_req0.
Qed.

Lemma inv_new_send : sr_inv w' out ({[p]} ∪ extra) /\ connecting w' ({[p]} ∪ extra) c p (s_tag s) /\ p ∉ ctxs (posted w').
Proof using All.
  destruct new_send_unused as (_ & _ & Hnself & Hpp). split; [apply new_send_inv|]. split; [|by rewrite Hpost]. constructor.
  - exists s, msg. rewrite Hcs, Hcis, Hsci, !lookup_insert_eq. done.
  - exists r. rewrite Hreqs, lookup_insert_eq. done.
  - set_solver.
  - intros c' Hs. destruct (new_send_self _ _ Hs) as [(-> & _)|[_ Hs']]; [done|]. by apply Hnself in Hs'.
Qed.
End NewSend.

End Contract.

Section Contract3.
Context {E : SendrecvEnv} {F : FabricOk} {K : ConnOk}.

(** A request of a pending connection is posted. *)
Lemma inv_post_extra w w' out extra q r :
  sr_inv w out extra -> p_ctx q ∈ extra -> p_ctx q ∉ ctxs (posted w) -> reqs w !! p_ctx q = Some r ->
  q_state r = NCCL_OFI_SENDRECV_REQ_CREATED -> p_recv q = false ->
  reqs w' = reqs w -> comms w' = comms w -> conn_infos w' = conn_infos w -> posted w' = q :: posted w ->
  ep_device w' = ep_device w -> sr_inv w' out extra.
Proof.
  intros [] Hin Hni Hr Hst Hsend Hreqs Hcs Hcis Hpost Hdev.
  assert (forall c, fl_at w' c = fl_at w c) as Hfl by (intros c; unfold fl_at; by rewrite Hcs).
  constructor; rewrite ?Hreqs, ?Hcs, ?Hcis, ?Hpost, ?Hdev; try done.
  - intros p c Hp. destruct (i_out0 _ _ Hp) as (r' & x & ? & ? & ? & ? & Hc). exists r', x.
    split_and!; try done. intros Hs. right. by apply Hc.
  - cbn. apply NoDup_cons. by split.
  - cbn. intros q' [->|Hq']%elem_of_cons; [|by apply i_posted_req0].
    exists r. split_and!; try done. by rewrite Hsend.
  - intros c. rewrite Hfl. auto.
  - intros c e. rewrite Hfl. apply i_fl_free0.
  - intros c1 c2 e. rewrite !Hfl. apply i_fl_disj0.
  - intros c1 c2 p (s1 & ci1 & H1) (s2 & ci2 & H2). rewrite Hcs, Hcis in H1, H2.
    apply (i_self_req0 c1 c2 p); [by exists s1, ci1|by exists s2, ci2].
Qed.

Lemma connecting_advanced S w w' extra c p tag : advanced S w w' -> connecting w extra c p tag -> connecting w' extra c p tag.
Proof.
  intros Ha [(s & ci & Hs & Hep & Htag & Hn & Hci & Hreq) (r & Hr & Hrc) Hx Hself].
  destruct (a_rest _ _ _ Ha) as (_ & Hcis & _). constructor; [| |done|].
  - exists s, ci. rewrite Hcis. split_and!; try done. by eapply advanced_send.
  - destruct (a_reqs _ _ _ Ha _ _ Hr) as (st & sz & Hr' & _). eexists. split; [exact Hr'|]. done.
  - intros c' (s' & ci' & Hs' & Hrest). apply Hself. exists s', ci'. rewrite <- Hcis. split; [|done].
    assert (is_Some (comms w !! c')) as [x Hx'] by (apply elem_of_dom; rewrite <- (a_dom _ _ _ Ha); by eapply elem_of_dom_2).
    destruct (a_comms _ _ _ Ha _ _ Hx') as [H|(l & -> & H)]; congruence.
Qed.

Lemma connecting_frame w w' extra c p tag :
  connecting w extra c p tag -> reqs w' = reqs w -> comms w' = comms w -> conn_infos w' = conn_infos w -> connecting w' extra c p tag.
Proof.
  intros [Hc Hr Hx Hs] Hreqs Hcs Hcis. constructor; rewrite ?Hreqs, ?Hcs, ?Hcis; try done.
  intros c' (s & ci & H). rewrite Hcs, Hcis in H. apply Hs. by exists s, ci.
Qed.

(** Codes of the completion queue fit an int. *)
Lemma process_completions_int es : forall w rc w',
  sendrecv_process_completions es w = Some (rc, w') -> - 2 ^ 31 <= rc < 2 ^ 31.
Proof.
  induction es as [|e es IH]; intros w rc w' H; cbn [sendrecv_process_completions] in H; [by injection H as <- _|].
  destruct (e_ctx e =? NULL); [by injection H as <- _|].
  apply bind_inv in H as (r & w1 & _ & H). apply bind_inv in H as ([] & w2 & _ & H).
  apply bind_inv in H as ([] & w3 & _ & H). by eapply IH.
Qed.

Lemma cq_loop_int fuel : forall w rc w', cq_loop fuel w = Some (rc, w') -> - 2 ^ 31 <= rc < 2 ^ 31.
Proof.
  induction fuel as [|fuel IH]; intros w rc w' H; cbn [cq_loop] in H; [done|].
  apply bind_inv in H as (a & w1 & Ha & H).
  assert (a = cq_read (hist w) (posted w)) as -> by (unfold fi_cq_read, bind, gets, modify, ret in Ha; by simplify_eq).
  pose proof (cq_code_int (hist w) (posted w)) as Hint.
  destruct (cq_read (hist w) (posted w)) as [es| |rc'| |rc'|ctx len].
  - apply bind_inv in H as (rc1 & w2 & Hp & H). destruct (negb _); [|by eapply IH]. injection H as <- _.
    by eapply process_completions_int.
  - by injection H as <- _.
  - injection H as <- _. apply Hint. by left.
  - by injection H as <- _.
  - injection H as <- _. apply Hint. by right.
  - apply bind_inv in H as ([] & w2 & _ & H). by eapply IH.
Qed.

Lemma cq_process_conn w out extra :
  sr_inv w out extra ->
  wp sendrecv_cq_process (fun rc w' => sr_inv w' out extra /\ advanced (ctxs (posted w)) w w' /\ - 2 ^ 31 <= rc < 2 ^ 31) w.
Proof.
  intros Hinv. pose proof (cq_process_spec w out extra Hinv) as Hwp. apply wp_run in Hwp as (rc & w' & Hrun & Hi & Ha).
  apply wp_run. exists rc, w'. split; [done|]. split; [done|]. split; [done|].
  exact (cq_loop_int (Datatypes.S (length (posted w))) w rc w' Hrun).
Qed.

(** What connect promises. *)
Definition connect_post (out : gmap Z Z) (tag : Z)
    (res : Z * nccl_net_ofi_conn_handle_t * option Z) (w' : world) : Prop :=
  let '(rc, h, oc) := res in
  match oc with
  | Some c => rc = 0 /\ st_stage (h_state h) = COMM_CONNECTED /\
      exists extra' s, sr_inv w' out extra' /\ comms w' !! c = Some (SendComm s) /\ s_ep s = ep_ptr /\ s_tag s = tag
  | None => rc = 0 -> st_stage (h_state h) <> COMM_CREATE_START /\
      exists extra' s, sr_inv w' out extra' /\ handle_ok w' extra' h /\
        comms w' !! st_comm (h_state h) = Some (SendComm s) /\ s_ep s = ep_ptr /\ s_tag s = tag
  end.

(** A communicator leaves with all its requests: what the error paths do. *)
Lemma release_and_free_wp {A} w out extra c p tag (k : M A) Q :
  sr_inv w out extra -> connecting w extra c p tag -> (forall w', wp k Q w') ->
  wp (sendrecv_send_comm_free_req c p false ;;; free_comm c ;;; k) Q w.
Proof.
  intros Hinv [(s & ci & Hs & _) (r & Hr & _) Hx _] HQ. destruct (i_comm _ _ _ _ Hinv _ _ Hs) as [_ [_ [l Hl]]].
  unfold sendrecv_send_comm_free_req, get_send_comm. wp_simpl. eapply get_comm_wp; [exact Hs|]. wp_simpl.
  unfold sendrecv_req_free. rewrite Hl. assert (p <> NULL) as Hn.
  { intros ->. apply (i_null _ _ _ _ Hinv). by eapply elem_of_dom_2. }
  rewrite (proj2 (Z.eqb_neq _ _) Hn). unfold retire. wp_simpl. eapply sr_get_req_wp; [exact Hr|]. unfold put_comm, free_comm. wp_simpl.
  eapply get_comm_wp; [cbn; by rewrite lookup_insert_eq|]. wp_simpl. apply HQ.
Qed.

(** The communicator is ready: the request and the record go, or stay until the
    first send of a connection to the own endpoint. *)
Lemma connect_finish_spec w out extra h c p s tag :
  sr_inv w out extra -> connecting w extra c p tag -> comms w !! c = Some (SendComm s) ->
  (forall ci, conn_infos w !! s_conn_info s = Some ci -> connect_to_self ci <> 1 -> p ∉ ctxs (posted w)) ->
  wp (connect_finish (set_h_stage COMM_CONNECTED h) c p) (connect_post out tag) w.
Proof.
  intros Hinv Hk Hs Hdone. pose proof Hk as [(s0 & ci & Hs0 & Hep & Htag & Hn & Hci & Hself) (r & Hr & Hrc) Hx Hk4].
  rewrite Hs in Hs0. injection Hs0 as <-.
  unfold connect_finish. wp_simpl. eapply sr_get_req_wp; [exact Hr|]. wp_simpl.
  apply wp_assert; [by apply Z.eqb_eq|]. unfold get_send_comm. wp_simpl. eapply get_comm_wp; [exact Hs|]. wp_simpl.
  unfold get_conn_info. wp_simpl. eapply wp_of_option; [exact Hci|]. wp_simpl.
  destruct (Z.eqb_spec (connect_to_self ci) 1) as [H1|H1]; cbn [negb]; wp_simpl.
  { split_and!; [done|done|]. exists extra, s. by split_and!. }
  specialize (Hdone ci Hci H1). assert (forall c', ~ self_req w c' p) as Hns.
  { intros c' Hs'. pose proof (Hk4 c' Hs') as ->. destruct Hs' as (s' & ci' & Hs' & _ & Hci' & Hone & _).
    rewrite Hs in Hs'. injection Hs' as <-. congruence. }
  destruct (inv_drop_conn w out extra c s Hinv Hs Hn) as [Hinv1 Hdrop].
  destruct (i_comm _ _ _ _ Hinv _ _ Hs) as [_ [_ [l Hl]]].
  assert (p <> NULL) as Hpn by (intros ->; by apply (i_null _ _ _ _ Hinv); eapply elem_of_dom_2).
  unfold sendrecv_send_comm_free_req, get_send_comm. wp_simpl. eapply get_comm_wp; [exact Hs|]. wp_simpl.
  unfold sendrecv_req_free. rewrite (proj2 (Z.eqb_neq _ _) Hpn), Hl. unfold retire. wp_simpl.
  eapply sr_get_req_wp; [exact Hr|]. unfold put_comm. wp_simpl. unfold free_conn_info.
  rewrite (proj2 (Z.eqb_neq _ _) Hn). unfold get_conn_info. wp_simpl. eapply wp_of_option; [exact Hci|]. wp_simpl.
  eapply get_comm_wp; [cbn; by rewrite lookup_insert_eq|]. wp_simpl.
  split_and!; [done|done|]. exists (extra ∖ {[p]}). eexists. split_and!; [|cbn; by rewrite lookup_insert_eq|done..].
  assert (out !! p = None) as Ho.
  { apply not_elem_of_dom. intros Hd. by apply (i_extra _ _ _ _ Hinv p). }
  rewrite <- (delete_id out p Ho).
  eapply (inv_release _ _ _ _ p c (SendComm (set_s_conn_info NULL s)) l r Hinv1); try done.
  - intros c' Hc'. apply Hdrop in Hc' as [_ Hc']. by eapply Hns.
  - cbn. by rewrite lookup_insert_eq.
  - by left.
  - cbn. rewrite !insert_insert_eq, delete_id by done. f_equal. f_equal. unfold set_s_conn_info, set_s_inflight, set_s_fl. cbn.
    f_equal. apply (i_count _ _ _ _ Hinv _ _ Hs).
Qed.

End Contract3.

Section Contract4.
Context {E : SendrecvEnv} {F : FabricOk} {K : ConnOk}.

(** The message of a connection is written into its record. *)
Lemma inv_conn_msg w out extra c p tag s msg :
  sr_inv w out extra -> connecting w extra c p tag -> comms w !! c = Some (SendComm s) ->
  (connect_to_self msg = 1 -> ci_req msg = p) ->
  let w' := w_conn_infos <[s_conn_info s := msg]> w in sr_inv w' out extra /\ connecting w' extra c p tag.
Proof.
  intros Hinv [(s0 & ci & Hs0 & Hep & Htag & Hn & Hci & Hself) Hreq Hx Hk4] Hs Hmsg w'. pose proof Hinv as [].
  rewrite Hs in Hs0. injection Hs0 as <-.
  assert (forall c' s', c' <> c -> comms w !! c' = Some (SendComm s') -> s_conn_info s' <> NULL ->
    conn_infos w' !! s_conn_info s' = conn_infos w !! s_conn_info s') as Hother.
  { intros c' s' Hne Hs' Hn'. cbn. apply lookup_insert_ne. intros Heq. apply Hne. by eapply i_self_inj0; eauto. }
  assert (forall c' q, self_req w' c' q -> (c' = c /\ q = p) \/ (c' <> c /\ self_req w c' q)) as Hsr.
  { intros c' q (s' & ci' & Hs' & Hn' & Hci' & H1 & Hq). cbn in Hs'. destruct (decide (c' = c)) as [->|Hne].
    - left. rewrite Hs in Hs'. injection Hs' as <-. cbn in Hci'. rewrite lookup_insert_eq in Hci'. simplify_eq. auto.
    - right. split; [done|]. exists s', ci'. by rewrite <- (Hother c' s'). }
  split.
  - constructor; try done.
    + intros c' s' Hs' Hn'. cbn in Hs'. destruct (decide (c' = c)) as [->|Hne].
      * rewrite Hs in Hs'. injection Hs' as <-. exists msg. cbn. rewrite lookup_insert_eq. split; [done|]. intros H1. by rewrite Hmsg.
      * rewrite (Hother c' s') by done. by eapply i_self0.
    + intros c1 c2 q H1 H2. destruct (Hsr _ _ H1) as [[-> ->]|[N1 H1']], (Hsr _ _ H2) as [[-> Hq]|[N2 H2']]; try done.
      * symmetry. by apply Hk4.
      * subst q. by apply Hk4.
      * by eapply i_self_req0.
  - constructor; try done.
    + exists s, msg. cbn. rewrite lookup_insert_eq. by split_and!.
    + intros c' H'. destruct (Hsr _ _ H') as [[-> _]|[_ H'']]; [done|by apply Hk4].
Qed.

Lemma post_int_wp w op Q :
  (forall rc, rc <> 0 -> - 2 ^ 31 <= rc < 2 ^ 31 -> Q rc (w_hist (fun h => h ++ [EvOp op rc]) w)) ->
  Q 0 (w_posted (cons (op_posted op)) (w_hist (fun h => h ++ [EvOp op 0]) w)) -> wp (post op) Q w.
Proof.
  intros H1 H0. unfold post. wp_simpl. pose proof (op_code_int (hist w) op).
  destruct (Z.eqb_spec (op_code (hist w) op) 0) as [Heq|Hne]; wp_simpl; [|auto]. by rewrite Heq.
Qed.

(** [p] has not been handed to libfabric. *)
Definition unsent (w : world) (p : Z) : Prop :=
  p ∉ ctxs (posted w) /\ exists r, reqs w !! p = Some r /\ q_state r = NCCL_OFI_SENDRECV_REQ_CREATED.

(** The connection of [c] is ready once its message is in the record. *)
Definition ready (w : world) (out : gmap Z Z) (extra : gset Z) (c p tag : Z) : Prop :=
  exists s ci, comms w !! c = Some (SendComm s) /\ conn_infos w !! s_conn_info s = Some ci /\
    let w' := w_conn_infos <[s_conn_info s := mk_conn_info (ep_name ci) (ep_namelen ci) (connect_to_self ci)
                (if connect_to_self ci =? 1 then p else NULL)]> w in
    sr_inv w' out extra /\ connecting w' extra c p tag /\ unsent w' p.

Lemma ready_again w out extra c p tag :
  sr_inv w out extra -> connecting w extra c p tag -> unsent w p -> ready w out extra c p tag.
Proof.
  intros Hinv Hk Hun. destruct (k_comm _ _ _ _ _ Hk) as (s & ci & Hs & _ & _ & Hn & Hci & _).
  exists s, ci. split; [done|]. split; [done|]. cbn zeta. set (msg := mk_conn_info _ _ _ _).
  destruct (inv_conn_msg w out extra c p tag s msg Hinv Hk Hs); [cbn; by intros ->|done].
Qed.

Lemma send_connect_message_spec w out extra c p tag :
  ready w out extra c p tag ->
  wp (sendrecv_send_comm_send_connect_message c p)
    (fun rc w' => - 2 ^ 31 <= rc < 2 ^ 31 /\ sr_inv w' out extra /\ connecting w' extra c p tag /\
       (rc = - FI_EAGAIN -> unsent w' p)) w.
Proof.
  intros (s & ci & Hs & Hci & Hinv1 & Hk1 & Hpp & r & Hr & Hst).
  unfold sendrecv_send_comm_send_connect_message, get_send_comm. wp_simpl. eapply get_comm_wp; [exact Hs|].
  unfold get_conn_info. wp_simpl. eapply wp_of_option; [exact Hci|]. wp_simpl.
  set (w1 := w_conn_infos _ w) in *. set (op := fi_tsend_conn _ _ _ _ _). apply post_int_wp.
  - intros rc Hrc Hint. set (w2 := w_hist _ w1).
    assert (sr_inv w2 out extra /\ connecting w2 extra c p tag) as [Hinv2 Hk2].
    { split; [by apply hist_inv|by eapply connecting_frame]. }
    assert (forall w', advanced (ctxs (posted w)) w2 w' -> connecting w' extra c p tag /\ unsent w' p) as Hafter.
    { intros w' Ha. split; [by eapply connecting_advanced|]. split.
      - intros Hin. apply Hpp. apply list_elem_of_fmap in Hin as (q & -> & Hq). apply list_elem_of_fmap_2.
        by apply (a_posted _ _ _ Ha).
      - exists r. split; [|done]. destruct (a_reqs _ _ _ Ha p r Hr) as (? & ? & _ & Hsame). by apply Hsame. }
    destruct (Z.eqb_spec rc (- FI_EAGAIN)) as [->|Hne]; wp_simpl.
    + eapply wp_mono; [by eapply cq_process_conn|]. intros res w' (Hinv' & Ha & Hres). destruct (Hafter w' Ha) as [Hk' Hun].
      destruct (negb _); wp_simpl; done.
    + done.
  - cbn [Z.eqb]. change (0 =? - FI_EAGAIN) with false. wp_simpl. split; [lia|]. split_and!; [|by eapply connecting_frame|done].
    eapply (inv_post_extra w1 _ out extra (op_posted op) r Hinv1); try done. by apply (k_extra _ _ _ _ _ Hk1).
Qed.

Lemma connect_req_pending_spec w out extra h c p :
  sr_inv w out extra -> connecting w extra c p (h_comm_id h) -> st_stage (h_state h) = COMM_CONN_REQ_PENDING ->
  wp (connect_req_pending h c p) (connect_post out (h_comm_id h)) w.
Proof.
  intros Hinv Hk Hh. destruct (k_comm _ _ _ _ _ Hk) as (s & ci & Hs & Hep & Htag & Hn & Hci & _).
  unfold connect_req_pending. wp_simpl. unfold get_send_comm. wp_simpl. eapply get_comm_wp; [exact Hs|].
  unfold get_conn_info. wp_simpl. eapply wp_of_option; [exact Hci|]. wp_simpl.
  destruct (Z.eqb_spec (connect_to_self ci) 1) as [H1|H1].
  { eapply connect_finish_spec; try done. intros ci'. rewrite Hci. by intros [= <-]. }
  wp_simpl. eapply wp_mono; [by eapply cq_process_conn|]. intros rc w' (Hinv' & Ha & _).
  assert (connecting w' extra c p (h_comm_id h)) as Hk' by (by eapply connecting_advanced).
  destruct (k_req _ _ _ _ _ Hk') as (r & Hr & Hrc). pose proof (advanced_send _ _ _ _ _ Ha Hs) as Hs'.
  destruct (Z.eqb_spec rc 0) as [->|Hne]; cbn [negb]; wp_simpl; (eapply sr_get_req_wp; [exact Hr|]).
  - destruct (is_state NCCL_OFI_SENDRECV_REQ_COMPLETED r) eqn:Hd; cbn [negb].
    + eapply connect_finish_spec; try done. intros _ _ _ Hin. apply list_elem_of_fmap in Hin as (q & -> & Hq).
      destruct (i_posted_req _ _ _ _ Hinv' q Hq) as (r' & Hr' & Hst & _). rewrite Hr in Hr'. injection Hr' as <-.
      apply bool_decide_eq_true in Hd. congruence.
    + wp_simpl. intros _. cbn. rewrite Hh. split; [done|]. exists extra, s. split_and!; try done.
      unfold handle_ok. cbn. by rewrite Hh.
  - wp_simpl. apply wp_assert; [by apply Z.eqb_eq|]. eapply release_and_free_wp; try done.
Qed.

Lemma connect_send_conn_spec w out extra h c p :
  ready w out extra c p (h_comm_id h) -> st_stage (h_state h) = COMM_SEND_CONN ->
  wp (connect_send_conn h c p) (connect_post out (h_comm_id h)) w.
Proof.
  intros Hready Hh. unfold connect_send_conn. wp_simpl.
  eapply wp_mono; [by eapply send_connect_message_spec|]. intros rc w' (Hint & Hinv' & Hk' & Hun').
  destruct (Z.eqb_spec rc (- FI_EAGAIN)) as [->|Hne].
  { wp_simpl. intros _. cbn. rewrite Hh. split; [done|]. destruct (k_comm _ _ _ _ _ Hk') as (s & ci & Hs & Hep & Htag & _).
    exists extra, s. split_and!; try done. unfold handle_ok. cbn. rewrite Hh. by destruct (Hun' eq_refl). }
  destruct (Z.eqb_spec rc 0) as [->|Hn0]; cbn [negb].
  - by apply (connect_req_pending_spec w' out extra (set_h_stage COMM_CONN_REQ_PENDING h)).
  - eapply release_and_free_wp; try done. intros w2. wp_simpl. cbn. by rewrite i32_small.
Qed.

Lemma fresh_heap w a l : fresh_ok w -> heap w = a :: l -> a <> NULL -> comms w !! a = None /\ conn_infos w !! a = None.
Proof.
  intros (_ & _ & Hfr) Hh Ha. destruct (Hfr a) as (_ & ? & ? & _); [|done]. unfold fresh. rewrite Hh, filter_cons_True by done.
  by left.
Qed.

Lemma fresh_heap2 w a b l :
  fresh_ok w -> heap w = a :: b :: l -> a <> NULL -> b <> NULL -> comms w !! b = None /\ conn_infos w !! b = None.
Proof.
  intros (_ & _ & Hfr) Hh Ha Hb. destruct (Hfr b) as (_ & ? & ? & _); [|done].
  unfold fresh. rewrite Hh, !filter_cons_True by done. right. by left.
Qed.

Lemma fresh_pool w l ps :
  fresh_ok w -> pools w = Some l :: ps ->
  NoDup l /\ forall a, a ∈ l -> a <> NULL /\ reqs w !! a = None /\ forall c, a ∉ fl_at w c.
Proof.
  intros (Hnd & Hnull & Hfr) Hp. assert (fresh w = filter (fun p => p <> NULL) (heap w) ++ l ++ concat (omap id ps)) as Heq.
  { unfold fresh. by rewrite Hp. }
  rewrite Heq in *. apply NoDup_app in Hnd as (_ & _ & Hnd). apply NoDup_app in Hnd as (Hl & _). split; [done|].
  intros a Ha. assert (a ∈ filter (fun p => p <> NULL) (heap w) ++ l ++ concat (omap id ps)) as Hin.
  { apply elem_of_app. right. apply elem_of_app. by left. }
  destruct (Hfr a Hin) as (? & _ & _ & ?). split_and!; try done. by intros ->.
Qed.

End Contract4.

Section Contract5.
Context {E : SendrecvEnv} {F : FabricOk} {K : ConnOk}.

Lemma calloc_wp w Q :
  (forall h', heap w = NULL :: h' -> Q NULL (w_heap (fun _ => h') w)) -> (heap w = [] -> Q NULL w) ->
  (forall a h', heap w = a :: h' -> a <> NULL -> Q a (w_heap (fun _ => h') w)) -> wp calloc Q w.
Proof.
  intros H1 H2 H3. unfold calloc. wp_simpl. destruct (heap w) as [|a h']; wp_simpl; [by apply H2|].
  destruct (decide (a = NULL)) as [->|]; [by apply H1|by apply H3].
Qed.

(** The first stage: an error, or a communicator with its request. *)
Lemma connect_start_spec w out extra h (k : Z -> Z -> M (Z * nccl_net_ofi_conn_handle_t * option Z)) Q :
  sr_inv w out extra -> fresh_ok w -> (forall rc w', rc <> 0 -> Q (rc, h, None) w') ->
  (forall c p w', ready w' out ({[p]} ∪ extra) c p (h_comm_id h) -> wp (k c p) Q w') ->
  wp (let* (rc, c) := sendrecv_send_comm_create h in
      if negb (rc =? 0) || (c =? NULL) then ret (rc, h, None)
      else
        let* p := sendrecv_send_comm_prepare_send_req c in
        if p =? NULL then free_comm c ;;; ret (- ENOMEM, h, None) else k c p) Q w.
Proof.
  intros Hinv Hf Herr Hk. unfold sendrecv_send_comm_create. wp_simpl.
  rewrite (proj2 (Z.eqb_neq _ _) (i_device _ _ _ _ Hinv)).
  destruct (_ || _); wp_simpl; [by apply Herr|]. unfold fi_av_insert. wp_simpl.
  destruct (av_insert _ _) as [n remote]. destruct (negb _); wp_simpl; [by apply Herr|].
  apply calloc_wp; cbn [heap w_hist]; [intros; wp_simpl; by apply Herr..|]. intros c hp1 Hh1 Hc.
  rewrite (proj2 (Z.eqb_neq _ _) Hc). wp_simpl.
  apply calloc_wp; cbn [heap w_hist w_heap]; [intros; wp_simpl; by apply Herr..|]. intros ci hp2 Hh2 Hci.
  rewrite (proj2 (Z.eqb_neq _ _) Hci). unfold fi_getname. wp_simpl. destruct (getname _) as [rc name]. wp_simpl.
  destruct (Z.eqb_spec rc 0) as [->|Hrc]; cbn [negb]; wp_simpl.
  2: { rewrite (proj2 (Z.eqb_neq _ _) Hrc). cbn [negb orb]. wp_simpl. by apply Herr. }
  unfold nccl_ofi_freelist_init. wp_simpl. cbn [pools w_conn_infos w_hist w_heap].
  destruct (pools w) as [|[l|] ps] eqn:Hp; wp_simpl; [by apply Herr| |by apply Herr].
  unfold put_comm. wp_simpl. rewrite (proj2 (Z.eqb_neq _ _) Hc). cbn [Z.eqb negb orb].
  unfold sendrecv_send_comm_prepare_send_req, get_send_comm. wp_simpl.
  eapply get_comm_wp; [cbn; by rewrite lookup_insert_eq|]. wp_simpl. cbn [s_reqs_fl]. unfold sendrecv_allocate_req.
  destruct (fresh_pool w l ps Hf Hp) as [Hnd Hl]. destruct l as [|p l].
  { do 2 (wp_simpl; change (NULL =? NULL) with true). unfold free_comm. wp_simpl. eapply get_comm_wp; [cbn; by rewrite lookup_insert_eq|]. wp_simpl. by apply Herr. }
  destruct (Hl p) as (Hpn & Hpr & _); [by left|].
  unfold put_comm, put_req. do 2 (wp_simpl; rewrite (proj2 (Z.eqb_neq _ _) Hpn)). wp_simpl.
  eapply sr_upd_req_wp; [cbn; by rewrite lookup_insert_eq|]. wp_simpl. rewrite (proj2 (Z.eqb_neq _ _) Hpn).
  destruct (fresh_heap w c _ Hf Hh1 Hc) as [Hcf _]. subst hp1.
  destruct (fresh_heap2 w c ci hp2 Hf Hh1 Hc Hci) as [_ Hcif].
  match goal with |- wp _ _ ?w2 => set (w1 := w2) end.
  match goal with w1 := context [set_s_fl _ ?s0] |- _ => set (s := set_s_fl (Some l) s0) in w1 end.
  match goal with w1 := context [<[ci := ?m]>] |- _ => set (ci0 := m) in w1 end.
  apply Hk. exists s, ci0. split; [cbn; by rewrite lookup_insert_eq|]. split; [cbn; by rewrite lookup_insert_eq|].
  cbn zeta. set (w2 := w_conn_infos _ w1). set (msg := mk_conn_info _ _ _ _) in w2.
  destruct (inv_new_send w w2 out extra c ci p l (default zero_req (reqs w2 !! p)) s msg) as (H1 & H2 & H3); try done.
  all: cbn; rewrite ?lookup_insert_eq, ?insert_insert_eq; try done.
  { by intros ->. }
  split; [done|]. split; [done|]. split; [done|]. eexists. cbn. rewrite lookup_insert_eq. done.
Qed.

(** C29. connect() of the send/receive transport keeps the contract of
    nccl_ofi.h: from any stage a handle can be in, and whatever libfabric and the
    allocators answer, the call runs without undefined behaviour. It returns a
    connected communicator with code 0, or an error, or code 0 and no
    communicator; then the stage is not COMM_CREATE_START and the handle holds a
    communicator on this endpoint from which the next call can go on. *)
Theorem sendrecv_connect_contract w out extra h :
  sr_inv w out extra -> fresh_ok w -> handle_ok w extra h ->
  exists rc h' oc w', sendrecv_endpoint_connect h w = Some (rc, h', oc, w') /\
    match oc with
    | Some c => rc = 0 /\ st_stage (h_state h') = COMM_CONNECTED /\
        exists extra' s, sr_inv w' out extra' /\ comms w' !! c = Some (SendComm s) /\ s_ep s = ep_ptr /\
          s_tag s = h_comm_id h
    | None => rc = 0 -> st_stage (h_state h') <> COMM_CREATE_START /\
        exists extra' s, sr_inv w' out extra' /\ handle_ok w' extra' h' /\
          comms w' !! st_comm (h_state h') = Some (SendComm s) /\ s_ep s = ep_ptr /\ s_tag s = h_comm_id h
    end.
Proof.
  intros Hinv Hf Hh. assert (wp (sendrecv_endpoint_connect h) (connect_post out (h_comm_id h)) w) as Hwp.
  { unfold sendrecv_endpoint_connect. wp_simpl. rewrite (proj2 (Z.eqb_neq _ _) (i_device _ _ _ _ Hinv)).
    unfold handle_ok in Hh. destruct (st_stage (h_state h)) eqn:Hst.
    - wp_simpl. apply wp_assert; [by apply Z.eqb_eq|]. eapply connect_start_spec; try done.
      intros c p w' ?. by apply (connect_send_conn_spec w' out ({[p]} ∪ extra) (set_h_stage COMM_SEND_CONN h)).
    - destruct Hh as (? & ?). eapply connect_send_conn_spec; [by apply ready_again|done].
    - by wp_simpl.
    - by eapply connect_req_pending_spec.
    - by wp_simpl.
    - by wp_simpl. }
  apply wp_run in Hwp as ([[rc h'] oc] & w' & Hrun & Hpost). exists rc, h', oc, w'. by split.
Qed.

End Contract5.

Lemma prompt_conn_ok : @ConnOk prompt_env.
Proof.
  constructor.
  - intros h op. cbn. lia.
  - intros h [|q qs] rc; cbn; by intros [].
  - done.
Qed.

(** A world with memory for one connection, and a handle of a listener. *)
Definition idle_world : world := mk_world ∅ ∅ ∅ ∅ 1 7 1 [40; 50] [Some [100; 200]] [] [].
Definition peer_handle : nccl_net_ofi_conn_handle_t := mk_handle [192; 168; 0; 2] 8 zero_state.

Lemma idle_inv : @sr_inv_todo prompt_env idle_world ∅ ∅ [].
Proof.
  constructor; try done; try (intros *; by rewrite ?lookup_empty).
  - constructor.
  - intros q Hq. by apply elem_of_nil in Hq.
  - intros c. unfold fl_at. cbn. constructor.
  - intros c e He. by apply elem_of_nil in He.
  - intros c1 c2 e He. by apply elem_of_nil in He.
  - by intros c1 c2 p (s & ci & Hs & _).
Qed.

Lemma idle_fresh : fresh_ok idle_world.
Proof.
  split; [apply (bool_decide_unpack _); by vm_compute|]. split; [apply (bool_decide_unpack _); by vm_compute|].
  intros a Ha. split_and!; try done. intros c. unfold fl_at. apply not_elem_of_nil.
Qed.

Lemma sendrecv_connect_contract_witness :
  exists h' w' s, @sendrecv_endpoint_connect prompt_env peer_handle idle_world = Some (0, h', Some 40, w') /\
    comms w' !! 40 = Some (SendComm s) /\ s_tag s = 8.
Proof.
  destruct (@sendrecv_connect_contract prompt_env prompt_ok prompt_conn_ok idle_world ∅ ∅ peer_handle idle_inv idle_fresh
    eq_refl) as (rc & h' & oc & w' & Hrun & Hpost).
  assert (option_map (fun r => (r.1.1.1, r.1.2)) (@sendrecv_endpoint_connect prompt_env peer_handle idle_world) = Some (0, Some 40)) as Hv
    by (vm_compute; reflexivity).
  rewrite Hrun in Hv. cbn in Hv. injection Hv as -> ->. destruct Hpost as (_ & _ & extra' & s & _ & Hs & _ & Ht).
  exists h', w', s. split; [exact Hrun|]. split; [exact Hs|exact Ht].
Defined.

(** ** listen *)

Section Listen.
Context {E : SendrecvEnv}.

(** listen: with memory for the name, the call runs to its end. On success
    the communicator gets the next tag of the endpoint, the handle carries the
    same tag as long as it fits 32 bits, and the handle can start a connect;
    every successful or failed attempt past the tag check uses up a tag, so two
    listeners never share one. *)
Theorem listen_hands_out_tag w h0 a hp :
  ep_device w <> NULL -> 0 <= ep_tag w < 2 ^ 32 - 1 -> heap w = a :: hp -> a <> NULL ->
  exists rc h oc w', sendrecv_endpoint_listen h0 w = Some (rc, h, oc, w') /\
    match oc with
    | Some l => rc = 0 /\ ep_tag w' = ep_tag w + 1 /\ h_state h = zero_state /\
        exists lc, comms w' = <[l := ListenComm lc]> (comms w) /\ l <> NULL /\ l_tag lc = h_comm_id h /\
          h_comm_id h = ep_tag w' /\ h_comm_id h < max_tag /\ l_ep lc = ep_ptr /\ l_accepted lc = false
    | None => rc < 0 /\ comms w' = comms w /\ (ep_tag w' = ep_tag w /\ rc = - ENOSPC \/ ep_tag w' = ep_tag w + 1)
    end.
Proof.
  intros Hd Ht Hh Ha. assert (u64 (ep_tag w + 1) = ep_tag w + 1) as Hu by (apply wrap_small; lia).
  assert (u32 (ep_tag w + 1) = ep_tag w + 1) as Hu32 by (apply wrap_small; lia).
  set (Q := fun (r : Z * nccl_net_ofi_conn_handle_t * option Z) (w' : world) =>
    let '(rc, h, oc) := r in match oc with
    | Some l => rc = 0 /\ ep_tag w' = ep_tag w + 1 /\ h_state h = zero_state /\
        exists lc, comms w' = <[l := ListenComm lc]> (comms w) /\ l <> NULL /\ l_tag lc = h_comm_id h /\
          h_comm_id h = ep_tag w' /\ h_comm_id h < max_tag /\ l_ep lc = ep_ptr /\ l_accepted lc = false
    | None => rc < 0 /\ comms w' = comms w /\ (ep_tag w' = ep_tag w /\ rc = - ENOSPC \/ ep_tag w' = ep_tag w + 1)
    end).
  assert (wp (sendrecv_endpoint_listen h0) Q w) as Hwp.
  { unfold sendrecv_endpoint_listen. wp_simpl. rewrite (proj2 (Z.eqb_neq _ _) Hd). wp_simpl.
    rewrite Hu. destruct (Z.geb_spec (ep_tag w + 1) max_tag) as [Hge|Hlt]; wp_simpl; [split_and!; [done|done|by left]|].
    unfold sendrecv_get_local_address. wp_simpl. apply calloc_wp; cbn [heap w_ep]; rewrite Hh; [congruence|done|].
    intros a' hp' [= <- <-] _. wp_simpl. apply wp_assert; [by apply negb_true_iff, Z.eqb_neq|]. unfold fi_getname. wp_simpl.
    destruct (getname _) as [rc name]. wp_simpl. destruct (negb _); wp_simpl; [split_and!; [done|done|by right]|].
    unfold fi_av_insert. wp_simpl. destruct (av_insert _ _) as [n addr]. destruct (negb _); wp_simpl; [split_and!; [done|done|by right]|].
    apply calloc_wp; [intros; wp_simpl; split_and!; [done|done|by right]..|]. intros c hp2 _ Hc.
    rewrite (proj2 (Z.eqb_neq _ _) Hc). unfold put_comm. wp_simpl. cbn. rewrite Hu, Hu32. split_and!; try done.
    eexists. by split_and!. }
  apply wp_run in Hwp as ([[rc h] oc] & w' & Hrun & HQ). by exists rc, h, oc, w'.
Qed.

End Listen.

Lemma listen_hands_out_tag_witness :
  exists h w' lc, @sendrecv_endpoint_listen prompt_env zero_handle idle_world = Some (0, h, Some 50, w') /\
    comms w' !! 50 = Some (ListenComm lc) /\ l_tag lc = 8 /\ h_comm_id h = 8.
Proof.
  destruct (@listen_hands_out_tag prompt_env idle_world zero_handle 40 [50]) as (rc & h & oc & w' & Hrun & Hpost);
    [discriminate|vm_compute; split; [discriminate|reflexivity]|reflexivity|discriminate|].
  assert (option_map (fun r => (r.1.1.1, r.1.2)) (@sendrecv_endpoint_listen prompt_env zero_handle idle_world) = Some (0, Some 50)) as Hv
    by (vm_compute; reflexivity).
  rewrite Hrun in Hv. cbn in Hv. injection Hv as -> ->. destruct Hpost as (_ & Ht & _ & lc & Hc & _ & Hl & Hid & _).
  exists h, w', lc. split; [exact Hrun|]. rewrite Hc, Hl, Hid, Ht. split; [|split; reflexivity].
  change (<[50 := ListenComm lc]> (∅ : gmap Z nccl_net_ofi_comm_t) !! 50 = Some (ListenComm lc)). apply lookup_insert_eq.
Defined.

End SendrecvConn.
