(* ===== verification/SendrecvEp.v ===== *)
(** * nccl_ofi_sendrecv.c: life cycle of devices and endpoints

    Creation and release of an endpoint of the send/receive transport and of its
    device, over the libfabric objects of OfiRes.v and the base device of Net.v. The
    tag space of a device is in SendrecvConn.v. *)

From S2P Require Import Prelude StateM NetTypes Net OfiRes SendrecvConn.
Import OfiRes.

Module SendrecvEp.

Open Scope Z_scope.

(** The libfabric objects of an endpoint. *)
Record sr_ep := mk_sr_ep { sr_domain : Z; sr_ofi_ep : Z; sr_av : Z; sr_cq : Z; sr_tag : Z }.
Definition zero_sr_ep : sr_ep := mk_sr_ep NULL NULL NULL NULL 0.

(** What the transport adds to a device: the libfabric objects, the fabric, the
    domain and the fi_info of the device (of which the traffic class is kept), and
    the endpoints. *)
Record sworld := mk_sworld {
  sres : rworld;
  dev_fabric : Z;
  dev_domain : Z;
  dev_tclass : Z;
  sreps : gmap Z sr_ep;
  snext : Z;
}.
Definition w_sres f w := mk_sworld (f (sres w)) (dev_fabric w) (dev_domain w) (dev_tclass w) (sreps w) (snext w).
Definition w_fabric f w := mk_sworld (sres w) f (dev_domain w) (dev_tclass w) (sreps w) (snext w).
Definition w_domain d w := mk_sworld (sres w) (dev_fabric w) d (dev_tclass w) (sreps w) (snext w).
Definition w_sreps f w := mk_sworld (sres w) (dev_fabric w) (dev_domain w) (dev_tclass w) (f (sreps w)) (snext w).
Definition w_snext f w := mk_sworld (sres w) (dev_fabric w) (dev_domain w) (dev_tclass w) (sreps w) (f (snext w)).

Abbreviation D := (SM (Net.device sworld)).

Section Endpoint.
Context {E : OfiEnv} (domain_per_thread : bool).

Definition lift_res {A} (m : R A) : D A := fun d =>
  match m (sres (Net.transport d)) with
  | Some (a, r) => Some (a, Net.w_transport (w_sres (fun _ => r)) d)
  | None => None
  end.

Definition get_srep (p : Z) : D sr_ep := let* t := gets Net.transport in of_option (sreps t !! p).
Definition put_srep (p : Z) (e : sr_ep) : D unit := modify (Net.w_transport (w_sreps <[p := e]>)).
(** free(ep) *)
Definition free_srep (p : Z) : D unit := modify (Net.w_transport (w_sreps (delete p))) ;;; modify (Net.w_endpoints (delete p)).

Definition nccl_net_ofi_sendrecv_endpoint_free (p : Z) : D Z :=
  let* ep := get_srep p in
  lift_res (nccl_ofi_ofiutils_ep_release (sr_ofi_ep ep) (sr_av ep) (sr_cq ep)) ;;;
  put_srep p (mk_sr_ep (sr_domain ep) NULL NULL NULL (sr_tag ep)) ;;;
  free_srep p ;;;
  ret 0.

Definition nccl_net_ofi_sendrecv_device_create_endpoint : D (Z * Z) :=
  let* rc := lift_res (fi_do Calloc) in
  if negb (rc =? 0) then ret (- ENOMEM, NULL)
  else
    let* t := gets Net.transport in
    let p := snext t in
    modify (Net.w_transport (w_snext (fun n => n + 1))) ;;;
    put_srep p zero_sr_ep ;;;
    Net.nccl_net_ofi_endpoint_init p ;;;
    let* (rc, domain) :=
      if domain_per_thread then lift_res (fi_open (FiDomain (dev_fabric t)) (FidDomain (dev_fabric t)) NULL)
      else ret (0, dev_domain t) in
    if negb (rc =? 0) then free_srep p ;;; ret (rc, NULL)
    else
      let* (rc, ep, av, cq) := lift_res (nccl_ofi_ofiutils_init_connection (dev_tclass t) domain NULL NULL NULL) in
      put_srep p (mk_sr_ep domain ep av cq 0) ;;;
      ret (rc, p).

End Endpoint.

(** ** Devices *)

(** What is left of a device: the fi_info, the fabric and the domain. *)
Record sr_device := mk_sr_device { sd_info : bool; sd_fabric : Z; sd_domain : Z; sd_max_tag : Z }.

Section Device.
Context {E : OfiEnv} (domain_per_thread : bool).

(** The label error of prepare_for_connection. *)
Definition prepare_error (dev : sr_device) (rc : Z) : R (Z * sr_device) :=
  close_some (sd_domain dev) ;;; close_some (sd_fabric dev) ;;; ret (rc, dev).

Definition sendrecv_device_prepare_for_connection (mem_tag_format : Z) (dev : sr_device) : R (Z * sr_device) :=
  let* (rc, max_tag) := of_option (SendrecvConn.prepare_max_tag mem_tag_format) in
  if negb (rc =? 0) then ret (rc, dev)
  else
    let* (rc, fabric) := fi_open FiFabric FidFabric (sd_fabric dev) in
    let dev := mk_sr_device (sd_info dev) fabric (sd_domain dev) max_tag in
    if negb (rc =? 0) then prepare_error dev rc
    else if domain_per_thread then ret (rc, dev)
    else
      let* (rc, domain) := fi_open (FiDomain fabric) (FidDomain fabric) (sd_domain dev) in
      let dev := mk_sr_device (sd_info dev) fabric domain max_tag in
      if negb (rc =? 0) then prepare_error dev rc else ret (rc, dev).

(** The fabric and the domain stay as they are. *)
Definition nccl_net_ofi_sendrecv_device_release (dev : sr_device) : R Z :=
  (if sd_info dev then fi_do FiFreeinfo ;;; ret tt else ret tt) ;;;
  fi_do DeviceFini ;;;
  ret 0.

Definition nccl_net_ofi_sendrecv_device_create (mem_tag_format : Z) : R (option sr_device) :=
  let* rc := fi_do Calloc in
  if negb (rc =? 0) then ret None
  else
    let* rc := fi_do DeviceInit in
    if negb (rc =? 0) then ret None
    else
      let dev := mk_sr_device false NULL NULL 0 in
      let* rc := fi_do FiDupinfo in
      if negb (rc =? 0) then nccl_net_ofi_sendrecv_device_release dev ;;; ret None
      else
        let* (rc, dev) := sendrecv_device_prepare_for_connection mem_tag_format (mk_sr_device true NULL NULL 0) in
        if negb (rc =? 0) then nccl_net_ofi_sendrecv_device_release dev ;;; ret None
        else ret (Some dev).

End Device.

(** ** Endpoints and their objects *)

Definition sr_handles (e : sr_ep) : list Z := handles [sr_ofi_ep e; sr_av e; sr_cq e].

(** A device between two steps: the objects that are open are the [base] ones and
    those of its endpoints. *)
Record sr_inv (base : gmap Z fid) (d : Net.device sworld) : Prop := {
  si_dom : dom (sreps (Net.transport d)) = dom (Net.endpoints d);
  si_next p : p ∈ dom (Net.endpoints d) -> p < snext (Net.transport d);
  si_objects : grew (owned sr_handles (sreps (Net.transport d))) (base_world base) (sres (Net.transport d));
}.

Section Provider.
Context {E : OfiEnv} {CO : CloseOk} (base : gmap Z fid).

Lemma sr_lift_wp {T} (d : Net.device sworld) (m : R T) (Q : T -> Net.device sworld -> Prop) :
  wp m (fun a r => Q a (Net.w_transport (w_sres (fun _ => r)) d)) (sres (Net.transport d)) -> wp (lift_res m) Q d.
Proof. unfold wp, lift_res. by destruct (m _) as [[a r]|]. Qed.

Lemma get_srep_wp (d : Net.device sworld) p e (Q : sr_ep -> Net.device sworld -> Prop) :
  sreps (Net.transport d) !! p = Some e -> Q e d -> wp (get_srep p) Q d.
Proof. intros H HQ. unfold get_srep. wp_simpl. by eapply wp_of_option. Qed.

Lemma sr_endpoint_free_wp d p e :
  sr_inv base d -> Net.endpoints d !! p = Some e ->
  wp (nccl_net_ofi_sendrecv_endpoint_free p) (fun rc d' => rc = 0 /\ sr_inv base d' /\ Net.device_lock d' = Net.device_lock d /\
    Net.endpoint_table d' = Net.endpoint_table d /\ Net.endpoints d' = delete p (Net.endpoints d)) d.
Proof using CO.
  intros [Hdom Hnext Hobj] Hp.
  assert (exists ep, sreps (Net.transport d) !! p = Some ep) as [ep Hep] by (apply elem_of_dom; rewrite Hdom; by apply elem_of_dom).
  eapply grew_perm in Hobj; [|etrans; [by eapply owned_delete|apply Permutation_app_comm]]. apply grew_split in Hobj as (w1 & Hg1 & Hg2).
  unfold nccl_net_ofi_sendrecv_endpoint_free. wp_simpl. eapply get_srep_wp; [done|]. wp_simpl. apply sr_lift_wp.
  apply ep_release_wp; [apply Hg2|apply Hg2|intros q Hq; by apply (gr_new _ _ _ Hg2)|]. intros w2 Hs. unfold put_srep, free_srep. wp_simpl. cbn.
  split_and!; try done. constructor; cbn; rewrite ?delete_insert_eq, ?dom_delete_L; [by rewrite Hdom| |].
  - intros q [Hq _]%elem_of_difference. by apply Hnext.
  - eapply grew_same; [exact Hg1|apply Hs|]. by eapply grew_shrunk.
Qed.

(** A new endpoint with the objects that were opened for it. *)
Lemma sr_inv_insert d d' p e w' :
  sr_inv base d -> Net.endpoints d !! p = None -> p < snext (Net.transport d') -> snext (Net.transport d) <= snext (Net.transport d') ->
  sreps (Net.transport d') = <[p := e]> (sreps (Net.transport d)) -> dom (Net.endpoints d') = dom (<[p := Net.mk_ep 0 0]> (Net.endpoints d)) ->
  sres (Net.transport d') = w' -> grew (sr_handles e) (sres (Net.transport d)) w' -> sr_inv base d'.
Proof.
  intros [Hdom Hnext Hobj] Hp Hlt Hle Hr He Hw Hg. constructor; rewrite ?Hr, ?He, ?Hw.
  - by rewrite !dom_insert_L, Hdom.
  - intros q. rewrite dom_insert_L, elem_of_union, elem_of_singleton. intros [->|Hq]; [done|]. specialize (Hnext _ Hq). lia.
  - eapply grew_perm; [symmetry; etrans; [apply owned_insert|apply Permutation_app_comm]|by eapply grew_trans].
    apply not_elem_of_dom. rewrite Hdom. by apply not_elem_of_dom.
Qed.

Lemma grew_connection ep av cq dom w w1 :
  NULL ∉ [ep; av; cq] -> NoDup [ep; av; cq] -> opened w !! ep = None -> opened w !! av = None -> opened w !! cq = None -> fids_ok w1 ->
  opened w1 = <[av := FidAv dom]> (<[ep := FidEp dom]> (<[cq := FidCq dom]> (opened w))) -> grew [ep; av; cq] w w1.
Proof.
  intros Hn Hnd H1 H2 H3 Hw1 Ho. constructor; try done.
  - intros p Hp. rewrite Ho. rewrite !elem_of_cons, elem_of_nil in Hp. rewrite !lookup_insert. destruct Hp as [->|[->|[->|[]]]]; split; try done; by repeat case_decide.
  - intros p Hp. rewrite Ho. rewrite !not_elem_of_cons in Hp. destruct Hp as (? & ? & ? & _). by rewrite !lookup_insert_ne by done.
Qed.

Lemma sr_create_endpoint_wp d :
  sr_inv base d ->
  wp (nccl_net_ofi_sendrecv_device_create_endpoint false) (fun r d' => sr_inv base d' /\ Net.device_lock d' = Net.device_lock d /\
    Net.endpoint_table d' = Net.endpoint_table d /\
    if r.1 =? 0 then Net.endpoints d !! r.2 = None /\ Net.endpoints d' = <[r.2 := Net.mk_ep 0 0]> (Net.endpoints d)
    else Net.endpoints d' = Net.endpoints d \/ Net.endpoints d !! r.2 = None /\ Net.endpoints d' = <[r.2 := Net.mk_ep 0 0]> (Net.endpoints d)) d.
Proof using CO.
  intros Hinv. unfold nccl_net_ofi_sendrecv_device_create_endpoint, Net.nccl_net_ofi_endpoint_init, Net.put_base, put_srep.
  wp_simpl. apply sr_lift_wp, fi_do_wp. intros rc. destruct (rc =? 0); cbn [negb].
  2: { wp_simpl. change (- ENOMEM =? 0) with false. split_and!; try done; [|by left]. destruct Hinv as [H1 H2 H3]. constructor; try done. by eapply grew_same; [exact H3|apply H3|]. }
  wp_simpl. cbn [Z.eqb negb]. wp_simpl. apply sr_lift_wp. cbn.
  assert (Net.endpoints d !! snext (Net.transport d) = None) as Hnew by (apply not_elem_of_dom; intros H; pose proof (si_next _ _ Hinv _ H); lia).
  pose proof (si_objects _ _ Hinv) as Hobj. apply init_connection_wp; [apply Hobj|done| |].
  - intros rc1 w1 Hrc Hw1 Ho1. wp_simpl. cbn. rewrite (proj2 (Z.eqb_neq _ _) Hrc). split_and!; try done; [|right; done].
    eapply (sr_inv_insert d _ (snext (Net.transport d)) (mk_sr_ep (dev_domain (Net.transport d)) NULL NULL NULL 0) w1); cbn; try done; try lia.
    + by rewrite insert_insert_eq.
    + apply grew_nil; [done|]. rewrite Ho1. cbn. apply delete_id. by apply null_not_open, Hobj.
  - intros ep av cq w1 Hn Hnd H1 H2 H3 Hw1 Ho1. cbn in H1, H2, H3, Ho1. wp_simpl. cbn. split_and!; try done.
    assert (grew (sr_handles (mk_sr_ep (dev_domain (Net.transport d)) ep av cq 0)) (sres (Net.transport d)) w1) as Hg.
    { unfold sr_handles. cbn [sr_ofi_ep sr_av sr_cq]. rewrite handles_all by done. eapply grew_connection; done. }
    eapply sr_inv_insert; [exact Hinv|exact Hnew|cbn; lia|cbn; lia|cbn; by rewrite insert_insert_eq|done|done|exact Hg].
Qed.

(** The device of Net.v over the send/receive transport. *)
Lemma sendrecv_ep_provider :
  Net.EpProvider (nccl_net_ofi_sendrecv_device_create_endpoint false) nccl_net_ofi_sendrecv_endpoint_free (sr_inv base).
Proof using CO.
  constructor.
  - intros d Hinv Hl. eapply wp_mono; [by apply sr_create_endpoint_wp|]. intros r d' (? & ? & ? & ?). split_and!; congruence || done.
  - intros d p e Hinv Hl Hp _. eapply wp_mono; [by eapply sr_endpoint_free_wp|]. intros rc d' (-> & ? & ? & ? & ?). cbn. split_and!; congruence || done.
  - intros d d' Ht Hd [H1 H2 H3]. constructor; rewrite ?Ht, ?Hd; done.
Qed.

(** With one domain per process, whatever libfabric answers to the calls other
    than those that close: threads can get and release the endpoint of a device of
    the send/receive transport in any order and every call returns; when all of them
    returned 0 and nobody holds an endpoint, no endpoint is in memory and exactly the
    libfabric objects are open that were open at the start. *)
Theorem sendrecv_endpoints_leak_nothing d ops :
  sr_inv base d -> Net.refs_rel 0 ∅ d ∅ -> Z.of_nat (length ops) < 2 ^ 31 ->
  exists ok R d', Net.run_thread_ops (nccl_net_ofi_sendrecv_device_create_endpoint false) nccl_net_ofi_sendrecv_endpoint_free ops ∅ d = Some ((ok, R), d') /\
    sr_inv base d' /\ (ok = true -> R = ∅ -> Net.endpoints d' = ∅ /\ opened (sres (Net.transport d')) = base).
Proof using CO.
  intros Hinv Hrel Hlen. pose proof sendrecv_ep_provider as EP.
  pose proof (Net.run_thread_ops_wp _ _ (sr_inv base) ops ∅ d 0 ∅ Hinv Hrel ltac:(lia) ltac:(lia)) as Hwp.
  apply wp_run in Hwp as ([ok R] & d' & Hrun & Hinv' & S & Hrel' & HS). exists ok, R, d'. split_and!; [done|done|]. intros -> ->. cbn [fst snd] in *. rewrite (HS eq_refl) in Hrel'.
  pose proof (Net.no_refs_no_endpoints _ _ Hrel') as He. split; [done|]. destruct Hinv' as [Hdom _ Hobj].
  rewrite He, dom_empty_L in Hdom. apply dom_empty_inv_L in Hdom. rewrite Hdom in Hobj. exact (owned_none _ _ _ Hobj).
Qed.
End Provider.

(** ** Device objects *)

Section DeviceObjects.
Context {E : OfiEnv} {CO : CloseOk} (domain_per_thread : bool).

Lemma device_release_wp dev w (Q : Z -> rworld -> Prop) :
  (forall w', opened w' = opened w -> (fids_ok w -> fids_ok w') -> Q 0 w') -> wp (nccl_net_ofi_sendrecv_device_release dev) Q w.
Proof.
  intros HQ. unfold nccl_net_ofi_sendrecv_device_release. destruct (sd_info dev); wp_simpl.
  - apply fi_do_wp. intros ?. wp_simpl. apply fi_do_wp. intros ?. wp_simpl. by apply HQ.
  - apply fi_do_wp. intros ?. wp_simpl. by apply HQ.
Qed.

(** The fabric and, with one domain per process, the domain are open, or nothing is. *)
Lemma prepare_for_connection_wp w fmt :
  fids_ok w -> 0 <= fmt < 2 ^ 64 ->
  wp (sendrecv_device_prepare_for_connection domain_per_thread fmt (mk_sr_device true NULL NULL 0)) (fun r w' => fids_ok w' /\
    if r.1 =? 0 then
      opened w !! sd_fabric r.2 = None /\ sd_fabric r.2 <> NULL /\
      if domain_per_thread then sd_domain r.2 = NULL /\ opened w' = <[sd_fabric r.2 := FidFabric]> (opened w)
      else sd_domain r.2 <> sd_fabric r.2 /\ opened w !! sd_domain r.2 = None /\
        opened w' = <[sd_domain r.2 := FidDomain (sd_fabric r.2)]> (<[sd_fabric r.2 := FidFabric]> (opened w))
    else opened w' = opened w) w.
Proof using CO.
  intros Hw Hf. unfold sendrecv_device_prepare_for_connection. destruct (SendrecvConn.prepare_total fmt Hf) as (rc & max & Hmax). wp_simpl.
  eapply wp_of_option; [exact Hmax|]. cbn beta iota. destruct (Z.eqb_spec rc 0) as [->|Hrc]; cbn [negb].
  2: { wp_simpl. split; [done|]. cbn [fst snd]. by rewrite (proj2 (Z.eqb_neq _ _) Hrc). }
  wp_simpl. apply fi_open_wp; [done| |].
  - intros rc w1 Hrc Hw1 Ho1 _. rewrite (proj2 (Z.eqb_neq _ _) Hrc). cbn [negb]. unfold prepare_error, close_some. cbn [sd_domain sd_fabric Z.eqb NULL negb]. wp_simpl.
    split; [done|]. cbn [fst snd]. by rewrite (proj2 (Z.eqb_neq _ _) Hrc).
  - intros f w1 Hf1 Hfn _ Hw1 Ho1. cbn [Z.eqb negb sd_info sd_domain]. destruct domain_per_thread; wp_simpl; [cbn; by split_and!|]. apply fi_open_wp; [done| |].
    + intros rc w2 Hrc Hw2 Ho2 _. rewrite (proj2 (Z.eqb_neq _ _) Hrc). cbn [negb]. unfold prepare_error. cbn [sd_domain sd_fabric]. wp_simpl.
      apply close_some_wp; [done|done|]. intros w3 Hw3 Ho3. wp_simpl. rewrite Ho2, delete_id in Ho3 by (rewrite <- Ho2; by apply null_not_open).
      apply close_some_wp; [done|intros _; rewrite Ho3, Ho1, lookup_insert_eq; done|]. intros w4 Hw4 Ho4. wp_simpl. split; [done|]. cbn [fst snd].
      rewrite (proj2 (Z.eqb_neq _ _) Hrc). rewrite Ho4, Ho3, Ho1. by apply delete_insert_id.
    + intros dm w2 Hd1 Hdn _ Hw2 Ho2. cbn [Z.eqb negb]. wp_simpl. split; [done|]. cbn [fst snd Z.eqb sd_fabric sd_domain].
      rewrite Ho1 in Hd1. apply lookup_insert_None in Hd1 as [Hd1 Hne]. split_and!; try done; try by apply not_eq_sym. by rewrite Ho2, Ho1.
Qed.

(** Creation of a device of the send/receive transport fails without leaving a
    libfabric object behind. When it succeeds, the device has a fabric and, with one
    domain per process, a domain, and its release closes neither of them: they stay
    open. *)
Theorem sendrecv_device_leaks_its_domain w fmt :
  fids_ok w -> 0 <= fmt < 2 ^ 64 ->
  exists r w', nccl_net_ofi_sendrecv_device_create domain_per_thread fmt w = Some (r, w') /\
    match r with
    | None => opened w' = opened w
    | Some dev => exists w'', nccl_net_ofi_sendrecv_device_release dev w' = Some (0, w'') /\
        opened w !! sd_fabric dev = None /\ opened w'' !! sd_fabric dev = Some FidFabric /\
        (domain_per_thread = false -> opened w !! sd_domain dev = None /\ opened w'' !! sd_domain dev = Some (FidDomain (sd_fabric dev)))
    end.
Proof using CO.
  intros Hw Hf. apply wp_run. unfold nccl_net_ofi_sendrecv_device_create. wp_simpl. apply fi_do_wp. intros rc1. destruct (rc1 =? 0); cbn [negb]; wp_simpl; [|done].
  apply fi_do_wp. intros rc2. destruct (rc2 =? 0); cbn [negb]; wp_simpl; [|done]. apply fi_do_wp. intros rc3. destruct (rc3 =? 0); cbn [negb]; wp_simpl.
  2: { apply device_release_wp. intros w' Ho _. by wp_simpl. }
  eapply wp_mono; [apply prepare_for_connection_wp; done|]. intros [rc dev] w1 (Hw1 & Hcase). cbn [fst snd] in *. destruct (rc =? 0); cbn [negb]; wp_simpl.
  2: { apply device_release_wp. intros w' Ho _. wp_simpl. by rewrite Ho. }
  assert (wp (nccl_net_ofi_sendrecv_device_release dev) (fun rc w'' => rc = 0 /\ opened w'' = opened w1) w1) as Hrel by (by apply device_release_wp).
  apply wp_run in Hrel as (? & w'' & Hrun & -> & Ho). exists w''. split; [done|]. destruct Hcase as (Hfab & _ & Hcase). cbn in Hfab, Hcase. rewrite Ho. split; [done|].
  destruct domain_per_thread.
  - destruct Hcase as [_ ->]. by rewrite lookup_insert_eq.
  - destruct Hcase as (Hne & Hdom & ->). split; [by rewrite lookup_insert_ne, lookup_insert_eq by done|]. intros _. by rewrite lookup_insert_eq.
Qed.
End DeviceObjects.

(** An error of nccl_ofi_ofiutils_init_connection leaves the endpoint in memory, out
    of reach of everybody. *)
Lemma failed_connection_strands_endpoint `{OfiEnv} d rc p d' :
  nccl_net_ofi_sendrecv_device_create_endpoint false d = Some ((rc, p), d') -> p <> NULL -> rc <> 0 ->
  Net.endpoints d' !! p = Some (Net.mk_ep 0 0).
Proof.
  intros Hrun Hp Hrc. unfold nccl_net_ofi_sendrecv_device_create_endpoint in Hrun. apply bind_inv in Hrun as (rc1 & d1 & _ & H1).
  destruct (negb (rc1 =? 0)); [by injection H1 as <- <- <-|]. apply bind_inv in H1 as (t & d2 & [= <- <-] & H1). apply bind_inv in H1 as ([] & d2 & [= <-] & H1).
  apply bind_inv in H1 as ([] & d2 & [= <-] & H1). apply bind_inv in H1 as (x & d2 & H2 & H1).
  unfold Net.nccl_net_ofi_endpoint_init in H2. apply bind_inv in H2 as ([] & d3 & [= <-] & [= <- <-]). cbn in H1.
  apply bind_inv in H1 as ([[[rc2 ep] av] cq] & d3 & H3 & H1). apply bind_inv in H1 as ([] & d4 & [= <-] & [= <- <- <-]).
  unfold lift_res in H3. destruct (nccl_ofi_ofiutils_init_connection _ _ _ _ _ _) as [[x r]|]; [|done]. simplify_eq. cbn. by rewrite lookup_insert_eq.
Qed.

(** *** Examples *)

(** libfabric where every call succeeds. *)
Definition sr_env : OfiEnv := {| fi_code _ _ := 0; api_version_ge_1_18 := true |}.
Lemma sr_env_close : @CloseOk sr_env.
Proof. by constructor. Qed.

Definition sr_objects : gmap Z fid := {[ 1 := FidFabric; 2 := FidDomain 1 ]}.
Definition sr_world : rworld := mk_rworld sr_objects 3 GDR_UNKNOWN [].
Definition sr_new_device : Net.device sworld := Net.mk_device false ∅ ∅ (mk_sworld sr_world 1 2 0 ∅ 40).

Lemma sr_world_fids : fids_ok sr_world.
Proof. split; [done|]. intros p. cbn. unfold sr_objects. rewrite dom_insert_L, dom_singleton_L. set_solver by lia. Qed.

Lemma sr_new_inv : sr_inv sr_objects sr_new_device.
Proof. constructor; cbn; try done. apply grew_nil; [exact sr_world_fids|done]. Qed.

(** Two threads; the second holds its endpoint twice and releases it last. *)
Definition sr_ops : list Net.thread_op :=
  [Net.ThreadGets 7; Net.ThreadGets 9; Net.ThreadReleases 7; Net.ThreadGets 9; Net.ThreadReleases 9; Net.ThreadReleases 9].

Lemma sendrecv_endpoints_leak_nothing_witness :
  exists R d', Net.run_thread_ops (@nccl_net_ofi_sendrecv_device_create_endpoint sr_env false) (@nccl_net_ofi_sendrecv_endpoint_free sr_env)
      sr_ops ∅ sr_new_device = Some ((true, R), d') /\
    R = ∅ /\ opened (sres (Net.transport d')) = sr_objects.
Proof.
  destruct (@sendrecv_endpoints_leak_nothing sr_env sr_env_close sr_objects sr_new_device sr_ops sr_new_inv) as (ok & R & d' & Hrun & _ & H).
  - constructor; cbn; try done.
  - cbn. lia.
  - assert (ok = true /\ R = ∅) as [-> ->] by (apply (f_equal (option_map fst)) in Hrun; vm_compute in Hrun; by injection Hrun as <- <-).
    exists ∅, d'. split; [exact Hrun|]. split; [done|]. by apply H.
Defined.

Lemma sendrecv_device_leaks_its_domain_witness :
  exists dev w' w'', @nccl_net_ofi_sendrecv_device_create sr_env false (2 ^ 48 - 1) sr_world = Some (Some dev, w') /\
    @nccl_net_ofi_sendrecv_device_release sr_env dev w' = Some (0, w'') /\ opened w'' !! sd_domain dev = Some (FidDomain (sd_fabric dev)).
Proof.
  destruct (@sendrecv_device_leaks_its_domain sr_env sr_env_close false sr_world (2 ^ 48 - 1) sr_world_fids) as (r & w' & Hrun & H); [lia|].
  destruct r as [dev|]; [|exfalso; apply (f_equal (option_map (fun x => match x.1 with Some _ => true | None => false end))) in Hrun; vm_compute in Hrun; done].
  destruct H as (w'' & Hrel & _ & _ & Hd). exists dev, w', w''. split; [exact Hrun|]. split; [exact Hrel|]. by apply Hd.
Defined.

End SendrecvEp.
