(* ===== verification/SendrecvPlugin.v ===== *)
(** * nccl_ofi_sendrecv.c: start and end of the send/receive transport

    The search for providers from the newest libfabric interface to the oldest, the
    copies of the NICs for OFI_NCCL_NIC_DUP_CONNS, and the plug-in object with its
    devices. The lists of fi_info are those of OfiUtils.v, the devices those of
    SendrecvEp.v. *)

From stdpp Require Import strings.
From S2P Require Import Prelude StateM NetTypes OfiUtils Plugin OfiRes SendrecvConn SendrecvEp.
Import OfiUtils OfiRes.

Module SendrecvPlugin.

Open Scope Z_scope.

(** ** Hints *)

Inductive fi_flag :=
| FI_LOCAL_COMM | FI_REMOTE_COMM | FI_TAGGED | FI_MSG | FI_HMEM | FI_RMA | FI_READ
| FI_MR_LOCAL | FI_MR_ENDPOINT | FI_MR_HMEM | FI_MR_VIRT_ADDR | FI_MR_ALLOCATED | FI_MR_PROV_KEY
| FI_CONTEXT | FI_CONTEXT2 | FI_ORDER_SAS.

#[export] Instance fi_flag_eq_dec : EqDecision fi_flag.
Proof. solve_decision. Defined.

(** The fields that are set to a variable value; type, threading and progress mode
    are constants. A mask is the list of its bits. *)
Record fi_hints := mk_hints {
  hi_caps : list fi_flag;
  hi_mode : list fi_flag;
  hi_mr_mode : list fi_flag;
  hi_mr_key_size : Z;
  hi_msg_order : list fi_flag;
}.

Definition sendrecv_get_hints (cuda_flush : bool) (ofi_nccl_mr_key_size : Z) (req_gdr : bool) : fi_hints :=
  let caps := [FI_LOCAL_COMM; FI_REMOTE_COMM; FI_TAGGED; FI_MSG] in
  let mr_mode := [FI_MR_LOCAL; FI_MR_ENDPOINT] in
  let '(caps, mr_mode) :=
    if req_gdr then (caps ++ [FI_HMEM] ++ (if negb cuda_flush then [FI_RMA; FI_READ] else []), mr_mode ++ [FI_MR_HMEM])
    else (caps, mr_mode) in
  mk_hints caps [FI_CONTEXT; FI_CONTEXT2] (mr_mode ++ [FI_MR_VIRT_ADDR; FI_MR_ALLOCATED; FI_MR_PROV_KEY]) (u64 ofi_nccl_mr_key_size) [FI_ORDER_SAS].

(** FI_VERSION(1, minor) *)
Definition FI_VERSION (major minor : Z) : Z := Z.lor (Z.shiftl major 16) minor.

(** ** State *)

Record sr_plugin := mk_sr_plugin { sp_base : Plugin.nccl_net_ofi_plugin_t; sp_provider_list : Z }.

(** The fi_info structures, the libfabric objects with the global support_gdr, the
    devices in memory and the plug-ins in memory. *)
Record spworld := mk_spworld {
  sp_heap : heap;
  sp_res : rworld;
  sp_devices : gmap Z SendrecvEp.sr_device;
  sp_plugins : gmap Z sr_plugin;
  sp_next : Z;
}.

Abbreviation SP := (SM spworld).

Definition w_heap h w := mk_spworld h (sp_res w) (sp_devices w) (sp_plugins w) (sp_next w).
Definition w_spres r w := mk_spworld (sp_heap w) r (sp_devices w) (sp_plugins w) (sp_next w).
Definition w_spdevs f w := mk_spworld (sp_heap w) (sp_res w) (f (sp_devices w)) (sp_plugins w) (sp_next w).
Definition w_plugins f w := mk_spworld (sp_heap w) (sp_res w) (sp_devices w) (f (sp_plugins w)) (sp_next w).
Definition w_spnext n w := mk_spworld (sp_heap w) (sp_res w) (sp_devices w) (sp_plugins w) n.

Definition lift_heap {A} (m : SM heap A) : SP A := fun w =>
  match m (sp_heap w) with Some (a, h) => Some (a, w_heap h w) | None => None end.
Definition lift_r {A} (m : SM rworld A) : SP A := fun w =>
  match m (sp_res w) with Some (a, r) => Some (a, w_spres r w) | None => None end.
Definition set_gdr (g : gdr_support_level_t) : SP unit := lift_r (modify (w_gdr g)).
Definition fresh : SP Z := fun w => Some (sp_next w, w_spnext (sp_next w + 1) w).

(** libfabric and the configuration: the answers to fi_getinfo for a version and
    hints; fi_dupinfo (NULL when it fails); fi_freeinfo and the parameters of the
    plug-in. *)
Class SrEnv := {
  prov_env : Z -> fi_hints -> ProvEnv;
  list_env : ProvEnv;
  fi_dupinfo : Z -> heap -> option (Z * heap);
  nccl_ofi_dmabuf_viable : bool;
  cuda_flush : bool;
  ofi_nccl_mr_key_size : Z;
  nic_dup_conns : Z;
  list_fuel : nat;
}.

(** Of fi_dupinfo's documentation: it duplicates a single structure. *)
Class DupOk `{SrEnv} : Prop := {
  dupinfo_copies p h c : h !! p = Some c -> exists q h', fi_dupinfo p h = Some (q, h') /\
    (q = NULL /\ h' = h \/ q <> NULL /\ h !! q = None /\ exists n, h' = <[q := mk_cell (c_info c) n]> h);
}.

Section Transport.
Context {E : OfiEnv} {SE : SrEnv}.

Definition get_plugin (p : Z) : SP sr_plugin := let* m := gets sp_plugins in of_option (m !! p).

(** ** Plug-in object *)

(** The releases of nccl_net_ofi_plugin_fini. *)
Fixpoint release_sr_devices (ps : list Z) : SP unit :=
  match ps with
  | [] => ret tt
  | p :: ps' =>
      let* m := gets sp_devices in
      let* dev := of_option (m !! p) in
      lift_r (SendrecvEp.nccl_net_ofi_sendrecv_device_release dev) ;;;
      modify (w_spdevs (delete p)) ;;;
      release_sr_devices ps'
  end.

Definition nccl_net_ofi_sendrecv_plugin_fini (p : Z) : SP Z :=
  let* plugin := get_plugin p in
  (if negb (sp_provider_list plugin =? NULL) then lift_heap (@freeinfo list_env (sp_provider_list plugin)) else ret tt) ;;;
  let (ps, base) := Plugin.nccl_net_ofi_plugin_fini (sp_base plugin) in
  release_sr_devices ps ;;;
  modify (w_plugins (delete p)) ;;;
  ret 0.

Definition assign_device (p dev_id d : Z) : SP Z :=
  let* plugin := get_plugin p in
  let (rc, base) := Plugin.nccl_net_ofi_plugin_assign_device (sp_base plugin) dev_id d in
  modify (w_plugins <[p := mk_sr_plugin base (sp_provider_list plugin)]>) ;;;
  ret rc.

(** The loop of complete_init over [n] devices. *)
Fixpoint create_sr_devices (n : nat) (p dev_id info : Z) : SP Z :=
  match n with
  | O => ret 0
  | S n' =>
      if info =? NULL then ret (- EINVAL)
      else
        let* c := lift_heap (deref info) in
        let* plugin := get_plugin p in
        let* dev := lift_r (SendrecvEp.nccl_net_ofi_sendrecv_device_create (Plugin.domain_per_thread (sp_base plugin)) (mem_tag_format (c_info c))) in
        match dev with
        | None => ret (- ENOMEM)
        | Some dev =>
            let* d := fresh in
            modify (w_spdevs <[d := dev]>) ;;;
            let* rc := assign_device p dev_id d in
            if negb (rc =? 0) then ret rc else create_sr_devices n' p (dev_id + 1) (c_next c)
        end
  end.

Definition nccl_net_ofi_sendrecv_plugin_complete_init (p : Z) : SP Z :=
  let* plugin := get_plugin p in
  create_sr_devices (Z.to_nat (Plugin.p_num_devs (sp_base plugin))) p 0 (sp_provider_list plugin).

(** The code and the plug-in, NULL on failure. *)
Definition nccl_net_ofi_sendrecv_plugin_create (num_devices provider_list : Z) : SP (Z * Z) :=
  let* rc := lift_r (fi_do Calloc) in
  if negb (rc =? 0) then ret (- ENOMEM, NULL)
  else
    let* p := fresh in
    modify (w_plugins <[p := mk_sr_plugin (Plugin.mk_plugin [] 0 false) NULL]>) ;;;
    let* rc := lift_r (fi_do Calloc) in
    let (rc, base) := Plugin.nccl_net_ofi_plugin_init (rc =? 0) num_devices (Plugin.mk_plugin [] 0 false) in
    if negb (rc =? 0) then ret (rc, NULL)
    else modify (w_plugins <[p := mk_sr_plugin base provider_list]>) ;;; ret (0, p).

(** ** Start *)

(** One call of get_providers: the pointers are written when the code sets them. *)
Definition attempt (prov_include : option string) (minor : Z) (req_gdr : bool) (provider_list : Z) : SP (Z * Z * Z) :=
  let hints := sendrecv_get_hints cuda_flush ofi_nccl_mr_key_size req_gdr in
  let* (rc, out, num) := lift_heap (@nccl_ofi_ofiutils_get_providers (prov_env (FI_VERSION 1 minor) hints) list_fuel prov_include) in
  ret (rc, match out with Some p => p | None => provider_list end, num).

(** Up to the label found: the code, provider_list and num_providers. Without DMA-BUF
    the first search is left out, like one that fails. *)
Definition find_providers (prov_include : option string) : SP (Z * Z * Z) :=
  let* (rc, l, num) := if nccl_ofi_dmabuf_viable then attempt prov_include 20 true NULL else ret (- FI_ENODATA, NULL, 0) in
  if rc =? 0 then set_gdr GDR_UNKNOWN ;;; ret (rc, l, num)
  else
    let* (rc, l, num) := attempt prov_include 18 true l in
    if rc =? 0 then set_gdr GDR_UNKNOWN ;;; ret (rc, l, num)
    else
      let* (rc, l, num) := attempt prov_include 6 true l in
      if rc =? 0 then set_gdr GDR_SUPPORTED ;;; ret (rc, l, num)
      else
        let* (rc, l, num) := attempt prov_include 6 false l in
        if rc =? 0 then set_gdr GDR_UNSUPPORTED ;;; ret (rc, l, num)
        else ret (- FI_ENODATA, l, num).

Definition dup (p : Z) : SM heap Z := fun h => fi_dupinfo p h.

(** The loop that copies the list: [n] elements are missing. Its result is the head
    of the new list, or [None] when fi_dupinfo failed. *)
Fixpoint dup_loop (n : nat) (provider_list input_iter output_head output_tail : Z) : SM heap (option Z) :=
  match n with
  | O => ret (Some output_head)
  | S n' =>
      let input_iter := if input_iter =? NULL then provider_list else input_iter in
      let* tmp := dup input_iter in
      if tmp =? NULL then ret None
      else
        set_next tmp NULL ;;;
        let output_head := if output_head =? NULL then tmp else output_head in
        (if output_tail =? NULL then ret tt else set_next output_tail tmp) ;;;
        let* c := deref input_iter in
        dup_loop n' provider_list (c_next c) output_head tmp
  end.

(** The code, provider_list and num_providers. *)
Definition dup_conns (provider_list num_providers : Z) : SM heap (Z * Z * Z) :=
  if nic_dup_conns >? 1 then
    let num_providers := u32 (num_providers * nic_dup_conns) in
    let* head := dup_loop (Z.to_nat num_providers) provider_list NULL NULL NULL in
    match head with
    | None => ret (- ENOMEM, provider_list, num_providers)
    | Some head => @freeinfo list_env provider_list ;;; ret (0, head, num_providers)
    end
  else ret (0, provider_list, num_providers).

(** [allocinfo] is whether fi_allocinfo succeeds, [version_ge_1_18] of the library. *)
Definition nccl_net_ofi_sendrecv_init `{Plugin.FiBits} (allocinfo version_ge_1_18 : bool) (provider_filter : option string) : SP (Z * Z) :=
  if negb allocinfo then ret (- ENOMEM, NULL)
  else
    let* (rc, provider_list, num_providers) := find_providers provider_filter in
    if negb (rc =? 0) && negb (rc =? - FI_ENODATA) then ret (rc, NULL)
    else if provider_list =? NULL then ret (- FI_ENODATA, NULL)
    else
      let* (rc, provider_list, num_providers) := lift_heap (dup_conns provider_list num_providers) in
      if negb (rc =? 0) then ret (rc, NULL)
      else
        let* c := lift_heap (deref provider_list) in
        let (rc, caps) := Plugin.nccl_net_ofi_query_provider_capabilities (c_info c) version_ge_1_18 in
        if negb (rc =? 0) then ret (rc, NULL)
        else nccl_net_ofi_sendrecv_plugin_create num_providers provider_list.

End Transport.

(** ** Copies of the NICs *)

(** [n] elements, first of [R], then round after round of [L]. *)
Fixpoint cycle {A} (n : nat) (R L : list A) : list A :=
  match n with
  | O => []
  | S n' => match R, L with x :: R', _ => x :: cycle n' R' L | [], x :: L' => x :: cycle n' L' L | [], [] => [] end
  end.

Lemma cycle_round {A} (R L : list A) n : cycle (length R + n) R L = R ++ cycle n [] L.
Proof. induction R as [|x R IH]; cbn; [done|by rewrite IH]. Qed.

Lemma cycle_restart {A} (x : A) L n : cycle n (x :: L) (x :: L) = cycle n [] (x :: L).
Proof. by destruct n. Qed.

Lemma cycle_concat {A} (L : list A) k : cycle (k * length L) [] L = concat (replicate k L).
Proof.
  induction k as [|k IH]; [done|]. destruct L as [|x L]; [cbn in IH |- *; by rewrite Nat.mul_0_r in *|].
  change (S k * length (x :: L))%nat with (length (x :: L) + k * length (x :: L))%nat. rewrite <- cycle_restart, cycle_round, IH. done.
Qed.

Section Dup.
Context {SE : SrEnv} {DO : DupOk}.

(** The copies [D] so far, from [head] to [tail]. *)
Definition copies (h : heap) (head tail : Z) (D : list (Z * fi_info)) : Prop :=
  D = [] /\ head = NULL /\ tail = NULL \/ exists D' i, D = D' ++ [(tail, i)] /\ tail <> NULL /\ head <> NULL /\ seg h head D NULL.

Lemma append_copy_wp h head tail D q i (Q : unit -> heap -> Prop) :
  copies h head tail D -> NoDup (D ++ [(q, i)]).*1 -> h !! q = Some (mk_cell i NULL) -> q <> NULL ->
  (forall h', copies h' (if head =? NULL then q else head) q (D ++ [(q, i)]) -> (forall a, a ∉ D.*1 -> h' !! a = h !! a) -> Q tt h') ->
  wp (if tail =? NULL then ret tt else set_next tail q) Q h.
Proof.
  intros HD Hnd Hq Hqn HQ. destruct HD as [(-> & -> & ->)|(D' & j & -> & Ht & Hh & Hs)].
  - cbn. apply HQ; [|done]. right. exists [], i. cbn. split_and!; try done. by exists NULL.
  - rewrite (proj2 (Z.eqb_neq _ _) Ht). rewrite (proj2 (Z.eqb_neq _ _) Hh) in HQ. rewrite !fmap_app in Hnd. apply NoDup_app in Hnd as (Hnd1 & Hdis & _). apply NoDup_app in Hnd1 as (_ & Hdis1 & _).
    assert (tail ∉ D'.*1) as HtD by (intros Hin; apply (Hdis1 _ Hin); left).
    pose proof Hs as (r & _ & Hr)%seg_app. destruct Hr as (-> & _ & n & Hn & _).
    assert (tail <> q) as Hne by (intros ->; apply (Hdis q); [apply elem_of_app; right; left|left]).
    eapply set_next_wp; [exact Hn|]. cbn [c_info]. apply HQ.
    + right. exists (D' ++ [(tail, j)]), i. split_and!; try done. apply seg_app. exists q. split; [by apply (seg_relink _ _ _ _ _ NULL)|]. cbn. split_and!; try done.
      exists NULL. by rewrite lookup_insert_ne.
    + intros a Ha. rewrite lookup_insert_ne; [done|]. intros <-. apply Ha. rewrite fmap_app. apply elem_of_app. right. left.
Qed.

Lemma addr_snoc (D : list (Z * fi_info)) q i b : b ∈ (D ++ [(q, i)]).*1 <-> b ∈ D.*1 \/ b = q.
Proof. rewrite fmap_app, elem_of_app. cbn. by rewrite list_elem_of_singleton. Qed.

(** What the copies leave alone. *)
Definition untouched (h h' : heap) (D : list (Z * fi_info)) : Prop := forall a, a ∉ D.*1 -> h' !! a = h !! a.

Lemma dup_loop_wp p l n : forall h L0 R iter D head tail,
  l <> [] -> seg h p l NULL -> NoDup (l ++ D).*1 -> l = L0 ++ R -> seg h iter R NULL -> copies h head tail D ->
  wp (dup_loop n p iter head tail) (fun r h' => exists D2, untouched h h' (D ++ D2) /\ (forall a, a ∈ D2.*1 -> h !! a = None) /\ NoDup (l ++ D ++ D2).*1 /\
    match r with
    | None => True
    | Some q => (exists t, copies h' q t (D ++ D2)) /\ D2.*2 = cycle n R.*2 l.*2
    end) h.
Proof using DO.
  induction n as [|n IH]; intros h L0 R iter D head tail Hne Hl Hnd HR Hit HD; cbn [dup_loop].
  { wp_simpl. exists []. rewrite !app_nil_r. split_and!; try done; [by intros a ?%not_elem_of_nil|by exists tail]. }
  assert (exists L1 a i R', l = L1 ++ (a, i) :: R' /\ seg h (if iter =? NULL then p else iter) ((a, i) :: R') NULL /\ cycle (S n) R.*2 l.*2 = i :: cycle n R'.*2 l.*2) as (L1 & a & i & R' & Hl' & Hs & Hcyc).
  { destruct R as [|[a i] R'].
    - cbn in Hit. subst iter. destruct l as [|[a i] R']; [done|]. by exists [], a, i, R'.
    - exists L0, a, i, R'. split_and!; try done. pose proof Hit as (-> & Ha & _). by rewrite (proj2 (Z.eqb_neq _ _) Ha). }
  rewrite Hcyc. clear Hcyc Hit HR. destruct Hs as (Hiter & Ha & nx & Hc & HR'). rewrite Hiter. wp_simpl.
  destruct (dupinfo_copies a h _ Hc) as (q & h1 & Hdup & [[-> ->]|(Hq & Hqn & m & ->)]); unfold wp at 1, dup; rewrite Hdup.
  { cbn [Z.eqb NULL]. wp_simpl. exists []. rewrite !app_nil_r. split_and!; try done. by intros a0 ?%not_elem_of_nil. }
  rewrite (proj2 (Z.eqb_neq _ _) Hq). wp_simpl. eapply set_next_wp; [apply lookup_insert_eq|]. cbn [c_info]. rewrite insert_insert_eq. wp_simpl.
  set (h2 := <[q := mk_cell i NULL]> h).
  assert (forall b, is_Some (h !! b) -> b <> q) as Hold by (intros b [x Hx] ->; congruence).
  assert (forall b j K, seg h b K j -> q ∉ K.*1) as HqK.
  { intros b j K. revert b. induction K as [|[b' j'] K IHK]; intros b HK; [apply not_elem_of_nil|]. destruct HK as (-> & _ & x & Hx & HK). cbn. apply not_elem_of_cons.
    split; [by apply not_eq_sym, Hold; exists (mk_cell j' x)|by eapply IHK]. }
  assert (q ∉ D.*1) as HqD by (destruct HD as [(-> & _)|(D' & j & -> & _ & _ & HsD)]; [apply not_elem_of_nil|by eapply HqK]).
  assert (NoDup (D ++ [(q, i)]).*1) as HndD.
  { rewrite fmap_app in Hnd |- *. apply NoDup_app in Hnd as (_ & _ & HD'). apply NoDup_app. split_and!; [done| |apply NoDup_singleton]. by intros b Hb ->%list_elem_of_singleton. }
  assert (forall b, b ∈ l.*1 -> b ∉ (D ++ [(q, i)]).*1) as Hdisj.
  { intros b Hb. rewrite fmap_app in Hnd. apply NoDup_app in Hnd as (_ & Hd & _). rewrite addr_snoc. intros [H|H]; [by apply (Hd b)|].
    subst b. by apply (HqK _ _ _ Hl). }
  apply (append_copy_wp h2 head tail D q i); [|done|by apply lookup_insert_eq|done|].
  { destruct HD as [HD|(D' & j & -> & ? & ? & HsD)]; [by left|]. right. exists D', j. split_and!; try done. by apply seg_insert. }
  intros h3 HD3 Hh3. assert (forall b, b ∉ (D ++ [(q, i)]).*1 -> h3 !! b = h !! b) as Hfr.
  { intros b Hb. rewrite addr_snoc in Hb. rewrite Hh3 by tauto. unfold h2. rewrite lookup_insert_ne; [done|]. intros <-. apply Hb. by right. }
  assert (a ∈ l.*1) as Hal by (rewrite Hl', fmap_app; apply elem_of_app; right; left).
  wp_simpl. eapply deref_wp; [rewrite Hfr by (by apply Hdisj); exact Hc|]. cbn [c_next].
  eapply wp_mono; [apply (IH h3 (L1 ++ [(a, i)]) R' nx (D ++ [(q, i)]))|].
  - done.
  - eapply seg_agree; [|exact Hl]. intros b Hb. by apply Hfr, Hdisj.
  - rewrite fmap_app. apply NoDup_app. split_and!; [|done|done]. rewrite fmap_app in Hnd. by apply NoDup_app in Hnd as (? & _).
  - by rewrite <- app_assoc.
  - eapply seg_agree; [|exact HR']. intros b Hb. apply Hfr, Hdisj. rewrite Hl', fmap_app. apply elem_of_app. right. by right.
  - done.
  - intros r h' (D2 & Hun & Hnew & Hnd2 & Hr). exists ((q, i) :: D2). rewrite <- app_assoc in Hun, Hnd2, Hr. cbn [app] in Hun, Hnd2, Hr. split_and!; try done.
    + intros b Hb. rewrite Hun by done. apply Hfr. rewrite addr_snoc. rewrite fmap_app, elem_of_app in Hb. cbn in Hb. rewrite elem_of_cons in Hb. tauto.
    + intros b [->|Hb]%elem_of_cons; [done|]. rewrite <- Hfr; [by apply Hnew|]. intros Hin. rewrite !fmap_app in Hnd2. apply NoDup_app in Hnd2 as (_ & _ & Hnd2).
      cbn in Hnd2. apply NoDup_app in Hnd2 as (_ & Hd & Hn%NoDup_cons). apply addr_snoc in Hin as [Hin|Hin].
      * apply (Hd _ Hin). by right.
      * subst b. by destruct Hn.
    + destruct r; [|done]. destruct Hr as [? Hr]. split; [done|]. cbn. by rewrite Hr.
Qed.

(** C28. With OFI_NCCL_NIC_DUP_CONNS set to k the list of NICs becomes its own k-fold
    repetition (A, B, C, A, B, C for k = 2): new structures with the contents of the
    old ones round after round, the count multiplied, the old list released and no
    other structure touched. When a structure cannot be copied the code is -ENOMEM
    and the old list is still whole. *)
Theorem dup_conns_repeats `{@ProvOk list_env} h p l :
  seg h p l NULL -> NoDup l.*1 -> l <> [] -> 1 < nic_dup_conns -> Z.of_nat (length l) * nic_dup_conns < 2 ^ 32 ->
  exists rc q num h' D, dup_conns p (Z.of_nat (length l)) h = Some ((rc, q, num), h') /\
    (forall a, a ∈ D.*1 -> h !! a = None) /\
    if rc =? 0 then
      num = Z.of_nat (length l) * nic_dup_conns /\ D.*2 = concat (replicate (Z.to_nat nic_dup_conns) l.*2) /\
      NoDup D.*1 /\ seg h' q D NULL /\ forall a, a ∉ D.*1 -> h' !! a = if decide (a ∈ l.*1) then None else h !! a
    else rc = - ENOMEM /\ seg h' p l NULL /\ forall a, a ∉ D.*1 -> h' !! a = h !! a.
Proof using DO.
  intros Hs Hnd Hne Hk Hlen.
  assert (u32 (Z.of_nat (length l) * nic_dup_conns) = Z.of_nat (length l) * nic_dup_conns) as Hu by (apply Z.mod_small; lia).
  pose proof (dup_loop_wp p l (Z.to_nat (Z.of_nat (length l) * nic_dup_conns)) h l [] NULL [] NULL NULL Hne Hs) as Hwp. rewrite app_nil_r in Hwp.
  specialize (Hwp Hnd eq_refl eq_refl (or_introl (conj eq_refl (conj eq_refl eq_refl)))). cbn [app] in Hwp.
  apply wp_run in Hwp as (r & h1 & Hrun & D & Hun & Hnew & HndD & Hr).
  assert (forall a, a ∈ l.*1 -> a ∉ D.*1) as Hdis by (intros a Ha HD; rewrite fmap_app in HndD; apply NoDup_app in HndD as (_ & Hd & _); by apply (Hd a)).
  assert (seg h1 p l NULL) as Hs1 by (eapply seg_agree; [|exact Hs]; intros a Ha; apply Hun; by apply Hdis).
  unfold dup_conns. assert (nic_dup_conns >? 1 = true) as -> by (apply Z.gtb_lt; lia). rewrite Hu. destruct r as [q|].
  - destruct Hr as [[t HD] Hc]. exists 0, q, (Z.of_nat (length l) * nic_dup_conns), (foldr delete h1 l.*1), D. split.
    { unfold bind. rewrite Hrun. unfold freeinfo, gets, of_option, bind, modify, ret. by rewrite (freeinfo_list p h1 l Hs1 Hnd). }
    split; [done|]. cbn [Z.eqb]. rewrite fmap_app in HndD. apply NoDup_app in HndD as (_ & _ & HndD). split_and!; try done.
    + rewrite Hc. replace (Z.to_nat (Z.of_nat (length l) * nic_dup_conns)) with (Z.to_nat nic_dup_conns * length l.*2)%nat by (rewrite length_fmap; lia). apply cycle_concat.
    + destruct HD as [(-> & _)|(D' & j & -> & _ & _ & HD)].
      { exfalso. cbn in Hc. replace (Z.to_nat (Z.of_nat (length l) * nic_dup_conns)) with (Z.to_nat nic_dup_conns * length l.*2)%nat in Hc by (rewrite length_fmap; lia).
        rewrite cycle_concat in Hc. destruct (Z.to_nat nic_dup_conns) eqn:Hz; [lia|]. destruct l; done. }
      eapply seg_agree; [|exact HD]. intros a Ha. rewrite foldr_delete_lookup. rewrite decide_False; [done|]. intros Hl. by apply (Hdis a).
    + intros a Ha. rewrite foldr_delete_lookup. case_decide; [done|]. by apply Hun.
  - exists (- ENOMEM), p, (Z.of_nat (length l) * nic_dup_conns), h1, D. split; [unfold bind; by rewrite Hrun|]. split; [done|]. by split_and!.
Qed.
End Dup.

(** ** Search for providers *)

(** The searches in their order, with what support_gdr becomes when one succeeds. *)
Definition searches `{SrEnv} : list (Z * bool * gdr_support_level_t) :=
  (if nccl_ofi_dmabuf_viable then [(20, true, GDR_UNKNOWN)] else []) ++ [(18, true, GDR_UNKNOWN); (6, true, GDR_SUPPORTED); (6, false, GDR_UNSUPPORTED)].

Fixpoint first_found `{SrEnv} (prov_include : option string) (l : list (Z * bool * gdr_support_level_t)) (provider_list num : Z) : SP (Z * Z * Z) :=
  match l with
  | [] => ret (- FI_ENODATA, provider_list, num)
  | (minor, gdr, level) :: l' =>
      let* (rc, p, num) := attempt prov_include minor gdr provider_list in
      if rc =? 0 then set_gdr level ;;; ret (rc, p, num) else first_found prov_include l' p num
  end.

(** The nested searches are the first success of the list. *)
Lemma find_providers_first `{SrEnv} prov_include w :
  find_providers prov_include w = first_found prov_include searches NULL 0 w.
Proof.
  unfold find_providers, searches. destruct nccl_ofi_dmabuf_viable; cbn [app first_found]; [reflexivity|]. unfold bind at 1, ret at 1. cbn beta iota.
  change (- FI_ENODATA =? 0) with false. reflexivity.
Qed.

(** ** Life of the plug-in *)

Section Life.
Context {E : OfiEnv} {SE : SrEnv}.

Lemma lift_r_wp {A} (m : SM rworld A) w (Q : A -> spworld -> Prop) : wp m (fun a r => Q a (w_spres r w)) (sp_res w) -> wp (lift_r m) Q w.
Proof. unfold wp, lift_r. by destruct (m _) as [[a r]|]. Qed.

Lemma lift_heap_wp {A} (m : SM heap A) w (Q : A -> spworld -> Prop) : wp m (fun a h => Q a (w_heap h w)) (sp_heap w) -> wp (lift_heap m) Q w.
Proof. unfold wp, lift_heap. by destruct (m _) as [[a h]|]. Qed.

Lemma get_plugin_wp w p x (Q : sr_plugin -> spworld -> Prop) : sp_plugins w !! p = Some x -> Q x w -> wp (get_plugin p) Q w.
Proof. intros Hp HQ. unfold get_plugin. wp_simpl. by eapply wp_of_option. Qed.

Lemma fresh_wp w (Q : Z -> spworld -> Prop) : Q (sp_next w) (w_spnext (sp_next w + 1) w) -> wp fresh Q w.
Proof. done. Qed.

Lemma release_device_grew L w0 w dev (Q : Z -> rworld -> Prop) :
  grew L w0 w -> (forall w', grew L w0 w' -> Q 0 w') -> wp (SendrecvEp.nccl_net_ofi_sendrecv_device_release dev) Q w.
Proof.
  intros Hg HQ. apply SendrecvEp.device_release_wp. intros w' Ho Hok. apply HQ. eapply grew_same; [exact Hg| |done]. apply Hok, Hg.
Qed.

(** Libfabric objects of one device. *)
Definition per_device (domain_per_thread : bool) : nat := if domain_per_thread then 1 else 2.

Context {CO : CloseOk} (domain_per_thread : bool).

Lemma prepare_device_grew L w0 w fmt :
  grew L w0 w -> 0 <= fmt < 2 ^ 64 ->
  wp (SendrecvEp.sendrecv_device_prepare_for_connection domain_per_thread fmt (SendrecvEp.mk_sr_device true NULL NULL 0)) (fun r w' =>
    if r.1 =? 0 then exists L', length L' = per_device domain_per_thread /\ grew (L' ++ L) w0 w' else grew L w0 w') w.
Proof using CO.
  intros Hg Hf. unfold SendrecvEp.sendrecv_device_prepare_for_connection. destruct (SendrecvConn.prepare_total fmt Hf) as (rc & max & Hmax). wp_simpl.
  eapply wp_of_option; [exact Hmax|]. cbn beta iota. destruct (rc =? 0) eqn:Hrc; cbn [negb]; [|wp_simpl; cbn [fst]; by rewrite Hrc].
  wp_simpl. eapply fi_open_grew; [exact Hg| |].
  - intros rc1 w1 Hrc1 Hg1. rewrite (proj2 (Z.eqb_neq _ _) Hrc1). cbn [negb]. unfold SendrecvEp.prepare_error, close_some. cbn. by rewrite (proj2 (Z.eqb_neq _ _) Hrc1).
  - intros f w1 Hf1 Hg1 _. cbn [Z.eqb negb SendrecvEp.sd_info SendrecvEp.sd_domain]. destruct domain_per_thread; [cbn; by exists [f]|]. wp_simpl. eapply fi_open_grew; [exact Hg1| |].
    + intros rc2 w2 Hrc2 Hg2. rewrite (proj2 (Z.eqb_neq _ _) Hrc2). cbn [negb]. unfold SendrecvEp.prepare_error. cbn [SendrecvEp.sd_domain SendrecvEp.sd_fabric]. wp_simpl.
      apply (close_some_grew (f :: L) NULL w0); [done|]. intros w3 Hg3. wp_simpl. eapply (close_some_grew L f w0); [|intros w4 Hg4; wp_simpl; cbn [fst]; by rewrite (proj2 (Z.eqb_neq _ _) Hrc2)].
      by rewrite handles_all by (rewrite list_elem_of_singleton; by apply not_eq_sym).
    + intros d w2 Hd Hg2 _. cbn. by exists [d; f].
Qed.

Lemma create_device_grew L w0 w fmt :
  grew L w0 w -> 0 <= fmt < 2 ^ 64 ->
  wp (SendrecvEp.nccl_net_ofi_sendrecv_device_create domain_per_thread fmt) (fun r w' =>
    match r with None => grew L w0 w' | Some dev => exists L', length L' = per_device domain_per_thread /\ grew (L' ++ L) w0 w' end) w.
Proof using CO.
  intros Hg Hf. unfold SendrecvEp.nccl_net_ofi_sendrecv_device_create. wp_simpl. eapply fi_do_grew; [exact Hg|]. intros rc1 w1 Hg1. destruct (rc1 =? 0); cbn [negb]; wp_simpl; [|done].
  eapply fi_do_grew; [exact Hg1|]. intros rc2 w2 Hg2. destruct (rc2 =? 0); cbn [negb]; wp_simpl; [|done].
  eapply fi_do_grew; [exact Hg2|]. intros rc3 w3 Hg3. destruct (rc3 =? 0); cbn [negb]; wp_simpl; [|eapply release_device_grew; [exact Hg3|]; intros w4 Hg4; by wp_simpl].
  eapply wp_mono; [by apply prepare_device_grew|]. intros [rc dev] w4 Hcase. cbn [fst snd] in *. destruct (rc =? 0); cbn [negb]; wp_simpl; [done|].
  eapply release_device_grew; [exact Hcase|]. intros w5 Hg5. by wp_simpl.
Qed.

(** The plug-in [p] with the devices [ps] in its first slots, [k] empty slots and the
    list [pl]; the devices have opened [L]. *)
Record sp_inv (w0 : rworld) (h : heap) (p pl : Z) (ps : list Z) (k : nat) (L : list Z) (w : spworld) : Prop := {
  si_heap : sp_heap w = h;
  si_plugin : sp_plugins w = {[ p := mk_sr_plugin (Plugin.mk_plugin ((Some <$> ps) ++ replicate k None) (Z.of_nat (length ps + k)) domain_per_thread) pl ]};
  si_nodup : NoDup ps;
  si_dom d : d ∈ dom (sp_devices w) <-> d ∈ ps;
  si_next d : d ∈ ps -> d < sp_next w;
  si_objects : grew L w0 (sp_res w);
  si_count : length L = (length ps * per_device domain_per_thread)%nat;
}.

Lemma sp_inv_assign w0 h p pl ps k L L' w dev r :
  sp_inv w0 h p pl ps (S k) L w -> length L' = per_device domain_per_thread -> grew (L' ++ L) w0 r ->
  let d := sp_next w in
  wp (assign_device p (Z.of_nat (length ps)) d) (fun rc w' => rc = 0 /\ sp_inv w0 h p pl (ps ++ [d]) k (L' ++ L) w')
    (w_spdevs <[d := dev]> (w_spnext (d + 1) (w_spres r w))).
Proof.
  intros [Hh Hp Hnd Hdom Hnext Hobj Hcnt] HL' Hg d. unfold assign_device. wp_simpl. eapply get_plugin_wp; [cbn; rewrite Hp; apply lookup_singleton_eq|].
  unfold Plugin.nccl_net_ofi_plugin_assign_device. cbn [sp_base sp_provider_list Plugin.p_num_devs Plugin.p_devs Plugin.domain_per_thread].
  destruct (Z.geb_spec (Z.of_nat (length ps)) (Z.of_nat (length ps + S k))); [lia|]. wp_simpl. split; [done|].
  assert (d ∉ ps) as Hd by (intros H'; specialize (Hnext _ H'); unfold d in Hnext; lia). constructor; cbn.
  - done.
  - rewrite Hp, insert_singleton_eq, Nat2Z.id. do 3 f_equal; [|rewrite length_app; cbn; lia].
    rewrite <- (length_fmap Some ps), insert_app_r_alt, Nat.sub_diag by (rewrite length_fmap; lia). cbn. rewrite fmap_app. cbn. by rewrite <- app_assoc.
  - apply NoDup_app. split_and!; [done| |apply NoDup_singleton]. by intros q Hq ->%list_elem_of_singleton.
  - intros q. rewrite dom_insert_L, elem_of_union, elem_of_singleton, elem_of_app, list_elem_of_singleton, Hdom. tauto.
  - intros q [Hq|Hq]%elem_of_app; [specialize (Hnext _ Hq); lia|]. apply list_elem_of_singleton in Hq as ->. unfold d. lia.
  - done.
  - rewrite !length_app, HL', Hcnt. cbn. lia.
Qed.

Lemma create_sr_devices_wp w0 h p pl n : forall l info ps L w,
  sp_inv w0 h p pl ps n L w -> seg h info l NULL -> Forall (fun x => 0 <= mem_tag_format x.2 < 2 ^ 64) l ->
  wp (create_sr_devices n p (Z.of_nat (length ps)) info) (fun rc w' => exists ps' k L', sp_inv w0 h p pl ps' k L' w' /\
    (length ps' + k = length ps + n)%nat /\ (rc = 0 -> k = O /\ (n <= length l)%nat)) w.
Proof using CO.
  induction n as [|n IH]; intros l info ps L w Hinv Hs Hl; cbn [create_sr_devices]; [wp_simpl; exists ps, O, L; split_and!; try done; lia|].
  destruct l as [|[a i] l]; cbn in Hs.
  { subst info. cbn. exists ps, (S n), L. split_and!; try done. }
  destruct Hs as (-> & Ha & nx & Hc & Hs). apply Forall_cons in Hl as [Hi Hl]. rewrite (proj2 (Z.eqb_neq _ _) Ha). wp_simpl. apply lift_heap_wp.
  eapply deref_wp; [rewrite (si_heap _ _ _ _ _ _ _ _ Hinv); exact Hc|]. cbn [c_info c_next]. wp_simpl.
  eapply get_plugin_wp; [cbn; rewrite (si_plugin _ _ _ _ _ _ _ _ Hinv); apply lookup_singleton_eq|]. cbn [sp_base Plugin.domain_per_thread]. wp_simpl. apply lift_r_wp.
  eapply wp_mono; [apply create_device_grew; [apply Hinv|done]|]. intros [dev|] r Hr.
  - destruct Hr as (L' & HL' & Hg). wp_simpl. apply fresh_wp. wp_simpl.
    eapply wp_mono; [apply (sp_inv_assign w0 h p pl ps n L L' (w_heap (sp_heap w) w)); [destruct Hinv; by constructor|done|done]|].
    intros rc w' [-> Hinv']. cbn [Z.eqb negb]. replace (Z.of_nat (length ps) + 1) with (Z.of_nat (length (ps ++ [sp_next w]))) by (rewrite length_app; cbn; lia).
    eapply wp_mono; [by eapply (IH l)|]. intros rc w2 (ps' & k & L2 & H1 & H2 & H3). exists ps', k, L2. rewrite length_app in H2. cbn in H2 |- *. split_and!; [done|lia|]. intros Hrc. specialize (H3 Hrc). lia.
  - wp_simpl. exists ps, (S n), L. split_and!; [|lia|done]. destruct Hinv. by constructor.
Qed.

Lemma release_sr_devices_wp w0 L ps : forall w,
  NoDup ps -> (forall d, d ∈ dom (sp_devices w) <-> d ∈ ps) -> grew L w0 (sp_res w) ->
  wp (release_sr_devices ps) (fun _ w' => grew L w0 (sp_res w') /\ sp_devices w' = ∅ /\ sp_plugins w' = sp_plugins w /\ sp_heap w' = sp_heap w) w.
Proof.
  induction ps as [|p ps IH]; intros w Hnd Hdom Hg; cbn [release_sr_devices].
  - assert (sp_devices w = ∅) as He by (apply dom_empty_inv_L, set_eq; intros q; rewrite Hdom; set_solver). wp_simpl. by split_and!.
  - apply NoDup_cons in Hnd as [Hp Hnd]. assert (exists dev, sp_devices w !! p = Some dev) as [dev Hdev] by (apply elem_of_dom, Hdom; left).
    wp_simpl. eapply wp_of_option; [exact Hdev|]. wp_simpl. apply lift_r_wp. eapply release_device_grew; [exact Hg|]. intros r Hr. wp_simpl.
    eapply wp_mono; [apply IH|]; cbn; try done.
    intros q. rewrite dom_delete_L, elem_of_difference, elem_of_singleton, Hdom, elem_of_cons. split; [tauto|]. intros Hq. split; [by right|]. by intros ->.
Qed.

(** The send/receive plug-in from complete_init to its destructor: complete_init
    makes one device for each of the first NICs of the list and fails, with what was
    made so far, when the list is too short or a device cannot be made; the
    destructor then releases every device, the list and the plug-in. What is never
    closed are the fabric and the domain of each device: they stay open, two objects
    (one with a domain per thread) for every device that was made. *)
Theorem sendrecv_plugin_life `{@ProvOk list_env} w p pl l n :
  sp_inv (sp_res w) (sp_heap w) p pl [] n [] w -> seg (sp_heap w) pl l NULL -> NoDup l.*1 -> pl <> NULL ->
  Forall (fun x => 0 <= mem_tag_format x.2 < 2 ^ 64) l ->
  exists rc w1 w2 m L, nccl_net_ofi_sendrecv_plugin_complete_init p w = Some (rc, w1) /\
    nccl_net_ofi_sendrecv_plugin_fini p w1 = Some (0, w2) /\
    (m <= n)%nat /\ (rc = 0 -> m = n /\ (n <= length l)%nat) /\
    sp_devices w2 = ∅ /\ sp_plugins w2 = ∅ /\ sp_heap w2 = foldr delete (sp_heap w) l.*1 /\
    grew L (sp_res w) (sp_res w2) /\ length L = (m * per_device domain_per_thread)%nat.
Proof using CO.
  intros Hinv Hs Hnd Hpl Hl. assert (wp (nccl_net_ofi_sendrecv_plugin_complete_init p) (fun rc w' => exists ps' k L',
    sp_inv (sp_res w) (sp_heap w) p pl ps' k L' w' /\ (length ps' + k = n)%nat /\ (rc = 0 -> k = O /\ (n <= length l)%nat)) w) as H1.
  { unfold nccl_net_ofi_sendrecv_plugin_complete_init. wp_simpl. eapply get_plugin_wp; [rewrite (si_plugin _ _ _ _ _ _ _ _ Hinv); apply lookup_singleton_eq|].
    cbn [sp_base Plugin.p_num_devs sp_provider_list length]. rewrite Nat2Z.id. by apply (create_sr_devices_wp _ _ _ _ n l pl [] []). }
  apply wp_run in H1 as (rc & w1 & Hrun1 & ps & k & L & [Hh Hp Hndp Hdom Hnext Hobj Hcnt] & Hk & Hrc).
  assert (wp (nccl_net_ofi_sendrecv_plugin_fini p) (fun rc w' => rc = 0 /\ grew L (sp_res w) (sp_res w') /\ sp_devices w' = ∅ /\ sp_plugins w' = ∅ /\
    sp_heap w' = foldr delete (sp_heap w) l.*1) w1) as H2.
  { unfold nccl_net_ofi_sendrecv_plugin_fini. wp_simpl. eapply get_plugin_wp; [rewrite Hp; apply lookup_singleton_eq|]. cbn [sp_base sp_provider_list]. rewrite (proj2 (Z.eqb_neq _ _) Hpl). cbn [negb].
    wp_simpl. apply lift_heap_wp. unfold freeinfo. wp_simpl. eapply wp_of_option; [rewrite Hh; by apply freeinfo_list|]. wp_simpl.
    unfold Plugin.nccl_net_ofi_plugin_fini. cbn [Plugin.p_devs Plugin.p_num_devs]. rewrite take_ge, Plugin.omap_devs by (rewrite length_app, length_fmap, length_replicate; lia). wp_simpl.
    eapply wp_mono; [by apply (release_sr_devices_wp (sp_res w) L)|]. intros [] w3 (Hg & Hd & Hpp & Hhh). wp_simpl. split_and!; try done. cbn. rewrite Hpp. cbn. rewrite Hp. apply delete_singleton_eq. }
  apply wp_run in H2 as (? & w2 & Hrun2 & -> & Hg & Hd & Hpp & Hhh). exists rc, w1, w2, (length ps), L. split_and!; try done; [lia|]. intros ->. destruct (Hrc eq_refl). lia.
Qed.
End Life.

(** *** Examples *)

Definition next_free (h : heap) : Z := map_fold (fun k _ m => Z.max k m) 0 h + 1.

Lemma next_free_above (h : heap) : 0 < next_free h /\ forall k, is_Some (h !! k) -> k < next_free h.
Proof.
  unfold next_free. apply (map_fold_weak_ind (fun m h => 0 < m + 1 /\ forall k, is_Some (h !! k) -> k < m + 1)).
  - split; [lia|]. intros k [x Hx]. by rewrite lookup_empty in Hx.
  - intros i x m r _ [H0 H1]. split; [lia|]. intros k [y Hy]. apply lookup_insert_Some in Hy as [[-> _]|[_ Hy]]; [lia|]. specialize (H1 k (ex_intro _ y Hy)). lia.
Qed.

(** A library that copies every structure, with two NICs and two connections for
    each. *)
Definition two_env : SrEnv := {|
  prov_env _ _ := host_env; list_env := host_env;
  fi_dupinfo p h := match h !! p with Some c => Some (next_free h, <[next_free h := mk_cell (c_info c) NULL]> h) | None => None end;
  nccl_ofi_dmabuf_viable := true; cuda_flush := false; ofi_nccl_mr_key_size := 2; nic_dup_conns := 2; list_fuel := 5;
|}.

Lemma two_dup_ok : @DupOk two_env.
Proof.
  constructor. intros p h c Hc. cbn. rewrite Hc. destruct (next_free_above h) as [H0 H1]. eexists _, _. split; [done|]. right.
  split_and!; [unfold NULL; lia| |by exists NULL]. apply eq_None_not_Some. intros H. apply H1 in H. lia.
Qed.

Definition two_nics : list (Z * fi_info) := [(1, mk_info "efa" "rdmap0" 1 (2 ^ 48 - 1) 4 20 8); (2, mk_info "efa" "rdmap1" 1 (2 ^ 48 - 1) 4 20 8)].
Definition two_heap : heap := {[ 1 := mk_cell (mk_info "efa" "rdmap0" 1 (2 ^ 48 - 1) 4 20 8) 2; 2 := mk_cell (mk_info "efa" "rdmap1" 1 (2 ^ 48 - 1) 4 20 8) NULL ]}.

Lemma two_seg : seg two_heap 1 two_nics NULL.
Proof. cbn. split_and!; [done|done|]. exists 2. split; [by vm_compute|]. split_and!; [done|done|]. exists NULL. split; [by vm_compute|done]. Qed.

Lemma two_nodup : NoDup two_nics.*1.
Proof. apply (bool_decide_unpack _). by vm_compute. Qed.

Lemma dup_conns_repeats_witness :
  exists q h' D, @dup_conns two_env 1 2 two_heap = Some ((0, q, 4), h') /\ seg h' q D NULL /\
    D.*2 = two_nics.*2 ++ two_nics.*2 /\ h' !! 1 = None.
Proof.
  destruct (@dup_conns_repeats two_env two_dup_ok host_ok two_heap 1 two_nics two_seg two_nodup) as (rc & q & num & h' & D & Hrun & Hnew & Hr); [done|done|by vm_compute|].
  assert (rc = 0) as -> by (apply (f_equal (option_map (fun x => x.1.1.1))) in Hrun; vm_compute in Hrun; by injection Hrun).
  cbn [Z.eqb] in Hr. destruct Hr as (-> & HD & _ & Hs & Hfr). exists q, h', D. split_and!; [exact Hrun|done|exact HD|].
  rewrite Hfr; [by vm_compute|]. intros H%Hnew. by vm_compute in H.
Defined.

Definition life_world : spworld :=
  mk_spworld two_heap (mk_rworld ∅ 1 GDR_UNKNOWN []) ∅ {[ 7 := mk_sr_plugin (Plugin.mk_plugin [None; None] 2 false) 1 ]} 8.

Lemma life_inv : sp_inv false (sp_res life_world) (sp_heap life_world) 7 1 [] 2 [] life_world.
Proof.
  constructor; cbn; try done.
  - constructor.
  - intros d. rewrite dom_empty_L. set_solver.
  - by intros d ?%not_elem_of_nil.
  - apply grew_nil; [|done]. split; [done|]. cbn. set_solver.
Qed.

Lemma sendrecv_plugin_life_witness :
  exists w1 w2 L, @nccl_net_ofi_sendrecv_plugin_complete_init SendrecvEp.sr_env 7 life_world = Some (0, w1) /\
    @nccl_net_ofi_sendrecv_plugin_fini SendrecvEp.sr_env two_env 7 w1 = Some (0, w2) /\ sp_devices w2 = ∅ /\
    grew L (sp_res life_world) (sp_res w2) /\ length L = 4%nat.
Proof.
  destruct (@sendrecv_plugin_life SendrecvEp.sr_env two_env SendrecvEp.sr_env_close false host_ok life_world 7 1 two_nics 2 life_inv two_seg two_nodup)
    as (rc & w1 & w2 & m & L & H1 & H2 & _ & Hm & Hd & _ & _ & Hg & HL); [done|apply (bool_decide_unpack _); by vm_compute|].
  assert (rc = 0) as -> by (apply (f_equal (option_map fst)) in H1; vm_compute in H1; by injection H1).
  destruct (Hm eq_refl) as [-> _]. exists w1, w2, L. split_and!; [exact H1|exact H2|exact Hd|exact Hg|exact HL].
Defined.

End SendrecvPlugin.
