(* ===== verification/RdmaWire.v ===== *)
(** * nccl_ofi_rdma: what goes on the wire

    The immediate data of an RDMA write (the macros at the top of
    nccl_ofi_rdma.c) and the messages sent to a peer's bounce buffers
    (nccl_ofi_rdma.h). *)

From S2P Require Import Prelude.

Module RdmaWire.

Definition NCCL_OFI_RDMA_COMM_ID_BITS : Z := 18.
Definition NCCL_OFI_RDMA_SEQ_BITS : Z := 10.
Definition NUM_NUM_SEG_BITS : Z := 4.
Definition MAX_NUM_RAILS : Z := 4.

Definition COMM_ID_MASK : Z := u64 (Z.shiftl 1 NCCL_OFI_RDMA_COMM_ID_BITS) - 1.
Definition MSG_SEQ_NUM_MASK : Z := u64 (Z.shiftl 1 NCCL_OFI_RDMA_SEQ_BITS) - 1.
Definition MSG_NUM_SEG_MASK : Z := u64 (Z.shiftl 1 NUM_NUM_SEG_BITS) - 1.

Definition GET_COMM_ID_FROM_IMM (data : Z) : Z :=
  Z.land (Z.shiftr data NCCL_OFI_RDMA_SEQ_BITS) COMM_ID_MASK.
Definition GET_SEQ_NUM_FROM_IMM (data : Z) : Z := Z.land data MSG_SEQ_NUM_MASK.
Definition GET_NUM_SEG_FROM_IMM (data : Z) : Z :=
  Z.land (Z.shiftr data (NCCL_OFI_RDMA_SEQ_BITS + NCCL_OFI_RDMA_COMM_ID_BITS)) MSG_NUM_SEG_MASK.

(** [seq] is a uint16_t, [comm_id] a uint32_t (its shift wraps at 32 bits) and
    [nseg] a size_t. *)
Definition GET_RDMA_WRITE_IMM_DATA (comm_id seq nseg : Z) : Z :=
  Z.lor (Z.lor seq (u32 (Z.shiftl comm_id NCCL_OFI_RDMA_SEQ_BITS)))
    (u64 (Z.shiftl nseg (NCCL_OFI_RDMA_SEQ_BITS + NCCL_OFI_RDMA_COMM_ID_BITS))).

(** ** Messages *)

(** The type is read from the first four bits of a bounce buffer; a value the
    enumeration does not name is [NCCL_OFI_RDMA_MSG_INVALID]. *)
Inductive nccl_ofi_rdma_msg_type :=
| NCCL_OFI_RDMA_MSG_CONN
| NCCL_OFI_RDMA_MSG_CONN_RESP
| NCCL_OFI_RDMA_MSG_CTRL
| NCCL_OFI_RDMA_MSG_EAGER
| NCCL_OFI_RDMA_MSG_CLOSE
| NCCL_OFI_RDMA_MSG_INVALID.

(** Key array: the member of the union that [use_long_rkeys] selects. *)
Record nccl_net_ofi_rdma_ctrl_msg_t := mk_ctrl_msg {
  cm_msg_seq_num : Z;      (* 10 bits *)
  cm_remote_comm_id : Z;   (* 18 bits *)
  cm_buff_len : Z;         (* uint32_t *)
  cm_buff_addr : Z;        (* uint64_t *)
  cm_buff_mr_key : list Z;
}.

Record nccl_net_ofi_rdma_close_msg_t := mk_close_msg {
  clm_ctrl_counter : Z;    (* uint64_t *)
  clm_send_comm_id : Z;    (* uint32_t *)
}.

(** The connection message; an endpoint name is the list of its bytes, with the
    length of the list for [ep_name_len]. *)
Record nccl_ofi_rdma_connection_info_t := mk_conn_msg {
  cn_num_rails : Z;
  cn_num_control_rails : Z;
  cn_local_comm_id : Z;
  cn_remote_comm_id : Z;
  cn_control_ep_names : list (list Z);
  cn_ep_names : list (list Z);
}.

Definition NCCL_NET_OFI_CTRL_MSG_SHORT_KEY_SIZE : Z := 4.
Definition NCCL_NET_OFI_CTRL_MSG_LONG_KEY_SIZE : Z := 8.
Definition sizeof_ctrl_msg : Z := 48.
Definition offsetof_short_buff_mr_key : Z := 16.
Definition sizeof_close_msg : Z := 24.
Definition sizeof_connection_info : Z := 528.

Definition nccl_net_ofi_rdma_ctrl_msg_size (num_rails : Z) (use_long_rkeys : bool) : Z :=
  let rkey_len := if use_long_rkeys then NCCL_NET_OFI_CTRL_MSG_LONG_KEY_SIZE
                  else NCCL_NET_OFI_CTRL_MSG_SHORT_KEY_SIZE in
  offsetof_short_buff_mr_key + num_rails * rkey_len.

(** What a posted bounce buffer holds once a message has arrived in it. *)
Inductive bounce_msg :=
| BmConn (m : nccl_ofi_rdma_connection_info_t)
| BmConnResp (m : nccl_ofi_rdma_connection_info_t)
| BmCtrl (m : nccl_net_ofi_rdma_ctrl_msg_t)
| BmClose (m : nccl_net_ofi_rdma_close_msg_t)
| BmData.

Definition bounce_msg_type (m : bounce_msg) : nccl_ofi_rdma_msg_type :=
  match m with
  | BmConn _ => NCCL_OFI_RDMA_MSG_CONN
  | BmConnResp _ => NCCL_OFI_RDMA_MSG_CONN_RESP
  | BmCtrl _ => NCCL_OFI_RDMA_MSG_CTRL
  | BmClose _ => NCCL_OFI_RDMA_MSG_CLOSE
  | BmData => NCCL_OFI_RDMA_MSG_INVALID
  end.

(** ** Immediate data carries its three fields *)

Lemma land_mask x n : 0 <= n <= 63 -> Z.land x (u64 (Z.shiftl 1 n) - 1) = x mod 2 ^ n.
Proof.
  intros Hn. rewrite Z.shiftl_mul_pow2, Z.mul_1_l by lia.
  rewrite wrap_small by (split; [apply Z.pow_nonneg; lia|apply Z.pow_lt_mono_r; lia]).
  rewrite <- Z.land_ones by lia. f_equal. rewrite Z.ones_equiv. done.
Qed.

(** Disjoint bit fields: a value below [2^k] and a multiple of [2^k]. *)
Lemma land_field a b k : 0 <= k -> 0 <= a < 2 ^ k -> Z.land a (b * 2 ^ k) = 0.
Proof.
  intros Hk Ha. rewrite <- Z.shiftl_mul_pow2 by done. apply Z.bits_inj'. intros i Hi.
  rewrite Z.land_spec, Z.bits_0. destruct (decide (i < k)).
  - rewrite Z.shiftl_spec_low by lia. apply andb_false_r.
  - destruct (decide (a = 0)) as [->|]; [by rewrite Z.bits_0|].
    rewrite (Z.bits_above_log2 a i); [done|lia|].
    apply Z.log2_lt_pow2; [lia|]. pose proof (Z.pow_le_mono_r 2 k i). lia.
Qed.

Lemma lor_field a b k : 0 <= k -> 0 <= a < 2 ^ k -> Z.lor a (b * 2 ^ k) = a + b * 2 ^ k.
Proof.
  intros Hk Ha. rewrite Z.add_nocarry_lxor, Z.lxor_lor by (by apply land_field). done.
Qed.

Lemma imm_data_eq comm_id seq nseg :
  0 <= comm_id < 2 ^ 18 -> 0 <= seq < 2 ^ 10 -> 0 <= nseg < 2 ^ 4 ->
  GET_RDMA_WRITE_IMM_DATA comm_id seq nseg = seq + comm_id * 2 ^ 10 + nseg * 2 ^ 28.
Proof.
  intros Hc Hs Hn. unfold GET_RDMA_WRITE_IMM_DATA, NCCL_OFI_RDMA_SEQ_BITS, NCCL_OFI_RDMA_COMM_ID_BITS.
  rewrite !Z.shiftl_mul_pow2, (wrap_small 32), (wrap_small 64) by lia.
  rewrite (lor_field seq), lor_field by lia. lia.
Qed.

Lemma imm_data_fields comm_id seq nseg :
  0 <= comm_id < 2 ^ NCCL_OFI_RDMA_COMM_ID_BITS ->
  0 <= seq < 2 ^ NCCL_OFI_RDMA_SEQ_BITS -> 0 <= nseg < 2 ^ NUM_NUM_SEG_BITS ->
  let data := GET_RDMA_WRITE_IMM_DATA comm_id seq nseg in
  GET_COMM_ID_FROM_IMM data = comm_id /\ GET_SEQ_NUM_FROM_IMM data = seq /\
  GET_NUM_SEG_FROM_IMM data = nseg.
Proof.
  intros Hc Hs Hn data. unfold data. rewrite imm_data_eq by done. clear data.
  unfold NCCL_OFI_RDMA_COMM_ID_BITS, NCCL_OFI_RDMA_SEQ_BITS, NUM_NUM_SEG_BITS in *.
  unfold GET_COMM_ID_FROM_IMM, GET_SEQ_NUM_FROM_IMM, GET_NUM_SEG_FROM_IMM,
    COMM_ID_MASK, MSG_SEQ_NUM_MASK, MSG_NUM_SEG_MASK.
  unfold NCCL_OFI_RDMA_COMM_ID_BITS, NCCL_OFI_RDMA_SEQ_BITS, NUM_NUM_SEG_BITS.
  rewrite !land_mask, !Z.shiftr_div_pow2 by lia. change (2 ^ (10 + 18)) with (2 ^ 28).
  split_and!.
  - rewrite <- (Z.div_unique_pos (seq + comm_id * 2 ^ 10 + nseg * 2 ^ 28) (2 ^ 10)
      (comm_id + nseg * 2 ^ 18) seq) by lia. symmetry. apply (Z.mod_unique_pos _ _ nseg); lia.
  - symmetry. apply (Z.mod_unique_pos _ _ (comm_id + nseg * 2 ^ 18)); lia.
  - rewrite <- (Z.div_unique_pos (seq + comm_id * 2 ^ 10 + nseg * 2 ^ 28) (2 ^ 28)
      nseg (seq + comm_id * 2 ^ 10)) by lia. apply Z.mod_small. lia.
Qed.

(** C38. The receiver recovers from the immediate data of a write exactly the
    communicator, message number and segment count the sender put there, and
    the data fits the 32 bits the network carries. *)
Theorem imm_data_roundtrip comm_id seq nseg :
  0 <= comm_id < 2 ^ NCCL_OFI_RDMA_COMM_ID_BITS ->
  0 <= seq < 2 ^ NCCL_OFI_RDMA_SEQ_BITS -> 0 <= nseg < 2 ^ NUM_NUM_SEG_BITS ->
  let data := GET_RDMA_WRITE_IMM_DATA comm_id seq nseg in
  GET_COMM_ID_FROM_IMM data = comm_id /\ GET_SEQ_NUM_FROM_IMM data = seq /\
  GET_NUM_SEG_FROM_IMM data = nseg /\ 0 <= data < 2 ^ 32.
Proof.
  intros Hc Hs Hn. destruct (imm_data_fields comm_id seq nseg Hc Hs Hn) as (H1 & H2 & H3).
  unfold NCCL_OFI_RDMA_COMM_ID_BITS, NCCL_OFI_RDMA_SEQ_BITS, NUM_NUM_SEG_BITS in *.
  split_and!; try done; rewrite imm_data_eq by done; lia.
Qed.

Lemma imm_data_roundtrip_witness :
  let data := GET_RDMA_WRITE_IMM_DATA 262142 1023 4 in
  GET_COMM_ID_FROM_IMM data = 262142 /\ GET_SEQ_NUM_FROM_IMM data = 1023 /\
  GET_NUM_SEG_FROM_IMM data = 4 /\ 0 <= data < 2 ^ 32.
Proof. apply (imm_data_roundtrip 262142 1023 4); split; vm_compute; congruence. Defined.

(** Every control message fits its buffer; one with short keys fits the 32
    bytes the NIC sends inline. *)
Lemma ctrl_msg_size_bounds num_rails long :
  0 <= num_rails <= MAX_NUM_RAILS ->
  nccl_net_ofi_rdma_ctrl_msg_size num_rails long <= sizeof_ctrl_msg /\
  nccl_net_ofi_rdma_ctrl_msg_size num_rails false <= 32.
Proof.
  unfold nccl_net_ofi_rdma_ctrl_msg_size, MAX_NUM_RAILS, sizeof_ctrl_msg,
    offsetof_short_buff_mr_key, NCCL_NET_OFI_CTRL_MSG_LONG_KEY_SIZE,
    NCCL_NET_OFI_CTRL_MSG_SHORT_KEY_SIZE. destruct long; lia.
Qed.

End RdmaWire.
