(* ===== verification/RdmaState.v ===== *)
(** * nccl_ofi_rdma: requests, communicators and the endpoint

    The data structures of nccl_ofi_rdma.h, the state the protocol engine of
    nccl_ofi_rdma.c works on, and the accessors its functions are written with.
    One device with one endpoint is modelled: an [ep] or [device] pointer of the
    source is the [world] itself, a communicator is known by its local
    communicator ID, and a request by its address. *)

From S2P Require Import Prelude StateM NetTypes Allocator Scheduler Msgbuff RdmaWire.
Import Scheduler Msgbuff RdmaWire.

(** ** Requests *)

Inductive nccl_net_ofi_rdma_req_state_t :=
| NCCL_OFI_RDMA_REQ_CREATED
| NCCL_OFI_RDMA_REQ_PENDING
| NCCL_OFI_RDMA_REQ_COMPLETED
| NCCL_OFI_RDMA_REQ_ERROR
| NCCL_OFI_RDMA_REQ_INVALID_STATE.

Inductive nccl_net_ofi_rdma_req_type_t :=
| NCCL_OFI_RDMA_WRITE
| NCCL_OFI_RDMA_READ
| NCCL_OFI_RDMA_SEND
| NCCL_OFI_RDMA_RECV
| NCCL_OFI_RDMA_SEND_CTRL
| NCCL_OFI_RDMA_SEND_CLOSE
| NCCL_OFI_RDMA_RECV_SEGMS
| NCCL_OFI_RDMA_EAGER_COPY
| NCCL_OFI_RDMA_BOUNCE
| NCCL_OFI_RDMA_FLUSH
| NCCL_OFI_RDMA_SEND_CONN
| NCCL_OFI_RDMA_RECV_CONN
| NCCL_OFI_RDMA_RECV_CONN_RESP
| NCCL_OFI_RDMA_SEND_CONN_RESP
| NCCL_OFI_RDMA_INVALID_TYPE.

#[export] Instance req_state_eq_dec : EqDecision nccl_net_ofi_rdma_req_state_t.
Proof. solve_decision. Defined.
#[export] Instance req_type_eq_dec : EqDecision nccl_net_ofi_rdma_req_type_t.
Proof. solve_decision. Defined.

(** The number of rails of a handle is the length of its array. *)
Record nccl_net_ofi_rdma_mr_handle_t := mk_mr_handle {
  mr : list Z;
  control_mr : list Z;
}.

(** A rail of the endpoint: an element of [ep->rails] or [ep->control_rails]. *)
Inductive rail_ref :=
| DataRail (rail_id : Z)
| ControlRail (rail_id : Z).

#[export] Instance rail_ref_eq_dec : EqDecision rail_ref.
Proof. solve_decision. Defined.

Record rdma_req_bounce_data_t := mk_bounce_data {
  bd_bounce_fl_item : Z;
  bd_buff_len : Z;
  bd_recv_len : Z;
  bd_rail : rail_ref;
}.

Record rdma_req_rma_op_data_t := mk_rma_op_data {
  rd_remote_buff : Z;
  rd_remote_mr_key : Z;
  rd_xferred_rail_id : Z;
  rd_buff : Z;
  rd_buff_len : Z;
  rd_desc : Z;
  rd_flags : Z;
  rd_total_num_compls : Z;
}.

Record rdma_req_send_data_t := mk_send_data {
  sd_eager : bool;
  sd_remote_buff : Z;
  sd_remote_len : Z;
  sd_remote_mr_key : list Z;
  sd_wdata : Z;
  sd_xferred_rail_id : Z;
  sd_buff : Z;
  sd_buff_len : Z;
  sd_buff_mr_handle : nccl_net_ofi_rdma_mr_handle_t;
  sd_schedule : Z;
  sd_total_num_compls : Z;
}.

Record rdma_req_send_ctrl_data_t := mk_send_ctrl_data {
  sc_ctrl_fl_item : Z;
  sc_ctrl_schedule : Z;
  sc_recv_req : Z;
}.

Record rdma_req_send_close_data_t := mk_send_close_data {
  cl_ctrl_fl_item : Z;
  cl_ctrl_schedule : Z;
}.

Record rdma_req_eager_copy_data_t := mk_eager_copy_data {
  ec_eager_bounce_req : Z;
  ec_recv_req : Z;
}.

Record rdma_req_recv_segms_data_t := mk_recv_segms_data {
  rs_recv_req : Z;
}.

Record rdma_req_recv_data_t := mk_recv_data {
  rv_dst_buff : Z;
  rv_dst_len : Z;
  rv_dest_mr_handle : nccl_net_ofi_rdma_mr_handle_t;
  rv_send_ctrl_req : Z;
  rv_recv_segms_req : Z;
  rv_eager_copy_req : Z;
  rv_total_num_compls : Z;
}.

Record rdma_req_flush_data_t := mk_flush_data {
  fd_data : Z;
  fd_mr_handle : option nccl_net_ofi_rdma_mr_handle_t;
  fd_total_num_compls : Z;
}.

(** The union of a request; [NoData] is memory that was never written, all
    pointers in it NULL. *)
Inductive req_data :=
| RmaOpData (d : rdma_req_rma_op_data_t)
| SendData (d : rdma_req_send_data_t)
| RecvData (d : rdma_req_recv_data_t)
| SendCtrlData (d : rdma_req_send_ctrl_data_t)
| SendCloseData (d : rdma_req_send_close_data_t)
| EagerCopyData (d : rdma_req_eager_copy_data_t)
| RecvSegmsData (d : rdma_req_recv_segms_data_t)
| FlushData (d : rdma_req_flush_data_t)
| BounceData (d : rdma_req_bounce_data_t)
| NoData.

(** [comm] is the communicator's ID, [None] for the NULL of bounce requests. *)
Record nccl_net_ofi_rdma_req_t := mk_req {
  comm : option Z;
  dev_id : Z;
  msg_seq_num : Z;
  ncompls : Z;
  data : req_data;
  size : Z;
  state : nccl_net_ofi_rdma_req_state_t;
  type : nccl_net_ofi_rdma_req_type_t;
}.

Definition set_comm c r :=
  mk_req c (dev_id r) (msg_seq_num r) (ncompls r) (data r) (size r) (state r) (type r).
Definition set_dev_id i r :=
  mk_req (comm r) i (msg_seq_num r) (ncompls r) (data r) (size r) (state r) (type r).
Definition set_seq n r :=
  mk_req (comm r) (dev_id r) n (ncompls r) (data r) (size r) (state r) (type r).
Definition set_ncompls n r :=
  mk_req (comm r) (dev_id r) (msg_seq_num r) n (data r) (size r) (state r) (type r).
Definition set_data d r :=
  mk_req (comm r) (dev_id r) (msg_seq_num r) (ncompls r) d (size r) (state r) (type r).
Definition set_size n r :=
  mk_req (comm r) (dev_id r) (msg_seq_num r) (ncompls r) (data r) n (state r) (type r).
Definition set_state s r :=
  mk_req (comm r) (dev_id r) (msg_seq_num r) (ncompls r) (data r) (size r) s (type r).
Definition set_type t r :=
  mk_req (comm r) (dev_id r) (msg_seq_num r) (ncompls r) (data r) (size r) (state r) t.

(** ** Communicators *)

Record comm_rail := mk_comm_rail {
  cr_remote_addr : Z;
  cr_local_ep : Z;
  cr_local_addr : Z;
}.

Record nccl_net_ofi_rdma_send_comm_t := mk_send_comm {
  s_num_inflight_reqs : Z;
  s_reqs_fl : pool;
  s_remote_comm_id : Z;
  s_conn_resp_req : Z;
  s_conn_msg : option nccl_ofi_rdma_connection_info_t;
  s_next_msg_seq_num : Z;
  s_msgbuff : nccl_ofi_msgbuff_t;
  s_received_close_message : bool;
  s_n_ctrl_received : Z;
  s_n_ctrl_expected : Z;
  s_comm_active : bool;
  s_rails : list comm_rail;
  s_control_rails : list comm_rail;
  s_num_init_control_rails : Z;
}.

Record nccl_net_ofi_rdma_flush_buffer_t := mk_flush_buffer {
  fb_host_buffer : Z;
  fb_size : Z;
  fb_mr_handle : nccl_net_ofi_rdma_mr_handle_t;
}.

Record nccl_net_ofi_rdma_recv_comm_t := mk_recv_comm {
  r_num_inflight_reqs : Z;
  r_reqs_fl : pool;
  r_remote_comm_id : Z;
  r_flush_buff : nccl_net_ofi_rdma_flush_buffer_t;
  r_next_msg_seq_num : Z;
  r_msgbuff : nccl_ofi_msgbuff_t;
  r_ctrl_buff_fl : pool;
  r_send_close_req : Z;
  r_n_ctrl_sent : Z;
  r_n_ctrl_delivered : Z;
  r_comm_active : bool;
  r_rails : list comm_rail;
  r_control_rails : list comm_rail;
}.

(** [l_req] is the address of the embedded request, [l_r_comm] the ID of the
    receive communicator being set up. *)
Record nccl_net_ofi_rdma_listen_comm_t := mk_listen_comm {
  l_req : Z;
  l_conn_msg : option nccl_ofi_rdma_connection_info_t;
  l_r_comm : option Z;
  l_stage : nccl_ofi_comm_stage_t;
}.

Inductive nccl_net_ofi_comm_t :=
| SendComm (s : nccl_net_ofi_rdma_send_comm_t)
| RecvComm (r : nccl_net_ofi_rdma_recv_comm_t)
| ListenComm (l : nccl_net_ofi_rdma_listen_comm_t).

Definition set_s_inflight n s :=
  mk_send_comm n (s_reqs_fl s) (s_remote_comm_id s) (s_conn_resp_req s) (s_conn_msg s)
    (s_next_msg_seq_num s) (s_msgbuff s) (s_received_close_message s) (s_n_ctrl_received s)
    (s_n_ctrl_expected s) (s_comm_active s) (s_rails s) (s_control_rails s) (s_num_init_control_rails s).
Definition set_s_fl p s :=
  mk_send_comm (s_num_inflight_reqs s) p (s_remote_comm_id s) (s_conn_resp_req s) (s_conn_msg s)
    (s_next_msg_seq_num s) (s_msgbuff s) (s_received_close_message s) (s_n_ctrl_received s)
    (s_n_ctrl_expected s) (s_comm_active s) (s_rails s) (s_control_rails s) (s_num_init_control_rails s).
Definition set_s_conn_msg m s :=
  mk_send_comm (s_num_inflight_reqs s) (s_reqs_fl s) (s_remote_comm_id s) (s_conn_resp_req s) m
    (s_next_msg_seq_num s) (s_msgbuff s) (s_received_close_message s) (s_n_ctrl_received s)
    (s_n_ctrl_expected s) (s_comm_active s) (s_rails s) (s_control_rails s) (s_num_init_control_rails s).
Definition set_s_conn_resp_req q s :=
  mk_send_comm (s_num_inflight_reqs s) (s_reqs_fl s) (s_remote_comm_id s) q (s_conn_msg s)
    (s_next_msg_seq_num s) (s_msgbuff s) (s_received_close_message s) (s_n_ctrl_received s)
    (s_n_ctrl_expected s) (s_comm_active s) (s_rails s) (s_control_rails s) (s_num_init_control_rails s).
Definition set_s_remote_comm_id i s :=
  mk_send_comm (s_num_inflight_reqs s) (s_reqs_fl s) i (s_conn_resp_req s) (s_conn_msg s)
    (s_next_msg_seq_num s) (s_msgbuff s) (s_received_close_message s) (s_n_ctrl_received s)
    (s_n_ctrl_expected s) (s_comm_active s) (s_rails s) (s_control_rails s) (s_num_init_control_rails s).
Definition set_s_rails rs s :=
  mk_send_comm (s_num_inflight_reqs s) (s_reqs_fl s) (s_remote_comm_id s) (s_conn_resp_req s) (s_conn_msg s)
    (s_next_msg_seq_num s) (s_msgbuff s) (s_received_close_message s) (s_n_ctrl_received s)
    (s_n_ctrl_expected s) (s_comm_active s) rs (s_control_rails s) (s_num_init_control_rails s).
Definition set_s_control_rails rs n s :=
  mk_send_comm (s_num_inflight_reqs s) (s_reqs_fl s) (s_remote_comm_id s) (s_conn_resp_req s) (s_conn_msg s)
    (s_next_msg_seq_num s) (s_msgbuff s) (s_received_close_message s) (s_n_ctrl_received s)
    (s_n_ctrl_expected s) (s_comm_active s) (s_rails s) rs n.
Definition set_s_active b s :=
  mk_send_comm (s_num_inflight_reqs s) (s_reqs_fl s) (s_remote_comm_id s) (s_conn_resp_req s) (s_conn_msg s)
    (s_next_msg_seq_num s) (s_msgbuff s) (s_received_close_message s) (s_n_ctrl_received s)
    (s_n_ctrl_expected s) b (s_rails s) (s_control_rails s) (s_num_init_control_rails s).
Definition set_s_next n s :=
  mk_send_comm (s_num_inflight_reqs s) (s_reqs_fl s) (s_remote_comm_id s) (s_conn_resp_req s)
    (s_conn_msg s) n (s_msgbuff s) (s_received_close_message s) (s_n_ctrl_received s)
    (s_n_ctrl_expected s) (s_comm_active s) (s_rails s) (s_control_rails s) (s_num_init_control_rails s).
Definition set_s_msgbuff mb s :=
  mk_send_comm (s_num_inflight_reqs s) (s_reqs_fl s) (s_remote_comm_id s) (s_conn_resp_req s)
    (s_conn_msg s) (s_next_msg_seq_num s) mb (s_received_close_message s) (s_n_ctrl_received s)
    (s_n_ctrl_expected s) (s_comm_active s) (s_rails s) (s_control_rails s) (s_num_init_control_rails s).
Definition set_s_close c n s :=
  mk_send_comm (s_num_inflight_reqs s) (s_reqs_fl s) (s_remote_comm_id s) (s_conn_resp_req s)
    (s_conn_msg s) (s_next_msg_seq_num s) (s_msgbuff s) c (s_n_ctrl_received s) n
    (s_comm_active s) (s_rails s) (s_control_rails s) (s_num_init_control_rails s).
Definition set_s_ctrl_received n s :=
  mk_send_comm (s_num_inflight_reqs s) (s_reqs_fl s) (s_remote_comm_id s) (s_conn_resp_req s)
    (s_conn_msg s) (s_next_msg_seq_num s) (s_msgbuff s) (s_received_close_message s) n
    (s_n_ctrl_expected s) (s_comm_active s) (s_rails s) (s_control_rails s) (s_num_init_control_rails s).

Definition set_r_inflight n r :=
  mk_recv_comm n (r_reqs_fl r) (r_remote_comm_id r) (r_flush_buff r) (r_next_msg_seq_num r)
    (r_msgbuff r) (r_ctrl_buff_fl r) (r_send_close_req r) (r_n_ctrl_sent r) (r_n_ctrl_delivered r)
    (r_comm_active r) (r_rails r) (r_control_rails r).
Definition set_r_fl p r :=
  mk_recv_comm (r_num_inflight_reqs r) p (r_remote_comm_id r) (r_flush_buff r)
    (r_next_msg_seq_num r) (r_msgbuff r) (r_ctrl_buff_fl r) (r_send_close_req r) (r_n_ctrl_sent r)
    (r_n_ctrl_delivered r) (r_comm_active r) (r_rails r) (r_control_rails r).
Definition set_r_next n r :=
  mk_recv_comm (r_num_inflight_reqs r) (r_reqs_fl r) (r_remote_comm_id r) (r_flush_buff r) n
    (r_msgbuff r) (r_ctrl_buff_fl r) (r_send_close_req r) (r_n_ctrl_sent r) (r_n_ctrl_delivered r)
    (r_comm_active r) (r_rails r) (r_control_rails r).
Definition set_r_msgbuff mb r :=
  mk_recv_comm (r_num_inflight_reqs r) (r_reqs_fl r) (r_remote_comm_id r) (r_flush_buff r)
    (r_next_msg_seq_num r) mb (r_ctrl_buff_fl r) (r_send_close_req r) (r_n_ctrl_sent r)
    (r_n_ctrl_delivered r) (r_comm_active r) (r_rails r) (r_control_rails r).
Definition set_r_ctrl_fl p r :=
  mk_recv_comm (r_num_inflight_reqs r) (r_reqs_fl r) (r_remote_comm_id r) (r_flush_buff r)
    (r_next_msg_seq_num r) (r_msgbuff r) p (r_send_close_req r) (r_n_ctrl_sent r)
    (r_n_ctrl_delivered r) (r_comm_active r) (r_rails r) (r_control_rails r).
Definition set_r_close_req q r :=
  mk_recv_comm (r_num_inflight_reqs r) (r_reqs_fl r) (r_remote_comm_id r) (r_flush_buff r)
    (r_next_msg_seq_num r) (r_msgbuff r) (r_ctrl_buff_fl r) q (r_n_ctrl_sent r)
    (r_n_ctrl_delivered r) (r_comm_active r) (r_rails r) (r_control_rails r).
Definition set_r_ctrl_sent n r :=
  mk_recv_comm (r_num_inflight_reqs r) (r_reqs_fl r) (r_remote_comm_id r) (r_flush_buff r)
    (r_next_msg_seq_num r) (r_msgbuff r) (r_ctrl_buff_fl r) (r_send_close_req r) n
    (r_n_ctrl_delivered r) (r_comm_active r) (r_rails r) (r_control_rails r).
Definition set_r_ctrl_delivered n r :=
  mk_recv_comm (r_num_inflight_reqs r) (r_reqs_fl r) (r_remote_comm_id r) (r_flush_buff r)
    (r_next_msg_seq_num r) (r_msgbuff r) (r_ctrl_buff_fl r) (r_send_close_req r) (r_n_ctrl_sent r)
    n (r_comm_active r) (r_rails r) (r_control_rails r).

Definition set_r_active b r :=
  mk_recv_comm (r_num_inflight_reqs r) (r_reqs_fl r) (r_remote_comm_id r) (r_flush_buff r)
    (r_next_msg_seq_num r) (r_msgbuff r) (r_ctrl_buff_fl r) (r_send_close_req r) (r_n_ctrl_sent r)
    (r_n_ctrl_delivered r) b (r_rails r) (r_control_rails r).

Definition set_l_conn_msg m l := mk_listen_comm (l_req l) m (l_r_comm l) (l_stage l).
Definition set_l_r_comm c l := mk_listen_comm (l_req l) (l_conn_msg l) c (l_stage l).
Definition set_l_stage st l := mk_listen_comm (l_req l) (l_conn_msg l) (l_r_comm l) st.

(** ** Endpoint *)

Record nccl_net_ofi_ep_rail_t := mk_rail {
  ofi_ep : Z;
  num_bounce_posted : Z;
  min_bounce_posted : Z;
  max_bounce_posted : Z;
}.

Definition set_posted n r := mk_rail (ofi_ep r) n (min_bounce_posted r) (max_bounce_posted r).

(** What is asked of libfabric, with the arguments of the calls; [ctx] is the
    request a completion will name. The buffer of a free-list item stands for
    the message inside it. *)
Inductive net_op :=
| fi_writedata (ep buf len desc wdata addr raddr key ctx : Z)
| fi_writemsg (ep buf len desc addr raddr key flags ctx : Z)
| fi_senddata (ep buf len desc wdata addr ctx : Z)
| fi_send_ctrl (ep : Z) (msg : nccl_net_ofi_rdma_ctrl_msg_t) (len desc addr ctx : Z)
| fi_send_close (ep : Z) (msg : nccl_net_ofi_rdma_close_msg_t) (len desc addr ctx : Z)
| fi_read (ep buf len desc addr raddr key ctx : Z)
| fi_send_conn (ep : Z) (msg : bounce_msg) (len addr ctx : Z)
| fi_recvmsg (ep item len desc : Z) (more : bool) (ctx : Z).

(** Completion queue entries. [f_*] are the flag bits the plug-in tests; a
    receive completion comes with what the NIC wrote to the bounce buffer. *)
Record fi_cq_data_entry := mk_cqe {
  op_context : Z;
  f_send : bool;
  f_recv : bool;
  f_remote_write : bool;
  f_write : bool;
  f_read : bool;
  f_remote_cq_data : bool;
  e_len : Z;
  e_data : Z;
  e_payload : bounce_msg;
}.

Record fi_cq_err_entry := mk_err {
  err_code : Z;
  err_remote_write : bool;
  err_data : Z;
  err_context : Z;
}.

(** One answer of fi_cq_read, with that of the fi_cq_readerr that follows
    -FI_EAVAIL. [CqAgain], or an exhausted list of answers, is -FI_EAGAIN. *)
Inductive cq_answer :=
| CqAgain
| CqEntries (l : list fi_cq_data_entry)
| CqErrorNotYet
| CqReaderrFailed (rc : Z)
| CqError (e : fi_cq_err_entry)
| CqFailed.

(** The state: memory of the requests in use and of those returned to their
    free list, control and bounce buffers, schedules, communicator table, rails,
    the pending queue (a list, by Deque.v), and the calls made to libfabric. *)
Record world := mk_world {
  reqs : gmap Z nccl_net_ofi_rdma_req_t;
  freed : gmap Z nccl_net_ofi_rdma_req_t;
  ctrl_msgs : gmap Z nccl_net_ofi_rdma_ctrl_msg_t;
  close_msgs : gmap Z nccl_net_ofi_rdma_close_msg_t;
  bounce_bufs : gmap Z bounce_msg;
  comms : gmap Z nccl_net_ofi_comm_t;
  rails : list nccl_net_ofi_ep_rail_t;
  control_rails : list nccl_net_ofi_ep_rail_t;
  pending : list Z;
  sched : sched_state (FL := pool);
  bounce_buff_fl : pool;
  bounce_reqs_fl : pool;
  cq : list cq_answer;
  log : list (net_op * Z);
}.

Definition w_reqs f w := mk_world (f (reqs w)) (freed w) (ctrl_msgs w) (close_msgs w)
  (bounce_bufs w) (comms w) (rails w) (control_rails w) (pending w) (sched w)
  (bounce_buff_fl w) (bounce_reqs_fl w) (cq w) (log w).
Definition w_freed f w := mk_world (reqs w) (f (freed w)) (ctrl_msgs w) (close_msgs w)
  (bounce_bufs w) (comms w) (rails w) (control_rails w) (pending w) (sched w)
  (bounce_buff_fl w) (bounce_reqs_fl w) (cq w) (log w).
Definition w_ctrl_msgs f w := mk_world (reqs w) (freed w) (f (ctrl_msgs w)) (close_msgs w)
  (bounce_bufs w) (comms w) (rails w) (control_rails w) (pending w) (sched w)
  (bounce_buff_fl w) (bounce_reqs_fl w) (cq w) (log w).
Definition w_close_msgs f w := mk_world (reqs w) (freed w) (ctrl_msgs w) (f (close_msgs w))
  (bounce_bufs w) (comms w) (rails w) (control_rails w) (pending w) (sched w)
  (bounce_buff_fl w) (bounce_reqs_fl w) (cq w) (log w).
Definition w_bounce_bufs f w := mk_world (reqs w) (freed w) (ctrl_msgs w) (close_msgs w)
  (f (bounce_bufs w)) (comms w) (rails w) (control_rails w) (pending w)
  (sched w) (bounce_buff_fl w) (bounce_reqs_fl w) (cq w) (log w).
Definition w_sched f w := mk_world (reqs w) (freed w) (ctrl_msgs w) (close_msgs w)
  (bounce_bufs w) (comms w) (rails w) (control_rails w) (pending w) (f (sched w))
  (bounce_buff_fl w) (bounce_reqs_fl w) (cq w) (log w).
Definition w_comms f w := mk_world (reqs w) (freed w) (ctrl_msgs w) (close_msgs w)
  (bounce_bufs w) (f (comms w)) (rails w) (control_rails w) (pending w)
  (sched w) (bounce_buff_fl w) (bounce_reqs_fl w) (cq w) (log w).
Definition w_rails f w := mk_world (reqs w) (freed w) (ctrl_msgs w) (close_msgs w)
  (bounce_bufs w) (comms w) (f (rails w)) (control_rails w) (pending w)
  (sched w) (bounce_buff_fl w) (bounce_reqs_fl w) (cq w) (log w).
Definition w_control_rails f w := mk_world (reqs w) (freed w) (ctrl_msgs w) (close_msgs w)
  (bounce_bufs w) (comms w) (rails w) (f (control_rails w)) (pending w)
  (sched w) (bounce_buff_fl w) (bounce_reqs_fl w) (cq w) (log w).
Definition w_pending f w := mk_world (reqs w) (freed w) (ctrl_msgs w) (close_msgs w)
  (bounce_bufs w) (comms w) (rails w) (control_rails w) (f (pending w))
  (sched w) (bounce_buff_fl w) (bounce_reqs_fl w) (cq w) (log w).
Definition w_bounce_fl f g w := mk_world (reqs w) (freed w) (ctrl_msgs w) (close_msgs w)
  (bounce_bufs w) (comms w) (rails w) (control_rails w) (pending w) (sched w)
  (f (bounce_buff_fl w)) (g (bounce_reqs_fl w)) (cq w) (log w).
Definition w_cq f w := mk_world (reqs w) (freed w) (ctrl_msgs w) (close_msgs w)
  (bounce_bufs w) (comms w) (rails w) (control_rails w) (pending w) (sched w)
  (bounce_buff_fl w) (bounce_reqs_fl w) (f (cq w)) (log w).
Definition w_log f w := mk_world (reqs w) (freed w) (ctrl_msgs w) (close_msgs w)
  (bounce_bufs w) (comms w) (rails w) (control_rails w) (pending w) (sched w)
  (bounce_buff_fl w) (bounce_reqs_fl w) (cq w) (f (log w)).

(** ** What is fixed while the endpoint runs

    Configuration, and libfabric: [fabric log op] is the return code of [op]
    after the calls in [log], any code at all. *)
Class RdmaEnv := {
  base_dev_id : Z;
  num_rails : Z;
  num_control_rails : Z;
  use_long_rkeys : bool;
  bounce_buff_size : Z;
  eager_max_size : Z;
  virt_addr_mr : bool;
  cpu_cache_line_size : Z;
  fabric : list (net_op * Z) -> net_op -> Z;
  fi_mr_key : Z -> Z;
  fi_mr_desc : Z -> Z;
  FI_KEY_NOTAVAIL : Z;
  FI_INJECT : Z;
  (** Registration of the free-list block an entry lies in. *)
  fl_mr_handle : Z -> nccl_net_ofi_rdma_mr_handle_t;
  (** What the array of a schedule holds when the entry is handed out. *)
  entry_xfer_infos : list nccl_net_ofi_xfer_info_t;
}.

(** The functions of the engine are programs of the monad of StateM.v. *)
Abbreviation M := (SM world).

(** ** Access to the state *)

Definition get_req (p : Z) : M nccl_net_ofi_rdma_req_t :=
  let* m := gets reqs in of_option (m !! p).
Definition put_req (p : Z) (r : nccl_net_ofi_rdma_req_t) : M unit := modify (w_reqs <[p := r]>).
Definition upd_req (p : Z) (f : nccl_net_ofi_rdma_req_t -> nccl_net_ofi_rdma_req_t) : M unit :=
  let* r := get_req p in put_req p (f r).

Definition is_type (t : nccl_net_ofi_rdma_req_type_t) (r : nccl_net_ofi_rdma_req_t) : bool :=
  bool_decide (type r = t).
Definition is_state (s : nccl_net_ofi_rdma_req_state_t) (r : nccl_net_ofi_rdma_req_t) : bool :=
  bool_decide (state r = s).

(** The accessors of the union, each with its assertion on the type. *)
Definition get_bounce_data (p : Z) : M rdma_req_bounce_data_t :=
  let* r := get_req p in assert (is_type NCCL_OFI_RDMA_BOUNCE r) ;;;
  match data r with BounceData d => ret d | _ => undefined end.
Definition req_get_rma_op_data (p : Z) (t : nccl_net_ofi_rdma_req_type_t) : M rdma_req_rma_op_data_t :=
  let* r := get_req p in assert (is_type t r) ;;;
  match data r with RmaOpData d => ret d | _ => undefined end.
Definition get_send_data (p : Z) : M rdma_req_send_data_t :=
  let* r := get_req p in assert (is_type NCCL_OFI_RDMA_SEND r) ;;;
  match data r with SendData d => ret d | _ => undefined end.
Definition get_recv_data (p : Z) : M rdma_req_recv_data_t :=
  let* r := get_req p in assert (is_type NCCL_OFI_RDMA_RECV r) ;;;
  match data r with RecvData d => ret d | _ => undefined end.
Definition get_send_ctrl_data (p : Z) : M rdma_req_send_ctrl_data_t :=
  let* r := get_req p in assert (is_type NCCL_OFI_RDMA_SEND_CTRL r) ;;;
  match data r with SendCtrlData d => ret d | _ => undefined end.
Definition req_get_send_close_data (p : Z) : M rdma_req_send_close_data_t :=
  let* r := get_req p in assert (is_type NCCL_OFI_RDMA_SEND_CLOSE r) ;;;
  match data r with SendCloseData d => ret d | _ => undefined end.
Definition get_eager_copy_data (p : Z) : M rdma_req_eager_copy_data_t :=
  let* r := get_req p in assert (is_type NCCL_OFI_RDMA_EAGER_COPY r) ;;;
  match data r with EagerCopyData d => ret d | _ => undefined end.
Definition get_recv_segms_data (p : Z) : M rdma_req_recv_segms_data_t :=
  let* r := get_req p in assert (is_type NCCL_OFI_RDMA_RECV_SEGMS r) ;;;
  match data r with RecvSegmsData d => ret d | _ => undefined end.
Definition get_flush_data (p : Z) : M rdma_req_flush_data_t :=
  let* r := get_req p in assert (is_type NCCL_OFI_RDMA_FLUSH r) ;;;
  match data r with FlushData d => ret d | _ => undefined end.

Definition put_data (p : Z) (d : req_data) : M unit := upd_req p (set_data d).

Definition rdma_device_get_comm (id : Z) : M nccl_net_ofi_comm_t :=
  let* m := gets comms in of_option (m !! id).
Definition rdma_device_get_listen_comm (id : Z) : M nccl_net_ofi_rdma_listen_comm_t :=
  let* c := rdma_device_get_comm id in match c with ListenComm l => ret l | _ => undefined end.
Definition rdma_device_get_send_comm (id : Z) : M nccl_net_ofi_rdma_send_comm_t :=
  let* c := rdma_device_get_comm id in match c with SendComm s => ret s | _ => undefined end.
Definition rdma_device_get_recv_comm (id : Z) : M nccl_net_ofi_rdma_recv_comm_t :=
  let* c := rdma_device_get_comm id in match c with RecvComm r => ret r | _ => undefined end.
Definition rdma_device_set_comm (id : Z) (c : nccl_net_ofi_comm_t) : M unit :=
  modify (w_comms <[id := c]>).

Definition upd_send_comm (id : Z) (f : nccl_net_ofi_rdma_send_comm_t -> nccl_net_ofi_rdma_send_comm_t)
    : M unit :=
  let* s := rdma_device_get_send_comm id in rdma_device_set_comm id (SendComm (f s)).
Definition upd_recv_comm (id : Z) (f : nccl_net_ofi_rdma_recv_comm_t -> nccl_net_ofi_rdma_recv_comm_t)
    : M unit :=
  let* r := rdma_device_get_recv_comm id in rdma_device_set_comm id (RecvComm (f r)).

(** [(nccl_net_ofi_rdma_send_comm_t * ) req->comm] and the like. *)
Definition req_comm (p : Z) : M Z := let* r := get_req p in of_option (comm r).

Definition rail_at {A} (l : list A) (rail_id : Z) : M A :=
  assert (0 <=? rail_id) ;;; of_option (l !! Z.to_nat rail_id).
Definition rdma_send_comm_get_rail (s : nccl_net_ofi_rdma_send_comm_t) (rail_id : Z) : M comm_rail :=
  rail_at (s_rails s) rail_id.
Definition rdma_recv_comm_get_rail (r : nccl_net_ofi_rdma_recv_comm_t) (rail_id : Z) : M comm_rail :=
  rail_at (r_rails r) rail_id.
Definition rdma_recv_comm_get_control_rail (r : nccl_net_ofi_rdma_recv_comm_t) (rail_id : Z)
    : M comm_rail :=
  rail_at (r_control_rails r) rail_id.

Definition get_rail (ref : rail_ref) : M nccl_net_ofi_ep_rail_t :=
  match ref with
  | DataRail i => let* l := gets rails in rail_at l i
  | ControlRail i => let* l := gets control_rails in rail_at l i
  end.
Definition put_rail (ref : rail_ref) (r : nccl_net_ofi_ep_rail_t) : M unit :=
  match ref with
  | DataRail i => modify (w_rails <[Z.to_nat i := r]>)
  | ControlRail i => modify (w_control_rails <[Z.to_nat i := r]>)
  end.
Definition rail_id_of (ref : rail_ref) : Z :=
  match ref with DataRail i | ControlRail i => i end.

(** The pending queue; inserting into the deque cannot fail (Deque.v). *)
Definition pending_insert_back (p : Z) : M Z := modify (w_pending (fun q => q ++ [p])) ;;; ret 0.
Definition pending_insert_front (p : Z) : M Z := modify (w_pending (cons p)) ;;; ret 0.
Definition pending_remove_front : M (option Z) :=
  let* q := gets pending in
  match q with
  | [] => ret None
  | p :: q' => modify (w_pending (fun _ => q')) ;;; ret (Some p)
  end.
Definition pending_isempty : M bool :=
  let* q := gets pending in ret (match q with [] => true | _ => false end).

Section Engine.
Context {E : RdmaEnv}.

(** A call to libfabric: its answer, and its record. *)
Definition post (op : net_op) : M Z :=
  let* l := gets log in
  let rc := fabric l op in
  modify (w_log (fun l => l ++ [(op, rc)])) ;;; ret rc.

(** ** Schedules *)

(** scheduler->get_schedule, the threshold scheduler of Scheduler.v. *)
Definition get_schedule (sz nrails : Z) : M Z :=
  let* st := gets sched in
  let* x := of_option (get_threshold_schedule (EA := pool_allocator (sizeof_schedule num_rails))
                         tt entry_xfer_infos st sz nrails) in
  modify (w_sched (fun _ => snd x)) ;;; ret (fst x).

Definition get_schedule_at (p : Z) : M nccl_net_ofi_schedule_t :=
  let* st := gets sched in of_option (snd st !! p).

(** Returning a schedule twice would corrupt the free list. *)
Definition release_schedule (p : Z) : M unit :=
  get_schedule_at p ;;;
  let* st := gets sched in
  let* st' := of_option (nccl_net_ofi_release_schedule
                           (EA := pool_allocator (sizeof_schedule num_rails)) st p) in
  modify (w_sched (fun _ => st')).

(** ** Allocation of requests *)

Definition zero_nccl_ofi_req (r : nccl_net_ofi_rdma_req_t) : nccl_net_ofi_rdma_req_t :=
  mk_req None (-1) (msg_seq_num r) 0 (data r) 0 NCCL_OFI_RDMA_REQ_CREATED NCCL_OFI_RDMA_INVALID_TYPE.

(** The free list a request is taken from and returned to. *)
Inductive fl_ref :=
| FlSend (id : Z)
| FlRecv (id : Z)
| FlBounce.

Definition fl_pop (fl : fl_ref) : M Z :=
  match fl with
  | FlSend id =>
      let* s := rdma_device_get_send_comm id in
      match s_reqs_fl s with
      | [] => ret NULL
      | p :: l => upd_send_comm id (set_s_fl l) ;;; ret p
      end
  | FlRecv id =>
      let* r := rdma_device_get_recv_comm id in
      match r_reqs_fl r with
      | [] => ret NULL
      | p :: l => upd_recv_comm id (set_r_fl l) ;;; ret p
      end
  | FlBounce =>
      let* l := gets bounce_reqs_fl in
      match l with
      | [] => ret NULL
      | p :: l' => modify (w_bounce_fl id (fun _ => l')) ;;; ret p
      end
  end.

Definition fl_push (fl : fl_ref) (p : Z) : M unit :=
  match fl with
  | FlSend id => upd_send_comm id (fun s => set_s_fl (p :: s_reqs_fl s) s)
  | FlRecv id => upd_recv_comm id (fun r => set_r_fl (p :: r_reqs_fl r) r)
  | FlBounce => modify (w_bounce_fl id (cons p))
  end.

(** A request never used before is zero memory. *)
Definition zero_req : nccl_net_ofi_rdma_req_t :=
  mk_req None 0 0 0 NoData 0 NCCL_OFI_RDMA_REQ_CREATED NCCL_OFI_RDMA_WRITE.

(** The lock of a request initialises without error. *)
Definition allocate_req (fl : fl_ref) : M Z :=
  let* p := fl_pop fl in
  if p =? NULL then ret NULL
  else
    let* f := gets freed in
    let old := match f !! p with Some r => r | None => zero_req end in
    put_req p (zero_nccl_ofi_req old) ;;; ret p.

(** [inflight] says whether a counter was passed; the request must be in use,
    for returning an entry twice corrupts the free list. *)
Definition free_base_req (inflight : bool) (fl : fl_ref) (p : Z) (dec_inflight_reqs : bool) : M Z :=
  if p =? NULL then ret (- EINVAL)
  else
    let* r := get_req p in
    modify (w_reqs (delete p)) ;;;
    modify (w_freed <[p := zero_nccl_ofi_req r]>) ;;;
    fl_push fl p ;;;
    (if dec_inflight_reqs && inflight then
       match fl with
       | FlSend id => upd_send_comm id (fun s => set_s_inflight (u64 (s_num_inflight_reqs s - 1)) s)
       | FlRecv id => upd_recv_comm id (fun r => set_r_inflight (u64 (r_num_inflight_reqs r - 1)) r)
       | FlBounce => ret tt
       end
     else ret tt) ;;;
    ret 0.

(** Returning a control buffer to [r_comm->ctrl_buff_fl]. *)
Definition ctrl_buff_free (id item : Z) : M unit :=
  modify (w_ctrl_msgs (delete item)) ;;; modify (w_close_msgs (delete item)) ;;;
  upd_recv_comm id (fun r => set_r_ctrl_fl (item :: r_ctrl_buff_fl r) r).

Definition ctrl_buff_alloc (id : Z) : M Z :=
  let* r := rdma_device_get_recv_comm id in
  match r_ctrl_buff_fl r with
  | [] => ret NULL
  | p :: l => upd_recv_comm id (set_r_ctrl_fl l) ;;; ret p
  end.

Definition free_write_req (p : Z) (dec : bool) : M Z :=
  let* r := get_req p in assert (is_type NCCL_OFI_RDMA_WRITE r) ;;;
  let* c := req_comm p in
  free_base_req true (FlSend c) p dec.

Definition free_read_req (p : Z) (dec : bool) : M Z :=
  let* r := get_req p in assert (is_type NCCL_OFI_RDMA_READ r) ;;;
  let* c := req_comm p in
  free_base_req true (FlRecv c) p dec.

Definition set_sd_schedule s d :=
  mk_send_data (sd_eager d) (sd_remote_buff d) (sd_remote_len d) (sd_remote_mr_key d) (sd_wdata d)
    (sd_xferred_rail_id d) (sd_buff d) (sd_buff_len d) (sd_buff_mr_handle d) s
    (sd_total_num_compls d).

Definition free_send_req (p : Z) (dec : bool) : M Z :=
  let* c := req_comm p in
  let* d := get_send_data p in
  (if negb (sd_schedule d =? NULL) then
     release_schedule (sd_schedule d) ;;; put_data p (SendData (set_sd_schedule NULL d))
   else ret tt) ;;;
  free_base_req true (FlSend c) p dec.

Definition free_recv_segms_req (p : Z) (dec : bool) : M Z :=
  let* r := get_req p in assert (is_type NCCL_OFI_RDMA_RECV_SEGMS r) ;;;
  let* c := req_comm p in
  free_base_req true (FlRecv c) p dec.

Definition free_send_ctrl_req (p : Z) (dec : bool) : M Z :=
  let* c := req_comm p in
  let* d := get_send_ctrl_data p in
  (if negb (sc_ctrl_schedule d =? NULL) then
     release_schedule (sc_ctrl_schedule d) ;;;
     put_data p (SendCtrlData (mk_send_ctrl_data (sc_ctrl_fl_item d) NULL (sc_recv_req d)))
   else ret tt) ;;;
  (if negb (sc_ctrl_fl_item d =? NULL) then
     ctrl_buff_free c (sc_ctrl_fl_item d) ;;;
     put_data p (SendCtrlData (mk_send_ctrl_data NULL NULL (sc_recv_req d)))
   else ret tt) ;;;
  free_base_req true (FlRecv c) p dec.

Definition free_send_close_req (p : Z) (dec : bool) : M Z :=
  let* c := req_comm p in
  let* d := req_get_send_close_data p in
  (if negb (cl_ctrl_schedule d =? NULL) then
     release_schedule (cl_ctrl_schedule d) ;;;
     put_data p (SendCloseData (mk_send_close_data (cl_ctrl_fl_item d) NULL))
   else ret tt) ;;;
  (if negb (cl_ctrl_fl_item d =? NULL) then
     ctrl_buff_free c (cl_ctrl_fl_item d) ;;;
     put_data p (SendCloseData (mk_send_close_data NULL NULL))
   else ret tt) ;;;
  free_base_req true (FlRecv c) p dec.

Definition free_eager_copy_req (p : Z) (dec : bool) : M Z :=
  let* r := get_req p in assert (is_type NCCL_OFI_RDMA_EAGER_COPY r) ;;;
  let* c := req_comm p in
  free_base_req true (FlRecv c) p dec.

Definition free_flush_req (p : Z) (dec : bool) : M Z :=
  let* r := get_req p in assert (is_type NCCL_OFI_RDMA_FLUSH r) ;;;
  let* c := req_comm p in
  free_base_req true (FlRecv c) p dec.

Definition free_send_comm_connection_req (p : Z) (dec : bool) : M Z :=
  let* r := get_req p in
  assert (is_type NCCL_OFI_RDMA_SEND_CONN r || is_type NCCL_OFI_RDMA_RECV_CONN_RESP r) ;;;
  let* c := req_comm p in
  free_base_req true (FlSend c) p dec.

Definition free_invalid (p : Z) (dec : bool) : M Z := ret (- EINVAL).

Definition free_bounce_req (p : Z) (dec : bool) : M Z :=
  assert (negb dec) ;;;
  let* d := get_bounce_data p in
  (if negb (bd_bounce_fl_item d =? NULL) then
     modify (w_bounce_fl (cons (bd_bounce_fl_item d)) id)
   else ret tt) ;;;
  free_base_req false FlBounce p false.

(** A child of a receive request is freed through its own [free]. *)
Definition free_child (free : Z -> bool -> M Z) (child : Z) (k : M Z) : M Z :=
  if negb (child =? NULL) then
    let* rc := free child false in
    if negb (rc =? 0) then ret rc else k
  else k.

Definition free_recv_req (p : Z) (dec : bool) : M Z :=
  let* c := req_comm p in
  let* d := get_recv_data p in
  free_child free_send_ctrl_req (rv_send_ctrl_req d)
    (free_child free_recv_segms_req (rv_recv_segms_req d)
       (free_child free_eager_copy_req (rv_eager_copy_req d)
          (free_base_req true (FlRecv c) p dec))).

(** [req->free]: each constructor of a request stores the function of its
    type. *)
Definition req_free (p : Z) (dec : bool) : M Z :=
  let* r := get_req p in
  match type r with
  | NCCL_OFI_RDMA_WRITE => free_write_req p dec
  | NCCL_OFI_RDMA_READ => free_read_req p dec
  | NCCL_OFI_RDMA_SEND => free_send_req p dec
  | NCCL_OFI_RDMA_RECV => free_recv_req p dec
  | NCCL_OFI_RDMA_SEND_CTRL => free_send_ctrl_req p dec
  | NCCL_OFI_RDMA_SEND_CLOSE => free_send_close_req p dec
  | NCCL_OFI_RDMA_RECV_SEGMS => free_recv_segms_req p dec
  | NCCL_OFI_RDMA_EAGER_COPY => free_eager_copy_req p dec
  | NCCL_OFI_RDMA_BOUNCE => free_bounce_req p dec
  | NCCL_OFI_RDMA_FLUSH => free_flush_req p dec
  | NCCL_OFI_RDMA_SEND_CONN | NCCL_OFI_RDMA_RECV_CONN_RESP => free_send_comm_connection_req p dec
  | NCCL_OFI_RDMA_RECV_CONN | NCCL_OFI_RDMA_SEND_CONN_RESP => free_invalid p dec
  | NCCL_OFI_RDMA_INVALID_TYPE => undefined
  end.

End Engine.

(** ** Reasoning about the monad *)

Lemma get_req_ok p w r : reqs w !! p = Some r -> get_req p w = Some (r, w).
Proof. intros H. unfold get_req, bind, gets. by rewrite H. Qed.

Lemma upd_req_ok p f w r :
  reqs w !! p = Some r -> upd_req p f w = Some (tt, w_reqs <[p := f r]> w).
Proof. intros H. unfold upd_req. by rewrite (bind_ok _ _ _ _ _ (get_req_ok p w r H)). Qed.

Lemma put_data_ok p d w r :
  reqs w !! p = Some r -> put_data p d w = Some (tt, w_reqs <[p := set_data d r]> w).
Proof. apply upd_req_ok. Qed.

Lemma req_comm_ok p w r c :
  reqs w !! p = Some r -> comm r = Some c -> req_comm p w = Some (c, w).
Proof. intros H Hc. unfold req_comm. rewrite (bind_ok _ _ _ _ _ (get_req_ok p w r H)), Hc. done. Qed.

Lemma rail_at_ok {A} (l : list A) i x w :
  0 <= i -> l !! Z.to_nat i = Some x -> rail_at l i w = Some (x, w).
Proof.
  intros Hi Hl. unfold rail_at, assert. rewrite (proj2 (Z.leb_le 0 i) Hi), Hl. done.
Qed.

(** The accessors of the union, on a request of the expected type. *)
Ltac solve_accessor :=
  let H := fresh in let Ht := fresh in let Hd := fresh in
  intros H Ht Hd;
  lazymatch goal with |- ?f ?p ?w = _ => unfold f; rewrite (bind_ok _ _ _ _ _ (get_req_ok p w _ H)) end;
  unfold is_type; by rewrite bool_decide_true, Hd by done.

Lemma get_send_data_ok p w r d :
  reqs w !! p = Some r -> type r = NCCL_OFI_RDMA_SEND -> data r = SendData d ->
  get_send_data p w = Some (d, w).
Proof. solve_accessor. Qed.

Lemma get_recv_data_ok p w r d :
  reqs w !! p = Some r -> type r = NCCL_OFI_RDMA_RECV -> data r = RecvData d ->
  get_recv_data p w = Some (d, w).
Proof. solve_accessor. Qed.

Lemma get_bounce_data_ok p w r d :
  reqs w !! p = Some r -> type r = NCCL_OFI_RDMA_BOUNCE -> data r = BounceData d ->
  get_bounce_data p w = Some (d, w).
Proof. solve_accessor. Qed.

Lemma get_send_ctrl_data_ok p w r d :
  reqs w !! p = Some r -> type r = NCCL_OFI_RDMA_SEND_CTRL -> data r = SendCtrlData d ->
  get_send_ctrl_data p w = Some (d, w).
Proof. solve_accessor. Qed.

Lemma get_recv_segms_data_ok p w r d :
  reqs w !! p = Some r -> type r = NCCL_OFI_RDMA_RECV_SEGMS -> data r = RecvSegmsData d ->
  get_recv_segms_data p w = Some (d, w).
Proof. solve_accessor. Qed.

Lemma req_get_send_close_data_ok p w r d :
  reqs w !! p = Some r -> type r = NCCL_OFI_RDMA_SEND_CLOSE -> data r = SendCloseData d ->
  req_get_send_close_data p w = Some (d, w).
Proof. solve_accessor. Qed.

Lemma get_flush_data_ok p w r d :
  reqs w !! p = Some r -> type r = NCCL_OFI_RDMA_FLUSH -> data r = FlushData d ->
  get_flush_data p w = Some (d, w).
Proof. solve_accessor. Qed.

Lemma get_eager_copy_data_ok p w r d :
  reqs w !! p = Some r -> type r = NCCL_OFI_RDMA_EAGER_COPY -> data r = EagerCopyData d ->
  get_eager_copy_data p w = Some (d, w).
Proof. solve_accessor. Qed.

Lemma get_send_comm_ok c w s :
  comms w !! c = Some (SendComm s) -> rdma_device_get_send_comm c w = Some (s, w).
Proof.
  intros H. unfold rdma_device_get_send_comm, rdma_device_get_comm, bind, gets. by rewrite H.
Qed.

Lemma get_recv_comm_ok c w r :
  comms w !! c = Some (RecvComm r) -> rdma_device_get_recv_comm c w = Some (r, w).
Proof.
  intros H. unfold rdma_device_get_recv_comm, rdma_device_get_comm, bind, gets. by rewrite H.
Qed.

Lemma upd_send_comm_ok c f w s :
  comms w !! c = Some (SendComm s) ->
  upd_send_comm c f w = Some (tt, w_comms <[c := SendComm (f s)]> w).
Proof. intros H. unfold upd_send_comm. by rewrite (bind_ok _ _ _ _ _ (get_send_comm_ok c w s H)). Qed.

Lemma upd_recv_comm_ok c f w r :
  comms w !! c = Some (RecvComm r) ->
  upd_recv_comm c f w = Some (tt, w_comms <[c := RecvComm (f r)]> w).
Proof. intros H. unfold upd_recv_comm. by rewrite (bind_ok _ _ _ _ _ (get_recv_comm_ok c w r H)). Qed.

(** Decompose a function; what is left are the updates, settled by [done] when
    they are of another field. *)
Ltac solve_keeps :=
  repeat first
    [ solve [eauto with keeps]
    | apply keeps_bind; [|intros] | apply keeps_ret | apply keeps_gets | apply keeps_undefined
    | apply keeps_modify; by intros
    | progress cbn beta iota
    | rewrite andb_false_r
    | match goal with |- keeps _ (match ?x with _ => _ end) => destruct x end
    | progress unfold get_req, put_req, upd_req, put_data, of_option, assert, rail_at,
        get_bounce_data, req_get_rma_op_data, get_send_data, get_recv_data, get_send_ctrl_data,
        req_get_send_close_data, get_eager_copy_data, get_recv_segms_data, get_flush_data,
        rdma_device_get_comm, rdma_device_get_send_comm, rdma_device_get_recv_comm,
        rdma_device_get_listen_comm, rdma_device_set_comm, upd_send_comm, upd_recv_comm, req_comm,
        rdma_send_comm_get_rail, rdma_recv_comm_get_rail, rdma_recv_comm_get_control_rail,
        get_rail, put_rail, get_schedule_at, post ].

(** ** A small endpoint for examples

    Two rails, one control rail; libfabric answers its [i]-th call with the
    [i]-th of [codes], then with success. *)

Definition ex_env (codes : list Z) : RdmaEnv := {|
  base_dev_id := 0; num_rails := 2; num_control_rails := 1; use_long_rkeys := false;
  bounce_buff_size := 8192; eager_max_size := 8192; virt_addr_mr := true; cpu_cache_line_size := 64;
  fabric := fun l _ => nth (length l) codes 0;
  fi_mr_key := fun m => m + 100; fi_mr_desc := fun m => m + 200;
  FI_KEY_NOTAVAIL := 2 ^ 64 - 1; FI_INJECT := 2 ^ 25;
  fl_mr_handle := fun _ => mk_mr_handle [1; 2] [3];
  entry_xfer_infos := [mk_xfer 0 0 0; mk_xfer 0 0 0];
|}.

Definition ex_rails : list comm_rail := [mk_comm_rail 41 31 51; mk_comm_rail 42 32 52].

(** A scheduler with two free schedules, at 1024 and 2048. *)
Definition ex_sched : sched_state (FL := pool) := (mk_scheduler [1024; 2048] 0 131072, ∅).

Definition ex_world : world :=
  mk_world ∅ ∅ ∅ ∅ ∅ ∅ [mk_rail 31 0 1 2; mk_rail 32 0 1 2] [mk_rail 33 0 1 2] [] ex_sched [] [] [] [].

Definition ex_handle : nccl_net_ofi_rdma_mr_handle_t := mk_mr_handle [11; 12] [13].

Definition ex_msgbuff : nccl_ofi_msgbuff_t :=
  match nccl_ofi_msgbuff_init true malloc_example 0 4 4 with
  | Some mb => mb
  | None => mk_msgbuff [] 0 0 0 0 0
  end.

Lemma ex_msgbuff_rel : mb_rel ex_msgbuff window_init.
Proof.
  apply (msgbuff_init_rel malloc_example 4 4 ex_msgbuff); [|lia|lia|by exists 4|reflexivity].
  intros k l Hk [= <-]. rewrite length_replicate. lia.
Qed.

(** Communicator 7 of a sender and communicator 9 of a receiver. *)
Definition ex_send_comm : nccl_net_ofi_rdma_send_comm_t :=
  mk_send_comm 0 [500; 501] 9 NULL None 0 ex_msgbuff false 0 0 true ex_rails ex_rails 2.
Definition ex_recv_comm : nccl_net_ofi_rdma_recv_comm_t :=
  mk_recv_comm 0 [600; 601; 602] 7 (mk_flush_buffer 4096 4 ex_handle) 0 ex_msgbuff [700; 701] NULL 0 0
    true ex_rails ex_rails.
