(* ===== verification/RdmaPost.v ===== *)
(** * nccl_ofi_rdma: posting requests to the network

    The post_* functions, send_progress and receive_progress, the queue of
    requests the network was too busy for, and the accounting of bounce buffers.
    Every call to libfabric may fail with any code. *)

From S2P Require Import Prelude StateM NetTypes OfiMath Scheduler RdmaWire.
Import Scheduler RdmaWire.
From S2P Require Import RdmaState.

Section Post.
Context {E : RdmaEnv}.

(** ** Send side *)

Definition post_rma_write (req : Z) : M Z :=
  let* c := req_comm req in
  let* s_comm := rdma_device_get_send_comm c in
  let* comm_rail := rdma_send_comm_get_rail s_comm 0 in
  let* d := req_get_rma_op_data req NCCL_OFI_RDMA_WRITE in
  post (fi_writemsg (cr_local_ep comm_rail) (rd_buff d) (rd_buff_len d) (rd_desc d)
          (cr_remote_addr comm_rail) (rd_remote_buff d) (rd_remote_mr_key d) (rd_flags d) req).

Definition post_rdma_write (req : Z) (comm_rail : comm_rail) (xfer_info : nccl_net_ofi_xfer_info_t)
    : M Z :=
  let* d := get_send_data req in
  let rail_id := Scheduler.rail_id xfer_info in
  let* rail_mr_handle := rail_at (mr (sd_buff_mr_handle d)) rail_id in
  let* key := rail_at (sd_remote_mr_key d) rail_id in
  post (fi_writedata (cr_local_ep comm_rail) (u64 (sd_buff d + offset xfer_info))
          (msg_size xfer_info) (fi_mr_desc rail_mr_handle) (sd_wdata d) (cr_remote_addr comm_rail)
          (u64 (sd_remote_buff d + offset xfer_info)) key req).

Definition post_rdma_eager_send (req : Z) (comm_rail : comm_rail)
    (xfer_info : nccl_net_ofi_xfer_info_t) : M Z :=
  let* d := get_send_data req in
  let rail_id := Scheduler.rail_id xfer_info in
  let* rail_mr_handle := rail_at (mr (sd_buff_mr_handle d)) rail_id in
  post (fi_senddata (cr_local_ep comm_rail) (u64 (sd_buff d + offset xfer_info))
          (msg_size xfer_info) (fi_mr_desc rail_mr_handle) (sd_wdata d)
          (cr_remote_addr comm_rail) req).

Definition post_bounce_buffer (req : Z) (ep_rail : rail_ref) (set_fi_more : bool) : M Z :=
  let* d := get_bounce_data req in
  let* rail_mr_handle := rail_at (mr (fl_mr_handle (bd_bounce_fl_item d))) (rail_id_of (bd_rail d)) in
  upd_req req (set_state NCCL_OFI_RDMA_REQ_CREATED) ;;;
  let* rail := get_rail ep_rail in
  post (fi_recvmsg (ofi_ep rail) (bd_bounce_fl_item d) (bd_buff_len d) (fi_mr_desc rail_mr_handle)
          set_fi_more req).

Definition set_sd_xferred n d :=
  mk_send_data (sd_eager d) (sd_remote_buff d) (sd_remote_len d) (sd_remote_mr_key d) (sd_wdata d)
    n (sd_buff d) (sd_buff_len d) (sd_buff_mr_handle d) (sd_schedule d) (sd_total_num_compls d).

Definition set_rd_xferred n d :=
  mk_rma_op_data (rd_remote_buff d) (rd_remote_mr_key d) n (rd_buff d) (rd_buff_len d) (rd_desc d)
    (rd_flags d) (rd_total_num_compls d).

(** The loop of send_progress over the stripes from [xferred_rail_id] on, here
    the list of those stripes. *)
Fixpoint post_stripes (req c : Z) (xfers : list nccl_net_ofi_xfer_info_t) : M Z :=
  match xfers with
  | [] => ret 0
  | xfer_info :: xfers' =>
      let* s_comm := rdma_device_get_send_comm c in
      let* comm_rail := rdma_send_comm_get_rail s_comm (Scheduler.rail_id xfer_info) in
      let* rc := post_rdma_write req comm_rail xfer_info in
      if rc =? 0 then
        let* d := get_send_data req in
        put_data req (SendData (set_sd_xferred (u64 (sd_xferred_rail_id d + 1)) d)) ;;;
        post_stripes req c xfers'
      else ret rc
  end.

Definition send_progress (req : Z) : M Z :=
  let* r := get_req req in
  match type r with
  | NCCL_OFI_RDMA_SEND =>
      let* c := req_comm req in
      let* d := get_send_data req in
      if sd_schedule d =? NULL then ret (- ENOTSUP)
      else
        let* schedule := get_schedule_at (sd_schedule d) in
        assert (negb (sd_eager d) || (num_xfer_infos schedule =? 1)) ;;;
        if sd_eager d then
          let* xfer_info := rail_at (rail_xfer_infos schedule) 0 in
          let* s_comm := rdma_device_get_send_comm c in
          let* comm_rail := rdma_send_comm_get_rail s_comm (Scheduler.rail_id xfer_info) in
          post_rdma_eager_send req comm_rail xfer_info
        else
          assert (num_xfer_infos schedule <=? Z.of_nat (length (rail_xfer_infos schedule))) ;;;
          post_stripes req c (drop (Z.to_nat (sd_xferred_rail_id d)) (stripes schedule))
  | NCCL_OFI_RDMA_WRITE =>
      let* rc := post_rma_write req in
      (if rc =? 0 then
         let* d := req_get_rma_op_data req NCCL_OFI_RDMA_WRITE in
         put_data req (RmaOpData (set_rd_xferred (u64 (rd_xferred_rail_id d + 1)) d))
       else ret tt) ;;;
      ret rc
  | NCCL_OFI_RDMA_BOUNCE =>
      let* d := get_bounce_data req in
      post_bounce_buffer req (bd_rail d) false
  | _ => ret (- EINVAL)
  end.

(** ** Receive side *)

Definition post_rdma_ctrl (req : Z) : M Z :=
  let* c := req_comm req in
  let* d := get_send_ctrl_data req in
  let* r_comm := rdma_device_get_recv_comm c in
  let item := sc_ctrl_fl_item d in
  let* rail_id :=
    if negb (sc_ctrl_schedule d =? NULL) then
      let* schedule := get_schedule_at (sc_ctrl_schedule d) in
      let* xfer_info := rail_at (rail_xfer_infos schedule) 0 in
      ret (Scheduler.rail_id xfer_info)
    else ret 0 in
  let* comm_rail := rdma_recv_comm_get_control_rail r_comm rail_id in
  let* rail_mr := rail_at (control_mr (fl_mr_handle item)) rail_id in
  let* msgs := gets ctrl_msgs in
  let* msg := of_option (msgs !! item) in
  post (fi_send_ctrl (cr_local_ep comm_rail) msg
          (nccl_net_ofi_rdma_ctrl_msg_size num_rails use_long_rkeys) (fi_mr_desc rail_mr)
          (cr_remote_addr comm_rail) req).

Definition post_close_msg (req : Z) : M Z :=
  let* c := req_comm req in
  let* d := req_get_send_close_data req in
  let* r_comm := rdma_device_get_recv_comm c in
  let* schedule := get_schedule_at (cl_ctrl_schedule d) in
  let* xfer_info := rail_at (rail_xfer_infos schedule) 0 in
  let rail_id := Scheduler.rail_id xfer_info in
  let* comm_rail := rdma_recv_comm_get_rail r_comm rail_id in
  let item := cl_ctrl_fl_item d in
  let* rail_mr := rail_at (mr (fl_mr_handle item)) rail_id in
  upd_req req (set_state NCCL_OFI_RDMA_REQ_PENDING) ;;;
  let* msgs := gets close_msgs in
  let* msg := of_option (msgs !! item) in
  post (fi_send_close (cr_local_ep comm_rail) msg sizeof_close_msg (fi_mr_desc rail_mr)
          (cr_remote_addr comm_rail) req).

Definition set_bd_recv_len n d :=
  mk_bounce_data (bd_bounce_fl_item d) (bd_buff_len d) n (bd_rail d).

Definition post_eager_copy (req : Z) : M Z :=
  let* c := req_comm req in
  let* r_comm := rdma_device_get_recv_comm c in
  let* ec := get_eager_copy_data req in
  let* bd := get_bounce_data (ec_eager_bounce_req ec) in
  let* rv := get_recv_data (ec_recv_req ec) in
  (if rv_dst_len rv <? bd_recv_len bd then
     put_data (ec_eager_bounce_req ec) (BounceData (set_bd_recv_len (rv_dst_len rv) bd))
   else ret tt) ;;;
  let recv_len := if rv_dst_len rv <? bd_recv_len bd then rv_dst_len rv else bd_recv_len bd in
  let bounce_rail_id := rail_id_of (bd_rail bd) in
  let* comm_rail := rdma_recv_comm_get_rail r_comm bounce_rail_id in
  let* dest_mr := rail_at (mr (rv_dest_mr_handle rv)) bounce_rail_id in
  let* bounce_mr := rail_at (mr (fl_mr_handle (bd_bounce_fl_item bd))) bounce_rail_id in
  let bounce_key := fi_mr_key bounce_mr in
  if bounce_key =? FI_KEY_NOTAVAIL then ret (- EIO)
  else post (fi_read (cr_local_ep comm_rail) (rv_dst_buff rv) recv_len (fi_mr_desc dest_mr)
               (cr_local_addr comm_rail) (bd_bounce_fl_item bd) bounce_key req).

(** The loop of post_flush_req: the rails left, and the code of the last read. *)
Fixpoint flush_rails (req : Z) (r_comm : nccl_net_ofi_rdma_recv_comm_t) (fd : rdma_req_flush_data_t)
    (rail_ids : list Z) (rc : Z) : M Z :=
  match rail_ids with
  | [] => ret rc
  | rail_id :: rail_ids' =>
      let f_buff := r_flush_buff r_comm in
      let* comm_rail := rdma_recv_comm_get_rail r_comm rail_id in
      let* flush_mr := rail_at (mr (fb_mr_handle f_buff)) rail_id in
      let* cuda_key :=
        match fd_mr_handle fd with
        | None => ret (Some 0)
        | Some h =>
            let* m := rail_at (mr h) rail_id in
            ret (if fi_mr_key m =? FI_KEY_NOTAVAIL then None else Some (fi_mr_key m))
        end in
      match cuda_key with
      | None => ret (- FI_ENODATA)
      | Some key =>
          let* rc := post (fi_read (cr_local_ep comm_rail)
                             (u64 (fb_host_buffer f_buff + cpu_cache_line_size * rail_id))
                             (fb_size f_buff) (fi_mr_desc flush_mr) (cr_local_addr comm_rail)
                             (if virt_addr_mr then fd_data fd else 0) key req) in
          if negb (rc =? 0) && negb (rc =? - FI_EAGAIN) then ret rc
          else flush_rails req r_comm fd rail_ids' rc
      end
  end.

Definition rail_ids : list Z := seqZ 0 num_rails.

Definition post_flush_req (req : Z) : M Z :=
  let* c := req_comm req in
  let* r_comm := rdma_device_get_recv_comm c in
  let* fd := get_flush_data req in
  flush_rails req r_comm fd rail_ids 0.

Definition post_rma_read (req : Z) : M Z :=
  let* d := req_get_rma_op_data req NCCL_OFI_RDMA_READ in
  let* c := req_comm req in
  let* r_comm := rdma_device_get_recv_comm c in
  let* comm_rail := rdma_recv_comm_get_rail r_comm 0 in
  post (fi_read (cr_local_ep comm_rail) (rd_buff d) (rd_buff_len d) (rd_desc d)
          (cr_remote_addr comm_rail) (rd_remote_buff d) (rd_remote_mr_key d) req).

Definition receive_progress (req : Z) (add_to_pending : bool) : M Z :=
  let* r := get_req req in
  let progress (m : M Z) : M Z :=
    let* rc := m in
    if (rc =? - FI_EAGAIN) && add_to_pending then pending_insert_back req else ret rc in
  match type r with
  | NCCL_OFI_RDMA_EAGER_COPY => progress (post_eager_copy req)
  | NCCL_OFI_RDMA_SEND_CTRL => progress (post_rdma_ctrl req)
  | NCCL_OFI_RDMA_SEND_CLOSE => progress (post_close_msg req)
  | NCCL_OFI_RDMA_FLUSH => progress (post_flush_req req)
  | NCCL_OFI_RDMA_READ => progress (post_rma_read req)
  | _ => ret (- EINVAL)
  end.

(** ** The pending queue *)

(** What process_pending_reqs does with the request at the front; [None] is the
    [return -EINVAL] of an unexpected type. *)
Definition repost (req : Z) : M (option Z) :=
  let* r := get_req req in
  match type r with
  | NCCL_OFI_RDMA_WRITE | NCCL_OFI_RDMA_SEND | NCCL_OFI_RDMA_BOUNCE =>
      let* rc := send_progress req in ret (Some rc)
  | NCCL_OFI_RDMA_READ | NCCL_OFI_RDMA_EAGER_COPY | NCCL_OFI_RDMA_SEND_CTRL
  | NCCL_OFI_RDMA_FLUSH =>
      let* rc := receive_progress req false in ret (Some rc)
  | _ => ret None
  end.

(** The [while (true)] loop; each iteration that does not leave it shortens the
    queue, so the length of the queue is fuel enough. *)
Fixpoint pending_loop (fuel : nat) : M Z :=
  match fuel with
  | O => undefined
  | S fuel' =>
      let* elem := pending_remove_front in
      match elem with
      | None => ret 0
      | Some req =>
          let* res := repost req in
          match res with
          | None => ret (- EINVAL)
          | Some rc =>
              if negb (rc =? 0) && negb (rc =? - FI_EAGAIN) then ret rc
              else if rc =? - FI_EAGAIN then pending_insert_front req
              else pending_loop fuel'
          end
      end
  end.

Definition process_pending_reqs : M Z :=
  let* q := gets pending in pending_loop (S (length q)).

(** ** Bounce buffers *)

(** The union keeps what the entry held until the buffer has been allocated:
    releasing the request before that reads its stale [bounce_fl_item] and [ep]. *)
Definition alloc_bounce_req (rail : rail_ref) : M Z :=
  let* req := allocate_req FlBounce in
  if req =? NULL then ret NULL
  else
    upd_req req (fun r => set_dev_id base_dev_id (set_type NCCL_OFI_RDMA_BOUNCE (set_comm None r))) ;;;
    let* fl := gets bounce_buff_fl in
    match fl with
    | [] => free_bounce_req req false ;;; ret NULL
    | item :: fl' =>
        modify (w_bounce_fl (fun _ => fl') id) ;;;
        put_data req (BounceData (mk_bounce_data item bounce_buff_size 0 rail)) ;;;
        ret req
    end.

Definition handle_bounce_eagain (rail : rail_ref) (req num_buffs_failed : Z) : M Z :=
  let* rc := pending_insert_back req in
  if negb (rc =? 0) then ret rc
  else
    let* r := get_rail rail in
    assert (num_buffs_failed <=? num_bounce_posted r) ;;;
    put_rail rail (set_posted (num_bounce_posted r - num_buffs_failed) r) ;;;
    ret rc.

(** The loop of post_bounce_buffs_on_rail with [n] buffers to go: iteration [i]
    of [buffers_needed] is the one with [n = buffers_needed - i]. *)
Fixpoint bounce_loop (rail : rail_ref) (n : nat) (rc : Z) : M Z :=
  match n with
  | O => ret rc
  | S n' =>
      let is_last_req := (n' =? 0)%nat in
      let* req := alloc_bounce_req rail in
      if req =? NULL then ret (- ENOMEM)
      else
        let* rc := post_bounce_buffer req rail (negb is_last_req) in
        if rc =? - FI_EAGAIN then handle_bounce_eagain rail req (Z.of_nat n')
        else if negb (rc =? 0) then ret rc
        else bounce_loop rail n' rc
  end.

(** [buffers_needed] is a size_t: it wraps if more are posted than the maximum. *)
Definition post_bounce_buffs_on_rail (rail : rail_ref) : M Z :=
  let* r := get_rail rail in
  let buffers_needed := u64 (max_bounce_posted r - num_bounce_posted r) in
  put_rail rail (set_posted (max_bounce_posted r) r) ;;;
  bounce_loop rail (Z.to_nat buffers_needed) 0.

Fixpoint post_bounce_buffs_rails (rails : list rail_ref) : M Z :=
  match rails with
  | [] => ret 0
  | rail :: rails' =>
      let* rc := post_bounce_buffs_on_rail rail in
      if negb (rc =? 0) then ret rc else post_bounce_buffs_rails rails'
  end.

Definition all_rails : list rail_ref :=
  (DataRail <$> rail_ids) ++ (ControlRail <$> seqZ 0 num_control_rails).

Definition post_bounce_buffs : M Z := post_bounce_buffs_rails all_rails.

Definition check_post_bounce_buffers_rail (rail : rail_ref) : M Z :=
  let* r := get_rail rail in
  if num_bounce_posted r <? min_bounce_posted r then post_bounce_buffs_on_rail rail else ret 0.

Definition repost_bounce_buff (bounce_req : Z) : M Z :=
  let* rc := send_progress bounce_req in
  if rc =? - FI_EAGAIN then pending_insert_back bounce_req
  else if negb (rc =? 0) then ret rc
  else
    let* d := get_bounce_data bounce_req in
    check_post_bounce_buffers_rail (bd_rail d).

Definition decrease_bounce_buff_cnt (rail : rail_ref) : M Z :=
  let* r := get_rail rail in
  assert (0 <? num_bounce_posted r) ;;;
  put_rail rail (set_posted (num_bounce_posted r - 1) r) ;;;
  check_post_bounce_buffers_rail rail.

Definition check_post_bounce_req (bounce_req : Z) : M Z :=
  let* d := get_bounce_data bounce_req in
  let rail := bd_rail d in
  let* r := get_rail rail in
  if num_bounce_posted r <? max_bounce_posted r then
    put_rail rail (set_posted (num_bounce_posted r + 1) r) ;;;
    let* rc := send_progress bounce_req in
    if rc =? - FI_EAGAIN then pending_insert_back bounce_req
    else if negb (rc =? 0) then ret rc
    else check_post_bounce_buffers_rail rail
  else
    let* rc := req_free bounce_req false in
    if negb (rc =? 0) then ret (- EIO) else ret rc.

(** ** Each stripe of a message is written once *)

(** The write of one stripe of the send [d], if the rail exists everywhere. *)
Definition stripe_op (s : nccl_net_ofi_rdma_send_comm_t) (d : rdma_req_send_data_t) (req : Z)
    (x : nccl_net_ofi_xfer_info_t) : option net_op :=
  let i := Z.to_nat (Scheduler.rail_id x) in
  cr ← s_rails s !! i; m ← mr (sd_buff_mr_handle d) !! i; key ← sd_remote_mr_key d !! i;
  Some (fi_writedata (cr_local_ep cr) (u64 (sd_buff d + offset x)) (msg_size x) (fi_mr_desc m)
          (sd_wdata d) (cr_remote_addr cr) (u64 (sd_remote_buff d + offset x)) key req).

(** A non-eager send ready to be posted: [req] with its communicator, data and
    stripes, every stripe on a rail that exists. *)
Record send_ready (w : world) (req : Z) (r : nccl_net_ofi_rdma_req_t) (c : Z)
    (s : nccl_net_ofi_rdma_send_comm_t) (d : rdma_req_send_data_t)
    (sch : nccl_net_ofi_schedule_t) (ops : list net_op) : Prop := {
  sr_req : reqs w !! req = Some r;
  sr_type : type r = NCCL_OFI_RDMA_SEND;
  sr_comm : comm r = Some c;
  sr_data : data r = SendData d;
  sr_eager : sd_eager d = false;
  sr_scomm : comms w !! c = Some (SendComm s);
  sr_schedule : sd_schedule d <> NULL;
  sr_sched : snd (sched w) !! sd_schedule d = Some sch;
  sr_count : 0 <= num_xfer_infos sch <= Z.of_nat (length (rail_xfer_infos sch));
  sr_rails : Forall (fun x => 0 <= Scheduler.rail_id x) (stripes sch);
  sr_ops : mapM (stripe_op s d req) (stripes sch) = Some ops;
  sr_xferred : 0 <= sd_xferred_rail_id d <= num_xfer_infos sch;
  sr_width : num_xfer_infos sch < 2 ^ 63;
}.

Definition at_stripe (k : Z) (d : rdma_req_send_data_t) (r : nccl_net_ofi_rdma_req_t) :=
  set_data (SendData (set_sd_xferred k d)) r.

Lemma at_stripe_id r d : data r = SendData d -> at_stripe (sd_xferred_rail_id d) d r = r.
Proof. destruct r, d; cbn. by intros ->. Qed.

Lemma post_rdma_write_ok w req r s d x cr op :
  reqs w !! req = Some r -> type r = NCCL_OFI_RDMA_SEND -> data r = SendData d ->
  0 <= Scheduler.rail_id x -> s_rails s !! Z.to_nat (Scheduler.rail_id x) = Some cr ->
  stripe_op s d req x = Some op ->
  post_rdma_write req cr x w =
    Some (fabric (log w) op, w_log (fun l => l ++ [(op, fabric (log w) op)]) w).
Proof.
  intros Hr Ht Hd Hx Hcr Hop. unfold stripe_op in Hop. rewrite Hcr in Hop. cbn in Hop.
  destruct (mr (sd_buff_mr_handle d) !! _) as [m|] eqn:Hm; [|done]. cbn in Hop.
  destruct (sd_remote_mr_key d !! _) as [key|] eqn:Hk; [|done]. cbn in Hop. simplify_eq.
  unfold post_rdma_write. step (get_send_data_ok _ _ _ _ Hr Ht Hd).
  step (rail_at_ok _ _ _ w Hx Hm). step (rail_at_ok _ _ _ w Hx Hk). done.
Qed.

(** From stripe [k] on: all posted, or stopped at the first that failed. *)
Lemma post_stripes_spec req c s xs : forall w r d k ops,
  reqs w !! req = Some r -> type r = NCCL_OFI_RDMA_SEND -> data r = SendData d ->
  comms w !! c = Some (SendComm s) -> sd_xferred_rail_id d = k ->
  0 <= k -> k + Z.of_nat (length xs) < 2 ^ 63 ->
  Forall (fun x => 0 <= Scheduler.rail_id x) xs -> mapM (stripe_op s d req) xs = Some ops ->
  exists n rc, (n <= length ops)%nat /\
    post_stripes req c xs w =
      Some (rc, w_log (fun l => l ++ ((fun o => (o, 0)) <$> take n ops) ++
                  match ops !! n with Some o => [(o, rc)] | None => [] end)
                (w_reqs <[req := at_stripe (k + Z.of_nat n) d r]> w)) /\
    (rc = 0 <-> n = length ops).
Proof.
  induction xs as [|x xs IH]; intros w r d ? ops Hr Ht Hd Hs <- Hk0 Hw Hrail Hops.
  { injection Hops as <-. simplify_eq. exists 0%nat, 0. split; [done|split; [|done]]. cbn.
    rewrite Z.add_0_r, at_stripe_id by done. unfold ret. do 2 f_equal.
    unfold w_reqs, w_log; cbn. rewrite insert_id, app_nil_r by done. by destruct w. }
  apply Forall_cons in Hrail as [Hx Hrail]. cbn in Hops.
  destruct (stripe_op s d req x) as [op|] eqn:Hop; [|done]. cbn in Hops.
  destruct (mapM _ xs) as [ops'|] eqn:Hops'; [|done]. cbn in Hops. injection Hops as <-.
  assert (exists cr, s_rails s !! Z.to_nat (Scheduler.rail_id x) = Some cr) as [cr Hcr].
  { unfold stripe_op in Hop. destruct (s_rails s !! _); [eauto|done]. }
  cbn [post_stripes]. step (get_send_comm_ok _ _ _ Hs). step (rail_at_ok _ _ _ w Hx Hcr).
  step (post_rdma_write_ok w req r s d x cr op Hr Ht Hd Hx Hcr Hop).
  remember (fabric (log w) op) as rc. set (w1 := w_log _ w). case_eq (rc =? 0); intros Hrc; bool_cases.
  - assert (reqs w1 !! req = Some r) as Hr1 by done.
    step (get_send_data_ok _ _ _ _ Hr1 Ht Hd). step (put_data_ok req (SendData (set_sd_xferred (u64 (sd_xferred_rail_id d + 1)) d)) _ _ Hr1).
    assert (u64 (sd_xferred_rail_id d + 1) = sd_xferred_rail_id d + 1) as -> by
      (apply wrap_small; cbn in Hw; lia).
    destruct (IH (w_reqs <[req := at_stripe (sd_xferred_rail_id d + 1) d r]> w1)
      (at_stripe (sd_xferred_rail_id d + 1) d r) (set_sd_xferred (sd_xferred_rail_id d + 1) d)
      (sd_xferred_rail_id d + 1) ops') as (n & rc' & Hn & Heq & Hiff); try done.
    + cbn. by rewrite lookup_insert_eq.
    + lia.
    + cbn in Hw; lia.
    + exists (S n), rc'. split; [cbn; lia|split; [|rewrite Hiff; cbn; lia]].
      fold (at_stripe (sd_xferred_rail_id d + 1) d r). rewrite Heq, Nat2Z.inj_succ, <- Z.add_1_l, Z.add_assoc.
      do 2 f_equal. unfold w1, w_log, w_reqs; cbn. rewrite Hrc. f_equal.
      * by rewrite insert_insert_eq.
      * by rewrite <- app_assoc.
  - exists 0%nat, rc. split; [lia|split; [|cbn; split; [done|lia]]]. cbn. unfold ret. do 2 f_equal.
    rewrite Z.add_0_r, at_stripe_id by done. unfold w1, w_log, w_reqs; cbn.
    by rewrite insert_id.
Qed.

Definition successes (l : list (net_op * Z)) : list net_op :=
  omap (fun p : net_op * Z => if snd p =? 0 then Some (fst p) else None) l.

Lemma successes_app l1 l2 : successes (l1 ++ l2) = successes l1 ++ successes l2.
Proof. apply omap_app. Qed.

Lemma successes_ok ops : successes ((fun o => (o, 0)) <$> ops) = ops.
Proof. induction ops as [|o ops IH]; [done|]. unfold successes in *. cbn. by rewrite IH. Qed.

(** The last call of an attempt counts only if the attempt succeeded. *)
Lemma successes_attempt n rc (ops : list net_op) :
  (rc = 0 <-> n = length ops) ->
  successes (((fun o => (o, 0)) <$> take n ops) ++
    match ops !! n with Some o => [(o, rc)] | None => [] end) = take n ops.
Proof.
  intros Hiff. rewrite successes_app, successes_ok. destruct (ops !! n) as [o|] eqn:Ho.
  - apply lookup_lt_Some in Ho. unfold successes. cbn. rewrite (proj2 (Z.eqb_neq rc 0)) by lia.
    by rewrite app_nil_r.
  - by rewrite app_nil_r.
Qed.

Lemma mapM_drop {A B} (f : A -> option B) k (l : list A) l' :
  mapM f l = Some l' -> mapM f (drop k l) = Some (drop k l').
Proof.
  revert l l'. induction k as [|k IH]; intros l l' H; [done|].
  destruct l as [|x l]; [by injection H as <-|]. cbn in H.
  destruct (f x); [|done]. cbn in H. destruct (mapM f l) eqn:Hl; [|done]. cbn in H.
  injection H as <-. by apply IH.
Qed.

Lemma stripes_length sch :
  0 <= num_xfer_infos sch <= Z.of_nat (length (rail_xfer_infos sch)) ->
  length (stripes sch) = Z.to_nat (num_xfer_infos sch).
Proof. intros H. unfold stripes. rewrite length_take. lia. Qed.

Lemma send_progress_spec w req r c s d sch ops :
  send_ready w req r c s d sch ops ->
  let k := sd_xferred_rail_id d in
  exists n rc, (n <= length ops - Z.to_nat k)%nat /\
    send_progress req w =
      Some (rc, w_log (fun l => l ++ ((fun o => (o, 0)) <$> take n (drop (Z.to_nat k) ops)) ++
                  match drop (Z.to_nat k) ops !! n with Some o => [(o, rc)] | None => [] end)
                (w_reqs <[req := at_stripe (k + Z.of_nat n) d r]> w)) /\
    (rc = 0 <-> n = (length ops - Z.to_nat k)%nat).
Proof.
  intros [Hr Ht Hc Hd He Hs Hp Hsch Hcnt Hrail Hops Hx Hw] k.
  pose proof (stripes_length sch Hcnt) as Hlen. pose proof (length_mapM _ _ _ Hops) as Hol.
  destruct (post_stripes_spec req c s (drop (Z.to_nat k) (stripes sch)) w r d k
    (drop (Z.to_nat k) ops)) as (n & rc & Hn & Heq & Hiff); try done.
  - unfold k. lia.
  - rewrite length_drop. unfold k. lia.
  - by apply Forall_drop.
  - by apply mapM_drop.
  - rewrite length_drop in Hn, Hiff. exists n, rc. split; [done|]. split; [|done].
    unfold send_progress. step (get_req_ok _ _ _ Hr). rewrite Ht.
    step (req_comm_ok _ _ _ _ Hr Hc). step (get_send_data_ok _ _ _ _ Hr Ht Hd).
    rewrite (proj2 (Z.eqb_neq _ _) Hp).
    assert (get_schedule_at (sd_schedule d) w = Some (sch, w)) as Hg.
    { unfold get_schedule_at, bind, gets. by rewrite Hsch. }
    step Hg. rewrite He. cbn [negb orb]. rewrite (proj2 (Z.leb_le _ _)) by lia. exact Heq.
Qed.

(** Nothing but the posting of [req] itself happened to what it is posted from. *)
Record same_send (req : Z) (w w' : world) : Prop := {
  ss_req : reqs w' !! req = reqs w !! req;
  ss_comm : forall c s, comms w !! c = Some (SendComm s) ->
    exists s', comms w' !! c = Some (SendComm s') /\ s_rails s' = s_rails s;
  ss_sched : forall p sch, snd (sched w) !! p = Some sch -> snd (sched w') !! p = Some sch;
}.

(** [attempts req w w' l]: between [w] and [w'] send_progress was called on [req]
    any number of times, with anything else in between, and [l] are the writes
    it posted successfully. *)
Inductive attempts (req : Z) : world -> world -> list net_op -> Prop :=
| at_none w : attempts req w w []
| at_try w0 w rc w' new l :
    attempts req w0 w l -> send_progress req w = Some (rc, w') -> log w' = log w ++ new ->
    attempts req w0 w' (l ++ successes new)
| at_other w0 w w' l : attempts req w0 w l -> same_send req w w' -> attempts req w0 w' l.

Lemma send_ready_same w w' req r c s d sch ops :
  send_ready w req r c s d sch ops -> same_send req w w' ->
  exists s', send_ready w' req r c s' d sch ops.
Proof.
  intros [Hr Ht Hc Hd He Hs Hp Hsch Hcnt Hrail Hops Hx Hw] [H1 H2 H3].
  destruct (H2 _ _ Hs) as (s' & Hs' & Hrails). exists s'. constructor; try done.
  - by rewrite H1.
  - by apply H3.
  - rewrite <- Hops. apply mapM_ext. intros x. unfold stripe_op. by rewrite Hrails.
Qed.

(** Progress of a send: [k] stripes posted so far. *)
Definition sent_so_far (w : world) (req : Z) (d0 : rdma_req_send_data_t) (ops : list net_op)
    (k : nat) : Prop :=
  exists r c s sch, send_ready w req r c s (set_sd_xferred (Z.of_nat k) d0) sch ops.

Lemma send_progress_step w req d0 ops k :
  sent_so_far w req d0 ops k ->
  exists n rc new w', (k + n <= length ops)%nat /\ send_progress req w = Some (rc, w') /\
    log w' = log w ++ new /\ successes new = take n (drop k ops) /\
    sent_so_far w' req d0 ops (k + n) /\ (rc = 0 <-> (k + n = length ops)%nat).
Proof.
  intros (r & c & s & sch & H). destruct (send_progress_spec _ _ _ _ _ _ _ _ H)
    as (n & rc & Hn & Heq & Hiff). cbn [sd_xferred_rail_id set_sd_xferred] in *.
  rewrite Nat2Z.id in *. destruct H as [Hr Ht Hc Hd He Hs Hp Hsch Hcnt Hrail Hops Hx Hw].
  pose proof (stripes_length sch Hcnt) as Hlen. pose proof (length_mapM _ _ _ Hops) as Hol.
  cbn in Hx. exists n, rc. eexists _, _. split; [lia|]. split; [exact Heq|]. split; [done|].
  split; [apply successes_attempt; rewrite length_drop; done|]. split; [|lia].
  exists (at_stripe (Z.of_nat (k + n)) d0 r), c, s, sch.
  constructor; try done; cbn; [|lia].
  rewrite lookup_insert_eq. by rewrite Nat2Z.inj_add.
Qed.

Lemma attempts_progress req d0 ops w0 w l :
  attempts req w0 w l -> sent_so_far w0 req d0 ops 0 ->
  exists k, (k <= length ops)%nat /\ l = take k ops /\ sent_so_far w req d0 ops k.
Proof.
  intros H H0. induction H as [w|w0 w rc w' new l _ IH Hp Hl|w0 w w' l _ IH Hs].
  - exists 0%nat. split_and!; [lia|by rewrite take_0|done].
  - destruct (IH H0) as (k & Hk & -> & Hsf).
    destruct (send_progress_step _ _ _ _ _ Hsf) as (n & rc' & new' & w1 & Hn & Hp' & Hl' & Hsu & Hsf' & _).
    rewrite Hp in Hp'. injection Hp' as <- <-. rewrite Hl in Hl'. apply app_inv_head in Hl' as ->.
    exists (k + n)%nat. split_and!; [lia| |done]. by rewrite Hsu, take_take_drop.
  - destruct (IH H0) as (k & Hk & -> & r & c & s & sch & Hsf). exists k. split_and!; [done..|].
    destruct (send_ready_same _ _ _ _ _ _ _ _ _ Hsf Hs) as (s' & Hs').
    by exists r, c, s', sch.
Qed.

Lemma sent_so_far_start w req r c s d sch ops :
  send_ready w req r c s d sch ops -> sd_xferred_rail_id d = 0 -> sent_so_far w req d ops 0.
Proof.
  intros Hr Hx. exists r, c, s, sch. replace (set_sd_xferred (Z.of_nat 0) d) with d; [done|].
  destruct d; cbn in *. by subst.
Qed.

Lemma attempts_outcome req d ops w0 w l :
  sent_so_far w0 req d ops 0 -> attempts req w0 w l ->
  exists rc w' new, send_progress req w = Some (rc, w') /\ log w' = log w ++ new /\
    l ++ successes new `prefix_of` ops /\ (rc = 0 <-> l ++ successes new = ops).
Proof.
  intros H0 Ha. destruct (attempts_progress _ _ _ _ _ _ Ha H0) as (k & Hk & -> & Hsf).
  destruct (send_progress_step _ _ _ _ _ Hsf) as (n & rc & new & w' & Hn & Hp & Hl & Hsu & _ & Hiff).
  exists rc, w', new. split; [done|]. split; [done|]. rewrite Hsu, take_take_drop.
  split; [apply prefix_take|]. rewrite Hiff. split; intros Heq.
  - rewrite take_ge; [done|lia].
  - apply (f_equal length) in Heq. rewrite length_take in Heq. lia.
Qed.

(** C1. A message is written to the network exactly once: however often posting
    it is attempted, whatever libfabric answers and whatever else happens in
    between, the successful writes are the stripes of its schedule in order and
    without repetition; another attempt is always possible, and it reports
    success exactly when the last stripe has been written. *)
Theorem stripes_posted_once w0 w req r c s d sch ops l :
  send_ready w0 req r c s d sch ops -> sd_xferred_rail_id d = 0 -> attempts req w0 w l ->
  exists rc w' new, send_progress req w = Some (rc, w') /\ log w' = log w ++ new /\
    l ++ successes new `prefix_of` ops /\ (rc = 0 <-> l ++ successes new = ops).
Proof. intros Hr Hx. by apply (attempts_outcome req d), (sent_so_far_start _ _ r c s _ sch). Qed.

(** ** The pending queue is served in order *)

Lemma flush_rails_pending req r_comm fd ids : forall rc, keeps pending (flush_rails req r_comm fd ids rc).
Proof. induction ids; intros rc; cbn [flush_rails]; solve_keeps. Qed.

Lemma post_stripes_pending req c xs : keeps pending (post_stripes req c xs).
Proof. induction xs; cbn [post_stripes]; unfold post_rdma_write; solve_keeps. Qed.

Hint Resolve flush_rails_pending post_stripes_pending : keeps.

Lemma repost_pending req : keeps pending (repost req).
Proof.
  unfold repost, send_progress, receive_progress, post_eager_copy, post_rdma_ctrl, post_close_msg,
    post_flush_req, post_rma_read, post_rma_write, post_bounce_buffer, post_rdma_eager_send.
  solve_keeps.
Qed.

(** [reposts w done w']: the requests at the front of the queue, [done], were
    taken off one by one and posted successfully. *)
Inductive reposts : world -> list Z -> world -> Prop :=
| rp_nil w : reposts w [] w
| rp_cons w req q w1 done w' :
    pending w = req :: q -> repost req (w_pending (fun _ => q) w) = Some (Some 0, w1) ->
    reposts w1 done w' -> reposts w (req :: done) w'.

(** How a pass over the queue ends, from the state after its successful posts. *)
Inductive pass_end (w : world) : option (Z * world) -> Prop :=
| pe_empty : pending w = [] -> pass_end w (Some (0, w))
| pe_busy req q w1 :
    pending w = req :: q -> repost req (w_pending (fun _ => q) w) = Some (Some (- FI_EAGAIN), w1) ->
    pass_end w (Some (0, w_pending (cons req) w1))
| pe_failed req q rc w1 :
    pending w = req :: q -> repost req (w_pending (fun _ => q) w) = Some (Some rc, w1) ->
    rc <> 0 -> rc <> - FI_EAGAIN -> pass_end w (Some (rc, w1))
| pe_unexpected req q w1 :
    pending w = req :: q -> repost req (w_pending (fun _ => q) w) = Some (None, w1) ->
    pass_end w (Some (- EINVAL, w1))
| pe_undefined req q :
    pending w = req :: q -> repost req (w_pending (fun _ => q) w) = None -> pass_end w None.

Lemma remove_front_empty w : pending w = [] -> pending_remove_front w = Some (None, w).
Proof. intros H. unfold pending_remove_front, bind, gets. by rewrite H. Qed.

Lemma remove_front_cons w p q :
  pending w = p :: q -> pending_remove_front w = Some (Some p, w_pending (fun _ => q) w).
Proof. intros H. unfold pending_remove_front, bind, gets. by rewrite H. Qed.

Lemma pending_loop_spec fuel : forall w,
  (length (pending w) < fuel)%nat ->
  exists done w1, reposts w done w1 /\ pass_end w1 (pending_loop fuel w).
Proof.
  induction fuel as [|fuel IH]; intros w Hf; [lia|].
  cbn [pending_loop]. destruct (pending w) as [|req q] eqn:Hq.
  { step (remove_front_empty w Hq). exists [], w. split; [constructor|]. by constructor. }
  step (remove_front_cons w req q Hq). set (w0 := w_pending (fun _ => q) w).
  destruct (repost req w0) as [[[rc|] w1]|] eqn:Hr.
  - step Hr.
    pose proof (repost_pending _ _ _ _ Hr) as Hp. cbn in Hp.
    destruct (decide (rc = 0)) as [->|Hn0]; [|destruct (decide (rc = - FI_EAGAIN)) as [->|Hne]].
    + cbn [Z.eqb negb andb]. destruct (IH w1) as (done & w2 & Hd & He); [rewrite Hp; cbn in Hf; lia|].
      exists (req :: done), w2. split; [by econstructor|done].
    + exists [], w. split; [constructor|]. by apply (pe_busy w req q w1).
    + rewrite (proj2 (Z.eqb_neq _ _) Hn0), (proj2 (Z.eqb_neq _ _) Hne). cbn.
      exists [], w. split; [constructor|]. by apply (pe_failed w req q rc w1).
  - step Hr. exists [], w. split; [constructor|].
    by apply (pe_unexpected w req q w1).
  - unfold bind at 1. rewrite Hr. exists [], w. split; [constructor|]. by apply (pe_undefined w req q).
Qed.

(** C17. process_pending_reqs ends, and serves the queue strictly in order: some
    requests at its front are posted successfully; then it stops because the
    queue is empty, or because the network is busy (the request goes back to the
    front and no error is reported), or because of an error, and nothing behind
    the request it stopped at is touched. *)
Theorem pending_served_in_order w :
  exists done w1 rest, pending w = done ++ rest /\ reposts w done w1 /\ pending w1 = rest /\
    pass_end w1 (process_pending_reqs w).
Proof.
  destruct (pending_loop_spec (S (length (pending w))) w) as (done & w1 & Hr & He); [lia|].
  exists done, w1, (pending w1). split_and!; [|done|done|exact He].
  clear He. induction Hr as [|w req q w1 done w' Hq Hrep _ IH]; [done|].
  rewrite Hq. cbn. by rewrite <- IH, (repost_pending _ _ _ _ Hrep).
Qed.

(** ** Bounce buffers are accounted for *)

Definition rail_of (w : world) (ref : rail_ref) : option nccl_net_ofi_ep_rail_t :=
  match ref with
  | DataRail i => if 0 <=? i then rails w !! Z.to_nat i else None
  | ControlRail i => if 0 <=? i then control_rails w !! Z.to_nat i else None
  end.

Definition w_rail (ref : rail_ref) (r : nccl_net_ofi_ep_rail_t) (w : world) : world :=
  match ref with
  | DataRail i => w_rails <[Z.to_nat i := r]> w
  | ControlRail i => w_control_rails <[Z.to_nat i := r]> w
  end.

Lemma get_rail_ok ref w r : rail_of w ref = Some r -> get_rail ref w = Some (r, w).
Proof.
  unfold rail_of, get_rail, rail_at, assert. destruct ref as [i|i]; intros H;
    unfold bind at 1, gets; destruct (0 <=? i); try done; unfold bind, ret; by rewrite H.
Qed.

Lemma put_rail_ok ref r w : put_rail ref r w = Some (tt, w_rail ref r w).
Proof. by destruct ref. Qed.

Lemma rail_of_w_rail ref w r r' : rail_of w ref = Some r -> rail_of (w_rail ref r' w) ref = Some r'.
Proof.
  destruct ref as [i|i]; cbn; destruct (0 <=? i); try done; intros H%lookup_lt_Some;
    by apply list_lookup_insert_eq.
Qed.

Lemma w_rail_other ref r w :
  log (w_rail ref r w) = log w /\ pending (w_rail ref r w) = pending w /\
  reqs (w_rail ref r w) = reqs w /\ bounce_reqs_fl (w_rail ref r w) = bounce_reqs_fl w /\
  bounce_buff_fl (w_rail ref r w) = bounce_buff_fl w.
Proof. by destruct ref. Qed.

(** The free lists can serve [n] more bounce buffers for the rail. *)
Definition can_serve (rail : rail_ref) (n : nat) (w : world) : Prop :=
  0 <= rail_id_of rail /\ (n <= length (bounce_reqs_fl w))%nat /\ (n <= length (bounce_buff_fl w))%nat /\
  (NULL ∉ bounce_reqs_fl w) /\
  forall item, item ∈ bounce_buff_fl w ->
    is_Some (mr (fl_mr_handle item) !! Z.to_nat (rail_id_of rail)).

Lemma allocate_bounce_ok w p l :
  bounce_reqs_fl w = p :: l -> p <> NULL ->
  allocate_req FlBounce w =
    Some (p, w_reqs <[p := zero_nccl_ofi_req (match freed w !! p with Some r => r | None => zero_req end)]>
               (w_bounce_fl id (fun _ => l) w)).
Proof.
  intros Hp Hne. unfold allocate_req, fl_pop, bind, gets, modify, ret. rewrite Hp.
  by rewrite (proj2 (Z.eqb_neq p NULL)) by done.
Qed.

(** A new buffer is taken from both free lists and posted. *)
Lemma post_new_buffer rail n more w r :
  can_serve rail (S n) w -> rail_of w rail = Some r ->
  exists req op w1 w2, alloc_bounce_req rail w = Some (req, w1) /\ req <> NULL /\
    post_bounce_buffer req rail more w1 = Some (fabric (log w) op, w2) /\
    log w2 = log w ++ [(op, fabric (log w) op)] /\ pending w2 = pending w /\
    rail_of w2 rail = Some r /\ can_serve rail n w2.
Proof.
  intros (Hid & Hl1 & Hl2 & Hnn & Hmr) Hr.
  destruct (bounce_reqs_fl w) as [|p l] eqn:Hp; [cbn in Hl1; lia|].
  destruct (bounce_buff_fl w) as [|item fl] eqn:Hb; [cbn in Hl2; lia|].
  apply not_elem_of_cons in Hnn as [Hne%not_eq_sym Hnn].
  set (old := match freed w !! p with Some r => r | None => zero_req end).
  set (q := set_dev_id base_dev_id (set_type NCCL_OFI_RDMA_BOUNCE (set_comm None (zero_nccl_ofi_req old)))).
  set (d := mk_bounce_data item bounce_buff_size 0 rail).
  set (wa := w_reqs <[p := q]> (w_reqs <[p := zero_nccl_ofi_req old]> (w_bounce_fl id (fun _ => l) w))).
  set (w1 := w_reqs <[p := set_data (BounceData d) q]> (w_bounce_fl (fun _ => fl) id wa)).
  destruct (Hmr item) as [m Hm]; [left|].
  assert (alloc_bounce_req rail w = Some (p, w1)) as Halloc.
  { unfold alloc_bounce_req. step (allocate_bounce_ok w p l Hp Hne).
    rewrite (proj2 (Z.eqb_neq p NULL)) by done. fold old.
    step (upd_req_ok p (fun r => set_dev_id base_dev_id (set_type NCCL_OFI_RDMA_BOUNCE (set_comm None r)))
      (w_reqs <[p := zero_nccl_ofi_req old]> (w_bounce_fl id (fun _ => l) w)) _ (lookup_insert_eq _ _ _)).
    fold q wa. unfold bind at 1, gets. cbn [bounce_buff_fl wa w_reqs w_bounce_fl id]. rewrite Hb.
    rewrite (bind_ok (modify (w_bounce_fl (fun _ => fl) id)) _ _ tt (w_bounce_fl (fun _ => fl) id wa)) by done.
    step (put_data_ok p (BounceData d) (w_bounce_fl (fun _ => fl) id wa) q (lookup_insert_eq _ _ _)).
    done. }
  set (w2 := w_reqs <[p := set_state NCCL_OFI_RDMA_REQ_CREATED (set_data (BounceData d) q)]> w1).
  set (op := fi_recvmsg (ofi_ep r) item bounce_buff_size (fi_mr_desc m) more p).
  exists p, op, w1, (w_log (fun l => l ++ [(op, fabric (log w) op)]) w2).
  assert (rail_of w2 rail = Some r) as Hr2 by (by destruct rail).
  split_and!; try done.
  - assert (reqs w1 !! p = Some (set_data (BounceData d) q)) as Hq by apply lookup_insert_eq.
    unfold post_bounce_buffer. step (get_bounce_data_ok _ _ _ d Hq eq_refl eq_refl).
    step (rail_at_ok _ _ _ w1 Hid Hm). step (upd_req_ok p (set_state NCCL_OFI_RDMA_REQ_CREATED) _ _ Hq).
    step (get_rail_ok _ _ _ Hr2). done.
  - unfold can_serve. cbn. cbn in Hl1, Hl2. split_and!; [done|lia|lia|done|].
    intros i Hi. apply Hmr. by right.
Qed.

(** With [n] buffers to go the counter says [posted]; at the end every buffer
    it counts beyond the [n] is with the network or in the pending queue. *)
Lemma bounce_loop_spec rail r n : forall w rc,
  rail_of w rail = Some r -> Z.of_nat n <= num_bounce_posted r -> can_serve rail n w -> rc = 0 ->
  exists rc' w' new queued r', bounce_loop rail n rc w = Some (rc', w') /\
    log w' = log w ++ new /\ pending w' = pending w ++ queued /\ rail_of w' rail = Some r' /\
    max_bounce_posted r' = max_bounce_posted r /\ min_bounce_posted r' = min_bounce_posted r /\
    num_bounce_posted r' <= num_bounce_posted r /\
    (rc' = 0 -> num_bounce_posted r' = num_bounce_posted r - Z.of_nat n +
                  Z.of_nat (length (successes new)) + Z.of_nat (length queued)) /\
    (rc' = 0 -> queued = [] -> num_bounce_posted r' = num_bounce_posted r).
Proof.
  induction n as [|n IH]; intros w rc Hr Hn Hs ->.
  { exists 0, w, [], [], r. rewrite !app_nil_r. cbn. split_and!; auto; lia. }
  destruct (post_new_buffer rail n (negb (n =? 0)%nat) w r Hs Hr)
    as (req & op & w1 & w2 & Ha & Hreq & Hpost & Hlog & Hpend & Hr2 & Hs2).
  cbn [bounce_loop]. step Ha. rewrite (proj2 (Z.eqb_neq _ _) Hreq). step Hpost.
  remember (fabric (log w) op) as c eqn:Hc. clear Hc.
  destruct (decide (c = - FI_EAGAIN)) as [->|Hne]; [|destruct (decide (c = 0)) as [->|Hn0]].
  - rewrite Z.eqb_refl. unfold handle_bounce_eagain, pending_insert_back.
    set (w3 := w_pending (fun q => q ++ [req]) w2).
    assert (rail_of w3 rail = Some r) as Hr3 by (by destruct rail).
    rewrite (bind_ok (modify _ ;;; ret 0) _ w2 0 w3) by done. cbn [Z.eqb negb].
    step (get_rail_ok _ _ _ Hr3). rewrite (proj2 (Z.leb_le _ _)) by lia. cbn [assert].
    unfold bind at 1, ret at 1. step (put_rail_ok rail (set_posted (num_bounce_posted r - Z.of_nat n) r) w3).
    eexists _, _, [(op, - FI_EAGAIN)], [req], _. split; [done|].
    destruct (w_rail_other rail (set_posted (num_bounce_posted r - Z.of_nat n) r) w3) as (-> & -> & _).
    split; [done|]. split; [cbn; by rewrite Hpend|]. split; [by eapply rail_of_w_rail|].
    cbn [num_bounce_posted max_bounce_posted min_bounce_posted set_posted length].
    change (successes [(op, - FI_EAGAIN)]) with (@nil net_op). split_and!; auto; try lia; cbn; lia || done.
  - change (0 =? - FI_EAGAIN) with false. change (negb (0 =? 0)) with false. cbn iota.
    destruct (IH w2 0) as (rc' & w' & new & queued & r' & Heq & Hl & Hq & Hr' & Hmax & Hmin & Hle & Hcnt & Hall);
      [done|lia|done|done|].
    exists rc', w', ((op, 0) :: new), queued, r'. rewrite Heq, Hl, Hlog, Hq, Hpend, <- app_assoc.
    split_and!; auto. intros H0. rewrite (Hcnt H0). unfold successes; cbn. lia.
  - rewrite (proj2 (Z.eqb_neq _ _) Hne), (proj2 (Z.eqb_neq _ _) Hn0). cbn [negb].
    exists c, w2, [(op, c)], [], r. rewrite app_nil_r. split_and!; auto; try lia; done.
Qed.

(** Refilling a rail with bounce buffers keeps its counter exact: on success
    the counter has grown by the receives libfabric accepted plus the buffer, if
    any, that waits in the pending queue; it never exceeds the maximum, and with
    nothing left waiting it is at the maximum. *)
Theorem bounce_refill_accounting rail w r :
  rail_of w rail = Some r ->
  0 <= num_bounce_posted r <= max_bounce_posted r -> max_bounce_posted r < 2 ^ 63 ->
  can_serve rail (Z.to_nat (max_bounce_posted r - num_bounce_posted r)) w ->
  exists rc w' new queued r', post_bounce_buffs_on_rail rail w = Some (rc, w') /\
    log w' = log w ++ new /\ pending w' = pending w ++ queued /\ rail_of w' rail = Some r' /\
    num_bounce_posted r' <= max_bounce_posted r /\
    (rc = 0 -> num_bounce_posted r' = num_bounce_posted r +
                 Z.of_nat (length (successes new)) + Z.of_nat (length queued)) /\
    (rc = 0 -> queued = [] -> num_bounce_posted r' = max_bounce_posted r).
Proof.
  intros Hr Hb Hm Hs. unfold post_bounce_buffs_on_rail. step (get_rail_ok _ _ _ Hr).
  rewrite wrap_small by lia. step (put_rail_ok rail (set_posted (max_bounce_posted r) r) w).
  destruct (w_rail_other rail (set_posted (max_bounce_posted r) r) w) as (Hl & Hp & _ & Hf1 & Hf2).
  destruct (bounce_loop_spec rail (set_posted (max_bounce_posted r) r)
    (Z.to_nat (max_bounce_posted r - num_bounce_posted r)) (w_rail rail (set_posted (max_bounce_posted r) r) w) 0)
    as (rc & w' & new & queued & r' & Heq & Hlog & Hpend & Hr' & _ & _ & Hle & Hcnt & Hall);
    [by eapply rail_of_w_rail|cbn; lia|by unfold can_serve; rewrite Hf1, Hf2|done|].
  rewrite Hl in Hlog. rewrite Hp in Hpend. exists rc, w', new, queued, r'. cbn in Hle, Hcnt, Hall.
  split_and!; auto. intros H0. rewrite (Hcnt H0). lia.
Qed.

(** Allocating a bounce request when no bounce buffer can be had goes wrong:
    a request never used before is released through a NULL endpoint pointer, and
    a reused one returns the buffer of its previous use to the free list, even
    when that buffer is in the hands of another request [q]. *)
Theorem bounce_alloc_failure rail w p l :
  bounce_reqs_fl w = p :: l -> p <> NULL -> bounce_buff_fl w = [] ->
  (freed w !! p = None -> alloc_bounce_req rail w = None) /\
  (forall old d q rq dq, freed w !! p = Some old -> data old = BounceData d ->
     bd_bounce_fl_item d <> NULL ->
     q <> p -> reqs w !! q = Some rq -> data rq = BounceData dq ->
     bd_bounce_fl_item dq = bd_bounce_fl_item d ->
     exists w', alloc_bounce_req rail w = Some (NULL, w') /\
       reqs w' !! q = Some rq /\ bounce_buff_fl w' = [bd_bounce_fl_item dq]).
Proof.
  intros Hp Hne Hb. pose proof (allocate_bounce_ok w p l Hp Hne) as Ha. split.
  - intros Hf. rewrite Hf in Ha. unfold alloc_bounce_req. step Ha.
    rewrite (proj2 (Z.eqb_neq p NULL)) by done.
    step (upd_req_ok p (fun r => set_dev_id base_dev_id (set_type NCCL_OFI_RDMA_BOUNCE (set_comm None r)))
      (w_reqs <[p := zero_nccl_ofi_req zero_req]> (w_bounce_fl id (fun _ => l) w)) _ (lookup_insert_eq _ _ _)).
    unfold bind at 1, gets. cbn [bounce_buff_fl w_reqs w_bounce_fl id]. rewrite Hb.
    unfold free_bounce_req, get_bounce_data. unfold bind at 1 2 3 4. cbn. by rewrite lookup_insert_eq.
  - intros old d q rq dq Hf Hd Hi Hq Hrq Hdq Hitem. rewrite Hf in Ha.
    unfold alloc_bounce_req. step Ha. rewrite (proj2 (Z.eqb_neq p NULL)) by done.
    set (r1 := set_dev_id base_dev_id (set_type NCCL_OFI_RDMA_BOUNCE (set_comm None (zero_nccl_ofi_req old)))).
    step (upd_req_ok p (fun r => set_dev_id base_dev_id (set_type NCCL_OFI_RDMA_BOUNCE (set_comm None r)))
      (w_reqs <[p := zero_nccl_ofi_req old]> (w_bounce_fl id (fun _ => l) w)) _ (lookup_insert_eq _ _ _)).
    fold r1. set (w1 := w_reqs <[p := r1]> _). unfold bind at 1, gets.
    cbn [bounce_buff_fl w1 w_reqs w_bounce_fl id]. rewrite Hb.
    assert (reqs w1 !! p = Some r1) as Hr1 by apply lookup_insert_eq.
    assert (exists w', free_bounce_req p false w1 = Some (0, w') /\
      reqs w' = delete p (reqs w1) /\ bounce_buff_fl w' = [bd_bounce_fl_item d]) as (w' & Hfree & Hr' & Hb').
    { unfold free_bounce_req. rewrite (bind_ok (assert (negb false)) _ w1 tt w1) by done.
      step (get_bounce_data_ok p w1 r1 d Hr1 eq_refl Hd). rewrite (proj2 (Z.eqb_neq _ _) Hi). cbn [negb].
      unfold bind at 1, modify. unfold free_base_req. rewrite (proj2 (Z.eqb_neq p NULL)) by done.
      set (w2 := w_bounce_fl _ _ w1).
      assert (reqs w2 !! p = Some r1) as Hr2 by done. step (get_req_ok _ _ _ Hr2).
      eexists. split; [reflexivity|]. split; [done|]. cbn. by rewrite Hb. }
    rewrite (bind_ok _ _ _ _ _ Hfree). exists w'. split; [done|].
    rewrite Hr', Hb', Hitem. split; [|done]. rewrite lookup_delete_ne by done. cbn.
    by rewrite !lookup_insert_ne by done.
Qed.

(** ** Flush *)

(** The read a flush posts on rail [rail_id]. *)
Definition flush_op (req : Z) (r_comm : nccl_net_ofi_rdma_recv_comm_t) (fd : rdma_req_flush_data_t)
    (rail_id : Z) : option net_op :=
  let i := Z.to_nat rail_id in
  let f_buff := r_flush_buff r_comm in
  cr ← r_rails r_comm !! i; fm ← mr (fb_mr_handle f_buff) !! i;
  key ← match fd_mr_handle fd with
        | None => Some 0
        | Some h => m ← mr h !! i;
            if fi_mr_key m =? FI_KEY_NOTAVAIL then None else Some (fi_mr_key m)
        end;
  Some (fi_read (cr_local_ep cr) (u64 (fb_host_buffer f_buff + cpu_cache_line_size * rail_id))
          (fb_size f_buff) (fi_mr_desc fm) (cr_local_addr cr)
          (if virt_addr_mr then fd_data fd else 0) key req).

Lemma flush_rails_spec req r_comm fd ids : forall w rc ops,
  (forall l op, fabric l op = 0 \/ fabric l op = - FI_EAGAIN) ->
  Forall (fun i => 0 <= i) ids -> mapM (flush_op req r_comm fd) ids = Some ops ->
  exists codes w', length codes = length ops /\
    flush_rails req r_comm fd ids rc w = Some (List.last codes rc, w') /\
    log w' = log w ++ zip ops codes /\ reqs w' = reqs w.
Proof.
  induction ids as [|i ids IH]; intros w rc ops Hf Hi Hops.
  { injection Hops as <-. exists [], w. cbn. by rewrite app_nil_r. }
  apply Forall_cons in Hi as [Hi0 Hi]. cbn in Hops.
  destruct (flush_op req r_comm fd i) as [op|] eqn:Hop; [|done]. cbn in Hops.
  destruct (mapM _ ids) as [ops'|] eqn:Hops'; [|done]. cbn in Hops. injection Hops as <-.
  unfold flush_op in Hop. cbn [flush_rails].
  destruct (r_rails r_comm !! Z.to_nat i) as [cr|] eqn:Hcr; [|done]. cbn in Hop.
  destruct (mr (fb_mr_handle _) !! Z.to_nat i) as [fm|] eqn:Hfm; [|done]. cbn in Hop.
  step (rail_at_ok _ _ _ w Hi0 Hcr). step (rail_at_ok _ _ _ w Hi0 Hfm).
  match type of Hop with (?k ≫= _) = _ => destruct k as [key|] eqn:Hkey; [|done] end.
  cbn in Hop. injection Hop as Hop.
  assert (match fd_mr_handle fd with
          | Some h => let* m := rail_at (mr h) i in
              ret (if fi_mr_key m =? FI_KEY_NOTAVAIL then None else Some (fi_mr_key m))
          | None => ret (Some 0)
          end w = Some (Some key, w)) as Hk.
  { destruct (fd_mr_handle fd) as [h|]; [|by injection Hkey as <-].
    destruct (mr h !! Z.to_nat i) as [m|] eqn:Hm; [|done]. cbn in Hkey.
    step (rail_at_ok _ _ _ w Hi0 Hm). unfold ret. by rewrite Hkey. }
  step Hk. rewrite Hop.
  rewrite (bind_ok (post op) _ w (fabric (log w) op) (w_log (fun l => l ++ [(op, fabric (log w) op)]) w)) by done.
  assert (negb (fabric (log w) op =? 0) && negb (fabric (log w) op =? - FI_EAGAIN) = false) as ->.
  { destruct (Hf (log w) op) as [-> | ->]; done. }
  destruct (IH (w_log (fun l => l ++ [(op, fabric (log w) op)]) w) (fabric (log w) op) ops' Hf Hi eq_refl)
    as (codes & w' & Hlen & Heq & Hl & Hq).
  exists (fabric (log w) op :: codes), w'. rewrite Heq. cbn [length]. split; [by rewrite Hlen|].
  split; [|split; [|done]].
  - by rewrite list_last_cons.
  - rewrite Hl. cbn. by rewrite <- app_assoc.
Qed.

(** A flush reads from every rail once but reports only what the last rail
    answered: on a network that answers success or busy, the code returned is
    that of the last read. So when an earlier rail was busy and the last was
    not, the call succeeds with a read missing, although the request waits for
    one completion per rail. *)
Theorem flush_reports_last_rail w req r c r_comm fd ops :
  (forall l op, fabric l op = 0 \/ fabric l op = - FI_EAGAIN) ->
  reqs w !! req = Some r -> type r = NCCL_OFI_RDMA_FLUSH -> comm r = Some c -> data r = FlushData fd ->
  comms w !! c = Some (RecvComm r_comm) -> mapM (flush_op req r_comm fd) rail_ids = Some ops ->
  exists codes w', length codes = length rail_ids /\
    post_flush_req req w = Some (List.last codes 0, w') /\
    log w' = log w ++ zip ops codes /\ reqs w' !! req = Some r.
Proof.
  intros Hf Hr Ht Hc Hd Hcm Hops.
  destruct (flush_rails_spec req r_comm fd rail_ids w 0 ops Hf) as (codes & w' & Hlen & Heq & Hl & Hq);
    [|done|].
  { apply Forall_forall. intros i Hi. apply elem_of_seqZ in Hi. lia. }
  exists codes, w'. rewrite Hlen, (length_mapM _ _ _ Hops), Hq. split_and!; try done.
  unfold post_flush_req. step (req_comm_ok _ _ _ _ Hr Hc). step (get_recv_comm_ok _ _ _ Hcm).
  step (get_flush_data_ok _ _ _ _ Hr Ht Hd). done.
Qed.

(** ** A close message on a busy network *)

(** The type of a request survives what is done to other fields. *)
Lemma keeps_type_state p q st : keeps (fun w => type <$> reqs w !! p) (upd_req q (set_state st)).
Proof.
  intros w [] w' H. apply bind_inv in H as (r & w1 & H1 & H2). unfold get_req, bind, gets in H1.
  destruct (reqs w !! q) as [r'|] eqn:Hq; [|done]. injection H1 as -> ->. injection H2 as <-. cbn.
  destruct (decide (p = q)) as [->|]; [by rewrite lookup_insert_eq, Hq|by rewrite lookup_insert_ne].
Qed.

Hint Resolve keeps_type_state : keeps.

(** A close message that meets a busy network is lost: the first attempt
    queues it and reports success, and the next pass over the queue takes it off
    without posting it and fails with -EINVAL. *)
Theorem busy_close_is_dropped w req r w1 :
  pending w = [] -> reqs w !! req = Some r -> type r = NCCL_OFI_RDMA_SEND_CLOSE ->
  post_close_msg req w = Some (- FI_EAGAIN, w1) ->
  exists w2 w3, receive_progress req true w = Some (0, w2) /\ pending w2 = [req] /\
    process_pending_reqs w2 = Some (- EINVAL, w3) /\ pending w3 = [] /\ log w3 = log w1.
Proof.
  intros Hp Hr Ht H.
  assert (keeps pending (post_close_msg req)) as Hkp by (unfold post_close_msg; solve_keeps).
  assert (keeps (fun w => type <$> reqs w !! req) (post_close_msg req)) as Hkt
    by (unfold post_close_msg; solve_keeps).
  specialize (Hkp _ _ _ H). specialize (Hkt _ _ _ H). cbn beta in Hkt. rewrite Hr in Hkt.
  destruct (reqs w1 !! req) as [r1|] eqn:Hr1; [|done]. injection Hkt as Ht1. rewrite Ht in Ht1.
  set (w2 := w_pending (fun q => q ++ [req]) w1).
  assert (pending w2 = [req]) as Hp2 by (cbn; by rewrite Hkp, Hp).
  exists w2, (w_pending (fun _ => []) w2). split_and!; try done.
  - unfold receive_progress. step (get_req_ok _ _ _ Hr). rewrite Ht. by step H.
  - unfold process_pending_reqs. unfold bind at 1, gets. rewrite Hp2. cbn [length pending_loop].
    step (remove_front_cons w2 req [] Hp2). unfold repost.
    assert (get_req req (w_pending (fun _ => []) w2) = Some (r1, w_pending (fun _ => []) w2)) as Hg
      by (by apply get_req_ok).
    unfold bind at 1 2. rewrite Hg, Ht1. done.
Qed.

End Post.

(** ** Examples *)

Definition ex_stripes : nccl_net_ofi_schedule_t :=
  mk_schedule 2 [mk_xfer 0 0 131072; mk_xfer 1 131072 1000].

Definition ex_send_data : rdma_req_send_data_t :=
  mk_send_data false 65536 200000 [111; 112] 5 0 4096 132072 ex_handle 1024 2.

Definition ex_send_req : nccl_net_ofi_rdma_req_t :=
  mk_req (Some 7) 0 0 0 (SendData ex_send_data) 132072 NCCL_OFI_RDMA_REQ_CREATED NCCL_OFI_RDMA_SEND.

Definition ex_send_world : world :=
  w_sched (fun st => (fst st, <[1024 := ex_stripes]> (snd st)))
    (w_comms <[7 := SendComm ex_send_comm]> (w_reqs <[500 := ex_send_req]> ex_world)).

Definition ex_writes : list net_op :=
  [fi_writedata 31 4096 131072 211 5 41 65536 111 500;
   fi_writedata 32 135168 1000 212 5 42 196608 112 500].

Lemma stripes_posted_once_witness :
  exists rc w' new, send_progress (E := ex_env [0; - FI_EAGAIN]) 500 ex_send_world = Some (rc, w') /\
    log w' = log ex_send_world ++ new /\ [] ++ successes new `prefix_of` ex_writes /\
    (rc = 0 <-> [] ++ successes new = ex_writes).
Proof.
  apply (stripes_posted_once (E := ex_env [0; - FI_EAGAIN]) ex_send_world ex_send_world 500 ex_send_req 7
    ex_send_comm ex_send_data ex_stripes ex_writes []).
  - constructor; try reflexivity; try (cbn; lia); try (vm_compute; congruence).
    cbn. repeat constructor; cbn; lia.
  - reflexivity.
  - constructor.
Defined.

Definition ex_bounce_world : world := w_bounce_fl (fun _ => [800; 801; 802]) (fun _ => [900; 901; 902]) ex_world.

Lemma bounce_refill_accounting_witness :
  exists rc w' new queued r',
    post_bounce_buffs_on_rail (E := ex_env [0; - FI_EAGAIN]) (DataRail 1) ex_bounce_world = Some (rc, w') /\
    log w' = log ex_bounce_world ++ new /\ pending w' = pending ex_bounce_world ++ queued /\
    rail_of w' (DataRail 1) = Some r' /\ num_bounce_posted r' <= 2 /\
    (rc = 0 -> num_bounce_posted r' = 0 + Z.of_nat (length (successes new)) + Z.of_nat (length queued)) /\
    (rc = 0 -> queued = [] -> num_bounce_posted r' = 2).
Proof.
  apply (bounce_refill_accounting (E := ex_env [0; - FI_EAGAIN]) (DataRail 1) ex_bounce_world (mk_rail 32 0 1 2));
    [reflexivity|cbn; lia|cbn; lia|].
  unfold can_serve. cbn. split_and!; [lia|lia|lia| |].
  - rewrite !not_elem_of_cons. split_and!; [done..|apply not_elem_of_nil].
  - intros item _. by eexists.
Defined.

Lemma bounce_alloc_failure_witness :
  alloc_bounce_req (E := ex_env []) (DataRail 0) (w_bounce_fl (fun _ => []) (fun _ => [900]) ex_world) = None.
Proof.
  refine (proj1 (bounce_alloc_failure (E := ex_env []) (DataRail 0)
    (w_bounce_fl (fun _ => []) (fun _ => [900]) ex_world) 900 [] _ _ _) _); [reflexivity|done|reflexivity|].
  reflexivity.
Defined.

Definition ex_flush_data : rdma_req_flush_data_t := mk_flush_data 8192 (Some ex_handle) 2.

Definition ex_flush_req : nccl_net_ofi_rdma_req_t :=
  mk_req (Some 9) 0 0 0 (FlushData ex_flush_data) 0 NCCL_OFI_RDMA_REQ_CREATED NCCL_OFI_RDMA_FLUSH.

Definition ex_flush_world : world :=
  w_comms <[9 := RecvComm ex_recv_comm]> (w_reqs <[600 := ex_flush_req]> ex_world).

Definition ex_reads : list net_op :=
  [fi_read 31 4096 4 211 51 8192 111 600; fi_read 32 4160 4 212 52 8192 112 600].

Lemma flush_reports_last_rail_witness :
  exists codes w', length codes = 2%nat /\
    post_flush_req (E := ex_env [- FI_EAGAIN]) 600 ex_flush_world = Some (List.last codes 0, w') /\
    log w' = log ex_flush_world ++ zip ex_reads codes /\ reqs w' !! 600 = Some ex_flush_req.
Proof.
  apply (flush_reports_last_rail (E := ex_env [- FI_EAGAIN]) ex_flush_world 600 ex_flush_req 9 ex_recv_comm
    ex_flush_data ex_reads); try reflexivity.
  intros l op. cbn. destruct (length l) as [|[|k]]; [by right|by left..].
Defined.

(** On that busy first rail the flush reports success with one read posted. *)
Lemma flush_read_lost :
  match post_flush_req (E := ex_env [- FI_EAGAIN]) 600 ex_flush_world with
  | Some (rc, w') => rc = 0 /\ length (successes (log w')) = 1%nat /\ fd_total_num_compls ex_flush_data = 2
  | None => False
  end.
Proof. vm_compute. split_and!; reflexivity. Qed.

Definition ex_close_req : nccl_net_ofi_rdma_req_t :=
  mk_req (Some 9) 0 0 0 (SendCloseData (mk_send_close_data 700 1024)) 0 NCCL_OFI_RDMA_REQ_CREATED
    NCCL_OFI_RDMA_SEND_CLOSE.

Definition ex_close_world : world :=
  w_close_msgs <[700 := mk_close_msg 3 7]>
    (w_sched (fun st => (fst st, <[1024 := ex_stripes]> (snd st)))
       (w_comms <[9 := RecvComm ex_recv_comm]> (w_reqs <[600 := ex_close_req]> ex_world))).

Definition ex_close_posted : world :=
  match post_close_msg (E := ex_env [- FI_EAGAIN]) 600 ex_close_world with
  | Some (_, w) => w
  | None => ex_close_world
  end.

Lemma busy_close_is_dropped_witness :
  exists w2 w3, receive_progress (E := ex_env [- FI_EAGAIN]) 600 true ex_close_world = Some (0, w2) /\
    pending w2 = [600] /\ process_pending_reqs (E := ex_env [- FI_EAGAIN]) w2 = Some (- EINVAL, w3) /\
    pending w3 = [] /\ log w3 = log ex_close_posted.
Proof.
  apply (busy_close_is_dropped (E := ex_env [- FI_EAGAIN]) ex_close_world 600 ex_close_req ex_close_posted);
    vm_compute; reflexivity.
Defined.
