(* ===== verification/RdmaProgress.v ===== *)
(** * nccl_ofi_rdma: completions

    What the progress engine does with an entry of a completion queue: counting
    completions of a request and of its parent, control and eager messages
    arriving in bounce buffers, remote writes, error entries; then the polling
    loops and [test]. *)

From S2P Require Import Prelude StateM NetTypes Allocator Scheduler Msgbuff RdmaWire.
Import Scheduler Msgbuff RdmaWire.
From S2P Require Import RdmaState RdmaPost.

Section Progress.
Context {E : RdmaEnv}.

(** ** Counting completions *)

Definition set_request_state_to_error (req : Z) : M unit :=
  upd_req req (set_state NCCL_OFI_RDMA_REQ_ERROR) ;;;
  let* r := get_req req in
  match type r with
  | NCCL_OFI_RDMA_SEND_CTRL =>
      let* d := get_send_ctrl_data req in
      upd_req (sc_recv_req d) (set_state NCCL_OFI_RDMA_REQ_ERROR)
  | NCCL_OFI_RDMA_RECV_SEGMS =>
      let* d := get_recv_segms_data req in
      upd_req (rs_recv_req d) (set_state NCCL_OFI_RDMA_REQ_ERROR)
  | _ => ret tt
  end.

(** The update under the request's lock. *)
Definition count_completion (sz total_ncompls : Z) (r : nccl_net_ofi_rdma_req_t)
    : nccl_net_ofi_rdma_req_t :=
  let r1 := set_ncompls (ncompls r + 1) (set_size (u64 (size r + sz)) r) in
  if (ncompls r1 =? total_ncompls) && negb (is_state NCCL_OFI_RDMA_REQ_ERROR r1)
  then set_state NCCL_OFI_RDMA_REQ_COMPLETED r1 else r1.

Definition inc_req_completion (req sz total_ncompls : Z) : M Z :=
  upd_req req (count_completion sz total_ncompls) ;;; ret 0.

Definition set_eager_copy_completed (req : Z) : M Z :=
  let* d := get_eager_copy_data req in
  let recv_req := ec_recv_req d in
  let* recv_data := get_recv_data recv_req in
  upd_req req (fun r => set_state NCCL_OFI_RDMA_REQ_COMPLETED (set_ncompls 1 r)) ;;;
  let* bounce_data := get_bounce_data (ec_eager_bounce_req d) in
  let sz := bd_recv_len bounce_data in
  let* rc := check_post_bounce_req (ec_eager_bounce_req d) in
  if negb (rc =? 0) then ret rc
  else inc_req_completion recv_req sz (rv_total_num_compls recv_data).

Definition set_send_ctrl_completed (req : Z) : M Z :=
  let* d := get_send_ctrl_data req in
  let recv_req := sc_recv_req d in
  let* recv_data := get_recv_data recv_req in
  let* c := req_comm req in
  upd_req req (fun r => set_state NCCL_OFI_RDMA_REQ_COMPLETED (set_ncompls 1 r)) ;;;
  upd_recv_comm c (fun r => set_r_ctrl_delivered (u64 (r_n_ctrl_delivered r + 1)) r) ;;;
  inc_req_completion recv_req 0 (rv_total_num_compls recv_data).

Definition inc_recv_seg_completion (req sz total_nsegms : Z) : M Z :=
  let* r := get_req req in
  assert (is_type NCCL_OFI_RDMA_RECV_SEGMS r) ;;;
  let r1 := set_ncompls (ncompls r + 1) (set_size (u64 (size r + sz)) r) in
  put_req req r1 ;;;
  if ncompls r1 =? total_nsegms then
    let* d := get_recv_segms_data req in
    let* recv_data := get_recv_data (rs_recv_req d) in
    upd_req req (set_state NCCL_OFI_RDMA_REQ_COMPLETED) ;;;
    inc_req_completion (rs_recv_req d) (size r1) (rv_total_num_compls recv_data)
  else ret 0.

(** ** Control messages *)

Definition get_bounce_ctrl_msg (item : Z) : M nccl_net_ofi_rdma_ctrl_msg_t :=
  let* m := gets bounce_bufs in
  let* b := of_option (m !! item) in match b with BmCtrl c => ret c | _ => undefined end.
Definition get_bounce_connection_msg (item : Z) : M nccl_ofi_rdma_connection_info_t :=
  let* m := gets bounce_bufs in
  let* b := of_option (m !! item) in
  match b with BmConn c | BmConnResp c => ret c | _ => undefined end.
Definition bounce_get_close_msg (item : Z) : M nccl_net_ofi_rdma_close_msg_t :=
  let* m := gets bounce_bufs in
  let* b := of_option (m !! item) in match b with BmClose c => ret c | _ => undefined end.

(** The fields update_send_data_from_remote copies from the control message. *)
Definition copy_remote (keys : list Z) (ctrl_msg : nccl_net_ofi_rdma_ctrl_msg_t)
    (d : rdma_req_send_data_t) : rdma_req_send_data_t :=
  mk_send_data (sd_eager d) (cm_buff_addr ctrl_msg) (cm_buff_len ctrl_msg) keys (sd_wdata d)
    (sd_xferred_rail_id d) (sd_buff d) (sd_buff_len d) (sd_buff_mr_handle d) (sd_schedule d)
    (sd_total_num_compls d).
Definition set_sd_len n d :=
  mk_send_data (sd_eager d) (sd_remote_buff d) (sd_remote_len d) (sd_remote_mr_key d) (sd_wdata d)
    (sd_xferred_rail_id d) (sd_buff d) n (sd_buff_mr_handle d) (sd_schedule d)
    (sd_total_num_compls d).
Definition set_sd_remote_len n d :=
  mk_send_data (sd_eager d) (sd_remote_buff d) n (sd_remote_mr_key d) (sd_wdata d)
    (sd_xferred_rail_id d) (sd_buff d) (sd_buff_len d) (sd_buff_mr_handle d) (sd_schedule d)
    (sd_total_num_compls d).
Definition set_sd_plan schedule total wdata d :=
  mk_send_data (sd_eager d) (sd_remote_buff d) (sd_remote_len d) (sd_remote_mr_key d) wdata
    (sd_xferred_rail_id d) (sd_buff d) (sd_buff_len d) (sd_buff_mr_handle d) schedule total.

(** Reduce the send to the size of the remote buffer. *)
Definition truncate_send (req : Z) : M unit :=
  let* d := get_send_data req in
  if sd_remote_len d <? sd_buff_len d then
    upd_req req (fun r => set_data (SendData (set_sd_len (sd_remote_len d) d))
                            (set_size (sd_remote_len d) r))
  else ret tt.

Definition update_send_data_from_remote (c bounce_req req : Z) : M Z :=
  let* s_comm := rdma_device_get_send_comm c in
  let* d := get_send_data req in
  let* bounce_data := get_bounce_data bounce_req in
  let* ctrl_msg := get_bounce_ctrl_msg (bd_bounce_fl_item bounce_data) in
  assert (num_rails <=? Z.of_nat (length (cm_buff_mr_key ctrl_msg))) ;;;
  put_data req (SendData (copy_remote (take (Z.to_nat num_rails) (cm_buff_mr_key ctrl_msg))
                            ctrl_msg d)) ;;;
  truncate_send req ;;;
  let* d := get_send_data req in
  let* schedule := get_schedule (sd_buff_len d) num_rails in
  put_data req (SendData (set_sd_schedule schedule d)) ;;;
  if schedule =? NULL then ret (- EINVAL)
  else
    let* s := get_schedule_at schedule in
    let* r := get_req req in
    put_data req (SendData (set_sd_plan schedule (num_xfer_infos s)
                              (GET_RDMA_WRITE_IMM_DATA (s_remote_comm_id s_comm) (msg_seq_num r)
                                 (num_xfer_infos s)) d)) ;;;
    ret 0.

(** Queue a request the network had no room for. *)
Definition queue_if_busy (req rc : Z) : M Z :=
  if rc =? - FI_EAGAIN then pending_insert_back req else ret rc.

Definition handle_ctrl_recv (c seq bounce_req : Z) : M Z :=
  let* s_comm := rdma_device_get_send_comm c in
  let* x := of_option (nccl_ofi_msgbuff_insert (s_msgbuff s_comm) seq bounce_req NCCL_OFI_MSGBUFF_BUFF) in
  let '(mb_res, stat, mb) := x in
  upd_send_comm c (set_s_msgbuff mb) ;;;
  if bool_decide (mb_res = NCCL_OFI_MSGBUFF_SUCCESS) then
    let* bounce_data := get_bounce_data bounce_req in
    decrease_bounce_buff_cnt (bd_rail bounce_data)
  else if negb (bool_decide (mb_res = NCCL_OFI_MSGBUFF_INVALID_IDX)) ||
          negb (bool_decide (stat = NCCL_OFI_MSGBUFF_INPROGRESS)) then ret (- EINVAL)
  else
    match nccl_ofi_msgbuff_retrieve mb seq with
    | (NCCL_OFI_MSGBUFF_SUCCESS, _, Some (req, NCCL_OFI_MSGBUFF_REQ)) =>
        let* send_data := get_send_data req in
        let* bounce_data := get_bounce_data bounce_req in
        let* ctrl_msg := get_bounce_ctrl_msg (bd_bounce_fl_item bounce_data) in
        let* rc :=
          if negb (sd_eager send_data) then
            let* rc := update_send_data_from_remote c bounce_req req in
            if negb (rc =? 0) then ret rc
            else let* rc := send_progress req in queue_if_busy req rc
          else
            put_data req (SendData (set_sd_remote_len (cm_buff_len ctrl_msg) send_data)) ;;;
            truncate_send req ;;;
            inc_req_completion req 0 (sd_total_num_compls send_data) in
        if negb (rc =? 0) then ret rc else repost_bounce_buff bounce_req
    | _ => ret (- EINVAL)
    end.

(** ** Eager messages *)

Definition set_rv_eager_copy_req e d :=
  mk_recv_data (rv_dst_buff d) (rv_dst_len d) (rv_dest_mr_handle d) (rv_send_ctrl_req d)
    (rv_recv_segms_req d) e (rv_total_num_compls d).

Definition alloc_eager_copy_req (recv_req c bounce_req : Z) : M Z :=
  let* e := allocate_req (FlRecv c) in
  if e =? NULL then ret (- ENOMEM)
  else
    let* rr := get_req recv_req in
    upd_req e (fun r => set_comm (Some c) (set_dev_id (dev_id rr)
      (set_type NCCL_OFI_RDMA_EAGER_COPY (set_seq (msg_seq_num rr)
        (set_data (EagerCopyData (mk_eager_copy_data bounce_req recv_req)) r))))) ;;;
    let* bounce_data := get_bounce_data bounce_req in
    assert (negb (bd_recv_len bounce_data =? 0)) ;;;
    let* recv_data := get_recv_data recv_req in
    put_data recv_req (RecvData (set_rv_eager_copy_req e recv_data)) ;;;
    ret 0.

Definition handle_eager_recv (c seq bounce_req : Z) : M Z :=
  let* bounce_data := get_bounce_data bounce_req in
  let* rc := decrease_bounce_buff_cnt (bd_rail bounce_data) in
  if negb (rc =? 0) then ret rc
  else
    let* r_comm := rdma_device_get_recv_comm c in
    let* x := of_option (nccl_ofi_msgbuff_insert (r_msgbuff r_comm) seq bounce_req
                           NCCL_OFI_MSGBUFF_BUFF) in
    let '(mb_res, stat, mb) := x in
    upd_recv_comm c (set_r_msgbuff mb) ;;;
    if bool_decide (mb_res = NCCL_OFI_MSGBUFF_SUCCESS) then ret 0
    else if negb (bool_decide (mb_res = NCCL_OFI_MSGBUFF_INVALID_IDX)) then ret (- EINVAL)
    else if negb (bool_decide (stat = NCCL_OFI_MSGBUFF_INPROGRESS)) then ret (- EINVAL)
    else
      match nccl_ofi_msgbuff_retrieve mb seq with
      | (NCCL_OFI_MSGBUFF_SUCCESS, _, Some (recv_req, NCCL_OFI_MSGBUFF_REQ)) =>
          let* recv_data := get_recv_data recv_req in
          if bd_recv_len bounce_data =? 0 then
            let* rc := check_post_bounce_req bounce_req in
            if negb (rc =? 0) then ret rc
            else inc_req_completion recv_req 0 (rv_total_num_compls recv_data)
          else
            let* rc := alloc_eager_copy_req recv_req c bounce_req in
            if negb (rc =? 0) then ret rc
            else
              let* recv_data := get_recv_data recv_req in
              receive_progress (rv_eager_copy_req recv_data) true
      | _ => ret (- EINVAL)
      end.

(** ** Messages in bounce buffers *)

Definition handle_close_msg_recv (bounce_req : Z) : M Z :=
  let* bounce_data := get_bounce_data bounce_req in
  let* close_msg := bounce_get_close_msg (bd_bounce_fl_item bounce_data) in
  let c := clm_send_comm_id close_msg in
  let* s_comm := rdma_device_get_send_comm c in
  assert (negb (s_received_close_message s_comm)) ;;;
  upd_send_comm c (set_s_close true (clm_ctrl_counter close_msg)) ;;;
  repost_bounce_buff bounce_req.

Definition handle_bounce_recv (cq_entry : fi_cq_data_entry) (bounce_req : Z) (eager : bool) : M Z :=
  if bounce_req =? NULL then ret (- EINVAL)
  else
    let* r := get_req bounce_req in
    if negb (is_type NCCL_OFI_RDMA_BOUNCE r) then ret (- EINVAL)
    else
      let* bounce_data := get_bounce_data bounce_req in
      put_data bounce_req (BounceData (set_bd_recv_len (e_len cq_entry) bounce_data)) ;;;
      let item := bd_bounce_fl_item bounce_data in
      let* bufs := gets bounce_bufs in
      let* payload := of_option (bufs !! item) in
      let msg_type := if eager then NCCL_OFI_RDMA_MSG_EAGER else bounce_msg_type payload in
      match msg_type with
      | NCCL_OFI_RDMA_MSG_CONN =>
          assert (sizeof_connection_info =? e_len cq_entry) ;;;
          let* conn_msg := get_bounce_connection_msg item in
          let c := cn_remote_comm_id conn_msg in
          let* l_comm := rdma_device_get_listen_comm c in
          rdma_device_set_comm c (ListenComm (set_l_conn_msg (Some conn_msg) l_comm)) ;;;
          let* rc := inc_req_completion (l_req l_comm) (e_len cq_entry) 1 in
          if negb (rc =? 0) then ret rc else repost_bounce_buff bounce_req
      | NCCL_OFI_RDMA_MSG_CONN_RESP =>
          assert (sizeof_connection_info =? e_len cq_entry) ;;;
          let* conn_resp_msg := get_bounce_connection_msg item in
          let c := cn_remote_comm_id conn_resp_msg in
          let* s_comm := rdma_device_get_send_comm c in
          assert (negb (s_conn_resp_req s_comm =? NULL)) ;;;
          upd_send_comm c (set_s_conn_msg (Some conn_resp_msg)) ;;;
          let* rc := inc_req_completion (s_conn_resp_req s_comm) (e_len cq_entry) 1 in
          if negb (rc =? 0) then ret rc else repost_bounce_buff bounce_req
      | NCCL_OFI_RDMA_MSG_CTRL =>
          assert (e_len cq_entry =? nccl_net_ofi_rdma_ctrl_msg_size num_rails use_long_rkeys) ;;;
          let* ctrl_msg := get_bounce_ctrl_msg item in
          let c := cm_remote_comm_id ctrl_msg in
          let* rc := handle_ctrl_recv c (cm_msg_seq_num ctrl_msg) bounce_req in
          if negb (rc =? 0) then ret rc
          else
            upd_send_comm c (fun s => set_s_ctrl_received (u64 (s_n_ctrl_received s + 1)) s) ;;;
            ret 0
      | NCCL_OFI_RDMA_MSG_CLOSE =>
          assert (e_len cq_entry =? sizeof_close_msg) ;;;
          handle_close_msg_recv bounce_req
      | NCCL_OFI_RDMA_MSG_EAGER =>
          handle_eager_recv (GET_COMM_ID_FROM_IMM (e_data cq_entry))
            (GET_SEQ_NUM_FROM_IMM (e_data cq_entry)) bounce_req
      | NCCL_OFI_RDMA_MSG_INVALID => ret (- EINVAL)
      end.

(** ** Remote writes and flushes *)

Definition get_req_from_imm_data (imm : Z) : M Z :=
  let* r_comm := rdma_device_get_recv_comm (GET_COMM_ID_FROM_IMM imm) in
  match nccl_ofi_msgbuff_retrieve (r_msgbuff r_comm) (GET_SEQ_NUM_FROM_IMM imm) with
  | (NCCL_OFI_MSGBUFF_SUCCESS, _, Some (elem, NCCL_OFI_MSGBUFF_REQ)) => ret elem
  | _ => ret NULL
  end.

Definition handle_write_comp (cq_entry : fi_cq_data_entry) : M Z :=
  let* req := get_req_from_imm_data (e_data cq_entry) in
  if req =? NULL then ret (- EINVAL)
  else
    let* recv_data := get_recv_data req in
    inc_recv_seg_completion (rv_recv_segms_req recv_data) (e_len cq_entry)
      (GET_NUM_SEG_FROM_IMM (e_data cq_entry)).

Definition handle_flush_comp (req : Z) : M Z :=
  let* flush_data := get_flush_data req in
  inc_req_completion req 0 (fd_total_num_compls flush_data).

(** ** One completion *)

Definition process_completion (cq_entry : fi_cq_data_entry) : M Z :=
  let req := op_context cq_entry in
  assert (negb (req =? NULL) || f_remote_write cq_entry) ;;;
  if f_send cq_entry then
    let* r := get_req req in
    match type r with
    | NCCL_OFI_RDMA_SEND_CONN | NCCL_OFI_RDMA_SEND_CONN_RESP =>
        inc_req_completion req sizeof_connection_info 1
    | NCCL_OFI_RDMA_SEND_CTRL => set_send_ctrl_completed req
    | NCCL_OFI_RDMA_SEND =>
        let* send_data := get_send_data req in
        assert (sd_eager send_data) ;;;
        inc_req_completion req 0 (sd_total_num_compls send_data)
    | NCCL_OFI_RDMA_SEND_CLOSE => inc_req_completion req sizeof_close_msg 1
    | _ => ret (- EINVAL)
    end
  else if f_recv cq_entry then handle_bounce_recv cq_entry req (f_remote_cq_data cq_entry)
  else if f_remote_write cq_entry then handle_write_comp cq_entry
  else if f_write cq_entry then
    let* r := get_req req in
    match type r with
    | NCCL_OFI_RDMA_SEND =>
        let* send_data := get_send_data req in
        inc_req_completion req 0 (sd_total_num_compls send_data)
    | NCCL_OFI_RDMA_WRITE =>
        let* rma_op_data := req_get_rma_op_data req NCCL_OFI_RDMA_WRITE in
        inc_req_completion req 0 (rd_total_num_compls rma_op_data)
    | _ => ret (- EINVAL)
    end
  else if f_read cq_entry then
    let* r := get_req req in
    match type r with
    | NCCL_OFI_RDMA_FLUSH => handle_flush_comp req
    | NCCL_OFI_RDMA_EAGER_COPY => set_eager_copy_completed req
    | NCCL_OFI_RDMA_READ =>
        let* rma_op_data := req_get_rma_op_data req NCCL_OFI_RDMA_READ in
        inc_req_completion req 0 (rd_total_num_compls rma_op_data)
    | _ => ret (- EINVAL)
    end
  else ret (- EINVAL).

(** The loop over the entries of one fi_cq_read. *)
Fixpoint process_completions (cq_entries : list fi_cq_data_entry) : M Z :=
  match cq_entries with
  | [] => ret 0
  | e :: es =>
      let* rc := process_completion e in
      if negb (rc =? 0) then ret rc else process_completions es
  end.

(** The entry fi_cq_readerr returned. *)
Definition process_err_entry (e : fi_cq_err_entry) : M Z :=
  if err_code e =? FI_ECANCELED then ret (- err_code e)
  else
    let* req :=
      if err_remote_write e then get_req_from_imm_data (err_data e) else ret (err_context e) in
    if req =? NULL then ret (- EIO)
    else
      let* r := get_req req in
      (if is_type NCCL_OFI_RDMA_BOUNCE r then ret tt else set_request_state_to_error req) ;;;
      ret (- err_code e).

Definition process_err_completion (a : cq_answer) : M Z :=
  match a with
  | CqErrorNotYet => ret 0
  | CqReaderrFailed rc => ret rc
  | CqError e => process_err_entry e
  | _ => undefined
  end.

(** The NIC has written the payload of a receive completion by the time the
    entry can be read. *)
Fixpoint deliver_payloads (es : list fi_cq_data_entry) : M unit :=
  match es with
  | [] => ret tt
  | e :: es' =>
      (if f_recv e then
         let* m := gets reqs in
         match m !! op_context e with
         | Some r => match data r with
                     | BounceData d => modify (w_bounce_bufs <[bd_bounce_fl_item d := e_payload e]>)
                     | _ => ret tt
                     end
         | None => ret tt
         end
       else ret tt) ;;;
      deliver_payloads es'
  end.

(** The polling loop of ofi_process_cq_rail consumes one answer of the queue per
    iteration. *)
Fixpoint cq_loop (answers : list cq_answer) : M Z :=
  match answers with
  | [] => modify (w_cq (fun _ => [])) ;;; ret 0
  | a :: rest =>
      match a with
      | CqEntries es =>
          match es with
          | [] => modify (w_cq (fun _ => rest)) ;;; ret (- EINVAL)
          | _ :: _ =>
              deliver_payloads es ;;;
              let* rc := process_completions es in
              if negb (rc =? 0) then modify (w_cq (fun _ => rest)) ;;; ret rc else cq_loop rest
          end
      | CqAgain => modify (w_cq (fun _ => rest)) ;;; ret 0
      | CqFailed => modify (w_cq (fun _ => rest)) ;;; ret (- EINVAL)
      | _ =>
          let* rc := process_err_completion a in
          if rc =? 0 then modify (w_cq (fun _ => rest)) ;;; ret 0
          else if rc =? - FI_ECANCELED then cq_loop rest
          else modify (w_cq (fun _ => rest)) ;;; ret rc
      end
  end.

Definition ofi_process_cq_rail : M Z :=
  let* answers := gets cq in cq_loop answers.

Fixpoint process_cq_rails (n : nat) (k : M Z) : M Z :=
  match n with
  | O => k
  | S n' =>
      let* rc := ofi_process_cq_rail in
      if negb (rc =? 0) then ret rc else process_cq_rails n' k
  end.

Definition ofi_process_cq : M Z := process_cq_rails (Z.to_nat num_rails) process_pending_reqs.

Definition process_cq_if_pending : M Z :=
  let* empty := pending_isempty in
  if negb empty then
    let* rc := ofi_process_cq in
    if negb (rc =? 0) then ret rc
    else
      let* empty := pending_isempty in
      ret (if negb empty then - EAGAIN else 0)
  else ret 0.

(** ** test *)

(** Result: return code, [done], and the size reported when done, a size_t that is
    stored in an int. *)
Definition test (req : Z) : M (Z * bool * option Z) :=
  let* r := get_req req in
  assert (is_type NCCL_OFI_RDMA_WRITE r || is_type NCCL_OFI_RDMA_READ r ||
          is_type NCCL_OFI_RDMA_SEND r || is_type NCCL_OFI_RDMA_RECV r ||
          is_type NCCL_OFI_RDMA_FLUSH r) ;;;
  let* c := of_option (comm r) in
  let* rc :=
    if negb (is_state NCCL_OFI_RDMA_REQ_COMPLETED r) && negb (is_state NCCL_OFI_RDMA_REQ_ERROR r)
    then ofi_process_cq else ret 0 in
  if negb (rc =? 0) then ret (rc, false, None)
  else
    let* r := get_req req in
    if is_state NCCL_OFI_RDMA_REQ_COMPLETED r then
      let finish : M (Z * bool * option Z) := req_free req true ;;; ret (0, true, Some (i32 (size r))) in
      match type r with
      | NCCL_OFI_RDMA_SEND =>
          let* s := rdma_device_get_send_comm c in
          let* x := of_option (nccl_ofi_msgbuff_complete (s_msgbuff s) (msg_seq_num r)) in
          let '(mb_res, _, mb) := x in
          upd_send_comm c (set_s_msgbuff mb) ;;;
          if bool_decide (mb_res = NCCL_OFI_MSGBUFF_SUCCESS) then finish
          else ret (- EINVAL, true, Some (i32 (size r)))
      | NCCL_OFI_RDMA_RECV =>
          let* rcm := rdma_device_get_recv_comm c in
          let* x := of_option (nccl_ofi_msgbuff_complete (r_msgbuff rcm) (msg_seq_num r)) in
          let '(mb_res, _, mb) := x in
          upd_recv_comm c (set_r_msgbuff mb) ;;;
          if bool_decide (mb_res = NCCL_OFI_MSGBUFF_SUCCESS) then finish
          else ret (- EINVAL, true, Some (i32 (size r)))
      | _ => finish
      end
    else if is_state NCCL_OFI_RDMA_REQ_ERROR r then ret (- EINVAL, false, None)
    else ret (0, false, None).

(** ** A receive completes when everything has arrived, in any order *)

Lemma inc_req_completion_ok p sz total w r :
  reqs w !! p = Some r ->
  inc_req_completion p sz total w = Some (0, w_reqs <[p := count_completion sz total r]> w).
Proof. intros H. unfold inc_req_completion. by step (upd_req_ok p (count_completion sz total) w r H). Qed.

(** Completion of the control message, and arrival of a segment. *)
Definition ctrl_cqe (C : Z) (e : fi_cq_data_entry) : Prop :=
  op_context e = C /\ f_send e = true.
Definition seg_cqe (imm : Z) (e : fi_cq_data_entry) : Prop :=
  f_send e = false /\ f_recv e = false /\ f_remote_write e = true /\ e_data e = imm /\ 0 <= e_len e.

(** A receive request [R] with its control ([C]) and segment ([S]) requests,
    registered in the message buffer of communicator [c] under the number in
    [imm], of which [n] segments are expected. [b]: the control message has been
    delivered; [k] segments of [bytes] bytes have arrived. *)
Record recv_progress (w : world) (R C S c imm n : Z) (st : nccl_net_ofi_rdma_req_state_t)
    (delivered : Z) (b : bool) (k bytes : Z) : Prop := {
  rp_R : exists r d, reqs w !! R = Some r /\ type r = NCCL_OFI_RDMA_RECV /\ data r = RecvData d /\
    rv_recv_segms_req d = S /\ rv_total_num_compls d = 2 /\
    ncompls r = (if b then 1 else 0) + (if k =? n then 1 else 0) /\
    size r = (if k =? n then bytes else 0) /\
    state r = (if b && (k =? n) then NCCL_OFI_RDMA_REQ_COMPLETED else st);
  rp_C : exists r d, reqs w !! C = Some r /\ type r = NCCL_OFI_RDMA_SEND_CTRL /\ comm r = Some c /\
    data r = SendCtrlData d /\ sc_recv_req d = R;
  rp_S : exists r d, reqs w !! S = Some r /\ type r = NCCL_OFI_RDMA_RECV_SEGMS /\
    data r = RecvSegmsData d /\ rs_recv_req d = R /\ ncompls r = k /\ size r = bytes;
  rp_c : exists rc stat, comms w !! c = Some (RecvComm rc) /\
    nccl_ofi_msgbuff_retrieve (r_msgbuff rc) (GET_SEQ_NUM_FROM_IMM imm) =
      (NCCL_OFI_MSGBUFF_SUCCESS, stat, Some (R, NCCL_OFI_MSGBUFF_REQ)) /\
    r_n_ctrl_delivered rc = u64 (delivered + (if b then 1 else 0));
  rp_imm : GET_COMM_ID_FROM_IMM imm = c /\ GET_NUM_SEG_FROM_IMM imm = n;
  rp_distinct : R <> C /\ R <> S /\ C <> S /\ R <> NULL /\ C <> NULL;
  rp_n : 1 <= n /\ 0 <= k <= n;
  rp_st : st <> NCCL_OFI_RDMA_REQ_ERROR /\ st <> NCCL_OFI_RDMA_REQ_COMPLETED;
}.

Lemma wrap_succ_l w x y : 0 <= w -> wrap w (wrap w x + y) = wrap w (x + y).
Proof. intros Hw. unfold wrap. by rewrite Zplus_mod_idemp_l. Qed.

Lemma count_2 r sz b1 b2 st :
  ncompls r = b1 -> state r = st -> st <> NCCL_OFI_RDMA_REQ_ERROR ->
  b1 = 0 /\ b2 = false \/ b1 = 1 /\ b2 = true ->
  count_completion sz 2 r =
    set_state (if b2 then NCCL_OFI_RDMA_REQ_COMPLETED else st)
      (set_ncompls (b1 + 1) (set_size (u64 (size r + sz)) r)).
Proof.
  intros Hn Hs Hst Hb. unfold count_completion, is_state. destruct r; cbn in *. subst.
  destruct Hb as [[-> ->]|[-> ->]]; cbn; [done|]. by rewrite bool_decide_false.
Qed.

Lemma step_ctrl w R C S c imm n st del k bytes e :
  recv_progress w R C S c imm n st del false k bytes -> ctrl_cqe C e -> 0 <= bytes < 2 ^ 64 ->
  exists w', process_completion e w = Some (0, w') /\
    recv_progress w' R C S c imm n st del true k bytes.
Proof.
  intros [(rR & dR & HR & HtR & HdR & HS & H2 & HnR & HsR & HstR) (rC & dC & HC & HtC & HcC & HdC & HRC)
    (rS & dS & HSS & HtS & HdS & HRS & HnS & HsS) (rc & stat & Hc & Hmb & Hdel) Himm
    (HRCn & HRSn & HCSn & HRn & HCn) Hn Hst] [Hctx Hsend] Hby.
  set (w1 := w_comms <[c := RecvComm (set_r_ctrl_delivered (u64 (r_n_ctrl_delivered rc + 1)) rc)]>
    (w_reqs <[C := set_state NCCL_OFI_RDMA_REQ_COMPLETED (set_ncompls 1 rC)]> w)).
  assert (reqs w1 !! R = Some rR) as HR1 by (cbn; by rewrite lookup_insert_ne).
  exists (w_reqs <[R := count_completion 0 2 rR]> w1). split.
  - unfold process_completion. rewrite Hctx, Hsend.
    rewrite (bind_ok (assert _) _ w tt w) by (by rewrite (proj2 (Z.eqb_neq C NULL))).
    step (get_req_ok _ _ _ HC). rewrite HtC. unfold set_send_ctrl_completed.
    step (get_send_ctrl_data_ok _ _ _ _ HC HtC HdC). rewrite HRC.
    step (get_recv_data_ok _ _ _ _ HR HtR HdR). step (req_comm_ok _ _ _ _ HC HcC).
    step (upd_req_ok C (fun r => set_state NCCL_OFI_RDMA_REQ_COMPLETED (set_ncompls 1 r)) w rC HC).
    step (upd_recv_comm_ok c (fun r => set_r_ctrl_delivered (u64 (r_n_ctrl_delivered r + 1)) r)
      (w_reqs <[C := set_state NCCL_OFI_RDMA_REQ_COMPLETED (set_ncompls 1 rC)]> w) rc Hc).
    rewrite H2. by apply inc_req_completion_ok.
  - rewrite (count_2 rR 0 (if k =? n then 1 else 0) (k =? n) st); [| |exact HstR|tauto|destruct (k =? n); tauto].
    2: { rewrite HnR. done. }
    constructor; try done.
    + exists (set_state (if k =? n then NCCL_OFI_RDMA_REQ_COMPLETED else st)
        (set_ncompls ((if k =? n then 1 else 0) + 1) (set_size (u64 (size rR + 0)) rR))), dR.
      cbn. rewrite lookup_insert_eq. split_and!; try done; [lia|].
      rewrite HsR, Z.add_0_r, wrap_small; [done|]. destruct (k =? n); lia.
    + exists (set_state NCCL_OFI_RDMA_REQ_COMPLETED (set_ncompls 1 rC)), dC. cbn.
      by rewrite lookup_insert_ne, lookup_insert_eq.
    + exists rS, dS. cbn. by rewrite !lookup_insert_ne.
    + exists (set_r_ctrl_delivered (u64 (r_n_ctrl_delivered rc + 1)) rc), stat. cbn.
      rewrite lookup_insert_eq. split_and!; [done|done|]. by rewrite Hdel, Z.add_0_r, wrap_succ_l.
Qed.

Lemma step_seg w R C S c imm n st del b k bytes e :
  recv_progress w R C S c imm n st del b k bytes -> seg_cqe imm e -> k < n ->
  0 <= bytes -> bytes + e_len e < 2 ^ 64 ->
  exists w', process_completion e w = Some (0, w') /\
    recv_progress w' R C S c imm n st del b (k + 1) (bytes + e_len e).
Proof.
  intros [(rR & dR & HR & HtR & HdR & HS & H2 & HnR & HsR & HstR) (rC & dC & HC & HtC & HcC & HdC & HRC)
    (rS & dS & HSS & HtS & HdS & HRS & HnS & HsS) (rc & stat & Hc & Hmb & Hdel) (Hi1 & Hi2)
    (HRCn & HRSn & HCSn & HRn & HCn) Hn Hst] (Hf1 & Hf2 & Hf3 & Hd & Hl) Hk Hb0 Hby.
  rewrite (proj2 (Z.eqb_neq k n)) in * by lia. rewrite andb_false_r in HstR.
  set (rS1 := set_ncompls (k + 1) (set_size (bytes + e_len e) rS)).
  set (w1 := w_reqs <[S := rS1]> w).
  assert (reqs w1 !! S = Some rS1) as HS1 by apply lookup_insert_eq.
  assert (reqs w1 !! R = Some rR) as HR1 by (cbn; by rewrite lookup_insert_ne).
  assert (exists k', inc_recv_seg_completion S (e_len e) n w = (if k + 1 =? n then k' else ret 0) w1 /\
    k' w1 = Some (0, w_reqs <[R := count_completion (bytes + e_len e) 2 rR]>
      (w_reqs <[S := set_state NCCL_OFI_RDMA_REQ_COMPLETED rS1]> w1))) as (k' & Hinc & Hk').
  { eexists. split.
    - unfold inc_recv_seg_completion. step (get_req_ok _ _ _ HSS).
      rewrite (bind_ok (assert _) _ w tt w) by (unfold is_type; by rewrite bool_decide_true).
      rewrite HnS, HsS, wrap_small by lia. fold rS1.
      rewrite (bind_ok (put_req S rS1) _ w tt w1) by done. cbn [ncompls rS1 set_ncompls]. reflexivity.
    - step (get_recv_segms_data_ok S w1 rS1 dS HS1 HtS HdS). rewrite HRS.
      step (get_recv_data_ok R w1 rR dR HR1 HtR HdR).
      step (upd_req_ok S (set_state NCCL_OFI_RDMA_REQ_COMPLETED) w1 rS1 HS1). rewrite H2.
      apply inc_req_completion_ok. cbn. by rewrite !lookup_insert_ne. }
  assert (process_completion e w = inc_recv_seg_completion S (e_len e) n w) as Hpc.
  { unfold process_completion. rewrite Hf1, Hf2, Hf3, orb_true_r.
    rewrite (bind_ok (assert true) _ w tt w) by done. unfold handle_write_comp, get_req_from_imm_data.
    rewrite Hd, Hi1, Hi2. unfold bind at 1. rewrite (bind_ok _ _ _ _ _ (get_recv_comm_ok _ _ _ Hc)), Hmb.
    unfold ret at 1. rewrite (proj2 (Z.eqb_neq R NULL)) by done.
    step (get_recv_data_ok _ _ _ _ HR HtR HdR). by rewrite HS. }
  rewrite Hpc, Hinc. destruct (k + 1 =? n) eqn:Hkn.
  - rewrite Hk'. eexists. split; [reflexivity|].
    rewrite (count_2 rR _ (if b then 1 else 0) b st); [| |done|tauto|destruct b; tauto].
    2: { rewrite HnR. lia. }
    constructor; try done; [| | | |lia].
    + exists (set_state (if b then NCCL_OFI_RDMA_REQ_COMPLETED else st)
        (set_ncompls ((if b then 1 else 0) + 1) (set_size (u64 (size rR + (bytes + e_len e))) rR))), dR.
      cbn. rewrite lookup_insert_eq, Hkn, HsR, Z.add_0_l, wrap_small, andb_true_r by lia.
      by split_and!.
    + exists rC, dC. cbn. by rewrite !lookup_insert_ne.
    + exists (set_state NCCL_OFI_RDMA_REQ_COMPLETED rS1), dS. cbn.
      by rewrite lookup_insert_ne, lookup_insert_eq.
    + exists rc, stat. by split_and!.
  - exists w1. split; [done|]. constructor; try done; [| | | |bool_cases; lia].
    + exists rR, dR. cbn. rewrite lookup_insert_ne by done. rewrite Hkn, andb_false_r. by split_and!.
    + exists rC, dC. cbn. by rewrite !lookup_insert_ne.
    + exists rS1, dS. by split_and!.
    + exists rc, stat. by split_and!.
Qed.

Definition total_len (es : list fi_cq_data_entry) : Z := zsum (e_len <$> es).

(** What is still to come: the segments [segs] and, unless [b], the control
    completion [ec]. *)
Definition to_come (imm n : Z) (ec : fi_cq_data_entry) (b : bool) (k : Z)
    (es segs : list fi_cq_data_entry) : Prop :=
  es ≡ₚ (if b then [] else [ec]) ++ segs /\ Forall (seg_cqe imm) segs /\ k + Z.of_nat (length segs) = n.

Lemma total_len_nonneg imm segs : Forall (seg_cqe imm) segs -> 0 <= total_len segs.
Proof.
  intros H. apply zsum_nonneg, Forall_fmap. eapply Forall_impl; [done|]. intros x Hx. apply Hx.
Qed.

(** The next completion is the control message or one of the segments. *)
Lemma to_come_cons imm n ec b k e es segs :
  to_come imm n ec b k (e :: es) segs ->
  (b = false /\ e = ec /\ to_come imm n ec true k es segs) \/
  (exists segs', seg_cqe imm e /\ k < n /\ total_len segs = e_len e + total_len segs' /\
     to_come imm n ec b (k + 1) es segs').
Proof.
  intros (Hperm & Hsegs & Hk).
  assert (e ∈ (if b then [] else [ec]) ++ segs) as He by (rewrite <- Hperm; left).
  apply elem_of_app in He as [He|He].
  - left. destruct b; [by apply elem_of_nil in He|]. apply list_elem_of_singleton in He as ->.
    split_and!; [done|done|]. apply Permutation_cons_inv in Hperm. by split_and!.
  - right. apply elem_of_Permutation in He as [segs' Hs]. exists segs'.
    pose proof (Permutation_length Hs) as Hlen. cbn in Hlen.
    rewrite Hs, <- Permutation_middle in Hperm. apply Permutation_cons_inv in Hperm.
    rewrite Hs in Hsegs. apply Forall_cons in Hsegs as [He Hsegs].
    split_and!; [done|lia|unfold total_len; by rewrite Hs|]. split_and!; [done|done|lia].
Qed.

Lemma recv_progress_run R C S c imm n st del ec : ctrl_cqe C ec -> forall es1 es2 w b k bytes segs,
  recv_progress w R C S c imm n st del b k bytes -> to_come imm n ec b k (es1 ++ es2) segs ->
  0 <= bytes -> bytes + total_len segs < 2 ^ 64 ->
  exists w' b' k' segs', process_completions es1 w = Some (0, w') /\
    recv_progress w' R C S c imm n st del b' k' (bytes + total_len segs - total_len segs') /\
    to_come imm n ec b' k' es2 segs'.
Proof.
  intros Hec. induction es1 as [|e es1 IH]; intros es2 w b k bytes segs Hp Hc Hb0 Hby.
  { exists w, b, k, segs. replace (bytes + total_len segs - total_len segs) with bytes by lia. done. }
  cbn [process_completions].
  assert (0 <= total_len segs) as Hpos by (eapply total_len_nonneg, Hc).
  destruct (to_come_cons _ _ _ _ _ _ _ _ Hc) as [(-> & -> & Hc')|(segs' & He & Hk & Htot & Hc')].
  - destruct (step_ctrl w R C S c imm n st del k bytes ec Hp Hec ltac:(lia)) as (w1 & H1 & Hp1).
    step H1. cbn [Z.eqb negb]. by apply (IH es2 w1 true k bytes segs).
  - assert (0 <= total_len segs') as Hpos' by (eapply total_len_nonneg, Hc').
    assert (0 <= e_len e) as Hel by apply He.
    destruct (step_seg w R C S c imm n st del b k bytes e Hp He Hk Hb0 ltac:(lia)) as (w1 & H1 & Hp1).
    step H1. cbn [Z.eqb negb].
    destruct (IH es2 w1 b (k + 1) (bytes + e_len e) segs' Hp1 Hc' ltac:(lia) ltac:(lia))
      as (w' & b' & k' & segs1 & H' & Hp' & Hc1).
    exists w', b', k', segs1. split_and!; [done| |done].
    by replace (bytes + total_len segs - total_len segs1) with
      (bytes + e_len e + total_len segs' - total_len segs1) by lia.
Qed.

(** C3. A receive completes exactly when its control message has been delivered
    and all its segments have arrived, whatever the order of the completions:
    after any first part [es1] of them the request is COMPLETED if and only if
    nothing is left to come, and then its size is the sum of the segments. *)
Theorem recv_completes_in_any_order w R C S c imm n st del ec segs es1 es2 :
  recv_progress w R C S c imm n st del false 0 0 -> ctrl_cqe C ec -> Forall (seg_cqe imm) segs ->
  Z.of_nat (length segs) = n -> total_len segs < 2 ^ 64 -> es1 ++ es2 ≡ₚ ec :: segs ->
  exists w1 r, process_completions es1 w = Some (0, w1) /\ reqs w1 !! R = Some r /\
    (state r = NCCL_OFI_RDMA_REQ_COMPLETED <-> es2 = []) /\ (es2 = [] -> size r = total_len segs).
Proof.
  intros Hp Hec Hsegs Hn Htot Hperm.
  destruct (recv_progress_run R C S c imm n st del ec Hec es1 es2 w false 0 0 segs)
    as (w1 & b & k & segs' & H1 & Hp1 & Hperm' & Hsegs' & Hk); [done|by split_and!|lia|done|].
  destruct Hp1 as [(r & d & HR & _ & _ & _ & _ & _ & Hsz & Hst) _ _ _ _ _ _ Hne].
  assert (es2 = [] <-> b = true /\ k = n) as Hiff.
  { split.
    - intros ->. apply Permutation_nil_l in Hperm'. destruct b; [|done]. cbn in Hperm'. subst segs'.
      cbn in Hk. split; [done|lia].
    - intros [-> ->]. destruct segs'; [|cbn in Hk; lia]. cbn in Hperm'.
      by apply Permutation_nil_r in Hperm'. }
  exists w1, r. split; [done|]. split; [done|]. split; [split; [intros Hc|intros He]|intros He].
  - apply Hiff. rewrite Hst in Hc. destruct b, (k =? n) eqn:Hkn; cbn in Hc; bool_cases; tauto.
  - apply Hiff in He as [-> ->]. by rewrite Hst, Z.eqb_refl.
  - apply Hiff in He as [-> ->]. rewrite Hsz, Z.eqb_refl.
    destruct segs'; [cbn; lia|cbn in Hk; lia].
Qed.

(** ** A control message fixes what is sent *)

Record env_ok : Prop := {
  eo_rails : 1 <= num_rails <= MAX_NUM_RAILS;
  eo_entry : Z.of_nat (length entry_xfer_infos) = num_rails;
}.

Definition scheduler_ok : sched_state -> Prop :=
  sched_ok (EA := pool_allocator (sizeof_schedule num_rails)) num_rails.

Lemma get_schedule_spec w sz :
  env_ok -> scheduler_ok (sched w) -> 0 <= sz < 2 ^ 63 ->
  exists p st, get_schedule sz num_rails w = Some (p, w_sched (fun _ => st) w) /\ scheduler_ok st /\
    ((p = NULL /\ snd st = snd (sched w)) \/
     (p <> NULL /\ (p ∉ dom (snd (sched w))) /\
      exists sch, snd st = <[p := sch]> (snd (sched w)) /\ partition num_rails sz sch)).
Proof.
  intros [HR He] Hok Hsz. unfold MAX_NUM_RAILS in HR.
  destruct (get_schedule_preserves (EA := pool_allocator (sizeof_schedule num_rails)) num_rails tt
    entry_xfer_infos (sched w) sz Hok) as (p & st & Hg & Hok' & Hcase); [done|lia|lia|done|].
  exists p, st. split_and!; [|done|].
  - unfold get_schedule, bind, gets. by rewrite Hg.
  - destruct Hcase as [(-> & Hs & _)|(Hp & Hd & sch & Hs & Hpt & _)]; [by left|right].
    split_and!; [done|done|]. by exists sch.
Qed.

Lemma get_schedule_at_ok w p sch :
  snd (sched w) !! p = Some sch -> get_schedule_at p w = Some (sch, w).
Proof. intros H. unfold get_schedule_at, bind, gets. by rewrite H. Qed.

(** A send that waits for its control message, and the bounce request the
    message arrived in. *)
Record ctrl_arrived (w : world) (c : Z) (s_comm : nccl_net_ofi_rdma_send_comm_t) (req : Z)
    (r : nccl_net_ofi_rdma_req_t) (d : rdma_req_send_data_t) (bounce_req : Z)
    (ctrl : nccl_net_ofi_rdma_ctrl_msg_t) : Prop := {
  ca_env : env_ok;
  ca_sched : scheduler_ok (sched w);
  ca_comm : comms w !! c = Some (SendComm s_comm);
  ca_req : reqs w !! req = Some r;
  ca_type : type r = NCCL_OFI_RDMA_SEND;
  ca_data : data r = SendData d;
  ca_bounce : exists rb bd, reqs w !! bounce_req = Some rb /\ type rb = NCCL_OFI_RDMA_BOUNCE /\
    data rb = BounceData bd /\ bounce_bufs w !! bd_bounce_fl_item bd = Some (BmCtrl ctrl);
  ca_keys : num_rails <= Z.of_nat (length (cm_buff_mr_key ctrl));
  ca_len : 0 <= sd_buff_len d < 2 ^ 63;
  ca_remote_len : 0 <= cm_buff_len ctrl < 2 ^ 32;
  ca_comm_id : 0 <= s_remote_comm_id s_comm < 2 ^ NCCL_OFI_RDMA_COMM_ID_BITS;
  ca_seq : 0 <= msg_seq_num r < 2 ^ NCCL_OFI_RDMA_SEQ_BITS;
}.

(** The data of the send once the plan is made. *)
Definition planned (d : rdma_req_send_data_t) (ctrl : nccl_net_ofi_rdma_ctrl_msg_t) (p total wdata : Z) :=
  set_sd_plan p total wdata
    (set_sd_len (Z.min (sd_buff_len d) (cm_buff_len ctrl))
       (copy_remote (take (Z.to_nat num_rails) (cm_buff_mr_key ctrl)) ctrl d)).

Lemma truncate_send_ok w req r d :
  reqs w !! req = Some r -> type r = NCCL_OFI_RDMA_SEND -> data r = SendData d ->
  exists r', truncate_send req w = Some (tt, w_reqs <[req := r']> w) /\
    r' = set_data (SendData (set_sd_len (Z.min (sd_buff_len d) (sd_remote_len d)) d))
           (set_size (if sd_remote_len d <? sd_buff_len d then sd_remote_len d else size r) r).
Proof.
  intros Hr Ht Hd. eexists. split; [|reflexivity]. unfold truncate_send.
  step (get_send_data_ok _ _ _ _ Hr Ht Hd). destruct (sd_remote_len d <? sd_buff_len d) eqn:Hlt; bool_cases.
  - rewrite Z.min_r by lia. by rewrite (upd_req_ok _ _ _ _ Hr).
  - rewrite Z.min_l by lia. unfold ret. do 2 f_equal. unfold w_reqs.
    rewrite insert_id; [by destruct w|]. rewrite Hr. f_equal. destruct r, d; cbn in *. by subst.
Qed.

Lemma update_send_data_spec w c s_comm req r d bounce_req ctrl :
  ctrl_arrived w c s_comm req r d bounce_req ctrl ->
  let len := Z.min (sd_buff_len d) (cm_buff_len ctrl) in
  exists rc w', update_send_data_from_remote c bounce_req req w = Some (rc, w') /\
    comms w' = comms w /\ log w' = log w /\ scheduler_ok (sched w') /\
    ((rc = - EINVAL /\ snd (sched w') = snd (sched w)) \/
     (rc = 0 /\ exists p sch r', p <> NULL /\ (p ∉ dom (snd (sched w))) /\
        snd (sched w') = <[p := sch]> (snd (sched w)) /\ partition num_rails len sch /\
        reqs w' !! req = Some r' /\ type r' = NCCL_OFI_RDMA_SEND /\ comm r' = comm r /\
        size r' = (if cm_buff_len ctrl <? sd_buff_len d then cm_buff_len ctrl else size r) /\
        data r' = SendData (planned d ctrl p (num_xfer_infos sch)
          (GET_RDMA_WRITE_IMM_DATA (s_remote_comm_id s_comm) (msg_seq_num r) (num_xfer_infos sch))))).
Proof.
  intros [Henv Hsok Hc Hr Ht Hd (rb & bd & Hb & Htb & Hdb & Hbuf) Hkeys Hlen Hrl Hcid Hseq] len.
  set (keys := take (Z.to_nat num_rails) (cm_buff_mr_key ctrl)).
  set (d1 := copy_remote keys ctrl d). set (r1 := set_data (SendData d1) r).
  set (w1 := w_reqs <[req := r1]> w).
  assert (reqs w1 !! req = Some r1) as Hr1 by apply lookup_insert_eq.
  destruct (truncate_send_ok w1 req r1 d1 Hr1 Ht eq_refl) as (r2 & Htr & Hr2).
  set (w2 := w_reqs <[req := r2]> w1) in *. set (d2 := set_sd_len len d1).
  assert (reqs w2 !! req = Some r2) as Hl2 by apply lookup_insert_eq.
  assert (type r2 = NCCL_OFI_RDMA_SEND) as Ht2 by (by subst r2).
  assert (data r2 = SendData d2) as Hd2 by (by subst r2).
  destruct (get_schedule_spec w2 len Henv Hsok ltac:(lia)) as (p & st & Hg & Hok3 & Hcase).
  set (w3 := w_sched (fun _ => st) w2) in *.
  set (w4 := w_reqs <[req := set_data (SendData (set_sd_schedule p d2)) r2]> w3).
  assert (update_send_data_from_remote c bounce_req req w =
    (if p =? NULL then ret (- EINVAL)
     else let* s := get_schedule_at p in
          let* r := get_req req in
          put_data req (SendData (set_sd_plan p (num_xfer_infos s)
            (GET_RDMA_WRITE_IMM_DATA (s_remote_comm_id s_comm) (msg_seq_num r) (num_xfer_infos s)) d2)) ;;;
          ret 0) w4) as ->.
  { unfold update_send_data_from_remote. step (get_send_comm_ok _ _ _ Hc).
    step (get_send_data_ok _ _ _ _ Hr Ht Hd). step (get_bounce_data_ok _ _ _ _ Hb Htb Hdb).
    assert (get_bounce_ctrl_msg (bd_bounce_fl_item bd) w = Some (ctrl, w)) as Hm.
    { unfold get_bounce_ctrl_msg, bind, gets. by rewrite Hbuf. }
    step Hm. rewrite (bind_ok (assert _) _ w tt w) by (by rewrite (proj2 (Z.leb_le _ _) Hkeys)).
    step (put_data_ok req (SendData d1) w r Hr). fold r1 w1. step Htr.
    step (get_send_data_ok _ _ _ _ Hl2 Ht2 Hd2). step Hg.
    assert (reqs w3 !! req = Some r2) as Hl3 by apply lookup_insert_eq.
    step (put_data_ok req (SendData (set_sd_schedule p d2)) w3 r2 Hl3). done. }
  destruct Hcase as [(-> & Hs)|(Hp & Hdom & sch & Hs & Hpt)].
  - exists (- EINVAL), w4. split_and!; try done. by left.
  - rewrite (proj2 (Z.eqb_neq p NULL)) by done.
    assert (snd (sched w4) !! p = Some sch) as Hsch by (cbn; rewrite Hs; apply lookup_insert_eq).
    assert (reqs w4 !! req = Some (set_data (SendData (set_sd_schedule p d2)) r2)) as Hr4
      by apply lookup_insert_eq.
    step (get_schedule_at_ok _ _ _ Hsch). step (get_req_ok _ _ _ Hr4).
    match goal with |- context [put_data req ?d] => step (put_data_ok req d w4 _ Hr4) end.
    eexists 0, _. split; [reflexivity|]. split; [done|]. split; [done|]. split; [done|]. right. split; [done|].
    eexists p, sch, _. split_and!; [done|done|done|done|apply lookup_insert_eq|..]; subst r2; done.
Qed.

(** C20. When the control message of a send has arrived, the send is planned (or,
    with no schedule to be had, refused with -EINVAL): it covers the smaller of
    the two buffers, is split by a schedule that partitions those bytes, expects
    one completion per stripe, and its immediate data tells the receiver the
    communicator, the message and the number of stripes. *)
Theorem ctrl_message_plans_send w c s_comm req r d bounce_req ctrl :
  ctrl_arrived w c s_comm req r d bounce_req ctrl ->
  exists rc w', update_send_data_from_remote c bounce_req req w = Some (rc, w') /\
    (rc = - EINVAL \/ rc = 0 /\
     exists r' d' sch, reqs w' !! req = Some r' /\ data r' = SendData d' /\
       sd_buff_len d' = Z.min (sd_buff_len d) (cm_buff_len ctrl) /\
       sd_remote_buff d' = cm_buff_addr ctrl /\ sd_total_num_compls d' = num_xfer_infos sch /\
       snd (sched w') !! sd_schedule d' = Some sch /\ partition num_rails (sd_buff_len d') sch /\
       GET_COMM_ID_FROM_IMM (sd_wdata d') = s_remote_comm_id s_comm /\
       GET_SEQ_NUM_FROM_IMM (sd_wdata d') = msg_seq_num r /\
       GET_NUM_SEG_FROM_IMM (sd_wdata d') = num_xfer_infos sch).
Proof.
  intros H. destruct (update_send_data_spec _ _ _ _ _ _ _ _ H)
    as (rc & w' & Heq & _ & _ & _ & [[-> _]|(-> & p & sch & r' & Hp & _ & Hs & Hpt & Hr' & _ & _ & _ & Hd')]);
    [exists (- EINVAL), w'; auto|].
  exists 0, w'. split; [done|right]. split; [done|].
  destruct H as [[HR _] _ _ _ _ _ _ _ _ _ Hcid Hseq]. pose proof (pt_count _ _ _ Hpt) as Hn.
  unfold MAX_NUM_RAILS in HR.
  destruct (imm_data_fields (s_remote_comm_id s_comm) (msg_seq_num r) (num_xfer_infos sch))
    as (H1 & H2 & H3); [done|done|unfold NUM_NUM_SEG_BITS; lia|].
  exists r', (planned d ctrl p (num_xfer_infos sch)
    (GET_RDMA_WRITE_IMM_DATA (s_remote_comm_id s_comm) (msg_seq_num r) (num_xfer_infos sch))), sch.
  cbn. rewrite Hs. by rewrite lookup_insert_eq.
Qed.

(** [op] copies the local byte at [x] to the remote address [y]. *)
Definition copies (op : net_op) (x y : Z) : Prop :=
  match op with
  | fi_writedata _ buf len _ _ _ raddr _ _ => buf <= x < buf + len /\ y - raddr = x - buf
  | _ => False
  end.

(** [op] writes inside the [len] bytes at [addr]. *)
Definition writes_inside (op : net_op) (addr len : Z) : Prop :=
  match op with
  | fi_writedata _ _ n _ _ _ raddr _ _ => addr <= raddr /\ raddr + n <= addr + len
  | _ => False
  end.

Lemma stripe_op_spec s d req x op len :
  stripe_op s d req x = Some op -> 0 <= offset x -> 0 <= msg_size x -> offset x + msg_size x <= len ->
  0 <= sd_buff d -> sd_buff d + len < 2 ^ 64 -> 0 <= sd_remote_buff d -> sd_remote_buff d + len < 2 ^ 64 ->
  writes_inside op (sd_remote_buff d) len /\
  forall k, copies op (sd_buff d + k) (sd_remote_buff d + k) <-> offset x <= k < offset x + msg_size x.
Proof.
  intros Hop Ho Hm Hl Hb Hbl Hr Hrl. unfold stripe_op in Hop.
  destruct (s_rails s !! _); [|done]. cbn in Hop. destruct (mr (sd_buff_mr_handle d) !! _); [|done].
  cbn in Hop. destruct (sd_remote_mr_key d !! _); [|done]. cbn in Hop. injection Hop as <-. cbn.
  rewrite !wrap_small by lia. split; [lia|]. intros k. lia.
Qed.

Lemma stripe_ops_exist s d req sch :
  Z.of_nat (length (s_rails s)) >= num_rails -> Z.of_nat (length (mr (sd_buff_mr_handle d))) >= num_rails ->
  Z.of_nat (length (sd_remote_mr_key d)) >= num_rails ->
  Forall (fun i => 0 <= i < num_rails) (Scheduler.rail_id <$> stripes sch) ->
  exists ops, mapM (stripe_op s d req) (stripes sch) = Some ops.
Proof.
  intros H1 H2 H3 Hf. rewrite Forall_fmap in Hf. apply mapM_is_Some_2. eapply Forall_impl; [exact Hf|].
  intros x Hx. cbn in Hx. change (is_Some (stripe_op s d req x)). unfold stripe_op.
  destruct (lookup_lt_is_Some_2 (s_rails s) (Z.to_nat (Scheduler.rail_id x))) as [? ->]; [lia|].
  destruct (lookup_lt_is_Some_2 (mr (sd_buff_mr_handle d)) (Z.to_nat (Scheduler.rail_id x))) as [? ->]; [lia|].
  destruct (lookup_lt_is_Some_2 (sd_remote_mr_key d) (Z.to_nat (Scheduler.rail_id x))) as [? ->]; [lia|].
  by eexists.
Qed.

(** What stripe [x] of the plan does, in terms of the two buffers. *)
Definition stripe_copies (d : rdma_req_send_data_t) (ctrl : nccl_net_ofi_rdma_ctrl_msg_t)
    (x : nccl_net_ofi_xfer_info_t) (op : net_op) : Prop :=
  writes_inside op (cm_buff_addr ctrl) (cm_buff_len ctrl) /\
  forall k, copies op (sd_buff d + k) (cm_buff_addr ctrl + k) <-> offset x <= k < offset x + msg_size x.

(** The plan of a control message makes the send ready to be posted. *)
Lemma planned_ready w c s_comm req r d bounce_req ctrl w' :
  ctrl_arrived w c s_comm req r d bounce_req ctrl -> comm r = Some c ->
  sd_eager d = false -> sd_xferred_rail_id d = 0 ->
  num_rails <= Z.of_nat (length (s_rails s_comm)) ->
  num_rails <= Z.of_nat (length (mr (sd_buff_mr_handle d))) ->
  0 <= sd_buff d -> sd_buff d + sd_buff_len d < 2 ^ 64 ->
  0 <= cm_buff_addr ctrl -> cm_buff_addr ctrl + cm_buff_len ctrl < 2 ^ 64 ->
  update_send_data_from_remote c bounce_req req w = Some (0, w') ->
  exists d' sch ops, sent_so_far w' req d' ops 0 /\
    partition num_rails (Z.min (sd_buff_len d) (cm_buff_len ctrl)) sch /\
    Forall2 (stripe_copies d ctrl) (stripes sch) ops.
Proof.
  intros H Hc He Hx Hs Hm Hb0 Hb1 Ha0 Ha1 Hupd.
  destruct (update_send_data_spec _ _ _ _ _ _ _ _ H)
    as (rc & w1 & Heq & Hcm & _ & _ & Hcase). rewrite Hupd in Heq. injection Heq as <- <-.
  destruct Hcase as [[? _]|(_ & p & sch & r' & Hp & _ & Hsch & Hpt & Hr' & Ht' & Hc' & _ & Hd')]; [done|].
  set (wd := GET_RDMA_WRITE_IMM_DATA _ _ _) in Hd'.
  set (d' := planned d ctrl p (num_xfer_infos sch) wd) in *.
  destruct H as [[HR _] _ Hcs _ _ _ _ Hk Hlen Hrl _ _]. unfold MAX_NUM_RAILS in HR.
  pose proof Hpt as [Hcnt Hsl _ Hin [_ Hrail] _].
  assert (Z.of_nat (length (sd_remote_mr_key d')) >= num_rails) as Hkeys
    by (cbn; rewrite length_take; lia).
  destruct (stripe_ops_exist s_comm d' req sch) as (ops & Hops); [lia|cbn; lia|done|done|].
  exists d', sch, ops. split_and!; [|done|].
  - apply (sent_so_far_start w' req r' c s_comm d' sch ops); [|done]. constructor; try done; try (cbn; lia).
    + by rewrite Hc'.
    + by rewrite Hcm.
    + cbn. rewrite Hsch. apply lookup_insert_eq.
    + unfold stripes in Hsl. rewrite length_take in Hsl. lia.
    + apply Forall_fmap in Hrail. eapply Forall_impl; [exact Hrail|]. cbn. lia.
  - pose proof (mapM_Some_1 _ _ _ Hops) as Hf2. apply Forall2_same_length_lookup.
    split; [by apply Forall2_length in Hf2|]. intros i x op Hxi Hoi.
    destruct (Hin x) as (? & ? & ?); [by eapply list_elem_of_lookup_2|].
    pose proof (Forall2_lookup_lr _ _ _ _ _ _ Hf2 Hxi Hoi) as Hop.
    destruct (stripe_op_spec s_comm d' req x op (Z.min (sd_buff_len d) (cm_buff_len ctrl)) Hop)
      as [Hw Hcp]; try done; try (cbn; lia).
    split; [|exact Hcp]. destruct op; cbn in *; try done. lia.
Qed.

(** C2. A non-eager send whose control message has arrived copies its message.
    There is a list of writes such that posting the send, over any number of
    attempts, reports success exactly when the network has accepted these
    writes; every byte of the smaller of the two buffers is copied by exactly
    one of them, to the same offset of the remote buffer, and none of them
    leaves the remote buffer. *)
Theorem writes_copy_the_message w c s_comm req r d bounce_req ctrl w' :
  ctrl_arrived w c s_comm req r d bounce_req ctrl -> comm r = Some c ->
  sd_eager d = false -> sd_xferred_rail_id d = 0 ->
  num_rails <= Z.of_nat (length (s_rails s_comm)) ->
  num_rails <= Z.of_nat (length (mr (sd_buff_mr_handle d))) ->
  0 <= sd_buff d -> sd_buff d + sd_buff_len d < 2 ^ 64 ->
  0 <= cm_buff_addr ctrl -> cm_buff_addr ctrl + cm_buff_len ctrl < 2 ^ 64 ->
  update_send_data_from_remote c bounce_req req w = Some (0, w') ->
  exists ops,
    (forall w1 l, attempts req w' w1 l ->
       exists rc w2 new, send_progress req w1 = Some (rc, w2) /\ log w2 = log w1 ++ new /\
         (rc = 0 <-> l ++ successes new = ops)) /\
    (forall k, 0 <= k < Z.min (sd_buff_len d) (cm_buff_len ctrl) ->
       exists i op, ops !! i = Some op /\ copies op (sd_buff d + k) (cm_buff_addr ctrl + k) /\
         forall j op', ops !! j = Some op' -> copies op' (sd_buff d + k) (cm_buff_addr ctrl + k) -> j = i) /\
    Forall (fun op => writes_inside op (cm_buff_addr ctrl) (cm_buff_len ctrl)) ops.
Proof.
  intros H Hc He Hx Hs Hm Hb0 Hb1 Ha0 Ha1 Hupd.
  destruct (planned_ready w c s_comm req r d bounce_req ctrl w') as (d' & sch & ops & Hready & Hpt & Hf2);
    try done.
  exists ops. split_and!.
  - intros w1 l Ha. destruct (attempts_outcome _ _ _ _ _ _ Hready Ha) as (rc & w2 & new & H1 & H2 & _ & H4).
    by exists rc, w2, new.
  - intros k Hk0. destruct (pt_bytes _ _ _ Hpt k Hk0) as (i & x & Hxi & Hkx & Huniq).
    destruct (Forall2_lookup_l _ _ _ _ _ Hf2 Hxi) as (op & Hoi & _ & Hop). exists i, op.
    split; [done|]. split; [by apply Hop|]. intros j op' Hj Hcp.
    destruct (Forall2_lookup_r _ _ _ _ _ Hf2 Hj) as (y & Hyj & _ & Hop').
    apply (Huniq j y Hyj). by apply Hop'.
  - apply Forall_lookup. intros i op Hoi.
    by destruct (Forall2_lookup_r _ _ _ _ _ Hf2 Hoi) as (x & _ & Hw & _).
Qed.

(** ** Errors *)

(** When an operation completes with an error, its request goes to state
    ERROR; for the control message of a receive the receive goes there too, but
    for the local copy of an eager message the receive is left as it was. *)
Theorem eager_copy_error_is_hidden w e req r R rR :
  err_code e <> FI_ECANCELED -> err_remote_write e = false -> err_context e = req -> req <> NULL ->
  reqs w !! req = Some r -> reqs w !! R = Some rR -> R <> req ->
  (forall d, type r = NCCL_OFI_RDMA_SEND_CTRL -> data r = SendCtrlData d -> sc_recv_req d = R ->
     exists w', process_err_completion (CqError e) w = Some (- err_code e, w') /\
       reqs w' = <[R := set_state NCCL_OFI_RDMA_REQ_ERROR rR]>
                   (<[req := set_state NCCL_OFI_RDMA_REQ_ERROR r]> (reqs w))) /\
  (forall d, type r = NCCL_OFI_RDMA_EAGER_COPY -> data r = EagerCopyData d -> ec_recv_req d = R ->
     exists w', process_err_completion (CqError e) w = Some (- err_code e, w') /\
       reqs w' = <[req := set_state NCCL_OFI_RDMA_REQ_ERROR r]> (reqs w) /\ reqs w' !! R = Some rR).
Proof.
  intros Hec Hrw Hctx Hn Hr HR Hne.
  set (w1 := w_reqs <[req := set_state NCCL_OFI_RDMA_REQ_ERROR r]> w).
  assert (reqs w1 !! req = Some (set_state NCCL_OFI_RDMA_REQ_ERROR r)) as Hr1 by apply lookup_insert_eq.
  assert (reqs w1 !! R = Some rR) as HR1 by (cbn; by rewrite lookup_insert_ne).
  assert (forall t, type r = t -> t <> NCCL_OFI_RDMA_BOUNCE ->
    process_err_completion (CqError e) w = (set_request_state_to_error req ;;; ret (- err_code e)) w) as Hgo.
  { intros t Ht Hb. cbn [process_err_completion]. unfold process_err_entry.
    rewrite (proj2 (Z.eqb_neq _ _) Hec), Hrw, Hctx. rewrite (bind_ok (ret req) _ w req w) by done.
    rewrite (proj2 (Z.eqb_neq req NULL)) by done. step (get_req_ok _ _ _ Hr). unfold is_type.
    rewrite bool_decide_false; [done|]. by rewrite Ht. }
  split; intros d Ht Hd HdR; rewrite (Hgo _ Ht) by done; unfold set_request_state_to_error.
  - assert (set_request_state_to_error req w =
      Some (tt, w_reqs <[R := set_state NCCL_OFI_RDMA_REQ_ERROR rR]> w1)) as Hs.
    { unfold set_request_state_to_error. step (upd_req_ok req (set_state NCCL_OFI_RDMA_REQ_ERROR) w r Hr).
      step (get_req_ok _ _ _ Hr1). cbn [type set_state]. rewrite Ht.
      step (get_send_ctrl_data_ok _ _ _ _ Hr1 Ht Hd). rewrite HdR.
      exact (upd_req_ok R (set_state NCCL_OFI_RDMA_REQ_ERROR) w1 rR HR1). }
    fold (set_request_state_to_error req). step Hs. by eexists.
  - assert (set_request_state_to_error req w = Some (tt, w1)) as Hs.
    { unfold set_request_state_to_error. step (upd_req_ok req (set_state NCCL_OFI_RDMA_REQ_ERROR) w r Hr).
      step (get_req_ok _ _ _ Hr1). cbn [type set_state]. by rewrite Ht. }
    fold (set_request_state_to_error req). step Hs. by eexists.
Qed.

End Progress.

(** ** Examples *)

Definition ex_seg (imm len : Z) : fi_cq_data_entry :=
  mk_cqe NULL false false true false false true len imm BmData.
Definition ex_ctrl_sent : fi_cq_data_entry :=
  mk_cqe 601 true false false false false false 0 0 BmData.

Definition ex_imm : Z := GET_RDMA_WRITE_IMM_DATA 9 0 2.

Definition ex_msgbuff_600 : nccl_ofi_msgbuff_t :=
  match nccl_ofi_msgbuff_insert ex_msgbuff 0 600 NCCL_OFI_MSGBUFF_REQ with
  | Some (_, _, mb) => mb
  | None => ex_msgbuff
  end.

Definition ex_recv_world : world :=
  w_comms <[9 := RecvComm (set_r_msgbuff ex_msgbuff_600 ex_recv_comm)]>
    (w_reqs (fun _ => <[600 := mk_req (Some 9) 0 0 0 (RecvData (mk_recv_data 8192 200 ex_handle 601 602 NULL 2)) 0
                         NCCL_OFI_RDMA_REQ_CREATED NCCL_OFI_RDMA_RECV]>
              (<[601 := mk_req (Some 9) 0 0 0 (SendCtrlData (mk_send_ctrl_data 700 NULL 600)) 0
                         NCCL_OFI_RDMA_REQ_CREATED NCCL_OFI_RDMA_SEND_CTRL]>
              (<[602 := mk_req (Some 9) 0 0 0 (RecvSegmsData (mk_recv_segms_data 600)) 0
                         NCCL_OFI_RDMA_REQ_CREATED NCCL_OFI_RDMA_RECV_SEGMS]> ∅))) ex_world).

Lemma recv_completes_in_any_order_witness :
  exists w1 r, process_completions (E := ex_env []) [ex_seg ex_imm 100; ex_ctrl_sent; ex_seg ex_imm 28] ex_recv_world
      = Some (0, w1) /\ reqs w1 !! 600 = Some r /\
    (state r = NCCL_OFI_RDMA_REQ_COMPLETED <-> @nil fi_cq_data_entry = []) /\
    (@nil fi_cq_data_entry = [] -> size r = 128).
Proof.
  apply (recv_completes_in_any_order (E := ex_env []) ex_recv_world 600 601 602 9 ex_imm 2 NCCL_OFI_RDMA_REQ_CREATED 0
    ex_ctrl_sent [ex_seg ex_imm 100; ex_seg ex_imm 28] [ex_seg ex_imm 100; ex_ctrl_sent; ex_seg ex_imm 28] []).
  - constructor.
    + eexists _, _. split; [vm_compute; reflexivity|]. by repeat split.
    + eexists _, _. split; [vm_compute; reflexivity|]. by repeat split.
    + eexists _, _. split; [vm_compute; reflexivity|]. by repeat split.
    + eexists _, _. split; [vm_compute; reflexivity|]. split; vm_compute; reflexivity.
    + split; vm_compute; reflexivity.
    + by repeat split.
    + lia.
    + done.
  - done.
  - repeat constructor; cbn; lia.
  - reflexivity.
  - cbn. lia.
  - apply perm_swap.
Defined.

Lemma ex_sched_ok codes : scheduler_ok (E := ex_env codes) ex_sched.
Proof.
  constructor; cbn; [|done|lia|lia]. unfold pool_ok. split_and!.
  - repeat constructor; rewrite ?elem_of_cons, ?elem_of_nil; intuition lia.
  - rewrite !not_elem_of_cons. split_and!; [done..|apply not_elem_of_nil].
  - set_solver.
  - set_solver.
  - intros e1 e2. cbn. rewrite dom_empty_L, !elem_of_union, !elem_of_singleton, !elem_of_empty.
    unfold sizeof_schedule. lia.
Qed.

Definition ex_ctrl_msg : nccl_net_ofi_rdma_ctrl_msg_t := mk_ctrl_msg 0 7 150000 65536 [111; 112].

(** A send of 200000 bytes for which a control message has arrived in bounce
    request 900; [schedule] is the one it holds already. *)
Definition ex_waiting_data (schedule : Z) : rdma_req_send_data_t :=
  mk_send_data false 0 0 [] 0 0 4096 200000 ex_handle schedule 0.
Definition ex_waiting_req (schedule : Z) : nccl_net_ofi_rdma_req_t :=
  mk_req (Some 7) 0 3 0 (SendData (ex_waiting_data schedule)) 200000 NCCL_OFI_RDMA_REQ_CREATED NCCL_OFI_RDMA_SEND.

Definition ex_ctrl_world (schedule : Z) : world :=
  w_bounce_bufs <[800 := BmCtrl ex_ctrl_msg]>
    (w_comms <[7 := SendComm ex_send_comm]>
      (w_reqs (fun _ => <[500 := ex_waiting_req schedule]>
         (<[900 := mk_req None 0 0 0 (BounceData (mk_bounce_data 800 8192 24 (ControlRail 0))) 0
                     NCCL_OFI_RDMA_REQ_CREATED NCCL_OFI_RDMA_BOUNCE]> ∅)) ex_world)).

Lemma ex_ctrl_arrived schedule codes :
  ctrl_arrived (E := ex_env codes) (ex_ctrl_world schedule) 7 ex_send_comm 500 (ex_waiting_req schedule)
    (ex_waiting_data schedule) 900 ex_ctrl_msg.
Proof.
  constructor.
  - constructor; cbn; [unfold MAX_NUM_RAILS; lia|reflexivity].
  - apply ex_sched_ok.
  - reflexivity.
  - reflexivity.
  - reflexivity.
  - reflexivity.
  - eexists _, _. split; [reflexivity|]. by repeat split.
  - cbn. lia.
  - cbn. lia.
  - cbn. lia.
  - cbn. unfold NCCL_OFI_RDMA_COMM_ID_BITS. lia.
  - cbn. unfold NCCL_OFI_RDMA_SEQ_BITS. lia.
Qed.

Lemma ctrl_message_plans_send_witness :
  exists rc w', update_send_data_from_remote (E := ex_env []) 7 900 500 (ex_ctrl_world NULL) = Some (rc, w') /\
    (rc = - EINVAL \/ rc = 0 /\
     exists r' d' sch, reqs w' !! 500 = Some r' /\ data r' = SendData d' /\
       sd_buff_len d' = Z.min 200000 150000 /\ sd_remote_buff d' = 65536 /\
       sd_total_num_compls d' = num_xfer_infos sch /\ snd (sched w') !! sd_schedule d' = Some sch /\
       partition 2 (sd_buff_len d') sch /\ GET_COMM_ID_FROM_IMM (sd_wdata d') = 9 /\
       GET_SEQ_NUM_FROM_IMM (sd_wdata d') = 3 /\ GET_NUM_SEG_FROM_IMM (sd_wdata d') = num_xfer_infos sch).
Proof.
  exact (ctrl_message_plans_send (E := ex_env []) (ex_ctrl_world NULL) 7 ex_send_comm 500 (ex_waiting_req NULL)
    (ex_waiting_data NULL) 900 ex_ctrl_msg (ex_ctrl_arrived NULL [])).
Defined.

Definition ex_planned_world : world :=
  match update_send_data_from_remote (E := ex_env []) 7 900 500 (ex_ctrl_world NULL) with
  | Some (_, w) => w
  | None => ex_world
  end.

Lemma writes_copy_the_message_witness :
  exists ops,
    (forall w1 l, attempts (E := ex_env []) 500 ex_planned_world w1 l ->
       exists rc w2 new, send_progress (E := ex_env []) 500 w1 = Some (rc, w2) /\ log w2 = log w1 ++ new /\
         (rc = 0 <-> l ++ successes new = ops)) /\
    (forall k, 0 <= k < Z.min 200000 150000 ->
       exists i op, ops !! i = Some op /\ copies op (4096 + k) (65536 + k) /\
         forall j op', ops !! j = Some op' -> copies op' (4096 + k) (65536 + k) -> j = i) /\
    Forall (fun op => writes_inside op 65536 150000) ops.
Proof.
  apply (writes_copy_the_message (E := ex_env []) (ex_ctrl_world NULL) 7 ex_send_comm 500 (ex_waiting_req NULL)
    (ex_waiting_data NULL) 900 ex_ctrl_msg ex_planned_world (ex_ctrl_arrived NULL []));
    [reflexivity|reflexivity|reflexivity|cbn; lia..|vm_compute; reflexivity].
Defined.

Definition ex_copy_req : nccl_net_ofi_rdma_req_t :=
  mk_req (Some 9) 0 0 0 (EagerCopyData (mk_eager_copy_data 900 600)) 0 NCCL_OFI_RDMA_REQ_CREATED
    NCCL_OFI_RDMA_EAGER_COPY.
Definition ex_copied_req : nccl_net_ofi_rdma_req_t :=
  mk_req (Some 9) 0 0 0 (RecvData (mk_recv_data 8192 200 ex_handle 601 602 603 2)) 0
    NCCL_OFI_RDMA_REQ_CREATED NCCL_OFI_RDMA_RECV.
Definition ex_copy_world : world :=
  w_reqs (fun _ => <[603 := ex_copy_req]> (<[600 := ex_copied_req]> ∅)) ex_world.

Lemma eager_copy_error_is_hidden_witness :
  exists w', process_err_completion (CqError (mk_err EIO false 0 603)) ex_copy_world = Some (- EIO, w') /\
    reqs w' = <[603 := set_state NCCL_OFI_RDMA_REQ_ERROR ex_copy_req]> (reqs ex_copy_world) /\
    reqs w' !! 600 = Some ex_copied_req.
Proof.
  refine (proj2 (eager_copy_error_is_hidden ex_copy_world (mk_err EIO false 0 603) 603 ex_copy_req
    600 ex_copied_req _ _ _ _ _ _ _) (mk_eager_copy_data 900 600) _ _ _);
    try reflexivity; try (vm_compute; congruence).
Defined.
