(* ===== verification/RdmaComm.v ===== *)
(** * nccl_ofi_rdma: the calls of the application

    send, recv, flush, the one-sided rma_write and rma_read, and the deferred
    close of both kinds of communicator. A call that yields a request returns
    it with its code, NULL for none. *)

From S2P Require Import Prelude StateM NetTypes Allocator Scheduler Msgbuff RdmaWire.
Import Scheduler Msgbuff RdmaWire.
From S2P Require Import RdmaState RdmaPost RdmaProgress.

Section Comm.
Context {E : RdmaEnv}.

(** The [error:] label of these calls: release the request if there is one. *)
Definition fail (req rc : Z) : M (Z * Z) :=
  (if negb (req =? NULL) then req_free req false ;;; ret tt else ret tt) ;;; ret (rc, NULL).

(** Poll the queues before a new request; [None] to go on. *)
Definition check_network : M (option Z) :=
  let* rc := process_cq_if_pending in
  ret (if rc =? - EAGAIN then Some 0 else if negb (rc =? 0) then Some rc else None).

(** ** send *)

(** The union keeps the fields the call does not set. *)
Definition stale_send_data (r : nccl_net_ofi_rdma_req_t) : rdma_req_send_data_t :=
  match data r with
  | SendData d => d
  | _ => mk_send_data false 0 0 [] 0 0 0 0 (mk_mr_handle [] []) NULL 0
  end.

Definition init_sd (buff len : Z) (h : nccl_net_ofi_rdma_mr_handle_t) (d : rdma_req_send_data_t) :=
  mk_send_data (sd_eager d) (sd_remote_buff d) (sd_remote_len d) (sd_remote_mr_key d) (sd_wdata d)
    0 buff len h (sd_schedule d) (sd_total_num_compls d).
Definition set_sd_eager e d :=
  mk_send_data e (sd_remote_buff d) (sd_remote_len d) (sd_remote_mr_key d) (sd_wdata d)
    (sd_xferred_rail_id d) (sd_buff d) (sd_buff_len d) (sd_buff_mr_handle d) (sd_schedule d)
    (sd_total_num_compls d).

Definition alloc_rdma_send_req (c seq buff sz : Z) (h : nccl_net_ofi_rdma_mr_handle_t) (eager : bool)
    : M (Z * Z) :=
  let* req := allocate_req (FlSend c) in
  if req =? NULL then ret (- ENOMEM, NULL)
  else
    let* r := get_req req in
    let d := init_sd buff sz h (stale_send_data r) in
    upd_req req (fun r => set_comm (Some c) (set_dev_id base_dev_id (set_type NCCL_OFI_RDMA_SEND
      (set_seq seq (set_size sz (set_data (SendData d) r)))))) ;;;
    if eager then
      let* schedule := get_schedule sz num_rails in
      put_data req (SendData (set_sd_schedule schedule d)) ;;;
      if schedule =? NULL then ret (- EINVAL, NULL)
      else
        let* s := get_schedule_at schedule in
        let* s_comm := rdma_device_get_send_comm c in
        put_data req (SendData (set_sd_eager true (set_sd_plan schedule (num_xfer_infos s + 1)
          (GET_RDMA_WRITE_IMM_DATA (s_remote_comm_id s_comm) seq (num_xfer_infos s)) d))) ;;;
        assert (num_xfer_infos s =? 1) ;;;
        ret (0, req)
    else
      put_data req (SendData (set_sd_eager false d)) ;;; ret (0, req).

(** Result: return code and the request, NULL if it was released. *)
Definition insert_rdma_send_req_into_msgbuff (c : Z) (have_ctrl : bool) (req : Z) : M (Z * Z) :=
  let* r := get_req req in
  let* s_comm := rdma_device_get_send_comm c in
  if have_ctrl then
    let '(mb_res, _, mb) :=
      nccl_ofi_msgbuff_replace (s_msgbuff s_comm) (msg_seq_num r) req NCCL_OFI_MSGBUFF_REQ in
    upd_send_comm c (set_s_msgbuff mb) ;;;
    ret (if bool_decide (mb_res = NCCL_OFI_MSGBUFF_SUCCESS) then (0, req) else (- EINVAL, req))
  else
    let* x := of_option (nccl_ofi_msgbuff_insert (s_msgbuff s_comm) (msg_seq_num r) req
                           NCCL_OFI_MSGBUFF_REQ) in
    let '(mb_res, stat, mb) := x in
    upd_send_comm c (set_s_msgbuff mb) ;;;
    if bool_decide (mb_res = NCCL_OFI_MSGBUFF_INVALID_IDX) &&
       bool_decide (stat = NCCL_OFI_MSGBUFF_INPROGRESS) then req_free req false ;;; ret (0, NULL)
    else ret (if bool_decide (mb_res = NCCL_OFI_MSGBUFF_SUCCESS) then (0, req) else (- EINVAL, req)).

(** What the message buffer says about the message to send: an error, the
    bounce request of a control message already here, or nothing yet. *)
Inductive lookup_result :=
| LookupErr
| LookupBuff (elem : Z)
| LookupNone.

Definition lookup_msg (mb : nccl_ofi_msgbuff_t) (seq : Z) : lookup_result :=
  match nccl_ofi_msgbuff_retrieve mb seq with
  | (NCCL_OFI_MSGBUFF_SUCCESS, _, Some (elem, NCCL_OFI_MSGBUFF_BUFF)) => LookupBuff elem
  | (NCCL_OFI_MSGBUFF_INVALID_IDX, NCCL_OFI_MSGBUFF_NOTSTARTED, _) => LookupNone
  | _ => LookupErr
  end.

Definition lookup_send (c seq : Z) : M lookup_result :=
  let* s_comm := rdma_device_get_send_comm c in ret (lookup_msg (s_msgbuff s_comm) seq).

(** From the [retry:] label to the choice of eager: look, and if there is no
    control message poll the control rails once and look again. *)
Definition find_ctrl (c seq : Z) : M (Z * lookup_result) :=
  let* l := lookup_send c seq in
  match l with
  | LookupNone =>
      let* rc := process_cq_rails (Z.to_nat num_control_rails) (ret 0) in
      if negb (rc =? 0) then ret (rc, LookupErr)
      else let* l := lookup_send c seq in ret (- EINVAL, l)
  | _ => ret (- EINVAL, l)
  end.

(** Steps after the request is in the message buffer. *)
Definition send_post (c req : Z) (post_now : bool) : M (Z * Z) :=
  upd_send_comm c (fun s => set_s_inflight (u64 (s_num_inflight_reqs s + 1)) s) ;;;
  let* rc :=
    if post_now then
      let* rc := send_progress req in
      if rc =? - FI_EAGAIN then pending_insert_back req
      else ret (if negb (rc =? 0) then - ENOTSUP else 0)
    else ret 0 in
  if negb (rc =? 0) then fail req rc
  else
    upd_send_comm c (fun s => set_s_next (Z.land (s_next_msg_seq_num s + 1) MSG_SEQ_NUM_MASK) s) ;;;
    ret (0, req).

(** [buff] and [sz] of the message, [h] its registration; [sz] is an int that is
    converted to size_t. *)
Definition send (c buff sz : Z) (h : nccl_net_ofi_rdma_mr_handle_t) : M (Z * Z) :=
  let* s_comm := rdma_device_get_send_comm c in
  if negb (s_comm_active s_comm) then ret (- EINVAL, NULL)
  else if s_num_inflight_reqs s_comm =? NCCL_OFI_MAX_SEND_REQUESTS then ret (- EINVAL, NULL)
  else
    let* busy := check_network in
    match busy with
    | Some rc => ret (rc, NULL)
    | None =>
        let* s_comm := rdma_device_get_send_comm c in
        let seq := s_next_msg_seq_num s_comm in
        let* f := find_ctrl c seq in
        match snd f with
        | LookupErr => ret (fst f, NULL)
        | l =>
            let have_ctrl := match l with LookupBuff _ => true | _ => false end in
            let eager := (negb have_ctrl && (u64 sz <=? eager_max_size)) || (sz =? 0) in
            let* a := alloc_rdma_send_req c seq buff (u64 sz) h eager in
            let req := snd a in
            if negb (fst a =? 0) then ret (fst a, NULL)
            else
              let* rc :=
                match l with
                | LookupBuff bounce_req =>
                    let* rc := update_send_data_from_remote c bounce_req req in
                    if negb (rc =? 0) then ret rc else check_post_bounce_req bounce_req
                | _ => ret 0
                end in
              if negb (rc =? 0) then fail req rc
              else
                let* i := insert_rdma_send_req_into_msgbuff c have_ctrl req in
                if negb (fst i =? 0) || (snd i =? NULL) then fail (snd i) (fst i)
                else send_post c req (have_ctrl || eager)
        end
    end.

(** ** recv *)

Definition set_rv_send_ctrl_req p d :=
  mk_recv_data (rv_dst_buff d) (rv_dst_len d) (rv_dest_mr_handle d) p (rv_recv_segms_req d)
    (rv_eager_copy_req d) (rv_total_num_compls d).
Definition set_rv_recv_segms_req p d :=
  mk_recv_data (rv_dst_buff d) (rv_dst_len d) (rv_dest_mr_handle d) (rv_send_ctrl_req d) p
    (rv_eager_copy_req d) (rv_total_num_compls d).

(** The keys of the control message: an error code if a key cannot be had or is
    too long for the message. *)
Fixpoint ctrl_keys (mrs : list Z) : Z + list Z :=
  match mrs with
  | [] => inr []
  | m :: mrs' =>
      let rkey := fi_mr_key m in
      if rkey =? FI_KEY_NOTAVAIL then inl (- ENOENT)
      else if negb use_long_rkeys &&
              (u64 (Z.shiftl 1 (NCCL_NET_OFI_CTRL_MSG_SHORT_KEY_SIZE * 8)) - 1 <? rkey)
      then inl (- ENOTSUP)
      else match ctrl_keys mrs' with inl e => inl e | inr ks => inr (rkey :: ks) end
  end.

Definition insert_send_ctrl_req (c seq buff sz : Z) (h : nccl_net_ofi_rdma_mr_handle_t) (recv_req : Z)
    : M Z :=
  let* p := allocate_req (FlRecv c) in
  if p =? NULL then ret (- EINVAL)
  else
    upd_req p (fun r => set_comm (Some c) (set_dev_id base_dev_id
      (set_type NCCL_OFI_RDMA_SEND_CTRL (set_seq seq r)))) ;;;
    let* s :=
      if 1 <? num_control_rails then
        let* schedule :=
          get_schedule (nccl_net_ofi_rdma_ctrl_msg_size num_rails use_long_rkeys) num_control_rails in
        if schedule =? NULL then ret (- EINVAL, NULL)
        else
          let* s := get_schedule_at schedule in
          ret (if negb (num_xfer_infos s =? 1) then - EINVAL else 0, schedule)
      else ret (0, NULL) in
    if negb (fst s =? 0) then ret (fst s)
    else
      put_data p (SendCtrlData (mk_send_ctrl_data NULL (snd s) recv_req)) ;;;
      let* item := ctrl_buff_alloc c in
      if item =? NULL then ret (- ENOMEM)
      else if negb virt_addr_mr then ret (- ENOTSUP)
      else
        let* r_comm := rdma_device_get_recv_comm c in
        assert (num_rails <=? Z.of_nat (length (mr h))) ;;;
        match ctrl_keys (take (Z.to_nat num_rails) (mr h)) with
        | inl e => ret e
        | inr keys =>
            modify (w_ctrl_msgs <[item := mk_ctrl_msg (wrap NCCL_OFI_RDMA_SEQ_BITS seq)
              (wrap NCCL_OFI_RDMA_COMM_ID_BITS (r_remote_comm_id r_comm)) (u32 sz) (u64 buff) keys]>) ;;;
            put_data p (SendCtrlData (mk_send_ctrl_data item (snd s) recv_req)) ;;;
            let* d := get_recv_data recv_req in
            put_data recv_req (RecvData (set_rv_send_ctrl_req p d)) ;;;
            ret 0
        end.

Definition insert_recv_segms_req (c seq recv_req : Z) : M Z :=
  let* p := allocate_req (FlRecv c) in
  if p =? NULL then ret (- ENOENT)
  else
    upd_req p (fun r => set_comm (Some c) (set_dev_id base_dev_id (set_type NCCL_OFI_RDMA_RECV_SEGMS
      (set_seq seq (set_data (RecvSegmsData (mk_recv_segms_data recv_req)) r))))) ;;;
    let* d := get_recv_data recv_req in
    put_data recv_req (RecvData (set_rv_recv_segms_req p d)) ;;;
    ret 0.

Definition stale_recv_data (r : nccl_net_ofi_rdma_req_t) : rdma_req_recv_data_t :=
  match data r with
  | RecvData d => d
  | _ => mk_recv_data 0 0 (mk_mr_handle [] []) NULL NULL NULL 0
  end.

(** A failure leaves the requests allocated so far behind. *)
Definition allocate_rdma_recv_req (c seq buff sz : Z) (h : nccl_net_ofi_rdma_mr_handle_t) : M (Z * Z) :=
  let* req := allocate_req (FlRecv c) in
  if req =? NULL then ret (- EINVAL, NULL)
  else
    let* r := get_req req in
    let d := stale_recv_data r in
    upd_req req (fun r => set_comm (Some c) (set_dev_id base_dev_id (set_type NCCL_OFI_RDMA_RECV
      (set_seq seq (set_data (RecvData (mk_recv_data buff sz h (rv_send_ctrl_req d)
        (rv_recv_segms_req d) NULL 2)) r))))) ;;;
    let* rc := insert_send_ctrl_req c seq buff sz h req in
    if negb (rc =? 0) then ret (rc, NULL)
    else
      let* rc := insert_recv_segms_req c seq req in
      ret (if negb (rc =? 0) then (rc, NULL) else (0, req)).

Definition insert_rdma_recv_req_into_msgbuff (c : Z) (eager : bool) (req : Z) : M (Z * Z) :=
  let* r := get_req req in
  let* r_comm := rdma_device_get_recv_comm c in
  if eager then
    let '(mb_res, _, mb) :=
      nccl_ofi_msgbuff_replace (r_msgbuff r_comm) (msg_seq_num r) req NCCL_OFI_MSGBUFF_REQ in
    upd_recv_comm c (set_r_msgbuff mb) ;;;
    ret (if bool_decide (mb_res = NCCL_OFI_MSGBUFF_SUCCESS) then (0, req) else (- EINVAL, req))
  else
    let* x := of_option (nccl_ofi_msgbuff_insert (r_msgbuff r_comm) (msg_seq_num r) req
                           NCCL_OFI_MSGBUFF_REQ) in
    let '(mb_res, stat, mb) := x in
    upd_recv_comm c (set_r_msgbuff mb) ;;;
    if bool_decide (mb_res = NCCL_OFI_MSGBUFF_INVALID_IDX) &&
       bool_decide (stat = NCCL_OFI_MSGBUFF_INPROGRESS) then req_free req false ;;; ret (0, NULL)
    else ret (if bool_decide (mb_res = NCCL_OFI_MSGBUFF_SUCCESS) then (0, req) else (- EINVAL, req)).

(** Steps after the request is in the message buffer. *)
Definition recv_post (c req : Z) (eager : bool) : M (Z * Z) :=
  upd_recv_comm c (fun r => set_r_inflight (u64 (r_num_inflight_reqs r + 1)) r) ;;;
  upd_recv_comm c (fun r => set_r_ctrl_sent (u64 (r_n_ctrl_sent r + 1)) r) ;;;
  let* recv_data := get_recv_data req in
  let* rc := receive_progress (rv_send_ctrl_req recv_data) true in
  if negb (rc =? 0) then fail req rc
  else
    let* rc :=
      if eager then
        if rv_eager_copy_req recv_data =? NULL then
          inc_req_completion req 0 (rv_total_num_compls recv_data)
        else receive_progress (rv_eager_copy_req recv_data) true
      else ret 0 in
    if negb (rc =? 0) then fail req rc
    else
      upd_recv_comm c (fun r => set_r_next (Z.land (r_next_msg_seq_num r + 1) MSG_SEQ_NUM_MASK) r) ;;;
      ret (0, req).

(** The receive of one buffer ([n] is 1 without grouped receives): the return
    code and the value of [*base_req], which holds [base_req] before the call and
    keeps it on one of the error returns. *)
Definition recv (c buff sz : Z) (h : nccl_net_ofi_rdma_mr_handle_t) (base_req : Z) : M (Z * Z) :=
  let* r_comm := rdma_device_get_recv_comm c in
  if negb (r_comm_active r_comm) then ret (- EINVAL, NULL)
  else if r_num_inflight_reqs r_comm =? NCCL_OFI_MAX_REQUESTS then ret (- ENOSPC, NULL)
  else
    let* busy := check_network in
    match busy with
    | Some rc => ret (rc, NULL)
    | None =>
        let* r_comm := rdma_device_get_recv_comm c in
        let seq := r_next_msg_seq_num r_comm in
        match lookup_msg (r_msgbuff r_comm) seq with
        | LookupErr => ret (- EINVAL, NULL)
        | l =>
            let* a := allocate_rdma_recv_req c seq buff (u64 sz) h in
            let req := snd a in
            if negb (fst a =? 0) then ret (fst a, NULL)
            else
              let* rc :=
                match l with
                | LookupBuff bounce_req =>
                    let* bounce_data := get_bounce_data bounce_req in
                    if bd_recv_len bounce_data =? 0 then
                      let* rc := check_post_bounce_req bounce_req in
                      if negb (rc =? 0) then ret (Some (rc, base_req))
                      else
                        let* d := get_recv_data req in
                        put_data req (RecvData (set_rv_eager_copy_req NULL d)) ;;; ret None
                    else
                      let* rc := alloc_eager_copy_req req c bounce_req in
                      if negb (rc =? 0) then let* x := fail req rc in ret (Some x) else ret None
                | _ => ret None
                end in
              match rc with
              | Some x => ret x
              | None =>
                  let eager := match l with LookupBuff _ => true | _ => false end in
                  let* i := insert_rdma_recv_req_into_msgbuff c eager req in
                  if negb (fst i =? 0) then fail (snd i) (fst i)
                  else if snd i =? NULL then ret (- ENOMEM, NULL)
                  else recv_post c req eager
              end
        end
    end.

(** ** flush *)

Definition rdma_comm_alloc_flush_req (c buff : Z) (h : option nccl_net_ofi_rdma_mr_handle_t)
    : M (Z * Z) :=
  let* req := allocate_req (FlRecv c) in
  if req =? NULL then ret (- ENOMEM, NULL)
  else
    upd_req req (fun r => set_comm (Some c) (set_dev_id base_dev_id (set_type NCCL_OFI_RDMA_FLUSH
      (set_data (FlushData (mk_flush_data buff h num_rails)) r)))) ;;;
    ret (0, req).

(** The first buffer with a non-zero size. *)
Fixpoint first_nonzero {A} (l : list (Z * A)) : option (Z * A) :=
  match l with
  | [] => None
  | (sz, a) :: l' => if negb (sz =? 0) then Some (sz, a) else first_nonzero l'
  end.

(** [flush_disabled]: flushing is disabled or GPUDirect is not supported; the
    flush through CUDA is not modelled. [bufs]: sizes, addresses, handles. *)
Definition flush (flush_disabled : bool) (c : Z)
    (bufs : list (Z * (Z * option nccl_net_ofi_rdma_mr_handle_t))) : M (Z * Z) :=
  let* r_comm := rdma_device_get_recv_comm c in
  if r_num_inflight_reqs r_comm =? NCCL_OFI_MAX_REQUESTS then ret (- ENOSPC, NULL)
  else
    let* rc := process_cq_if_pending in
    if negb (rc =? 0) && negb (rc =? - EAGAIN) then ret (rc, NULL)
    else
      let network_busy := rc =? - EAGAIN in
      if flush_disabled then ret (0, NULL)
      else
        match first_nonzero bufs with
        | None => ret (0, NULL)
        | Some (_, (buff, h)) =>
            let* a := rdma_comm_alloc_flush_req c buff h in
            let req := snd a in
            if negb (fst a =? 0) then ret (fst a, NULL)
            else
              let* rc := if negb network_busy then receive_progress req true
                         else pending_insert_back req in
              if negb (rc =? 0) then fail req rc
              else
                upd_recv_comm c (fun r => set_r_inflight (u64 (r_num_inflight_reqs r + 1)) r) ;;;
                ret (0, req)
        end.

(** ** One-sided operations *)

Definition init_rma_op_req (c buff sz desc remote_buff remote_mr_key flags : Z)
    (t : nccl_net_ofi_rdma_req_type_t) (r : nccl_net_ofi_rdma_req_t) : nccl_net_ofi_rdma_req_t :=
  set_comm (Some c) (set_dev_id base_dev_id (set_type t (set_size sz
    (set_data (RmaOpData (mk_rma_op_data remote_buff remote_mr_key 0 buff sz desc flags 1)) r)))).

Definition alloc_rdma_write_req (c buff sz desc remote_buff remote_mr_key flags : Z) : M (Z * Z) :=
  let* req := allocate_req (FlSend c) in
  if req =? NULL then ret (- ENOMEM, NULL)
  else
    upd_req req (init_rma_op_req c buff sz desc remote_buff remote_mr_key flags
                   NCCL_OFI_RDMA_WRITE) ;;;
    ret (0, req).

Definition rma_write_impl (c src sz desc dest mr_key flags : Z) : M (Z * Z) :=
  let* s_comm := rdma_device_get_send_comm c in
  if s_num_inflight_reqs s_comm =? NCCL_OFI_MAX_SEND_REQUESTS then ret (- EINVAL, NULL)
  else
    let* busy := check_network in
    match busy with
    | Some rc => ret (rc, NULL)
    | None =>
        let* a := alloc_rdma_write_req c src sz desc dest mr_key flags in
        let req := snd a in
        if negb (fst a =? 0) then ret (fst a, NULL)
        else
          upd_send_comm c (fun s => set_s_inflight (u64 (s_num_inflight_reqs s + 1)) s) ;;;
          let* rc := send_progress req in
          let* rc := if rc =? - FI_EAGAIN then pending_insert_back req
                     else ret (if negb (rc =? 0) then - ENOTSUP else 0) in
          if negb (rc =? 0) then fail req rc else ret (0, req)
    end.

Definition rma_write (c src sz : Z) (h : nccl_net_ofi_rdma_mr_handle_t) (dest mr_key : Z) : M (Z * Z) :=
  let* m := rail_at (mr h) 0 in
  rma_write_impl c src sz (fi_mr_desc m) dest mr_key 0.

Definition rma_write_inline (c src sz dest mr_key : Z) : M (Z * Z) :=
  rma_write_impl c src sz NULL dest mr_key FI_INJECT.

Definition alloc_rdma_read_req (c buff sz : Z) (h : nccl_net_ofi_rdma_mr_handle_t)
    (remote_buff remote_mr_key : Z) : M (Z * Z) :=
  let* req := allocate_req (FlRecv c) in
  if req =? NULL then ret (- ENOMEM, NULL)
  else
    let* m := rail_at (mr h) 0 in
    upd_req req (init_rma_op_req c buff sz (fi_mr_desc m) remote_buff remote_mr_key 0
                   NCCL_OFI_RDMA_READ) ;;;
    ret (0, req).

Definition rma_read (c dest sz : Z) (h : nccl_net_ofi_rdma_mr_handle_t) (src mr_key : Z) : M (Z * Z) :=
  let* r_comm := rdma_device_get_recv_comm c in
  if r_num_inflight_reqs r_comm =? NCCL_OFI_MAX_REQUESTS then ret (- EINVAL, NULL)
  else
    let* busy := check_network in
    match busy with
    | Some rc => ret (rc, NULL)
    | None =>
        let* a := alloc_rdma_read_req c dest sz h src mr_key in
        let req := snd a in
        if negb (fst a =? 0) then ret (fst a, NULL)
        else
          upd_recv_comm c (fun r => set_r_inflight (u64 (r_num_inflight_reqs r + 1)) r) ;;;
          let* rc := receive_progress req true in
          if negb (rc =? 0) then fail req rc else ret (0, req)
    end.

(** ** Closing *)

Definition recv_comm_insert_send_close_req (c : Z) : M Z :=
  let* p := allocate_req (FlRecv c) in
  if p =? NULL then ret (- ENOMEM)
  else
    upd_req p (fun r => set_comm (Some c) (set_dev_id base_dev_id
      (set_type NCCL_OFI_RDMA_SEND_CLOSE (set_seq 0 r)))) ;;;
    let* schedule := get_schedule sizeof_close_msg num_rails in
    put_data p (SendCloseData (mk_send_close_data NULL schedule)) ;;;
    if schedule =? NULL then req_free p false ;;; ret (- ENOMEM)
    else
      let* s := get_schedule_at schedule in
      if negb (num_xfer_infos s =? 1) then req_free p false ;;; ret (- EINVAL)
      else
        let* item := ctrl_buff_alloc c in
        if item =? NULL then req_free p false ;;; ret (- ENOMEM)
        else
          let* r_comm := rdma_device_get_recv_comm c in
          modify (w_close_msgs <[item := mk_close_msg (r_n_ctrl_delivered r_comm)
                                           (r_remote_comm_id r_comm)]>) ;;;
          put_data p (SendCloseData (mk_send_close_data item schedule)) ;;;
          upd_recv_comm c (set_r_close_req p) ;;;
          ret 0.

(** What one pass over a closing communicator decides. *)
Inductive close_step :=
| CloseWait
| CloseDestroy.

(** The body of the loop of recv_comm_process_all_finalizing for one
    communicator, up to the call of recv_comm_destroy. *)
Definition recv_comm_finalizing (c : Z) : M (Z * close_step) :=
  let* rc := ofi_process_cq in
  if negb (rc =? 0) then ret (rc, CloseWait)
  else
    let* r_comm := rdma_device_get_recv_comm c in
    if r_send_close_req r_comm =? NULL then
      if r_n_ctrl_delivered r_comm =? r_n_ctrl_sent r_comm then
        let* rc := recv_comm_insert_send_close_req c in
        if negb (rc =? 0) then ret (rc, CloseWait)
        else
          let* r_comm := rdma_device_get_recv_comm c in
          let* rc := receive_progress (r_send_close_req r_comm) true in
          ret (rc, CloseWait)
      else ret (0, CloseWait)
    else
      let* r := get_req (r_send_close_req r_comm) in
      if is_state NCCL_OFI_RDMA_REQ_ERROR r then ret (- EIO, CloseWait)
      else if is_state NCCL_OFI_RDMA_REQ_COMPLETED r then ret (0, CloseDestroy)
      else ret (0, CloseWait).

(** The same of send_comm_process_all_finalizing. *)
Definition send_comm_finalizing (c : Z) : M (Z * close_step) :=
  let* rc := ofi_process_cq in
  if negb (rc =? 0) then ret (rc, CloseWait)
  else
    let* s_comm := rdma_device_get_send_comm c in
    ret (0, if s_received_close_message s_comm &&
               (s_n_ctrl_received s_comm =? s_n_ctrl_expected s_comm)
            then CloseDestroy else CloseWait).

(** ** Releasing requests *)

(** A request of a communicator goes back to the communicator's free list. *)
Lemma free_send_base_ok w p r c s dec :
  reqs w !! p = Some r -> p <> NULL -> comms w !! c = Some (SendComm s) ->
  exists w' s', free_base_req true (FlSend c) p dec w = Some (0, w') /\
    reqs w' = delete p (reqs w) /\ comms w' = <[c := SendComm s']> (comms w) /\
    s_reqs_fl s' = p :: s_reqs_fl s /\ s_msgbuff s' = s_msgbuff s /\
    s_next_msg_seq_num s' = s_next_msg_seq_num s /\
    s_num_inflight_reqs s' = (if dec then u64 (s_num_inflight_reqs s - 1) else s_num_inflight_reqs s) /\
    sched w' = sched w /\ log w' = log w /\ pending w' = pending w.
Proof.
  intros Hr Hp Hc. unfold free_base_req. rewrite (proj2 (Z.eqb_neq p NULL)) by done.
  step (get_req_ok _ _ _ Hr).
  set (w1 := w_freed <[p := zero_nccl_ofi_req r]> (w_reqs (delete p) w)).
  rewrite (bind_ok (modify (w_reqs (delete p))) _ w tt (w_reqs (delete p) w)) by done.
  rewrite (bind_ok (modify (w_freed _)) _ _ tt w1) by done. cbn [fl_push].
  assert (comms w1 !! c = Some (SendComm s)) as Hc1 by done.
  step (upd_send_comm_ok c (fun s => set_s_fl (p :: s_reqs_fl s) s) w1 s Hc1).
  set (w2 := w_comms _ w1). destruct dec; cbn [andb].
  - assert (comms w2 !! c = Some (SendComm (set_s_fl (p :: s_reqs_fl s) s))) as Hc2
      by apply lookup_insert_eq.
    step (upd_send_comm_ok c (fun s => set_s_inflight (u64 (s_num_inflight_reqs s - 1)) s) w2 _ Hc2).
    eexists _, _. split; [reflexivity|]. cbn. rewrite insert_insert_eq. by split_and!.
  - rewrite (bind_ok (ret tt) _ w2 tt w2) by done. eexists _, _. split; [reflexivity|]. by split_and!.
Qed.

Lemma release_schedule_ok w p sch :
  scheduler_ok (sched w) -> snd (sched w) !! p = Some sch ->
  exists st, release_schedule p w = Some (tt, w_sched (fun _ => st) w) /\ scheduler_ok st /\
    snd st = delete p (snd (sched w)).
Proof.
  intros Hok Hp. destruct (release_preserves (EA := pool_allocator (sizeof_schedule num_rails)) num_rails
    (sched w) p Hok) as (st & Hr & Hok' & Hs); [by apply elem_of_dom_2 in Hp|].
  exists st. split_and!; [|done|done]. unfold release_schedule.
  step (get_schedule_at_ok _ _ _ Hp). unfold bind, gets. by rewrite Hr.
Qed.

(** A send is released with its schedule. *)
Lemma free_send_req_ok w p r d c s dec :
  reqs w !! p = Some r -> p <> NULL -> type r = NCCL_OFI_RDMA_SEND -> comm r = Some c ->
  data r = SendData d -> comms w !! c = Some (SendComm s) -> scheduler_ok (sched w) ->
  (sd_schedule d = NULL \/ is_Some (snd (sched w) !! sd_schedule d)) ->
  exists w' s', free_send_req p dec w = Some (0, w') /\
    reqs w' = delete p (reqs w) /\ comms w' = <[c := SendComm s']> (comms w) /\
    s_reqs_fl s' = p :: s_reqs_fl s /\ s_msgbuff s' = s_msgbuff s /\
    s_next_msg_seq_num s' = s_next_msg_seq_num s /\
    s_num_inflight_reqs s' = (if dec then u64 (s_num_inflight_reqs s - 1) else s_num_inflight_reqs s) /\
    (sd_schedule d <> NULL -> snd (sched w') = delete (sd_schedule d) (snd (sched w))) /\
    scheduler_ok (sched w') /\ log w' = log w /\ pending w' = pending w.
Proof.
  intros Hr Hp Ht Hcm Hd Hc Hok Hs. unfold free_send_req. step (req_comm_ok _ _ _ _ Hr Hcm).
  step (get_send_data_ok _ _ _ _ Hr Ht Hd). destruct (decide (sd_schedule d = NULL)) as [Hn|Hn].
  - rewrite Hn. cbn [Z.eqb negb NULL]. rewrite (bind_ok (ret tt) _ w tt w) by done.
    destruct (free_send_base_ok w p r c s dec Hr Hp Hc)
      as (w' & s' & H1 & H2 & H3 & H4 & H5 & H6 & H7 & H8 & H9 & H10).
    exists w', s'. rewrite H8. by split_and!.
  - destruct Hs as [?|[sch Hsch]]; [done|].
    destruct (release_schedule_ok w (sd_schedule d) sch Hok Hsch) as (st & Hrel & Hok' & Hst).
    rewrite (proj2 (Z.eqb_neq _ _) Hn). cbn [negb].
    set (w1 := w_sched (fun _ => st) w).
    assert (reqs w1 !! p = Some r) as Hr1 by done.
    set (r2 := set_data (SendData (set_sd_schedule NULL d)) r). set (w2 := w_reqs <[p := r2]> w1).
    rewrite (bind_ok _ _ w tt w2); [|by step Hrel; apply put_data_ok].
    assert (reqs w2 !! p = Some r2) as Hr2 by apply lookup_insert_eq.
    destruct (free_send_base_ok w2 p r2 c s dec Hr2 Hp Hc)
      as (w' & s' & H1 & H2 & H3 & H4 & H5 & H6 & H7 & H8 & H9 & H10).
    exists w', s'. rewrite H8, H2. split_and!; try done. cbn. by rewrite delete_insert_eq.
Qed.

(** A send request that holds a schedule already (an eager one of size zero)
    and is planned again from its control message loses the first schedule: the
    new one replaces it in the request, and when the request is released the
    first is still outstanding, with nothing left that refers to it. *)
Theorem replanned_send_leaks w c s_comm req r d bounce_req ctrl sch0 dec :
  ctrl_arrived w c s_comm req r d bounce_req ctrl -> comm r = Some c -> req <> NULL ->
  snd (sched w) !! sd_schedule d = Some sch0 ->
  exists rc w1, update_send_data_from_remote c bounce_req req w = Some (rc, w1) /\
    (rc = 0 -> exists w2, free_send_req req dec w1 = Some (0, w2) /\ reqs w2 !! req = None /\
       snd (sched w2) = snd (sched w) /\ snd (sched w2) !! sd_schedule d = Some sch0).
Proof.
  intros H Hcm Hreq Hs0. pose proof H as [_ _ Hc _ _ _ _ _ _ _ _ _].
  destruct (update_send_data_spec _ _ _ _ _ _ _ _ H)
    as (rc & w1 & Heq & Hcms & _ & Hok & Hcase). exists rc, w1. split; [done|]. intros ->.
  destruct Hcase as [[? _]|(_ & p & sch & r' & Hp & Hdom & Hs & _ & Hr' & Ht' & Hc' & _ & Hd')]; [done|].
  rewrite Hcm in Hc'. rewrite <- Hcms in Hc.
  destruct (free_send_req_ok w1 req r' _ c s_comm dec Hr' Hreq Ht' Hc' Hd' Hc Hok)
    as (w2 & s' & Hf & Hrq & _ & _ & _ & _ & _ & Hsd & _ & _).
  { right. cbn. rewrite Hs. exists sch. apply lookup_insert_eq. }
  assert (snd (sched w2) = snd (sched w)) as Heqs.
  { rewrite Hsd by done. cbn. rewrite Hs, delete_insert_id; [done|]. by apply not_elem_of_dom. }
  exists w2. rewrite Hrq, Heqs. split_and!; [done|apply lookup_delete_eq|done|done].
Qed.

(** ** test *)

Lemma w_status_live mb a m x :
  mb_rel mb a -> live a !! m = Some x ->
  w_status (max_inprogress mb) a m = NCCL_OFI_MSGBUFF_INPROGRESS /\
  lo a - max_inprogress mb <= m < lo a - max_inprogress mb + field_size mb.
Proof.
  intros [Hp _ _ Hw _ Hl _] Hm. destruct (Hl _ _ Hm) as [Hr _].
  pose proof (p_pos _ Hp). pose proof (p_half _ Hp).
  unfold w_status. rewrite (proj2 (Z.ltb_ge m (lo a))), (proj2 (Z.ltb_lt m (hi a))), Hm by lia.
  split; [done|lia].
Qed.

(** C23. test on a send that is COMPLETED retires it: it reports success, done and
    the request's size as an int, marks message [m] complete in the message window,
    releases the request and its schedule, and counts one request less in
    flight. On a send in state ERROR it reports -EINVAL and changes nothing. *)
Theorem test_retires_send w req r d c s a m :
  reqs w !! req = Some r -> req <> NULL -> type r = NCCL_OFI_RDMA_SEND -> comm r = Some c ->
  data r = SendData d -> comms w !! c = Some (SendComm s) -> scheduler_ok (sched w) ->
  is_Some (snd (sched w) !! sd_schedule d) -> sd_schedule d <> NULL ->
  mb_rel (s_msgbuff s) a -> msg_seq_num r = m mod field_size (s_msgbuff s) ->
  live a !! m = Some (req, NCCL_OFI_MSGBUFF_REQ) ->
  (state r = NCCL_OFI_RDMA_REQ_COMPLETED ->
   exists w' s', test req w = Some ((0, true, Some (i32 (size r))), w') /\ reqs w' !! req = None /\
     snd (sched w') !! sd_schedule d = None /\ comms w' !! c = Some (SendComm s') /\
     s_num_inflight_reqs s' = u64 (s_num_inflight_reqs s - 1) /\ s_reqs_fl s' = req :: s_reqs_fl s /\
     mb_rel (s_msgbuff s') (w_complete a m) /\ log w' = log w) /\
  (state r = NCCL_OFI_RDMA_REQ_ERROR -> test req w = Some ((- EINVAL, false, None), w)).
Proof.
  intros Hr Hreq Ht Hcm Hd Hc Hok Hsch Hsn Hrel Hseq Hlive.
  unfold test. rewrite !(bind_ok _ _ _ _ _ (get_req_ok _ _ _ Hr)).
  unfold is_type. rewrite !Ht. cbn [bool_decide decide_rel req_type_eq_dec orb].
  rewrite (bind_ok (assert _) _ w tt w) by done.
  rewrite (bind_ok (of_option (comm r)) _ w c w) by (by rewrite Hcm). split; intros Hst.
  - unfold is_state. rewrite !Hst. rewrite (bind_ok _ _ w 0 w) by done. cbn [Z.eqb negb].
    step (get_req_ok _ _ _ Hr). rewrite Hst, Ht, bool_decide_true by done.
    step (get_send_comm_ok _ _ _ Hc).
    destruct (w_status_live _ _ _ _ Hrel Hlive) as [Hin Hrange].
    destruct (complete_refines (s_msgbuff s) a m Hrel Hrange Hin) as (mb' & Hmb & Hrel' & _).
    rewrite Hseq, Hmb. cbn [of_option]. rewrite (bind_ok (ret _) _ w _ w eq_refl). cbn beta iota.
    step (upd_send_comm_ok c (set_s_msgbuff mb') w s Hc). rewrite bool_decide_true by done.
    set (w1 := w_comms _ w).
    assert (comms w1 !! c = Some (SendComm (set_s_msgbuff mb' s))) as Hc1 by apply lookup_insert_eq.
    destruct (free_send_req_ok w1 req r d c (set_s_msgbuff mb' s) true) as
      (w2 & s' & Hf & Hrq & Hcs & Hfl & Hmbs & _ & Hin' & Hsd & _ & Hlog & _); try done; [by right|].
    exists w2, s'. split.
    { unfold req_free. unfold bind at 1 2. rewrite (get_req_ok req w1 r Hr), Ht, Hf. done. }
    rewrite Hrq, Hsd, Hcs by done. split_and!; try done.
    + apply lookup_delete_eq.
    + apply lookup_delete_eq.
    + apply lookup_insert_eq.
    + by rewrite Hmbs.
  - unfold is_state. rewrite !Hst. rewrite (bind_ok _ _ w 0 w) by done. cbn [Z.eqb negb].
    step (get_req_ok _ _ _ Hr). rewrite Hst. done.
Qed.

(** ** recv *)

Lemma allocate_recv_ok w c rc p l :
  comms w !! c = Some (RecvComm rc) -> r_reqs_fl rc = p :: l -> p <> NULL ->
  exists old, allocate_req (FlRecv c) w =
    Some (p, w_reqs <[p := zero_nccl_ofi_req old]> (w_comms <[c := RecvComm (set_r_fl l rc)]> w)).
Proof.
  intros Hc Hl Hp. exists (match freed w !! p with Some r => r | None => zero_req end).
  unfold allocate_req, fl_pop. unfold bind at 1.
  rewrite (bind_ok _ _ _ _ _ (get_recv_comm_ok _ _ _ Hc)), Hl.
  rewrite (bind_ok _ _ _ _ _ (upd_recv_comm_ok c (set_r_fl l) w rc Hc)). unfold ret at 1.
  by rewrite (proj2 (Z.eqb_neq p NULL)) by done.
Qed.

(** A communicator that can start a receive into [sz] bytes at [buff]: idle
    network, one control rail, and free requests and control buffers. *)
Record recv_ready (w : world) (c : Z) (rc : nccl_net_ofi_rdma_recv_comm_t) (R C S item : Z)
    (h : nccl_net_ofi_rdma_mr_handle_t) (keys : list Z) (cr : comm_rail) (cm : Z) : Prop := {
  ry_comm : comms w !! c = Some (RecvComm rc);
  ry_active : r_comm_active rc = true;
  ry_inflight : r_num_inflight_reqs rc <> NCCL_OFI_MAX_REQUESTS;
  ry_pending : pending w = [];
  ry_reqs : exists fl, r_reqs_fl rc = R :: C :: S :: fl;
  ry_ctrl : exists fl, r_ctrl_buff_fl rc = item :: fl;
  ry_distinct : R <> C /\ R <> S /\ C <> S /\ R <> NULL /\ C <> NULL /\ S <> NULL /\ item <> NULL;
  ry_control : num_control_rails <= 1;
  ry_virt : virt_addr_mr = true;
  ry_mr : num_rails <= Z.of_nat (length (mr h));
  ry_keys : ctrl_keys (take (Z.to_nat num_rails) (mr h)) = inr keys;
  ry_rail : r_control_rails rc !! 0%nat = Some cr;
  ry_rail_mr : control_mr (fl_mr_handle item) !! 0%nat = Some cm;
}.

(** The control message that advertises the buffer. *)
Definition advert (rc : nccl_net_ofi_rdma_recv_comm_t) (seq buff sz : Z) (keys : list Z) :=
  mk_ctrl_msg (wrap NCCL_OFI_RDMA_SEQ_BITS seq) (wrap NCCL_OFI_RDMA_COMM_ID_BITS (r_remote_comm_id rc))
    (u32 sz) (u64 buff) keys.

Lemma insert_send_ctrl_ok w c rc R C fl item cfl seq buff sz h keys r d :
  comms w !! c = Some (RecvComm rc) -> r_reqs_fl rc = C :: fl -> r_ctrl_buff_fl rc = item :: cfl ->
  C <> NULL -> item <> NULL -> R <> C -> num_control_rails <= 1 -> virt_addr_mr = true ->
  num_rails <= Z.of_nat (length (mr h)) -> ctrl_keys (take (Z.to_nat num_rails) (mr h)) = inr keys ->
  reqs w !! R = Some r -> type r = NCCL_OFI_RDMA_RECV -> data r = RecvData d ->
  exists w', insert_send_ctrl_req c seq buff sz h R w = Some (0, w') /\
    comms w' !! c = Some (RecvComm (set_r_ctrl_fl cfl (set_r_fl fl rc))) /\
    reqs w' !! R = Some (set_data (RecvData (set_rv_send_ctrl_req C d)) r) /\
    reqs w' !! C = Some (mk_req (Some c) base_dev_id seq 0 (SendCtrlData (mk_send_ctrl_data item NULL R)) 0
                           NCCL_OFI_RDMA_REQ_CREATED NCCL_OFI_RDMA_SEND_CTRL) /\
    ctrl_msgs w' !! item = Some (advert rc seq buff sz keys) /\ log w' = log w /\ pending w' = pending w.
Proof.
  intros Hc Hfl Hcfl HC Hitem HRC Hctl Hvirt Hmr Hkeys Hr Ht Hd.
  destruct (allocate_recv_ok w c rc C fl Hc Hfl HC) as [old Ha].
  unfold insert_send_ctrl_req. step Ha. rewrite (proj2 (Z.eqb_neq C NULL)) by done.
  set (w1 := w_reqs _ _). set (q := set_comm (Some c) (set_dev_id base_dev_id
    (set_type NCCL_OFI_RDMA_SEND_CTRL (set_seq seq (zero_nccl_ofi_req old))))).
  rewrite (bind_ok _ _ w1 tt (w_reqs <[C := q]> w1)) by
    (rewrite (upd_req_ok _ _ _ (zero_nccl_ofi_req old)) by apply lookup_insert_eq; done).
  set (w2 := w_reqs <[C := q]> w1). rewrite (proj2 (Z.ltb_ge 1 num_control_rails)) by lia.
  rewrite (bind_ok (ret (0, NULL)) _ w2 _ w2 eq_refl). cbn [fst snd Z.eqb negb].
  assert (reqs w2 !! C = Some q) as Hq by apply lookup_insert_eq.
  step (put_data_ok C (SendCtrlData (mk_send_ctrl_data NULL NULL R)) w2 q Hq).
  set (w3 := w_reqs _ w2).
  assert (comms w3 !! c = Some (RecvComm (set_r_fl fl rc))) as Hc3 by apply lookup_insert_eq.
  assert (ctrl_buff_alloc c w3 = Some (item, w_comms <[c := RecvComm (set_r_ctrl_fl cfl (set_r_fl fl rc))]> w3)) as Hi.
  { unfold ctrl_buff_alloc. step (get_recv_comm_ok _ _ _ Hc3). cbn [r_ctrl_buff_fl set_r_fl]. rewrite Hcfl.
    by step (upd_recv_comm_ok c (set_r_ctrl_fl cfl) w3 _ Hc3). }
  step Hi. rewrite (proj2 (Z.eqb_neq item NULL)), Hvirt by done. cbn [negb]. set (w4 := w_comms _ w3).
  assert (comms w4 !! c = Some (RecvComm (set_r_ctrl_fl cfl (set_r_fl fl rc)))) as Hc4 by apply lookup_insert_eq.
  step (get_recv_comm_ok _ _ _ Hc4).
  rewrite (bind_ok (assert _) _ w4 tt w4) by (by rewrite (proj2 (Z.leb_le _ _) Hmr)).
  rewrite Hkeys. cbn beta iota.
  match goal with |- context [modify ?f] => set (w5 := f w4); rewrite (bind_ok (modify f) _ w4 tt w5) by done end.
  assert (reqs w5 !! C = Some (set_data (SendCtrlData (mk_send_ctrl_data NULL NULL R)) q)) as Hq5
    by apply lookup_insert_eq.
  cbn [snd]. step (put_data_ok C (SendCtrlData (mk_send_ctrl_data item NULL R)) w5 _ Hq5). set (w6 := w_reqs _ w5).
  assert (reqs w6 !! R = Some r) as Hr6 by (cbn; by rewrite !lookup_insert_ne).
  step (get_recv_data_ok _ _ _ _ Hr6 Ht Hd).
  step (put_data_ok R (RecvData (set_rv_send_ctrl_req C d)) w6 r Hr6).
  eexists. split; [reflexivity|]. split; [exact Hc4|]. cbn.
  rewrite lookup_insert_eq, lookup_insert_ne, !lookup_insert_eq by done. by split_and!.
Qed.

Lemma insert_recv_segms_ok w c rc R S fl seq r d :
  comms w !! c = Some (RecvComm rc) -> r_reqs_fl rc = S :: fl -> S <> NULL -> R <> S ->
  reqs w !! R = Some r -> type r = NCCL_OFI_RDMA_RECV -> data r = RecvData d ->
  exists w', insert_recv_segms_req c seq R w = Some (0, w') /\
    comms w' !! c = Some (RecvComm (set_r_fl fl rc)) /\
    reqs w' !! R = Some (set_data (RecvData (set_rv_recv_segms_req S d)) r) /\
    reqs w' !! S = Some (mk_req (Some c) base_dev_id seq 0 (RecvSegmsData (mk_recv_segms_data R)) 0
                           NCCL_OFI_RDMA_REQ_CREATED NCCL_OFI_RDMA_RECV_SEGMS) /\
    (forall p, p <> R -> p <> S -> reqs w' !! p = reqs w !! p) /\
    ctrl_msgs w' = ctrl_msgs w /\ log w' = log w /\ pending w' = pending w.
Proof.
  intros Hc Hfl HS HRS Hr Ht Hd. destruct (allocate_recv_ok w c rc S fl Hc Hfl HS) as [old Ha].
  unfold insert_recv_segms_req. step Ha. rewrite (proj2 (Z.eqb_neq S NULL)) by done.
  set (w1 := w_reqs _ _).
  rewrite (bind_ok _ _ w1 tt (w_reqs <[S := set_comm (Some c) (set_dev_id base_dev_id
    (set_type NCCL_OFI_RDMA_RECV_SEGMS (set_seq seq (set_data (RecvSegmsData (mk_recv_segms_data R))
       (zero_nccl_ofi_req old)))))]> w1)) by
    (rewrite (upd_req_ok _ _ _ (zero_nccl_ofi_req old)) by apply lookup_insert_eq; done).
  set (w2 := w_reqs _ w1). assert (reqs w2 !! R = Some r) as Hr2 by (cbn; by rewrite !lookup_insert_ne).
  step (get_recv_data_ok _ _ _ _ Hr2 Ht Hd).
  step (put_data_ok R (RecvData (set_rv_recv_segms_req S d)) w2 r Hr2).
  eexists. split; [reflexivity|]. cbn. split; [apply lookup_insert_eq|].
  rewrite lookup_insert_eq, lookup_insert_ne, lookup_insert_eq by done. split_and!; try done.
  intros p HpR HpS. by rewrite !lookup_insert_ne.
Qed.

Lemma allocate_recv_group w c rc R C S fl item cfl seq buff sz h keys :
  comms w !! c = Some (RecvComm rc) -> r_reqs_fl rc = R :: C :: S :: fl -> r_ctrl_buff_fl rc = item :: cfl ->
  R <> C -> R <> S -> C <> S -> R <> NULL -> C <> NULL -> S <> NULL -> item <> NULL ->
  num_control_rails <= 1 -> virt_addr_mr = true ->
  num_rails <= Z.of_nat (length (mr h)) -> ctrl_keys (take (Z.to_nat num_rails) (mr h)) = inr keys ->
  exists w', allocate_rdma_recv_req c seq buff sz h w = Some ((0, R), w') /\
    comms w' !! c = Some (RecvComm (set_r_fl fl (set_r_ctrl_fl cfl (set_r_fl (S :: fl) (set_r_fl (C :: S :: fl) rc))))) /\
    reqs w' !! R = Some (mk_req (Some c) base_dev_id seq 0 (RecvData (mk_recv_data buff sz h C S NULL 2)) 0
                           NCCL_OFI_RDMA_REQ_CREATED NCCL_OFI_RDMA_RECV) /\
    reqs w' !! C = Some (mk_req (Some c) base_dev_id seq 0 (SendCtrlData (mk_send_ctrl_data item NULL R)) 0
                           NCCL_OFI_RDMA_REQ_CREATED NCCL_OFI_RDMA_SEND_CTRL) /\
    reqs w' !! S = Some (mk_req (Some c) base_dev_id seq 0 (RecvSegmsData (mk_recv_segms_data R)) 0
                           NCCL_OFI_RDMA_REQ_CREATED NCCL_OFI_RDMA_RECV_SEGMS) /\
    ctrl_msgs w' !! item = Some (advert rc seq buff sz keys) /\ log w' = log w /\ pending w' = pending w.
Proof.
  intros Hc Hfl Hcfl HRC HRS HCS HR HC HS Hitem Hctl Hvirt Hmr Hkeys.
  destruct (allocate_recv_ok w c rc R (C :: S :: fl) Hc Hfl HR) as [old Ha].
  unfold allocate_rdma_recv_req. step Ha. rewrite (proj2 (Z.eqb_neq R NULL)) by done.
  set (w1 := w_reqs _ _).
  assert (reqs w1 !! R = Some (zero_nccl_ofi_req old)) as Hr1 by apply lookup_insert_eq.
  step (get_req_ok _ _ _ Hr1). set (sd := stale_recv_data (zero_nccl_ofi_req old)).
  set (d := mk_recv_data buff sz h (rv_send_ctrl_req sd) (rv_recv_segms_req sd) NULL 2).
  set (r := set_comm (Some c) (set_dev_id base_dev_id (set_type NCCL_OFI_RDMA_RECV (set_seq seq
    (set_data (RecvData d) (zero_nccl_ofi_req old)))))).
  rewrite (bind_ok _ _ w1 tt (w_reqs <[R := r]> w1)) by (by rewrite (upd_req_ok _ _ _ _ Hr1)).
  set (w2 := w_reqs <[R := r]> w1).
  assert (comms w2 !! c = Some (RecvComm (set_r_fl (C :: S :: fl) rc))) as Hc2 by apply lookup_insert_eq.
  assert (reqs w2 !! R = Some r) as Hr2 by apply lookup_insert_eq.
  destruct (insert_send_ctrl_ok w2 c _ R C (S :: fl) item cfl seq buff sz h keys r d Hc2)
    as (w3 & H3 & Hc3 & HR3 & HC3 & Hm3 & Hl3 & Hp3); try done.
  step H3. cbn [Z.eqb negb].
  destruct (insert_recv_segms_ok w3 c _ R S fl seq _ _ Hc3 eq_refl HS HRS HR3 eq_refl eq_refl)
    as (w4 & H4 & Hc4 & HR4 & HS4 & Ho4 & Hm4 & Hl4 & Hp4).
  step H4. cbn [Z.eqb negb]. exists w4. split; [done|]. split; [exact Hc4|].
  rewrite HR4, HS4, Ho4, HC3, Hm4, Hm3, Hl4, Hl3, Hp4, Hp3 by done. by split_and!.
Qed.

(** A message just inserted is found again under its number. *)
Lemma insert_then_retrieve mb a m e :
  mb_rel mb a -> lo a - max_inprogress mb <= m < lo a - max_inprogress mb + field_size mb ->
  w_status (max_inprogress mb) a m = NCCL_OFI_MSGBUFF_NOTSTARTED ->
  exists mb', nccl_ofi_msgbuff_insert mb (m mod field_size mb) e NCCL_OFI_MSGBUFF_REQ =
      Some (NCCL_OFI_MSGBUFF_SUCCESS, NCCL_OFI_MSGBUFF_NOTSTARTED, mb') /\
    mb_rel mb' (w_insert a m (e, NCCL_OFI_MSGBUFF_REQ)) /\
    nccl_ofi_msgbuff_retrieve mb' (m mod field_size mb) =
      (NCCL_OFI_MSGBUFF_SUCCESS, NCCL_OFI_MSGBUFF_INPROGRESS, Some (e, NCCL_OFI_MSGBUFF_REQ)).
Proof.
  intros Hrel Hr Hst. destruct (insert_refines mb a m e NCCL_OFI_MSGBUFF_REQ Hrel Hr Hst)
    as (mb' & Hi & Hrel' & Hmax & Hfs). exists mb'. split; [done|]. split; [done|].
  assert (live (w_insert a m (e, NCCL_OFI_MSGBUFF_REQ)) !! m = Some (e, NCCL_OFI_MSGBUFF_REQ)) as Hl
    by apply lookup_insert_eq.
  destruct (w_status_live _ _ _ _ Hrel' Hl) as [Hin Hr'].
  assert (w_step (max_inprogress mb') (w_insert a m (e, NCCL_OFI_MSGBUFF_REQ)) (OpRetrieve m) =
    (NCCL_OFI_MSGBUFF_SUCCESS, NCCL_OFI_MSGBUFF_INPROGRESS, Some (e, NCCL_OFI_MSGBUFF_REQ),
     w_insert a m (e, NCCL_OFI_MSGBUFF_REQ))) as Hw.
  { unfold w_step. cbn [op_seq]. by rewrite Hin, Hl. }
  destruct (step_refines mb' _ (OpRetrieve m) _ _ Hrel' Hr' Hw) as (mb2 & Hs & _).
  unfold mb_step in Hs. cbn [op_seq] in Hs. rewrite Hfs in Hs.
  destruct (nccl_ofi_msgbuff_retrieve mb' _) as [[r st] x]. by injection Hs as -> -> -> _.
Qed.

Lemma lookup_msg_none mb a m :
  mb_rel mb a -> lo a - max_inprogress mb <= m < lo a - max_inprogress mb + field_size mb ->
  w_status (max_inprogress mb) a m = NCCL_OFI_MSGBUFF_NOTSTARTED ->
  lookup_msg mb (m mod field_size mb) = LookupNone.
Proof.
  intros Hrel Hr Hst. unfold lookup_msg, nccl_ofi_msgbuff_retrieve.
  by rewrite (get_idx_status_refines mb a m Hrel Hr), Hst.
Qed.

Lemma check_network_idle w : pending w = [] -> check_network w = Some (None, w).
Proof.
  intros H. unfold check_network, process_cq_if_pending, pending_isempty, bind, gets, ret. by rewrite H.
Qed.

(** Posting the control message of a new receive. *)
Lemma post_ctrl_ok w C R c rc item msg cr cm r :
  reqs w !! C = Some r -> type r = NCCL_OFI_RDMA_SEND_CTRL -> comm r = Some c ->
  data r = SendCtrlData (mk_send_ctrl_data item NULL R) -> comms w !! c = Some (RecvComm rc) ->
  r_control_rails rc !! 0%nat = Some cr -> control_mr (fl_mr_handle item) !! 0%nat = Some cm ->
  ctrl_msgs w !! item = Some msg ->
  let op := fi_send_ctrl (cr_local_ep cr) msg (nccl_net_ofi_rdma_ctrl_msg_size num_rails use_long_rkeys)
    (fi_mr_desc cm) (cr_remote_addr cr) C in
  fabric (log w) op = 0 \/ fabric (log w) op = - FI_EAGAIN ->
  exists w', receive_progress C true w = Some (0, w') /\ reqs w' = reqs w /\ comms w' = comms w /\
    log w' = log w ++ [(op, fabric (log w) op)] /\
    pending w' = pending w ++ (if fabric (log w) op =? 0 then [] else [C]).
Proof.
  intros Hr Ht Hc Hd Hcm Hcr Hmr Hmsg op Hf.
  assert (post_rdma_ctrl C w = Some (fabric (log w) op, w_log (fun l => l ++ [(op, fabric (log w) op)]) w)) as Hp.
  { unfold post_rdma_ctrl. step (req_comm_ok _ _ _ _ Hr Hc). step (get_send_ctrl_data_ok _ _ _ _ Hr Ht Hd).
    step (get_recv_comm_ok _ _ _ Hcm). cbn [sc_ctrl_schedule sc_ctrl_fl_item Z.eqb NULL negb].
    rewrite (bind_ok (ret 0) _ w 0 w) by done. assert (0 <= 0) as H0 by lia.
    step (rail_at_ok (r_control_rails rc) 0 cr w H0 Hcr).
    step (rail_at_ok (control_mr (fl_mr_handle item)) 0 cm w H0 Hmr).
    unfold bind at 1, gets. rewrite Hmsg. done. }
  unfold receive_progress. step (get_req_ok _ _ _ Hr). rewrite Ht. step Hp.
  destruct Hf as [-> | ->]; cbn [Z.eqb FI_EAGAIN EAGAIN Z.opp andb Pos.eqb];
    (eexists; split; [reflexivity|]); cbn; by rewrite ?app_nil_r.
Qed.

(** The new request enters the message buffer. *)
Lemma insert_recv_ok w c rc R r mb :
  reqs w !! R = Some r -> comms w !! c = Some (RecvComm rc) ->
  nccl_ofi_msgbuff_insert (r_msgbuff rc) (msg_seq_num r) R NCCL_OFI_MSGBUFF_REQ =
    Some (NCCL_OFI_MSGBUFF_SUCCESS, NCCL_OFI_MSGBUFF_NOTSTARTED, mb) ->
  insert_rdma_recv_req_into_msgbuff c false R w =
    Some ((0, R), w_comms <[c := RecvComm (set_r_msgbuff mb rc)]> w).
Proof.
  intros Hr Hc Hins. unfold insert_rdma_recv_req_into_msgbuff. step (get_req_ok _ _ _ Hr).
  step (get_recv_comm_ok _ _ _ Hc). rewrite Hins.
  cbn [of_option]. rewrite (bind_ok (ret _) _ w _ w eq_refl). cbn beta iota.
  by step (upd_recv_comm_ok c (set_r_msgbuff mb) w rc Hc).
Qed.

(** The counters of the communicator when a receive is under way. *)
Definition counted (rc : nccl_net_ofi_rdma_recv_comm_t) : nccl_net_ofi_rdma_recv_comm_t :=
  set_r_ctrl_sent (u64 (r_n_ctrl_sent rc + 1)) (set_r_inflight (u64 (r_num_inflight_reqs rc + 1)) rc).
Definition advanced (rc : nccl_net_ofi_rdma_recv_comm_t) : nccl_net_ofi_rdma_recv_comm_t :=
  set_r_next (Z.land (r_next_msg_seq_num rc + 1) MSG_SEQ_NUM_MASK) rc.

Lemma recv_post_ok w c rc R r d w' :
  comms w !! c = Some (RecvComm rc) -> reqs w !! R = Some r -> type r = NCCL_OFI_RDMA_RECV ->
  data r = RecvData d ->
  receive_progress (rv_send_ctrl_req d) true (w_comms <[c := RecvComm (counted rc)]> w) = Some (0, w') ->
  comms w' !! c = Some (RecvComm (counted rc)) ->
  recv_post c R false w = Some ((0, R), w_comms <[c := RecvComm (advanced (counted rc))]> w').
Proof.
  intros Hc Hr Ht Hd Hp Hc'. unfold recv_post.
  step (upd_recv_comm_ok c (fun r => set_r_inflight (u64 (r_num_inflight_reqs r + 1)) r) w rc Hc).
  set (rc1 := set_r_inflight _ rc). set (w1 := w_comms _ w).
  step (upd_recv_comm_ok c (fun r => set_r_ctrl_sent (u64 (r_n_ctrl_sent r + 1)) r) w1 rc1 (lookup_insert_eq _ _ _)).
  assert (w_comms <[c := RecvComm (set_r_ctrl_sent (u64 (r_n_ctrl_sent rc1 + 1)) rc1)]> w1 =
    w_comms <[c := RecvComm (counted rc)]> w) as ->
    by (unfold w1, w_comms; cbn; by rewrite insert_insert_eq).
  set (w2 := w_comms <[c := RecvComm (counted rc)]> w) in *.
  step (get_recv_data_ok R w2 r d Hr Ht Hd). step Hp. cbn [Z.eqb negb].
  rewrite (bind_ok (ret 0) _ w' 0 w') by done. cbn [Z.eqb negb].
  by step (upd_recv_comm_ok c advanced w' _ Hc').
Qed.

(** C4. recv on an idle communicator starts a receive: the call returns a new
    request, one control message goes to the peer (or to the pending queue if
    the network is busy) that names the message, the communicator, the buffer,
    its length and its keys; the message is in progress under its number, the
    counters move by one, and the request waits for the control completion and
    the segments of that message, none of which has arrived. *)
Theorem recv_starts_receive w c rc R C S item h keys cr cm a m buff sz imm n base_req :
  recv_ready w c rc R C S item h keys cr cm ->
  mb_rel (r_msgbuff rc) a -> 0 <= r_n_ctrl_delivered rc < 2 ^ 64 ->
  lo a - max_inprogress (r_msgbuff rc) <= m < lo a - max_inprogress (r_msgbuff rc) + field_size (r_msgbuff rc) ->
  w_status (max_inprogress (r_msgbuff rc)) a m = NCCL_OFI_MSGBUFF_NOTSTARTED ->
  r_next_msg_seq_num rc = m mod field_size (r_msgbuff rc) ->
  GET_COMM_ID_FROM_IMM imm = c -> GET_SEQ_NUM_FROM_IMM imm = r_next_msg_seq_num rc ->
  GET_NUM_SEG_FROM_IMM imm = n -> 1 <= n ->
  let op := fi_send_ctrl (cr_local_ep cr) (advert rc (r_next_msg_seq_num rc) buff (u64 sz) keys)
    (nccl_net_ofi_rdma_ctrl_msg_size num_rails use_long_rkeys) (fi_mr_desc cm) (cr_remote_addr cr) C in
  fabric (log w) op = 0 \/ fabric (log w) op = - FI_EAGAIN ->
  exists w' rc', recv c buff sz h base_req w = Some ((0, R), w') /\
    log w' = log w ++ [(op, fabric (log w) op)] /\
    pending w' = (if fabric (log w) op =? 0 then [] else [C]) /\
    recv_progress w' R C S c imm n NCCL_OFI_RDMA_REQ_CREATED (r_n_ctrl_delivered rc) false 0 0 /\
    comms w' !! c = Some (RecvComm rc') /\ mb_rel (r_msgbuff rc') (w_insert a m (R, NCCL_OFI_MSGBUFF_REQ)) /\
    r_num_inflight_reqs rc' = u64 (r_num_inflight_reqs rc + 1) /\
    r_n_ctrl_sent rc' = u64 (r_n_ctrl_sent rc + 1) /\
    r_next_msg_seq_num rc' = Z.land (r_next_msg_seq_num rc + 1) MSG_SEQ_NUM_MASK.
Proof.
  intros [Hc Hact Hinf Hpend [fl Hfl] [cfl Hcfl] (HRC & HRS & HCS & HR & HC & HS & Hitem) Hctl Hvirt Hmr Hkeys
    Hrail Hrmr] Hrel Hdel Hrange Hst Hseq Hi1 Hi2 Hi3 Hn op Hf.
  set (seq := r_next_msg_seq_num rc) in *.
  destruct (allocate_recv_group w c rc R C S fl item cfl seq buff (u64 sz) h keys)
    as (w1 & Ha & Hc1 & HR1 & HC1 & HS1 & Hm1 & Hl1 & Hp1); try done.
  set (rc1 := set_r_fl fl _) in Hc1.
  destruct (insert_then_retrieve (r_msgbuff rc) a m R Hrel Hrange Hst) as (mb & Hins & Hrel' & Hret).
  rewrite <- Hseq in Hins, Hret.
  set (rc2 := set_r_msgbuff mb rc1). set (w2 := w_comms <[c := RecvComm rc2]> w1).
  set (w4 := w_comms <[c := RecvComm (counted rc2)]> w2).
  assert (comms w2 !! c = Some (RecvComm rc2)) as Hc2 by apply lookup_insert_eq.
  assert (comms w4 !! c = Some (RecvComm (counted rc2))) as Hc4 by apply lookup_insert_eq.
  destruct (post_ctrl_ok w4 C R c (counted rc2) item (advert rc seq buff (u64 sz) keys) cr cm
    (mk_req (Some c) base_dev_id seq 0 (SendCtrlData (mk_send_ctrl_data item NULL R)) 0
       NCCL_OFI_RDMA_REQ_CREATED NCCL_OFI_RDMA_SEND_CTRL))
    as (w5 & Hpost & Hr5 & Hcm5 & Hl5 & Hp5); try done.
  { cbn. by rewrite Hl1. }
  exists (w_comms <[c := RecvComm (advanced (counted rc2))]> w5), (advanced (counted rc2)).
  split; [|split; [|split; [|split]]].
  - unfold recv. step (get_recv_comm_ok _ _ _ Hc). rewrite Hact, (proj2 (Z.eqb_neq _ _) Hinf). cbn [negb].
    step (check_network_idle w Hpend). step (get_recv_comm_ok _ _ _ Hc). fold seq.
    assert (lookup_msg (r_msgbuff rc) seq = LookupNone) as ->
      by (rewrite Hseq; by apply (lookup_msg_none _ a)). step Ha. cbn [fst snd Z.eqb negb].
    rewrite (bind_ok (ret None) _ w1 None w1) by done.
    step (insert_recv_ok w1 c rc1 R _ mb HR1 Hc1 Hins). cbn [fst snd Z.eqb negb].
    rewrite (proj2 (Z.eqb_neq R NULL)) by done.
    exact (recv_post_ok w2 c rc2 R _ _ w5 Hc2 HR1 eq_refl eq_refl Hpost ltac:(by rewrite Hcm5)).
  - cbn. rewrite Hl5. cbn. by rewrite Hl1.
  - cbn. rewrite Hp5. cbn. by rewrite Hp1, Hpend, Hl1.
  - assert (n <> 0) as Hn0 by lia. constructor.
    + eexists _, _. cbn. rewrite Hr5. split; [exact HR1|]. cbn.
      destruct n as [|n|n]; [done|by split_and!|lia].
    + eexists _, _. cbn. rewrite Hr5. split; [exact HC1|]. by split_and!.
    + eexists _, _. cbn. rewrite Hr5. split; [exact HS1|]. by split_and!.
    + exists (advanced (counted rc2)), NCCL_OFI_MSGBUFF_INPROGRESS. cbn. rewrite lookup_insert_eq, Hi2, Z.add_0_r, wrap_small by lia.
      by split_and!.
    + done.
    + by split_and!.
    + lia.
    + done.
  - split; [apply lookup_insert_eq|]. split_and!; [exact Hrel'|done..].
Qed.

(** ** Closing *)

(** Releasing the request on the way out of a failed call does not make it
    succeed. *)
Lemma free_then_fail p rc w w' : rc <> 0 -> (req_free p false ;;; ret rc) w <> Some (0, w').
Proof. intros Hrc H. apply bind_inv in H as (? & ? & _ & H). by injection H as ->. Qed.

Lemma get_schedule_frame sz n w q w' :
  get_schedule sz n w = Some (q, w') -> comms w' = comms w /\ reqs w' = reqs w.
Proof.
  intros H. unfold get_schedule in H. apply bind_inv in H as (st & ? & E1 & H). injection E1 as <- <-.
  apply bind_inv in H as ([q' st'] & w2 & E2 & H). destruct (get_threshold_schedule _ _ _ _ _); [|done].
  injection E2 as -> <-. injection H as <- <-. done.
Qed.

Lemma get_schedule_at_same q w sch w' : get_schedule_at q w = Some (sch, w') -> w' = w.
Proof.
  unfold get_schedule_at, bind, gets. intros H. destruct (snd (sched w) !! q); [|done]. by injection H.
Qed.

Lemma allocate_recv_inv w c rc p w' :
  comms w !! c = Some (RecvComm rc) -> allocate_req (FlRecv c) w = Some (p, w') -> p <> NULL ->
  exists l old, w' = w_reqs <[p := zero_nccl_ofi_req old]> (w_comms <[c := RecvComm (set_r_fl l rc)]> w).
Proof.
  intros Hc H Hp. destruct (r_reqs_fl rc) as [|p' l] eqn:Hfl.
  { unfold allocate_req, fl_pop, bind at 1 2 in H. rewrite (get_recv_comm_ok _ _ _ Hc), Hfl in H.
    by injection H as <- <-. }
  destruct (decide (p' = NULL)) as [->|Hp'].
  { unfold allocate_req, fl_pop, bind at 1 2 in H. rewrite (get_recv_comm_ok _ _ _ Hc), Hfl in H.
    rewrite (bind_ok _ _ _ _ _ (upd_recv_comm_ok c (set_r_fl l) w rc Hc)) in H. by injection H as <- <-. }
  destruct (allocate_recv_ok w c rc p' l Hc Hfl Hp') as [old Ha]. rewrite Ha in H. injection H as <- <-.
  by exists l, old.
Qed.

Lemma ctrl_buff_alloc_inv w c rc item w' :
  comms w !! c = Some (RecvComm rc) -> ctrl_buff_alloc c w = Some (item, w') -> item <> NULL ->
  exists l, w' = w_comms <[c := RecvComm (set_r_ctrl_fl l rc)]> w.
Proof.
  intros Hc H Hi. unfold ctrl_buff_alloc in H. rewrite (bind_ok _ _ _ _ _ (get_recv_comm_ok _ _ _ Hc)) in H.
  destruct (r_ctrl_buff_fl rc) as [|p l]; [by injection H as <- <-|].
  rewrite (bind_ok _ _ _ _ _ (upd_recv_comm_ok c (set_r_ctrl_fl l) w rc Hc)) in H. injection H as <- <-.
  by exists l.
Qed.

Lemma insert_close_inv c w w1 rc :
  comms w !! c = Some (RecvComm rc) -> recv_comm_insert_send_close_req c w = Some (0, w1) ->
  exists p r item q rc1, reqs w1 !! p = Some r /\ type r = NCCL_OFI_RDMA_SEND_CLOSE /\
    data r = SendCloseData (mk_send_close_data item q) /\
    comms w1 !! c = Some (RecvComm rc1) /\ r_send_close_req rc1 = p /\
    close_msgs w1 !! item = Some (mk_close_msg (r_n_ctrl_delivered rc) (r_remote_comm_id rc)).
Proof.
  intros Hc H. unfold recv_comm_insert_send_close_req in H.
  apply bind_inv in H as (p & wa & Ha & H). destruct (Z.eqb_spec p NULL) as [|Hp]; [done|].
  apply (allocate_recv_inv _ _ _ _ _ Hc) in Ha as (l & old & Ewa); [|done].
  assert (reqs wa !! p = Some (zero_nccl_ofi_req old)) as Hra by (subst wa; apply lookup_insert_eq).
  assert (comms wa !! c = Some (RecvComm (set_r_fl l rc))) as Hca by (subst wa; apply lookup_insert_eq).
  rewrite (bind_ok _ _ _ _ _ (upd_req_ok p _ wa _ Hra)) in H. set (r1 := set_comm (Some c) _) in H.
  apply bind_inv in H as (q & wc & Hg & H). apply get_schedule_frame in Hg as [Hcc Hrc].
  assert (reqs wc !! p = Some r1) as Hr1 by (rewrite Hrc; apply lookup_insert_eq).
  rewrite (bind_ok _ _ _ _ _ (put_data_ok p (SendCloseData (mk_send_close_data NULL q)) wc r1 Hr1)) in H.
  set (wd := w_reqs _ wc) in H. destruct (q =? NULL); [by apply free_then_fail in H|].
  apply bind_inv in H as (sch & we & ->%get_schedule_at_same & H).
  destruct (negb (num_xfer_infos sch =? 1)); [by apply free_then_fail in H|].
  apply bind_inv in H as (item & wf & Hi & H).
  destruct (Z.eqb_spec item NULL) as [|Hin]; [by apply free_then_fail in H|].
  apply (ctrl_buff_alloc_inv _ _ (set_r_fl l rc)) in Hi as (fl & ->); [|cbn; by rewrite Hcc|done].
  set (rc2 := set_r_ctrl_fl fl _) in H. set (wf := w_comms _ wd) in H.
  rewrite (bind_ok _ _ _ _ _ (get_recv_comm_ok c wf rc2 (lookup_insert_eq _ _ _))) in H.
  match type of H with bind (modify ?f) _ _ = _ =>
    set (wg := f wf) in H; rewrite (bind_ok (modify f) _ wf tt wg) in H by done end.
  rewrite (bind_ok _ _ _ _ _ (put_data_ok p (SendCloseData (mk_send_close_data item q)) wg _
    (lookup_insert_eq _ _ _))) in H. set (wh := w_reqs _ wg) in H.
  rewrite (bind_ok _ _ _ _ _ (upd_recv_comm_ok c (set_r_close_req p) wh rc2 (lookup_insert_eq _ _ _))) in H.
  injection H as <-. eexists p, _, item, q, _. cbn. rewrite !lookup_insert_eq. by split_and!.
Qed.

(** A bounce request [bq] in which the close message [msg] has arrived. *)
Definition close_arrived (w : world) (bq : Z) (msg : nccl_net_ofi_rdma_close_msg_t) : Prop :=
  exists rb bd, reqs w !! bq = Some rb /\ type rb = NCCL_OFI_RDMA_BOUNCE /\ data rb = BounceData bd /\
    bounce_bufs w !! bd_bounce_fl_item bd = Some (BmClose msg).

Lemma handle_close_ok w bq msg s :
  close_arrived w bq msg -> comms w !! clm_send_comm_id msg = Some (SendComm s) ->
  s_received_close_message s = false ->
  handle_close_msg_recv bq w = repost_bounce_buff bq
    (w_comms <[clm_send_comm_id msg := SendComm (set_s_close true (clm_ctrl_counter msg) s)]> w).
Proof.
  intros (rb & bd & Hb & Ht & Hd & Hm) Hc Hs. unfold handle_close_msg_recv.
  step (get_bounce_data_ok _ _ _ _ Hb Ht Hd).
  assert (bounce_get_close_msg (bd_bounce_fl_item bd) w = Some (msg, w)) as Hg.
  { unfold bounce_get_close_msg, bind, gets. by rewrite Hm. }
  step Hg. step (get_send_comm_ok _ _ _ Hc). rewrite Hs. rewrite (bind_ok (assert _) _ w tt w) by done.
  by step (upd_send_comm_ok (clm_send_comm_id msg) (set_s_close true (clm_ctrl_counter msg)) w s Hc).
Qed.

(** C21. The close handshake. While some control message is undelivered, the
    receiver's pass does nothing; once all are delivered, the close message it
    makes ready carries the number of control messages sent, to the sender's
    communicator. The sender that takes this message in records that number,
    and it releases its communicator only in a state where it has received
    exactly the recorded number of control messages. *)
Theorem close_handshake c w w0 rc :
  ofi_process_cq w = Some (0, w0) -> comms w0 !! c = Some (RecvComm rc) -> r_send_close_req rc = NULL ->
  (r_n_ctrl_delivered rc <> r_n_ctrl_sent rc -> recv_comm_finalizing c w = Some ((0, CloseWait), w0)) /\
  (forall w1, r_n_ctrl_delivered rc = r_n_ctrl_sent rc -> recv_comm_insert_send_close_req c w0 = Some (0, w1) ->
     exists p r item q msg, reqs w1 !! p = Some r /\ type r = NCCL_OFI_RDMA_SEND_CLOSE /\
       data r = SendCloseData (mk_send_close_data item q) /\ close_msgs w1 !! item = Some msg /\
       clm_send_comm_id msg = r_remote_comm_id rc /\ clm_ctrl_counter msg = r_n_ctrl_sent rc /\
       recv_comm_finalizing c w = (let* x := receive_progress p true in ret (x, CloseWait)) w1 /\
       forall ws bq s, close_arrived ws bq msg -> comms ws !! r_remote_comm_id rc = Some (SendComm s) ->
         s_received_close_message s = false ->
         handle_close_msg_recv bq ws = repost_bounce_buff bq
           (w_comms <[r_remote_comm_id rc := SendComm (set_s_close true (r_n_ctrl_sent rc) s)]> ws)) /\
  (forall ws ws0 cs s, ofi_process_cq ws = Some (0, ws0) -> comms ws0 !! cs = Some (SendComm s) ->
     exists step, send_comm_finalizing cs ws = Some ((0, step), ws0) /\
       (step = CloseDestroy <->
        s_received_close_message s = true /\ s_n_ctrl_received s = s_n_ctrl_expected s)).
Proof.
  intros Hcq Hc Hn. split; [|split].
  - intros Hne. unfold recv_comm_finalizing. step Hcq. cbn [Z.eqb negb].
    step (get_recv_comm_ok _ _ _ Hc). rewrite Hn, (proj2 (Z.eqb_neq _ _) Hne). done.
  - intros w1 Heq Hi. destruct (insert_close_inv c w0 w1 rc Hc Hi)
      as (p & r & item & q & rc1 & Hr & Ht & Hd & Hc1 & Hp & Hm).
    exists p, r, item, q, (mk_close_msg (r_n_ctrl_delivered rc) (r_remote_comm_id rc)).
    split_and!; try done.
    + unfold recv_comm_finalizing. step Hcq. cbn [Z.eqb negb]. step (get_recv_comm_ok _ _ _ Hc).
      rewrite Hn, (proj2 (Z.eqb_eq _ _) Heq). cbn [Z.eqb NULL]. step Hi. cbn [Z.eqb negb].
      step (get_recv_comm_ok _ _ _ Hc1). by rewrite Hp.
    + intros ws bq s Ha Hs Hcl. rewrite (handle_close_ok ws bq _ s Ha Hs Hcl). cbn. by rewrite Heq.
  - intros ws ws0 cs s Hq Hs. eexists. split.
    + unfold send_comm_finalizing. step Hq. cbn [Z.eqb negb]. by step (get_send_comm_ok _ _ _ Hs).
    + destruct (s_received_close_message s), (s_n_ctrl_received s =? s_n_ctrl_expected s) eqn:Hcnt; cbn;
        bool_cases; intuition congruence.
Qed.

End Comm.

(** ** Examples *)

(** The send of size zero that holds schedule 2048 when it is planned again. *)
Definition ex_replan_world : world :=
  w_sched (fun _ => (mk_scheduler [1024] 0 131072, <[2048 := mk_schedule 1 [mk_xfer 0 0 0; mk_xfer 0 0 0]]> ∅))
    (ex_ctrl_world 2048).

Lemma ex_replan_arrived :
  ctrl_arrived (E := ex_env []) ex_replan_world 7 ex_send_comm 500 (ex_waiting_req 2048)
    (ex_waiting_data 2048) 900 ex_ctrl_msg.
Proof.
  destruct (ex_ctrl_arrived 2048 []) as [H1 _ H3 H4 H5 H6 H7 H8 H9 H10 H11 H12].
  constructor; try done. constructor; cbn; [|done|lia|lia]. unfold pool_ok.
  rewrite dom_insert_L, dom_empty_L. split_and!.
  - repeat constructor. rewrite elem_of_nil. tauto.
  - rewrite list_elem_of_singleton. done.
  - set_solver.
  - intros e He%list_elem_of_singleton. set_solver.
  - intros e1 e2. cbn. rewrite !elem_of_union, !elem_of_singleton, !elem_of_empty.
    unfold sizeof_schedule. lia.
Qed.

Lemma replanned_send_leaks_witness :
  exists rc w1, update_send_data_from_remote (E := ex_env []) 7 900 500 ex_replan_world = Some (rc, w1) /\
    (rc = 0 -> exists w2, free_send_req (E := ex_env []) 500 true w1 = Some (0, w2) /\ reqs w2 !! 500 = None /\
       snd (sched w2) = snd (sched ex_replan_world) /\
       snd (sched w2) !! 2048 = Some (mk_schedule 1 [mk_xfer 0 0 0; mk_xfer 0 0 0])).
Proof.
  apply (replanned_send_leaks (E := ex_env []) ex_replan_world 7 ex_send_comm 500 (ex_waiting_req 2048)
    (ex_waiting_data 2048) 900 ex_ctrl_msg (mk_schedule 1 [mk_xfer 0 0 0; mk_xfer 0 0 0]) true ex_replan_arrived);
    [reflexivity|done|vm_compute; reflexivity].
Defined.

Definition ex_msgbuff_500 : nccl_ofi_msgbuff_t :=
  match nccl_ofi_msgbuff_insert ex_msgbuff 0 500 NCCL_OFI_MSGBUFF_REQ with
  | Some (_, _, mb) => mb
  | None => ex_msgbuff
  end.

Lemma ex_msgbuff_500_rel : mb_rel ex_msgbuff_500 (w_insert window_init 0 (500, NCCL_OFI_MSGBUFF_REQ)).
Proof.
  destruct (insert_refines ex_msgbuff window_init 0 500 NCCL_OFI_MSGBUFF_REQ ex_msgbuff_rel)
    as (mb & Hi & Hrel & _); [vm_compute; split; congruence|reflexivity|].
  unfold ex_msgbuff_500. change (0 mod field_size ex_msgbuff) with 0 in Hi. by rewrite Hi.
Qed.

Definition ex_done_comm : nccl_net_ofi_rdma_send_comm_t :=
  mk_send_comm 1 [501] 9 NULL None 1 ex_msgbuff_500 false 0 0 true ex_rails ex_rails 2.
Definition ex_done_req : nccl_net_ofi_rdma_req_t :=
  mk_req (Some 7) 0 0 2 (SendData (ex_waiting_data 2048)) 200000 NCCL_OFI_RDMA_REQ_COMPLETED NCCL_OFI_RDMA_SEND.
Definition ex_done_world : world :=
  w_comms <[7 := SendComm ex_done_comm]> (w_reqs <[500 := ex_done_req]> ex_replan_world).

Lemma test_retires_send_witness :
  exists w' s', test (E := ex_env []) 500 ex_done_world = Some ((0, true, Some 200000), w') /\
    reqs w' !! 500 = None /\ snd (sched w') !! 2048 = None /\ comms w' !! 7 = Some (SendComm s') /\
    s_num_inflight_reqs s' = u64 (1 - 1) /\ s_reqs_fl s' = [500; 501] /\
    mb_rel (s_msgbuff s') (w_complete (w_insert window_init 0 (500, NCCL_OFI_MSGBUFF_REQ)) 0) /\
    log w' = log ex_done_world.
Proof.
  refine (proj1 (test_retires_send (E := ex_env []) ex_done_world 500 ex_done_req (ex_waiting_data 2048) 7 ex_done_comm
    (w_insert window_init 0 (500, NCCL_OFI_MSGBUFF_REQ)) 0 _ _ _ _ _ _ _ _ _ ex_msgbuff_500_rel _ _) _);
    try reflexivity; try done.
  apply ex_replan_arrived.
Defined.

Definition ex_idle_world : world := w_comms <[9 := RecvComm ex_recv_comm]> ex_world.

Lemma recv_starts_receive_witness :
  exists w' rc', recv (E := ex_env [- FI_EAGAIN]) 9 8192 200 ex_handle NULL ex_idle_world = Some ((0, 600), w') /\
    log w' = [(fi_send_ctrl 31 (mk_ctrl_msg 0 7 200 8192 [111; 112]) 24 203 41 601, - FI_EAGAIN)] /\
    pending w' = [601] /\
    recv_progress w' 600 601 602 9 ex_imm 2 NCCL_OFI_RDMA_REQ_CREATED 0 false 0 0 /\
    comms w' !! 9 = Some (RecvComm rc') /\
    mb_rel (r_msgbuff rc') (w_insert window_init 0 (600, NCCL_OFI_MSGBUFF_REQ)) /\
    r_num_inflight_reqs rc' = 1 /\ r_n_ctrl_sent rc' = 1 /\ r_next_msg_seq_num rc' = 1.
Proof.
  apply (recv_starts_receive (E := ex_env [- FI_EAGAIN]) ex_idle_world 9 ex_recv_comm 600 601 602 700 ex_handle
    [111; 112] (mk_comm_rail 41 31 51) 3 window_init 0 8192 200 ex_imm 2 NULL);
    try (vm_compute; reflexivity); try lia.
  - constructor; try reflexivity; try done; try (cbn; lia).
    + by eexists.
    + by eexists.
  - apply ex_msgbuff_rel.
  - cbn. lia.
  - change (0 - 4 <= 0 < 0 - 4 + 16). lia.
  - by right.
Defined.

Definition ex_closing_comm : nccl_net_ofi_rdma_recv_comm_t :=
  mk_recv_comm 0 [600; 601; 602] 7 (mk_flush_buffer 4096 4 ex_handle) 3 ex_msgbuff [700; 701] NULL 3 3
    false ex_rails ex_rails.
Definition ex_closing_world : world := w_comms <[9 := RecvComm ex_closing_comm]> ex_world.

Definition ex_closed_world : world :=
  match recv_comm_insert_send_close_req (E := ex_env []) 9 ex_closing_world with
  | Some (_, w) => w
  | None => ex_world
  end.

Lemma close_handshake_witness :
  exists p r item q msg, reqs ex_closed_world !! p = Some r /\ type r = NCCL_OFI_RDMA_SEND_CLOSE /\
    data r = SendCloseData (mk_send_close_data item q) /\ close_msgs ex_closed_world !! item = Some msg /\
    clm_send_comm_id msg = 7 /\ clm_ctrl_counter msg = 3.
Proof.
  destruct (proj1 (proj2 (close_handshake (E := ex_env []) 9 ex_closing_world ex_closing_world ex_closing_comm
    ltac:(vm_compute; reflexivity) eq_refl eq_refl)) ex_closed_world eq_refl ltac:(vm_compute; reflexivity))
    as (p & r & item & q & msg & H1 & H2 & H3 & H4 & H5 & H6 & _).
  exists p, r, item, q, msg. by split_and!.
Defined.
