(* ===== verification/RdmaConn.v ===== *)
(** * nccl_ofi_rdma.c: connection set-up and communicator destruction

    listen, connect and accept with their stages, the connection messages they
    exchange, and the deferred close of communicators. They run on top of the
    engine (RdmaState.v to RdmaComm.v): the state adds the device's pool of
    communicator IDs (Idpool.v), the endpoint's reference count, the number of
    open communicators and the two clean-up lists. A pointer to a communicator
    is the communicator's ID, [None] for NULL; a communicator that is freed
    leaves the table, so that reading it through a pointer left in the table is
    undefined. OFI_NCCL_ENDPOINT_PER_COMM is at its default 0: a receive
    communicator uses the endpoint of its listener. *)

From S2P Require Import Prelude StateM NetTypes Allocator Idpool Msgbuff RdmaWire RdmaState RdmaPost RdmaProgress RdmaComm.
Import Msgbuff RdmaWire.

Definition NCCL_OFI_RDMA_MSGBUFF_SIZE : Z := 256.
Definition NCCL_OFI_RDMA_MAX_COMMS : Z := Z.shiftl 1 NCCL_OFI_RDMA_COMM_ID_BITS.
Definition COMM_ID_INVALID : Z := COMM_ID_MASK.
Definition NCCL_OFI_FLUSH_SIZE : Z := 4.

(** The handle that travels out of band, with the state connect keeps in it. *)
Record conn_handle := mk_conn_handle {
  h_ep_name : list Z;
  h_comm_id : Z;
  h_comm : option Z;
  h_req : Z;
  h_stage : nccl_ofi_comm_stage_t;
}.

Definition set_h_comm c h := mk_conn_handle (h_ep_name h) (h_comm_id h) c (h_req h) (h_stage h).
Definition set_h_req p h := mk_conn_handle (h_ep_name h) (h_comm_id h) (h_comm h) p (h_stage h).
Definition set_h_stage st h := mk_conn_handle (h_ep_name h) (h_comm_id h) (h_comm h) (h_req h) st.

(** Calls outside the plug-in that connection set-up makes. *)
Inductive conn_call :=
| CallCalloc
| CallMutexInit
| CallMutexDestroy
| CallAvInsert (rail : rail_ref) (name : list Z)
| CallPoolInit
| CallPoolFini
| CallMsgbuffInit
| CallFlushBuff
| CallEpFree.

Record cworld := mk_cworld {
  engine : world;
  comm_idpool : Idpool.nccl_ofi_idpool;
  ep_ref_cnt : Z;
  num_open_comms : Z;
  s_comm_cleanup_list : list Z;
  r_comm_cleanup_list : list Z;
  calls : list conn_call;
}.

Definition w_engine f w := mk_cworld (f (engine w)) (comm_idpool w) (ep_ref_cnt w) (num_open_comms w)
  (s_comm_cleanup_list w) (r_comm_cleanup_list w) (calls w).
Definition w_idpool v w := mk_cworld (engine w) v (ep_ref_cnt w) (num_open_comms w)
  (s_comm_cleanup_list w) (r_comm_cleanup_list w) (calls w).
Definition w_ref_cnt f w := mk_cworld (engine w) (comm_idpool w) (f (ep_ref_cnt w)) (num_open_comms w)
  (s_comm_cleanup_list w) (r_comm_cleanup_list w) (calls w).
Definition w_open f w := mk_cworld (engine w) (comm_idpool w) (ep_ref_cnt w) (f (num_open_comms w))
  (s_comm_cleanup_list w) (r_comm_cleanup_list w) (calls w).
Definition w_s_list f w := mk_cworld (engine w) (comm_idpool w) (ep_ref_cnt w) (num_open_comms w)
  (f (s_comm_cleanup_list w)) (r_comm_cleanup_list w) (calls w).
Definition w_r_list f w := mk_cworld (engine w) (comm_idpool w) (ep_ref_cnt w) (num_open_comms w)
  (s_comm_cleanup_list w) (f (r_comm_cleanup_list w)) (calls w).
Definition w_calls f w := mk_cworld (engine w) (comm_idpool w) (ep_ref_cnt w) (num_open_comms w)
  (s_comm_cleanup_list w) (r_comm_cleanup_list w) (f (calls w)).

(** The names of the endpoint's rails, and the answers of the calls above as
    functions of the calls so far. *)
Class ConnEnv := {
  rail_names : list (list Z);
  control_rail_names : list (list Z);
  num_comm_ids : Z;
  page_size : Z;
  flush_buff_enabled : bool;
  local_mr : bool;
  calloc_ok : list conn_call -> bool;
  (** The address of the request inside a new listen communicator. *)
  listen_req : list conn_call -> Z;
  mutex_init_code : list conn_call -> Z;
  mutex_destroy_code : list conn_call -> Z;
  av_insert : list conn_call -> rail_ref -> list Z -> Z * Z;
  pool_init : list conn_call -> Z * pool;
  pool_fini : list conn_call -> Z;
  mb_malloc : list conn_call -> bool;
  mb_malloc_buff : list conn_call -> Z -> option (list nccl_ofi_msgbuff_elem_t);
  mb_mutex : list conn_call -> Z;
  flush_alloc : list conn_call -> Z * Z;
  flush_reg : list conn_call -> Z * nccl_net_ofi_rdma_mr_handle_t;
  flush_dereg : list conn_call -> Z;
  flush_dealloc : list conn_call -> Z;
  ep_free : list conn_call -> Z;
}.

Abbreviation C := (SM cworld).

(** A function of the engine. *)
Definition lift {A} (m : M A) : C A := fun w =>
  match m (engine w) with Some (a, e) => Some (a, w_engine (fun _ => e) w) | None => None end.

Definition ask {A} (c : conn_call) (f : list conn_call -> A) : C A :=
  let* h := gets calls in modify (w_calls (fun h => h ++ [c])) ;;; ret (f h).

Section Conn.
Context {E : RdmaEnv} {N : ConnEnv}.

Definition idpool_allocate : C Z :=
  let* p := gets comm_idpool in
  let (id, p') := Idpool.nccl_ofi_idpool_allocate_id p in
  modify (w_idpool p') ;;; ret id.

Definition idpool_free (id : Z) : C Z :=
  let* p := gets comm_idpool in
  let (rc, p') := Idpool.nccl_ofi_idpool_free_id p id in
  modify (w_idpool p') ;;; ret rc.

Definition msgbuff_init : C (option nccl_ofi_msgbuff_t) :=
  ask CallMsgbuffInit (fun h => nccl_ofi_msgbuff_init (mb_malloc h) (mb_malloc_buff h) (mb_mutex h)
                                  NCCL_OFI_RDMA_MSGBUFF_SIZE NCCL_OFI_RDMA_SEQ_BITS).

(** The memory of a communicator is given back: no request of its free list is
    in use or remembered any more, and the table has no communicator [c]. *)
Definition drop_comm (c : Z) (fl : pool) : C unit :=
  modify (w_engine (fun e =>
    w_freed (filter (fun x : Z * nccl_net_ofi_rdma_req_t => x.1 ∉ fl))
      (w_reqs (filter (fun x : Z * nccl_net_ofi_rdma_req_t => comm x.2 <> Some c))
        (w_comms (delete c) e)))).

(** nccl_net_ofi_endpoint_release. *)
Definition release_ep : C Z :=
  modify (w_ref_cnt (fun n => i32 (n - 1))) ;;;
  let* n := gets ep_ref_cnt in
  if n =? 0 then ask CallEpFree ep_free else ret 0.

(** ** Communicators are created and destroyed *)

Definition ep_name_at (rail : rail_ref) : option (list Z) :=
  match rail with
  | DataRail i => rail_names !! Z.to_nat i
  | ControlRail i => control_rail_names !! Z.to_nat i
  end.

Definition fi_av_insert (rail : rail_ref) (name : list Z) : C (Z * Z) :=
  ask (CallAvInsert rail name) (fun h => av_insert h rail name).

(** The message of the sender, and that of the accepter: the endpoint names of
    all rails, and the two IDs. *)
Definition prepare_send_connect_message (local_comm_id remote_comm_id : Z) : nccl_ofi_rdma_connection_info_t :=
  mk_conn_msg num_rails num_control_rails local_comm_id remote_comm_id
    (take (Z.to_nat num_control_rails) control_rail_names) (take (Z.to_nat num_rails) rail_names).

Definition prepare_conn_resp (m : nccl_ofi_rdma_connection_info_t) : C nccl_ofi_rdma_connection_info_t :=
  assert (num_rails <=? MAX_NUM_RAILS) ;;;
  assert (num_control_rails <=? MAX_NUM_RAILS) ;;;
  ret (mk_conn_msg num_rails num_control_rails (cn_local_comm_id m) (cn_remote_comm_id m)
         (take (Z.to_nat num_control_rails) control_rail_names) (take (Z.to_nat num_rails) rail_names)).

(** The three callocs of a communicator. *)
Definition calloc_rdma_send_comm : C bool :=
  let* a := ask CallCalloc calloc_ok in
  if negb a then ret false
  else let* b := ask CallCalloc calloc_ok in
       if negb b then ret false else ask CallCalloc calloc_ok.

Definition calloc_rdma_recv_comm : C bool :=
  let* a := ask CallCalloc calloc_ok in
  if negb a then ret false
  else let* b := ask CallCalloc calloc_ok in
       if negb b then ret false else ask CallCalloc calloc_ok.

Definition zero_rail : comm_rail := mk_comm_rail 0 NULL 0.

(** rdma_device_set_comm with its assertions. *)
Definition set_comm_at (id : Z) (c : nccl_net_ofi_comm_t) : C unit :=
  assert ((id <? NCCL_OFI_RDMA_MAX_COMMS) && (id <? num_comm_ids)) ;;;
  lift (rdma_device_set_comm id c).

(** The error exit: the ID in the communicator, which is 0 before one has been
    allocated, goes back unless it is COMM_ID_INVALID. *)
Definition create_send_comm_error (local_comm_id : Z) (in_table : bool) (rc : Z) : C (Z * option Z) :=
  (if negb (local_comm_id =? COMM_ID_INVALID) then idpool_free local_comm_id else ret 0) ;;;
  ask CallMutexDestroy mutex_destroy_code ;;;
  (if in_table then lift (modify (w_comms (delete local_comm_id))) else ret tt) ;;;
  ret (rc, None).

(** The communicator enters the table when its ID is known; nothing reads the
    table before the function returns. *)
Definition create_send_comm (handle : conn_handle) : C (Z * option Z) :=
  let* first_control_rail := lift (get_rail (ControlRail 0)) in
  let* ok := calloc_rdma_send_comm in
  if negb ok then ret (- ENOMEM, None)
  else
    let* rc := ask CallMutexInit mutex_init_code in
    if negb (rc =? 0) then ret (rc, None)
    else if h_comm_id handle >=? num_comm_ids then create_send_comm_error 0 false (- EINVAL)
    else
      let* id := idpool_allocate in
      if id <? 0 then create_send_comm_error COMM_ID_INVALID false id
      else
        let* (n, remote_addr) := fi_av_insert (ControlRail 0) (h_ep_name handle) in
        if negb (n =? 1) then create_send_comm_error id true (- EINVAL)
        else
          let* (rc, fl) := ask CallPoolInit pool_init in
          if negb (rc =? 0) then create_send_comm_error id true rc
          else
            let* mb := msgbuff_init in
            match mb with
            | None => create_send_comm_error id true (- ENOMEM)
            | Some mb =>
                set_comm_at id (SendComm (mk_send_comm 0 fl (h_comm_id handle) NULL
                  (Some (prepare_send_connect_message id (h_comm_id handle))) 0 mb false 0 0 true
                  (replicate (Z.to_nat num_rails) zero_rail)
                  (<[0%nat := mk_comm_rail remote_addr (ofi_ep first_control_rail) 0]>
                     (replicate (Z.to_nat num_control_rails) zero_rail)) 1)) ;;;
                ret (0, Some id)
            end.

Definition send_comm_destroy (c : Z) : C Z :=
  let* s_comm := lift (rdma_device_get_send_comm c) in
  (if negb (s_conn_resp_req s_comm =? NULL) then lift (req_free (s_conn_resp_req s_comm) false) else ret 0) ;;;
  let* rc := ask CallPoolFini pool_fini in
  if negb (rc =? 0) then ret rc
  else if negb (nccl_ofi_msgbuff_destroy (Some (s_msgbuff s_comm)) true) then ret (- EINVAL)
  else
    let* s_comm := lift (rdma_device_get_send_comm c) in
    drop_comm c (s_reqs_fl s_comm) ;;;
    let* rc := idpool_free c in
    if negb (rc =? 0) then ret rc
    else
      let* rc := ask CallMutexDestroy mutex_destroy_code in
      if negb (rc =? 0) then ret rc else release_ep.

(** *** Receive communicators *)

Definition dealloc_and_dereg_flush_buff : C Z :=
  let* rc := if local_mr then ask CallFlushBuff flush_dereg else ret 0 in
  if negb (rc =? 0) then ret rc else ask CallFlushBuff flush_dealloc.

(** A NULL handle is a handle without rails. *)
Definition alloc_and_reg_flush_buff : C (Z * nccl_net_ofi_rdma_flush_buffer_t) :=
  assert (NCCL_OFI_FLUSH_SIZE <=? page_size) ;;;
  let no_handle := mk_mr_handle [] [] in
  let* (rc, host_buffer) := ask CallFlushBuff flush_alloc in
  if negb (rc =? 0) then ret (rc, mk_flush_buffer NULL NCCL_OFI_FLUSH_SIZE no_handle)
  else
    assert (cpu_cache_line_size * num_rails + NCCL_OFI_FLUSH_SIZE <=? page_size) ;;;
    if local_mr then
      let* (rc, h) := ask CallFlushBuff flush_reg in
      if negb (rc =? 0) then
        ask CallFlushBuff flush_dealloc ;;;
        ret (rc, mk_flush_buffer (2 ^ 64 - 1) NCCL_OFI_FLUSH_SIZE no_handle)
      else ret (0, mk_flush_buffer host_buffer NCCL_OFI_FLUSH_SIZE h)
    else ret (0, mk_flush_buffer host_buffer NCCL_OFI_FLUSH_SIZE no_handle).

(** The loops over the rails: remote and local name go into the address vector of
    the rail; [None] when that fails. *)
Fixpoint init_recv_rails (n : nat) (i : Z) (ref : Z -> rail_ref) (names : list (list Z)) : C (option (list comm_rail)) :=
  match n with
  | O => ret (Some [])
  | S n' =>
      let* rail := lift (get_rail (ref i)) in
      let* remote_name := of_option (names !! Z.to_nat i) in
      let* (k, remote_addr) := fi_av_insert (ref i) remote_name in
      if negb (k =? 1) then ret None
      else
        let* local_name := of_option (ep_name_at (ref i)) in
        let* (k, local_addr) := fi_av_insert (ref i) local_name in
        if negb (k =? 1) then ret None
        else
          let* rest := init_recv_rails n' (i + 1) ref names in
          ret (cons (mk_comm_rail remote_addr (ofi_ep rail) local_addr) <$> rest)
  end.

(** The error exit once the communicator exists; [fl] says that its free list
    does. *)
Definition prepare_recv_comm_error (local_comm_id : Z) (in_table fl : bool) : C (option Z) :=
  (if fl then ask CallPoolFini pool_fini else ret 0) ;;;
  (if negb (local_comm_id =? COMM_ID_INVALID) then idpool_free local_comm_id else ret 0) ;;;
  ask CallMutexDestroy mutex_destroy_code ;;;
  (if in_table then lift (modify (w_comms (delete local_comm_id))) else ret tt) ;;;
  ret None.

Definition prepare_recv_comm (conn_msg : nccl_ofi_rdma_connection_info_t) : C (option Z) :=
  if num_rails <? 1 then ret None
  else if num_control_rails <? 1 then ret None
  else
    let* ok := calloc_rdma_recv_comm in
    if negb ok then ret None
    else
      let* rc := ask CallMutexInit mutex_init_code in
      if negb (rc =? 0) then ret None
      else
        let* id := idpool_allocate in
        if id <? 0 then prepare_recv_comm_error COMM_ID_INVALID false false
        else if cn_local_comm_id conn_msg >=? num_comm_ids then prepare_recv_comm_error id false false
        else
          let* control := init_recv_rails (Z.to_nat num_control_rails) 0 ControlRail (cn_control_ep_names conn_msg) in
          match control with
          | None => prepare_recv_comm_error id true false
          | Some control =>
              let* data := init_recv_rails (Z.to_nat num_rails) 0 DataRail (cn_ep_names conn_msg) in
              match data with
              | None => prepare_recv_comm_error id true false
              | Some data =>
                  let* (rc, fl) := ask CallPoolInit pool_init in
                  if negb (rc =? 0) then prepare_recv_comm_error id true false
                  else
                    let* (rc, fb) := if flush_buff_enabled then alloc_and_reg_flush_buff
                                     else ret (0, mk_flush_buffer NULL 0 (mk_mr_handle [] [])) in
                    if negb (rc =? 0) then prepare_recv_comm_error id true true
                    else
                      let* mb := msgbuff_init in
                      match mb with
                      | None => (* only the communicator's own memory is given back *)
                          lift (modify (w_comms (delete id))) ;;; ret None
                      | Some mb =>
                          let* (rc, ctrl_fl) := ask CallPoolInit pool_init in
                          let r_comm := fun ctrl_fl =>
                            RecvComm (mk_recv_comm 0 fl (cn_local_comm_id conn_msg) fb 0 mb ctrl_fl NULL 0 0 true data control) in
                          if negb (rc =? 0) then set_comm_at id (r_comm []) ;;; ret None
                          else set_comm_at id (r_comm ctrl_fl) ;;; ret (Some id)
                      end
              end
          end.

Definition recv_comm_destroy (c : Z) : C Z :=
  let* r_comm := lift (rdma_device_get_recv_comm c) in
  let* rc := if negb (r_send_close_req r_comm =? NULL) then lift (req_free (r_send_close_req r_comm) false) else ret 0 in
  if negb (rc =? 0) then ret rc
  else
    let* rc := if flush_buff_enabled then dealloc_and_dereg_flush_buff else ret 0 in
    if negb (rc =? 0) then ret rc
    else
      let* rc := ask CallPoolFini pool_fini in
      if negb (rc =? 0) then ret rc
      else
        let* rc := ask CallPoolFini pool_fini in
        if negb (rc =? 0) then ret rc
        else if negb (nccl_ofi_msgbuff_destroy (Some (r_msgbuff r_comm)) true) then ret (- EINVAL)
        else
          let* r_comm := lift (rdma_device_get_recv_comm c) in
          drop_comm c (r_reqs_fl r_comm) ;;;
          idpool_free c ;;;
          let* rc := ask CallMutexDestroy mutex_destroy_code in
          if negb (rc =? 0) then ret rc else release_ep.

(** ** connect *)

Definition prepare_send_conn_req (c : Z) : C Z :=
  let* p := lift (allocate_req (FlSend c)) in
  if p =? NULL then ret NULL
  else
    lift (upd_req p (fun r => set_type NCCL_OFI_RDMA_SEND_CONN (set_dev_id base_dev_id (set_comm (Some c) r)))) ;;;
    ret p.

Definition prepare_recv_conn_resp_req (c : Z) : C Z :=
  let* p := lift (allocate_req (FlSend c)) in
  if p =? NULL then ret NULL
  else
    lift (upd_req p (fun r => set_type NCCL_OFI_RDMA_RECV_CONN_RESP (set_dev_id base_dev_id (set_comm (Some c) r)))) ;;;
    ret p.

Definition post_send_conn (c p : Z) : C Z :=
  let* s_comm := lift (rdma_device_get_send_comm c) in
  let* comm_rail := lift (rail_at (s_control_rails s_comm) 0) in
  let* msg := of_option (s_conn_msg s_comm) in
  let* rc := lift (post (fi_send_conn (cr_local_ep comm_rail) (BmConn msg) sizeof_connection_info
                           (cr_remote_addr comm_rail) p)) in
  if rc =? - FI_EAGAIN then
    let* res := lift ofi_process_cq in ret (if negb (res =? 0) then -2 else rc)
  else ret (i32 rc).

(** The loop of init_send_comm_rails over rails [i, i + n): the code and the
    rails so far. *)
Fixpoint init_send_rails (n : nat) (i : Z) (ref : Z -> rail_ref) (names : list (list Z)) (rails : list comm_rail)
    : C (Z * Z * list comm_rail) :=
  match n with
  | O => ret (0, i, rails)
  | S n' =>
      let* rail := lift (get_rail (ref i)) in
      let* name := of_option (names !! Z.to_nat i) in
      let* old := of_option (rails !! Z.to_nat i) in
      let* (k, remote_addr) := fi_av_insert (ref i) name in
      let rails := <[Z.to_nat i := mk_comm_rail (if k =? 1 then remote_addr else cr_remote_addr old) (ofi_ep rail)
                                     (cr_local_addr old)]> rails in
      if negb (k =? 1) then ret (- EINVAL, i, rails) else init_send_rails n' (i + 1) ref names rails
  end.

Definition init_send_comm_rails (c : Z) (names control_names : list (list Z)) : C Z :=
  let* s_comm := lift (rdma_device_get_send_comm c) in
  let first := s_num_init_control_rails s_comm in
  let* (rc, n, control) := init_send_rails (Z.to_nat (num_control_rails - first)) first ControlRail control_names
                             (s_control_rails s_comm) in
  lift (upd_send_comm c (set_s_control_rails control n)) ;;;
  if negb (rc =? 0) then ret rc
  else
    let* (rc, _, data) := init_send_rails (Z.to_nat num_rails) 0 DataRail names (s_rails s_comm) in
    lift (upd_send_comm c (set_s_rails data)) ;;;
    ret rc.

Definition finish_connect (c : Z) : C Z :=
  let* s_comm := lift (rdma_device_get_send_comm c) in
  assert (negb (s_conn_resp_req s_comm =? NULL)) ;;;
  let* req := lift (get_req (s_conn_resp_req s_comm)) in
  if negb (is_state NCCL_OFI_RDMA_REQ_COMPLETED req) then ret (- EINVAL)
  else
    let* conn_resp := of_option (s_conn_msg s_comm) in
    if negb (cn_num_rails conn_resp =? num_rails) then ret (- EINVAL)
    else if negb (cn_num_control_rails conn_resp =? num_control_rails) then ret (- EINVAL)
    else if cn_local_comm_id conn_resp >=? num_comm_ids then ret (- EINVAL)
    else
      lift (upd_send_comm c (set_s_remote_comm_id (cn_local_comm_id conn_resp))) ;;;
      let* rc := init_send_comm_rails c (cn_ep_names conn_resp) (cn_control_ep_names conn_resp) in
      if negb (rc =? 0) then ret rc
      else
        lift (req_free (s_conn_resp_req s_comm) false) ;;;
        lift (upd_send_comm c (set_s_conn_resp_req NULL)) ;;;
        ret 0.

(** Stages COMM_RECV_CONN and COMM_CONN_RESP_REQ_PENDING to the end. *)
Definition connect_resp_pending (handle : conn_handle) (c : Z) : C (Z * conn_handle * option Z) :=
  let* rc := lift ofi_process_cq in
  if negb (rc =? 0) then ret (rc, handle, None)
  else
    let* s_comm := lift (rdma_device_get_send_comm c) in
    let* req := lift (get_req (s_conn_resp_req s_comm)) in
    if negb (is_state NCCL_OFI_RDMA_REQ_COMPLETED req) then ret (0, handle, None)
    else
      let* rc := finish_connect c in
      if negb (rc =? 0) then ret (rc, handle, None)
      else
        modify (w_open (fun n => i32 (n + 1))) ;;;
        ret (0, set_h_stage COMM_CONNECTED handle, Some c).

Definition connect_recv_conn (handle : conn_handle) (c : Z) : C (Z * conn_handle * option Z) :=
  lift (rdma_device_get_send_comm c) ;;;
  assert (0 <? num_rails) ;;;
  connect_resp_pending (set_h_stage COMM_CONN_RESP_REQ_PENDING handle) c.

Definition connect_req_pending (handle : conn_handle) (c p : Z) : C (Z * conn_handle * option Z) :=
  let* rc := lift ofi_process_cq in
  if negb (rc =? 0) then ret (rc, handle, None)
  else
    let* req := lift (get_req p) in
    if negb (is_state NCCL_OFI_RDMA_REQ_COMPLETED req) then ret (0, handle, None)
    else
      lift (req_free p false) ;;;
      connect_recv_conn (set_h_stage COMM_RECV_CONN (set_h_req NULL handle)) c.

Definition connect_send_conn (handle : conn_handle) (c p : Z) : C (Z * conn_handle * option Z) :=
  let* rc := post_send_conn c p in
  if rc =? - FI_EAGAIN then ret (0, handle, None)
  else if negb (rc =? 0) then
    lift (req_free p false) ;;;
    send_comm_destroy c ;;;
    ret (rc, handle, None)
  else connect_req_pending (set_h_stage COMM_CONN_REQ_PENDING handle) c p.

(** Result: the code, the handle and the communicator. *)
Definition connect (handle : conn_handle) : C (Z * conn_handle * option Z) :=
  match h_stage handle with
  | COMM_CONNECTED => ret (- EINVAL, handle, None)
  | COMM_CREATE_START =>
      assert (bool_decide (h_comm handle = None)) ;;;
      let* (rc, s_comm) := create_send_comm handle in
      if negb (rc =? 0) then ret (rc, handle, None)
      else
        match s_comm with
        | None => ret (- ENOMEM, handle, None)
        | Some c =>
            let handle := set_h_comm (Some c) handle in
            let* p := prepare_send_conn_req c in
            if p =? NULL then send_comm_destroy c ;;; ret (- ENOMEM, handle, None)
            else
              let handle := set_h_req p handle in
              let* resp := prepare_recv_conn_resp_req c in
              lift (upd_send_comm c (set_s_conn_resp_req resp)) ;;;
              if resp =? NULL then send_comm_destroy c ;;; ret (- EINVAL, handle, None)
              else connect_send_conn (set_h_stage COMM_SEND_CONN handle) c p
        end
  | COMM_SEND_CONN => let* c := of_option (h_comm handle) in connect_send_conn handle c (h_req handle)
  | COMM_CONN_REQ_PENDING => let* c := of_option (h_comm handle) in connect_req_pending handle c (h_req handle)
  | COMM_RECV_CONN => let* c := of_option (h_comm handle) in connect_recv_conn handle c
  | COMM_CONN_RESP_REQ_PENDING => let* c := of_option (h_comm handle) in connect_resp_pending handle c
  end.

(** ** listen and accept *)

(** The request inside the listen communicator, zero memory before. *)
Definition prepare_recv_conn_req (c : Z) (p : Z) : C Z :=
  lift (put_req p (set_dev_id base_dev_id (set_comm (Some c)
    (set_state NCCL_OFI_RDMA_REQ_PENDING (set_type NCCL_OFI_RDMA_RECV_CONN zero_req))))) ;;;
  let* rc := ask CallMutexInit mutex_init_code in
  ret (- rc).

(** The memory of a listen communicator is given back, with the request in it. *)
Definition drop_listen_comm (c p : Z) : C unit :=
  lift (modify (w_comms (delete c)) ;;; modify (w_reqs (delete p))).

Definition listen : C (Z * conn_handle * option Z) :=
  lift (get_rail (ControlRail 0)) ;;;
  let* name := of_option (ep_name_at (ControlRail 0)) in
  let handle := mk_conn_handle name 0 None NULL COMM_CREATE_START in
  let* h := gets calls in
  let* ok := ask CallCalloc calloc_ok in
  if negb ok then ret (- ENOMEM, handle, None)
  else
    let* id := idpool_allocate in
    if id <? 0 then ret (id, handle, None)
    else
      let handle := mk_conn_handle name id None NULL COMM_CREATE_START in
      let p := listen_req h in
      set_comm_at id (ListenComm (mk_listen_comm p None None COMM_CREATE_START)) ;;;
      let* rc := prepare_recv_conn_req id p in
      if negb (rc =? 0) then
        (if negb (id =? COMM_ID_INVALID) then idpool_free id else ret 0) ;;;
        drop_listen_comm id p ;;;
        ret (rc, handle, None)
      else ret (0, handle, Some id).

Definition upd_listen (l : Z) (f : nccl_net_ofi_rdma_listen_comm_t -> nccl_net_ofi_rdma_listen_comm_t) : C unit :=
  let* l_comm := lift (rdma_device_get_listen_comm l) in lift (rdma_device_set_comm l (ListenComm (f l_comm))).

Definition prepare_send_conn_resp_req (p : Z) : C unit :=
  let* req := lift (get_req p) in
  assert (is_type NCCL_OFI_RDMA_RECV_CONN req) ;;;
  lift (put_req p (set_state NCCL_OFI_RDMA_REQ_CREATED (set_ncompls 0 (set_size 0
    (set_type NCCL_OFI_RDMA_SEND_CONN_RESP req))))).

Definition post_send_conn_resp (c : Z) (conn_resp : nccl_ofi_rdma_connection_info_t) (p : Z) : C Z :=
  let* r_comm := lift (rdma_device_get_recv_comm c) in
  let* comm_rail := lift (rdma_recv_comm_get_control_rail r_comm 0) in
  lift (upd_req p (set_state NCCL_OFI_RDMA_REQ_PENDING)) ;;;
  let* rc := lift (post (fi_send_conn (cr_local_ep comm_rail) (BmConnResp conn_resp) sizeof_connection_info
                           (cr_remote_addr comm_rail) p)) in
  if rc =? - FI_EAGAIN then
    lift (upd_req p (set_state NCCL_OFI_RDMA_REQ_CREATED)) ;;;
    let* res := lift ofi_process_cq in
    ret (if negb (res =? 0) then res else rc)
  else if negb (rc =? 0) then lift (upd_req p (set_state NCCL_OFI_RDMA_REQ_CREATED)) ;;; ret (i32 rc)
  else ret 0.

Definition close_listen_recv_comm (l : Z) : C Z :=
  let* l_comm := lift (rdma_device_get_listen_comm l) in
  let* req := lift (get_req (l_req l_comm)) in
  if is_state NCCL_OFI_RDMA_REQ_PENDING req then ret (- EINVAL)
  else
    let* rc := match l_r_comm l_comm with Some r => recv_comm_destroy r | None => ret 0 end in
    if negb (rc =? 0) then ret (- EINVAL)
    else upd_listen l (set_l_r_comm None) ;;; ret 0.

(** The label exit. *)
Definition accept_exit (l rc : Z) (recv_comm : option Z) : C (Z * option Z) :=
  let* close_ret := close_listen_recv_comm l in
  ret (if negb (rc =? 0) then rc else close_ret, recv_comm).

Definition accept_resp_pending (l c p : Z) : C (Z * option Z) :=
  let* rc := lift ofi_process_cq in
  if negb (rc =? 0) then accept_exit l rc None
  else
    let* req := lift (get_req p) in
    if negb (is_state NCCL_OFI_RDMA_REQ_COMPLETED req) then ret (0, None)
    else
      upd_listen l (fun lc => set_l_stage COMM_CONNECTED (set_l_r_comm None lc)) ;;;
      modify (w_open (fun n => i32 (n + 1))) ;;;
      accept_exit l 0 (Some c).

Definition accept_send_conn (l c p : Z) : C (Z * option Z) :=
  let* l_comm := lift (rdma_device_get_listen_comm l) in
  let* conn_msg := of_option (l_conn_msg l_comm) in
  let* rc := post_send_conn_resp c conn_msg p in
  if rc =? - FI_EAGAIN then ret (0, None)
  else if negb (rc =? 0) then accept_exit l rc None
  else upd_listen l (set_l_stage COMM_CONN_RESP_REQ_PENDING) ;;; accept_resp_pending l c p.

Definition accept_req_pending (l p : Z) : C (Z * option Z) :=
  let* rc := lift ofi_process_cq in
  if negb (rc =? 0) then accept_exit l rc None
  else
    let* req := lift (get_req p) in
    if negb (is_state NCCL_OFI_RDMA_REQ_COMPLETED req) then ret (0, None)
    else
      let* l_comm := lift (rdma_device_get_listen_comm l) in
      let* conn_msg := of_option (l_conn_msg l_comm) in
      if negb (cn_num_rails conn_msg =? num_rails) then accept_exit l (- EINVAL) None
      else if negb (cn_num_control_rails conn_msg =? num_control_rails) then accept_exit l (- EINVAL) None
      else
        let* r_comm := prepare_recv_comm conn_msg in
        match r_comm with
        | None => accept_exit l (- EINVAL) None
        | Some c =>
            upd_listen l (set_l_r_comm (Some c)) ;;;
            modify (w_ref_cnt (fun n => i32 (n + 1))) ;;;
            prepare_send_conn_resp_req p ;;;
            let* resp := prepare_conn_resp conn_msg in
            let* r := lift (rdma_device_get_recv_comm c) in
            let resp := mk_conn_msg (cn_num_rails resp) (cn_num_control_rails resp) c (r_remote_comm_id r)
                          (cn_control_ep_names resp) (cn_ep_names resp) in
            upd_listen l (fun lc => set_l_stage COMM_SEND_CONN (set_l_conn_msg (Some resp) lc)) ;;;
            accept_send_conn l c p
        end.

(** Result: the code and the communicator. A stage that needs the receive
    communicator reads it through [l_r_comm]. *)
Definition accept (l : Z) : C (Z * option Z) :=
  let* l_comm := lift (rdma_device_get_listen_comm l) in
  let p := l_req l_comm in
  match l_r_comm l_comm with
  | Some c => lift (rdma_device_get_recv_comm c) ;;; ret tt
  | None => ret tt
  end ;;;
  match l_stage l_comm with
  | COMM_CONNECTED => accept_exit l (- EINVAL) None
  | COMM_CREATE_START | COMM_RECV_CONN | COMM_CONN_REQ_PENDING =>
      upd_listen l (set_l_stage COMM_CONN_REQ_PENDING) ;;; accept_req_pending l p
  | COMM_SEND_CONN => let* c := of_option (l_r_comm l_comm) in accept_send_conn l c p
  | COMM_CONN_RESP_REQ_PENDING => let* c := of_option (l_r_comm l_comm) in accept_resp_pending l c p
  end.

Definition listen_close (l : Z) : C Z :=
  let* l_comm := lift (rdma_device_get_listen_comm l) in
  let* req := lift (get_req (l_req l_comm)) in
  if is_state NCCL_OFI_RDMA_REQ_PENDING req then ret (- EINVAL)
  else
    let* rc := match l_r_comm l_comm with Some r => recv_comm_destroy r | None => ret 0 end in
    if negb (rc =? 0) then ret rc
    else
      let* rc := ask CallMutexDestroy mutex_destroy_code in
      if negb (rc =? 0) then ret (- rc)
      else
        idpool_free l ;;;
        drop_listen_comm l (l_req l_comm) ;;;
        release_ep.

(** ** Deferred close *)

(** The loops over a clean-up list; the macro NCCL_OFI_DEQUE_FOREACH reads the
    next element before the body, which removes at most the current one. *)
Fixpoint recv_finalizing_loop (cs : list Z) : C Z :=
  match cs with
  | [] => ret 0
  | c :: cs' =>
      let* (rc, step) := lift (recv_comm_finalizing c) in
      if negb (rc =? 0) then ret rc
      else
        match step with
        | CloseWait => recv_finalizing_loop cs'
        | CloseDestroy =>
            modify (w_r_list (filter (fun d => d <> c))) ;;;
            let* rc := recv_comm_destroy c in
            if negb (rc =? 0) then ret rc else recv_finalizing_loop cs'
        end
  end.

Definition recv_comm_process_all_finalizing : C Z :=
  let* cs := gets r_comm_cleanup_list in recv_finalizing_loop cs.

Fixpoint send_finalizing_loop (cs : list Z) : C Z :=
  match cs with
  | [] => ret 0
  | c :: cs' =>
      let* (rc, step) := lift (send_comm_finalizing c) in
      if negb (rc =? 0) then ret rc
      else
        match step with
        | CloseWait => send_finalizing_loop cs'
        | CloseDestroy =>
            modify (w_s_list (filter (fun d => d <> c))) ;;;
            let* rc := send_comm_destroy c in
            if negb (rc =? 0) then ret rc else send_finalizing_loop cs'
        end
  end.

Definition send_comm_process_all_finalizing : C Z :=
  let* cs := gets s_comm_cleanup_list in send_finalizing_loop cs.

(** The loop of the last close waits for the peers: [fuel] bounds the rounds. *)
Fixpoint comm_close_handler (fuel : nat) : C Z :=
  let* ss := gets s_comm_cleanup_list in
  let* rs := gets r_comm_cleanup_list in
  if bool_decide (ss = []) && bool_decide (rs = []) then ret 0
  else
    match fuel with
    | O => undefined
    | S fuel' =>
        let* rc := recv_comm_process_all_finalizing in
        if negb (rc =? 0) then ret rc
        else
          let* rc := send_comm_process_all_finalizing in
          if negb (rc =? 0) then ret rc
          else
            let* n := gets num_open_comms in
            if 0 <? n then ret 0 else comm_close_handler fuel'
    end.

Definition recv_close_deferred (fuel : nat) (c : Z) : C Z :=
  let* r_comm := lift (rdma_device_get_recv_comm c) in
  if 0 <? r_num_inflight_reqs r_comm then ret (- EINVAL)
  else
    lift (upd_recv_comm c (set_r_active false)) ;;;
    modify (w_r_list (fun cs => cs ++ [c])) ;;;
    let* n := gets num_open_comms in
    assert (0 <? n) ;;;
    modify (w_open (fun n => n - 1)) ;;;
    comm_close_handler fuel.

Definition send_close_deferred (fuel : nat) (c : Z) : C Z :=
  let* s_comm := lift (rdma_device_get_send_comm c) in
  if 0 <? s_num_inflight_reqs s_comm then ret (- EINVAL)
  else
    lift (upd_send_comm c (set_s_active false)) ;;;
    modify (w_s_list (fun cs => cs ++ [c])) ;;;
    let* n := gets num_open_comms in
    assert (0 <? n) ;;;
    modify (w_open (fun n => n - 1)) ;;;
    comm_close_handler fuel.

End Conn.
