(* ===== verification/RdmaHandshake.v ===== *)
(** * The RDMA connection handshake

    listen, connect and accept of RdmaConn.v run against each other through the
    completion queues of the engine: the connect message of the sender arrives in
    a bounce buffer of the listener, its answer in one of the sender. The theorem
    shows that both ends get a communicator, each with the ID of the other and
    with rails that lead to the other's endpoints. *)

From S2P Require Import Prelude StateM NetTypes Allocator Idpool Msgbuff RdmaWire RdmaState RdmaPost RdmaProgress RdmaComm RdmaConn.
Import RdmaWire.

Module RdmaHandshake.

(** ** Progress while a connection is set up *)

(** [w'] is [w] with other contents of the requests [ps] and more calls logged. *)
Record quiet (ps : list Z) (w w' : world) : Prop := {
  qt_comms : comms w' = comms w;
  qt_freed : freed w' = freed w;
  qt_rails : rails w' = rails w;
  qt_control : control_rails w' = control_rails w;
  qt_pending : pending w' = pending w;
  qt_reqs : forall p, p ∉ ps -> reqs w' !! p = reqs w !! p;
  qt_log : log w `prefix_of` log w';
}.

Ltac mk_quiet := constructor; try done; try (cbn; by apply prefix_app_r).

(** A bounce buffer on a rail that has enough of them. *)
Definition bounce_at `{RdmaEnv} (w : world) (bq : Z) (d : rdma_req_bounce_data_t) : Prop :=
  exists r rail mrh, reqs w !! bq = Some r /\ type r = NCCL_OFI_RDMA_BOUNCE /\ data r = BounceData d /\
    rail_of w (bd_rail d) = Some rail /\ min_bounce_posted rail <= num_bounce_posted rail /\
    0 <= rail_id_of (bd_rail d) /\ mr (fl_mr_handle (bd_bounce_fl_item d)) !! Z.to_nat (rail_id_of (bd_rail d)) = Some mrh.

Section EngineProgress.
Context {E : RdmaEnv}.
Hypothesis accepts : forall l op, fabric l op = 0.

Lemma get_req_wp w p r Q : reqs w !! p = Some r -> Q r w -> wp (get_req p) Q w.
Proof. intros H HQ. unfold get_req, wp, bind, gets. by rewrite H. Qed.

Lemma upd_req_wp w p f r Q :
  reqs w !! p = Some r -> Q tt (w_reqs <[p := f r]> w) -> wp (upd_req p f) Q w.
Proof. intros H HQ. unfold upd_req. apply wp_bind, (get_req_wp w p r); done. Qed.

Lemma get_rail_wp w ref r Q : rail_of w ref = Some r -> Q r w -> wp (get_rail ref) Q w.
Proof. intros H HQ. unfold wp. by rewrite (get_rail_ok ref w r H). Qed.

Lemma repost_quiet w bq d Q :
  bounce_at w bq d -> (forall w', quiet [bq] w w' -> cq w' = cq w -> Q 0 w') -> wp (repost_bounce_buff bq) Q w.
Proof.
  intros (r & rail & mrh & Hr & Ht & Hd & Hrail & Hmin & Hid & Hmr) HQ.
  unfold repost_bounce_buff, send_progress. wp_simpl. eapply get_req_wp; [exact Hr|]. rewrite Ht.
  unfold get_bounce_data. wp_simpl. eapply get_req_wp; [exact Hr|]. unfold is_type. wp_simpl.
  apply wp_assert; [by rewrite bool_decide_true|]. rewrite Hd. wp_simpl.
  unfold post_bounce_buffer, get_bounce_data. wp_simpl. eapply get_req_wp; [exact Hr|]. wp_simpl.
  apply wp_assert; [by unfold is_type; rewrite bool_decide_true|]. rewrite Hd. wp_simpl. unfold rail_at. wp_simpl.
  apply wp_assert; [by apply Z.leb_le|]. eapply wp_of_option; [exact Hmr|]. wp_simpl. eapply upd_req_wp; [exact Hr|]. wp_simpl.
  eapply get_rail_wp; [destruct (bd_rail d); exact Hrail|]. unfold post. wp_simpl. rewrite accepts.
  change (0 =? - FI_EAGAIN) with false. cbn [Z.eqb negb]. wp_simpl.
  eapply get_req_wp; [cbn; by rewrite lookup_insert_eq|]. wp_simpl. apply wp_assert; [by unfold is_type; rewrite bool_decide_true|].
  cbn [data set_state]. rewrite Hd. wp_simpl. unfold check_post_bounce_buffers_rail. wp_simpl.
  eapply get_rail_wp; [destruct (bd_rail d); exact Hrail|]. rewrite (proj2 (Z.ltb_ge _ _) Hmin). wp_simpl.
  apply HQ; [|done]. mk_quiet. intros p Hp. cbn. apply lookup_insert_ne. intros <-. apply Hp. left.
Qed.

(** The queue is empty, or holds one batch of completions. *)
Lemma process_cq_rails_idle n : forall w (Q : Z -> world -> Prop), cq w = [] -> pending w = [] ->
  (forall w', quiet [] w w' -> cq w' = [] -> Q 0 w') -> wp (process_cq_rails n process_pending_reqs) Q w.
Proof.
  induction n as [|n IH]; intros w Q Hcq Hp HQ; cbn [process_cq_rails].
  - unfold process_pending_reqs. wp_simpl. rewrite Hp. cbn [length pending_loop]. unfold pending_remove_front. wp_simpl. rewrite Hp.
    wp_simpl. by apply HQ.
  - unfold ofi_process_cq_rail. wp_simpl. rewrite Hcq. cbn [cq_loop]. wp_simpl. apply IH; [done|done|].
    intros w' [] Hc. by apply HQ.
Qed.

Lemma process_cq_idle w (Q : Z -> world -> Prop) :
  cq w = [] -> pending w = [] -> (forall w', quiet [] w w' -> cq w' = [] -> Q 0 w') -> wp ofi_process_cq Q w.
Proof. intros ? ? ?. unfold ofi_process_cq. by apply process_cq_rails_idle. Qed.

Lemma process_cq_batch w es Q :
  cq w = [CqEntries es] -> es <> [] -> 0 < num_rails ->
  wp (deliver_payloads es ;;; process_completions es)
    (fun rc w' => rc = 0 /\ pending w' = [] /\ forall w2, quiet [] w' w2 -> cq w2 = [] -> Q 0 w2) w ->
  wp ofi_process_cq Q w.
Proof.
  intros Hcq Hes Hn Hwp. unfold ofi_process_cq. destruct (Z.to_nat num_rails) as [|n] eqn:Hnum; [lia|].
  cbn [process_cq_rails]. unfold ofi_process_cq_rail. wp_simpl. rewrite Hcq. destruct es as [|e es]; [done|]. cbn [cq_loop].
  apply wp_run in Hwp as (rc & w2 & Hrun & -> & Hp & HQ). apply bind_inv in Hrun as ([] & w1 & H1 & H2).
  apply (wp_call _ _ _ _ _ _ H1). apply (wp_call _ _ _ _ _ _ H2). cbn [Z.eqb negb]. wp_simpl. cbn [Z.eqb negb].
  apply process_cq_rails_idle; [done|done|]. intros w' [] Hc. by apply HQ.
Qed.

End EngineProgress.
(** A connection message has arrived in bounce buffer [bq]; a send has completed. *)
Definition arrival (e : fi_cq_data_entry) (bq : Z) (m : bounce_msg) : Prop :=
  f_send e = false /\ f_recv e = true /\ f_remote_cq_data e = false /\ op_context e = bq /\ bq <> NULL /\
  e_len e = sizeof_connection_info /\ e_payload e = m.
Definition sent (e : fi_cq_data_entry) (p : Z) : Prop := f_send e = true /\ op_context e = p /\ p <> NULL.

Section EngineCompletions.
Context {E : RdmaEnv}.
Hypothesis accepts : forall l op, fabric l op = 0.

Lemma sent_completes w e p r Q :
  sent e p -> reqs w !! p = Some r ->
  (type r = NCCL_OFI_RDMA_SEND_CONN \/ type r = NCCL_OFI_RDMA_SEND_CONN_RESP) ->
  Q 0 (w_reqs <[p := count_completion sizeof_connection_info 1 r]> w) -> wp (process_completion e) Q w.
Proof.
  intros (Hs & Hc & Hn) Hr Ht HQ. unfold process_completion. rewrite Hc, Hs. wp_simpl.
  apply wp_assert; [by rewrite (proj2 (Z.eqb_neq _ _) Hn)|]. wp_simpl. eapply get_req_wp; [exact Hr|].
  unfold inc_req_completion. destruct Ht as [-> | ->]; wp_simpl; (eapply upd_req_wp; [exact Hr|]); wp_simpl; exact HQ.
Qed.

Lemma bounce_at_frame w w' bq d ps :
  quiet ps w w' -> bq ∉ ps -> bounce_at w bq d -> bounce_at w' bq d.
Proof.
  intros [] Hq (r & rail & mrh & Hr & Ht & Hd & Hrail & Hrest). exists r, rail, mrh. rewrite qt_reqs0 by done. split_and!; try done.
  - unfold rail_of in *. by rewrite qt_rails0, qt_control0.
  - apply Hrest. - apply Hrest. - apply Hrest.
Qed.

(** Processing the receive of a message up to what its type asks for. *)
Lemma bounce_recv_wp w e bq d m (Q : Z -> world -> Prop) :
  arrival e bq m -> bounce_at w bq d -> bounce_bufs w !! bd_bounce_fl_item d = Some m ->
  (forall w', quiet [bq] w w' -> bounce_bufs w' = bounce_bufs w ->
    bounce_at w' bq (set_bd_recv_len sizeof_connection_info d) ->
    match m with
    | BmConn c =>
        wp (let* l_comm := rdma_device_get_listen_comm (cn_remote_comm_id c) in
            rdma_device_set_comm (cn_remote_comm_id c) (ListenComm (set_l_conn_msg (Some c) l_comm)) ;;;
            let* rc := inc_req_completion (l_req l_comm) sizeof_connection_info 1 in
            if negb (rc =? 0) then ret rc else repost_bounce_buff bq) Q w'
    | BmConnResp c =>
        wp (let* s_comm := rdma_device_get_send_comm (cn_remote_comm_id c) in
            assert (negb (s_conn_resp_req s_comm =? NULL)) ;;;
            upd_send_comm (cn_remote_comm_id c) (set_s_conn_msg (Some c)) ;;;
            let* rc := inc_req_completion (s_conn_resp_req s_comm) sizeof_connection_info 1 in
            if negb (rc =? 0) then ret rc else repost_bounce_buff bq) Q w'
    | _ => False
    end) -> wp (process_completion e) Q w.
Proof.
  intros (H1 & H2 & H3 & H4 & H5 & H6 & H7) (r & rail & mrh & Hr & Ht & Hd & Hrail & Hmin & Hid & Hmr) Hb HQ.
  unfold process_completion. rewrite H1, H2, H3, H4. wp_simpl. apply wp_assert; [by rewrite (proj2 (Z.eqb_neq _ _) H5)|].
  unfold handle_bounce_recv. rewrite (proj2 (Z.eqb_neq _ _) H5). wp_simpl. eapply get_req_wp; [exact Hr|].
  assert (is_type NCCL_OFI_RDMA_BOUNCE r = true) as Hty by (unfold is_type; by rewrite bool_decide_true). rewrite Hty. cbn [negb].
  unfold get_bounce_data. wp_simpl. eapply get_req_wp; [exact Hr|]. wp_simpl. apply wp_assert; [done|]. rewrite Hd. wp_simpl.
  unfold put_data. eapply upd_req_wp; [exact Hr|]. wp_simpl. eapply wp_of_option; [exact Hb|].
  set (w1 := w_reqs _ w).
  assert (quiet [bq] w w1) as Hq.
  { mk_quiet. intros p Hp. apply lookup_insert_ne. intros <-. apply Hp. left. }
  assert (bounce_at w1 bq (set_bd_recv_len sizeof_connection_info d)) as Hba.
  { exists (set_data (BounceData (set_bd_recv_len (e_len e) d)) r), rail, mrh.
    split_and!; try done; [cbn; by rewrite lookup_insert_eq|cbn; by rewrite H6]. }
  specialize (HQ w1 Hq eq_refl Hba). destruct m as [c|c|c|c|]; try done; cbn [bounce_msg_type]; wp_simpl;
    (apply wp_assert; [rewrite H6; apply Z.eqb_refl|]); unfold get_bounce_connection_msg; wp_simpl;
    (eapply wp_of_option; [exact Hb|]); wp_simpl; rewrite H6;
    exact (wp_bind_inv _ _ _ _ HQ).
Qed.

End EngineCompletions.
Lemma quiet_trans a b w1 w2 w3 : quiet a w1 w2 -> quiet b w2 w3 -> quiet (a ++ b) w1 w3.
Proof.
  intros [] []. constructor; try congruence; [|by etrans]. intros p Hp. rewrite not_elem_of_app in Hp.
  rewrite qt_reqs1, qt_reqs0; naive_solver.
Qed.

Lemma quiet_comms ps f w w' : quiet ps w w' -> quiet ps (w_comms f w) (w_comms f w').
Proof. intros []. constructor; try done. cbn. by rewrite qt_comms0. Qed.

Lemma quiet_req p r w : quiet [p] w (w_reqs <[p := r]> w).
Proof. mk_quiet. intros q Hq. cbn. apply lookup_insert_ne. intros <-. apply Hq. left. Qed.

Lemma quiet_bufs f w : quiet [] w (w_bounce_bufs f w).
Proof. by constructor. Qed.

Section EngineMessages.
Context {E : RdmaEnv}.
Hypothesis accepts : forall l op, fabric l op = 0.

Lemma deliver_one w e bq d m Q :
  arrival e bq m -> bounce_at w bq d -> Q tt (w_bounce_bufs <[bd_bounce_fl_item d := m]> w) -> wp (deliver_payloads [e]) Q w.
Proof.
  intros (_ & H2 & _ & H4 & _ & _ & H7) (r & _ & _ & Hr & _ & Hd & _) HQ. cbn [deliver_payloads]. rewrite H2, H4, H7.
  wp_simpl. rewrite Hr, Hd. wp_simpl. exact HQ.
Qed.

Lemma deliver_sent w e es p Q : sent e p -> f_recv e = false -> wp (deliver_payloads es) Q w -> wp (deliver_payloads (e :: es)) Q w.
Proof. intros _ Hf HQ. cbn [deliver_payloads]. rewrite Hf. by wp_simpl. Qed.

Lemma bounce_at_bufs w f bq d : bounce_at w bq d -> bounce_at (w_bounce_bufs f w) bq d.
Proof. done. Qed.

(** The connect message of a peer reaches the listener. *)
Lemma conn_arrives w e bq d m lc rl :
  cq w = [CqEntries [e]] -> pending w = [] -> 0 < num_rails -> arrival e bq (BmConn m) -> bounce_at w bq d ->
  comms w !! cn_remote_comm_id m = Some (ListenComm lc) -> reqs w !! l_req lc = Some rl -> l_req lc <> bq ->
  wp ofi_process_cq (fun rc w' => rc = 0 /\ cq w' = [] /\ reqs w' !! l_req lc = Some (count_completion sizeof_connection_info 1 rl) /\
    quiet [bq; l_req lc] (w_comms <[cn_remote_comm_id m := ListenComm (set_l_conn_msg (Some m) lc)]> w) w') w.
Proof.
  intros Hcq Hp Hn Ha Hb Hl Hrl Hne. eapply process_cq_batch; [exact Hcq|done|done|]. wp_simpl.
  eapply deliver_one; [exact Ha|exact Hb|]. cbn [process_completions]. wp_simpl.
  eapply bounce_recv_wp; [exact Ha|by apply bounce_at_bufs|cbn; by rewrite lookup_insert_eq|].
  intros w1 Hq1 _ Hb1. wp_simpl. unfold rdma_device_get_listen_comm, rdma_device_get_comm. wp_simpl.
  rewrite (qt_comms _ _ _ Hq1). eapply wp_of_option; [exact Hl|]. wp_simpl. unfold rdma_device_set_comm, inc_req_completion. wp_simpl.
  eapply upd_req_wp. { cbn. rewrite (qt_reqs _ _ _ Hq1); [exact Hrl|by intros ?%list_elem_of_singleton]. }
  wp_simpl. cbn [Z.eqb negb]. eapply (repost_quiet accepts).
  { eapply (bounce_at_frame (w_comms _ w1) _ _ _ [l_req lc]); [apply quiet_req|by intros ?%list_elem_of_singleton|exact Hb1]. }
  intros w2 Hq2 _. cbn [Z.eqb negb]. wp_simpl. split; [done|]. split; [by rewrite (qt_pending _ _ _ Hq2); cbn; rewrite (qt_pending _ _ _ Hq1)|].
  intros w3 Hq3 Hc3. split_and!; [done|done| |].
  - rewrite (qt_reqs _ _ _ Hq3) by apply not_elem_of_nil. rewrite (qt_reqs _ _ _ Hq2); [cbn; by rewrite lookup_insert_eq|].
    by intros ?%list_elem_of_singleton.
  - pose proof (quiet_comms _ <[cn_remote_comm_id m := ListenComm (set_l_conn_msg (Some m) lc)]> _ _
      (quiet_trans _ _ _ _ _ (quiet_bufs <[bd_bounce_fl_item d := BmConn m]> w) Hq1)) as H1.
    pose proof (quiet_trans _ _ _ _ _ H1 (quiet_trans _ _ _ _ _ (quiet_req (l_req lc) _ _) (quiet_trans _ _ _ _ _ Hq2 Hq3))) as H2.
    destruct H2. constructor; try done. intros p Hp'. apply qt_reqs0. set_solver.
Qed.

(** A send has completed. *)
Lemma sent_arrives w e p r :
  cq w = [CqEntries [e]] -> pending w = [] -> 0 < num_rails -> sent e p -> f_recv e = false -> reqs w !! p = Some r ->
  (type r = NCCL_OFI_RDMA_SEND_CONN \/ type r = NCCL_OFI_RDMA_SEND_CONN_RESP) ->
  wp ofi_process_cq (fun rc w' => rc = 0 /\ cq w' = [] /\ reqs w' !! p = Some (count_completion sizeof_connection_info 1 r) /\
    quiet [p] w w') w.
Proof.
  intros Hcq Hp Hn Hs Hf Hr Ht. eapply process_cq_batch; [exact Hcq|done|done|]. wp_simpl.
  eapply deliver_sent; [exact Hs|done|]. cbn [deliver_payloads]. wp_simpl. cbn [process_completions]. wp_simpl.
  eapply sent_completes; [exact Hs|exact Hr|exact Ht|]. cbn [Z.eqb negb]. wp_simpl. split; [done|]. split; [done|].
  intros w2 Hq2 Hc2. split_and!; [done|done| |].
  - rewrite (qt_reqs _ _ _ Hq2) by apply not_elem_of_nil. cbn. by rewrite lookup_insert_eq.
  - destruct (quiet_trans _ _ _ _ _ (quiet_req p (count_completion sizeof_connection_info 1 r) w) Hq2). by constructor.
Qed.

(** The connect message has gone out and the answer is there. *)
Lemma resp_arrives w e1 e2 p bq d m s rp rq :
  cq w = [CqEntries [e1; e2]] -> pending w = [] -> 0 < num_rails -> sent e1 p -> f_recv e1 = false ->
  arrival e2 bq (BmConnResp m) -> bounce_at w bq d ->
  comms w !! cn_remote_comm_id m = Some (SendComm s) -> s_conn_resp_req s <> NULL -> reqs w !! s_conn_resp_req s = Some rq ->
  reqs w !! p = Some rp -> type rp = NCCL_OFI_RDMA_SEND_CONN -> p <> bq -> s_conn_resp_req s <> bq -> s_conn_resp_req s <> p ->
  wp ofi_process_cq (fun rc w' => rc = 0 /\ cq w' = [] /\
    reqs w' !! p = Some (count_completion sizeof_connection_info 1 rp) /\
    reqs w' !! s_conn_resp_req s = Some (count_completion sizeof_connection_info 1 rq) /\
    quiet [p; bq; s_conn_resp_req s] (w_comms <[cn_remote_comm_id m := SendComm (set_s_conn_msg (Some m) s)]> w) w') w.
Proof.
  intros Hcq Hp Hn Hs Hf Ha Hb Hc Hqn Hrq Hrp Ht Hpb Hqb Hqp. eapply process_cq_batch; [exact Hcq|done|done|]. wp_simpl.
  eapply deliver_sent; [exact Hs|done|]. eapply deliver_one; [exact Ha|exact Hb|]. cbn [process_completions]. wp_simpl.
  eapply sent_completes; [exact Hs|exact Hrp|by left|]. cbn [Z.eqb negb]. wp_simpl.
  set (w0 := w_reqs _ _).
  assert (quiet [p] w w0) as Hq0 by (destruct (quiet_req p (count_completion sizeof_connection_info 1 rp) w); by constructor).
  eapply bounce_recv_wp; [exact Ha| |cbn; by rewrite lookup_insert_eq|].
  { eapply bounce_at_frame; [exact Hq0|by intros ?%list_elem_of_singleton|exact Hb]. }
  intros w1 Hq1 _ Hb1. wp_simpl. unfold rdma_device_get_send_comm, rdma_device_get_comm. wp_simpl.
  rewrite (qt_comms _ _ _ Hq1). eapply wp_of_option; [exact Hc|]. wp_simpl. apply wp_assert; [by apply negb_true_iff, Z.eqb_neq|].
  unfold upd_send_comm, rdma_device_get_send_comm, rdma_device_get_comm. wp_simpl. rewrite (qt_comms _ _ _ Hq1).
  eapply wp_of_option; [exact Hc|]. unfold rdma_device_set_comm, inc_req_completion. wp_simpl.
  eapply upd_req_wp. { cbn. rewrite (qt_reqs _ _ _ Hq1), (qt_reqs _ _ _ Hq0); [exact Hrq|..]; by intros ?%list_elem_of_singleton. }
  wp_simpl. cbn [Z.eqb negb]. eapply (repost_quiet accepts).
  { eapply (bounce_at_frame (w_comms _ w1) _ _ _ [s_conn_resp_req s]); [apply quiet_req|by intros ?%list_elem_of_singleton|exact Hb1]. }
  intros w2 Hq2 _. cbn [Z.eqb negb]. wp_simpl. split; [done|]. split; [by rewrite (qt_pending _ _ _ Hq2); cbn; rewrite (qt_pending _ _ _ Hq1)|].
  intros w3 Hq3 Hc3. split_and!; [done|done| | |].
  - rewrite (qt_reqs _ _ _ Hq3) by apply not_elem_of_nil. rewrite (qt_reqs _ _ _ Hq2) by (by intros ?%list_elem_of_singleton).
    cbn. rewrite lookup_insert_ne by done. rewrite (qt_reqs _ _ _ Hq1) by (by intros ?%list_elem_of_singleton).
    cbn. by rewrite lookup_insert_eq.
  - rewrite (qt_reqs _ _ _ Hq3) by apply not_elem_of_nil. rewrite (qt_reqs _ _ _ Hq2) by (by intros ?%list_elem_of_singleton).
    cbn. by rewrite lookup_insert_eq.
  - pose proof (quiet_comms _ <[cn_remote_comm_id m := SendComm (set_s_conn_msg (Some m) s)]> _ _ (quiet_trans _ _ _ _ _ Hq0 Hq1)) as H1.
    pose proof (quiet_trans _ _ _ _ _ H1 (quiet_trans _ _ _ _ _ (quiet_req (s_conn_resp_req s) _ _) (quiet_trans _ _ _ _ _ Hq2 Hq3))) as H2.
    destruct H2. constructor; try done. intros x Hx. apply qt_reqs0. set_solver.
Qed.

End EngineMessages.

(** ** Connection set-up with the resources it needs *)

(** Memory, locks and free lists are to be had, addresses can be inserted
    ([addr] is what the address vector of a rail gives a name), the network takes
    every operation, and the endpoint has its rails. *)
Class Coop `{RdmaEnv} `{ConnEnv} (addr : rail_ref -> list Z -> Z) : Prop := {
  co_fabric l op : fabric l op = 0;
  co_calloc h : calloc_ok h = true;
  co_mutex h : mutex_init_code h = 0;
  co_av h r name : av_insert h r name = (1, addr r name);
  co_pool h : exists l, pool_init h = (0, l);
  co_mb_malloc h : mb_malloc h = true;
  co_mb_buff h n : exists b, mb_malloc_buff h n = Some b;
  co_mb_mutex h : mb_mutex h = 0;
  co_flush_alloc h : exists a, flush_alloc h = (0, a);
  co_flush_reg h : exists a, flush_reg h = (0, a);
  co_page : cpu_cache_line_size * num_rails + NCCL_OFI_FLUSH_SIZE <= page_size;
  co_line : 0 <= cpu_cache_line_size;
  co_rails : 1 <= num_rails <= MAX_NUM_RAILS;
  co_control_rails : 1 <= num_control_rails <= MAX_NUM_RAILS;
  co_names : Z.of_nat (length rail_names) = num_rails;
  co_control_names : Z.of_nat (length control_rail_names) = num_control_rails;
  co_ids : num_comm_ids <= NCCL_OFI_RDMA_MAX_COMMS;
}.

(** A device whose free communicator IDs are [S], with an idle endpoint. *)
Record ready `{RdmaEnv} `{ConnEnv} (w : cworld) (S : gset Z) : Prop := {
  rd_pool : Idpool.idpool_rel (comm_idpool w) S;
  rd_size : Idpool.size (comm_idpool w) = num_comm_ids;
  rd_rails : Z.of_nat (length (rails (engine w))) = num_rails;
  rd_control : Z.of_nat (length (control_rails (engine w))) = num_control_rails;
  rd_pending : pending (engine w) = [];
}.

Section Steps.
Context {E : RdmaEnv} {N : ConnEnv}.

Lemma lift_wp {A} (m : M A) (Q : A -> cworld -> Prop) w :
  wp m (fun a e => Q a (w_engine (fun _ => e) w)) (engine w) -> wp (lift m) Q w.
Proof. unfold wp, lift. by destruct (m (engine w)) as [[a e]|]. Qed.

Lemma ask_wp {A} c (f : list conn_call -> A) Q w : Q (f (calls w)) (w_calls (fun h => h ++ [c]) w) -> wp (ask c f) Q w.
Proof. intros HQ. unfold ask. by wp_simpl. Qed.

Lemma idpool_allocate_wp w S (Q : Z -> cworld -> Prop) :
  ready w S -> S <> ∅ ->
  (forall id w', id ∈ S -> 0 <= id < num_comm_ids -> ready w' (S ∖ {[id]}) -> engine w' = engine w -> calls w' = calls w ->
     ep_ref_cnt w' = ep_ref_cnt w -> num_open_comms w' = num_open_comms w -> Q id w') -> wp idpool_allocate Q w.
Proof.
  intros [Hrel Hsz Hr Hc Hp] HS HQ. unfold idpool_allocate. wp_simpl. destruct (Idpool.allocate_refines _ _ Hrel) as (S' & Hstep & Hrel' & Hsz').
  pose proof Hrel as (ws & _ & Hin). destruct (Idpool.nccl_ofi_idpool_allocate_id (comm_idpool w)) as [id p']. cbn in *. wp_simpl.
  inversion Hstep; subst; [|done].
  match goal with Hid : ?x ∈ S |- _ => pose proof Hid as Hin'; apply Hin in Hin'; apply (HQ x); try done; [lia|] end.
  constructor; try done. cbn. congruence.
Qed.

Lemma msgbuff_init_wp `{!Coop addr} w Q :
  (forall mb, Q (Some mb) (w_calls (fun h => h ++ [CallMsgbuffInit]) w)) -> wp msgbuff_init Q w.
Proof.
  intros HQ. unfold msgbuff_init. apply ask_wp. unfold Msgbuff.nccl_ofi_msgbuff_init.
  rewrite co_mb_malloc. destruct (co_mb_buff (calls w) NCCL_OFI_RDMA_MSGBUFF_SIZE) as [b ->]. rewrite co_mb_mutex. cbn [Z.eqb negb].
  change ((NCCL_OFI_RDMA_MSGBUFF_SIZE =? 0) || (u16 (Z.shiftl 1 NCCL_OFI_RDMA_SEQ_BITS) <=? 2 * NCCL_OFI_RDMA_MSGBUFF_SIZE)) with false.
  apply HQ.
Qed.

End Steps.

(** ** The sender *)

(** A new request of communicator [c]. *)
Definition fresh_req (e : world) (p : Z) (t : nccl_net_ofi_rdma_req_type_t) (c : Z) : Prop :=
  exists r, reqs e !! p = Some r /\ type r = t /\ comm r = Some c /\ ncompls r = 0 /\ state r = NCCL_OFI_RDMA_REQ_CREATED.

(** Communicator [sid] has sent its connect message with request [p] and waits
    for the answer with [q]. *)
Record awaiting `{RdmaEnv} `{ConnEnv} (addr : rail_ref -> list Z -> Z) (e : world) (sid lid p q : Z) (name : list Z) : Prop := {
  aw_comm : exists s rail lep, comms e !! sid = Some (SendComm s) /\ s_conn_resp_req s = q /\ s_num_init_control_rails s = 1 /\
    length (s_rails s) = Z.to_nat num_rails /\ s_control_rails s = rail :: replicate (Z.to_nat num_control_rails - 1) zero_rail /\
    rail = mk_comm_rail (addr (ControlRail 0) name) lep 0;
  aw_req : fresh_req e p NCCL_OFI_RDMA_SEND_CONN sid;
  aw_resp : fresh_req e q NCCL_OFI_RDMA_RECV_CONN_RESP sid;
  aw_distinct : p <> q /\ p <> NULL /\ q <> NULL;
}.

Section Sender.
Context {E : RdmaEnv} {N : ConnEnv} {addr : rail_ref -> list Z -> Z} {CO : Coop addr}.

Lemma get_send_comm_wp w c s Q :
  comms w !! c = Some (SendComm s) -> Q s w -> wp (rdma_device_get_send_comm c) Q w.
Proof. intros H HQ. unfold wp. by rewrite (get_send_comm_ok c w s H). Qed.

Lemma upd_send_comm_wp w c f s Q :
  comms w !! c = Some (SendComm s) -> Q tt (w_comms <[c := SendComm (f s)]> w) -> wp (upd_send_comm c f) Q w.
Proof. intros H HQ. unfold wp. by rewrite (upd_send_comm_ok c f w s H). Qed.

(** A request from the free list of a send communicator. *)
Lemma allocate_send_wp w c s p l Q :
  comms w !! c = Some (SendComm s) -> s_reqs_fl s = p :: l -> p <> NULL ->
  (forall r, comm r = None -> ncompls r = 0 -> state r = NCCL_OFI_RDMA_REQ_CREATED ->
     Q p (w_reqs <[p := r]> (w_comms <[c := SendComm (set_s_fl l s)]> w))) -> wp (allocate_req (FlSend c)) Q w.
Proof.
  intros Hc Hl Hp HQ. unfold allocate_req, fl_pop. wp_simpl. eapply get_send_comm_wp; [exact Hc|]. rewrite Hl. wp_simpl.
  eapply upd_send_comm_wp; [exact Hc|]. wp_simpl. rewrite (proj2 (Z.eqb_neq _ _) Hp). unfold put_req. wp_simpl. by apply HQ.
Qed.

Lemma calloc_send_wp w (Q : bool -> cworld -> Prop) :
  (forall w', engine w' = engine w -> comm_idpool w' = comm_idpool w -> Q true w') -> wp calloc_rdma_send_comm Q w.
Proof.
  intros HQ. unfold calloc_rdma_send_comm. wp_simpl. apply ask_wp. rewrite co_calloc. cbn [negb]. wp_simpl. apply ask_wp.
  rewrite co_calloc. cbn [negb]. apply ask_wp. rewrite co_calloc. by apply HQ.
Qed.

Lemma ready_frame w w' S :
  ready w S -> comm_idpool w' = comm_idpool w -> rails (engine w') = rails (engine w) ->
  control_rails (engine w') = control_rails (engine w) -> pending (engine w') = pending (engine w) -> ready w' S.
Proof. intros [] H1 H2 H3 H4. constructor; congruence. Qed.

Lemma control_rail_0 w S : ready w S -> exists rail, rail_of (engine w) (ControlRail 0) = Some rail.
Proof.
  intros [_ _ _ Hc _]. cbn. pose proof co_control_rails. destruct (control_rails (engine w)) as [|r l]; [cbn in Hc; lia|by exists r].
Qed.

Definition new_send_comm (sid lid remote lep : Z) (fl : pool) (mb : Msgbuff.nccl_ofi_msgbuff_t) : nccl_net_ofi_rdma_send_comm_t :=
  mk_send_comm 0 fl lid NULL (Some (prepare_send_connect_message sid lid)) 0 mb false 0 0 true
    (replicate (Z.to_nat num_rails) zero_rail)
    (<[0%nat := mk_comm_rail remote lep 0]> (replicate (Z.to_nat num_control_rails) zero_rail)) 1.

Lemma create_send_comm_wp w S name lid p q l (Q : Z * option Z -> cworld -> Prop) :
  ready w S -> S <> ∅ -> 0 <= lid < num_comm_ids -> (forall h, pool_init h = (0, p :: q :: l)) ->
  (forall sid lep mb w', sid ∈ S -> 0 <= sid -> ready w' (S ∖ {[sid]}) ->
     engine w' = w_comms <[sid := SendComm (new_send_comm sid lid (addr (ControlRail 0) name) lep (p :: q :: l) mb)]> (engine w) ->
     Q (0, Some sid) w') ->
  wp (create_send_comm (mk_conn_handle name lid None NULL COMM_CREATE_START)) Q w.
Proof.
  intros Hr HS Hlid Hpool HQ. unfold create_send_comm. wp_simpl. destruct (control_rail_0 _ _ Hr) as [rail Hrail].
  apply lift_wp. eapply get_rail_wp; [exact Hrail|]. wp_simpl. apply calloc_send_wp. intros w1 He1 Hi1. cbn [negb]. wp_simpl.
  apply ask_wp. rewrite co_mutex. cbn [Z.eqb negb h_comm_id]. destruct (Z.geb_spec lid num_comm_ids); [lia|]. wp_simpl.
  eapply idpool_allocate_wp; [|exact HS|].
  { eapply ready_frame; [exact Hr|..]; cbn; by rewrite ?He1, ?Hi1. }
  intros sid w2 Hin Hid Hr2 He2 _ _ _. rewrite (proj2 (Z.ltb_ge _ _)) by lia. wp_simpl. unfold fi_av_insert. apply ask_wp.
  rewrite co_av. cbn [Z.eqb negb Pos.eqb]. wp_simpl. apply ask_wp. rewrite Hpool. cbn [Z.eqb negb]. wp_simpl.
  eapply msgbuff_init_wp. intros mb. unfold set_comm_at. wp_simpl. apply wp_assert.
  { pose proof co_ids. apply andb_true_iff. split; apply Z.ltb_lt; lia. }
  wp_simpl. apply lift_wp. unfold rdma_device_set_comm. wp_simpl.
  eapply (HQ sid (ofi_ep rail) mb); [done|lia| |].
  - eapply ready_frame; [exact Hr2|done..].
  - cbn. rewrite He2. cbn. by rewrite He1.
Qed.

End Sender.

Section SenderConnect.
Context {E : RdmaEnv} {N : ConnEnv} {addr : rail_ref -> list Z -> Z} {CO : Coop addr}.

Lemma prepare_send_conn_req_wp w sid s p l Q :
  comms (engine w) !! sid = Some (SendComm s) -> s_reqs_fl s = p :: l -> p <> NULL ->
  (forall e, fresh_req e p NCCL_OFI_RDMA_SEND_CONN sid -> quiet [p] (w_comms <[sid := SendComm (set_s_fl l s)]> (engine w)) e ->
     cq e = cq (engine w) -> Q p (w_engine (fun _ => e) w)) -> wp (prepare_send_conn_req sid) Q w.
Proof.
  intros Hc Hl Hp HQ. unfold prepare_send_conn_req. wp_simpl. apply lift_wp. eapply allocate_send_wp; [exact Hc|exact Hl|exact Hp|].
  intros r Hcm Hn Hst. rewrite (proj2 (Z.eqb_neq _ _) Hp). wp_simpl. apply lift_wp. eapply upd_req_wp; [cbn; by rewrite lookup_insert_eq|].
  wp_simpl. apply HQ; [|mk_quiet|done].
  - eexists. cbn. rewrite lookup_insert_eq. by split_and!.
  - intros x Hx. cbn. rewrite !lookup_insert_ne; [done|..]; intros <-; apply Hx; left.
Qed.

Lemma prepare_recv_conn_resp_req_wp w sid s p l Q :
  comms (engine w) !! sid = Some (SendComm s) -> s_reqs_fl s = p :: l -> p <> NULL ->
  (forall e, fresh_req e p NCCL_OFI_RDMA_RECV_CONN_RESP sid -> quiet [p] (w_comms <[sid := SendComm (set_s_fl l s)]> (engine w)) e ->
     cq e = cq (engine w) -> Q p (w_engine (fun _ => e) w)) -> wp (prepare_recv_conn_resp_req sid) Q w.
Proof.
  intros Hc Hl Hp HQ. unfold prepare_recv_conn_resp_req. wp_simpl. apply lift_wp. eapply allocate_send_wp; [exact Hc|exact Hl|exact Hp|].
  intros r Hcm Hn Hst. rewrite (proj2 (Z.eqb_neq _ _) Hp). wp_simpl. apply lift_wp. eapply upd_req_wp; [cbn; by rewrite lookup_insert_eq|].
  wp_simpl. apply HQ; [|mk_quiet|done].
  - eexists. cbn. rewrite lookup_insert_eq. by split_and!.
  - intros x Hx. cbn. rewrite !lookup_insert_ne; [done|..]; intros <-; apply Hx; left.
Qed.

Lemma fresh_req_quiet e e' p t c ps : quiet ps e e' -> p ∉ ps -> fresh_req e p t c -> fresh_req e' p t c.
Proof. intros Hq Hp (r & Hr & H). exists r. by rewrite (qt_reqs _ _ _ Hq). Qed.

(** The first call of connect sends the connect message. *)
Lemma connect_first w S name lid p q l :
  ready w S -> S <> ∅ -> 0 <= lid < num_comm_ids -> cq (engine w) = [] -> (forall h, pool_init h = (0, p :: q :: l)) ->
  p <> q -> p <> NULL -> q <> NULL ->
  wp (connect (mk_conn_handle name lid None NULL COMM_CREATE_START)) (fun r w' =>
    exists sid lep, r = (0, mk_conn_handle name lid (Some sid) p COMM_CONN_REQ_PENDING, None) /\ sid ∈ S /\ 0 <= sid /\
      ready w' (S ∖ {[sid]}) /\ awaiting addr (engine w') sid lid p q name /\ cq (engine w') = [] /\
      (fi_send_conn lep (BmConn (prepare_send_connect_message sid lid)) sizeof_connection_info (addr (ControlRail 0) name) p, 0)
        ∈ log (engine w') /\
      (forall x, x <> p -> x <> q -> reqs (engine w') !! x = reqs (engine w) !! x) /\
      rails (engine w') = rails (engine w) /\ control_rails (engine w') = control_rails (engine w)) w.
Proof.
  intros Hr HS Hlid Hcq Hpool Hpq Hp Hq. unfold connect. cbn [h_stage h_comm]. wp_simpl. apply wp_assert; [done|].
  wp_simpl. eapply create_send_comm_wp; try done. intros sid lep mb w1 Hin Hsid Hr1 He1. cbn [Z.eqb negb]. wp_simpl.
  set (s := new_send_comm _ _ _ _ _ _) in He1.
  assert (comms (engine w1) !! sid = Some (SendComm s)) as Hc1 by (rewrite He1; cbn; by rewrite lookup_insert_eq).
  eapply prepare_send_conn_req_wp; [exact Hc1|done|exact Hp|]. intros e2 Hp2 Hq2 Hcq2. rewrite (proj2 (Z.eqb_neq _ _) Hp). wp_simpl.
  eapply (prepare_recv_conn_resp_req_wp _ _ (set_s_fl (q :: l) s)); [cbn; rewrite (qt_comms _ _ _ Hq2); cbn; by rewrite lookup_insert_eq|done|exact Hq|].
  cbn [engine w_engine]. intros e3 Hp3 Hq3 Hcq3. wp_simpl. apply lift_wp. eapply upd_send_comm_wp; [cbn; rewrite (qt_comms _ _ _ Hq3); cbn; by rewrite lookup_insert_eq|].
  rewrite (proj2 (Z.eqb_neq _ _) Hq). unfold connect_send_conn, post_send_conn. wp_simpl. apply lift_wp.
  eapply get_send_comm_wp; [cbn; by rewrite lookup_insert_eq|]. wp_simpl. apply lift_wp.
  pose proof co_control_rails as Hcr. destruct (Z.to_nat num_control_rails) as [|ncr] eqn:Hncr; [lia|].
  unfold rail_at. wp_simpl. apply wp_assert; [done|]. cbn [s_control_rails set_s_conn_resp_req set_s_fl s new_send_comm].
  rewrite Hncr. eapply wp_of_option; [reflexivity|]. wp_simpl. eapply wp_of_option; [reflexivity|]. wp_simpl. apply lift_wp.
  unfold post. wp_simpl. rewrite co_fabric. change (0 =? - FI_EAGAIN) with false. wp_simpl. change (i32 0) with 0.
  change (0 =? - FI_EAGAIN) with false. cbn [Z.eqb negb]. unfold connect_req_pending. wp_simpl. apply lift_wp.
  assert (p ∉ [q]) as Hnpq by (by intros ?%list_elem_of_singleton).
  set (e4 := w_log _ _). assert (quiet [p; q] (w_comms (fun m => comms e4) (engine w1)) e4) as Hq4.
  { destruct Hq2, Hq3. constructor; cbn in *; try congruence.
    - intros x Hx. rewrite qt_reqs1, qt_reqs0; [done|set_solver..].
    - etrans; [exact qt_log0|]. etrans; [exact qt_log1|]. by apply prefix_app_r. }
  apply process_cq_idle.
  { cbn. by rewrite Hcq3, Hcq2, He1. }
  { change (pending e4 = []). rewrite (qt_pending _ _ _ Hq4). cbn. apply (rd_pending _ _ Hr1). }
  intros e5 Hq5 Hcq5. cbn [Z.eqb negb]. wp_simpl. apply lift_wp.
  assert (fresh_req e5 p NCCL_OFI_RDMA_SEND_CONN sid) as Hp5.
  { eapply fresh_req_quiet; [exact Hq5|apply not_elem_of_nil|]. exact (fresh_req_quiet _ _ _ _ _ _ Hq3 Hnpq Hp2). }
  assert (fresh_req e5 q NCCL_OFI_RDMA_RECV_CONN_RESP sid) as Hq5'.
  { by eapply fresh_req_quiet; [exact Hq5|apply not_elem_of_nil|]. }
  pose proof Hp5 as (r & Hr5 & _ & _ & _ & Hst). eapply get_req_wp; [exact Hr5|]. unfold is_state. rewrite Hst.
  cbn [bool_decide negb]. wp_simpl. exists sid, lep.
  split; [done|]. split; [done|]. split; [done|]. split.
  { eapply ready_frame; [exact Hr1|done|..]; cbn; [rewrite (qt_rails _ _ _ Hq5)|rewrite (qt_control _ _ _ Hq5)|rewrite (qt_pending _ _ _ Hq5)];
      destruct Hq4; cbn in *; congruence. }
  split.
  { constructor; try done. exists (set_s_conn_resp_req q (set_s_fl l s)), (mk_comm_rail (addr (ControlRail 0) name) lep 0), lep. cbn.
    rewrite (qt_comms _ _ _ Hq5). cbn. rewrite lookup_insert_eq. split_and!; try done; [by rewrite length_replicate|].
    rewrite Hncr. cbn. by rewrite ?Nat.sub_0_r. }
  split; [done|]. split.
  { cbn. eapply elem_of_prefix; [|exact (qt_log _ _ _ Hq5)]. apply elem_of_app. right. by left. }
  split_and!.
  - intros x Hx1 Hx2. cbn. rewrite (qt_reqs _ _ _ Hq5) by apply not_elem_of_nil. rewrite (qt_reqs _ _ _ Hq4) by set_solver. cbn. by rewrite He1.
  - etrans; [exact (qt_rails _ _ _ Hq5)|]. etrans; [exact (qt_rails _ _ _ Hq4)|]. cbn. by rewrite He1.
  - etrans; [exact (qt_control _ _ _ Hq5)|]. etrans; [exact (qt_control _ _ _ Hq4)|]. cbn. by rewrite He1.
Qed.

End SenderConnect.

(** The rails lead to the endpoints with these names. *)
Definition leads_to (addr : rail_ref -> list Z -> Z) (ref : Z -> rail_ref) (names : list (list Z)) (rails : list comm_rail) : Prop :=
  forall j name, names !! j = Some name -> cr_remote_addr <$> rails !! j = Some (addr (ref (Z.of_nat j)) name).

Section SenderFinish.
Context {E : RdmaEnv} {N : ConnEnv} {addr : rail_ref -> list Z -> Z} {CO : Coop addr}.

Lemma free_conn_req_wp w p r c s (Q : Z -> world -> Prop) :
  reqs w !! p = Some r -> p <> NULL -> (type r = NCCL_OFI_RDMA_SEND_CONN \/ type r = NCCL_OFI_RDMA_RECV_CONN_RESP) ->
  comm r = Some c -> comms w !! c = Some (SendComm s) ->
  (forall w', reqs w' = delete p (reqs w) -> comms w' = <[c := SendComm (set_s_fl (p :: s_reqs_fl s) s)]> (comms w) ->
     rails w' = rails w -> control_rails w' = control_rails w -> pending w' = pending w -> cq w' = cq w -> Q 0 w') ->
  wp (req_free p false) Q w.
Proof.
  intros Hr Hp Ht Hc Hs HQ. unfold req_free. wp_simpl. eapply get_req_wp; [exact Hr|].
  assert (is_type NCCL_OFI_RDMA_SEND_CONN r || is_type NCCL_OFI_RDMA_RECV_CONN_RESP r = true) as Hty.
  { unfold is_type. by destruct Ht as [-> | ->]. }
  assert (wp (free_send_comm_connection_req p false) Q w) as Hwp; [|by destruct Ht as [-> | ->]].
  unfold free_send_comm_connection_req. wp_simpl. eapply get_req_wp; [exact Hr|]. wp_simpl. apply wp_assert; [exact Hty|].
  unfold req_comm. wp_simpl. eapply get_req_wp; [exact Hr|]. eapply wp_of_option; [exact Hc|]. unfold free_base_req.
  rewrite (proj2 (Z.eqb_neq _ _) Hp). wp_simpl. eapply get_req_wp; [exact Hr|]. cbn [fl_push]. wp_simpl.
  eapply upd_send_comm_wp; [exact Hs|]. cbn [andb]. wp_simpl. by apply HQ.
Qed.

Lemma rail_there w S ref i :
  ready w S -> (ref = DataRail /\ 0 <= i < num_rails \/ ref = ControlRail /\ 0 <= i < num_control_rails) ->
  exists rail, rail_of (engine w) (ref i) = Some rail.
Proof.
  intros [_ _ Hr Hc _] [[-> Hi]|[-> Hi]]; cbn; rewrite (proj2 (Z.leb_le 0 i)) by lia; apply lookup_lt_is_Some; lia.
Qed.

Lemma init_send_rails_wp S ref total names n : forall i rs w,
  ready w S -> (ref = DataRail /\ total = num_rails \/ ref = ControlRail /\ total = num_control_rails) ->
  0 <= i -> i + Z.of_nat n = total -> Z.of_nat (length names) = total -> Z.of_nat (length rs) = total ->
  (forall j name, (j < Z.to_nat i)%nat -> names !! j = Some name -> cr_remote_addr <$> rs !! j = Some (addr (ref (Z.of_nat j)) name)) ->
  wp (init_send_rails n i ref names rs) (fun r w' => exists rs', r = (0, total, rs') /\ leads_to addr ref names rs' /\
     ready w' S /\ engine w' = engine w) w.
Proof.
  induction n as [|n IH]; intros i rs w Hr Href Hi Hn Hln Hlr Hold; cbn [init_send_rails].
  { wp_simpl. exists rs. split_and!; [by replace total with i by lia| |done|done]. intros j name Hj. apply Hold; [|done].
    apply lookup_lt_Some in Hj. lia. }
  wp_simpl. destruct (rail_there w S ref i Hr) as [rail Hrail]; [destruct Href as [[-> ->]|[-> ->]]; [left|right]; (split; [done|lia])|].
  apply lift_wp. eapply get_rail_wp; [exact Hrail|]. wp_simpl.
  destruct (lookup_lt_is_Some_2 names (Z.to_nat i)) as [name Hname]; [lia|]. eapply wp_of_option; [exact Hname|]. wp_simpl.
  destruct (lookup_lt_is_Some_2 rs (Z.to_nat i)) as [old Hold']; [lia|]. eapply wp_of_option; [exact Hold'|]. wp_simpl.
  unfold fi_av_insert. apply ask_wp. rewrite co_av. cbn [Z.eqb Pos.eqb negb].
  eapply wp_mono; [eapply (IH (i + 1)); [eapply ready_frame; [exact Hr|done..]|exact Href|lia|lia|exact Hln|by rewrite length_insert|]|].
  - intros j nm Hj Hnm. replace (Z.to_nat (i + 1)) with (Datatypes.S (Z.to_nat i)) in Hj by lia.
    destruct (decide (j = Z.to_nat i)) as [->|Hne].
    + rewrite list_lookup_insert_eq by lia. rewrite Hname in Hnm. simplify_eq. by rewrite Z2Nat.id by lia.
    + rewrite list_lookup_insert_ne by done. apply Hold; [lia|done].
  - intros r w' (rs' & -> & Hl & Hr' & He). by exists rs'.
Qed.

End SenderFinish.

(** A message that fits the configuration of this endpoint. *)
Record msg_ok `{RdmaEnv} `{ConnEnv} (m : nccl_ofi_rdma_connection_info_t) : Prop := {
  mo_rails : cn_num_rails m = num_rails;
  mo_control : cn_num_control_rails m = num_control_rails;
  mo_id : 0 <= cn_local_comm_id m < num_comm_ids;
  mo_names : Z.of_nat (length (cn_ep_names m)) = num_rails;
  mo_control_names : Z.of_nat (length (cn_control_ep_names m)) = num_control_rails;
}.

(** A send communicator that is connected to the peer that sent [m]. *)
Definition connected_to (addr : rail_ref -> list Z -> Z) (e : world) (sid : Z) (m : nccl_ofi_rdma_connection_info_t) : Prop :=
  exists s, comms e !! sid = Some (SendComm s) /\ s_remote_comm_id s = cn_local_comm_id m /\ s_conn_resp_req s = NULL /\
    leads_to addr DataRail (cn_ep_names m) (s_rails s) /\ leads_to addr ControlRail (cn_control_ep_names m) (s_control_rails s).

Section SenderSecond.
Context {E : RdmaEnv} {N : ConnEnv} {addr : rail_ref -> list Z -> Z} {CO : Coop addr}.

Lemma init_send_comm_rails_wp w S sid s m name :
  ready w S -> comms (engine w) !! sid = Some (SendComm s) -> msg_ok m -> s_num_init_control_rails s = 1 ->
  Z.of_nat (length (s_rails s)) = num_rails -> Z.of_nat (length (s_control_rails s)) = num_control_rails ->
  cn_control_ep_names m !! 0%nat = Some name -> cr_remote_addr <$> s_control_rails s !! 0%nat = Some (addr (ControlRail 0) name) ->
  wp (init_send_comm_rails sid (cn_ep_names m) (cn_control_ep_names m)) (fun rc w' => rc = 0 /\ ready w' S /\
     exists control data, leads_to addr DataRail (cn_ep_names m) data /\ leads_to addr ControlRail (cn_control_ep_names m) control /\
       engine w' = w_comms (fun _ => <[sid := SendComm (set_s_rails data (set_s_control_rails control num_control_rails s))]>
                              (comms (engine w))) (engine w)) w.
Proof.
  intros Hr Hs [] Hinit Hlr Hlc Hn0 Hr0. unfold init_send_comm_rails. wp_simpl. apply lift_wp. eapply get_send_comm_wp; [exact Hs|]. wp_simpl.
  rewrite Hinit. pose proof co_control_rails as Hcr.
  wp_use (init_send_rails_wp S ControlRail num_control_rails); [eapply ready_frame; [exact Hr|done..]|by right|lia|lia|done|done| |].
  { intros j nm Hj Hnm. assert (j = 0%nat) as -> by lia. rewrite Hn0 in Hnm. injection Hnm as <-. exact Hr0. }
  intros r w1 (control & -> & Hlead & Hr1 & He1). wp_simpl. apply lift_wp. eapply upd_send_comm_wp; [rewrite He1; exact Hs|].
  cbn [Z.eqb negb]. wp_simpl.
  wp_use (init_send_rails_wp S DataRail num_rails); [eapply ready_frame; [exact Hr1|done..]|by left|lia|pose proof co_rails; lia|done|done|lia|].
  intros r w2 (data & -> & Hlead2 & Hr2 & He2). wp_simpl. apply lift_wp.
  eapply upd_send_comm_wp; [rewrite He2; cbn; by rewrite lookup_insert_eq|]. wp_simpl. split; [done|]. split; [eapply ready_frame; [exact Hr2|done..]|].
  exists control, data. split; [done|]. split; [done|]. cbn. rewrite He2. cbn. rewrite He1. unfold w_comms. cbn. by rewrite insert_insert_eq.
Qed.

Lemma finish_connect_wp w S sid s m name q :
  ready w S -> comms (engine w) !! sid = Some (SendComm s) -> msg_ok m -> s_num_init_control_rails s = 1 ->
  Z.of_nat (length (s_rails s)) = num_rails -> Z.of_nat (length (s_control_rails s)) = num_control_rails ->
  cn_control_ep_names m !! 0%nat = Some name -> cr_remote_addr <$> s_control_rails s !! 0%nat = Some (addr (ControlRail 0) name) ->
  s_conn_msg s = Some m -> s_conn_resp_req s = q -> q <> NULL ->
  (exists r, reqs (engine w) !! q = Some r /\ type r = NCCL_OFI_RDMA_RECV_CONN_RESP /\ comm r = Some sid /\
     state r = NCCL_OFI_RDMA_REQ_COMPLETED) ->
  wp (finish_connect sid) (fun rc w' => rc = 0 /\ ready w' S /\ connected_to addr (engine w') sid m) w.
Proof.
  intros Hr Hs Hm Hinit Hlr Hlc Hn0 Hr0 Hmsg Hq Hqn (r & Hrq & Ht & Hc & Hst). pose proof Hm as [].
  unfold finish_connect. wp_simpl. apply lift_wp. eapply get_send_comm_wp; [exact Hs|]. wp_simpl. rewrite Hq.
  apply wp_assert; [by apply negb_true_iff, Z.eqb_neq|]. wp_simpl. apply lift_wp. eapply get_req_wp; [exact Hrq|].
  unfold is_state. rewrite bool_decide_true by done. cbn [negb]. wp_simpl. rewrite Hmsg. eapply wp_of_option; [done|].
  rewrite mo_rails0, mo_control0, !Z.eqb_refl. cbn [negb]. destruct (Z.geb_spec (cn_local_comm_id m) num_comm_ids); [lia|]. wp_simpl.
  apply lift_wp. eapply upd_send_comm_wp; [exact Hs|]. wp_simpl.
  eapply wp_mono; [eapply (init_send_comm_rails_wp _ S sid (set_s_remote_comm_id (cn_local_comm_id m) s) m name);
    [eapply ready_frame; [exact Hr|done..]|cbn; by rewrite lookup_insert_eq|done..]|].
  intros rc w1 (-> & Hr1 & control & data & Hl1 & Hl2 & He1). cbn [Z.eqb negb]. wp_simpl. apply lift_wp.
  eapply free_conn_req_wp; [by rewrite He1|done|by right|done|rewrite He1; cbn; by rewrite lookup_insert_eq|].
  intros e2 Hreqs Hcs Hra Hco Hpe Hcq. wp_simpl. apply lift_wp. eapply upd_send_comm_wp; [cbn; rewrite Hcs; by rewrite lookup_insert_eq|].
  wp_simpl. split; [done|]. split.
  { eapply ready_frame; [exact Hr1|done|..]; cbn; congruence. }
  eexists. cbn. rewrite lookup_insert_eq. by split_and!.
Qed.

End SenderSecond.

Section SenderDone.
Context {E : RdmaEnv} {N : ConnEnv} {addr : rail_ref -> list Z -> Z} {CO : Coop addr}.

Lemma completed_once r :
  ncompls r = 0 -> state r = NCCL_OFI_RDMA_REQ_CREATED \/ state r = NCCL_OFI_RDMA_REQ_PENDING ->
  state (count_completion sizeof_connection_info 1 r) = NCCL_OFI_RDMA_REQ_COMPLETED /\
  type (count_completion sizeof_connection_info 1 r) = type r /\ comm (count_completion sizeof_connection_info 1 r) = comm r.
Proof.
  intros Hn Hs. unfold count_completion, is_state. cbn. rewrite Hn. cbn. destruct Hs as [-> | ->]; done.
Qed.

(** The second call, with the answer of the peer there. *)
Lemma connect_second w S name lid sid p q e1 e2 bq d m :
  ready w S -> awaiting addr (engine w) sid lid p q name -> cq (engine w) = [CqEntries [e1; e2]] ->
  sent e1 p -> f_recv e1 = false -> arrival e2 bq (BmConnResp m) -> bounce_at (engine w) bq d -> p <> bq -> q <> bq ->
  cn_remote_comm_id m = sid -> msg_ok m -> cn_control_ep_names m !! 0%nat = Some name ->
  wp (connect (mk_conn_handle name lid (Some sid) p COMM_CONN_REQ_PENDING)) (fun r w' =>
    r = (0, mk_conn_handle name lid (Some sid) NULL COMM_CONNECTED, Some sid) /\ ready w' S /\
    connected_to addr (engine w') sid m) w.
Proof.
  intros Hr [(s & rail & lep & Hs & Hsq & Hinit & Hlr & Hcr & Hrail) (rp & Hrp & Htp & Hcp & Hnp & Hsp) (rq & Hrq & Htq & Hcq' & Hnq & Hstq) (Hpq & Hp & Hq)]
    Hcq Hsent Hf Harr Hb Hpb Hqb Hmid Hm Hname.
  destruct (completed_once rp Hnp (or_introl Hsp)) as (Hdp & Htp' & Hcp'). destruct (completed_once rq Hnq (or_introl Hstq)) as (Hdq & Htq' & Hcq'').
  unfold connect. cbn [h_stage h_comm h_req]. wp_simpl. eapply wp_of_option; [done|]. unfold connect_req_pending. wp_simpl. apply lift_wp.
  pose proof co_rails as Hrails. eapply wp_mono.
  { eapply (resp_arrives co_fabric); [exact Hcq|apply (rd_pending _ _ Hr)|lia|exact Hsent|exact Hf|exact Harr|exact Hb| |rewrite Hsq; exact Hq|rewrite Hsq; exact Hrq|exact Hrp|exact Htp|exact Hpb|congruence|congruence].
    rewrite Hmid. exact Hs. }
  intros rc e3 (-> & Hcq3 & Hp3 & Hq3 & Hquiet). rewrite Hsq in Hq3, Hquiet. cbn [Z.eqb negb]. wp_simpl. apply lift_wp. eapply get_req_wp; [exact Hp3|].
  unfold is_state. rewrite bool_decide_true by done. cbn [negb]. wp_simpl. apply lift_wp.
  assert (comms e3 !! sid = Some (SendComm (set_s_conn_msg (Some m) s))) as Hc3.
  { rewrite (qt_comms _ _ _ Hquiet). cbn. by rewrite Hmid, lookup_insert_eq. }
  eapply free_conn_req_wp; [exact Hp3|exact Hp|left; rewrite Htp'; exact Htp|rewrite Hcp'; exact Hcp|exact Hc3|].
  intros e4 Hreqs4 Hc4 Hra4 Hco4 Hpe4 Hcq4. unfold connect_recv_conn. wp_simpl. apply lift_wp.
  eapply get_send_comm_wp; [cbn; rewrite Hc4; by rewrite lookup_insert_eq|]. wp_simpl. apply wp_assert; [apply Z.ltb_lt; lia|].
  unfold connect_resp_pending. wp_simpl. apply lift_wp. apply process_cq_idle.
  { etrans; [exact Hcq4|exact Hcq3]. }
  { etrans; [exact Hpe4|]. etrans; [exact (qt_pending _ _ _ Hquiet)|]. apply (rd_pending _ _ Hr). }
  intros e5 Hq5 Hcq5. cbn [Z.eqb negb]. wp_simpl. apply lift_wp.
  assert (comms e5 !! sid = Some (SendComm (set_s_fl (p :: s_reqs_fl s) (set_s_conn_msg (Some m) s)))) as Hc5.
  { rewrite (qt_comms _ _ _ Hq5). cbn. rewrite Hc4. by rewrite lookup_insert_eq. }
  assert (reqs e5 !! q = Some (count_completion sizeof_connection_info 1 rq)) as Hq5'.
  { rewrite (qt_reqs _ _ _ Hq5) by apply not_elem_of_nil. cbn. by rewrite Hreqs4, lookup_delete_ne by congruence. }
  eapply get_send_comm_wp; [exact Hc5|]. wp_simpl. apply lift_wp. eapply get_req_wp; [cbn; rewrite Hsq; exact Hq5'|].
  unfold is_state. rewrite bool_decide_true by done. cbn [negb]. wp_simpl.
  eapply wp_mono; [eapply (finish_connect_wp _ S sid _ m name q); [|exact Hc5|exact Hm|done| | |exact Hname| |done|exact Hsq|exact Hq|]|].
  - eapply ready_frame; [exact Hr|done|..]; cbn; destruct Hq5, Hquiet; cbn in *; congruence.
  - cbn. lia.
  - cbn. rewrite Hcr. cbn. rewrite length_replicate. pose proof co_control_rails. lia.
  - cbn. rewrite Hcr. cbn. by rewrite Hrail.
  - eexists. cbn. split; [exact Hq5'|]. split_and!; congruence.
  - intros rc w' (-> & Hr' & Hconn). cbn [Z.eqb negb]. wp_simpl. split; [done|]. split; [eapply ready_frame; [exact Hr'|done..]|exact Hconn].
Qed.

End SenderDone.

(** ** The listener *)

(** Listener [lid] with its request [p], nobody connected yet. *)
Definition listening (e : world) (lid p : Z) : Prop :=
  exists lc r, comms e !! lid = Some (ListenComm lc) /\ l_req lc = p /\ l_r_comm lc = None /\
    l_stage lc = COMM_CREATE_START /\ reqs e !! p = Some r /\ type r = NCCL_OFI_RDMA_RECV_CONN /\ comm r = Some lid /\
    ncompls r = 0 /\ state r = NCCL_OFI_RDMA_REQ_PENDING.

(** A receive communicator that is connected to the peer that sent [m]. *)
Definition accepted_from (addr : rail_ref -> list Z -> Z) (e : world) (rid : Z) (m : nccl_ofi_rdma_connection_info_t) : Prop :=
  exists r, comms e !! rid = Some (RecvComm r) /\ r_remote_comm_id r = cn_local_comm_id m /\
    leads_to addr DataRail (cn_ep_names m) (r_rails r) /\ leads_to addr ControlRail (cn_control_ep_names m) (r_control_rails r).

Section Listener.
Context {E : RdmaEnv} {N : ConnEnv} {addr : rail_ref -> list Z -> Z} {CO : Coop addr}.

Lemma get_listen_comm_wp w c l Q :
  comms w !! c = Some (ListenComm l) -> Q l w -> wp (rdma_device_get_listen_comm c) Q w.
Proof. intros H HQ. unfold rdma_device_get_listen_comm, rdma_device_get_comm. wp_simpl. eapply wp_of_option; [exact H|]. by wp_simpl. Qed.

Lemma get_recv_comm_wp w c r Q :
  comms w !! c = Some (RecvComm r) -> Q r w -> wp (rdma_device_get_recv_comm c) Q w.
Proof. intros H HQ. unfold wp. by rewrite (get_recv_comm_ok c w r H). Qed.

Lemma upd_listen_wp w c f l Q :
  comms (engine w) !! c = Some (ListenComm l) ->
  Q tt (w_engine (w_comms <[c := ListenComm (f l)]>) w) -> wp (upd_listen c f) Q w.
Proof.
  intros H HQ. unfold upd_listen. wp_simpl. apply lift_wp. eapply get_listen_comm_wp; [exact H|]. apply lift_wp.
  unfold rdma_device_set_comm. by wp_simpl.
Qed.

Lemma listen_wp w S p :
  ready w S -> S <> ∅ -> (forall h, listen_req h = p) ->
  wp listen (fun r w' => exists lid name, control_rail_names !! 0%nat = Some name /\
    r = (0, mk_conn_handle name lid None NULL COMM_CREATE_START, Some lid) /\ lid ∈ S /\ 0 <= lid < num_comm_ids /\
    ready w' (S ∖ {[lid]}) /\ listening (engine w') lid p /\ cq (engine w') = cq (engine w) /\
    rails (engine w') = rails (engine w) /\ control_rails (engine w') = control_rails (engine w) /\
    (forall x, x <> p -> reqs (engine w') !! x = reqs (engine w) !! x)) w.
Proof.
  intros Hr HS Hp. unfold listen. wp_simpl. destruct (control_rail_0 _ _ Hr) as [rail Hrail]. apply lift_wp.
  eapply get_rail_wp; [exact Hrail|]. wp_simpl. pose proof co_control_names as Hln. pose proof co_control_rails as Hcr.
  destruct (lookup_lt_is_Some_2 control_rail_names 0%nat) as [name Hname]; [lia|]. eapply wp_of_option; [exact Hname|]. wp_simpl.
  apply ask_wp. rewrite co_calloc. cbn [negb]. wp_simpl. eapply idpool_allocate_wp; [eapply ready_frame; [exact Hr|done..]|exact HS|].
  intros lid w1 Hin Hid Hr1 He1 _ _ _. destruct (Z.ltb_spec lid 0); [lia|]. unfold set_comm_at. wp_simpl. apply wp_assert.
  { pose proof co_ids. apply andb_true_iff. split; apply Z.ltb_lt; lia. }
  apply lift_wp. unfold rdma_device_set_comm, prepare_recv_conn_req, put_req. wp_simpl. apply lift_wp. wp_simpl. apply ask_wp.
  rewrite co_mutex. cbn [Z.opp Z.eqb negb]. wp_simpl. rewrite Hp. cbn in He1. exists lid, name.
  split; [done|]. split; [done|]. split; [done|]. split; [done|]. split; [eapply ready_frame; [exact Hr1|done..]|].
  split.
  { eexists _, _. cbn. rewrite He1. cbn. rewrite !lookup_insert_eq. by split_and!. }
  cbn. rewrite He1. cbn. split_and!; try done. intros x Hx. by rewrite lookup_insert_ne.
Qed.

Lemma init_recv_rails_wp S ref total names n : forall i w,
  ready w S -> (ref = DataRail /\ total = num_rails \/ ref = ControlRail /\ total = num_control_rails) ->
  0 <= i -> i + Z.of_nat n = total -> Z.of_nat (length names) = total ->
  wp (init_recv_rails n i ref names) (fun o w' => exists rs, o = Some rs /\ ready w' S /\ engine w' = engine w /\ comm_idpool w' = comm_idpool w /\
     forall j name, names !! (Z.to_nat i + j)%nat = Some name ->
       cr_remote_addr <$> rs !! j = Some (addr (ref (i + Z.of_nat j)) name)) w.
Proof.
  induction n as [|n IH]; intros i w Hr Href Hi Hn Hln; cbn [init_recv_rails].
  { wp_simpl. exists []. split_and!; try done. intros j name Hj%lookup_lt_Some. lia. }
  wp_simpl. destruct (rail_there w S ref i Hr) as [rail Hrail]; [destruct Href as [[-> ->]|[-> ->]]; [left|right]; (split; [done|lia])|].
  apply lift_wp. eapply get_rail_wp; [exact Hrail|]. wp_simpl.
  destruct (lookup_lt_is_Some_2 names (Z.to_nat i)) as [name Hname]; [lia|]. eapply wp_of_option; [exact Hname|]. wp_simpl.
  unfold fi_av_insert. apply ask_wp. rewrite co_av. cbn [Z.eqb Pos.eqb negb]. wp_simpl.
  assert (is_Some (ep_name_at (ref i))) as [ln Hl].
  { pose proof co_names. pose proof co_control_names. destruct Href as [[-> ->]|[-> ->]]; cbn; apply lookup_lt_is_Some_2; lia. }
  eapply wp_of_option; [exact Hl|]. wp_simpl. apply ask_wp. rewrite co_av. cbn [Z.eqb Pos.eqb negb]. wp_simpl.
  eapply wp_mono; [eapply (IH (i + 1)); [eapply ready_frame; [exact Hr|done..]|exact Href|lia|lia|exact Hln]|].
  intros o w' (rs & -> & Hr' & He & Hi' & Hrs). wp_simpl. eexists. split; [done|]. split_and!; try done. intros [|j] nm Hj.
  - rewrite Nat.add_0_r, Hname in Hj. simplify_eq. cbn. by rewrite Z.add_0_r.
  - specialize (Hrs j nm). replace (Z.to_nat (i + 1) + j)%nat with (Z.to_nat i + Datatypes.S j)%nat in Hrs by lia.
    etrans; [exact (Hrs Hj)|]. do 3 f_equal. lia.
Qed.

End Listener.

Section ListenerAccept.
Context {E : RdmaEnv} {N : ConnEnv} {addr : rail_ref -> list Z -> Z} {CO : Coop addr}.

Lemma flush_buff_wp w (Q : Z * nccl_net_ofi_rdma_flush_buffer_t -> cworld -> Prop) :
  (forall fb w', engine w' = engine w -> comm_idpool w' = comm_idpool w -> Q (0, fb) w') ->
  wp (if flush_buff_enabled then alloc_and_reg_flush_buff else ret (0, mk_flush_buffer NULL 0 (mk_mr_handle [] []))) Q w.
Proof.
  intros HQ. destruct flush_buff_enabled; [|wp_simpl; by apply HQ]. unfold alloc_and_reg_flush_buff. wp_simpl.
  pose proof co_page. pose proof co_line. pose proof co_rails. apply wp_assert; [apply Z.leb_le; lia|]. wp_simpl. apply ask_wp.
  destruct (co_flush_alloc (calls w)) as [a ->]. cbn [Z.eqb negb]. wp_simpl. apply wp_assert; [apply Z.leb_le; lia|].
  destruct local_mr; wp_simpl; [|by apply HQ]. apply ask_wp.
  match goal with |- context [flush_reg ?h] => destruct (co_flush_reg h) as [hd ->] end. cbn [Z.eqb negb]. wp_simpl. by apply HQ.
Qed.

Lemma prepare_recv_comm_wp w S m (Q : option Z -> cworld -> Prop) :
  ready w S -> S <> ∅ -> msg_ok m ->
  (forall rid r w', rid ∈ S -> 0 <= rid -> ready w' (S ∖ {[rid]}) -> engine w' = w_comms <[rid := RecvComm r]> (engine w) ->
     r_remote_comm_id r = cn_local_comm_id m -> leads_to addr DataRail (cn_ep_names m) (r_rails r) ->
     leads_to addr ControlRail (cn_control_ep_names m) (r_control_rails r) -> Q (Some rid) w') ->
  wp (prepare_recv_comm m) Q w.
Proof.
  intros Hr HS [] HQ. unfold prepare_recv_comm. pose proof co_rails. pose proof co_control_rails.
  destruct (Z.ltb_spec num_rails 1); [lia|]. destruct (Z.ltb_spec num_control_rails 1); [lia|].
  unfold calloc_rdma_recv_comm. wp_simpl. apply ask_wp. rewrite co_calloc. cbn [negb]. wp_simpl. apply ask_wp.
  rewrite co_calloc. cbn [negb]. apply ask_wp. rewrite co_calloc. cbn [negb]. wp_simpl. apply ask_wp. rewrite co_mutex. cbn [Z.eqb negb]. wp_simpl.
  eapply idpool_allocate_wp; [eapply ready_frame; [exact Hr|done..]|exact HS|]. intros rid w1 Hin Hid Hr1 He1 _ _ _. cbn in He1.
  destruct (Z.ltb_spec rid 0); [lia|]. destruct (Z.geb_spec (cn_local_comm_id m) num_comm_ids); [lia|]. wp_simpl.
  eapply wp_mono; [eapply (init_recv_rails_wp (S ∖ {[rid]}) ControlRail num_control_rails); [exact Hr1|by right|lia|lia|done]|].
  intros o w2 (control & -> & Hr2 & He2 & Hi2 & Hcl). wp_simpl.
  eapply wp_mono; [eapply (init_recv_rails_wp (S ∖ {[rid]}) DataRail num_rails); [exact Hr2|by left|lia|lia|done]|].
  intros o w3 (data & -> & Hr3 & He3 & Hi3 & Hdl). wp_simpl. apply ask_wp.
  destruct (co_pool (calls w3)) as [fl ->]. cbn [Z.eqb negb]. wp_simpl. apply flush_buff_wp. intros fb w4 He4 Hi4. cbn [Z.eqb negb].
  wp_simpl. eapply msgbuff_init_wp. intros mb. wp_simpl. apply ask_wp.
  match goal with |- context [pool_init ?h] => destruct (co_pool h) as [cfl ->] end. cbn [Z.eqb negb]. unfold set_comm_at. wp_simpl. apply wp_assert.
  { pose proof co_ids. apply andb_true_iff. split; apply Z.ltb_lt; lia. }
  apply lift_wp. unfold rdma_device_set_comm. wp_simpl. cbn in He4, Hi4.
  eapply HQ; [exact Hin|lia| | | | |].
  - eapply ready_frame; [exact Hr3|..]; cbn; by rewrite ?Hi4, ?He4.
  - cbn. by rewrite He4, He3, He2, He1.
  - done.
  - intros j nm Hj. apply (Hdl j nm). exact Hj.
  - intros j nm Hj. apply (Hcl j nm). exact Hj.
Qed.

End ListenerAccept.

(** Listener [lid] has answered the connect message for communicator [rid]. *)
Definition answering (e : world) (lid rid p : Z) : Prop :=
  exists lc r, comms e !! lid = Some (ListenComm lc) /\ l_req lc = p /\ l_r_comm lc = Some rid /\
    l_stage lc = COMM_CONN_RESP_REQ_PENDING /\ reqs e !! p = Some r /\ type r = NCCL_OFI_RDMA_SEND_CONN_RESP /\
    ncompls r = 0 /\ state r = NCCL_OFI_RDMA_REQ_PENDING.

Section ListenerDone.
Context {E : RdmaEnv} {N : ConnEnv} {addr : rail_ref -> list Z -> Z} {CO : Coop addr}.

(** The answer goes out. *)
Lemma accept_send_conn_wp w S lid rid p lc r m resp :
  ready w S -> comms (engine w) !! lid = Some (ListenComm lc) -> l_req lc = p -> l_r_comm lc = Some rid ->
  l_conn_msg lc = Some resp -> reqs (engine w) !! p = Some r -> type r = NCCL_OFI_RDMA_SEND_CONN_RESP -> ncompls r = 0 ->
  accepted_from addr (engine w) rid m -> msg_ok m -> cq (engine w) = [] -> rid <> lid ->
  wp (accept_send_conn lid rid p) (fun res w' => res = (0, None) /\ ready w' S /\ answering (engine w') lid rid p /\
    accepted_from addr (engine w') rid m /\ cq (engine w') = [] /\
    exists lep a, (fi_send_conn lep (BmConnResp resp) sizeof_connection_info a p, 0) ∈ log (engine w')) w.
Proof.
  intros Hr Hlc Hp Hrc Hmsg Hreq Ht Hn (rcm & Hrid & Hrem & Hld & Hlc') Hm Hcq Hne.
  unfold accept_send_conn. wp_simpl. apply lift_wp. eapply get_listen_comm_wp; [exact Hlc|]. wp_simpl. eapply wp_of_option; [exact Hmsg|].
  unfold post_send_conn_resp. wp_simpl. apply lift_wp. eapply get_recv_comm_wp; [exact Hrid|]. wp_simpl. apply lift_wp.
  destruct Hm. pose proof co_control_rails. destruct (lookup_lt_is_Some_2 (cn_control_ep_names m) 0%nat) as [nm Hnm]; [lia|].
  pose proof (Hlc' _ _ Hnm) as Hr0. apply fmap_Some in Hr0 as (rail0 & Hr0 & _).
  unfold rdma_recv_comm_get_control_rail, rail_at. wp_simpl. apply wp_assert; [done|]. eapply wp_of_option; [exact Hr0|]. wp_simpl.
  apply lift_wp. eapply upd_req_wp; [exact Hreq|]. wp_simpl. apply lift_wp. unfold post. wp_simpl. rewrite co_fabric.
  change (0 =? - FI_EAGAIN) with false. cbn [Z.eqb negb]. wp_simpl. change (0 =? - FI_EAGAIN) with false. cbn [Z.eqb negb]. wp_simpl.
  eapply upd_listen_wp; [exact Hlc|]. unfold accept_resp_pending. wp_simpl. apply lift_wp. apply process_cq_idle; [exact Hcq|apply (rd_pending _ _ Hr)|].
  intros e2 Hq Hcq2. cbn [Z.eqb negb]. wp_simpl. apply lift_wp.
  assert (reqs e2 !! p = Some (set_state NCCL_OFI_RDMA_REQ_PENDING r)) as Hreq2.
  { rewrite (qt_reqs _ _ _ Hq) by apply not_elem_of_nil. cbn. by rewrite lookup_insert_eq. }
  eapply get_req_wp; [exact Hreq2|]. unfold is_state. rewrite bool_decide_false by done. cbn [negb]. wp_simpl.
  split; [done|]. split; [|split; [|split; [|split]]].
  - eapply ready_frame; [exact Hr|done|..]; cbn; destruct Hq; cbn in *; congruence.
  - exists (set_l_stage COMM_CONN_RESP_REQ_PENDING lc), (set_state NCCL_OFI_RDMA_REQ_PENDING r). cbn.
    rewrite (qt_comms _ _ _ Hq), Hreq2. cbn. rewrite lookup_insert_eq. by split_and!.
  - exists rcm. cbn. rewrite (qt_comms _ _ _ Hq). cbn. by rewrite lookup_insert_ne by congruence.
  - done.
  - eexists _, _. eapply elem_of_prefix; [|exact (qt_log _ _ _ Hq)]. cbn. apply elem_of_app. right. left.
Qed.

(** The first call of accept, with the connect message there. *)
Lemma accept_first w S lid p ev bq d m :
  ready w S -> S <> ∅ -> lid ∉ S -> listening (engine w) lid p -> cq (engine w) = [CqEntries [ev]] ->
  arrival ev bq (BmConn m) -> bounce_at (engine w) bq d -> p <> bq -> cn_remote_comm_id m = lid -> msg_ok m ->
  wp (accept lid) (fun res w' => res = (0, None) /\ exists rid lep a, rid ∈ S /\ 0 <= rid < num_comm_ids /\ ready w' (S ∖ {[rid]}) /\
    answering (engine w') lid rid p /\ accepted_from addr (engine w') rid m /\ cq (engine w') = [] /\
    (fi_send_conn lep (BmConnResp (prepare_send_connect_message rid (cn_local_comm_id m))) sizeof_connection_info a p, 0)
      ∈ log (engine w')) w.
Proof.
  intros Hr HS Hl (lc & r & Hlc & Hlp & Hlr & Hst & Hreq & Ht & Hc & Hn & Hs) Hcq Harr Hb Hpb Hmid Hm. pose proof Hm as [].
  unfold accept. wp_simpl. apply lift_wp. eapply get_listen_comm_wp; [exact Hlc|]. rewrite Hlr, Hst. wp_simpl.
  eapply upd_listen_wp; [exact Hlc|]. unfold accept_req_pending. wp_simpl. apply lift_wp. pose proof co_rails.
  eapply wp_mono; [eapply (conn_arrives co_fabric); [exact Hcq|apply (rd_pending _ _ Hr)|lia|exact Harr|exact Hb|cbn; rewrite Hmid; by rewrite lookup_insert_eq|cbn; rewrite Hlp; exact Hreq|cbn; congruence]|].
  intros rc e2 (-> & Hcq2 & Hreq2 & Hq2). cbn in Hreq2. rewrite Hlp in *. destruct (completed_once r Hn (or_intror Hs)) as (Hd & Ht' & Hc').
  cbn [Z.eqb negb]. wp_simpl. apply lift_wp. eapply get_req_wp; [exact Hreq2|]. unfold is_state. rewrite bool_decide_true by done. cbn [negb]. wp_simpl.
  set (lc2 := set_l_conn_msg (Some m) _) in Hq2.
  assert (comms e2 !! lid = Some (ListenComm lc2)) as Hlc2.
  { rewrite (qt_comms _ _ _ Hq2). cbn. by rewrite Hmid, lookup_insert_eq. }
  apply lift_wp. eapply get_listen_comm_wp; [exact Hlc2|]. wp_simpl. eapply wp_of_option; [done|]. rewrite mo_rails0, mo_control0, !Z.eqb_refl.
  cbn [negb]. wp_simpl. eapply prepare_recv_comm_wp; [|exact HS|exact Hm|].
  { eapply ready_frame; [exact Hr|done|..]; cbn; destruct Hq2; cbn in *; congruence. }
  intros rid rcm w3 Hin Hrid Hr3 He3 Hrem Hld Hlcl. cbn in He3. assert (rid <> lid) as Hne by (by intros ->). wp_simpl.
  assert (comms (engine w3) !! lid = Some (ListenComm lc2)) as Hlc3 by (rewrite He3; cbn; by rewrite lookup_insert_ne).
  eapply upd_listen_wp; [exact Hlc3|]. wp_simpl. unfold prepare_send_conn_resp_req. wp_simpl. apply lift_wp.
  eapply get_req_wp; [cbn; rewrite He3; exact Hreq2|]. wp_simpl. apply wp_assert; [unfold is_type; rewrite bool_decide_true; [done|congruence]|].
  apply lift_wp. unfold put_req. wp_simpl. unfold prepare_conn_resp. wp_simpl. pose proof co_control_rails.
  apply wp_assert; [apply Z.leb_le; lia|]. wp_simpl. apply wp_assert; [apply Z.leb_le; lia|]. wp_simpl. apply lift_wp.
  eapply get_recv_comm_wp; [cbn; rewrite He3; cbn; by rewrite lookup_insert_ne, lookup_insert_eq by congruence|]. wp_simpl.
  eapply upd_listen_wp; [cbn; by rewrite lookup_insert_eq|]. rewrite Hrem.
  eapply wp_mono; [eapply (accept_send_conn_wp _ (S ∖ {[rid]}) lid rid p _ _ m); [|cbn; by rewrite lookup_insert_eq|done|done|done|cbn; by rewrite lookup_insert_eq|done|done| |exact Hm| |exact Hne]|].
  - eapply ready_frame; [exact Hr3|done..].
  - exists rcm. cbn. rewrite !lookup_insert_ne by congruence. rewrite He3. cbn. rewrite lookup_insert_eq. done.
  - cbn. by rewrite He3.
  - intros res w' (-> & Hr' & Hans & Hacc & Hcq' & lep & a & Hlog). split; [done|]. exists rid, lep, a.
    pose proof (rd_pool _ _ Hr) as (ws & _ & Hids). pose proof (rd_size _ _ Hr). split_and!; try done. apply Hids in Hin. lia.
Qed.

(** The second call, when the answer has gone out. *)
Lemma accept_second w S lid rid p ev m :
  ready w S -> answering (engine w) lid rid p -> accepted_from addr (engine w) rid m -> rid <> lid ->
  cq (engine w) = [CqEntries [ev]] -> sent ev p -> f_recv ev = false ->
  wp (accept lid) (fun res w' => res = (0, Some rid) /\ accepted_from addr (engine w') rid m) w.
Proof.
  intros Hr (lc & r & Hlc & Hlp & Hlr & Hst & Hreq & Ht & Hn & Hs) (rcm & Hrid & Hrest) Hne Hcq Hsent Hf.
  unfold accept. wp_simpl. apply lift_wp. eapply get_listen_comm_wp; [exact Hlc|]. rewrite Hlr, Hst, Hlp. wp_simpl. apply lift_wp.
  eapply get_recv_comm_wp; [exact Hrid|]. wp_simpl. eapply wp_of_option; [done|]. unfold accept_resp_pending. wp_simpl. apply lift_wp.
  pose proof co_rails. eapply wp_mono; [eapply sent_arrives; [exact Hcq|apply (rd_pending _ _ Hr)|lia|exact Hsent|exact Hf|exact Hreq|by right]|].
  intros rc e2 (-> & Hcq2 & Hreq2 & Hq2). destruct (completed_once r Hn (or_intror Hs)) as (Hd & _).
  cbn [Z.eqb negb]. wp_simpl. apply lift_wp. eapply get_req_wp; [exact Hreq2|]. unfold is_state. rewrite bool_decide_true by done. cbn [negb]. wp_simpl.
  assert (comms e2 !! lid = Some (ListenComm lc)) as Hlc2 by (rewrite (qt_comms _ _ _ Hq2); exact Hlc).
  eapply upd_listen_wp; [exact Hlc2|]. unfold accept_exit, close_listen_recv_comm. wp_simpl. apply lift_wp.
  eapply get_listen_comm_wp; [cbn; by rewrite lookup_insert_eq|]. wp_simpl. apply lift_wp. eapply get_req_wp; [cbn; rewrite Hlp; exact Hreq2|].
  unfold is_state. rewrite bool_decide_false by (by rewrite Hd). wp_simpl. cbn [l_r_comm set_l_stage set_l_r_comm Z.eqb negb]. wp_simpl.
  cbn [Z.eqb negb]. eapply wp_bind. eapply upd_listen_wp; [cbn; by rewrite lookup_insert_eq|]. wp_simpl. split; [done|].
  exists rcm. cbn. rewrite !lookup_insert_ne by congruence. rewrite (qt_comms _ _ _ Hq2). by split.
Qed.

End ListenerDone.

(** ** The handshake *)

(** The completions of a message that arrived and of one that went out. *)
Definition recv_entry (bq : Z) (m : bounce_msg) : fi_cq_data_entry :=
  mk_cqe bq false true false false false false sizeof_connection_info 0 m.
Definition send_entry (p : Z) : fi_cq_data_entry := mk_cqe p true false false false false false 0 0 BmData.

(** The completion queue of a node gets entries. *)
Definition arrive (es : list fi_cq_data_entry) (w : cworld) : cworld := w_engine (w_cq (fun _ => [CqEntries es])) w.

(** A node has sent message [m] with request [p]. *)
Definition has_sent (w : cworld) (m : bounce_msg) (p : Z) : Prop :=
  exists ep a, (fi_send_conn ep m sizeof_connection_info a p, 0) ∈ log (engine w).

Lemma ready_arrive `{RdmaEnv} `{ConnEnv} es w S : ready w S -> ready (arrive es w) S.
Proof. by intros []. Qed.

Lemma bounce_at_same `{RdmaEnv} w w' bq d :
  reqs w' !! bq = reqs w !! bq -> rails w' = rails w -> control_rails w' = control_rails w ->
  bounce_at w bq d -> bounce_at w' bq d.
Proof.
  intros Hq Hr Hc (r & rail & mrh & Hb & H1 & H2 & Hrail & H3 & H4 & H5). exists r, rail, mrh. unfold rail_of in *. rewrite Hq, Hr, Hc. by split_and!.
Qed.

(** A message of one node is well formed for a node with the same rails. *)
Lemma msg_ok_sent {E1 E2 : RdmaEnv} {N1 N2 : ConnEnv} {a1} {C1 : @Coop E1 N1 a1} id rid :
  @num_rails E1 = @num_rails E2 -> @num_control_rails E1 = @num_control_rails E2 -> 0 <= id < @num_comm_ids N2 ->
  @msg_ok E2 N2 (@prepare_send_connect_message E1 N1 id rid).
Proof.
  intros Hr Hc Hid. pose proof (@co_names _ _ _ C1). pose proof (@co_control_names _ _ _ C1).
  constructor; cbn; try done; rewrite length_take; lia.
Qed.

Lemma one_id_left (S : gset Z) x : (1 < base.size S)%nat -> S ∖ {[x]} <> ∅.
Proof.
  intros Hs He. assert (S ⊆ {[x]}) as Hsub%subseteq_size.
  { intros y Hy. destruct (decide (y = x)) as [->|Hne]; [by apply elem_of_singleton|]. exfalso. apply (not_elem_of_empty (C := gset Z) y).
    rewrite <- He. by apply elem_of_difference; rewrite not_elem_of_singleton. }
  rewrite size_singleton in Hsub. lia.
Qed.

Lemma id_taken (S : gset Z) x : x ∉ S ∖ {[x]}.
Proof. rewrite elem_of_difference, elem_of_singleton. tauto. Qed.

Lemma id_other (S : gset Z) x y : y ∈ S ∖ {[x]} -> y <> x.
Proof. rewrite elem_of_difference, elem_of_singleton. tauto. Qed.

Section Handshake.
Context {ES EL : RdmaEnv} {NS NL : ConnEnv} {addrS addrL : rail_ref -> list Z -> Z}.
Context {CS : @Coop ES NS addrS} {CL : @Coop EL NL addrL}.
Context (same_rails : @num_rails ES = @num_rails EL) (same_control : @num_control_rails ES = @num_control_rails EL)
  (same_ids : @num_comm_ids NS = @num_comm_ids NL).

(** C11. The connection handshake of the RDMA protocol. A listener listens, a
    sender connects with its handle, the connect message arrives at the listener,
    accept answers it, the answer arrives at the sender, connect finishes and so
    does accept, with what the other node sent as the only link between the two.
    Every call succeeds, the calls that have to wait report no communicator, and
    at the end both nodes have one: each knows the communicator ID of the other,
    and every data and control rail leads to the endpoint of the same rail of the
    other node. The calls outside the plug-in succeed on both nodes, which have the
    same numbers of rails and IDs. *)
Theorem rdma_handshake ws Ss wl Sl p q l lp bs ds bl dl :
  @ready ES NS ws Ss -> Ss <> ∅ -> cq (engine ws) = [] -> (forall h, @pool_init NS h = (0, p :: q :: l)) ->
  NoDup [p; q; bs] -> NULL ∉ [p; q; bs] -> bounce_at (H := ES) (engine ws) bs ds ->
  @ready EL NL wl Sl -> (1 < base.size Sl)%nat -> cq (engine wl) = [] ->
  (forall h, @listen_req NL h = lp) -> NoDup [lp; bl] -> NULL ∉ [lp; bl] -> bounce_at (H := EL) (engine wl) bl dl ->
  exists lid sid rid h h1 h2 m m' wl1 ws1 wl2 ws2 wl3,
    @listen EL NL wl = Some ((0, h, Some lid), wl1) /\
    @connect ES NS h ws = Some ((0, h1, None), ws1) /\ has_sent ws1 (BmConn m) p /\
    @accept EL NL lid (arrive [recv_entry bl (BmConn m)] wl1) = Some ((0, None), wl2) /\ has_sent wl2 (BmConnResp m') lp /\
    @connect ES NS h1 (arrive [send_entry p; recv_entry bs (BmConnResp m')] ws1) = Some ((0, h2, Some sid), ws2) /\
    @accept EL NL lid (arrive [send_entry lp] wl2) = Some ((0, Some rid), wl3) /\
    m = @prepare_send_connect_message ES NS sid lid /\ m' = @prepare_send_connect_message EL NL rid sid /\
    connected_to addrS (engine ws2) sid m' /\ accepted_from addrL (engine wl3) rid m.
Proof.
  intros Hrs HSs Hcqs Hpool (Hpl & (Hql & _)%NoDup_cons)%NoDup_cons Hnull Hbs Hrl HSl Hcql Hlp (Hlpb & _)%NoDup_cons Hnull' Hbl.
  rewrite !not_elem_of_cons in *. destruct Hpl as (Hpq & Hpb & _), Hql as (Hqb & _), Hnull as (Hp0%not_eq_sym & Hq0%not_eq_sym & Hb0%not_eq_sym & _), Hnull' as (Hlp0%not_eq_sym & Hlb0%not_eq_sym & _), Hlpb as (Hlb & _).
  assert (Sl <> ∅) as HSl0 by (intros ->; rewrite size_empty in HSl; lia).
  destruct (proj1 (wp_run _ _ _) (listen_wp (CO := CL) wl Sl lp Hrl HSl0 Hlp))
    as (r1 & wl1 & Hlisten & lid & name & Hname & -> & Hlid & Hlidr & Hrl1 & Hlst & Hcql1 & Hrails1 & Hcr1 & Hreqs1).
  destruct (proj1 (wp_run _ _ _) (connect_first (CO := CS) ws Ss name lid p q l Hrs HSs (eq_ind_r (fun n => 0 <= lid < n) Hlidr same_ids) Hcqs Hpool Hpq Hp0 Hq0))
    as (r2 & ws1 & Hconn & sid & lep & -> & Hsid & Hsid0 & Hrs1 & Haw & Hcqs1 & Hsent & Hreqs2 & Hrails2 & Hcr2).
  assert (0 <= sid < @num_comm_ids NS) as Hsidr.
  { pose proof (rd_pool _ _ Hrs) as (ws' & _ & Hids). rewrite <- (rd_size _ _ Hrs). apply Hids in Hsid. lia. }
  set (m := prepare_send_connect_message sid lid) in *.
  destruct (proj1 (wp_run _ _ _) (accept_first (CO := CL) (arrive [recv_entry bl (BmConn m)] wl1) (Sl ∖ {[lid]}) lid lp (recv_entry bl (BmConn m)) bl dl m
    (ready_arrive _ _ _ Hrl1) (one_id_left _ lid HSl) (id_taken _ _) Hlst eq_refl ltac:(by split_and!)
    ltac:(eapply bounce_at_same, Hbl; [by apply Hreqs1|done|done]) Hlb eq_refl
    ltac:(apply (msg_ok_sent (C1 := CS)); [done|done|by rewrite <- same_ids])))
    as (r3 & wl2 & Hacc & -> & rid & lep' & a' & Hrid & Hridr & Hrl2 & Hans & Hacc2 & Hcql2 & Hsent2).
  set (m' := prepare_send_connect_message rid sid) in *.
  destruct (proj1 (wp_run _ _ _) (connect_second (CO := CS) (arrive [send_entry p; recv_entry bs (BmConnResp m')] ws1) (Ss ∖ {[sid]}) name lid sid p q
    (send_entry p) (recv_entry bs (BmConnResp m')) bs ds m' (ready_arrive _ _ _ Hrs1)
    ltac:(destruct Haw; by constructor) eq_refl ltac:(by split_and!) eq_refl ltac:(by split_and!)
    ltac:(eapply bounce_at_same, Hbs; [by apply Hreqs2|done|done]) Hpb Hqb eq_refl
    ltac:(apply (msg_ok_sent (C1 := CL)); [done|done|by rewrite same_ids])
    ltac:(cbn; pose proof (@co_control_rails _ _ _ CL); rewrite lookup_take_lt; [done|lia])))
    as (r4 & ws2 & Hconn2 & -> & _ & Hdone).
  destruct (proj1 (wp_run _ _ _) (accept_second (CO := CL) (arrive [send_entry lp] wl2) _ lid rid lp (send_entry lp) m
    (ready_arrive _ _ _ Hrl2) Hans Hacc2 (id_other _ _ _ Hrid) eq_refl ltac:(by split_and!) eq_refl))
    as (r5 & wl3 & Hacc3 & -> & Hend).
  exists lid, sid, rid. do 10 eexists. split_and!; [exact Hlisten|exact Hconn|by eexists _, _|exact Hacc|by eexists _, _|exact Hconn2|exact Hacc3|done|done|exact Hdone|exact Hend].
Qed.
End Handshake.

(** Two nodes with two rails each, 64 communicator IDs, and a bounce buffer, 900. *)
Definition node_conn_env (host : Z) : ConnEnv := {|
  rail_names := [[host; 1]; [host; 2]]; control_rail_names := [[host; 3]]; num_comm_ids := 64; page_size := 4096;
  flush_buff_enabled := true; local_mr := false; calloc_ok := fun _ => true; listen_req := fun _ => 800;
  mutex_init_code := fun _ => 0; mutex_destroy_code := fun _ => 0;
  av_insert := fun _ ref name => (1, nth 0 name 0 * 1000 + nth 1 name 0);
  pool_init := fun _ => (0, [500; 501; 502]); pool_fini := fun _ => 0; mb_malloc := fun _ => true;
  mb_malloc_buff := fun _ n => Msgbuff.malloc_example n; mb_mutex := fun _ => 0; flush_alloc := fun _ => (0, 4096);
  flush_reg := fun _ => (0, ex_handle); flush_dereg := fun _ => 0; flush_dealloc := fun _ => 0; ep_free := fun _ => 0;
|}.

Definition node_addr (_ : rail_ref) (name : list Z) : Z := nth 0 name 0 * 1000 + nth 1 name 0.

Lemma node_coop host : @Coop (ex_env []) (node_conn_env host) node_addr.
Proof.
  constructor; cbn; try done; try (intros; by eexists).
  intros l op. by destruct (length l).
Qed.

Definition node_bounce : rdma_req_bounce_data_t := mk_bounce_data 950 8192 0 (DataRail 0).
Definition node_world : cworld :=
  mk_cworld (mk_world {[ 900 := mk_req None 0 0 0 (BounceData node_bounce) 0 NCCL_OFI_RDMA_REQ_CREATED NCCL_OFI_RDMA_BOUNCE ]}
      ∅ ∅ ∅ ∅ ∅ [mk_rail 31 1 1 2; mk_rail 32 1 1 2] [mk_rail 33 1 1 2] [] ex_sched [] [] [] [])
    (Idpool.nccl_ofi_idpool_init Idpool.garbage_malloc 0 (Idpool.mk_idpool 0 None) 64).2 1 0 [] [] [].

Lemma node_ready host : @ready (ex_env []) (node_conn_env host) node_world (Idpool.all_ids 64).
Proof.
  destruct (Idpool.idpool_init_rel Idpool.garbage_malloc [2 ^ 64 - 1] (Idpool.mk_idpool 0 None) 64) as (_ & Hrel & Hsz);
    [lia|reflexivity|reflexivity|repeat constructor; cbn; lia|].
  constructor; [exact Hrel|exact Hsz|reflexivity|reflexivity|reflexivity].
Qed.

Lemma node_bounce_at : bounce_at (H := ex_env []) (engine node_world) 900 node_bounce.
Proof. eexists _, _, 1. split_and!; try reflexivity; cbn; lia. Qed.

Lemma rdma_handshake_witness :
  exists lid sid rid h h1 h2 m m' wl1 ws1 wl2 ws2 wl3,
    @listen (ex_env []) (node_conn_env 2) node_world = Some ((0, h, Some lid), wl1) /\
    @connect (ex_env []) (node_conn_env 1) h node_world = Some ((0, h1, None), ws1) /\
    @accept (ex_env []) (node_conn_env 2) lid (arrive [recv_entry 900 (BmConn m)] wl1) = Some ((0, None), wl2) /\
    @connect (ex_env []) (node_conn_env 1) h1 (arrive [send_entry 500; recv_entry 900 (BmConnResp m')] ws1) = Some ((0, h2, Some sid), ws2) /\
    @accept (ex_env []) (node_conn_env 2) lid (arrive [send_entry 800] wl2) = Some ((0, Some rid), wl3) /\
    cn_ep_names m' = [[2; 1]; [2; 2]] /\ connected_to node_addr (engine ws2) sid m' /\ accepted_from node_addr (engine wl3) rid m.
Proof.
  destruct (@rdma_handshake (ex_env []) (ex_env []) (node_conn_env 1) (node_conn_env 2) node_addr node_addr (node_coop 1) (node_coop 2)
    eq_refl eq_refl eq_refl node_world (Idpool.all_ids 64) node_world (Idpool.all_ids 64) 500 501 [502] 800 900 node_bounce 900 node_bounce)
    as (lid & sid & rid & h & h1 & h2 & m & m' & wl1 & ws1 & wl2 & ws2 & wl3 & H1 & H2 & _ & H3 & _ & H4 & H5 & _ & Hm' & H6 & H7);
    [apply node_ready|vm_compute; discriminate|reflexivity|reflexivity|apply (bool_decide_unpack _); vm_compute; exact I
    |apply (bool_decide_unpack _); vm_compute; exact I|apply node_bounce_at|apply node_ready|vm_compute; lia|reflexivity|reflexivity
    |apply (bool_decide_unpack _); vm_compute; exact I|apply (bool_decide_unpack _); vm_compute; exact I|apply node_bounce_at|].
  exists lid, sid, rid, h, h1, h2, m, m', wl1, ws1, wl2, ws2, wl3. split_and!; try assumption. rewrite Hm'. reflexivity.
Defined.

End RdmaHandshake.
