(* ===== verification/RdmaClose.v ===== *)
(** * Closing RDMA communicators, and set-ups that fail

    The end of a communicator's life: destruction returns its ID and its reference
    to the endpoint, and the close of the last communicator empties the clean-up
    lists. The second half states what failed calls of connect and accept leave
    behind. The functions are those of RdmaConn.v. *)

From S2P Require Import Prelude StateM NetTypes Allocator Idpool Msgbuff RdmaWire RdmaState RdmaPost RdmaProgress RdmaComm RdmaConn RdmaHandshake.
Import RdmaWire RdmaHandshake.

Module RdmaClose.

(** ** IDs and communicators are given back *)

(** The calls of a close that are outside the plug-in succeed. *)
Class CloseOk `{ConnEnv} : Prop := {
  cl_pool h : pool_fini h = 0;
  cl_mutex h : mutex_destroy_code h = 0;
  cl_ep h : ep_free h = 0;
  cl_dereg h : flush_dereg h = 0;
  cl_dealloc h : flush_dealloc h = 0;
}.

Section Destroy.
Context {E : RdmaEnv} {N : ConnEnv}.

Lemma idpool_free_wp w S id (Q : Z -> cworld -> Prop) :
  ready w S -> 0 <= id < num_comm_ids -> id ∉ S ->
  (forall p, ready (w_idpool p w) ({[id]} ∪ S) -> Q 0 (w_idpool p w)) -> wp (idpool_free id) Q w.
Proof.
  intros [Hrel Hsz Hr Hc Hp] Hid HS HQ. unfold idpool_free. wp_simpl.
  destruct (Idpool.free_refines _ _ id Hrel ltac:(lia)) as (S' & Hstep & Hrel' & Hsz').
  destruct (Idpool.nccl_ofi_idpool_free_id (comm_idpool w) id) as [rc p']. cbn in *. wp_simpl.
  inversion Hstep; subst; try lia; [|done]. apply HQ. constructor; try done. cbn. congruence.
Qed.

Lemma release_ep_wp `{!CloseOk} w (Q : Z -> cworld -> Prop) :
  (forall h, Q 0 (w_calls h (w_ref_cnt (fun n => i32 (n - 1)) w))) -> wp release_ep Q w.
Proof.
  intros HQ. unfold release_ep. wp_simpl. destruct (ep_ref_cnt _ =? 0).
  - wp_simpl. apply ask_wp. rewrite cl_ep. apply HQ.
  - wp_simpl. specialize (HQ (fun h => h)). by destruct w.
Qed.

(** What the destruction of communicator [c] changes. *)
Record destroyed (c : Z) (w w' : cworld) : Prop := {
  ds_comms : comms (engine w') = delete c (comms (engine w));
  ds_cq : cq (engine w') = cq (engine w);
  ds_ref : ep_ref_cnt w' = i32 (ep_ref_cnt w - 1);
  ds_open : num_open_comms w' = num_open_comms w;
  ds_slist : s_comm_cleanup_list w' = s_comm_cleanup_list w;
  ds_rlist : r_comm_cleanup_list w' = r_comm_cleanup_list w;
}.

Lemma send_comm_destroy_wp `{!CloseOk} w S c s :
  ready w S -> 0 <= c < num_comm_ids -> c ∉ S -> comms (engine w) !! c = Some (SendComm s) -> s_conn_resp_req s = NULL ->
  wp (send_comm_destroy c) (fun rc w' => rc = 0 /\ ready w' ({[c]} ∪ S) /\ destroyed c w w') w.
Proof.
  intros Hr Hc HS Hs Hq. unfold send_comm_destroy. wp_simpl. apply lift_wp. eapply get_send_comm_wp; [exact Hs|]. rewrite Hq, Z.eqb_refl. cbn [negb].
  wp_simpl. apply ask_wp. rewrite cl_pool. cbn [Z.eqb negb Msgbuff.nccl_ofi_msgbuff_destroy]. wp_simpl. apply lift_wp. eapply get_send_comm_wp; [exact Hs|].
  unfold drop_comm. wp_simpl. eapply (idpool_free_wp _ S); [by destruct Hr|done|done|]. intros p Hr'. cbn [Z.eqb negb]. wp_simpl. apply ask_wp.
  rewrite cl_mutex. cbn [Z.eqb negb]. apply release_ep_wp. intros h. split; [done|]. split; [by destruct Hr'|by constructor].
Qed.

Lemma flush_buff_gone `{!CloseOk} w (Q : Z -> cworld -> Prop) :
  (forall h, Q 0 (w_calls h w)) -> wp dealloc_and_dereg_flush_buff Q w.
Proof.
  intros HQ. unfold dealloc_and_dereg_flush_buff. wp_simpl. destruct local_mr; wp_simpl.
  - apply ask_wp. rewrite cl_dereg. cbn [Z.eqb negb]. apply ask_wp. rewrite cl_dealloc. exact (HQ (fun h => (h ++ [CallFlushBuff]) ++ [CallFlushBuff])).
  - cbn [Z.eqb negb]. apply ask_wp. rewrite cl_dealloc. apply HQ.
Qed.

(** Destruction from the state [w1] in which the close request is gone. *)
Lemma recv_comm_destroy_from `{!CloseOk} w w1 S c r r1 :
  comms (engine w) !! c = Some (RecvComm r) ->
  (if negb (r_send_close_req r =? NULL) then lift (req_free (r_send_close_req r) false) else ret 0) w = Some (0, w1) ->
  ready w1 S -> 0 <= c < num_comm_ids -> c ∉ S -> comms (engine w1) !! c = Some (RecvComm r1) ->
  wp (recv_comm_destroy c) (fun rc w' => rc = 0 /\ ready w' ({[c]} ∪ S) /\ destroyed c w1 w' /\
    reqs (engine w') = filter (fun x : Z * nccl_net_ofi_rdma_req_t => comm x.2 <> Some c) (reqs (engine w1)) /\
    sched (engine w') = sched (engine w1)) w.
Proof.
  intros Hs Hfree Hr Hc HS Hs1. unfold recv_comm_destroy. wp_simpl. apply lift_wp. eapply get_recv_comm_wp; [exact Hs|].
  replace (w_engine _ w) with w by (by destruct w). cbn beta. eapply wp_call; [exact Hfree|]. cbn [Z.eqb negb].
  assert (wp (if flush_buff_enabled then dealloc_and_dereg_flush_buff else ret 0) (fun rc w' => rc = 0 /\ exists h, w' = w_calls h w1) w1) as Hfl.
  { destruct flush_buff_enabled; [apply flush_buff_gone; intros h; split; [done|by exists h]|]. wp_simpl. split; [done|]. exists (fun h => h). by destruct w1. }
  apply wp_bind. eapply wp_mono; [exact Hfl|]. intros rc w2 (-> & h & ->). cbn [Z.eqb negb]. wp_simpl.
  apply ask_wp. rewrite cl_pool. cbn [Z.eqb negb]. wp_simpl. apply ask_wp. rewrite cl_pool. cbn [Z.eqb negb Msgbuff.nccl_ofi_msgbuff_destroy]. wp_simpl.
  apply lift_wp. eapply get_recv_comm_wp; [exact Hs1|]. unfold drop_comm. wp_simpl. eapply (idpool_free_wp _ S); [by destruct Hr|done|done|].
  intros p Hr'. wp_simpl. apply ask_wp. rewrite cl_mutex. cbn [Z.eqb negb]. apply release_ep_wp. intros h'. split; [done|].
  split; [by destruct Hr'|]. split; [by constructor|done].
Qed.

Lemma recv_comm_destroy_wp `{!CloseOk} w S c r :
  ready w S -> 0 <= c < num_comm_ids -> c ∉ S -> comms (engine w) !! c = Some (RecvComm r) -> r_send_close_req r = NULL ->
  wp (recv_comm_destroy c) (fun rc w' => rc = 0 /\ ready w' ({[c]} ∪ S) /\ destroyed c w w') w.
Proof.
  intros Hr Hc HS Hs Hq. eapply wp_mono; [eapply (recv_comm_destroy_from w w); try done; by rewrite Hq|].
  by intros rc w' (-> & ? & ? & _).
Qed.

(** The close message of receive communicator [c] has been delivered; its schedule
    is [sch]. *)
Definition delivered (e : world) (c sch : Z) : Prop :=
  exists r q item, comms e !! c = Some (RecvComm r) /\ r_send_close_req r <> NULL /\ reqs e !! r_send_close_req r = Some q /\
    type q = NCCL_OFI_RDMA_SEND_CLOSE /\ comm q = Some c /\ state q = NCCL_OFI_RDMA_REQ_COMPLETED /\
    data q = SendCloseData (mk_send_close_data item sch) /\ sch <> NULL /\ is_Some (snd (sched e) !! sch) /\ scheduler_ok (sched e).

(** The close request gives back its schedule and its buffer. *)
Lemma free_close_req_ok e c p q r item sch :
  comms e !! c = Some (RecvComm r) -> p <> NULL -> reqs e !! p = Some q -> type q = NCCL_OFI_RDMA_SEND_CLOSE -> comm q = Some c ->
  data q = SendCloseData (mk_send_close_data item sch) -> sch <> NULL -> is_Some (snd (sched e) !! sch) -> scheduler_ok (sched e) ->
  exists e', req_free p false e = Some (0, e') /\ (exists r', comms e' = <[c := RecvComm r']> (comms e)) /\ reqs e' = delete p (reqs e) /\
    snd (sched e') = delete sch (snd (sched e)) /\ scheduler_ok (sched e') /\ rails e' = rails e /\ control_rails e' = control_rails e /\
    pending e' = pending e /\ cq e' = cq e.
Proof.
  intros Hc Hp Hq Ht Hcm Hd Hsch [sc Hsc] Hok. destruct (release_schedule_ok e sch sc Hok Hsc) as (st & Hrel & Hok' & Hst).
  enough (wp (req_free p false) (fun rc e' => rc = 0 /\ (exists r', comms e' = <[c := RecvComm r']> (comms e)) /\ reqs e' = delete p (reqs e) /\
    sched e' = st /\ rails e' = rails e /\ control_rails e' = control_rails e /\ pending e' = pending e /\ cq e' = cq e) e) as Hwp.
  { apply wp_run in Hwp as (rc & e' & Hrun & -> & Hc' & Hr' & <- & Hrest). exists e'. by split_and!; try apply Hrest. }
  unfold req_free. apply wp_bind. eapply get_req_wp; [exact Hq|]. rewrite Ht. unfold free_send_close_req.
  eapply wp_call; [exact (req_comm_ok _ _ _ _ Hq Hcm)|]. eapply wp_call; [exact (req_get_send_close_data_ok _ _ _ _ Hq Ht Hd)|].
  cbn [cl_ctrl_schedule cl_ctrl_fl_item]. rewrite (proj2 (Z.eqb_neq _ _) Hsch). cbn [negb]. wp_simpl.
  unfold wp at 1. rewrite Hrel. cbn beta. eapply upd_req_wp; [exact Hq|]. cbn beta.
  set (q1 := set_data _ q). set (e1 := w_reqs _ _).
  assert (wp (if negb (item =? NULL) then ctrl_buff_free c item ;;; put_data p (SendCloseData (mk_send_close_data NULL NULL)) else ret tt)
    (fun _ e2 => (exists r2, comms e2 = <[c := RecvComm r2]> (comms e)) /\ (exists q2, reqs e2 = <[p := q2]> (reqs e)) /\
      sched e2 = st /\ rails e2 = rails e /\ control_rails e2 = control_rails e /\ pending e2 = pending e /\ cq e2 = cq e) e1) as Hbuf.
  { destruct (negb (item =? NULL)); wp_simpl.
    - unfold ctrl_buff_free. wp_simpl. unfold wp at 1. rewrite (upd_recv_comm_ok _ _ _ r) by exact Hc. cbn beta.
      eapply upd_req_wp; [cbn; apply lookup_insert_eq|]. cbn. rewrite insert_insert_eq. split_and!; eauto.
    - cbn. split_and!; eauto. exists r. by rewrite insert_id. }
  apply wp_bind. eapply wp_mono; [exact Hbuf|]. clear Hbuf. intros _ e2 ([r2 Hc2] & [q2 Hq2] & Hs2 & Hra & Hco & Hpe & Hcq).
  unfold free_base_req. rewrite (proj2 (Z.eqb_neq _ _) Hp). wp_simpl. eapply get_req_wp; [rewrite Hq2; apply lookup_insert_eq|].
  wp_simpl. cbn [fl_push andb]. unfold wp at 1. rewrite (upd_recv_comm_ok _ _ _ r2) by (cbn; rewrite Hc2; apply lookup_insert_eq). cbn beta. wp_simpl.
  cbn. rewrite Hc2, Hq2, insert_insert_eq, delete_insert_eq. split_and!; eauto.
Qed.

End Destroy.

(** ** Closing the last communicators *)

(** A send communicator whose receiver has closed its end, with every control
    message in. *)
Definition may_go (e : world) (c : Z) : Prop :=
  exists s, comms e !! c = Some (SendComm s) /\ s_conn_resp_req s = NULL /\ s_received_close_message s = true /\
    s_n_ctrl_received s = s_n_ctrl_expected s.

(** The communicators [cs] are gone and their IDs are free again. *)
Record gone `{RdmaEnv} `{ConnEnv} (cs : list Z) (S : gset Z) (w w' : cworld) : Prop := {
  go_ready : ready w' (list_to_set cs ∪ S);
  go_cq : cq (engine w') = [];
  go_in c : c ∈ cs -> comms (engine w') !! c = None;
  go_out c : c ∉ cs -> comms (engine w') !! c = comms (engine w) !! c;
  go_ref : ep_ref_cnt w' = ep_ref_cnt w - Z.of_nat (length cs);
  go_open : num_open_comms w' = num_open_comms w;
}.

Lemma filter_step (c : Z) (cs l : list Z) :
  filter (fun d => d ∉ cs) (filter (fun d => d <> c) l) = filter (fun d => d ∉ c :: cs) l.
Proof.
  rewrite list_filter_filter. apply list_filter_iff. intros d. rewrite not_elem_of_cons. tauto.
Qed.

Lemma filter_self (l : list Z) : filter (fun d => d ∉ l) l = [].
Proof. apply filter_none. intros d Hd Hn. by apply Hn. Qed.

Lemma filter_nothing (l : list Z) : filter (fun d => d ∉ []) l = l.
Proof. apply filter_all. intros d _. apply not_elem_of_nil. Qed.

Section CloseRound.
Context {E : RdmaEnv} {N : ConnEnv} {CO : CloseOk}.

Lemma gone_nil w S : ready w S -> cq (engine w) = [] -> gone [] S w w.
Proof.
  intros Hr Hcq. constructor; try done; [by rewrite list_to_set_nil, union_empty_l_L|intros c Hc; by apply not_elem_of_nil in Hc|cbn; lia].
Qed.

(** One communicator goes, then the others. *)
Lemma gone_cons c cs S w w1 w2 w' :
  c ∉ cs -> comms (engine w1) = comms (engine w) -> comms (engine w2) = delete c (comms (engine w1)) ->
  ep_ref_cnt w2 = ep_ref_cnt w - 1 -> num_open_comms w2 = num_open_comms w -> gone cs ({[c]} ∪ S) w2 w' -> gone (c :: cs) S w w'.
Proof.
  intros Hnin Hc1 Hcm Href Hop []. constructor; try congruence; cbn [length].
  - rewrite list_to_set_cons, <- union_assoc_L, (union_comm_L {[c]}). by rewrite <- union_assoc_L, (union_comm_L S).
  - intros d [->|Hd]%elem_of_cons; [rewrite go_out0, Hcm by done; apply lookup_delete_eq|by apply go_in0].
  - intros d [Hne Hd]%not_elem_of_cons. rewrite go_out0, Hcm, Hc1 by done. by rewrite lookup_delete_ne by congruence.
  - lia.
Qed.

Lemma gone_app rs cs S w w1 w2 :
  (forall d, d ∈ rs -> d ∉ cs) -> gone rs S w w1 -> gone cs (list_to_set rs ∪ S) w1 w2 -> gone (rs ++ cs) S w w2.
Proof.
  intros Hdis [] []. constructor; try congruence.
  - rewrite list_to_set_app_L, <- union_assoc_L, (union_comm_L (list_to_set rs)). by rewrite <- union_assoc_L, (union_comm_L S).
  - intros d [Hd|Hd]%elem_of_app; [rewrite go_out1 by auto; auto|auto].
  - intros d [Hr Hc]%not_elem_of_app. by rewrite go_out1, go_out0.
  - rewrite length_app. lia.
Qed.

(** Reading an idle completion queue changes nothing. *)
Lemma process_cq_nothing w (Q : Z -> world -> Prop) : cq w = [] -> pending w = [] -> Q 0 w -> wp ofi_process_cq Q w.
Proof.
  intros Hcq Hp HQ. assert (w_cq (fun _ => []) w = w) as Hw by (destruct w; cbn in *; by subst).
  unfold ofi_process_cq. induction (Z.to_nat num_rails) as [|n IH]; cbn [process_cq_rails].
  - unfold process_pending_reqs. wp_simpl. rewrite Hp. cbn [length pending_loop]. unfold pending_remove_front. wp_simpl. rewrite Hp. by wp_simpl.
  - unfold ofi_process_cq_rail. wp_simpl. rewrite Hcq. cbn [cq_loop]. wp_simpl. rewrite Hw. exact IH.
Qed.

Lemma send_finalizing_loop_wp cs : forall w S,
  ready w S -> NoDup cs -> cq (engine w) = [] -> (forall c, c ∈ cs -> may_go (engine w) c /\ 0 <= c < num_comm_ids /\ c ∉ S) ->
  Z.of_nat (length cs) <= ep_ref_cnt w < 2 ^ 31 ->
  wp (send_finalizing_loop cs) (fun rc w' => rc = 0 /\ gone cs S w w' /\
    s_comm_cleanup_list w' = filter (fun d => d ∉ cs) (s_comm_cleanup_list w) /\ r_comm_cleanup_list w' = r_comm_cleanup_list w) w.
Proof.
  induction cs as [|c cs IH]; intros w S Hr Hnd Hcq Hcs Href; cbn [send_finalizing_loop].
  { wp_simpl. split_and!; [done|by apply gone_nil|by rewrite filter_nothing|done]. }
  apply NoDup_cons in Hnd as [Hnin Hnd]. destruct (Hcs c) as ((s & Hs & Hq & Hcl & Hct) & Hid & HS); [left|]. cbn [length] in Href.
  wp_simpl. apply lift_wp. unfold send_comm_finalizing. wp_simpl. apply process_cq_nothing; [exact Hcq|apply (rd_pending _ _ Hr)|].
  cbn [Z.eqb negb]. wp_simpl. eapply get_send_comm_wp; [exact Hs|].
  rewrite Hcl, Hct, Z.eqb_refl. cbn [andb]. wp_simpl. cbn [Z.eqb negb]. wp_simpl.
  eapply wp_mono; [eapply (send_comm_destroy_wp _ S c s); [by destruct Hr|exact Hid|exact HS|exact Hs|exact Hq]|].
  intros rc w2 (-> & Hr2 & [Hcm Hcq2 Href2 Hop Hsl Hrl]). cbn [Z.eqb negb]. cbn in Hcm, Hcq2, Href2, Hop, Hsl, Hrl.
  rewrite i32_small in Href2 by lia.
  eapply wp_mono; [apply (IH w2 ({[c]} ∪ S)); [exact Hr2|exact Hnd|congruence| |lia]|].
  - intros d Hd. destruct (Hcs d) as ((s' & Hs' & Hrest) & Hid' & HS'); [by right|]. assert (d <> c) by (by intros ->). split_and!; try lia.
    + exists s'. rewrite Hcm. by rewrite lookup_delete_ne by congruence.
    + rewrite elem_of_union, elem_of_singleton. tauto.
  - intros rc w3 (-> & Hg & Hs3 & Hr3). split_and!; [done|by apply (gone_cons c cs S w w w2)| |congruence].
    rewrite Hs3, Hsl. apply filter_step.
Qed.

(** A communicator is destroyed with its close request; the others keep theirs. *)
Lemma recv_delivered_destroy w S c sch :
  ready w S -> 0 <= c < num_comm_ids -> c ∉ S -> delivered (engine w) c sch ->
  wp (recv_comm_destroy c) (fun rc w' => rc = 0 /\ ready w' ({[c]} ∪ S) /\ destroyed c w w' /\
    forall d sch', d <> c -> sch' <> sch -> delivered (engine w) d sch' -> delivered (engine w') d sch') w.
Proof.
  intros Hr Hc HS (r & q & item & Hcm & Hp & Hq & Ht & Hqc & Hst & Hd & Hsch & Hsc & Hok).
  destruct (free_close_req_ok (engine w) c _ q r item sch Hcm Hp Hq Ht Hqc Hd Hsch Hsc Hok)
    as (e1 & Hfree & [r1 Hc1] & Hr1 & Hs1 & Hok1 & Hra & Hco & Hpe & Hcq).
  eapply wp_mono; [eapply (recv_comm_destroy_from w (w_engine (fun _ => e1) w) S c r r1); [exact Hcm| | |exact Hc|exact HS|]|].
  - rewrite (proj2 (Z.eqb_neq _ _) Hp). cbn [negb]. unfold lift. by rewrite Hfree.
  - eapply ready_frame; [exact Hr|done|..]; done.
  - cbn. rewrite Hc1. apply lookup_insert_eq.
  - intros rc w' (-> & Hr' & [Hcm' Hcq' Href Hop Hsl Hrl] & Hreq & Hsd). cbn in *. split_and!; [done|done| |].
    + constructor; try congruence. rewrite Hcm', Hc1. apply delete_insert_eq.
    + intros d sch' Hne Hns (r' & q' & item' & Hcm2 & Hp2 & Hq2 & Ht2 & Hqc2 & Hst2 & Hd2 & Hsch2 & Hsc2 & Hok2).
      exists r', q', item'. split_and!; try done.
      * by rewrite Hcm', Hc1, lookup_delete_ne, lookup_insert_ne by congruence.
      * rewrite Hreq. apply map_lookup_filter_Some. split; [|cbn; congruence]. rewrite Hr1, lookup_delete_ne; [done|].
        intros Heq. rewrite Heq in Hq. congruence.
      * by rewrite Hsd, Hs1, lookup_delete_ne by congruence.
      * by rewrite Hsd.
Qed.

Lemma recv_finalizing_loop_wp rs : forall w S,
  ready w S -> NoDup rs.*1 -> NoDup rs.*2 -> cq (engine w) = [] ->
  (forall c sch, (c, sch) ∈ rs -> delivered (engine w) c sch /\ 0 <= c < num_comm_ids /\ c ∉ S) ->
  Z.of_nat (length rs) <= ep_ref_cnt w < 2 ^ 31 ->
  wp (recv_finalizing_loop rs.*1) (fun rc w' => rc = 0 /\ gone rs.*1 S w w' /\
    r_comm_cleanup_list w' = filter (fun d => d ∉ rs.*1) (r_comm_cleanup_list w) /\ s_comm_cleanup_list w' = s_comm_cleanup_list w) w.
Proof.
  induction rs as [|[c sch] rs IH]; intros w S Hr Hnd Hnd2 Hcq Hrs Href; cbn [fmap list_fmap fst snd recv_finalizing_loop].
  { wp_simpl. split_and!; [done|by apply gone_nil|by rewrite filter_nothing|done]. }
  apply NoDup_cons in Hnd as [Hnin Hnd], Hnd2 as [Hnin2 Hnd2]. destruct (Hrs c sch) as (Hdel & Hid & HS); [left|]. cbn [length] in Href.
  pose proof Hdel as (r & q & item & Hcm & Hp & Hq & Ht & Hqc & Hst & _).
  wp_simpl. apply lift_wp. unfold recv_comm_finalizing. wp_simpl. apply process_cq_nothing; [exact Hcq|apply (rd_pending _ _ Hr)|].
  cbn [Z.eqb negb]. wp_simpl. eapply get_recv_comm_wp; [exact Hcm|]. rewrite (proj2 (Z.eqb_neq _ _) Hp). wp_simpl.
  eapply get_req_wp; [exact Hq|]. unfold is_state. rewrite Hst, bool_decide_false, bool_decide_true by done. wp_simpl. cbn [Z.eqb negb]. wp_simpl.
  eapply wp_mono; [apply (recv_delivered_destroy _ S c sch); [by destruct Hr|exact Hid|exact HS|exact Hdel]|].
  intros rc w2 (-> & Hr2 & [Hcm2 Hcq2 Href2 Hop Hsl Hrl] & Hkeep). cbn [Z.eqb negb]. cbn in Hcm2, Hcq2, Href2, Hop, Hsl, Hrl, Hkeep.
  rewrite i32_small in Href2 by lia.
  eapply wp_mono; [apply (IH w2 ({[c]} ∪ S)); [exact Hr2|exact Hnd|exact Hnd2|congruence| |lia]|].
  - intros d sch' Hd. destruct (Hrs d sch') as (Hdel' & Hid' & HS'); [by right|].
    assert (d <> c) by (intros ->; apply Hnin; by apply (list_elem_of_fmap_2 fst rs (c, sch'))).
    assert (sch' <> sch) by (intros ->; apply Hnin2; by apply (list_elem_of_fmap_2 snd rs (d, sch))). split_and!; try lia; [by apply Hkeep|].
    rewrite elem_of_union, elem_of_singleton. tauto.
  - intros rc w3 (-> & Hg & Hr3 & Hs3). split_and!; [done|by apply (gone_cons c rs.*1 S w w w2)| |congruence].
    rewrite Hr3, Hrl. apply filter_step.
Qed.

End CloseRound.

Section LastClose.
Context {E : RdmaEnv} {N : ConnEnv} {CO : CloseOk}.

Lemma comm_close_handler_all_gone w S rs cs :
  ready w S -> s_comm_cleanup_list w = cs -> cs <> [] -> r_comm_cleanup_list w = rs.*1 -> NoDup (rs.*1 ++ cs) -> NoDup rs.*2 ->
  cq (engine w) = [] -> (forall c, c ∈ cs -> may_go (engine w) c /\ 0 <= c < num_comm_ids /\ c ∉ S) ->
  (forall c sch, (c, sch) ∈ rs -> delivered (engine w) c sch /\ 0 <= c < num_comm_ids /\ c ∉ S) ->
  Z.of_nat (length (rs.*1 ++ cs)) <= ep_ref_cnt w < 2 ^ 31 ->
  wp (comm_close_handler 1) (fun rc w' => rc = 0 /\ gone (rs.*1 ++ cs) S w w' /\
    (num_open_comms w <= 0 -> s_comm_cleanup_list w' = [] /\ r_comm_cleanup_list w' = [])) w.
Proof.
  intros Hr Hsl Hne Hrl Hnd Hnd2 Hcq Hcs Hrs Href. apply NoDup_app in Hnd as (Hnr & Hdis & Hns). rewrite length_app, length_fmap in Href.
  cbn [comm_close_handler]. wp_simpl. rewrite Hsl, bool_decide_false by done. cbn [andb]. wp_simpl.
  unfold recv_comm_process_all_finalizing. wp_simpl. rewrite Hrl. eapply wp_mono; [apply (recv_finalizing_loop_wp rs w S); try done; lia|].
  intros rc w1 (-> & Hg1 & Hr1 & Hs1). cbn [Z.eqb negb]. wp_simpl.
  unfold send_comm_process_all_finalizing. wp_simpl. rewrite Hs1, Hsl.
  eapply wp_mono; [apply (send_finalizing_loop_wp cs w1 (list_to_set rs.*1 ∪ S)); [apply Hg1|done|apply Hg1| |]|].
  - intros c Hc. destruct (Hcs c Hc) as ((s & Hs & Hrest) & Hid & HS). assert (c ∉ rs.*1) as Hnc by (intros Hx; by eapply Hdis).
    split_and!; try lia; [exists s; by rewrite (go_out _ _ _ _ Hg1)|]. rewrite elem_of_union, elem_of_list_to_set. tauto.
  - rewrite (go_ref _ _ _ _ Hg1), length_fmap. lia.
  - intros rc w2 (-> & Hg2 & Hs2 & Hr2). cbn [Z.eqb negb]. wp_simpl. pose proof (gone_app _ _ _ _ _ _ Hdis Hg1 Hg2) as Hg.
    assert (s_comm_cleanup_list w2 = []) as Hs0 by (rewrite Hs2, Hs1, Hsl; apply filter_self).
    assert (r_comm_cleanup_list w2 = []) as Hr0 by (rewrite Hr2, Hr1, Hrl; apply filter_self).
    destruct (0 <? num_open_comms w2); wp_simpl; [by split_and!|]. rewrite Hs0, Hr0. cbn. wp_simpl. by split_and!.
Qed.

(** C22. The last close. A close only marks the communicator and puts it on the
    clean-up list. When a send communicator is the last to be closed, the peers of
    all listed send communicators have closed their ends with every control message
    in, the close messages of all listed receive communicators are delivered, the
    completion queue is idle and the calls outside the plug-in succeed, the close
    returns after one round with both lists empty: every listed communicator is
    destroyed, its ID is free again, the references to the endpoint are given back,
    and no other communicator is touched. *)
Theorem last_close_destroys_all w S rs cs c s :
  ready w S -> s_comm_cleanup_list w = cs -> r_comm_cleanup_list w = rs.*1 -> NoDup (rs.*1 ++ cs ++ [c]) -> NoDup rs.*2 ->
  cq (engine w) = [] -> (forall d, d ∈ cs ++ [c] -> may_go (engine w) d /\ 0 <= d < num_comm_ids /\ d ∉ S) ->
  (forall d sch, (d, sch) ∈ rs -> delivered (engine w) d sch /\ 0 <= d < num_comm_ids /\ d ∉ S) ->
  comms (engine w) !! c = Some (SendComm s) -> s_num_inflight_reqs s = 0 -> num_open_comms w = 1 ->
  Z.of_nat (length (rs.*1 ++ cs ++ [c])) <= ep_ref_cnt w < 2 ^ 31 ->
  exists w', send_close_deferred 1 c w = Some (0, w') /\ s_comm_cleanup_list w' = [] /\ r_comm_cleanup_list w' = [] /\
    num_open_comms w' = 0 /\ ready w' (list_to_set (rs.*1 ++ cs ++ [c]) ∪ S) /\
    ep_ref_cnt w' = ep_ref_cnt w - Z.of_nat (length (rs.*1 ++ cs ++ [c])) /\
    (forall d, d ∈ rs.*1 ++ cs ++ [c] -> comms (engine w') !! d = None) /\
    (forall d, d ∉ rs.*1 ++ cs ++ [c] -> comms (engine w') !! d = comms (engine w) !! d).
Proof.
  intros Hr Hsl Hrl Hnd Hnd2 Hcq Hcs Hrs Hc Hin Hop Href.
  assert (wp (send_close_deferred 1 c) (fun rc w' => rc = 0 /\ gone (rs.*1 ++ cs ++ [c]) S
    (w_open (fun n => n - 1) (w_s_list (fun l => l ++ [c]) (w_engine (w_comms <[c := SendComm (set_s_active false s)]>) w))) w' /\
    (num_open_comms w - 1 <= 0 -> s_comm_cleanup_list w' = [] /\ r_comm_cleanup_list w' = [])) w) as Hwp.
  { unfold send_close_deferred. wp_simpl. apply lift_wp. eapply get_send_comm_wp; [exact Hc|]. rewrite Hin. cbn [Z.ltb Z.compare]. wp_simpl.
    apply lift_wp. eapply upd_send_comm_wp; [exact Hc|]. wp_simpl. apply wp_assert; [cbn; by rewrite Hop|]. wp_simpl.
    eapply comm_close_handler_all_gone; cbn; try done; [by destruct Hr|by rewrite Hsl|by destruct cs| | ].
    - intros d Hd. destruct (Hcs d Hd) as ((s' & Hs' & Hrest) & Hid). split; [|done]. destruct (decide (d = c)) as [->|Hne].
      + exists (set_s_active false s). cbn. rewrite lookup_insert_eq. rewrite Hc in Hs'. injection Hs' as ->. done.
      + exists s'. cbn. by rewrite lookup_insert_ne by congruence.
    - intros d sch Hd. destruct (Hrs d sch Hd) as ((r & q & item & Hcm & Hrest) & Hid). split; [|done]. exists r, q, item. cbn.
      rewrite lookup_insert_ne by congruence. done. }
  apply wp_run in Hwp as (rc & w' & Hrun & -> & [] & Hempty). destruct Hempty as [Hs0 Hr0]; [lia|]. exists w'. cbn in *. split_and!; try done.
  - lia.
  - intros d Hd. rewrite go_out0 by done. rewrite lookup_insert_ne; [done|]. intros ->. apply Hd. rewrite !elem_of_app. right. right. left.
Qed.
End LastClose.

(** Communicators 0 and 1 of a node are in use. *)
Definition pool_after (n : nat) : Idpool.nccl_ofi_idpool :=
  Nat.iter n (fun p => (Idpool.nccl_ofi_idpool_allocate_id p).2) (comm_idpool node_world).
Definition peer_closed (n : Z) : nccl_net_ofi_rdma_send_comm_t :=
  mk_send_comm 0 [] n NULL None 0 ex_msgbuff true 3 3 true ex_rails ex_rails 1.
Definition closing_world : cworld :=
  mk_cworld (w_comms (fun _ => {[ 0 := SendComm (peer_closed 5); 1 := SendComm (peer_closed 6) ]}) (engine node_world))
    (pool_after 2) 2 1 [1] [] [].

Lemma closing_ready host : @ready (ex_env []) (node_conn_env host) closing_world (Idpool.all_ids 64 ∖ {[0]} ∖ {[1]}).
Proof.
  destruct (node_ready host) as [Hrel Hsz _ _ _].
  destruct (Idpool.allocate_refines _ _ Hrel) as (S1 & H1 & Hrel1 & Hsz1).
  destruct (Idpool.allocate_refines _ _ Hrel1) as (S2 & H2 & Hrel2 & Hsz2).
  assert (S1 = Idpool.all_ids 64 ∖ {[0]}) as ->.
  { revert H1. replace (fst _) with 0 by (vm_compute; reflexivity). by inversion 1. }
  assert (S2 = Idpool.all_ids 64 ∖ {[0]} ∖ {[1]}) as ->.
  { revert H2. replace (fst _) with 1 by (vm_compute; reflexivity). by inversion 1. }
  constructor; [exact Hrel2|rewrite <- Hsz, <- Hsz1; exact Hsz2|reflexivity|reflexivity|reflexivity].
Qed.

Lemma node_close_ok host : @CloseOk (node_conn_env host).
Proof. by constructor. Qed.

(** The last close of a node: send communicator 0, with receive communicator 1 on
    the list, whose close message (request 901) is delivered. *)
Definition close_sched : Scheduler.Scheduler.sched_state :=
  match @get_schedule (ex_env []) sizeof_close_msg 2 (engine node_world) with Some (_, e) => sched e | None => ex_sched end.
Definition last_world : cworld :=
  w_r_list (fun _ => [1]) (w_s_list (fun _ => []) (w_engine (fun e => w_sched (fun _ => close_sched)
    (w_reqs <[901 := mk_req (Some 1) 0 0 0 (SendCloseData (mk_send_close_data 700 1024)) 0 NCCL_OFI_RDMA_REQ_COMPLETED NCCL_OFI_RDMA_SEND_CLOSE]>
      (w_comms <[1 := RecvComm (mk_recv_comm 0 [] 5 (mk_flush_buffer 4096 4 ex_handle) 0 ex_msgbuff [] 901 0 0 true ex_rails ex_rails)]> e))) closing_world)).

Lemma close_sched_ok : scheduler_ok (E := ex_env []) close_sched.
Proof.
  assert (env_ok (E := ex_env [])) as He by (constructor; cbn; [unfold MAX_NUM_RAILS; lia|reflexivity]).
  destruct (get_schedule_spec (E := ex_env []) (engine node_world) sizeof_close_msg He (ex_sched_ok [])) as (p & st & Hg & Hok & _);
    [vm_compute; split; [discriminate|reflexivity]|].
  unfold close_sched. change 2 with (@num_rails (ex_env [])). rewrite Hg. exact Hok.
Qed.

Lemma last_close_destroys_all_witness :
  exists w', @send_close_deferred (ex_env []) (node_conn_env 1) 1 0 last_world = Some (0, w') /\
    s_comm_cleanup_list w' = [] /\ r_comm_cleanup_list w' = [] /\ ep_ref_cnt w' = 0 /\
    comms (engine w') !! 0 = None /\ comms (engine w') !! 1 = None.
Proof.
  destruct (@last_close_destroys_all (ex_env []) (node_conn_env 1) (node_close_ok 1) last_world
    (Idpool.all_ids 64 ∖ {[0]} ∖ {[1]}) [(1, 1024)] [] 0 (peer_closed 5)) as (w' & Hrun & Hsl & Hrl & _ & _ & Href & Hgone & _);
    [destruct (closing_ready 1); by constructor|reflexivity|reflexivity|apply (bool_decide_unpack _); vm_compute; exact I
    |apply (bool_decide_unpack _); vm_compute; exact I|reflexivity| | |reflexivity|reflexivity|reflexivity
    |vm_compute; split; [discriminate|reflexivity]|].
  - intros d ->%list_elem_of_singleton. split; [by exists (peer_closed 5)|]. split; [cbn; lia|].
    rewrite !elem_of_difference, !elem_of_singleton. tauto.
  - intros d sch [= -> ->]%list_elem_of_singleton. split; [|split; [cbn; lia|rewrite elem_of_difference, elem_of_singleton; tauto]].
    eexists _, _, 700. split_and!; try reflexivity; try discriminate; [by vm_compute; eexists|exact close_sched_ok].
  - exists w'. split_and!; [exact Hrun|exact Hsl|exact Hrl|exact Href| |]; apply Hgone; apply list_elem_of_In; cbn; tauto.
Defined.

(** ** Failures during the set-up *)

Section Failures.
Context {E : RdmaEnv} {N : ConnEnv} {addr : rail_ref -> list Z -> Z} {CO : Coop addr}.

(** A connect with a handle whose communicator ID the device cannot have is
    refused, but the error path gives communicator ID 0 back to the pool, which
    the new communicator never had: whoever owns ID 0 stays in the table while the
    next communicator can get the same ID. *)
Theorem invalid_handle_frees_id_zero w S h :
  ready w S -> 0 ∉ S -> 0 < num_comm_ids -> h_stage h = COMM_CREATE_START -> h_comm h = None -> num_comm_ids <= h_comm_id h ->
  exists w', connect h w = Some ((- EINVAL, h, None), w') /\ ready w' ({[0]} ∪ S) /\ comms (engine w') = comms (engine w).
Proof.
  intros Hr HS Hn Hst Hcm Hid.
  assert (wp (connect h) (fun r w' => r = (- EINVAL, h, None) /\ ready w' ({[0]} ∪ S) /\ comms (engine w') = comms (engine w)) w) as Hwp.
  { unfold connect. rewrite Hst, Hcm. wp_simpl. apply wp_assert; [done|]. unfold create_send_comm, calloc_rdma_send_comm. wp_simpl.
    destruct (control_rail_0 _ _ Hr) as [rail Hrail]. apply lift_wp. eapply get_rail_wp; [exact Hrail|]. wp_simpl.
    apply ask_wp. rewrite co_calloc. cbn [negb]. wp_simpl. apply ask_wp. rewrite co_calloc. cbn [negb]. apply ask_wp. rewrite co_calloc. cbn [negb].
    wp_simpl. apply ask_wp. rewrite co_mutex. cbn [Z.eqb negb]. destruct (Z.geb_spec (h_comm_id h) num_comm_ids); [|lia].
    unfold create_send_comm_error. change (negb (0 =? COMM_ID_INVALID)) with true. wp_simpl.
    eapply (idpool_free_wp _ S); [by destruct Hr|lia|done|]. intros p Hr'. wp_simpl. apply ask_wp. wp_simpl. change (negb (- EINVAL =? 0)) with true.
    wp_simpl. split; [done|]. split; [by destruct Hr'|done]. }
  apply wp_run in Hwp as (r & w' & Hrun & -> & Hrest). by exists w'.
Qed.
End Failures.

(** The next listener gets ID 0. *)
Lemma reused_id :
  exists h wl', match @connect (ex_env []) (node_conn_env 1) (mk_conn_handle [2; 3] 64 None NULL COMM_CREATE_START) closing_world with
    | Some (_, w') => @listen (ex_env []) (node_conn_env 1) w'
    | None => None
    end = Some ((0, h, Some 0), wl').
Proof. vm_compute. eexists _, _. reflexivity. Qed.

Lemma invalid_handle_frees_id_zero_witness :
  exists w' h wl', @connect (ex_env []) (node_conn_env 1) (mk_conn_handle [2; 3] 64 None NULL COMM_CREATE_START) closing_world =
      Some ((- EINVAL, mk_conn_handle [2; 3] 64 None NULL COMM_CREATE_START, None), w') /\
    comms (engine w') !! 0 = Some (SendComm (peer_closed 5)) /\
    @listen (ex_env []) (node_conn_env 1) w' = Some ((0, h, Some 0), wl').
Proof.
  destruct (@invalid_handle_frees_id_zero (ex_env []) (node_conn_env 1) node_addr (node_coop 1) closing_world
    (Idpool.all_ids 64 ∖ {[0]} ∖ {[1]}) (mk_conn_handle [2; 3] 64 None NULL COMM_CREATE_START)) as (w' & Hrun & _ & Hc);
    [apply closing_ready|rewrite !elem_of_difference, !elem_of_singleton; tauto|reflexivity|reflexivity|reflexivity|reflexivity|].
  destruct reused_id as (h & wl' & Hl). rewrite Hrun in Hl. exists w', h, wl'.
  split; [exact Hrun|]. split; [rewrite Hc; reflexivity|exact Hl].
Defined.

Section FailedResponse.
Context {E : RdmaEnv} {N : ConnEnv} {CL : CloseOk}.

(** When libfabric refuses to send the connect response, accept reports the
    error and destroys the receive communicator, but the listener stays in the
    stage that sends the response: the next accept uses the communicator that is
    gone. *)
Theorem failed_response_breaks_accept w S lid rid lc r rcm rail m code :
  ready w S -> 0 <= rid < num_comm_ids -> rid ∉ S -> comms (engine w) !! lid = Some (ListenComm lc) ->
  l_stage lc = COMM_SEND_CONN -> l_r_comm lc = Some rid -> l_conn_msg lc = Some m -> reqs (engine w) !! l_req lc = Some r ->
  comms (engine w) !! rid = Some (RecvComm rcm) -> r_send_close_req rcm = NULL -> r_control_rails rcm !! 0%nat = Some rail ->
  (forall l op, fabric l op = code) -> - 2 ^ 31 <= code < 0 -> code <> - FI_EAGAIN ->
  exists w', accept lid w = Some ((code, None), w') /\ comms (engine w') !! rid = None /\ accept lid w' = None.
Proof.
  intros Hr Hrid HS Hlc Hst Hrc Hmsg Hreq Hr' Hcl Hrail Hfab Hneg Hag.
  assert (rid <> lid) as Hne by congruence.
  assert (wp (accept lid) (fun res w' => res = (code, None) /\ comms (engine w') !! rid = None /\
    comms (engine w') !! lid = Some (ListenComm (set_l_r_comm None lc))) w) as Hwp.
  { unfold accept. wp_simpl. apply lift_wp. eapply get_listen_comm_wp; [exact Hlc|]. rewrite Hrc, Hst. wp_simpl. apply lift_wp.
    eapply get_recv_comm_wp; [exact Hr'|]. wp_simpl. eapply wp_of_option; [done|]. unfold accept_send_conn. wp_simpl. apply lift_wp.
    eapply get_listen_comm_wp; [exact Hlc|]. wp_simpl. eapply wp_of_option; [exact Hmsg|]. unfold post_send_conn_resp. wp_simpl. apply lift_wp.
    eapply get_recv_comm_wp; [exact Hr'|]. wp_simpl. apply lift_wp. unfold rdma_recv_comm_get_control_rail, rail_at. wp_simpl. apply wp_assert; [done|].
    eapply wp_of_option; [exact Hrail|]. wp_simpl. apply lift_wp. eapply upd_req_wp; [exact Hreq|]. wp_simpl. apply lift_wp. unfold post. wp_simpl.
    rewrite Hfab. rewrite (proj2 (Z.eqb_neq _ _) Hag), (proj2 (Z.eqb_neq code 0)) by lia. cbn [negb]. wp_simpl. apply lift_wp.
    eapply upd_req_wp; [cbn; apply lookup_insert_eq|]. wp_simpl. rewrite i32_small by lia. rewrite (proj2 (Z.eqb_neq _ _) Hag), (proj2 (Z.eqb_neq code 0)) by lia.
    cbn [negb]. unfold accept_exit, close_listen_recv_comm. wp_simpl. apply lift_wp. eapply get_listen_comm_wp; [exact Hlc|]. wp_simpl. apply lift_wp.
    eapply get_req_wp; [cbn; apply lookup_insert_eq|]. unfold is_state. rewrite bool_decide_false by done. wp_simpl. rewrite Hrc. wp_simpl.
    eapply wp_mono; [eapply (recv_comm_destroy_wp _ S rid rcm); [by destruct Hr|done|done|exact Hr'|exact Hcl]|].
    intros rc w2 (-> & _ & [Hcm2 _ _ _ _ _]). cbn in Hcm2. cbn [Z.eqb negb]. wp_simpl. eapply upd_listen_wp.
    { rewrite Hcm2. rewrite lookup_delete_ne by done. exact Hlc. }
    rewrite (proj2 (Z.eqb_neq code 0)) by lia. cbn [negb]. wp_simpl. split; [done|]. cbn. rewrite Hcm2, lookup_insert_ne, lookup_delete_eq, lookup_insert_eq by congruence. done. }
  apply wp_run in Hwp as (res & w' & Hrun & -> & Hgone & Hl). exists w'. split_and!; [done|done|].
  unfold accept, lift, rdma_device_get_listen_comm, rdma_device_get_comm, bind, gets, of_option, ret. cbn. rewrite Hl. cbn. by rewrite Hst.
Qed.
End FailedResponse.

(** Listener 1 is about to answer for communicator 0; libfabric refuses. *)
Definition refusing_env : RdmaEnv := {|
  base_dev_id := 0; num_rails := 2; num_control_rails := 1; use_long_rkeys := false;
  bounce_buff_size := 8192; eager_max_size := 8192; virt_addr_mr := true; cpu_cache_line_size := 64;
  fabric := fun _ _ => - EINVAL; fi_mr_key := fun m => m + 100; fi_mr_desc := fun m => m + 200;
  FI_KEY_NOTAVAIL := 2 ^ 64 - 1; FI_INJECT := 2 ^ 25; fl_mr_handle := fun _ => mk_mr_handle [1; 2] [3];
  entry_xfer_infos := [];
|}.
Definition answer_msg : nccl_ofi_rdma_connection_info_t := mk_conn_msg 2 1 0 5 [[1; 3]] [[1; 1]; [1; 2]].
Definition answer_comm : nccl_net_ofi_rdma_recv_comm_t :=
  mk_recv_comm 0 [] 5 (mk_flush_buffer 4096 4 ex_handle) 0 ex_msgbuff [] NULL 0 0 true ex_rails ex_rails.
Definition answering_world : cworld :=
  w_engine (fun e => w_comms (fun _ => {[ 0 := RecvComm answer_comm; 1 := ListenComm (mk_listen_comm 800 (Some answer_msg) (Some 0) COMM_SEND_CONN) ]})
    (w_reqs <[800 := mk_req (Some 1) 0 0 0 NoData 0 NCCL_OFI_RDMA_REQ_CREATED NCCL_OFI_RDMA_SEND_CONN_RESP]> e)) closing_world.

Lemma failed_response_breaks_accept_witness :
  exists w', @accept refusing_env (node_conn_env 1) 1 answering_world = Some ((- EINVAL, None), w') /\
    comms (engine w') !! 0 = None /\ @accept refusing_env (node_conn_env 1) 1 w' = None.
Proof.
  apply (@failed_response_breaks_accept refusing_env (node_conn_env 1) (node_close_ok 1) answering_world
    (Idpool.all_ids 64 ∖ {[0]} ∖ {[1]}) 1 0 (mk_listen_comm 800 (Some answer_msg) (Some 0) COMM_SEND_CONN)
    (mk_req (Some 1) 0 0 0 NoData 0 NCCL_OFI_RDMA_REQ_CREATED NCCL_OFI_RDMA_SEND_CONN_RESP) answer_comm (mk_comm_rail 41 31 51) answer_msg (- EINVAL));
    try reflexivity.
  - destruct (closing_ready 1). constructor; assumption.
  - split; [discriminate|reflexivity].
  - rewrite !elem_of_difference, !elem_of_singleton. tauto.
  - split; [discriminate|reflexivity].
  - discriminate.
Defined.

(** A listener that nobody has connected to cannot be closed. *)
Lemma unconnected_listener_stays `{RdmaEnv} `{ConnEnv} w lid p :
  listening (engine w) lid p -> listen_close lid w = Some (- EINVAL, w).
Proof.
  intros (lc & r & Hlc & <- & _ & _ & Hreq & _ & _ & _ & Hs). unfold listen_close, lift, rdma_device_get_listen_comm, rdma_device_get_comm, get_req, bind, gets, of_option, ret.
  rewrite Hlc. cbn. rewrite Hreq. unfold is_state. rewrite bool_decide_true by done. by destruct w.
Qed.

End RdmaClose.
