(* ===== verification/RdmaEp.v ===== *)
(** * nccl_ofi_rdma.c: life cycle of an RDMA endpoint

    Creation and release of an endpoint with its data rails and control rails, over
    the libfabric objects of OfiRes.v and the base device of Net.v. Every data rail
    has an endpoint, an address vector and a completion queue; a control rail has
    its own endpoint and address vector and shares the queue of its data rail.
    OFI_NCCL_ENDPOINT_PER_COMM is at its default 0. What posting the bounce buffers
    does is in RdmaProgress.v; here only its code matters. *)

From S2P Require Import Prelude StateM NetTypes OfiMath Net OfiRes.
Import OfiRes.

Module RdmaEp.

Open Scope Z_scope.

(** A rail of the device and a rail of an endpoint. *)
Record nccl_net_ofi_rdma_device_rail_t := mk_dev_rail { dr_fabric : Z; dr_domain : Z; dr_cq : Z; dr_tclass : Z }.
Record ep_rail := mk_ep_rail {
  er_domain : Z;
  er_ofi_ep : Z;
  er_av : Z;
  er_cq : Z;
  er_min_bounce_posted : Z;
  er_max_bounce_posted : Z;
  er_num_bounce_posted : Z;
}.
Definition zero_ep_rail : ep_rail := mk_ep_rail NULL NULL NULL NULL 0 0 0.

Definition set_domain d r := mk_ep_rail d (er_ofi_ep r) (er_av r) (er_cq r) (er_min_bounce_posted r) (er_max_bounce_posted r) (er_num_bounce_posted r).
Definition set_cq c r := mk_ep_rail (er_domain r) (er_ofi_ep r) (er_av r) c (er_min_bounce_posted r) (er_max_bounce_posted r) (er_num_bounce_posted r).
Definition set_conn e a c r := mk_ep_rail (er_domain r) e a c (er_min_bounce_posted r) (er_max_bounce_posted r) (er_num_bounce_posted r).
Definition set_bounce mn mx r := mk_ep_rail (er_domain r) (er_ofi_ep r) (er_av r) (er_cq r) mn mx 0.

Record rdma_ep := mk_rdma_ep { e_rails : list ep_rail; e_control_rails : list ep_rail }.

(** The parameters of the plug-in. *)
Class EpConf := {
  domain_per_thread : bool;
  ofi_nccl_use_low_lat_tc : bool;
  ofi_nccl_rdma_rr_ctrl_msg : bool;
  ofi_nccl_rdma_min_posted_bounce_buffers : Z;
  ofi_nccl_rdma_max_posted_bounce_buffers : Z;
  FI_TC_UNSPEC : Z;
  FI_TC_LOW_LATENCY : Z;
}.

(** What the RDMA transport adds to a device. *)
Record eworld := mk_eworld {
  res : rworld;
  dev_rails : list nccl_net_ofi_rdma_device_rail_t;
  reps : gmap Z rdma_ep;
  next_ep : Z;
  is_max_write_inline_size_initialized : bool;
}.
Definition w_res f w := mk_eworld (f (res w)) (dev_rails w) (reps w) (next_ep w) (is_max_write_inline_size_initialized w).
Definition w_reps f w := mk_eworld (res w) (dev_rails w) (f (reps w)) (next_ep w) (is_max_write_inline_size_initialized w).
Definition w_next_ep f w := mk_eworld (res w) (dev_rails w) (reps w) (f (next_ep w)) (is_max_write_inline_size_initialized w).
Definition w_inline_init b w := mk_eworld (res w) (dev_rails w) (reps w) (next_ep w) b.

Section Rails.
Context {E : OfiEnv} {C : EpConf}.

Definition ep_rail_release (rail : ep_rail) (cq : Z) : R ep_rail :=
  nccl_ofi_ofiutils_ep_release (er_ofi_ep rail) (er_av rail) cq ;;; ret (set_conn NULL NULL NULL rail).

Fixpoint release_control_rails (rails : list ep_rail) : R (list ep_rail) :=
  match rails with
  | [] => ret []
  | r :: rs => let* r' := ep_rail_release r NULL in let* rs' := release_control_rails rs in ret (r' :: rs')
  end.
Fixpoint release_data_rails (rails : list ep_rail) : R (list ep_rail) :=
  match rails with
  | [] => ret []
  | r :: rs => let* r' := ep_rail_release r (er_cq r) in let* rs' := release_data_rails rs in ret (r' :: rs')
  end.

Definition release_rdma_ep_resources (ep : rdma_ep) : R rdma_ep :=
  let* controls := release_control_rails (e_control_rails ep) in
  let* rails := release_data_rails (e_rails ep) in
  ret (mk_rdma_ep rails controls).

Definition set_local_address (ofi_ep : Z) : R Z :=
  let* rc := fi_do (FiGetname ofi_ep) in ret (if rc =? 0 then 0 else - EINVAL).

(** Code and the rail as it is left. *)
Definition ep_rail_init (dev_rail : nccl_net_ofi_rdma_device_rail_t) (rail : ep_rail) (tclass : Z) : R (Z * ep_rail) :=
  let* (rc, domain) :=
    if domain_per_thread then fi_open (FiDomain (dr_fabric dev_rail)) (FidDomain (dr_fabric dev_rail)) (er_domain rail)
    else ret (0, dr_domain dev_rail) in
  let rail := set_domain domain rail in
  if negb (rc =? 0) then ret (rc, rail)
  else
    let rail := if negb (dr_cq dev_rail =? NULL) then set_cq (dr_cq dev_rail) rail else rail in
    let* rc := if negb (tclass =? FI_TC_UNSPEC) then fi_do FiDupinfo else ret 0 in
    if negb (rc =? 0) then ret (- ENOMEM, rail)
    else
      let* (rc, ep, av, cq) := nccl_ofi_ofiutils_init_connection (dr_tclass dev_rail) (er_domain rail) (er_ofi_ep rail) (er_av rail) (er_cq rail) in
      let rail := set_conn ep av cq rail in
      if negb (rc =? 0) then ret (rc, rail)
      else
        let* rc := set_local_address (er_ofi_ep rail) in
        if negb (rc =? 0) then let* rail := ep_rail_release rail (er_cq rail) in ret (rc, rail)
        else ret (0, rail).

Fixpoint init_data_rails (devs : list nccl_net_ofi_rdma_device_rail_t) (rails : list ep_rail) : R (Z * list ep_rail) :=
  match devs, rails with
  | d :: ds, r :: rs =>
      let* (rc, r') := ep_rail_init d r FI_TC_UNSPEC in
      if negb (rc =? 0) then ret (rc, r' :: rs)
      else let* (rc, rs') := init_data_rails ds rs in ret (rc, r' :: rs')
  | _, _ => ret (0, rails)
  end.

(** Every control rail starts with the completion queue of its data rail. *)
Fixpoint init_control_rails (tc : Z) (devs : list nccl_net_ofi_rdma_device_rail_t) (rails controls : list ep_rail) : R (Z * list ep_rail) :=
  match controls, devs, rails with
  | [], _, _ => ret (0, [])
  | c :: cs, d :: ds, r :: rs =>
      let* (rc, c') := ep_rail_init d (set_cq (er_cq r) c) tc in
      if negb (rc =? 0) then ret (rc, c' :: cs)
      else let* (rc, cs') := init_control_rails tc ds rs cs in ret (rc, c' :: cs')
  | _, _, _ => fun _ => None
  end.

Definition init_rail_ofi_resources (devs : list nccl_net_ofi_rdma_device_rail_t) (ep : rdma_ep) : R (Z * rdma_ep) :=
  let tc := if ofi_nccl_use_low_lat_tc then FI_TC_LOW_LATENCY else FI_TC_UNSPEC in
  let* (rc, rails) := init_data_rails devs (e_rails ep) in
  let* (rc, controls) := if negb (rc =? 0) then ret (rc, e_control_rails ep) else init_control_rails tc devs rails (e_control_rails ep) in
  let ep := mk_rdma_ep rails controls in
  if negb (rc =? 0) then let* ep := release_rdma_ep_resources ep in ret (rc, ep)
  else ret (0, ep).

(** The limits of posted buffers are those of the whole endpoint over its rails. *)
Definition init_bounce_buffers (ep : rdma_ep) : R (Z * rdma_ep) :=
  let* rc := fi_do FreelistInit in
  if negb (rc =? 0) then ret (rc, ep)
  else
    let* rc := fi_do FreelistInit in
    if negb (rc =? 0) then fi_do FreelistFini ;;; ret (rc, ep)
    else
      let limits n := set_bounce (NCCL_OFI_DIV_CEIL ofi_nccl_rdma_min_posted_bounce_buffers n)
                        (NCCL_OFI_DIV_CEIL ofi_nccl_rdma_max_posted_bounce_buffers n) in
      ret (0, mk_rdma_ep (limits (Z.of_nat (length (e_rails ep))) <$> e_rails ep)
                (limits (Z.of_nat (length (e_control_rails ep))) <$> e_control_rails ep)).

Definition fini_bounce_buffers : R Z :=
  let* rc := fi_do FreelistFini in
  if negb (rc =? 0) then ret rc else fi_do FreelistFini.

(** ** The endpoint object *)

Abbreviation D := (SM (Net.device eworld)).

Definition lift_res {A} (m : R A) : D A := fun d =>
  match m (res (Net.transport d)) with
  | Some (a, r) => Some (a, Net.w_transport (w_res (fun _ => r)) d)
  | None => None
  end.

Definition get_rep (p : Z) : D rdma_ep := let* t := gets Net.transport in of_option (reps t !! p).
Definition put_rep (p : Z) (e : rdma_ep) : D unit := modify (Net.w_transport (w_reps <[p := e]>)).

Definition nccl_net_ofi_rdma_endpoint_free (p : Z) : D Z :=
  let* ep := get_rep p in
  let* ep := lift_res (release_rdma_ep_resources ep) in
  put_rep p ep ;;;
  let* rc := lift_res fini_bounce_buffers in
  if negb (rc =? 0) then ret rc
  else
    let* rc := lift_res (fi_do DequeFinalize) in
    if negb (rc =? 0) then ret rc
    else
      modify (Net.w_transport (w_reps (delete p))) ;;;
      modify (Net.w_endpoints (delete p)) ;;;
      ret 0.

Definition nccl_net_ofi_rdma_endpoint_release (p : Z) : D Z :=
  Net.nccl_net_ofi_endpoint_release nccl_net_ofi_rdma_endpoint_free p.

(** The size itself is not kept, only whether it is known. *)
Definition init_max_write_inline_size_if_not_initialized : D Z :=
  let* t := gets Net.transport in
  if is_max_write_inline_size_initialized t then ret 0
  else
    let* rc := lift_res (fi_do FiGetoptInjectRmaSize) in
    if (rc =? 0) || (rc =? - FI_ENOPROTOOPT) then modify (Net.w_transport (w_inline_init true)) ;;; ret 0
    else ret rc.

(** The label error of create_endpoint. *)
Definition create_error (p rc : Z) : D (Z * Z) := nccl_net_ofi_rdma_endpoint_release p ;;; ret (rc, p).

(** The part of create_endpoint once the objects of the rails are there. *)
Definition create_buffers (p : Z) : D (Z * Z) :=
  let* ep := get_rep p in
  let* (rc, ep) := lift_res (init_bounce_buffers ep) in
  put_rep p ep ;;;
  if negb (rc =? 0) then create_error p rc
  else
    let* rc := lift_res (fi_do PostBounceBuffs) in
    if negb (rc =? 0) then create_error p rc
    else
      let* rc := init_max_write_inline_size_if_not_initialized in
      if negb (rc =? 0) then create_error p rc else ret (0, p).

Definition nccl_net_ofi_rdma_device_create_endpoint : D (Z * Z) :=
  let* rc := lift_res (fi_do Calloc) in
  if negb (rc =? 0) then ret (- ENOMEM, NULL)
  else
    let* t := gets Net.transport in
    let p := next_ep t in
    modify (Net.w_transport (w_next_ep (fun n => n + 1))) ;;;
    Net.nccl_net_ofi_endpoint_init p ;;;
    put_rep p (mk_rdma_ep [] []) ;;;
    let num_rails := length (dev_rails t) in
    let* rc := lift_res (fi_do Calloc) in
    if negb (rc =? 0) then create_error p (- ENOMEM)
    else
      put_rep p (mk_rdma_ep (replicate num_rails zero_ep_rail) []) ;;;
      let num_control_rails := if ofi_nccl_rdma_rr_ctrl_msg then num_rails else 1%nat in
      let* rc := lift_res (fi_do Calloc) in
      if negb (rc =? 0) then create_error p (- ENOMEM)
      else
        put_rep p (mk_rdma_ep (replicate num_rails zero_ep_rail) (replicate num_control_rails zero_ep_rail)) ;;;
        let* rc := lift_res (fi_do DequeInit) in
        if negb (rc =? 0) then create_error p rc
        else
          let* ep := get_rep p in
          let* (rc, ep) := lift_res (init_rail_ofi_resources (dev_rails t) ep) in
          put_rep p ep ;;;
          if negb (rc =? 0) then create_error p rc else create_buffers p.

End Rails.
(** The objects of a data rail and of a control rail. *)
Definition data_handles (r : ep_rail) : list Z := handles [er_ofi_ep r; er_av r; er_cq r].
Definition control_handles (r : ep_rail) : list Z := handles [er_ofi_ep r; er_av r].

Section RailObjects.
Context {E : OfiEnv} {CO : CloseOk} {C : EpConf}.

(** A rail without libfabric objects. *)
Definition blank (r : ep_rail) : Prop := er_ofi_ep r = NULL /\ er_av r = NULL /\ er_cq r = NULL.

Lemma blank_handles r : blank r -> data_handles r = [].
Proof. intros (H1 & H2 & H3). unfold data_handles. by rewrite H1, H2, H3. Qed.

Lemma blanks_handles rs : Forall blank rs -> rs ≫= data_handles = [].
Proof. induction 1 as [|r rs Hr _ IH]; [done|]. change (data_handles r ++ (rs ≫= data_handles) = []). by rewrite blank_handles, IH. Qed.

Lemma data_rail_init_wp w d r :
  fids_ok w -> domain_per_thread = false -> dr_cq d = NULL -> blank r ->
  wp (ep_rail_init d r FI_TC_UNSPEC) (fun x w' => grew (data_handles x.2) w w' /\ (if x.1 =? 0 then er_cq x.2 <> NULL else blank x.2)) w.
Proof.
  intros Hw Hdpt Hcq (He & Ha & Hc). unfold ep_rail_init. rewrite Hdpt, Hcq, !Z.eqb_refl. cbn [negb]. wp_simpl. cbn [Z.eqb negb]. wp_simpl. cbn [Z.eqb negb].
  cbn [er_domain er_ofi_ep er_av er_cq set_domain]. rewrite He, Ha, Hc. wp_simpl. apply init_connection_wp; [done|done| |].
  - intros rc w1 Hrc Hw1 Ho. rewrite (proj2 (Z.eqb_neq _ _) Hrc). cbn [negb]. wp_simpl. cbn [fst snd]. rewrite (proj2 (Z.eqb_neq _ _) Hrc).
    split; [|done]. apply grew_nil; [done|]. rewrite Ho, delete_id; [done|by apply null_not_open].
  - intros ep av cq w1 Hn Hnd H1 H2 H3 Hw1 Ho. cbn in H3. cbn [Z.eqb negb]. wp_simpl. cbn [er_ofi_ep er_cq set_conn].
    assert (grew [ep; av; cq] w w1) as Hg.
    { rewrite !NoDup_cons, !not_elem_of_cons in Hnd. destruct Hnd as ((Hea & Hec & _) & (Hac & _) & _ & _). constructor; [done| |done| |].
      - rewrite !NoDup_cons, !not_elem_of_cons. split_and!; try done; try apply not_elem_of_nil. constructor.
      - intros p Hp. rewrite Ho. cbn. rewrite !elem_of_cons, elem_of_nil in Hp. rewrite !lookup_insert. destruct Hp as [->|[->|[->|[]]]]; split; try done; by repeat case_decide.
      - intros p Hp. rewrite Ho. cbn. rewrite !not_elem_of_cons in Hp. destruct Hp as (? & ? & ? & _). by rewrite !lookup_insert_ne by done. }
    unfold set_local_address. wp_simpl. apply fi_do_wp. intros rc. wp_simpl. destruct (rc =? 0).
    + cbn [Z.eqb negb]. wp_simpl. cbn [fst snd Z.eqb]. split; [|cbn; rewrite !not_elem_of_cons in Hn; by destruct Hn as (_ & _ & Hn & _); apply not_eq_sym].
      unfold data_handles. cbn [er_ofi_ep er_av er_cq set_conn]. rewrite handles_all by done. destruct Hg. by constructor.
    + change (negb (- EINVAL =? 0)) with true. cbv iota. unfold ep_rail_release. wp_simpl. cbn [er_ofi_ep er_av er_cq set_conn]. apply ep_release_wp.
      * apply Hw1. * rewrite handles_all by done. apply (gr_nodup _ _ _ Hg). * rewrite handles_all by done. intros p Hp. by apply (gr_new _ _ _ Hg).
      * rewrite handles_all by done. intros w2 Hs. wp_simpl. cbn [fst snd]. change (- EINVAL =? 0) with false. cbv iota.
        split; [|done]. rewrite blank_handles by done. apply grew_nil; [apply Hs|]. eapply (grew_shrunk [ep; av; cq] [ep; av; cq] w _ w2); [|exact Hs|done]. destruct Hg. by constructor.
Qed.

(** The data rails, up to the first that fails. *)
Lemma init_data_rails_wp devs : forall rails w,
  fids_ok w -> domain_per_thread = false -> Forall (fun d => dr_cq d = NULL) devs -> Forall blank rails -> length rails = length devs ->
  wp (init_data_rails devs rails) (fun x w' => grew (x.2 ≫= data_handles) w w' /\ length x.2 = length devs /\
    (x.1 = 0 -> Forall (fun r => er_cq r <> NULL) x.2)) w.
Proof.
  induction devs as [|d devs IH]; intros rails w Hw Hdpt Hd Hr Hlen; destruct rails as [|r rails]; try done; cbn [init_data_rails].
  { wp_simpl. cbn. split_and!; try done. by apply grew_nil. }
  apply Forall_cons in Hd as [Hd Hds], Hr as [Hr Hrs]. wp_simpl. eapply wp_mono; [by apply data_rail_init_wp|].
  intros [rc r'] w1 (Hg & Hcase). cbn [fst snd] in *. destruct (Z.eqb_spec rc 0) as [->|Hrc]; cbn [negb].
  - wp_simpl. cbn in Hlen. eapply wp_mono; [apply (IH rails w1); [apply Hg|done|done|done|lia]|]. intros [rc rs'] w2 (Hg2 & Hl & Hnn). wp_simpl. cbn in *.
    split_and!; [by eapply grew_trans|lia|]. intros Hz. constructor; [done|by apply Hnn].
  - wp_simpl. cbn [fst snd]. split_and!; [|cbn in Hlen |- *; lia|done].
    change ((r' :: rails) ≫= data_handles) with (data_handles r' ++ (rails ≫= data_handles)). by rewrite (blanks_handles rails), app_nil_r.
Qed.

Lemma control_rail_init_wp w d c cq tc :
  fids_ok w -> domain_per_thread = false -> dr_cq d = NULL -> blank c -> cq <> NULL -> is_Some (opened w !! cq) ->
  wp (ep_rail_init d (set_cq cq c) tc) (fun x w' => fids_ok w' /\
    if x.1 =? 0 then grew (control_handles x.2) w w' else control_handles x.2 = [] /\ (x.1 = - ENOMEM /\ opened w' = opened w \/ opened w' !! cq = None)) w.
Proof.
  intros Hw Hdpt Hdc (He & Ha & Hc) Hcn Hco. unfold ep_rail_init. rewrite Hdpt, Hdc, Z.eqb_refl. cbn [negb]. wp_simpl. cbn [Z.eqb negb].
  assert (forall w1, fids_ok w1 -> opened w1 = opened w -> wp (let* (rc, ep, av, cq') := nccl_ofi_ofiutils_init_connection (dr_tclass d) (dr_domain d) NULL NULL cq in
      let rail := set_conn ep av cq' (set_domain (dr_domain d) (set_cq cq c)) in
      if negb (rc =? 0) then ret (rc, rail)
      else
        let* rc := set_local_address (er_ofi_ep rail) in
        if negb (rc =? 0) then let* rail := ep_rail_release rail (er_cq rail) in ret (rc, rail)
        else ret (0, rail)) (fun x w' => fids_ok w' /\
    if x.1 =? 0 then grew (control_handles x.2) w w' else control_handles x.2 = [] /\ (x.1 = - ENOMEM /\ opened w' = opened w \/ opened w' !! cq = None)) w1) as Hrest.
  { intros w1 Hw1 Ho1. wp_simpl. apply init_connection_wp; [done|by rewrite Ho1| |].
    - intros rc w2 Hrc Hw2 Ho2. rewrite (proj2 (Z.eqb_neq _ _) Hrc). cbn [negb]. wp_simpl. cbn [fst snd]. rewrite (proj2 (Z.eqb_neq _ _) Hrc).
      split_and!; [done|done|]. right. by rewrite Ho2, lookup_delete_eq.
    - rewrite (proj2 (Z.eqb_neq _ _) Hcn). intros ep av cq' w2 Hn Hnd H1 H2 -> Hw2 Ho2. cbn [Z.eqb negb]. wp_simpl. cbn [er_ofi_ep er_cq set_conn].
      rewrite !not_elem_of_cons in Hn. destruct Hn as (Hn1 & Hn2 & _). rewrite !NoDup_cons, !not_elem_of_cons in Hnd. destruct Hnd as ((Hea & Hec & _) & (Hac & _) & _ & _).
      assert (NULL ∉ [ep; av]) as Hnull by (rewrite !not_elem_of_cons; split_and!; try done; apply not_elem_of_nil).
      assert (NoDup [ep; av]) as Hnd by (rewrite !NoDup_cons, !not_elem_of_cons; split_and!; try done; try apply not_elem_of_nil; constructor).
      unfold set_local_address. wp_simpl. apply fi_do_wp. intros rc. wp_simpl. destruct (rc =? 0).
      + cbn [Z.eqb negb]. wp_simpl. cbn [fst snd Z.eqb]. split; [done|]. unfold control_handles. cbn [er_ofi_ep er_av set_conn]. rewrite handles_all by done.
        rewrite Ho1 in *. constructor; [done|done|done| |].
        * intros p Hp. cbn. rewrite Ho2. rewrite !elem_of_cons, elem_of_nil in Hp. rewrite !lookup_insert. destruct Hp as [->|[->|[]]]; split; try done; by repeat case_decide.
        * intros p Hp. cbn. rewrite Ho2. rewrite !not_elem_of_cons in Hp. destruct Hp as (? & ? & _). by rewrite !lookup_insert_ne by done.
      + change (negb (- EINVAL =? 0)) with true. cbv iota. unfold ep_rail_release. wp_simpl. cbn [er_ofi_ep er_av er_cq set_conn].
        assert (NULL ∉ [ep; av; cq]) as Hnull3 by (rewrite !not_elem_of_cons; split_and!; try done; try (by apply not_eq_sym); apply not_elem_of_nil).
        apply ep_release_wp; rewrite ?handles_all by done.
        * apply Hw2. * rewrite !NoDup_cons, !not_elem_of_cons; split_and!; try done; try apply not_elem_of_nil; constructor.
        * intros p Hp. cbn. rewrite Ho2, !lookup_insert. rewrite !elem_of_cons, elem_of_nil in Hp. rewrite Ho1. destruct Hp as [->|[->|[->|[]]]]; by repeat case_decide.
        * intros w3 [Hw3 Hs]. wp_simpl. cbn [fst snd]. change (- EINVAL =? 0) with false. cbv iota. split_and!; [done|done|]. right. rewrite Hs, decide_True; [done|].
          do 2 right. left. }
  cbn [er_domain er_ofi_ep er_av er_cq set_domain set_cq]. rewrite He, Ha. destruct (Z.eqb_spec tc FI_TC_UNSPEC); cbn [negb].
  - wp_simpl. cbn [Z.eqb negb]. by apply Hrest.
  - wp_simpl. apply fi_do_wp. intros rc. destruct (Z.eqb_spec rc 0); cbn [negb]; [by apply Hrest|]. wp_simpl. cbn [fst snd]. change (- ENOMEM =? 0) with false. cbv iota.
    split_and!; [done| |by left]. unfold control_handles. cbn. by rewrite He, Ha.
Qed.
End RailObjects.

Section EndpointObjects.
Context {E : OfiEnv} {CO : CloseOk} {C : EpConf}.

Lemma blank_controls cs : Forall blank cs -> cs ≫= control_handles = [].
Proof. induction 1 as [|c cs Hc _ IH]; [done|]. change (control_handles c ++ (cs ≫= control_handles) = []). rewrite IH. unfold control_handles. by destruct Hc as (-> & -> & _). Qed.

(** The control rails, up to the first that fails; unless only the copy of the
    fi_info failed, the queue of a data rail is closed then. *)
Lemma init_control_rails_wp tc devs : forall rails controls w,
  fids_ok w -> domain_per_thread = false -> Forall (fun d => dr_cq d = NULL) devs ->
  Forall (fun r => er_cq r <> NULL /\ is_Some (opened w !! er_cq r)) rails -> Forall blank controls ->
  (length controls <= length devs)%nat -> length rails = length devs ->
  wp (init_control_rails tc devs rails controls) (fun x w' =>
    (grew (x.2 ≫= control_handles) w w' /\ (x.1 = 0 \/ x.1 = - ENOMEM)) \/
    (x.1 <> 0 /\ Exists (fun r => er_cq r <> NULL /\ opened w' !! er_cq r = None) rails)) w.
Proof.
  induction devs as [|d devs IH]; intros rails [|c controls] w Hw Hdpt Hd Hr Hc Hl Hlr; try (cbn in Hl; lia); cbn [init_control_rails].
  1-2: wp_simpl; left; cbn [fst snd]; split; [by apply grew_nil|by left].
  destruct rails as [|r rails]; [done|]. cbn in Hl, Hlr.
  apply Forall_cons in Hd as [Hd Hds], Hr as [[Hrn Hro] Hrs], Hc as [Hc Hcs]. wp_simpl. eapply wp_mono; [by apply control_rail_init_wp|].
  intros [rc c'] w1 (Hw1 & Hcase). cbn [fst snd] in *. destruct (Z.eqb_spec rc 0) as [->|Hrc]; cbn [negb].
  - wp_simpl. eapply wp_mono; [apply (IH rails controls w1); try done; try lia|].
    + eapply Forall_impl; [exact Hrs|]. intros r' [? ?]. split; [done|by eapply grew_keeps].
    + intros [rc cs'] w2 H2. wp_simpl. cbn [fst snd] in *. destruct H2 as [[Hg Hz]|[Hz He]]; [left|right; split; [done|by right]].
      split; [|done]. exact (grew_trans (control_handles c') _ w w1 w2 Hcase Hg).
  - wp_simpl. cbn [fst snd]. destruct Hcase as [Hh [[-> Ho]|Ho]]; [left|right; split; [done|by left]]. split; [|by right].
    change ((c' :: controls) ≫= control_handles) with (control_handles c' ++ (controls ≫= control_handles)). rewrite Hh, blank_controls by done. by apply grew_nil.
Qed.

Lemma handles_two a b : handles [a; b; NULL] = handles [a; b].
Proof. unfold handles. rewrite !filter_cons. repeat case_decide; done. Qed.

Lemma release_control_rails_wp rails : forall w,
  fids_ok w -> NoDup (rails ≫= control_handles) -> (forall p, p ∈ rails ≫= control_handles -> is_Some (opened w !! p)) ->
  wp (release_control_rails rails) (fun _ w' => shrunk (rails ≫= control_handles) w w') w.
Proof.
  induction rails as [|r rails IH]; intros w Hw Hnd Ho; cbn [release_control_rails]; [wp_simpl; by apply shrunk_nil|].
  change ((r :: rails) ≫= control_handles) with (control_handles r ++ (rails ≫= control_handles)) in *.
  apply NoDup_app in Hnd as (Hnd1 & Hdis & Hnd2). unfold ep_rail_release. wp_simpl. apply ep_release_wp; rewrite ?handles_two; try done.
  - intros p Hp. apply Ho, elem_of_app. by left.
  - intros w1 Hs. wp_simpl. eapply wp_mono; [apply (IH w1); [apply Hs|done|]|].
    + intros p Hp. eapply shrunk_keeps; [exact Hs| |]; [intros H; by apply (Hdis p)|]. apply Ho, elem_of_app. by right.
    + intros rs w2 Hs2. wp_simpl. by eapply shrunk_trans.
Qed.

Lemma release_data_rails_wp rails : forall w,
  fids_ok w -> NoDup (rails ≫= data_handles) -> (forall p, p ∈ rails ≫= data_handles -> is_Some (opened w !! p)) ->
  wp (release_data_rails rails) (fun _ w' => shrunk (rails ≫= data_handles) w w') w.
Proof.
  induction rails as [|r rails IH]; intros w Hw Hnd Ho; cbn [release_data_rails]; [wp_simpl; by apply shrunk_nil|].
  change ((r :: rails) ≫= data_handles) with (data_handles r ++ (rails ≫= data_handles)) in *.
  apply NoDup_app in Hnd as (Hnd1 & Hdis & Hnd2). unfold ep_rail_release. wp_simpl. apply ep_release_wp; try done.
  - intros p Hp. apply Ho, elem_of_app. by left.
  - intros w1 Hs. wp_simpl. eapply wp_mono; [apply (IH w1); [apply Hs|done|]|].
    + intros p Hp. eapply shrunk_keeps; [exact Hs| |]; [intros H; by apply (Hdis p)|]. apply Ho, elem_of_app. by right.
    + intros rs w2 Hs2. wp_simpl. by eapply shrunk_trans.
Qed.

(** The objects of an endpoint. *)
Definition ep_handles (ep : rdma_ep) : list Z := (e_rails ep ≫= data_handles) ++ (e_control_rails ep ≫= control_handles).

(** An endpoint whose objects were opened since [w] gives them all back. *)
Lemma release_rdma_ep_resources_wp w0 w ep :
  grew (ep_handles ep) w0 w -> wp (release_rdma_ep_resources ep) (fun _ w' => fids_ok w' /\ opened w' = opened w0) w.
Proof.
  intros Hg. pose proof (gr_nodup _ _ _ Hg) as Hnd. unfold ep_handles in Hnd. apply NoDup_app in Hnd as (Hd & Hdis & Hc).
  assert (forall p, p ∈ ep_handles ep -> is_Some (opened w !! p)) as Ho by (intros p Hp; apply (gr_new _ _ _ Hg _ Hp)).
  unfold release_rdma_ep_resources. wp_simpl. eapply wp_mono; [apply release_control_rails_wp; [apply Hg|done|]|].
  { intros p Hp. apply Ho, elem_of_app. by right. }
  intros cs w1 Hs1. wp_simpl. eapply wp_mono; [apply release_data_rails_wp; [apply Hs1|done|]|].
  { intros p Hp. eapply shrunk_keeps; [exact Hs1|by apply Hdis|]. apply Ho, elem_of_app. by left. }
  intros rs w2 Hs2. wp_simpl. split; [apply Hs2|]. eapply grew_shrunk; [exact Hg|exact (shrunk_trans _ _ _ _ _ Hs1 Hs2)|]. apply Permutation_app_comm.
Qed.

(** Closing never opens. *)
Lemma fi_close_open w p x w' : fi_close p w = Some (x, w') -> is_Some (opened w !! p) /\ opened w' ⊆ opened w.
Proof.
  intros H. unfold fi_close in H. cbn in H. destruct (opened w !! p) as [k|] eqn:Hp; [|done]. split; [done|].
  cbn in H. rewrite close_ok in H. cbn in H. unfold ret in H. simplify_eq. cbn. apply delete_subseteq.
Qed.

Lemma close_some_open w p x w' : close_some p w = Some (x, w') -> (p <> NULL -> is_Some (opened w !! p)) /\ opened w' ⊆ opened w.
Proof.
  unfold close_some. destruct (Z.eqb_spec p NULL) as [->|Hp]; cbn [negb]; intros H; [unfold ret in H; by simplify_eq|].
  apply bind_inv in H as (rc & w1 & H1 & H2). apply fi_close_open in H1 as [? ?]. unfold ret in H2. simplify_eq. done.
Qed.

Lemma ep_rail_release_open w r cq r' w' :
  ep_rail_release r cq w = Some (r', w') -> opened w' ⊆ opened w /\ (cq <> NULL -> is_Some (opened w !! cq)).
Proof.
  intros H. unfold ep_rail_release, nccl_ofi_ofiutils_ep_release in H. apply bind_inv in H as ([] & w3 & H & H'). unfold ret in H'. simplify_eq.
  apply bind_inv in H as ([] & w1 & [_ S1]%close_some_open & H). apply bind_inv in H as ([] & w2 & [_ S2]%close_some_open & [Hc S3]%close_some_open).
  split; [by etrans; [|etrans]|]. intros Hne. eapply lookup_weaken_is_Some; [by apply Hc|by etrans].
Qed.

Lemma release_control_rails_open rails : forall w rs w', release_control_rails rails w = Some (rs, w') -> opened w' ⊆ opened w.
Proof.
  induction rails as [|r rails IH]; intros w rs w' H; cbn [release_control_rails] in H; [unfold ret in H; by simplify_eq|].
  apply bind_inv in H as (r1 & w1 & [S1 _]%ep_rail_release_open & H). apply bind_inv in H as (rs1 & w2 & S2%IH & H). unfold ret in H. simplify_eq. by etrans.
Qed.

Lemma release_data_rails_open rails : forall w rs w',
  release_data_rails rails w = Some (rs, w') -> Forall (fun r => er_cq r <> NULL -> is_Some (opened w !! er_cq r)) rails.
Proof.
  induction rails as [|r rails IH]; intros w rs w' H; cbn [release_data_rails] in H; [constructor|].
  apply bind_inv in H as (r1 & w1 & [S1 Hr]%ep_rail_release_open & H). apply bind_inv in H as (rs1 & w2 & S2%IH & H). constructor; [done|].
  eapply Forall_impl; [exact S2|]. intros r' Hr' Hne. by eapply lookup_weaken_is_Some; [apply Hr'|].
Qed.

(** A queue of a data rail that is closed already makes the release undefined. *)
Lemma release_closed_queue w rails controls :
  Exists (fun r => er_cq r <> NULL /\ opened w !! er_cq r = None) rails -> release_rdma_ep_resources (mk_rdma_ep rails controls) w = None.
Proof.
  intros He. destruct (release_rdma_ep_resources _ w) as [[ep w']|] eqn:H; [exfalso|done]. unfold release_rdma_ep_resources in H.
  apply bind_inv in H as (cs & w1 & S1%release_control_rails_open & H). apply bind_inv in H as (rs & w2 & Hd%release_data_rails_open & _). cbn [e_rails] in Hd.
  apply Exists_exists in He as (r & Hin & Hne & Hcl). rewrite Forall_forall in Hd. specialize (Hd r Hin Hne).
  eapply lookup_weaken_is_Some in Hd; [|exact S1]. rewrite Hcl in Hd. by destruct Hd.
Qed.

Lemma queues_open w w' rails :
  grew (rails ≫= data_handles) w w' -> Forall (fun r => er_cq r <> NULL) rails -> Forall (fun r => er_cq r <> NULL /\ is_Some (opened w' !! er_cq r)) rails.
Proof.
  intros Hg Hnn. apply Forall_forall. intros r Hr. rewrite Forall_forall in Hnn. split; [by apply Hnn|]. apply (gr_new _ _ _ Hg).
  apply list_elem_of_bind. exists r. split; [|done]. apply list_elem_of_filter. split; [by apply Hnn|]. do 2 right. left.
Qed.

(** The traffic class of the control rails. *)
Definition control_tclass : Z := if ofi_nccl_use_low_lat_tc then FI_TC_LOW_LATENCY else FI_TC_UNSPEC.

(** A device whose rails have no queue of their own, an endpoint just allocated. *)
Record fresh_ep (devs : list nccl_net_ofi_rdma_device_rail_t) (ep : rdma_ep) : Prop := {
  fe_devs : Forall (fun d => dr_cq d = NULL) devs;
  fe_rails : Forall blank (e_rails ep);
  fe_controls : Forall blank (e_control_rails ep);
  fe_length : length (e_rails ep) = length devs;
  fe_control_length : (length (e_control_rails ep) <= length devs)%nat;
}.

(** With one domain per process, the objects of an endpoint are all or nothing:
    when init_rail_ofi_resources succeeds, release_rdma_ep_resources afterwards leaves
    exactly the objects that were open before, and when it returns an error the
    objects that were open before are the ones that are open. The one case without a
    defined outcome is a control rail that fails with the queue of its data rail
    already closed. *)
Theorem rail_objects_all_or_nothing w devs ep :
  fids_ok w -> domain_per_thread = false -> fresh_ep devs ep ->
  match init_rail_ofi_resources devs ep w with
  | Some ((rc, ep'), w') =>
      if rc =? 0 then exists ep'' w'', release_rdma_ep_resources ep' w' = Some (ep'', w'') /\ opened w'' = opened w
      else opened w' = opened w
  | None => exists rails w1 rc controls w2,
      init_data_rails devs (e_rails ep) w = Some ((0, rails), w1) /\
      init_control_rails control_tclass devs rails (e_control_rails ep) w1 = Some ((rc, controls), w2) /\ rc <> 0 /\
      Exists (fun r => er_cq r <> NULL /\ opened w2 !! er_cq r = None) rails
  end.
Proof.
  intros Hw Hdpt [Hd Hr Hc Hl Hlc]. unfold init_rail_ofi_resources. change (if ofi_nccl_use_low_lat_tc then _ else _) with control_tclass.
  destruct (proj1 (wp_run _ _ _) (init_data_rails_wp devs (e_rails ep) w Hw Hdpt Hd Hr Hl)) as ([rc rails] & w1 & H1 & Hg & Hlen & Hnn). cbn [fst snd] in *.
  unfold bind at 1. rewrite H1. destruct (Z.eqb_spec rc 0) as [->|Hrc]; cbn [negb].
  - assert (Forall (fun r => er_cq r <> NULL /\ is_Some (opened w1 !! er_cq r)) rails) as Hcq by (by eapply queues_open; [exact Hg|apply Hnn]).
    destruct (proj1 (wp_run _ _ _) (init_control_rails_wp control_tclass devs rails (e_control_rails ep) w1 (gr_ok _ _ _ Hg) Hdpt Hd Hcq Hc Hlc Hlen)) as ([rc controls] & w2 & H2 & Hcase).
    cbn [fst snd] in *. unfold bind at 1. rewrite H2. destruct Hcase as [[Hg2 Hz]|[Hz He]].
    + assert (grew (ep_handles (mk_rdma_ep rails controls)) w w2) as Hall by exact (grew_trans _ _ _ _ _ Hg Hg2).
      destruct (proj1 (wp_run _ _ _) (release_rdma_ep_resources_wp w w2 _ Hall)) as (ep2 & w3 & H3 & _ & Ho).
      destruct (Z.eqb_spec rc 0) as [->|Hrc]; cbn [negb]; [cbn; by eauto|]. unfold bind. rewrite H3. cbn. by rewrite (proj2 (Z.eqb_neq _ _) Hrc).
    + rewrite (proj2 (Z.eqb_neq _ _) Hz). cbn [negb]. unfold bind. rewrite release_closed_queue by done. by eauto 10.
  - unfold bind at 1. cbn. rewrite (proj2 (Z.eqb_neq _ _) Hrc). cbn [negb]. 
    assert (grew (ep_handles (mk_rdma_ep rails (e_control_rails ep))) w w1) as Hall.
    { unfold ep_handles. cbn [e_rails e_control_rails]. by rewrite (blank_controls (e_control_rails ep)), app_nil_r. }
    destruct (proj1 (wp_run _ _ _) (release_rdma_ep_resources_wp w w1 _ Hall)) as (ep2 & w3 & H3 & _ & Ho). unfold bind. rewrite H3. cbn. by rewrite (proj2 (Z.eqb_neq _ _) Hrc).
Qed.

(** When the rails of an endpoint are up and a control rail then fails, with any
    code but the one of a failed copy of the fi_info, nccl_ofi_ofiutils_init_connection
    (or the release of the rail) has closed the completion queue the control rail
    shares with its data rail, and the clean-up of init_rail_ofi_resources closes the
    same queue once more, which is undefined. *)
Theorem control_rail_failure_closes_twice w devs ep rails w1 rc controls w2 :
  fids_ok w -> domain_per_thread = false -> fresh_ep devs ep ->
  init_data_rails devs (e_rails ep) w = Some ((0, rails), w1) ->
  init_control_rails control_tclass devs rails (e_control_rails ep) w1 = Some ((rc, controls), w2) ->
  rc <> 0 -> rc <> - ENOMEM -> init_rail_ofi_resources devs ep w = None.
Proof.
  intros Hw Hdpt [Hd Hr Hc Hl Hlc] H1 H2 Hz He.
  destruct (wp_value _ _ _ _ _ (init_data_rails_wp devs (e_rails ep) w Hw Hdpt Hd Hr Hl) H1) as (Hg & Hlen & Hnn). cbn [fst snd] in *.
  pose proof (queues_open _ _ _ Hg (Hnn eq_refl)) as Hcq.
  destruct (wp_value _ _ _ _ _ (init_control_rails_wp control_tclass devs rails (e_control_rails ep) w1 (gr_ok _ _ _ Hg) Hdpt Hd Hcq Hc Hlc Hlen) H2) as [[_ [?|?]]|[_ Hex]]; try done.
  unfold init_rail_ofi_resources. change (if ofi_nccl_use_low_lat_tc then _ else _) with control_tclass.
  unfold bind at 1. rewrite H1. cbn [Z.eqb negb]. unfold bind at 1. rewrite H2, (proj2 (Z.eqb_neq _ _) Hz). cbn [negb]. unfold bind. by rewrite release_closed_queue.
Qed.
End EndpointObjects.

(** ** The RDMA transport as a provider of endpoints *)

(** Every call of the environment succeeds. *)
Class AllOk `{OfiEnv} : Prop := { all_ok l c : fi_code l c = 0 }.

#[export] Instance all_ok_close `{AllOk} : CloseOk.
Proof. constructor. intros. apply all_ok. Qed.

Section Succeeds.
Context {E : OfiEnv} {A : AllOk} {C : EpConf}.

Lemma fi_do_ok w c (Q : Z -> rworld -> Prop) : Q 0 (w_rlog (fun l => l ++ [c]) w) -> wp (fi_do c) Q w.
Proof using A. intros H. unfold fi_do. wp_simpl. by rewrite all_ok. Qed.

Lemma fi_open_ok w c k out (Q : Z * Z -> rworld -> Prop) : (forall p w', Q (0, p) w') -> wp (fi_open c k out) Q w.
Proof using A. intros H. unfold fi_open. wp_simpl. apply fi_do_ok. cbn [Z.eqb negb]. wp_simpl. apply H. Qed.

Ltac ok_step := wp_simpl; first [apply fi_do_ok|apply fi_open_ok; intros ??]; cbn [Z.eqb negb andb orb].

Lemma init_connection_ok tclass domain ep av cq w :
  wp (nccl_ofi_ofiutils_init_connection tclass domain ep av cq) (fun x _ => x.1.1.1 = 0) w.
Proof using A.
  unfold nccl_ofi_ofiutils_init_connection, open_av, finish_connection, set_cuda_api. ok_step. destruct (cq =? NULL); [ok_step|wp_simpl; cbn [Z.eqb negb]].
  all: do 3 ok_step; ok_step; rewrite andb_false_r.
  all: wp_simpl; destruct (api_version_ge_1_18 && _); [ok_step; change (not_supported 0) with false; cbn [Z.eqb]|]; wp_simpl; ok_step; ok_step; by wp_simpl.
Qed.

Lemma ep_rail_init_ok d r tc w : wp (ep_rail_init d r tc) (fun x _ => x.1 = 0) w.
Proof using A.
  assert (forall d r, forall w, wp (let* (rc, ep, av, cq) := nccl_ofi_ofiutils_init_connection (dr_tclass d) (er_domain r) (er_ofi_ep r) (er_av r) (er_cq r) in
      let rail := set_conn ep av cq r in
      if negb (rc =? 0) then ret (rc, rail)
      else
        let* rc := set_local_address (er_ofi_ep rail) in
        if negb (rc =? 0) then let* rail := ep_rail_release rail (er_cq rail) in ret (rc, rail)
        else ret (0, rail)) (fun x _ => x.1 = 0) w) as Hconn.
  { clear d r tc w. intros d r w. wp_simpl. eapply wp_mono; [apply init_connection_ok|]. intros [[[rc ep] av] cq] w1 Hrc. cbn in Hrc. subst rc. cbn [Z.eqb negb].
    unfold set_local_address. wp_simpl. ok_step. wp_simpl. cbn [Z.eqb negb]. by wp_simpl. }
  unfold ep_rail_init. wp_simpl. destruct domain_per_thread; [ok_step|wp_simpl; cbn [Z.eqb negb]]; wp_simpl.
  all: destruct (negb (tc =? FI_TC_UNSPEC)); [ok_step|wp_simpl; cbn [Z.eqb negb]]; apply Hconn.
Qed.

Lemma init_data_rails_ok devs : forall rails w, wp (init_data_rails devs rails) (fun x _ => x.1 = 0) w.
Proof using A.
  induction devs as [|d devs IH]; intros [|r rails] w; cbn [init_data_rails]; try by wp_simpl.
  wp_simpl. eapply wp_mono; [apply ep_rail_init_ok|]. intros [rc r'] w1 Hrc. cbn in Hrc. subst rc. cbn [Z.eqb negb]. wp_simpl.
  eapply wp_mono; [apply IH|]. intros [rc rs] w2 Hrc. by wp_simpl.
Qed.

Lemma init_control_rails_ok tc devs : forall rails controls w,
  (length controls <= length devs)%nat -> length rails = length devs -> wp (init_control_rails tc devs rails controls) (fun x _ => x.1 = 0) w.
Proof using A.
  induction devs as [|d devs IH]; intros [|r rails] [|c controls] w Hl Hlr; cbn in Hl, Hlr; try lia; cbn [init_control_rails]; try by wp_simpl.
  wp_simpl. eapply wp_mono; [apply ep_rail_init_ok|]. intros [rc r'] w1 Hrc. cbn in Hrc. subst rc. cbn [Z.eqb negb]. wp_simpl.
  eapply wp_mono; [apply IH; lia|]. intros [rc rs] w2 Hrc. by wp_simpl.
Qed.

Lemma wp_both {W T} (m : SM W T) (P Q : T -> W -> Prop) w : wp m P w -> wp m Q w -> wp m (fun a w' => P a w' /\ Q a w') w.
Proof. unfold wp. by destruct (m w) as [[a w']|]. Qed.

Lemma init_rail_ofi_resources_ok devs ep w :
  fids_ok w -> domain_per_thread = false -> fresh_ep devs ep ->
  wp (init_rail_ofi_resources devs ep) (fun x w' => x.1 = 0 /\ grew (ep_handles x.2) w w') w.
Proof using A.
  intros Hw Hdpt [Hd Hr Hc Hl Hlc]. unfold init_rail_ofi_resources. wp_simpl.
  eapply wp_mono; [apply wp_both; [exact (init_data_rails_ok devs (e_rails ep) w)|exact (init_data_rails_wp devs (e_rails ep) w Hw Hdpt Hd Hr Hl)]|].
  intros [rc rails] w1 (Hrc & Hg & Hlen & Hnn). cbn [fst snd] in *. subst rc. cbn [Z.eqb negb]. wp_simpl.
  eapply wp_mono; [apply wp_both; [by apply init_control_rails_ok|apply (init_control_rails_wp _ devs rails (e_control_rails ep) w1 (gr_ok _ _ _ Hg) Hdpt Hd (queues_open _ _ _ Hg (Hnn eq_refl)) Hc Hlc Hlen)]|].
  intros [rc controls] w2 (Hrc & [[Hg2 _]|[Hz _]]); cbn [fst snd] in *; [|done]. subst rc. cbn [Z.eqb negb]. wp_simpl. cbn [fst snd]. split; [done|].
  exact (grew_trans _ _ _ _ _ Hg Hg2).
Qed.
End Succeeds.

(** An RDMA device between two steps: the objects that are open are the [base] ones
    and those of its endpoints. *)
Record ep_inv (base : gmap Z fid) (d : Net.device eworld) : Prop := {
  ei_devs : Forall (fun r => dr_cq r = NULL) (dev_rails (Net.transport d));
  ei_some : dev_rails (Net.transport d) <> [];
  ei_dom : dom (reps (Net.transport d)) = dom (Net.endpoints d);
  ei_next p : p ∈ dom (Net.endpoints d) -> p < next_ep (Net.transport d);
  ei_objects : grew (owned ep_handles (reps (Net.transport d))) (base_world base) (res (Net.transport d));
}.

Section Provider.
Context {E : OfiEnv} {A : AllOk} {C : EpConf} (base : gmap Z fid) (Hdpt : domain_per_thread = false).

Lemma lift_res_wp {T} (d : Net.device eworld) (m : R T) (Q : T -> Net.device eworld -> Prop) :
  wp m (fun a r => Q a (Net.w_transport (w_res (fun _ => r)) d)) (res (Net.transport d)) -> wp (lift_res m) Q d.
Proof. unfold wp, lift_res. by destruct (m _) as [[a r]|]. Qed.

Lemma get_rep_wp (d : Net.device eworld) p e (Q : rdma_ep -> Net.device eworld -> Prop) :
  reps (Net.transport d) !! p = Some e -> Q e d -> wp (get_rep p) Q d.
Proof. intros H HQ. unfold get_rep. wp_simpl. by eapply wp_of_option. Qed.

Lemma endpoint_free_wp d p e :
  ep_inv base d -> Net.endpoints d !! p = Some e ->
  wp (nccl_net_ofi_rdma_endpoint_free p) (fun rc d' => rc = 0 /\ ep_inv base d' /\ Net.device_lock d' = Net.device_lock d /\
    Net.endpoint_table d' = Net.endpoint_table d /\ Net.endpoints d' = delete p (Net.endpoints d)) d.
Proof using A.
  intros [Hdev Hsome Hdom Hnext Hobj] Hp.
  assert (exists ep, reps (Net.transport d) !! p = Some ep) as [ep Hep] by (apply elem_of_dom; rewrite Hdom; by apply elem_of_dom).
  eapply grew_perm in Hobj; [|etrans; [by eapply owned_delete|apply Permutation_app_comm]]. apply grew_split in Hobj as (w1 & Hg1 & Hg2).
  unfold nccl_net_ofi_rdma_endpoint_free. wp_simpl. eapply get_rep_wp; [done|]. wp_simpl. apply lift_res_wp.
  eapply wp_mono; [by apply (release_rdma_ep_resources_wp w1)|]. intros ep' w2 [Hw2 Ho2]. unfold put_rep, fini_bounce_buffers. wp_simpl.
  apply lift_res_wp. wp_simpl. apply fi_do_ok. cbn [Z.eqb negb]. apply fi_do_ok. cbn [Z.eqb negb]. wp_simpl. apply lift_res_wp, fi_do_ok. cbn [Z.eqb negb]. wp_simpl. cbn.
  split_and!; try done. constructor; cbn; rewrite ?delete_insert_eq, ?dom_delete_L; try done; [by rewrite Hdom| |].
  - intros q [Hq _]%elem_of_difference. by apply Hnext.
  - by eapply grew_same.
Qed.

Lemma limits_handles mn mx mn' mx' rails controls :
  ep_handles (mk_rdma_ep (set_bounce mn mx <$> rails) (set_bounce mn' mx' <$> controls)) = ep_handles (mk_rdma_ep rails controls).
Proof.
  unfold ep_handles. cbn [e_rails e_control_rails]. f_equal; [induction rails as [|r rs IH]|induction controls as [|r rs IH]]; cbn; try done; by f_equal.
Qed.

Lemma create_buffers_wp d p ep (Q : Z * Z -> Net.device eworld -> Prop) :
  reps (Net.transport d) !! p = Some ep ->
  (forall ep' r b, ep_handles ep' = ep_handles ep -> opened r = opened (res (Net.transport d)) -> (fids_ok (res (Net.transport d)) -> fids_ok r) ->
     Q (0, p) (Net.w_transport (fun t => mk_eworld r (dev_rails t) (<[p := ep']> (reps t)) (next_ep t) b) d)) ->
  wp (create_buffers p) Q d.
Proof using A.
  intros Hp HQ. unfold create_buffers, init_bounce_buffers. wp_simpl. eapply get_rep_wp; [done|]. wp_simpl. apply lift_res_wp. wp_simpl.
  apply fi_do_ok. cbn [Z.eqb negb]. wp_simpl. apply fi_do_ok. cbn [Z.eqb negb]. wp_simpl. unfold put_rep. wp_simpl. cbn [Z.eqb negb]. wp_simpl.
  apply lift_res_wp, fi_do_ok. cbn [Z.eqb negb]. wp_simpl. unfold init_max_write_inline_size_if_not_initialized. wp_simpl. cbn.
  destruct (is_max_write_inline_size_initialized _) eqn:Hinit; wp_simpl; [cbn [Z.eqb negb]; wp_simpl|apply lift_res_wp, fi_do_ok; cbn [Z.eqb orb]; wp_simpl; cbn [Z.eqb negb]; wp_simpl].
  all: destruct ep as [rails controls]; apply HQ; [apply limits_handles|done|done].
Qed.

Definition num_control_rails (n : nat) : nat := if ofi_nccl_rdma_rr_ctrl_msg then n else 1.

Lemma fresh_endpoint devs :
  Forall (fun r => dr_cq r = NULL) devs -> devs <> [] ->
  fresh_ep devs (mk_rdma_ep (replicate (length devs) zero_ep_rail) (replicate (num_control_rails (length devs)) zero_ep_rail)).
Proof.
  intros Hd Hs. constructor; cbn; rewrite ?length_replicate; try done; try by apply Forall_replicate.
  unfold num_control_rails. destruct ofi_nccl_rdma_rr_ctrl_msg; [lia|]. destruct devs; [done|cbn; lia].
Qed.

Lemma create_endpoint_wp d :
  ep_inv base d ->
  wp nccl_net_ofi_rdma_device_create_endpoint (fun r d' => r.1 = 0 /\ ep_inv base d' /\ Net.device_lock d' = Net.device_lock d /\
    Net.endpoint_table d' = Net.endpoint_table d /\ Net.endpoints d !! r.2 = None /\ Net.endpoints d' = <[r.2 := Net.mk_ep 0 0]> (Net.endpoints d)) d.
Proof using A Hdpt.
  intros [Hdev Hsome Hdom Hnext Hobj]. unfold nccl_net_ofi_rdma_device_create_endpoint, Net.nccl_net_ofi_endpoint_init, Net.put_base, put_rep.
  wp_simpl. apply lift_res_wp, fi_do_ok. cbn [Z.eqb negb]. wp_simpl. apply lift_res_wp, fi_do_ok. cbn [Z.eqb negb]. wp_simpl.
  apply lift_res_wp, fi_do_ok. cbn [Z.eqb negb]. wp_simpl. apply lift_res_wp, fi_do_ok. cbn [Z.eqb negb]. wp_simpl.
  eapply get_rep_wp; [cbn; apply lookup_insert_eq|]. wp_simpl. apply lift_res_wp. eapply wp_mono; [apply init_rail_ofi_resources_ok|]; [apply Hobj|done|by apply fresh_endpoint|].
  intros [rc ep] w1 [Hrc Hg]. cbn [fst snd] in *. subst rc. wp_simpl. cbn [Z.eqb negb]. eapply create_buffers_wp; [cbn; apply lookup_insert_eq|].
  intros ep' r b Hh Ho Hok. cbn in Ho, Hok |- *.
  assert (Net.endpoints d !! next_ep (Net.transport d) = None) as Hnew by (apply not_elem_of_dom; intros H; specialize (Hnext _ H); lia).
  split_and!; try done. constructor; cbn; try done.
  - rewrite !dom_insert_L, Hdom. set_solver.
  - intros p. rewrite dom_insert_L, elem_of_union, elem_of_singleton. intros [->|Hp]; [lia|]. specialize (Hnext _ Hp). lia.
  - rewrite !insert_insert_eq. eapply grew_perm; [symmetry; etrans; [apply owned_insert|apply Permutation_app_comm]|].
    + apply not_elem_of_dom. rewrite Hdom. by apply not_elem_of_dom.
    + rewrite Hh. eapply grew_trans; [exact Hobj|]. eapply (grew_same _ _ w1); [|by apply Hok, Hg|done]. destruct Hg. by constructor.
Qed.

(** The device of Net.v over the RDMA transport. *)
Lemma rdma_ep_provider : Net.EpProvider nccl_net_ofi_rdma_device_create_endpoint nccl_net_ofi_rdma_endpoint_free (ep_inv base).
Proof using A Hdpt.
  constructor.
  - intros d Hinv Hl. eapply wp_mono; [by apply create_endpoint_wp|]. intros [rc p] d' (Hrc & ? & ? & ? & ? & ?). cbn in *. subst rc. cbn. split_and!; congruence || done.
  - intros d p e Hinv Hl Hp _. eapply wp_mono; [by eapply endpoint_free_wp|]. intros rc d' (-> & ? & ? & ? & ?). cbn. split_and!; congruence || done.
  - intros d d' Ht Hd [H1 H2 H3 H4 H5]. constructor; rewrite ?Ht, ?Hd; done.
Qed.

(** C31. With one domain per process (domain_per_thread off) and when no call of
    libfabric or the C library fails, threads can get and release the
    endpoint of an RDMA device in any order: every call returns, and at any point at
    which nobody holds an endpoint, no endpoint is in memory and exactly the libfabric
    objects are open that were open at the start. *)
Theorem rdma_endpoints_leak_nothing d ops :
  ep_inv base d -> Net.refs_rel 0 ∅ d ∅ -> Z.of_nat (length ops) < 2 ^ 31 ->
  exists ok R d', Net.run_thread_ops nccl_net_ofi_rdma_device_create_endpoint nccl_net_ofi_rdma_endpoint_free ops ∅ d = Some ((ok, R), d') /\
    (ok = true -> R = ∅ -> Net.endpoints d' = ∅ /\ opened (res (Net.transport d')) = base).
Proof using A Hdpt.
  intros Hinv Hrel Hlen. pose proof rdma_ep_provider as EP.
  pose proof (Net.run_thread_ops_wp _ _ (ep_inv base) ops ∅ d 0 ∅ Hinv Hrel ltac:(lia) ltac:(lia)) as Hwp.
  apply wp_run in Hwp as ([ok R] & d' & Hrun & [_ _ Hdom _ Hobj] & S & Hrel' & HS). exists ok, R, d'. split; [done|]. intros -> ->. cbn [fst snd] in *. rewrite (HS eq_refl) in Hrel'.
  pose proof (Net.no_refs_no_endpoints _ _ Hrel') as He. split; [done|]. rewrite He, dom_empty_L in Hdom. apply dom_empty_inv_L in Hdom. rewrite Hdom in Hobj.
  exact (owned_none _ _ _ Hobj).
Qed.
End Provider.

Section Errors.
Context {E : OfiEnv} {C : EpConf}.

Lemma create_error_hangs p rc d : Net.device_lock d = true -> create_error p rc d = None.
Proof. intros H. unfold create_error, nccl_net_ofi_rdma_endpoint_release, Net.nccl_net_ofi_endpoint_release, Net.mutex_lock, bind, gets, assert. by rewrite H. Qed.

Lemma lift_res_lock {T} (m : R T) d a d' : lift_res m d = Some (a, d') -> Net.device_lock d' = Net.device_lock d.
Proof. unfold lift_res. destruct (m _) as [[? ?]|]; [|done]. intros [= <- <-]. done. Qed.

Lemma create_buffers_code p d rc q d' :
  Net.device_lock d = true -> create_buffers p d = Some ((rc, q), d') -> rc = 0.
Proof.
  intros Hl H. unfold create_buffers in H. apply bind_inv in H as (ep & d1 & H1 & H). unfold get_rep in H1. apply bind_inv in H1 as (t & d2 & H2 & H1).
  unfold gets, of_option in H1, H2. injection H2 as <- <-. destruct (_ !! p); [|done]. injection H1 as <- <-.
  apply bind_inv in H as ([rc1 ep1] & d1 & H1%lift_res_lock & H). apply bind_inv in H as ([] & d2 & [= <-] & H).
  destruct (negb (rc1 =? 0)); [by rewrite create_error_hangs in H by (cbn; congruence)|].
  apply bind_inv in H as (rc2 & d3 & H3%lift_res_lock & H). cbn in H3. destruct (negb (rc2 =? 0)); [by rewrite create_error_hangs in H by (cbn; congruence)|].
  apply bind_inv in H as (rc3 & d4 & H4 & H). assert (Net.device_lock d4 = true) as Hl4.
  { unfold init_max_write_inline_size_if_not_initialized in H4. apply bind_inv in H4 as (t & d5 & [= <- <-] & H4).
    destruct (is_max_write_inline_size_initialized _); [injection H4 as <- <-; congruence|]. apply bind_inv in H4 as (rc4 & d5 & H5%lift_res_lock & H4).
    destruct (_ || _); [apply bind_inv in H4 as ([] & d6 & [= <-] & [= <- <-])|injection H4 as <- <-]; cbn; congruence. }
  destruct (negb (rc3 =? 0)); [by rewrite create_error_hangs in H by done|]. by injection H as <- <- <-.
Qed.

(** create_endpoint runs with the device lock held, and each of its error
    paths but the first calls release_ep, which takes that lock: it returns only with
    success, or because the endpoint itself could not be allocated. *)
Theorem create_endpoint_returns_no_error d rc p d' :
  Net.device_lock d = true -> nccl_net_ofi_rdma_device_create_endpoint d = Some ((rc, p), d') -> rc = 0 \/ (rc = - ENOMEM /\ p = NULL).
Proof.
  intros Hl H. unfold nccl_net_ofi_rdma_device_create_endpoint in H. apply bind_inv in H as (rc1 & d1 & H1%lift_res_lock & H).
  destruct (negb (rc1 =? 0)); [injection H as <- <- <-; by right|]. left. apply bind_inv in H as (t & d2 & [= <- <-] & H). apply bind_inv in H as ([] & d2 & [= <-] & H).
  apply bind_inv in H as (x & d2 & H2 & H). unfold Net.nccl_net_ofi_endpoint_init in H2. apply bind_inv in H2 as ([] & d3 & [= <-] & [= <- <-]).
  apply bind_inv in H as ([] & d2 & [= <-] & H). apply bind_inv in H as (rc2 & d2 & H2%lift_res_lock & H). cbn in H2.
  destruct (negb (rc2 =? 0)); [by rewrite create_error_hangs in H by (cbn; congruence)|]. apply bind_inv in H as ([] & d3 & [= <-] & H).
  apply bind_inv in H as (rc3 & d3 & H3%lift_res_lock & H). cbn in H3. destruct (negb (rc3 =? 0)); [by rewrite create_error_hangs in H by (cbn; congruence)|].
  apply bind_inv in H as ([] & d4 & [= <-] & H). apply bind_inv in H as (rc4 & d4 & H4%lift_res_lock & H). cbn in H4.
  destruct (negb (rc4 =? 0)); [by rewrite create_error_hangs in H by (cbn; congruence)|]. apply bind_inv in H as (ep & d5 & H5 & H).
  unfold get_rep in H5. apply bind_inv in H5 as (t & d6 & [= <- <-] & H5). unfold of_option in H5. destruct (_ !! _); [|done]. injection H5 as <- <-.
  apply bind_inv in H as ([rc5 ep1] & d5 & H5%lift_res_lock & H). apply bind_inv in H as ([] & d6 & [= <-] & H).
  destruct (negb (rc5 =? 0)); [rewrite create_error_hangs in H by (cbn; congruence); done|]. eapply create_buffers_code; [|exact H]. cbn. congruence.
Qed.
End Errors.

(** *** Examples *)

(** The parameters of the examples: the traffic class 1 stands for low latency. *)
Definition example_conf : EpConf :=
  {| domain_per_thread := false; ofi_nccl_use_low_lat_tc := true; ofi_nccl_rdma_rr_ctrl_msg := false;
     ofi_nccl_rdma_min_posted_bounce_buffers := 64; ofi_nccl_rdma_max_posted_bounce_buffers := 128; FI_TC_UNSPEC := 0; FI_TC_LOW_LATENCY := 1 |}.

(** libfabric where every call succeeds, but for those that [bad] picks. *)
Definition example_env (bad : fi_call -> bool) : OfiEnv :=
  {| fi_code _ c := if bad c then - EINVAL else 0; api_version_ge_1_18 := true |}.

Lemma example_all_ok : @AllOk (example_env (fun _ => false)).
Proof. by constructor. Qed.

(** Two rails, each with its fabric and its domain. *)
Definition example_rails : list nccl_net_ofi_rdma_device_rail_t := [mk_dev_rail 1 2 NULL 0; mk_dev_rail 3 4 NULL 0].
Definition example_objects : gmap Z fid := list_to_map [(1, FidFabric); (2, FidDomain 1); (3, FidFabric); (4, FidDomain 3)].
Definition example_world : rworld := mk_rworld example_objects 5 GDR_UNKNOWN [].
Definition example_device (lock : bool) : Net.device eworld :=
  Net.mk_device lock ∅ ∅ (mk_eworld example_world example_rails ∅ 40 false).

Lemma example_fids : fids_ok example_world.
Proof.
  split; [done|]. intros p. change (dom (opened example_world)) with (dom example_objects). unfold example_objects. rewrite dom_list_to_map_L. cbn [fmap list_fmap fst list_to_set].
  intros H. assert (p = 1 \/ p = 2 \/ p = 3 \/ p = 4) as H' by set_solver. cbn. lia.
Qed.

Lemma example_inv lock : ep_inv example_objects (example_device lock).
Proof.
  constructor; cbn; try done; [by repeat constructor|]. apply grew_nil; [exact example_fids|done].
Qed.

Lemma example_fresh : fresh_ep example_rails (mk_rdma_ep (replicate 2 zero_ep_rail) (replicate 1 zero_ep_rail)).
Proof. constructor; cbn; try lia; by repeat constructor. Qed.

(** Two threads, the second gets its endpoint while the first holds it twice. *)
Definition example_ops : list Net.thread_op :=
  [Net.ThreadGets 7; Net.ThreadGets 8; Net.ThreadGets 7; Net.ThreadReleases 7; Net.ThreadReleases 8; Net.ThreadReleases 7].

Lemma rdma_endpoints_leak_nothing_witness :
  exists R d', Net.run_thread_ops (@nccl_net_ofi_rdma_device_create_endpoint (example_env (fun _ => false)) example_conf)
      (@nccl_net_ofi_rdma_endpoint_free (example_env (fun _ => false))) example_ops ∅ (example_device false) = Some ((true, R), d') /\
    R = ∅ /\ opened (res (Net.transport d')) = example_objects.
Proof.
  destruct (@rdma_endpoints_leak_nothing (example_env (fun _ => false)) example_all_ok example_conf example_objects eq_refl (example_device false) example_ops)
    as (ok & R & d' & Hrun & H).
  - apply example_inv.
  - constructor; cbn; try done.
  - cbn. lia.
  - assert (ok = true /\ R = ∅) as [-> ->].
    { apply (f_equal (option_map fst)) in Hrun. vm_compute in Hrun. by injection Hrun as <- <-. }
    exists ∅, d'. split; [exact Hrun|]. split; [done|]. by apply H.
Defined.

Definition example_ep : rdma_ep := mk_rdma_ep (replicate 2 zero_ep_rail) (replicate 1 zero_ep_rail).

(** The second data rail cannot be enabled. *)
Definition bad_data_rail (c : fi_call) : bool := match c with FiEnable p => p =? 8 | _ => false end.
(** The control rail cannot be enabled. *)
Definition bad_control_rail (c : fi_call) : bool := match c with FiEnable p => p =? 11 | _ => false end.

Lemma bad_data_close : @CloseOk (example_env bad_data_rail).
Proof. by constructor. Qed.
Lemma bad_control_close : @CloseOk (example_env bad_control_rail).
Proof. by constructor. Qed.

Lemma rail_objects_all_or_nothing_witness :
  exists ep' w', @init_rail_ofi_resources (example_env bad_data_rail) example_conf example_rails example_ep example_world = Some ((- EINVAL, ep'), w') /\
    opened w' = example_objects.
Proof.
  pose proof (@rail_objects_all_or_nothing (example_env bad_data_rail) bad_data_close example_conf example_world example_rails example_ep example_fids eq_refl example_fresh) as H.
  destruct (@init_rail_ofi_resources (example_env bad_data_rail) example_conf example_rails example_ep example_world) as [[[rc ep'] w']|] eqn:Hrun.
  - assert (rc = - EINVAL) as -> by (apply (f_equal (option_map (fun x => x.1.1))) in Hrun; vm_compute in Hrun; by injection Hrun as <-).
    exists ep', w'. split; [reflexivity|exact H].
  - exfalso. apply (f_equal (option_map (fun x => x.1.1))) in Hrun. vm_compute in Hrun. done.
Defined.

Lemma control_rail_failure_closes_twice_witness :
  @init_rail_ofi_resources (example_env bad_control_rail) example_conf example_rails example_ep example_world = None.
Proof.
  destruct (@init_data_rails (example_env bad_control_rail) example_conf example_rails (e_rails example_ep) example_world) as [[[rc rails] w1]|] eqn:H1;
    [|exfalso; vm_compute in H1; done].
  assert (rc = 0) as -> by (apply (f_equal (option_map (fun x => x.1.1))) in H1; vm_compute in H1; by injection H1).
  destruct (@init_control_rails (example_env bad_control_rail) example_conf (@control_tclass example_conf) example_rails rails (e_control_rails example_ep) w1)
    as [[[rc controls] w2]|] eqn:H2; [|exfalso; vm_compute in H1; injection H1 as <- <-; vm_compute in H2; done].
  apply (@control_rail_failure_closes_twice (example_env bad_control_rail) bad_control_close example_conf example_world example_rails example_ep rails w1 rc controls w2);
    [exact example_fids|reflexivity|exact example_fresh|exact H1|exact H2| |].
  all: vm_compute in H1; injection H1 as <- <-; apply (f_equal (option_map (fun x => x.1.1))) in H2; vm_compute in H2; injection H2 as <-; done.
Defined.

Lemma create_endpoint_returns_no_error_witness :
  exists p d', @nccl_net_ofi_rdma_device_create_endpoint (example_env (fun _ => false)) example_conf (example_device true) = Some ((0, p), d').
Proof.
  destruct (@nccl_net_ofi_rdma_device_create_endpoint (example_env (fun _ => false)) example_conf (example_device true)) as [[[rc p] d']|] eqn:H;
    [|exfalso; vm_compute in H; done].
  destruct (@create_endpoint_returns_no_error (example_env (fun _ => false)) example_conf (example_device true) rc p d' eq_refl H) as [->|[-> ->]].
  - by exists p, d'.
  - exfalso. apply (f_equal (option_map (fun x => x.1.1))) in H. vm_compute in H. done.
Defined.

End RdmaEp.
