(* ===== verification/RdmaDevice.v ===== *)
(** * nccl_ofi_rdma.c: life cycle of RDMA devices and of the plug-in

    Creation and release of a device with its rails, over the libfabric objects of
    OfiRes.v, and the functions that fill the plug-in with devices and take it down,
    over Plugin.v. The start of the transport is in RdmaInit.v. The parts of a device that hold no
    libfabric object (scheduler, ID pool, array of communicators, address list) are
    kept as whether they are there. *)

From stdpp Require Import strings.
From S2P Require Import Prelude StateM NetTypes Plugin OfiUtils OfiRes RdmaWire.
Import OfiRes.

Module RdmaDevice.

Open Scope Z_scope.

Record dev_rail := mk_rail { rl_info : bool; rl_fabric : Z; rl_domain : Z; rl_cq : Z }.
Definition zero_rail : dev_rail := mk_rail false NULL NULL NULL.

Record rdma_device := mk_rdma_device {
  rd_rails : option (list dev_rail);
  rd_scheduler : bool;
  rd_use_long_rkeys : bool;
  rd_ep_addr_list : bool;
  rd_comms : bool;
  rd_comm_idpool : bool;
}.
Definition zero_device : rdma_device := mk_rdma_device None false false false false false.

(** Parameters of the plug-in. *)
Class DevConf := {
  domain_per_thread : bool;
  endpoint_per_communicator : bool;
}.

Section Device.
Context {E : OfiEnv} {C : DevConf}.

(** ** Rails *)

(** The label error of init_device_rail_ofi_resources. *)
Definition rail_error (rail : dev_rail) (rc : Z) : R (Z * dev_rail) :=
  close_some (rl_domain rail) ;;; close_some (rl_fabric rail) ;;; ret (rc, mk_rail (rl_info rail) NULL NULL (rl_cq rail)).

Definition init_device_rail_ofi_resources (rail : dev_rail) : R (Z * dev_rail) :=
  let* (rc, fabric) := fi_open FiFabric FidFabric (rl_fabric rail) in
  let rail := mk_rail (rl_info rail) fabric (rl_domain rail) (rl_cq rail) in
  if negb (rc =? 0) then rail_error rail rc
  else
    let* (rc, domain) :=
      if domain_per_thread then ret (0, rl_domain rail) else fi_open (FiDomain fabric) (FidDomain fabric) (rl_domain rail) in
    let rail := mk_rail (rl_info rail) fabric domain (rl_cq rail) in
    if negb (rc =? 0) then rail_error rail rc
    else if endpoint_per_communicator then
      assert (negb (domain =? NULL)) ;;;
      let* (rc, cq) := fi_open (FiCqOpen domain) (FidCq domain) (rl_cq rail) in
      let rail := mk_rail (rl_info rail) fabric domain cq in
      if negb (rc =? 0) then rail_error rail rc else assert (negb (cq =? NULL)) ;;; ret (rc, rail)
    else ret (rc, mk_rail (rl_info rail) fabric domain NULL).

Fixpoint device_prepare_for_connection (rails : list dev_rail) : R (Z * list dev_rail) :=
  match rails with
  | [] => ret (0, [])
  | r :: rs =>
      let* (rc, r') := init_device_rail_ofi_resources r in
      if negb (rc =? 0) then ret (rc, r' :: rs)
      else let* (rc, rs') := device_prepare_for_connection rs in ret (rc, r' :: rs')
  end.

Fixpoint release_device_ofi_resources (rails : list dev_rail) : R unit :=
  match rails with
  | [] => ret tt
  | r :: rs =>
      close_some (rl_domain r) ;;;
      close_some (rl_fabric r) ;;;
      (if rl_info r then fi_do FiFreeinfo ;;; ret tt else ret tt) ;;;
      (if negb (rl_cq r =? NULL) then assert endpoint_per_communicator ;;; fi_close (rl_cq r) ;;; ret tt else ret tt) ;;;
      release_device_ofi_resources rs
  end.

(** The copies of the elements of the list, up to the first that fails. *)
Fixpoint dup_infos (info_list : list OfiUtils.fi_info) (num_infos : nat) : R (bool * list dev_rail) :=
  match num_infos with
  | O => ret (true, [])
  | S n =>
      match info_list with
      | [] => ret (false, replicate (S n) zero_rail)
      | _ :: infos =>
          let* rc := fi_do FiDupinfo in
          if negb (rc =? 0) then ret (false, replicate (S n) zero_rail)
          else let* (ok, rs) := dup_infos infos n in ret (ok, mk_rail true NULL NULL NULL :: rs)
      end
  end.

Fixpoint free_infos (rails : list dev_rail) : R unit :=
  match rails with
  | [] => ret tt
  | r :: rs => (if rl_info r then fi_do FiFreeinfo ;;; ret tt else ret tt) ;;; free_infos rs
  end.

Definition create_device_rail_array (info_list : list OfiUtils.fi_info) (num_infos : nat) : R (option (list dev_rail)) :=
  let* rc := fi_do Calloc in
  if negb (rc =? 0) then ret None
  else
    let* (ok, rails) := dup_infos info_list num_infos in
    if ok : bool then ret (Some rails) else free_infos rails ;;; ret None.

(** ** Devices *)

(** A part of the device that is taken down with [c] if it is there; the first error
    is the result. *)
Definition fini_part (there : bool) (c : fi_call) (first_error : Z) : R Z :=
  if there then let* rc := fi_do c in ret (if negb (rc =? 0) && (first_error =? 0) then rc else first_error) else ret first_error.

Definition nccl_net_ofi_rdma_device_release (dev : rdma_device) : R Z :=
  match rd_rails dev with Some rails => release_device_ofi_resources rails | None => ret tt end ;;;
  let* err := fini_part (rd_scheduler dev) SchedulerFini 0 in
  let* err := fini_part (rd_comm_idpool dev) IdpoolFini err in
  (if rd_ep_addr_list dev then fi_do EpAddrListFini ;;; ret tt else ret tt) ;;;
  let* err := fini_part true DeviceFini err in
  ret err.

Definition create_error (dev : rdma_device) : R (option rdma_device) := nccl_net_ofi_rdma_device_release dev ;;; ret None.

(** The part of device_create after the libfabric objects are there. *)
Definition create_comms (dev : rdma_device) : R (option rdma_device) :=
  let* rc := fi_do Calloc in
  if negb (rc =? 0) then create_error dev
  else
    let dev := mk_rdma_device (rd_rails dev) (rd_scheduler dev) (rd_use_long_rkeys dev) (rd_ep_addr_list dev) true false in
    let* rc := fi_do Calloc in
    if negb (rc =? 0) then create_error dev
    else
      let* rc := fi_do IdpoolInit in
      if negb (rc =? 0) then create_error dev
      else ret (Some (mk_rdma_device (rd_rails dev) (rd_scheduler dev) (rd_use_long_rkeys dev) (rd_ep_addr_list dev) true true)).

Definition nccl_net_ofi_rdma_device_create (info_list : list OfiUtils.fi_info) (max_group_size : Z) : R (option rdma_device) :=
  let* rc := fi_do Calloc in
  if negb (rc =? 0) then ret None
  else
    let* rc := fi_do DeviceInit in
    if negb (rc =? 0) then ret None
    else if negb (max_group_size =? Z.of_nat (length info_list)) then create_error zero_device
    else
      let* rc := fi_do SchedulerInit in
      if negb (rc =? 0) then create_error zero_device
      else
        let* rails := create_device_rail_array info_list (length info_list) in
        match rails with
        | None => create_error (mk_rdma_device None true false false false false)
        | Some rails =>
            let* info := of_option (head info_list) in
            let long := negb (OfiUtils.mr_key_size info <=? RdmaWire.NCCL_NET_OFI_CTRL_MSG_SHORT_KEY_SIZE) in
            let* rc := if endpoint_per_communicator then fi_do EpAddrListInit else ret 0 in
            if negb (rc =? 0) then create_error (mk_rdma_device (Some rails) true long false false false)
            else
              let* (rc, rails) := device_prepare_for_connection rails in
              let dev := mk_rdma_device (Some rails) true long endpoint_per_communicator false false in
              if negb (rc =? 0) then create_error dev else create_comms dev
        end.

(** ** The plug-in *)

(** The plug-in object with the devices it points to, the topology it owns and the
    two clean-up lists. *)
Record pworld := mk_pworld {
  pw_res : rworld;
  pw_devices : gmap Z rdma_device;
  pw_next : Z;
  pw_plugin : Plugin.nccl_net_ofi_plugin_t;
  pw_topo : bool;
  pw_cleanup_lists : bool;
}.

Abbreviation PM := (SM pworld).

Definition w_pres f w := mk_pworld (f (pw_res w)) (pw_devices w) (pw_next w) (pw_plugin w) (pw_topo w) (pw_cleanup_lists w).
Definition w_devices f w := mk_pworld (pw_res w) (f (pw_devices w)) (pw_next w) (pw_plugin w) (pw_topo w) (pw_cleanup_lists w).
Definition w_pnext f w := mk_pworld (pw_res w) (pw_devices w) (f (pw_next w)) (pw_plugin w) (pw_topo w) (pw_cleanup_lists w).
Definition w_plugin p w := mk_pworld (pw_res w) (pw_devices w) (pw_next w) p (pw_topo w) (pw_cleanup_lists w).
Definition w_topo b w := mk_pworld (pw_res w) (pw_devices w) (pw_next w) (pw_plugin w) b (pw_cleanup_lists w).
Definition w_cleanup b w := mk_pworld (pw_res w) (pw_devices w) (pw_next w) (pw_plugin w) (pw_topo w) b.

Definition lift_p {A} (m : R A) : PM A := fun w =>
  match m (pw_res w) with Some (a, r) => Some (a, w_pres (fun _ => r) w) | None => None end.

(** The loop over the devices; [lists] are the NIC lists the iterator still has. *)
Fixpoint create_devices (n : nat) (dev_id max_group_size : Z) (lists : list (list OfiUtils.fi_info)) : PM Z :=
  match n with
  | O => ret 0
  | S n' =>
      match lists with
      | [] => ret (- EINVAL)
      | info_list :: lists' =>
          let* dev := lift_p (nccl_net_ofi_rdma_device_create info_list max_group_size) in
          match dev with
          | None => ret (- ENOMEM)
          | Some dev =>
              let* p := gets pw_next in
              modify (w_pnext (fun n => n + 1)) ;;;
              modify (w_devices <[p := dev]>) ;;;
              let* plugin := gets pw_plugin in
              let (rc, plugin) := Plugin.nccl_net_ofi_plugin_assign_device plugin dev_id p in
              modify (w_plugin plugin) ;;;
              if negb (rc =? 0) then ret rc else create_devices n' (dev_id + 1) max_group_size lists'
          end
      end
  end.

(** [begin_rc] is what nccl_ofi_topo_set_to_begin returns. *)
Definition nccl_net_ofi_rdma_plugin_complete_init (begin_rc max_group_size : Z) (lists : list (list OfiUtils.fi_info)) : PM Z :=
  if domain_per_thread && endpoint_per_communicator then ret ncclInvalidArgument
  else if negb (begin_rc =? 0) then ret begin_rc
  else
    let* plugin := gets pw_plugin in
    create_devices (Z.to_nat (Plugin.p_num_devs plugin)) 0 max_group_size lists.

(** The releases of nccl_net_ofi_plugin_fini. *)
Fixpoint release_devices (ps : list Z) : PM unit :=
  match ps with
  | [] => ret tt
  | p :: ps' =>
      let* m := gets pw_devices in
      let* dev := of_option (m !! p) in
      lift_p (nccl_net_ofi_rdma_device_release dev) ;;;
      modify (w_devices (delete p)) ;;;
      release_devices ps'
  end.

Definition nccl_net_ofi_rdma_plugin_fini : PM Z :=
  modify (w_topo false) ;;;
  let* rc1 := lift_p (fi_do DequeFinalize) in
  let* rc2 := lift_p (fi_do DequeFinalize) in
  modify (w_cleanup false) ;;;
  let* plugin := gets pw_plugin in
  let (ps, plugin) := Plugin.nccl_net_ofi_plugin_fini plugin in
  release_devices ps ;;;
  modify (w_plugin plugin) ;;;
  ret (if negb (rc2 =? 0) then rc2 else rc1).

(** The base destructor, which plugin_init has set as release_plugin. *)
Definition base_plugin_fini : PM unit :=
  let* plugin := gets pw_plugin in
  let (ps, plugin) := Plugin.nccl_net_ofi_plugin_fini plugin in
  release_devices ps ;;; modify (w_plugin plugin).

Definition nccl_net_ofi_rdma_plugin_create (num_devices : Z) : PM Z :=
  let* rc := lift_p (fi_do Calloc) in
  if negb (rc =? 0) then ret (- ENOMEM)
  else
    let* rc := lift_p (fi_do Calloc) in
    let* plugin := gets pw_plugin in
    let (rc, plugin) := Plugin.nccl_net_ofi_plugin_init (rc =? 0) num_devices plugin in
    modify (w_plugin plugin) ;;;
    if negb (rc =? 0) then ret rc
    else
      let* rc := lift_p (fi_do DequeInit) in
      if negb (rc =? 0) then base_plugin_fini ;;; ret rc
      else
        let* rc := lift_p (fi_do DequeInit) in
        if negb (rc =? 0) then base_plugin_fini ;;; ret rc
        else modify (w_topo true) ;;; modify (w_cleanup true) ;;; ret 0.

End Device.

(** ** The objects of a device *)

Definition rl_handles (r : dev_rail) : list Z := handles [rl_domain r; rl_fabric r; rl_cq r].
Definition rd_handles (dev : rdma_device) : list Z := match rd_rails dev with Some rails => rails ≫= rl_handles | None => [] end.

Lemma rails_cons r rs : (r :: rs) ≫= rl_handles = rl_handles r ++ (rs ≫= rl_handles).
Proof. done. Qed.

Section Objects.
Context {E : OfiEnv} {CO : CloseOk} {C : DevConf}.

Definition rail_blank (r : dev_rail) : Prop := rl_fabric r = NULL /\ rl_domain r = NULL /\ rl_cq r = NULL.
(** Only with an endpoint per communicator a rail has a queue. *)
Definition cq_ok (r : dev_rail) : Prop := rl_cq r <> NULL -> endpoint_per_communicator = true.
Definition dev_ok (dev : rdma_device) : Prop := match rd_rails dev with Some rails => Forall cq_ok rails | None => True end.

Lemma rail_blank_handles r : rail_blank r -> rl_handles r = [].
Proof. intros (H1 & H2 & H3). unfold rl_handles. by rewrite H1, H2, H3. Qed.

Lemma rails_blank_handles rs : Forall rail_blank rs -> rs ≫= rl_handles = [].
Proof. induction 1 as [|r rs Hr _ IH]; [done|]. by rewrite rails_cons, rail_blank_handles, IH. Qed.

Lemma rails_blank_cq rs : Forall rail_blank rs -> Forall cq_ok rs.
Proof. intros H. eapply Forall_impl; [exact H|]. by intros r (_ & _ & Hc) Hne. Qed.

Lemma rail_error_wp L w0 w i fabric domain rc (Q : Z * dev_rail -> rworld -> Prop) :
  grew (handles [domain] ++ handles [fabric] ++ L) w0 w -> (forall w', grew L w0 w' -> Q (rc, mk_rail i NULL NULL NULL) w') ->
  wp (rail_error (mk_rail i fabric domain NULL) rc) Q w.
Proof using CO.
  intros Hg HQ. unfold rail_error. wp_simpl. eapply close_some_grew; [exact Hg|]. intros w1 H1. wp_simpl. eapply close_some_grew; [exact H1|]. intros w2 H2. wp_simpl. by apply HQ.
Qed.

Lemma handles_three a b c : handles [a; b; c] = handles [a] ++ handles [b] ++ handles [c].
Proof. by rewrite (handles_cons a), (handles_cons b). Qed.

Lemma handles_one p : p <> NULL -> handles [p] = [p].
Proof. intros H. unfold handles. by rewrite filter_cons_True. Qed.

Lemma init_device_rail_wp L w0 w r :
  grew L w0 w -> rail_blank r -> domain_per_thread && endpoint_per_communicator = false ->
  wp (init_device_rail_ofi_resources r) (fun x w' => grew (rl_handles x.2 ++ L) w0 w' /\ cq_ok x.2) w.
Proof using CO.
  intros Hg (Hf & Hd & Hc) Hconf. unfold init_device_rail_ofi_resources. rewrite Hf, Hd, Hc.
  assert (forall w', grew L w0 w' -> grew (rl_handles (mk_rail (rl_info r) NULL NULL NULL) ++ L) w0 w' /\ cq_ok (mk_rail (rl_info r) NULL NULL NULL)) as Hnil.
  { intros w' H'. rewrite rail_blank_handles by done. split; [done|]. by intros ?. }
  wp_simpl. eapply fi_open_grew; [exact Hg| |].
  { intros rc w1 Hrc H1. rewrite (proj2 (Z.eqb_neq _ _) Hrc). cbn [negb]. apply (rail_error_wp L w0); [done|exact Hnil]. }
  intros f w1 Hfn H1 _. cbn [Z.eqb negb rl_info rl_domain rl_cq]. wp_simpl. destruct domain_per_thread.
  { wp_simpl. destruct endpoint_per_communicator; [done|]. wp_simpl. cbn [snd]. split; [|by intros ?]. unfold rl_handles. cbn [snd rl_domain rl_fabric rl_cq].
    by rewrite handles_three, (handles_one f) by done. }
  eapply fi_open_grew; [exact H1| |].
  { intros rc w2 Hrc H2. rewrite (proj2 (Z.eqb_neq _ _) Hrc). cbn [negb]. apply (rail_error_wp L w0); [|exact Hnil]. by rewrite (handles_one f). }
  intros dm w2 Hdn H2 _. cbn [Z.eqb negb rl_info rl_cq]. destruct endpoint_per_communicator eqn:He.
  2: { wp_simpl. cbn [snd]. split; [|by intros ?]. unfold rl_handles. cbn [snd rl_domain rl_fabric rl_cq].
       by rewrite handles_three, (handles_one f), (handles_one dm) by done. }
  wp_simpl. apply wp_assert; [by rewrite (proj2 (Z.eqb_neq _ _) Hdn)|]. wp_simpl. eapply fi_open_grew; [exact H2| |].
  { intros rc w3 Hrc H3. rewrite (proj2 (Z.eqb_neq _ _) Hrc). cbn [negb]. apply (rail_error_wp L w0); [|exact Hnil]. by rewrite (handles_one f), (handles_one dm). }
  intros cq w3 Hcn H3 _. cbn [Z.eqb negb]. wp_simpl. apply wp_assert; [by rewrite (proj2 (Z.eqb_neq _ _) Hcn)|]. wp_simpl. cbn [snd]. split; [|by intros _].
  unfold rl_handles. cbn [snd rl_domain rl_fabric rl_cq]. rewrite handles_all by (rewrite !not_elem_of_cons; split_and!; try (by apply not_eq_sym); apply not_elem_of_nil).
  eapply grew_perm; [|exact H3]. cbn. by rewrite (Permutation_middle [dm; f] L cq).
Qed.

Lemma prepare_wp rails : forall L w0 w,
  grew L w0 w -> Forall rail_blank rails -> domain_per_thread && endpoint_per_communicator = false ->
  wp (device_prepare_for_connection rails) (fun x w' => grew ((x.2 ≫= rl_handles) ++ L) w0 w' /\ Forall cq_ok x.2) w.
Proof using CO.
  induction rails as [|r rails IH]; intros L w0 w Hg Hb Hconf; cbn [device_prepare_for_connection]; [by wp_simpl|].
  apply Forall_cons in Hb as [Hr Hrs]. wp_simpl. eapply wp_mono; [by eapply init_device_rail_wp|]. intros [rc r'] w1 (H1 & Hc1). cbn [snd] in *.
  destruct (negb (rc =? 0)); wp_simpl; cbn [snd].
  - rewrite rails_cons, (rails_blank_handles rails), app_nil_r by done. split; [done|]. constructor; [done|by apply rails_blank_cq].
  - eapply wp_mono; [by eapply (IH (rl_handles r' ++ L))|]. intros [rc2 rs'] w2 (H2 & Hc2). wp_simpl. cbn [snd] in *. split; [|by constructor].
    rewrite rails_cons. eapply grew_perm; [|exact H2]. rewrite <- app_assoc. apply Permutation_app_swap_app.
Qed.

Lemma close_cq_grew r L w0 w (Q : unit -> rworld -> Prop) :
  grew (handles [rl_cq r] ++ L) w0 w -> cq_ok r -> (forall w', grew L w0 w' -> Q tt w') ->
  wp (if negb (rl_cq r =? NULL) then assert endpoint_per_communicator ;;; fi_close (rl_cq r) ;;; ret tt else ret tt) Q w.
Proof using CO.
  intros Hg Hc HQ. pose proof (close_some_grew L (rl_cq r) w0 w Q Hg HQ) as H. unfold close_some in H.
  destruct (Z.eqb_spec (rl_cq r) NULL) as [|Hn]; cbn [negb] in *; [done|]. apply wp_bind, wp_assert; [by apply Hc|done].
Qed.

Lemma release_rails_wp rails : forall L w0 w,
  grew ((rails ≫= rl_handles) ++ L) w0 w -> Forall cq_ok rails -> wp (release_device_ofi_resources rails) (fun _ w' => grew L w0 w') w.
Proof using CO.
  induction rails as [|r rails IH]; intros L w0 w Hg Hc; cbn [release_device_ofi_resources]; [by wp_simpl|]. apply Forall_cons in Hc as [Hc Hcs].
  rewrite rails_cons in Hg. unfold rl_handles in Hg. rewrite handles_three, <- !app_assoc in Hg.
  wp_simpl. eapply close_some_grew; [exact Hg|]. intros w1 H1. wp_simpl. eapply close_some_grew; [exact H1|]. intros w2 H2. wp_simpl.
  destruct (rl_info r); wp_simpl; [eapply fi_do_grew; [exact H2|]; intros rc w3 H3; wp_simpl; clear H2; rename H3 into H2|].
  all: eapply close_cq_grew; [exact H2|done|]; intros w4 H4; by apply IH.
Qed.

Lemma fini_part_grew L w0 w b c e (Q : Z -> rworld -> Prop) : grew L w0 w -> (forall rc w', grew L w0 w' -> Q rc w') -> wp (fini_part b c e) Q w.
Proof.
  intros Hg HQ. unfold fini_part. destruct b; wp_simpl; [|by apply HQ]. eapply fi_do_grew; [exact Hg|]. intros rc w' H'. wp_simpl. by apply HQ.
Qed.

Lemma rdma_device_release_wp dev L w0 w :
  grew (rd_handles dev ++ L) w0 w -> dev_ok dev -> wp (nccl_net_ofi_rdma_device_release dev) (fun _ w' => grew L w0 w') w.
Proof using CO.
  intros Hg Hok. unfold nccl_net_ofi_rdma_device_release. wp_simpl.
  assert (wp (match rd_rails dev with Some rails => release_device_ofi_resources rails | None => ret tt end) (fun _ w' => grew L w0 w') w) as Hr.
  { unfold rd_handles, dev_ok in *. destruct (rd_rails dev) as [rails|]; [|done]. by apply release_rails_wp. }
  eapply wp_mono; [exact Hr|]. intros [] w1 H1. wp_simpl. eapply fini_part_grew; [exact H1|]. intros e1 w2 H2. wp_simpl. eapply fini_part_grew; [exact H2|]. intros e2 w3 H3.
  wp_simpl. destruct (rd_ep_addr_list dev); wp_simpl; [eapply fi_do_grew; [exact H3|]; intros rc w4 H4; wp_simpl; clear H3; rename H4 into H3|].
  all: eapply fini_part_grew; [exact H3|]; intros e w5 H5; by wp_simpl.
Qed.

(** What a call that returns a device or NULL leaves. *)
Definition created (L : list Z) (w0 : rworld) (r : option rdma_device) (w : rworld) : Prop :=
  match r with Some dev => grew (rd_handles dev ++ L) w0 w /\ dev_ok dev | None => grew L w0 w end.

Lemma create_error_wp dev L w0 w : grew (rd_handles dev ++ L) w0 w -> dev_ok dev -> wp (create_error dev) (created L w0) w.
Proof using CO.
  intros Hg Hok. unfold create_error. wp_simpl. eapply wp_mono; [by eapply rdma_device_release_wp|]. intros e w' H'. by wp_simpl.
Qed.

Lemma create_comms_wp dev L w0 w : grew (rd_handles dev ++ L) w0 w -> dev_ok dev -> wp (create_comms dev) (created L w0) w.
Proof using CO.
  intros Hg Hok. unfold create_comms. wp_simpl. eapply fi_do_grew; [exact Hg|]. intros rc1 w1 H1. destruct (negb (rc1 =? 0)); [by apply create_error_wp|].
  wp_simpl. eapply fi_do_grew; [exact H1|]. intros rc2 w2 H2. destruct (negb (rc2 =? 0)); [by apply create_error_wp|].
  wp_simpl. eapply fi_do_grew; [exact H2|]. intros rc3 w3 H3. destruct (negb (rc3 =? 0)); [by apply create_error_wp|]. by wp_simpl.
Qed.

Lemma dup_infos_wp infos : forall n L w0 w,
  grew L w0 w -> wp (dup_infos infos n) (fun x w' => grew L w0 w' /\ Forall rail_blank x.2) w.
Proof.
  induction infos as [|i infos IH]; intros [|n] L w0 w Hg; cbn [dup_infos]; try (wp_simpl; split; [done|]; cbn [snd]; try constructor; try done; by apply Forall_replicate).
  wp_simpl. eapply fi_do_grew; [exact Hg|]. intros rc w1 H1. destruct (negb (rc =? 0)); wp_simpl.
  - split; [done|]. change (Forall rail_blank (replicate (S n) zero_rail)). by apply Forall_replicate.
  - eapply wp_mono; [by eapply IH|]. intros [ok rs] w2 [H2 Hb]. wp_simpl. split; [done|]. by constructor.
Qed.

Lemma free_infos_grew rails : forall L w0 w, grew L w0 w -> wp (free_infos rails) (fun _ w' => grew L w0 w') w.
Proof.
  induction rails as [|r rails IH]; intros L w0 w Hg; cbn [free_infos]; [by wp_simpl|]. wp_simpl. destruct (rl_info r); wp_simpl; [|by apply IH].
  eapply fi_do_grew; [exact Hg|]. intros rc w1 H1. wp_simpl. by apply IH.
Qed.

Lemma create_rail_array_wp infos n L w0 w :
  grew L w0 w -> wp (create_device_rail_array infos n) (fun r w' => grew L w0 w' /\ match r with Some rails => Forall rail_blank rails | None => True end) w.
Proof.
  intros Hg. unfold create_device_rail_array. wp_simpl. eapply fi_do_grew; [exact Hg|]. intros rc w1 H1. destruct (negb (rc =? 0)); wp_simpl; [done|].
  eapply wp_mono; [by eapply dup_infos_wp|]. intros [ok rails] w2 [H2 Hb]. destruct ok; wp_simpl; [done|].
  eapply wp_mono; [by eapply free_infos_grew|]. intros [] w3 H3. by wp_simpl.
Qed.

Lemma device_create_wp infos mgs L w0 w :
  grew L w0 w -> 0 < mgs -> domain_per_thread && endpoint_per_communicator = false ->
  wp (nccl_net_ofi_rdma_device_create infos mgs) (created L w0) w.
Proof using CO.
  intros Hg Hm Hconf. unfold nccl_net_ofi_rdma_device_create. wp_simpl. eapply fi_do_grew; [exact Hg|]. intros rc1 w1 H1. destruct (negb (rc1 =? 0)); wp_simpl; [done|].
  eapply fi_do_grew; [exact H1|]. intros rc2 w2 H2. destruct (negb (rc2 =? 0)); wp_simpl; [done|].
  destruct (Z.eqb_spec mgs (Z.of_nat (length infos))) as [Hlen|]; cbn [negb]; [|by apply create_error_wp].
  wp_simpl. eapply fi_do_grew; [exact H2|]. intros rc3 w3 H3. destruct (negb (rc3 =? 0)); [by apply create_error_wp|].
  wp_simpl. eapply wp_mono; [by eapply create_rail_array_wp|]. intros [rails|] w4 [H4 Hb]; [|by apply create_error_wp].
  destruct infos as [|i infos]; [cbn in Hlen; lia|]. wp_simpl. eapply wp_of_option; [done|]. wp_simpl.
  assert (forall b w', grew L w0 w' -> wp (let* (rc, rails) := device_prepare_for_connection rails in
              let dev := mk_rdma_device (Some rails) true b endpoint_per_communicator false false in
              if negb (rc =? 0) then create_error dev else create_comms dev) (created L w0) w') as Hrest.
  { intros b w' H'. wp_simpl. eapply wp_mono; [by eapply prepare_wp|]. intros [rc rs] w5 [H5 Hc]. cbn [snd] in *.
    destruct (negb (rc =? 0)); [by apply create_error_wp|by apply create_comms_wp]. }
  destruct endpoint_per_communicator eqn:He; [|wp_simpl; cbn [Z.eqb negb]; by apply Hrest]. eapply fi_do_grew; [exact H4|]. intros rc5 w5 H5.
  destruct (negb (rc5 =? 0)); [|by apply Hrest]. apply create_error_wp; [|by apply rails_blank_cq]. unfold rd_handles. cbn [rd_rails]. by rewrite rails_blank_handles.
Qed.
End Objects.

(** ** The rails of a device *)

Section Rails.
Context {E : OfiEnv} {C : DevConf}.

Lemma dup_infos_length infos : forall n r ok rails r', dup_infos infos n r = Some ((ok, rails), r') -> length rails = n.
Proof.
  induction infos as [|i infos IH]; intros [|n] r ok rails r'; cbn [dup_infos]; try (intros [= _ <- _]; cbn; by rewrite ?length_replicate).
  intros (rc & r1 & _ & H)%bind_inv. destruct (negb (rc =? 0)); [injection H as _ <- _; cbn; by rewrite length_replicate|]. apply bind_inv in H as ([ok' rs] & r2 & H & [= _ <- _]). cbn. f_equal. by eapply IH.
Qed.

Lemma prepare_length rails : forall r rc rails' r', device_prepare_for_connection rails r = Some ((rc, rails'), r') -> length rails' = length rails.
Proof.
  induction rails as [|x rails IH]; intros r rc rails' r'; cbn [device_prepare_for_connection]; [by intros [= _ <- _]|].
  intros ([rc1 x'] & r1 & _ & H)%bind_inv. destruct (negb (rc1 =? 0)); [by injection H as _ <- _|]. apply bind_inv in H as ([rc2 rs] & r2 & H & [= _ <- _]). cbn. f_equal. by eapply IH.
Qed.

Lemma create_error_none dev r d r' : create_error dev r = Some (d, r') -> d = None.
Proof. unfold create_error. by intros (? & ? & _ & [= <- _])%bind_inv. Qed.

Lemma create_comms_rails dev r d r' : create_comms dev r = Some (Some d, r') -> rd_rails d = rd_rails dev.
Proof.
  unfold create_comms. intros (rc & r1 & _ & H)%bind_inv. destruct (negb (rc =? 0)); [by apply create_error_none in H|]. apply bind_inv in H as (rc2 & r2 & _ & H). destruct (negb (rc2 =? 0)); [by apply create_error_none in H|].
  apply bind_inv in H as (rc3 & r3 & _ & H). destruct (negb (rc3 =? 0)); [by apply create_error_none in H|]. by injection H as <- _.
Qed.

(** A device has as many rails as every group is expected to have. *)
Definition rails_are (mgs : Z) (dev : rdma_device) : Prop := exists rails, rd_rails dev = Some rails /\ Z.of_nat (length rails) = mgs.

Lemma device_create_rails infos mgs r dev r' :
  nccl_net_ofi_rdma_device_create infos mgs r = Some (Some dev, r') -> Z.of_nat (length infos) = mgs /\ rails_are mgs dev.
Proof.
  unfold nccl_net_ofi_rdma_device_create. intros (rc & r1 & _ & H)%bind_inv. destruct (negb (rc =? 0)); [done|]. apply bind_inv in H as (rc2 & r2 & _ & H). destruct (negb (rc2 =? 0)); [done|].
  destruct (Z.eqb_spec mgs (Z.of_nat (length infos))) as [->|]; cbn [negb] in H; [|by apply create_error_none in H]. apply bind_inv in H as (rc3 & r3 & _ & H). destruct (negb (rc3 =? 0)); [by apply create_error_none in H|].
  apply bind_inv in H as (rails & r4 & Ha & H). destruct rails as [rails|]; [|by apply create_error_none in H]. apply bind_inv in H as (info & r5 & _ & H). apply bind_inv in H as (rc5 & r6 & _ & H).
  destruct (negb (rc5 =? 0)); [by apply create_error_none in H|]. apply bind_inv in H as ([rc6 rs] & r7 & Hp & H). destruct (negb (rc6 =? 0)); [by apply create_error_none in H|]. apply create_comms_rails in H. split; [done|]. exists rs. split; [exact H|].
  rewrite (prepare_length _ _ _ _ _ Hp). unfold create_device_rail_array in Ha. apply bind_inv in Ha as (rc7 & r8 & _ & Ha). destruct (negb (rc7 =? 0)); [done|]. apply bind_inv in Ha as ([ok rails'] & r9 & Hd & Ha). apply dup_infos_length in Hd as <-.
  destruct ok; [by injection Ha as <- _|]. by apply bind_inv in Ha as (? & ? & _ & Ha).
Qed.

Lemma lift_p_inv {A} (m : R A) w a w' : lift_p m w = Some (a, w') -> exists r, m (pw_res w) = Some (a, r) /\ w' = w_pres (fun _ => r) w.
Proof. unfold lift_p. destruct (m (pw_res w)) as [[b r]|]; [|done]. intros [= <- <-]. by exists r. Qed.

(** All devices are created only from groups of equal size. *)
Lemma create_devices_rails mgs n : forall lists id w w',
  create_devices n id mgs lists w = Some (0, w') -> map_Forall (fun _ => rails_are mgs) (pw_devices w) ->
  (n <= length lists)%nat /\ Forall (fun l => Z.of_nat (length l) = mgs) (take n lists) /\ map_Forall (fun _ => rails_are mgs) (pw_devices w').
Proof.
  induction n as [|n IH]; intros lists id w w' H Hm; cbn [create_devices] in H; [injection H as <-; split_and!; [lia|constructor|done]|].
  destruct lists as [|l lists]; [done|]. apply bind_inv in H as (dev & w1 & Hc & H). apply lift_p_inv in Hc as (r & Hc & ->). destruct dev as [dev|]; [|done]. apply device_create_rails in Hc as [Hl Hr].
  apply bind_inv in H as (p & w2 & [= <- <-] & H). apply bind_inv in H as ([] & w3 & [= <-] & H). apply bind_inv in H as ([] & w4 & [= <-] & H). apply bind_inv in H as (plugin & w5 & [= <- <-] & H).
  destruct (Plugin.nccl_net_ofi_plugin_assign_device _ _ _) as [rc plugin]. apply bind_inv in H as ([] & w6 & [= <-] & H). destruct (Z.eqb_spec rc 0) as [->|]; cbn [negb] in H; [|by injection H as ? _].
  destruct (IH lists (id + 1) _ w' H) as (H1 & H2 & H3); [cbn; by apply map_Forall_insert_2|]. cbn. split_and!; [lia|by constructor|done].
Qed.
End Rails.

(** ** From the start of the plug-in to its end *)

Section PluginLife.
Context {E : OfiEnv} {CO : CloseOk} {C : DevConf}.

(** The plug-in with the devices [ps] in its first slots and [k] empty ones. *)
Record plugin_inv (w0 : rworld) (ps : list Z) (k : nat) (w : pworld) : Prop := {
  pi_devs : Plugin.p_devs (pw_plugin w) = (Some <$> ps) ++ replicate k None;
  pi_num : Plugin.p_num_devs (pw_plugin w) = Z.of_nat (length ps + k);
  pi_nodup : NoDup ps;
  pi_dom p : p ∈ dom (pw_devices w) <-> p ∈ ps;
  pi_next p : p ∈ ps -> p < pw_next w;
  pi_ok p dev : pw_devices w !! p = Some dev -> dev_ok dev;
  pi_objects : grew (owned rd_handles (pw_devices w)) w0 (pw_res w);
}.

Lemma lift_p_wp {A} (m : R A) w (Q : A -> pworld -> Prop) : wp m (fun a r => Q a (w_pres (fun _ => r) w)) (pw_res w) -> wp (lift_p m) Q w.
Proof. unfold wp, lift_p. by destruct (m _) as [[a r]|]. Qed.

(** The next slot gets a device. *)
Lemma plugin_inv_assign w0 ps k w dev r :
  plugin_inv w0 ps (S k) w -> grew (rd_handles dev ++ owned rd_handles (pw_devices w)) w0 r -> dev_ok dev ->
  let p := pw_next w in
  exists plugin, Plugin.nccl_net_ofi_plugin_assign_device (pw_plugin w) (Z.of_nat (length ps)) p = (0, plugin) /\
    plugin_inv w0 (ps ++ [p]) k (w_plugin plugin (w_devices <[p := dev]> (w_pnext (fun n => n + 1) (w_pres (fun _ => r) w)))).
Proof.
  intros [Hd Hn Hnd Hdom Hnext Hok Hobj] Hg Hdev p. unfold Plugin.nccl_net_ofi_plugin_assign_device. rewrite Hn. destruct (Z.geb_spec (Z.of_nat (length ps)) (Z.of_nat (length ps + S k))); [lia|].
  assert (p ∉ ps) as Hp by (intros H'; specialize (Hnext _ H'); unfold p in Hnext; lia).
  assert (pw_devices w !! p = None) as Hpn by (apply not_elem_of_dom; by rewrite Hdom).
  eexists. split; [done|]. constructor; cbn.
  - rewrite Hd, Nat2Z.id, <- (length_fmap Some ps), insert_app_r_alt, Nat.sub_diag by (rewrite length_fmap; lia). cbn. rewrite fmap_app. cbn. by rewrite <- app_assoc.
  - rewrite length_app. cbn. lia.
  - apply NoDup_app. split_and!; [done| |apply NoDup_singleton]. by intros q Hq ->%list_elem_of_singleton.
  - intros q. rewrite dom_insert_L, elem_of_union, elem_of_singleton, elem_of_app, list_elem_of_singleton, Hdom. tauto.
  - intros q [Hq|Hq]%elem_of_app; [specialize (Hnext _ Hq); lia|]. apply list_elem_of_singleton in Hq as ->. unfold p. lia.
  - intros q dev2 [(<- & <-)|(_ & H2)]%lookup_insert_Some; [done|by eapply Hok].
  - eapply grew_perm; [|exact Hg]. symmetry. by apply owned_insert.
Qed.

Lemma create_devices_wp w0 mgs n : forall lists ps w,
  plugin_inv w0 ps n w -> 0 < mgs -> domain_per_thread && endpoint_per_communicator = false ->
  wp (create_devices n (Z.of_nat (length ps)) mgs lists) (fun rc w' => exists ps' k, plugin_inv w0 ps' k w' /\ (rc = 0 -> k = O)) w.
Proof using CO.
  induction n as [|n IH]; intros lists ps w Hinv Hm Hconf; cbn [create_devices]; [wp_simpl; by exists ps, O|].
  destruct lists as [|l lists]; [wp_simpl; by exists ps, (S n)|]. wp_simpl. apply lift_p_wp.
  eapply wp_mono; [apply device_create_wp; [apply Hinv|done|done]|]. intros [dev|] r Hc.
  - destruct Hc as [Hg Hok]. destruct (plugin_inv_assign w0 ps n w dev r Hinv Hg Hok) as (plugin & Ha & Hinv').
    wp_simpl. cbn [pw_plugin w_devices w_pnext w_pres pw_next]. rewrite Ha. wp_simpl. cbn [Z.eqb negb].
    replace (Z.of_nat (length ps) + 1) with (Z.of_nat (length (ps ++ [pw_next w]))) by (rewrite length_app; cbn; lia). by apply IH.
  - wp_simpl. exists ps, (S n). split; [|done]. destruct Hinv. by constructor.
Qed.

Lemma release_devices_wp w0 ps : forall w,
  NoDup ps -> (forall p, p ∈ dom (pw_devices w) <-> p ∈ ps) -> (forall p dev, pw_devices w !! p = Some dev -> dev_ok dev) ->
  grew (owned rd_handles (pw_devices w)) w0 (pw_res w) ->
  wp (release_devices ps) (fun _ w' => grew [] w0 (pw_res w') /\ pw_devices w' = ∅ /\ pw_plugin w' = pw_plugin w) w.
Proof using CO.
  induction ps as [|p ps IH]; intros w Hnd Hdom Hok Hg; cbn [release_devices].
  - assert (pw_devices w = ∅) as He by (apply dom_empty_inv_L, set_eq; intros q; rewrite Hdom; set_solver). wp_simpl. rewrite He in Hg. by split_and!.
  - apply NoDup_cons in Hnd as [Hp Hnd]. assert (exists dev, pw_devices w !! p = Some dev) as [dev Hdev] by (apply elem_of_dom, Hdom; left).
    wp_simpl. eapply wp_of_option; [exact Hdev|]. wp_simpl. apply lift_p_wp. eapply wp_mono; [apply (rdma_device_release_wp dev (owned rd_handles (delete p (pw_devices w))) w0)|].
    + eapply grew_perm; [by eapply owned_delete|done].
    + by eapply Hok.
    + intros e r Hr. wp_simpl. eapply wp_mono; [apply IH|]; cbn; try done.
      * intros q. rewrite dom_delete_L, elem_of_difference, elem_of_singleton, Hdom, elem_of_cons. split; [tauto|]. intros Hq. split; [by right|]. by intros ->.
      * intros q dev' [_ H']%lookup_delete_Some. by eapply Hok.
Qed.

Lemma complete_init_wp n lists begin_rc mgs w0 w :
  plugin_inv w0 [] n w -> 0 < mgs ->
  wp (nccl_net_ofi_rdma_plugin_complete_init begin_rc mgs lists) (fun rc w' => exists ps k, plugin_inv w0 ps k w' /\ (rc = 0 -> k = O)) w.
Proof using CO.
  intros Hinv Hm. unfold nccl_net_ofi_rdma_plugin_complete_init. destruct (domain_per_thread && endpoint_per_communicator) eqn:Hc; [wp_simpl; by exists [], n|].
  destruct (Z.eqb_spec begin_rc 0); cbn [negb]; [|wp_simpl; by exists [], n]. wp_simpl. rewrite (pi_num _ _ _ _ Hinv). cbn [length]. rewrite Nat2Z.id.
  by apply (create_devices_wp _ mgs n lists []).
Qed.

Lemma plugin_fini_wp w0 ps k w :
  plugin_inv w0 ps k w ->
  wp nccl_net_ofi_rdma_plugin_fini (fun _ w' => opened (pw_res w') = opened w0 /\ pw_devices w' = ∅ /\ Plugin.p_num_devs (pw_plugin w') = 0) w.
Proof using CO.
  intros [Hd Hn Hnd Hdom Hnext Hok Hobj]. unfold nccl_net_ofi_rdma_plugin_fini. wp_simpl. apply lift_p_wp. eapply fi_do_grew; [exact Hobj|]. intros rc1 r1 Hr1. wp_simpl. apply lift_p_wp.
  eapply fi_do_grew; [exact Hr1|]. intros rc2 r2 Hr2. wp_simpl. unfold Plugin.nccl_net_ofi_plugin_fini. cbn [pw_plugin w_cleanup w_pres w_topo].
  rewrite Hd, Hn, take_ge, Plugin.omap_devs by (rewrite length_app, length_fmap, length_replicate; lia). wp_simpl.
  eapply wp_mono; [by apply (release_devices_wp w0)|]. intros [] w3 (Hg & H2 & _). wp_simpl. split_and!; [|done|done].
  cbn. apply map_eq. intros p. by rewrite (gr_old _ _ _ Hg) by apply not_elem_of_nil.
Qed.

(** C32. The RDMA plug-in gives everything back: after complete_init, whether it
    created all devices or stopped at one that failed, and when no fi_close fails, the
    destructor of the plug-in leaves no device and exactly the libfabric objects that
    were open before. When the code is 0 every device was created. *)
Theorem rdma_plugin_gives_back n lists begin_rc mgs w :
  plugin_inv (pw_res w) [] n w -> 0 < mgs ->
  exists rc w1 rc2 w2,
    nccl_net_ofi_rdma_plugin_complete_init begin_rc mgs lists w = Some (rc, w1) /\
    (rc = 0 -> Forall is_Some (Plugin.p_devs (pw_plugin w1))) /\
    nccl_net_ofi_rdma_plugin_fini w1 = Some (rc2, w2) /\
    opened (pw_res w2) = opened (pw_res w) /\ pw_devices w2 = ∅ /\ Plugin.p_num_devs (pw_plugin w2) = 0.
Proof using CO.
  intros Hinv Hm. pose proof (complete_init_wp n lists begin_rc mgs _ w Hinv Hm) as H1. apply wp_run in H1 as (rc & w1 & Hrun1 & ps & k & Hinv1 & Hk).
  pose proof (plugin_fini_wp _ _ _ _ Hinv1) as H2. apply wp_run in H2 as (rc2 & w2 & Hrun2 & Ho & He & Hz). exists rc, w1, rc2, w2. split_and!; try done.
  intros ->. rewrite (pi_devs _ _ _ _ Hinv1), (Hk eq_refl), app_nil_r. apply Forall_fmap, Forall_true. intros p. by exists p.
Qed.
End PluginLife.

(** *** Example: the domain of the second device cannot be opened *)

Definition gb_conf : DevConf := {| domain_per_thread := false; endpoint_per_communicator := true |}.
Definition gb_env : OfiEnv :=
  {| fi_code _ c := match c with FiDomain f => if f =? 4 then - EINVAL else 0 | _ => 0 end; api_version_ge_1_18 := true |}.
Lemma gb_close : @CloseOk gb_env.
Proof. by constructor. Qed.

Definition gb_info : OfiUtils.fi_info := OfiUtils.mk_info "efa" "rdmap0" 1 0 4 20 8.
Definition gb_world : pworld :=
  mk_pworld (mk_rworld ∅ 1 GDR_UNKNOWN []) ∅ 100 (Plugin.mk_plugin [None; None] 2 false) true true.

Lemma gb_inv : @plugin_inv gb_conf (pw_res gb_world) [] 2 gb_world.
Proof.
  constructor; cbn; try done; try lia.
  - constructor.
  - intros p. rewrite dom_empty_L. set_solver.
  - set_solver.
  - apply grew_nil; [|done]. split; [done|]. cbn. set_solver.
Qed.

Lemma rdma_plugin_gives_back_witness :
  exists w1 rc2 w2,
    @nccl_net_ofi_rdma_plugin_complete_init gb_env gb_conf 0 1 [[gb_info]; [gb_info]] gb_world = Some (- ENOMEM, w1) /\
    @nccl_net_ofi_rdma_plugin_fini gb_env gb_conf w1 = Some (rc2, w2) /\ opened (pw_res w2) = ∅.
Proof.
  destruct (@rdma_plugin_gives_back gb_env gb_close gb_conf 2 [[gb_info]; [gb_info]] 0 1 gb_world gb_inv) as (rc & w1 & rc2 & w2 & H1 & _ & H2 & Ho & _); [lia|].
  assert (rc = - ENOMEM) as -> by (apply (f_equal (option_map fst)) in H1; vm_compute in H1; by injection H1).
  exists w1, rc2, w2. split; [exact H1|]. split; [exact H2|exact Ho].
Defined.

End RdmaDevice.
