(* ===== verification/Api.v ===== *)
(** * nccl_ofi_api.c: the functions NCCL calls

    Argument checks, dispatch to the objects of a transport and translation of error
    codes. The objects are behind tables of function pointers in the code: the class
    [Transport] has one operation for each pointer, over a state of the transport's
    choice. With OFI_NCCL_ABORT_ON_ERROR a failure ends the process, which has no
    result here. The tables of interface versions (nccl_ofi_interface_nvidia.c) are at
    the end. The build has CUDA and DMA-BUF. *)

From stdpp Require Import strings.
From S2P Require Import Prelude StateM NetTypes MrCache Plugin.

Module Api.

Open Scope Z_scope.

(** ** Error codes *)

Definition EMSGSIZE : Z := 90.
Definition ECONNABORTED : Z := 103.
Definition ECONNRESET : Z := 104.
Definition ENOTCONN : Z := 107.
Definition ECONNREFUSED : Z := 111.
Definition EHOSTDOWN : Z := 112.
Definition EHOSTUNREACH : Z := 113.

Definition nccl_net_ofi_retval_translate_impl (retval : Z) : Z :=
  if retval =? 0 then ncclSuccess
  else if retval =? - EINVAL then ncclInternalError
  else if retval =? - EMSGSIZE then ncclInvalidArgument
  else if existsb (Z.eqb retval) [- ECONNABORTED; - ECONNRESET; - ECONNREFUSED; - ENOTCONN; - EHOSTDOWN; - EHOSTUNREACH] then ncclRemoteError
  else ncclSystemError.

(** ** Transports *)

Inductive nccl_net_ofi_comm_type_t :=
| NCCL_NET_OFI_BASE_COMM
| NCCL_NET_OFI_LISTEN_COMM
| NCCL_NET_OFI_SEND_COMM
| NCCL_NET_OFI_RECV_COMM.

#[export] Instance comm_type_eq_dec : EqDecision nccl_net_ofi_comm_type_t.
Proof. solve_decision. Defined.

(** A communicator as the interface sees it. *)
Record nccl_net_ofi_comm_t := mk_comm { c_type : nccl_net_ofi_comm_type_t; c_ep : option Z }.

#[export] Instance comm_eq_dec : EqDecision nccl_net_ofi_comm_t.
Proof. solve_decision. Defined.

(** The handle NCCL passes from the listener to the connecting side; its state is
    where a connect that is not finished goes on. *)
Record handle := mk_handle { h_name : list Z; h_comm_id : Z; h_stage : nccl_ofi_comm_stage_t; h_comm : Z }.
Definition zero_handle : handle := mk_handle [] 0 COMM_CREATE_START NULL.

Definition NCCL_PTR_HOST : Z := 1.
Definition NCCL_PTR_CUDA : Z := 2.
Definition NCCL_PTR_DMABUF : Z := 4.

(** [t_comms] are the communicators in memory. An operation that sets an output
    returns it beside its code; [None] for an operation is a NULL function pointer. *)
Class Transport (W : Type) := {
  t_plugin : W -> option Plugin.nccl_net_ofi_plugin_t;
  t_comms : W -> gmap Z nccl_net_ofi_comm_t;
  t_get_ep : Z -> SM W (Z * option Z);
  t_release_ep : Z -> SM W Z;
  t_get_properties : Z -> SM W (Z * Plugin.nccl_ofi_properties_t);
  t_get_mr_key : Z -> option (Z -> SM W (Z * Z));
  t_listen : Z -> handle -> SM W (Z * handle * Z);
  t_connect : Z -> handle -> SM W (Z * handle * Z);
  t_accept : Z -> SM W (Z * Z);
  t_reg_mr : Z -> MrCache.nccl_ofi_mr_ckey -> Z -> SM W (Z * Z);
  t_dereg_mr : Z -> Z -> SM W Z;
  t_send : Z -> Z -> Z -> Z -> Z -> SM W (Z * Z);
  t_recv : Z -> list Z -> list Z -> list Z -> list Z -> SM W (Z * Z);
  t_flush : Z -> list Z -> list Z -> list Z -> SM W (Z * Z);
  t_write : Z -> option (Z -> Z -> Z -> Z -> Z -> SM W (Z * Z));
  t_write_inline : Z -> option (Z -> Z -> Z -> Z -> SM W (Z * Z));
  t_read : Z -> option (Z -> Z -> Z -> Z -> Z -> SM W (Z * Z));
  t_test : Z -> SM W (Z * Z * Z);
  t_close : Z -> SM W Z;
}.

Section Api.
Context {W : Type} {T : Transport W} (abort_on_error : bool) (nccl_ofi_selected_protocol : string).

Abbreviation A := (SM W).

Definition check_return (r : Z) : A Z := if abort_on_error && negb (r =? ncclSuccess) then undefined else ret r.
Definition nccl_net_ofi_retval_translate (rc : Z) : A Z := check_return (nccl_net_ofi_retval_translate_impl rc).

Definition get_comm (c : Z) : A nccl_net_ofi_comm_t := let* m := gets t_comms in of_option (m !! c).

(** int to size_t *)
Definition get_device (dev_id : Z) : A (option Z) :=
  let* p := gets t_plugin in
  let* p := of_option p in
  ret (Plugin.nccl_net_ofi_plugin_get_device p (u64 dev_id)).

Definition no_plugin : A bool := let* p := gets t_plugin in ret (match p with None => true | Some _ => false end).

(** Result and, for an output, its value. *)
Definition failed {B} (r : Z) (out : B) : A (Z * B) := let* r := check_return r in ret (r, out).
Definition translated {B} (rc : Z) (out : B) : A (Z * B) := let* r := nccl_net_ofi_retval_translate rc in ret (r, out).

Definition nccl_net_ofi_devices (num_devices : Z) : A (Z * option Z) :=
  let* np := no_plugin in
  if np : bool then failed ncclInvalidArgument None
  else if num_devices =? NULL then failed ncclInvalidArgument None
  else
    let* p := gets t_plugin in
    let* p := of_option p in
    ret (ncclSuccess, Some (Plugin.nccl_net_ofi_plugin_get_num_devices p)).

Definition nccl_net_ofi_get_properties (dev_id : Z) : A (Z * option Plugin.nccl_ofi_properties_t) :=
  let* np := no_plugin in
  if np : bool then failed ncclInvalidArgument None
  else
    let* dev := get_device dev_id in
    match dev with
    | None => failed ncclInternalError None
    | Some dev => let* (rc, props) := t_get_properties dev in translated rc (Some props)
    end.

(** [handle] is [None] for NULL; the handle is written through the pointer. *)
Definition nccl_net_ofi_listen (dev_id : Z) (h : option handle) : A (Z * (option handle * Z)) :=
  let* np := no_plugin in
  if np : bool then failed ncclInvalidArgument (h, NULL)
  else
    let* dev := get_device dev_id in
    match dev, h with
    | None, _ => failed ncclInternalError (h, NULL)
    | Some _, None => failed ncclInvalidArgument (h, NULL)
    | Some dev, Some hd =>
        let* (rc, ep) := t_get_ep dev in
        match ep with
        | None => failed ncclInternalError (h, NULL)
        | Some ep =>
            let* (rc, hd, lcomm) := t_listen ep hd in
            (if negb (rc =? 0) then t_release_ep ep ;;; ret tt else ret tt) ;;;
            translated rc (Some hd, lcomm)
        end
    end.

(** The first 64 bytes of a handle are all but its state. *)
Definition copy_v4 (h : handle) : handle := mk_handle (h_name h) (h_comm_id h) COMM_CREATE_START NULL.

Definition is_rdma : bool := Plugin.strcasecmp_eq nccl_ofi_selected_protocol "RDMA".

Definition nccl_net_ofi_listen_v4 (dev : Z) : A (Z * (option handle * Z)) :=
  if is_rdma then failed ncclInternalError (None, NULL)
  else
    let* (r, out) := nccl_net_ofi_listen dev (Some zero_handle) in
    ret (r, (if r =? ncclSuccess then option_map copy_v4 out.1 else None, out.2)).

Definition nccl_net_ofi_connect (dev_id : Z) (h : option handle) : A (Z * (option handle * Z)) :=
  let* np := no_plugin in
  if np : bool then failed ncclInvalidArgument (h, NULL)
  else
    match h with
    | None => failed ncclInvalidArgument (h, NULL)
    | Some hd =>
        let connect ep :=
          let* (rc, hd, scomm) := t_connect ep hd in
          (if negb (rc =? 0) then t_release_ep ep ;;; ret tt else ret tt) ;;;
          translated rc (Some hd, scomm) in
        if bool_decide (h_stage hd = COMM_CREATE_START) then
          let* dev := get_device dev_id in
          match dev with
          | None => failed ncclInternalError (h, NULL)
          | Some dev =>
              let* (rc, ep) := t_get_ep dev in
              if negb (rc =? 0) then translated rc (h, NULL)
              else let* ep := of_option ep in connect ep
          end
        else
          let* c := get_comm (h_comm hd) in
          match c_ep c with
          | None => failed ncclInternalError (h, NULL)
          | Some ep => connect ep
          end
    end.

(** The loop of connect_v4 and the one of accept_v4 poll; [fuel] bounds the calls. *)
Fixpoint connect_loop (fuel : nat) (dev : Z) (h : option handle) (scomm r : Z) : A (Z * Z) :=
  if negb (scomm =? NULL) then ret (r, scomm)
  else
    match fuel with
    | O => undefined
    | S fuel' =>
        let* (r, out) := nccl_net_ofi_connect dev h in
        if negb (r =? ncclSuccess) then ret (r, out.2) else connect_loop fuel' dev out.1 out.2 r
    end.

Definition nccl_net_ofi_connect_v4 (fuel : nat) (dev : Z) (h : handle) (scomm : Z) : A (Z * Z) :=
  if is_rdma then failed ncclInternalError scomm
  else connect_loop fuel dev (Some (copy_v4 h)) scomm ncclSuccess.

(** ** Registration *)

Definition reg_type_ok (type : Z) : bool := (type =? NCCL_PTR_HOST) || (type =? NCCL_PTR_CUDA).

Definition nccl_net_ofi_regMrDmaBuf (comm data size type offset fd : Z) : A (Z * Z) :=
  if comm =? NULL then failed ncclInternalError NULL
  else if negb (reg_type_ok type) then failed ncclInternalError NULL
  else
    let cache_key := if fd =? -1 then MrCache.nccl_ofi_mr_ckey_mk_vec data size else MrCache.nccl_ofi_mr_ckey_mk_dmabuf fd offset size data in
    let* c := get_comm comm in
    let* (rc, mhandle) :=
      match c_type c with
      | NCCL_NET_OFI_SEND_COMM | NCCL_NET_OFI_RECV_COMM => t_reg_mr comm cache_key type
      | _ => ret (- EINVAL, NULL)
      end in
    translated rc mhandle.

Definition nccl_net_ofi_regMr (comm data size type : Z) : A (Z * Z) := nccl_net_ofi_regMrDmaBuf comm data size type 0 (-1).
(** int to size_t *)
Definition nccl_net_ofi_regMr_v7 (comm data size type : Z) : A (Z * Z) := nccl_net_ofi_regMr comm data (u64 size) type.

Definition nccl_net_ofi_deregMr (comm mhandle : Z) : A Z :=
  if comm =? NULL then check_return ncclInternalError
  else
    let* c := get_comm comm in
    let* rc :=
      match c_type c with
      | NCCL_NET_OFI_SEND_COMM | NCCL_NET_OFI_RECV_COMM => t_dereg_mr comm mhandle
      | _ => ret (- EINVAL)
      end in
    nccl_net_ofi_retval_translate rc.

(** ** Accept *)

Definition nccl_net_ofi_accept (lcomm : Z) : A (Z * Z) :=
  if lcomm =? NULL then failed ncclInternalError NULL
  else
    let* (rc, rcomm) := t_accept lcomm in
    if negb (rc =? 0) then
      let* c := get_comm lcomm in
      match c_ep c with
      | None => translated (- EINVAL) rcomm
      | Some ep => t_release_ep ep ;;; translated rc rcomm
      end
    else translated rc rcomm.

Fixpoint accept_loop (fuel : nat) (lcomm rcomm r : Z) : A (Z * Z) :=
  if negb (rcomm =? NULL) then ret (r, rcomm)
  else
    match fuel with
    | O => undefined
    | S fuel' =>
        let* (r, rcomm) := nccl_net_ofi_accept lcomm in
        if negb (r =? ncclSuccess) then ret (r, rcomm) else accept_loop fuel' lcomm rcomm r
    end.

Definition nccl_net_ofi_accept_v4 (fuel : nat) (lcomm rcomm : Z) : A (Z * Z) :=
  if is_rdma then failed ncclInternalError rcomm
  else
    let* (r, rcomm) := accept_loop fuel lcomm rcomm ncclInvalidArgument in
    translated r rcomm.

(** ** Data *)

(** [req] is the pointer for the request, NULL or not; the output is the request. *)
Definition nccl_net_ofi_isend (scomm data size tag mhandle req : Z) : A (Z * Z) :=
  if scomm =? NULL then failed ncclInternalError NULL
  else if req =? NULL then failed ncclInternalError NULL
  else let* (rc, r) := t_send scomm data size tag mhandle in translated rc r.

Definition nccl_net_ofi_isend_v4 (scomm data size mhandle req : Z) : A (Z * Z) := nccl_net_ofi_isend scomm data size 0 mhandle req.

Definition nccl_net_ofi_iwrite (scomm src size mhandle dest mr_key req : Z) : A (Z * Z) :=
  if scomm =? NULL then failed ncclInternalError NULL
  else
    match t_write scomm with
    | None => failed ncclInternalError NULL
    | Some write =>
        if req =? NULL then failed ncclInternalError NULL
        else let* (rc, r) := write src size mhandle dest mr_key in translated rc r
    end.

Definition nccl_net_ofi_iwrite_inline (scomm src size dest mr_key req : Z) : A (Z * Z) :=
  if scomm =? NULL then failed ncclInternalError NULL
  else
    match t_write_inline scomm with
    | None => failed ncclInternalError NULL
    | Some write_inline =>
        if req =? NULL then failed ncclInternalError NULL
        else let* (rc, r) := write_inline src size dest mr_key in translated rc r
    end.

Definition nccl_net_ofi_iread (rcomm dest size mhandle src mr_key req : Z) : A (Z * Z) :=
  if rcomm =? NULL then failed ncclInternalError NULL
  else
    match t_read rcomm with
    | None => failed ncclInternalError NULL
    | Some read =>
        if req =? NULL then failed ncclInternalError NULL
        else let* (rc, r) := read dest size mhandle src mr_key in translated rc r
    end.

Definition nccl_net_ofi_get_mr_key (mhandle : Z) : A (Z * Z) :=
  let* np := no_plugin in
  if np : bool then failed ncclInvalidArgument 0
  else
    let* p := gets t_plugin in
    let* p := of_option p in
    if Plugin.p_num_devs p =? 0 then failed ncclInvalidArgument 0
    else
      let* dev := get_device 0 in
      match dev with
      | None => failed ncclInternalError 0
      | Some dev =>
          match t_get_mr_key dev with
          | None => failed ncclInternalError 0
          | Some get_mr_key => let* (rc, key) := get_mr_key mhandle in translated rc key
          end
      end.

(** [handles] is [None] for NULL. *)
Definition nccl_net_ofi_irecv (rcomm n : Z) (buffers sizes tags : list Z) (handles : option (list Z)) (req : Z) : A (Z * Z) :=
  if rcomm =? NULL then failed ncclInternalError NULL
  else if n >? NCCL_OFI_MAX_RECVS then failed ncclInternalError NULL
  else
    match handles with
    | None => failed ncclInternalError NULL
    | Some handles =>
        if req =? NULL then failed ncclInternalError NULL
        else let* (rc, r) := t_recv rcomm buffers sizes tags handles in translated rc r
    end.

Definition nccl_net_ofi_irecv_v4 (rcomm data size mhandle req : Z) : A (Z * Z) :=
  nccl_net_ofi_irecv rcomm 1 [data] [size] [0] (Some [mhandle]) req.

(** Result, done and size. *)
Definition nccl_net_ofi_test (req : Z) : A (Z * (Z * Z)) :=
  if req =? NULL then failed ncclInternalError (0, 0)
  else let* (rc, done, size) := t_test req in translated rc (done, size).

Definition nccl_net_ofi_iflush (rcomm n : Z) (buffers sizes : list Z) (handles : option (list Z)) (req : Z) : A (Z * Z) :=
  if rcomm =? NULL then failed ncclInternalError NULL
  else if n >? NCCL_OFI_MAX_RECVS then failed ncclInternalError NULL
  else
    match handles with
    | None => failed ncclInternalError NULL
    | Some handles =>
        if req =? NULL then failed ncclInternalError NULL
        else let* (rc, r) := t_flush rcomm buffers sizes handles in translated rc r
    end.

Definition nccl_net_ofi_iflush_v4 (rcomm data size mhandle req : Z) : A (Z * Z) :=
  nccl_net_ofi_iflush rcomm 1 [data] [size] (Some [mhandle]) req.

Fixpoint flush_loop (fuel : nat) (req done r : Z) : A Z :=
  if negb (done =? 0) then ret r
  else
    match fuel with
    | O => undefined
    | S fuel' =>
        let* (r, out) := nccl_net_ofi_test req in
        if negb (r =? ncclSuccess) then ret r else flush_loop fuel' req out.1 r
    end.

(** The request is a local variable, so its address is not NULL. *)
Definition nccl_net_ofi_flush_v3 (fuel : nat) (rcomm data size mhandle : Z) : A Z :=
  let* (r, req) := nccl_net_ofi_iflush_v4 rcomm data size mhandle 1 in
  if negb (r =? ncclSuccess) || (req =? NULL) then ret r else flush_loop fuel req 0 r.

(** ** Close *)

Definition close_comm (comm : Z) : A Z :=
  if comm =? NULL then check_return ncclInternalError else let* rc := t_close comm in nccl_net_ofi_retval_translate rc.
Definition nccl_net_ofi_closeSend : Z -> A Z := close_comm.
Definition nccl_net_ofi_closeRecv : Z -> A Z := close_comm.
Definition nccl_net_ofi_closeListen : Z -> A Z := close_comm.

(** ** Interface versions *)

Definition NCCL_NET_DEVICE_HOST : Z := 0.
Definition NCCL_NET_DEVICE_INVALID_VERSION : Z := 0.

(** ncclNetProperties_v6_t. *)
Record properties_v6 := mk_v6 {
  v6_name : Plugin.buffer;
  v6_pciPath : option string;
  v6_guid : Z;
  v6_ptrSupport : Z;
  v6_speed : Z;
  v6_port : Z;
  v6_latency : Z;
  v6_maxComms : Z;
  v6_maxRecvs : Z;
}.

Definition ptr_support (p : Plugin.nccl_ofi_properties_t) : Z :=
  let s := NCCL_PTR_HOST in
  let s := if Plugin.hmem_support p then Z.lor s NCCL_PTR_CUDA else s in
  if Plugin.dmabuf_support p then Z.lor s NCCL_PTR_DMABUF else s.

Definition getProperties_v6 (dev_id : Z) : A (Z * option properties_v6) :=
  let* (r, props) := nccl_net_ofi_get_properties dev_id in
  if negb (r =? ncclSuccess) then ret (r, None)
  else
    let* p := of_option props in
    ret (ncclSuccess, Some (mk_v6 (Plugin.pr_name p) (Plugin.pci_path p) (Plugin.guid p) (ptr_support p) (Plugin.port_speed p)
      (Plugin.port_number p) (Plugin.latency p) (Plugin.max_communicators p) (Plugin.max_group_receives p))).

(** The fields of version 6 with regIsGlobal; netDeviceType and netDeviceVersion as in
    version 7. *)
Definition getProperties_v8 (dev_id : Z) : A (Z * option (properties_v6 * bool * Z * Z)) :=
  let* (r, props) := nccl_net_ofi_get_properties dev_id in
  if negb (r =? ncclSuccess) then ret (r, None)
  else
    let* p := of_option props in
    ret (ncclSuccess, Some (mk_v6 (Plugin.pr_name p) (Plugin.pci_path p) (Plugin.guid p) (ptr_support p) (Plugin.port_speed p)
      (Plugin.port_number p) (Plugin.latency p) (Plugin.max_communicators p) (Plugin.max_group_receives p), Plugin.regIsGlobal p, NCCL_NET_DEVICE_HOST, NCCL_NET_DEVICE_INVALID_VERSION)).

(** The fields of version 6 with netDeviceType and netDeviceVersion. *)
Definition getProperties_v7 (dev_id : Z) : A (Z * option (properties_v6 * Z * Z)) :=
  let* (r, props) := nccl_net_ofi_get_properties dev_id in
  if negb (r =? ncclSuccess) then ret (r, None)
  else
    let* p := of_option props in
    ret (ncclSuccess, Some (mk_v6 (Plugin.pr_name p) (Plugin.pci_path p) (Plugin.guid p) (ptr_support p) (Plugin.port_speed p)
      (Plugin.port_number p) (Plugin.latency p) (Plugin.max_communicators p) (Plugin.max_group_receives p),
      NCCL_NET_DEVICE_HOST, NCCL_NET_DEVICE_INVALID_VERSION)).

Record properties_v4 := mk_v4 {
  v4_name : Plugin.buffer;
  v4_pciPath : option string;
  v4_guid : Z;
  v4_ptrSupport : Z;
  v4_speed : Z;
  v4_port : Z;
  v4_maxComms : Z;
}.

Definition getProperties_v4 (dev_id : Z) : A (Z * option properties_v4) :=
  let* (r, props) := getProperties_v6 dev_id in
  if negb (r =? ncclSuccess) then ret (r, None)
  else
    let* p := of_option props in
    ret (ncclSuccess, Some (mk_v4 (v6_name p) (v6_pciPath p) (v6_guid p) (v6_ptrSupport p) (v6_speed p) (v6_port p) (v6_maxComms p))).

Definition pciPath_v2 (dev_id : Z) : A (Z * option string) :=
  let* (r, props) := getProperties_v6 dev_id in
  if negb (r =? ncclSuccess) then ret (r, None)
  else let* p := of_option props in ret (ncclSuccess, Some (Plugin.b_string (v6_name p))).

Definition ptrSupport_v2 (dev_id : Z) : A (Z * option Z) :=
  let* (r, props) := getProperties_v6 dev_id in
  if negb (r =? ncclSuccess) then ret (r, None)
  else let* p := of_option props in ret (ncclSuccess, Some (v6_ptrSupport p)).

(** The device handle of version 7 is not used. *)
Definition connect_v7 (dev : Z) (h : option handle) : A (Z * (option handle * Z)) := nccl_net_ofi_connect dev h.
Definition accept_v7 (listenComm : Z) : A (Z * Z) := nccl_net_ofi_accept listenComm.

End Api.

(** ** accept_v4 *)

Section Accept.
Context {W : Type} {T : Transport W}.

Lemma translate_nonneg rc : 0 <= nccl_net_ofi_retval_translate_impl rc.
Proof.
  unfold nccl_net_ofi_retval_translate_impl. destruct (rc =? 0), (rc =? - EINVAL), (rc =? - EMSGSIZE); try done. by destruct (existsb _ _).
Qed.

Lemma translated_inv {B} rc (out : B) (w : W) r x w' :
  translated false rc out w = Some ((r, x), w') -> r = nccl_net_ofi_retval_translate_impl rc.
Proof. by intros [= <- _ _]. Qed.

Lemma accept_nonneg l (w : W) r x w' : nccl_net_ofi_accept false l w = Some ((r, x), w') -> 0 <= r.
Proof.
  unfold nccl_net_ofi_accept. intros Hrun. destruct (l =? NULL); [by injection Hrun as <- _ _|].
  apply bind_inv in Hrun as ([rc c] & w1 & _ & Hrun). destruct (negb (rc =? 0)); [|apply translated_inv in Hrun as ->; apply translate_nonneg].
  apply bind_inv in Hrun as (cm & w2 & _ & Hrun). destruct (c_ep cm); [apply bind_inv in Hrun as (y & w3 & _ & Hrun)|]; apply translated_inv in Hrun as ->; apply translate_nonneg.
Qed.

Lemma accept_loop_nonneg fuel l rcomm r0 (w : W) r x w' :
  0 <= r0 -> accept_loop false fuel l rcomm r0 w = Some ((r, x), w') -> 0 <= r.
Proof.
  revert rcomm r0 w. induction fuel as [|fuel IH]; intros rcomm r0 w H0 Hrun; cbn [accept_loop] in Hrun; (destruct (negb (rcomm =? NULL)); [by injection Hrun as <- _ _|]); [done|].
  apply bind_inv in Hrun as ([r1 c] & w1 & H1 & Hrun). apply accept_nonneg in H1. destruct (negb (r1 =? ncclSuccess)); [by injection Hrun as <- _ _|by eapply IH].
Qed.

(** accept_v4 translates the result of accept, which is an ncclResult_t already:
    whatever went wrong becomes ncclSystemError. *)
Lemma accept_v4_loses_the_error proto fuel l rcomm (w : W) r x w' :
  is_rdma proto = false -> nccl_net_ofi_accept_v4 false proto fuel l rcomm w = Some ((r, x), w') -> r = ncclSuccess \/ r = ncclSystemError.
Proof.
  intros Hp Hrun. unfold nccl_net_ofi_accept_v4 in Hrun. rewrite Hp in Hrun. apply bind_inv in Hrun as ([r1 c1] & w1 & H1 & H2).
  apply accept_loop_nonneg in H1; [|done]. apply translated_inv in H2 as ->.
  assert (exists n, r1 = Z.of_nat n) as [n ->] by (exists (Z.to_nat r1); lia). clear H1. destruct n; [by left|right].
  unfold nccl_net_ofi_retval_translate_impl. by rewrite Nat2Z.inj_succ, (proj2 (Z.eqb_neq _ _)) by lia; destruct n.
Qed.

End Accept.

End Api.
