(* ===== verification/Topo.v ===== *)
(** * nccl_ofi_topo.c: hardware topology and NIC groups

    The topology of the machine is a tree of hwloc objects. The code attaches a user
    data structure to every object with a NIC or an NVIDIA GPU below it, counts for
    every object how many GPUs have their closest NICs below it, moves the NICs up to
    such an object and splits them into that many groups, each stored at the object
    of its first NIC. This file has the operations; TopoCreate.v and TopoGroup.v have
    the theorems.

    hwloc is a parameter: the objects with their parents, the order in which
    hwloc_get_next_pcidev goes through the PCI devices, and the look-up by bus ID. The
    tree does not change, so a loop [while (node) {...; node = node->parent}] is one
    over the path from the object to the root. A linked list of fi_info structures is
    a list of structures with their addresses; NULL is the empty one. *)

From S2P Require Import Prelude StateM NetTypes.

Module Topo.

Open Scope Z_scope.

(** ** hwloc *)

Record busid := mk_busid { b_domain : Z; b_bus : Z; b_dev : Z; b_func : Z }.

#[export] Instance busid_eq_dec : EqDecision busid.
Proof. solve_decision. Defined.

Inductive hwloc_obj_type_t :=
| HWLOC_OBJ_BRIDGE | HWLOC_OBJ_PCI_DEVICE | HWLOC_OBJ_NUMANODE | HWLOC_OBJ_OTHER.

#[export] Instance obj_type_eq_dec : EqDecision hwloc_obj_type_t.
Proof. solve_decision. Defined.

(** The PCI attributes of a device or of the upstream side of a bridge. *)
Record pci_attr := mk_attr { a_busid : busid; a_class_id : Z; a_vendor_id : Z }.

Record hobj := mk_obj {
  o_type : hwloc_obj_type_t;
  o_attr : option pci_attr;
  o_parent : option Z;
  o_children : list Z;
  o_memory_children : list Z;
  o_os_index : Z;
}.

Record hwloc := mk_hwloc {
  h_objs : gmap Z hobj;
  h_root : Z;
  h_pcidevs : list Z;
  hwloc_get_pcidev_by_busid : busid -> option Z;
}.

(** The objects from [o] to the root; [fuel] bounds the depth. *)
Fixpoint root_path (H : hwloc) (fuel : nat) (o : Z) : option (list Z) :=
  match fuel, h_objs H !! o with
  | S fuel', Some ob =>
      match o_parent ob with
      | None => Some [o]
      | Some p => match root_path H fuel' p with Some q => Some (o :: q) | None => None end
      end
  | _, _ => None
  end.

(** ** NICs and user data *)

(** A struct fi_info: its address and the PCI attributes of its NIC, if it has any. *)
Record nic := mk_nic { n_ptr : Z; n_pci : option busid }.

#[export] Instance nic_eq_dec : EqDecision nic.
Proof. solve_decision. Defined.

Definition head_ptr (l : list nic) : Z := match l with [] => NULL | n :: _ => n_ptr n end.

Record nccl_ofi_topo_data_t := mk_data {
  info_list : list nic;
  info_list_len : Z;
  num_groups : Z;
  gpu_group_node : option Z;
  is_nic_subtree : bool;
  contributed_gpu : bool;
  td_node : option Z;
}.

(** What calloc makes of a user data structure. *)
Definition zero_data : nccl_ofi_topo_data_t := mk_data [] 0 0 None false false None.

Definition w_list l n d := mk_data l n (num_groups d) (gpu_group_node d) (is_nic_subtree d) (contributed_gpu d) (td_node d).
Definition w_groups g d := mk_data (info_list d) (info_list_len d) g (gpu_group_node d) (is_nic_subtree d) (contributed_gpu d) (td_node d).
Definition w_gpu g d := mk_data (info_list d) (info_list_len d) (num_groups d) g (is_nic_subtree d) (contributed_gpu d) (td_node d).
Definition w_nic b d := mk_data (info_list d) (info_list_len d) (num_groups d) (gpu_group_node d) b (contributed_gpu d) (td_node d).
Definition w_contributed b d := mk_data (info_list d) (info_list_len d) (num_groups d) (gpu_group_node d) (is_nic_subtree d) b (td_node d).
Definition w_node o d := mk_data (info_list d) (info_list_len d) (num_groups d) (gpu_group_node d) (is_nic_subtree d) (contributed_gpu d) o.

(** The userdata pointer of an object: the counter of the first pass, or an element
    of the vector. *)
Inductive udata := UCount | UData (i : nat).

(** A nccl_ofi_topo_t with the pointers that the code keeps in the hwloc objects. *)
Record nccl_ofi_topo_t := mk_topo {
  t_userdata : gmap Z udata;
  data_vec : list nccl_ofi_topo_data_t;
  max_group_size : Z;
  t_fresh : Z;
}.

Definition w_userdata f t := mk_topo (f (t_userdata t)) (data_vec t) (max_group_size t) (t_fresh t).
Definition w_vec f t := mk_topo (t_userdata t) (f (data_vec t)) (max_group_size t) (t_fresh t).
Definition w_max f t := mk_topo (t_userdata t) (data_vec t) (f (max_group_size t)) (t_fresh t).
Definition w_fresh f t := mk_topo (t_userdata t) (data_vec t) (max_group_size t) (f (t_fresh t)).

Abbreviation TM := (SM nccl_ofi_topo_t).

(** The environment: hwloc, whether fi_dupinfo succeeds for a structure, and the
    platform's order of rails. *)
Class TopoEnv := {
  hw : hwloc;
  dupinfo_ok : nic -> bool;
  platform_sort_rails : list nic -> Z -> Z -> list nic;
}.

Section Topo.
Context {E : TopoEnv}.

Definition get_obj (o : Z) : TM hobj := of_option (h_objs hw !! o).
Definition path_to_root (o : Z) : TM (list Z) := of_option (root_path hw (size (h_objs hw)) o).

Definition get_data (i : nat) : TM nccl_ofi_topo_data_t := let* v := gets data_vec in of_option (v !! i).
Definition set_data (i : nat) (f : nccl_ofi_topo_data_t -> nccl_ofi_topo_data_t) : TM unit := modify (w_vec (alter f i)).

(** The user data of an object: [None] for NULL. The counter is not a structure. *)
Definition userdata_of (o : Z) : TM (option nat) :=
  let* u := gets t_userdata in
  match u !! o with
  | None => ret None
  | Some (UData i) => ret (Some i)
  | Some UCount => undefined
  end.

(** ** Objects of devices *)

Definition target_class_id : Z := 3.
Definition target_vendor_id : Z := 4318.

(** The code and whether the object is an NVIDIA GPU. *)
Definition is_accelerator_dev (ob : hobj) : Z * bool :=
  if negb (bool_decide (o_type ob = HWLOC_OBJ_PCI_DEVICE)) then (0, false)
  else
    match o_attr ob with
    | None => (- EINVAL, false)
    | Some a =>
        let class_code := wrap 8 (Z.shiftr (a_class_id a) 8) in
        (0, (target_class_id =? class_code) && (a_vendor_id a =? target_vendor_id))
    end.

Definition get_hwloc_pcidev_by_fi_info (info : nic) : TM (Z * option Z) :=
  match n_pci info with
  | None => ret (- EINVAL, None)
  | Some b =>
      match hwloc_get_pcidev_by_busid hw b with
      | None => ret (0, None)
      | Some o =>
          let* ob := get_obj o in
          match o_attr ob with None => ret (- EINVAL, None) | Some _ => ret (0, Some o) end
      end
  end.

(** The loop of get_info_for_node over the list. *)
Fixpoint find_info (b : busid) (l : list nic) : Z * option nic :=
  match l with
  | [] => (0, None)
  | info :: l' =>
      match n_pci info with
      | None => (- EINVAL, None)
      | Some b' => if bool_decide (b = b') then (0, Some info) else find_info b l'
      end
  end.

Definition get_info_for_node (ob : hobj) (l : list nic) : Z * option nic :=
  match l, o_attr ob with
  | [], _ => (- EINVAL, None)
  | _, None => (- EINVAL, None)
  | _, Some a => if negb (bool_decide (o_type ob = HWLOC_OBJ_PCI_DEVICE)) then (0, None) else find_info (a_busid a) l
  end.

(** ** Creation *)

(** The walk of the counting pass and the one of the clearing pass. *)
Fixpoint count_walk (p : list Z) (count : Z) : TM Z :=
  match p with
  | [] => ret count
  | o :: p' =>
      let* u := gets t_userdata in
      match u !! o with
      | Some _ => ret count
      | None => modify (w_userdata <[o := UCount]>) ;;; count_walk p' (count + 1)
      end
  end.

Fixpoint clear_walk (p : list Z) : TM unit :=
  match p with [] => ret tt | o :: p' => modify (w_userdata (delete o)) ;;; clear_walk p' end.

(** One pass over the devices: [Some count] counts, [None] clears. *)
Fixpoint count_pass (devs : list Z) (l : list nic) (count : option Z) : TM (Z * option Z) :=
  match devs with
  | [] => ret (0, count)
  | o :: devs' =>
      let* ob := get_obj o in
      let (rc, is_accel) := is_accelerator_dev ob in
      if negb (rc =? 0) then ret (rc, count)
      else
        let (rc, info) := get_info_for_node ob l in
        if negb (rc =? 0) then ret (rc, count)
        else if is_accel || bool_decide (is_Some info) then
          let* p := path_to_root o in
          match count with
          | Some n => let* n := count_walk p n in count_pass devs' l (Some n)
          | None => clear_walk p ;;; count_pass devs' l None
          end
        else count_pass devs' l count
  end.

Definition count_nodes_with_accel_or_nic_in_subtree (l : list nic) : TM (Z * Z) :=
  let* (rc, count) := count_pass (h_pcidevs hw) l (Some 0) in
  let* n := of_option count in
  if negb (rc =? 0) then ret (rc, n)
  else let* (rc, _) := count_pass (h_pcidevs hw) l None in ret (rc, n).

(** [it] is the position of the data iterator. *)
Fixpoint set_userdata_to_root (p : list Z) (it : nat) : TM (Z * nat) :=
  match p with
  | [] => ret (0, it)
  | o :: p' =>
      let* u := userdata_of o in
      match u with
      | Some _ => set_userdata_to_root p' it
      | None =>
          let* v := gets data_vec in
          if bool_decide (length v <= it)%nat then ret (- EINVAL, it)
          else
            modify (w_userdata <[o := UData it]>) ;;;
            set_data it (w_node (Some o)) ;;;
            set_userdata_to_root p' (S it)
      end
  end.

(** fi_dupinfo: a new structure or NULL. *)
Definition fi_dupinfo (info : nic) : TM (list nic) :=
  if dupinfo_ok info then
    let* a := gets t_fresh in
    modify (w_fresh (fun n => n + 1)) ;;; ret [mk_nic a (n_pci info)]
  else ret [].

(** The loop of set_user_data over the devices. *)
Fixpoint decorate (devs : list Z) (l : list nic) (it : nat) : TM Z :=
  match devs with
  | [] => ret 0
  | o :: devs' =>
      let* ob := get_obj o in
      let (rc, is_accel) := is_accelerator_dev ob in
      if negb (rc =? 0) then ret rc
      else
        let (rc, info) := get_info_for_node ob l in
        if negb (rc =? 0) then ret rc
        else
          let* (rc, it) :=
            if is_accel || bool_decide (is_Some info) then let* p := path_to_root o in set_userdata_to_root p it else ret (0, it) in
          if negb (rc =? 0) then ret rc
          else
            match info with
            | None => decorate devs' l it
            | Some info =>
                let* u := userdata_of o in
                let* i := of_option u in
                let* copy := fi_dupinfo info in
                set_data i (w_list copy 1) ;;;
                if bool_decide (copy = []) then ret (- EINVAL) else modify (w_max (fun _ => 1)) ;;; decorate devs' l it
            end
  end.

Definition nccl_ofi_topo_data_vec_create (calloc_ok : bool) (size : Z) : option (list nccl_ofi_topo_data_t) :=
  if negb calloc_ok then None else Some (replicate (Z.to_nat size) zero_data).

Definition set_user_data (calloc_ok : bool) (l : list nic) : TM Z :=
  let* (rc, num_nodes) := count_nodes_with_accel_or_nic_in_subtree l in
  if negb (rc =? 0) then ret rc
  else
    match nccl_ofi_topo_data_vec_create calloc_ok num_nodes with
    | None => ret (- ENOMEM)
    | Some v => modify (w_vec (fun _ => v)) ;;; decorate (h_pcidevs hw) l 0
    end.

(** A topology that is allocated, initialised and loaded, or the failures of these
    steps; the result is whether there is a topology. *)
Definition nccl_ofi_topo_create (calloc_ok vec_calloc_ok : bool) (init_rc load_rc : Z) (l : list nic) : TM bool :=
  if negb calloc_ok then ret false
  else if negb (init_rc =? 0) then ret false
  else if negb (load_rc =? 0) then ret false
  else let* rc := set_user_data vec_calloc_ok l in ret (rc =? 0).

(** ** Grouping *)

(** Mark the objects of a path. *)
Fixpoint mark_walk (p : list Z) : TM Z :=
  match p with
  | [] => ret 0
  | o :: p' =>
      let* u := userdata_of o in
      match u with
      | None => ret (- EINVAL)
      | Some i => set_data i (w_nic true) ;;; mark_walk p'
      end
  end.

(** The loops over the vector go through [n] elements from [i]. *)
Fixpoint mark_loop (n i : nat) : TM Z :=
  match n with
  | O => ret 0
  | S n' =>
      let* d := get_data i in
      if bool_decide (info_list d = []) then mark_loop n' (S i)
      else
        match td_node d with
        | None => ret (- EINVAL)
        | Some o =>
            let* p := path_to_root o in
            let* rc := mark_walk p in
            if negb (rc =? 0) then ret rc else mark_loop n' (S i)
        end
  end.

Definition mark_topo_nodes_with_ofi_info_subtree : TM Z := let* v := gets data_vec in mark_loop (length v) 0.

Fixpoint propagate_walk (gpu_node : Z) (p : list Z) : TM Z :=
  match p with
  | [] => ret 0
  | o :: p' =>
      let* u := userdata_of o in
      match u with
      | None => ret (- EINVAL)
      | Some i =>
          let* d := get_data i in
          if is_nic_subtree d then
            set_data i (w_groups (num_groups d + 1)) ;;; set_data i (w_gpu (Some gpu_node)) ;;; ret 0
          else propagate_walk gpu_node p'
      end
  end.

Definition propoagate_accel_count (gpu_node : Z) : TM Z :=
  let* u := userdata_of gpu_node in
  match u with
  | None => ret (- EINVAL)
  | Some i =>
      let* d := get_data i in
      if contributed_gpu d then ret 0
      else
        set_data i (w_contributed true) ;;;
        let* p := path_to_root gpu_node in
        propagate_walk gpu_node p
  end.

Fixpoint propagate_loop (devs : list Z) : TM Z :=
  match devs with
  | [] => ret 0
  | o :: devs' =>
      let* ob := get_obj o in
      let (rc, is_accel) := is_accelerator_dev ob in
      if negb (rc =? 0) then ret rc
      else (if is_accel : bool then propoagate_accel_count o ;;; ret tt else ret tt) ;;; propagate_loop devs'
  end.

Definition propoagate_accel_group_counts : TM Z := propagate_loop (h_pcidevs hw).

(** The search for a target from [p] on, for the list of element [s]. *)
Fixpoint lift_walk (s : nat) (p : list Z) : TM Z :=
  match p with
  | [] => ret 0
  | o :: p' =>
      let* u := userdata_of o in
      match u with
      | None => ret (- EINVAL)
      | Some t =>
          let* target := get_data t in
          if num_groups target >? 0 then
            let* source := get_data s in
            set_data t (fun d => w_list (info_list source ++ info_list d) (info_list_len d + info_list_len source) d) ;;;
            set_data s (w_list [] 0) ;;;
            ret 0
          else
            match p' with
            | [] => let* source := get_data s in set_data s (w_groups (info_list_len source)) ;;; ret 0
            | _ :: _ => lift_walk s p'
            end
      end
  end.

Fixpoint lift_loop (n i : nat) : TM Z :=
  match n with
  | O => ret 0
  | S n' =>
      let* source := get_data i in
      if bool_decide (info_list source = []) then lift_loop n' (S i)
      else
        match td_node source with
        | None => ret (- EINVAL)
        | Some o =>
            let* u := userdata_of o in
            let* t := of_option u in
            let* target := get_data t in
            if num_groups target >? 0 then lift_loop n' (S i)
            else
              let* p := path_to_root o in
              let* rc := lift_walk i p in
              if negb (rc =? 0) then ret rc else lift_loop n' (S i)
        end
  end.

Definition lift_up_ofi_infos : TM Z := let* v := gets data_vec in lift_loop (length v) 0.

(** The loop over the groups: [n] are left, [infos] is what remains of the list. *)
Fixpoint group_loop (n : nat) (group_idx num_groups num_large_groups group_size : Z) (gpu : option Z) (infos : list nic) : TM (Z * list nic) :=
  match n with
  | O => ret (0, infos)
  | S n' =>
      let group_size := if group_idx =? num_large_groups then group_size - 1 else group_size in
      if group_size =? 0 then ret (0, infos)
      else
        match infos with
        | [] => undefined
        | leader :: _ =>
            let* (rc, obj) := get_hwloc_pcidev_by_fi_info leader in
            if negb (rc =? 0) then ret (rc, infos)
            else
              match obj with
              | None => ret (- EINVAL, infos)
              | Some o =>
                  let* u := userdata_of o in
                  match u with
                  | None => ret (- EINVAL, infos)
                  | Some i =>
                      let* d := get_data i in
                      if head_ptr (info_list d) =? head_ptr infos then
                        if group_idx + 1 =? num_groups then ret (0, infos) else ret (- EINVAL, infos)
                      else
                        assert (bool_decide (group_size <= Z.of_nat (length infos))) ;;;
                        set_data i (fun d => w_gpu gpu (w_list (take (Z.to_nat group_size) infos) group_size d)) ;;;
                        modify (w_max (fun m => Z.max m group_size)) ;;;
                        group_loop n' (group_idx + 1) num_groups num_large_groups group_size gpu (drop (Z.to_nat group_size) infos)
                  end
              end
        end
  end.

Definition create_groups_from_info_list (infos : list nic) (num_infos : Z) (gpu : option Z) (groups : Z) : TM (Z * list nic) :=
  let groups := Z.min groups num_infos in
  let num_large_groups := Z.rem num_infos groups in
  let group_size := Z.quot num_infos groups + 1 in
  let infos := platform_sort_rails infos num_infos group_size in
  group_loop (Z.to_nat groups) 0 groups num_large_groups group_size gpu infos.

Fixpoint create_loop (n i : nat) : TM Z :=
  match n with
  | O => ret 0
  | S n' =>
      let* d := get_data i in
      if bool_decide (info_list d = []) then create_loop n' (S i)
      else if num_groups d =? 0 then create_loop n' (S i)
      else
        set_data i (w_list [] 0) ;;;
        set_data i (w_groups 0) ;;;
        let* (rc, rest) := create_groups_from_info_list (info_list d) (info_list_len d) (gpu_group_node d) (num_groups d) in
        if negb (rc =? 0) then set_data i (fun d => w_list rest (info_list_len d) d) ;;; ret rc
        else create_loop n' (S i)
  end.

Definition create_groups_from_info_lists : TM Z := let* v := gets data_vec in create_loop (length v) 0.

Definition nccl_ofi_topo_group : TM Z :=
  let* rc := mark_topo_nodes_with_ofi_info_subtree in
  if negb (rc =? 0) then ret rc
  else
    let* rc := propoagate_accel_group_counts in
    if negb (rc =? 0) then ret rc
    else
      let* rc := lift_up_ofi_infos in
      if negb (rc =? 0) then ret rc else create_groups_from_info_lists.

(** ** Reading the groups *)

Definition nccl_ofi_topo_num_info_lists : TM Z :=
  let* v := gets data_vec in ret (Z.of_nat (length (filter (fun d => info_list d <> []) v))).

(** The iterator is a position of the vector; [None] is NULL. *)
Fixpoint next_loop (n it : nat) : TM (option (list nic) * nat) :=
  match n with
  | O => ret (None, it)
  | S n' =>
      let* d := get_data it in
      if bool_decide (info_list d = []) then next_loop n' (S it) else ret (Some (info_list d), S it)
  end.

Definition nccl_ofi_topo_next_info_list (it : nat) : TM (option (list nic) * nat) :=
  let* v := gets data_vec in next_loop (length v - it) it.

End Topo.

End Topo.
