(* ===== verification/TopoCreate.v ===== *)
(** * nccl_ofi_topo.c: creation of the topology

    The two passes of nccl_ofi_topo_create agree: the first counts exactly the
    objects to which the second gives user data, so that the vector is never too
    short, and afterwards user data and objects are in one-to-one correspondence. *)

From S2P Require Import Prelude StateM NetTypes Topo.
Import Topo.

Module TopoCreate.

Open Scope Z_scope.

(** ** Paths *)

(** What hwloc promises: every object has a path to the root, the PCI devices are
    objects with attributes, and the look-up by bus ID finds the device with that ID. *)
Record hwloc_ok (H : hwloc) : Prop := {
  ho_path o : is_Some (h_objs H !! o) -> is_Some (root_path H (base.size (h_objs H)) o);
  ho_devs o : o ∈ h_pcidevs H -> exists ob a, h_objs H !! o = Some ob /\ o_type ob = HWLOC_OBJ_PCI_DEVICE /\ o_attr ob = Some a;
  ho_nodup : NoDup (h_pcidevs H);
  ho_find b o : hwloc_get_pcidev_by_busid H b = Some o <->
    o ∈ h_pcidevs H /\ exists ob a, h_objs H !! o = Some ob /\ o_attr ob = Some a /\ a_busid a = b;
}.

Section Paths.
Context (H : hwloc).

Lemma root_path_head fuel o p : root_path H fuel o = Some p -> exists q, p = o :: q.
Proof.
  destruct fuel as [|fuel]; cbn; [done|]. destruct (h_objs H !! o) as [ob|]; [|done]. destruct (o_parent ob) as [r|]; [|intros [= <-]; by exists []].
  destruct (root_path H fuel r) as [q|]; [|done]. intros [= <-]. by exists q.
Qed.

Lemma root_path_mono fuel fuel' o p : (fuel <= fuel')%nat -> root_path H fuel o = Some p -> root_path H fuel' o = Some p.
Proof.
  revert fuel' o p. induction fuel as [|fuel IH]; intros [|fuel'] o p Hle Hp; cbn in *; try done; [lia|]. destruct (h_objs H !! o) as [ob|]; [|done]. destruct (o_parent ob) as [r|]; [|done].
  destruct (root_path H fuel r) as [q|] eqn:Hq; [|done]. by rewrite (IH fuel' r q) by (done || lia).
Qed.

Lemma root_path_tail fuel o o' q : root_path H fuel o = Some (o :: o' :: q) -> root_path H fuel o' = Some (o' :: q).
Proof.
  intros Hp. destruct fuel as [|fuel]; [done|]. cbn [root_path] in Hp. apply (root_path_mono fuel); [lia|]. destruct (h_objs H !! o) as [ob|]; [|done]. destruct (o_parent ob) as [r|]; [|done].
  destruct (root_path H fuel r) as [q'|] eqn:Hq; [|done]. injection Hp as ->. destruct (root_path_head _ _ _ Hq) as [q2 [= <- <-]]. done.
Qed.

Lemma root_path_suffix fuel p1 : forall o o' q, root_path H fuel o = Some (p1 ++ o' :: q) -> root_path H fuel o' = Some (o' :: q).
Proof.
  induction p1 as [|x p1 IH]; intros o o' q Hp; destruct (root_path_head _ _ _ Hp) as [r Hr].
  - cbn in *. by injection Hr as -> ->.
  - cbn in Hr, Hp. injection Hr as -> Hr. clear Hr r. destruct (p1 ++ o' :: q) as [|y r] eqn:Hpq; [by destruct p1|]. apply root_path_tail in Hp. rewrite <- Hpq in Hp.
    by apply (IH y).
Qed.

Lemma root_path_nodup fuel o p : root_path H fuel o = Some p -> NoDup p.
Proof.
  intros Hp. remember (length p) as n eqn:Hn. revert o p Hp Hn. induction n as [n IH] using lt_wf_ind. intros o p Hp ->. destruct (root_path_head _ _ _ Hp) as [q ->].
  apply NoDup_cons. split.
  - intros (q1 & q2 & Heq)%list_elem_of_split. subst q. pose proof (root_path_suffix fuel (o :: q1) o o q2 Hp) as H2. rewrite Hp in H2. injection H2 as H2.
    apply (f_equal length) in H2. rewrite length_app in H2. cbn in H2. lia.
  - destruct q as [|o' q]; [constructor|]. apply root_path_tail in Hp. apply (IH (length (o' :: q)) ltac:(cbn; lia) o' _ Hp eq_refl).
Qed.

Lemma root_path_objs fuel o p : root_path H fuel o = Some p -> forall x, x ∈ p -> is_Some (h_objs H !! x).
Proof.
  intros Hp x (p1 & p2 & ->)%list_elem_of_split. apply root_path_suffix in Hp. destruct fuel; cbn in Hp; [done|]. by destruct (h_objs H !! x).
Qed.

End Paths.

(** ** Closed sets and walks *)

Section Hw.
Context {E : TopoEnv} (Hok : hwloc_ok hw).

Definition path (o : Z) : list Z := default [] (root_path hw (base.size (h_objs hw)) o).

Lemma path_some o : is_Some (h_objs hw !! o) -> root_path hw (base.size (h_objs hw)) o = Some (path o).
Proof using Hok. intros Ho. unfold path. by destruct (ho_path _ Hok o Ho) as [p ->]. Qed.

Lemma dev_path o : o ∈ h_pcidevs hw -> root_path hw (base.size (h_objs hw)) o = Some (path o).
Proof using Hok. intros Ho. apply path_some. destruct (ho_devs _ Hok o Ho) as (ob & a & Hob & _). by exists ob. Qed.

Lemma path_wp o (Q : list Z -> nccl_ofi_topo_t -> Prop) t : is_Some (h_objs hw !! o) -> Q (path o) t -> wp (path_to_root o) Q t.
Proof using Hok. intros Ho HQ. unfold path_to_root. eapply wp_of_option; [by apply path_some|done]. Qed.

(** A set of objects closed towards the root. *)
Definition closed (S : gset Z) : Prop := forall o, o ∈ S -> forall x, x ∈ path o -> x ∈ S.

Lemma path_in_closed S p1 o q d : closed S -> d ∈ h_pcidevs hw -> path d = p1 ++ o :: q -> o ∈ S -> forall x, x ∈ o :: q -> x ∈ S.
Proof using Hok.
  intros HS Hd Hp Ho x Hx. apply (HS o Ho). pose proof (dev_path d Hd) as Hd'. rewrite Hp in Hd'. apply root_path_suffix in Hd'.
  unfold path. by rewrite Hd'.
Qed.

Lemma closed_path S d : closed S -> d ∈ h_pcidevs hw -> closed (list_to_set (path d) ∪ S).
Proof using Hok.
  intros HS Hd o [Ho|Ho]%elem_of_union x Hx; [|apply elem_of_union; right; by apply (HS o)]. apply elem_of_list_to_set in Ho. apply list_elem_of_split in Ho as (p1 & q & Hp).
  apply elem_of_union. left. apply elem_of_list_to_set. rewrite Hp. apply elem_of_app. right. pose proof (dev_path d Hd) as Hd'. rewrite Hp in Hd'. apply root_path_suffix in Hd'.
  unfold path in Hx. by rewrite Hd' in Hx.
Qed.

(** The first pass after the objects [S]. *)
Definition counted (S : gset Z) (t : nccl_ofi_topo_t) : Prop := t_userdata t = gset_to_gmap UCount S.

Lemma count_walk_wp d p : forall p1 S T n t,
  d ∈ h_pcidevs hw -> path d = p1 ++ p -> closed S -> T = S ∪ list_to_set p1 -> counted T t -> n = Z.of_nat (base.size T) ->
  wp (count_walk p n) (fun m t' => counted (S ∪ list_to_set (path d)) t' /\ m = Z.of_nat (base.size (S ∪ list_to_set (path d))) /\
    data_vec t' = data_vec t /\ max_group_size t' = max_group_size t /\ t_fresh t' = t_fresh t) t.
Proof using Hok.
  induction p as [|o p IH]; intros p1 S T n t Hd Hp HS HT Hc Hn; cbn [count_walk].
  { rewrite app_nil_r in Hp. wp_simpl. rewrite Hp, <- HT. done. }
  wp_simpl. pose proof Hc as Hc'. unfold counted in Hc'. rewrite Hc', lookup_gset_to_gmap. pose proof (root_path_nodup _ _ _ _ (dev_path d Hd)) as Hnd. rewrite Hp in Hnd.
  destruct (decide (o ∈ T)) as [HoT|HoT].
  - rewrite option_guard_True by done. wp_simpl. assert (o ∈ S) as HoS.
    { rewrite HT in HoT. apply elem_of_union in HoT as [?|Ho%elem_of_list_to_set]; [done|]. exfalso. apply NoDup_app in Hnd as (_ & Hdis & _). apply (Hdis o Ho). left. }
    assert (S ∪ list_to_set (path d) = T) as ->; [|done]. rewrite HT, Hp, list_to_set_app_L. pose proof (path_in_closed S p1 o p d HS Hd Hp HoS) as Hsub.
    apply set_eq. intros x. rewrite !elem_of_union, !elem_of_list_to_set. specialize (Hsub x). tauto.
  - rewrite option_guard_False by done. wp_simpl. eapply wp_mono; [apply (IH (p1 ++ [o]) S (T ∪ {[o]})); try done|].
    + by rewrite Hp, <- app_assoc.
    + rewrite HT, list_to_set_app_L. cbn. by rewrite union_empty_r_L, union_assoc_L.
    + unfold counted. cbn. rewrite Hc', <- gset_to_gmap_union_singleton, union_comm_L. done.
    + rewrite size_union, size_singleton by set_solver. lia.
    + done.
Qed.

Lemma clear_walk_wp p : forall t,
  wp (clear_walk p) (fun _ t' => (forall x, t_userdata t' !! x = if decide (x ∈ p) then None else t_userdata t !! x) /\
    data_vec t' = data_vec t /\ max_group_size t' = max_group_size t /\ t_fresh t' = t_fresh t) t.
Proof.
  induction p as [|o p IH]; intros t; cbn [clear_walk]; wp_simpl.
  - by split_and!.
  - eapply wp_mono; [apply IH|]. intros [] t' (Hx & Hrest). split; [|done]. intros x. rewrite Hx. cbn. destruct (decide (x ∈ p)); [by rewrite decide_True by (by right)|].
    destruct (decide (x = o)) as [->|Hne]; [rewrite lookup_delete_eq, decide_True; [done|left]|]. rewrite lookup_delete_ne, decide_False by (done || (rewrite elem_of_cons; tauto)). done.
Qed.

End Hw.

(** ** Devices *)

Lemma find_info_fails b l : (find_info b l).1 <> 0 -> exists n, n ∈ l /\ n_pci n = None.
Proof.
  induction l as [|n l IH]; [done|]. cbn. destruct (n_pci n) as [b'|] eqn:Hn; [|exists n; split; [left|done]].
  case_bool_decide; [done|]. intros (m & Hm & ?)%IH. exists m. split; [by right|done].
Qed.

Lemma find_info_some b l n : (find_info b l).2 = Some n -> n ∈ l /\ n_pci n = Some b.
Proof.
  induction l as [|m l IH]; cbn; [done|]. destruct (n_pci m) as [b'|] eqn:Hb'; [|done]. case_bool_decide as Hb; cbn.
  - intros [= <-]. split; [left|]. by rewrite Hb', Hb.
  - intros Hn. destruct (IH Hn). split; [by right|done].
Qed.

Lemma get_info_pci ob a l : l <> [] -> o_attr ob = Some a -> o_type ob = HWLOC_OBJ_PCI_DEVICE -> get_info_for_node ob l = find_info (a_busid a) l.
Proof. intros Hl Ha Ht. unfold get_info_for_node. destruct l; [done|]. by rewrite Ha, Ht, bool_decide_true. Qed.

Section Create.
Context {E : TopoEnv} (Hok : hwloc_ok hw) (infos : list nic).

(** The NIC of a device, and whether it is a GPU. *)
Definition dev_info (o : Z) : option nic := match h_objs hw !! o with Some ob => (get_info_for_node ob infos).2 | None => None end.
Definition dev_accel (o : Z) : bool := match h_objs hw !! o with Some ob => (is_accelerator_dev ob).2 | None => false end.
Definition relevant (o : Z) : bool := dev_accel o || bool_decide (is_Some (dev_info o)).

(** Whether the look-up of a device in the list goes through. *)
Definition found (o : Z) : Prop := match h_objs hw !! o with Some ob => (get_info_for_node ob infos).1 = 0 | None => False end.

#[local] Instance found_dec o : Decision (found o).
Proof. unfold found. destruct (h_objs hw !! o); apply _. Defined.

Lemma dev_calls o :
  o ∈ h_pcidevs hw -> exists ob, h_objs hw !! o = Some ob /\ is_accelerator_dev ob = (0, dev_accel o) /\
    get_info_for_node ob infos = ((get_info_for_node ob infos).1, dev_info o).
Proof using Hok.
  intros Ho. destruct (ho_devs _ Hok o Ho) as (ob & a & Hob & Ht & Ha). exists ob. unfold dev_accel, dev_info. rewrite Hob. split; [done|].
  unfold is_accelerator_dev. rewrite Ht, Ha, bool_decide_true by done. cbn [negb]. split; [done|]. by destruct (get_info_for_node ob infos).
Qed.

Lemma dev_found o :
  o ∈ h_pcidevs hw -> found o ->
  exists ob, h_objs hw !! o = Some ob /\ is_accelerator_dev ob = (0, dev_accel o) /\ get_info_for_node ob infos = (0, dev_info o).
Proof using Hok.
  intros Ho Hf. destruct (dev_calls o Ho) as (ob & Hob & Ha & Hi). exists ob. unfold found in Hf. rewrite Hob in Hf. by rewrite Hi, Hf.
Qed.

Lemma dev_info_pci o n : dev_info o = Some n -> o ∈ h_pcidevs hw -> n ∈ infos /\ exists b, n_pci n = Some b /\ hwloc_get_pcidev_by_busid hw b = Some o.
Proof using Hok.
  intros Hn Ho. destruct (ho_devs _ Hok o Ho) as (ob & a & Hob & Ht & Ha). unfold dev_info in Hn. rewrite Hob in Hn.
  destruct (decide (infos = [])) as [He|Hne]; [by rewrite He in Hn|]. rewrite (get_info_pci ob a) in Hn by done.
  apply find_info_some in Hn as [Hin Hp]. split; [done|]. exists (a_busid a). split; [done|]. apply (ho_find _ Hok).
  split; [done|]. by exists ob, a.
Qed.

(** A look-up fails when the list is empty or a NIC has no PCI attributes. *)
Lemma not_found o : o ∈ h_pcidevs hw -> ~ found o -> infos = [] \/ exists n, n ∈ infos /\ n_pci n = None.
Proof using Hok.
  intros Ho Hf. destruct (ho_devs _ Hok o Ho) as (ob & a & Hob & Ht & Ha). unfold found in Hf. rewrite Hob in Hf.
  destruct (decide (infos = [])) as [|Hne]; [by left|right]. rewrite (get_info_pci ob a) in Hf by done. by apply find_info_fails in Hf.
Qed.

(** The objects above the relevant ones among [devs]. *)
Fixpoint reach (devs : list Z) : gset Z :=
  match devs with [] => ∅ | o :: devs' => (if relevant o then list_to_set (path o) else ∅) ∪ reach devs' end.

(** ** A failing look-up *)

Lemma count_walk_runs p : forall n t, wp (count_walk p n) (fun _ _ => True) t.
Proof. induction p as [|o p IH]; intros n t; cbn [count_walk]; wp_simpl; [done|]. destruct (t_userdata t !! o); wp_simpl; [done|apply IH]. Qed.

Lemma count_pass_fails devs : forall n t,
  (forall o, o ∈ devs -> o ∈ h_pcidevs hw) -> ~ Forall found devs ->
  wp (count_pass devs infos (Some n)) (fun r _ => r.1 <> 0 /\ is_Some r.2) t.
Proof using Hok.
  induction devs as [|o devs IH]; intros n t Hin Hf; [by destruct Hf|]. cbn [count_pass]. assert (o ∈ h_pcidevs hw) as Ho by (apply Hin; left).
  destruct (dev_calls o Ho) as (ob & Hob & Ha & Hi). wp_simpl. unfold get_obj. eapply wp_of_option; [exact Hob|]. rewrite Ha, Hi. cbn [Z.eqb negb].
  destruct (Z.eqb_spec (get_info_for_node ob infos).1 0) as [H0|H0]; cbn [negb]; [|wp_simpl; by eauto].
  assert (~ Forall found devs) as Hf' by (intros Hd; apply Hf; constructor; [unfold found; by rewrite Hob|done]).
  assert (forall n t, wp (count_pass devs infos (Some n)) (fun r _ => r.1 <> 0 /\ is_Some r.2) t) as IH'.
  { intros m t'. apply IH; [intros x Hx; apply Hin; by right|done]. }
  destruct (_ || _); [|apply IH']. wp_simpl. apply (path_wp Hok); [by exists ob|]. wp_simpl.
  eapply wp_mono; [apply count_walk_runs|]. intros m t' _. apply IH'.
Qed.

Section Found.
Hypothesis all_found : Forall found (h_pcidevs hw).

Lemma dev_ok o :
  o ∈ h_pcidevs hw -> exists ob, h_objs hw !! o = Some ob /\ is_accelerator_dev ob = (0, dev_accel o) /\ get_info_for_node ob infos = (0, dev_info o).
Proof using Hok all_found. intros Ho. apply dev_found; [done|]. rewrite Forall_forall in all_found. by apply all_found. Qed.

(** ** Counting *)

Lemma count_pass_wp devs : forall S n t,
  (forall o, o ∈ devs -> o ∈ h_pcidevs hw) -> closed S -> counted S t -> n = Z.of_nat (base.size S) ->
  wp (count_pass devs infos (Some n)) (fun r t' => r = (0, Some (Z.of_nat (base.size (S ∪ reach devs)))) /\ counted (S ∪ reach devs) t' /\
    data_vec t' = data_vec t /\ max_group_size t' = max_group_size t /\ t_fresh t' = t_fresh t) t.
Proof using Hok all_found.
  induction devs as [|o devs IH]; intros S n t Hin HS Hc Hn; cbn [count_pass reach].
  { wp_simpl. by rewrite union_empty_r_L, <- Hn. }
  assert (o ∈ h_pcidevs hw) as Ho by (apply Hin; left). destruct (dev_ok o Ho) as (ob & Hob & Ha & Hi). wp_simpl. unfold get_obj. eapply wp_of_option; [exact Hob|].
  rewrite Ha, Hi. cbn [Z.eqb negb]. fold (relevant o). destruct (relevant o) eqn:Hr.
  - wp_simpl. apply (path_wp Hok); [by exists ob|]. wp_simpl. eapply wp_mono; [by apply (count_walk_wp Hok o (path o) [] S S); [done|done|done|cbn; by rewrite union_empty_r_L|done|done]|].
    intros m t1 (Hc1 & Hm & Hv & Hmax & Hf). eapply wp_mono; [apply (IH (S ∪ list_to_set (path o))); [intros x Hx; apply Hin; by right| |done|done]|].
    + rewrite union_comm_L. by apply (closed_path Hok).
    + intros r t2 (-> & Hc2 & Hv2 & Hm2 & Hf2). rewrite union_assoc_L. split_and!; congruence.
  - eapply wp_mono; [apply (IH S); [intros x Hx; apply Hin; by right|done|done|done]|]. intros r t2 H2. by rewrite union_empty_l_L.
Qed.

Lemma clear_pass_wp devs : forall t,
  (forall o, o ∈ devs -> o ∈ h_pcidevs hw) ->
  wp (count_pass devs infos None) (fun r t' => r = (0, None) /\ (forall x, t_userdata t' !! x = if decide (x ∈ reach devs) then None else t_userdata t !! x) /\
    data_vec t' = data_vec t /\ max_group_size t' = max_group_size t /\ t_fresh t' = t_fresh t) t.
Proof using Hok all_found.
  induction devs as [|o devs IH]; intros t Hin; cbn [count_pass reach].
  { wp_simpl. by split_and!. }
  assert (o ∈ h_pcidevs hw) as Ho by (apply Hin; left). destruct (dev_ok o Ho) as (ob & Hob & Ha & Hi). wp_simpl. unfold get_obj. eapply wp_of_option; [exact Hob|].
  rewrite Ha, Hi. cbn [Z.eqb negb]. fold (relevant o). destruct (relevant o) eqn:Hr.
  - wp_simpl. apply (path_wp Hok); [by exists ob|]. wp_simpl. eapply wp_mono; [apply clear_walk_wp|]. intros [] t1 (Hx1 & Hv1 & Hm1 & Hf1).
    eapply wp_mono; [apply IH; intros x Hx; apply Hin; by right|]. intros r t2 (-> & Hx2 & Hv2 & Hm2 & Hf2). split_and!; try congruence.
    intros x. rewrite Hx2, Hx1. destruct (decide (x ∈ reach devs)); [by rewrite decide_True by set_solver|]. destruct (decide (x ∈ path o)) as [H|H].
    + rewrite decide_True; [done|]. apply elem_of_union. left. by apply elem_of_list_to_set.
    + rewrite decide_False; [done|]. rewrite elem_of_union, elem_of_list_to_set. tauto.
  - eapply wp_mono; [apply IH; intros x Hx; apply Hin; by right|]. intros r t2 H2. by rewrite union_empty_l_L.
Qed.

(** The first function counts the objects and leaves no user data behind. *)
Lemma count_nodes_wp t :
  t_userdata t = ∅ ->
  wp (count_nodes_with_accel_or_nic_in_subtree infos) (fun r t' => r = (0, Z.of_nat (base.size (reach (h_pcidevs hw)))) /\ t_userdata t' = ∅ /\
    data_vec t' = data_vec t /\ max_group_size t' = max_group_size t /\ t_fresh t' = t_fresh t) t.
Proof using Hok all_found.
  intros Hu. unfold count_nodes_with_accel_or_nic_in_subtree. wp_simpl. eapply wp_mono; [apply (count_pass_wp _ ∅ 0)|].
  - done.
  - intros o Ho. set_solver.
  - unfold counted. by rewrite Hu, gset_to_gmap_empty.
  - by rewrite size_empty.
  - intros r t1 (-> & Hc & Hv & Hm & Hf). rewrite union_empty_l_L in *. wp_simpl. eapply wp_of_option; [done|]. cbn [Z.eqb negb]. wp_simpl. eapply wp_mono; [by apply clear_pass_wp|].
    intros r t2 (-> & Hx & Hv2 & Hm2 & Hf2). wp_simpl. split_and!; try congruence. apply map_eq. intros x. rewrite Hx, lookup_empty, Hc, lookup_gset_to_gmap. case_decide; [done|]. by rewrite option_guard_False.
Qed.

(** ** Decoration *)

(** The user data of object [o] once the devices [D] have been visited. *)
Definition node_data (D : list Z) (o : Z) (d : nccl_ofi_topo_data_t) : Prop :=
  match dev_info o with
  | Some n => if decide (o ∈ D) then exists a, a <> NULL /\ d = w_node (Some o) (w_list [mk_nic a (n_pci n)] 1 zero_data) else d = w_node (Some o) zero_data
  | None => d = w_node (Some o) zero_data
  end.

(** The second pass: the objects [S] have the first elements of the vector. *)
Record decorated (S : gset Z) (D : list Z) (t : nccl_ofi_topo_t) : Prop := {
  de_user o : o ∈ S -> exists i d, t_userdata t !! o = Some (UData i) /\ (i < base.size S)%nat /\ data_vec t !! i = Some d /\ node_data D o d;
  de_none o : o ∉ S -> t_userdata t !! o = None;
  de_back i : (i < base.size S)%nat -> exists o d, o ∈ S /\ data_vec t !! i = Some d /\ td_node d = Some o /\ t_userdata t !! o = Some (UData i);
  de_rest i d : (base.size S <= i)%nat -> data_vec t !! i = Some d -> d = zero_data;
  de_len : length (data_vec t) = base.size (reach (h_pcidevs hw));
  de_fresh : 0 < t_fresh t;
  de_max : if bool_decide (Exists (fun o => is_Some (dev_info o)) D) then max_group_size t = 1 else max_group_size t = 0;
}.

Lemma decorated_add S D t o :
  decorated S D t -> o ∉ S -> (o ∈ D -> dev_info o = None) -> (base.size S < length (data_vec t))%nat ->
  decorated (S ∪ {[o]}) D (w_vec (alter (w_node (Some o)) (base.size S)) (w_userdata <[o := UData (base.size S)]> t)).
Proof.
  intros [Hu Hn Hb Hr Hl Hf Hm] Ho HD Hsz. assert (base.size (S ∪ {[o]}) = Datatypes.S (base.size S)) as Hs1 by (rewrite size_union, size_singleton by set_solver; lia).
  destruct (lookup_lt_is_Some_2 (data_vec t) (base.size S) Hsz) as [d0 Hd0]. pose proof (Hr _ _ (le_n _) Hd0) as ->.
  constructor; cbn; try done.
  - intros x Hx. rewrite Hs1. destruct (decide (x = o)) as [->|Hne].
    + exists (base.size S), (w_node (Some o) zero_data). rewrite lookup_insert_eq. split_and!; [done|lia|by rewrite list_lookup_alter_eq, Hd0|].
      unfold node_data. destruct (dev_info o); [|done]. rewrite decide_False; [done|]. intros H. by specialize (HD H).
    + destruct (Hu x) as (i & d & H1 & H2 & H3 & H4); [set_solver|]. exists i, d. rewrite lookup_insert_ne by done. split_and!; [done|lia| |done]. by rewrite list_lookup_alter_ne by lia.
  - intros x Hx. rewrite lookup_insert_ne by set_solver. apply Hn. set_solver.
  - intros i Hi. rewrite Hs1 in Hi. destruct (decide (i = base.size S)) as [->|Hne].
    + exists o, (w_node (Some o) zero_data). rewrite list_lookup_alter_eq, Hd0, lookup_insert_eq. split_and!; try done. set_solver.
    + destruct (Hb i) as (x & d & Hx & H1 & H2 & H3); [lia|]. exists x, d. rewrite list_lookup_alter_ne by lia. rewrite lookup_insert_ne by (intros ->; congruence). split_and!; try done. set_solver.
  - intros i d Hi Hd. rewrite Hs1 in Hi. rewrite list_lookup_alter_ne in Hd by lia. apply (Hr i); [lia|done].
  - by rewrite length_alter.
Qed.

Lemma decorated_user_wp S D t o (Q : option nat -> nccl_ofi_topo_t -> Prop) :
  decorated S D t -> (forall i, o ∈ S -> t_userdata t !! o = Some (UData i) -> Q (Some i) t) -> (o ∉ S -> Q None t) -> wp (userdata_of o) Q t.
Proof.
  intros HD H1 H2. unfold userdata_of. wp_simpl. destruct (decide (o ∈ S)) as [Ho|Ho].
  - destruct (de_user _ _ _ HD o Ho) as (i & d & Hi & _). rewrite Hi. wp_simpl. by apply H1.
  - rewrite (de_none _ _ _ HD o Ho). wp_simpl. by apply H2.
Qed.

Lemma set_userdata_wp D d p : forall p1 S T t,
  d ∈ h_pcidevs hw -> path d = p1 ++ p -> T = S ∪ list_to_set p1 -> decorated T D t ->
  (base.size (S ∪ list_to_set (path d)) <= length (data_vec t))%nat -> (forall o, o ∈ D -> is_Some (dev_info o) -> o ∈ S) ->
  wp (set_userdata_to_root p (base.size T)) (fun r t' => r = (0, base.size (S ∪ list_to_set (path d))) /\ decorated (S ∪ list_to_set (path d)) D t') t.
Proof.
  induction p as [|o p IH]; intros p1 S T t Hd Hp HT HD Hsz HS; cbn [set_userdata_to_root].
  { rewrite app_nil_r in Hp. wp_simpl. by rewrite Hp, <- HT. }
  wp_simpl. apply (decorated_user_wp T D); [done| |].
  - intros i Ho _. apply (IH (p1 ++ [o]) S T); try done; [by rewrite Hp, <- app_assoc|]. rewrite list_to_set_app_L. cbn. set_solver.
  - intros Ho. wp_simpl. assert (base.size T < length (data_vec t))%nat as Hlt.
    { enough (base.size (T ∪ {[o]}) <= length (data_vec t))%nat as H1 by (rewrite size_union, size_singleton in H1 by set_solver; lia).
      etrans; [|exact Hsz]. apply subseteq_size. rewrite HT, Hp, list_to_set_app_L. cbn. set_solver. }
    rewrite bool_decide_false by lia. wp_simpl. unfold set_data. wp_simpl.
    replace (Datatypes.S (base.size T)) with (base.size (T ∪ {[o]})) by (rewrite size_union, size_singleton by set_solver; lia).
    apply (IH (p1 ++ [o])); try done.
    + by rewrite Hp, <- app_assoc.
    + rewrite HT, list_to_set_app_L. cbn. set_solver.
    + apply decorated_add; try done. intros HoD. apply eq_None_not_Some. intros Hs. apply Ho. rewrite HT. apply elem_of_union. left. by apply HS.
    + cbn. by rewrite length_alter.
Qed.

(** A device that is not a NIC changes nothing. *)
Lemma decorated_skip S D t o : decorated S D t -> dev_info o = None -> decorated S (D ++ [o]) t.
Proof.
  intros [Hu Hn Hb Hr Hl Hf Hm] Ho. constructor; try done.
  - intros x Hx. destruct (Hu x Hx) as (i & d & H1 & H2 & H3 & H4). exists i, d. split_and!; try done. unfold node_data in *. destruct (dev_info x) eqn:Hi; [|done].
    destruct (decide (x ∈ D)); [by rewrite decide_True by (apply elem_of_app; by left)|]. rewrite decide_False; [done|]. rewrite elem_of_app, list_elem_of_singleton. intros [?| ->]; [done|congruence].
  - case_bool_decide as H1; case_bool_decide as H2; try done; exfalso; [apply H2, Exists_app; by left|]. apply Exists_app in H2 as [?|H2]; [done|]. apply Exists_cons in H2 as [[n Hx]|H2]; [congruence|by apply Exists_nil in H2].
Qed.

(** A NIC gets its copy. *)
Lemma decorated_nic S D t o n i :
  decorated S D t -> o ∈ S -> o ∉ D -> dev_info o = Some n -> t_userdata t !! o = Some (UData i) ->
  decorated S (D ++ [o]) (w_max (fun _ => 1) (w_vec (alter (w_list [mk_nic (t_fresh t) (n_pci n)] 1) i) (w_fresh (fun n => n + 1) t))).
Proof.
  intros [Hu Hn Hb Hr Hl Hf Hm] Ho HoD Hi Hui. destruct (Hu o Ho) as (i' & d0 & H1 & Hlt & Hd0 & Hnd). rewrite Hui in H1. injection H1 as <-.
  unfold node_data in Hnd. rewrite Hi, decide_False in Hnd by done. constructor; cbn; try done; try lia.
  - intros x Hx. destruct (Hu x Hx) as (j & d & H1 & H2 & H3 & H4). destruct (decide (x = o)) as [->|Hne].
    + rewrite Hui in H1. injection H1 as <-. rewrite Hd0 in H3. injection H3 as <-. exists i, (w_list [mk_nic (t_fresh t) (n_pci n)] 1 d0). rewrite list_lookup_alter_eq, Hd0. split_and!; try done.
      unfold node_data. rewrite Hi, decide_True by (apply elem_of_app; right; left). exists (t_fresh t). split; [unfold NULL; lia|]. by rewrite Hnd.
    + exists j, d. assert (i <> j) as Hij.
      { intros <-. rewrite Hd0 in H3. injection H3 as <-. assert (td_node d0 = Some x) as Hx'; [|rewrite Hnd in Hx'; cbn in Hx'; congruence].
        unfold node_data in H4. destruct (dev_info x); [|by rewrite H4]. destruct (decide _); [destruct H4 as (a & _ & ->); done|by rewrite H4]. }
      split_and!; try done; [by rewrite list_lookup_alter_ne|]. unfold node_data in *. destruct (dev_info x); [|done]. destruct (decide (x ∈ D)); [by rewrite decide_True by (apply elem_of_app; by left)|].
      rewrite decide_False; [done|]. rewrite elem_of_app, list_elem_of_singleton. tauto.
  - intros j Hj. destruct (Hb j Hj) as (x & d & Hx & H1 & H2 & H3). destruct (decide (j = i)) as [->|Hne].
    + rewrite Hd0 in H1. injection H1 as <-. exists x, (w_list [mk_nic (t_fresh t) (n_pci n)] 1 d0). by rewrite list_lookup_alter_eq, Hd0.
    + exists x, d. by rewrite list_lookup_alter_ne.
  - intros j d Hj Hd. rewrite list_lookup_alter_ne in Hd by lia. by eapply Hr.
  - by rewrite length_alter.
  - rewrite bool_decide_true; [done|]. apply Exists_app. right. apply Exists_cons. left. by exists n.
Qed.

Lemma reach_snoc D o : reach (D ++ [o]) = reach D ∪ (if relevant o then list_to_set (path o) else ∅).
Proof. induction D as [|x D IH]; cbn; [by rewrite union_empty_r_L, union_empty_l_L|]. by rewrite IH, union_assoc_L. Qed.

Lemma reach_app D D' : reach (D ++ D') = reach D ∪ reach D'.
Proof. induction D as [|x D IH]; cbn; [by rewrite union_empty_l_L|]. by rewrite IH, union_assoc_L. Qed.

Lemma reach_nic D o : o ∈ D -> is_Some (dev_info o) -> o ∈ h_pcidevs hw -> o ∈ reach D.
Proof using Hok.
  intros (D1 & D2 & ->)%list_elem_of_split Hi Ho. rewrite reach_app. cbn. unfold relevant. rewrite (bool_decide_true (is_Some _)), orb_true_r by done.
  apply elem_of_union. right. apply elem_of_union. left. apply elem_of_list_to_set. pose proof (dev_path Hok o Ho) as Hp. apply root_path_head in Hp as [q Hq]. rewrite Hq. left.
Qed.

Lemma reach_accel D o : o ∈ D -> dev_accel o = true -> o ∈ h_pcidevs hw -> o ∈ reach D.
Proof using Hok.
  intros (D1 & D2 & ->)%list_elem_of_split Hi Ho. rewrite reach_app. cbn. unfold relevant. rewrite Hi. cbn.
  apply elem_of_union. right. apply elem_of_union. left. apply elem_of_list_to_set. pose proof (dev_path Hok o Ho) as Hp. apply root_path_head in Hp as [q Hq]. rewrite Hq. left.
Qed.

Lemma reach_from D o : o ∈ reach D -> exists d, d ∈ D /\ o ∈ path d.
Proof.
  induction D as [|x D IH]; cbn; [by intros ?%not_elem_of_empty|]. intros [Ho|Ho]%elem_of_union.
  - destruct (relevant x); [|by apply not_elem_of_empty in Ho]. apply elem_of_list_to_set in Ho. exists x. split; [left|done].
  - destruct (IH Ho) as (d & Hd & Hp). exists d. split; [by right|done].
Qed.

Lemma reach_closed o x : o ∈ reach (h_pcidevs hw) -> x ∈ path o -> x ∈ reach (h_pcidevs hw).
Proof using Hok.
  assert (forall D, (forall d, d ∈ D -> d ∈ h_pcidevs hw) -> closed (reach D)) as Hcl; [|intros Ho; by apply (Hcl _ (fun d Hd => Hd) o)].
  induction D as [|d D IH]; intros HD; [by intros y ?%not_elem_of_empty|]. assert (closed (reach D)) as HcD by (apply IH; intros y Hy; apply HD; by right). cbn.
  destruct (relevant d); [apply (closed_path Hok); [done|apply HD; left]|by rewrite union_empty_l_L].
Qed.

Lemma reach_objs D o : (forall d, d ∈ D -> d ∈ h_pcidevs hw) -> o ∈ reach D -> is_Some (h_objs hw !! o).
Proof using Hok. intros HD (d & Hd & Ho)%reach_from. eapply root_path_objs; [by apply (dev_path Hok), HD|done]. Qed.

Lemma decorate_wp devs : forall D t,
  h_pcidevs hw = D ++ devs -> decorated (reach D) D t ->
  wp (decorate devs infos (base.size (reach D))) (fun rc t' => rc = 0 /\ decorated (reach (h_pcidevs hw)) (h_pcidevs hw) t' \/
    rc <> 0 /\ exists n, n ∈ infos /\ dupinfo_ok n = false) t.
Proof using Hok all_found.
  induction devs as [|o devs IH]; intros D t HD Hdec; cbn [decorate].
  { rewrite app_nil_r in HD. wp_simpl. left. by rewrite HD. }
  assert (o ∈ h_pcidevs hw) as Ho by (rewrite HD; apply elem_of_app; right; left). assert (o ∉ D) as HoD.
  { intros H. pose proof (ho_nodup _ Hok) as Hnd. rewrite HD in Hnd. apply NoDup_app in Hnd as (_ & Hdis & _). apply (Hdis o H). left. }
  assert (h_pcidevs hw = (D ++ [o]) ++ devs) as HD' by (by rewrite <- app_assoc).
  destruct (dev_ok o Ho) as (ob & Hob & Ha & Hi). wp_simpl. unfold get_obj. eapply wp_of_option; [exact Hob|].
  rewrite Ha, Hi. cbn [Z.eqb negb]. wp_simpl.
  assert (wp (if dev_accel o || bool_decide (is_Some (dev_info o)) then let* p := path_to_root o in set_userdata_to_root p (base.size (reach D)) else ret (0, base.size (reach D)))
    (fun r t' => r = (0, base.size (reach (D ++ [o]))) /\ decorated (reach (D ++ [o])) D t') t) as Hset.
  { rewrite reach_snoc. fold (relevant o). destruct (relevant o) eqn:Hr; [|wp_simpl; by rewrite union_empty_r_L]. wp_simpl. apply (path_wp Hok); [by exists ob|].
    apply (set_userdata_wp D o (path o) []); try done; [cbn; by rewrite union_empty_r_L| |].
    - rewrite (de_len _ _ _ Hdec). apply subseteq_size. rewrite HD', reach_app, reach_snoc, Hr. set_solver.
    - intros x Hx Hs. apply reach_nic; [done|done|]. rewrite HD. apply elem_of_app. by left. }
  eapply wp_mono; [exact Hset|]. intros r t1 (-> & Hdec1). cbn [Z.eqb negb]. destruct (dev_info o) as [n|] eqn:Hin.
  2: { apply (IH (D ++ [o])); [done|]. by apply decorated_skip. }
  assert (o ∈ reach (D ++ [o])) as HoS by (apply reach_nic; [apply elem_of_app; right; left|by exists n|done]).
  wp_simpl. apply (decorated_user_wp _ _ _ _ _ Hdec1); [|done]. intros i _ Hui. wp_simpl. eapply wp_of_option; [done|]. wp_simpl. unfold fi_dupinfo.
  destruct (dupinfo_ok n) eqn:Hdup; wp_simpl; unfold set_data; wp_simpl.
  - apply (IH (D ++ [o])); [done|]. by apply decorated_nic.
  - right. split; [done|]. exists n. split; [|done]. by apply (dev_info_pci o n).
Qed.

Lemma decorated_empty v f : v = replicate (base.size (reach (h_pcidevs hw))) zero_data -> 0 < f -> decorated ∅ [] (mk_topo ∅ v 0 f).
Proof.
  intros -> Hf. constructor; cbn [t_userdata data_vec max_group_size t_fresh]; try done.
  - intros i Hi. rewrite size_empty in Hi. lia.
  - intros i d _ Hd. by apply lookup_replicate in Hd as [-> _].
  - by rewrite length_replicate.
Qed.

End Found.

Lemma topo_create_wp calloc_ok vec_ok init_rc load_rc f :
  0 < f ->
  wp (nccl_ofi_topo_create calloc_ok vec_ok init_rc load_rc infos) (fun b t =>
    if b : bool then decorated (reach (h_pcidevs hw)) (h_pcidevs hw) t
    else calloc_ok = false \/ vec_ok = false \/ init_rc <> 0 \/ load_rc <> 0 \/ infos = [] \/
      exists n, n ∈ infos /\ (n_pci n = None \/ dupinfo_ok n = false)) (mk_topo ∅ [] 0 f).
Proof using Hok.
  intros Hf. unfold nccl_ofi_topo_create. destruct calloc_ok; cbn [negb]; [|wp_simpl; by left].
  destruct (Z.eqb_spec init_rc 0); cbn [negb]; [|wp_simpl; tauto]. destruct (Z.eqb_spec load_rc 0); cbn [negb]; [|wp_simpl; tauto].
  wp_simpl. unfold set_user_data. wp_simpl. destruct (decide (Forall found (h_pcidevs hw))) as [Hall|Hnot].
  2: { unfold count_nodes_with_accel_or_nic_in_subtree. wp_simpl. eapply wp_mono; [by apply count_pass_fails|]. intros [rc m] t1 [Hrc [n Hn]]. cbn [fst snd] in *.
       wp_simpl. eapply wp_of_option; [done|]. rewrite (proj2 (Z.eqb_neq _ _) Hrc). cbn [negb]. wp_simpl. rewrite (proj2 (Z.eqb_neq _ _) Hrc). cbn [negb]. wp_simpl.
       rewrite (proj2 (Z.eqb_neq _ _) Hrc). apply not_Forall_Exists in Hnot; [|apply _]. apply Exists_exists in Hnot as (o & Ho & Hno).
       destruct (not_found o Ho Hno) as [?|(x & Hx & ?)]; [tauto|]. do 5 right. eauto. }
  eapply wp_mono; [by apply count_nodes_wp|]. intros r t1 (-> & Hu & Hv & Hm & Hfr). cbn [Z.eqb negb] in *.
  unfold nccl_ofi_topo_data_vec_create. destruct vec_ok; cbn [negb]; [|wp_simpl; by right; left]. wp_simpl.
  eapply wp_mono; [apply (decorate_wp Hall (h_pcidevs hw) []); [done|]|].
  - destruct t1 as [u v m fr]. cbn in *. subst. apply decorated_empty; [by rewrite Nat2Z.id|done].
  - intros rc t2 [[-> H2]|(Hne & n & Hn & Hd)]; wp_simpl; [done|]. rewrite (proj2 (Z.eqb_neq _ _) Hne). do 5 right. eauto.
Qed.

(** C24. Creation of the topology: the vector has exactly one element for every
    object with a NIC or a GPU at or below it. Object and element point to each
    other, no other object has user data, the user data of a NIC's object holds a
    copy of its structure, and nothing else is set. The second pass never runs out of
    elements; creation fails only when an allocation, hwloc or fi_dupinfo fails, the
    list of NICs is empty, or a NIC of the list has no PCI attributes. *)
Theorem topo_create_decorates calloc_ok vec_ok init_rc load_rc f :
  0 < f ->
  exists b t, nccl_ofi_topo_create calloc_ok vec_ok init_rc load_rc infos (mk_topo ∅ [] 0 f) = Some (b, t) /\
    if b : bool then decorated (reach (h_pcidevs hw)) (h_pcidevs hw) t
    else calloc_ok = false \/ vec_ok = false \/ init_rc <> 0 \/ load_rc <> 0 \/ infos = [] \/
      exists n, n ∈ infos /\ (n_pci n = None \/ dupinfo_ok n = false).
Proof using Hok. intros Hf. apply wp_run. by apply topo_create_wp. Qed.
End Create.

End TopoCreate.
