(* ===== verification/TopoGroup.v ===== *)
(** * nccl_ofi_topo.c: the grouping algorithm

    nccl_ofi_topo_group neither loses nor duplicates a NIC: it partitions the NICs
    into groups of nearly equal size whose members are closest to the same GPUs, and
    stores each group at the object of its first member. *)

From S2P Require Import Prelude StateM NetTypes Topo TopoCreate.
Import Topo TopoCreate.

Module TopoGroup.

Open Scope Z_scope.

(** ** Objects and their user data *)

(** What the grouping needs of hwloc beyond its tree: a PCI device is not above
    another one. *)
Record hwloc_leaves (H : hwloc) : Prop := {
  hl_ok :> hwloc_ok H;
  hl_leaf fuel o p x : o ∈ h_pcidevs H -> root_path H fuel o = Some p -> x ∈ p -> x ∈ h_pcidevs H -> x = o;
}.

(** [n] is the NIC of object [o]. *)
Definition nic_at `{TopoEnv} (n : nic) (o : Z) : Prop := exists b, n_pci n = Some b /\ hwloc_get_pcidev_by_busid hw b = Some o.

Section Shape.
Context {E : TopoEnv} (Hl : hwloc_leaves hw).

Lemma nic_at_fun n n' o : nic_at n o -> nic_at n' o -> n_pci n = n_pci n'.
Proof using Hl.
  intros (b & Hb & Ho) (b' & Hb' & Ho'). apply (ho_find _ (hl_ok _ Hl)) in Ho as (_ & ob & a & H1 & H2 & <-). apply (ho_find _ (hl_ok _ Hl)) in Ho' as (_ & ob' & a' & H1' & H2' & <-). congruence.
Qed.

Lemma nic_at_obj n o : nic_at n o -> o ∈ h_pcidevs hw /\ exists ob a, h_objs hw !! o = Some ob /\ o_attr ob = Some a.
Proof using Hl. intros (b & Hb & Ho). apply (ho_find _ (hl_ok _ Hl)) in Ho as (? & ob & a & H1 & H2 & _). split; [done|]. by exists ob, a. Qed.

(** Objects and elements of the vector point to each other, and what is above an
    object with user data has user data. *)
Record shaped (t : nccl_ofi_topo_t) : Prop := {
  sh_user o x : t_userdata t !! o = Some x -> exists i d, x = UData i /\ data_vec t !! i = Some d /\ td_node d = Some o;
  sh_back i d : data_vec t !! i = Some d -> exists o, td_node d = Some o /\ t_userdata t !! o = Some (UData i);
  sh_up o x : is_Some (t_userdata t !! o) -> x ∈ path o -> is_Some (t_userdata t !! x);
  sh_obj o : is_Some (t_userdata t !! o) -> is_Some (h_objs hw !! o);
}.

Lemma shaped_alter t f i : shaped t -> (forall d, td_node (f d) = td_node d) -> shaped (w_vec (alter f i) t).
Proof.
  intros [H1 H2 H3 H4] Hf. constructor; cbn; try done.
  - intros o x Hx. destruct (H1 o x Hx) as (j & d & -> & Hd & Hn). destruct (decide (i = j)) as [->|Hne].
    + exists j, (f d). by rewrite list_lookup_alter_eq, Hd, Hf.
    + exists j, d. by rewrite list_lookup_alter_ne.
  - intros j d Hd. destruct (decide (i = j)) as [->|Hne].
    + rewrite list_lookup_alter_eq in Hd. destruct (data_vec t !! j) as [d0|] eqn:Hd0; [|done]. cbn in Hd. injection Hd as <-. rewrite Hf. by apply (H2 j).
    + rewrite list_lookup_alter_ne in Hd by done. by apply (H2 j).
Qed.

Lemma shaped_max t f : shaped t -> shaped (w_max f t).
Proof. intros [H1 H2 H3 H4]. by constructor. Qed.

(** Element and object determine each other. *)
Lemma shaped_index t i j d d' o : shaped t -> data_vec t !! i = Some d -> data_vec t !! j = Some d' -> td_node d = Some o -> td_node d' = Some o -> i = j.
Proof. intros Hs Hi Hj Hd Hd'. destruct (sh_back _ Hs i d Hi) as (x & Hx & Hu). destruct (sh_back _ Hs j d' Hj) as (x' & Hx' & Hu'). congruence. Qed.

(** Reading the user data of an object that has it. *)
Lemma shaped_user_wp t o (Q : option nat -> nccl_ofi_topo_t -> Prop) :
  shaped t -> is_Some (t_userdata t !! o) ->
  (forall i d, data_vec t !! i = Some d -> td_node d = Some o -> t_userdata t !! o = Some (UData i) -> Q (Some i) t) -> wp (userdata_of o) Q t.
Proof.
  intros Hs [x Hx] HQ. unfold userdata_of. wp_simpl. rewrite Hx. destruct (sh_user _ Hs o x Hx) as (i & d & -> & Hd & Hn). wp_simpl. by eapply HQ.
Qed.

Lemma get_data_wp t i d (Q : nccl_ofi_topo_data_t -> nccl_ofi_topo_t -> Prop) : data_vec t !! i = Some d -> Q d t -> wp (get_data i) Q t.
Proof. intros Hd HQ. unfold get_data. wp_simpl. by eapply wp_of_option. Qed.

Lemma shaped_path t o : shaped t -> is_Some (t_userdata t !! o) -> root_path hw (base.size (h_objs hw)) o = Some (path o).
Proof using Hl. intros Hs Ho. apply (path_some (hl_ok _ Hl)). by apply (sh_obj _ Hs). Qed.

Lemma shaped_path_wp t o (Q : list Z -> nccl_ofi_topo_t -> Prop) : shaped t -> is_Some (t_userdata t !! o) -> Q (path o) t -> wp (path_to_root o) Q t.
Proof using Hl. intros Hs Ho HQ. apply (path_wp (hl_ok _ Hl)); [by apply (sh_obj _ Hs)|done]. Qed.

(** ** The state before and after the counts *)

(** One element: no NIC or the NIC of its object, and a count. *)
Definition single (d : nccl_ofi_topo_data_t) : Prop :=
  0 <= num_groups d /\
  (info_list d = [] /\ info_list_len d = 0 \/ exists n o, info_list d = [n] /\ info_list_len d = 1 /\ n_ptr n <> NULL /\ nic_at n o /\ td_node d = Some o).

(** A GPU of the machine. *)
Definition is_gpu (x : option Z) : Prop := exists g, x = Some g /\ g ∈ h_pcidevs hw /\ dev_accel g = true.

Record ready (t : nccl_ofi_topo_t) : Prop := {
  re_shape : shaped t;
  re_single i d : data_vec t !! i = Some d -> single d;
  re_gpu i d : data_vec t !! i = Some d -> 0 < num_groups d -> is_gpu (gpu_group_node d);
}.

Lemma ready_groups t i d : ready t -> data_vec t !! i = Some d -> 0 <= num_groups d.
Proof. intros Hr Hd. by destruct (re_single _ Hr i d Hd). Qed.

(** A change of a single element that keeps its list. *)
Lemma ready_alter t f i :
  ready t -> (forall d, td_node (f d) = td_node d) -> (forall d, info_list (f d) = info_list d) -> (forall d, info_list_len (f d) = info_list_len d) ->
  (forall d, data_vec t !! i = Some d -> 0 <= num_groups (f d) /\ (0 < num_groups (f d) -> is_gpu (gpu_group_node (f d)))) -> ready (w_vec (alter f i) t).
Proof.
  intros [Hs Hr Hgpu] Hn Hi Hle Hg. constructor; [by apply shaped_alter| |]; intros j d Hd; cbn in Hd; (destruct (decide (i = j)) as [->|Hne];
    [rewrite list_lookup_alter_eq in Hd; destruct (data_vec t !! j) as [d0|] eqn:Hd0; [|done]; cbn in Hd; injection Hd as <-|rewrite list_lookup_alter_ne in Hd by done]).
  - specialize (Hr j d0 Hd0) as [_ Hr]. split; [by apply Hg|]. by rewrite Hi, Hle, Hn.
  - by apply (Hr j).
  - by apply Hg.
  - by apply (Hgpu j).
Qed.

(** What the two counting phases leave alone: the lists, the user data pointers and
    the size of the groups. *)
Definition keeps (t t' : nccl_ofi_topo_t) : Prop :=
  ready t' /\ t_userdata t' = t_userdata t /\ max_group_size t' = max_group_size t /\ (info_list <$> data_vec t') = (info_list <$> data_vec t).

Lemma keeps_refl t : ready t -> keeps t t.
Proof. intros Hr. unfold keeps. by split_and!. Qed.

Lemma keeps_trans t1 t2 t3 : keeps t1 t2 -> keeps t2 t3 -> keeps t1 t3.
Proof. intros (? & H1 & H2 & H3) (? & H4 & H5 & H6). unfold keeps. split_and!; done || congruence. Qed.

Lemma keeps_alter t f i :
  ready t -> (forall d, td_node (f d) = td_node d) -> (forall d, info_list (f d) = info_list d) -> (forall d, info_list_len (f d) = info_list_len d) ->
  (forall d, data_vec t !! i = Some d -> 0 <= num_groups (f d) /\ (0 < num_groups (f d) -> is_gpu (gpu_group_node (f d)))) -> keeps t (w_vec (alter f i) t).
Proof.
  intros Hr Hn Hi Hle Hg. unfold keeps. split_and!; try done; [by apply ready_alter|]. cbn. apply list_eq. intros j. rewrite !list_lookup_fmap. destruct (decide (i = j)) as [->|Hne].
  - rewrite list_lookup_alter_eq. destruct (data_vec t !! j); cbn; [by rewrite Hi|done].
  - by rewrite list_lookup_alter_ne.
Qed.

Lemma keeps_length t t' : keeps t t' -> length (data_vec t') = length (data_vec t).
Proof. intros (_ & _ & _ & H). by rewrite <- (length_fmap info_list), H, length_fmap. Qed.

(** ** Marks *)

Lemma mark_walk_wp p : forall t,
  ready t -> (forall x, x ∈ p -> is_Some (t_userdata t !! x)) -> wp (mark_walk p) (fun rc t' => rc = 0 /\ keeps t t') t.
Proof.
  induction p as [|o p IH]; intros t Hr Hp; cbn [mark_walk]; [wp_simpl; split; [done|by apply keeps_refl]|].
  wp_simpl. apply shaped_user_wp; [apply Hr|apply Hp; left|]. intros i d Hd Hn Hu. wp_simpl. unfold set_data. wp_simpl.
  assert (keeps t (w_vec (alter (w_nic true) i) t)) as Hk.
  { apply keeps_alter; try done. intros d' Hd'. exact (conj (ready_groups t i d' Hr Hd') (re_gpu t Hr i d' Hd')). }
  eapply wp_mono; [apply IH; [apply Hk|intros x Hx; apply Hp; by right]|]. intros rc t' [-> H']. split; [done|]. by eapply keeps_trans.
Qed.

Lemma mark_loop_wp n : forall i t, ready t -> (i + n = length (data_vec t))%nat -> wp (mark_loop n i) (fun rc t' => rc = 0 /\ keeps t t') t.
Proof using Hl.
  induction n as [|n IH]; intros i t Hr Hlen; cbn [mark_loop]; [wp_simpl; split; [done|by apply keeps_refl]|].
  destruct (lookup_lt_is_Some_2 (data_vec t) i ltac:(lia)) as [d Hd]. wp_simpl. eapply get_data_wp; [exact Hd|]. case_bool_decide; [apply IH; [done|lia]|].
  destruct (sh_back _ (re_shape _ Hr) i d Hd) as (o & Ho & Hu). rewrite Ho. assert (is_Some (t_userdata t !! o)) as Hs by (by exists (UData i)). wp_simpl. apply shaped_path_wp; [apply Hr|done|].
  wp_simpl. eapply wp_mono; [apply mark_walk_wp; [done|intros x Hx; by apply (sh_up _ (re_shape _ Hr) o)]|]. intros rc t1 [-> Hk]. cbn [Z.eqb negb].
  eapply wp_mono; [apply IH; [apply Hk|rewrite (keeps_length t t1) by done; lia]|]. intros rc t2 [-> Hk2]. split; [done|]. by eapply keeps_trans.
Qed.

(** ** Counts *)

Lemma propagate_walk_wp g p : forall t,
  ready t -> g ∈ h_pcidevs hw -> dev_accel g = true -> (forall x, x ∈ p -> is_Some (t_userdata t !! x)) -> wp (propagate_walk g p) (fun rc t' => keeps t t') t.
Proof.
  induction p as [|o p IH]; intros t Hr Hg1 Hg2 Hp; cbn [propagate_walk]; [wp_simpl; by apply keeps_refl|].
  wp_simpl. apply shaped_user_wp; [apply Hr|apply Hp; left|]. intros i d Hd Hn Hu. wp_simpl. eapply get_data_wp; [exact Hd|]. destruct (is_nic_subtree d).
  - unfold set_data. wp_simpl. destruct (re_single _ Hr i d Hd) as [Hg _]. assert (keeps t (w_vec (alter (w_gpu (Some g) ∘ w_groups (num_groups d + 1)) i) t)) as Hk.
    { apply keeps_alter; try done. intros ? _. cbn. split; [lia|]. intros _. by exists g. }
    unfold w_vec in Hk |- *. cbn [t_userdata data_vec max_group_size t_fresh] in Hk |- *. by rewrite list_alter_alter_eq.
  - apply IH; [done|done|done|]. intros x Hx. apply Hp. by right.
Qed.

Lemma propagate_loop_wp devs : forall t,
  ready t -> (forall o, o ∈ devs -> o ∈ h_pcidevs hw) -> (forall o, o ∈ devs -> dev_accel o = true -> is_Some (t_userdata t !! o)) ->
  wp (propagate_loop devs) (fun rc t' => rc = 0 /\ keeps t t') t.
Proof using Hl.
  induction devs as [|o devs IH]; intros t Hr Hin Hacc; cbn [propagate_loop]; [wp_simpl; split; [done|by apply keeps_refl]|].
  assert (o ∈ h_pcidevs hw) as Ho by (apply Hin; left). destruct (ho_devs _ (hl_ok _ Hl) o Ho) as (ob & a & Hob & Hty & Ha). wp_simpl. unfold get_obj. eapply wp_of_option; [exact Hob|].
  assert (is_accelerator_dev ob = (0, dev_accel o)) as ->.
  { unfold dev_accel. rewrite Hob. unfold is_accelerator_dev. by rewrite Hty, Ha, bool_decide_true. }
  cbn [Z.eqb negb]. assert (wp (if dev_accel o then propoagate_accel_count o ;;; ret tt else ret tt) (fun _ t' => keeps t t') t) as Hstep.
  { destruct (dev_accel o) eqn:Hac; [|wp_simpl; by apply keeps_refl]. assert (is_Some (t_userdata t !! o)) as Hs by (apply Hacc; [left|done]).
    wp_simpl. unfold propoagate_accel_count. wp_simpl. apply shaped_user_wp; [apply Hr|done|]. intros i d Hd Hn Hu. wp_simpl. eapply get_data_wp; [exact Hd|].
    destruct (contributed_gpu d); [wp_simpl; by apply keeps_refl|]. unfold set_data. wp_simpl. assert (keeps t (w_vec (alter (w_contributed true) i) t)) as Hk.
    { apply keeps_alter; try done. intros d' Hd'. exact (conj (ready_groups t i d' Hr Hd') (re_gpu t Hr i d' Hd')). }
    apply shaped_path_wp; [apply Hk|done|]. eapply wp_mono; [apply propagate_walk_wp; [apply Hk|done|done|intros x Hx; by apply (sh_up _ (re_shape _ Hr) o)]|].
    intros rc t1 Hk1. wp_simpl. by eapply keeps_trans. }
  wp_simpl. eapply wp_mono; [exact Hstep|]. intros [] t1 Hk. eapply wp_mono; [apply IH; [apply Hk|intros x Hx; apply Hin; by right|]|].
  - intros x Hx Hac. rewrite (proj1 (proj2 Hk)). apply Hacc; [by right|done].
  - intros rc t2 [-> Hk2]. split; [done|]. by eapply keeps_trans.
Qed.
End Shape.

(** ** All NICs *)

Definition total (t : nccl_ofi_topo_t) : list nic := data_vec t ≫= info_list.

Lemma bind_alter (v : list nccl_ofi_topo_data_t) f i d :
  v !! i = Some d -> (alter f i v ≫= info_list) ++ info_list d ≡ₚ (v ≫= info_list) ++ info_list (f d).
Proof.
  revert i. induction v as [|x v IH]; intros [|i] Hd; try done.
  - injection Hd as ->. cbn. rewrite <- !app_assoc. rewrite (Permutation_app_comm (mbind info_list v) (info_list (f d))). rewrite (app_assoc (info_list d)), (Permutation_app_comm (info_list d)), <- app_assoc.
    by rewrite (Permutation_app_comm (info_list d)).
  - cbn. rewrite <- !app_assoc. by rewrite IH.
Qed.

Lemma total_in t n : n ∈ total t <-> exists i d, data_vec t !! i = Some d /\ n ∈ info_list d.
Proof.
  unfold total. rewrite list_elem_of_bind. split.
  - intros (d & Hn & Hd). apply list_elem_of_lookup in Hd as [i Hi]. by exists i, d.
  - intros (i & d & Hd & Hn). exists d. split; [done|]. by eapply list_elem_of_lookup_2.
Qed.

Lemma nodup_fmap_inj {A B} (f : A -> B) l x y : NoDup (f <$> l) -> x ∈ l -> y ∈ l -> f x = f y -> x = y.
Proof.
  induction l as [|z l IH]; intros Hnd Hx Hy Hf; [by apply not_elem_of_nil in Hx|]. cbn in Hnd. apply NoDup_cons in Hnd as [Hz Hnd].
  apply elem_of_cons in Hx as [->|Hx]; apply elem_of_cons in Hy as [->|Hy]; [done| | |by apply IH].
  - exfalso. apply Hz. rewrite Hf. by apply list_elem_of_fmap_2.
  - exfalso. apply Hz. rewrite <- Hf. by apply list_elem_of_fmap_2.
Qed.

Section Lift.
Context {E : TopoEnv} (Hl : hwloc_leaves hw).

(** The NICs of a topology that is ready are of different objects. *)
Lemma ready_nodup t : ready t -> NoDup (n_pci <$> total t).
Proof using Hl.
  intros [Hs Hr _]. unfold total.
  assert (forall i j d d' n n', data_vec t !! i = Some d -> data_vec t !! j = Some d' -> n ∈ info_list d -> n' ∈ info_list d' -> n_pci n = n_pci n' -> i = j) as Hinj.
  { intros i j d d' n n' Hi Hj Hn Hn' Heq. destruct (Hr i d Hi) as [_ [[Hd _]|(m & o & Hd & _ & _ & (b & Hb & Ho) & Hnode)]]; [rewrite Hd in Hn; by apply not_elem_of_nil in Hn|].
    destruct (Hr j d' Hj) as [_ [[Hd' _]|(m' & o' & Hd' & _ & _ & (b' & Hb' & Ho') & Hnode')]]; [rewrite Hd' in Hn'; by apply not_elem_of_nil in Hn'|].
    rewrite Hd in Hn. rewrite Hd' in Hn'. apply list_elem_of_singleton in Hn as ->. apply list_elem_of_singleton in Hn' as ->. rewrite Hb, Hb' in Heq. injection Heq as ->. rewrite Ho in Ho'. injection Ho' as ->.
    by eapply shaped_index. }
  assert (forall d, d ∈ data_vec t -> NoDup (n_pci <$> info_list d)) as Hone.
  { intros d [i Hi]%list_elem_of_lookup. destruct (Hr i d Hi) as [_ [[-> _]|(m & o & -> & _)]]; [constructor|apply NoDup_singleton]. }
  clear Hs Hr. revert Hinj Hone. generalize (data_vec t) as v. induction v as [|d v IH]; intros Hinj Hone; [constructor|]. cbn. rewrite fmap_app. apply NoDup_app. split_and!.
  - apply Hone. left.
  - intros x Hx Hx'. apply list_elem_of_fmap in Hx as (n & -> & Hn). apply list_elem_of_fmap in Hx' as (n' & Heq & Hn'). apply list_elem_of_bind in Hn' as (d' & Hn' & Hd'). apply list_elem_of_lookup in Hd' as [j Hj].
    by specialize (Hinj 0%nat (S j) d d' n n' eq_refl Hj Hn Hn' Heq).
  - apply IH; [|intros d' Hd'; apply Hone; by right]. intros i j d1 d2 n n' Hi Hj Hn Hn' Heq. by injection (Hinj (S i) (S j) d1 d2 n n' Hi Hj Hn Hn' Heq).
Qed.

(** The count of an object, and the object to which a NIC moves: the first one
    towards the root with a count, or its own. *)
Definition groups_at (t : nccl_ofi_topo_t) (o : Z) : Z :=
  match t_userdata t !! o with Some (UData i) => match data_vec t !! i with Some d => num_groups d | None => 0 end | _ => 0 end.
Definition home (t : nccl_ofi_topo_t) (o : Z) : Z := default o (head (filter (fun x => 0 < groups_at t x) (path o))).

Lemma groups_at_data t i d o : shaped t -> data_vec t !! i = Some d -> td_node d = Some o -> groups_at t o = num_groups d.
Proof. intros Hs Hd Ho. destruct (sh_back _ Hs i d Hd) as (x & Hx & Hu). rewrite Ho in Hx. injection Hx as <-. unfold groups_at. by rewrite Hu, Hd. Qed.

Lemma path_self o : is_Some (h_objs hw !! o) -> exists q, path o = o :: q.
Proof using Hl. intros Ho. by eapply root_path_head, (path_some (hl_ok _ Hl)). Qed.

Lemma home_self t o : is_Some (h_objs hw !! o) -> 0 < groups_at t o -> home t o = o.
Proof using Hl. intros Ho Hg. unfold home. destruct (path_self o Ho) as [q ->]. rewrite filter_cons_True by done. done. Qed.

(** The state of the third phase after the first [k] elements of the vector, from
    the state [t0]. *)
Record lifted (t0 : nccl_ofi_topo_t) (k : nat) (t : nccl_ofi_topo_t) : Prop := {
  li_shape : shaped t;
  li_user : t_userdata t = t_userdata t0;
  li_max : max_group_size t = max_group_size t0;
  li_total : total t ≡ₚ total t0;
  li_len i d : data_vec t !! i = Some d -> info_list_len d = Z.of_nat (length (info_list d)) /\ 0 <= num_groups d;
  li_ptr n : n ∈ total t -> n_ptr n <> NULL;
  li_member i d n : data_vec t !! i = Some d -> n ∈ info_list d -> exists o, nic_at n o /\ td_node d = Some (if decide (0 < num_groups d) then home t0 o else o);
  li_own i d n o : data_vec t !! i = Some d -> 0 < num_groups d -> n ∈ total t -> nic_at n o -> td_node d = Some o -> n ∈ info_list d;
  li_groups i d o : data_vec t !! i = Some d -> td_node d = Some o -> o ∉ h_pcidevs hw -> num_groups d = groups_at t0 o;
  li_count i d o : data_vec t !! i = Some d -> td_node d = Some o -> num_groups d = groups_at t0 o \/ num_groups d = 1 /\ home t0 o = o /\ groups_at t0 o = 0;
  li_done i d : (i < k)%nat -> data_vec t !! i = Some d -> info_list d <> [] -> 0 < num_groups d;
  li_todo i d o : (k <= i)%nat -> data_vec t !! i = Some d -> td_node d = Some o -> num_groups d = groups_at t0 o /\ (num_groups d = 0 -> single d);
  li_length : length (data_vec t) = length (data_vec t0);
  li_gpu i d o : data_vec t !! i = Some d -> td_node d = Some o -> if decide (0 < groups_at t0 o) then is_gpu (gpu_group_node d) else (length (info_list d) <= 1)%nat;
}.

Lemma lifted_start t0 : ready t0 -> lifted t0 0 t0.
Proof using Hl.
  intros Hr. pose proof (re_shape _ Hr) as Hs. pose proof (ready_nodup t0 Hr) as Hnd. constructor; try done.
  - intros i d Hd. destruct (re_single _ Hr i d Hd) as [Hg [[-> ->]|(n & o & -> & -> & _)]]; done.
  - intros n (i & d & Hd & Hn)%total_in. destruct (re_single _ Hr i d Hd) as [Hg [[He _]|(m & o & He & _ & Hp & _)]]; rewrite He in Hn; [by apply not_elem_of_nil in Hn|]. by apply list_elem_of_singleton in Hn as ->.
  - intros i d n Hd Hn. destruct (re_single _ Hr i d Hd) as [Hg [[He _]|(m & o & He & _ & _ & Hat & Hnode)]]; rewrite He in Hn; [by apply not_elem_of_nil in Hn|]. apply list_elem_of_singleton in Hn as ->.
    exists o. split; [done|]. rewrite Hnode. case_decide as Hpos; [|done]. f_equal. symmetry. apply home_self; [|by rewrite (groups_at_data t0 i d)].
    destruct (nic_at_obj Hl _ _ Hat) as (_ & ob & a & Hob & _). by exists ob.
  - intros i d n o Hd Hpos (j & d' & Hd' & Hn)%total_in Hat Hnode. destruct (re_single _ Hr j d' Hd') as [_ [[He _]|(m & o' & He & _ & _ & Hat' & Hnode')]]; rewrite He in Hn; [by apply not_elem_of_nil in Hn|].
    apply list_elem_of_singleton in Hn as ->. destruct Hat as (b & Hb & Ho). destruct Hat' as (b' & Hb' & Ho'). rewrite Hb in Hb'. injection Hb' as <-. rewrite Ho in Ho'. injection Ho' as <-.
    rewrite (shaped_index t0 i j d d' o) in Hd by done. rewrite Hd in Hd'. injection Hd' as <-. rewrite He. left.
  - intros i d o Hd Ho _. symmetry. by apply (groups_at_data t0 i).
  - intros i d o Hd Ho. left. symmetry. by apply (groups_at_data t0 i).
  - intros i d Hi. lia.
  - intros i d o _ Hd Ho. split; [symmetry; by apply (groups_at_data t0 i)|]. intros _. by apply (re_single _ Hr i).
  - intros i d o Hd Ho. rewrite (groups_at_data t0 i d o Hs Hd Ho). case_decide; [by apply (re_gpu _ Hr i)|]. destruct (re_single _ Hr i d Hd) as [_ [[-> _]|(n & o' & -> & _)]]; cbn; lia.
Qed.

(** Nothing changes for an element that is empty or has a count. *)
Lemma lifted_skip t0 k t d : lifted t0 k t -> data_vec t !! k = Some d -> (info_list d <> [] -> 0 < num_groups d) -> lifted t0 (S k) t.
Proof.
  intros [? ? ? ? ? ? ? ? ? ? Hdone Htodo ? ?] Hd Hpos. constructor; try done.
  - intros i d' Hi Hd' Hne. destruct (decide (i = k)) as [->|]; [rewrite Hd in Hd'; injection Hd' as <-; by apply Hpos|]. apply (Hdone i); [lia|done|done].
  - intros i d' o Hi Hd' Ho. apply (Htodo i); [lia|done|done].
Qed.

(** The NIC moves to element [j]. *)
Lemma lifted_move t0 k t d n o j dj :
  lifted t0 k t -> data_vec t !! k = Some d -> num_groups d = 0 -> info_list d = [n] -> nic_at n o -> td_node d = Some o ->
  data_vec t !! j = Some dj -> 0 < num_groups dj -> td_node dj = Some (home t0 o) -> 0 < groups_at t0 (home t0 o) ->
  lifted t0 (S k) (w_vec (alter (w_list [] 0) k) (w_vec (alter (fun d' => w_list (info_list d ++ info_list d') (info_list_len d' + info_list_len d) d') j) t)).
Proof using Hl.
  intros [Hs Hu Hm Ht Hlen Hptr Hmem Hown Hgr Hcnt Hdone Htodo Hlg Hgpu] Hd Hg Hlist Hat Ho Hj Hpos Hhome Hh0. assert (j <> k) as Hjk by (intros ->; rewrite Hd in Hj; injection Hj as <-; lia).
  set (f := fun d' => w_list (info_list d ++ info_list d') (info_list_len d' + info_list_len d) d').
  assert (forall i d', alter (w_list [] 0) k (alter f j (data_vec t)) !! i = Some d' ->
    (i = k /\ d' = w_list [] 0 d) \/ (i = j /\ d' = f dj) \/ (i <> k /\ i <> j /\ data_vec t !! i = Some d')) as Hcase.
  { intros i d' Hi. destruct (decide (i = k)) as [->|Hik].
    - left. split; [done|]. rewrite list_lookup_alter_eq, list_lookup_alter_ne, Hd in Hi by done. by injection Hi.
    - rewrite list_lookup_alter_ne in Hi by done. destruct (decide (i = j)) as [->|Hij]; [right; left; split; [done|]; rewrite list_lookup_alter_eq, Hj in Hi; by injection Hi|].
      rewrite list_lookup_alter_ne in Hi by done. by right; right. }
  assert (total (w_vec (alter (w_list [] 0) k) (w_vec (alter f j) t)) ≡ₚ total t) as Hperm.
  { unfold total. cbn. pose proof (bind_alter (data_vec t) f j dj Hj) as P1. pose proof (bind_alter (alter f j (data_vec t)) (w_list [] 0) k d) as P2.
    rewrite list_lookup_alter_ne in P2 by done. specialize (P2 Hd). cbn in P1, P2. rewrite app_nil_r in P2. rewrite <- P2, <- app_assoc in P1. by apply Permutation_app_inv_r in P1. }
  assert (n ∈ total t) as Hnt by (apply total_in; exists k, d; rewrite Hlist; split; [done|left]).
  constructor; try done.
  - apply shaped_alter; [|done]. by apply shaped_alter.
  - by rewrite Hperm.
  - intros i d' [(-> & ->)|[(-> & ->)|(_ & _ & Hi)]]%Hcase; [split; [done|cbn; lia]| |by apply (Hlen i)]. destruct (Hlen j dj Hj) as [Hj1 Hj2]. destruct (Hlen k d Hd) as [Hk1 _].
    cbn. rewrite length_app, Hj1, Hk1. split; [lia|done].
  - intros m Hin. apply Hptr. by rewrite <- Hperm.
  - intros i d' m [(-> & ->)|[(-> & ->)|(_ & _ & Hi)]]%Hcase Hin; [by apply not_elem_of_nil in Hin| |by apply (Hmem i)]. cbn in Hin |- *. rewrite Hlist in Hin.
    apply elem_of_app in Hin as [->%list_elem_of_singleton|Hin]; [exists o; split; [done|by rewrite decide_True]|]. by apply (Hmem j dj).
  - intros i d' m o' [(-> & ->)|[(-> & ->)|(_ & _ & Hi)]]%Hcase Hp Hin Hm' Hn'; cbn in Hp, Hn' |- *; [lia| |apply (Hown i d' m o' Hi Hp); try done; by rewrite <- Hperm].
    apply elem_of_app. right. apply (Hown j dj m o'); try done. by rewrite <- Hperm.
  - intros i d' o' [(-> & ->)|[(-> & ->)|(_ & _ & Hi)]]%Hcase; [by apply (Hgr k d)|by apply (Hgr j dj)|by apply (Hgr i)].
  - intros i d' o' [(-> & ->)|[(-> & ->)|(_ & _ & Hi)]]%Hcase; [by apply (Hcnt k d)|by apply (Hcnt j dj)|by apply (Hcnt i)].
  - intros i d' Hik [(-> & ->)|[(-> & ->)|(? & _ & Hi)]]%Hcase Hne; [done|done|]. apply (Hdone i); [lia|done|done].
  - intros i d' o' Hik [(-> & ->)|[(-> & ->)|(? & _ & Hi)]]%Hcase; [lia| |intros Ho'; apply (Htodo i); [lia|done|done]]. intros Ho'. destruct (Htodo j dj o' ltac:(lia) Hj Ho') as [H1 _]. split; [done|]. cbn. lia.
  - cbn. by rewrite !length_alter.
  - intros i d' o' [(-> & ->)|[(-> & ->)|(_ & _ & Hi)]]%Hcase Ho'; [|specialize (Hgpu j dj o' Hj Ho')|by apply (Hgpu i)].
    + specialize (Hgpu k d o' Hd Ho'). case_decide; [done|cbn; lia].
    + cbn in Ho'. rewrite Hhome in Ho'. injection Ho' as <-. rewrite decide_True in Hgpu |- * by done. done.
Qed.

(** The NIC becomes a group of its own. *)
Lemma lifted_alone t0 k t d n o :
  NoDup (n_pci <$> total t0) -> lifted t0 k t -> data_vec t !! k = Some d -> num_groups d = 0 -> info_list d = [n] -> nic_at n o -> td_node d = Some o -> home t0 o = o ->
  lifted t0 (S k) (w_vec (alter (w_groups (info_list_len d)) k) t).
Proof using Hl.
  intros Hnd [Hs Hu Hm Ht Hlen Hptr Hmem Hown Hgr Hcnt Hdone Htodo Hlg Hgpu] Hd Hg Hlist Hat Ho Hhome. assert (info_list_len d = 1) as Hl1 by (destruct (Hlen k d Hd) as [-> _]; by rewrite Hlist). rewrite Hl1.
  assert (forall i d', alter (w_groups 1) k (data_vec t) !! i = Some d' -> (i = k /\ d' = w_groups 1 d) \/ (i <> k /\ data_vec t !! i = Some d')) as Hcase.
  { intros i d' Hi. destruct (decide (i = k)) as [->|Hik]; [left; split; [done|]; rewrite list_lookup_alter_eq, Hd in Hi; by injection Hi|]. right. rewrite list_lookup_alter_ne in Hi by done. done. }
  assert (total (w_vec (alter (w_groups 1) k) t) ≡ₚ total t) as Hperm.
  { unfold total. cbn. pose proof (bind_alter (data_vec t) (w_groups 1) k d Hd) as P1. cbn in P1. by apply Permutation_app_inv_r in P1. }
  assert (n ∈ total t) as Hnt by (apply total_in; exists k, d; rewrite Hlist; split; [done|left]).
  destruct (nic_at_obj Hl n o Hat) as [Hpci _]. assert (groups_at t0 o = 0) as Hg0 by (destruct (Htodo k d o (le_n _) Hd Ho) as [<- _]; done).
  constructor; try done.
  - by apply shaped_alter.
  - by rewrite Hperm.
  - intros i d' [(-> & ->)|(_ & Hi)]%Hcase; [|by apply (Hlen i)]. cbn. split; [by apply (Hlen k d Hd)|lia].
  - intros m Hin. apply Hptr. by rewrite <- Hperm.
  - intros i d' m [(-> & ->)|(_ & Hi)]%Hcase Hin; [|by apply (Hmem i)]. cbn in Hin |- *. rewrite Hlist in Hin. apply list_elem_of_singleton in Hin as ->. exists o. by rewrite Ho, Hhome.
  - intros i d' m o' [(-> & ->)|(_ & Hi)]%Hcase Hp Hin Hm' Hn'; cbn in Hn' |- *; [|apply (Hown i d' m o' Hi Hp); try done; by rewrite <- Hperm].
    rewrite Ho in Hn'. injection Hn' as <-. rewrite Hlist. apply list_elem_of_singleton. rewrite Hperm in Hin. rewrite <- Ht in Hnd.
    pose proof (nic_at_fun Hl m n o Hm' Hat) as Heq. by eapply (nodup_fmap_inj n_pci).
  - intros i d' o' [(-> & ->)|(_ & Hi)]%Hcase; [|by apply (Hgr i)]. cbn. intros Ho' Hno. exfalso. apply Hno. congruence.
  - intros i d' o' [(-> & ->)|(_ & Hi)]%Hcase; [|by apply (Hcnt i)]. cbn. intros Ho'. rewrite Ho in Ho'. injection Ho' as <-. by right.
  - intros i d' Hik [(-> & ->)|(? & Hi)]%Hcase Hne; [cbn; lia|]. apply (Hdone i); [lia|done|done].
  - intros i d' o' Hik [(-> & ->)|(? & Hi)]%Hcase; [lia|intros Ho'; apply (Htodo i); [lia|done|done]].
  - cbn. by rewrite !length_alter.
  - intros i d' o' [(-> & ->)|(_ & Hi)]%Hcase Ho'; [by apply (Hgpu k d)|by apply (Hgpu i)].
Qed.

Lemma lift_walk_wp t0 k t d n o p : forall p1,
  NoDup (n_pci <$> total t0) -> lifted t0 k t -> data_vec t !! k = Some d -> num_groups d = 0 -> info_list d = [n] -> nic_at n o -> td_node d = Some o ->
  path o = p1 ++ p -> p <> [] -> Forall (fun x => ~ 0 < groups_at t0 x) p1 ->
  wp (lift_walk k p) (fun rc t' => rc = 0 /\ lifted t0 (S k) t') t.
Proof using Hl.
  induction p as [|x p IH]; intros p1 Hnd HL Hd Hg Hlist Hat Ho Hp Hne Hp1; [done|]. cbn [lift_walk]. pose proof (li_shape _ _ _ HL) as Hs.
  destruct (nic_at_obj Hl n o Hat) as (Hpci & ob & a & Hob & _).
  assert (is_Some (t_userdata t !! o)) as Huo by (destruct (sh_back _ Hs k d Hd) as (y & Hy & Hu); rewrite Ho in Hy; injection Hy as <-; by exists (UData k)).
  assert (x ∈ path o) as Hx by (rewrite Hp; apply elem_of_app; right; left).
  wp_simpl. apply shaped_user_wp; [done|by apply (sh_up _ Hs o)|]. intros i di Hi Hni Hui. wp_simpl. eapply get_data_wp; [exact Hi|].
  assert (num_groups di = groups_at t0 x) as Hgx.
  { destruct (decide (x = o)) as [->|Hxo].
    - rewrite (shaped_index t i k di d o Hs Hi Hd Hni Ho) in Hi. rewrite Hd in Hi. injection Hi as <-. by apply (li_todo _ _ _ HL k).
    - apply (li_groups _ _ _ HL i di); [done|done|]. intros Hxp. apply Hxo. eapply (hl_leaf _ Hl); [exact Hpci|by apply (dev_path (hl_ok _ Hl))|done|done]. }
  assert (0 < groups_at t0 x -> home t0 o = x) as Hhome.
  { intros Hpos. unfold home. rewrite Hp, filter_app, (filter_none _ p1) by (by apply Forall_forall). rewrite app_nil_l, filter_cons_True by done. done. }
  destruct (Z.gtb_spec (num_groups di) 0) as [Hpos|Hpos].
  - wp_simpl. eapply get_data_wp; [exact Hd|]. unfold set_data. wp_simpl. split; [done|]. eapply (lifted_move t0 k t d n o i di); try done; rewrite Hhome by lia; [done|lia].
  - assert (Forall (fun y => ~ 0 < groups_at t0 y) (p1 ++ [x])) as Hp1' by (apply Forall_app; split; [done|]; apply Forall_singleton; lia).
    destruct p as [|y p].
    + wp_simpl. eapply get_data_wp; [exact Hd|]. unfold set_data. wp_simpl. split; [done|]. eapply (lifted_alone t0 k t d n o); try done. unfold home. rewrite Hp, filter_none by (by apply Forall_forall). done.
    + eapply (IH (p1 ++ [x])); try done. by rewrite <- app_assoc.
Qed.

Lemma lift_loop_wp t0 m : forall k t,
  NoDup (n_pci <$> total t0) -> lifted t0 k t -> (k + m = length (data_vec t0))%nat ->
  wp (lift_loop m k) (fun rc t' => rc = 0 /\ lifted t0 (length (data_vec t0)) t') t.
Proof using Hl.
  induction m as [|m IH]; intros k t Hnd HL Hk; cbn [lift_loop]; [wp_simpl; split; [done|]; by replace (length (data_vec t0)) with k by lia|].
  pose proof (li_shape _ _ _ HL) as Hs. destruct (lookup_lt_is_Some_2 (data_vec t) k) as [d Hd]; [rewrite (li_length _ _ _ HL); lia|]. wp_simpl. eapply get_data_wp; [exact Hd|].
  case_bool_decide as He; [apply IH; [done|by eapply lifted_skip|lia]|]. destruct (sh_back _ Hs k d Hd) as (o & Ho & Hu). rewrite Ho.
  assert (is_Some (t_userdata t !! o)) as Huo by (by exists (UData k)). wp_simpl. apply shaped_user_wp; [done|done|]. intros i di Hi Hni Hui. rewrite Hu in Hui. injection Hui as <-. rewrite Hd in Hi. injection Hi as <-.
  wp_simpl. eapply wp_of_option; [done|]. wp_simpl. eapply get_data_wp; [exact Hd|]. destruct (Z.gtb_spec (num_groups d) 0) as [Hpos|Hpos]; [apply IH; [done|eapply lifted_skip; [done|done|lia]|lia]|].
  assert (num_groups d = 0) as Hg by (destruct (li_len _ _ _ HL k d Hd); lia). destruct (li_todo _ _ _ HL k d o (le_n _) Hd Ho) as [_ Hsing]. destruct (Hsing Hg) as [_ [[? _]|(n & o' & Hlist & _ & _ & Hat & Ho')]]; [done|].
  rewrite Ho in Ho'. injection Ho' as <-. wp_simpl. apply (shaped_path_wp Hl); [done|done|]. wp_simpl. eapply wp_mono; [apply (lift_walk_wp t0 k t d n o (path o) []); try done|].
  - destruct (nic_at_obj Hl n o Hat) as (_ & ob & a & Hob & _). destruct (path_self o) as [q Hq]; [by exists ob|]. by rewrite Hq.
  - intros rc t' [-> HL']. cbn [Z.eqb negb]. apply IH; [done|done|lia].
Qed.
End Lift.

(** ** Groups *)

(** What platform_sort_rails may do: change the order, with copies. *)
Class SortOk `{TopoEnv} : Prop := {
  sort_perm l n g : n = Z.of_nat (length l) -> 0 < g -> n_pci <$> platform_sort_rails l n g ≡ₚ n_pci <$> l;
  sort_ptr l n g : n = Z.of_nat (length l) -> 0 < g -> Forall (fun x => n_ptr x <> NULL) l -> Forall (fun x => n_ptr x <> NULL) (platform_sort_rails l n g);
}.

Section Groups.
Context {E : TopoEnv} (Hl : hwloc_leaves hw) {SO : SortOk}.

(** All NICs of [l] are closest to the object [h]. *)
Definition all_home (t0 : nccl_ofi_topo_t) (l : list nic) (h : Z) : Prop := forall n o, n ∈ l -> nic_at n o -> home t0 o = h.

(** The fourth phase after the first [k] elements, while the list [R] is being split;
    [P] are the objects whose NICs have been split, into groups of [q] or [q + 1]. *)
Record grouping (t0 : nccl_ofi_topo_t) (k : nat) (R : list nic) (P : gset Z) (q : Z -> Z) (t : nccl_ofi_topo_t) : Prop := {
  gg_shape : shaped t;
  gg_user : t_userdata t = t_userdata t0;
  gg_length : length (data_vec t) = length (data_vec t0);
  gg_total : n_pci <$> (total t ++ R) ≡ₚ n_pci <$> total t0;
  gg_ptr n : n ∈ total t ++ R -> n_ptr n <> NULL;
  gg_nic n : n ∈ total t ++ R -> exists o, nic_at n o /\ is_Some (t_userdata t0 !! o);
  gg_len i d : data_vec t !! i = Some d -> info_list_len d = Z.of_nat (length (info_list d)) /\ 0 <= num_groups d;
  gg_wait i d : data_vec t !! i = Some d -> 0 < num_groups d -> info_list d <> [] ->
    (k <= i)%nat /\ exists x, td_node d = Some x /\ (x ∉ P) /\ all_home t0 (info_list d) x;
  gg_own i d n o : data_vec t !! i = Some d -> 0 < num_groups d -> n ∈ total t ++ R -> nic_at n o -> td_node d = Some o -> n_pci n ∈ n_pci <$> info_list d;
  gg_group i d : data_vec t !! i = Some d -> num_groups d = 0 -> info_list d <> [] ->
    exists y l o h, info_list d = y :: l /\ td_node d = Some o /\ nic_at y o /\ h ∈ P /\ all_home t0 (info_list d) h /\ q h <= info_list_len d <= q h + 1 /\ info_list_len d <= max_group_size t;
  gg_gpu i d : data_vec t !! i = Some d -> (1 < length (info_list d))%nat -> is_gpu (gpu_group_node d);
  gg_max : max_group_size t = max_group_size t0 \/ exists i d, data_vec t !! i = Some d /\ num_groups d = 0 /\ info_list d <> [] /\ info_list_len d = max_group_size t;
}.

Lemma grouping_start t0 t : ready t0 -> lifted t0 (length (data_vec t0)) t -> grouping t0 0 [] ∅ (fun _ => 0) t.
Proof using Hl SO.
  intros Hr [Hs Hu Hm Ht Hlen Hptr Hmem Hown Hgr Hcnt Hdone Htodo Hlg Hgpu]. constructor; try done.
  - by rewrite app_nil_r, Ht.
  - intros n. rewrite app_nil_r. apply Hptr.
  - intros n. rewrite app_nil_r, Ht. intros (i & d & Hd & Hn)%total_in. destruct (re_single _ Hr i d Hd) as [_ [[He _]|(m & o & He & _ & _ & Hat & Ho)]]; rewrite He in Hn; [by apply not_elem_of_nil in Hn|].
    apply list_elem_of_singleton in Hn as ->. exists o. split; [done|]. destruct (sh_back _ (re_shape _ Hr) i d Hd) as (x & Hx & Hux). rewrite Ho in Hx. injection Hx as <-. by exists (UData i).
  - intros i d Hd Hpos Hne. split; [lia|]. destruct (sh_back _ Hs i d Hd) as (x & Hx & _). exists x. split_and!; [done|set_solver|]. intros n o Hn Hat.
    destruct (Hmem i d n Hd Hn) as (o' & (b' & Hb' & Ho') & Hnode). destruct Hat as (b & Hb & Ho). rewrite Hb in Hb'. injection Hb' as <-. rewrite Ho in Ho'. injection Ho' as <-.
    rewrite decide_True in Hnode by done. congruence.
  - intros i d n o Hd Hpos Hn Hat Ho. rewrite app_nil_r in Hn. apply list_elem_of_fmap_2. by apply (Hown i d n o).
  - intros i d Hd Hz Hne. assert (0 < num_groups d); [|lia]. apply (Hdone i); [|done|done]. rewrite <- Hlg. by eapply lookup_lt_Some.
  - intros i d Hd Hlt. destruct (sh_back _ Hs i d Hd) as (o & Ho & _). specialize (Hgpu i d o Hd Ho). case_decide; [done|lia].
  - by left.
Qed.

(** The list of element [k] is taken out and sorted. *)
Lemma grouping_take t0 k P q t d n g :
  NoDup (n_pci <$> total t0) -> grouping t0 k [] P q t -> data_vec t !! k = Some d -> 0 < num_groups d -> info_list d <> [] -> n = info_list_len d -> 0 < g ->
  exists x, (x ∉ P) /\ all_home t0 (platform_sort_rails (info_list d) n g) x /\
    forall s, grouping t0 (S k) (platform_sort_rails (info_list d) n g) (P ∪ {[x]}) (fun h => if decide (h = x) then s else q h)
      (w_vec (alter (w_groups 0) k) (w_vec (alter (w_list [] 0) k) t)).
Proof using Hl SO.
  intros Hnd [Hs Hu Hlg Ht Hptr Hnic Hlen Hwait Hown Hgrp Hgpu Hmax] Hd Hpos Hne Hn Hg. assert (n = Z.of_nat (length (info_list d))) as Hlk by (rewrite Hn; by apply (Hlen k)). destruct (Hwait k d Hd Hpos Hne) as (_ & x & Hx & HxP & Hhome). set (R := platform_sort_rails (info_list d) n g).
  pose proof (sort_perm (info_list d) n g Hlk Hg) as Hperm. fold R in Hperm. rewrite app_nil_r in Ht.
  assert (forall y, y ∈ R -> exists y', y' ∈ info_list d /\ n_pci y' = n_pci y) as HR.
  { intros y Hy. apply (list_elem_of_fmap_2 n_pci) in Hy. rewrite Hperm in Hy. apply list_elem_of_fmap in Hy as (y' & Heq & Hy'). by exists y'. }
  exists x. split_and!; [done| |].
  { intros y o Hy (b & Hb & Ho). destruct (HR y Hy) as (y' & Hy' & Heq). apply (Hhome y' o Hy'). exists b. by rewrite Heq. }
  intros s. set (t1 := w_vec (alter (w_groups 0) k) (w_vec (alter (w_list [] 0) k) t)).
  assert (forall i d', data_vec t1 !! i = Some d' -> (i = k /\ d' = w_groups 0 (w_list [] 0 d)) \/ (i <> k /\ data_vec t !! i = Some d')) as Hcase.
  { intros i d' Hi. cbn in Hi. destruct (decide (i = k)) as [->|Hik].
    - left. rewrite !list_lookup_alter_eq, Hd in Hi. by injection Hi.
    - right. rewrite !list_lookup_alter_ne in Hi by done. done. }
  assert (total t1 ++ info_list d ≡ₚ total t) as Hp1.
  { unfold total, t1. cbn. pose proof (bind_alter (data_vec t) (w_list [] 0) k d Hd) as P1. pose proof (bind_alter (alter (w_list [] 0) k (data_vec t)) (w_groups 0) k (w_list [] 0 d)) as P2.
    rewrite list_lookup_alter_eq, Hd in P2. specialize (P2 eq_refl). cbn in P1, P2. rewrite !app_nil_r in P2. by rewrite P2, P1, app_nil_r. }
  assert (forall y, y ∈ total t1 ++ R -> exists y', y' ∈ total t /\ n_pci y' = n_pci y) as Hback.
  { intros y [Hy|Hy]%elem_of_app; [exists y; split; [|done]; rewrite <- Hp1; apply elem_of_app; by left|]. destruct (HR y Hy) as (y' & Hy' & Heq). exists y'. split; [|done]. rewrite <- Hp1. apply elem_of_app. by right. }
  constructor; try done.
  - unfold t1. apply shaped_alter; [|done]. by apply shaped_alter.
  - unfold t1. cbn. by rewrite !length_alter.
  - rewrite fmap_app, Hperm, <- fmap_app, Hp1. done.
  - intros y [Hy|Hy]%elem_of_app.
    + apply Hptr. rewrite app_nil_r, <- Hp1. apply elem_of_app. by left.
    + assert (Forall (fun z => n_ptr z <> NULL) R) as HF; [|by rewrite Forall_forall in HF; apply HF]. apply sort_ptr, Forall_forall; [done..|]. intros z Hz. apply Hptr. rewrite app_nil_r, <- Hp1. apply elem_of_app. by right.
  - intros y Hy. destruct (Hback y Hy) as (y' & Hy' & Heq). destruct (Hnic y') as (o & (b & Hb & Ho) & Hs'); [by rewrite app_nil_r|]. exists o. split; [|done]. exists b. by rewrite <- Heq.
  - intros i d' [(-> & ->)|(_ & Hi)]%Hcase; [cbn; lia|by apply (Hlen i)].
  - intros i d' [(-> & ->)|(Hik & Hi)]%Hcase Hp Hn'; [cbn in Hp; lia|]. destruct (Hwait i d' Hi Hp Hn') as (Hle & z & Hz & HzP & Hzh). split; [lia|]. exists z. split_and!; try done.
    rewrite elem_of_union, elem_of_singleton. intros [?| ->]; [done|]. apply Hik. by eapply shaped_index.
  - intros i d' y o [(-> & ->)|(Hik & Hi)]%Hcase Hp Hy (b & Hb & Ho) Hnode; [cbn in Hp; lia|]. destruct (Hback y Hy) as (y' & Hy' & Heq). rewrite <- Heq. apply (Hown i d' y' o Hi Hp); [by rewrite app_nil_r| |done]. exists b. by rewrite Heq.
  - intros i d' [(-> & ->)|(Hik & Hi)]%Hcase Hz Hn'; [done|]. destruct (Hgrp i d' Hi Hz Hn') as (y & l & o & h & H1 & H2 & H3 & H4 & H5 & H6 & H7). exists y, l, o, h. split_and!; try done; [set_solver| |];
      (rewrite decide_False; [tauto|by intros ->]).
  - intros i d' [(-> & ->)|(Hik & Hi)]%Hcase Hlt; [cbn in Hlt; lia|by apply (Hgpu i)].
  - destruct Hmax as [Hmax|(i & d' & Hi & Hz & Hn' & Hle)]; [by left|]. right. exists i, d'. split_and!; try done. unfold t1. cbn. assert (i <> k) by (intros ->; rewrite Hd in Hi; injection Hi as <-; lia). by rewrite !list_lookup_alter_ne.
Qed.

(** The object of the next leader has neither a list nor a count. *)
Lemma leader_free t0 k y R P q t i d o :
  NoDup (n_pci <$> total t0) -> grouping t0 k (y :: R) P q t -> nic_at y o -> data_vec t !! i = Some d -> td_node d = Some o ->
  info_list d = [] /\ num_groups d = 0.
Proof using Hl SO.
  intros Hnd [Hs Hu Hlg Ht Hptr Hnic Hlen Hwait Hown Hgrp Hgpu Hmax] Hat Hd Ho. rewrite <- Ht, fmap_app in Hnd. apply NoDup_app in Hnd as (_ & Hdis & _).
  assert (forall z, z ∈ info_list d -> n_pci z <> n_pci y) as Hno.
  { intros z Hz Heq. apply (Hdis (n_pci z)); [apply list_elem_of_fmap_2, total_in; by exists i, d|]. rewrite Heq. left. }
  destruct (Hlen i d Hd) as [_ Hg]. destruct (decide (0 < num_groups d)) as [Hpos|Hpos].
  - exfalso. assert (n_pci y ∈ n_pci <$> info_list d) as Hin; [|apply list_elem_of_fmap in Hin as (z & Heq & Hz); by apply (Hno z)]. apply (Hown i d y o); try done. apply elem_of_app. right. left.
  - split; [|lia]. destruct (decide (info_list d = [])) as [|Hne]; [done|]. exfalso. destruct (Hgrp i d Hd) as (z & l & o' & h & Hz & Ho' & Hat' & _); [lia|done|].
    rewrite Ho in Ho'. injection Ho' as <-. apply (Hno z); [rewrite Hz; left|]. by apply (nic_at_fun Hl z y o).
Qed.

(** One group is stored at its leader. *)
Lemma grouping_place t0 k y R P q t i d o x s gpu :
  NoDup (n_pci <$> total t0) -> grouping t0 k (y :: R) P q t -> nic_at y o -> data_vec t !! i = Some d -> td_node d = Some o ->
  x ∈ P -> all_home t0 (y :: R) x -> q x <= Z.of_nat s <= q x + 1 -> (0 < s <= length (y :: R))%nat -> ((1 < length (y :: R))%nat -> is_gpu gpu) ->
  grouping t0 k (drop s (y :: R)) P q (w_max (fun m => Z.max m (Z.of_nat s)) (w_vec (alter (fun d => w_gpu gpu (w_list (take s (y :: R)) (Z.of_nat s) d)) i) t)).
Proof using Hl SO.
  intros Hnd HG Hat Hd Ho HxP Hhome Hq Hsz Hgp. destruct (leader_free t0 k y R P q t i d o Hnd HG Hat Hd Ho) as [Hempty Hz0].
  destruct HG as [Hs Hu Hlg Ht Hptr Hnic Hlen Hwait Hown Hgrp Hgpu Hmax].
  set (f := fun d => w_gpu gpu (w_list (take s (y :: R)) (Z.of_nat s) d)). set (t1 := w_max _ _).
  assert (forall j d', data_vec t1 !! j = Some d' -> (j = i /\ d' = f d) \/ (j <> i /\ data_vec t !! j = Some d')) as Hcase.
  { intros j d' Hj. cbn in Hj. destruct (decide (j = i)) as [->|Hne]; [left; rewrite list_lookup_alter_eq, Hd in Hj; by injection Hj|]. right. by rewrite list_lookup_alter_ne in Hj. }
  assert (total t1 ++ drop s (y :: R) ≡ₚ total t ++ (y :: R)) as Hp.
  { pose proof (bind_alter (data_vec t) f i d Hd) as P1. rewrite Hempty, app_nil_r in P1. unfold total. cbn [t1 w_max w_vec data_vec]. rewrite P1, <- app_assoc. cbn. by rewrite take_drop. }
  assert (forall n, n ∈ total t1 ++ drop s (y :: R) -> n ∈ total t ++ (y :: R)) as Hin by (intros n; by rewrite Hp).
  assert (length (take s (y :: R)) = s) as Hls by (rewrite length_take; lia).
  constructor; try done.
  - apply shaped_max, shaped_alter; done.
  - cbn. by rewrite length_alter.
  - by rewrite Hp.
  - intros n Hn. by apply Hptr, Hin.
  - intros n Hn. by apply Hnic, Hin.
  - intros j d' [(-> & ->)|(_ & Hj)]%Hcase; [|by apply (Hlen j)]. cbn [f w_gpu w_list info_list info_list_len num_groups]. rewrite Hls. lia.
  - intros j d' [(-> & ->)|(_ & Hj)]%Hcase Hpos; [cbn in Hpos; lia|by apply (Hwait j)].
  - intros j d' n o' [(-> & ->)|(_ & Hj)]%Hcase Hpos Hn; [cbn in Hpos; lia|]. apply (Hown j d'); [done|done|by apply Hin].
  - intros j d' [(-> & ->)|(_ & Hj)]%Hcase Hz Hne.
    + exists y, (take (s - 1) R), o, x. cbn [f w_gpu w_list info_list info_list_len num_groups td_node t1 w_max max_group_size]. split_and!; try done; try lia.
      * destruct s; [lia|]. cbn. by rewrite Nat.sub_0_r.
      * intros n o' Hn. apply Hhome. by eapply (subseteq_take).
    + destruct (Hgrp j d' Hj Hz Hne) as (y' & l & o' & h & H1 & H2 & H3 & H4 & H5 & H6 & H7). exists y', l, o', h. split_and!; try done; try lia. cbn. lia.
  - intros j d' [(-> & ->)|(_ & Hj)]%Hcase Hlt; [|by apply (Hgpu j)]. cbn [f w_gpu w_list info_list gpu_group_node] in Hlt |- *. rewrite Hls in Hlt. apply Hgp. lia.
  - destruct (decide (max_group_size t1 = max_group_size t)) as [He|Hne].
    + destruct Hmax as [Hmax|(j & d' & Hj & Hz & Hn & Hle)]; [left; congruence|]. right. exists j, d'. split_and!; try done; [|congruence]. cbn.
      destruct (decide (j = i)) as [->|]; [rewrite Hd in Hj; injection Hj as <-; done|]. by rewrite list_lookup_alter_ne.
    + right. exists i, (f d). cbn in Hne |- *. rewrite list_lookup_alter_eq, Hd. split_and!; try done; [|lia]. intros He. apply (f_equal length) in He. rewrite Hls in He. cbn in He. lia.
Qed.

Lemma group_loop_wp t0 k P q x G L gpu n : forall idx s R t,
  NoDup (n_pci <$> total t0) -> grouping t0 k R P q t -> x ∈ P -> all_home t0 R x -> 1 <= q x -> 0 <= L < G -> 0 <= idx -> idx + Z.of_nat n = G ->
  s = (if decide (idx <= L) then q x + 1 else q x) -> ((1 < length R)%nat -> is_gpu gpu) -> Z.of_nat (length R) = Z.of_nat n * q x + Z.max 0 (L - idx) ->
  wp (group_loop n idx G L s gpu R) (fun r t' => r = (0, []) /\ grouping t0 k [] P q t') t.
Proof using Hl SO.
  induction n as [|n IH]; intros idx s R t Hnd HG HxP Hh Hq HL Hidx HGn Hs Hgp Hlen; cbn [group_loop].
  { assert (R = []) as -> by (destruct R; [done|cbn in Hlen; lia]). by wp_simpl. }
  set (gs := if idx =? L then s - 1 else s). assert (q x <= gs <= q x + 1 /\ (gs = q x + 1 <-> idx < L)) as [Hgs Hgs'].
  { unfold gs. destruct (Z.eqb_spec idx L); case_decide; lia. }
  clearbody gs. assert (exists m, gs = Z.of_nat m) as [m ->] by (exists (Z.to_nat gs); lia). rewrite Nat2Z.id.
  destruct (Z.eqb_spec (Z.of_nat m) 0) as [|_]; [lia|]. destruct R as [|y R]; [cbn in Hlen; lia|].
  destruct (gg_nic _ _ _ _ _ _ HG y) as (o & Hat & Huo); [apply elem_of_app; right; left|]. pose proof Hat as (b & Hb & Hbo). destruct (nic_at_obj Hl y o Hat) as (_ & ob & a & Hob & Hoa).
  wp_simpl. unfold get_hwloc_pcidev_by_fi_info. rewrite Hb, Hbo. wp_simpl. unfold get_obj. eapply wp_of_option; [exact Hob|]. rewrite Hoa. wp_simpl. cbn [Z.eqb negb]. wp_simpl.
  apply shaped_user_wp; [apply HG|by rewrite (gg_user _ _ _ _ _ _ HG)|]. intros i d Hd Ho Hui. wp_simpl. eapply get_data_wp; [exact Hd|].
  destruct (leader_free t0 k y R P q t i d o Hnd HG Hat Hd Ho) as [Hempty _]. rewrite Hempty. cbn [head_ptr].
  destruct (Z.eqb_spec NULL (n_ptr y)) as [He|_]; [exfalso; apply (gg_ptr _ _ _ _ _ _ HG y); [apply elem_of_app; right; left|done]|].
  assert (Z.of_nat (length (y :: R)) = (Z.of_nat n + 1) * q x + Z.max 0 (L - idx)) as Hlen' by lia.
  assert (Z.of_nat m <= Z.of_nat (length (y :: R))) as Hle by (rewrite Hlen'; nia).
  wp_simpl. apply wp_assert; [by apply bool_decide_true|]. unfold set_data. wp_simpl.
  eapply (IH (idx + 1)); try done; try lia.
  - eapply grouping_place; try done; lia.
  - intros z o' Hz. apply Hh. by eapply subseteq_drop.
  - clear Hs Hgp. destruct (decide (idx + 1 <= L)); destruct (decide (idx < L)); intuition lia.
  - rewrite length_drop. intros Hlt. apply Hgp. lia.
  - rewrite length_drop. rewrite Nat2Z.inj_sub by lia. rewrite Hlen'. destruct (decide (idx < L)); lia.
Qed.
End Groups.

Section Partition.
Context {E : TopoEnv} (Hl : hwloc_leaves hw) {SO : SortOk}.

Lemma grouping_skip t0 k P q t d : grouping t0 k [] P q t -> data_vec t !! k = Some d -> (info_list d = [] \/ num_groups d = 0) -> grouping t0 (S k) [] P q t.
Proof.
  intros [? ? ? ? ? ? ? Hwait ? ? ? ?] Hd Hskip. constructor; try done. intros i d' Hi Hpos Hne. destruct (Hwait i d' Hi Hpos Hne) as [Hle Hx]. split; [|done].
  assert (i <> k); [|lia]. intros ->. rewrite Hd in Hi. injection Hi as <-. destruct Hskip; [done|lia].
Qed.

Lemma create_loop_wp t0 n : forall k P q t,
  NoDup (n_pci <$> total t0) -> grouping t0 k [] P q t -> (k + n = length (data_vec t0))%nat ->
  wp (create_loop n k) (fun rc t' => rc = 0 /\ exists P' q', grouping t0 (length (data_vec t0)) [] P' q' t') t.
Proof using Hl SO.
  induction n as [|n IH]; intros k P q t Hnd HG Hk; cbn [create_loop].
  { wp_simpl. split; [done|]. exists P, q. by replace (length (data_vec t0)) with k by lia. }
  destruct (lookup_lt_is_Some_2 (data_vec t) k) as [d Hd]; [rewrite (gg_length _ _ _ _ _ _ HG); lia|]. wp_simpl. eapply get_data_wp; [exact Hd|].
  case_bool_decide as He; [eapply IH; [done|eapply grouping_skip; [done|done|by left]|lia]|].
  destruct (Z.eqb_spec (num_groups d) 0) as [Hz|Hz]; [eapply IH; [done|eapply grouping_skip; [done|done|by right]|lia]|].
  destruct (gg_len _ _ _ _ _ _ HG k d Hd) as [Hlen Hg]. assert (1 <= info_list_len d) as H1 by (destruct (info_list d); [done|cbn in Hlen; lia]).
  set (G := Z.min (num_groups d) (info_list_len d)). assert (0 < G <= info_list_len d) as HG0 by lia.
  destruct (grouping_take Hl t0 k P q t d (info_list_len d) (Z.quot (info_list_len d) G + 1) Hnd HG Hd) as (x & HxP & Hh & Htake); [lia|done|done|pose proof (Z.quot_pos (info_list_len d) G); lia|].
  specialize (Htake (info_list_len d / G)). unfold set_data. wp_simpl. unfold create_groups_from_info_list. fold G. rewrite Z.rem_mod_nonneg, Z.quot_div_nonneg in * by lia.
  assert (1 <= info_list_len d / G) as Hq1 by (apply Z.div_le_lower_bound; lia). pose proof (Z.mod_pos_bound (info_list_len d) G ltac:(lia)) as Hmod. pose proof (Z.div_mod (info_list_len d) G ltac:(lia)) as Hdm.
  eapply wp_mono; [apply (group_loop_wp Hl t0 (S k) (P ∪ {[x]}) (fun h => if decide (h = x) then info_list_len d / G else q h) x); [done|exact Htake|set_solver|done|by rewrite decide_True|done|lia|lia| | |]|].
  - rewrite !decide_True by (done || lia). done.
  - rewrite <- (length_fmap n_pci), (sort_perm (info_list d)), length_fmap by (done || lia). by apply (gg_gpu _ _ _ _ _ _ HG k).
  - rewrite decide_True by done. rewrite <- (length_fmap n_pci), (sort_perm (info_list d)), length_fmap by (done || lia). rewrite <- Hlen, Z2Nat.id, Z.sub_0_r by lia. lia.
  - intros r t' [-> HG']. cbn [Z.eqb negb]. eapply IH; [done|exact HG'|lia].
Qed.

(** What a topology looks like before grouping, with its GPUs counted. *)
Lemma topo_group_wp t :
  ready t -> (forall o, o ∈ h_pcidevs hw -> dev_accel o = true -> is_Some (t_userdata t !! o)) ->
  exists t2, keeps t t2 /\ (let* _ := mark_topo_nodes_with_ofi_info_subtree in propoagate_accel_group_counts) t = Some (0, t2) /\
    wp nccl_ofi_topo_group (fun rc t' => rc = 0 /\ exists P q, grouping t2 (length (data_vec t2)) [] P q t') t.
Proof using Hl SO.
  intros Hr Hacc. assert (wp mark_topo_nodes_with_ofi_info_subtree (fun rc t' => rc = 0 /\ keeps t t') t) as Hmark by (unfold mark_topo_nodes_with_ofi_info_subtree; wp_simpl; by apply (mark_loop_wp Hl)).
  apply wp_run in Hmark as (? & t1 & Hrun1 & -> & Hk1).
  assert (wp propoagate_accel_group_counts (fun rc t' => rc = 0 /\ keeps t1 t') t1) as Hprop.
  { apply (propagate_loop_wp Hl); [apply Hk1|done|]. intros o Ho Ha. rewrite (proj1 (proj2 Hk1)). by apply Hacc. }
  apply wp_run in Hprop as (? & t2 & Hrun2 & -> & Hk2). exists t2. split; [by eapply keeps_trans|]. unfold bind at 1. rewrite Hrun1, Hrun2. split; [done|].
  unfold nccl_ofi_topo_group. wp_simpl. unfold wp at 1. rewrite Hrun1. cbn [Z.eqb negb]. wp_simpl. unfold wp at 1. rewrite Hrun2. cbn [Z.eqb negb]. wp_simpl.
  pose proof (proj1 Hk2) as Hr2. pose proof (ready_nodup Hl t2 Hr2) as Hnd. unfold lift_up_ofi_infos. wp_simpl. eapply wp_mono; [apply (lift_loop_wp Hl t2 _ 0 t2 Hnd); [by apply (lifted_start Hl)|lia]|].
  intros rc t3 [-> HL]. cbn [Z.eqb negb]. unfold create_groups_from_info_lists. wp_simpl. eapply wp_mono; [eapply (create_loop_wp t2 _ 0 ∅ (fun _ => 0)); [done|by apply grouping_start|by rewrite (li_length _ _ _ HL)]|].
  done.
Qed.

(** ** From creation to groups *)

Section FromCreation.
Context (infos : list nic).

Lemma dev_nic_at o n : o ∈ h_pcidevs hw -> dev_info infos o = Some n -> nic_at n o.
Proof using Hl. intros Ho Hn. destruct (dev_info_pci (hl_ok _ Hl) infos o n Hn Ho) as (_ & b & Hb & Hf). by exists b. Qed.

(** The object of an element and its NIC. *)
Lemma node_data_single t i d o :
  node_data infos (h_pcidevs hw) o d -> data_vec t !! i = Some d ->
  td_node d = Some o /\ single d /\ (forall n, n ∈ info_list d -> exists m, o ∈ h_pcidevs hw /\ dev_info infos o = Some m /\ n_pci n = n_pci m) /\
  (forall m, o ∈ h_pcidevs hw -> dev_info infos o = Some m -> exists n, n ∈ info_list d /\ n_pci n = n_pci m).
Proof using Hl.
  intros Hd Hi. unfold node_data in Hd. destruct (dev_info infos o) as [m|] eqn:Hm; [destruct (decide (o ∈ h_pcidevs hw)) as [Ho|Ho]|].
  - destruct Hd as (a & Ha & ->). destruct (dev_nic_at o m Ho Hm) as (b & Hb & Hf). split_and!; [done| | |].
    + split; [done|]. right. exists (mk_nic a (n_pci m)), o. split_and!; try done. by exists b.
    + intros n ->%list_elem_of_singleton. by exists m.
    + intros m' _ [= <-]. exists (mk_nic a (n_pci m)). split; [left|done].
  - subst d. split_and!; [done|split; [done|by left]|by intros n ?%not_elem_of_nil|by intros m' ?].
  - subst d. split_and!; [done|split; [done|by left]|by intros n ?%not_elem_of_nil|by intros m' ? ?].
Qed.

Lemma decorated_ready t : decorated infos (reach infos (h_pcidevs hw)) (h_pcidevs hw) t -> ready t.
Proof using Hl.
  intros [Hu Hn Hb Hr Hlen Hf Hm]. assert (forall i d, data_vec t !! i = Some d -> exists o, o ∈ reach infos (h_pcidevs hw) /\ t_userdata t !! o = Some (UData i) /\ node_data infos (h_pcidevs hw) o d) as Hall.
  { intros i d Hd. assert (i < base.size (reach infos (h_pcidevs hw)))%nat as Hi by (rewrite <- Hlen; by eapply lookup_lt_Some). destruct (Hb i Hi) as (o & d' & Ho & Hd' & _ & Huo).
    exists o. split_and!; try done. destruct (Hu o Ho) as (j & d2 & Hj & _ & Hd2 & Hnd). congruence. }
  constructor; [constructor| |].
  - intros o x Hx. destruct (decide (o ∈ reach infos (h_pcidevs hw))) as [Ho|Ho]; [|rewrite Hn in Hx by done; done]. destruct (Hu o Ho) as (i & d & Hi & _ & Hd & Hnd). exists i, d. split_and!; try done; [congruence|].
    by destruct (node_data_single t i d o Hnd Hd).
  - intros i d Hd. destruct (Hall i d Hd) as (o & Ho & Hui & Hnd). exists o. split; [|done]. by destruct (node_data_single t i d o Hnd Hd).
  - intros o x [y Hy] Hx. destruct (decide (o ∈ reach infos (h_pcidevs hw))) as [Ho|Ho]; [|rewrite Hn in Hy by done; done].
    assert (x ∈ reach infos (h_pcidevs hw)) as Hxr by (eapply (reach_closed (hl_ok _ Hl) infos); done). destruct (Hu x Hxr) as (i & d & Hi & _). by exists (UData i).
  - intros o [y Hy]. destruct (decide (o ∈ reach infos (h_pcidevs hw))) as [Ho|Ho]; [|rewrite Hn in Hy by done; done]. by apply (reach_objs (hl_ok _ Hl) infos (h_pcidevs hw)).
  - intros i d Hd. destruct (Hall i d Hd) as (o & Ho & Hui & Hnd). by destruct (node_data_single t i d o Hnd Hd) as (_ & ? & _).
  - intros i d Hd Hpos. destruct (Hall i d Hd) as (o & Ho & Hui & Hnd). exfalso. revert Hpos. unfold node_data in Hnd. destruct (dev_info infos o); [destruct (decide _); [destruct Hnd as (a & _ & ->)|subst d]|subst d]; cbn; lia.
Qed.

(** The NICs after creation are those of the PCI devices. *)
Lemma decorated_total t :
  decorated infos (reach infos (h_pcidevs hw)) (h_pcidevs hw) t -> n_pci <$> total t ≡ₚ n_pci <$> omap (dev_info infos) (h_pcidevs hw).
Proof using Hl.
  intros Hd. pose proof (decorated_ready t Hd) as Hr. destruct Hd as [Hu Hn Hb _ Hlen _ _]. apply NoDup_Permutation.
  - by apply (ready_nodup Hl).
  - assert (forall devs, NoDup devs -> (forall o, o ∈ devs -> o ∈ h_pcidevs hw) -> NoDup (n_pci <$> omap (dev_info infos) devs)) as Hgen; [|apply Hgen; [apply (hl_ok _ Hl)|done]].
    induction devs as [|o devs IH]; intros Hnd Hin; cbn; [constructor|]. apply NoDup_cons in Hnd as [Ho Hnd]. assert (NoDup (n_pci <$> omap (dev_info infos) devs)) as IH' by (apply IH; [done|intros x Hx; apply Hin; by right]).
    destruct (dev_info infos o) as [m|] eqn:Hm; [|done]. cbn. apply NoDup_cons. split; [|done]. intros (m' & Heq & Hm')%list_elem_of_fmap. apply list_elem_of_omap in Hm' as (o' & Ho' & Hmo').
    apply Ho. assert (o = o') as ->; [|done]. destruct (dev_nic_at o m) as (b & Hb1 & Hf1); [apply Hin; left|done|]. destruct (dev_nic_at o' m') as (b' & Hb2 & Hf2); [apply Hin; by right|done|]. congruence.
  - intros b. rewrite !list_elem_of_fmap. split.
    + intros (n & -> & Hin). apply total_in in Hin as (i & d & Hd & Hin). assert (i < base.size (reach infos (h_pcidevs hw)))%nat as Hi by (rewrite <- Hlen; by eapply lookup_lt_Some).
      destruct (Hb i Hi) as (o & d' & Ho & Hd' & _ & Huo). destruct (Hu o Ho) as (j & d2 & Hj & _ & Hd2 & Hnd). assert (d2 = d) as -> by congruence.
      destruct (node_data_single t i d o Hnd Hd) as (_ & _ & H1 & _). destruct (H1 n Hin) as (m & Hop & Hm & Heq). exists m. split; [done|]. apply list_elem_of_omap. by exists o.
    + intros (m & -> & Hm). apply list_elem_of_omap in Hm as (o & Ho & Hm). destruct (Hu o) as (i & d & Hui & _ & Hd & Hnd); [apply (reach_nic (hl_ok _ Hl)); [done|by exists m|done]|].
      destruct (node_data_single t i d o Hnd Hd) as (_ & _ & _ & H2). destruct (H2 m Ho Hm) as (n & Hin & Heq). exists n. split; [done|]. apply total_in. by exists i, d.
Qed.

(** What holds after creation and grouping: the NICs of the creation, all in finished
    groups, the largest of which has max_group_size members. *)
Lemma group_after_create f t :
  0 < f -> nccl_ofi_topo_create true true 0 0 infos (mk_topo ∅ [] 0 f) = Some (true, t) ->
  exists t' t2 P q, nccl_ofi_topo_group t = Some (0, t') /\
    (let* _ := mark_topo_nodes_with_ofi_info_subtree in propoagate_accel_group_counts) t = Some (0, t2) /\
    grouping t2 (length (data_vec t2)) [] P q t' /\
    n_pci <$> total t' ≡ₚ n_pci <$> omap (dev_info infos) (h_pcidevs hw) /\
    (forall i d, data_vec t' !! i = Some d -> info_list d <> [] -> num_groups d = 0) /\
    (total t' <> [] -> exists d, d ∈ data_vec t' /\ info_list_len d = max_group_size t').
Proof using Hl SO.
  intros Hf Hrun. pose proof (topo_create_wp (hl_ok _ Hl) infos true true 0 0 f Hf) as Hcr. unfold wp in Hcr. rewrite Hrun in Hcr.
  pose proof (decorated_ready t Hcr) as Hr. pose proof (decorated_total t Hcr) as Htot. destruct (topo_group_wp t Hr) as (t2 & Hk & Hcnt & Hwp).
  { intros o Ho Ha. destruct (de_user _ _ _ _ Hcr o) as (i & d & Hi & _); [by apply (reach_accel (hl_ok _ Hl))|]. by exists (UData i). }
  apply wp_run in Hwp as (? & t' & Hrun' & -> & P & q & HG). exists t', t2, P, q. assert (total t2 = total t) as Htt.
  { destruct Hk as (_ & _ & _ & Hli). assert (forall v, v ≫= info_list = (info_list <$> v) ≫= id) as Hv by (intros v; by rewrite list_fmap_bind). unfold total. by rewrite !Hv, Hli. }
  assert (forall i d, data_vec t' !! i = Some d -> info_list d <> [] -> num_groups d = 0) as Hz.
  { intros i d Hi Hne. destruct (gg_len _ _ _ _ _ _ HG i d Hi) as [Hlen Hg]. destruct (decide (0 < num_groups d)) as [Hpos|]; [|lia].
    destruct (gg_wait _ _ _ _ _ _ HG i d Hi Hpos Hne) as [Hle _]. apply lookup_lt_Some in Hi. rewrite (gg_length _ _ _ _ _ _ HG) in Hi. lia. }
  split_and!; try done.
  - rewrite <- Htot, <- Htt, <- (gg_total _ _ _ _ _ _ HG). by rewrite app_nil_r.
  - intros Hne. destruct (gg_max _ _ _ _ _ _ HG) as [Hmax|(i & d & Hi & _ & _ & Hm)]; [|exists d; split; [by eapply list_elem_of_lookup_2|done]].
    destruct (total t') as [|n l] eqn:Htl; [done|]. assert (n ∈ total t') as (i & d & Hi & Hn)%total_in by (rewrite Htl; left). exists d. split; [by eapply list_elem_of_lookup_2|].
    assert (info_list d <> []) as Hdn by (intros He; rewrite He in Hn; by apply not_elem_of_nil in Hn). destruct (gg_len _ _ _ _ _ _ HG i d Hi) as [Hlen _].
    destruct (gg_group _ _ _ _ _ _ HG i d Hi (Hz i d Hi Hdn) Hdn) as (y & l' & o & h & H1 & _ & _ & _ & _ & _ & Hle). rewrite H1 in Hlen. cbn in Hlen.
    pose proof (de_max _ _ _ _ Hcr) as Hdm. rewrite (proj1 (proj2 (proj2 Hk))) in Hmax. case_bool_decide; lia.
Qed.

(** C12. Grouping partitions the NICs. After a successful creation the algorithm
    succeeds, and every PCI device that is one of the given NICs is in exactly one
    group. A group is stored at the object of its first NIC, with its length, which
    is at most max_group_size; some group has that size. The members of a group have
    the same closest object with GPUs, the groups of one such object differ in size by
    at most one, and a group of several NICs has a GPU. *)
Theorem topo_group_partitions f t :
  0 < f -> nccl_ofi_topo_create true true 0 0 infos (mk_topo ∅ [] 0 f) = Some (true, t) ->
  exists t' t2 q, nccl_ofi_topo_group t = Some (0, t') /\
    (let* _ := mark_topo_nodes_with_ofi_info_subtree in propoagate_accel_group_counts) t = Some (0, t2) /\
    n_pci <$> total t' ≡ₚ n_pci <$> omap (dev_info infos) (h_pcidevs hw) /\
    (forall d, d ∈ data_vec t' -> info_list d <> [] -> exists y l o h, info_list d = y :: l /\ td_node d = Some o /\ nic_at y o /\
       info_list_len d = Z.of_nat (length (info_list d)) /\ info_list_len d <= max_group_size t' /\
       all_home t2 (info_list d) h /\ q h <= info_list_len d <= q h + 1 /\ (1 < info_list_len d -> is_gpu (gpu_group_node d))) /\
    (total t' <> [] -> exists d, d ∈ data_vec t' /\ info_list_len d = max_group_size t').
Proof using Hl SO.
  intros Hf Hrun. destruct (group_after_create f t Hf Hrun) as (t' & t2 & P & q & Hrun' & Hcnt & HG & Htot & Hz & Hmax). exists t', t2, q. split_and!; try done.
  intros d [i Hi]%list_elem_of_lookup Hne. destruct (gg_len _ _ _ _ _ _ HG i d Hi) as [Hlen Hg].
  destruct (gg_group _ _ _ _ _ _ HG i d Hi (Hz i d Hi Hne) Hne) as (y & l & o & h & H1 & H2 & H3 & _ & H4 & H5 & H6). exists y, l, o, h. split_and!; try done; try lia.
  intros Hlt. apply (gg_gpu _ _ _ _ _ _ HG i d Hi). lia.
Qed.
End FromCreation.
End Partition.

(** ** Reading the groups *)

(** [n] calls of next_info_list. *)
Fixpoint next_lists `{TopoEnv} (n it : nat) : TM (list (option (list nic)) * nat) :=
  match n with
  | O => ret ([], it)
  | S n' =>
      let* (l, it) := nccl_ofi_topo_next_info_list it in
      let* (ls, it) := next_lists n' it in
      ret (l :: ls, it)
  end.

Definition groups (v : list nccl_ofi_topo_data_t) : list (list nic) := info_list <$> filter (fun d => info_list d <> []) v.

Lemma next_info_list_wp `{TopoEnv} t n : forall it,
  (it + n = length (data_vec t))%nat ->
  wp (next_loop n it) (fun r t' => t' = t /\ (r.2 <= length (data_vec t))%nat /\
    match r.1 with None => groups (drop it (data_vec t)) = [] /\ r.2 = length (data_vec t) | Some l => groups (drop it (data_vec t)) = l :: groups (drop r.2 (data_vec t)) end) t.
Proof.
  induction n as [|n IH]; intros it Hn; cbn [next_loop].
  { wp_simpl. cbn. rewrite drop_ge by lia. split_and!; done || lia. }
  destruct (lookup_lt_is_Some_2 (data_vec t) it ltac:(lia)) as [d Hd]. wp_simpl. eapply get_data_wp; [exact Hd|]. rewrite (drop_S _ _ _ Hd). unfold groups. case_bool_decide as He.
  - rewrite filter_cons_False by (intros H'; by apply H'). apply IH. lia.
  - wp_simpl. cbn [fst snd]. rewrite filter_cons_True by done. split_and!; [done|lia|done].
Qed.

(** The iterator returns each of the groups that num_info_lists counts once, and
    then NULL. *)
Lemma next_lists_all `{TopoEnv} t :
  exists it, (let* n := nccl_ofi_topo_num_info_lists in next_lists (Z.to_nat n) 0) t = Some ((Some <$> groups (data_vec t), it), t) /\
    exists it', nccl_ofi_topo_next_info_list it t = Some ((None, it'), t).
Proof.
  unfold nccl_ofi_topo_num_info_lists. assert (forall m it, (it <= length (data_vec t))%nat -> m = length (groups (drop it (data_vec t))) ->
    wp (next_lists m it) (fun r t' => t' = t /\ r.1 = Some <$> groups (drop it (data_vec t)) /\ (r.2 <= length (data_vec t))%nat /\ groups (drop r.2 (data_vec t)) = []) t) as Hgen.
  { induction m as [|m IH]; intros it Hit Hm; cbn [next_lists].
    - wp_simpl. symmetry in Hm. apply nil_length_inv in Hm. cbn [fst snd]. by rewrite Hm.
    - wp_simpl. unfold nccl_ofi_topo_next_info_list. wp_simpl. eapply wp_mono; [apply next_info_list_wp; lia|]. intros [[l|] it1] t1 (-> & Hle & Hr); cbn [fst snd] in *.
      + wp_simpl. rewrite Hr in Hm. cbn in Hm. eapply wp_mono; [apply (IH it1); [done|lia]|]. intros [ls it2] t2 (-> & Hls & Hle2 & He). wp_simpl. cbn [fst snd] in *. by rewrite Hls, Hr.
      + destruct Hr as [Hr _]. rewrite Hr in Hm. done. }
  specialize (Hgen (length (groups (data_vec t))) 0%nat ltac:(lia) eq_refl). apply wp_run in Hgen as ([ls it] & t' & Hrun & -> & Hls & Hle & He). cbn [fst snd] in *.
  exists it. split.
  - unfold bind, gets, ret. rewrite Nat2Z.id. replace (length (filter (fun d => info_list d <> []) (data_vec t))) with (length (groups (data_vec t))) by (unfold groups; by rewrite length_fmap).
    rewrite Hrun. by rewrite Hls.
  - assert (wp (nccl_ofi_topo_next_info_list it) (fun r t' => t' = t /\ r.1 = None) t) as Hn.
    { unfold nccl_ofi_topo_next_info_list. wp_simpl. eapply wp_mono; [apply next_info_list_wp; lia|]. intros [[l|] it1] t1 (-> & _ & Hr); cbn [fst snd] in *; [by rewrite He in Hr|done]. }
    apply wp_run in Hn as ([r it'] & ? & Hrun' & -> & Hr). cbn in Hr. subst r. by exists it'.
Qed.

(** ** Example: the machine of nccl_ofi_topo.h *)

(** A topology whose look-up goes through its devices. *)
Definition has_busid (objs : gmap Z hobj) (b : busid) (o : Z) : bool :=
  match objs !! o with Some ob => match o_attr ob with Some a => bool_decide (a_busid a = b) | None => false end | None => false end.
Definition scan_hwloc (objs : gmap Z hobj) (root : Z) (devs : list Z) : hwloc :=
  mk_hwloc objs root devs (fun b => head (filter (fun o => has_busid objs b o = true) devs)).

Definition dev_busid (objs : gmap Z hobj) (o : Z) : option busid := match objs !! o with Some ob => a_busid <$> o_attr ob | None => None end.

Definition is_pci (objs : gmap Z hobj) (o : Z) : bool :=
  match objs !! o with Some ob => bool_decide (o_type ob = HWLOC_OBJ_PCI_DEVICE) && bool_decide (is_Some (o_attr ob)) | None => false end.

Lemma has_busid_spec objs b o : has_busid objs b o = true <-> exists ob a, objs !! o = Some ob /\ o_attr ob = Some a /\ a_busid a = b.
Proof.
  unfold has_busid. split.
  - destruct (objs !! o) as [ob|]; [|done]. destruct (o_attr ob) as [a|] eqn:Ha; [|done]. intros H%bool_decide_eq_true. by exists ob, a.
  - intros (ob & a & -> & -> & <-). by apply bool_decide_eq_true.
Qed.

Lemma scan_hwloc_ok objs root devs :
  let H := scan_hwloc objs root devs in
  bool_decide (map_Forall (fun o _ => is_Some (root_path H (base.size objs) o)) objs) = true ->
  forallb (is_pci objs) devs = true ->
  bool_decide (NoDup (dev_busid objs <$> devs)) = true ->
  bool_decide (Forall (fun o => Forall (fun x => x ∈ devs -> x = o) (default [] (root_path H (base.size objs) o))) devs) = true ->
  hwloc_leaves H.
Proof.
  intros H H1%bool_decide_eq_true H2 H3%bool_decide_eq_true H4%bool_decide_eq_true. rewrite Forall_forall in H4. rewrite forallb_forall in H2.
  assert (forall o, o ∈ devs -> exists ob a, objs !! o = Some ob /\ o_type ob = HWLOC_OBJ_PCI_DEVICE /\ o_attr ob = Some a) as Hdev.
  { intros o Ho. apply list_elem_of_In in Ho. specialize (H2 o Ho). unfold is_pci in H2. destruct (objs !! o) as [ob|]; [|done]. apply andb_prop in H2 as [Ht%bool_decide_eq_true [a Ha]%bool_decide_eq_true]. by exists ob, a. }
  assert (forall o o' b, o ∈ devs -> o' ∈ devs -> has_busid objs b o = true -> has_busid objs b o' = true -> o = o') as Hinj.
  { intros o o' b Ho Ho' (ob & a & Hob & Ha & Hb)%has_busid_spec (ob' & a' & Hob' & Ha' & Hb')%has_busid_spec. eapply (nodup_fmap_inj (dev_busid objs) devs); try done.
    unfold dev_busid. rewrite Hob, Hob', Ha, Ha'. cbn. congruence. }
  constructor; [constructor|]; cbn.
  - intros o [ob Hob]. by apply (H1 o ob).
  - done.
  - by eapply NoDup_fmap_1.
  - intros b o. split.
    + intros Hh. apply head_Some_elem_of, list_elem_of_filter in Hh as [Hb Ho]. split; [done|]. by apply has_busid_spec.
    + intros [Ho Hb%has_busid_spec]. assert (o ∈ filter (fun x => has_busid objs b x = true) devs) as Hin by (by apply list_elem_of_filter).
      destruct (filter (fun x => has_busid objs b x = true) devs) as [|x l] eqn:Hf; [by apply not_elem_of_nil in Hin|]. cbn. f_equal.
      assert (x ∈ filter (fun x => has_busid objs b x = true) devs) as [Hx Hxd]%list_elem_of_filter by (rewrite Hf; left). by apply (Hinj x o b).
  - intros fuel o p x Ho Hp Hx Hxd. specialize (H4 o Ho). destruct (Hdev o Ho) as (ob & a & Hob & _). destruct (H1 o ob Hob) as [p' Hp']. rewrite Hp' in H4. cbn in H4.
    assert (p = p') as ->; [|rewrite Forall_forall in H4; by apply H4].
    apply (root_path_mono H fuel (fuel + base.size objs)) in Hp; [|lia]. apply (root_path_mono H _ (fuel + base.size objs)) in Hp'; [|lia]. congruence.
Qed.

(** One bridge with two GPUs and four NICs. *)
Definition example_dev (bus class_id vendor_id : Z) : hobj := mk_obj HWLOC_OBJ_PCI_DEVICE (Some (mk_attr (mk_busid 0 bus 0 0) class_id vendor_id)) (Some 1) [] [] 0.
Definition example_objs : gmap Z hobj :=
  {[ 1 := mk_obj HWLOC_OBJ_BRIDGE None None [10; 11; 20; 21; 22; 23] [] 0; 10 := example_dev 10 770 4318; 11 := example_dev 11 770 4318;
     20 := example_dev 20 512 7503; 21 := example_dev 21 512 7503; 22 := example_dev 22 512 7503; 23 := example_dev 23 512 7503 ]}.
Definition example_env : TopoEnv :=
  {| hw := scan_hwloc example_objs 1 [10; 11; 20; 21; 22; 23]; dupinfo_ok _ := true; platform_sort_rails l _ _ := l |}.
Definition example_nics : list nic := (fun b => mk_nic (1000 + b) (Some (mk_busid 0 b 0 0))) <$> [20; 21; 22; 23].

Lemma example_leaves : hwloc_leaves (@hw example_env).
Proof. apply scan_hwloc_ok; vm_compute; reflexivity. Qed.

Lemma example_sort : @SortOk example_env.
Proof. by constructor. Qed.

Definition example_topo : nccl_ofi_topo_t :=
  match @nccl_ofi_topo_create example_env true true 0 0 example_nics (mk_topo ∅ [] 0 5000) with Some (_, t) => t | None => mk_topo ∅ [] 0 0 end.

Lemma topo_create_decorates_witness :
  exists t, @nccl_ofi_topo_create example_env true true 0 0 example_nics (mk_topo ∅ [] 0 5000) = Some (true, t) /\
    @decorated example_env example_nics (@reach example_env example_nics [10; 11; 20; 21; 22; 23]) [10; 11; 20; 21; 22; 23] t.
Proof.
  destruct (@topo_create_decorates example_env (hl_ok _ example_leaves) example_nics true true 0 0 5000 ltac:(lia)) as (b & t & Hrun & Hb).
  assert (b = true) as -> by (apply (f_equal (option_map fst)) in Hrun; vm_compute in Hrun; by injection Hrun). exists t. split; [exact Hrun|exact Hb].
Defined.

(** The NICs end up in two groups of two. The lists are built from the front, so the
    leaders are NIC 1 and NIC 3 and not, as in the picture of the header, NIC 0 and
    NIC 2. *)
Lemma topo_group_partitions_witness :
  exists t', @nccl_ofi_topo_group example_env example_topo = Some (0, t') /\
    (n_pci <$> total t' ≡ₚ n_pci <$> example_nics) /\
    ((fun d => (td_node d, (fun n => b_bus <$> n_pci n) <$> info_list d)) <$> filter (fun d => info_list d <> []) (data_vec t')) =
      [(Some 21, [Some 21; Some 20]); (Some 23, [Some 23; Some 22])].
Proof.
  destruct (@topo_group_partitions example_env example_leaves example_sort example_nics 5000 example_topo ltac:(lia)) as (t' & t2 & q & Hrun & _ & Hp & _).
  { vm_compute. reflexivity. }
  exists t'. split; [exact Hrun|]. split; [etrans; [exact Hp|]; vm_compute; reflexivity|].
  assert (option_map snd (@nccl_ofi_topo_group example_env example_topo) = Some t') as Ht by (rewrite Hrun; reflexivity). vm_compute in Ht. injection Ht as <-. reflexivity.
Defined.

End TopoGroup.
