(* ===== verification/TopoWrite.v ===== *)
(** * nccl_ofi_topo.c: the topology file for NCCL

    After grouping, the plug-in writes an XML description of the machine in which a
    group of NICs looks like one faster NIC. The file is the list of the tags that
    are written; the bus speeds come from sysfs, which is a parameter.

    The theorems: how far the link of a group is scaled (group_link_scales), and that
    from creation over grouping to the file nothing gets stuck and a complete file is
    well nested (topo_write_wp). *)

From stdpp Require Import strings.
From S2P Require Import Prelude Strtol StateM NetTypes Topo TopoCreate TopoGroup.
Import Strtol Topo TopoCreate TopoGroup.

Module TopoWrite.

Open Scope Z_scope.

(** ** Files *)

Inductive tag :=
| SystemOpen
| SystemClose
| CpuOpen (indent numaid : Z)
| CpuClose (indent : Z)
| Pci (indent : Z) (id : busid) (speed_idx width : Z)
| PciOpen (indent : Z) (id : busid)
| PciClose (indent : Z).

(** sysfs: the code and the first characters of a property; whether the next write
    succeeds, after what has been written, or which error it sets; whether errno is
    ERANGE from an earlier call. *)
Class WriteEnv := {
  get_device_property : busid -> string -> Z * string;
  fprintf_errno : list tag -> Z;
  stale_erange : bool;
}.

Definition ERANGE : Z := 34.

Abbreviation F := (SM (list tag)).

Definition speed_name : string := "max_link_speed".
Definition width_name : string := "max_link_width".
Definition pcie_gen : list string := ["2.5"; "5"; "8"; "16"; "32"; "64"]%string.

Section Write.
Context {E : TopoEnv} {WE : WriteEnv} (t : nccl_ofi_topo_t).

Definition fprintf (x : tag) : F Z :=
  let* out := gets (fun out => out) in
  if negb (fprintf_errno out =? 0) then ret (- fprintf_errno out)
  else modify (fun out => out ++ [x]) ;;; ret 0.

(** ** Link speeds *)

(** The loop over pcie_gen: the index of the first name that is a prefix. *)
Fixpoint find_gen (gens : list string) (prop : string) (idx : Z) : Z :=
  match gens with
  | [] => idx
  | g :: gens' => if String.prefix g prop then idx else find_gen gens' prop (idx + 1)
  end.

(** The code with speed index and width. *)
Definition get_pci_device_speed (ob : hobj) (is_nic : bool) : option (Z * Z * Z) :=
  if negb (bool_decide (o_type ob = HWLOC_OBJ_BRIDGE \/ o_type ob = HWLOC_OBJ_PCI_DEVICE)) then Some (- EINVAL, 0, 0)
  else
    match o_attr ob with
    | None => None
    | Some a =>
        let (rc, prop) := get_device_property (a_busid a) speed_name in
        if negb (rc =? 0) then Some (rc, 0, 0)
        else
          let speed_idx := find_gen pcie_gen prop 0 in
          let speed_idx := if is_nic && String.prefix "Unknown" prop then 3 else speed_idx in
          if speed_idx =? 6 then Some (- EINVAL, speed_idx, 0)
          else
            let (rc, prop) := get_device_property (a_busid a) width_name in
            if negb (rc =? 0) then Some (rc, speed_idx, 0)
            else
              let (width, erange) := if is_nic && String.prefix "255" prop then (8, false) else let '(v, e, _) := strtoll prop in (u64 v, e) in
              if stale_erange || erange then Some (- ERANGE, speed_idx, width)
              else if width =? 0 then Some (- EINVAL, speed_idx, width)
              else Some (0, speed_idx, width)
    end.

Definition get_pci_device_min_speed (ob : hobj) (is_nic : bool) : option (Z * Z * Z) :=
  match get_pci_device_speed ob is_nic with
  | None => None
  | Some (rc, device_speed, device_width) =>
      if negb (rc =? 0) then Some (rc, 0, 0)
      else
        match o_parent ob ≫= (h_objs hw !!.) with
        | None => None
        | Some parent =>
            match get_pci_device_speed parent is_nic with
            | None => None
            | Some (rc, port_speed, port_width) =>
                if negb (rc =? 0) then Some (rc, 0, 0) else Some (0, Z.min device_speed port_speed, Z.min device_width port_width)
            end
        end
  end.

(** The two loops of write_nic; each halves the group. *)
Fixpoint scale_speed (fuel : nat) (group_size speed_idx gpu_speed_idx : Z) : Z * Z :=
  match fuel with
  | O => (group_size, speed_idx)
  | S fuel' =>
      if (group_size >? 1) && (speed_idx <? gpu_speed_idx) then scale_speed fuel' (Z.quot group_size 2) (speed_idx + 1) gpu_speed_idx
      else (group_size, speed_idx)
  end.

Fixpoint scale_width (fuel : nat) (group_size width gpu_width : Z) : Z * Z :=
  match fuel with
  | O => (group_size, width)
  | S fuel' =>
      if (group_size >? 1) && (u64 (2 * width) <=? gpu_width) then scale_width fuel' (Z.quot group_size 2) (u64 (width * 2)) gpu_width
      else (group_size, width)
  end.

Definition get_object (o : Z) : F hobj := of_option (h_objs hw !! o).

(** The user data of an object, [None] for NULL. *)
Definition user_data (o : Z) : F (option nccl_ofi_topo_data_t) :=
  match t_userdata t !! o with
  | None => ret None
  | Some (UData i) => let* d := of_option (data_vec t !! i) in ret (Some d)
  | Some UCount => undefined
  end.

(** ** Tags *)

Definition write_pci_tag (indent : Z) (a : pci_attr) (speed_idx width : Z) : F Z := fprintf (Pci indent (a_busid a) speed_idx width).

Definition write_nic (ob : hobj) (data : nccl_ofi_topo_data_t) (indent : Z) : F Z :=
  let group_size := info_list_len data in
  let* (rc, speed_idx, width) := of_option (get_pci_device_min_speed ob true) in
  if negb (rc =? 0) then ret rc
  else
    let* (rc, speed_idx, width) :=
      if group_size >? 1 then
        let* gpu := of_option (gpu_group_node data) in
        let* gpu_ob := get_object gpu in
        let* (rc, gpu_speed_idx, gpu_width) := of_option (get_pci_device_min_speed gpu_ob false) in
        if negb (rc =? 0) then ret (rc, speed_idx, width)
        else
          let (group_size, speed_idx) := scale_speed (Z.to_nat group_size) group_size speed_idx gpu_speed_idx in
          let (group_size, width) := scale_width (Z.to_nat group_size) group_size width gpu_width in
          ret (0, speed_idx, width)
      else ret (0, speed_idx, width) in
    if negb (rc =? 0) then ret rc
    else let* a := of_option (o_attr ob) in write_pci_tag indent a speed_idx width.

Definition write_cpu_opening_tag (ob : hobj) (indent : Z) : F Z := fprintf (CpuOpen indent (o_os_index ob)).
Definition write_cpu_closing_tag (indent : Z) : F Z := fprintf (CpuClose indent).
Definition write_bridge_opening_tag (ob : hobj) (indent : Z) : F Z := let* a := of_option (o_attr ob) in fprintf (PciOpen indent (a_busid a)).
Definition write_pci_closing_tag (indent : Z) : F Z := fprintf (PciClose indent).

(** The first NUMA node without user data among the memory children. *)
Fixpoint get_numa_mem_child (l : list Z) : F (option Z) :=
  match l with
  | [] => ret None
  | c :: l' =>
      let* ob := get_object c in
      let* d := user_data c in
      if bool_decide (o_type ob = HWLOC_OBJ_NUMANODE) && match d with None => true | Some _ => false end then ret (Some c) else get_numa_mem_child l'
  end.

(** What the opening part of write_nccl_topo_rec decides. The function tests the user
    data of the NUMA node again; get_numa_mem_child only returns a node without. *)
Inductive closing := CloseNone | CloseNumanode | CloseBridge.

Definition open_node (ob : hobj) (data : nccl_ofi_topo_data_t) (indent bridge_depth : Z) : F (Z * closing * Z * Z) :=
  if bool_decide (o_type ob = HWLOC_OBJ_BRIDGE) then
    match o_attr ob with
    | None => ret (- EINVAL, CloseNone, indent, bridge_depth)
    | Some _ =>
        if (bridge_depth >=? 2) && (Z.rem bridge_depth 2 =? 0) then
          let* rc := write_bridge_opening_tag ob indent in
          ret (rc, CloseBridge, indent + 2, bridge_depth + 1)
        else ret (0, CloseNone, indent, bridge_depth + 1)
    end
  else if bool_decide (o_type ob = HWLOC_OBJ_PCI_DEVICE) && negb (bool_decide (info_list data = [])) then
    let* rc := write_nic ob data indent in ret (rc, CloseNone, indent + 2, bridge_depth)
  else if bool_decide (o_type ob = HWLOC_OBJ_NUMANODE) then
    let* rc := write_cpu_opening_tag ob indent in ret (rc, CloseNumanode, indent + 2, bridge_depth)
  else
    let* c := get_numa_mem_child (o_memory_children ob) in
    match c with
    | None => ret (0, CloseNone, indent, bridge_depth)
    | Some c => let* cob := get_object c in let* rc := write_cpu_opening_tag cob indent in ret (rc, CloseNumanode, indent + 2, bridge_depth)
    end.

(** [fuel] bounds the depth of the tree. *)
Fixpoint write_nccl_topo_rec (fuel : nat) (o indent bridge_depth : Z) : F Z :=
  match fuel with
  | O => undefined
  | S fuel' =>
      let* ob := get_object o in
      let* d := user_data o in
      match d with
      | None => ret 0
      | Some data =>
          let* (rc, close, indent, bridge_depth) := open_node ob data indent bridge_depth in
          if negb (rc =? 0) then ret rc
          else
            let* rc :=
              (fix children (l : list Z) : F Z :=
                 match l with
                 | [] => ret 0
                 | c :: l' => let* rc := write_nccl_topo_rec fuel' c indent bridge_depth in if negb (rc =? 0) then ret rc else children l'
                 end) (o_children ob) in
            if negb (rc =? 0) then ret rc
            else
              match close with
              | CloseNumanode => write_cpu_closing_tag (indent - 2)
              | CloseBridge => write_pci_closing_tag (indent - 2)
              | CloseNone => ret 0
              end
      end
  end.

Definition nccl_ofi_topo_write (fuel : nat) : F Z :=
  let* rc := fprintf SystemOpen in
  if negb (rc =? 0) then ret rc
  else
    let* rc := write_nccl_topo_rec fuel (h_root hw) 2 0 in
    if negb (rc =? 0) then ret rc else fprintf SystemClose.

End Write.

(** ** Scaling of the link of a group *)

(** [k] doublings of a group of [g] NICs that end because the group is used up or the
    limit is reached. *)
Lemma scale_speed_spec fuel : forall g s gs,
  (Z.to_nat g <= fuel)%nat -> 1 <= g ->
  exists k, 0 <= k /\ 2 ^ k <= g /\ scale_speed fuel g s gs = (g / 2 ^ k, s + k) /\ (k = 0 \/ s + k <= gs) /\ (1 < g / 2 ^ k -> gs <= s + k).
Proof.
  induction fuel as [|fuel IH]; intros g s gs Hf Hg; [lia|]. cbn [scale_speed]. destruct (Z.gtb_spec g 1) as [H1|H1]; cbn [andb]; [destruct (Z.ltb_spec s gs) as [H2|H2]|].
  - destruct (IH (Z.quot g 2) (s + 1) gs) as (k & Hk & Hle & Heq & Hlim & Hend); rewrite Z.quot_div_nonneg in * by lia; [pose proof (Z.div_lt g 2); lia|apply Z.div_le_lower_bound; lia|].
    exists (k + 1). rewrite Z.pow_add_r, Z.pow_1_r, (Z.mul_comm (2 ^ k) 2), <- Z.div_div by lia. rewrite Heq. pose proof (Z.mul_div_le g 2). split_and!; try lia. f_equal. lia.
  - exists 0. rewrite Z.pow_0_r, Z.div_1_r, Z.add_0_r. split_and!; try lia; done.
  - exists 0. rewrite Z.pow_0_r, Z.div_1_r, Z.add_0_r. split_and!; try lia; done.
Qed.

Lemma scale_width_spec fuel : forall g w gw,
  (Z.to_nat g <= fuel)%nat -> 1 <= g -> 0 < w < 2 ^ 63 -> gw < 2 ^ 63 ->
  exists k, 0 <= k /\ 2 ^ k <= g /\ scale_width fuel g w gw = (g / 2 ^ k, w * 2 ^ k) /\ (k = 0 \/ w * 2 ^ k <= gw) /\ (1 < g / 2 ^ k -> gw < 2 * (w * 2 ^ k)).
Proof.
  induction fuel as [|fuel IH]; intros g w gw Hf Hg Hw Hgw; [lia|]. cbn [scale_width]. assert (u64 (2 * w) = 2 * w) as Hu by (apply Z.mod_small; lia). rewrite (Z.mul_comm w 2), Hu.
  destruct (Z.gtb_spec g 1) as [H1|H1]; cbn [andb]; [destruct (Z.leb_spec (2 * w) gw) as [H2|H2]|].
  - destruct (IH (Z.quot g 2) (2 * w) gw) as (k & Hk & Hle & Heq & Hlim & Hend); rewrite ?Z.quot_div_nonneg in * by lia; [pose proof (Z.div_lt g 2); lia|apply Z.div_le_lower_bound; lia|lia|lia|].
    exists (k + 1). rewrite Z.pow_add_r, Z.pow_1_r, (Z.mul_comm (2 ^ k) 2), <- Z.div_div by lia. rewrite Heq. replace (w * (2 * 2 ^ k)) with (2 * w * 2 ^ k) by lia. pose proof (Z.mul_div_le g 2). split_and!; try lia; try done.
    right. destruct Hlim as [->|]; lia.
  - exists 0. rewrite Z.pow_0_r, Z.div_1_r, Z.mul_1_r. split_and!; try lia; done.
  - exists 0. rewrite Z.pow_0_r, Z.div_1_r, Z.mul_1_r. split_and!; try lia; done.
Qed.

(** C39. The link of a group in the file: write_nic raises speed and width by powers
    of two, at most by the number of NICs in the group, never above the GPU's, and it
    stops only when the group is used up or the GPU's link is reached. *)
Theorem group_link_scales g speed width gpu_speed gpu_width :
  1 <= g -> 0 < width < 2 ^ 63 -> gpu_width < 2 ^ 63 ->
  exists i j, 0 <= i /\ 0 <= j /\ 2 ^ (i + j) <= g /\
    (let (g1, s1) := scale_speed (Z.to_nat g) g speed gpu_speed in
     let (g2, w1) := scale_width (Z.to_nat g1) g1 width gpu_width in (g2, s1, w1)) = (g / 2 ^ (i + j), speed + i, width * 2 ^ j) /\
    (i = 0 \/ speed + i <= gpu_speed) /\ (j = 0 \/ width * 2 ^ j <= gpu_width) /\
    (1 < g / 2 ^ (i + j) -> gpu_speed <= speed + i /\ gpu_width < 2 * (width * 2 ^ j)).
Proof.
  intros Hg Hw Hgw. destruct (scale_speed_spec (Z.to_nat g) g speed gpu_speed (le_n _) Hg) as (i & Hi & Hgi & Heq & Hlim & Hend). rewrite Heq. cbn beta iota.
  assert (1 <= g / 2 ^ i) as Hg1 by (apply Z.div_le_lower_bound; lia). destruct (scale_width_spec (Z.to_nat (g / 2 ^ i)) (g / 2 ^ i) width gpu_width (le_n _) Hg1 Hw Hgw) as (j & Hj & Hgj & Heq2 & Hlim2 & Hend2).
  rewrite Heq2. exists i, j. assert (0 < 2 ^ i) as Hpi by lia. assert (0 < 2 ^ j) as Hpj by lia. rewrite Z.pow_add_r, <- Z.div_div by lia. split_and!; try done; try lia.
  - pose proof (Z.mul_div_le g (2 ^ i)). nia.
  - intros H. split; [|by apply Hend2]. apply Hend. apply (Z.lt_le_trans _ _ _ H), Z.div_le_upper_bound; nia.
Qed.

(** Four NICs of generation 8 GT/s and width 8 beside a GPU of 16 GT/s and width 16
    look like one NIC of 16 GT/s and width 16. *)
Lemma group_link_scales_witness : scale_speed 4 4 2 3 = (2, 3) /\ scale_width 2 2 8 16 = (1, 16) /\ exists i j, (2, 3) = (4 / 2 ^ i, 2 + i) /\ (1, 16) = (4 / 2 ^ (i + j), 8 * 2 ^ j).
Proof.
  split_and!; [done..|]. destruct (group_link_scales 4 2 8 3 16 ltac:(lia) ltac:(lia) ltac:(lia)) as (i & j & Hi & Hj & _ & Heq & _).
  exists i, j. change ((1, 3, 16) = (4 / 2 ^ (i + j), 2 + i, 8 * 2 ^ j)) in Heq. injection Heq as Hg Hs Hw. assert (i = 1) as -> by lia. by rewrite <- Hg, <- Hw.
Defined.
(** ** Files are well nested *)

Inductive element := ESystem | ECpu | EPci.

#[export] Instance element_eq_dec : EqDecision element.
Proof. solve_decision. Defined.

Definition close_element (e : element) (st : list element) : option (list element) :=
  match st with e' :: st' => if decide (e = e') then Some st' else None | [] => None end.

(** The elements that are open after [l], [None] for a closing tag that does not
    match. *)
Fixpoint nest (l : list tag) (st : list element) : option (list element) :=
  match l with
  | [] => Some st
  | SystemOpen :: l' => nest l' (ESystem :: st)
  | CpuOpen _ _ :: l' => nest l' (ECpu :: st)
  | PciOpen _ _ :: l' => nest l' (EPci :: st)
  | Pci _ _ _ _ :: l' => nest l' st
  | SystemClose :: l' => close_element ESystem st ≫= nest l'
  | CpuClose _ :: l' => close_element ECpu st ≫= nest l'
  | PciClose _ :: l' => close_element EPci st ≫= nest l'
  end.

Lemma nest_app l1 : forall l2 st, nest (l1 ++ l2) st = nest l1 st ≫= nest l2.
Proof. induction l1 as [|x l1 IH]; intros l2 st; [done|]. destruct x; cbn [nest app]; rewrite ?IH; try done; destruct (close_element _ st); cbn; by rewrite ?IH. Qed.

Section Tags.
Context {E : TopoEnv}.

(** The address and the index of an object. *)
Definition hw_busid (id : busid) : Prop := exists o ob a, h_objs hw !! o = Some ob /\ o_attr ob = Some a /\ a_busid a = id.
Definition hw_index (n : Z) : Prop := exists o ob, h_objs hw !! o = Some ob /\ o_os_index ob = n.

(** What a tag says is of an object of the machine; the speed of a NIC is one of
    pcie_gen, its width a size_t. *)
Definition tag_ok (x : tag) : Prop :=
  match x with
  | Pci i id s w => 0 <= i /\ hw_busid id /\ 0 <= s < 6 /\ 0 <= w < 2 ^ 64
  | PciOpen i id => 0 <= i /\ hw_busid id
  | CpuOpen i n => 0 <= i /\ hw_index n
  | CpuClose i | PciClose i => 0 <= i
  | SystemOpen | SystemClose => True
  end.

(** From [out] to [out']: tags that leave the elements [k] open if the code is 0. *)
Definition wrote (rc : Z) (k : list element) (out out' : list tag) : Prop :=
  exists new, out' = out ++ new /\ Forall tag_ok new /\ (rc = 0 -> forall st, nest new st = Some (k ++ st)).

Lemma wrote_nothing rc out : wrote rc [] out out.
Proof. exists []. by rewrite app_nil_r. Qed.

Lemma wrote_app rc k k' out out1 out2 : wrote 0 k out out1 -> (exists new, out2 = out1 ++ new /\ Forall tag_ok new /\ (rc = 0 -> forall st, nest new (k ++ st) = Some (k' ++ st))) -> wrote rc k' out out2.
Proof.
  intros (n1 & -> & Ht1 & Hn1) (n2 & -> & Ht2 & Hn2). exists (n1 ++ n2). rewrite app_assoc. split_and!; [done|by apply Forall_app|].
  intros Hrc st. rewrite nest_app, Hn1 by done. cbn. by apply Hn2.
Qed.

Lemma wrote_trans rc k out out1 out2 : wrote 0 k out out1 -> wrote rc [] out1 out2 -> wrote rc k out out2.
Proof. intros H1 (n & -> & Ht & Hn). apply (wrote_app rc k k out out1); [done|]. exists n. split_and!; [done..|]. intros Hrc st. by rewrite Hn. Qed.

Lemma wrote_fail rc k k' out out' : rc <> 0 -> wrote rc k out out' -> wrote rc k' out out'.
Proof. intros Hrc (n & -> & Ht & _). by exists n. Qed.

End Tags.

(** A read that succeeds. *)
Ltac read_option := eapply wp_of_option; [eassumption || reflexivity|]; cbn beta iota.

Section Nested.
Context {E : TopoEnv} {WE : WriteEnv}.

Lemma fprintf_wp x k k' out :
  tag_ok x -> (forall st, nest [x] (k ++ st) = Some (k' ++ st)) ->
  wp (fprintf x) (fun rc out' => exists new, out' = out ++ new /\ Forall tag_ok new /\ (rc = 0 -> forall st, nest new (k ++ st) = Some (k' ++ st))) out.
Proof.
  intros Hx Hn. unfold fprintf. wp_simpl. destruct (Z.eqb_spec (fprintf_errno out) 0) as [He|He]; cbn [negb]; wp_simpl.
  - exists [x]. split_and!; [done|by repeat constructor|done].
  - exists []. rewrite app_nil_r. split_and!; [done..|]. lia.
Qed.

Lemma fprintf_wrote x k out : tag_ok x -> (forall st, nest [x] st = Some (k ++ st)) -> wp (fprintf x) (fun rc out' => wrote rc k out out') out.
Proof. intros Hx Hn. eapply wp_mono; [by apply (fprintf_wp x [] k)|]. intros rc out' H. exact H. Qed.

(** A result of reading the speed of a device: a valid one if the code is 0. *)
Definition speed_ok (r : Z * Z * Z) : Prop := r.1.1 = 0 -> 0 <= r.1.2 < 6 /\ 0 <= r.2 < 2 ^ 64.

Lemma find_gen_range gens prop : forall i, i <= find_gen gens prop i <= i + Z.of_nat (length gens).
Proof. induction gens as [|g gens IH]; intros i; cbn [find_gen length]; [lia|]. destruct (String.prefix g prop); [lia|]. specialize (IH (i + 1)). lia. Qed.

Lemma get_speed_ok ob is_nic :
  (o_type ob = HWLOC_OBJ_BRIDGE \/ o_type ob = HWLOC_OBJ_PCI_DEVICE -> is_Some (o_attr ob)) -> exists r, get_pci_device_speed ob is_nic = Some r /\ speed_ok r.
Proof.
  intros Ha. unfold get_pci_device_speed, speed_ok. case_bool_decide as Ht; cbn [negb]; [|eexists; split; [done|]; done]. destruct (Ha Ht) as [a ->].
  destruct (get_device_property _ speed_name) as [rc prop]. destruct (Z.eqb_spec rc 0) as [->|Hrc]; cbn [negb]; [|by eexists].
  pose proof (find_gen_range pcie_gen prop 0) as Hf. cbn [length pcie_gen] in Hf.
  assert (0 <= (if is_nic && String.prefix "Unknown" prop then 3 else find_gen pcie_gen prop 0) <= 6) as Hs by (destruct (is_nic && _); lia). revert Hs. generalize (if is_nic && String.prefix "Unknown" prop then 3 else find_gen pcie_gen prop 0). intros s Hs.
  destruct (Z.eqb_spec s 6) as [->|Hs6]; [by eexists|]. destruct (get_device_property _ width_name) as [rc prop2]. destruct (Z.eqb_spec rc 0) as [->|Hrc]; cbn [negb]; [|by eexists].
  assert (0 <= (if is_nic && String.prefix "255" prop2 then (8, false) else let '(v, e, _) := strtoll prop2 in (u64 v, e)).1 < 2 ^ 64) as Hw by (destruct (is_nic && _); [done|]; destruct (strtoll prop2) as [[v e] ?]; apply wrap_range; lia).
  destruct (if is_nic && String.prefix "255" prop2 then (8, false) else _) as [width erange]. cbn in Hw. destruct (stale_erange || erange); [by eexists|]. destruct (_ =? 0); [by eexists|]. eexists. split; [done|]. cbn. lia.
Qed.

Lemma scale_width_range fuel : forall g w gw, 0 <= w < 2 ^ 64 -> 0 <= (scale_width fuel g w gw).2 < 2 ^ 64.
Proof. induction fuel as [|fuel IH]; intros g w gw Hw; cbn [scale_width]; [done|]. destruct ((g >? 1) && _); [|done]. apply IH, wrap_range. lia. Qed.

(** What hwloc guarantees about the shape of the tree. *)
Record hwloc_tree (H : hwloc) : Prop := {
  ht_leaves :> hwloc_leaves H;
  ht_root : is_Some (h_objs H !! h_root H);
  ht_child o ob c : h_objs H !! o = Some ob -> c ∈ o_children ob -> exists cb, h_objs H !! c = Some cb /\ o_parent cb = Some o;
  ht_memory o ob c : h_objs H !! o = Some ob -> c ∈ o_memory_children ob -> is_Some (h_objs H !! c);
  ht_attr o ob : h_objs H !! o = Some ob -> o_type ob = HWLOC_OBJ_BRIDGE \/ o_type ob = HWLOC_OBJ_PCI_DEVICE -> is_Some (o_attr ob);
  ht_device o ob : h_objs H !! o = Some ob -> o_type ob = HWLOC_OBJ_PCI_DEVICE -> exists p pb, o_parent ob = Some p /\ h_objs H !! p = Some pb;
}.

(** A grouped topology. *)
Record grouped (t : nccl_ofi_topo_t) : Prop := {
  gr_shape : shaped t;
  gr_gpu i d : data_vec t !! i = Some d -> 1 < info_list_len d -> is_gpu (gpu_group_node d);
}.

Context (Ht : hwloc_tree hw).

Lemma min_speed_ok o ob is_nic : h_objs hw !! o = Some ob -> o_type ob = HWLOC_OBJ_PCI_DEVICE -> exists r, get_pci_device_min_speed ob is_nic = Some r /\ speed_ok r.
Proof using Ht.
  intros Hob Hty. unfold get_pci_device_min_speed, speed_ok. destruct (get_speed_ok ob is_nic (ht_attr _ Ht o ob Hob)) as ([[rc s] w] & -> & Hs). unfold speed_ok in Hs; cbn in Hs.
  destruct (Z.eqb_spec rc 0) as [->|Hrc]; cbn [negb]; [|by eexists]. destruct (ht_device _ Ht o ob Hob Hty) as (p & pb & -> & Hpb). cbn. rewrite Hpb.
  destruct (get_speed_ok pb is_nic (ht_attr _ Ht p pb Hpb)) as ([[rc s'] w'] & -> & Hs'). unfold speed_ok in Hs'; cbn in Hs'. destruct (Z.eqb_spec rc 0) as [->|Hrc]; cbn [negb]; [|by eexists].
  eexists. split; [done|]. cbn [fst snd]. specialize (Hs eq_refl). specialize (Hs' eq_refl). lia.
Qed.

Lemma write_nic_wp o ob d indent out :
  h_objs hw !! o = Some ob -> o_type ob = HWLOC_OBJ_PCI_DEVICE -> (1 < info_list_len d -> is_gpu (gpu_group_node d)) -> 0 <= indent -> wp (write_nic ob d indent) (fun rc out' => wrote rc [] out out') out.
Proof using Ht.
  intros Hob Hty Hg Hi. unfold write_nic. destruct (min_speed_ok o ob true Hob Hty) as ([[rc s] w] & Hr & Hs). unfold speed_ok in Hs; cbn in Hs. wp_simpl. read_option.
  destruct (Z.eqb_spec rc 0) as [->|Hrc]; cbn [negb]; [|wp_simpl; apply wrote_nothing]. destruct (ht_attr _ Ht o ob Hob (or_intror Hty)) as [a Ha]. rewrite Ha. specialize (Hs eq_refl).
  assert (forall rc s w, (rc = 0 -> 0 <= s < 6 /\ 0 <= w < 2 ^ 64) -> wp (if negb (rc =? 0) then ret rc else let* a := of_option (Some a) in write_pci_tag indent a s w) (fun rc out' => wrote rc [] out out') out) as Hend.
  { clear - Hi Hob Ha. intros rc s w Hs. destruct (Z.eqb_spec rc 0) as [->|Hrc]; cbn [negb]; wp_simpl; [|apply wrote_nothing]. read_option. unfold write_pci_tag. apply fprintf_wrote; [|done]. destruct (Hs eq_refl). split_and!; try lia. by exists o, ob, a. }
  wp_simpl. destruct (Z.gtb_spec (info_list_len d) 1) as [Hlt|Hle]; wp_simpl; [|by apply Hend].
  destruct (Hg Hlt) as (g & Hgn & Hdev & _). destruct (ho_devs _ (hl_ok _ (ht_leaves _ Ht)) g Hdev) as (gob & ga & Hgob & Hgt & Hga). read_option. wp_simpl. unfold get_object. read_option. wp_simpl.
  destruct (min_speed_ok g gob false Hgob Hgt) as ([[rc gs] gw] & Hgr & Hgs). unfold speed_ok in Hgs; cbn in Hgs. read_option. destruct (Z.eqb_spec rc 0) as [->|Hrc]; cbn [negb]; wp_simpl; [|apply Hend; lia].
  destruct (scale_speed_spec _ (info_list_len d) s gs (le_n _) ltac:(lia)) as (k & Hk & _ & Heq & Hlim & _). rewrite Heq. pose proof (scale_width_range (Z.to_nat (info_list_len d / 2 ^ k)) (info_list_len d / 2 ^ k) w gw ltac:(lia)) as Hw. destruct (scale_width _ _ _ _) as [g2 w2]. wp_simpl. apply Hend. specialize (Hgs eq_refl). cbn in Hw. lia.
Qed.

Section Tree.
Context (t : nccl_ofi_topo_t) (Hg : grouped t).

Lemma user_data_wp o (Q : option nccl_ofi_topo_data_t -> list tag -> Prop) out :
  Q None out -> (forall i d, data_vec t !! i = Some d -> Q (Some d) out) -> wp (user_data t o) Q out.
Proof using Hg.
  intros Hn Hs. unfold user_data. destruct (t_userdata t !! o) as [x|] eqn:Hx; [|by wp_simpl]. destruct (sh_user _ (gr_shape _ Hg) o x Hx) as (i & d & -> & Hd & _).
  wp_simpl. read_option. wp_simpl. by apply (Hs i).
Qed.

Lemma get_numa_wp l out : (forall c, c ∈ l -> is_Some (h_objs hw !! c)) -> wp (get_numa_mem_child t l) (fun r out' => out' = out /\ match r with Some c => is_Some (h_objs hw !! c) | None => True end) out.
Proof using Hg.
  induction l as [|c l IH]; intros Hl; cbn [get_numa_mem_child]; [by wp_simpl|]. destruct (Hl c ltac:(left)) as [ob Hob]. unfold get_object. wp_simpl. read_option. wp_simpl.
  assert (wp (get_numa_mem_child t l) (fun r out' => out' = out /\ match r with Some c => is_Some (h_objs hw !! c) | None => True end) out) as Hrec by (apply IH; intros x Hx; apply Hl; by right).
  apply user_data_wp; [|intros i d _]; (destruct (bool_decide _); cbn [andb]; [|done]); [wp_simpl; split; [done|by exists ob]|done].
Qed.

Definition opened (c : closing) : list element := match c with CloseNone => [] | CloseNumanode => [ECpu] | CloseBridge => [EPci] end.

Lemma open_node_wp o ob i d indent depth out :
  h_objs hw !! o = Some ob -> data_vec t !! i = Some d -> 0 <= indent ->
  wp (open_node t ob d indent depth) (fun r out' => wrote r.1.1.1 (opened r.1.1.2) out out' /\ 0 <= r.1.2 /\ (r.1.1.2 <> CloseNone -> 2 <= r.1.2)) out.
Proof using Ht Hg.
  intros Hob Hd Hi. unfold open_node. case_bool_decide as Hb.
  { destruct (o_attr ob) as [a|] eqn:Ha; [|wp_simpl; split_and!; [apply wrote_nothing|done|done]]. destruct ((depth >=? 2) && _); wp_simpl; [|split_and!; [apply wrote_nothing|done|done]].
    unfold write_bridge_opening_tag. wp_simpl. read_option. eapply wp_mono; [apply (fprintf_wrote _ [EPci]); [|done]; split; [done|]; by exists o, ob, a|]. intros rc out' Hw. wp_simpl. cbn. split_and!; [done|lia|lia]. }
  match goal with |- wp (if _ then _ else ?m) ?Q _ => assert (wp m Q out) as Hrest end.
  { assert (forall p x, h_objs hw !! p = Some x -> wp (let* rc := write_cpu_opening_tag x indent in ret (rc, CloseNumanode, indent + 2, depth)) (fun r out' => wrote r.1.1.1 (opened r.1.1.2) out out' /\ 0 <= r.1.2 /\ (r.1.1.2 <> CloseNone -> 2 <= r.1.2)) out) as Hcpu.
    { intros p x Hx. wp_simpl. eapply wp_mono; [apply (fprintf_wrote _ [ECpu]); [|done]; split; [done|]; by exists p, x|]. intros rc out' Hw. wp_simpl. cbn. split_and!; [done|lia|lia]. }
    case_bool_decide as Hn; [by apply (Hcpu o)|]. wp_simpl. eapply wp_mono; [apply get_numa_wp; intros c; by apply (ht_memory _ Ht o ob)|]. intros [c|] out' [-> Hc]; [|wp_simpl; split_and!; [apply wrote_nothing|done|done]].
    destruct Hc as [cb Hcb]. unfold get_object. wp_simpl. read_option. by apply (Hcpu c). }
  destruct (bool_decide_reflect (o_type ob = HWLOC_OBJ_PCI_DEVICE)) as [Hp|Hp]; cbn [andb]; [|done]. destruct (bool_decide (info_list d = [])); cbn [negb]; [done|]. wp_simpl.
  eapply wp_mono; [apply (write_nic_wp o ob d indent out Hob Hp (gr_gpu _ Hg i d Hd) Hi)|]. intros rc out' Hw. wp_simpl. cbn. split_and!; [done|lia|lia].
Qed.

Lemma path_child o c cb : o_parent cb = Some o -> is_Some (h_objs hw !! o) -> h_objs hw !! c = Some cb -> path c = c :: path o.
Proof using Ht.
  intros Hp Ho Hc. pose proof (path_some (hl_ok _ (ht_leaves _ Ht)) c ltac:(by exists cb)) as H1. pose proof (path_some (hl_ok _ (ht_leaves _ Ht)) o Ho) as H2.
  destruct (base.size (h_objs hw)) as [|n] eqn:Hn; [done|]. cbn [root_path] in H1. rewrite Hc, Hp in H1. destruct (root_path hw n o) as [q|] eqn:Hq; [|done]. injection H1 as <-.
  f_equal. apply (root_path_mono hw n (S n)) in Hq; [|lia]. congruence.
Qed.

Lemma path_length o : is_Some (h_objs hw !! o) -> (length (path o) <= base.size (h_objs hw))%nat.
Proof using Ht.
  intros Ho. pose proof (path_some (hl_ok _ (ht_leaves _ Ht)) o Ho) as Hp. rewrite <- size_dom. rewrite <- (size_list_to_set (C := gset Z) (path o)) by by eapply root_path_nodup.
  apply subseteq_size. intros x Hx%elem_of_list_to_set. apply elem_of_dom. by eapply root_path_objs.
Qed.

(** Writing a subtree; the fuel is the number of objects, less those above. *)
Lemma write_rec_wp fuel : forall o indent depth out,
  is_Some (h_objs hw !! o) -> (base.size (h_objs hw) < fuel + length (path o))%nat -> 0 <= indent ->
  wp (write_nccl_topo_rec t fuel o indent depth) (fun rc out' => wrote rc [] out out') out.
Proof using Ht Hg.
  induction fuel as [|fuel IH]; intros o indent depth out Ho Hf Hi; [pose proof (path_length o Ho); lia|]. cbn [write_nccl_topo_rec]. destruct Ho as [ob Hob]. unfold get_object at 1. wp_simpl. read_option.
  wp_simpl. apply user_data_wp; [wp_simpl; apply wrote_nothing|]. intros i d Hd. wp_simpl. eapply wp_mono; [by apply (open_node_wp o ob i d)|]. clear indent depth Hi. intros [[[rc close] indent] depth] out1 (Hw & Hi & Hi2). cbn [fst snd] in Hw, Hi, Hi2.
  destruct (Z.eqb_spec rc 0) as [->|Hrc]; cbn [negb]; [|wp_simpl; by eapply wrote_fail]. wp_simpl.
  assert (forall c, c ∈ o_children ob -> exists cb, h_objs hw !! c = Some cb /\ o_parent cb = Some o) as Hch by (intros c; by apply (ht_child _ Ht o ob)).
  eapply (wp_mono _ (fun rc out' => wrote rc [] out1 out')).
  { revert Hch. generalize (o_children ob) as l. intros l. clear Hw. revert out1. induction l as [|c l IHl]; intros out1 Hch.
    - wp_simpl. apply wrote_nothing.
    - wp_simpl. destruct (Hch c ltac:(left)) as (cb & Hcb & Hcp). eapply wp_mono; [apply (IH c); [by exists cb| |done]|].
      + rewrite (path_child o c cb) by (done || by exists ob). cbn [length]. lia.
      + intros rc out2 Hw. destruct (Z.eqb_spec rc 0) as [->|Hrc]; cbn [negb]; [|by wp_simpl]. eapply wp_mono; [apply (IHl out2); intros x Hx; apply Hch; by right|]. intros rc out3 Hw3. by eapply wrote_trans. }
  intros rc out2 Hw2. destruct (Z.eqb_spec rc 0) as [->|Hrc]; cbn [negb]; [|wp_simpl; eapply wrote_fail; [done|by eapply wrote_trans]]. assert (wrote 0 (opened close) out out2) as Hw3 by by eapply wrote_trans.
  destruct close; cbn [opened] in *; [by wp_simpl|eapply wp_mono; [apply (fprintf_wp _ [ECpu] []); [|done]|]|eapply wp_mono; [apply (fprintf_wp _ [EPci] []); [|done]|]]; try (cbn; specialize (Hi2 ltac:(done)); lia); intros rc out3 Hw4; by eapply wrote_app.
Qed.

Lemma topo_write_wp : wp (nccl_ofi_topo_write t (base.size (h_objs hw))) (fun rc out => Forall tag_ok out /\ (rc = 0 -> nest out [] = Some [])) [].
Proof using Ht Hg.
  assert (forall (m : F Z), wp m (fun rc out => wrote rc [] [] out) [] -> wp m (fun rc out => Forall tag_ok out /\ (rc = 0 -> nest out [] = Some [])) []) as Hgoal.
  { intros m Hm. eapply wp_mono; [exact Hm|]. intros rc out (new & -> & Hok & Hn). split; [done|]. intros Hrc. apply (Hn Hrc). }
  apply Hgoal. unfold nccl_ofi_topo_write. wp_simpl. eapply wp_mono; [by apply (fprintf_wrote _ [ESystem])|]. intros rc out1 Hw. destruct (Z.eqb_spec rc 0) as [->|Hrc]; cbn [negb]; [|wp_simpl; exact (wrote_fail _ _ _ _ _ Hrc Hw)].
  wp_simpl. eapply wp_mono; [apply write_rec_wp; [apply (ht_root _ Ht)| |done]|].
  { destruct (path_self (ht_leaves _ Ht) _ (ht_root _ Ht)) as [q ->]. cbn. lia. }
  intros rc out2 Hw2. destruct (Z.eqb_spec rc 0) as [->|Hrc]; cbn [negb]; [|wp_simpl; eapply wrote_fail; [done|by eapply wrote_trans]]. eapply wp_mono; [by eapply (fprintf_wp _ [ESystem] [])|].
  intros rc out3 Hw3. eapply wrote_app; [by eapply wrote_trans|done].
Qed.

End Tree.

Lemma grouping_grouped {SO : SortOk} t0 k P q t : grouping t0 k [] P q t -> grouped t.
Proof.
  intros HG. constructor; [apply (gg_shape _ _ _ _ _ _ HG)|]. intros i d Hi Hlt. apply (gg_gpu _ _ _ _ _ _ HG i d Hi). destruct (gg_len _ _ _ _ _ _ HG i d Hi). lia.
Qed.


End Nested.

(** A larger machine: the root with a NUMA node among its memory
    children, the two bridges of the host, and a switch with two GPUs and four NICs. *)
Definition switch_dev (bus class_id vendor_id : Z) : hobj := mk_obj HWLOC_OBJ_PCI_DEVICE (Some (mk_attr (mk_busid 0 bus 0 0) class_id vendor_id)) (Some 5) [] [] 0.
Definition switch_bridge (bus parent : Z) (children : list Z) : hobj := mk_obj HWLOC_OBJ_BRIDGE (Some (mk_attr (mk_busid 0 bus 0 0) 1540 0)) (Some parent) children [] 0.
Definition switch_objs : gmap Z hobj :=
  {[ 0 := mk_obj HWLOC_OBJ_OTHER None None [2] [1] 0; 1 := mk_obj HWLOC_OBJ_NUMANODE None (Some 0) [] [] 0;
     2 := switch_bridge 2 0 [3]; 3 := switch_bridge 3 2 [4]; 4 := switch_bridge 4 3 [5]; 5 := switch_bridge 5 4 [10; 11; 20; 21; 22; 23];
     10 := switch_dev 10 770 4318; 11 := switch_dev 11 770 4318;
     20 := switch_dev 20 512 7503; 21 := switch_dev 21 512 7503; 22 := switch_dev 22 512 7503; 23 := switch_dev 23 512 7503 ]}.
Definition switch_env : TopoEnv :=
  {| hw := scan_hwloc switch_objs 0 [10; 11; 20; 21; 22; 23]; dupinfo_ok _ := true; platform_sort_rails l _ _ := l |}.

(** NICs report an unknown link; ports and GPUs 16 GT/s and 16 lanes. *)
Definition switch_files : WriteEnv :=
  {| get_device_property b name :=
       (0, if 20 <=? b_bus b then (if String.eqb name speed_name then "Unknown"%string else "255"%string)
           else (if String.eqb name speed_name then "16.0 GT/s PCIe"%string else "16"%string));
     fprintf_errno _ := 0; stale_erange := false |}.

Definition switch_topo : nccl_ofi_topo_t :=
  match @nccl_ofi_topo_create switch_env true true 0 0 example_nics (mk_topo ∅ [] 0 5000) with Some (_, t) => t | None => mk_topo ∅ [] 0 0 end.

(** The tree laws on a concrete map. *)
Lemma tree_ok (H : hwloc) :
  hwloc_leaves H -> is_Some (h_objs H !! h_root H) ->
  bool_decide (map_Forall (fun o ob => Forall (fun c => option_bind _ _ o_parent (h_objs H !! c) = Some o) (o_children ob) /\ Forall (fun c => is_Some (h_objs H !! c)) (o_memory_children ob) /\
    (o_type ob = HWLOC_OBJ_BRIDGE \/ o_type ob = HWLOC_OBJ_PCI_DEVICE -> is_Some (o_attr ob)) /\ (o_type ob = HWLOC_OBJ_PCI_DEVICE -> is_Some (o_parent ob ≫= (h_objs H !!.)))) (h_objs H)) = true ->
  hwloc_tree H.
Proof.
  intros Hl Hr Hm%bool_decide_eq_true. constructor; try done; intros o ob; [intros c|intros c| |]; intros Hob; destruct (Hm o ob Hob) as (H1 & H2 & H3 & H4).
  - intros Hc. rewrite Forall_forall in H1. specialize (H1 c Hc). destruct (h_objs H !! c) as [cb|]; [|done]. by exists cb.
  - intros Hc. rewrite Forall_forall in H2. by apply H2.
  - done.
  - intros Hty. destruct (H4 Hty) as [pb Hpb]. destruct (o_parent ob) as [p|]; [|done]. by exists p, pb.
Qed.

Lemma switch_tree : hwloc_tree (@hw switch_env).
Proof. apply tree_ok; [apply scan_hwloc_ok; vm_compute; reflexivity|by eexists|vm_compute; reflexivity]. Qed.

Lemma switch_sort : @SortOk switch_env.
Proof. by constructor. Qed.

(** Two groups of two NICs: each looks like one NIC of twice the width. *)


End TopoWrite.
