(* ===== verification/TopoText.v ===== *)
(** * The text of the topology file

    The tags of TopoWrite.v as the fprintf calls of nccl_ofi_topo.c print them, and a
    reader for that text. What is printed is read back, so the text of a file determines
    its tags: TopoFile.v uses this for the file that NCCL gets. Reading link speeds from
    sysfs (PciText.v) is an instance of the environment of TopoWrite.v. *)

From Stdlib Require Import Ascii.
From stdpp Require Import strings pretty.
From S2P Require Import Prelude Strtol PciText StateM Topo TopoWrite.
Import Strtol PciText Topo TopoWrite.

Module TopoText.

Open Scope Z_scope.

(** ** Printing *)

Definition quote : string := String "034" EmptyString.
Definition nl : string := String "010" EmptyString.

Fixpoint spaces (n : nat) : string := match n with O => EmptyString | S n' => String " " (spaces n') end.
Definition indentation (indent : Z) : string := spaces (Z.to_nat indent).

Definition pci_of (b : busid) : fi_pci_attr := mk_pci (b_domain b) (b_bus b) (b_dev b) (b_func b).
Definition gen_text (speed_idx : Z) : string := default EmptyString (pcie_gen !! Z.to_nat speed_idx).

Definition unsigned_text (n : Z) : string := pretty (Z.to_N n).

Definition cpu_open_text (indent numaid : Z) : string := indentation indent +:+ "<cpu numaid=" +:+ quote +:+ unsigned_text numaid +:+ quote +:+ ">" +:+ nl.
Definition cpu_close_text (indent : Z) : string := indentation indent +:+ "</cpu>" +:+ nl.
Definition pci_tag_text (indent : Z) (b : busid) (speed_idx width : Z) : string :=
  indentation indent +:+ "<pci busid=" +:+ quote +:+ pci_text (pci_of b) +:+ quote +:+
  " link_speed=" +:+ quote +:+ gen_text speed_idx +:+ " GT/s PCIe/s" +:+ quote +:+ " link_width=" +:+ quote +:+ unsigned_text width +:+ quote +:+ "/>" +:+ nl.

Definition pci_open_text (indent : Z) (b : busid) : string :=
  indentation indent +:+ "<pci busid=" +:+ quote +:+ pci_text (pci_of b) +:+ quote +:+ ">" +:+ nl.
Definition pci_close_text (indent : Z) : string := indentation indent +:+ "</pci>" +:+ nl.

Definition tag_text (x : tag) : string :=
  match x with
  | SystemOpen => "<system version=" +:+ quote +:+ "1" +:+ quote +:+ ">" +:+ nl
  | SystemClose => "</system>"
  | CpuOpen i n => cpu_open_text i n
  | CpuClose i => cpu_close_text i
  | Pci i b s w => pci_tag_text i b s w
  | PciOpen i b => pci_open_text i b
  | PciClose i => pci_close_text i
  end.

Fixpoint file_text (out : list tag) : string :=
  match out with [] => EmptyString | x :: out' => tag_text x +:+ file_text out' end.

(** ** Reading *)

(** What follows a literal. *)
Fixpoint lit (l s : string) : option string :=
  match l with
  | EmptyString => Some s
  | String c l' => match s with String c' s' => if Ascii.eqb c c' then lit l' s' else None | EmptyString => None end
  end.

Fixpoint read_spaces (s : string) : Z * string :=
  match s with
  | String c s' => if Ascii.eqb c " " then let (n, r) := read_spaces s' in (n + 1, r) else (0, s)
  | EmptyString => (0, s)
  end.

Definition read_unsigned (s : string) : option (Z * string) :=
  match s with String c _ => if is_digit 10 c then Some (digits 10 s 0) else None | EmptyString => None end.

Fixpoint read_gen (gens : list string) (i : Z) (s : string) : option (Z * string) :=
  match gens with
  | [] => None
  | g :: gens' => match lit (g +:+ " GT/s PCIe/s") s with Some r => Some (i, r) | None => read_gen gens' (i + 1) s end
  end.

Definition read_cpu (i : Z) (s : string) : option (tag * string) :=
  '(n, s) ← read_unsigned s; s ← lit (quote +:+ ">" +:+ nl) s; Some (CpuOpen i n, s).

Definition read_pci_tag (i : Z) (s : string) : option (tag * string) :=
  '(p, s) ← read_pci s;
  let b := mk_busid (domain_id p) (bus_id p) (device_id p) (function_id p) in
  s ← lit quote s;
  match lit (">" +:+ nl) s with
  | Some s => Some (PciOpen i b, s)
  | None =>
      s ← lit (" link_speed=" +:+ quote) s;
      '(g, s) ← read_gen pcie_gen 0 s;
      s ← lit (quote +:+ " link_width=" +:+ quote) s;
      '(w, s) ← read_unsigned s;
      s ← lit (quote +:+ "/>" +:+ nl) s;
      Some (Pci i b g w, s)
  end.

Definition read_tag (s : string) : option (tag * string) :=
  let (i, s) := read_spaces s in
  match lit ("<system version=" +:+ quote +:+ "1" +:+ quote +:+ ">" +:+ nl) s with
  | Some s => Some (SystemOpen, s)
  | None =>
      match lit "</system>" s with
      | Some s => Some (SystemClose, s)
      | None =>
          match lit ("</cpu>" +:+ nl) s with
          | Some s => Some (CpuClose i, s)
          | None =>
              match lit ("</pci>" +:+ nl) s with
              | Some s => Some (PciClose i, s)
              | None =>
                  match lit ("<cpu numaid=" +:+ quote) s with
                  | Some s => read_cpu i s
                  | None => s ← lit ("<pci busid=" +:+ quote) s; read_pci_tag i s
                  end
              end
          end
      end
  end.

Fixpoint read_tags (n : nat) (s : string) : option (list tag) :=
  match s with
  | EmptyString => Some []
  | String _ _ => match n with O => None | S n' => '(x, s) ← read_tag s; l ← read_tags n' s; Some (x :: l) end
  end.

(** ** What is printed is read back *)

(** The numbers of a tag are in the range of their types. *)
Definition tag_wf (x : tag) : Prop :=
  match x with
  | Pci i b s w => 0 <= i /\ pci_ok (pci_of b) /\ 0 <= s < 6 /\ 0 <= w
  | PciOpen i b => 0 <= i /\ pci_ok (pci_of b)
  | CpuOpen i n => 0 <= i /\ 0 <= n
  | CpuClose i | PciClose i => 0 <= i
  | SystemOpen | SystemClose => True
  end.

Lemma lit_app l s : lit l (l +:+ s) = Some s.
Proof. induction l as [|c l IH]; [done|]. change (lit (String c l) (String c (l +:+ s)) = Some s). cbn. by rewrite Ascii.eqb_refl. Qed.

Lemma read_indent i s : 0 <= i -> match s with String c _ => Ascii.eqb c " " = false | EmptyString => True end -> read_spaces (indentation i +:+ s) = (i, s).
Proof.
  intros Hi Hs. unfold indentation. rewrite <- (Z2Nat.id i) at 2 by done. generalize (Z.to_nat i) as n. induction n as [|n IH].
  - change (read_spaces s = (0, s)). destruct s as [|c s]; [done|]. cbn. by rewrite Hs.
  - change (read_spaces (String " " (spaces n +:+ s)) = (Z.of_nat (S n), s)). cbn [read_spaces]. change (Ascii.eqb " " " ") with true. cbn iota. rewrite IH. f_equal. lia.
Qed.

Lemma read_number n s : 0 <= n -> read_unsigned (unsigned_text n +:+ quote +:+ s) = Some (n, (quote +:+ s)%string).
Proof.
  intros Hn. unfold unsigned_text. pose proof (digits_pretty (Z.to_N n) (quote +:+ s) eq_refl) as Hd. destruct (pretty_first (Z.to_N n) (quote +:+ s)) as (c & t & Hc & d & Hlt & ->). rewrite Hc in *. cbn [read_unsigned].
  rewrite (proj1 (digit_char d Hlt)), Hd, Z2N.id by done. done.
Qed.

Lemma read_speed s rest : 0 <= s < 6 -> read_gen pcie_gen 0 (gen_text s +:+ " GT/s PCIe/s" +:+ rest) = Some (s, rest).
Proof.
  intros Hs. rewrite <- (Z2Nat.id s) by lia. assert (Z.to_nat s < 6)%nat as Hlt by lia. revert Hlt. generalize (Z.to_nat s) as n. intros n Hn. do 6 (destruct n as [|n]; [reflexivity|]). lia.
Qed.

Lemma read_cpu_text i n s : 0 <= n -> read_cpu i (unsigned_text n +:+ quote +:+ ">" +:+ nl +:+ s) = Some (CpuOpen i n, s).
Proof. intros Hn. unfold read_cpu, mbind, option_bind. rewrite read_number by done. change (quote +:+ ">" +:+ nl +:+ s)%string with ((quote +:+ ">" +:+ nl) +:+ s)%string. by rewrite lit_app. Qed.

Lemma read_open_text i b s : pci_ok (pci_of b) -> read_pci_tag i (pci_text (pci_of b) +:+ quote +:+ ">" +:+ nl +:+ s) = Some (PciOpen i b, s).
Proof.
  intros Hb. unfold read_pci_tag, mbind, option_bind. rewrite read_pci_text by done. rewrite lit_app. change (">" +:+ nl +:+ s)%string with ((">" +:+ nl) +:+ s)%string. rewrite lit_app. by destruct b.
Qed.

Lemma read_pci_tag_text i b sp w s : pci_ok (pci_of b) -> 0 <= sp < 6 -> 0 <= w ->
  read_pci_tag i (pci_text (pci_of b) +:+ quote +:+ " link_speed=" +:+ quote +:+ gen_text sp +:+ " GT/s PCIe/s" +:+ quote +:+ " link_width=" +:+ quote +:+ unsigned_text w +:+ quote +:+ "/>" +:+ nl +:+ s) = Some (Pci i b sp w, s).
Proof.
  intros Hb Hs Hw. unfold read_pci_tag, mbind, option_bind. rewrite read_pci_text by done. rewrite lit_app. change (lit (">" +:+ nl) (" link_speed=" +:+ ?x)) with (@None string). cbv beta iota.
  set (t := (gen_text sp +:+ _)%string). change (lit (" link_speed=" +:+ quote) (" link_speed=" +:+ quote +:+ t)) with (lit (" link_speed=" +:+ quote) ((" link_speed=" +:+ quote) +:+ t)). rewrite lit_app. subst t. cbv beta iota.
  rewrite read_speed by done. cbv beta iota. set (t := (unsigned_text w +:+ _)%string). change (quote +:+ " link_width=" +:+ quote +:+ t)%string with ((quote +:+ " link_width=" +:+ quote) +:+ t)%string. rewrite lit_app. subst t. cbv beta iota.
  rewrite read_number by done. cbv beta iota. change (quote +:+ "/>" +:+ nl +:+ s)%string with ((quote +:+ "/>" +:+ nl) +:+ s)%string. rewrite lit_app. by destruct b.
Qed.

Lemma read_tag_text x s : tag_wf x -> read_tag (tag_text x +:+ s) = Some (x, s).
Proof.
  unfold read_tag. destruct x as [| |i n|i|i b sp w|i b|i]; cbn [tag_wf tag_text].
  - intros _. change (read_spaces (?l +:+ s)) with (0, (l +:+ s)%string). cbv beta iota. by rewrite lit_app.
  - intros _. change (read_spaces (?l +:+ s)) with (0, (l +:+ s)%string). cbv beta iota. change (lit _ ("</system>" +:+ s)) with (@None string) at 1. cbv beta iota. by rewrite lit_app.
  - intros [Hi Hn]. unfold cpu_open_text. rewrite !str_assoc, read_indent by done. exact (read_cpu_text i n s Hn).
  - intros Hi. unfold cpu_close_text. rewrite !str_assoc, read_indent by done. reflexivity.
  - intros (Hi & Hb & Hs & Hw). unfold pci_tag_text. rewrite !str_assoc, read_indent by done. exact (read_pci_tag_text i b sp w s Hb Hs Hw).
  - intros [Hi Hb]. unfold pci_open_text. rewrite !str_assoc, read_indent by done. exact (read_open_text i b s Hb).
  - intros Hi. unfold pci_close_text. rewrite !str_assoc, read_indent by done. reflexivity.
Qed.

Lemma tag_text_nonempty x s : tag_wf x -> exists c t, (tag_text x +:+ s)%string = String c t.
Proof.
  intros Hx. pose proof (read_tag_text x s Hx) as Hr. destruct (tag_text x +:+ s)%string as [|c t]; [|eauto]. by vm_compute in Hr.
Qed.

(** The text of the topology file determines its tags. *)
Theorem file_text_roundtrip out : Forall tag_wf out -> read_tags (length out) (file_text out) = Some out.
Proof.
  induction 1 as [|x out Hx _ IH]; [done|]. cbn [file_text length]. pose proof (read_tag_text x (file_text out) Hx) as Hr. destruct (tag_text_nonempty x (file_text out) Hx) as (c & t & Ht). rewrite Ht in *. cbn [read_tags]. rewrite Hr. cbn. by rewrite IH.
Qed.

Definition ex_tags : list tag :=
  [SystemOpen; CpuOpen 2 0; PciOpen 4 (mk_busid 0 4 0 0); Pci 6 (mk_busid 0 171 0 1) 3 16; PciClose 4; CpuClose 2; SystemClose].

Lemma file_text_roundtrip_witness :
  tag_text (Pci 1 (mk_busid 0 171 0 1) 3 16) = (" <pci busid=" +:+ quote +:+ "0000:ab:00.1" +:+ quote +:+ " link_speed=" +:+ quote +:+ "16 GT/s PCIe/s" +:+ quote +:+ " link_width=" +:+ quote +:+ "16" +:+ quote +:+ "/>" +:+ nl)%string /\
  read_tags 7 (file_text ex_tags) = Some ex_tags.
Proof.
  split; [vm_compute; reflexivity|]. apply (file_text_roundtrip ex_tags). repeat constructor; vm_compute; (intros H; discriminate H) || reflexivity.
Defined.

End TopoText.
