(* ===== verification/TopoFile.v ===== *)
(** * The topology file and the end of a topology

    write_topo_file (nccl_ofi_rdma.c) writes the topology into a memory file and tells
    NCCL its path in NCCL_TOPO_FILE; nccl_ofi_topo_free (nccl_ofi_topo.c) gives the
    memory of a topology back. The theorems: NCCL finds a complete, well nested file
    about the machine or, on any error, an unchanged process; and after
    creation, successful or not, every copied NIC structure is freed exactly once. *)

From Stdlib Require Import Ascii.
From stdpp Require Import strings pretty.
From S2P Require Import Prelude Strtol PciText StateM NetTypes Topo TopoCreate TopoGroup TopoWrite TopoText.
Import Strtol Topo TopoCreate TopoGroup TopoWrite TopoText.

Module TopoFile.

Open Scope Z_scope.

(** ** Writing the file *)

(** The environment variables and the open memory files with their contents. *)
Record process := mk_process { environ : gmap string string; fds : gmap Z string }.

(** The errors of the calls, 0 for success, and the descriptor of a new file. *)
Class FileEnv := {
  memfd : Z;
  memfd_errno : Z;
  fdopen_errno : Z;
  fflush_errno : Z;
  setenv_errno : Z;
}.

Abbreviation PM := (SM process).

Definition w_environ f p := mk_process (f (environ p)) (fds p).
Definition w_fds f p := mk_process (environ p) (f (fds p)).

(** snprintf into a buffer of 32 characters. *)
Definition filename (fd : Z) : string := String.substring 0 31 ("/proc/self/fd/" +:+ pretty fd).

Section File.
Context {E : TopoEnv} {WE : WriteEnv} {FE : FileEnv}.

(** fclose closes the descriptor; what is not flushed is lost with the file. *)
Definition fclose (fd : Z) : PM unit := modify (w_fds (delete fd)).

Definition write_topo_file (fuel : nat) (topo : nccl_ofi_topo_t) : PM Z :=
  let* v := gets (fun p => environ p !! "NCCL_TOPO_FILE"%string) in
  match v with
  | Some _ => ret 0
  | None =>
      if negb (memfd_errno =? 0) then ret (- memfd_errno)
      else
        let topo_fd := memfd in
        modify (w_fds <[topo_fd := EmptyString]>) ;;;
        if negb (fdopen_errno =? 0) then fclose topo_fd ;;; ret (- fdopen_errno)
        else
          let* (rc, out) := of_option (nccl_ofi_topo_write topo fuel []) in
          if negb (rc =? 0) then fclose topo_fd ;;; ret rc
          else if negb (fflush_errno =? 0) then fclose topo_fd ;;; ret (- fflush_errno)
          else
            modify (w_fds <[topo_fd := file_text out]>) ;;;
            if negb (setenv_errno =? 0) then fclose topo_fd ;;; ret (- setenv_errno)
            else modify (w_environ <["NCCL_TOPO_FILE"%string := filename topo_fd]>) ;;; ret 0
  end.

End File.

(** Reading link speeds through sysfs. *)
Definition sysfs_env (S : PciText.Sysfs) (errno : list tag -> Z) (stale : bool) : WriteEnv :=
  {| get_device_property b name := let (rc, prop) := PciText.get_device_property (pci_of b) name in (rc, default EmptyString prop);
     fprintf_errno := errno; stale_erange := stale |}.

(** A descriptor is an int, so its path is not cut. *)
Lemma pretty_length (x : N) : Z.of_N x < 2 ^ 31 -> (String.length (pretty x) <= 10)%nat.
Proof.
  intros Hx. unfold pretty, pretty_N. destruct (decide (x = 0%N)); [cbn; lia|]. assert (forall k y s, (y < 10 ^ N.of_nat k)%N -> (String.length (pretty_N_go y s) <= k + String.length s)%nat) as Hlen.
  { induction k as [|k IH]; intros y s Hy; [assert (y = 0%N) as -> by (change (10 ^ N.of_nat 0)%N with 1%N in Hy; lia); by rewrite pretty_N_go_0|]. destruct (decide (y = 0%N)) as [->|Hnz]; [rewrite pretty_N_go_0; lia|]. rewrite pretty_N_go_step by lia.
    etrans; [apply IH|cbn; lia]. rewrite Nat2N.inj_succ, N.pow_succ_r' in Hy. apply N.Div0.div_lt_upper_bound. lia. }
  specialize (Hlen 10%nat x EmptyString). change (10 ^ N.of_nat 10)%N with 10000000000%N in Hlen. cbn [String.length] in Hlen. lia.
Qed.

Lemma substring_all s : forall n, (String.length s <= n)%nat -> String.substring 0 n s = s.
Proof. induction s as [|c s IH]; intros [|n] Hn; cbn in *; [done..|lia|]. f_equal. apply IH. lia. Qed.

Lemma filename_whole fd : 0 <= fd < 2 ^ 31 -> filename fd = ("/proc/self/fd/" +:+ pretty fd)%string.
Proof.
  intros Hfd. apply substring_all. change (14 + String.length (pretty fd) <= 31)%nat. pose proof (pretty_length (Z.to_N fd) ltac:(lia)) as Hl. destruct fd as [|q|q]; [cbn; lia| |lia]. change (pretty (Z.pos q)) with (pretty (N.pos q)). cbn [Z.to_N] in Hl. lia.
Qed.

(** What hwloc guarantees about the numbers of its objects. *)
Record hwloc_ranges (H : hwloc) : Prop := {
  hr_attr o ob a : h_objs H !! o = Some ob -> o_attr ob = Some a -> PciText.pci_ok (pci_of (a_busid a));
  hr_index o ob : h_objs H !! o = Some ob -> 0 <= o_os_index ob;
}.

Lemma tag_ok_wf {E : TopoEnv} x : hwloc_ranges hw -> tag_ok x -> tag_wf x.
Proof.
  intros Hr. destruct x as [| |i n|i|i b s w|i b|i]; cbn [tag_ok tag_wf]; try done.
  - intros (Hi & o & ob & Ho & <-). split; [done|by eapply hr_index].
  - intros (Hi & (o & ob & a & Ho & Ha & <-) & Hs & Hw). split_and!; try lia. by eapply hr_attr.
  - intros (Hi & o & ob & a & Ho & Ha & <-). split; [done|by eapply hr_attr].
Qed.

Section Published.
Context {E : TopoEnv} {WE : WriteEnv} {FE : FileEnv} {SO : SortOk}.
Context (Ht : hwloc_tree hw) (Hr : hwloc_ranges hw).

Lemma write_topo_file_spec t p :
  grouped t -> 0 <= memfd < 2 ^ 31 -> fds p !! memfd = None ->
  exists rc p', write_topo_file (base.size (h_objs hw)) t p = Some (rc, p') /\
    (rc <> 0 \/ is_Some (environ p !! "NCCL_TOPO_FILE"%string) -> p' = p) /\
    (rc = 0 -> environ p !! "NCCL_TOPO_FILE"%string = None ->
     environ p' = <["NCCL_TOPO_FILE"%string := ("/proc/self/fd/" +:+ pretty memfd)%string]> (environ p) /\
     exists text out, fds p' = <[memfd := text]> (fds p) /\ read_tags (length out) text = Some out /\ nest out [] = Some [] /\ Forall tag_ok out).
Proof using Ht Hr.
  intros Hg Hfd Hfresh. pose proof (topo_write_wp Ht t Hg) as Hwr. apply wp_run in Hwr as (rcw & out & Hw & Hok & Hn).
  assert (delete memfd (<[memfd := EmptyString]> (fds p)) = fds p) as Hdel by (rewrite delete_insert_eq; by apply delete_id).
  assert (forall s, delete memfd (<[memfd := s]> (<[memfd := EmptyString]> (fds p))) = fds p) as Hdel2 by (intros s; rewrite insert_insert_eq, delete_insert_eq; by apply delete_id).
  unfold write_topo_file, fclose, of_option, bind, gets, modify, ret. destruct (environ p !! "NCCL_TOPO_FILE"%string) eqn:Hv; [exists 0, p; split_and!; done|].
  assert (forall e, (negb (e =? 0) = true -> - e <> 0)) as Hneg by (intros e He; destruct (Z.eqb_spec e 0); [done|lia]).
  destruct (negb (memfd_errno =? 0)) eqn:E1; [exists (- memfd_errno), p; split_and!; try done; by specialize (Hneg _ E1)|]. destruct (negb (fdopen_errno =? 0)) eqn:E2; [exists (- fdopen_errno), p; split_and!; try done; [|by specialize (Hneg _ E2)]; cbn; unfold w_fds; cbn; rewrite Hdel; by destruct p|].
  rewrite Hw. destruct (Z.eqb_spec rcw 0) as [->|Hrc]; cbn [negb]; [|exists rcw, p; split_and!; try done; cbn; unfold w_fds; cbn; rewrite Hdel; by destruct p].
  destruct (negb (fflush_errno =? 0)) eqn:E3; [exists (- fflush_errno), p; split_and!; try done; [|by specialize (Hneg _ E3)]; cbn; unfold w_fds; cbn; rewrite Hdel; by destruct p|].
  destruct (negb (setenv_errno =? 0)) eqn:E4; [exists (- setenv_errno), p; split_and!; try done; [|by specialize (Hneg _ E4)]; cbn; unfold w_fds; cbn; rewrite Hdel2; by destruct p|].
  eexists 0, _. split_and!; [done|by intros [?|[? ?]]|]. intros _ _. cbn. split; [by rewrite filename_whole|]. exists (file_text out), out. split_and!; [by rewrite insert_insert_eq| |by apply Hn|done].
  apply file_text_roundtrip. eapply Forall_impl; [exact Hok|]. intros x. by apply tag_ok_wf.
Qed.

(** C13. From the devices to NCCL: for a topology made by create, grouping succeeds and
    writing the file ends. If the variable NCCL_TOPO_FILE is set, or on any error,
    the process is as before and no descriptor is left open; otherwise the variable names
    a file that is open and whose text is that of well nested tags, all closed, about
    objects of the machine. *)
Theorem topo_file_published infos f t p :
  0 < f ->
  nccl_ofi_topo_create true true 0 0 infos (mk_topo ∅ [] 0 f) = Some (true, t) -> 0 <= memfd < 2 ^ 31 -> fds p !! memfd = None ->
  exists t' rc p', nccl_ofi_topo_group t = Some (0, t') /\ write_topo_file (base.size (h_objs hw)) t' p = Some (rc, p') /\
    (rc <> 0 \/ is_Some (environ p !! "NCCL_TOPO_FILE"%string) -> p' = p) /\
    (rc = 0 -> environ p !! "NCCL_TOPO_FILE"%string = None ->
     environ p' = <["NCCL_TOPO_FILE"%string := ("/proc/self/fd/" +:+ pretty memfd)%string]> (environ p) /\
     exists text out, fds p' = <[memfd := text]> (fds p) /\ read_tags (length out) text = Some out /\ nest out [] = Some [] /\ Forall tag_ok out).
Proof using Ht Hr SO.
  intros Hf Hrun Hfd Hfresh. destruct (group_after_create (ht_leaves _ Ht) infos f t Hf Hrun) as (t' & t2 & P & q & Hrun' & _ & HG & _). exists t'.
  destruct (write_topo_file_spec t' p (grouping_grouped _ _ _ _ _ HG) Hfd Hfresh) as (rc & p' & H). by exists rc, p'.
Qed.

End Published.

(** ** The end of a topology *)

(** A nccl_ofi_topo_t to be freed: whether it has a hwloc topology, and its vector. *)
Record topo_object := mk_topo_object { to_topo : bool; to_vec : option (list nccl_ofi_topo_data_t) }.

(** What is allocated: NIC structures by address, hwloc topologies, and blocks of memory
    for arrays, vectors and topologies. *)
Record live := mk_live { l_infos : gset Z; l_hwloc : Z; l_blocks : Z }.

Definition w_infos f l := mk_live (f (l_infos l)) (l_hwloc l) (l_blocks l).

(** The iterator over the vector, as positions. *)
Record nccl_ofi_topo_data_iterator_t := mk_iter { begin : nat; end_ : nat }.

Definition nccl_ofi_topo_set_to_begin (topo : option topo_object) : Z * option nccl_ofi_topo_data_iterator_t :=
  match topo with
  | None => (- EINVAL, None)
  | Some topo => match to_vec topo with None => (- EINVAL, None) | Some v => (0, Some (mk_iter 0 (length v))) end
  end.

Definition nccl_ofi_get_user_data (it : nccl_ofi_topo_data_iterator_t) : option nat :=
  if (end_ it <=? begin it)%nat then None else Some (begin it).

Definition nccl_ofi_inc_user_data_iter (it : nccl_ofi_topo_data_iterator_t) : nccl_ofi_topo_data_iterator_t := mk_iter (S (begin it)) (end_ it).

(** Freeing a structure that is not allocated is undefined. *)
Fixpoint free_infos (l : list nic) : SM live unit :=
  match l with
  | [] => ret tt
  | n :: l' =>
      let* s := gets l_infos in
      assert (bool_decide (n_ptr n ∈ s)) ;;;
      modify (w_infos (fun s => s ∖ {[n_ptr n]})) ;;;
      free_infos l'
  end.

Definition free_block : SM live unit :=
  let* b := gets l_blocks in assert (0 <? b) ;;; modify (fun l => mk_live (l_infos l) (l_hwloc l) (b - 1)).
Definition hwloc_topology_destroy : SM live unit :=
  let* h := gets l_hwloc in assert (0 <? h) ;;; modify (fun l => mk_live (l_infos l) (h - 1) (l_blocks l)).

(** The loop while (data); every round moves the iterator, so the length of the vector
    bounds it. *)
Fixpoint free_loop (fuel : nat) (v : list nccl_ofi_topo_data_t) (data : option nat) (it : nccl_ofi_topo_data_iterator_t) : SM live unit :=
  match data with
  | None => ret tt
  | Some i =>
      match fuel with
      | O => undefined
      | S fuel' =>
          let* d := of_option (v !! i) in
          free_infos (info_list d) ;;;
          free_loop fuel' v (nccl_ofi_get_user_data it) (nccl_ofi_inc_user_data_iter it)
      end
  end.

Definition nccl_ofi_topo_free (topo : option topo_object) : SM live unit :=
  match topo with
  | None => ret tt
  | Some topo =>
      (if to_topo topo then hwloc_topology_destroy else ret tt) ;;;
      match to_vec topo with
      | None => ret tt
      | Some v =>
          let* it := of_option (snd (nccl_ofi_topo_set_to_begin (Some topo))) in
          free_loop (length v) v (nccl_ofi_get_user_data it) (nccl_ofi_inc_user_data_iter it) ;;;
          free_block ;;; free_block
      end ;;;
      free_block
  end.

(** Distinct addresses, all given out since [f]. *)
Definition copies (f : Z) (t : nccl_ofi_topo_t) : Prop := NoDup (n_ptr <$> total t) /\ forall n, n ∈ total t -> f <= n_ptr n < t_fresh t.

Definition lists (t : nccl_ofi_topo_t) := (info_list <$> data_vec t, t_fresh t).

Lemma total_lists t t' : lists t' = lists t -> total t' = total t /\ t_fresh t' = t_fresh t.
Proof. intros [= Hv Hf]. split; [|done]. unfold total. assert (forall v, v ≫= info_list = (info_list <$> v) ≫= id) as He by (intros v; by rewrite list_fmap_bind). by rewrite !He, Hv. Qed.

Section Copies.
Context {E : TopoEnv}.

Lemma of_option_keeps {A T} (g : nccl_ofi_topo_t -> T) (o : option A) : StateM.keeps g (of_option o).
Proof. intros t r t'. destruct o; [|done]. by intros [= _ <-]. Qed.

Lemma count_walk_keeps p : forall c, StateM.keeps lists (count_walk p c).
Proof. induction p as [|o p IH]; intros c; cbn [count_walk]; [apply keeps_ret|]. apply keeps_bind; [apply keeps_gets|]. intros u. destruct (u !! o); [apply keeps_ret|]. apply keeps_bind; [by apply keeps_modify|]. intros _. apply IH. Qed.

Lemma clear_walk_keeps p : StateM.keeps lists (clear_walk p).
Proof. induction p as [|o p IH]; cbn [clear_walk]; [apply keeps_ret|]. apply keeps_bind; [by apply keeps_modify|]. intros _. apply IH. Qed.

Lemma count_pass_keeps devs l : forall c, StateM.keeps lists (count_pass devs l c).
Proof.
  induction devs as [|o devs IH]; intros c; cbn [count_pass]; [apply keeps_ret|]. apply keeps_bind; [apply of_option_keeps|]. intros ob. destruct (is_accelerator_dev ob) as [rc b]. destruct (negb (rc =? 0)); [apply keeps_ret|]. destruct (get_info_for_node ob l) as [rc2 i]. destruct (negb (rc2 =? 0)); [apply keeps_ret|].
  destruct (b || bool_decide (is_Some i)); [|apply IH]. apply keeps_bind; [apply of_option_keeps|]. intros p. destruct c as [n|]; (apply keeps_bind; [apply count_walk_keeps || apply clear_walk_keeps|]); intros ?; apply IH.
Qed.

Lemma set_root_keeps p : forall it, StateM.keeps lists (set_userdata_to_root p it).
Proof.
  induction p as [|o p IH]; intros it; cbn [set_userdata_to_root]; [apply keeps_ret|]. apply keeps_bind; [apply keeps_bind; [apply keeps_gets|]; intros u; destruct (u !! o) as [[|]|]; [apply keeps_undefined|apply keeps_ret..]|]. intros [i|]; [apply IH|]. apply keeps_bind; [apply keeps_gets|]. intros v.
  destruct (bool_decide _); [apply keeps_ret|]. apply keeps_bind; [by apply keeps_modify|]. intros _. apply keeps_bind; [|intros _; apply IH]. apply keeps_modify. intros t. unfold lists. cbn. f_equal. apply list_eq. intros j. rewrite !list_lookup_fmap. destruct (decide (it = j)) as [->|Hne]; [rewrite list_lookup_alter_eq|by rewrite list_lookup_alter_ne]. by destruct (data_vec t !! j).
Qed.

Lemma decorate_copies f devs l : forall it t rc t', decorate devs l it t = Some (rc, t') -> copies f t -> f <= t_fresh t -> copies f t' /\ f <= t_fresh t'.
Proof.
  induction devs as [|o devs IH]; intros it t rc t' Hrun Hc Hf; cbn [decorate] in Hrun; [by injection Hrun as _ <-|]. apply bind_inv in Hrun as (ob & t1 & H1 & Hrun). apply of_option_keeps with (g := fun t => t) in H1 as ->.
  destruct (is_accelerator_dev ob) as [rc1 b]. destruct (negb (rc1 =? 0)); [by injection Hrun as _ <-|]. destruct (get_info_for_node ob l) as [rc2 info]. destruct (negb (rc2 =? 0)); [by injection Hrun as _ <-|].
  apply bind_inv in Hrun as ([rc3 it3] & t3 & H3 & Hrun). assert (lists t3 = lists t) as Hl3.
  { destruct (b || bool_decide (is_Some info)); [|by injection H3 as _ _ <-]. apply bind_inv in H3 as (p & t2 & H2 & H3). apply of_option_keeps with (g := fun t => t) in H2 as ->. by apply set_root_keeps in H3. }
  destruct (total_lists _ _ Hl3) as [Ht3 Hf3]. assert (copies f t3) as Hc3 by (unfold copies; rewrite Ht3, Hf3; done). destruct (negb (rc3 =? 0)); [injection Hrun as _ <-; by rewrite Hf3|]. destruct info as [info|]; [|eapply IH; [exact Hrun|done|by rewrite Hf3]].
  apply bind_inv in Hrun as (u & t4 & H4 & Hrun). assert (t4 = t3) as -> by (unfold userdata_of in H4; apply bind_inv in H4 as (m & t5 & [= <- <-] & H4); destruct (t_userdata t3 !! o) as [[|]|]; [done|by injection H4 as _ <-..]).
  apply bind_inv in Hrun as (i & t5 & H5 & Hrun). apply of_option_keeps with (g := fun t => t) in H5 as ->. apply bind_inv in Hrun as (copy & t6 & H6 & Hrun). apply bind_inv in Hrun as ([] & t7 & [= <-] & Hrun).
  assert (copies f (w_vec (alter (w_list copy 1) i) t6) /\ f <= t_fresh (w_vec (alter (w_list copy 1) i) t6)) as [Hc7 Hf7].
  { rewrite <- Hf3 in Hf. clear - H6 Hc3 Hf. destruct Hc3 as [Hnd Hlt]. assert (total t6 = total t3 /\ (copy = [] /\ t_fresh t6 = t_fresh t3 \/ exists n, copy = [n] /\ n_ptr n = t_fresh t3 /\ t_fresh t6 = t_fresh t3 + 1)) as [Ht6 Hcase].
    { unfold fi_dupinfo in H6. destruct (dupinfo_ok info); [|injection H6 as <- <-; by split; [|left]]. injection H6 as <- <-. split; [done|]. right. eexists. by split_and!. }
    destruct (data_vec t6 !! i) as [d|] eqn:Hd.
    - pose proof (bind_alter (data_vec t6) (w_list copy 1) i d Hd) as Hp. cbn [w_list info_list] in Hp. assert (total (w_vec (alter (w_list copy 1) i) t6) ++ info_list d ≡ₚ total t6 ++ copy) as Hp' by exact Hp. rewrite Ht6 in Hp'.
      assert (NoDup (n_ptr <$> total t3 ++ copy) /\ forall n, n ∈ total t3 ++ copy -> f <= n_ptr n < t_fresh t6) as [Hnd' Hlt'].
      { destruct Hcase as [[-> Hfr]|(n & -> & Hn & Hfr)]; rewrite Hfr; [rewrite app_nil_r; done|]. rewrite fmap_app. split.
        - apply NoDup_app. split_and!; [done| |apply NoDup_singleton]. intros x (y & -> & Hy)%list_elem_of_fmap Hin. apply list_elem_of_singleton in Hin. specialize (Hlt y Hy). lia.
        - intros y [Hy| ->%list_elem_of_singleton]%elem_of_app; [specialize (Hlt y Hy); lia|lia]. }
      rewrite <- Hp' in Hnd'. rewrite fmap_app in Hnd'. apply NoDup_app in Hnd' as [Hnd' _]. split; [split; [done|]|cbn; destruct Hcase as [[_ ->]|(? & _ & _ & ->)]; lia]. intros n Hn. apply Hlt'. rewrite <- Hp'. apply elem_of_app. by left.
    - assert (alter (w_list copy 1) i (data_vec t6) = data_vec t6) as Ha by (apply list_eq; intros j; destruct (decide (i = j)) as [<-|]; [by rewrite list_lookup_alter_eq, Hd|by rewrite list_lookup_alter_ne]).
      assert (total (w_vec (alter (w_list copy 1) i) t6) = total t3) as He by (unfold total, w_vec; cbn; rewrite Ha; exact Ht6). split; [split; rewrite He; [done|]|cbn]; [intros n Hn; specialize (Hlt n Hn); cbn|]; destruct Hcase as [[_ ->]|(? & _ & _ & ->)]; lia. }
  destruct (bool_decide (copy = [])); [by injection Hrun as _ <-|]. apply bind_inv in Hrun as ([] & t8 & [= <-] & Hrun). by eapply IH.
Qed.

Lemma create_copies calloc_ok vec_ok init_rc load_rc infos f b t :
  nccl_ofi_topo_create calloc_ok vec_ok init_rc load_rc infos (mk_topo ∅ [] 0 f) = Some (b, t) -> copies f t.
Proof.
  intros Hrun. assert (forall t0, data_vec t0 = [] -> t_fresh t0 = f -> copies f t0) as Hempty.
  { intros t0 Hd Hf. unfold copies, total. rewrite Hd. split; [constructor|]. intros n Hn. by apply elem_of_nil in Hn. }
  unfold nccl_ofi_topo_create in Hrun. destruct (negb calloc_ok); [injection Hrun as _ <-; by apply Hempty|]. destruct (negb (init_rc =? 0)); [injection Hrun as _ <-; by apply Hempty|]. destruct (negb (load_rc =? 0)); [injection Hrun as _ <-; by apply Hempty|].
  apply bind_inv in Hrun as (rc & t1 & Hrun & [= _ <-]). unfold set_user_data in Hrun. apply bind_inv in Hrun as ([rc2 n] & t2 & Hcount & Hrun).
  assert (lists t2 = ([], f)) as Hl2.
  { change ([], f) with (lists (mk_topo ∅ [] 0 f)). revert Hcount. unfold count_nodes_with_accel_or_nic_in_subtree. intros (x & ta & Ha & Hc)%bind_inv. apply count_pass_keeps in Ha. destruct x as [rc3 c]. apply bind_inv in Hc as (k & tb & Hb & Hc). apply of_option_keeps with (g := fun t => t) in Hb as ->.
    destruct (negb (rc3 =? 0)); [by injection Hc as _ _ <-|]. apply bind_inv in Hc as (y & tc & Hc1 & Hc2). apply count_pass_keeps in Hc1. destruct y as [rc4 c4]. injection Hc2 as _ _ <-. congruence. }
  injection Hl2 as Hv2 Hf2. apply fmap_nil_inv in Hv2. destruct (negb (rc2 =? 0)); [injection Hrun as _ <-; by apply Hempty|]. unfold nccl_ofi_topo_data_vec_create in Hrun. destruct vec_ok; cbn [negb] in Hrun; [|injection Hrun as _ <-; by apply Hempty].
  apply bind_inv in Hrun as ([] & t3 & [= <-] & Hrun). eapply decorate_copies in Hrun as [Hc _]; [done| |cbn; lia].
  assert (total (w_vec (fun _ => replicate (Z.to_nat n) zero_data) t2) = []) as He by (unfold total; cbn; clear; induction (Z.to_nat n) as [|x IH]; [done|exact IH]).
  split; rewrite He; [constructor|]. intros x Hx. by apply elem_of_nil in Hx.
Qed.

Lemma free_infos_wp l : forall m, NoDup (n_ptr <$> l) -> (forall n, n ∈ l -> n_ptr n ∈ l_infos m) ->
  wp (free_infos l) (fun _ m' => m' = w_infos (fun s => s ∖ list_to_set (n_ptr <$> l)) m) m.
Proof.
  induction l as [|n l IH]; intros m Hnd Hin; cbn [free_infos]; [wp_simpl; destruct m as [s h k]; unfold w_infos; cbn; f_equal; set_solver|]. cbn in Hnd. apply NoDup_cons in Hnd as [Hn Hnd]. wp_simpl. apply wp_assert; [apply bool_decide_true, Hin; left|]. wp_simpl.
  eapply wp_mono; [apply IH; [done|]|].
  - intros x Hx. cbn. apply elem_of_difference. split; [apply Hin; by right|]. intros He%elem_of_singleton. apply Hn. rewrite <- He. by apply list_elem_of_fmap_2.
  - intros [] m' ->. destruct m as [s h k]. unfold w_infos. cbn. f_equal. set_solver.
Qed.

Lemma free_loop_wp v2 : forall v1 fuel m, (length v2 <= fuel)%nat -> NoDup (n_ptr <$> (v2 ≫= info_list)) -> (forall n, n ∈ v2 ≫= info_list -> n_ptr n ∈ l_infos m) ->
  wp (free_loop fuel (v1 ++ v2) (nccl_ofi_get_user_data (mk_iter (length v1) (length (v1 ++ v2)))) (nccl_ofi_inc_user_data_iter (mk_iter (length v1) (length (v1 ++ v2)))))
    (fun _ m' => m' = w_infos (fun s => s ∖ list_to_set (n_ptr <$> (v2 ≫= info_list))) m) m.
Proof.
  induction v2 as [|d v2 IH]; intros v1 fuel m Hf Hnd Hin; unfold nccl_ofi_get_user_data at 1; cbn [begin end_].
  - rewrite app_nil_r, (proj2 (Nat.leb_le _ _)) by lia. destruct fuel; cbn [free_loop]; wp_simpl; destruct m as [s h k]; unfold w_infos; cbn; f_equal; set_solver.
  - destruct fuel as [|fuel]; [cbn in Hf; lia|]. rewrite (proj2 (Nat.leb_gt _ _)) by (rewrite length_app; cbn; lia). cbn [free_loop]. wp_simpl. eapply wp_of_option; [apply list_lookup_middle; done|]. wp_simpl. cbn [bind list_bind mbind] in Hnd, Hin. rewrite fmap_app in Hnd. apply NoDup_app in Hnd as (H1 & H2 & H3).
    eapply wp_mono; [apply free_infos_wp; [done|intros n Hn; apply Hin, elem_of_app; by left]|]. intros [] m1 ->. unfold nccl_ofi_inc_user_data_iter at 1 2. cbn [begin end_]. specialize (IH (v1 ++ [d]) fuel). rewrite <- (assoc_L (++)), length_app in IH. cbn [length Datatypes.app] in IH. rewrite Nat.add_1_r in IH.
    eapply wp_mono; [apply IH; [cbn in Hf; lia|done|]|].
    + intros n Hn. cbn. apply elem_of_difference. split; [apply Hin, elem_of_app; by right|]. intros (y & He & Hy)%elem_of_list_to_set%list_elem_of_fmap. apply (H2 (n_ptr n)); [rewrite He; by apply list_elem_of_fmap_2|by apply list_elem_of_fmap_2].
    + intros [] m2 ->. destruct m as [s h k]. unfold w_infos. cbn. f_equal. rewrite fmap_app, list_to_set_app_L. set_solver.
Qed.

(** Whatever became of the creation of a topology, freeing it is defined and gives back
    exactly what it holds: every copied NIC structure once, the hwloc topology, the array,
    the vector and the topology itself. The other memory is as before. *)
Theorem topo_free_frees_once calloc_ok vec_ok init_rc load_rc infos f b t (vec : bool) others h k :
  nccl_ofi_topo_create calloc_ok vec_ok init_rc load_rc infos (mk_topo ∅ [] 0 f) = Some (b, t) -> (vec = false -> data_vec t = []) ->
  (forall x, x ∈ others -> x < f) -> 0 <= h -> 0 <= k ->
  nccl_ofi_topo_free (Some (mk_topo_object (init_rc =? 0) (if vec then Some (data_vec t) else None)))
    (mk_live (others ∪ list_to_set (n_ptr <$> total t)) (h + Z.b2z (init_rc =? 0)) (k + 1 + 2 * Z.b2z vec)) = Some (tt, mk_live others h k).
Proof.
  intros Hrun Hvec Ho Hh Hk. destruct (create_copies _ _ _ _ _ _ _ _ Hrun) as [Hnd Hlt]. set (W := others ∪ list_to_set (n_ptr <$> total t)).
  assert (W ∖ list_to_set (n_ptr <$> total t) = others) as HW.
  { apply set_eq. intros x. subst W. rewrite elem_of_difference, elem_of_union. split; [tauto|]. intros Hx. split; [by left|]. intros (n & -> & Hn)%elem_of_list_to_set%list_elem_of_fmap. specialize (Ho _ Hx). specialize (Hlt n Hn). lia. }
  cut (wp (nccl_ofi_topo_free (Some (mk_topo_object (init_rc =? 0) (if vec then Some (data_vec t) else None)))) (fun _ m' => m' = mk_live others h k) (mk_live W (h + Z.b2z (init_rc =? 0)) (k + 1 + 2 * Z.b2z vec))).
  { intros Hwp. apply wp_run in Hwp as ([] & m' & -> & ->). done. }
  unfold nccl_ofi_topo_free. cbn [to_topo to_vec]. apply wp_bind. apply (wp_mono _ (fun _ m' => m' = mk_live W h (k + 1 + 2 * Z.b2z vec))).
  { destruct (init_rc =? 0); cbn [Z.b2z]; [|wp_simpl; by rewrite Z.add_0_r]. unfold hwloc_topology_destroy. wp_simpl. cbn. apply wp_assert; [lia|]. wp_simpl. f_equal. lia. }
  intros [] m1 ->. apply wp_bind. apply (wp_mono _ (fun _ m' => m' = mk_live others h (k + 1))).
  { destruct vec; cbn [Z.b2z to_vec]; [|wp_simpl; unfold total in HW; rewrite (Hvec eq_refl) in HW; cbn in HW; f_equal; [set_solver|lia]].
    wp_simpl. eapply wp_of_option; [reflexivity|]. wp_simpl. eapply wp_mono; [apply (free_loop_wp (data_vec t) []); [lia|done|]|].
    - intros n Hn. cbn. subst W. apply elem_of_union. right. apply elem_of_list_to_set. by apply list_elem_of_fmap_2.
    - intros [] m2 ->. unfold w_infos. cbn [l_infos l_hwloc l_blocks]. fold (total t). rewrite HW. wp_simpl. unfold free_block. wp_simpl. cbn. apply wp_assert; [lia|]. wp_simpl. cbn. apply wp_assert; [lia|]. wp_simpl. f_equal. lia. }
  intros [] m2 ->. unfold free_block. wp_simpl. cbn. apply wp_assert; [lia|]. wp_simpl. f_equal. lia.
Qed.

End Copies.

(** The machine of TopoWrite.v with its files in sysfs. *)
Definition switch_property (bus : Z) (name text : string) : string * string := (PciText.property_path (PciText.mk_pci 0 bus 0 0) name, text).
Definition switch_fs : gmap string string :=
  list_to_map (((fun b => switch_property b speed_name ("16.0 GT/s PCIe" +:+ nl)) <$> [2; 3; 4; 5; 10; 11]) ++ ((fun b => switch_property b width_name ("16" +:+ nl)) <$> [2; 3; 4; 5; 10; 11]) ++
               ((fun b => switch_property b speed_name ("Unknown" +:+ nl)) <$> [20; 21; 22; 23]) ++ ((fun b => switch_property b width_name ("255" +:+ nl)) <$> [20; 21; 22; 23])).
Definition switch_sysfs : PciText.Sysfs :=
  {| PciText.sys_open path := match switch_fs !! path with Some text => inl (PciText.mk_sfile text None) | None => inr 2 end;
     PciText.sys_close _ := 0; PciText.sys_realpath path := inl path; PciText.sys_malloc_ok := true |}.
Definition switch_write : WriteEnv := sysfs_env switch_sysfs (fun _ => 0) false.
Definition switch_proc : FileEnv := {| memfd := 7; memfd_errno := 0; fdopen_errno := 0; fflush_errno := 0; setenv_errno := 0 |}.
Definition switch_start : process := mk_process {[ "PATH"%string := "/bin"%string ]} ∅.

Lemma switch_ranges : hwloc_ranges (@hw switch_env).
Proof.
  assert (map_Forall (fun _ ob => 0 <= o_os_index ob /\ match o_attr ob with Some a => PciText.pci_ok (pci_of (a_busid a)) | None => True end) switch_objs) as Hm.
  { unfold switch_objs. repeat (apply map_Forall_insert_2; [vm_compute; intuition discriminate|]). apply map_Forall_empty. }
  split; [intros o ob a Ho Ha|intros o ob Ho]; destruct (Hm o ob Ho) as [H1 H2]; [by rewrite Ha in H2|done].
Qed.

Lemma topo_file_published_witness :
  exists t' p', @nccl_ofi_topo_group switch_env switch_topo = Some (0, t') /\ @write_topo_file switch_env switch_write switch_proc 12 t' switch_start = Some (0, p') /\
    environ p' !! "NCCL_TOPO_FILE"%string = Some "/proc/self/fd/7"%string /\
    exists text out, fds p' !! 7 = Some text /\ read_tags (length out) text = Some out /\ nest out [] = Some [] /\ out <> [].
Proof.
  destruct (@topo_file_published switch_env switch_write switch_proc switch_sort switch_tree switch_ranges example_nics 5000 switch_topo switch_start ltac:(lia)) as (t' & rc & p' & Hg & Hw & _ & Hok); [vm_compute; reflexivity|vm_compute; intuition discriminate|reflexivity|].
  exists t', p'. assert (option_map snd (@nccl_ofi_topo_group switch_env switch_topo) = Some t') as Ht by (rewrite Hg; reflexivity). vm_compute in Ht. injection Ht as <-. change (base.size (h_objs (@hw switch_env))) with 12%nat in Hw.
  assert (rc = 0) as -> by (clear - Hw; vm_compute in Hw; by injection Hw as <- _). destruct (Hok eq_refl) as [He (text & out & Hf & Hr & Hn & _)]; [vm_compute; reflexivity|].
  split; [exact Hg|]. split; [exact Hw|]. split; [rewrite He; apply lookup_insert_eq|]. exists text, out. split; [rewrite Hf; apply lookup_insert_eq|]. split; [exact Hr|]. split; [exact Hn|].
  intros ->. cbn in Hr. assert (fds p' !! 7 = Some text) as Htx by (rewrite Hf; apply lookup_insert_eq). clear - Hw Htx Hr. vm_compute in Hw. injection Hw as <-. vm_compute in Htx. injection Htx as <-. discriminate Hr.
Defined.

Lemma topo_free_frees_once_witness :
  @nccl_ofi_topo_create switch_env true true 0 0 example_nics (mk_topo ∅ [] 0 5000) = Some (true, switch_topo) /\ total switch_topo <> [] /\
  nccl_ofi_topo_free (Some (mk_topo_object true (Some (data_vec switch_topo)))) (mk_live ({[7; 4000]} ∪ list_to_set (n_ptr <$> total switch_topo)) 1 13) = Some (tt, mk_live {[7; 4000]} 0 10).
Proof.
  assert (@nccl_ofi_topo_create switch_env true true 0 0 example_nics (mk_topo ∅ [] 0 5000) = Some (true, switch_topo)) as Hc by (vm_compute; reflexivity).
  split; [exact Hc|]. split; [vm_compute; discriminate|]. assert (forall x : Z, x ∈ ({[7; 4000]} : gset Z) -> x < 5000) as Hx by (clear; intros x Hx; set_unfold; lia).
  pose proof (@topo_free_frees_once switch_env true true 0 0 example_nics 5000 true switch_topo true {[7; 4000]} 0 10 Hc ltac:(discriminate) Hx ltac:(lia) ltac:(lia)) as H.
  change (0 + Z.b2z (0 =? 0)) with 1 in H. change (10 + 1 + 2 * Z.b2z true) with 13 in H. exact H.
Defined.

End TopoFile.
