(* ===== verification/RdmaInit.v ===== *)
(** * nccl_ofi_rdma.c: start of the RDMA transport

    nccl_net_ofi_rdma_init as the composition of the components it calls: the search for
    providers (OfiUtils.v), their capabilities (Plugin.v), the topology with its groups
    (TopoCreate.v, TopoGroup.v), the topology file (TopoFile.v) and the plug-in object
    (RdmaDevice.v); then complete_init, which makes a device from each group. *)

From stdpp Require Import strings pretty.
From S2P Require Import Prelude StateM NetTypes OfiUtils Plugin OfiRes RdmaWire SendrecvPlugin RdmaDevice Topo TopoCreate TopoGroup TopoWrite TopoText TopoFile.
Import OfiUtils Topo TopoCreate TopoGroup TopoWrite TopoText TopoFile OfiRes RdmaDevice.

Module RdmaInit.

Open Scope Z_scope.

(** ** Hints *)

Definition get_hints (ofi_nccl_mr_key_size : Z) : SendrecvPlugin.fi_hints :=
  let caps := [SendrecvPlugin.FI_MSG; SendrecvPlugin.FI_RMA; SendrecvPlugin.FI_HMEM] in
  let caps := caps ++ [SendrecvPlugin.FI_LOCAL_COMM; SendrecvPlugin.FI_REMOTE_COMM] in
  SendrecvPlugin.mk_hints caps []
    [SendrecvPlugin.FI_MR_LOCAL; SendrecvPlugin.FI_MR_HMEM; SendrecvPlugin.FI_MR_VIRT_ADDR; SendrecvPlugin.FI_MR_ALLOCATED; SendrecvPlugin.FI_MR_PROV_KEY]
    (u64 ofi_nccl_mr_key_size) [].

(** ** State *)

(** The fi_info structures of libfabric's lists, how many structures of fi_allocinfo
    are not freed, the topology with the next address for a copy of a NIC, the process,
    the plug-in with the libfabric objects, and two globals. *)
Record iworld := mk_iworld {
  iw_heap : OfiUtils.heap;
  iw_hints : Z;
  iw_topo : option nccl_ofi_topo_t;
  iw_fresh : Z;
  iw_process : process;
  iw_plugin : pworld;
  eager_max_size : Z;
  cpu_cache_line_size : Z;
}.

Abbreviation IM := (SM iworld).

Definition w_iheap h w := mk_iworld h (iw_hints w) (iw_topo w) (iw_fresh w) (iw_process w) (iw_plugin w) (eager_max_size w) (cpu_cache_line_size w).
Definition w_hints f w := mk_iworld (iw_heap w) (f (iw_hints w)) (iw_topo w) (iw_fresh w) (iw_process w) (iw_plugin w) (eager_max_size w) (cpu_cache_line_size w).
Definition w_itopo t w := mk_iworld (iw_heap w) (iw_hints w) t (iw_fresh w) (iw_process w) (iw_plugin w) (eager_max_size w) (cpu_cache_line_size w).
Definition w_iproc p w := mk_iworld (iw_heap w) (iw_hints w) (iw_topo w) (iw_fresh w) p (iw_plugin w) (eager_max_size w) (cpu_cache_line_size w).
Definition w_iplugin p w := mk_iworld (iw_heap w) (iw_hints w) (iw_topo w) (iw_fresh w) (iw_process w) p (eager_max_size w) (cpu_cache_line_size w).
Definition w_eager e w := mk_iworld (iw_heap w) (iw_hints w) (iw_topo w) (iw_fresh w) (iw_process w) (iw_plugin w) e (cpu_cache_line_size w).
Definition w_cache c w := mk_iworld (iw_heap w) (iw_hints w) (iw_topo w) (iw_fresh w) (iw_process w) (iw_plugin w) (eager_max_size w) c.

(** The answers of libfabric, hwloc, the allocator and sysconf, the parameters of the
    plug-in, the PCI address in the structure at an address, and the other fields of a
    copied structure. *)
Class InitEnv := {
  allocinfo_ok : bool;
  prov_env : Z -> SendrecvPlugin.fi_hints -> ProvEnv;
  nccl_ofi_dmabuf_viable : bool;
  version_ge_1_18 : bool;
  ofi_nccl_mr_key_size : Z;
  ofi_nccl_eager_max_size : Z;
  ofi_nccl_min_stripe_size : Z;
  topo_calloc_ok : bool;
  topo_vec_ok : bool;
  hwloc_init_rc : Z;
  hwloc_load_rc : Z;
  nic_bus : Z -> option busid;
  nic_info : nic -> OfiUtils.fi_info;
  sysconf_dcache_linesize : Z;
  init_fuel : nat;
}.

Definition NCCL_OFI_DEFAULT_CPU_CACHE_LINE_SIZE : Z := 64.

(** The elements of a list as the topology code reads them. *)
Fixpoint nics `{InitEnv} (fuel : nat) (p : Z) : OfiUtils.P (list nic) :=
  if p =? NULL then ret []
  else
    match fuel with
    | O => undefined
    | S fuel' =>
        let* c := deref p in
        let* l := nics fuel' (c_next c) in
        ret (mk_nic p (nic_bus p) :: l)
    end.

Section Init.
Context {IE : InitEnv} {E : OfiEnv} {C : DevConf} {B : Plugin.FiBits} {TE : TopoEnv} {WE : WriteEnv} {FE : FileEnv}.

Definition lift_h {A} (m : OfiUtils.P A) : IM A := fun w => match m (iw_heap w) with Some (a, h) => Some (a, w_iheap h w) | None => None end.
Definition lift_f {A} (m : SM process A) : IM A := fun w => match m (iw_process w) with Some (a, p) => Some (a, w_iproc p w) | None => None end.
Definition lift_i {A} (m : SM pworld A) : IM A := fun w => match m (iw_plugin w) with Some (a, p) => Some (a, w_iplugin p w) | None => None end.
(** A call on the topology, which is there. *)
Definition lift_t {A} (m : TM A) : IM A := fun w =>
  match iw_topo w with
  | None => None
  | Some t => match m t with Some (a, t') => Some (a, w_itopo (Some t') w) | None => None end
  end.

(** nccl_ofi_topo_create frees what it has made when it fails. *)
Definition topo_create (infos : list nic) : IM bool := fun w =>
  match nccl_ofi_topo_create topo_calloc_ok topo_vec_ok hwloc_init_rc hwloc_load_rc infos (mk_topo ∅ [] 0 (iw_fresh w)) with
  | Some (true, t) => Some (true, w_itopo (Some t) w)
  | Some (false, _) => Some (false, w)
  | None => None
  end.

Definition api_version : Z := if nccl_ofi_dmabuf_viable then SendrecvPlugin.FI_VERSION 1 20 else SendrecvPlugin.FI_VERSION 1 18.

(** The environment of the search. *)
Definition the_env : ProvEnv := prov_env api_version (get_hints ofi_nccl_mr_key_size).

Definition set_gdr (g : gdr_support_level_t) : IM unit := lift_i (lift_p (modify (w_gdr g))).

(** From the topology on; the code, whether *plugin_p is set, *found_multiple_rails. *)
Definition init_devices (multi : bool) : IM (Z * bool * bool) :=
  let* num_devs := lift_t nccl_ofi_topo_num_info_lists in
  if num_devs <=? 0 then ret (- EINVAL, false, multi)
  else
    let* rc := lift_i (nccl_net_ofi_rdma_plugin_create num_devs) in
    if negb (rc =? 0) then ret (rc, false, multi)
    else
      modify (w_cache (if sysconf_dcache_linesize <? 0 then NCCL_OFI_DEFAULT_CPU_CACHE_LINE_SIZE else sysconf_dcache_linesize)) ;;;
      ret (0, true, multi).

Definition init_topology (provider_list : Z) : IM (Z * bool * bool) :=
  let* infos := lift_h (nics init_fuel provider_list) in
  let* topo := topo_create infos in
  if negb topo then ret (- ENOTSUP, false, false)
  else
    let* rc := lift_t nccl_ofi_topo_group in
    if negb (rc =? 0) then ret (rc, false, false)
    else
      let* max := lift_t (gets max_group_size) in
      if max >? RdmaWire.MAX_NUM_RAILS then ret (- EINVAL, false, false)
      else if max <? 1 then ret (- EINVAL, false, false)
      else
        let multi := max >? 1 in
        let* t := lift_t (gets (fun t => t)) in
        let* rc := if multi then lift_f (write_topo_file (base.size (h_objs hw)) t) else ret 0 in
        if negb (rc =? 0) then ret (rc, false, multi) else init_devices multi.

Definition nccl_net_ofi_rdma_init (provider_filter : option string) : IM (Z * bool * bool) :=
  if negb allocinfo_ok then ret (- ENOMEM, false, false)
  else
    modify (w_hints (fun n => n + 1)) ;;;
    let* (rc, provider_list, num_providers) := lift_h (@nccl_ofi_ofiutils_get_providers the_env init_fuel provider_filter) in
    if negb (rc =? 0) then ret (rc, false, false)
    else
      set_gdr GDR_UNKNOWN ;;;
      modify (w_hints (fun n => n - 1)) ;;;
      let* p := of_option provider_list in
      let* c := lift_h (deref p) in
      let (rc, caps) := Plugin.nccl_net_ofi_query_provider_capabilities (c_info c) version_ge_1_18 in
      if negb (rc =? 0) then ret (rc, false, false)
      else
        let* (_, _, endpoint_mr) := of_option caps in
        if endpoint_mr : bool then ret (- ENOTSUP, false, false)
        else if ofi_nccl_eager_max_size >? ofi_nccl_min_stripe_size then ret (ncclInvalidArgument, false, false)
        else
          modify (w_eager ofi_nccl_eager_max_size) ;;;
          init_topology p.

(** complete_init with the lists that the iterator over the topology returns. *)
Definition rdma_complete_init : IM Z :=
  let* plugin := gets (fun w => pw_plugin (iw_plugin w)) in
  let* (lists, _) := lift_t (next_lists (Z.to_nat (Plugin.p_num_devs plugin)) 0) in
  let* max := lift_t (gets max_group_size) in
  lift_i (nccl_net_ofi_rdma_plugin_complete_init 0 max ((fun l : list nic => nic_info <$> l) <$> omap id lists)).

End Init.

(** ** Lemmas *)

Lemma create_true `{TopoEnv} calloc_ok vec_ok init_rc load_rc infos t0 t :
  nccl_ofi_topo_create calloc_ok vec_ok init_rc load_rc infos t0 = Some (true, t) ->
  calloc_ok = true /\ vec_ok = true /\ init_rc = 0 /\ load_rc = 0.
Proof.
  unfold nccl_ofi_topo_create. destruct calloc_ok; cbn [negb]; [|done]. destruct (Z.eqb_spec init_rc 0); cbn [negb]; [|done]. destruct (Z.eqb_spec load_rc 0); cbn [negb]; [|done].
  intros (rc & t1 & H1 & [= Hrc _])%bind_inv. unfold set_user_data in H1. apply bind_inv in H1 as ([rc2 n] & t2 & _ & H1). destruct (Z.eqb_spec rc2 0) as [|Hne]; cbn [negb] in H1; [|injection H1 as <- _; by apply Z.eqb_eq in Hrc].
  unfold nccl_ofi_topo_data_vec_create in H1. destruct vec_ok; [done|]. injection H1 as <- _. done.
Qed.

Lemma nics_wp `{InitEnv} l : forall fuel h p, seg h p l NULL -> (length l <= fuel)%nat ->
  wp (nics fuel p) (fun r h' => h' = h /\ r = (fun x => mk_nic x.1 (nic_bus x.1)) <$> l) h.
Proof.
  induction l as [|[a i] l IH]; intros fuel h p Hs Hf; [cbn in Hs; subst p; destruct fuel; cbn [nics Z.eqb NULL]; by wp_simpl|]. destruct Hs as (-> & Ha & n & Hn & Hs). destruct fuel as [|fuel]; [cbn in Hf; lia|].
  cbn [nics]. rewrite (proj2 (Z.eqb_neq _ _) Ha). wp_simpl. eapply deref_wp; [exact Hn|]. wp_simpl. cbn [c_next]. eapply wp_mono; [apply IH; [done|cbn in Hf; lia]|]. intros r h' [-> ->]. by wp_simpl.
Qed.

Lemma next_lists_groups `{TopoEnv} t : exists it, next_lists (length (groups (data_vec t))) 0 t = Some ((Some <$> groups (data_vec t), it), t).
Proof.
  destruct (next_lists_all t) as (it & Hrun & _). exists it. unfold nccl_ofi_topo_num_info_lists, bind, gets, ret in Hrun. rewrite Nat2Z.id in Hrun. unfold groups at 1. by rewrite length_fmap.
Qed.

Section Start.
Context {IE : InitEnv} {E : OfiEnv} {CO : CloseOk} {C : DevConf} {B : Plugin.FiBits} {TE : TopoEnv} {WE : WriteEnv} {FE : FileEnv}.

Lemma lift_h_wp {A} (m : OfiUtils.P A) w (Q : A -> iworld -> Prop) : wp m (fun a h => Q a (w_iheap h w)) (iw_heap w) -> wp (lift_h m) Q w.
Proof. unfold wp, lift_h. by destruct (m _) as [[a r]|]. Qed.
Lemma lift_f_wp {A} (m : SM process A) w (Q : A -> iworld -> Prop) : wp m (fun a p => Q a (w_iproc p w)) (iw_process w) -> wp (lift_f m) Q w.
Proof. unfold wp, lift_f. by destruct (m _) as [[a r]|]. Qed.
Lemma lift_i_wp {A} (m : SM pworld A) w (Q : A -> iworld -> Prop) : wp m (fun a p => Q a (w_iplugin p w)) (iw_plugin w) -> wp (lift_i m) Q w.
Proof. unfold wp, lift_i. by destruct (m _) as [[a r]|]. Qed.
Lemma lift_t_wp {A} (m : TM A) w t (Q : A -> iworld -> Prop) : iw_topo w = Some t -> wp m (fun a t' => Q a (w_itopo (Some t') w)) t -> wp (lift_t m) Q w.
Proof. intros Ht. unfold wp, lift_t. rewrite Ht. by destruct (m _) as [[a r]|]. Qed.

Lemma plugin_create_wp n w :
  0 <= n -> pw_devices w = ∅ -> fids_ok (pw_res w) ->
  wp (nccl_net_ofi_rdma_plugin_create n) (fun rc w' => opened (pw_res w') = opened (pw_res w) /\ (rc = 0 -> plugin_inv (pw_res w) [] (Z.to_nat n) w')) w.
Proof.
  intros Hn Hd Hok. assert (forall r, grew [] (pw_res w) r -> opened r = opened (pw_res w)) as Hop.
  { intros r Hg. apply map_eq. intros p. by rewrite (gr_old _ _ _ Hg) by apply not_elem_of_nil. }
  unfold nccl_net_ofi_rdma_plugin_create. wp_simpl. apply lift_p_wp. eapply fi_do_grew; [by apply grew_nil|]. intros rc1 r1 H1. destruct (Z.eqb_spec rc1 0); cbn [negb]; wp_simpl; [|split; [by apply Hop|done]].
  apply lift_p_wp. eapply fi_do_grew; [exact H1|]. intros rc2 r2 H2. wp_simpl. unfold Plugin.nccl_net_ofi_plugin_init. destruct (rc2 =? 0); cbn [negb]; wp_simpl; cbn [Z.eqb negb]; [|wp_simpl; split; [by apply Hop|done]].
  assert (forall rc r, rc <> 0 -> grew [] (pw_res w) r -> forall x, pw_res x = r -> pw_plugin x = Plugin.mk_plugin (replicate (Z.to_nat n) None) n (Plugin.domain_per_thread (pw_plugin w)) ->
    wp (base_plugin_fini ;;; ret rc) (fun rc w' => opened (pw_res w') = opened (pw_res w) /\ (rc = 0 -> plugin_inv (pw_res w) [] (Z.to_nat n) w')) x) as Herr.
  { intros rc r Hrc Hg x Hx Hp. unfold base_plugin_fini. wp_simpl. rewrite Hp. unfold Plugin.nccl_net_ofi_plugin_fini. cbn [Plugin.p_num_devs Plugin.p_devs]. rewrite take_ge by (by rewrite length_replicate).
    change (replicate (Z.to_nat n) (@None Z)) with ((Some <$> []) ++ replicate (Z.to_nat n) (@None Z)). rewrite Plugin.omap_devs. cbn [release_devices]. wp_simpl. cbn. rewrite Hx. split; [by apply Hop|done]. }
  wp_simpl. apply lift_p_wp. eapply fi_do_grew; [exact H2|]. intros rc3 r3 H3. destruct (Z.eqb_spec rc3 0); cbn [negb]; [|by eapply Herr].
  wp_simpl. apply lift_p_wp. eapply fi_do_grew; [exact H3|]. intros rc4 r4 H4. destruct (Z.eqb_spec rc4 0); cbn [negb]; [|by eapply Herr].
  wp_simpl. split; [by apply Hop|]. intros _. constructor; cbn; try rewrite Hd; try done.
  - lia.
  - constructor.
  - intros p. rewrite dom_empty_L. set_solver.
  - intros p Hp. by apply not_elem_of_nil in Hp.
Qed.

(** What the start leaves of the state outside the plug-in. *)
Definition same_outside (w w' : iworld) : Prop :=
  iw_heap w' = iw_heap w /\ iw_hints w' = iw_hints w /\ iw_topo w' = iw_topo w /\ iw_process w' = iw_process w /\ opened (pw_res (iw_plugin w')) = opened (pw_res (iw_plugin w)).

Lemma init_devices_wp multi w t :
  iw_topo w = Some t -> pw_devices (iw_plugin w) = ∅ -> fids_ok (pw_res (iw_plugin w)) ->
  wp (init_devices multi) (fun r w' => r.2 = multi /\ (r.1.2 = true <-> r.1.1 = 0) /\ same_outside w w' /\
    (r.1.1 = 0 -> plugin_inv (pw_res (iw_plugin w)) [] (length (groups (data_vec t))) (iw_plugin w'))) w.
Proof.
  intros Ht Hd Hok. unfold init_devices. wp_simpl. eapply lift_t_wp; [exact Ht|]. unfold nccl_ofi_topo_num_info_lists. wp_simpl.
  replace (length (filter (fun d => info_list d <> []) (data_vec t))) with (length (groups (data_vec t))) by (unfold groups; by rewrite length_fmap).
  assert (same_outside w (w_itopo (Some t) w)) as Hs by (by rewrite <- Ht).
  destruct (Z.leb_spec (Z.of_nat (length (groups (data_vec t)))) 0); wp_simpl; [cbn; split_and!; try done; by split|].
  apply lift_i_wp. eapply wp_mono; [apply plugin_create_wp; [lia|done|done]|]. intros rc p [Hop Hinv]. cbn [iw_plugin w_itopo] in *.
  destruct (Z.eqb_spec rc 0) as [->|Hrc]; cbn [negb]; wp_simpl; cbn [fst snd]; (split; [done|]); (split; [done|]); (split; [unfold same_outside; cbn; by rewrite Ht|]); [|done].
  intros _. specialize (Hinv eq_refl). by rewrite Nat2Z.id in Hinv.
Qed.


Context {SO : SortOk} {PO : @ProvOk the_env} (Htree : hwloc_tree hw) (Hranges : hwloc_ranges hw).

(** The NICs of a list of providers. *)
Definition nics_of (l : list (Z * OfiUtils.fi_info)) : list nic := (fun x => mk_nic x.1 (nic_bus x.1)) <$> l.

(** The transport has started: the topology [t] holds every NIC of the machine that is
    one of [infos], in groups that fit the rails; NCCL has a topology file if and only if
    some group has several rails; the plug-in has an empty slot for each group. *)
Record started (infos : list nic) (w w' : iworld) (multi : bool) (t : nccl_ofi_topo_t) : Prop := {
  st_topo : iw_topo w' = Some t;
  st_nics : n_pci <$> total t ≡ₚ n_pci <$> omap (dev_info infos) (h_pcidevs hw);
  st_sizes : Forall (fun g => 1 <= Z.of_nat (length g) <= max_group_size t) (groups (data_vec t));
  st_rails : 1 <= max_group_size t <= RdmaWire.MAX_NUM_RAILS;
  st_multi : multi = bool_decide (1 < max_group_size t);
  st_file : if multi then is_Some (environ (iw_process w') !! "NCCL_TOPO_FILE"%string) else iw_process w' = iw_process w;
  st_slots : plugin_inv (pw_res (iw_plugin w)) [] (length (groups (data_vec t))) (iw_plugin w');
}.

Lemma topo_create_lift infos w (Q : bool -> iworld -> Prop) :
  0 < iw_fresh w -> Q false w ->
  (forall t, nccl_ofi_topo_create true true 0 0 infos (mk_topo ∅ [] 0 (iw_fresh w)) = Some (true, t) -> Q true (w_itopo (Some t) w)) ->
  wp (topo_create infos) Q w.
Proof using Htree.
  intros Hf Hno Hyes. pose proof (topo_create_wp (hl_ok _ (ht_leaves _ Htree)) infos topo_calloc_ok topo_vec_ok hwloc_init_rc hwloc_load_rc (iw_fresh w) Hf) as Hcr.
  unfold wp, topo_create in *. destruct (nccl_ofi_topo_create topo_calloc_ok topo_vec_ok hwloc_init_rc hwloc_load_rc infos _) as [[[] t]|] eqn:Hrun; [|done..]. apply Hyes.
  destruct (create_true _ _ _ _ _ _ _ Hrun) as (Hc1 & Hc2 & Hc3 & Hc4). by rewrite Hc1, Hc2, Hc3, Hc4 in Hrun.
Qed.

Lemma groups_sizes t : (forall d, d ∈ data_vec t -> info_list d <> [] -> Z.of_nat (length (info_list d)) <= max_group_size t) ->
  Forall (fun g => 1 <= Z.of_nat (length g) <= max_group_size t) (groups (data_vec t)).
Proof.
  intros H. apply Forall_fmap, Forall_forall. intros d [Hne Hd]%list_elem_of_filter. specialize (H d Hd Hne). cbn. destruct (info_list d); [done|]. cbn [length] in *. lia.
Qed.

Lemma init_topology_wp w p l :
  seg (iw_heap w) p l NULL -> (length l <= init_fuel)%nat -> l <> [] -> (forall x, x ∈ l -> is_Some (nic_bus x.1)) -> 0 < iw_fresh w ->
  0 <= memfd < 2 ^ 31 -> fds (iw_process w) !! memfd = None -> pw_devices (iw_plugin w) = ∅ -> fids_ok (pw_res (iw_plugin w)) ->
  wp (init_topology p) (fun r w' => (r.1.2 = true <-> r.1.1 = 0) /\ iw_heap w' = iw_heap w /\ iw_hints w' = iw_hints w /\
    opened (pw_res (iw_plugin w')) = opened (pw_res (iw_plugin w)) /\ (r.1.1 = 0 -> exists t, started (nics_of l) w w' r.2 t)) w.
Proof using SO CO Htree Hranges.
  intros Hs Hlen Hne Hbus Hf Hfd Hfresh Hd Hok. unfold init_topology. wp_simpl. apply lift_h_wp. eapply wp_mono; [by apply nics_wp|]. intros infos h [-> ->]. wp_simpl. fold (nics_of l).
  assert (w_iheap (iw_heap w) w = w) as -> by (by destruct w). apply topo_create_lift; [done..|by wp_simpl|]. intros t Hrun. cbn [negb].
  destruct (group_after_create (ht_leaves _ Htree) (nics_of l) (iw_fresh w) t Hf Hrun) as (t' & t2 & P & q & Hg & _ & HG & Htot & Hz & Hmax).
  apply wp_bind. eapply lift_t_wp; [done|]. apply wp_run. exists 0, t'. split; [exact Hg|]. cbn [Z.eqb negb]. wp_simpl. eapply lift_t_wp; [done|]. wp_simpl.
  destruct (max_group_size t' >? RdmaWire.MAX_NUM_RAILS) eqn:Hm1; [by wp_simpl|]. destruct (Z.ltb_spec (max_group_size t') 1) as [|Hm2]; [by wp_simpl|]. wp_simpl. eapply lift_t_wp; [done|]. wp_simpl.
  assert (Forall (fun g => 1 <= Z.of_nat (length g) <= max_group_size t') (groups (data_vec t'))) as Hsz.
  { apply groups_sizes. intros d [i Hi]%list_elem_of_lookup Hdn. destruct (gg_len _ _ _ _ _ _ HG i d Hi) as [Hl1 _]. destruct (gg_group _ _ _ _ _ _ HG i d Hi (Hz i d Hi Hdn) Hdn) as (y & l' & o & h & _ & _ & _ & _ & _ & _ & Hle). lia. }
  set (w1 := w_itopo (Some t') _). assert (forall p', (if max_group_size t' >? 1 then is_Some (environ p' !! "NCCL_TOPO_FILE"%string) else p' = iw_process w) ->
    wp (init_devices (max_group_size t' >? 1)) (fun r w' => (r.1.2 = true <-> r.1.1 = 0) /\ iw_heap w' = iw_heap w /\ iw_hints w' = iw_hints w /\
      opened (pw_res (iw_plugin w')) = opened (pw_res (iw_plugin w)) /\ (r.1.1 = 0 -> exists t, started (nics_of l) w w' r.2 t)) (w_iproc p' w1)) as Hlast.
  { intros p' Hp'. eapply wp_mono; [by apply (init_devices_wp _ _ t')|]. intros [[rc set] m] w' (-> & Hiff & (H1 & H2 & H3 & H4 & H5) & Hinv). cbn [fst snd] in *. split_and!; try done. intros Hrc. exists t'. constructor; try done.
    - lia.
    - apply bool_decide_eq_true_2 || idtac. destruct (Z.gtb_spec (max_group_size t') 1); [by rewrite bool_decide_true|by rewrite bool_decide_false by lia].
    - rewrite H4. by destruct (max_group_size t' >? 1).
    - by apply Hinv. }
  destruct (max_group_size t' >? 1) eqn:Hmulti.
  - apply lift_f_wp. apply wp_run. destruct (write_topo_file_spec Htree Hranges t' (iw_process w) (grouping_grouped _ _ _ _ _ HG) Hfd Hfresh) as (rc & p' & Hw & Hbad & Hgood). exists rc, p'. split; [exact Hw|].
    destruct (Z.eqb_spec rc 0) as [->|Hrc]; cbn [negb]; [|by wp_simpl]. apply Hlast. destruct (environ (iw_process w) !! "NCCL_TOPO_FILE"%string) eqn:Hv; [rewrite Hbad by (right; by eexists); by rewrite Hv|].
    destruct (Hgood eq_refl eq_refl) as [-> _]. rewrite lookup_insert_eq. by eexists.
  - wp_simpl. cbn [Z.eqb negb]. by apply (Hlast (iw_process w)).
Qed.

(** The invariant of the plug-in looks only at the objects open at its start. *)
Lemma plugin_inv_base w0 w1 ps k x : opened w1 = opened w0 -> plugin_inv w0 ps k x -> plugin_inv w1 ps k x.
Proof.
  intros Ho [H1 H2 H3 H4 H5 H6 [G1 G2 G3 G4 G5]]. constructor; try done. constructor; try done; intros q Hq; rewrite Ho; [by apply G4|by apply G5].
Qed.

Lemma usable_sublist l name : @usable the_env l name `sublist_of` l.
Proof. unfold usable. destruct (is_tcp name); [etrans; [apply sublist_filter|]|]; apply sublist_filter. Qed.

Lemma rdma_init_wp w h1 p l filter :
  @fi_getinfo the_env (iw_heap w) = (0, p, h1) -> seg h1 p l NULL -> NoDup l.*1 -> l <> [] -> (length l <= init_fuel)%nat -> Z.of_nat (length l) < 2 ^ 32 ->
  (forall x, x ∈ l -> is_Some (nic_bus x.1)) -> 0 < iw_fresh w -> 0 <= memfd < 2 ^ 31 -> fds (iw_process w) !! memfd = None ->
  pw_devices (iw_plugin w) = ∅ -> fids_ok (pw_res (iw_plugin w)) ->
  wp (nccl_net_ofi_rdma_init filter) (fun r w' => (r.1.2 = true <-> r.1.1 = 0) /\ opened (pw_res (iw_plugin w')) = opened (pw_res (iw_plugin w)) /\
    (r.1.1 = 0 -> iw_hints w' = iw_hints w /\ ofi_nccl_eager_max_size <= ofi_nccl_min_stripe_size /\
      exists name t, @selected_name the_env l filter = Some name /\ started (nics_of (@usable the_env l name)) w w' r.2 t)) w.
Proof using SO CO PO Htree Hranges.
  intros Hg Hs Hnd Hne Hlen Hlt Hbus Hf Hfd Hfresh Hd Hok. unfold nccl_net_ofi_rdma_init. destruct allocinfo_ok; cbn [negb]; [|by wp_simpl]. wp_simpl. apply lift_h_wp.
  eapply wp_mono; [by apply (@get_providers_wp the_env PO _ h1 p l)|]. intros [[rc out] num] h' Hr. cbn [fst snd] in Hr.
  destruct (@selected_name the_env l filter) as [name|]; [|destruct Hr as [[= -> ->] _]; by wp_simpl]. destruct Hr as [_ Hr].
  destruct (decide (@usable the_env l name = [])) as [He|He]; [injection Hr as -> ->; by wp_simpl|]. destruct Hr as (-> & _ & q & -> & Hq). cbn [Z.eqb negb]. wp_simpl. unfold set_gdr. apply lift_i_wp, lift_p_wp. wp_simpl.
  eapply wp_of_option; [done|]. wp_simpl. apply lift_h_wp. assert (exists c, h' !! q = Some c) as [c Hc] by (destruct (@usable the_env l name) as [|[a i] r]; [done|]; destruct Hq as (-> & _ & n & Hn & _); by eexists).
  eapply deref_wp; [exact Hc|]. wp_simpl. unfold Plugin.nccl_net_ofi_query_provider_capabilities. destruct (_ && _); [by wp_simpl|]. cbn [Z.eqb negb]. wp_simpl. eapply wp_of_option; [done|]. wp_simpl.
  destruct (Plugin.has_bit _ Plugin.FI_MR_ENDPOINT); [by wp_simpl|]. destruct (Z.gtb_spec ofi_nccl_eager_max_size ofi_nccl_min_stripe_size); [by wp_simpl|]. wp_simpl.
  eapply wp_mono; [apply (init_topology_wp _ q (@usable the_env l name)); cbn; try done|].
  - pose proof (sublist_length _ _ (usable_sublist l name)). lia.
  - intros x Hx. apply Hbus. eapply elem_of_submseteq; [exact Hx|]. apply sublist_submseteq, usable_sublist.
  - intros [[rc set] m] w' (H1 & H2 & H3 & H4 & H5). cbn [fst snd] in *. split_and!; try done. intros Hrc. destruct (H5 Hrc) as [t [T1 T2 T3 T4 T5 T6 T7]]. cbn in *. split_and!; [lia|lia|]. exists name, t. split; [done|]. constructor; try done. by refine (plugin_inv_base _ _ _ _ _ _ T7).
Qed.

(** Every slot of the plug-in holds a device with [mgs] rails. *)
Definition filled (mgs : Z) (w : pworld) : Prop :=
  Forall (fun d => exists p dev, d = Some p /\ pw_devices w !! p = Some dev /\ rails_are mgs dev) (Plugin.p_devs (pw_plugin w)).

Lemma complete_init_rails mgs lists w w' :
  pw_devices w = ∅ -> nccl_net_ofi_rdma_plugin_complete_init 0 mgs lists w = Some (0, w') ->
  Forall (fun l => Z.of_nat (length l) = mgs) (take (Z.to_nat (Plugin.p_num_devs (pw_plugin w))) lists) /\ map_Forall (fun _ => rails_are mgs) (pw_devices w').
Proof.
  intros Hd. unfold nccl_net_ofi_rdma_plugin_complete_init. destruct (domain_per_thread && endpoint_per_communicator); [done|]. cbn [Z.eqb negb]. intros (plugin & w1 & [= <- <-] & H)%bind_inv.
  destruct (create_devices_rails mgs _ _ _ _ _ H) as (_ & H1 & H2); [rewrite Hd; apply map_Forall_empty|]. done.
Qed.

Lemma rdma_complete_wp infos w0 w multi t :
  started infos w0 w multi t ->
  wp rdma_complete_init (fun rc w' => exists ps k, plugin_inv (pw_res (iw_plugin w0)) ps k (iw_plugin w') /\
    (rc = 0 -> filled (max_group_size t) (iw_plugin w') /\ Forall (fun g => Z.of_nat (length g) = max_group_size t) (groups (data_vec t)))) w.
Proof using CO.
  intros [T1 T2 T3 T4 T5 T6 T7]. unfold rdma_complete_init. wp_simpl. pose proof (pi_num _ _ _ _ T7) as Hn. cbn [length Nat.add] in Hn. rewrite Hn, Nat2Z.id. eapply lift_t_wp; [exact T1|].
  destruct (next_lists_groups t) as [it Hit]. apply wp_run. eexists _, t. split; [exact Hit|]. wp_simpl. eapply lift_t_wp; [done|]. wp_simpl. apply lift_i_wp. cbn [iw_plugin w_itopo].
  assert (omap id (Some <$> groups (data_vec t)) = groups (data_vec t)) as Hom by (clear; induction (groups (data_vec t)) as [|g gs IH]; cbn; [done|by f_equal]). rewrite Hom.
  set (gs := (fun l => _) <$> _). pose proof (complete_init_wp _ gs 0 (max_group_size t) _ _ T7 ltac:(lia)) as Hwp. apply wp_run in Hwp as (rc & w1 & Hrun & ps & k & Hinv & Hk). apply wp_run. exists rc, w1. split; [exact Hrun|]. cbn [iw_plugin w_iplugin].
  exists ps, k. split; [done|]. intros ->. specialize (Hk eq_refl) as ->.
  assert (pw_devices (iw_plugin w) = ∅) as Hd by (apply dom_empty_inv_L, set_eq; intros q; rewrite (pi_dom _ _ _ _ T7); split; [by intros ?%not_elem_of_nil|by intros ?%not_elem_of_empty]).
  destruct (complete_init_rails _ _ _ _ Hd Hrun) as [Hl Hr]. split.
  - unfold filled. rewrite (pi_devs _ _ _ _ Hinv), app_nil_r. apply Forall_fmap, Forall_forall. intros q Hq. apply (pi_dom _ _ _ _ Hinv) in Hq. apply elem_of_dom in Hq as [dev Hdev]. exists q, dev. split_and!; [done..|]. by apply (Hr q).
  - rewrite Hn, Nat2Z.id, take_ge in Hl by (subst gs; by rewrite length_fmap). subst gs. apply Forall_fmap in Hl. eapply Forall_impl; [exact Hl|]. intros g. cbn. by rewrite length_fmap.
Qed.


(** When the search for providers fails, the hints are not freed. *)
Lemma failed_search_leaks_hints w filter rc out num h' :
  allocinfo_ok = true -> @nccl_ofi_ofiutils_get_providers the_env init_fuel filter (iw_heap w) = Some ((rc, out, num), h') -> rc <> 0 ->
  exists w', nccl_net_ofi_rdma_init filter w = Some ((rc, false, false), w') /\ iw_hints w' = iw_hints w + 1.
Proof.
  intros Ha Hg Hrc. unfold nccl_net_ofi_rdma_init. rewrite Ha. cbn [negb]. unfold bind, modify, lift_h. cbn [iw_heap w_hints]. rewrite Hg. rewrite (proj2 (Z.eqb_neq _ _) Hrc). cbn [negb]. unfold ret. by eexists.
Qed.
End Start.

(** ** Example: four NICs and two GPUs below a switch *)

Definition efa_info : OfiUtils.fi_info := OfiUtils.mk_info "efa" "rdmap0" 1 0 4 20 8.
Definition nic_list : list (Z * OfiUtils.fi_info) := (fun p => (p, efa_info)) <$> [1020; 1021; 1022; 1023].
Definition nic_heap : OfiUtils.heap :=
  {[ 1020 := mk_cell efa_info 1021; 1021 := mk_cell efa_info 1022; 1022 := mk_cell efa_info 1023; 1023 := mk_cell efa_info NULL ]}.
Definition nic_provs : ProvEnv := {|
  fi_getinfo h := (0, 1020, nic_heap ∪ h); fi_freeinfo p h := free_chain (base.size h) p h;
  strdup_ok _ := true; ofi_nccl_exclude_tcp_if := "lo,docker0"; ofi_nccl_use_ipv6_tcp := false; FI_SOCKADDR_IN6 := 10 |}.
Definition switch_init : InitEnv := {|
  allocinfo_ok := true; prov_env _ _ := nic_provs; nccl_ofi_dmabuf_viable := true; version_ge_1_18 := true;
  ofi_nccl_mr_key_size := 2; ofi_nccl_eager_max_size := 8192; ofi_nccl_min_stripe_size := 131072;
  topo_calloc_ok := true; topo_vec_ok := true; hwloc_init_rc := 0; hwloc_load_rc := 0;
  nic_bus p := Some (mk_busid 0 (p - 1000) 0 0); nic_info _ := efa_info; sysconf_dcache_linesize := -1; init_fuel := 4 |}.
Definition good_env : OfiEnv := {| fi_code _ _ := 0; api_version_ge_1_18 := true |}.
Definition init_start : iworld :=
  mk_iworld ∅ 0 None 5000 switch_start (mk_pworld (mk_rworld ∅ 1 GDR_UNKNOWN []) ∅ 100 (Plugin.mk_plugin [] 0 false) false false) 0 0.

Abbreviation switch_start_init := (@nccl_net_ofi_rdma_init switch_init good_env gb_conf Plugin.fabric_bits switch_env switch_write switch_proc None).
Abbreviation switch_complete := (@rdma_complete_init switch_init good_env gb_conf switch_env).

Lemma nic_provs_ok : @ProvOk nic_provs.
Proof. constructor. intros p h l Hs Hnd. apply free_chain_seg; [by eapply seg_size|done|done]. Qed.

Lemma good_close : @CloseOk good_env.
Proof. by constructor. Qed.

Lemma nic_list_seg : seg (nic_heap ∪ ∅) 1020 nic_list NULL.
Proof. do 4 (split; [reflexivity|]; split; [discriminate|]; eexists; split; [vm_compute; reflexivity|]). reflexivity. Qed.


End RdmaInit.
