(* ===== verification/Interface.v ===== *)
(** * Start and end of the library, and what it tells NCCL about a device

    nccl_net_ofi_init with the handler it registers for the end of the process
    (nccl_ofi_api.c), the names of the interface tables (nccl_ofi_interface_nvidia.c),
    and the properties that the two transports report for a device (get_properties of
    nccl_ofi_rdma.c, sendrecv_get_properties of nccl_ofi_sendrecv.c). *)

From stdpp Require Import strings.
From S2P Require Import Prelude StateM NetTypes OfiMath OfiUtils Plugin OfiRes RdmaConn RdmaDevice SendrecvConn Api.

Module Interface.

Open Scope Z_scope.

(** ** The process *)

(** The plug-in objects in memory, the next address, the variable plugin, and how
    often the handler is registered with atexit. *)
Record process := mk_process { plugins : gset Z; next_plugin : Z; plugin : option Z; handlers : nat }.

Abbreviation PR := (SM process).

Definition process_start (next : Z) : process := mk_process ∅ next None 0.

(** release_plugin of an object that is gone is undefined. *)
Definition release_plugin (p : Z) : PR unit :=
  let* s := gets plugins in
  assert (bool_decide (p ∈ s)) ;;;
  modify (fun w => mk_process (plugins w ∖ {[p]}) (next_plugin w) (plugin w) (handlers w)).

Definition nccl_net_ofi_fini : PR unit :=
  let* p := gets plugin in
  match p with Some p => release_plugin p | None => ret tt end.

(** The last step of create_plugin: *plugin_p is set. *)
Definition set_plugin : PR unit :=
  modify (fun w => mk_process ({[next_plugin w]} ∪ plugins w) (next_plugin w + 1) (Some (next_plugin w)) (handlers w)).

(** With OFI_NCCL_ABORT_ON_ERROR a failure ends the process. *)
Definition returned (abort_on_error : bool) (rc : Z) : PR Z :=
  let r := Api.nccl_net_ofi_retval_translate_impl rc in
  if abort_on_error && negb (r =? ncclSuccess) then undefined else ret r.

Definition nccl_net_ofi_init (ofi_nccl_abort_on_error atexit_rc : Z) (e : Plugin.plug_env) : PR Z :=
  let abort_on_error := negb (ofi_nccl_abort_on_error =? 0) in
  let* (rc, chosen, _) := of_option (Plugin.nccl_net_ofi_create_plugin e) in
  (if bool_decide (is_Some chosen) then set_plugin else ret tt) ;;;
  if negb (rc =? 0) then returned abort_on_error rc
  else if negb (atexit_rc =? 0) then returned abort_on_error atexit_rc
  else
    modify (fun w => mk_process (plugins w) (next_plugin w) (plugin w) (S (handlers w))) ;;;
    ret ncclSuccess.

(** exit calls the handler once for each registration. *)
Fixpoint run_handlers (n : nat) : PR unit :=
  match n with O => ret tt | S n' => nccl_net_ofi_fini ;;; run_handlers n' end.
Definition process_exit : PR unit := let* n := gets handlers in run_handlers n.

(** A transport is chosen exactly with code 0. *)
Lemma create_plugin_chosen e rc chosen released : Plugin.nccl_net_ofi_create_plugin e = Some (rc, chosen, released) -> is_Some chosen <-> rc = 0.
Proof.
  assert (forall (p : option (Plugin.protocol * bool)) k, p = None -> k <> 0 -> is_Some p <-> k = 0) as Hno by (intros p k -> Hk; split; [by intros [? ?]|done]).
  unfold Plugin.nccl_net_ofi_create_plugin. destruct (Plugin.pe_page_size e =? -1); [intros [= <- <- <-]; by apply Hno|]. destruct (negb (NCCL_OFI_IS_POWER_OF_TWO _)); [done|].
  destruct (Z.eqb_spec (Plugin.pe_cuda_init e) 0); cbn [negb]; [|intros [= <- <- <-]; by apply Hno].
  destruct (Z.eqb_spec (match Plugin.pe_platform_init e with Some rc => rc | None => 0 end) 0); cbn [negb]; [|intros [= <- <- <-]; by apply Hno].
  destruct (Plugin.select_protocol e) as [[rc0 sel] rel] eqn:Hsel. destruct sel as [p|].
  - unfold Plugin.complete_plugin. destruct (Z.eqb_spec (Plugin.pe_complete_init e p) 0); cbn [negb]; [|intros [= <- <- <-]; by apply Hno].
    destruct (Z.eqb_spec (Plugin.pe_get_ep e) 0); cbn [negb]; [|intros [= <- <- <-]; by apply Hno]. destruct (Z.eqb_spec (Plugin.pe_get_properties e) 0); cbn [negb]; [|intros [= <- <- <-]; by apply Hno].
    destruct (Z.eqb_spec (Plugin.pe_release_ep e) 0); cbn [negb]; [|intros [= <- <- <-]; by apply Hno]. destruct (bool_decide _); [done|]. destruct (_ && _); intros [= <- <- <-]; [by apply Hno|]. split; [done|by eexists].
  - intros [= <- <- <-]. apply Hno; [done|]. intros ->. revert Hsel. unfold Plugin.select_protocol. destruct (match Plugin.ofi_nccl_protocol e with Some s => Some s | None => _ end).
    + destruct (Plugin.strcasecmp_eq s "SENDRECV"); [destruct (Z.eqb_spec (Plugin.pe_sendrecv_init e) 0); [done|]; by intros [= ? _]|]. destruct (Plugin.strcasecmp_eq s "RDMA"); [|done]. destruct (Z.eqb_spec (Plugin.pe_rdma_init e).1 0); [done|]. by intros [= ? _].
    + by destruct ((Plugin.pe_rdma_init e).1 =? 0), ((Plugin.pe_rdma_init e).2), (Plugin.pe_sendrecv_init e =? 0).
Qed.

Lemma translate_success rc : Api.nccl_net_ofi_retval_translate_impl rc = ncclSuccess <-> rc = 0.
Proof.
  unfold Api.nccl_net_ofi_retval_translate_impl. destruct (Z.eqb_spec rc 0) as [->|Hne]; [done|]. split; [|done]. by repeat case_match.
Qed.

Lemma returned_fails abort rc w r w' : rc <> 0 -> returned abort rc w = Some (r, w') -> r <> ncclSuccess /\ w' = w.
Proof.
  intros Hrc. unfold returned. destruct (_ && _); [done|]. intros [= <- <-]. split; [|done]. by intros H%(proj1 (translate_success rc)).
Qed.

Lemma fini_live w p : plugin w = Some p -> p ∈ plugins w -> nccl_net_ofi_fini w = Some (tt, mk_process (plugins w ∖ {[p]}) (next_plugin w) (Some p) (handlers w)).
Proof.
  intros Hp Hin. unfold nccl_net_ofi_fini, release_plugin, bind, gets, assert, modify, ret. rewrite Hp, bool_decide_true by done. by rewrite Hp.
Qed.

(** One init: whatever it returns, the end of the process is defined; with success it
    releases the plug-in, which then was the only one. *)
Theorem init_exit_releases abort atexit_rc e n r w :
  nccl_net_ofi_init abort atexit_rc e (process_start n) = Some (r, w) ->
  exists w', process_exit w = Some (tt, w') /\
    (r = ncclSuccess <-> plugin w = Some n /\ handlers w = 1%nat) /\ (r = ncclSuccess -> plugins w = {[n]} /\ plugins w' = ∅).
Proof.
  unfold nccl_net_ofi_init. intros ([[rc chosen] rel] & w0 & H0 & H)%bind_inv. destruct (Plugin.nccl_net_ofi_create_plugin e) as [x|] eqn:Hc; [|done]. injection H0 as -> <-. apply create_plugin_chosen in Hc.
  destruct (Z.eqb_spec rc 0) as [->|Hrc]; cbn [negb] in H.
  - rewrite bool_decide_true in H by (by apply Hc). apply bind_inv in H as ([] & w1 & [= <-] & H). destruct (Z.eqb_spec atexit_rc 0) as [|Ha]; cbn [negb] in H.
    + apply bind_inv in H as ([] & w2 & [= <-] & [= <- <-]). cbn. eexists. unfold process_exit, bind, gets. cbn [handlers run_handlers]. rewrite (fini_live _ n) by (cbn; set_solver). split; [done|]. split; [done|]. intros _. cbn. split; set_solver.
    + apply returned_fails in H as [Hr ->]; [|done]. cbn. eexists. split; [done|]. split; [|done]. split; [done|by intros [_ ?]].
  - rewrite bool_decide_false in H by (by intros ?%Hc). apply bind_inv in H as ([] & w1 & [= <-] & H). apply returned_fails in H as [Hr ->]; [|done]. cbn. eexists. split; [done|]. split; [|done]. split; [done|by intros [? _]].
Qed.

(** A second init leaves the first plug-in behind and makes the end of the process
    release the second one twice, which is undefined. *)
Lemma second_init_releases_twice abort atexit_rc e n w1 w2 :
  nccl_net_ofi_init abort atexit_rc e (process_start n) = Some (ncclSuccess, w1) -> nccl_net_ofi_init abort atexit_rc e w1 = Some (ncclSuccess, w2) ->
  n ∈ plugins w2 /\ process_exit w2 = None.
Proof.
  intros H1 H2. destruct (init_exit_releases _ _ _ _ _ _ H1) as (w' & _ & [Hs _] & Hp). destruct (Hs eq_refl) as [_ Hh]. destruct (Hp eq_refl) as [Hpl _].
  unfold nccl_net_ofi_init in H1, H2. apply bind_inv in H2 as ([[rc chosen] rel] & w0 & H0 & H). destruct (Plugin.nccl_net_ofi_create_plugin e) as [x|] eqn:Hc; [|done]. injection H0 as -> <-. apply create_plugin_chosen in Hc.
  apply bind_inv in H as ([] & w3 & H3 & H). destruct (Z.eqb_spec rc 0) as [->|]; cbn [negb] in H; [|apply returned_fails in H as [? _]; done]. destruct (Z.eqb_spec atexit_rc 0); cbn [negb] in H; [|apply returned_fails in H as [? _]; done].
  rewrite bool_decide_true in H3 by (by apply Hc). injection H3 as <-. apply bind_inv in H as ([] & w4 & [= <-] & [= <-]). split; [cbn; set_solver|]. unfold process_exit, bind, gets. cbn [handlers]. rewrite Hh. cbn [run_handlers]. unfold bind.
  rewrite (fini_live _ (next_plugin w1)) by (cbn; set_solver). unfold nccl_net_ofi_fini, release_plugin, bind, gets, assert. cbn. rewrite bool_decide_false by set_solver. done.
Qed.

(** ** Names of the interface tables *)

(** The member name of the tables ncclNetPlugin_v2 to ncclNetPlugin_v8. *)
Definition table_names : list string := replicate 7 "Libfabric"%string.

Definition nvidia_plugin_name_fixup (net_env : option string) (names : list string) : list string :=
  match net_env with
  | Some net_env =>
      if Plugin.strcasecmp_eq net_env "AWS Libfabric" then replicate 7 "AWS Libfabric"%string
      else if Plugin.strcasecmp_eq net_env "OFI" then replicate 7 "OFI"%string
      else names
  | None => names
  end.

(** NCCL looks for a table whose name is the value of NCCL_NET, ignoring case: it finds
    the plug-in under its old name, as OFI and as Libfabric. *)
Lemma fixed_name_is_found s :
  existsb (Plugin.strcasecmp_eq s) ["AWS Libfabric"; "OFI"; "Libfabric"]%string = true <->
  Forall (fun name => Plugin.strcasecmp_eq s name = true) (nvidia_plugin_name_fixup (Some s) table_names).
Proof.
  unfold nvidia_plugin_name_fixup, table_names. cbn [existsb]. destruct (Plugin.strcasecmp_eq s "AWS Libfabric") eqn:H1; cbn [orb]; [split; [intros _; by apply Forall_replicate|done]|].
  destruct (Plugin.strcasecmp_eq s "OFI") eqn:H2; cbn [orb]; [split; [intros _; by apply Forall_replicate|done]|]. rewrite orb_false_r. split; [intros H; by apply Forall_replicate|]. intros H. by apply Forall_inv in H.
Qed.

(** ** Properties of a device *)

(** The members that the transports add to those of nccl_net_ofi_info_properties. *)
Record full_properties := mk_full { fp_base : Plugin.nccl_ofi_properties_t; rma_supported : bool; max_write_inline_size : Z }.

Definition set_speed (speed : Z) (p : Plugin.nccl_ofi_properties_t) := Plugin.mk_props (Plugin.pr_name p) (Plugin.pci_path p) (Plugin.guid p) (Plugin.hmem_support p) (Plugin.dmabuf_support p)
  (Plugin.port_number p) speed (Plugin.latency p) (Plugin.max_communicators p) (Plugin.max_group_receives p) (Plugin.regIsGlobal p) (Plugin.max_mr_key_size p).
Definition set_max_comms (n : Z) (p : Plugin.nccl_ofi_properties_t) := Plugin.mk_props (Plugin.pr_name p) (Plugin.pci_path p) (Plugin.guid p) (Plugin.hmem_support p) (Plugin.dmabuf_support p)
  (Plugin.port_number p) (Plugin.port_speed p) (Plugin.latency p) n (Plugin.max_group_receives p) (Plugin.regIsGlobal p) (Plugin.max_mr_key_size p).
Definition set_global (b : bool) (p : Plugin.nccl_ofi_properties_t) := Plugin.mk_props (Plugin.pr_name p) (Plugin.pci_path p) (Plugin.guid p) (Plugin.hmem_support p) (Plugin.dmabuf_support p)
  (Plugin.port_number p) (Plugin.port_speed p) (Plugin.latency p) (Plugin.max_communicators p) (Plugin.max_group_receives p) b (Plugin.max_mr_key_size p).

Section Properties.
Context {F : Plugin.FiBits} (e : Plugin.props_env) (domain_per_thread : bool) (dev_id num_devices : Z).

(** [rails] are the information and the NIC of each rail, [inline] the variable
    max_write_inline_size once it is initialised. [None] is a failed assertion, a write
    out of bounds or an int that overflows. *)
Definition get_properties (rails : list (OfiUtils.fi_info * option Plugin.fid_nic)) (inline : option Z) : option (Z * option full_properties) :=
  match rails with
  | [] => None
  | (info, nic) :: _ =>
      match Plugin.nccl_net_ofi_info_properties e domain_per_thread info nic dev_id num_devices with
      | Some (0, Some p) =>
          let speed := Plugin.port_speed p * Z.of_nat (length rails) in
          if negb (speed =? i32 speed) then None
          else
            let p := set_max_comms RdmaConn.NCCL_OFI_RDMA_MAX_COMMS (set_speed speed p) in
            match inline with None => None | Some n => Some (0, Some (mk_full p true n)) end
      | Some (rc, _) => Some (rc, None)
      | None => None
      end
  end.

Definition INT_MAX : Z := 2 ^ 31 - 1.

Definition sendrecv_get_properties (info : option (OfiUtils.fi_info * option Plugin.fid_nic)) (max_tag inject_size : Z) : option (Z * option full_properties) :=
  match info with
  | None => Some (- EINVAL, None)
  | Some (info, nic) =>
      match Plugin.nccl_net_ofi_info_properties e domain_per_thread info nic dev_id num_devices with
      | Some (0, Some p) => Some (0, Some (mk_full (set_global false (set_max_comms (NCCL_OFI_MIN max_tag INT_MAX) p)) false inject_size))
      | Some (rc, _) => Some (rc, None)
      | None => None
      end
  end.

(** Both transports report a number of communicators that fits an int, and NCCL learns
    the speed of all rails together. *)
Theorem properties_fit_int rails info inline max_tag inject_size p q :
  0 <= max_tag -> get_properties rails inline = Some (0, Some p) -> sendrecv_get_properties info max_tag inject_size = Some (0, Some q) ->
  (exists rail nic base, head rails = Some (rail, nic) /\ Plugin.nccl_net_ofi_info_properties e domain_per_thread rail nic dev_id num_devices = Some (0, Some base) /\
     Plugin.port_speed (fp_base p) = Plugin.port_speed base * Z.of_nat (length rails)) /\
  - 2 ^ 31 <= Plugin.port_speed (fp_base p) < 2 ^ 31 /\ 0 < Plugin.max_communicators (fp_base p) < 2 ^ 31 /\ 0 <= Plugin.max_communicators (fp_base q) < 2 ^ 31 /\
  Some (max_write_inline_size p) = inline /\ rma_supported p = true /\ rma_supported q = false /\ Plugin.regIsGlobal (fp_base q) = false.
Proof.
  intros Htag Hp Hq. destruct rails as [|[rail nic] rails]; [done|]. unfold get_properties in Hp. destruct (Plugin.nccl_net_ofi_info_properties e domain_per_thread rail nic dev_id num_devices) as [[rc base]|] eqn:Hb; [|done].
  destruct rc as [|rc|rc]; [|done..]. destruct base as [base|]; [|done]. destruct (Z.eqb_spec (Plugin.port_speed base * Z.of_nat (length ((rail, nic) :: rails))) (i32 (Plugin.port_speed base * Z.of_nat (length ((rail, nic) :: rails))))) as [Hs|]; [|done]. cbn [negb] in Hp.
  destruct inline as [n|]; [|done]. injection Hp as <-.
  destruct info as [[info nic']|]; [|done]. unfold sendrecv_get_properties in Hq. destruct (Plugin.nccl_net_ofi_info_properties e domain_per_thread info nic' dev_id num_devices) as [[rc' base']|]; [|done]. destruct rc' as [|rc'|rc']; [|done..]. destruct base' as [base'|]; [|done]. injection Hq as <-.
  split; [by exists rail, nic, base|]. cbn [fp_base Plugin.port_speed Plugin.max_communicators set_max_comms set_speed set_global]. split; [|split; [done|split; [|done]]].
  - unfold i32 in Hs. cbn [length] in Hs |- *. pose proof (Z.mod_pos_bound (Plugin.port_speed base * Z.of_nat (S (length rails)) + 2 ^ 31) (2 ^ 32) ltac:(lia)). lia.
  - unfold NCCL_OFI_MIN, INT_MAX. destruct (Z.ltb_spec max_tag (2 ^ 31 - 1)); lia.
Qed.
End Properties.

End Interface.
