(* ===== verification/PlatformSort.v ===== *)
(** * platform-aws.c: the order of rails

    platform_sort_rails reorders the NICs behind a switch so that their VF indices
    alternate. It works on copies: the list of the caller is released only when the
    whole new list has been built. The heap is the set of addresses of live fi_info
    structures; releasing one twice is undefined. This file also discharges what the
    grouping of NICs (TopoGroup.v) asks of the hook. *)

From S2P Require Import Prelude StateM NetTypes Topo TopoCreate TopoGroup.
Import Topo TopoCreate TopoGroup.

Module PlatformSort.

Open Scope Z_scope.

(** ** Environment and heap *)

(** Reading the file of a device: the error of asprintf and of fopen, 0 for none, and
    what fscanf returns and reads. *)
Record guid_read := mk_guid { asprintf_errno : Z; fopen_errno : Z; scan_count : Z; scan_value : Z }.

Class SortEnv := {
  sort_calloc : nat -> bool;
  sort_dup : option busid -> bool;
  node_guid : option busid -> guid_read;
}.

Record heap := mk_heap { live : gset Z; next_addr : Z }.
Abbreviation HM := (SM heap).

Section Sort.
Context {E : SortEnv}.

(** The copy of a structure, or [None] for NULL; its next pointer is NULL. *)
Definition dupinfo (x : nic) : HM (option nic) :=
  if sort_dup (n_pci x) then
    let* a := gets next_addr in
    modify (fun h => mk_heap ({[a]} ∪ live h) (a + 1)) ;;; ret (Some (mk_nic a (n_pci x)))
  else ret None.

(** fi_freeinfo releases every structure of a list. *)
Fixpoint freeinfo (l : list nic) : HM unit :=
  match l with
  | [] => ret tt
  | x :: l' =>
      let* s := gets live in
      assert (bool_decide (n_ptr x ∈ s)) ;;;
      modify (fun h => mk_heap (live h ∖ {[n_ptr x]}) (next_addr h)) ;;; freeinfo l'
  end.

(** ** platform_sort_rails *)

Definition EIO : Z := 5.

Definition get_rail_vf_idx (x : nic) : Z :=
  let g := node_guid (n_pci x) in
  if negb (asprintf_errno g =? 0) then - asprintf_errno g
  else if negb (fopen_errno g =? 0) then - fopen_errno g
  else if negb (scan_count g =? 1) then - EIO
  else scan_value g.

(** info_array, vf_array, info_count and highest_vf_idx. *)
Record arrays := mk_arrays { info_array : list (option nic); vf_array : list Z; info_count : nat; highest_vf_idx : Z }.

(** The loop that copies the list; [false] when it goes to cleanup. *)
Fixpoint copy_loop (num_rails : nat) (l : list nic) (a : arrays) : HM (bool * arrays) :=
  match l with
  | [] => ret (true, a)
  | x :: l' =>
      if (info_count a <? num_rails)%nat then
        let* c := dupinfo x in
        match c with
        | None => ret (false, a)
        | Some c =>
            let a := mk_arrays (<[info_count a := Some c]> (info_array a)) (vf_array a) (info_count a) (highest_vf_idx a) in
            let ret_ := get_rail_vf_idx c in
            if ret_ <? 0 then ret (false, a)
            else copy_loop num_rails l' (mk_arrays (info_array a) (<[info_count a := ret_]> (vf_array a)) (S (info_count a))
                                           (if ret_ >? highest_vf_idx a then ret_ else highest_vf_idx a))
        end
      else ret (true, a)
  end.

(** The inner loop: the first remaining structure with VF index [next]. *)
Fixpoint find_vf (infos : list (option nic)) (vfs : list Z) (next : Z) (j : nat) : option (nat * nic) :=
  match infos, vfs with
  | Some x :: infos', v :: vfs' => if v =? next then Some (j, x) else find_vf infos' vfs' next (S j)
  | None :: infos', _ :: vfs' => find_vf infos' vfs' next (S j)
  | _, _ => None
  end.

(** The outer loop; [false] when no device has the expected index. *)
Fixpoint pick_loop (n : nat) (infos : list (option nic)) (vfs : list Z) (next highest : Z) (out : list nic) : bool * list (option nic) * list nic :=
  match n with
  | O => (true, infos, out)
  | S n' =>
      match find_vf infos vfs next 0 with
      | Some (j, x) => pick_loop n' (<[j := None]> infos) vfs (Z.rem (next + 1) (highest + 1)) highest (out ++ [x])
      | None => (false, infos, out)
      end
  end.

Definition free_slot (s : option nic) : HM unit := match s with Some x => freeinfo [x] | None => ret tt end.

Fixpoint free_slots (l : list (option nic)) : HM unit :=
  match l with [] => ret tt | s :: l' => free_slot s ;;; free_slots l' end.

(** The new value of the list pointer. *)
Definition platform_sort_rails (l : list nic) (num_rails num_groups : Z) : HM (list nic) :=
  if num_groups =? 0 then undefined
  else if Z.quot num_rails num_groups <=? 1 then ret l
  else if negb (sort_calloc 0) then ret l
  else
    let n := Z.to_nat num_rails in
    let infos := replicate n None in
    if negb (sort_calloc 1) then free_slots infos ;;; ret l
    else
      let* (ok, a) := copy_loop n l (mk_arrays infos (replicate n 0) 0 0) in
      if negb ok || negb (info_count a =? n)%nat || (highest_vf_idx a =? 0) then free_slots (info_array a) ;;; ret l
      else
        match pick_loop n (info_array a) (vf_array a) 0 (highest_vf_idx a) [] with
        | (false, infos, out) => free_slots infos ;;; freeinfo out ;;; ret l
        | (true, infos, out) => freeinfo l ;;; free_slots infos ;;; ret out
        end.

End Sort.

(** ** Releasing and copying *)

Abbreviation ptrs l := (list_to_set (n_ptr <$> l) : gset Z).

Section Spec.
Context {E : SortEnv}.

Lemma freeinfo_wp l : forall h (Q : unit -> heap -> Prop),
  NoDup (n_ptr <$> l) -> ptrs l ⊆ live h -> Q tt (mk_heap (live h ∖ ptrs l) (next_addr h)) -> wp (freeinfo l) Q h.
Proof.
  induction l as [|x l IH]; intros h Q Hnd Hsub HQ; cbn [freeinfo].
  - wp_simpl. cbn in HQ. rewrite difference_empty_L in HQ. by destruct h.
  - cbn in Hnd, Hsub, HQ. apply NoDup_cons in Hnd as [Hx Hnd]. wp_simpl. apply wp_assert; [apply bool_decide_eq_true; set_solver|]. wp_simpl. apply IH; cbn.
    + done.
    + intros a Ha. assert (a <> n_ptr x) by (intros ->; by apply elem_of_list_to_set in Ha). set_solver.
    + by rewrite difference_difference_l_L.
Qed.

Lemma free_slots_freeinfo s h : free_slots s h = freeinfo (omap id s) h.
Proof.
  revert h. induction s as [|[x|] s IH]; intros h; [done| |apply IH]. cbn [free_slots free_slot]. change (omap id (Some x :: s)) with (x :: omap id s). cbn [freeinfo].
  unfold bind, gets, assert, modify, ret, undefined. destruct (bool_decide _); [apply IH|done].
Qed.

(** [cs] are new structures. *)
Record made (h : heap) (cs : list nic) (h' : heap) : Prop := {
  mk_live : live h' = live h ∪ ptrs cs;
  mk_nodup : NoDup (n_ptr <$> cs);
  mk_range c : c ∈ cs -> next_addr h <= n_ptr c < next_addr h';
  mk_next : next_addr h <= next_addr h';
}.

Lemma made_nil h : made h [] h.
Proof. constructor; [set_solver|constructor|set_solver|lia]. Qed.

Lemma made_app h h1 h2 cs cs' : made h cs h1 -> made h1 cs' h2 -> made h (cs ++ cs') h2.
Proof.
  intros [Hl Hn Hr Ha] [Hl' Hn' Hr' Ha']. constructor; [rewrite Hl', Hl, fmap_app, list_to_set_app_L; set_solver| | |lia].
  - rewrite fmap_app. apply NoDup_app. split_and!; [done| |done]. intros a (c & -> & Hc)%list_elem_of_fmap (c' & Heq & Hc')%list_elem_of_fmap. specialize (Hr c Hc). specialize (Hr' c' Hc'). lia.
  - intros c [Hc|Hc]%elem_of_app; [specialize (Hr c Hc)|specialize (Hr' c Hc)]; lia.
Qed.

Lemma dupinfo_wp x h : wp (dupinfo x) (fun r h' => match r with None => sort_dup (n_pci x) = false /\ h' = h | Some c => sort_dup (n_pci x) = true /\ n_pci c = n_pci x /\ made h [c] h' end) h.
Proof.
  unfold dupinfo. destruct (sort_dup (n_pci x)); wp_simpl; [|done]. do 2 (split; [done|]). constructor; cbn; [set_solver|by apply NoDup_singleton|intros c Hc%list_elem_of_singleton; subst c; cbn; lia|lia].
Qed.

(** The highest index, as the code computes it. *)
Definition highest (cs : list nic) : Z := foldl (fun h c => if get_rail_vf_idx c >? h then get_rail_vf_idx c else h) 0 cs.

(** The arrays after the structures [cs]. *)
Definition filled (n : nat) (cs : list nic) : arrays :=
  mk_arrays ((Some <$> cs) ++ replicate (n - length cs) None) ((get_rail_vf_idx <$> cs) ++ replicate (n - length cs) 0) (length cs) (highest cs).

Lemma insert_filled {A B} (f : A -> B) (z : B) n cs (b : B) :
  (length cs < n)%nat -> <[length cs := b]> ((f <$> cs) ++ replicate (n - length cs) z) = (f <$> cs) ++ b :: replicate (n - S (length cs)) z.
Proof.
  intros Hn. replace (n - length cs)%nat with (S (n - S (length cs))) by lia. cbn [replicate]. rewrite insert_app_r_alt by (rewrite length_fmap; lia). by rewrite length_fmap, Nat.sub_diag.
Qed.

Lemma omap_slots (cs : list nic) k : omap id ((Some <$> cs) ++ replicate k None) = cs.
Proof. induction cs as [|c cs IH]; cbn; [by induction k|]. by rewrite IH. Qed.

Definition copyable (x : nic) : Prop := sort_dup (n_pci x) = true /\ 0 <= get_rail_vf_idx x.

Lemma copy_loop_wp n l : forall cs h,
  (length cs + length l = n)%nat ->
  wp (copy_loop n l (filled n cs)) (fun r h' => exists cs', made h cs' h' /\ omap id (info_array r.2) = cs ++ cs' /\
    if r.1 then r.2 = filled n (cs ++ cs') /\ n_pci <$> cs' = n_pci <$> l /\ Forall copyable l else ~ Forall copyable l) h.
Proof.
  induction l as [|x l IH]; intros cs h Hn; cbn [copy_loop].
  { wp_simpl. exists []. cbn [fst snd]. rewrite app_nil_r. split_and!; [apply made_nil|by apply omap_slots|done|done|constructor]. }
  cbn [length] in Hn. cbn [filled info_count]. rewrite (proj2 (Nat.ltb_lt _ _)) by lia. wp_simpl. eapply wp_mono; [apply dupinfo_wp|]. intros [c|] h1 Hc.
  2: { destruct Hc as [Hd ->]. wp_simpl. exists []. cbn [fst snd]. rewrite app_nil_r. split_and!; [apply made_nil|by apply omap_slots|]. intros [[Hx _] _]%Forall_cons. congruence. }
  destruct Hc as (Hd & Hp & Hm). cbn [info_array vf_array highest_vf_idx filled]. rewrite (insert_filled Some) by lia. destruct (Z.ltb_spec (get_rail_vf_idx c) 0) as [Hneg|Hpos].
  { wp_simpl. exists [c]. cbn [fst snd info_array]. split_and!; [done| |].
    - change (Some c :: replicate (n - S (length cs)) None) with ([Some c] ++ replicate (n - S (length cs)) (@None nic)). rewrite app_assoc. change [Some c] with (Some <$> [c]). rewrite <- fmap_app. apply omap_slots.
    - intros [[_ Hx] _]%Forall_cons. unfold get_rail_vf_idx in *. rewrite Hp in Hneg. lia. }
  rewrite (insert_filled get_rail_vf_idx) by lia. specialize (IH (cs ++ [c]) h1). rewrite length_app in IH. cbn [length] in IH.
  assert (filled n (cs ++ [c]) = mk_arrays ((Some <$> cs) ++ Some c :: replicate (n - S (length cs)) None) ((get_rail_vf_idx <$> cs) ++ get_rail_vf_idx c :: replicate (n - S (length cs)) 0) (S (length cs))
    (if get_rail_vf_idx c >? highest cs then get_rail_vf_idx c else highest cs)) as Hf.
  { unfold filled, highest. rewrite length_app, !fmap_app, foldl_app, <- !app_assoc. cbn. by replace (n - (length cs + 1))%nat with (n - S (length cs))%nat by lia; rewrite Nat.add_1_r. }
  rewrite <- Hf. eapply wp_mono; [apply IH; lia|]. intros [b a] h2 (cs' & Hm2 & Ho & Hr). cbn [fst snd] in *. exists (c :: cs'). rewrite <- app_assoc in Ho. cbn [app] in Ho. split_and!; [by apply (made_app h h1 h2 [c] cs')|done|].
  destruct b; [|by intros [_ Hx]%Forall_cons]. destruct Hr as (-> & Hpc & Hcp). rewrite <- app_assoc. split_and!; [done|cbn; by rewrite Hp, Hpc|].
  constructor; [|done]. split; [done|]. unfold get_rail_vf_idx in *. by rewrite Hp in Hpos.
Qed.

(** ** Alternation *)

(** The indices the outer loop asks for. *)
Fixpoint wanted (n : nat) (next highest : Z) : list Z :=
  match n with O => [] | S n' => next :: wanted n' (Z.rem (next + 1) (highest + 1)) highest end.

Lemma wanted_lookup n : forall next hi i v, 0 <= next <= hi -> wanted n next hi !! i = Some v -> v = (next + Z.of_nat i) mod (hi + 1).
Proof.
  induction n as [|n IH]; intros next hi i v Hr Hi; [done|]. cbn [wanted] in Hi. destruct i as [|i]; cbn in Hi.
  - injection Hi as <-. rewrite Z.add_0_r, Z.mod_small; lia.
  - rewrite Z.rem_mod_nonneg in Hi by lia. pose proof (Z.mod_pos_bound (next + 1) (hi + 1) ltac:(lia)). apply IH in Hi; [|lia]. rewrite Hi, Zplus_mod_idemp_l. f_equal. lia.
Qed.

Lemma wanted_length n : forall next hi, length (wanted n next hi) = n.
Proof. induction n as [|n IH]; intros next hi; cbn; [done|]. by rewrite IH. Qed.

(** A slot with the index of its structure. *)
Definition indexed (s : option nic) (v : Z) : Prop := match s with Some x => get_rail_vf_idx x = v | None => True end.

Lemma find_vf_spec infos : forall vfs next j0,
  Forall2 indexed infos vfs ->
  match find_vf infos vfs next j0 with
  | Some (j, x) => exists r1 r2, (j0 <= j)%nat /\ omap id infos = r1 ++ x :: r2 /\ omap id (<[(j - j0)%nat := None]> infos) = r1 ++ r2 /\ get_rail_vf_idx x = next /\ Forall (fun y => get_rail_vf_idx y <> next) r1
  | None => Forall (fun y => get_rail_vf_idx y <> next) (omap id infos)
  end.
Proof.
  induction infos as [|s infos IH]; intros vfs next j0 HF; inversion HF as [|? v ? vfs' Hs HF']; subst; [constructor|].
  assert (forall j, (S j0 <= j)%nat -> <[(j - j0)%nat := None]> (s :: infos) = s :: <[(j - S j0)%nat := None]> infos) as Hins by (intros j Hj; replace (j - j0)%nat with (S (j - S j0)) by lia; done).
  specialize (IH vfs' next (S j0) HF'). destruct s as [y|]; cbn [find_vf].
  - cbn in Hs. destruct (Z.eqb_spec v next) as [Hv|Hv].
    + exists [], (omap id infos). rewrite Nat.sub_diag. split_and!; [lia|done|done|congruence|constructor].
    + destruct (find_vf infos vfs' next (S j0)) as [[j x]|]; [|constructor; [congruence|exact IH]]. destruct IH as (r1 & r2 & Hj & H1 & H2 & H3 & H4). exists (y :: r1), r2. rewrite (Hins j Hj).
      split_and!; [lia|..|done|by constructor; [congruence|]].
      * change (omap id (Some y :: infos)) with (y :: omap id infos). by rewrite H1.
      * change (omap id (Some y :: <[(j - S j0)%nat:=None]> infos)) with (y :: omap id (<[(j - S j0)%nat:=None]> infos)). by rewrite H2.
  - destruct (find_vf infos vfs' next (S j0)) as [[j x]|]; [|exact IH]. destruct IH as (r1 & r2 & Hj & H1 & H2 & H3 & H4). exists r1, r2. rewrite (Hins j Hj). split_and!; [lia|done..].
Qed.

Lemma indexed_clear infos vfs j : Forall2 indexed infos vfs -> Forall2 indexed (<[j := None]> infos) vfs.
Proof.
  intros HF. destruct (infos !! j) as [s|] eqn:Hs; [|rewrite list_insert_ge; [done|by apply lookup_ge_None]].
  destruct (Forall2_lookup_l _ _ _ _ _ HF Hs) as (v & Hv & _). rewrite <- (list_insert_id vfs j v Hv). by apply Forall2_insert.
Qed.

(** The outer loop takes structures out of the slots in the wanted order, and those
    with the same index in the order of the slots. *)
Lemma pick_loop_spec n : forall infos vfs next hi out,
  Forall2 indexed infos vfs -> length (omap id infos) = n ->
  exists b infos' picked, pick_loop n infos vfs next hi out = (b, infos', out ++ picked) /\ picked ++ omap id infos' ≡ₚ omap id infos /\
    (b = true -> get_rail_vf_idx <$> picked = wanted n next hi /\ omap id infos' = [] /\ forall v, filter (fun x => get_rail_vf_idx x = v) picked = filter (fun x => get_rail_vf_idx x = v) (omap id infos)) /\
    (get_rail_vf_idx <$> omap id infos ≡ₚ wanted n next hi -> b = true).
Proof.
  induction n as [|n IH]; intros infos vfs next hi out HF Hlen; cbn [pick_loop wanted].
  { exists true, infos, []. rewrite app_nil_r. apply nil_length_inv in Hlen. rewrite Hlen. split_and!; done. }
  pose proof (find_vf_spec infos vfs next 0 HF) as Hf. destruct (find_vf infos vfs next 0) as [[j x]|].
  - destruct Hf as (r1 & r2 & _ & H1 & H2 & Hx & H4). rewrite Nat.sub_0_r in H2. rewrite H1 in *. rewrite length_app in Hlen. cbn [length] in Hlen.
    destruct (IH (<[j:=None]> infos) vfs (Z.rem (next + 1) (hi + 1)) hi (out ++ [x])) as (b & infos' & picked & Heq & Hp & Hb & Hc); [by apply indexed_clear|rewrite H2, length_app; lia|].
    exists b, infos', (x :: picked). rewrite H2 in *. split_and!.
    + rewrite Heq. f_equal. by rewrite <- app_assoc.
    + cbn. rewrite Hp. apply Permutation_middle.
    + intros ->. destruct (Hb eq_refl) as (Hw & He & Hst). split_and!; [cbn; by rewrite Hw, Hx|done|]. intros v. rewrite filter_app. destruct (decide (get_rail_vf_idx x = v)) as [Hv|Hv].
      * rewrite !filter_cons_True by done. rewrite Hst, filter_app. rewrite (filter_none _ r1); [done|]. intros y Hy Hyv. rewrite Forall_forall in H4. apply (H4 y Hy). congruence.
      * rewrite !filter_cons_False by done. by rewrite Hst, filter_app.
    + intros Hperm. apply Hc. rewrite fmap_app in *. cbn in Hperm. rewrite <- Permutation_middle, Hx in Hperm. by apply Permutation_cons_inv in Hperm.
  - exists false, infos, []. rewrite app_nil_r. split_and!; [done|done|done|]. intros Hperm. assert (next ∈ get_rail_vf_idx <$> omap id infos) as (y & Hy & Hin)%list_elem_of_fmap by (rewrite Hperm; left). rewrite Forall_forall in Hf. by destruct (Hf y Hin).
Qed.

(** ** The whole function *)

(** Everything the function reads of a structure is in its PCI attributes. *)
Lemma pci_ind (P : list nic -> list nic -> Prop) :
  P [] [] -> (forall x y a b, n_pci x = n_pci y -> get_rail_vf_idx x = get_rail_vf_idx y -> P a b -> P (x :: a) (y :: b)) -> forall a b, n_pci <$> a = n_pci <$> b -> P a b.
Proof.
  intros H0 HS a. induction a as [|x a IH]; intros [|y b] Heq; try done. cbn in Heq. injection Heq as Hx Ha. apply HS; [done| |by apply IH]. unfold get_rail_vf_idx. by rewrite Hx.
Qed.

Lemma pci_vf (a b : list nic) : n_pci <$> a = n_pci <$> b -> get_rail_vf_idx <$> a = get_rail_vf_idx <$> b.
Proof. revert a b. apply pci_ind; [done|]. intros x y a b _ Hv IH. cbn. by rewrite Hv, IH. Qed.

Lemma pci_filter v (a b : list nic) : n_pci <$> a = n_pci <$> b -> n_pci <$> filter (fun x => get_rail_vf_idx x = v) a = n_pci <$> filter (fun x => get_rail_vf_idx x = v) b.
Proof. revert a b. apply pci_ind; [done|]. intros x y a b Hp Hv IH. destruct (decide (get_rail_vf_idx x = v)); [rewrite !filter_cons_True by congruence; cbn; by rewrite Hp, IH|by rewrite !filter_cons_False by congruence]. Qed.

Lemma pci_highest (a b : list nic) : n_pci <$> a = n_pci <$> b -> highest a = highest b.
Proof.
  intros H. unfold highest. generalize 0. revert a b H. apply (pci_ind (fun a b => forall z, foldl _ z a = foldl _ z b)); [done|]. intros x y a b _ Hv IH z. cbn [foldl]. by rewrite Hv, IH.
Qed.

Lemma highest_nonneg l : 0 <= highest l.
Proof. unfold highest. assert (forall l z, 0 <= z -> 0 <= foldl (fun h c => if get_rail_vf_idx c >? h then get_rail_vf_idx c else h) z l) as Hg; [|by apply Hg]. clear. induction l as [|x l IH]; intros z Hz; [done|]. cbn. apply IH. destruct (Z.gtb_spec (get_rail_vf_idx x) z); lia. Qed.

Lemma freeinfo_app s1 : forall s2 h, (freeinfo s1 ;;; freeinfo s2) h = freeinfo (s1 ++ s2) h.
Proof.
  induction s1 as [|x s1 IH]; intros s2 h; [done|]. cbn [freeinfo app]. unfold bind, gets, assert, modify, ret, undefined in *. destruct (bool_decide _); [apply IH|done].
Qed.

Lemma free_both {A} s p h (k : HM A) (Q : A -> heap -> Prop) : wp (freeinfo (omap id s ++ p)) (fun _ => wp k Q) h -> wp (free_slots s) (fun _ => wp (freeinfo p ;;; k) Q) h.
Proof.
  intros Hw. apply (wp_mono (free_slots s) (fun _ => wp (freeinfo p) (fun _ => wp k Q))); [|intros u h1 H1; by apply wp_bind]. unfold wp at 1. rewrite free_slots_freeinfo. apply (wp_bind_inv (freeinfo (omap id s)) (fun _ => freeinfo p)). unfold wp at 1. by rewrite freeinfo_app.
Qed.

Lemma slots_indexed cs : Forall2 indexed (Some <$> cs) (get_rail_vf_idx <$> cs).
Proof. induction cs as [|c cs IH]; constructor; done. Qed.

(** A heap whose addresses have been given out, with the list [l] in it. *)
Record holds (h : heap) (l : list nic) : Prop := {
  hd_range a : a ∈ live h -> a < next_addr h;
  hd_nodup : NoDup (n_ptr <$> l);
  hd_live : ptrs l ⊆ live h;
}.

(** The new structures do not overlap the old ones. *)
Lemma made_fresh h l cs h' : holds h l -> made h cs h' -> ptrs cs ## live h.
Proof. intros Hh Hm a (c & -> & Hc)%elem_of_list_to_set%list_elem_of_fmap Ha. apply (hd_range _ _ Hh) in Ha. apply (mk_range _ _ _ Hm) in Hc. lia. Qed.

(** Releasing all copies gives back the old heap. *)
Lemma release_copies h l cs h' s (Q : unit -> heap -> Prop) :
  holds h l -> made h cs h' -> s ≡ₚ cs -> (forall h2, live h2 = live h -> Q tt h2) -> wp (freeinfo s) Q h'.
Proof.
  intros Hh Hm Hp HQ. pose proof (made_fresh _ _ _ _ Hh Hm) as Hd. assert (ptrs s = ptrs cs) as Hs by (apply set_eq; intros a; rewrite !elem_of_list_to_set; by rewrite Hp).
  apply freeinfo_wp; rewrite ?Hs, ?(mk_live _ _ _ Hm); [rewrite Hp; apply Hm|set_solver|]. apply HQ. cbn. set_solver.
Qed.

(** The new list of [l]: copies in alternating order, those with the same index in
    the old order. *)
Record reordered (l l' : list nic) : Prop := {
  ro_pci : n_pci <$> l' ≡ₚ n_pci <$> l;
  ro_alternate i x : l' !! i = Some x -> get_rail_vf_idx x = Z.of_nat i mod (highest l + 1);
  ro_stable v : n_pci <$> filter (fun x => get_rail_vf_idx x = v) l' = n_pci <$> filter (fun x => get_rail_vf_idx x = v) l;
}.

(** Whether the list can be put in alternating order. *)
Definition can_alternate (l : list nic) : Prop := get_rail_vf_idx <$> l ≡ₚ (fun i => Z.of_nat i mod (highest l + 1)) <$> seq 0 (length l).

Lemma wanted_seq n hi : 0 <= hi -> wanted n 0 hi = (fun i => Z.of_nat i mod (hi + 1)) <$> seq 0 n.
Proof.
  intros Hhi. apply list_eq_same_length with n; [by rewrite length_fmap, length_seq|apply wanted_length|]. intros i x y Hi Hx Hy. apply wanted_lookup in Hx; [|lia].
  apply list_lookup_fmap_Some in Hy as (k & -> & Hk). apply lookup_seq in Hk as [-> _]. by rewrite Hx, !Z.add_0_l.
Qed.

(** When the code reorders: there is more than one NIC per group, both arrays are
    allocated, every NIC can be copied and tells its index, the indices are not all
    0, and the outer loop finds every index it asks for. *)
Definition sorts (l : list nic) (g : Z) : Prop :=
  1 < Z.of_nat (length l) / g /\ sort_calloc 0 = true /\ sort_calloc 1 = true /\ Forall copyable l /\ 0 < highest l /\ can_alternate l.

(** What the code leaves behind. *)
Definition sorted_or_kept (l : list nic) (g : Z) (h : heap) (l' : list nic) (h' : heap) : Prop :=
  ~ sorts l g /\ l' = l /\ live h' = live h \/
  sorts l g /\ reordered l l' /\ NoDup (n_ptr <$> l') /\ live h' = (live h ∖ ptrs l) ∪ ptrs l' /\ (forall x, x ∈ l' -> next_addr h <= n_ptr x).

(** A goto cleanup releases the copies and keeps the list. *)
Lemma give_up_wp l g h h1 s cs :
  holds h l -> made h cs h1 -> omap id s = cs -> ~ sorts l g -> wp (free_slots s ;;; ret l) (sorted_or_kept l g h) h1.
Proof.
  intros Hh Hm Ho Hns. wp_simpl. unfold wp at 1. rewrite free_slots_freeinfo. apply (release_copies h l cs); [done|done|by rewrite Ho|].
  intros h2 Hl2. wp_simpl. by left.
Qed.

(** The outer loop found all its indices: the new list replaces the old one. *)
Lemma swap_lists_wp l g h h1 cs picked infos :
  holds h l -> made h cs h1 -> n_pci <$> cs = n_pci <$> l -> picked ≡ₚ cs -> omap id infos = [] ->
  get_rail_vf_idx <$> picked = wanted (length l) 0 (highest l) ->
  (forall v, filter (fun x => get_rail_vf_idx x = v) picked = filter (fun x => get_rail_vf_idx x = v) cs) ->
  (can_alternate l -> sorts l g) ->
  wp (freeinfo l ;;; free_slots infos ;;; ret picked) (sorted_or_kept l g h) h1.
Proof.
  intros Hh Hm Hpc Hp He Hw Hst Hs. wp_simpl. apply freeinfo_wp; [apply Hh|rewrite (mk_live _ _ _ Hm); apply union_subseteq_l', Hh|].
  cbn beta. wp_simpl. unfold wp at 1. rewrite free_slots_freeinfo, He. cbn [freeinfo ret]. right.
  assert (ptrs picked = ptrs cs) as Hps by (apply set_eq; intros z; rewrite !elem_of_list_to_set; by rewrite Hp).
  pose proof (made_fresh _ _ _ _ Hh Hm) as Hd. pose proof (hd_live _ _ Hh) as Hsub. pose proof (highest_nonneg l) as Hhi. split_and!.
  - apply Hs. unfold can_alternate. by rewrite <- (wanted_seq _ _ Hhi), <- Hw, <- (pci_vf cs l Hpc), Hp.
  - constructor; [by rewrite Hp, Hpc| |intros v; rewrite Hst; by apply pci_filter]. intros i x Hi.
    rewrite <- (Z.add_0_l (Z.of_nat i)). apply (wanted_lookup (length l)); [lia|]. by rewrite <- Hw, list_lookup_fmap, Hi.
  - rewrite Hp. apply Hm.
  - cbn. rewrite (mk_live _ _ _ Hm), Hps. clear - Hd Hsub. set_solver.
  - intros x Hx. rewrite Hp in Hx. by apply (mk_range _ _ _ Hm).
Qed.

Lemma sort_rails_wp l g h :
  holds h l -> 0 < g -> wp (platform_sort_rails l (Z.of_nat (length l)) g) (sorted_or_kept l g h) h.
Proof.
  intros Hh Hg. unfold platform_sort_rails. rewrite (proj2 (Z.eqb_neq g 0)), Z.quot_div_nonneg, Nat2Z.id by lia.
  destruct (Z.leb_spec (Z.of_nat (length l) / g) 1) as [Hle|Hgt]; [wp_simpl; left; split; [intros [? _]; lia|done]|].
  destruct (sort_calloc 0) eqn:Hc0; cbn [negb]; [|wp_simpl; left; split; [intros (_ & ? & _); congruence|done]].
  destruct (sort_calloc 1) eqn:Hc1; cbn [negb].
  2: { apply (give_up_wp _ _ _ _ _ []); [done|apply made_nil| |intros (_ & _ & ? & _); congruence].
       rewrite <- (app_nil_l (replicate _ _)). change (@nil (option nic)) with (Some <$> @nil nic). apply omap_slots. }
  assert (mk_arrays (replicate (length l) None) (replicate (length l) 0) 0 0 = filled (length l) []) as -> by (unfold filled; cbn; by rewrite Nat.sub_0_r).
  apply wp_bind. eapply wp_mono; [apply (copy_loop_wp (length l) l [] h); cbn; lia|]. intros [b a] h1 (cs & Hm & Ho & Hr). cbn [fst snd app] in *.
  destruct b; cbn [negb orb]; [|eapply give_up_wp; try done; by intros (_ & _ & _ & ? & _)].
  destruct Hr as (-> & Hpc & Hcp). cbn [filled info_count highest_vf_idx info_array vf_array] in *.
  assert (length cs = length l) as Hlc by (by rewrite <- (length_fmap n_pci cs), Hpc, length_fmap).
  rewrite Hlc, Nat.eqb_refl, (pci_highest cs l Hpc) in *. cbn [negb orb].
  destruct (Z.eqb_spec (highest l) 0) as [Hz|Hnz]; [eapply give_up_wp; try done; intros (_ & _ & _ & _ & ? & _); lia|].
  rewrite Nat.sub_diag in *. cbn [replicate] in *. rewrite !app_nil_r in *.
  destruct (pick_loop_spec (length l) (Some <$> cs) (get_rail_vf_idx <$> cs) 0 (highest l) []) as (b & infos' & picked & -> & Hp & Hb & Hcomp); [apply slots_indexed|by rewrite Ho|].
  rewrite Ho in *. cbn [app]. destruct b.
  - destruct (Hb eq_refl) as (Hw & He & Hst). rewrite He, app_nil_r in Hp. pose proof (highest_nonneg l).
    eapply swap_lists_wp; try done. intros Hcan. split_and!; try done. lia.
  - wp_simpl. apply free_both. apply (release_copies h l cs); [done|done|by rewrite (Permutation_app_comm _ picked)|].
    intros h2 Hl2. wp_simpl. left. split; [|done]. intros (_ & _ & _ & _ & _ & Hcan). assert (false = true); [|done].
    apply Hcomp. rewrite (pci_vf cs l Hpc), wanted_seq by apply highest_nonneg. exact Hcan.
Qed.

(** C18. Sorting the rails of a list that the heap holds always ends. When there is
    more than one NIC per group, nothing fails, the VF indices are not all 0 and an
    alternating order exists, a new list has replaced that of the caller, whose
    structures are released: its indices alternate and the NICs of one index keep
    their order. In every other case, the guard and the failures included, the
    caller keeps its list and the heap has no structure more or less. *)
Theorem sort_rails_alternates l g h :
  holds h l -> 0 < g ->
  exists l' h', platform_sort_rails l (Z.of_nat (length l)) g h = Some (l', h') /\
    (sorts l g -> reordered l l' /\ NoDup (n_ptr <$> l') /\ live h' = (live h ∖ ptrs l) ∪ ptrs l') /\
    (~ sorts l g -> l' = l /\ live h' = live h).
Proof.
  intros Hh Hg. pose proof (sort_rails_wp l g h Hh Hg) as Hw. apply wp_run in Hw as (l' & h' & Hrun & Hor).
  exists l', h'. split; [done|]. destruct Hor as [(Hn & ? & ?)|(Hs & ? & ? & ? & _)]; split; intros; done.
Qed.

(** ** The hook of the topology *)

Definition fresh_heap (l : list nic) : heap := mk_heap (ptrs l) (1 + foldr Z.max 0 (n_ptr <$> l)).

(** The list that grouping sees; its structures are distinct. *)
Definition sort_hook (l : list nic) (n g : Z) : list nic :=
  if decide (NoDup (n_ptr <$> l)) then match platform_sort_rails l n g (fresh_heap l) with Some (l', _) => l' | None => l end else l.

Lemma fresh_heap_holds l : NoDup (n_ptr <$> l) -> holds (fresh_heap l) l.
Proof.
  intros Hnd. constructor; cbn; [|done|done]. intros a Ha%elem_of_list_to_set. assert (forall l : list Z, a ∈ l -> a <= foldr Z.max 0 l) as Hm; [|specialize (Hm _ Ha); lia].
  clear. induction l as [|x l IH]; [by intros ?%not_elem_of_nil|]. intros [->|Ha]%elem_of_cons; cbn; [lia|specialize (IH Ha); lia].
Qed.

Lemma sort_hook_cases l g : 0 < g -> sort_hook l (Z.of_nat (length l)) g = l \/ reordered l (sort_hook l (Z.of_nat (length l)) g) /\ Forall (fun x => n_ptr x <> NULL) (sort_hook l (Z.of_nat (length l)) g).
Proof.
  intros Hg. unfold sort_hook. case_decide as Hnd; [|by left]. pose proof (sort_rails_wp l g _ (fresh_heap_holds l Hnd) Hg) as Hw. apply wp_run in Hw as (l' & h' & -> & Hor).
  destruct Hor as [(_ & -> & _)|(_ & Hr & _ & _ & Hp)]; [by left|right]. split; [done|]. apply Forall_forall. intros x Hx. specialize (Hp x Hx). cbn in Hp.
  assert (forall l : list Z, 0 <= foldr Z.max 0 l) as Hm by (clear; induction l; cbn; lia). specialize (Hm (n_ptr <$> l)). unfold NULL. lia.
Qed.

Definition aws_topo (H : hwloc) (ok : nic -> bool) : TopoEnv := {| hw := H; dupinfo_ok := ok; Topo.platform_sort_rails := sort_hook |}.

(** The platform keeps what grouping asks of it. *)
#[export] Instance aws_sort_ok H ok : @SortOk (aws_topo H ok).
Proof.
  constructor; intros l n g -> Hg; destruct (sort_hook_cases l g Hg) as [Heq|[Hr Hp]]; cbn [Topo.platform_sort_rails aws_topo]; try by rewrite Heq.
  - apply (ro_pci _ _ Hr).
  - done.
Qed.

(** Grouping passes the size of a group where the hook takes the number of groups:
    with one or two GPUs behind a switch the quotient is at most 1, and the NICs are
    never reordered, however many there are. *)
Theorem two_groups_never_sorted H ok infos gpu groups t :
  infos <> [] -> 1 <= groups <= 2 ->
  let n := Z.of_nat (length infos) in
  @create_groups_from_info_list (aws_topo H ok) infos n gpu groups t =
  @group_loop (aws_topo H ok) (Z.to_nat (Z.min groups n)) 0 (Z.min groups n) (Z.rem n (Z.min groups n)) (Z.quot n (Z.min groups n) + 1) gpu infos t.
Proof.
  intros Hne Hg n. assert (1 <= n) as Hn by (destruct infos; [done|unfold n; cbn; lia]). unfold create_groups_from_info_list. cbn [Topo.platform_sort_rails aws_topo].
  assert (sort_hook infos n (Z.quot n (Z.min groups n) + 1) = infos) as ->; [|done]. unfold sort_hook. case_decide; [|done]. unfold platform_sort_rails.
  assert (0 <= Z.quot n (Z.min groups n) /\ n < 2 * (Z.quot n (Z.min groups n) + 1)) as [Hq Hlt].
  { rewrite Z.quot_div_nonneg by lia. destruct (decide (Z.min groups n = 1)) as [->|Hm]; [rewrite Z.div_1_r; lia|]. replace (Z.min groups n) with 2 by lia. pose proof (Z.div_mod n 2). pose proof (Z.mod_pos_bound n 2). lia. }
  rewrite (proj2 (Z.eqb_neq _ _)) by lia. rewrite (proj2 (Z.leb_le _ _)); [done|]. rewrite (Z.quot_div_nonneg n (Z.quot n (Z.min groups n) + 1)) by lia. apply Z.lt_succ_r, Z.div_lt_upper_bound; lia.
Qed.

End Spec.

(** Four NICs of which two have VF index 0 and two have 1. *)
Definition paired_vfs : SortEnv :=
  {| sort_calloc _ := true; sort_dup _ := true; node_guid p := mk_guid 0 0 1 (match p with Some b => if b_bus b <? 22 then 0 else 1 | None => 0 end) |}.

Lemma sort_rails_alternates_witness :
  exists l' h', @platform_sort_rails paired_vfs example_nics 4 2 (fresh_heap example_nics) = Some (l', h') /\ @reordered paired_vfs example_nics l' /\
    ((fun x => b_bus <$> n_pci x) <$> l') = [Some 20; Some 22; Some 21; Some 23].
Proof.
  destruct (@sort_rails_alternates paired_vfs example_nics 2 (fresh_heap example_nics)) as (l' & h' & Hrun & Hr & _);
    [apply fresh_heap_holds; vm_compute; repeat constructor; set_solver|lia|].
  exists l', h'. split; [exact Hrun|]. split.
  - apply Hr. split_and!; [reflexivity|reflexivity|reflexivity|repeat constructor; vm_compute; congruence|reflexivity|vm_compute; apply perm_skip, perm_swap].
  - assert (option_map fst (@platform_sort_rails paired_vfs example_nics 4 2 (fresh_heap example_nics)) = Some l') as Hl by (change 4 with (Z.of_nat (length example_nics)); rewrite Hrun; reflexivity). vm_compute in Hl. injection Hl as <-. reflexivity.
Defined.

(** The same NICs in front of two GPUs, each to get two of them. *)
Lemma two_groups_never_sorted_witness :
  (forall gpu t, @create_groups_from_info_list (@aws_topo paired_vfs (@hw example_env) (fun _ => true)) example_nics 4 gpu 2 t =
     @group_loop (@aws_topo paired_vfs (@hw example_env) (fun _ => true)) 2 0 2 0 3 gpu example_nics t) /\ @sort_hook paired_vfs example_nics 4 2 <> example_nics.
Proof.
  split; [|vm_compute; discriminate]. intros gpu t. exact (@two_groups_never_sorted paired_vfs (@hw example_env) (fun _ => true) example_nics gpu 2 t ltac:(discriminate) ltac:(lia)).
Defined.

End PlatformSort.
