(* ===== verification/OfiSystem.v ===== *)
(** * nccl_ofi_system.c: the product name

    nccl_net_ofi_get_product_name reads the first line of a sysfs file into a buffer
    that grows, once. The buffer is a list of the length of the allocation; a write
    past it is undefined. A file is its bytes and the place of a read error, if any. *)

From S2P Require Import Prelude.

Module OfiSystem.

Open Scope Z_scope.

Record file := mk_file { f_bytes : list Z; f_error : option nat }.

(** The position of a stream and its end-of-file and error flags. *)
Record stream := mk_stream { s_file : file; s_pos : nat; s_eof : bool; s_err : bool }.

Definition EOF : Z := -1.

Definition fgetc (s : stream) : Z * stream :=
  if bool_decide (f_error (s_file s) = Some (s_pos s)) then (EOF, mk_stream (s_file s) (s_pos s) (s_eof s) true)
  else match f_bytes (s_file s) !! s_pos s with
       | Some c => (c, mk_stream (s_file s) (S (s_pos s)) (s_eof s) (s_err s))
       | None => (EOF, mk_stream (s_file s) (s_pos s) true (s_err s))
       end.

(** [ch = fgetc(fd)] keeps the low byte. *)
Definition to_char (c : Z) : Z := c mod 256.
Definition newline : Z := 10.
Definition product_name_len : nat := 64.

(** What malloc and realloc answer, by the size, and fopen. *)
Class SysEnv := { sys_file : option file; malloc_ok : bool; realloc_ok : nat -> bool }.

(** The outcome of the loop: the buffer with the length, or a failed realloc. [None]
    is a write outside the buffer or the end of [fuel]. *)
Inductive read_result := ReadOk (buf : list Z) (len : nat) (s : stream) | ReadNoMem.

Section System.
Context {E : SysEnv}.

Definition store (i : nat) (c : Z) (buf : list Z) : option (list Z) := if (i <? length buf)%nat then Some (<[i := c]> buf) else None.

(** New bytes after a realloc have no defined value; 0 stands for it. *)
Definition grow (buf : list Z) (n : nat) : list Z := take n buf ++ replicate (n - length buf) 0.

Fixpoint read_loop (fuel : nat) (s : stream) (buf : list Z) (len : nat) : option read_result :=
  match fuel with
  | O => None
  | S fuel' =>
      if s_eof s || s_err s then Some (ReadOk buf len s)
      else
        let (c, s) := fgetc s in
        let ch := to_char c in
        if ch =? newline then Some (ReadOk buf len s)
        else
          match store len ch buf with
          | None => None
          | Some buf =>
              let len := S len in
              if (product_name_len <=? len)%nat then
                if realloc_ok (len + product_name_len) then read_loop fuel' s (grow buf (len + product_name_len)) len
                else Some ReadNoMem
              else read_loop fuel' s buf len
          end
  end.

(** The C string in a buffer. *)
Fixpoint c_string (buf : list Z) : list Z := match buf with [] => [] | c :: buf' => if c =? 0 then [] else c :: c_string buf' end.

(** The static name, [None] for NULL, behind the flag init. *)
Definition nccl_net_ofi_get_product_name (fuel : nat) (st : option (option (list Z))) : option (option (list Z) * option (option (list Z))) :=
  match st with
  | Some name => Some (name, st)
  | None =>
      match sys_file with
      | None => Some (None, Some None)
      | Some f =>
          if negb malloc_ok then Some (None, Some None)
          else
            match read_loop fuel (mk_stream f 0 false false) (replicate product_name_len 0) 0 with
            | None => None
            | Some ReadNoMem => Some (None, Some None)
            | Some (ReadOk buf len s) =>
                match store len 0 buf with
                | None => None
                | Some buf => if s_err s then Some (None, Some None) else Some (Some (c_string buf), Some (Some (c_string buf)))
                end
            end
      end
  end.

(** ** Theorems *)

(** The line that the loop reads: up to the newline; at the end of the file one
    more byte, the EOF of fgetc. *)
Fixpoint line (l : list Z) : list Z :=
  match l with [] => [255] | c :: l' => if c =? newline then [] else c :: line l' end.

End System.

Section SysSpec.
Context {E : SysEnv}.

(** The buffer holds [dn] and has room for one more byte. *)
Definition holds (buf dn : list Z) : Prop := take (length dn) buf = dn /\ (length dn < length buf)%nat /\ (product_name_len <= length buf)%nat.

Lemma store_holds buf dn c : holds buf dn -> exists buf', store (length dn) c buf = Some buf' /\ length buf' = length buf /\ take (S (length dn)) buf' = dn ++ [c].
Proof.
  intros (Ht & Hl & _). unfold store. rewrite (proj2 (Nat.ltb_lt _ _)) by done. eexists. split; [done|]. split; [apply length_insert|].
  rewrite (take_S_r _ _ c) by (by rewrite list_lookup_insert_eq). rewrite take_insert_ge by done. by rewrite Ht.
Qed.

Lemma grow_holds buf dn : take (length dn) buf = dn -> (length dn <= length buf)%nat -> holds (grow buf (length dn + product_name_len)) dn.
Proof.
  intros Ht Hl. unfold grow, holds, product_name_len. rewrite length_app, length_take, length_replicate. split_and!; [|lia|lia]. rewrite take_app_le by (rewrite length_take; lia). rewrite take_take. by rewrite Nat.min_l by lia.
Qed.

(** The result of the loop from the position [k] with the bytes [dn] stored. *)
Definition read_ok (f : file) (k : nat) (dn : list Z) (r : read_result) : Prop :=
  match r with
  | ReadNoMem => exists n, realloc_ok n = false
  | ReadOk buf len s =>
      (len < length buf)%nat /\ (f_error f = None -> s_err s = false) /\
      (s_err s = false -> len = length (dn ++ line (drop k (f_bytes f))) /\ take len buf = dn ++ line (drop k (f_bytes f)))
  end.

(** One iteration that stores a byte. *)
Lemma read_store fuel s buf dn c s' :
  s_eof s = false -> s_err s = false -> fgetc s = (c, s') -> to_char c <> newline -> holds buf dn ->
  (exists n, realloc_ok n = false) /\ read_loop (S fuel) s buf (length dn) = Some ReadNoMem \/
  exists buf', holds buf' (dn ++ [to_char c]) /\ read_loop (S fuel) s buf (length dn) = read_loop fuel s' buf' (length (dn ++ [to_char c])).
Proof.
  intros He Hr Hg Hc Hh. cbn [read_loop]. rewrite He, Hr, Hg. cbn [orb]. rewrite (proj2 (Z.eqb_neq _ _) Hc). destruct (store_holds buf dn (to_char c) Hh) as (b1 & -> & Hl & Ht). destruct Hh as (_ & Hlt & Hcap).
  assert (length (dn ++ [to_char c]) = S (length dn)) as Hlen by (rewrite length_app; cbn; lia).
  destruct (Nat.leb_spec product_name_len (S (length dn))) as [Hge|Hsm].
  - destruct (realloc_ok (S (length dn) + product_name_len)) eqn:Hro; [|left; eauto]. right. eexists. rewrite <- Hlen. split; [|done]. apply grow_holds; rewrite Hlen; [done|lia].
  - right. exists b1. split; [|by rewrite Hlen]. unfold holds. rewrite Hlen. split_and!; [done|lia|lia].
Qed.

Lemma read_stop fuel s buf (dn : list Z) : s_eof s || s_err s = true -> read_loop (S fuel) s buf (length dn) = Some (ReadOk buf (length dn) s).
Proof. intros H. cbn [read_loop]. by rewrite H. Qed.

Lemma read_loop_total fuel f : forall k buf dn,
  Forall (fun c => 0 <= c < 256) (f_bytes f) -> holds buf dn -> (length (f_bytes f) < fuel + k - 1)%nat -> (k <= length (f_bytes f))%nat ->
  exists r, read_loop fuel (mk_stream f k false false) buf (length dn) = Some r /\ read_ok f k dn r.
Proof.
  induction fuel as [|fuel IH]; intros k buf dn HF Hh Hfuel Hk; [lia|]. destruct (fgetc (mk_stream f k false false)) as [c s'] eqn:Hg. unfold fgetc in Hg. cbn in Hg.
  assert (exists fuel', fuel = S fuel') as [fuel' ->] by (destruct fuel; [lia|eauto]).
  destruct (bool_decide (f_error f = Some k)) eqn:Herr; [|destruct (f_bytes f !! k) as [b|] eqn:Hb]; injection Hg as <- <-.
  - destruct (read_store (S fuel') (mk_stream f k false false) buf dn EOF (mk_stream f k false true)) as [[Hn ->]|(b' & Hh' & ->)]; try done; [by unfold fgetc; cbn; rewrite Herr|by eexists|].
    rewrite read_stop by done. eexists. split; [done|]. destruct Hh' as (_ & Hlt & _). split_and!; [done| |done]. apply bool_decide_eq_true in Herr. intros Hnone. cbn. congruence.
  - rewrite Forall_forall in HF. assert (0 <= b < 256) as Hbr by (apply HF; by eapply list_elem_of_lookup_2). assert (to_char b = b) as Htc by (unfold to_char; by rewrite Z.mod_small).
    assert (fgetc (mk_stream f k false false) = (b, mk_stream f (S k) false false)) as Hg by (unfold fgetc; cbn; by rewrite Herr, Hb). apply lookup_lt_Some in Hb as Hlt.
    destruct (Z.eqb_spec b newline) as [->|Hnl].
    + cbn [read_loop s_eof s_err orb]. rewrite Hg, Htc. cbn [Z.eqb newline Pos.eqb]. eexists. split; [done|]. unfold read_ok. rewrite (drop_S _ _ _ Hb). cbn. destruct Hh as (Ht & Hl & _). rewrite app_nil_r. done.
    + destruct (read_store (S fuel') (mk_stream f k false false) buf dn b (mk_stream f (S k) false false)) as [[Hn ->]|(b' & Hh' & ->)]; try done; [by rewrite Htc|by eexists|].
      destruct (IH (S k) b' (dn ++ [to_char b])) as (r & -> & Hr); [by apply Forall_forall|done|lia|lia|]. exists r. split; [done|]. rewrite Htc in Hr. unfold read_ok in *. rewrite (drop_S _ _ _ Hb). cbn [line]. rewrite (proj2 (Z.eqb_neq _ _) Hnl).
      by rewrite <- app_assoc in Hr.
  - destruct (read_store (S fuel') (mk_stream f k false false) buf dn EOF (mk_stream f k true false)) as [[Hn ->]|(b' & Hh' & ->)]; try done; [by unfold fgetc; cbn; rewrite Herr, Hb|by eexists|].
    rewrite read_stop by done. eexists. split; [done|]. destruct Hh' as (Ht & Hlt & _). apply lookup_ge_None in Hb. unfold read_ok. rewrite drop_ge by done. done.
Qed.

Lemma c_string_end l rest : Forall (fun c => c <> 0) l -> c_string (l ++ 0 :: rest) = l.
Proof. induction l as [|c l IH]; [done|]. intros [Hc Hl]%Forall_cons. cbn. rewrite (proj2 (Z.eqb_neq _ _) Hc). by rewrite IH. Qed.

Lemma line_bytes l : Forall (fun c => c <> 0) l -> Forall (fun c => c <> 0) (line l).
Proof. induction l as [|c l IH]; [by repeat constructor|]. intros [Hc Hl]%Forall_cons. cbn. destruct (c =? newline); [constructor|by constructor; [|apply IH]]. Qed.

(** Reading the product name always ends inside the buffer, whatever the length of
    the file and whatever fails, and happens once: later calls return the same. If
    nothing fails, the name is the first line of the file, with a byte 255 at its end
    when no newline ends it. *)
Theorem product_name_reads f :
  sys_file = Some f -> Forall (fun c => 0 < c < 256) (f_bytes f) ->
  exists name, nccl_net_ofi_get_product_name (length (f_bytes f) + 2) None = Some (name, Some name) /\
    (forall fuel, nccl_net_ofi_get_product_name fuel (Some name) = Some (name, Some name)) /\
    (malloc_ok = true -> (forall n, realloc_ok n = true) -> f_error f = None -> name = Some (line (f_bytes f))).
Proof.
  intros Hf Hb. unfold nccl_net_ofi_get_product_name. rewrite Hf. destruct malloc_ok; cbn [negb]; [|by eexists].
  destruct (read_loop_total (length (f_bytes f) + 2) f 0 (replicate product_name_len 0) []) as (r & Hr & Hok); [eapply Forall_impl; [exact Hb|]; cbn; lia|by unfold holds, product_name_len; cbn; split_and!; [done|lia|lia]|lia|lia|].
  cbn [length] in Hr. rewrite Hr. destruct r as [buf len s|]; [|destruct Hok as [n Hn]; eexists; split_and!; [done|done|]; intros _ Hall; by rewrite Hall in Hn]. destruct Hok as (Hlt & Herr & Hline). unfold store. rewrite (proj2 (Nat.ltb_lt _ _)) by done.
  destruct (s_err s); [eexists; split_and!; [done|done|]; intros _ _ Hn; by specialize (Herr Hn)|]. destruct (Hline eq_refl) as [Hlen Ht]. cbn [app] in *. rewrite drop_0 in *. eexists. split_and!; [done|done|]. intros _ _ _. f_equal.
  rewrite insert_take_drop by done. rewrite Ht. apply c_string_end, line_bytes. eapply Forall_impl; [exact Hb|]. cbn. lia.
Qed.

(** A file that does not end in a newline: fgetc's EOF becomes a byte of the name. *)
Lemma line_without_newline l : newline ∉ l -> line l = l ++ [255].
Proof. induction l as [|c l IH]; [done|]. intros [Hc Hl]%not_elem_of_cons. cbn. rewrite (proj2 (Z.eqb_neq _ _)) by congruence. by rewrite IH. Qed.

Lemma line_with_newline l rest : newline ∉ l -> line (l ++ newline :: rest) = l.
Proof. induction l as [|c l IH]; [done|]. intros [Hc Hl]%not_elem_of_cons. cbn. rewrite (proj2 (Z.eqb_neq _ _)) by congruence. by rewrite IH. Qed.

End SysSpec.

(** p5, with and without a newline. *)
Definition name_env (l : list Z) : SysEnv := {| sys_file := Some (mk_file l None); malloc_ok := true; realloc_ok _ := true |}.

Lemma product_name_reads_witness :
  @nccl_net_ofi_get_product_name (name_env [112; 53; 10]) 5 None = Some (Some [112; 53], Some (Some [112; 53])) /\
  @nccl_net_ofi_get_product_name (name_env [112; 53]) 4 None = Some (Some [112; 53; 255], Some (Some [112; 53; 255])).
Proof.
  split.
  - destruct (@product_name_reads (name_env [112; 53; 10]) (mk_file [112; 53; 10] None) eq_refl) as (name & Hr & _ & Hn); [repeat constructor|]. rewrite (Hn eq_refl (fun _ => eq_refl) eq_refl) in Hr. exact Hr.
  - destruct (@product_name_reads (name_env [112; 53]) (mk_file [112; 53] None) eq_refl) as (name & Hr & _ & Hn); [repeat constructor|]. rewrite (Hn eq_refl (fun _ => eq_refl) eq_refl) in Hr. exact Hr.
Defined.

End OfiSystem.
