(* ===== verification/AccelProbe.v ===== *)
(** * nccl_ofi_accel.cc: looking for an accelerator in sysfs

    A program of its own that looks for a driver with a bound device below the kernel
    modules nvidia and neuron. The file system is a parameter. [None] is an exception of
    std::filesystem, which nobody catches. *)

From Stdlib Require Import Ascii.
From stdpp Require Import strings.
From S2P Require Import Prelude.

Module AccelProbe.

(** The queries of std::filesystem; [canonical] and [directory_iterator] may throw. *)
Class Fs := {
  exists_ : string -> bool;
  is_directory : string -> bool;
  is_symlink : string -> bool;
  canonical : string -> option string;
  directory_iterator : string -> option (list string);
}.

(** The operator / of paths, for a relative second operand. *)
Definition join (p s : string) : string :=
  match String.get (String.length p - 1) p with
  | Some c => if Ascii.eqb c "/"%char then p +:+ s else p +:+ "/" +:+ s
  | None => s
  end.

(** any_of: stops at the first element that satisfies the predicate. *)
Fixpoint any_of {A} (f : A -> option bool) (l : list A) : option bool :=
  match l with
  | [] => Some false
  | x :: l' => match f x with Some true => Some true | Some false => any_of f l' | None => None end
  end.

(** filter and to_vector: every element is tested. *)
Fixpoint filter_all {A} (f : A -> option bool) (l : list A) : option (list A) :=
  match l with
  | [] => Some []
  | x :: l' =>
      match f x with
      | None => None
      | Some b => match filter_all f l' with None => None | Some r => Some (if b : bool then x :: r else r) end
      end
  end.

Section Prober.
Context {F : Fs}.

(** The member path of driver_directory and module_directory. *)
Definition resolved (p : string) : option string := if exists_ p then canonical p else Some p.

(** ** Devices *)

Definition device_valid (path : string) : bool :=
  if negb (exists_ path) then false
  else if negb (is_directory path) then false
  else if negb (String.prefix "/sys/devices/" path) then false
  else if negb (is_symlink (join path "driver")) then false
  else true.

(** ** Drivers *)

Definition device_directories (path : string) : option (list string) :=
  match directory_iterator path with Some l => mapM canonical l | None => None end.

Definition devices (path : string) : option (list string) :=
  match device_directories path with Some dirs => Some (List.filter device_valid dirs) | None => None end.

Definition driver_valid (path : string) : option bool :=
  if negb (exists_ path) then Some false
  else if negb (is_directory path) then Some false
  else if negb (exists_ (join path "module") && is_symlink (join path "module")) then Some false
  else match device_directories path with Some dirs => Some (existsb device_valid dirs) | None => None end.

(** A driver_directory is built and tested. *)
Definition entry_valid (p : string) : option bool := match resolved p with Some path => driver_valid path | None => None end.

(** ** Modules *)

Definition base_path : string := "/sys/module/".
Definition makepath (modname : string) : string := join base_path modname.

Definition module_valid (path : string) : option bool :=
  if negb (exists_ path) then Some false
  else if negb (is_directory path) then Some false
  else if negb (exists_ (join path "drivers")) then Some false
  else match directory_iterator (join path "drivers") with Some l => any_of entry_valid l | None => None end.

(** The paths of the drivers. *)
Definition drivers (path : string) : option (list string) :=
  match module_valid path with
  | None => None
  | Some false => Some []
  | Some true =>
      match directory_iterator (join path "drivers") with
      | None => None
      | Some l => match mapM resolved l with Some ds => filter_all driver_valid ds | None => None end
      end
  end.

Definition has_devices (drv : string) : option bool :=
  match devices drv with Some ds => Some (match ds with [] => false | _ => true end) | None => None end.

Definition found (path : string) : option bool :=
  match drivers path with Some ds => any_of has_devices ds | None => None end.

(** ** The program *)

Definition modules : list string := ["nvidia"; "neuron"]%string.

(** The first module that is found. *)
Fixpoint front (l : list (string * string)) : option (option string) :=
  match l with
  | [] => Some None
  | (name, path) :: l' =>
      match found path with Some true => Some (Some name) | Some false => front l' | None => None end
  end.

(** The exit code and the name that is printed. *)
Definition main : option (Z * option string) :=
  match mapM (fun name => match resolved (makepath name) with Some path => Some (name, path) | None => None end) modules with
  | None => None
  | Some mods => match front mods with None => None | Some None => Some (1%Z, None) | Some (Some name) => Some (0%Z, Some name) end
  end.

End Prober.

(** ** What the program reports *)

(** Of the documentation of std::filesystem: canonical fails for a path that does not
    exist, iteration for one that is no directory. *)
Class FsOk `{Fs} : Prop := {
  canonical_ok p : exists_ p = true -> is_Some (canonical p);
  iterator_ok p : is_directory p = true -> is_Some (directory_iterator p);
}.

(** What sysfs has: below /sys/module, drivers is a directory, and the entries of
    directories exist. *)
Class SysfsOk `{Fs} : Prop := {
  drivers_ok p : exists_ (join p "drivers") = true -> is_directory (join p "drivers") = true;
  entries_ok p l e : directory_iterator p = Some l -> e ∈ l -> exists_ e = true;
}.

Section Reports.
Context {F : Fs} {O : FsOk} {S : SysfsOk}.

(** A device of the driver at [drv]. *)
Definition bound (drv dev : string) : Prop := exists l e, directory_iterator drv = Some l /\ e ∈ l /\ canonical e = Some dev /\ device_valid dev = true.

(** The module has a driver with a device. *)
Definition has_accelerator (name : string) : Prop :=
  exists path l p drv dev, resolved (makepath name) = Some path /\ exists_ path = true /\ is_directory path = true /\
    exists_ (join path "drivers") = true /\ directory_iterator (join path "drivers") = Some l /\ p ∈ l /\ resolved p = Some drv /\
    exists_ drv = true /\ is_directory drv = true /\ exists_ (join drv "module") = true /\ is_symlink (join drv "module") = true /\ bound drv dev.

Lemma resolved_some p : is_Some (resolved p).
Proof using O. unfold resolved. destruct (exists_ p) eqn:He; [by apply canonical_ok|by eexists]. Qed.

Lemma mapM_total {A B} (f : A -> option B) l : (forall x, x ∈ l -> is_Some (f x)) -> exists k, mapM f l = Some k /\ forall y, y ∈ k <-> exists x, x ∈ l /\ f x = Some y.
Proof.
  intros Hf. assert (is_Some (mapM f l)) as [k Hk] by (apply mapM_is_Some, Forall_forall; exact Hf). exists k. split; [done|]. apply mapM_Some in Hk. intros y. split.
  - intros (i & Hi)%list_elem_of_lookup. destruct (Forall2_lookup_r _ _ _ _ _ Hk Hi) as (x & Hx & Hfx). exists x. split; [by eapply list_elem_of_lookup_2|done].
  - intros (x & (i & Hi)%list_elem_of_lookup & Hfx). destruct (Forall2_lookup_l _ _ _ _ _ Hk Hi) as (y' & Hy & Hfy). rewrite Hfx in Hfy. injection Hfy as ->. by eapply list_elem_of_lookup_2.
Qed.

Lemma any_of_spec {A} (f : A -> option bool) l : (forall x, x ∈ l -> is_Some (f x)) -> exists b, any_of f l = Some b /\ (b = true <-> exists x, x ∈ l /\ f x = Some true).
Proof.
  induction l as [|x l IH]; intros Hf; cbn; [exists false; split; [done|]; split; [done|]; by intros (y & Hy%not_elem_of_nil & _)|].
  destruct (Hf x) as [[] Hx]; [left|rewrite Hx; exists true; split; [done|]; split; [|done]; intros _; exists x; split; [left|done]|].
  rewrite Hx. destruct IH as (b & Hb & Hiff); [intros y Hy; apply Hf; by right|]. exists b. split; [done|]. rewrite Hiff. split.
  - intros (y & Hy & Hfy). exists y. split; [by right|done].
  - intros (y & [->|Hy]%elem_of_cons & Hfy); [congruence|]. by exists y.
Qed.

Lemma filter_all_spec {A} (f : A -> option bool) l : (forall x, x ∈ l -> is_Some (f x)) -> exists k, filter_all f l = Some k /\ forall x, x ∈ k <-> x ∈ l /\ f x = Some true.
Proof.
  induction l as [|x l IH]; intros Hf; cbn; [exists []; split; [done|]; intros y; split; [by intros ?%not_elem_of_nil|by intros [?%not_elem_of_nil _]]|].
  destruct (Hf x) as [b Hx]; [left|]. rewrite Hx. destruct IH as (k & Hk & Hiff); [intros y Hy; apply Hf; by right|]. rewrite Hk. eexists. split; [done|]. intros y. rewrite elem_of_cons.
  destruct b; rewrite ?elem_of_cons, Hiff; [|split; [tauto|]; intros [[->|Hy] Hfy]; [congruence|done]]. split; [intros [->|[? ?]]; tauto|]. intros [[->|Hy] Hfy]; tauto.
Qed.

Lemma device_directories_spec drv : is_directory drv = true -> exists dirs, device_directories drv = Some dirs /\ forall dev, dev ∈ dirs /\ device_valid dev = true <-> bound drv dev.
Proof using O S.
  intros Hd. destruct (iterator_ok drv Hd) as [l Hl]. unfold device_directories. rewrite Hl. destruct (mapM_total canonical l) as (k & Hk & Hiff); [intros e He; apply canonical_ok; by eapply entries_ok|].
  exists k. split; [done|]. intros dev. rewrite Hiff. unfold bound. rewrite Hl. split.
  - intros [(e & He & Hc) Hv]. by exists l, e.
  - intros (l' & e & [= <-] & He & Hc & Hv). split; [by exists e|done].
Qed.

Lemma driver_valid_spec drv : exists b, driver_valid drv = Some b /\
  (b = true <-> exists_ drv = true /\ is_directory drv = true /\ exists_ (join drv "module") = true /\ is_symlink (join drv "module") = true /\ exists dev, bound drv dev).
Proof using O S.
  unfold driver_valid. destruct (exists_ drv); cbn [negb]; [|exists false; split; [done|]; split; [done|by intros (? & _)]].
  destruct (is_directory drv) eqn:Hd; cbn [negb]; [|exists false; split; [done|]; split; [done|by intros (_ & ? & _)]].
  destruct (exists_ (join drv "module")); cbn [andb negb]; [|exists false; split; [done|]; split; [done|by intros (_ & _ & ? & _)]].
  destruct (is_symlink (join drv "module")); cbn [negb]; [|exists false; split; [done|]; split; [done|by intros (_ & _ & _ & ? & _)]].
  destruct (device_directories_spec drv Hd) as (dirs & Hdirs & Hiff). rewrite Hdirs. eexists. split; [done|]. rewrite existsb_exists. split.
  - intros (dev & Hin & Hv). split_and!; [done..|]. exists dev. apply Hiff. split; [by apply list_elem_of_In|done].
  - intros (_ & _ & _ & _ & dev & [Hin Hv]%Hiff). exists dev. split; [by apply list_elem_of_In|done].
Qed.

Lemma has_devices_spec drv : is_directory drv = true -> exists b, has_devices drv = Some b /\ (b = true <-> exists dev, bound drv dev).
Proof using O S.
  intros Hd. destruct (device_directories_spec drv Hd) as (dirs & Hdirs & Hiff). unfold has_devices, devices. rewrite Hdirs. eexists. split; [done|]. split.
  - destruct (List.filter device_valid dirs) as [|dev r] eqn:Hf; [done|]. intros _. exists dev. apply Hiff. assert (In dev (List.filter device_valid dirs)) as Hin by (rewrite Hf; by left). apply filter_In in Hin as [Hin Hv]. split; [by apply list_elem_of_In|done].
  - intros (dev & [Hin Hv]%Hiff). destruct (List.filter device_valid dirs) as [|x r] eqn:Hf; [|done]. assert (In dev (List.filter device_valid dirs)) as Hin' by (apply filter_In; split; [by apply list_elem_of_In|done]). by rewrite Hf in Hin'.
Qed.

Lemma entry_valid_spec p : exists b, entry_valid p = Some b /\ (b = true <-> exists drv, resolved p = Some drv /\ driver_valid drv = Some true).
Proof using O S.
  unfold entry_valid. destruct (resolved_some p) as [drv Hr]. rewrite Hr. destruct (driver_valid_spec drv) as (b & Hb & _). exists b. split; [done|]. split; [intros ->; by exists drv|]. intros (d & [= <-] & Hd). congruence.
Qed.

(** found and valid agree for a module: a driver is valid only with a device. *)
Lemma found_spec path : exists b, found path = Some b /\ module_valid path = Some b /\
  (b = true <-> exists l p drv dev, exists_ path = true /\ is_directory path = true /\ exists_ (join path "drivers") = true /\ directory_iterator (join path "drivers") = Some l /\ p ∈ l /\ resolved p = Some drv /\
    exists_ drv = true /\ is_directory drv = true /\ exists_ (join drv "module") = true /\ is_symlink (join drv "module") = true /\ bound drv dev).
Proof using O S.
  unfold found, drivers.
  unfold module_valid. destruct (exists_ path); cbn [negb]; [|exists false; split_and!; [done..|]; split; [done|by intros (? & ? & ? & ? & ? & _)]].
  destruct (is_directory path); cbn [negb]; [|exists false; split_and!; [done..|]; split; [done|by intros (? & ? & ? & ? & _ & ? & _)]].
  destruct (exists_ (join path "drivers")) eqn:Hdr; cbn [negb]; [|exists false; split_and!; [done..|]; split; [done|by intros (? & ? & ? & ? & _ & _ & ? & _)]].
  destruct (iterator_ok _ (drivers_ok path Hdr)) as [l Hl]. rewrite Hl. destruct (any_of_spec entry_valid l) as (b & Hb & Hiff); [intros x _; destruct (entry_valid_spec x) as (? & -> & _); by eexists|]. rewrite Hb.
  assert (b = true <-> exists l0 p drv dev, true = true /\ true = true /\ true = true /\ Some l = Some l0 /\ p ∈ l0 /\ resolved p = Some drv /\ exists_ drv = true /\ is_directory drv = true /\ exists_ (join drv "module") = true /\ is_symlink (join drv "module") = true /\ bound drv dev) as Hspec.
  { rewrite Hiff. split.
    - intros (p & Hp & Hv). destruct (entry_valid_spec p) as (b' & Hb' & Hiff'). assert (b' = true) as [drv [Hr Hdv]]%Hiff' by congruence. destruct (driver_valid_spec drv) as (b2 & Hb2 & Hiff2). assert (b2 = true) as (H1 & H2 & H3 & H4 & dev & H5)%Hiff2 by congruence. by exists l, p, drv, dev.
    - intros (l0 & p & drv & dev & _ & _ & _ & [= <-] & Hp & Hr & H1 & H2 & H3 & H4 & H5). exists p. split; [done|]. unfold entry_valid. rewrite Hr. destruct (driver_valid_spec drv) as (b2 & Hb2 & Hiff2). rewrite Hb2. f_equal. apply Hiff2. split_and!; [done..|]. by exists dev. }
  exists b. split_and!; [|done|exact Hspec]. destruct b; [|done]. destruct (mapM_total resolved l) as (ds & Hds & Hin); [intros x _; apply resolved_some|]. rewrite Hds.
  destruct (filter_all_spec driver_valid ds) as (k & Hk & Hkiff); [intros x _; destruct (driver_valid_spec x) as (? & -> & _); by eexists|]. rewrite Hk.
  assert (forall x, x ∈ k -> is_directory x = true /\ exists dev, bound x dev) as Hgood.
  { intros x [_ Hx]%Hkiff. destruct (driver_valid_spec x) as (b2 & Hb2 & Hiff2). assert (b2 = true) as (_ & H2 & _ & _ & H5)%Hiff2 by congruence. done. }
  destruct (any_of_spec has_devices k) as (b & Hb' & Hiff'); [intros x [Hx _]%Hgood; destruct (has_devices_spec x Hx) as (? & -> & _); by eexists|]. rewrite Hb'. f_equal. apply Hiff'.
  destruct (proj1 Hspec eq_refl) as (l0 & p & drv & dev & _ & _ & _ & [= <-] & Hp & Hr & H1 & H2 & H3 & H4 & H5). exists drv. destruct (has_devices_spec drv H2) as (b2 & -> & Hb2). split; [|f_equal; apply Hb2; by exists dev].
  apply Hkiff. split; [apply Hin; by exists p|]. destruct (driver_valid_spec drv) as (b3 & Hb3 & Hiff3). rewrite Hb3. f_equal. apply Hiff3. split_and!; [done..|]. by exists dev.
Qed.

Lemma module_spec name : exists path b, resolved (makepath name) = Some path /\ found path = Some b /\ (b = true <-> has_accelerator name).
Proof using O S.
  destruct (resolved_some (makepath name)) as [path Hr]. destruct (found_spec path) as (b & Hf & _ & Hiff). exists path, b. split_and!; [done..|]. rewrite Hiff. unfold has_accelerator. split.
  - intros (l & p & drv & dev & H). by exists path, l, p, drv, dev.
  - intros (path' & l & p & drv & dev & Hr' & H). assert (path' = path) as -> by congruence. by exists l, p, drv, dev.
Qed.

(** The program does not throw. It prints the first of the modules nvidia and neuron
    that has a driver with a bound device and exits with 0; if there is none it exits
    with 1. *)
Theorem accel_main_reports : exists code name, main = Some (code, name) /\
  match name with
  | Some n => code = 0%Z /\ has_accelerator n /\ exists before after, modules = before ++ n :: after /\ Forall (fun m => ~ has_accelerator m) before
  | None => code = 1%Z /\ Forall (fun m => ~ has_accelerator m) modules
  end.
Proof using O S.
  unfold main, modules. destruct (module_spec "nvidia") as (p1 & b1 & Hr1 & Hf1 & H1). destruct (module_spec "neuron") as (p2 & b2 & Hr2 & Hf2 & H2).
  cbn in Hr1, Hr2 |- *. rewrite Hr1, Hr2. cbn. rewrite Hf1, Hf2.
  destruct b1; [eexists _, _; split; [done|]; split_and!; [done|by apply H1|by exists [], ["neuron"%string]]|].
  assert (~ has_accelerator "nvidia") as Hn by (by intros ?%H1). destruct b2; [eexists _, _; split; [done|]; split_and!; [done|by apply H2|]; exists ["nvidia"%string], []; split; [done|by repeat constructor]|].
  eexists _, _. split; [done|]. split; [done|]. repeat constructor; [done|]. by intros ?%H2.
Qed.
End Reports.

(** *** Example: a machine with a Neuron device *)

Inductive node := Dir (entries : list string) | Link (target : string).

Section Tree.
Context (tree : gmap string node).

Definition follow (p : string) : string := match tree !! p with Some (Link t) => t | _ => p end.

(** Links lead to directories, whose entries are named by the target. *)
Definition tree_fs : Fs := {|
  exists_ p := match tree !! follow p with Some _ => true | None => false end;
  is_directory p := match tree !! follow p with Some (Dir _) => true | _ => false end;
  is_symlink p := match tree !! p with Some (Link _) => true | _ => false end;
  canonical p := match tree !! follow p with Some _ => Some (follow p) | None => None end;
  directory_iterator p := match tree !! follow p with Some (Dir l) => Some (join (follow p) <$> l) | _ => None end;
|}.

Lemma tree_fs_ok : @FsOk tree_fs.
Proof. constructor; cbn; intros p; destruct (tree !! follow p) as [[]|]; try done; intros _; by eexists. Qed.

(** Every link leads to a directory and every entry is there. *)
Definition node_ok (x : string * node) : bool :=
  match x.2 with Link t => match tree !! t with Some (Dir _) => true | _ => false end | Dir l => forallb (fun e => @exists_ tree_fs (join x.1 e)) l end.

Lemma tree_sysfs_ok : forallb node_ok (map_to_list tree) = true -> @SysfsOk tree_fs.
Proof.
  intros Hok. assert (forall p n, tree !! p = Some n -> node_ok (p, n) = true) as Hn by (intros p n Hp; apply (proj1 (forallb_forall _ _) Hok), list_elem_of_In, elem_of_map_to_list, Hp).
  constructor; cbn.
  - intros p. set (q := join p "drivers"). unfold follow. destruct (tree !! q) as [[l|t]|] eqn:Hq; [by rewrite Hq| |by rewrite Hq]. specialize (Hn _ _ Hq). cbn in Hn. by destruct (tree !! t) as [[]|].
  - intros p l e Hl He. destruct (tree !! follow p) as [[l'|]|] eqn:Hp; [|done..]. injection Hl as <-. apply list_elem_of_fmap in He as (e' & -> & He'). specialize (Hn _ _ Hp). cbn in Hn. exact (proj1 (forallb_forall _ _) Hn e' (proj1 (list_elem_of_In _ _) He')).
Qed.
End Tree.

Definition neuron_tree : gmap string node :=
  list_to_map [
    ("/sys/module/neuron", Dir ["drivers"]); ("/sys/module/neuron/drivers", Dir ["pci:neuron"]); ("/sys/module/neuron/drivers/pci:neuron", Link "/sys/bus/pci/drivers/neuron");
    ("/sys/bus/pci/drivers/neuron", Dir ["module"; "0000:00:1e.0"]); ("/sys/bus/pci/drivers/neuron/module", Link "/sys/module/neuron"); ("/sys/bus/pci/drivers/neuron/0000:00:1e.0", Link "/sys/devices/pci0000:00/0000:00:1e.0");
    ("/sys/devices/pci0000:00/0000:00:1e.0", Dir ["driver"]); ("/sys/devices/pci0000:00/0000:00:1e.0/driver", Link "/sys/bus/pci/drivers/neuron")]%string.

Lemma accel_main_reports_witness : @main (tree_fs neuron_tree) = Some (0%Z, Some "neuron"%string) /\ @has_accelerator (tree_fs neuron_tree) "neuron" /\ ~ @has_accelerator (tree_fs neuron_tree) "nvidia".
Proof.
  destruct (@accel_main_reports (tree_fs neuron_tree) (tree_fs_ok _) (tree_sysfs_ok neuron_tree ltac:(vm_compute; reflexivity))) as (code & name & Hm & Hres).
  assert (@main (tree_fs neuron_tree) = Some (0%Z, Some "neuron"%string)) as Hc by (vm_compute; reflexivity). rewrite Hc in Hm. injection Hm as <- <-. destruct Hres as (_ & Ha & before & after & Hl & Hb).
  split; [exact Hc|]. split; [exact Ha|]. destruct before as [|b before]; [discriminate Hl|]. injection Hl as <- _. exact (Forall_inv Hb).
Defined.

End AccelProbe.
