(* ===== verification/PlatformAws.v ===== *)
(** * platform-aws.c: configuration of EC2 platforms

    platform_init chooses provider, protocol and environment variables for NCCL from
    a table of instance types; platform_config_endpoint checks and configures every
    endpoint, and remembers in two static variables whether NCCL may rely on ordered
    delivery. The model is for a CUDA build. Environment variables, the static and
    global variables and the options set on endpoints are the state [aws]; the
    product name is that of OfiSystem.v, the parameters are those of Params.v.
    Latencies are whole microseconds, as all the constants are. *)

From Stdlib Require Import Ascii.
From stdpp Require Import strings.
From S2P Require Import Prelude StateM NetTypes Plugin OfiRes RdmaWire.
Import Plugin OfiRes RdmaWire.

Module PlatformAws.

Open Scope Z_scope.

(** ** The table of platforms *)

Record ec2_platform_data := mk_ec2 {
  name : string;
  topology : option string;
  default_dup_conns : Z;
  latency : Z;
  gdr_required : bool;
  net_flush_required : bool;
  default_protocol : string;
  domain_per_thread : Z;
}.

Definition platform_data_map : list ec2_platform_data :=
  [ mk_ec2 "p4d.24xlarge" (Some "p4d-24xl-topo.xml") 0 75 true true "SENDRECV" 0;
    mk_ec2 "p4de.24xlarge" (Some "p4de-24xl-topo.xml") 0 75 true true "SENDRECV" 0;
    mk_ec2 "p3dn.24xlarge" None 4 150 false true "SENDRECV" 0;
    mk_ec2 "p5.48xlarge" None 0 75 true false "RDMA" 0;
    mk_ec2 "p5e.48xlarge" None 0 75 true false "RDMA" 0;
    mk_ec2 "p5en.48xlarge" None 0 75 true false "RDMA" 0;
    mk_ec2 "g5.48xlarge" (Some "g5.48xl-topo.xml") 0 75 false true "SENDRECV" 0;
    mk_ec2 "trn1.32xlarge" None 0 75 true true "SENDRECV" 1;
    mk_ec2 "trn1n.32xlarge" None 0 75 true true "SENDRECV" 1;
    mk_ec2 "trn2.48xlarge" None 0 75 true true "RDMA" 1;
    mk_ec2 "trn2n.48xlarge" None 0 75 true true "RDMA" 1 ]%string.

(** ** State and environment *)

Record aws := mk_aws {
  vars : gmap string string;
  a_platform : option (option ec2_platform_data);
  nic_dup_conns : Z;
  net_latency : Z;
  nccl_ofi_selected_protocol : option string;
  support_gdr : gdr_support_level_t;
  nccl_proto_configured : bool;
  need_ordering : bool;
  ep_opts : list (Z * Z * Z);
}.
Abbreviation AM := (SM aws).

Definition w_vars f (w : aws) := mk_aws (f (vars w)) (a_platform w) (nic_dup_conns w) (net_latency w) (nccl_ofi_selected_protocol w) (support_gdr w) (nccl_proto_configured w) (need_ordering w) (ep_opts w).
Definition w_platform p (w : aws) := mk_aws (vars w) (Some p) (nic_dup_conns w) (net_latency w) (nccl_ofi_selected_protocol w) (support_gdr w) (nccl_proto_configured w) (need_ordering w) (ep_opts w).
Definition w_dup n (w : aws) := mk_aws (vars w) (a_platform w) n (net_latency w) (nccl_ofi_selected_protocol w) (support_gdr w) (nccl_proto_configured w) (need_ordering w) (ep_opts w).
Definition w_latency n (w : aws) := mk_aws (vars w) (a_platform w) (nic_dup_conns w) n (nccl_ofi_selected_protocol w) (support_gdr w) (nccl_proto_configured w) (need_ordering w) (ep_opts w).
Definition w_protocol s (w : aws) := mk_aws (vars w) (a_platform w) (nic_dup_conns w) (net_latency w) (Some s) (support_gdr w) (nccl_proto_configured w) (need_ordering w) (ep_opts w).
Definition w_order c n (w : aws) := mk_aws (vars w) (a_platform w) (nic_dup_conns w) (net_latency w) (nccl_ofi_selected_protocol w) (support_gdr w) c n (ep_opts w).
Definition w_opt x (w : aws) := mk_aws (vars w) (a_platform w) (nic_dup_conns w) (net_latency w) (nccl_ofi_selected_protocol w) (support_gdr w) (nccl_proto_configured w) (need_ordering w) (x :: ep_opts w).

(** The product name; errno of setenv by variable, 0 for success; the version of
    libfabric; ncclGetVersion, [None] if the symbol is missing; the parameters; the
    endpoint options of libfabric, and which of them the headers declare. *)
Class AwsEnv := {
  product_name : option string;
  setenv_errno : string -> Z;
  fi_major : Z;
  fi_minor : Z;
  ncclGetVersion : option (Z * Z);
  XML_DIR : string;
  ofi_nccl_net_latency : Z;
  ofi_nccl_protocol : option string;
  ofi_nccl_disable_gdr_required_check : Z;
  ofi_nccl_disable_native_rdma_check : Z;
  fi_getopt_emulated_write : Z -> Z * Z * bool;
  ofi_nccl_eager_max_size : Z;
  fi_setopt : Z -> Z -> Z -> Z;
  have_emulated_write : bool;
  have_sendrecv_in_order : bool;
  have_write_in_order : bool;
  have_max_msg_size : bool;
}.

Definition FI_OPT_EFA_SENDRECV_IN_ORDER_ALIGNED_128_BYTES : Z := 1.
Definition FI_OPT_EFA_WRITE_IN_ORDER_ALIGNED_128_BYTES : Z := 2.
Definition FI_OPT_MAX_MSG_SIZE : Z := 3.
Definition PATH_MAX : Z := 4096.

Section Aws.
Context {E : AwsEnv}.

Definition getenv (v : string) : AM (option string) := gets (fun w => vars w !! v).

(** 0, or -errno as every caller returns it. *)
Definition setenv (v s : string) (overwrite : bool) : AM Z :=
  if negb (setenv_errno v =? 0) then ret (- setenv_errno v)
  else
    let* old := getenv v in
    (if overwrite || bool_decide (old = None) then modify (w_vars <[v := s]>) else ret tt) ;;; ret 0.

(** The last entry with this name. *)
Fixpoint find_platform (l : list ec2_platform_data) (s : string) (found : option ec2_platform_data) : option ec2_platform_data :=
  match l with
  | [] => found
  | d :: l' => find_platform l' s (if String.eqb s (name d) then Some d else found)
  end.

Definition get_platform_data : AM (option ec2_platform_data) :=
  let* st := gets a_platform in
  match st with
  | Some d => ret d
  | None =>
      let d := match product_name with None => None | Some s => find_platform platform_data_map s None end in
      modify (w_platform d) ;;; ret d
  end.

(** ** platform_init *)

Definition configure_nvls_option : AM Z :=
  let* v := getenv "NCCL_NVLS_ENABLE" in
  match v with
  | Some _ => ret 0
  | None =>
      match ncclGetVersion with
      | None => ret 0
      | Some (rc, version) =>
          if negb (rc =? 0) then ret (- ENOTSUP)
          else if version <? 21805 then setenv "NCCL_NVLS_ENABLE" "0" true
          else ret 0
      end
  end.

Definition fork_safe_var_name : string :=
  if (fi_major >? 1) || ((fi_major =? 1) && (fi_minor >=? 13)) then "FI_EFA_FORK_SAFE" else "RDMAV_FORK_SAFE".

(** The settings that only a CUDA build makes. *)
Definition cuda_settings (platform_data : option ec2_platform_data) : AM Z :=
  let* v := getenv fork_safe_var_name in
  let* rc := if bool_decide (v = None) then setenv fork_safe_var_name "1" true else ret 0 in
  if negb (rc =? 0) then ret rc
  else
    let* rc := configure_nvls_option in
    if negb (rc =? 0) then ret rc
    else
      let* v := getenv "NCCL_NET_FORCE_FLUSH" in
      let* rc := if match platform_data with Some d => negb (net_flush_required d) | None => false end && bool_decide (v = None)
                 then setenv "NCCL_NET_FORCE_FLUSH" "0" false else ret 0 in
      if negb (rc =? 0) then ret rc
      else
        let* rc := setenv "NCCL_NVLSTREE_MAX_CHUNKSIZE" "524288" false in
        if negb (rc =? 0) then ret rc
        else setenv "NCCL_NVLS_CHUNKSIZE" "524288" false.

Definition topology_file (platform_data : option ec2_platform_data) : AM Z :=
  let* v := getenv "NCCL_TOPO_FILE" in
  match v, platform_data ≫= topology with
  | None, Some file =>
      let path := (XML_DIR +:+ "/" +:+ file)%string in
      if Z.of_nat (String.length path) >=? PATH_MAX then ret (- ENOMEM)
      else setenv "NCCL_TOPO_FILE" path true
  | _, _ => ret 0
  end.

(** The code and the provider filter, if it is set. *)
Definition platform_init : AM (Z * option string) :=
  let* platform_data := get_platform_data in
  let* fi_provider := getenv "FI_PROVIDER" in
  let filter := match fi_provider with None => Some "efa"%string | Some _ => None end in
  let select_efa := match fi_provider with None => true | Some s => String.eqb s "efa" end in
  let* rc := cuda_settings platform_data in
  if negb (rc =? 0) then ret (rc, filter)
  else
    let* rc := topology_file platform_data in
    if negb (rc =? 0) then ret (rc, filter)
    else
      let* n := gets nic_dup_conns in
      match platform_data with Some d => if n =? 0 then modify (w_dup (default_dup_conns d)) else ret tt | None => ret tt end ;;;
      (if ofi_nccl_net_latency <? 0 then
         modify (w_latency (match platform_data with Some d => if latency d >=? 0 then latency d else 75 | None => 75 end))
       else ret tt) ;;;
      match platform_data with
      | Some d => if select_efa && bool_decide (ofi_nccl_protocol = None) then modify (w_protocol (default_protocol d)) else ret tt
      | None => ret tt
      end ;;;
      ret (0, filter).

(** ** Endpoints *)

Definition validate_rdma_write (ep : Z) : Z :=
  if negb have_emulated_write then - EINVAL
  else
    let '(rc, optlen, optval) := fi_getopt_emulated_write ep in
    if negb (rc =? 0) then rc
    else if negb (optlen =? 1) then - EINVAL
    else if optval then - EINVAL
    else 0.

Definition configure_nccl_proto : AM Z :=
  let* v := getenv "NCCL_PROTO" in
  match v with None => setenv "NCCL_PROTO" "simple" false | Some _ => ret 0 end.

(** An option that is set on an endpoint. *)
Definition setopt (ep opt optval : Z) : AM Z :=
  let rc := fi_setopt ep opt optval in
  if rc =? 0 then modify (w_opt (ep, opt, optval)) ;;; ret 0 else ret rc.

(** The code and have_ordering. *)
Definition configure_ep_inorder (ep optname : Z) : AM (Z * bool) :=
  if have_write_in_order then
    let* rc := setopt ep optname 1 in
    if not_supported rc then ret (0, false)
    else if negb (rc =? 0) then ret (rc, false)
    else ret (0, true)
  else ret (0, false).

Definition configure_ep_max_msg_size (ep : Z) : AM Z :=
  if have_max_msg_size then
    let optval := Z.max (Z.max sizeof_ctrl_msg (u64 ofi_nccl_eager_max_size)) sizeof_connection_info in
    let* rc := setopt ep FI_OPT_MAX_MSG_SIZE optval in
    ret (if not_supported rc then 0 else rc)
  else ret 0.

(** The part under the mutex. *)
Definition config_ordering (ep : Z) (rdma : bool) (optname : Z) : AM Z :=
  let* conf := gets nccl_proto_configured in
  (if negb conf then
     let* v := getenv "NCCL_PROTO" in
     if bool_decide (v = None) && rdma then
       let* s := of_option product_name in
       if String.eqb s "p5en.48xlarge" then modify (w_order true false) else ret tt
     else ret tt
   else ret tt) ;;;
  let* conf := gets nccl_proto_configured in
  let* need := gets need_ordering in
  if need || negb conf then
    let* (rc, have_ordering) := if negb (optname =? -1) then configure_ep_inorder ep optname else ret (0, false) in
    if negb (rc =? 0) then ret rc
    else if need && negb have_ordering then ret (- ENOTSUP)
    else if negb conf then
      modify (w_order true have_ordering) ;;;
      if negb have_ordering then
        let* rc := configure_nccl_proto in
        ret (if negb (rc =? 0) then - ENOTSUP else 0)
      else ret 0
    else ret 0
  else ret 0.

(** [ep] is [None] for NULL. *)
Definition platform_config_endpoint (prov_name : string) (ep : option Z) : AM Z :=
  match ep with
  | None => ret (- EINVAL)
  | Some ep =>
      if negb (String.eqb prov_name "efa") then ret 0
      else
        let* gdr_bad :=
          if ofi_nccl_disable_gdr_required_check =? 0 then
            let* d := get_platform_data in
            let* g := gets support_gdr in
            ret (match d with Some d => gdr_required d && negb (bool_decide (g = GDR_SUPPORTED)) | None => false end)
          else ret false in
        if gdr_bad then ret (- EINVAL)
        else
          let* proto := gets nccl_ofi_selected_protocol in
          let* proto := of_option proto in
          let rdma := strcasecmp_eq "RDMA" proto in
          let rc := if rdma && (ofi_nccl_disable_native_rdma_check =? 0) then validate_rdma_write ep else 0 in
          if negb (rc =? 0) then ret rc
          else
            let sendrecv := strcasecmp_eq "SENDRECV" proto in
            if negb sendrecv && negb rdma then ret (- EINVAL)
            else
              let optname := if sendrecv then (if have_sendrecv_in_order then FI_OPT_EFA_SENDRECV_IN_ORDER_ALIGNED_128_BYTES else -1)
                             else (if have_write_in_order then FI_OPT_EFA_WRITE_IN_ORDER_ALIGNED_128_BYTES else -1) in
              let* rc := config_ordering ep rdma optname in
              if negb (rc =? 0) then ret rc
              else if rdma then configure_ep_max_msg_size ep else ret 0
  end.

Definition platform_default_domain_per_thread : AM bool :=
  let* d := get_platform_data in
  ret (match d with Some d => negb (domain_per_thread d =? 0) | None => false end).

End Aws.

(** ** platform_init leaves the user's settings alone *)

Section Init.
Context {E : AwsEnv}.

Lemma getenv_wp v (Q : option string -> aws -> Prop) w : Q (vars w !! v) w -> wp (getenv v) Q w.
Proof. intros HQ. unfold getenv. by wp_simpl. Qed.

(** Setting a variable that may be set: it is set afterwards, nothing else changes. *)
Lemma setenv_wp v s o w (Q : Z -> aws -> Prop) :
  (o = true -> vars w !! v = None) -> (setenv_errno v <> 0 -> Q (- setenv_errno v) w) ->
  (forall m, vars w ⊆ m -> is_Some (m !! v) -> (forall k, k <> v -> m !! k = vars w !! k) -> Q 0 (w_vars (fun _ => m) w)) -> wp (setenv v s o) Q w.
Proof.
  intros Ho Hf Hs. unfold setenv. destruct (Z.eqb_spec (setenv_errno v) 0) as [He|He]; cbn [negb]; [|wp_simpl; by apply Hf]. wp_simpl. apply getenv_wp. wp_simpl.
  destruct (vars w !! v) as [x|] eqn:Hv.
  - destruct o; [by specialize (Ho eq_refl)|]. cbn [orb]. rewrite bool_decide_false by done. wp_simpl. specialize (Hs (vars w)). destruct w. apply Hs; [done|by eexists|done].
  - rewrite bool_decide_true, orb_true_r by done. wp_simpl. apply (Hs (<[v:=s]> (vars w))); [by apply insert_subseteq|rewrite lookup_insert_eq; by eexists|intros k Hk; by rewrite lookup_insert_ne].
Qed.

(** The platform, once it is known. *)
Definition platform_of (w : aws) : option ec2_platform_data :=
  match a_platform w with Some d => d | None => match product_name with None => None | Some s => find_platform platform_data_map s None end end.

Lemma get_platform_wp (Q : option ec2_platform_data -> aws -> Prop) w : Q (platform_of w) (w_platform (platform_of w) w) -> wp get_platform_data Q w.
Proof. intros HQ. unfold get_platform_data, platform_of in *. wp_simpl. destruct w as [? [d|] ? ? ? ? ? ? ?]; cbn in *; by wp_simpl. Qed.

(** Only the variables differ. *)
Definition only_vars (w w' : aws) : Prop := vars w ⊆ vars w' /\ w' = w_vars (fun _ => vars w') w.

Lemma only_vars_refl w : only_vars w w.
Proof. split; [done|by destruct w]. Qed.

Lemma only_vars_set m w w1 : only_vars w w1 -> vars w1 ⊆ m -> only_vars w (w_vars (fun _ => m) w1).
Proof. intros [H1 H2] Hm. split; cbn; [by transitivity (vars w1)|]. rewrite H2. done. Qed.

Lemma only_vars_some w w1 k : only_vars w w1 -> is_Some (vars w !! k) -> is_Some (vars w1 !! k).
Proof. intros [H1 _] [x Hx]. exists x. by eapply lookup_weaken. Qed.

Lemma nvls_wp w : wp configure_nvls_option (fun rc w' => only_vars w w') w.
Proof.
  unfold configure_nvls_option. wp_simpl. apply getenv_wp. destruct (vars w !! _) as [x|] eqn:Hv; [wp_simpl; apply only_vars_refl|]. destruct ncclGetVersion as [[rc version]|]; [|wp_simpl; apply only_vars_refl].
  destruct (negb (rc =? 0)); [wp_simpl; apply only_vars_refl|]. destruct (version <? 21805); [|wp_simpl; apply only_vars_refl]. apply setenv_wp; [done|intros _; apply only_vars_refl|]. intros m Hm _ _. by apply only_vars_set; [apply only_vars_refl|].
Qed.

Lemma cuda_wp d w :
  wp (cuda_settings d) (fun rc w' => only_vars w w' /\ (rc = 0 -> is_Some (vars w' !! fork_safe_var_name) /\ is_Some (vars w' !! "NCCL_NVLSTREE_MAX_CHUNKSIZE"%string) /\ is_Some (vars w' !! "NCCL_NVLS_CHUNKSIZE"%string))) w.
Proof.
  unfold cuda_settings. wp_simpl. apply getenv_wp. wp_simpl. apply (wp_mono _ (fun rc w' => only_vars w w' /\ (rc = 0 -> is_Some (vars w' !! fork_safe_var_name)))).
  { destruct (vars w !! fork_safe_var_name) as [x|] eqn:Hv; [rewrite bool_decide_false by done; wp_simpl; split; [apply only_vars_refl|by eexists]|]. rewrite bool_decide_true by done.
    apply setenv_wp; [done|intros He; split; [apply only_vars_refl|lia]|]. intros m Hm Hs _. split; [apply only_vars_set; [apply only_vars_refl|done]|done]. }
  intros rc w1 [Ho Hfork]. destruct (Z.eqb_spec rc 0) as [->|Hrc]; cbn [negb]; [|wp_simpl; by split]. specialize (Hfork eq_refl). wp_simpl. eapply wp_mono; [apply nvls_wp|]. intros rc w2 Ho2.
  assert (forall w', only_vars w1 w' -> only_vars w w' /\ is_Some (vars w' !! fork_safe_var_name)) as Hgo.
  { intros w' [H1 H2]. split; [|by eapply only_vars_some]. rewrite H2. by apply only_vars_set. }
  destruct (Z.eqb_spec rc 0) as [->|Hrc]; cbn [negb]; [|wp_simpl; split; [by apply Hgo|done]]. wp_simpl. apply getenv_wp. wp_simpl. apply (wp_mono _ (fun rc w' => only_vars w1 w')).
  { destruct (_ && _); [|by wp_simpl]. apply setenv_wp; [done|done|]. intros m Hm _ _. by apply only_vars_set. }
  intros rc w3 Ho3. destruct (Z.eqb_spec rc 0) as [->|Hrc]; cbn [negb]; [|wp_simpl; split; [by apply Hgo|done]]. wp_simpl. apply setenv_wp; [done| |].
  { intros He. destruct (Z.eqb_spec (- setenv_errno "NCCL_NVLSTREE_MAX_CHUNKSIZE") 0); [lia|]. cbn [negb]. wp_simpl. split; [by apply Hgo|lia]. }
  intros m Hm Hs _. cbn [Z.eqb negb]. assert (only_vars w1 (w_vars (fun _ => m) w3)) as Ho4 by by apply only_vars_set. apply setenv_wp; [done|intros He; split; [by apply Hgo|lia]|].
  intros m2 Hm2 Hs2 _. cbn in Hm2. assert (only_vars w1 (w_vars (fun _ => m2) (w_vars (fun _ => m) w3))) as Ho5 by by apply only_vars_set. split; [by apply Hgo|]. intros _. split; [by apply Hgo|]. cbn. split; [|done]. destruct Hs as [x Hx]. exists x. by eapply lookup_weaken.
Qed.

Lemma topology_wp d w :
  wp (topology_file d) (fun rc w' => only_vars w w' /\ (rc = 0 -> is_Some (d ≫= topology) -> is_Some (vars w' !! "NCCL_TOPO_FILE"%string))) w.
Proof.
  unfold topology_file. wp_simpl. apply getenv_wp. destruct (vars w !! _) as [x|] eqn:Hv; [wp_simpl; split; [apply only_vars_refl|rewrite Hv; by eexists]|].
  destruct (d ≫= topology) as [file|]; [|wp_simpl; split; [apply only_vars_refl|by intros _ [? ?]]]. destruct (_ >=? _); [wp_simpl; by split; [apply only_vars_refl|]|].
  apply setenv_wp; [done|intros He; split; [apply only_vars_refl|lia]|]. intros m Hm Hs _. split; [by apply only_vars_set; [apply only_vars_refl|]|done].
Qed.

(** Whether platform_init selects EFA. *)
Definition selects_efa (w : aws) : bool := match vars w !! "FI_PROVIDER"%string with None => true | Some s => String.eqb s "efa" end.

(** A successful run. *)
Record init_done (w w' : aws) : Prop := {
  id_fork : is_Some (vars w' !! fork_safe_var_name);
  id_chunks : is_Some (vars w' !! "NCCL_NVLSTREE_MAX_CHUNKSIZE"%string) /\ is_Some (vars w' !! "NCCL_NVLS_CHUNKSIZE"%string);
  id_topo : is_Some (platform_of w ≫= topology) -> is_Some (vars w' !! "NCCL_TOPO_FILE"%string);
  id_protocol : nccl_ofi_selected_protocol w' =
    match platform_of w, ofi_nccl_protocol with Some d, None => if selects_efa w then Some (default_protocol d) else nccl_ofi_selected_protocol w | _, _ => nccl_ofi_selected_protocol w end;
  id_dup : nic_dup_conns w' = match platform_of w with Some d => if nic_dup_conns w =? 0 then default_dup_conns d else nic_dup_conns w | None => nic_dup_conns w end;
  id_latency : 0 <= ofi_nccl_net_latency -> net_latency w' = net_latency w;
}.

Lemma init_wp w :
  wp platform_init (fun r w' => vars w ⊆ vars w' /\ r.2 = (match vars w !! "FI_PROVIDER"%string with None => Some "efa"%string | Some _ => None end) /\ (r.1 = 0 -> init_done w w')) w.
Proof.
  unfold platform_init. wp_simpl. apply get_platform_wp. set (d := platform_of w). set (w0 := w_platform d w). wp_simpl. apply getenv_wp. change (vars w0) with (vars w). wp_simpl. eapply wp_mono; [apply cuda_wp|]. intros rc w1 [Ho1 H1].
  destruct (Z.eqb_spec rc 0) as [->|Hrc]; cbn [negb]; [|wp_simpl; split_and!; [apply Ho1|done|done]]. specialize (H1 eq_refl) as (Hf & Hc1 & Hc2). wp_simpl. eapply wp_mono; [apply topology_wp|]. intros rc w2 [Ho2 H2].
  assert (vars w ⊆ vars w2) as Hsub by (transitivity (vars w1); [apply Ho1|apply Ho2]). destruct (Z.eqb_spec rc 0) as [->|Hrc]; cbn [negb]; [|wp_simpl; by split_and!]. specialize (H2 eq_refl).
  pose proof (only_vars_some _ _ _ Ho2 Hf) as Hf'. pose proof (only_vars_some _ _ _ Ho2 Hc1) as Hc1'. pose proof (only_vars_some _ _ _ Ho2 Hc2) as Hc2'.
  destruct Ho2 as [_ Hw2], Ho1 as [_ Hw1]. assert (nccl_ofi_selected_protocol w2 = nccl_ofi_selected_protocol w /\ nic_dup_conns w2 = nic_dup_conns w /\ net_latency w2 = net_latency w) as (Hp & Hd & Hlat) by (rewrite Hw2, Hw1; done).
  fold (selects_efa w). clearbody w0. clear Hw1 Hw2 Hf Hc1 Hc2. wp_simpl. rewrite Hd. unfold d in *. clear d.
  destruct (platform_of w) as [d|] eqn:Hpl; [destruct (nic_dup_conns w =? 0) eqn:Hz|]; wp_simpl; (destruct (Z.ltb_spec ofi_nccl_net_latency 0) as [Hl|Hl]; wp_simpl; [|]); try (destruct (selects_efa w) eqn:Hefa; cbn [andb]);
    try (destruct ofi_nccl_protocol eqn:Hpr; [rewrite bool_decide_false by done|rewrite bool_decide_true by done]); wp_simpl; (split_and!; [done|done|]; intros _; constructor; cbn; rewrite ?Hpl, ?Hz, ?Hefa, ?Hpr; try done; first [lia | by destruct ofi_nccl_protocol]).
Qed.

(** C34. platform_init ends with every variable that was set before unchanged, also when
    it fails. The provider filter is efa exactly if the user has no FI_PROVIDER. When
    it succeeds, NCCL's variables are set, the protocol of the platform is selected
    exactly if EFA is and the user has not named one, and the user's number of
    connections and latency are kept. *)
Theorem platform_init_respects_user w :
  exists rc filter w', platform_init w = Some ((rc, filter), w') /\ vars w ⊆ vars w' /\
    filter = (match vars w !! "FI_PROVIDER"%string with None => Some "efa"%string | Some _ => None end) /\ (rc = 0 -> init_done w w').
Proof. pose proof (init_wp w) as Hw. apply wp_run in Hw as ([rc filter] & w' & Hrun & H1 & H2 & H3). by exists rc, filter, w'. Qed.

End Init.

(** ** Ordered delivery *)

Section Order.
Context {E : AwsEnv}.

(** The option that a protocol needs for ordered delivery. *)
Definition order_opt (proto : string) : Z :=
  if strcasecmp_eq "SENDRECV" proto then FI_OPT_EFA_SENDRECV_IN_ORDER_ALIGNED_128_BYTES else FI_OPT_EFA_WRITE_IN_ORDER_ALIGNED_128_BYTES.

(** Endpoints of a process, configured one after the other until one fails. *)
Fixpoint config_all (l : list (string * Z)) : AM Z :=
  match l with
  | [] => ret 0
  | (prov, ep) :: l' =>
      let* rc := platform_config_endpoint prov (Some ep) in
      if negb (rc =? 0) then ret rc else config_all l'
  end.

(** P5en with the RDMA protocol, which the code exempts. *)
Definition exempt (proto : string) : Prop := product_name = Some "p5en.48xlarge"%string /\ strcasecmp_eq "RDMA" proto = true.

(** What the static variables mean: before the first EFA endpoint nothing is known;
    then either all of the endpoints [done] deliver in order, or NCCL_PROTO is set,
    or the platform is exempt. *)
Definition order_inv (proto : string) (done : list Z) (w : aws) : Prop :=
  nccl_ofi_selected_protocol w = Some proto /\
  if nccl_proto_configured w then
    if need_ordering w then forall ep, ep ∈ done -> (ep, order_opt proto, 1) ∈ ep_opts w
    else is_Some (vars w !! "NCCL_PROTO"%string) \/ exempt proto
  else need_ordering w = false /\ done = [].

Lemma order_inv_platform proto dn d w : order_inv proto dn w -> order_inv proto dn (w_platform d w).
Proof. done. Qed.

Lemma setopt_wp ep opt v w (Q : Z -> aws -> Prop) : (fi_setopt ep opt v = 0 -> Q 0 (w_opt (ep, opt, v) w)) -> (fi_setopt ep opt v <> 0 -> Q (fi_setopt ep opt v) w) -> wp (setopt ep opt v) Q w.
Proof. intros H1 H2. unfold setopt. destruct (Z.eqb_spec (fi_setopt ep opt v) 0); wp_simpl; auto. Qed.

(** Ordering is set on the endpoint, or it cannot be. *)
Lemma inorder_wp ep opt w :
  wp (configure_ep_inorder ep opt) (fun r w' => (r = (0, true) /\ w' = w_opt (ep, opt, 1) w) \/ (r.2 = false /\ w' = w)) w.
Proof.
  unfold configure_ep_inorder. destruct have_write_in_order; [|wp_simpl; by right]. wp_simpl. apply setopt_wp; intros Hrc; [cbn; wp_simpl; by left|]. destruct (not_supported _); [wp_simpl; by right|].
  rewrite (proj2 (Z.eqb_neq _ _) Hrc). cbn [negb]. wp_simpl. by right.
Qed.

Lemma try_inorder_wp proto ep opt w :
  opt = order_opt proto \/ opt = -1 ->
  wp (if negb (opt =? -1) then configure_ep_inorder ep opt else ret (0, false))
    (fun r w' => (r = (0, true) /\ w' = w_opt (ep, opt, 1) w /\ opt = order_opt proto) \/ (r.2 = false /\ w' = w)) w.
Proof.
  intros Hopt. destruct (Z.eqb_spec opt (-1)) as [He|He]; cbn [negb]; [wp_simpl; by right|]. eapply wp_mono; [apply inorder_wp|]. intros r w' [[-> ->]|[? ->]]; [left|by right]. split_and!; [done..|]. by destruct Hopt.
Qed.

Lemma ordering_wp proto dn ep opt w s :
  product_name = Some s -> opt = order_opt proto \/ opt = -1 -> order_inv proto dn w ->
  wp (config_ordering ep (strcasecmp_eq "RDMA" proto) opt) (fun rc w' => rc = 0 -> order_inv proto (ep :: dn) w') w.
Proof.
  intros Hs Hopt [Hp Hinv]. unfold config_ordering. wp_simpl. set (rdma := strcasecmp_eq "RDMA" proto) in *.
  apply (wp_mono _ (fun _ w' => order_inv proto dn w' /\ (nccl_proto_configured w' = true -> need_ordering w' = false -> order_inv proto (ep :: dn) w'))).
  { destruct (nccl_proto_configured w) eqn:Hc; cbn [negb]; [wp_simpl; split; [split; [done|by rewrite Hc]|intros _ Hn; split; [done|by rewrite Hc, Hn in *]]|]. wp_simpl. apply getenv_wp. destruct Hinv as [Hn ->].
    assert (order_inv proto [] w /\ (nccl_proto_configured w = true -> need_ordering w = false -> order_inv proto [ep] w)) as Hsame by (split; [split; [done|by rewrite Hc]|by rewrite Hc]).
    destruct (bool_decide (vars w !! _ = None)); cbn [andb]; [|by wp_simpl]. destruct rdma eqn:Hr; [|by wp_simpl]. wp_simpl. eapply wp_of_option; [exact Hs|]. destruct (String.eqb_spec s "p5en.48xlarge") as [->|]; wp_simpl; [|done].
    assert (exempt proto) as Hex by (split; done). split; [split; [done|by right]|intros _ _; split; [done|by right]]. }
  intros _ w1 [[Hp1 Hinv1] Hskip]. wp_simpl. destruct (nccl_proto_configured w1) eqn:Hc; [destruct (need_ordering w1) eqn:Hn|]; cbn [orb negb].
  - wp_simpl. eapply wp_mono; [by apply (try_inorder_wp proto)|].
    intros [rc have] w2 [(Heq & -> & ->)|[Hh ->]].
    + injection Heq as -> ->. cbn. wp_simpl. intros _. split; [done|]. cbn. rewrite Hc, Hn. intros x [->|Hx]%elem_of_cons; [left|right; by apply Hinv1].
    + cbn in Hh. subst have. destruct (negb (rc =? 0)) eqn:Hz; wp_simpl; [|done]. intros ->. done.
  - wp_simpl. intros _. by apply Hskip.
  - destruct Hinv1 as [Hn ->]. rewrite Hn. cbn [orb negb].
    wp_simpl. eapply wp_mono; [by apply (try_inorder_wp proto)|].
    intros [rc have] w2 [(Heq & -> & ->)|[Hh ->]].
    + injection Heq as -> ->. cbn. wp_simpl. intros _. split; [done|]. cbn. intros x [->|Hx]%elem_of_cons; [left|by apply not_elem_of_nil in Hx].
    + cbn in Hh. subst have. cbn beta iota. destruct (negb (rc =? 0)) eqn:Hz; wp_simpl; [intros ->; done|]. cbn [andb]. wp_simpl. cbn [negb]. wp_simpl. unfold configure_nccl_proto. wp_simpl. apply getenv_wp. cbn [vars w_order].
      destruct (vars w1 !! _) as [x|] eqn:Hv; [wp_simpl; intros _; split; [done|]; cbn; left; by rewrite Hv|].
      apply setenv_wp; [done|intros He; destruct (Z.eqb_spec (- setenv_errno "NCCL_PROTO") 0); [lia|]; wp_simpl; done|]. intros m Hm Hset _. wp_simpl. intros _. split; [done|]. by left.
Qed.

Lemma max_msg_wp proto dn ep w : order_inv proto dn w -> wp (configure_ep_max_msg_size ep) (fun _ w' => order_inv proto dn w') w.
Proof.
  intros [Hp Hinv]. unfold configure_ep_max_msg_size. destruct have_max_msg_size; [|by wp_simpl]. wp_simpl. apply setopt_wp; intros _; wp_simpl; [|done]. split; [done|]. cbn. destruct (nccl_proto_configured w), (need_ordering w); try done.
  intros x Hx. right. by apply Hinv.
Qed.

(** The options [opt] the headers declare. *)
Lemma config_endpoint_wp proto dn prov ep w s :
  product_name = Some s -> order_inv proto dn w ->
  wp (platform_config_endpoint prov (Some ep)) (fun rc w' => rc = 0 -> order_inv proto (if String.eqb prov "efa" then ep :: dn else dn) w') w.
Proof.
  intros Hs Hinv. unfold platform_config_endpoint. destruct (String.eqb prov "efa"); cbn [negb]; [|by wp_simpl]. wp_simpl.
  apply (wp_mono _ (fun _ w' => order_inv proto dn w')).
  { destruct (ofi_nccl_disable_gdr_required_check =? 0); [|by wp_simpl]. wp_simpl. apply get_platform_wp. wp_simpl. by apply order_inv_platform. }
  clear w Hinv. intros bad w Hinv. destruct bad; [wp_simpl; unfold EINVAL; lia|]. wp_simpl. eapply wp_of_option; [apply Hinv|]. cbn zeta. match goal with |- wp (if negb (?rc =? 0) then _ else _) _ _ => destruct (Z.eqb_spec rc 0) as [Hv|Hv]; cbn [negb]; [clear Hv|wp_simpl; by intros ?] end.
  destruct (negb (strcasecmp_eq "SENDRECV" proto) && negb (strcasecmp_eq "RDMA" proto)); [wp_simpl; unfold EINVAL; lia|]. wp_simpl. eapply wp_mono; [eapply (ordering_wp proto dn ep _ w s Hs); [|done]|].
  { unfold order_opt. destruct (strcasecmp_eq "SENDRECV" proto); [destruct have_sendrecv_in_order; auto|destruct have_write_in_order; auto]. }
  intros rc w1 H1. destruct (Z.eqb_spec rc 0) as [->|Hrc]; cbn [negb]; [|wp_simpl; done]. specialize (H1 eq_refl). destruct (strcasecmp_eq "RDMA" proto); [|by wp_simpl]. eapply wp_mono; [by apply max_msg_wp|]. done.
Qed.

Lemma config_all_wp proto s l : forall dn w,
  product_name = Some s -> order_inv proto dn w ->
  wp (config_all l) (fun rc w' => rc = 0 -> exists dn', order_inv proto dn' w' /\ (forall ep, ep ∈ dn \/ ("efa"%string, ep) ∈ l -> ep ∈ dn')) w.
Proof.
  induction l as [|[prov ep] l IH]; intros dn w Hs Hinv; cbn [config_all].
  { wp_simpl. intros _. exists dn. split; [done|]. intros ep [?|H]; [done|by apply not_elem_of_nil in H]. }
  wp_simpl. eapply wp_mono; [by apply (config_endpoint_wp proto dn prov ep w s)|]. intros rc w1 H1. destruct (Z.eqb_spec rc 0) as [->|Hrc]; cbn [negb]; [|by wp_simpl]. specialize (H1 eq_refl).
  eapply wp_mono; [exact (IH _ w1 Hs H1)|]. intros rc w2 H2 Hz. destruct (H2 Hz) as (dn' & Hinv2 & Hall). exists dn'. split; [done|]. intros x [Hx|[Hx|Hx]%elem_of_cons].
  - apply Hall. left. destruct (String.eqb prov "efa"); [by right|done].
  - injection Hx as <- ->. apply Hall. left. cbn. left.
  - apply Hall. by right.
Qed.

(** C19. Ordered delivery: when a process configures endpoints one after the other and
    none fails, then at the end every EFA endpoint delivers in order, or NCCL_PROTO is
    set (to simple, unless the user has set it), or the platform is exempt. *)
Theorem endpoints_deliver_in_order proto s l w :
  product_name = Some s -> nccl_ofi_selected_protocol w = Some proto -> nccl_proto_configured w = false -> need_ordering w = false ->
  exists rc w', config_all l w = Some (rc, w') /\
    (rc = 0 -> (forall ep, ("efa"%string, ep) ∈ l -> (ep, order_opt proto, 1) ∈ ep_opts w') \/ is_Some (vars w' !! "NCCL_PROTO"%string) \/ exempt proto).
Proof.
  intros Hs Hp Hc Hn. assert (order_inv proto [] w) as Hinv by (split; [done|by rewrite Hc]). pose proof (config_all_wp proto s l [] w Hs Hinv) as Hw. apply wp_run in Hw as (rc & w' & Hrun & H). exists rc, w'. split; [done|].
  intros Hz. destruct (H Hz) as (dn & [_ Hi] & Hall). destruct (nccl_proto_configured w'); [destruct (need_ordering w'); [left; auto|by right]|]. left. intros ep Hep. destruct Hi as [_ ->]. specialize (Hall ep (or_intror Hep)). by apply not_elem_of_nil in Hall.
Qed.

(** An endpoint whose checks are disabled. *)
Lemma config_unchecked ep proto w :
  ofi_nccl_disable_gdr_required_check <> 0 -> ofi_nccl_disable_native_rdma_check <> 0 -> nccl_ofi_selected_protocol w = Some proto -> strcasecmp_eq "SENDRECV" proto || strcasecmp_eq "RDMA" proto = true ->
  platform_config_endpoint "efa" (Some ep) w =
  (let* rc := config_ordering ep (strcasecmp_eq "RDMA" proto) (if strcasecmp_eq "SENDRECV" proto then (if have_sendrecv_in_order then FI_OPT_EFA_SENDRECV_IN_ORDER_ALIGNED_128_BYTES else -1)
                             else (if have_write_in_order then FI_OPT_EFA_WRITE_IN_ORDER_ALIGNED_128_BYTES else -1)) in
   if negb (rc =? 0) then ret rc else if strcasecmp_eq "RDMA" proto then configure_ep_max_msg_size ep else ret 0) w.
Proof.
  intros Hg Hr Hp Hk. unfold platform_config_endpoint. rewrite String.eqb_refl, (proj2 (Z.eqb_neq _ _) Hg), (proj2 (Z.eqb_neq _ _) Hr). cbn [negb]. unfold bind at 1, ret at 1. unfold bind at 1, gets at 1. unfold bind at 1. rewrite Hp. cbn beta iota. unfold of_option at 1, ret at 1. cbn beta iota zeta.
  rewrite andb_false_r. change (negb (0 =? 0)) with false. cbn beta iota. rewrite <- negb_orb, Hk. done.
Qed.

(** Without a product name the comparison with p5en is one with NULL. *)
Lemma missing_name_is_undefined ep w :
  product_name = None -> nccl_ofi_selected_protocol w = Some "RDMA"%string -> nccl_proto_configured w = false -> vars w !! "NCCL_PROTO"%string = None ->
  ofi_nccl_disable_gdr_required_check <> 0 -> ofi_nccl_disable_native_rdma_check <> 0 -> platform_config_endpoint "efa" (Some ep) w = None.
Proof.
  intros Hs Hp Hc Hv Hg Hr. rewrite (config_unchecked ep "RDMA" w Hg Hr Hp eq_refl). unfold bind at 1. assert (forall opt, config_ordering ep (strcasecmp_eq "RDMA" "RDMA") opt w = None) as ->; [|done].
  intros opt. unfold config_ordering, getenv, gets, bind, ret. rewrite Hc. cbn [negb]. rewrite Hv, Hs. done.
Qed.

(** A failure to set NCCL_PROTO is reported once: the next endpoint succeeds without
    ordering and without the variable. *)
Lemma failed_proto_is_forgotten ep ep' w :
  nccl_ofi_selected_protocol w = Some "SENDRECV"%string -> nccl_proto_configured w = false -> need_ordering w = false ->
  vars w !! "NCCL_PROTO"%string = None -> setenv_errno "NCCL_PROTO" <> 0 -> have_sendrecv_in_order = false ->
  ofi_nccl_disable_gdr_required_check <> 0 -> ofi_nccl_disable_native_rdma_check <> 0 ->
  exists w1 w2, platform_config_endpoint "efa" (Some ep) w = Some (- ENOTSUP, w1) /\ platform_config_endpoint "efa" (Some ep') w1 = Some (0, w2) /\
    vars w2 !! "NCCL_PROTO"%string = None /\ ep_opts w2 = ep_opts w.
Proof.
  intros Hp Hc Hn Hv He Ho Hg Hr. exists (w_order true false w), (w_order true false w). rewrite !(config_unchecked _ "SENDRECV" _ Hg Hr) by done. rewrite Ho.
  change (strcasecmp_eq "RDMA" "SENDRECV") with false. change (strcasecmp_eq "SENDRECV" "SENDRECV") with true. cbn beta iota. split_and!; [|done|done|done].
  unfold bind at 1. assert (config_ordering ep false (-1) w = Some (- ENOTSUP, w_order true false w)) as ->; [|done].
  unfold config_ordering, configure_nccl_proto, setenv, getenv, bind, ret, gets, modify. rewrite Hc. cbn [negb andb]. rewrite andb_false_r, Hc, Hn. cbn [negb andb orb Z.eqb Pos.eqb vars w_order]. rewrite Hv, (proj2 (Z.eqb_neq _ _) He). cbn [negb].
  rewrite (proj2 (Z.eqb_neq (- _) _)) by lia. done.
Qed.

(** platform data: read once, and the entry with the name of the product. *)
Lemma find_platform_name s d : find_platform platform_data_map s None = Some d -> d ∈ platform_data_map /\ name d = s.
Proof.
  assert (forall l found, (forall x, found = Some x -> x ∈ platform_data_map /\ name x = s) -> l ⊆ platform_data_map -> find_platform l s found = Some d -> d ∈ platform_data_map /\ name d = s) as Hg; [|apply Hg; done].
  induction l as [|x l IH]; intros found Hf Hsub Hfind; cbn in Hfind; [by apply Hf|]. eapply IH; [|intros y Hy; apply Hsub; by right|exact Hfind]. intros y. destruct (String.eqb_spec s (name x)); [|by apply Hf]. intros [= <-]. split; [apply Hsub; left|done].
Qed.
End Order.

(** Two endpoints of a P4d, where the option can be set. *)
Definition p4d : AwsEnv :=
  {| product_name := Some "p4d.24xlarge"%string; setenv_errno _ := 0; fi_major := 1; fi_minor := 22; ncclGetVersion := Some (0, 21805); XML_DIR := "/opt"%string; ofi_nccl_net_latency := -1; ofi_nccl_protocol := None;
     ofi_nccl_disable_gdr_required_check := 0; ofi_nccl_disable_native_rdma_check := 0; fi_getopt_emulated_write _ := (0, 1, false); ofi_nccl_eager_max_size := 8192; fi_setopt _ _ _ := 0; have_emulated_write := true; have_sendrecv_in_order := true; have_write_in_order := true; have_max_msg_size := true |}.
Definition p4d_start : aws := mk_aws ∅ None 0 (-1) (Some "SENDRECV"%string) GDR_SUPPORTED false false [].

Lemma endpoints_deliver_in_order_witness :
  exists w', @config_all p4d [("efa"%string, 7); ("tcp"%string, 8); ("efa"%string, 9)] p4d_start = Some (0, w') /\ ep_opts w' = [(9, 1, 1); (7, 1, 1)] /\
    ((forall ep, ("efa"%string, ep) ∈ [("efa"%string, 7); ("tcp"%string, 8); ("efa"%string, 9)] -> (ep, 1, 1) ∈ ep_opts w') \/ is_Some (vars w' !! "NCCL_PROTO"%string) \/ @exempt p4d "SENDRECV").
Proof.
  destruct (@endpoints_deliver_in_order p4d "SENDRECV" "p4d.24xlarge" [("efa"%string, 7); ("tcp"%string, 8); ("efa"%string, 9)] p4d_start eq_refl eq_refl eq_refl eq_refl) as (rc & w' & Hrun & H).
  exists w'. assert (rc = 0) as -> by (apply (f_equal (option_map fst)) in Hrun; vm_compute in Hrun; by injection Hrun). split; [exact Hrun|]. split; [|exact (H eq_refl)].
  apply (f_equal (option_map snd)) in Hrun. vm_compute in Hrun. injection Hrun as <-. reflexivity.
Defined.

End PlatformAws.
