(* ===== verification/TunerRegion.v ===== *)
(** * nccl_ofi_regions.c: the region tuner

    For a few shapes of communicator, the plane of message size and number of ranks
    is divided into polygons, each with an algorithm and a protocol for NCCL. The
    tuner looks for the first polygon that has the point. Numbers are IEEE doubles,
    computed with the Standard Library's SpecFloat. [None] is a failed assertion or
    an index outside an array. [distance] can return with its local [s] not written;
    the value it then has is a parameter. *)

From Stdlib Require Import SpecFloat.
From S2P Require Import Prelude.

Module TunerRegion.

Open Scope Z_scope.

(** ** Doubles *)

Abbreviation double := spec_float.
Definition dbl (z : Z) : double := binary_normalize 53 1024 z 0 false.
Definition dadd : double -> double -> double := SFadd 53 1024.
Definition dsub : double -> double -> double := SFsub 53 1024.
Definition dmul : double -> double -> double := SFmul 53 1024.
Definition ddiv : double -> double -> double := SFdiv 53 1024.
Definition dsqrt : double -> double := SFsqrt 53 1024.
Definition HUGE_VAL : double := S754_infinity false.

(** ** NCCL's constants *)

Definition ncclFuncAllGather : Z := 2.
Definition ncclFuncReduceScatter : Z := 3.
Definition ncclFuncAllReduce : Z := 4.
Definition NCCL_NUM_FUNCTIONS : nat := 5.
Definition NCCL_ALGO_UNDEF : Z := -1.
Definition NCCL_ALGO_TREE : Z := 0.
Definition NCCL_ALGO_RING : Z := 1.
Definition NCCL_ALGO_NVLS_TREE : Z := 5.
Definition NCCL_PROTO_UNDEF : Z := -1.
Definition NCCL_PROTO_LL : Z := 0.
Definition NCCL_PROTO_LL128 : Z := 1.
Definition NCCL_PROTO_SIMPLE : Z := 2.
Definition NCCL_NUM_PROTOCOLS : Z := 3.

(** ** Points and regions *)

Definition TUNER_MAX_NUM_VERTICES : nat := 20.
Definition TUNER_MAX_RANKS : double := dbl (1024 * 1024).
Definition TUNER_MAX_SIZE : double := dbl (100 * 1024 * 1024 * 1024).

Record nccl_ofi_tuner_point_t := mk_point { x : double; y : double }.
Abbreviation point := nccl_ofi_tuner_point_t.

Record nccl_ofi_tuner_region_t := mk_region { algorithm : Z; protocol : Z; num_vertices : nat; vertices : list point }.

(** An initialiser of a region: the rest of the array is zero. *)
Definition region (a p : Z) (n : nat) (l : list point) : nccl_ofi_tuner_region_t :=
  mk_region a p n (l ++ replicate (TUNER_MAX_NUM_VERTICES - length l) (mk_point (dbl 0) (dbl 0))).

(** Whether assertions are compiled out, and the value of an unwritten local. *)
Class TunerEnv := { NDEBUG : bool; unwritten : point -> point -> point -> point }.

(** ** Geometry *)

Definition vsub (a b : point) : point := mk_point (dsub (x a) (x b)) (dsub (y a) (y b)).
Definition vdot (a b : point) : double := dadd (dmul (x a) (x b)) (dmul (y a) (y b)).
Definition vcross (a b : point) : double := dsub (dmul (x a) (y b)) (dmul (y a) (x b)).
Definition vmadd (a : point) (s : double) (b : point) : point := mk_point (dadd (x a) (dmul s (x b))) (dadd (y a) (dmul s (y b))).

(** The result, and what is written to sect. *)
Definition intersect (x0 x1 y0 y1 : point) (eps : double) : Z * option point :=
  let dx := vsub x1 x0 in
  let dy := vsub y1 y0 in
  let d := vcross dy dx in
  if SFltb (SFabs d) eps then (0, None)
  else
    let a := ddiv (dsub (vcross x0 dx) (vcross y0 dx)) d in
    let sect := Some (vmadd y0 a dy) in
    if SFltb a (SFopp eps) || SFltb (dadd (dbl 1) eps) a then (-1, sect)
    else if SFltb a eps || SFltb (dsub (dbl 1) eps) a then (0, sect)
    else
      let a := ddiv (dsub (vcross x0 dy) (vcross y0 dy)) d in
      if SFltb a (dbl 0) || SFltb (dbl 1) a then (-1, sect) else (1, sect).

Section Region.
Context {E : TunerEnv}.

Definition distance (p y0 y1 : point) (eps : double) : double :=
  let dy := vsub y1 y0 in
  let x1 := mk_point (dadd (x p) (y dy)) (dsub (y p) (x dy)) in
  let (r, s) := intersect p x1 y0 y1 eps in
  if r =? -1 then HUGE_VAL
  else
    let s := vsub (default (unwritten p y0 y1) s) p in
    dsqrt (vdot s s).

Definition eps : double := ddiv (dbl 1) (dbl 10000000000).

(** The first loop: whether the point is on an edge; [n] edges from [i]. *)
Fixpoint on_edge (n i : nat) (p : point) (r : nccl_ofi_tuner_region_t) : option bool :=
  match n with
  | O => Some false
  | S n' =>
      match vertices r !! i, vertices r !! (S i mod num_vertices r)%nat with
      | Some v, Some w => if SFltb (distance p v w eps) eps then Some true else on_edge n' (S i) p r
      | _, _ => None
      end
  end.

Record box := mk_box { min_x : double; max_x : double; min_y : double; max_y : double }.

(** The bounding box: one vertex at a time. *)
Definition widen (b : box) (v : point) : box :=
  mk_box (if SFltb (x v) (min_x b) then x v else min_x b) (if SFltb (max_x b) (x v) then x v else max_x b)
         (if SFltb (y v) (min_y b) then y v else min_y b) (if SFltb (max_y b) (y v) then y v else max_y b).

(** The last loop: the number of edges that a ray to the far point crosses. *)
Fixpoint crosses (n i : nat) (p e : point) (r : nccl_ofi_tuner_region_t) (count : Z) : option Z :=
  match n with
  | O => Some count
  | S n' =>
      match vertices r !! i, vertices r !! (S i mod num_vertices r)%nat with
      | Some v, Some w =>
          let k := (intersect p e v w eps).1 in
          if negb NDEBUG && (k =? 0) then None
          else crosses n' (S i) p e r (if k =? 1 then count + 1 else count)
      | _, _ => None
      end
  end.

Definition is_inside_region (p : point) (r : nccl_ofi_tuner_region_t) : option Z :=
  if negb NDEBUG && (num_vertices r <=? 1)%nat then None
  else
    match on_edge (num_vertices r) 0 p r with
    | None => None
    | Some true => Some 0
    | Some false =>
        match vertices r !! 0%nat, vertices r !! 1%nat with
        | Some v0, Some v1 =>
            let b := foldl widen (mk_box (x v0) (x v0) (y v1) (y v1)) (take (num_vertices r) (vertices r)) in
            if SFltb (x p) (min_x b) || SFltb (max_x b) (x p) || SFltb (y p) (min_y b) || SFltb (max_y b) (y p) then Some (-1)
            else
              let e := mk_point (dmul (dbl 2) TUNER_MAX_SIZE) (dmul (dbl 2) TUNER_MAX_RANKS) in
              match crosses (num_vertices r) 0 p e r 0 with
              | Some c => Some (if Z.odd c then 1 else -1)
              | None => None
              end
        | _, _ => None
        end
    end.

End Region.

Definition extend_region (a b z : point) : point :=
  if SFeqb (x a) (x b) then mk_point (x a) (y z)
  else if SFeqb (y a) (y b) then mk_point (x z) (y a)
  else
    let m := ddiv (dsub (y a) (y b)) (dsub (x a) (x b)) in
    let c := dsub (y b) (dmul m (x b)) in
    let projected_zx := dadd (dmul m (x z)) c in
    if SFltb (y z) projected_zx then mk_point (x z) projected_zx
    else mk_point (ddiv (dsub (y z) c) m) (y z).

(** ** The regions of P5 and P5e *)

Definition pt (a b : Z) : point := mk_point (dbl a) (dbl b).
Definition top : point := mk_point TUNER_MAX_SIZE TUNER_MAX_RANKS.

(** Eight ranks per node. *)
Definition regions_8 : list nccl_ofi_tuner_region_t :=
  let extended_tree_ll128 := extend_region (pt 402653184 2048) (pt 402653184 4096) top in
  let extended_nvlstree_simple_1 := extend_region (pt 8053063680 160) (pt 9663676416 192) top in
  let extended_nvlstree_simple_2 := extend_region (pt 402653184 2048) (pt 402653184 4096) top in
  let extended_ring_simple := extend_region (pt 8053063680 160) (pt 9663676416 192) top in
  [ region NCCL_ALGO_TREE NCCL_PROTO_LL128 12
      [pt 0 16; pt 31457280 16; pt 37748736 32; pt 117440512 64; pt 301989888 128; pt 301989888 256; pt 335544320 512; pt 536870912 1024;
       pt 402653184 2048; pt 402653184 4096; extended_tree_ll128; mk_point (dbl 0) (y extended_tree_ll128)];
    region NCCL_ALGO_NVLS_TREE NCCL_PROTO_SIMPLE 3 [pt 31457281 16; mk_point TUNER_MAX_SIZE (dbl 16); pt 31457281 16];
    region NCCL_ALGO_RING NCCL_PROTO_LL128 11
      [pt 31457280 17; pt 1073741824 17; pt 2147483648 64; pt 2147483648 128; pt 1342177280 160; pt 2147483648 256; pt 1074790400 256; pt 444596224 160;
       pt 301989888 128; pt 117440512 64; pt 37748736 32];
    region NCCL_ALGO_NVLS_TREE NCCL_PROTO_SIMPLE 17
      [pt 2147483648 128; pt 6442450944 128; pt 8053063680 160; pt 9663676416 192; extended_nvlstree_simple_1; extended_nvlstree_simple_2; pt 402653184 4096;
       pt 402653184 2048; pt 536870912 1024; pt 335544320 512; pt 301989888 256; pt 310378496 160; pt 444596224 160; pt 1074790400 256; pt 2684354560 256;
       pt 2147483648 224; pt 1342177280 160];
    region NCCL_ALGO_RING NCCL_PROTO_SIMPLE 7
      [pt 1073741824 17; mk_point (x extended_ring_simple) (dbl 17); extended_ring_simple; pt 9663676416 192; pt 8053063680 160; pt 2684354560 64; pt 1610612736 32] ].

(** Two ranks per node. *)
Definition regions_2 : list nccl_ofi_tuner_region_t :=
  let extended_tree_ll128 := extend_region (pt 88160256 128) (pt 178163712 256) top in
  let extended_tree_simple_1 := extend_region (pt 787480576 128) (pt 1073741824 256) top in
  let extended_tree_simple_2 := extend_region (pt 257114112 128) (pt 269484032 256) top in
  let extended_nvlstree_simple := extend_region (pt 787480576 128) (pt 1073741824 256) top in
  [ region NCCL_ALGO_TREE NCCL_PROTO_LL128 11
      [pt 0 4; pt 1314816 4; pt 1051648 8; pt 1051648 12; pt 2367488 16; pt 5525504 32; pt 9473024 64; pt 88160256 128; pt 178163712 256; extended_tree_ll128;
       mk_point (dbl 0) (y extended_tree_ll128)];
    region NCCL_ALGO_RING NCCL_PROTO_LL128 14
      [pt 1314816 4; pt 19736576 4; pt 41842688 8; pt 296747008 64; pt 257114112 128; pt 269484032 256; pt 178163712 256; pt 88160256 128; pt 9473024 64;
       pt 5525504 32; pt 2367488 16; pt 1051648 12; pt 1051648 8; pt 1314816 4];
    region NCCL_ALGO_NVLS_TREE NCCL_PROTO_SIMPLE 6 [pt 19736576 4; pt 81844224 4; pt 275775488 8; pt 275775488 48; pt 296747008 64; pt 41842688 8];
    region NCCL_ALGO_TREE NCCL_PROTO_LL128 3 [pt 81844224 4; pt 269484032 4; pt 81844224 4];
    region NCCL_ALGO_TREE NCCL_PROTO_SIMPLE 3 [pt 269484032 4; mk_point TUNER_MAX_SIZE (dbl 4); pt 269484032 4];
    region NCCL_ALGO_RING NCCL_PROTO_SIMPLE 10
      [pt 81844224 5; mk_point TUNER_MAX_SIZE (dbl 5); mk_point TUNER_MAX_SIZE (dbl 32); pt 1073741824 40; pt 1073741824 128; pt 787480576 128; pt 296747008 64;
       pt 275775488 48; pt 275775488 8; pt 81844224 5];
    region NCCL_ALGO_TREE NCCL_PROTO_SIMPLE 7
      [pt 296747008 64; pt 787480576 128; pt 1073741824 256; extended_tree_simple_1; extended_tree_simple_2; pt 269484032 256; pt 257114112 128];
    region NCCL_ALGO_NVLS_TREE NCCL_PROTO_SIMPLE 6
      [extended_nvlstree_simple; pt 1073741824 256; pt 787480576 128; pt 1073741824 128; pt 1073741824 40; mk_point TUNER_MAX_SIZE (dbl 32)] ].

(** One rank per node. *)
Definition regions_1 : list nccl_ofi_tuner_region_t :=
  let extended_tree_ll128 := extend_region (pt 9999360 64) (pt 119477248 128) top in
  let extended_ring_ll128 := extend_region (pt 4736000 2) (pt 269484032 128) top in
  [ region NCCL_ALGO_TREE NCCL_PROTO_LL128 5 [pt 0 16; pt 2367488 16; pt 9999360 64; pt 119477248 128; extended_tree_ll128];
    region NCCL_ALGO_RING NCCL_PROTO_LL128 9
      [pt 0 2; pt 4736000 2; pt 269484032 128; extended_ring_ll128; extended_tree_ll128; pt 119477248 128; pt 9999360 64; pt 2367488 16; pt 0 16];
    region NCCL_ALGO_RING NCCL_PROTO_SIMPLE 4 [pt 4736000 2; mk_point TUNER_MAX_SIZE (dbl 2); extended_ring_ll128; pt 269484032 128] ].

Definition regions_1_allgather : list nccl_ofi_tuner_region_t :=
  let extended_ring_simple := extend_region (pt 4194304 2) (pt 8589934592 2048) top in
  [ region NCCL_ALGO_RING NCCL_PROTO_SIMPLE 4 [pt 4194304 2; mk_point TUNER_MAX_SIZE (dbl 2); extended_ring_simple; pt 8589934592 2048] ].

Definition regions_1_reducescatter : list nccl_ofi_tuner_region_t :=
  let extended_ring_simple := extend_region (pt 8388608 2) (pt 4294967296 1024) top in
  [ region NCCL_ALGO_RING NCCL_PROTO_SIMPLE 4 [pt 8388608 2; mk_point TUNER_MAX_SIZE (dbl 2); extended_ring_simple; pt 4294967296 1024] ].

(** The arrays that region_init_internal_p5_p5e sets, in order. *)
Definition p5_regions (nRanks nNodes : Z) : list (Z * list nccl_ofi_tuner_region_t) :=
  if nRanks =? u64 (8 * nNodes) then [(ncclFuncAllReduce, regions_8)]
  else if nRanks =? u64 (2 * nNodes) then [(ncclFuncAllReduce, regions_2)]
  else if nRanks =? nNodes then [(ncclFuncAllReduce, regions_1); (ncclFuncAllGather, regions_1_allgather); (ncclFuncReduceScatter, regions_1_reducescatter)]
  else [].

End TunerRegion.
