(* ===== verification/TunerModel.v ===== *)
(** * nccl_ofi_model.c: the model tuner

    The cost of an algorithm and a protocol is latency plus size over bandwidth, in
    single precision with some steps in double precision, as C computes it; the
    tuner takes the cheapest combination. log2 is a parameter. *)

From Stdlib Require Import SpecFloat.
From S2P Require Import Prelude TunerRegion.
Import TunerRegion.

Module TunerModel.

Open Scope Z_scope.

(** ** Single precision *)

Abbreviation float := spec_float.
Definition flt (z : Z) : float := binary_normalize 24 128 z 0 false.
Definition fadd : float -> float -> float := SFadd 24 128.
Definition fmul : float -> float -> float := SFmul 24 128.
Definition fdiv : float -> float -> float := SFdiv 24 128.
Definition FLT_MAX : float := S754_finite false 16777215 104.

Definition convert (prec emax : Z) (f : spec_float) : spec_float :=
  match f with S754_finite s m e => binary_normalize prec emax (if s then Z.neg m else Z.pos m) e s | _ => f end.
Definition to_float (f : double) : float := convert 24 128 f.
Definition to_double (f : float) : double := convert 53 1024 f.

(** A decimal constant [a / b]. *)
Definition dec (a b : Z) : double := ddiv (dbl a) (dbl b).

(** ** Parameters of the platforms *)

Inductive nccl_ofi_tuner_platform := NCCL_OFI_TUNER_P5_P5E | NCCL_OFI_TUNER_P5EN | NCCL_OFI_TUNER_UNKNOWN.

Record nccl_ofi_tuner_model_params_t := mk_params {
  net_lat : float;
  internode_bw : float;
  intranode_bw : float;
  num_rails : Z;
  nccl_nvlink_lat : list (list float);
}.

Definition per_usec (a b : Z) : float := to_float (dmul (dmul (dmul (dmul (dec a b) (dbl 1024)) (dbl 1024)) (dbl 1024)) (dec 1 1000000)).

Definition nvlink_lat : list (list float) :=
  [ [to_float (dec 6 10); to_float (dec 125 100); flt 28];
    [to_float (dec 6 10); to_float (dec 19 10); to_float (dec 34 10)];
    [flt 0; flt 0; to_float (dec 37 10)];
    [flt 0; flt 0; to_float (dec 28 10)];
    [flt 0; flt 0; flt 23];
    [flt 0; flt 0; flt 23];
    [flt 0; flt 0; flt 0] ].

Definition model_platform_params : list nccl_ofi_tuner_model_params_t :=
  [ mk_params (flt 20) (per_usec 125 10) (per_usec 20 1) 4 nvlink_lat;
    mk_params (flt 18) (per_usec 25 1) (per_usec 20 1) 2 nvlink_lat ].

Definition platform_index (p : nccl_ofi_tuner_platform) : nat :=
  match p with NCCL_OFI_TUNER_P5_P5E => 0 | NCCL_OFI_TUNER_P5EN => 1 | NCCL_OFI_TUNER_UNKNOWN => 2 end%nat.

Definition is_model_supported (p : nccl_ofi_tuner_platform) : bool :=
  match p with NCCL_OFI_TUNER_UNKNOWN => false | _ => true end.

(** ** Costs *)

Definition NCCL_ALGO_COLLNET_DIRECT : Z := 2.
Definition NCCL_ALGO_COLLNET_CHAIN : Z := 3.
Definition NCCL_ALGO_NVLS : Z := 4.

(** The parameters of the environment and the C library. *)
Class ModelEnv := {
  ofi_nccl_tuner_net_comp_overhead : Z;
  ofi_nccl_tuner_num_channels : Z;
  log2 : double -> double;
}.

(** A cost table: a row of three costs for each algorithm. *)
Abbreviation table := (list float).
Definition cell (a p : Z) : Z := a * NCCL_NUM_PROTOCOLS + p.
Definition table_get (t : table) (a p : Z) : option float := if cell a p <? 0 then None else t !! Z.to_nat (cell a p).
Definition table_set (t : table) (a p : Z) (v : float) : option table :=
  if (cell a p <? 0) || (Z.of_nat (length t) <=? cell a p) then None else Some (<[Z.to_nat (cell a p) := v]> t).

Section Model.
Context {E : ModelEnv}.

(** [None] for an index outside nccl_nvlink_lat or a division by zero. *)
Definition nccl_ofi_tuner_compute_cost (params : nccl_ofi_tuner_model_params_t) (num_ranks num_nodes : Z) (func algo proto pipe_ops size : Z) : option float :=
  let net := if proto =? NCCL_PROTO_SIMPLE then fadd (net_lat params) (flt ofi_nccl_tuner_net_comp_overhead) else net_lat params in
  match nccl_nvlink_lat params !! Z.to_nat algo ≫= (.!! Z.to_nat proto) with
  | None => None
  | Some p2p_lat =>
      let nodes_log := log2 (dbl num_nodes) in
      let channels := flt ofi_nccl_tuner_num_channels in
      let rails := fmul (internode_bw params) (flt (num_rails params)) in
      let r :=
        if negb (func =? ncclFuncAllReduce) then Some None
        else if algo =? NCCL_ALGO_RING then
          let num_steps := i32 (u64 (2 * u64 (num_ranks - 1))) in
          let num_internode_steps := i32 (u64 (2 * num_nodes)) in
          Some (Some (fadd (fmul (flt num_internode_steps) net) (fmul (flt (i32 (num_steps - num_internode_steps))) p2p_lat), fmul rails channels))
        else if algo =? NCCL_ALGO_NVLS_TREE then
          let half := fdiv rails (flt 2) in
          Some (Some (to_float (dmul (dbl 2) (dadd (to_double p2p_lat) (dmul nodes_log (to_double net)))),
                      fmul (if SFltb (intranode_bw params) half then intranode_bw params else half) channels))
        else if algo =? NCCL_ALGO_TREE then
          if num_nodes =? 0 then None
          else
            let steps := u64 (2 * u64 (num_ranks / num_nodes - 1)) in
            Some (Some (to_float (dadd (to_double (fmul (flt steps) p2p_lat)) (dmul (dmul (dbl 2) nodes_log) (to_double net))), fdiv (fmul rails channels) (flt 2)))
        else Some None in
      match r with
      | None => None
      | Some None => Some (flt (-1))
      | Some (Some (latency, bw)) =>
          let bw := if proto =? NCCL_PROTO_LL then to_float (dmul (to_double bw) (dec 1 2))
                    else if proto =? NCCL_PROTO_LL128 then to_float (dmul (to_double bw) (dec 9375 10000)) else bw in
          Some (fadd (fmul latency (flt pipe_ops)) (fdiv (flt size) bw))
      end
  end.

(** The combinations in the order of the two loops, without those the loops skip. *)
Definition skipped (nvls : bool) (algo proto : Z) : bool :=
  (algo =? NCCL_ALGO_COLLNET_DIRECT) || (algo =? NCCL_ALGO_COLLNET_CHAIN) || (algo =? NCCL_ALGO_NVLS) ||
  (negb nvls && (algo =? NCCL_ALGO_NVLS_TREE)) || ((algo =? NCCL_ALGO_NVLS_TREE) && negb (proto =? NCCL_PROTO_SIMPLE)).

Definition all_pairs : list (Z * Z) :=
  a ← [0; 1; 2; 3; 4; 5; 6]; p ← [0; 1; 2]; mret (a, p).

(** The loops: the choice and the lowest cost so far. *)
Fixpoint choose (params : nccl_ofi_tuner_model_params_t) (num_ranks num_nodes func pipe_ops size : Z) (nvls : bool) (l : list (Z * Z)) (chosen : option (Z * Z)) (lowest : float) : option (option (Z * Z) * float) :=
  match l with
  | [] => Some (chosen, lowest)
  | (algo, proto) :: l' =>
      if skipped nvls algo proto then choose params num_ranks num_nodes func pipe_ops size nvls l' chosen lowest
      else
        match nccl_ofi_tuner_compute_cost params num_ranks num_nodes func algo proto pipe_ops size with
        | None => None
        | Some cost =>
            if SFltb cost (flt 0) then choose params num_ranks num_nodes func pipe_ops size nvls l' chosen lowest
            else if SFltb cost lowest then choose params num_ranks num_nodes func pipe_ops size nvls l' (Some (algo, proto)) cost
            else choose params num_ranks num_nodes func pipe_ops size nvls l' chosen lowest
        end
  end.

(** The exception for P5 with 16 nodes. *)
Definition quirk (platform : nccl_ofi_tuner_platform) (func num_nodes num_ranks nBytes : Z) : bool :=
  match platform with
  | NCCL_OFI_TUNER_P5_P5E =>
      (func =? ncclFuncAllReduce) && (num_nodes =? 16) && (num_ranks =? 128) && (3 * 1024 * 1024 * 1024 <? nBytes) && (nBytes <=? 5 * 1024 * 1024 * 1024)
  | _ => false
  end.

Record nccl_ofi_tuner_model_context_t := mk_model { m_platform : nccl_ofi_tuner_platform; m_ranks : Z; m_nodes : Z; m_params : nccl_ofi_tuner_model_params_t }.

(** The new table. *)
Definition model_get_coll_info_internal_v3 (ctx : option nccl_ofi_tuner_model_context_t) (func nBytes numPipeOps : Z) (t : table) : option table :=
  match ctx with
  | None => Some t
  | Some m =>
      if m_nodes m <=? 2 then Some t
      else
        let r := if quirk (m_platform m) func (m_nodes m) (m_ranks m) nBytes then Some (Some (NCCL_ALGO_NVLS_TREE, NCCL_PROTO_SIMPLE), flt 0)
                 else choose (m_params m) (m_ranks m) (m_nodes m) func numPipeOps nBytes true all_pairs None FLT_MAX in
        match r with
        | None => None
        | Some (chosen, _) => let (a, p) := default (NCCL_ALGO_UNDEF, NCCL_PROTO_UNDEF) chosen in table_set t a p (flt 0)
        end
  end.

(** The new algorithm and protocol. *)
Definition model_get_coll_info_internal_v2 (ctx : option nccl_ofi_tuner_model_context_t) (func nBytes : Z) (nvlsSupport : bool) (numPipeOps : Z) (ap : Z * Z) : option (Z * Z) :=
  match ctx with
  | None => Some ap
  | Some m =>
      if m_nodes m <=? 2 then Some ap
      else if quirk (m_platform m) func (m_nodes m) (m_ranks m) nBytes && nvlsSupport then Some (NCCL_ALGO_NVLS_TREE, NCCL_PROTO_SIMPLE)
      else
        match choose (m_params m) (m_ranks m) (m_nodes m) func numPipeOps nBytes nvlsSupport all_pairs None FLT_MAX with
        | None => None
        | Some (chosen, _) => Some (default ap chosen)
        end
  end.

End Model.

(** ** The choice is the cheapest *)

Lemma SFltb_trans a b c : SFltb a b = true -> SFltb b c = true -> SFltb a c = true.
Proof.
  unfold SFltb, SFcompare. destruct a as [sa|sa| |sa ma ea], b as [sb|sb| |sb mb eb], c as [sc|sc| |sc mc ec]; try done; repeat match goal with s : bool |- _ => destruct s end; try done.
  all: intros H1 H2.
  all: repeat match goal with
       | H : context [Z.compare ?u ?v] |- _ => destruct (Z.compare_spec u v); subst; try done
       | |- context [Z.compare ?u ?v] => destruct (Z.compare_spec u v); subst; try done; try lia
       | H : context [Pos.compare_cont Eq ?u ?v] |- _ => change (Pos.compare_cont Eq u v) with (Pos.compare u v) in H; destruct (Pos.compare_spec u v); subst; try done
       | |- context [Pos.compare_cont Eq ?u ?v] => change (Pos.compare_cont Eq u v) with (Pos.compare u v); destruct (Pos.compare_spec u v); subst; try done; try lia
       end.
Qed.

Lemma SFltb_irrefl a : SFltb a a = false.
Proof. unfold SFltb, SFcompare. destruct a as [[]|[]| |[] m e]; try done; rewrite Z.compare_refl; change (Pos.compare_cont Eq m m) with (Pos.compare m m); by rewrite Pos.compare_refl. Qed.

Section Cheapest.
Context {E : ModelEnv} (params : nccl_ofi_tuner_model_params_t) (num_ranks num_nodes func pipe_ops size : Z) (nvls : bool).

Abbreviation cost a p := (nccl_ofi_tuner_compute_cost params num_ranks num_nodes func a p pipe_ops size).

(** A combination that the loops compare. *)
Definition offered (l : list (Z * Z)) (ap : Z * Z) (c : float) : Prop := ap ∈ l /\ skipped nvls ap.1 ap.2 = false /\ cost ap.1 ap.2 = Some c /\ SFltb c (flt 0) = false.

Lemma choose_spec l : forall chosen lowest chosen' lowest',
  choose params num_ranks num_nodes func pipe_ops size nvls l chosen lowest = Some (chosen', lowest') ->
  (lowest' = lowest \/ SFltb lowest' lowest = true) /\ (forall ap c, offered l ap c -> SFltb c lowest' = false) /\
  (chosen' = chosen /\ lowest' = lowest \/ exists ap, chosen' = Some ap /\ offered l ap lowest').
Proof.
  induction l as [|[a p] l IH]; intros chosen lowest chosen' lowest'; cbn [choose].
  { intros [= <- <-]. split_and!; [by left|intros ap c [Hin _]; by apply not_elem_of_nil in Hin|by left]. }
  assert (forall ap c, offered l ap c -> offered ((a, p) :: l) ap c) as Hmore by (intros ap c (H1 & H2); split; [by right|done]).
  assert (forall chosen lowest, choose params num_ranks num_nodes func pipe_ops size nvls l chosen lowest = Some (chosen', lowest') -> (forall c, offered ((a, p) :: l) (a, p) c -> SFltb c lowest' = false) ->
    (lowest' = lowest \/ SFltb lowest' lowest = true) /\ (forall ap c, offered ((a, p) :: l) ap c -> SFltb c lowest' = false) /\
    (chosen' = chosen /\ lowest' = lowest \/ exists ap, chosen' = Some ap /\ offered ((a, p) :: l) ap lowest')) as Hskip.
  { intros ch lo Hc Hhead. destruct (IH _ _ _ _ Hc) as (H1 & H2 & H3). split_and!; [done| |].
    - intros ap c (Hin & Hrest). apply elem_of_cons in Hin as [->|Hin]; [apply Hhead; split; [left|done]|apply (H2 ap c); split; done].
    - destruct H3 as [?|(ap & ? & ?)]; [by left|right; exists ap; auto]. }
  destruct (skipped nvls a p) eqn:Hs; [intros Hc; apply Hskip; [done|]; intros c (_ & Hs' & _); cbn in Hs'; congruence|].
  destruct (cost a p) as [c0|] eqn:Hcost; [|done]. destruct (SFltb c0 (flt 0)) eqn:Hneg; [intros Hc; apply Hskip; [done|]; intros c (_ & _ & Hcc & Hn); cbn in Hcc; congruence|].
  assert (offered ((a, p) :: l) (a, p) c0) as Hoff by (split_and!; [left|done..]). destruct (SFltb c0 lowest) eqn:Hlt; intros Hc.
  - assert (lowest' = c0 \/ SFltb lowest' c0 = true) as Hle by by destruct (IH _ _ _ _ Hc) as (H1 & _).
    destruct (Hskip (Some (a, p)) c0 Hc) as (H1 & H2 & H3).
    { intros c (_ & _ & Hcc & _). cbn in Hcc. assert (c = c0) as -> by congruence. destruct Hle as [->|Hle]; [apply SFltb_irrefl|]. destruct (SFltb c0 lowest') eqn:Hbad; [|done]. pose proof (SFltb_trans _ _ _ Hbad Hle) as Hx. by rewrite SFltb_irrefl in Hx. }
    split_and!; [right; destruct Hle as [->|Hle]; [done|by eapply SFltb_trans]|done|]. right. destruct H3 as [[-> ->]|H3]; [|done]. by exists (a, p).
  - apply Hskip; [done|]. intros c (_ & _ & Hcc & _). cbn in Hcc. assert (c = c0) as -> by congruence. destruct (IH _ _ _ _ Hc) as ([->|H1] & _); [done|]. destruct (SFltb c0 lowest') eqn:Hbad; [|done]. pose proof (SFltb_trans _ _ _ Hbad H1). congruence.
Qed.

End Cheapest.

Section ModelSpec.
Context {E : ModelEnv}.

Lemma other_cost params ranks nodes func a p pipe size :
  func <> ncclFuncAllReduce -> is_Some (nccl_nvlink_lat params !! Z.to_nat a ≫= (.!! Z.to_nat p)) -> nccl_ofi_tuner_compute_cost params ranks nodes func a p pipe size = Some (flt (-1)).
Proof. intros Hf [v Hv]. unfold nccl_ofi_tuner_compute_cost. rewrite Hv, (proj2 (Z.eqb_neq _ _) Hf). done. Qed.

Lemma choose_other params ranks nodes func pipe size nvls l :
  func <> ncclFuncAllReduce -> Forall (fun ap : Z * Z => is_Some (nccl_nvlink_lat params !! Z.to_nat ap.1 ≫= (.!! Z.to_nat ap.2))) l ->
  choose params ranks nodes func pipe size nvls l None FLT_MAX = Some (None, FLT_MAX).
Proof.
  intros Hf. induction l as [|[a p] l IH]; intros Hl; [done|]. apply Forall_cons in Hl as [Ha Hl]. cbn [choose]. destruct (skipped nvls a p); [by apply IH|]. rewrite other_cost by done. assert (SFltb (flt (-1)) (flt 0) = true) as -> by (vm_compute; reflexivity). by apply IH.
Qed.

Lemma pairs_in_table m : m_params m ∈ model_platform_params -> Forall (fun ap : Z * Z => is_Some (nccl_nvlink_lat (m_params m) !! Z.to_nat ap.1 ≫= (.!! Z.to_nat ap.2))) all_pairs.
Proof.
  intros Hin. assert (nccl_nvlink_lat (m_params m) = nvlink_lat) as ->; [|unfold all_pairs; repeat constructor; eexists; reflexivity].
  unfold model_platform_params in Hin. apply elem_of_cons in Hin as [->|Hin]; [done|]. apply list_elem_of_singleton in Hin as ->. done.
Qed.

Lemma cost_total params ranks nodes func a p pipe size :
  is_Some (nccl_nvlink_lat params !! Z.to_nat a ≫= (.!! Z.to_nat p)) -> nodes <> 0 ->
  is_Some (nccl_ofi_tuner_compute_cost params ranks nodes func a p pipe size).
Proof.
  intros [v Hv] Hn. unfold nccl_ofi_tuner_compute_cost. rewrite Hv, (proj2 (Z.eqb_neq _ _) Hn).
  destruct (negb (func =? ncclFuncAllReduce)); [by eexists|]. destruct (a =? NCCL_ALGO_RING); [by eexists|].
  destruct (a =? NCCL_ALGO_NVLS_TREE); [by eexists|]. destruct (a =? NCCL_ALGO_TREE); by eexists.
Qed.

Lemma choose_total params ranks nodes func pipe size nvls l :
  Forall (fun ap : Z * Z => is_Some (nccl_nvlink_lat params !! Z.to_nat ap.1 ≫= (.!! Z.to_nat ap.2))) l -> nodes <> 0 ->
  forall chosen lowest, is_Some (choose params ranks nodes func pipe size nvls l chosen lowest).
Proof.
  intros Hl Hn. induction Hl as [|[a p] l Ha _ IH]; intros chosen lowest; cbn [choose]; [by eexists|]. destruct (skipped nvls a p); [done|].
  destruct (cost_total params ranks nodes func a p pipe size Ha Hn) as [c ->]. destruct (SFltb c (flt 0)); [done|]. by destruct (SFltb c lowest).
Qed.

(** C35. The model tuner (version 2) always returns. With at most two nodes it leaves
    the choice to NCCL; in its special case it takes NVLS tree with the simple protocol.
    Otherwise it takes the cheapest combination: none that it may use and that has a
    cost is cheaper than its choice, and it leaves the choice to NCCL only when no
    combination has a finite cost. *)
Theorem model_takes_cheapest m func nBytes nvls pipe ap :
  m_params m ∈ model_platform_params ->
  exists ap', model_get_coll_info_internal_v2 (Some m) func nBytes nvls pipe ap = Some ap' /\
    if decide (m_nodes m <= 2) then ap' = ap
    else if quirk (m_platform m) func (m_nodes m) (m_ranks m) nBytes && nvls then ap' = (NCCL_ALGO_NVLS_TREE, NCCL_PROTO_SIMPLE)
    else
      (exists c, offered (m_params m) (m_ranks m) (m_nodes m) func pipe nBytes nvls all_pairs ap' c /\
         forall ap2 c2, offered (m_params m) (m_ranks m) (m_nodes m) func pipe nBytes nvls all_pairs ap2 c2 -> SFltb c2 c = false) \/
      ap' = ap /\ forall ap2 c2, offered (m_params m) (m_ranks m) (m_nodes m) func pipe nBytes nvls all_pairs ap2 c2 -> SFltb c2 FLT_MAX = false.
Proof.
  intros Hp. unfold model_get_coll_info_internal_v2. case_decide as Hn; [rewrite (proj2 (Z.leb_le _ _) Hn); eauto|]. rewrite (proj2 (Z.leb_gt _ _)) by lia.
  destruct (_ && nvls); [eauto|].
  destruct (choose_total (m_params m) (m_ranks m) (m_nodes m) func pipe nBytes nvls all_pairs (pairs_in_table m Hp) ltac:(lia) None FLT_MAX) as [[chosen lowest] Hc].
  rewrite Hc. exists (default ap chosen). split; [done|]. apply choose_spec in Hc as (_ & Hmin & [[-> ->]|(ap2 & -> & Hoff)]); [by right|left]. exists lowest. by split.
Qed.

(** For a collective without a model, version 3 of the model tuner writes its cost
    before the table: no combination is chosen, and both indices are -1. Version 2
    leaves its outputs alone. *)
Theorem model_v3_writes_before_table m func nBytes nvls pipe ap t :
  2 < m_nodes m -> m_params m ∈ model_platform_params -> func <> ncclFuncAllReduce ->
  model_get_coll_info_internal_v3 (Some m) func nBytes pipe t = None /\ model_get_coll_info_internal_v2 (Some m) func nBytes nvls pipe ap = Some ap.
Proof.
  intros Hn Hp Hf. unfold model_get_coll_info_internal_v3, model_get_coll_info_internal_v2. destruct (Z.leb_spec (m_nodes m) 2); [lia|].
  assert (quirk (m_platform m) func (m_nodes m) (m_ranks m) nBytes = false) as -> by (unfold quirk; destruct (m_platform m); [|done|done]; by rewrite (proj2 (Z.eqb_neq _ _) Hf)).
  cbn [andb]. rewrite !choose_other by (done || by apply pairs_in_table). done.
Qed.

(** Version 3 also uses a combination that NCCL has marked as one to ignore. *)
Lemma model_v3_overrides_ignore t :
  length t = 21%nat -> table_get t NCCL_ALGO_NVLS_TREE NCCL_PROTO_SIMPLE = Some (flt (-1)) ->
  exists t', model_get_coll_info_internal_v3 (Some (mk_model NCCL_OFI_TUNER_P5_P5E 128 16 (mk_params (flt 20) (per_usec 125 10) (per_usec 20 1) 4 nvlink_lat))) ncclFuncAllReduce (4 * 1024 * 1024 * 1024) 1 t = Some t' /\
    table_get t' NCCL_ALGO_NVLS_TREE NCCL_PROTO_SIMPLE = Some (flt 0).
Proof.
  intros Hl _. exists (<[17%nat := flt 0]> t). unfold model_get_coll_info_internal_v3. cbn [m_nodes m_platform m_ranks m_params]. change (quirk _ _ _ _ _) with true. cbn [Z.leb Z.compare Pos.compare Pos.compare_cont default]. unfold table_set, table_get.
  change (cell NCCL_ALGO_NVLS_TREE NCCL_PROTO_SIMPLE) with 17. rewrite Hl. split; [done|]. change (17 <? 0) with false. change (Z.to_nat 17) with 17%nat. cbv iota. rewrite list_lookup_insert_eq; [done|lia].
Qed.

End ModelSpec.

(** P5en with 4 nodes; log2 of 4. *)
Definition p5en_env : ModelEnv := {| ofi_nccl_tuner_net_comp_overhead := 3; ofi_nccl_tuner_num_channels := 8; log2 _ := dbl 2 |}.
Definition p5en_model : nccl_ofi_tuner_model_context_t := mk_model NCCL_OFI_TUNER_P5EN 32 4 (mk_params (flt 18) (per_usec 25 1) (per_usec 20 1) 2 nvlink_lat).

Lemma model_v3_writes_before_table_witness :
  @model_get_coll_info_internal_v3 p5en_env (Some p5en_model) ncclFuncAllGather 1048576 1 (replicate 21 (flt 1)) = None.
Proof. apply (@model_v3_writes_before_table p5en_env p5en_model ncclFuncAllGather 1048576 true 1 (0, 0)); [vm_compute; reflexivity|right; left|discriminate]. Defined.

(** One megabyte: the tree algorithm with the LL protocol. *)
Lemma model_takes_cheapest_witness :
  exists ap, @model_get_coll_info_internal_v2 p5en_env (Some p5en_model) ncclFuncAllReduce 1048576 false 1 (-1, -1) = Some ap /\ ap = (NCCL_ALGO_TREE, NCCL_PROTO_LL) /\
    ((exists c, @offered p5en_env (m_params p5en_model) 32 4 ncclFuncAllReduce 1 1048576 false all_pairs ap c) \/ ap = (-1, -1)).
Proof.
  destruct (@model_takes_cheapest p5en_env p5en_model ncclFuncAllReduce 1048576 false 1 (-1, -1)) as (ap & Hrun & H); [vm_compute; right; left|].
  exists ap. split; [exact Hrun|]. split; [vm_compute in Hrun; by injection Hrun as <-|]. change ((exists c, @offered p5en_env (m_params p5en_model) 32 4 ncclFuncAllReduce 1 1048576 false all_pairs ap c /\
    forall ap2 c2, @offered p5en_env (m_params p5en_model) 32 4 ncclFuncAllReduce 1 1048576 false all_pairs ap2 c2 -> SFltb c2 c = false) \/ ap = (-1, -1) /\
    forall ap2 c2, @offered p5en_env (m_params p5en_model) 32 4 ncclFuncAllReduce 1 1048576 false all_pairs ap2 c2 -> SFltb c2 FLT_MAX = false) in H.
  destruct H as [(c & Hc & _)|[Heq _]]; [left; by exists c|by right].
Defined.

End TunerModel.
