(* ===== verification/Tuner.v ===== *)
(** * nccl_ofi_tuner.c: the tuner plug-in

    NCCL creates a tuner context per communicator; it uses the region tuner
    (TunerRegion.v) or the model tuner (TunerModel.v). The state has the live
    allocations and whether the mutex of the contexts is held: it is a plain mutex,
    and locking it twice never returns. A pointer to a freed structure may be kept
    but not followed. *)

From Stdlib Require Import SpecFloat.
From stdpp Require Import strings.
From S2P Require Import Prelude StateM TunerRegion TunerModel.
Import TunerRegion TunerModel.

Module Tuner.

Open Scope Z_scope.

(** ** Contexts and state *)

Record nccl_ofi_tuner_region_context_t := mk_rctx {
  rc_addr : Z;
  rc_platform : nccl_ofi_tuner_platform;
  rc_ranks : Z;
  rc_nodes : Z;
  rc_regions : list (option (Z * list nccl_ofi_tuner_region_t));
}.

Inductive type_ctx := TRegion (r : nccl_ofi_tuner_region_context_t) | TModel (addr : Z) (m : nccl_ofi_tuner_model_context_t).

Inductive nccl_ofi_tuner_type := NCCL_OFI_TUNER_TYPE_REGION | NCCL_OFI_TUNER_TYPE_MODEL.

Record nccl_ofi_tuner_context_t := mk_ctx { c_addr : Z; c_type : nccl_ofi_tuner_type; c_type_ctx : option type_ctx }.

Record tworld := mk_tworld { t_live : gset Z; t_next : Z; t_locked : bool; nccl_ofi_tuner_ctx_internal : option nccl_ofi_tuner_context_t }.
Abbreviation UM := (SM tworld).

(** The product name, the parameter TUNER_TYPE, whether NCCL_ALGO or NCCL_PROTO is
    set, and which allocations succeed. *)
Class PlugEnv := {
  product_name : option string;
  ofi_nccl_tuner_force_type : option string;
  algo_or_proto_set : bool;
  calloc_ok : Z -> bool;
}.

Definition ncclSuccess : Z := 0.
Definition ncclInternalError : Z := 3.
Definition ncclInvalidArgument : Z := 4.

Section Plug.
Context {E : TunerEnv} {ME : ModelEnv} {PE : PlugEnv}.

Definition calloc : UM (option Z) :=
  let* a := gets t_next in
  if calloc_ok a then modify (fun w => mk_tworld ({[a]} ∪ t_live w) (a + 1) (t_locked w) (nccl_ofi_tuner_ctx_internal w)) ;;; ret (Some a)
  else modify (fun w => mk_tworld (t_live w) (a + 1) (t_locked w) (nccl_ofi_tuner_ctx_internal w)) ;;; ret None.

Definition deref (a : Z) : UM unit := let* s := gets t_live in assert (bool_decide (a ∈ s)).
Definition free (a : Z) : UM unit :=
  deref a ;;; modify (fun w => mk_tworld (t_live w ∖ {[a]}) (t_next w) (t_locked w) (nccl_ofi_tuner_ctx_internal w)).

Definition set_locked b (w : tworld) := mk_tworld (t_live w) (t_next w) b (nccl_ofi_tuner_ctx_internal w).
Definition lock : UM unit := let* l := gets t_locked in assert (negb l) ;;; modify (set_locked true).
Definition unlock : UM unit := let* l := gets t_locked in assert l ;;; modify (set_locked false).

(** ** The region tuner's context *)

Definition is_region_supported (p : nccl_ofi_tuner_platform) : bool := match p with NCCL_OFI_TUNER_P5_P5E => true | _ => false end.

Definition set_regions (r : nccl_ofi_tuner_region_context_t) (collType : Z) (l : list nccl_ofi_tuner_region_t) : UM (Z * nccl_ofi_tuner_region_context_t) :=
  let* a := calloc in
  match a with
  | None => ret (ncclInternalError, mk_rctx (rc_addr r) (rc_platform r) (rc_ranks r) (rc_nodes r) (<[Z.to_nat collType := None]> (rc_regions r)))
  | Some a => ret (ncclSuccess, mk_rctx (rc_addr r) (rc_platform r) (rc_ranks r) (rc_nodes r) (<[Z.to_nat collType := Some (a, l)]> (rc_regions r)))
  end.

(** region_init_internal_p5_p5e: the arrays one after the other. *)
Fixpoint set_all (l : list (Z * list nccl_ofi_tuner_region_t)) (r : nccl_ofi_tuner_region_context_t) : UM (Z * nccl_ofi_tuner_region_context_t) :=
  match l with
  | [] => ret (ncclSuccess, r)
  | (c, rs) :: l' =>
      let* (rc, r) := set_regions r c rs in
      if negb (rc =? ncclSuccess) then ret (rc, r) else set_all l' r
  end.

Fixpoint free_arrays (l : list (option (Z * list nccl_ofi_tuner_region_t))) : UM unit :=
  match l with
  | [] => ret tt
  | Some (a, _) :: l' => free a ;;; free_arrays l'
  | None :: l' => free_arrays l'
  end.

Definition region_destroy_internal (ctx : nccl_ofi_tuner_context_t) : UM Z :=
  match c_type_ctx ctx with
  | Some (TRegion r) => deref (rc_addr r) ;;; free_arrays (rc_regions r) ;;; free (rc_addr r) ;;; ret ncclSuccess
  | Some (TModel _ _) => undefined
  | None => ret ncclSuccess
  end.

Definition with_type_ctx (ctx : nccl_ofi_tuner_context_t) (t : type_ctx) : nccl_ofi_tuner_context_t := mk_ctx (c_addr ctx) (c_type ctx) (Some t).

(** The code, and the context with its pointer. *)
Definition region_init_internal (ctx : nccl_ofi_tuner_context_t) (platform : nccl_ofi_tuner_platform) (nRanks nNodes : Z) : UM (Z * nccl_ofi_tuner_context_t) :=
  let* a := calloc in
  match a with
  | None => ret (ncclInternalError, ctx)
  | Some a =>
      let r := mk_rctx a platform nRanks nNodes (replicate NCCL_NUM_FUNCTIONS None) in
      let* (rc, r) := match platform with
                      | NCCL_OFI_TUNER_P5_P5E => set_all (p5_regions nRanks nNodes) r
                      | _ => ret (ncclInternalError, r)
                      end in
      let ctx := with_type_ctx ctx (TRegion r) in
      if negb (rc =? ncclSuccess) then region_destroy_internal ctx ;;; ret (rc, ctx) else ret (rc, ctx)
  end.

(** ** Region look-ups *)

(** The loop of version 2: the region found. *)
Fixpoint find_v2 (nvls : bool) (p : point) (l : list nccl_ofi_tuner_region_t) : option (option nccl_ofi_tuner_region_t) :=
  match l with
  | [] => Some None
  | r :: l' =>
      if (algorithm r =? NCCL_ALGO_NVLS_TREE) && negb nvls then find_v2 nvls p l'
      else match is_inside_region p r with
           | None => None
           | Some k => if 0 <=? k then Some (Some r) else find_v2 nvls p l'
           end
  end.

(** The loop of version 3: the new table. *)
Fixpoint find_v3 (numAlgo numProto : Z) (p : point) (l : list nccl_ofi_tuner_region_t) (t : table) : option table :=
  match l with
  | [] => Some t
  | r :: l' =>
      if (numAlgo <=? algorithm r) || (numProto <=? protocol r) then find_v3 numAlgo numProto p l' t
      else
        match table_get t (algorithm r) (protocol r) with
        | None => None
        | Some c =>
            if SFeqb c (flt (-1)) then find_v3 numAlgo numProto p l' t
            else match is_inside_region p r with
                 | None => None
                 | Some k => if 0 <=? k then table_set t (algorithm r) (protocol r) (flt 0) else find_v3 numAlgo numProto p l' t
                 end
        end
  end.

Definition the_point (nBytes : Z) (r : nccl_ofi_tuner_region_context_t) : point := mk_point (dbl nBytes) (dbl (rc_ranks r)).

(** Both read the array of the collective; [None] outside it. *)
Definition region_get_coll_info_internal_v2 (r : option nccl_ofi_tuner_region_context_t) (collType nBytes : Z) (nvls : bool) (ap : Z * Z) : option (Z * Z) :=
  match r with
  | None => Some ap
  | Some r =>
      match rc_regions r !! Z.to_nat collType with
      | None => None
      | Some None => Some ap
      | Some (Some (_, l)) =>
          match find_v2 nvls (the_point nBytes r) l with
          | None => None
          | Some None => Some ap
          | Some (Some g) => Some (algorithm g, protocol g)
          end
      end
  end.

Definition region_get_coll_info_internal_v3 (r : option nccl_ofi_tuner_region_context_t) (collType nBytes numAlgo numProto : Z) (t : table) : option table :=
  match r with
  | None => Some t
  | Some r =>
      match rc_regions r !! Z.to_nat collType with
      | None => None
      | Some None => Some t
      | Some (Some (_, l)) => find_v3 numAlgo numProto (the_point nBytes r) l t
      end
  end.

(** ** The model tuner's context *)

Definition model_destroy_internal (ctx : nccl_ofi_tuner_context_t) : UM Z :=
  match c_type_ctx ctx with
  | Some (TModel a _) => free a ;;; ret ncclSuccess
  | Some (TRegion _) => undefined
  | None => ret ncclSuccess
  end.

Definition model_init_internal (ctx : nccl_ofi_tuner_context_t) (platform : nccl_ofi_tuner_platform) (nRanks nNodes : Z) : UM (Z * nccl_ofi_tuner_context_t) :=
  let* a := calloc in
  match a with
  | None => ret (ncclInternalError, ctx)
  | Some a =>
      let* params := of_option (model_platform_params !! platform_index platform) in
      ret (ncclSuccess, with_type_ctx ctx (TModel a (mk_model platform nRanks nNodes params)))
  end.

(** ** The plug-in *)

Definition init_internal (ctx : nccl_ofi_tuner_context_t) : nccl_ofi_tuner_platform -> Z -> Z -> UM (Z * nccl_ofi_tuner_context_t) :=
  match c_type ctx with NCCL_OFI_TUNER_TYPE_REGION => region_init_internal ctx | NCCL_OFI_TUNER_TYPE_MODEL => model_init_internal ctx end.
Definition destroy_internal (ctx : nccl_ofi_tuner_context_t) : UM Z :=
  match c_type ctx with NCCL_OFI_TUNER_TYPE_REGION => region_destroy_internal ctx | NCCL_OFI_TUNER_TYPE_MODEL => model_destroy_internal ctx end.

Definition nccl_ofi_tuner_destroy (context : option nccl_ofi_tuner_context_t) : UM Z :=
  lock ;;;
  let* rc := match context with
             | Some ctx => deref (c_addr ctx) ;;; let* rc := destroy_internal ctx in free (c_addr ctx) ;;; ret rc
             | None => ret ncclSuccess
             end in
  unlock ;;; ret rc.

Definition platform_of_name (s : string) : nccl_ofi_tuner_platform :=
  if String.eqb s "p5.48xlarge" || String.eqb s "p5e.48xlarge" then NCCL_OFI_TUNER_P5_P5E
  else if String.eqb s "p5en.48xlarge" then NCCL_OFI_TUNER_P5EN else NCCL_OFI_TUNER_UNKNOWN.

(** The tuner for a platform, [None] for NCCL's own. *)
Definition decide_type (s : string) : option nccl_ofi_tuner_type :=
  let forced t := bool_decide (ofi_nccl_tuner_force_type = Some t) in
  if forced "Internal"%string then None
  else
    let region_support := is_region_supported (platform_of_name s) in
    let model_support := is_model_supported (platform_of_name s) in
    if negb region_support && negb model_support then None
    else if region_support && negb (model_support && forced "Model"%string) then Some NCCL_OFI_TUNER_TYPE_REGION
    else Some NCCL_OFI_TUNER_TYPE_MODEL.

(** The code and the context. *)
Definition nccl_ofi_tuner_init (nRanks nNodes : Z) : UM (Z * option nccl_ofi_tuner_context_t) :=
  lock ;;;
  let* r := match product_name with
            | None => ret (ncclSuccess, None)
            | Some s =>
                match decide_type s with
                | None => ret (ncclSuccess, None)
                | Some ty =>
                    let* a := calloc in
                    match a with
                    | None => ret (ncclInternalError, None)
                    | Some a =>
                        let* (rc, ctx) := init_internal (mk_ctx a ty None) (platform_of_name s) nRanks nNodes in
                        if negb (rc =? ncclSuccess) then nccl_ofi_tuner_destroy (Some ctx) ;;; ret (rc, None) else ret (rc, Some ctx)
                    end
                end
            end in
  unlock ;;; ret r.

Definition region_of (ctx : nccl_ofi_tuner_context_t) : option nccl_ofi_tuner_region_context_t := match c_type_ctx ctx with Some (TRegion r) => Some r | _ => None end.
Definition model_of (ctx : nccl_ofi_tuner_context_t) : option nccl_ofi_tuner_model_context_t := match c_type_ctx ctx with Some (TModel _ m) => Some m | _ => None end.

Definition nccl_ofi_tuner_get_coll_info (context : option nccl_ofi_tuner_context_t) (collType nBytes numPipeOps numAlgo numProto : Z) (t : table) : option table :=
  match context with
  | None => Some t
  | Some ctx =>
      match c_type ctx with
      | NCCL_OFI_TUNER_TYPE_REGION => region_get_coll_info_internal_v3 (region_of ctx) collType nBytes numAlgo numProto t
      | NCCL_OFI_TUNER_TYPE_MODEL => model_get_coll_info_internal_v3 (model_of ctx) collType nBytes numPipeOps t
      end
  end.

Definition nccl_ofi_tuner_get_coll_info_v2 (context : option nccl_ofi_tuner_context_t) (collType nBytes : Z) (nvls : bool) (numPipeOps : Z) (ap : Z * Z) : option (Z * Z) :=
  match context with
  | None => Some ap
  | Some ctx =>
      match c_type ctx with
      | NCCL_OFI_TUNER_TYPE_REGION => region_get_coll_info_internal_v2 (region_of ctx) collType nBytes nvls ap
      | NCCL_OFI_TUNER_TYPE_MODEL => model_get_coll_info_internal_v2 (model_of ctx) collType nBytes nvls numPipeOps ap
      end
  end.

(** ** Version 1: one context for the process *)

Definition set_internal c (w : tworld) := mk_tworld (t_live w) (t_next w) (t_locked w) c.

Definition nccl_ofi_tuner_destroy_v1 : UM Z :=
  lock ;;;
  let* c := gets nccl_ofi_tuner_ctx_internal in
  modify (set_internal None) ;;;
  unlock ;;; nccl_ofi_tuner_destroy c.

Definition nccl_ofi_tuner_init_v1 (nRanks nNodes : Z) : UM Z :=
  let* c := gets nccl_ofi_tuner_ctx_internal in
  match c with Some _ => nccl_ofi_tuner_destroy_v1 ;;; ret tt | None => ret tt end ;;;
  if algo_or_proto_set then ret ncclInvalidArgument
  else
    let* (rc, ctx) := nccl_ofi_tuner_init nRanks nNodes in
    modify (set_internal ctx) ;;; ret rc.

End Plug.

(** ** Life of a context *)

Section Life.
Context {E : TunerEnv} {ME : ModelEnv} {PE : PlugEnv}.

Lemma tuner_calloc_wp w (Q : option Z -> tworld -> Prop) :
  Q (if calloc_ok (t_next w) then Some (t_next w) else None)
    (mk_tworld (if calloc_ok (t_next w) then {[t_next w]} ∪ t_live w else t_live w) (t_next w + 1) (t_locked w) (nccl_ofi_tuner_ctx_internal w)) -> wp calloc Q w.
Proof. intros HQ. unfold calloc. wp_simpl. destruct (calloc_ok (t_next w)); by wp_simpl. Qed.

Lemma tuner_deref_wp a w (Q : unit -> tworld -> Prop) : a ∈ t_live w -> Q tt w -> wp (deref a) Q w.
Proof. intros Ha HQ. unfold deref. wp_simpl. apply wp_assert; [by apply bool_decide_eq_true|done]. Qed.

Lemma free_wp a w (Q : unit -> tworld -> Prop) :
  a ∈ t_live w -> Q tt (mk_tworld (t_live w ∖ {[a]}) (t_next w) (t_locked w) (nccl_ofi_tuner_ctx_internal w)) -> wp (free a) Q w.
Proof. intros Ha HQ. unfold free. wp_simpl. apply tuner_deref_wp; [done|]. by wp_simpl. Qed.

Lemma lock_wp w (Q : unit -> tworld -> Prop) : t_locked w = false -> Q tt (set_locked true w) -> wp lock Q w.
Proof. intros Hl HQ. unfold lock. wp_simpl. apply wp_assert; [by rewrite Hl|]. by wp_simpl. Qed.

Lemma unlock_wp w (Q : unit -> tworld -> Prop) : t_locked w = true -> Q tt (set_locked false w) -> wp unlock Q w.
Proof. intros Hl HQ. unfold unlock. wp_simpl. apply wp_assert; [done|]. by wp_simpl. Qed.

(** The allocations of the arrays. *)
Definition arrays (r : nccl_ofi_tuner_region_context_t) : list Z := omap (fun o => fst <$> o) (rc_regions r).

(** New allocations [l] since [w]. *)
Record grown (w : tworld) (l : list Z) (w' : tworld) : Prop := {
  gn_live : t_live w' = list_to_set l ∪ t_live w;
  gn_nodup : NoDup l;
  gn_range a : a ∈ l -> t_next w <= a < t_next w';
  gn_next : t_next w <= t_next w';
  gn_lock : t_locked w' = t_locked w;
}.

Hypothesis alloc : forall a, calloc_ok a = true.

Lemma p5_sets w r nRanks nNodes :
  rc_regions r = replicate NCCL_NUM_FUNCTIONS None -> wp (set_all (p5_regions nRanks nNodes) r) (fun x w' => x.1 = ncclSuccess /\ rc_addr x.2 = rc_addr r /\ grown w (arrays x.2) w') w.
Proof using alloc.
  intros Hr. unfold p5_regions. repeat case_match; cbn [set_all]; unfold set_regions; repeat (wp_simpl; change (negb (ncclSuccess =? ncclSuccess)) with false; try (apply tuner_calloc_wp; rewrite alloc)).
  all: (split; [done|]; split; [done|]; unfold arrays; cbn; rewrite Hr; cbn; constructor; cbn).
  all: try done.
  all: try set_solver.
  all: try (repeat constructor; set_solver by lia).
  all: try lia.
  all: try (intros a Ha; set_unfold; lia).
Qed.

Lemma free_arrays_wp l : forall w (Q : unit -> tworld -> Prop),
  NoDup (omap (fun o => fst <$> o) l) -> (forall a, a ∈ omap (fun o => fst <$> o) l -> a ∈ t_live w) ->
  Q tt (mk_tworld (t_live w ∖ list_to_set (omap (fun o => fst <$> o) l)) (t_next w) (t_locked w) (nccl_ofi_tuner_ctx_internal w)) -> wp (free_arrays l) Q w.
Proof.
  clear alloc. induction l as [|[[a rs]|] l IH]; intros w Q Hnd Hin HQ; cbn [free_arrays]; [wp_simpl; cbn in HQ; rewrite difference_empty_L in HQ; by destruct w| |by apply IH].
  change (omap _ (Some (a, rs) :: l)) with (a :: omap (fun o => fst <$> o) l) in *. apply NoDup_cons in Hnd as [Ha Hnd]. wp_simpl. apply free_wp; [apply Hin; left|]. apply IH; cbn; [done| |].
  - intros b Hb. apply elem_of_difference. split; [apply Hin; by right|]. intros ->%elem_of_singleton. done.
  - rewrite difference_difference_l_L. exact HQ.
Qed.

(** A context that [destroy_internal] can release: its allocations [l]. *)
Definition owns (ctx : nccl_ofi_tuner_context_t) (l : list Z) : Prop :=
  match c_type ctx, c_type_ctx ctx with
  | NCCL_OFI_TUNER_TYPE_REGION, Some (TRegion r) => l = rc_addr r :: arrays r
  | NCCL_OFI_TUNER_TYPE_MODEL, Some (TModel a _) => l = [a]
  | _, _ => False
  end.

Lemma destroy_internal_wp ctx l w (Q : Z -> tworld -> Prop) :
  owns ctx l -> NoDup l -> (forall a, a ∈ l -> a ∈ t_live w) ->
  Q ncclSuccess (mk_tworld (t_live w ∖ list_to_set l) (t_next w) (t_locked w) (nccl_ofi_tuner_ctx_internal w)) -> wp (destroy_internal ctx) Q w.
Proof.
  clear alloc. unfold owns, destroy_internal, region_destroy_internal, model_destroy_internal. destruct (c_type ctx), (c_type_ctx ctx) as [[r|a m]|]; try done; intros -> Hnd Hin HQ.
  - apply NoDup_cons in Hnd as [Ha Hnd]. wp_simpl. apply tuner_deref_wp; [apply Hin; left|]. wp_simpl. apply free_arrays_wp; [done|intros b Hb; apply Hin; by right|]. wp_simpl. apply free_wp.
    + cbn. apply elem_of_difference. split; [apply Hin; left|]. by rewrite elem_of_list_to_set.
    + wp_simpl. cbn. rewrite difference_difference_l_L. by rewrite (union_comm_L _ {[rc_addr r]}).
  - wp_simpl. apply free_wp; [apply Hin; left|]. wp_simpl. cbn in HQ. by rewrite union_empty_r_L in HQ.
Qed.

Lemma init_internal_wp a ty platform nRanks nNodes w :
  (ty = NCCL_OFI_TUNER_TYPE_REGION -> platform = NCCL_OFI_TUNER_P5_P5E) -> platform <> NCCL_OFI_TUNER_UNKNOWN ->
  wp (init_internal (mk_ctx a ty None) platform nRanks nNodes) (fun x w' => x.1 = ncclSuccess /\ c_addr x.2 = a /\ c_type x.2 = ty /\ exists l, owns x.2 l /\ grown w l w') w.
Proof using alloc.
  intros Hreg Hp. unfold init_internal. cbn [c_type]. destruct ty.
  - rewrite Hreg by done. unfold region_init_internal. wp_simpl. apply tuner_calloc_wp. rewrite alloc. wp_simpl. eapply wp_mono; [by apply p5_sets|]. intros [rc r] w1 (Hrc & Ha & Hg). cbn [fst snd] in *. subst rc. cbn beta iota. change (negb (ncclSuccess =? ncclSuccess)) with false. wp_simpl.
    split_and!; [done..|]. exists (rc_addr r :: arrays r). split; [done|]. destruct Hg as [Hl Hnd Hr Hx Hk]. cbn in *. subst. constructor.
    + rewrite Hl, Ha. cbn. set_solver.
    + apply NoDup_cons. split; [intros Hin; rewrite Ha in Hin; specialize (Hr _ Hin); lia|done].
    + rewrite Ha. intros b [->|Hb]%elem_of_cons; [lia|]. specialize (Hr b Hb). lia.
    + lia.
    + done.
  - unfold model_init_internal. wp_simpl. apply tuner_calloc_wp. rewrite alloc. wp_simpl.
    assert (exists q, model_platform_params !! platform_index platform = Some q) as [q Hq] by (destruct platform; [by eexists..|done]). eapply wp_of_option; [exact Hq|]. wp_simpl. split_and!; [done..|]. exists [t_next w]. split; [done|]. constructor; cbn; [set_solver|by apply NoDup_singleton|intros b Hb%list_elem_of_singleton; lia|lia|done].
Qed.

Lemma decide_region s : decide_type s = Some NCCL_OFI_TUNER_TYPE_REGION -> platform_of_name s = NCCL_OFI_TUNER_P5_P5E.
Proof. clear. unfold decide_type. destruct (bool_decide _); [done|]. destruct (platform_of_name s); cbn; done. Qed.

Lemma decide_known s ty : decide_type s = Some ty -> platform_of_name s <> NCCL_OFI_TUNER_UNKNOWN.
Proof. clear. unfold decide_type. destruct (bool_decide _); [done|]. by destruct (platform_of_name s). Qed.

Lemma destroy_wp ctx l w :
  t_locked w = false -> owns ctx l -> NoDup (c_addr ctx :: l) -> (forall a, a ∈ c_addr ctx :: l -> a ∈ t_live w) ->
  wp (nccl_ofi_tuner_destroy (Some ctx)) (fun rc w' => rc = ncclSuccess /\ t_live w' = t_live w ∖ list_to_set (c_addr ctx :: l) /\ t_locked w' = false) w.
Proof.
  clear. intros Hl Ho Hnd Hin. apply NoDup_cons in Hnd as [Ha Hnd]. unfold nccl_ofi_tuner_destroy. wp_simpl. apply lock_wp; [done|]. wp_simpl. apply tuner_deref_wp; [apply Hin; left|]. wp_simpl.
  eapply (destroy_internal_wp ctx l); [done|done|intros a Hb; apply Hin; by right|]. wp_simpl. apply free_wp; [cbn; apply elem_of_difference; split; [apply Hin; left|by rewrite elem_of_list_to_set]|]. wp_simpl. apply unlock_wp; [done|]. wp_simpl.
  split_and!; [done| |done]. cbn. set_solver.
Qed.

(** C26. A context from creation to destruction, when allocations succeed: the tuner
    that is created is the one for the platform and the TUNER_TYPE of the user, none
    if neither fits; destroying it gives back every allocation; and the mutex is free
    after each call. *)
Theorem tuner_lifecycle nRanks nNodes w :
  t_locked w = false -> (forall a, a ∈ t_live w -> a < t_next w) ->
  exists ctx w1 w2, nccl_ofi_tuner_init nRanks nNodes w = Some ((ncclSuccess, ctx), w1) /\ t_locked w1 = false /\ c_type <$> ctx = product_name ≫= decide_type /\
    nccl_ofi_tuner_destroy ctx w1 = Some (ncclSuccess, w2) /\ t_live w2 = t_live w /\ t_locked w2 = false.
Proof using alloc.
  intros Hl Hfresh. assert (wp (nccl_ofi_tuner_init nRanks nNodes) (fun r w1 => r.1 = ncclSuccess /\ t_locked w1 = false /\ c_type <$> r.2 = product_name ≫= decide_type /\
    match r.2 with None => t_live w1 = t_live w | Some ctx => exists l, owns ctx l /\ grown w (c_addr ctx :: l) w1 /\ t_locked w1 = false end) w) as Hw.
  { assert (forall w0, t_locked w0 = true -> t_live w0 = t_live w -> product_name ≫= decide_type = None -> wp (unlock ;;; ret (ncclSuccess, None)) (fun r w1 => r.1 = ncclSuccess /\ t_locked w1 = false /\ c_type <$> r.2 = product_name ≫= decide_type /\
    match r.2 with None => t_live w1 = t_live w | Some ctx => exists l, owns ctx l /\ grown w (c_addr ctx :: l) w1 /\ t_locked w1 = false end) w0) as Hnone.
    { intros w0 H1 H2 H3. wp_simpl. apply unlock_wp; [done|]. wp_simpl. cbn. by rewrite H3. }
    unfold nccl_ofi_tuner_init. wp_simpl. apply lock_wp; [done|]. destruct product_name as [s|]; [|wp_simpl; by apply (Hnone (set_locked true w))]. destruct (decide_type s) as [ty|] eqn:Hd; [|wp_simpl; apply (Hnone (set_locked true w)); [done|done|cbn; by rewrite Hd]]. clear Hnone.
    wp_simpl. apply tuner_calloc_wp. rewrite alloc. wp_simpl. eapply wp_mono; [apply init_internal_wp; [intros ->; by apply decide_region|by eapply decide_known]|]. intros [rc ctx] w1 (Hrc & Ha & Hty & l & Ho & Hg). cbn [fst snd] in *. subst rc. cbn beta iota. change (negb (ncclSuccess =? ncclSuccess)) with false. wp_simpl.
    destruct Hg as [Hgl Hgn Hgr Hgx Hgk]. cbn in *. apply unlock_wp; [done|]. wp_simpl. cbn. split_and!; [done|done|by rewrite Hty, Hd|]. exists l. split; [done|]. split; [|done]. rewrite Ha. constructor; cbn.
    - rewrite Hgl. set_solver.
    - apply NoDup_cons. split; [intros Hin; specialize (Hgr _ Hin); lia|done].
    - intros b [->|Hb]%elem_of_cons; [lia|]. specialize (Hgr b Hb). lia.
    - lia.
    - done. }
  apply wp_run in Hw as ([rc ctx] & w1 & Hrun & Hrc & Hk & Hty & Hrest). cbn [fst snd] in *. subst rc. destruct ctx as [ctx|].
  - destruct Hrest as (l & Ho & Hg & _). pose proof (destroy_wp ctx l w1 Hk Ho (gn_nodup _ _ _ Hg)) as Hd. apply wp_run in Hd as (rc & w2 & Hrun2 & -> & Hlive & Hk2); [|intros a Ha; rewrite (gn_live _ _ _ Hg); apply elem_of_union; left; by apply elem_of_list_to_set].
    exists (Some ctx), w1, w2. split_and!; [done..| |done]. rewrite Hlive, (gn_live _ _ _ Hg). assert (list_to_set (c_addr ctx :: l) ## t_live w); [|set_solver]. intros a Ha%elem_of_list_to_set Hb. specialize (Hfresh a Hb). pose proof (gn_range _ _ _ Hg a Ha). lia.
  - assert (wp (nccl_ofi_tuner_destroy None) (fun rc w2 => rc = ncclSuccess /\ t_live w2 = t_live w1 /\ t_locked w2 = false) w1) as Hd.
    { unfold nccl_ofi_tuner_destroy. wp_simpl. apply lock_wp; [done|]. wp_simpl. apply unlock_wp; [done|]. by wp_simpl. }
    apply wp_run in Hd as (rc & w2 & Hrun2 & -> & Hlive & Hk2). exists None, w1, w2. split_and!; [done..|congruence|done].
Qed.

End Life.

Section Faults.
Context {E : TunerEnv} {ME : ModelEnv} {PE : PlugEnv}.

(** C40. When the context of the chosen tuner cannot be allocated, nccl_ofi_tuner_init
    never returns: it destroys the half-made context while it holds the mutex that
    destroying takes. *)
Theorem failed_tuner_init_deadlocks s ty nRanks nNodes w :
  product_name = Some s -> decide_type s = Some ty -> t_locked w = false -> calloc_ok (t_next w) = true -> calloc_ok (t_next w + 1) = false ->
  nccl_ofi_tuner_init nRanks nNodes w = None.
Proof.
  intros Hs Hd Hl H1 H2. unfold nccl_ofi_tuner_init, lock, bind, gets, assert, modify, ret. rewrite Hl. cbn [negb]. rewrite Hs, Hd. unfold calloc at 1, bind, gets, modify, ret. cbn [t_next set_locked]. rewrite H1.
  assert (forall w0, t_locked w0 = true -> forall c, nccl_ofi_tuner_destroy (Some c) w0 = None) as Hdead by (intros w0 H0 c; unfold nccl_ofi_tuner_destroy, lock, bind, gets, assert; by rewrite H0).
  unfold init_internal. destruct ty; cbn [c_type]; unfold region_init_internal, model_init_internal, calloc, bind, gets, modify, ret; cbn [t_next]; rewrite H2; change (negb (ncclInternalError =? ncclSuccess)) with true; cbv beta iota; by rewrite Hdead.
Qed.

(** ** The two versions of the region tuner *)

(** C33. Versions 2 and 3 of the region tuner agree: with a full table in which NCCL
    ignores exactly the NVLS combinations that version 2 is told are not supported,
    version 3 marks the combination that version 2 returns, and nothing else. *)
Theorem region_versions_agree r collType nBytes nvls ap t a l :
  rc_regions r !! Z.to_nat collType = Some (Some (a, l)) -> length t = 21%nat ->
  (forall g, g ∈ l -> 0 <= algorithm g < 7 /\ 0 <= protocol g < 3 /\ exists c, table_get t (algorithm g) (protocol g) = Some c /\ SFeqb c (flt (-1)) = (algorithm g =? NCCL_ALGO_NVLS_TREE) && negb nvls) ->
  region_get_coll_info_internal_v3 (Some r) collType nBytes 7 3 t =
  match find_v2 nvls (the_point nBytes r) l with None => None | Some None => Some t | Some (Some g) => table_set t (algorithm g) (protocol g) (flt 0) end /\
  region_get_coll_info_internal_v2 (Some r) collType nBytes nvls ap =
  match find_v2 nvls (the_point nBytes r) l with None => None | Some None => Some ap | Some (Some g) => Some (algorithm g, protocol g) end.
Proof.
  intros Hr Ht Hall. unfold region_get_coll_info_internal_v3, region_get_coll_info_internal_v2. rewrite Hr. split; [|done]. generalize (the_point nBytes r). intros p. clear Hr ap.
  induction l as [|g l IH]; [done|]. cbn [find_v3 find_v2]. destruct (Hall g ltac:(left)) as (Ha & Hp & c & Hc & He). destruct (Z.leb_spec 7 (algorithm g)); [lia|]. destruct (Z.leb_spec 3 (protocol g)); [lia|]. cbn [orb]. rewrite Hc, He.
  assert (find_v3 7 3 p l t = match find_v2 nvls p l with None => None | Some None => Some t | Some (Some g) => table_set t (algorithm g) (protocol g) (flt 0) end) as Hrec by (apply IH; intros g' Hg'; apply Hall; by right).
  destruct (_ && _); [done|]. destruct (is_inside_region p g) as [k|]; [|done]. by destruct (0 <=? k).
Qed.

End Faults.

(** P5: 21 nodes of 8 GPUs. *)
Definition p5_env (ndebug : bool) (junk : point) : TunerEnv := {| NDEBUG := ndebug; unwritten _ _ _ := junk |}.
Definition p5_plug : PlugEnv := {| product_name := Some "p5.48xlarge"%string; ofi_nccl_tuner_force_type := None; algo_or_proto_set := false; calloc_ok _ := true |}.
Definition p5_context : nccl_ofi_tuner_region_context_t := mk_rctx 2 NCCL_OFI_TUNER_P5_P5E 168 21 [None; None; None; None; Some (3, regions_8)].
Definition empty_tuner : tworld := mk_tworld ∅ 1 false None.

Lemma tuner_lifecycle_witness :
  exists ctx w1 w2, @nccl_ofi_tuner_init p5_plug 168 21 empty_tuner = Some ((0, ctx), w1) /\ c_type <$> ctx = Some NCCL_OFI_TUNER_TYPE_REGION /\ t_live w1 = {[1; 2; 3]} /\
    nccl_ofi_tuner_destroy ctx w1 = Some (0, w2) /\ t_live w2 = ∅.
Proof.
  destruct (@tuner_lifecycle p5_plug (fun _ => eq_refl) 168 21 empty_tuner eq_refl) as (ctx & w1 & w2 & H1 & _ & H3 & H4 & H5 & _); [intros a Ha; by apply not_elem_of_empty in Ha|].
  exists ctx, w1, w2. split; [exact H1|]. split; [exact H3|]. split; [|split; [exact H4|exact H5]].
  apply (f_equal (option_map (fun r => t_live r.2))) in H1. cbn [option_map snd] in H1. symmetry in H1. apply (inj Some) in H1. rewrite H1. vm_compute. reflexivity.
Defined.

(** The second allocation fails. *)
Definition p5_low_memory : PlugEnv := {| product_name := Some "p5.48xlarge"%string; ofi_nccl_tuner_force_type := None; algo_or_proto_set := false; calloc_ok a := a =? 1 |}.

Lemma failed_tuner_init_deadlocks_witness : @nccl_ofi_tuner_init p5_low_memory 168 21 empty_tuner = None.
Proof. exact (@failed_tuner_init_deadlocks p5_low_memory "p5.48xlarge" NCCL_OFI_TUNER_TYPE_REGION 168 21 empty_tuner eq_refl eq_refl eq_refl eq_refl eq_refl). Defined.

Lemma region_versions_agree_witness :
  @region_get_coll_info_internal_v3 (p5_env true (pt 7 7)) (Some p5_context) ncclFuncAllReduce 394400 7 3 (replicate 21 (flt 1)) = Some (<[1%nat := flt 0]> (replicate 21 (flt 1))) /\
  @region_get_coll_info_internal_v2 (p5_env true (pt 7 7)) (Some p5_context) ncclFuncAllReduce 394400 true (-1, -1) = Some (NCCL_ALGO_TREE, NCCL_PROTO_LL128).
Proof.
  destruct (@region_versions_agree (p5_env true (pt 7 7)) p5_context ncclFuncAllReduce 394400 true (-1, -1) (replicate 21 (flt 1)) 3 regions_8 eq_refl eq_refl) as [H3 H2].
  - intros g Hg. unfold regions_8 in Hg. cbv zeta in Hg. repeat (apply elem_of_cons in Hg as [->|Hg]; [split; [cbn; unfold NCCL_ALGO_TREE, NCCL_ALGO_RING, NCCL_ALGO_NVLS_TREE; lia|split; [cbn; unfold NCCL_PROTO_LL128, NCCL_PROTO_SIMPLE; lia|exists (flt 1); split; vm_compute; reflexivity]]|]). by apply not_elem_of_nil in Hg.
  - rewrite H3, H2. split; vm_compute; reflexivity.
Defined.

(** The value of the unwritten local decides between two regions. *)
Lemma unwritten_local_decides :
  let r := mk_rctx 2 NCCL_OFI_TUNER_P5_P5E 64 8 [None; None; None; None; Some (3, regions_8)] in
  @region_get_coll_info_internal_v2 (p5_env true (pt 7 7)) (Some r) ncclFuncAllReduce 2000000000 true (-1, -1) = Some (NCCL_ALGO_RING, NCCL_PROTO_LL128) /\
  @region_get_coll_info_internal_v2 (p5_env true (pt 2000000000 64)) (Some r) ncclFuncAllReduce 2000000000 true (-1, -1) = Some (NCCL_ALGO_NVLS_TREE, NCCL_PROTO_SIMPLE).
Proof. split; vm_compute; reflexivity. Qed.

(** The region test on a P5 cluster of 21 nodes: an all-reduce of 394400 bytes is in
    the first region; for one of 394496 bytes the ray runs past a vertex, which aborts
    the process with assertions, and without them puts the message outside that
    region. *)
Theorem ray_through_vertex junk :
  @region_get_coll_info_internal_v2 (p5_env false junk) (Some p5_context) ncclFuncAllReduce 394400 true (-1, -1) = Some (NCCL_ALGO_TREE, NCCL_PROTO_LL128) /\
  @region_get_coll_info_internal_v2 (p5_env false junk) (Some p5_context) ncclFuncAllReduce 394496 true (-1, -1) = None /\
  @is_inside_region (p5_env true junk) (pt 394400 168) (default (region 0 0 0 []) (head regions_8)) = Some 1 /\
  @is_inside_region (p5_env true junk) (pt 394496 168) (default (region 0 0 0 []) (head regions_8)) = Some (-1).
Proof. split_and!; vm_compute; reflexivity. Qed.

(** The vertices of every region fit its array, and every region has at least three. *)
Lemma regions_fit nRanks nNodes : Forall (fun cl => Forall (fun g => (3 <= num_vertices g <= TUNER_MAX_NUM_VERTICES)%nat /\ length (vertices g) = TUNER_MAX_NUM_VERTICES) cl.2) (p5_regions nRanks nNodes).
Proof. unfold p5_regions, TUNER_MAX_NUM_VERTICES. repeat case_match; repeat constructor; cbn; lia. Qed.

End Tuner.
